(* ===== verification/_CoqProject ===== *)
-Q . S2P
Prelude.v
State.v
Ring.v
Mem.v
CString.v
Spinlock.v
Memlayout.v
Hart.v
Sched.v
Sleeplock.v
Waiting.v
Bio.v
BufCache.v
BioProps.v
Log.v
CacheRules.v
LogHeader.v
LogSpec.v
LogRecover.v
LogProps.v
LogOps.v
Txn.v
Kalloc.v
Vm.v
PageTable.v
AddrSpace.v
UserMem.v
CopyUser.v
FreeWalk.v
VmProps.v
Uart.v
Printf.v
Copy.v
Console.v
ConsoleProps.v
Pipe.v
PipeProps.v
Fs.v
FsBlocks.v
FsInode.v
FsData.v
FsGrow.v
FsTrunc.v
Dir.v
Path.v
File.v
Proc.v
ProcProps.v
ProcMem.v
Fork.v
Wait.v
FileWrite.v
Exec.v
Syscall.v
Sysfile.v
Virtio.v
VirtioProps.v
Trap.v
TrapProps.v
Typing.v
KernelTyped.v
FsTyped.v
TrapTyped.v
Boot.v
User.v
Ulib.v
Uprintf.v
Grep.v
Utils.v
Umalloc.v
Sh.v
ShProps.v
ShPrint.v
Mkfs.v
MkfsProps.v
MkfsImage.v
