(* ===== verification/Prelude.v ===== *)
(** * xv6-la: a verification of the kernel, its user programs and mkfs

    The repository holds a LoongArch processor in Verilog ([src/lacpu]) and the
    operating system meant to run on it ([src/lasoft/xv6-la]): the xv6 kernel
    ([kernel/]), its user programs ([user/]) and the program that builds the disk
    image ([mkfs/]), all in C.  This library models the C code and proves what
    makes each part correct.  File names below are relative to
    [src/lasoft/xv6-la].

    ** How the code is modelled

    Kernel code is a computation [M S A] over a state [S] (this file): it returns a
    value and a new state ([Ret]), panics ([Panic]), gives up the CPU ([Sleep],
    with the state it leaves and the computation to resume when it is woken), or
    has used up the bound of a loop ([NoFuel]).  The kernel's global variables are
    one record, [kernel] (State.v), with the structures of the headers as records;
    a pointer to an element of a table is its index.  Physical memory is a map from
    addresses to bytes (Mem.v): free pages, page tables, trapframes and user
    memory live there.  C integers are [Z], cut to their width by [wrap] and
    [signed] where the code computes.  An access to an array of the kernel is preceded
    by [in_bounds] (or [in_prefix], for a range): outside the array, where C leaves the
    behaviour undefined, the program stops with the message [OOB].  The arrays of the disk
    driver, whose indices the device chooses, are read without this check.

    The kernel runs one thread at a time between two sleeps; what other threads do
    meanwhile is the state the [Sleep] outcome is resumed with, and theorems about
    code that sleeps hold for every such state.  Interleaving at the level of the
    atomic instruction is modelled where it is the subject: the spinlock (module
    [Smp] of Spinlock.v).

    User programs are trees of system calls (User.v) run against any operating
    system that has the behaviour they rely on.

    ** Parts, files and what is proved

    - Memory and strings: Mem.v; CString.v (kernel/string.c): memmove equals a copy
      through a buffer for every overlap.
    - Locks: Spinlock.v (kernel/spinlock.c): mutual exclusion on any number of CPUs;
      the set of held locks used by the kernel model refines [noff], [intena] and the
      interrupt bit.  Sched.v (sleep, wakeup, yield, sched of kernel/proc.c);
      Sleeplock.v (kernel/sleeplock.c); Waiting.v: the rule for condition loops,
      and acquiresleep: it returns only after it has found the lock free.
    - Hart.v: the register accessors of kernel/riscv.h, kernel/plic.c,
      kernel/start.c; Memlayout.v: the layout and paging macros.
    - Disk: Virtio.v, VirtioProps.v (kernel/virtio_disk.c): the descriptor rings
      implement the block transfer [disk_rw] that the buffer cache is built on.
    - Buffer cache: Bio.v (kernel/bio.c); BufCache.v, BioProps.v: the LRU ring, one
      buffer per block, current contents; CacheRules.v: the rules its clients use.
    - Log: Log.v (kernel/log.c); LogHeader.v, LogSpec.v, LogRecover.v, LogProps.v,
      LogOps.v: a crash at any disk write followed by recovery leaves all or nothing
      of a transaction; reservation and absorption.  Txn.v: the rules for code inside
      a transaction.
    - File system: Fs.v (kernel/fs.c); FsBlocks.v (bitmap), FsInode.v (inodes),
      FsData.v (contents of files), FsGrow.v (files that grow), FsTrunc.v (blocks given
      back), Dir.v (directories), Path.v (path names, against a resolution on the contents
      of the disk); File.v (kernel/file.c), FileWrite.v: a write from the memory of a
      process to the disk, and what a crash during it leaves.
    - Memory management: Kalloc.v (kernel/kalloc.c); Vm.v (kernel/vm.c);
      PageTable.v, AddrSpace.v, UserMem.v, CopyUser.v, FreeWalk.v, VmProps.v: the
      page-table tree as a finite map, its operations, the pages it owns.
    - Devices: Uart.v, Printf.v, Console.v, ConsoleProps.v, Pipe.v, PipeProps.v over
      Ring.v (free-running rings are queues).
    - Processes: Proc.v, ProcProps.v (kernel/proc.c); ProcMem.v (the pages of a
      process), Fork.v and Wait.v: the life of a child, from its copy of the parent to
      the return of every page; Exec.v (kernel/exec.c),
      Syscall.v, Sysfile.v (kernel/syscall.c, sysproc.c, sysfile.c), Trap.v,
      TrapProps.v (kernel/trap.c), Boot.v (kernel/main.c): a system call end to end.
    - Types: Typing.v (well-formed kernel states, the judgement and its automation),
      KernelTyped.v, FsTyped.v, TrapTyped.v: every function a trap can reach stays within
      the arrays it accesses, keeps the tables, arrays and pointers of the kernel well
      formed and gives back its locks.
    - User programs: User.v, Ulib.v, Uprintf.v, Umalloc.v, Grep.v, Utils.v, Sh.v,
      ShProps.v, ShPrint.v: the allocator's invariant, the matcher against its
      meaning, the shell's parser ends and reads back printed commands.
    - Image builder: Mkfs.v (mkfs/mkfs.c), MkfsProps.v, MkfsImage.v: the image is a
      file system that holds the files.

    Interfaces: the class [Layout] (Memlayout.v) holds the addresses the linker
    chooses; [cst] (CacheRules.v) is what the cache promises to the log, [tx] (Txn.v)
    what the log promises to fs.c, [as_inv] (AddrSpace.v) what page tables promise to
    the rest of the kernel; the user programs state what they need of the system.

    ** Bounds

    Loops whose length the data decides are recursive on it, or carry as fuel the
    number of rounds they can make; a theorem that a routine returns shows the fuel
    to be enough.  [WAKEUPS] (Sched.v) bounds how often one loop may go to sleep: it
    is consumed by sleeping only, and theorems hold for any value of it.  The shell's
    parser takes as depth four times the length of the line (ShProps.v shows it is
    enough); the scheduler and init, which never return, run a given number of rounds.

    ** Parameters

    The switch between processes (swtch.S), the values the device registers of the
    disk and the interrupt controller return, what the disk does with a request, sbrk
    for the user allocator, and the operating system for user programs.  Theorems
    that need something of them state it as a hypothesis, with an instance.

    ** Not modelled

    Assembly (entry.S, kernelvec.S, swtch.S, trampoline.S, initcode.S, the stubs made
    by usys.pl); kernel/ramdisk.c, which is not built and refers to fields struct buf
    no longer has; kernel/csr.h, register names for entry.S, and la32r.h, which nothing
    includes; the test programs usertests.c, grind.c, forktest.c, stressfs.c; the Verilog.  The TLB and the
    caches: every translation reads the tables in memory.  [uint64] is modelled at 64
    bits, although types.h makes it an [unsigned long]. *)

From stdpp Require Export base list gmap strings numbers relations.
From Stdlib Require Export ZArith Lia.
From Stdlib Require Ascii String.

#[global] Open Scope Z_scope.

(** ** Machine integers

    C integers are values of [Z]; an unsigned operation on [w] bits is the
    operation of [Z] followed by [wrap w].  [uint64] is the source's name for
    [unsigned long]; it is modelled at the 64 bits its name says. *)

Definition wrap (w x : Z) : Z := x mod 2 ^ w.

(** Two's complement reading of the low [w] bits: the value of an [int],
    [short] or [char] object holding [x]. *)
Definition signed (w x : Z) : Z :=
  let y := wrap w x in if y <? 2 ^ (w - 1) then y else y - 2 ^ w.

Abbreviation u8 := (wrap 8).
Abbreviation u16 := (wrap 16).
Abbreviation u32 := (wrap 32).
Abbreviation u64 := (wrap 64).
Abbreviation i8 := (signed 8).
Abbreviation i16 := (signed 16).
Abbreviation i32 := (signed 32).

(** Little-endian encoding of an [n]-byte integer, and its inverse. *)
Fixpoint le_enc (n : nat) (v : Z) : list Z :=
  match n with
  | O => []
  | S n => v mod 256 :: le_enc n (v / 256)
  end.

Fixpoint le_dec (l : list Z) : Z :=
  match l with
  | [] => 0
  | b :: l => b mod 256 + 256 * le_dec l
  end.

Definition is_byte (b : Z) : Prop := 0 <= b < 256.

(** Reading and writing [n] bytes at offset [off] of a byte array. *)
Definition slice (off n : Z) (l : list Z) : list Z :=
  take (Z.to_nat n) (drop (Z.to_nat off) l).

Definition splice (off : Z) (new l : list Z) : list Z :=
  take (Z.to_nat off) l ++ new ++ drop (Z.to_nat off + length new) l.

(** The bytes of a string literal. *)
Definition bytes (s : string) : list Z := map (fun c => Z.of_N (Ascii.N_of_ascii c)) (String.list_ascii_of_string s).

(** ** Wait channels

    [sleep] and [wakeup] identify a channel by an address; every address the
    kernel sleeps on is one constructor. *)
Inductive chan : Type :=
| ChLog                       (* &log *)
| ChBufLock (i : nat)         (* &bcache.buf[i].lock *)
| ChInodeLock (i : nat)       (* &itable.inode[i].lock *)
| ChBuf (i : nat)             (* &bcache.buf[i] *)
| ChDiskFree                  (* &disk.free[0] *)
| ChPipeRead (pi : Z)         (* &pi->nread *)
| ChPipeWrite (pi : Z)        (* &pi->nwrite *)
| ChCons                      (* &cons.r *)
| ChUart                      (* &uart_tx_r *)
| ChTicks                     (* &ticks *)
| ChProc (i : nat)            (* &proc[i] *)
| ChNone.                     (* no channel: a yield or an exit *)

#[export] Instance chan_eq_dec : EqDecision chan.
Proof. solve_decision. Defined.

(** ** Outcomes of kernel code

    A kernel function is a state transformer that returns, panics, goes to
    sleep on a channel, or has run out of the fuel of one of its loops.  A
    sleeping thread hands over the state it leaves behind and the rest of its
    computation, which the scheduler resumes in whatever state it finds. *)
Inductive outcome (St A : Type) : Type :=
| Ret (a : A) (s : St)
| Panic (msg : string)
| Sleep (c : chan) (s : St) (k : St -> outcome St A)
| NoFuel.

Arguments Ret {St A} a s.
Arguments Panic {St A} msg.
Arguments Sleep {St A} c s k.
Arguments NoFuel {St A}.

Definition M (St A : Type) : Type := St -> outcome St A.

Fixpoint obind {St A B} (o : outcome St A) (f : A -> M St B) : outcome St B :=
  match o with
  | Ret a s => f a s
  | Panic msg => Panic msg
  | Sleep c s k => Sleep c s (fun s' => obind (k s') f)
  | NoFuel => NoFuel
  end.

Definition bind {St A B} (m : M St A) (f : A -> M St B) : M St B :=
  fun s => obind (m s) f.

Definition ret {St A} (a : A) : M St A := fun s => Ret a s.
Definition panic {St A} (msg : string) : M St A := fun _ => Panic msg.
Definition gets {St A} (f : St -> A) : M St A := fun s => Ret (f s) s.
Definition modify {St} (f : St -> St) : M St unit := fun s => Ret tt (f s).
Definition nofuel {St A} : M St A := fun _ => NoFuel.

(** An access to element [i] of an array of [n] elements, and one to its first [m]
    elements.  Outside the array C leaves the behaviour undefined: here the program
    stops, with a message of no [panic] of the source. *)
Definition OOB : string := "index out of bounds".
Definition in_bounds {St} (i n : Z) : M St unit := if (0 <=? i) && (i <? n) then ret tt else panic OOB.
Definition in_prefix {St} (m n : Z) : M St unit := if m <=? n then ret tt else panic OOB.
Definition alen {A} (l : list A) : Z := Z.of_nat (length l).

(** [sleep] without the lock protocol: wait on [c]. *)
Definition sleep_on {St} (c : chan) : M St unit := fun s => Sleep c s (fun s' => Ret tt s').

#[export] Instance M_bind {St} : MBind (M St) := fun A B f m => bind m f.
#[export] Instance M_ret {St} : MRet (M St) := fun A a => ret a.

(** ** Lemmas on machine integers *)

Lemma wrap_range w x : 0 <= w -> 0 <= wrap w x < 2 ^ w.
Proof. intros. apply Z.mod_pos_bound. lia. Qed.

Lemma wrap_small w x : 0 <= x < 2 ^ w -> wrap w x = x.
Proof. apply Z.mod_small. Qed.

Lemma wrap_wrap w x : wrap w (wrap w x) = wrap w x.
Proof. unfold wrap. apply Zmod_mod. Qed.

Lemma wrap_add_l w x y : wrap w (wrap w x + y) = wrap w (x + y).
Proof. apply Zplus_mod_idemp_l. Qed.

Lemma wrap_add_r w x y : wrap w (x + wrap w y) = wrap w (x + y).
Proof. apply Zplus_mod_idemp_r. Qed.

Lemma wrap_sub_l w x y : wrap w (wrap w x - y) = wrap w (x - y).
Proof. apply Zminus_mod_idemp_l. Qed.

Lemma wrap_sub_r w x y : wrap w (x - wrap w y) = wrap w (x - y).
Proof. apply Zminus_mod_idemp_r. Qed.

(** Reducing a 2{^w} counter by a divisor of 2{^w} (a power-of-two ring size). *)
Lemma wrap_mod_divide w n x : (n | 2 ^ w) -> wrap w x mod n = x mod n.
Proof. apply Z.mod_mod_divide. Qed.

Lemma signed_range w x : 0 < w -> - 2 ^ (w - 1) <= signed w x < 2 ^ (w - 1).
Proof.
  intros Hw. unfold signed. pose proof (wrap_range w x ltac:(lia)).
  assert (2 ^ w = 2 * 2 ^ (w - 1)) by (rewrite <- Z.pow_succ_r by lia; f_equal; lia).
  destruct (Z.ltb_spec (wrap w x) (2 ^ (w - 1))); lia.
Qed.

Lemma signed_small w x : 0 < w -> - 2 ^ (w - 1) <= x < 2 ^ (w - 1) -> signed w x = x.
Proof.
  intros Hw Hx. unfold signed, wrap.
  assert (2 ^ w = 2 * 2 ^ (w - 1)) by (rewrite <- Z.pow_succ_r by lia; f_equal; lia).
  destruct (Z.le_gt_cases 0 x).
  - rewrite Z.mod_small by lia. destruct (Z.ltb_spec x (2 ^ (w - 1))); lia.
  - rewrite <- (Z.mod_add x 1) by lia. rewrite Z.mod_small by lia.
    destruct (Z.ltb_spec (x + 1 * 2 ^ w) (2 ^ (w - 1))); lia.
Qed.

Lemma wrap_signed w x : 0 < w -> wrap w (signed w x) = wrap w x.
Proof.
  intros Hw. unfold signed. destruct (_ <? _); [apply wrap_wrap |].
  unfold wrap. rewrite Zminus_mod, Z_mod_same_full, Z.sub_0_r, !Zmod_mod. reflexivity.
Qed.

(** ** Little-endian encodings *)

Lemma length_le_enc n v : length (le_enc n v) = n.
Proof. revert v; induction n; intros; simpl; auto. Qed.

Lemma le_enc_byte n v : Forall is_byte (le_enc n v).
Proof.
  revert v; induction n; intros; simpl; constructor; auto.
  apply Z.mod_pos_bound. lia.
Qed.

Lemma pow256_S n : 256 ^ Z.of_nat (S n) = 256 * 256 ^ Z.of_nat n.
Proof. rewrite Nat2Z.inj_succ, Z.pow_succ_r by lia. reflexivity. Qed.

Lemma le_dec_enc n v : le_dec (le_enc n v) = v mod 256 ^ Z.of_nat n.
Proof.
  revert v; induction n; intros v; [simpl; rewrite Z.mod_1_r; reflexivity |].
  cbn [le_enc le_dec]. rewrite IHn, pow256_S, Zmod_mod.
  rewrite Z.rem_mul_r by lia. reflexivity.
Qed.

Lemma le_dec_range l : 0 <= le_dec l < 256 ^ Z.of_nat (length l).
Proof.
  induction l as [|b l IH]; [simpl; lia |].
  cbn [le_dec length]. rewrite pow256_S. pose proof (Z.mod_pos_bound b 256). lia.
Qed.

Lemma le_enc_dec l : Forall is_byte l -> le_enc (length l) (le_dec l) = l.
Proof.
  induction 1 as [|b l Hb Hl IH]; [reflexivity |].
  cbn [le_dec length le_enc]. unfold is_byte in Hb. f_equal.
  - rewrite Zplus_mod, Zmult_mod, Z_mod_same_full. simpl. rewrite Z.add_0_r, !Zmod_mod.
    apply Z.mod_small. lia.
  - rewrite (Z.mod_small b) by lia.
    rewrite Z.mul_comm, Z.div_add by lia. rewrite Z.div_small by lia. exact IH.
Qed.

(** ** Slices of byte arrays *)

Lemma length_slice off n l :
  0 <= off -> 0 <= n -> off + n <= Z.of_nat (length l) -> length (slice off n l) = Z.to_nat n.
Proof. intros. unfold slice. rewrite length_take, length_drop. lia. Qed.

Lemma length_splice off new l :
  0 <= off -> off + Z.of_nat (length new) <= Z.of_nat (length l) ->
  length (splice off new l) = length l.
Proof. intros. unfold splice. rewrite !length_app, length_take, length_drop. lia. Qed.

Lemma lookup_slice off n l (i : nat) :
  0 <= off -> Z.of_nat i < n -> slice off n l !! i = l !! (Z.to_nat off + i)%nat.
Proof. intros. unfold slice. rewrite lookup_take_lt by lia. apply lookup_drop. Qed.

(** The byte of [splice off new l] at index [i]. *)
Lemma lookup_splice off new l (i : nat) :
  0 <= off -> off + Z.of_nat (length new) <= Z.of_nat (length l) ->
  splice off new l !! i =
    if decide (off <= Z.of_nat i < off + Z.of_nat (length new))
    then new !! (i - Z.to_nat off)%nat else l !! i.
Proof.
  intros H0 H1. unfold splice.
  assert (Ht : length (take (Z.to_nat off) l) = Z.to_nat off) by (rewrite length_take; lia).
  destruct (decide (i < Z.to_nat off)%nat).
  - rewrite lookup_app_l by lia. rewrite lookup_take_lt by lia. case_decide; [lia | done].
  - rewrite lookup_app_r by lia. rewrite Ht. case_decide.
    + rewrite lookup_app_l by lia. done.
    + rewrite lookup_app_r by lia. rewrite lookup_drop. f_equal. lia.
Qed.

Lemma slice_splice_eq off new l :
  0 <= off -> off + Z.of_nat (length new) <= Z.of_nat (length l) ->
  slice off (Z.of_nat (length new)) (splice off new l) = new.
Proof.
  intros. unfold slice, splice. rewrite Nat2Z.id.
  rewrite drop_app_ge by (rewrite length_take; lia).
  rewrite length_take, Nat.min_l, Nat.sub_diag by lia. simpl. apply take_app_length.
Qed.

Lemma slice_splice_ne off n off' new l :
  0 <= off -> 0 <= off' -> off' + Z.of_nat (length new) <= Z.of_nat (length l) ->
  off + n <= off' \/ off' + Z.of_nat (length new) <= off ->
  slice off n (splice off' new l) = slice off n l.
Proof.
  intros ? ? ? Hd. apply list_eq. intros i.
  destruct (decide (Z.of_nat i < n)).
  - rewrite !lookup_slice by lia. rewrite lookup_splice by lia. case_decide; [lia | done].
  - unfold slice. rewrite !lookup_take_ge by lia. done.
Qed.

(** ** Running a sequence *)

Section bind_rules.
Context {St : Type}.

Lemma bind_Ret {A B} (m : M St A) (f : A -> M St B) s a s' :
  m s = Ret a s' -> (m ≫= f) s = f a s'.
Proof. unfold mbind, M_bind, bind. intros ->. reflexivity. Qed.

Lemma bind_ext {A B} (m m' : M St A) (f : A -> M St B) s s' : m s = m' s' -> (m ≫= f) s = (m' ≫= f) s'.
Proof. unfold mbind, M_bind, bind. by intros ->. Qed.

(** An access inside the array goes on. *)
Lemma in_bounds_run {B} i n (f : unit -> M St B) s : 0 <= i < n -> (in_bounds i n ≫= f) s = f tt s.
Proof.
  intros [H1 H2]. unfold mbind, M_bind, bind, in_bounds. apply Z.leb_le in H1. apply Z.ltb_lt in H2. by rewrite H1, H2.
Qed.

Lemma in_prefix_run {B} m n (f : unit -> M St B) s : m <= n -> (in_prefix m n ≫= f) s = f tt s.
Proof. intros H%Z.leb_le. unfold mbind, M_bind, bind, in_prefix. by rewrite H. Qed.
End bind_rules.

(** Computing through the monad's combinators. *)
Ltac mred :=
  cbv [mbind M_bind bind mret M_ret ret gets modify panic nofuel]; cbn [obind].
Ltac mred_in H :=
  cbv [mbind M_bind bind mret M_ret ret gets modify panic nofuel] in H; cbn [obind] in H.

#[global] Arguments wrap : simpl never.
#[global] Arguments signed : simpl never.
