(* ===== verification/State.v ===== *)
(** * Kernel data model

    The structures of the kernel's headers (buf.h, file.h, fs.h, proc.h,
    sleeplock.h, log.c, pipe.c, console.c, uart.c) as records, the spinlocks by name, and the kernel's
    global variables as one record.  [set_f v s] is the assignment [s.f = v]. *)

From S2P Require Import Prelude.

(** ** Constants of param.h and fs.h *)
Definition NPROC : Z := 64.
Definition NCPU : Z := 8.
Definition NOFILE : Z := 16.
Definition NFILE : Z := 100.
Definition NINODE : Z := 50.
Definition NDEV : Z := 10.
Definition ROOTDEV : Z := 1.
Definition MAXARG : Z := 32.
Definition MAXOPBLOCKS : Z := 10.
Definition LOGSIZE : Z := MAXOPBLOCKS * 3.
Definition NBUF : Z := MAXOPBLOCKS * 3.
Definition FSSIZE : Z := 2000.
Definition MAXPATH : Z := 128.
Definition ROOTINO : Z := 1.
Definition BSIZE : Z := 1024.
Definition FSMAGIC : Z := 0x10203040.
Definition NDIRECT : Z := 12.
Definition NINDIRECT : Z := BSIZE / 4.
Definition MAXFILE : Z := NDIRECT + NINDIRECT.
Definition IPB : Z := BSIZE / 64.
Definition BPB : Z := BSIZE * 8.
Definition DIRSIZ : Z := 14.
Definition PIPESIZE : Z := 512.
Definition INPUT_BUF_SIZE : Z := 128.
Definition UART_TX_BUF_SIZE : Z := 32.
Definition CONSOLE : Z := 1.
Definition NUM : Z := 8.   (* virtio descriptors *)

(** What the address of a virtio descriptor points to. *)
Inductive daddr : Type :=
| ANull               (* 0 *)
| AOps (i : nat)      (* &disk.ops[i] *)
| AData (b : nat)     (* bcache.buf[b].data *)
| AStatus (i : nat).  (* &disk.info[i].status *)

(** ** Spinlocks, one per [struct spinlock] object of the kernel *)
Inductive lockid : Type :=
| LkKmem | LkBcache | LkLog | LkItable | LkFtable | LkPid | LkWait | LkTicks
| LkCons | LkUart | LkPr | LkVdisk
| LkProc (i : nat) | LkPipe (pi : Z) | LkBufSleep (i : nat) | LkInodeSleep (i : nat).

#[export] Instance lockid_eq_dec : EqDecision lockid.
Proof. solve_decision. Defined.

Definition lockid_code (l : lockid) : nat * Z :=
  match l with
  | LkKmem => (0%nat, 0) | LkBcache => (0%nat, 1) | LkLog => (0%nat, 2)
  | LkItable => (0%nat, 3) | LkFtable => (0%nat, 4) | LkPid => (0%nat, 5)
  | LkWait => (0%nat, 6) | LkTicks => (0%nat, 7) | LkCons => (0%nat, 8)
  | LkUart => (0%nat, 9) | LkPr => (0%nat, 10) | LkVdisk => (0%nat, 11)
  | LkProc i => (1%nat, Z.of_nat i) | LkPipe pi => (2%nat, pi)
  | LkBufSleep i => (3%nat, Z.of_nat i) | LkInodeSleep i => (4%nat, Z.of_nat i)
  end.

#[export] Instance lockid_code_inj : Inj (=) (=) lockid_code.
Proof. intros [] []; simpl; intros H; simplify_eq; reflexivity. Qed.

#[export] Instance lockid_countable : Countable lockid.
Proof. exact (inj_countable lockid_code (fun p =>
  match p with
  | (0%nat, 0) => Some LkKmem | (0%nat, 1) => Some LkBcache | (0%nat, 2) => Some LkLog
  | (0%nat, 3) => Some LkItable | (0%nat, 4) => Some LkFtable | (0%nat, 5) => Some LkPid
  | (0%nat, 6) => Some LkWait | (0%nat, 7) => Some LkTicks | (0%nat, 8) => Some LkCons
  | (0%nat, 9) => Some LkUart | (0%nat, 10) => Some LkPr | (0%nat, 11) => Some LkVdisk
  | (1%nat, i) => Some (LkProc (Z.to_nat i)) | (2%nat, pi) => Some (LkPipe pi)
  | (3%nat, i) => Some (LkBufSleep (Z.to_nat i)) | (4%nat, i) => Some (LkInodeSleep (Z.to_nat i))
  | _ => None end) ltac:(intros []; simpl; rewrite ?Nat2Z.id; reflexivity)). Defined.

(** [enum procstate] of proc.h *)
Inductive procstate : Type := UNUSED | USED | SLEEPING | RUNNABLE | RUNNING | ZOMBIE.

#[export] Instance procstate_eq_dec : EqDecision procstate.
Proof. solve_decision. Defined.

(** The enumeration in [struct file] *)
Inductive filetype : Type := FD_NONE | FD_PIPE | FD_INODE | FD_DEVICE.

#[export] Instance filetype_eq_dec : EqDecision filetype.
Proof. solve_decision. Defined.

#[local] Set Primitive Projections.

(** [struct sleeplock]; its inner spinlock is the lock [LkBufSleep]/[LkInodeSleep] *)
Record sleeplock : Type := mkSleeplock {
  sl_locked : bool;
  sl_pid : Z  (* process holding lock *)
}.

Definition set_sl_locked (v : bool) (s : sleeplock) : sleeplock :=
  mkSleeplock v (sl_pid s).
Definition set_sl_pid (v : Z) (s : sleeplock) : sleeplock :=
  mkSleeplock (sl_locked s) v.

(** [struct buf] of buf.h; a buffer pointer is its index, [NBUF] is [&bcache.head] *)
Record buf : Type := mkBuf {
  b_valid : bool;  (* has data been read from disk? *)
  b_disk : bool;  (* does disk own buf? *)
  b_dev : Z;
  b_blockno : Z;
  b_lock : sleeplock;
  b_refcnt : Z;
  b_prev : nat;  (* LRU cache list *)
  b_next : nat;
  b_data : list Z  (* BSIZE bytes *)
}.

Definition set_b_valid (v : bool) (s : buf) : buf :=
  mkBuf v (b_disk s) (b_dev s) (b_blockno s) (b_lock s) (b_refcnt s) (b_prev s) (b_next s) (b_data s).
Definition set_b_disk (v : bool) (s : buf) : buf :=
  mkBuf (b_valid s) v (b_dev s) (b_blockno s) (b_lock s) (b_refcnt s) (b_prev s) (b_next s) (b_data s).
Definition set_b_dev (v : Z) (s : buf) : buf :=
  mkBuf (b_valid s) (b_disk s) v (b_blockno s) (b_lock s) (b_refcnt s) (b_prev s) (b_next s) (b_data s).
Definition set_b_blockno (v : Z) (s : buf) : buf :=
  mkBuf (b_valid s) (b_disk s) (b_dev s) v (b_lock s) (b_refcnt s) (b_prev s) (b_next s) (b_data s).
Definition set_b_lock (v : sleeplock) (s : buf) : buf :=
  mkBuf (b_valid s) (b_disk s) (b_dev s) (b_blockno s) v (b_refcnt s) (b_prev s) (b_next s) (b_data s).
Definition set_b_refcnt (v : Z) (s : buf) : buf :=
  mkBuf (b_valid s) (b_disk s) (b_dev s) (b_blockno s) (b_lock s) v (b_prev s) (b_next s) (b_data s).
Definition set_b_prev (v : nat) (s : buf) : buf :=
  mkBuf (b_valid s) (b_disk s) (b_dev s) (b_blockno s) (b_lock s) (b_refcnt s) v (b_next s) (b_data s).
Definition set_b_next (v : nat) (s : buf) : buf :=
  mkBuf (b_valid s) (b_disk s) (b_dev s) (b_blockno s) (b_lock s) (b_refcnt s) (b_prev s) v (b_data s).
Definition set_b_data (v : list Z) (s : buf) : buf :=
  mkBuf (b_valid s) (b_disk s) (b_dev s) (b_blockno s) (b_lock s) (b_refcnt s) (b_prev s) (b_next s) v.

(** [struct logheader] of log.c *)
Record logheader : Type := mkLogheader {
  lh_n : Z;
  lh_block : list Z  (* LOGSIZE entries *)
}.

Definition set_lh_n (v : Z) (s : logheader) : logheader :=
  mkLogheader v (lh_block s).
Definition set_lh_block (v : list Z) (s : logheader) : logheader :=
  mkLogheader (lh_n s) v.

(** [struct log] of log.c *)
Record log : Type := mkLog {
  log_start : Z;
  log_size : Z;
  log_outstanding : Z;  (* how many FS sys calls are executing *)
  log_committing : bool;  (* in commit(), please wait *)
  log_dev : Z;
  log_lh : logheader
}.

Definition set_log_start (v : Z) (s : log) : log :=
  mkLog v (log_size s) (log_outstanding s) (log_committing s) (log_dev s) (log_lh s).
Definition set_log_size (v : Z) (s : log) : log :=
  mkLog (log_start s) v (log_outstanding s) (log_committing s) (log_dev s) (log_lh s).
Definition set_log_outstanding (v : Z) (s : log) : log :=
  mkLog (log_start s) (log_size s) v (log_committing s) (log_dev s) (log_lh s).
Definition set_log_committing (v : bool) (s : log) : log :=
  mkLog (log_start s) (log_size s) (log_outstanding s) v (log_dev s) (log_lh s).
Definition set_log_dev (v : Z) (s : log) : log :=
  mkLog (log_start s) (log_size s) (log_outstanding s) (log_committing s) v (log_lh s).
Definition set_log_lh (v : logheader) (s : log) : log :=
  mkLog (log_start s) (log_size s) (log_outstanding s) (log_committing s) (log_dev s) v.

(** [struct superblock] of fs.h *)
Record superblock : Type := mkSuperblock {
  sb_magic : Z;
  sb_size : Z;
  sb_nblocks : Z;
  sb_ninodes : Z;
  sb_nlog : Z;
  sb_logstart : Z;
  sb_inodestart : Z;
  sb_bmapstart : Z
}.

Definition set_sb_magic (v : Z) (s : superblock) : superblock :=
  mkSuperblock v (sb_size s) (sb_nblocks s) (sb_ninodes s) (sb_nlog s) (sb_logstart s) (sb_inodestart s) (sb_bmapstart s).
Definition set_sb_size (v : Z) (s : superblock) : superblock :=
  mkSuperblock (sb_magic s) v (sb_nblocks s) (sb_ninodes s) (sb_nlog s) (sb_logstart s) (sb_inodestart s) (sb_bmapstart s).
Definition set_sb_nblocks (v : Z) (s : superblock) : superblock :=
  mkSuperblock (sb_magic s) (sb_size s) v (sb_ninodes s) (sb_nlog s) (sb_logstart s) (sb_inodestart s) (sb_bmapstart s).
Definition set_sb_ninodes (v : Z) (s : superblock) : superblock :=
  mkSuperblock (sb_magic s) (sb_size s) (sb_nblocks s) v (sb_nlog s) (sb_logstart s) (sb_inodestart s) (sb_bmapstart s).
Definition set_sb_nlog (v : Z) (s : superblock) : superblock :=
  mkSuperblock (sb_magic s) (sb_size s) (sb_nblocks s) (sb_ninodes s) v (sb_logstart s) (sb_inodestart s) (sb_bmapstart s).
Definition set_sb_logstart (v : Z) (s : superblock) : superblock :=
  mkSuperblock (sb_magic s) (sb_size s) (sb_nblocks s) (sb_ninodes s) (sb_nlog s) v (sb_inodestart s) (sb_bmapstart s).
Definition set_sb_inodestart (v : Z) (s : superblock) : superblock :=
  mkSuperblock (sb_magic s) (sb_size s) (sb_nblocks s) (sb_ninodes s) (sb_nlog s) (sb_logstart s) v (sb_bmapstart s).
Definition set_sb_bmapstart (v : Z) (s : superblock) : superblock :=
  mkSuperblock (sb_magic s) (sb_size s) (sb_nblocks s) (sb_ninodes s) (sb_nlog s) (sb_logstart s) (sb_inodestart s) v.

(** [struct inode] of file.h *)
Record inode : Type := mkInode {
  i_dev : Z;
  i_inum : Z;
  i_ref : Z;  (* reference count *)
  i_lock : sleeplock;
  i_valid : bool;  (* inode has been read from disk? *)
  i_type : Z;
  i_major : Z;
  i_minor : Z;
  i_nlink : Z;
  i_size : Z;
  i_addrs : list Z  (* NDIRECT+1 entries *)
}.

Definition set_i_dev (v : Z) (s : inode) : inode :=
  mkInode v (i_inum s) (i_ref s) (i_lock s) (i_valid s) (i_type s) (i_major s) (i_minor s) (i_nlink s) (i_size s) (i_addrs s).
Definition set_i_inum (v : Z) (s : inode) : inode :=
  mkInode (i_dev s) v (i_ref s) (i_lock s) (i_valid s) (i_type s) (i_major s) (i_minor s) (i_nlink s) (i_size s) (i_addrs s).
Definition set_i_ref (v : Z) (s : inode) : inode :=
  mkInode (i_dev s) (i_inum s) v (i_lock s) (i_valid s) (i_type s) (i_major s) (i_minor s) (i_nlink s) (i_size s) (i_addrs s).
Definition set_i_lock (v : sleeplock) (s : inode) : inode :=
  mkInode (i_dev s) (i_inum s) (i_ref s) v (i_valid s) (i_type s) (i_major s) (i_minor s) (i_nlink s) (i_size s) (i_addrs s).
Definition set_i_valid (v : bool) (s : inode) : inode :=
  mkInode (i_dev s) (i_inum s) (i_ref s) (i_lock s) v (i_type s) (i_major s) (i_minor s) (i_nlink s) (i_size s) (i_addrs s).
Definition set_i_type (v : Z) (s : inode) : inode :=
  mkInode (i_dev s) (i_inum s) (i_ref s) (i_lock s) (i_valid s) v (i_major s) (i_minor s) (i_nlink s) (i_size s) (i_addrs s).
Definition set_i_major (v : Z) (s : inode) : inode :=
  mkInode (i_dev s) (i_inum s) (i_ref s) (i_lock s) (i_valid s) (i_type s) v (i_minor s) (i_nlink s) (i_size s) (i_addrs s).
Definition set_i_minor (v : Z) (s : inode) : inode :=
  mkInode (i_dev s) (i_inum s) (i_ref s) (i_lock s) (i_valid s) (i_type s) (i_major s) v (i_nlink s) (i_size s) (i_addrs s).
Definition set_i_nlink (v : Z) (s : inode) : inode :=
  mkInode (i_dev s) (i_inum s) (i_ref s) (i_lock s) (i_valid s) (i_type s) (i_major s) (i_minor s) v (i_size s) (i_addrs s).
Definition set_i_size (v : Z) (s : inode) : inode :=
  mkInode (i_dev s) (i_inum s) (i_ref s) (i_lock s) (i_valid s) (i_type s) (i_major s) (i_minor s) (i_nlink s) v (i_addrs s).
Definition set_i_addrs (v : list Z) (s : inode) : inode :=
  mkInode (i_dev s) (i_inum s) (i_ref s) (i_lock s) (i_valid s) (i_type s) (i_major s) (i_minor s) (i_nlink s) (i_size s) v.

(** The disk behind [virtio_disk_rw]: its blocks, and the history of the writes it has completed *)
Record diskst : Type := mkDisk {
  d_blocks : Z -> list Z;  (* block number to contents *)
  d_writes : list (Z * list Z)  (* completed writes, latest first *)
}.

Definition set_d_blocks (v : Z -> list Z) (s : diskst) : diskst :=
  mkDisk v (d_writes s).
Definition set_d_writes (v : list (Z * list Z)) (s : diskst) : diskst :=
  mkDisk (d_blocks s) v.

(** [struct proc] of proc.h *)
Record procst : Type := mkProc {
  p_state : procstate;
  p_chan : option chan;  (* if Some, sleeping on chan *)
  p_killed : bool;
  p_xstate : Z;
  p_pid : Z;
  p_parent : option nat;
  p_kstack : Z;
  p_context : Z * Z;  (* context.ra and context.sp *)
  p_sz : Z;
  p_pagetable : Z;
  p_trapframe : Z;
  p_ofile : list (option nat);
  p_cwd : option nat;
  p_name : list Z
}.

Definition set_p_state (v : procstate) (s : procst) : procst :=
  mkProc v (p_chan s) (p_killed s) (p_xstate s) (p_pid s) (p_parent s) (p_kstack s) (p_context s) (p_sz s) (p_pagetable s) (p_trapframe s) (p_ofile s) (p_cwd s) (p_name s).
Definition set_p_chan (v : option chan) (s : procst) : procst :=
  mkProc (p_state s) v (p_killed s) (p_xstate s) (p_pid s) (p_parent s) (p_kstack s) (p_context s) (p_sz s) (p_pagetable s) (p_trapframe s) (p_ofile s) (p_cwd s) (p_name s).
Definition set_p_killed (v : bool) (s : procst) : procst :=
  mkProc (p_state s) (p_chan s) v (p_xstate s) (p_pid s) (p_parent s) (p_kstack s) (p_context s) (p_sz s) (p_pagetable s) (p_trapframe s) (p_ofile s) (p_cwd s) (p_name s).
Definition set_p_xstate (v : Z) (s : procst) : procst :=
  mkProc (p_state s) (p_chan s) (p_killed s) v (p_pid s) (p_parent s) (p_kstack s) (p_context s) (p_sz s) (p_pagetable s) (p_trapframe s) (p_ofile s) (p_cwd s) (p_name s).
Definition set_p_pid (v : Z) (s : procst) : procst :=
  mkProc (p_state s) (p_chan s) (p_killed s) (p_xstate s) v (p_parent s) (p_kstack s) (p_context s) (p_sz s) (p_pagetable s) (p_trapframe s) (p_ofile s) (p_cwd s) (p_name s).
Definition set_p_parent (v : option nat) (s : procst) : procst :=
  mkProc (p_state s) (p_chan s) (p_killed s) (p_xstate s) (p_pid s) v (p_kstack s) (p_context s) (p_sz s) (p_pagetable s) (p_trapframe s) (p_ofile s) (p_cwd s) (p_name s).
Definition set_p_kstack (v : Z) (s : procst) : procst :=
  mkProc (p_state s) (p_chan s) (p_killed s) (p_xstate s) (p_pid s) (p_parent s) v (p_context s) (p_sz s) (p_pagetable s) (p_trapframe s) (p_ofile s) (p_cwd s) (p_name s).
Definition set_p_context (v : Z * Z) (s : procst) : procst :=
  mkProc (p_state s) (p_chan s) (p_killed s) (p_xstate s) (p_pid s) (p_parent s) (p_kstack s) v (p_sz s) (p_pagetable s) (p_trapframe s) (p_ofile s) (p_cwd s) (p_name s).
Definition set_p_sz (v : Z) (s : procst) : procst :=
  mkProc (p_state s) (p_chan s) (p_killed s) (p_xstate s) (p_pid s) (p_parent s) (p_kstack s) (p_context s) v (p_pagetable s) (p_trapframe s) (p_ofile s) (p_cwd s) (p_name s).
Definition set_p_pagetable (v : Z) (s : procst) : procst :=
  mkProc (p_state s) (p_chan s) (p_killed s) (p_xstate s) (p_pid s) (p_parent s) (p_kstack s) (p_context s) (p_sz s) v (p_trapframe s) (p_ofile s) (p_cwd s) (p_name s).
Definition set_p_trapframe (v : Z) (s : procst) : procst :=
  mkProc (p_state s) (p_chan s) (p_killed s) (p_xstate s) (p_pid s) (p_parent s) (p_kstack s) (p_context s) (p_sz s) (p_pagetable s) v (p_ofile s) (p_cwd s) (p_name s).
Definition set_p_ofile (v : list (option nat)) (s : procst) : procst :=
  mkProc (p_state s) (p_chan s) (p_killed s) (p_xstate s) (p_pid s) (p_parent s) (p_kstack s) (p_context s) (p_sz s) (p_pagetable s) (p_trapframe s) v (p_cwd s) (p_name s).
Definition set_p_cwd (v : option nat) (s : procst) : procst :=
  mkProc (p_state s) (p_chan s) (p_killed s) (p_xstate s) (p_pid s) (p_parent s) (p_kstack s) (p_context s) (p_sz s) (p_pagetable s) (p_trapframe s) (p_ofile s) v (p_name s).
Definition set_p_name (v : list Z) (s : procst) : procst :=
  mkProc (p_state s) (p_chan s) (p_killed s) (p_xstate s) (p_pid s) (p_parent s) (p_kstack s) (p_context s) (p_sz s) (p_pagetable s) (p_trapframe s) (p_ofile s) (p_cwd s) v.

(** [struct file] of file.h *)
Record filest : Type := mkFile {
  f_type : filetype;
  f_ref : Z;  (* reference count *)
  f_readable : bool;
  f_writable : bool;
  f_pipe : Z;  (* FD_PIPE: the page of the pipe *)
  f_ip : nat;  (* FD_INODE and FD_DEVICE: index in itable *)
  f_off : Z;  (* FD_INODE *)
  f_major : Z  (* FD_DEVICE *)
}.

Definition set_f_type (v : filetype) (s : filest) : filest :=
  mkFile v (f_ref s) (f_readable s) (f_writable s) (f_pipe s) (f_ip s) (f_off s) (f_major s).
Definition set_f_ref (v : Z) (s : filest) : filest :=
  mkFile (f_type s) v (f_readable s) (f_writable s) (f_pipe s) (f_ip s) (f_off s) (f_major s).
Definition set_f_readable (v : bool) (s : filest) : filest :=
  mkFile (f_type s) (f_ref s) v (f_writable s) (f_pipe s) (f_ip s) (f_off s) (f_major s).
Definition set_f_writable (v : bool) (s : filest) : filest :=
  mkFile (f_type s) (f_ref s) (f_readable s) v (f_pipe s) (f_ip s) (f_off s) (f_major s).
Definition set_f_pipe (v : Z) (s : filest) : filest :=
  mkFile (f_type s) (f_ref s) (f_readable s) (f_writable s) v (f_ip s) (f_off s) (f_major s).
Definition set_f_ip (v : nat) (s : filest) : filest :=
  mkFile (f_type s) (f_ref s) (f_readable s) (f_writable s) (f_pipe s) v (f_off s) (f_major s).
Definition set_f_off (v : Z) (s : filest) : filest :=
  mkFile (f_type s) (f_ref s) (f_readable s) (f_writable s) (f_pipe s) (f_ip s) v (f_major s).
Definition set_f_major (v : Z) (s : filest) : filest :=
  mkFile (f_type s) (f_ref s) (f_readable s) (f_writable s) (f_pipe s) (f_ip s) (f_off s) v.

(** [struct pipe] of pipe.c *)
Record pipest : Type := mkPipe {
  pi_data : list Z;  (* PIPESIZE bytes *)
  pi_nread : Z;  (* number of bytes read *)
  pi_nwrite : Z;  (* number of bytes written *)
  pi_readopen : bool;
  pi_writeopen : bool
}.

Definition set_pi_data (v : list Z) (s : pipest) : pipest :=
  mkPipe v (pi_nread s) (pi_nwrite s) (pi_readopen s) (pi_writeopen s).
Definition set_pi_nread (v : Z) (s : pipest) : pipest :=
  mkPipe (pi_data s) v (pi_nwrite s) (pi_readopen s) (pi_writeopen s).
Definition set_pi_nwrite (v : Z) (s : pipest) : pipest :=
  mkPipe (pi_data s) (pi_nread s) v (pi_readopen s) (pi_writeopen s).
Definition set_pi_readopen (v : bool) (s : pipest) : pipest :=
  mkPipe (pi_data s) (pi_nread s) (pi_nwrite s) v (pi_writeopen s).
Definition set_pi_writeopen (v : bool) (s : pipest) : pipest :=
  mkPipe (pi_data s) (pi_nread s) (pi_nwrite s) (pi_readopen s) v.

(** The variable [cons] of console.c *)
Record consst : Type := mkCons {
  cons_buf : list Z;  (* INPUT_BUF_SIZE bytes *)
  cons_r : Z;  (* read index *)
  cons_w : Z;  (* write index *)
  cons_e : Z  (* edit index *)
}.

Definition set_cons_buf (v : list Z) (s : consst) : consst :=
  mkCons v (cons_r s) (cons_w s) (cons_e s).
Definition set_cons_r (v : Z) (s : consst) : consst :=
  mkCons (cons_buf s) v (cons_w s) (cons_e s).
Definition set_cons_w (v : Z) (s : consst) : consst :=
  mkCons (cons_buf s) (cons_r s) v (cons_e s).
Definition set_cons_e (v : Z) (s : consst) : consst :=
  mkCons (cons_buf s) (cons_r s) (cons_w s) v.

(** The variables of uart.c, and the device registers behind them *)
Record uartst : Type := mkUart {
  uart_tx_buf : list Z;  (* UART_TX_BUF_SIZE bytes *)
  uart_tx_w : Z;
  uart_tx_r : Z;
  uart_lsr : list bool;  (* device: LSR_TX_IDLE at the coming reads of LSR, set from then on *)
  uart_rx : list Z;  (* device: bytes waiting in RHR *)
  uart_out : list Z;  (* device: bytes written to THR, latest first *)
  uart_regs : list (Z * Z)  (* device: writes to the configuration registers, latest first *)
}.

Definition set_uart_tx_buf (v : list Z) (s : uartst) : uartst :=
  mkUart v (uart_tx_w s) (uart_tx_r s) (uart_lsr s) (uart_rx s) (uart_out s) (uart_regs s).
Definition set_uart_tx_w (v : Z) (s : uartst) : uartst :=
  mkUart (uart_tx_buf s) v (uart_tx_r s) (uart_lsr s) (uart_rx s) (uart_out s) (uart_regs s).
Definition set_uart_tx_r (v : Z) (s : uartst) : uartst :=
  mkUart (uart_tx_buf s) (uart_tx_w s) v (uart_lsr s) (uart_rx s) (uart_out s) (uart_regs s).
Definition set_uart_lsr (v : list bool) (s : uartst) : uartst :=
  mkUart (uart_tx_buf s) (uart_tx_w s) (uart_tx_r s) v (uart_rx s) (uart_out s) (uart_regs s).
Definition set_uart_rx (v : list Z) (s : uartst) : uartst :=
  mkUart (uart_tx_buf s) (uart_tx_w s) (uart_tx_r s) (uart_lsr s) v (uart_out s) (uart_regs s).
Definition set_uart_out (v : list Z) (s : uartst) : uartst :=
  mkUart (uart_tx_buf s) (uart_tx_w s) (uart_tx_r s) (uart_lsr s) (uart_rx s) v (uart_regs s).
Definition set_uart_regs (v : list (Z * Z)) (s : uartst) : uartst :=
  mkUart (uart_tx_buf s) (uart_tx_w s) (uart_tx_r s) (uart_lsr s) (uart_rx s) (uart_out s) v.

(** [struct virtq_desc] of virtio.h *)
Record virtq_desc : Type := mkDesc {
  d_addr : daddr;
  d_len : Z;
  d_flags : Z;
  d_next : Z
}.

Definition set_d_addr (v : daddr) (s : virtq_desc) : virtq_desc :=
  mkDesc v (d_len s) (d_flags s) (d_next s).
Definition set_d_len (v : Z) (s : virtq_desc) : virtq_desc :=
  mkDesc (d_addr s) v (d_flags s) (d_next s).
Definition set_d_flags (v : Z) (s : virtq_desc) : virtq_desc :=
  mkDesc (d_addr s) (d_len s) v (d_next s).
Definition set_d_next (v : Z) (s : virtq_desc) : virtq_desc :=
  mkDesc (d_addr s) (d_len s) (d_flags s) v.

(** [struct virtio_blk_req] of virtio.h *)
Record virtio_blk_req : Type := mkReq {
  r_type : Z;
  r_reserved : Z;
  r_sector : Z
}.

Definition set_r_type (v : Z) (s : virtio_blk_req) : virtio_blk_req :=
  mkReq v (r_reserved s) (r_sector s).
Definition set_r_reserved (v : Z) (s : virtio_blk_req) : virtio_blk_req :=
  mkReq (r_type s) v (r_sector s).
Definition set_r_sector (v : Z) (s : virtio_blk_req) : virtio_blk_req :=
  mkReq (r_type s) (r_reserved s) v.

(** The variable [disk] of virtio_disk.c, with the queue pages it points to, and what was written to the device registers *)
Record vdiskst : Type := mkVdisk {
  vd_pages : Z * Z * Z;  (* the pages of desc, avail and used *)
  vd_desc : list virtq_desc;  (* desc[NUM] *)
  vd_avail_idx : Z;  (* avail->idx *)
  vd_avail_ring : list Z;  (* avail->ring[NUM] *)
  vd_used_devidx : Z;  (* used->idx, written by the device *)
  vd_used_ring : list (Z * Z);  (* used->ring[NUM]: id and len, written by the device *)
  vd_free : list bool;  (* is a descriptor free? *)
  vd_used_idx : Z;  (* used_idx *)
  vd_info : list (option nat * Z);  (* info[NUM]: b and status *)
  vd_ops : list virtio_blk_req;  (* ops[NUM] *)
  vd_regs : list (Z * Z)  (* register writes, latest first *)
}.

Definition set_vd_pages (v : Z * Z * Z) (s : vdiskst) : vdiskst :=
  mkVdisk v (vd_desc s) (vd_avail_idx s) (vd_avail_ring s) (vd_used_devidx s) (vd_used_ring s) (vd_free s) (vd_used_idx s) (vd_info s) (vd_ops s) (vd_regs s).
Definition set_vd_desc (v : list virtq_desc) (s : vdiskst) : vdiskst :=
  mkVdisk (vd_pages s) v (vd_avail_idx s) (vd_avail_ring s) (vd_used_devidx s) (vd_used_ring s) (vd_free s) (vd_used_idx s) (vd_info s) (vd_ops s) (vd_regs s).
Definition set_vd_avail_idx (v : Z) (s : vdiskst) : vdiskst :=
  mkVdisk (vd_pages s) (vd_desc s) v (vd_avail_ring s) (vd_used_devidx s) (vd_used_ring s) (vd_free s) (vd_used_idx s) (vd_info s) (vd_ops s) (vd_regs s).
Definition set_vd_avail_ring (v : list Z) (s : vdiskst) : vdiskst :=
  mkVdisk (vd_pages s) (vd_desc s) (vd_avail_idx s) v (vd_used_devidx s) (vd_used_ring s) (vd_free s) (vd_used_idx s) (vd_info s) (vd_ops s) (vd_regs s).
Definition set_vd_used_devidx (v : Z) (s : vdiskst) : vdiskst :=
  mkVdisk (vd_pages s) (vd_desc s) (vd_avail_idx s) (vd_avail_ring s) v (vd_used_ring s) (vd_free s) (vd_used_idx s) (vd_info s) (vd_ops s) (vd_regs s).
Definition set_vd_used_ring (v : list (Z * Z)) (s : vdiskst) : vdiskst :=
  mkVdisk (vd_pages s) (vd_desc s) (vd_avail_idx s) (vd_avail_ring s) (vd_used_devidx s) v (vd_free s) (vd_used_idx s) (vd_info s) (vd_ops s) (vd_regs s).
Definition set_vd_free (v : list bool) (s : vdiskst) : vdiskst :=
  mkVdisk (vd_pages s) (vd_desc s) (vd_avail_idx s) (vd_avail_ring s) (vd_used_devidx s) (vd_used_ring s) v (vd_used_idx s) (vd_info s) (vd_ops s) (vd_regs s).
Definition set_vd_used_idx (v : Z) (s : vdiskst) : vdiskst :=
  mkVdisk (vd_pages s) (vd_desc s) (vd_avail_idx s) (vd_avail_ring s) (vd_used_devidx s) (vd_used_ring s) (vd_free s) v (vd_info s) (vd_ops s) (vd_regs s).
Definition set_vd_info (v : list (option nat * Z)) (s : vdiskst) : vdiskst :=
  mkVdisk (vd_pages s) (vd_desc s) (vd_avail_idx s) (vd_avail_ring s) (vd_used_devidx s) (vd_used_ring s) (vd_free s) (vd_used_idx s) v (vd_ops s) (vd_regs s).
Definition set_vd_ops (v : list virtio_blk_req) (s : vdiskst) : vdiskst :=
  mkVdisk (vd_pages s) (vd_desc s) (vd_avail_idx s) (vd_avail_ring s) (vd_used_devidx s) (vd_used_ring s) (vd_free s) (vd_used_idx s) (vd_info s) v (vd_regs s).
Definition set_vd_regs (v : list (Z * Z)) (s : vdiskst) : vdiskst :=
  mkVdisk (vd_pages s) (vd_desc s) (vd_avail_idx s) (vd_avail_ring s) (vd_used_devidx s) (vd_used_ring s) (vd_free s) (vd_used_idx s) (vd_info s) (vd_ops s) v.

(** The registers of this hart riscv.h reads and writes, and of the interrupt controllers *)
Record hartst : Type := mkHart {
  c_mhartid : Z;
  c_mstatus : Z;  (* sstatus is a view of it *)
  c_mepc : Z;
  c_mie : Z;  (* sie is a view of it *)
  c_mip : Z;  (* sip is a view of it *)
  c_medeleg : Z;
  c_mideleg : Z;
  c_mtvec : Z;
  c_mscratch : Z;
  c_mcounteren : Z;
  c_pmpcfg0 : Z;
  c_pmpaddr0 : Z;
  c_sepc : Z;
  c_stvec : Z;
  c_satp : Z;
  c_scause : Z;
  c_stval : Z;
  c_time : Z;
  c_tp : Z;
  c_sp : Z;
  c_ra : Z;
  plic_irqs : list Z;  (* PLIC: what the coming reads of SCLAIM return, 0 from then on *)
  mtime : Z;  (* CLINT: MTIME *)
  mmio : list (Z * Z);  (* writes to the registers of the PLIC and the CLINT, latest first *)
  timer_scratch : list (list Z)  (* timer_scratch[NCPU][5] of start.c *)
}.

Definition set_c_mhartid (v : Z) (s : hartst) : hartst :=
  mkHart v (c_mstatus s) (c_mepc s) (c_mie s) (c_mip s) (c_medeleg s) (c_mideleg s) (c_mtvec s) (c_mscratch s) (c_mcounteren s) (c_pmpcfg0 s) (c_pmpaddr0 s) (c_sepc s) (c_stvec s) (c_satp s) (c_scause s) (c_stval s) (c_time s) (c_tp s) (c_sp s) (c_ra s) (plic_irqs s) (mtime s) (mmio s) (timer_scratch s).
Definition set_c_mstatus (v : Z) (s : hartst) : hartst :=
  mkHart (c_mhartid s) v (c_mepc s) (c_mie s) (c_mip s) (c_medeleg s) (c_mideleg s) (c_mtvec s) (c_mscratch s) (c_mcounteren s) (c_pmpcfg0 s) (c_pmpaddr0 s) (c_sepc s) (c_stvec s) (c_satp s) (c_scause s) (c_stval s) (c_time s) (c_tp s) (c_sp s) (c_ra s) (plic_irqs s) (mtime s) (mmio s) (timer_scratch s).
Definition set_c_mepc (v : Z) (s : hartst) : hartst :=
  mkHart (c_mhartid s) (c_mstatus s) v (c_mie s) (c_mip s) (c_medeleg s) (c_mideleg s) (c_mtvec s) (c_mscratch s) (c_mcounteren s) (c_pmpcfg0 s) (c_pmpaddr0 s) (c_sepc s) (c_stvec s) (c_satp s) (c_scause s) (c_stval s) (c_time s) (c_tp s) (c_sp s) (c_ra s) (plic_irqs s) (mtime s) (mmio s) (timer_scratch s).
Definition set_c_mie (v : Z) (s : hartst) : hartst :=
  mkHart (c_mhartid s) (c_mstatus s) (c_mepc s) v (c_mip s) (c_medeleg s) (c_mideleg s) (c_mtvec s) (c_mscratch s) (c_mcounteren s) (c_pmpcfg0 s) (c_pmpaddr0 s) (c_sepc s) (c_stvec s) (c_satp s) (c_scause s) (c_stval s) (c_time s) (c_tp s) (c_sp s) (c_ra s) (plic_irqs s) (mtime s) (mmio s) (timer_scratch s).
Definition set_c_mip (v : Z) (s : hartst) : hartst :=
  mkHart (c_mhartid s) (c_mstatus s) (c_mepc s) (c_mie s) v (c_medeleg s) (c_mideleg s) (c_mtvec s) (c_mscratch s) (c_mcounteren s) (c_pmpcfg0 s) (c_pmpaddr0 s) (c_sepc s) (c_stvec s) (c_satp s) (c_scause s) (c_stval s) (c_time s) (c_tp s) (c_sp s) (c_ra s) (plic_irqs s) (mtime s) (mmio s) (timer_scratch s).
Definition set_c_medeleg (v : Z) (s : hartst) : hartst :=
  mkHart (c_mhartid s) (c_mstatus s) (c_mepc s) (c_mie s) (c_mip s) v (c_mideleg s) (c_mtvec s) (c_mscratch s) (c_mcounteren s) (c_pmpcfg0 s) (c_pmpaddr0 s) (c_sepc s) (c_stvec s) (c_satp s) (c_scause s) (c_stval s) (c_time s) (c_tp s) (c_sp s) (c_ra s) (plic_irqs s) (mtime s) (mmio s) (timer_scratch s).
Definition set_c_mideleg (v : Z) (s : hartst) : hartst :=
  mkHart (c_mhartid s) (c_mstatus s) (c_mepc s) (c_mie s) (c_mip s) (c_medeleg s) v (c_mtvec s) (c_mscratch s) (c_mcounteren s) (c_pmpcfg0 s) (c_pmpaddr0 s) (c_sepc s) (c_stvec s) (c_satp s) (c_scause s) (c_stval s) (c_time s) (c_tp s) (c_sp s) (c_ra s) (plic_irqs s) (mtime s) (mmio s) (timer_scratch s).
Definition set_c_mtvec (v : Z) (s : hartst) : hartst :=
  mkHart (c_mhartid s) (c_mstatus s) (c_mepc s) (c_mie s) (c_mip s) (c_medeleg s) (c_mideleg s) v (c_mscratch s) (c_mcounteren s) (c_pmpcfg0 s) (c_pmpaddr0 s) (c_sepc s) (c_stvec s) (c_satp s) (c_scause s) (c_stval s) (c_time s) (c_tp s) (c_sp s) (c_ra s) (plic_irqs s) (mtime s) (mmio s) (timer_scratch s).
Definition set_c_mscratch (v : Z) (s : hartst) : hartst :=
  mkHart (c_mhartid s) (c_mstatus s) (c_mepc s) (c_mie s) (c_mip s) (c_medeleg s) (c_mideleg s) (c_mtvec s) v (c_mcounteren s) (c_pmpcfg0 s) (c_pmpaddr0 s) (c_sepc s) (c_stvec s) (c_satp s) (c_scause s) (c_stval s) (c_time s) (c_tp s) (c_sp s) (c_ra s) (plic_irqs s) (mtime s) (mmio s) (timer_scratch s).
Definition set_c_mcounteren (v : Z) (s : hartst) : hartst :=
  mkHart (c_mhartid s) (c_mstatus s) (c_mepc s) (c_mie s) (c_mip s) (c_medeleg s) (c_mideleg s) (c_mtvec s) (c_mscratch s) v (c_pmpcfg0 s) (c_pmpaddr0 s) (c_sepc s) (c_stvec s) (c_satp s) (c_scause s) (c_stval s) (c_time s) (c_tp s) (c_sp s) (c_ra s) (plic_irqs s) (mtime s) (mmio s) (timer_scratch s).
Definition set_c_pmpcfg0 (v : Z) (s : hartst) : hartst :=
  mkHart (c_mhartid s) (c_mstatus s) (c_mepc s) (c_mie s) (c_mip s) (c_medeleg s) (c_mideleg s) (c_mtvec s) (c_mscratch s) (c_mcounteren s) v (c_pmpaddr0 s) (c_sepc s) (c_stvec s) (c_satp s) (c_scause s) (c_stval s) (c_time s) (c_tp s) (c_sp s) (c_ra s) (plic_irqs s) (mtime s) (mmio s) (timer_scratch s).
Definition set_c_pmpaddr0 (v : Z) (s : hartst) : hartst :=
  mkHart (c_mhartid s) (c_mstatus s) (c_mepc s) (c_mie s) (c_mip s) (c_medeleg s) (c_mideleg s) (c_mtvec s) (c_mscratch s) (c_mcounteren s) (c_pmpcfg0 s) v (c_sepc s) (c_stvec s) (c_satp s) (c_scause s) (c_stval s) (c_time s) (c_tp s) (c_sp s) (c_ra s) (plic_irqs s) (mtime s) (mmio s) (timer_scratch s).
Definition set_c_sepc (v : Z) (s : hartst) : hartst :=
  mkHart (c_mhartid s) (c_mstatus s) (c_mepc s) (c_mie s) (c_mip s) (c_medeleg s) (c_mideleg s) (c_mtvec s) (c_mscratch s) (c_mcounteren s) (c_pmpcfg0 s) (c_pmpaddr0 s) v (c_stvec s) (c_satp s) (c_scause s) (c_stval s) (c_time s) (c_tp s) (c_sp s) (c_ra s) (plic_irqs s) (mtime s) (mmio s) (timer_scratch s).
Definition set_c_stvec (v : Z) (s : hartst) : hartst :=
  mkHart (c_mhartid s) (c_mstatus s) (c_mepc s) (c_mie s) (c_mip s) (c_medeleg s) (c_mideleg s) (c_mtvec s) (c_mscratch s) (c_mcounteren s) (c_pmpcfg0 s) (c_pmpaddr0 s) (c_sepc s) v (c_satp s) (c_scause s) (c_stval s) (c_time s) (c_tp s) (c_sp s) (c_ra s) (plic_irqs s) (mtime s) (mmio s) (timer_scratch s).
Definition set_c_satp (v : Z) (s : hartst) : hartst :=
  mkHart (c_mhartid s) (c_mstatus s) (c_mepc s) (c_mie s) (c_mip s) (c_medeleg s) (c_mideleg s) (c_mtvec s) (c_mscratch s) (c_mcounteren s) (c_pmpcfg0 s) (c_pmpaddr0 s) (c_sepc s) (c_stvec s) v (c_scause s) (c_stval s) (c_time s) (c_tp s) (c_sp s) (c_ra s) (plic_irqs s) (mtime s) (mmio s) (timer_scratch s).
Definition set_c_scause (v : Z) (s : hartst) : hartst :=
  mkHart (c_mhartid s) (c_mstatus s) (c_mepc s) (c_mie s) (c_mip s) (c_medeleg s) (c_mideleg s) (c_mtvec s) (c_mscratch s) (c_mcounteren s) (c_pmpcfg0 s) (c_pmpaddr0 s) (c_sepc s) (c_stvec s) (c_satp s) v (c_stval s) (c_time s) (c_tp s) (c_sp s) (c_ra s) (plic_irqs s) (mtime s) (mmio s) (timer_scratch s).
Definition set_c_stval (v : Z) (s : hartst) : hartst :=
  mkHart (c_mhartid s) (c_mstatus s) (c_mepc s) (c_mie s) (c_mip s) (c_medeleg s) (c_mideleg s) (c_mtvec s) (c_mscratch s) (c_mcounteren s) (c_pmpcfg0 s) (c_pmpaddr0 s) (c_sepc s) (c_stvec s) (c_satp s) (c_scause s) v (c_time s) (c_tp s) (c_sp s) (c_ra s) (plic_irqs s) (mtime s) (mmio s) (timer_scratch s).
Definition set_c_time (v : Z) (s : hartst) : hartst :=
  mkHart (c_mhartid s) (c_mstatus s) (c_mepc s) (c_mie s) (c_mip s) (c_medeleg s) (c_mideleg s) (c_mtvec s) (c_mscratch s) (c_mcounteren s) (c_pmpcfg0 s) (c_pmpaddr0 s) (c_sepc s) (c_stvec s) (c_satp s) (c_scause s) (c_stval s) v (c_tp s) (c_sp s) (c_ra s) (plic_irqs s) (mtime s) (mmio s) (timer_scratch s).
Definition set_c_tp (v : Z) (s : hartst) : hartst :=
  mkHart (c_mhartid s) (c_mstatus s) (c_mepc s) (c_mie s) (c_mip s) (c_medeleg s) (c_mideleg s) (c_mtvec s) (c_mscratch s) (c_mcounteren s) (c_pmpcfg0 s) (c_pmpaddr0 s) (c_sepc s) (c_stvec s) (c_satp s) (c_scause s) (c_stval s) (c_time s) v (c_sp s) (c_ra s) (plic_irqs s) (mtime s) (mmio s) (timer_scratch s).
Definition set_c_sp (v : Z) (s : hartst) : hartst :=
  mkHart (c_mhartid s) (c_mstatus s) (c_mepc s) (c_mie s) (c_mip s) (c_medeleg s) (c_mideleg s) (c_mtvec s) (c_mscratch s) (c_mcounteren s) (c_pmpcfg0 s) (c_pmpaddr0 s) (c_sepc s) (c_stvec s) (c_satp s) (c_scause s) (c_stval s) (c_time s) (c_tp s) v (c_ra s) (plic_irqs s) (mtime s) (mmio s) (timer_scratch s).
Definition set_c_ra (v : Z) (s : hartst) : hartst :=
  mkHart (c_mhartid s) (c_mstatus s) (c_mepc s) (c_mie s) (c_mip s) (c_medeleg s) (c_mideleg s) (c_mtvec s) (c_mscratch s) (c_mcounteren s) (c_pmpcfg0 s) (c_pmpaddr0 s) (c_sepc s) (c_stvec s) (c_satp s) (c_scause s) (c_stval s) (c_time s) (c_tp s) (c_sp s) v (plic_irqs s) (mtime s) (mmio s) (timer_scratch s).
Definition set_plic_irqs (v : list Z) (s : hartst) : hartst :=
  mkHart (c_mhartid s) (c_mstatus s) (c_mepc s) (c_mie s) (c_mip s) (c_medeleg s) (c_mideleg s) (c_mtvec s) (c_mscratch s) (c_mcounteren s) (c_pmpcfg0 s) (c_pmpaddr0 s) (c_sepc s) (c_stvec s) (c_satp s) (c_scause s) (c_stval s) (c_time s) (c_tp s) (c_sp s) (c_ra s) v (mtime s) (mmio s) (timer_scratch s).
Definition set_mtime (v : Z) (s : hartst) : hartst :=
  mkHart (c_mhartid s) (c_mstatus s) (c_mepc s) (c_mie s) (c_mip s) (c_medeleg s) (c_mideleg s) (c_mtvec s) (c_mscratch s) (c_mcounteren s) (c_pmpcfg0 s) (c_pmpaddr0 s) (c_sepc s) (c_stvec s) (c_satp s) (c_scause s) (c_stval s) (c_time s) (c_tp s) (c_sp s) (c_ra s) (plic_irqs s) v (mmio s) (timer_scratch s).
Definition set_mmio (v : list (Z * Z)) (s : hartst) : hartst :=
  mkHart (c_mhartid s) (c_mstatus s) (c_mepc s) (c_mie s) (c_mip s) (c_medeleg s) (c_mideleg s) (c_mtvec s) (c_mscratch s) (c_mcounteren s) (c_pmpcfg0 s) (c_pmpaddr0 s) (c_sepc s) (c_stvec s) (c_satp s) (c_scause s) (c_stval s) (c_time s) (c_tp s) (c_sp s) (c_ra s) (plic_irqs s) (mtime s) v (timer_scratch s).
Definition set_timer_scratch (v : list (list Z)) (s : hartst) : hartst :=
  mkHart (c_mhartid s) (c_mstatus s) (c_mepc s) (c_mie s) (c_mip s) (c_medeleg s) (c_mideleg s) (c_mtvec s) (c_mscratch s) (c_mcounteren s) (c_pmpcfg0 s) (c_pmpaddr0 s) (c_sepc s) (c_stvec s) (c_satp s) (c_scause s) (c_stval s) (c_time s) (c_tp s) (c_sp s) (c_ra s) (plic_irqs s) (mtime s) (mmio s) v.

(** The kernel's global variables *)
Record kernel : Type := mkKernel {
  held : gset lockid;  (* spinlocks this CPU holds *)
  mem : Z -> Z;  (* physical memory, byte by byte *)
  freelist : Z;  (* kmem.freelist *)
  procs : list procst;  (* proc[NPROC] *)
  cur : nat;  (* index of myproc(), NPROC for none *)
  nextpid : Z;
  initproc : option nat;
  bufs : list buf;  (* bcache.buf[NBUF], then bcache.head *)
  disk : diskst;
  logst : log;  (* the variable log *)
  sb : superblock;
  itable : list inode;  (* itable.inode[NINODE] *)
  ftable : list filest;  (* ftable.file[NFILE] *)
  pipes : gmap Z pipest;  (* the pipes, by the page they live in *)
  cons : consst;
  uart : uartst;
  pr_locking : bool;  (* pr.locking *)
  ticks : Z;
  first : bool;  (* the static variable of forkret *)
  vdisk : vdiskst;  (* the variable disk of virtio_disk.c *)
  devsw : list bool;  (* devsw[NDEV]: is the console's handler installed? *)
  kernel_pagetable : Z;
  main_started : bool;  (* the variable started of main.c *)
  hart : hartst
}.

Definition set_held (v : gset lockid) (s : kernel) : kernel :=
  mkKernel v (mem s) (freelist s) (procs s) (cur s) (nextpid s) (initproc s) (bufs s) (disk s) (logst s) (sb s) (itable s) (ftable s) (pipes s) (cons s) (uart s) (pr_locking s) (ticks s) (first s) (vdisk s) (devsw s) (kernel_pagetable s) (main_started s) (hart s).
Definition set_mem (v : Z -> Z) (s : kernel) : kernel :=
  mkKernel (held s) v (freelist s) (procs s) (cur s) (nextpid s) (initproc s) (bufs s) (disk s) (logst s) (sb s) (itable s) (ftable s) (pipes s) (cons s) (uart s) (pr_locking s) (ticks s) (first s) (vdisk s) (devsw s) (kernel_pagetable s) (main_started s) (hart s).
Definition set_freelist (v : Z) (s : kernel) : kernel :=
  mkKernel (held s) (mem s) v (procs s) (cur s) (nextpid s) (initproc s) (bufs s) (disk s) (logst s) (sb s) (itable s) (ftable s) (pipes s) (cons s) (uart s) (pr_locking s) (ticks s) (first s) (vdisk s) (devsw s) (kernel_pagetable s) (main_started s) (hart s).
Definition set_procs (v : list procst) (s : kernel) : kernel :=
  mkKernel (held s) (mem s) (freelist s) v (cur s) (nextpid s) (initproc s) (bufs s) (disk s) (logst s) (sb s) (itable s) (ftable s) (pipes s) (cons s) (uart s) (pr_locking s) (ticks s) (first s) (vdisk s) (devsw s) (kernel_pagetable s) (main_started s) (hart s).
Definition set_cur (v : nat) (s : kernel) : kernel :=
  mkKernel (held s) (mem s) (freelist s) (procs s) v (nextpid s) (initproc s) (bufs s) (disk s) (logst s) (sb s) (itable s) (ftable s) (pipes s) (cons s) (uart s) (pr_locking s) (ticks s) (first s) (vdisk s) (devsw s) (kernel_pagetable s) (main_started s) (hart s).
Definition set_nextpid (v : Z) (s : kernel) : kernel :=
  mkKernel (held s) (mem s) (freelist s) (procs s) (cur s) v (initproc s) (bufs s) (disk s) (logst s) (sb s) (itable s) (ftable s) (pipes s) (cons s) (uart s) (pr_locking s) (ticks s) (first s) (vdisk s) (devsw s) (kernel_pagetable s) (main_started s) (hart s).
Definition set_initproc (v : option nat) (s : kernel) : kernel :=
  mkKernel (held s) (mem s) (freelist s) (procs s) (cur s) (nextpid s) v (bufs s) (disk s) (logst s) (sb s) (itable s) (ftable s) (pipes s) (cons s) (uart s) (pr_locking s) (ticks s) (first s) (vdisk s) (devsw s) (kernel_pagetable s) (main_started s) (hart s).
Definition set_bufs (v : list buf) (s : kernel) : kernel :=
  mkKernel (held s) (mem s) (freelist s) (procs s) (cur s) (nextpid s) (initproc s) v (disk s) (logst s) (sb s) (itable s) (ftable s) (pipes s) (cons s) (uart s) (pr_locking s) (ticks s) (first s) (vdisk s) (devsw s) (kernel_pagetable s) (main_started s) (hart s).
Definition set_disk (v : diskst) (s : kernel) : kernel :=
  mkKernel (held s) (mem s) (freelist s) (procs s) (cur s) (nextpid s) (initproc s) (bufs s) v (logst s) (sb s) (itable s) (ftable s) (pipes s) (cons s) (uart s) (pr_locking s) (ticks s) (first s) (vdisk s) (devsw s) (kernel_pagetable s) (main_started s) (hart s).
Definition set_logst (v : log) (s : kernel) : kernel :=
  mkKernel (held s) (mem s) (freelist s) (procs s) (cur s) (nextpid s) (initproc s) (bufs s) (disk s) v (sb s) (itable s) (ftable s) (pipes s) (cons s) (uart s) (pr_locking s) (ticks s) (first s) (vdisk s) (devsw s) (kernel_pagetable s) (main_started s) (hart s).
Definition set_sb (v : superblock) (s : kernel) : kernel :=
  mkKernel (held s) (mem s) (freelist s) (procs s) (cur s) (nextpid s) (initproc s) (bufs s) (disk s) (logst s) v (itable s) (ftable s) (pipes s) (cons s) (uart s) (pr_locking s) (ticks s) (first s) (vdisk s) (devsw s) (kernel_pagetable s) (main_started s) (hart s).
Definition set_itable (v : list inode) (s : kernel) : kernel :=
  mkKernel (held s) (mem s) (freelist s) (procs s) (cur s) (nextpid s) (initproc s) (bufs s) (disk s) (logst s) (sb s) v (ftable s) (pipes s) (cons s) (uart s) (pr_locking s) (ticks s) (first s) (vdisk s) (devsw s) (kernel_pagetable s) (main_started s) (hart s).
Definition set_ftable (v : list filest) (s : kernel) : kernel :=
  mkKernel (held s) (mem s) (freelist s) (procs s) (cur s) (nextpid s) (initproc s) (bufs s) (disk s) (logst s) (sb s) (itable s) v (pipes s) (cons s) (uart s) (pr_locking s) (ticks s) (first s) (vdisk s) (devsw s) (kernel_pagetable s) (main_started s) (hart s).
Definition set_pipes (v : gmap Z pipest) (s : kernel) : kernel :=
  mkKernel (held s) (mem s) (freelist s) (procs s) (cur s) (nextpid s) (initproc s) (bufs s) (disk s) (logst s) (sb s) (itable s) (ftable s) v (cons s) (uart s) (pr_locking s) (ticks s) (first s) (vdisk s) (devsw s) (kernel_pagetable s) (main_started s) (hart s).
Definition set_cons (v : consst) (s : kernel) : kernel :=
  mkKernel (held s) (mem s) (freelist s) (procs s) (cur s) (nextpid s) (initproc s) (bufs s) (disk s) (logst s) (sb s) (itable s) (ftable s) (pipes s) v (uart s) (pr_locking s) (ticks s) (first s) (vdisk s) (devsw s) (kernel_pagetable s) (main_started s) (hart s).
Definition set_uart (v : uartst) (s : kernel) : kernel :=
  mkKernel (held s) (mem s) (freelist s) (procs s) (cur s) (nextpid s) (initproc s) (bufs s) (disk s) (logst s) (sb s) (itable s) (ftable s) (pipes s) (cons s) v (pr_locking s) (ticks s) (first s) (vdisk s) (devsw s) (kernel_pagetable s) (main_started s) (hart s).
Definition set_pr_locking (v : bool) (s : kernel) : kernel :=
  mkKernel (held s) (mem s) (freelist s) (procs s) (cur s) (nextpid s) (initproc s) (bufs s) (disk s) (logst s) (sb s) (itable s) (ftable s) (pipes s) (cons s) (uart s) v (ticks s) (first s) (vdisk s) (devsw s) (kernel_pagetable s) (main_started s) (hart s).
Definition set_ticks (v : Z) (s : kernel) : kernel :=
  mkKernel (held s) (mem s) (freelist s) (procs s) (cur s) (nextpid s) (initproc s) (bufs s) (disk s) (logst s) (sb s) (itable s) (ftable s) (pipes s) (cons s) (uart s) (pr_locking s) v (first s) (vdisk s) (devsw s) (kernel_pagetable s) (main_started s) (hart s).
Definition set_first (v : bool) (s : kernel) : kernel :=
  mkKernel (held s) (mem s) (freelist s) (procs s) (cur s) (nextpid s) (initproc s) (bufs s) (disk s) (logst s) (sb s) (itable s) (ftable s) (pipes s) (cons s) (uart s) (pr_locking s) (ticks s) v (vdisk s) (devsw s) (kernel_pagetable s) (main_started s) (hart s).
Definition set_vdisk (v : vdiskst) (s : kernel) : kernel :=
  mkKernel (held s) (mem s) (freelist s) (procs s) (cur s) (nextpid s) (initproc s) (bufs s) (disk s) (logst s) (sb s) (itable s) (ftable s) (pipes s) (cons s) (uart s) (pr_locking s) (ticks s) (first s) v (devsw s) (kernel_pagetable s) (main_started s) (hart s).
Definition set_devsw (v : list bool) (s : kernel) : kernel :=
  mkKernel (held s) (mem s) (freelist s) (procs s) (cur s) (nextpid s) (initproc s) (bufs s) (disk s) (logst s) (sb s) (itable s) (ftable s) (pipes s) (cons s) (uart s) (pr_locking s) (ticks s) (first s) (vdisk s) v (kernel_pagetable s) (main_started s) (hart s).
Definition set_kernel_pagetable (v : Z) (s : kernel) : kernel :=
  mkKernel (held s) (mem s) (freelist s) (procs s) (cur s) (nextpid s) (initproc s) (bufs s) (disk s) (logst s) (sb s) (itable s) (ftable s) (pipes s) (cons s) (uart s) (pr_locking s) (ticks s) (first s) (vdisk s) (devsw s) v (main_started s) (hart s).
Definition set_main_started (v : bool) (s : kernel) : kernel :=
  mkKernel (held s) (mem s) (freelist s) (procs s) (cur s) (nextpid s) (initproc s) (bufs s) (disk s) (logst s) (sb s) (itable s) (ftable s) (pipes s) (cons s) (uart s) (pr_locking s) (ticks s) (first s) (vdisk s) (devsw s) (kernel_pagetable s) v (hart s).
Definition set_hart (v : hartst) (s : kernel) : kernel :=
  mkKernel (held s) (mem s) (freelist s) (procs s) (cur s) (nextpid s) (initproc s) (bufs s) (disk s) (logst s) (sb s) (itable s) (ftable s) (pipes s) (cons s) (uart s) (pr_locking s) (ticks s) (first s) (vdisk s) (devsw s) (kernel_pagetable s) (main_started s) v.

(** ** The state at boot: zeroed .bss, [nextpid = 1] *)
Definition zero_sleeplock : sleeplock := mkSleeplock false 0.
Definition zero_buf : buf :=
  mkBuf false false 0 0 zero_sleeplock 0 0 0 (replicate (Z.to_nat BSIZE) 0).
Definition zero_inode : inode :=
  mkInode 0 0 0 zero_sleeplock false 0 0 0 0 0 (replicate (Z.to_nat (NDIRECT + 1)) 0).
Definition zero_proc : procst :=
  mkProc UNUSED None false 0 0 None 0 (0, 0) 0 0 0 (replicate (Z.to_nat NOFILE) None) None
    (replicate 16 0).
Definition zero_file : filest := mkFile FD_NONE 0 false false 0 0 0 0.

#[export] Instance sleeplock_inhabited : Inhabited sleeplock := populate zero_sleeplock.
#[export] Instance buf_inhabited : Inhabited buf := populate zero_buf.
#[export] Instance inode_inhabited : Inhabited inode := populate zero_inode.
#[export] Instance procst_inhabited : Inhabited procst := populate zero_proc.
#[export] Instance filest_inhabited : Inhabited filest := populate zero_file.

Definition zero_log : log :=
  mkLog 0 0 0 false 0 (mkLogheader 0 (replicate (Z.to_nat LOGSIZE) 0)).
Definition zero_desc : virtq_desc := mkDesc ANull 0 0 0.
Definition zero_req : virtio_blk_req := mkReq 0 0 0.
Definition zero_vdisk : vdiskst :=
  mkVdisk (0, 0, 0) (replicate (Z.to_nat NUM) zero_desc) 0 (replicate (Z.to_nat NUM) 0) 0 (replicate (Z.to_nat NUM) (0, 0))
    (replicate (Z.to_nat NUM) false) 0 (replicate (Z.to_nat NUM) (None, 0)) (replicate (Z.to_nat NUM) zero_req) [].

#[export] Instance virtq_desc_inhabited : Inhabited virtq_desc := populate zero_desc.
#[export] Instance virtio_blk_req_inhabited : Inhabited virtio_blk_req := populate zero_req.

(** A hart at reset, in machine mode with interrupts off. *)
Definition boot_hart (id : Z) : hartst :=
  mkHart id 0x1800 0 0 0 0 0 0 0 0 0 0 0 0 0 0 0 0 0 0 0 [] 0 [] (replicate (Z.to_nat NCPU) (replicate 5 0)).

Definition boot_kernel (d : Z -> list Z) : kernel :=
  mkKernel ∅ (fun _ => 0) 0 (replicate (Z.to_nat NPROC) zero_proc) 0 1 None
    (replicate (Z.to_nat NBUF + 1) zero_buf) (mkDisk d []) zero_log
    (mkSuperblock 0 0 0 0 0 0 0 0) (replicate (Z.to_nat NINODE) zero_inode)
    (replicate (Z.to_nat NFILE) zero_file) ∅ (mkCons (replicate (Z.to_nat INPUT_BUF_SIZE) 0) 0 0 0)
    (mkUart (replicate (Z.to_nat UART_TX_BUF_SIZE) 0) 0 0 [] [] [] []) false 0 true zero_vdisk
    (replicate (Z.to_nat NDEV) false) 0 false (boot_hart 0).
