(* ===== verification/Ring.v ===== *)
(** * Rings with free-running counters

    The UART's transmit buffer, the console's input buffer and the pipes are
    arrays of [size] bytes with a read and a write counter of [w] bits that run
    freely and wrap; slot [n mod size] holds the byte of counter [n].  The
    number of bytes held is the difference of the counters modulo [2^w]. *)

From S2P Require Import Prelude.

Section ring.
Context (w size : Z).

Definition slot (n : Z) : nat := Z.to_nat (n mod size).

(** The bytes of counters [r], [r+1], ..., [k] of them. *)
Fixpoint ring_from (k : nat) (r : Z) (buf : list Z) : list Z :=
  match k with
  | O => []
  | S k => buf !!! slot r :: ring_from k (wrap w (r + 1)) buf
  end.

Definition count (r e : Z) : Z := wrap w (e - r).
Definition contents (r e : Z) (buf : list Z) : list Z := ring_from (Z.to_nat (count r e)) r buf.

(** The counters are [w]-bit numbers at most [size] apart, the array has [size]
    bytes. *)
Record ring_ok (r e : Z) (buf : list Z) : Prop := mkRingOk {
  rg_len : length buf = Z.to_nat size;
  rg_r : 0 <= r < 2 ^ w;
  rg_e : 0 <= e < 2 ^ w;
  rg_size : count r e <= size;
  rg_bytes : Forall is_byte buf
}.

Context (Hw : 0 < w) (Hsize : 0 < size < 2 ^ w) (Hdiv : (size | 2 ^ w)).

Lemma slot_wrap n : slot (wrap w n) = slot n.
Proof. unfold slot. by rewrite wrap_mod_divide. Qed.

Lemma slot_lt n : (slot n < Z.to_nat size)%nat.
Proof. unfold slot. pose proof (Z.mod_pos_bound n size). lia. Qed.

Lemma slot_in (buf : list Z) n : length buf = Z.to_nat size -> 0 <= Z.of_nat (slot n) < alen buf.
Proof. intros E. unfold alen. pose proof (slot_lt n). lia. Qed.

Lemma slot_ne n i : 0 < i < size -> slot (n + i) <> slot n.
Proof.
  unfold slot. intros Hi E. apply Z2Nat.inj in E; try (apply Z.mod_pos_bound; lia).
  pose proof (Z.div_mod n size). pose proof (Z.div_mod (n + i) size). set (d := (n + i) / size - n / size). assert (i = size * d) by (unfold d; lia).
  destruct (Z.le_gt_cases d 0); nia.
Qed.

Lemma ring_from_wrap k r buf : ring_from k (wrap w r) buf = ring_from k r buf.
Proof. destruct k; cbn [ring_from]; [done |]. by rewrite slot_wrap, wrap_add_l. Qed.

Lemma ring_from_snoc k : forall r buf, ring_from (S k) r buf = ring_from k r buf ++ [buf !!! slot (r + Z.of_nat k)].
Proof.
  induction k as [|k IH]; intros r buf; [cbn; by rewrite Z.add_0_r |].
  change (buf !!! slot r :: ring_from (S k) (wrap w (r + 1)) buf = buf !!! slot r :: ring_from k (wrap w (r + 1)) buf ++ [buf !!! slot (r + Z.of_nat (S k))]).
  rewrite IH. f_equal. f_equal. f_equal. f_equal. rewrite <- slot_wrap, wrap_add_l, slot_wrap. f_equal. lia.
Qed.

Lemma ring_from_insert k : forall r buf x n, (slot n < length buf)%nat -> 0 <= n - r - Z.of_nat k < size - Z.of_nat k ->
  ring_from k r (<[slot n := x]> buf) = ring_from k r buf.
Proof.
  induction k as [|k IH]; intros r buf x n Hn Hr; [done |]. cbn [ring_from]. f_equal.
  - apply list_lookup_total_insert_ne. replace n with (r + (n - r)) by lia. apply slot_ne. lia.
  - rewrite !ring_from_wrap. apply IH; [done | lia].
Qed.

Lemma count_range r e : 0 <= count r e < 2 ^ w.
Proof. apply wrap_range. lia. Qed.

Lemma count_cases r e : 0 <= r < 2 ^ w -> 0 <= e < 2 ^ w -> count r e = if e <? r then e - r + 2 ^ w else e - r.
Proof.
  intros Hr He. unfold count, wrap. destruct (Z.ltb_spec e r).
  - rewrite <- (Z.mod_add _ 1) by lia. rewrite Z.mod_small by lia. lia.
  - apply Z.mod_small. lia.
Qed.

Lemma count_zero r e : 0 <= r < 2 ^ w -> 0 <= e < 2 ^ w -> count r e = 0 <-> r = e.
Proof. intros Hr He. rewrite count_cases by done. destruct (Z.ltb_spec e r); lia. Qed.

Lemma length_contents r e buf : length (contents r e buf) = Z.to_nat (count r e).
Proof. unfold contents. generalize (Z.to_nat (count r e)) as k. intros k. revert r. induction k as [|k IH]; intros r; cbn; auto. Qed.

(** Advancing the write counter. *)
Lemma count_push r e : count r e < 2 ^ w - 1 -> count r (wrap w (e + 1)) = count r e + 1.
Proof.
  intros H. pose proof (count_range r e). unfold count in *. rewrite wrap_sub_l. replace (e + 1 - r) with ((e - r) + 1) by lia.
  rewrite <- wrap_add_l. apply wrap_small. lia.
Qed.

(** Advancing the read counter. *)
Lemma count_pop r e : 0 < count r e -> count (wrap w (r + 1)) e = count r e - 1.
Proof.
  intros H. pose proof (count_range r e). unfold count in *. rewrite wrap_sub_r. replace (e - (r + 1)) with ((e - r) + -1) by lia.
  rewrite <- wrap_add_l. apply wrap_small. lia.
Qed.

(** The slot of the write counter, from the read counter. *)
Lemma slot_end r e : slot (r + Z.of_nat (Z.to_nat (count r e))) = slot e.
Proof.
  pose proof (count_range r e). rewrite Z2Nat.id by lia. rewrite <- slot_wrap. unfold count. rewrite wrap_add_r, slot_wrap. f_equal. lia.
Qed.

(** ** The operations of a queue *)

Lemma contents_empty r e buf : 0 <= r < 2 ^ w -> 0 <= e < 2 ^ w -> contents r e buf = [] <-> r = e.
Proof.
  intros Hr He. rewrite <- (count_zero r e Hr He), <- length_zero_iff_nil, length_contents. pose proof (count_range r e). lia.
Qed.

Lemma queue_push r e buf c : ring_ok r e buf -> count r e < size -> is_byte c ->
  ring_ok r (wrap w (e + 1)) (<[slot e := c]> buf) /\ contents r (wrap w (e + 1)) (<[slot e := c]> buf) = contents r e buf ++ [c].
Proof.
  intros [H1 H2 H3 H4 H5] Hlt Hc. pose proof (count_range r e) as Hk. assert (E : count r (wrap w (e + 1)) = count r e + 1) by (apply count_push; lia).
  assert (Hs : (slot e < length buf)%nat) by (rewrite H1; apply slot_lt). split.
  - split; [by rewrite length_insert | done | apply wrap_range; lia | lia | by apply Forall_insert].
  - unfold contents. rewrite E. replace (Z.to_nat (count r e + 1)) with (S (Z.to_nat (count r e))) by lia. rewrite ring_from_snoc, slot_end.
    rewrite list_lookup_total_insert_eq by done. f_equal. rewrite <- (slot_end r e). apply ring_from_insert; [by rewrite slot_end | lia].
Qed.

Lemma queue_pop r e buf : ring_ok r e buf -> r <> e ->
  ring_ok (wrap w (r + 1)) e buf /\ contents r e buf = buf !!! slot r :: contents (wrap w (r + 1)) e buf /\ is_byte (buf !!! slot r).
Proof.
  intros [H1 H2 H3 H4 H5] Hne. pose proof (count_range r e) as Hk. pose proof (proj1 (count_zero r e H2 H3)) as Hz.
  assert (E : count (wrap w (r + 1)) e = count r e - 1) by (apply count_pop; lia). split; [|split].
  - split; [done | apply wrap_range; lia | done | lia | done].
  - unfold contents. rewrite E. destruct (Z.to_nat (count r e)) as [|k] eqn:Ek; [lia |]. cbn [ring_from]. do 2 f_equal. lia.
  - rewrite Forall_forall in H5. apply H5. apply list_elem_of_lookup_total_2. rewrite H1. apply slot_lt.
Qed.

(** Taking back the byte added last. *)
Lemma queue_unpush r e buf : ring_ok r e buf -> r <> e ->
  ring_ok r (wrap w (e - 1)) buf /\ contents r e buf = contents r (wrap w (e - 1)) buf ++ [buf !!! slot (wrap w (e - 1))].
Proof.
  intros [H1 H2 H3 H4 H5] Hne. pose proof (count_range r e) as Hk. pose proof (proj1 (count_zero r e H2 H3)) as Hz.
  assert (E : count r (wrap w (e - 1)) = count r e - 1).
  { unfold count in *. rewrite wrap_sub_l. replace (e - 1 - r) with ((e - r) + -1) by lia. rewrite <- wrap_add_l. apply wrap_small. lia. }
  split; [split; [done | done | apply wrap_range; lia | lia | done] |].
  unfold contents. rewrite E. destruct (Z.to_nat (count r e)) as [|k] eqn:Ek; [lia |]. replace (Z.to_nat (count r e - 1)) with k by lia.
  rewrite ring_from_snoc. f_equal. f_equal. f_equal. rewrite <- (slot_end r (wrap w (e - 1))), E. f_equal. lia.
Qed.

(** Splitting at a counter in between. *)
Lemma ring_from_app a : forall b r buf, ring_from (a + b) r buf = ring_from a r buf ++ ring_from b (r + Z.of_nat a) buf.
Proof.
  induction a as [|a IH]; intros b r buf; cbn [ring_from Nat.add app]; [by rewrite Z.add_0_r |]. f_equal. rewrite !ring_from_wrap, IH. do 2 f_equal. lia.
Qed.

Lemma contents_app r m e buf : count r m + count m e = count r e -> contents r e buf = contents r m buf ++ contents m e buf.
Proof.
  intros H. pose proof (count_range r m). pose proof (count_range m e). unfold contents. rewrite <- H, Z2Nat.inj_add, ring_from_app by lia. f_equal.
  rewrite <- (ring_from_wrap _ (r + _)), <- (ring_from_wrap _ m). f_equal. rewrite Z2Nat.id by lia. unfold count. rewrite wrap_add_r. f_equal. lia.
Qed.

(** Storing at the write counter changes nothing before it. *)
Lemma contents_insert r m e buf x : length buf = Z.to_nat size -> count r m <= count r e < size -> contents r m (<[slot e := x]> buf) = contents r m buf.
Proof.
  intros Hl H. pose proof (count_range r m). unfold contents. rewrite <- (slot_end r e). apply ring_from_insert; [rewrite slot_end, Hl; apply slot_lt | lia].
Qed.
End ring.
