(* ===== verification/Mem.v ===== *)
(** * Byte-addressed memory

    The flat memory the C code reads and writes through pointers: a total map
    from addresses to bytes, with byte and 64-bit loads and stores.  A load
    normalises the cell to a byte, so no well-formedness condition on memories
    is needed. *)

From S2P Require Import Prelude.

Definition memory : Type := Z -> Z.

Definition load8 (m : memory) (a : Z) : Z := u8 (m a).

Definition store8 (m : memory) (a v : Z) : memory :=
  fun x => if x =? a then u8 v else m x.

Fixpoint load_bytes (m : memory) (a : Z) (n : nat) : list Z :=
  match n with
  | O => []
  | S n => load8 m a :: load_bytes m (a + 1) n
  end.

Fixpoint store_bytes (m : memory) (a : Z) (l : list Z) : memory :=
  match l with
  | [] => m
  | b :: l => store_bytes (store8 m a b) (a + 1) l
  end.

Definition load64 (m : memory) (a : Z) : Z := le_dec (load_bytes m a 8).
Definition store64 (m : memory) (a v : Z) : memory := store_bytes m a (le_enc 8 v).

(** Two memories agree on the bytes of [P]. *)
Definition mem_agree (P : Z -> Prop) (m m' : memory) : Prop :=
  forall x, P x -> load8 m x = load8 m' x.

(** ** Equality of memories, as the code can observe it *)

#[export] Instance memory_equiv : Equiv memory := fun m m' => forall x, load8 m x = load8 m' x.

#[export] Instance memory_equivalence : Equivalence (≡@{memory}).
Proof.
  split; [intros m x; done | intros m m' H x; by rewrite H |].
  intros m1 m2 m3 H1 H2 x. by rewrite H1.
Qed.

#[export] Instance load8_proper : Proper ((≡) ==> (=) ==> (=)) load8.
Proof. intros m m' Hm a ? <-. apply Hm. Qed.

Lemma load8_range m a : 0 <= load8 m a < 256.
Proof. apply (wrap_range 8). lia. Qed.

Lemma load8_store8 m a v x :
  load8 (store8 m a v) x = if decide (x = a) then u8 v else load8 m x.
Proof.
  unfold load8, store8. destruct (Z.eqb_spec x a); case_decide; try lia.
  apply wrap_wrap.
Qed.

#[export] Instance store8_proper : Proper ((≡) ==> (=) ==> (=) ==> (≡)) store8.
Proof.
  intros m m' Hm a ? <- v ? <- x. rewrite !load8_store8. case_decide; auto.
Qed.

Lemma length_load_bytes m a n : length (load_bytes m a n) = n.
Proof. revert a; induction n; intros; simpl; auto. Qed.

Lemma lookup_load_bytes m a n (i : nat) :
  (i < n)%nat -> load_bytes m a n !! i = Some (load8 m (a + Z.of_nat i)).
Proof.
  revert a i; induction n; intros a i Hi; [lia |].
  destruct i; simpl; [do 2 f_equal; lia |].
  rewrite IHn by lia. do 2 f_equal. lia.
Qed.

Lemma load_bytes_byte m a n : Forall is_byte (load_bytes m a n).
Proof. revert a; induction n; intros; simpl; constructor; auto. apply load8_range. Qed.

Lemma load_bytes_agree m m' a n :
  (forall x, a <= x < a + Z.of_nat n -> load8 m x = load8 m' x) ->
  load_bytes m a n = load_bytes m' a n.
Proof.
  revert a; induction n; intros a H; [done |]. simpl. f_equal; [apply H; lia |].
  apply IHn. intros. apply H. lia.
Qed.

#[export] Instance load_bytes_proper : Proper ((≡) ==> (=) ==> (=) ==> (=)) load_bytes.
Proof. intros m m' Hm a ? <- n ? <-. apply load_bytes_agree. intros. apply Hm. Qed.

#[export] Instance load64_proper : Proper ((≡) ==> (=) ==> (=)) load64.
Proof. intros m m' Hm a ? <-. unfold load64. by rewrite Hm. Qed.

Lemma load_bytes_app m a n k :
  load_bytes m a (n + k) = load_bytes m a n ++ load_bytes m (a + Z.of_nat n) k.
Proof.
  revert a; induction n; intros; [simpl; f_equal; lia |].
  simpl. rewrite IHn. do 3 f_equal. lia.
Qed.

(** What a block store leaves at every address. *)
Lemma load8_store_bytes m a l x :
  load8 (store_bytes m a l) x =
    if decide (a <= x < a + Z.of_nat (length l))
    then u8 (l !!! Z.to_nat (x - a)) else load8 m x.
Proof.
  revert m a; induction l as [|b l IH]; intros m a; simpl.
  { case_decide; [lia | done]. }
  rewrite IH, load8_store8. repeat case_decide; try lia.
  - f_equal. replace (Z.to_nat (x - a)) with (S (Z.to_nat (x - (a + 1)))) by lia. done.
  - subst. by rewrite Z.sub_diag.
Qed.

Lemma load8_store_bytes_ne m a l x :
  ~ (a <= x < a + Z.of_nat (length l)) -> load8 (store_bytes m a l) x = load8 m x.
Proof. intros. rewrite load8_store_bytes. by case_decide. Qed.

Lemma load_store_bytes_eq m a l :
  Forall is_byte l -> load_bytes (store_bytes m a l) a (length l) = l.
Proof.
  intros Hl. apply list_eq. intros i. destruct (decide (i < length l)%nat).
  - rewrite lookup_load_bytes by lia. rewrite load8_store_bytes. case_decide; [|lia].
    replace (Z.to_nat _) with i by lia. rewrite list_lookup_lookup_total_lt by lia.
    f_equal. apply wrap_small. eapply Forall_lookup_total_1 in Hl; [|eauto]. exact Hl.
  - rewrite !lookup_ge_None_2; [done | lia | rewrite length_load_bytes; lia].
Qed.

Lemma load_store_bytes_ne m a l a' n :
  a' + Z.of_nat n <= a \/ a + Z.of_nat (length l) <= a' ->
  load_bytes (store_bytes m a l) a' n = load_bytes m a' n.
Proof.
  intros. apply load_bytes_agree. intros. apply load8_store_bytes_ne. lia.
Qed.

Lemma load64_range m a : 0 <= load64 m a < 2 ^ 64.
Proof. apply (le_dec_range (load_bytes m a 8)). Qed.

Lemma load64_store64_eq m a v : load64 (store64 m a v) a = u64 v.
Proof.
  unfold load64, store64. transitivity (le_dec (le_enc 8 v)); [f_equal | apply le_dec_enc].
  apply (load_store_bytes_eq m a (le_enc 8 v)), le_enc_byte.
Qed.

Lemma load8_store64_ne m a v x :
  ~ (a <= x < a + 8) -> load8 (store64 m a v) x = load8 m x.
Proof. intros. apply load8_store_bytes_ne. rewrite length_le_enc. lia. Qed.

Lemma load64_agree m m' a :
  (forall x, a <= x < a + 8 -> load8 m x = load8 m' x) -> load64 m a = load64 m' a.
Proof. intros. unfold load64. f_equal. apply load_bytes_agree. intros. apply H. lia. Qed.

Lemma load64_store64_ne m a v a' :
  a' + 8 <= a \/ a + 8 <= a' -> load64 (store64 m a v) a' = load64 m a'.
Proof. intros. apply load64_agree. intros. apply load8_store64_ne. lia. Qed.

Lemma load64_store_bytes_ne m a l a' :
  a' + 8 <= a \/ a + Z.of_nat (length l) <= a' ->
  load64 (store_bytes m a l) a' = load64 m a'.
Proof. intros. apply load64_agree. intros. apply load8_store_bytes_ne. lia. Qed.

#[export] Instance store_bytes_proper : Proper ((≡) ==> (=) ==> (=) ==> (≡)) store_bytes.
Proof.
  intros m m' Hm a ? <- l ? <- x. rewrite !load8_store_bytes. case_decide; auto.
Qed.

Create HintDb mem discriminated.
#[export] Hint Rewrite load8_store8 load8_store_bytes load64_store64_eq : mem.

#[global] Arguments load8 : simpl never.
#[global] Arguments store8 : simpl never.
#[global] Arguments load64 : simpl never.
#[global] Arguments store64 : simpl never.
