(* ===== verification/CString.v ===== *)
(** * kernel/string.c

    The memory and string routines, as functions on byte-addressed memory.
    Pointers are addresses; an object does not wrap around the address space
    (C's pointer arithmetic is undefined there), so addresses are not reduced
    modulo 2{^64}.  A loop [while(n-- > 0)] is a recursion on its counter. *)

From S2P Require Import Prelude Mem.

Module CString.

(** [for(i = 0; i < n; i++) cdst[i] = c;] *)
Fixpoint memset_loop (k : nat) (m : memory) (cdst c : Z) : memory :=
  match k with
  | O => m
  | S k => memset_loop k (store8 m cdst c) (cdst + 1) c
  end.

Definition memset (m : memory) (dst c n : Z) : memory :=
  memset_loop (Z.to_nat (u32 n)) m dst c.

Fixpoint memcmp_loop (n : nat) (m : memory) (s1 s2 : Z) : Z :=
  match n with
  | O => 0
  | S n =>
      if load8 m s1 =? load8 m s2 then memcmp_loop n m (s1 + 1) (s2 + 1)
      else load8 m s1 - load8 m s2
  end.

Definition memcmp (m : memory) (v1 v2 n : Z) : Z := memcmp_loop (Z.to_nat (u32 n)) m v1 v2.

(** [while(n-- > 0) *--d = *--s;] *)
Fixpoint memmove_down (n : nat) (m : memory) (d s : Z) : memory :=
  match n with
  | O => m
  | S n => memmove_down n (store8 m (d - 1) (load8 m (s - 1))) (d - 1) (s - 1)
  end.

(** [while(n-- > 0) *d++ = *s++;] *)
Fixpoint memmove_up (n : nat) (m : memory) (d s : Z) : memory :=
  match n with
  | O => m
  | S n => memmove_up n (store8 m d (load8 m s)) (d + 1) (s + 1)
  end.

Definition memmove (m : memory) (dst src n : Z) : memory :=
  let n := u32 n in
  if n =? 0 then m
  else if (src <? dst) && (dst <? src + n)
  then memmove_down (Z.to_nat n) m (dst + n) (src + n)
  else memmove_up (Z.to_nat n) m dst src.

Definition memcpy (m : memory) (dst src n : Z) : memory := memmove m dst src n.

Fixpoint strncmp_loop (n : nat) (m : memory) (p q : Z) : Z :=
  match n with
  | O => 0
  | S n =>
      if negb (load8 m p =? 0) && (load8 m p =? load8 m q)
      then strncmp_loop n m (p + 1) (q + 1)
      else load8 m p - load8 m q
  end.

Definition strncmp (m : memory) (p q n : Z) : Z := strncmp_loop (Z.to_nat (u32 n)) m p q.

(** [while(n-- > 0) *s++ = 0;] *)
Fixpoint strncpy_pad (n : nat) (m : memory) (s : Z) : memory :=
  match n with
  | O => m
  | S n => strncpy_pad n (store8 m s 0) (s + 1)
  end.

(** [while(n-- > 0 && ( *s++ = *t++) != 0);] followed by the padding loop. *)
Fixpoint strncpy_loop (n : nat) (m : memory) (s t : Z) : memory :=
  match n with
  | O => m
  | S n =>
      let c := load8 m t in
      let m := store8 m s c in
      if c =? 0 then strncpy_pad n m (s + 1) else strncpy_loop n m (s + 1) (t + 1)
  end.

Definition strncpy (m : memory) (s t n : Z) : memory := strncpy_loop (Z.to_nat n) m s t.

(** [while(--n > 0 && ( *s++ = *t++) != 0); *s = 0;] with [n - 1] as counter. *)
Fixpoint safestrcpy_loop (n : nat) (m : memory) (s t : Z) : memory :=
  match n with
  | O => store8 m s 0
  | S n =>
      let c := load8 m t in
      let m := store8 m s c in
      if c =? 0 then store8 m (s + 1) 0 else safestrcpy_loop n m (s + 1) (t + 1)
  end.

Definition safestrcpy (m : memory) (s t n : Z) : memory :=
  if n <=? 0 then m else safestrcpy_loop (Z.to_nat (n - 1)) m s t.

(** [for(n = 0; s[n]; n++);] with a bound on the length looked at. *)
Fixpoint strlen_loop (fuel : nat) (m : memory) (s n : Z) : option Z :=
  match fuel with
  | O => None
  | S fuel => if load8 m (s + n) =? 0 then Some n else strlen_loop fuel m s (n + 1)
  end.

Definition strlen (fuel : nat) (m : memory) (s : Z) : option Z := strlen_loop fuel m s 0.

(** The C string at [p], cut at its NUL or after [n] bytes. *)
Fixpoint cstr (n : nat) (m : memory) (p : Z) : list Z :=
  match n with
  | O => []
  | S n => if load8 m p =? 0 then [] else load8 m p :: cstr n m (p + 1)
  end.

(** ** memset and memmove *)

Lemma memset_loop_spec k m a c x :
  load8 (memset_loop k m a c) x =
    if decide (a <= x < a + Z.of_nat k) then u8 c else load8 m x.
Proof.
  revert m a; induction k; intros m a; simpl.
  - case_decide; [lia | done].
  - rewrite IHk, load8_store8. repeat case_decide; try lia.
Qed.

Lemma memset_spec m dst c n x :
  load8 (memset m dst c n) x =
    if decide (dst <= x < dst + u32 n) then u8 c else load8 m x.
Proof.
  unfold memset. rewrite memset_loop_spec. pose proof (wrap_range 32 n ltac:(lia)).
  rewrite Z2Nat.id by lia. done.
Qed.

Lemma memmove_up_spec n m d s x :
  d <= s \/ s + Z.of_nat n <= d ->
  load8 (memmove_up n m d s) x =
    if decide (d <= x < d + Z.of_nat n) then load8 m (s + (x - d)) else load8 m x.
Proof.
  revert m d s; induction n; intros m d s Hd; simpl.
  - case_decide; [lia | done].
  - rewrite IHn by lia. rewrite !load8_store8. repeat case_decide; try lia; subst.
    + f_equal. lia.
    + replace (s + (d - d)) with s by lia. apply wrap_small, load8_range.
Qed.

Lemma memmove_down_spec n m d s x :
  s <= d ->
  load8 (memmove_down n m d s) x =
    if decide (d - Z.of_nat n <= x < d) then load8 m (s + (x - d)) else load8 m x.
Proof.
  revert m d s; induction n; intros m d s Hd; simpl.
  - case_decide; [lia | done].
  - rewrite IHn by lia. rewrite !load8_store8. repeat case_decide; try lia; subst.
    + f_equal. lia.
    + replace (s + (d - 1 - d)) with (s - 1) by lia. apply wrap_small, load8_range.
Qed.

Lemma memmove_bytes m dst src n x :
  0 <= n < 2 ^ 32 ->
  load8 (memmove m dst src n) x =
    if decide (dst <= x < dst + n) then load8 m (src + (x - dst)) else load8 m x.
Proof.
  intros Hn. unfold memmove. rewrite (wrap_small 32 n) by lia.
  destruct (Z.eqb_spec n 0); [case_decide; [lia | done] |].
  destruct (Z.ltb_spec src dst); simpl; [destruct (Z.ltb_spec dst (src + n)) |].
  - rewrite memmove_down_spec by lia. repeat case_decide; try lia. f_equal. lia.
  - rewrite memmove_up_spec by lia. repeat case_decide; try lia.
  - rewrite memmove_up_spec by lia. repeat case_decide; try lia.
Qed.

(** ** Comparison *)

Lemma memcmp_loop_spec n m p q :
  (memcmp_loop n m p q = 0 /\ load_bytes m p n = load_bytes m q n) \/
  (exists i : nat, (i < n)%nat /\ load_bytes m p i = load_bytes m q i /\
     load8 m (p + Z.of_nat i) <> load8 m (q + Z.of_nat i) /\
     memcmp_loop n m p q = load8 m (p + Z.of_nat i) - load8 m (q + Z.of_nat i)).
Proof.
  revert p q; induction n; intros p q; simpl; [by left |].
  destruct (Z.eqb_spec (load8 m p) (load8 m q)) as [Heq|Hne].
  - destruct (IHn (p + 1) (q + 1)) as [[H1 H2] | (i & Hi & Hpre & Hne & Hr)].
    + left. rewrite H2, Heq. done.
    + right. exists (S i). rewrite Hr. simpl. rewrite Heq, Hpre.
      replace (p + Z.of_nat (S i)) with (p + 1 + Z.of_nat i) by lia.
      replace (q + Z.of_nat (S i)) with (q + 1 + Z.of_nat i) by lia.
      split_and!; try done; lia.
  - right. exists O. simpl. rewrite !Z.add_0_r. repeat split; auto with lia.
Qed.

Lemma strncmp_loop_0 n m p q : strncmp_loop n m p q = 0 <-> cstr n m p = cstr n m q.
Proof.
  revert p q; induction n; intros p q; simpl; [done |].
  destruct (Z.eqb_spec (load8 m p) 0) as [H0|H0], (Z.eqb_spec (load8 m q) 0) as [H1|H1];
    simpl; try (destruct (Z.eqb_spec (load8 m p) (load8 m q)) as [H2|H2]); try lia.
  - split; [done | lia].
  - split; [lia | done].
  - split; [lia | done].
  - rewrite IHn, H2. split; intros Hc; [by rewrite Hc | congruence].
  - split; [lia | intros Hc; congruence].
Qed.

(** ** Copying strings *)

Lemma length_cstr n m p : (length (cstr n m p) <= n)%nat.
Proof. revert p; induction n; intros; simpl; [lia |]. destruct (_ =? _); simpl; [lia |]. specialize (IHn (p + 1)). lia. Qed.

Lemma cstr_agree n m m' p :
  (forall x, p <= x < p + Z.of_nat n -> load8 m x = load8 m' x) -> cstr n m p = cstr n m' p.
Proof.
  revert p; induction n; intros p H; simpl; [done |].
  rewrite (H p) by lia. destruct (_ =? _); [done |]. f_equal. apply IHn. intros. apply H. lia.
Qed.

Lemma strncpy_pad_spec n m s x :
  load8 (strncpy_pad n m s) x =
    if decide (s <= x < s + Z.of_nat n) then 0 else load8 m x.
Proof.
  revert m s; induction n; intros m s; simpl.
  - case_decide; [lia | done].
  - rewrite IHn, load8_store8. repeat case_decide; try lia. reflexivity.
Qed.

(** The byte [strncpy] leaves at offset [i]: the string's, or padding. *)
Definition padded (n : nat) (m : memory) (t : Z) : list Z :=
  cstr n m t ++ replicate (n - length (cstr n m t)) 0.

Lemma length_padded n m t : length (padded n m t) = n.
Proof. unfold padded. rewrite length_app, length_replicate. pose proof (length_cstr n m t). lia. Qed.

Lemma strncpy_loop_other n m s t x :
  ~ (s <= x < s + Z.of_nat n) -> load8 (strncpy_loop n m s t) x = load8 m x.
Proof.
  revert m s t; induction n; intros m s t Hx; simpl; [done |].
  destruct (_ =? 0).
  - rewrite strncpy_pad_spec, load8_store8. repeat case_decide; try lia.
  - rewrite IHn, load8_store8 by lia. case_decide; lia.
Qed.

Lemma strncpy_loop_bytes n m s t :
  t + Z.of_nat n <= s \/ s + Z.of_nat n <= t ->
  load_bytes (strncpy_loop n m s t) s n = padded n m t.
Proof.
  unfold padded. revert m s t; induction n; intros m s t Hd; [done |].
  simpl. destruct (Z.eqb_spec (load8 m t) 0) as [H0|H0]; simpl.
  - rewrite H0. f_equal.
    + rewrite strncpy_pad_spec, load8_store8. repeat case_decide; try lia. done.
    + apply list_eq. intros i. destruct (decide (i < n)%nat).
      * rewrite lookup_load_bytes, lookup_replicate_2 by lia.
        rewrite strncpy_pad_spec. case_decide; [done | lia].
      * rewrite !lookup_ge_None_2; [done | rewrite length_replicate; lia | rewrite length_load_bytes; lia].
  - f_equal.
    + rewrite strncpy_loop_other, load8_store8 by lia. case_decide; [|lia].
      apply wrap_small, load8_range.
    + rewrite IHn by lia.
      rewrite (cstr_agree n (store8 m s (load8 m t)) m (t + 1)); [done |].
      intros. rewrite load8_store8. case_decide; [lia | done].
Qed.

Lemma cstr_of_bytes n m p l :
  load_bytes m p n = l ++ replicate (n - length l) 0 -> Forall (fun b => b <> 0) l ->
  (length l <= n)%nat -> cstr n m p = l.
Proof.
  revert p l; induction n; intros p l Hb Hl Hlen; simpl.
  - destruct l; [done | simpl in Hlen; lia].
  - destruct l as [|b l]; simpl in *.
    + injection Hb as Hb _. rewrite Hb. done.
    + injection Hb as Hb Hr. inversion Hl; subst.
      destruct (Z.eqb_spec (load8 m p) 0); [done |]. f_equal. apply IHn; [done | done | lia].
Qed.

Lemma cstr_nonzero n m p : Forall (fun b => b <> 0) (cstr n m p).
Proof. revert p; induction n; intros; simpl; [constructor |]. destruct (Z.eqb_spec (load8 m p) 0); auto. Qed.

Lemma strncpy_loop_cstr n m s t :
  t + Z.of_nat n <= s \/ s + Z.of_nat n <= t ->
  cstr n (strncpy_loop n m s t) s = cstr n m t.
Proof.
  intros Hd. apply cstr_of_bytes; [apply strncpy_loop_bytes, Hd | apply cstr_nonzero | apply length_cstr].
Qed.

Lemma safestrcpy_loop_other n m s t x :
  ~ (s <= x <= s + Z.of_nat n) -> load8 (safestrcpy_loop n m s t) x = load8 m x.
Proof.
  revert m s t; induction n; intros m s t Hx; simpl.
  - rewrite load8_store8. case_decide; lia.
  - destruct (_ =? 0); rewrite ?IHn by lia; rewrite ?load8_store8; repeat case_decide; lia.
Qed.

Lemma safestrcpy_loop_cstr n m s t :
  t + Z.of_nat n <= s \/ s + Z.of_nat n < t ->
  cstr (S n) (safestrcpy_loop n m s t) s = cstr n m t.
Proof.
  revert m s t; induction n; intros m s t Hd.
  - simpl. rewrite load8_store8. case_decide; done.
  - simpl. destruct (Z.eqb_spec (load8 m t) 0) as [H0|H0].
    + rewrite !load8_store8. repeat case_decide; try lia. rewrite H0. done.
    + rewrite safestrcpy_loop_other, load8_store8 by lia. case_decide; [|lia].
      rewrite wrap_small by apply load8_range. destruct (Z.eqb_spec (load8 m t) 0); [lia |].
      f_equal. change (cstr (S n) (safestrcpy_loop n (store8 m s (load8 m t)) (s + 1) (t + 1)) (s + 1) = cstr n m (t + 1)).
      rewrite IHn by lia. apply cstr_agree. intros. rewrite load8_store8. case_decide; lia.
Qed.

Lemma strlen_loop_Some fuel m s k n :
  strlen_loop fuel m s k = Some n <->
  k <= n < k + Z.of_nat fuel /\ load8 m (s + n) = 0 /\ (forall i, k <= i < n -> load8 m (s + i) <> 0).
Proof.
  revert k; induction fuel; intros k; simpl.
  - split; [done | lia].
  - destruct (Z.eqb_spec (load8 m (s + k)) 0) as [H0|H0].
    + split; [intros [= <-]; split_and!; try lia; done |].
      intros (Hn & Hz & Hall). destruct (decide (n = k)); [by subst |].
      exfalso. apply (Hall k); [lia | done].
    + rewrite IHfuel. split; intros (Hn & Hz & Hall); split_and!; try lia; try done.
      * intros i Hi. destruct (decide (i = k)); [by subst | apply Hall; lia].
      * destruct (decide (n = k)); [by subst | lia].
      * intros i Hi. apply Hall. lia.
Qed.

(** ** Properties *)

(** C32: [memmove] copies [n] bytes as if through a temporary buffer, whatever
    the overlap of source and destination, and touches no other byte. *)
Theorem memmove_correct (m : memory) (dst src n : Z) (H : 0 <= n < 2 ^ 32) :
  load_bytes (memmove m dst src n) dst (Z.to_nat n) = load_bytes m src (Z.to_nat n) /\
  (forall x, ~ (dst <= x < dst + n) -> load8 (memmove m dst src n) x = load8 m x).
Proof.
  split.
  - apply list_eq. intros i. destruct (decide (i < Z.to_nat n)%nat).
    + rewrite !lookup_load_bytes, memmove_bytes by lia. case_decide; [|lia]. do 2 f_equal. lia.
    + rewrite !lookup_ge_None_2; [done | rewrite length_load_bytes; lia | rewrite length_load_bytes; lia].
  - intros x Hx. rewrite memmove_bytes by lia. by case_decide.
Qed.

(** Overlapping regions, both ways round. *)
Lemma memmove_correct_witness :
  load_bytes (memmove (fun a => a) 12 10 5) 12 5 = [10; 11; 12; 13; 14] /\
  load_bytes (memmove (fun a => a) 10 12 5) 10 5 = [12; 13; 14; 15; 16].
Proof.
  split.
  - exact (proj1 (memmove_correct (fun a => a) 12 10 5 ltac:(lia))).
  - exact (proj1 (memmove_correct (fun a => a) 10 12 5 ltac:(lia))).
Defined.

(** A name stored with [strncpy] into an [n]-byte field is found again by
    [strncmp] over that field (what [dirlink] and [dirlookup] rely on), for
    names shorter, as long as, or longer than the field; [strncmp] answers 0
    exactly for the names with the same first [n] bytes. *)
Theorem strncpy_strncmp (m : memory) (s t q n : Z) (Hn : 0 <= n < 2 ^ 31)
    (Ht : t + n <= s \/ s + n <= t) (Hq : q + n <= s \/ s + n <= q) :
  strncmp (strncpy m s t n) q s n = 0 <->
  cstr (Z.to_nat n) m q = cstr (Z.to_nat n) m t.
Proof.
  unfold strncmp, strncpy. rewrite (wrap_small 32 n) by lia.
  rewrite strncmp_loop_0, strncpy_loop_cstr by lia.
  rewrite (cstr_agree _ (strncpy_loop (Z.to_nat n) m s t) m q); [done |].
  intros. apply strncpy_loop_other. lia.
Qed.

(** A 16-byte name in a 14-byte directory entry. *)
Lemma strncpy_strncmp_witness :
  strncmp (strncpy (fun a => a) 200 101 14) 101 200 14 = 0.
Proof. apply strncpy_strncmp; [lia | lia | lia | reflexivity]. Defined.
End CString.

#[global] Arguments CString.memset : simpl never.
#[global] Arguments CString.memmove : simpl never.
