(* ===== verification/Spinlock.v ===== *)
(** * kernel/spinlock.c

    Three views of the same code.

    - [Cpu]: [push_off] and [pop_off] on one CPU's [noff], [intena] and
      interrupt-enable bit, [acquire], [release] and [holding] on one CPU that
      no other CPU contends with.
    - [Smp]: [acquire] and [release] cut into their atomic steps, run by any
      number of CPUs on one lock.
    - [acquire] and [release] on the kernel state, where the spinlocks the CPU
      holds are a set; the rest of the development uses these.  A critical
      section is one step there, which [Smp.mutual_exclusion] justifies, and
      [Cpu.run_refines] relates the set to the counters. *)

From S2P Require Import Prelude State.

(** ** The lock operations of the kernel model *)

Definition acquire (l : lockid) : M kernel unit := fun s =>
  if decide (l ∈ held s) then Panic "acquire" else Ret tt (set_held ({[l]} ∪ held s) s).

Definition release (l : lockid) : M kernel unit := fun s =>
  if decide (l ∈ held s) then Ret tt (set_held (held s ∖ {[l]}) s) else Panic "release".

(** [lk->locked = 0; lk->cpu = 0]; the name is for debugging. *)
Definition initlock (l : lockid) : M kernel unit := modify (fun s => set_held (held s ∖ {[l]}) s).

Lemma initlock_free l s : l ∉ held s -> initlock l s = Ret tt s.
Proof. intros H. unfold initlock, modify. by rewrite difference_disjoint_L by set_solver. Qed.

Module Cpu.

(** The part of [struct cpu] spinlock.c uses, the SIE bit of [sstatus], and
    the locks whose [cpu] field points to this CPU. *)
Record cpu : Type := mkCpu {
  noff : Z;              (* depth of push_off() nesting *)
  intena : bool;         (* were interrupts enabled before push_off()? *)
  intr : bool;           (* sstatus & SSTATUS_SIE *)
  locked_here : gset lockid
}.

Definition intr_on : M cpu unit := modify (fun c => mkCpu (noff c) (intena c) true (locked_here c)).
Definition intr_off : M cpu unit := modify (fun c => mkCpu (noff c) (intena c) false (locked_here c)).

Definition push_off : M cpu unit :=
  old ← gets intr;
  intr_off ;;
  n ← gets noff;
  (if n =? 0
   then modify (fun c => mkCpu (noff c) old (intr c) (locked_here c))
   else mret tt) ;;
  modify (fun c => mkCpu (noff c + 1) (intena c) (intr c) (locked_here c)).

Definition pop_off : M cpu unit :=
  i ← gets intr;
  if (i : bool) then panic "pop_off - interruptible" else
  n ← gets noff;
  if n <? 1 then panic "pop_off" else
  modify (fun c => mkCpu (noff c - 1) (intena c) (intr c) (locked_here c)) ;;
  c ← gets (fun c => c);
  if (noff c =? 0) && intena c then intr_on else mret tt.

Definition holding (l : lockid) (c : cpu) : bool := bool_decide (l ∈ locked_here c).

(** No other CPU holds [l]: the test-and-set loop succeeds the first time. *)
Definition cpu_acquire (l : lockid) : M cpu unit :=
  push_off ;;
  h ← gets (holding l);
  if (h : bool) then panic "acquire" else
  modify (fun c => mkCpu (noff c) (intena c) (intr c) ({[l]} ∪ locked_here c)).

Definition cpu_release (l : lockid) : M cpu unit :=
  h ← gets (holding l);
  if negb h then panic "release" else
  modify (fun c => mkCpu (noff c) (intena c) (intr c) (locked_here c ∖ {[l]})) ;;
  pop_off.

(** A sequence of lock operations, on the CPU and on the set of held locks. *)
Inductive lkop : Type := Acq (l : lockid) | Rel (l : lockid).

Fixpoint run (ops : list lkop) : M cpu unit :=
  match ops with
  | [] => mret tt
  | Acq l :: ops => cpu_acquire l ;; run ops
  | Rel l :: ops => cpu_release l ;; run ops
  end.

Fixpoint run_held (ops : list lkop) : M kernel unit :=
  match ops with
  | [] => mret tt
  | Acq l :: ops => acquire l ;; run_held ops
  | Rel l :: ops => release l ;; run_held ops
  end.

(** The CPU [c] implements the held set [h], entered with interrupts [i]. *)
Definition simulates (i : bool) (c : cpu) (h : gset lockid) : Prop :=
  locked_here c = h /\ noff c = Z.of_nat (size h) /\
  (if decide (h = ∅) then intr c = i else intr c = false /\ intena c = i).

Definition same_outcome (i : bool) (o : outcome cpu unit) (o' : outcome kernel unit) : Prop :=
  match o, o' with
  | Ret _ c, Ret _ s => simulates i c (held s)
  | Panic m, Panic m' => m = m'
  | _, _ => False
  end.
End Cpu.

Module Smp.

(** Where a CPU is in [acquire]/[release] of the one lock considered. *)
Inductive pc : Type :=
| Out       (* neither acquiring nor holding *)
| Spin      (* in the test-and-set loop *)
| Got       (* test-and-set succeeded, lk->cpu not yet set *)
| Crit      (* acquire has returned *)
| Clr.      (* release has cleared lk->cpu, locked still 1 *)

#[export] Instance pc_eq_dec : EqDecision pc.
Proof. solve_decision. Defined.

Record smp : Type := mkSmp {
  pcs : nat -> pc;
  cpus : nat -> Cpu.cpu;
  locked : bool;               (* lk->locked *)
  holder : option nat          (* lk->cpu *)
}.

Definition upd {A} (f : nat -> A) (c : nat) (v : A) : nat -> A :=
  fun c' => if decide (c' = c) then v else f c'.

(** [holding(lk)] on CPU [c]. *)
Definition holds (s : smp) (c : nat) : bool := locked s && bool_decide (holder s = Some c).

Inductive step : smp -> smp -> Prop :=
| step_enter s c k : pcs s c = Out -> Cpu.push_off (cpus s c) = Ret tt k -> holds s c = false ->
    step s (mkSmp (upd (pcs s) c Spin) (upd (cpus s) c k) (locked s) (holder s))
| step_tas_fail s c : pcs s c = Spin -> locked s = true -> step s s
| step_tas s c : pcs s c = Spin -> locked s = false ->
    step s (mkSmp (upd (pcs s) c Got) (cpus s) true (holder s))
| step_set_cpu s c : pcs s c = Got ->
    step s (mkSmp (upd (pcs s) c Crit) (cpus s) (locked s) (Some c))
| step_clear_cpu s c : pcs s c = Crit -> holds s c = true ->
    step s (mkSmp (upd (pcs s) c Clr) (cpus s) (locked s) None)
| step_release s c k : pcs s c = Clr -> Cpu.pop_off (cpus s c) = Ret tt k ->
    step s (mkSmp (upd (pcs s) c Out) (upd (cpus s) c k) false (holder s))
(** other locks acquired and released on CPU [c] meanwhile *)
| step_nest s c k : Cpu.push_off (cpus s c) = Ret tt k ->
    step s (mkSmp (pcs s) (upd (cpus s) c k) (locked s) (holder s))
| step_unnest s c k : (pcs s c = Out \/ 1 < Cpu.noff (cpus s c)) ->
    Cpu.pop_off (cpus s c) = Ret tt k ->
    step s (mkSmp (pcs s) (upd (cpus s) c k) (locked s) (holder s))
(** interrupts switched on or off outside any critical section *)
| step_intr s c b : Cpu.noff (cpus s c) = 0 ->
    step s (mkSmp (pcs s) (upd (cpus s) c
      (Cpu.mkCpu (Cpu.noff (cpus s c)) (Cpu.intena (cpus s c)) b (Cpu.locked_here (cpus s c))))
      (locked s) (holder s)).

Definition initial (s : smp) : Prop :=
  (forall c, pcs s c = Out) /\ (forall c, Cpu.noff (cpus s c) = 0) /\ locked s = false /\ holder s = None.

Definition reachable (s : smp) : Prop := exists s0, initial s0 /\ rtc step s0 s.

Definition owns (p : pc) : bool := match p with Got | Crit | Clr => true | _ => false end.

Record inv (s : smp) : Prop := mkInv {
  inv_one : forall c c', owns (pcs s c) = true -> owns (pcs s c') = true -> c = c';
  inv_locked : locked s = true <-> exists c, owns (pcs s c) = true;
  inv_holder : forall c, holder s = Some c <-> pcs s c = Crit;
  inv_noff : forall c, pcs s c <> Out -> 1 <= Cpu.noff (cpus s c);
  inv_nn : forall c, 0 <= Cpu.noff (cpus s c);
  inv_intr : forall c, 1 <= Cpu.noff (cpus s c) -> Cpu.intr (cpus s c) = false
}.
End Smp.

(** ** Rules for [acquire] and [release] *)

Lemma acquire_Ret l s : l ∉ held s -> acquire l s = Ret tt (set_held ({[l]} ∪ held s) s).
Proof. intros. unfold acquire. by case_decide. Qed.

Lemma release_Ret l s : l ∈ held s -> release l s = Ret tt (set_held (held s ∖ {[l]}) s).
Proof. intros. unfold release. by case_decide. Qed.

(** Releasing the lock acquired last restores the held set. *)
Lemma held_restore (l : lockid) (h : gset lockid) : l ∉ h -> ({[l]} ∪ h) ∖ {[l]} = h.
Proof. set_solver. Qed.

Module CpuFacts.
Import Cpu.

Lemma push_off_eq c :
  push_off c = Ret tt (mkCpu (noff c + 1) (if noff c =? 0 then intr c else intena c) false (locked_here c)).
Proof. unfold push_off, intr_off. mred. cbn. destruct (noff c =? 0); reflexivity. Qed.

Lemma pop_off_eq c :
  pop_off c =
    if intr c then Panic "pop_off - interruptible"
    else if noff c <? 1 then Panic "pop_off"
    else Ret tt (mkCpu (noff c - 1) (intena c) ((noff c - 1 =? 0) && intena c) (locked_here c)).
Proof.
  unfold pop_off, intr_on. mred. destruct (intr c) eqn:Hi; [done |]. mred.
  destruct (noff c <? 1); [done |]. cbn.
  destruct (noff c - 1 =? 0), (intena c); cbn; rewrite ?Hi; done.
Qed.

Lemma acquire_sim i l c s :
  simulates i c (held s) -> same_outcome i (cpu_acquire l c) (acquire l s).
Proof.
  intros (Hh & Hn & Hi). unfold cpu_acquire, acquire.
  rewrite (bind_Ret _ _ _ _ _ (push_off_eq c)). mred. unfold holding. cbn. rewrite Hh.
  destruct (decide (l ∈ held s)) as [Hl|Hl];
    [by rewrite bool_decide_true | rewrite bool_decide_false by done].
  unfold same_outcome, simulates. cbn. split_and!.
  - done.
  - rewrite Hn, size_union, size_singleton by set_solver. lia.
  - rewrite decide_False by set_solver. split; [done |]. case_decide as He.
    + rewrite He, size_empty in Hn. rewrite Hn. done.
    + destruct Hi as [_ <-]. destruct (Z.eqb_spec (noff c) 0) as [H0|]; [|done].
      exfalso. apply He. apply leibniz_equiv, size_empty_inv. lia.
Qed.

Lemma release_sim i l c s :
  simulates i c (held s) -> same_outcome i (cpu_release l c) (release l s).
Proof.
  intros (Hh & Hn & Hi). unfold cpu_release, release. mred. unfold holding. rewrite Hh.
  destruct (decide (l ∈ held s)) as [Hl|Hl];
    [rewrite bool_decide_true by done | by rewrite bool_decide_false].
  assert (held s <> ∅) by set_solver. rewrite decide_False in Hi by done. destruct Hi as [Hi1 Hi2].
  assert (Hsz : size (held s) = S (size (held s ∖ {[l]}))).
  { rewrite size_difference, size_singleton by set_solver.
    assert (size (held s) <> 0%nat) by (intros H0; apply size_empty_inv in H0; set_solver). lia. }
  cbn [negb]. rewrite pop_off_eq. cbn. rewrite Hi1. destruct (Z.ltb_spec (noff c) 1); [lia |].
  unfold same_outcome, simulates. cbn. split_and!; [by rewrite Hh | lia |]. case_decide as He.
  - rewrite He, size_empty in Hsz. rewrite Hi2. destruct (Z.eqb_spec (noff c - 1) 0); [done | lia].
  - split; [|done]. destruct (Z.eqb_spec (noff c - 1) 0); [|done].
    exfalso. apply He. apply leibniz_equiv, size_empty_inv. lia.
Qed.

Lemma run_sim i ops : forall c s,
  simulates i c (held s) -> same_outcome i (run ops c) (run_held ops s).
Proof.
  induction ops as [|[l|l] ops IH]; intros c s Hs; [exact Hs | |]; cbn.
  - pose proof (acquire_sim i l c s Hs) as H.
    destruct (cpu_acquire l c) as [[] c'| | |] eqn:E1, (acquire l s) as [[] s'| | |] eqn:E2; try done.
    + rewrite (bind_Ret _ _ _ _ _ E1), (bind_Ret _ _ _ _ _ E2). apply IH, H.
    + unfold mbind, M_bind, bind. rewrite E1, E2. done.
  - pose proof (release_sim i l c s Hs) as H.
    destruct (cpu_release l c) as [[] c'| | |] eqn:E1, (release l s) as [[] s'| | |] eqn:E2; try done.
    + rewrite (bind_Ret _ _ _ _ _ E1), (bind_Ret _ _ _ _ _ E2). apply IH, H.
    + unfold mbind, M_bind, bind. rewrite E1, E2. done.
Qed.
End CpuFacts.

Module SmpFacts.
Import Smp.

Ltac upd_cases :=
  repeat match goal with
  | |- context [upd _ ?c _ ?c'] => unfold upd; case_decide; subst
  | H : context [upd _ ?c _ ?c'] |- _ => unfold upd in H; case_decide; subst
  end.

Lemma inv_initial s : initial s -> inv s.
Proof.
  intros (Hp & Hn & Hl & Hh). split.
  - intros c c'. rewrite Hp. done.
  - rewrite Hl. split; [done |]. intros [c Hc]. rewrite Hp in Hc. done.
  - intros c. rewrite Hh, Hp. done.
  - intros c. rewrite Hp. done.
  - intros c. rewrite Hn. lia.
  - intros c. rewrite Hn. lia.
Qed.

(** A step that moves [c] between program points of the same ownership. *)
Lemma inv_push s c k : inv s -> Cpu.push_off (cpus s c) = Ret tt k ->
  forall p, (p <> Out -> True) -> owns p = owns (pcs s c) -> (p = Crit <-> pcs s c = Crit) ->
  inv (mkSmp (upd (pcs s) c p) (upd (cpus s) c k) (locked s) (holder s)).
Proof.
  intros [I1 I2 I3 I4 I5 I6] Hk p _ Ho Hc. rewrite CpuFacts.push_off_eq in Hk. injection Hk as <-.
  assert (Ho' : forall c', owns (upd (pcs s) c p c') = owns (pcs s c')).
  { intros c'. unfold upd. case_decide; subst; done. }
  split; cbn.
  - intros c1 c2. rewrite !Ho'. apply I1.
  - rewrite I2. split; intros [c' Hc']; exists c'; rewrite ?Ho' in *; done.
  - intros c'. rewrite I3. unfold upd. case_decide; subst; done.
  - intros c' Hc'. unfold upd in *. case_decide; subst; cbn; [specialize (I5 c); lia | auto].
  - intros c'. unfold upd. case_decide; subst; cbn; [specialize (I5 c); lia | auto].
  - intros c'. unfold upd. case_decide; subst; cbn; [done | auto].
Qed.

Lemma inv_pop s c k p : inv s -> Cpu.pop_off (cpus s c) = Ret tt k ->
  (p <> Out -> 1 < Cpu.noff (cpus s c)) ->
  (forall c', 1 <= Cpu.noff (upd (cpus s) c k c') -> Cpu.intr (upd (cpus s) c k c') = false) /\
  (forall c', 0 <= Cpu.noff (upd (cpus s) c k c')) /\
  (forall c', upd (pcs s) c p c' <> Out -> 1 <= Cpu.noff (upd (cpus s) c k c')).
Proof.
  intros [I1 I2 I3 I4 I5 I6] Hk Hp. rewrite CpuFacts.pop_off_eq in Hk.
  destruct (Cpu.intr (cpus s c)) eqn:Hi; [done |].
  destruct (Z.ltb_spec (Cpu.noff (cpus s c)) 1); [done |]. injection Hk as <-.
  split_and!; intros c'; unfold upd; case_decide; subst; cbn; auto.
  - intros. destruct (Z.eqb_spec (Cpu.noff (cpus s c) - 1) 0); [lia | done].
  - lia.
  - intros Hne. specialize (Hp Hne). lia.
Qed.

(** Nobody else owns the lock while [c] does. *)
Lemma inv_others s c c' : inv s -> owns (pcs s c) = true -> c' <> c -> owns (pcs s c') = false.
Proof.
  intros I Hc Hne. destruct (owns (pcs s c')) eqn:E; [|done].
  exfalso. apply Hne. eapply inv_one; eauto.
Qed.

Lemma inv_step s s' : inv s -> step s s' -> inv s'.
Proof.
  intros I Hstep. pose proof I as [I1 I2 I3 I4 I5 I6].
  destruct Hstep as [s c k Hpc Hk Hh | s c Hpc Hl | s c Hpc Hl | s c Hpc | s c Hpc Hh
    | s c k Hpc Hk | s c k Hk | s c k Hc Hk | s c b Hn]; try exact I.
  - apply inv_push with (p := Spin); rewrite ?Hpc; done.
  - assert (Hno : forall c', owns (pcs s c') = false).
    { intros c'. destruct (owns (pcs s c')) eqn:E; [|done].
      assert (locked s = true) by (apply I2; eauto). congruence. }
    split; cbn; auto.
    + intros c1 c2. unfold upd. repeat case_decide; subst; rewrite ?Hno; done.
    + split; [|done]. exists c. unfold upd. case_decide; done.
    + intros c'. rewrite I3. unfold upd. case_decide; subst; rewrite ?Hpc; done.
    + intros c'. unfold upd. case_decide; subst; intros; apply I4; rewrite ?Hpc; done.
  - assert (Ho : owns (pcs s c) = true) by (rewrite Hpc; done).
    assert (Hcrit : forall c', pcs s c' <> Crit).
    { intros c' E. assert (c' = c) as -> by (apply I1; rewrite ?E; done). congruence. }
    split; cbn; auto.
    + intros c1 c2. unfold upd. repeat case_decide; subst; auto.
    + rewrite I2. split; intros _; [exists c; unfold upd; case_decide; done | eauto].
    + intros c'. unfold upd. case_decide; subst; [done |]. split; [congruence |].
      intros E. destruct (Hcrit _ E).
    + intros c'. unfold upd. case_decide; subst; intros; apply I4; rewrite ?Hpc; done.
  - assert (Ho : owns (pcs s c) = true) by (rewrite Hpc; done).
    split; cbn; auto.
    + intros c1 c2. unfold upd. repeat case_decide; subst; auto.
    + rewrite I2. split; intros _; [exists c; unfold upd; case_decide; done | eauto].
    + intros c'. split; [done |]. unfold upd. case_decide; subst; [done |].
      intros E. assert (c' = c) by (apply I1; rewrite ?E; done). done.
    + intros c'. unfold upd. case_decide; subst; intros; apply I4; rewrite ?Hpc; done.
  - assert (Ho : owns (pcs s c) = true) by (rewrite Hpc; done).
    destruct (inv_pop s c k Out I Hk) as (P1 & P2 & P3); [done |].
    split; cbn; auto.
    + intros c1 c2. unfold upd. repeat case_decide; subst; auto; try done.
    + split; [done |]. intros [c' Hc']. unfold upd in Hc'. case_decide; [done |].
      rewrite (inv_others s c c') in Hc'; done.
    + intros c'. rewrite I3. unfold upd. case_decide; subst; [rewrite Hpc; done | done].
  - assert (E : forall p, p = pcs s c -> upd (pcs s) c p = upd (pcs s) c (pcs s c)) by (intros; by subst).
    destruct (inv_push s c k I Hk (pcs s c)) as [P1 P2 P3 P4 P5 P6]; try done.
    split; cbn in *; auto.
    intros c' Hc'. apply P4. unfold upd. case_decide; subst; done.
  - destruct (inv_pop s c k (pcs s c) I Hk) as (P1 & P2 & P3); [by destruct Hc|].
    split; cbn; auto. intros c' Hc'. apply P3. unfold upd. case_decide; subst; done.
  - split; cbn; auto.
    + intros c' Hc'. unfold upd. case_decide; subst; cbn; auto.
    + intros c'. unfold upd. case_decide; subst; cbn; auto.
    + intros c'. unfold upd. case_decide; subst; cbn; [lia | auto].
Qed.

Lemma inv_reachable s : reachable s -> inv s.
Proof.
  intros (s0 & H0 & Hr). apply inv_initial in H0.
  induction Hr; auto. apply IHHr. eapply inv_step; eauto.
Qed.
End SmpFacts.

(** ** Properties *)

(** C28: mutual exclusion.  In every state the CPUs can reach through the atomic
    steps of [acquire] and [release], at most one CPU is between the return of
    [acquire] and its [release]; [holding] is true there and false on every
    other CPU, so [release] does not panic; interrupts are off on that CPU. *)
Theorem smp_mutual_exclusion (s : Smp.smp) (c : nat)
    (Hr : Smp.reachable s) (Hc : Smp.pcs s c = Smp.Crit) :
  (forall c', Smp.pcs s c' = Smp.Crit -> c' = c) /\
  (forall c', Smp.holds s c' = true <-> c' = c) /\
  Cpu.intr (Smp.cpus s c) = false.
Proof.
  destruct (SmpFacts.inv_reachable s Hr) as [I1 I2 I3 I4 I5 I6].
  assert (Hh : Smp.holder s = Some c) by (apply I3; done).
  assert (Hl : Smp.locked s = true) by (apply I2; exists c; rewrite Hc; done).
  split_and!.
  - intros c' Hc'. apply I1; rewrite ?Hc, ?Hc'; done.
  - intros c'. unfold Smp.holds. rewrite Hl, Hh. simpl. case_bool_decide; simplify_eq; split; congruence.
  - apply I6, I4. rewrite Hc. done.
Qed.

(** Two CPUs race for the lock; the winner is in its critical section. *)
Lemma smp_mutual_exclusion_witness :
  let c0 := Cpu.mkCpu 0 false true ∅ in
  let c1 := Cpu.mkCpu 1 true false ∅ in
  let s0 := Smp.mkSmp (fun _ => Smp.Out) (fun _ => c0) false None in
  let s1 := Smp.mkSmp (Smp.upd (Smp.pcs s0) 0%nat Smp.Spin) (Smp.upd (Smp.cpus s0) 0%nat c1) false None in
  let s2 := Smp.mkSmp (Smp.upd (Smp.pcs s1) 1%nat Smp.Spin) (Smp.upd (Smp.cpus s1) 1%nat c1) false None in
  let s3 := Smp.mkSmp (Smp.upd (Smp.pcs s2) 1%nat Smp.Got) (Smp.cpus s2) true None in
  let s4 := Smp.mkSmp (Smp.upd (Smp.pcs s3) 1%nat Smp.Crit) (Smp.cpus s3) true (Some 1%nat) in
  Smp.reachable s4 /\ Smp.pcs s4 0%nat = Smp.Spin /\ (forall c', Smp.holds s4 c' = true <-> c' = 1%nat).
Proof.
  intros c0 c1 s0 s1 s2 s3 s4.
  assert (Hr : Smp.reachable s4).
  { exists s0. split; [repeat split; done |].
    apply (rtc_l _ _ s1); [exact (Smp.step_enter s0 0%nat c1 eq_refl eq_refl eq_refl) |].
    apply (rtc_l _ _ s2); [exact (Smp.step_enter s1 1%nat c1 eq_refl eq_refl eq_refl) |].
    apply (rtc_l _ _ s3); [exact (Smp.step_tas s2 1%nat eq_refl eq_refl) |].
    apply (rtc_l _ _ s4); [exact (Smp.step_set_cpu s3 1%nat eq_refl) | apply rtc_refl]. }
  split; [exact Hr |]. split; [reflexivity |].
  exact (proj1 (proj2 (smp_mutual_exclusion s4 1%nat Hr eq_refl))).
Defined.

(** C29: the set of held locks refines the counters.  Any sequence of [acquire]s
    and [release]s has the same outcome (return, or the same panic) on a CPU
    with [noff], [intena] and the interrupt bit as on the set of held locks,
    and after it [noff] is the number of locks held, interrupts are off while
    any is held and back to their initial state [i] when none is. *)
Theorem cpu_run_refines (i : bool) (ops : list Cpu.lkop) (s : kernel) (Hs : held s = ∅) :
  Cpu.same_outcome i (Cpu.run ops (Cpu.mkCpu 0 false i ∅)) (Cpu.run_held ops s).
Proof.
  apply CpuFacts.run_sim. rewrite Hs. split_and!; try done.
Qed.

(** Two nested locks taken and released: the interrupt bit is restored. *)
Lemma cpu_run_refines_witness :
  let ops := [Cpu.Acq LkWait; Cpu.Acq (LkProc 3); Cpu.Rel LkWait; Cpu.Rel (LkProc 3)] in
  held (boot_kernel (fun _ => [])) = ∅ /\
  Cpu.same_outcome true (Cpu.run ops (Cpu.mkCpu 0 false true ∅))
    (Cpu.run_held ops (boot_kernel (fun _ => []))).
Proof. intros ops. split; [reflexivity |]. apply cpu_run_refines. reflexivity. Defined.
