(* ===== verification/Memlayout.v ===== *)
(** * Address-space layout: memlayout.h and the paging macros of riscv.h

    The addresses the linker chooses ([end], [etext], [trampoline]) are the
    class [Layout]: kernel.ld places them, no C code does. *)

From S2P Require Import Prelude.

Definition PGSIZE : Z := 4096.
Definition PGSHIFT : Z := 12.
Definition KERNBASE : Z := 0x80000000.
Definition PHYSTOP : Z := KERNBASE + 128 * 1024 * 1024.
Definition UART0 : Z := 0x10000000.
Definition VIRTIO0 : Z := 0x10001000.
Definition PLIC : Z := 0x0c000000.

(** [#define PGROUNDUP(sz)  (((sz)+PGSIZE-1) & ~(PGSIZE-1))] *)
Definition PGROUNDUP (sz : Z) : Z := Z.land (u64 (sz + PGSIZE - 1)) (Z.lnot (PGSIZE - 1)).
(** [#define PGROUNDDOWN(a) (((a)) & ~(PGSIZE-1))] *)
Definition PGROUNDDOWN (a : Z) : Z := Z.land a (Z.lnot (PGSIZE - 1)).

Definition PTE_V : Z := Z.shiftl 1 0.
Definition PTE_R : Z := Z.shiftl 1 1.
Definition PTE_W : Z := Z.shiftl 1 2.
Definition PTE_X : Z := Z.shiftl 1 3.
Definition PTE_U : Z := Z.shiftl 1 4.

(** [#define PA2PTE(pa) ((((uint64)pa) >> 12) << 10)] *)
Definition PA2PTE (pa : Z) : Z := u64 (Z.shiftl (Z.shiftr pa 12) 10).
(** [#define PTE2PA(pte) (((pte) >> 10) << 12)] *)
Definition PTE2PA (pte : Z) : Z := u64 (Z.shiftl (Z.shiftr pte 10) 12).
(** [#define PTE_FLAGS(pte) ((pte) & 0x3FF)] *)
Definition PTE_FLAGS (pte : Z) : Z := Z.land pte 0x3FF.
Definition PXMASK : Z := 0x1FF.
Definition PXSHIFT (level : Z) : Z := PGSHIFT + 9 * level.
(** [#define PX(level, va) ((((uint64) (va)) >> PXSHIFT(level)) & PXMASK)] *)
Definition PX (level va : Z) : Z := Z.land (Z.shiftr va (PXSHIFT level)) PXMASK.
Definition MAXVA : Z := Z.shiftl 1 (9 + 9 + 9 + 12 - 1).

Definition TRAMPOLINE : Z := MAXVA - PGSIZE.
Definition TRAPFRAME : Z := TRAMPOLINE - PGSIZE.
(** [#define KSTACK(p) (TRAMPOLINE - ((p)+1)* 2*PGSIZE)] *)
Definition KSTACK (p : Z) : Z := TRAMPOLINE - (p + 1) * 2 * PGSIZE.

(** Addresses fixed at link time. *)
Class Layout : Type := {
  kend : Z;            (* end: first address after the kernel *)
  etext : Z;           (* end of kernel text *)
  trampoline : Z;      (* the trampoline page *)
  forkret_addr : Z     (* the function forkret *)
}.

(** What kernel.ld guarantees of them. *)
Class LayoutOk (L : Layout) : Prop := {
  kend_ok : KERNBASE <= etext <= kend /\ kend <= PHYSTOP;
  etext_aligned : etext mod PGSIZE = 0;
  trampoline_ok : KERNBASE <= trampoline < etext /\ trampoline mod PGSIZE = 0
}.

(** ** Facts about the macros *)

Lemma land_lnot_ones a n : 0 <= n -> Z.land a (Z.lnot (Z.ones n)) = a / 2 ^ n * 2 ^ n.
Proof.
  intros. rewrite <- Z.ldiff_land, Z.ldiff_ones_r by done.
  rewrite Z.shiftl_mul_pow2, Z.shiftr_div_pow2 by done. reflexivity.
Qed.

Lemma PGROUNDDOWN_eq a : PGROUNDDOWN a = a / PGSIZE * PGSIZE.
Proof. exact (land_lnot_ones a 12 ltac:(lia)). Qed.

Lemma PGROUNDUP_eq a : 0 <= a < 2 ^ 64 - PGSIZE ->
  PGROUNDUP a = (a + PGSIZE - 1) / PGSIZE * PGSIZE.
Proof.
  intros. unfold PGROUNDUP. rewrite wrap_small by (unfold PGSIZE in *; lia).
  exact (land_lnot_ones _ 12 ltac:(lia)).
Qed.

Lemma PX_eq level va : 0 <= level -> PX level va = va / 2 ^ (12 + 9 * level) mod 512.
Proof.
  intros. unfold PX, PXSHIFT, PGSHIFT, PXMASK. rewrite Z.shiftr_div_pow2 by lia.
  exact (Z.land_ones _ 9 ltac:(lia)).
Qed.

Lemma PX_range level va : 0 <= level -> 0 <= PX level va < 512.
Proof. intros. rewrite PX_eq by done. apply Z.mod_pos_bound. lia. Qed.

Lemma PA2PTE_eq pa : 0 <= pa < 2 ^ 56 -> PA2PTE pa = pa / 4096 * 1024.
Proof.
  intros. unfold PA2PTE. rewrite Z.shiftl_mul_pow2, Z.shiftr_div_pow2 by lia.
  apply wrap_small. change (2 ^ 12) with 4096. change (2 ^ 10) with 1024.
  assert (0 <= pa / 4096 < 2 ^ 44) by (split; [apply Z.div_pos; lia | apply Z.div_lt_upper_bound; lia]).
  lia.
Qed.

Lemma PTE2PA_eq pte : 0 <= pte < 2 ^ 54 -> PTE2PA pte = pte / 1024 * 4096.
Proof.
  intros. unfold PTE2PA. rewrite Z.shiftl_mul_pow2, Z.shiftr_div_pow2 by lia.
  apply wrap_small. change (2 ^ 12) with 4096. change (2 ^ 10) with 1024.
  assert (0 <= pte / 1024 < 2 ^ 44) by (split; [apply Z.div_pos; lia | apply Z.div_lt_upper_bound; lia]).
  lia.
Qed.

Lemma PTE_FLAGS_eq pte : PTE_FLAGS pte = pte mod 1024.
Proof. exact (Z.land_ones pte 10 ltac:(lia)). Qed.

(** Or-ing into zero low bits is adding. *)
Lemma lor_low x f n : 0 <= n -> 0 <= f < 2 ^ n -> Z.lor (x * 2 ^ n) f = x * 2 ^ n + f.
Proof.
  intros Hn Hf. symmetry. apply Z.add_nocarry_lor. apply Z.bits_inj'. intros i Hi.
  rewrite Z.land_spec, Z.bits_0. destruct (Z.lt_ge_cases i n).
  - rewrite Z.mul_pow2_bits_low by lia. done.
  - rewrite <- (Z.mod_small f (2 ^ n)) by done. rewrite Z.mod_pow2_bits_high by lia. apply andb_false_r.
Qed.

Lemma PA2PTE_lor pa f : 0 <= pa < 2 ^ 56 -> 0 <= f < 1024 ->
  Z.lor (PA2PTE pa) f = pa / 4096 * 1024 + f.
Proof. intros. rewrite PA2PTE_eq by done. apply (lor_low _ _ 10); lia. Qed.

(** The page-table entry [mappages] writes. *)
Definition mk_pte (pa perm : Z) : Z := Z.lor (Z.lor (PA2PTE pa) perm) PTE_V.

Lemma lor_range a b n : 0 <= n -> 0 <= a < 2 ^ n -> 0 <= b < 2 ^ n -> 0 <= Z.lor a b < 2 ^ n.
Proof.
  intros Hn Ha Hb. assert (0 <= Z.lor a b) by (apply Z.lor_nonneg; lia). split; [done |].
  apply Z.bounded_iff_bits_nonneg; try done. intros l Hl. rewrite Z.lor_spec.
  rewrite <- (Z.mod_small a (2 ^ n)), <- (Z.mod_small b (2 ^ n)) by done.
  rewrite !Z.mod_pow2_bits_high by lia. done.
Qed.

Section pte.
Context (pa perm : Z) (Hpa : 0 <= pa < 2 ^ 56) (Hperm : 0 <= perm < 1024).

Lemma mk_pte_eq : mk_pte pa perm = pa / 4096 * 1024 + Z.lor perm 1.
Proof.
  unfold mk_pte. rewrite <- Z.lor_assoc.
  apply PA2PTE_lor; [done |]. apply (lor_range _ _ 10); unfold PTE_V; simpl; lia.
Qed.

Lemma mk_pte_flags_range : 0 <= Z.lor perm 1 < 1024.
Proof. apply (lor_range _ _ 10); lia. Qed.

Lemma mk_pte_range : 0 <= mk_pte pa perm < 2 ^ 54.
Proof.
  rewrite mk_pte_eq. pose proof mk_pte_flags_range.
  assert (0 <= pa / 4096 < 2 ^ 44) by (split; [apply Z.div_pos; lia | apply Z.div_lt_upper_bound; lia]).
  lia.
Qed.

Lemma PTE2PA_mk : PTE2PA (mk_pte pa perm) = pa / 4096 * 4096.
Proof.
  rewrite PTE2PA_eq by apply mk_pte_range. rewrite mk_pte_eq.
  pose proof mk_pte_flags_range. rewrite Z.div_add_l, (Z.div_small (Z.lor perm 1)) by lia. lia.
Qed.

Lemma PTE_FLAGS_mk : PTE_FLAGS (mk_pte pa perm) = Z.lor perm 1.
Proof.
  rewrite PTE_FLAGS_eq, mk_pte_eq. pose proof mk_pte_flags_range.
  rewrite Z.add_comm, Z.mod_add, Z.mod_small by lia. done.
Qed.

(** A bit of the flags is a bit of the entry. *)
Lemma mk_pte_flag f : 0 <= f < 1024 -> Z.land (mk_pte pa perm) f = Z.land (Z.lor perm 1) f.
Proof.
  intros Hf. rewrite <- PTE_FLAGS_mk. unfold PTE_FLAGS. rewrite <- Z.land_assoc. f_equal.
  symmetry. change 1023 with (Z.ones 10). rewrite Z.land_comm, Z.land_ones by lia.
  apply Z.mod_small. lia.
Qed.

Lemma mk_pte_valid : Z.land (mk_pte pa perm) PTE_V <> 0.
Proof.
  change PTE_V with 1. rewrite mk_pte_flag by lia.
  rewrite Z.land_comm, Z.lor_comm, Z.land_lor_distr_r. intros H.
  apply Z.lor_eq_0_iff in H. destruct H as [H _]. done.
Qed.
End pte.

Lemma land_0_PTE_V : Z.land 0 PTE_V = 0.
Proof. done. Qed.

(** Page arithmetic. *)
Definition page_aligned (a : Z) : Prop := a mod PGSIZE = 0.

Lemma page_aligned_div a : page_aligned a -> a / 4096 * 4096 = a.
Proof. unfold page_aligned, PGSIZE. intros. pose proof (Z.div_mod a 4096 ltac:(lia)). lia. Qed.

(** Distinct aligned pages do not overlap. *)
Lemma page_disjoint a b : page_aligned a -> page_aligned b -> a <> b ->
  a + PGSIZE <= b \/ b + PGSIZE <= a.
Proof.
  intros Ha Hb Hne. rewrite <- (page_aligned_div a), <- (page_aligned_div b) in * by done.
  unfold PGSIZE. set (x := a / 4096) in *. set (y := b / 4096) in *. lia.
Qed.

Lemma page_aligned_add a k : page_aligned a -> page_aligned (a + k * PGSIZE).
Proof. unfold page_aligned, PGSIZE. intros. rewrite Z.mod_add by lia. done. Qed.

(** The three indices and the offset determine the address. *)
Lemma va_decompose va : 0 <= va < MAXVA ->
  va = PX 2 va * 2 ^ 30 + PX 1 va * 2 ^ 21 + PX 0 va * 2 ^ 12 + va mod 4096.
Proof.
  intros Hva. change MAXVA with (2 ^ 38) in Hva. rewrite !PX_eq by lia.
  change (12 + 9 * 2) with 30. change (12 + 9 * 1) with 21. change (12 + 9 * 0) with 12.
  change (2 ^ 30) with (4096 * 512 * 512). change (2 ^ 21) with (4096 * 512). change (2 ^ 12) with 4096.
  rewrite <- !Z.div_div by lia.
  set (q := va / 4096). set (q1 := q / 512). set (q2 := q1 / 512).
  assert (q2 mod 512 = q2).
  { apply Z.mod_small. split; [repeat apply Z.div_pos; lia |].
    unfold q2, q1, q. rewrite !Z.div_div by lia. apply Z.div_lt_upper_bound; lia. }
  pose proof (Z.div_mod va 4096 ltac:(lia)). pose proof (Z.div_mod q 512 ltac:(lia)).
  pose proof (Z.div_mod q1 512 ltac:(lia)). fold q in H0. fold q1 in H1. fold q2 in H2. lia.
Qed.
