(* ===== verification/Hart.v ===== *)
(** * riscv.h, plic.c and start.c: the registers of a hart

    Each accessor of riscv.h is one [csrr], [csrw] or [mv]: a read or a write of
    a field of [hartst].  sstatus, sie and sip are views of mstatus, mie and
    mip, as the privileged architecture defines them: sstatus shows the bits of
    [SSTATUS_MASK], sie and sip the delegated interrupts, of which only the
    software interrupt can be written through sip.  The delegation register
    keeps the supervisor's interrupts.  The PLIC and the CLINT are memory-mapped:
    the reads of a claim register are inputs, [mmio] records the writes. *)

From S2P Require Import Prelude State Spinlock Memlayout.

Definition upd_hart (f : hartst -> hartst) : M kernel unit := modify (fun s => set_hart (f (hart s)) s).
Definition geth {A} (f : hartst -> A) : M kernel A := gets (fun s => f (hart s)).

Definition SSTATUS_MASK : Z := 0x80000003000DE762.
Definition DELEGABLE : Z := 0x222.

(** The bits of [mask] replaced by those of [x]. *)
Definition merge (mask old x : Z) : Z := Z.lor (Z.ldiff old mask) (Z.land x mask).

(** ** Machine mode *)

Definition r_mhartid : M kernel Z := geth (fun h => c_mhartid h).

Definition MSTATUS_MPP_MASK : Z := Z.shiftl 3 11.
Definition MSTATUS_MPP_M : Z := Z.shiftl 3 11.
Definition MSTATUS_MPP_S : Z := Z.shiftl 1 11.
Definition MSTATUS_MPP_U : Z := Z.shiftl 0 11.
Definition MSTATUS_MIE : Z := Z.shiftl 1 3.

Definition r_mstatus : M kernel Z := geth (fun h => c_mstatus h).
Definition w_mstatus (x : Z) : M kernel unit := upd_hart (set_c_mstatus x).
Definition w_mepc (x : Z) : M kernel unit := upd_hart (set_c_mepc x).

Definition MIE_MEIE : Z := Z.shiftl 1 11.
Definition MIE_MTIE : Z := Z.shiftl 1 7.
Definition MIE_MSIE : Z := Z.shiftl 1 3.
Definition r_mie : M kernel Z := geth (fun h => c_mie h).
Definition w_mie (x : Z) : M kernel unit := upd_hart (set_c_mie x).

Definition r_medeleg : M kernel Z := geth (fun h => c_medeleg h).
Definition w_medeleg (x : Z) : M kernel unit := upd_hart (set_c_medeleg x).
Definition r_mideleg : M kernel Z := geth (fun h => c_mideleg h).
Definition w_mideleg (x : Z) : M kernel unit := upd_hart (set_c_mideleg (Z.land x DELEGABLE)).
Definition w_mtvec (x : Z) : M kernel unit := upd_hart (set_c_mtvec x).
Definition w_pmpcfg0 (x : Z) : M kernel unit := upd_hart (set_c_pmpcfg0 x).
Definition w_pmpaddr0 (x : Z) : M kernel unit := upd_hart (set_c_pmpaddr0 x).
Definition w_mscratch (x : Z) : M kernel unit := upd_hart (set_c_mscratch x).
Definition w_mcounteren (x : Z) : M kernel unit := upd_hart (set_c_mcounteren x).
Definition r_mcounteren : M kernel Z := geth (fun h => c_mcounteren h).
Definition r_time : M kernel Z := geth (fun h => c_time h).

(** ** Supervisor mode *)

Definition SSTATUS_SPP : Z := Z.shiftl 1 8.
Definition SSTATUS_SPIE : Z := Z.shiftl 1 5.
Definition SSTATUS_UPIE : Z := Z.shiftl 1 4.
Definition SSTATUS_SIE : Z := Z.shiftl 1 1.
Definition SSTATUS_UIE : Z := Z.shiftl 1 0.

Definition sstatus (h : hartst) : Z := Z.land (c_mstatus h) SSTATUS_MASK.
Definition r_sstatus : M kernel Z := geth sstatus.
Definition w_sstatus (x : Z) : M kernel unit := upd_hart (fun h => set_c_mstatus (merge SSTATUS_MASK (c_mstatus h) x) h).

Definition r_sip : M kernel Z := geth (fun h => Z.land (c_mip h) (c_mideleg h)).
Definition w_sip (x : Z) : M kernel unit := upd_hart (fun h => set_c_mip (merge (Z.land (c_mideleg h) 2) (c_mip h) x) h).

Definition SIE_SEIE : Z := Z.shiftl 1 9.
Definition SIE_STIE : Z := Z.shiftl 1 5.
Definition SIE_SSIE : Z := Z.shiftl 1 1.
Definition sie (h : hartst) : Z := Z.land (c_mie h) (c_mideleg h).
Definition r_sie : M kernel Z := geth sie.
Definition w_sie (x : Z) : M kernel unit := upd_hart (fun h => set_c_mie (merge (c_mideleg h) (c_mie h) x) h).

Definition w_sepc (x : Z) : M kernel unit := upd_hart (set_c_sepc x).
Definition r_sepc : M kernel Z := geth (fun h => c_sepc h).
Definition w_stvec (x : Z) : M kernel unit := upd_hart (set_c_stvec x).
Definition r_stvec : M kernel Z := geth (fun h => c_stvec h).

Definition SATP_SV39 : Z := Z.shiftl 8 60.
Definition MAKE_SATP (pagetable : Z) : Z := Z.lor SATP_SV39 (Z.shiftr pagetable 12).
Definition w_satp (x : Z) : M kernel unit := upd_hart (set_c_satp x).
Definition r_satp : M kernel Z := geth (fun h => c_satp h).
Definition r_scause : M kernel Z := geth (fun h => c_scause h).
Definition r_stval : M kernel Z := geth (fun h => c_stval h).

Definition intr_on : M kernel unit := x ← r_sstatus; w_sstatus (Z.lor x SSTATUS_SIE).
Definition intr_off : M kernel unit := x ← r_sstatus; w_sstatus (Z.land x (Z.lnot SSTATUS_SIE)).
Definition intr_get : M kernel bool := x ← r_sstatus; mret (negb (Z.land x SSTATUS_SIE =? 0)).

Definition r_sp : M kernel Z := geth (fun h => c_sp h).
Definition r_tp : M kernel Z := geth (fun h => c_tp h).
Definition w_tp (x : Z) : M kernel unit := upd_hart (set_c_tp x).
Definition r_ra : M kernel Z := geth (fun h => c_ra h).
(** The page tables in memory are read at every translation: no TLB to flush. *)
Definition sfence_vma : M kernel unit := mret tt.

(** Must be called with interrupts disabled. *)
Definition cpuid : M kernel Z := id ← r_tp; mret (i32 id).

(** ** plic.c *)

Definition UART0_IRQ : Z := 10.
Definition VIRTIO0_IRQ : Z := 1.
Definition PLIC_SENABLE (hart : Z) : Z := PLIC + 0x2080 + hart * 0x100.
Definition PLIC_SPRIORITY (hart : Z) : Z := PLIC + 0x201000 + hart * 0x2000.
Definition PLIC_SCLAIM (hart : Z) : Z := PLIC + 0x201004 + hart * 0x2000.

(** [*(uint32* )a = v] and [*(uint64* )a = v] on a device. *)
Definition mmio32 (a v : Z) : M kernel unit := upd_hart (fun h => set_mmio ((a, u32 v) :: mmio h) h).
Definition mmio64 (a v : Z) : M kernel unit := upd_hart (fun h => set_mmio ((a, u64 v) :: mmio h) h).

Definition plicinit : M kernel unit :=
  mmio32 (PLIC + UART0_IRQ * 4) 1 ;;
  mmio32 (PLIC + VIRTIO0_IRQ * 4) 1.

Definition plicinithart : M kernel unit :=
  hart ← cpuid;
  mmio32 (PLIC_SENABLE hart) (Z.lor (Z.shiftl 1 UART0_IRQ) (Z.shiftl 1 VIRTIO0_IRQ)) ;;
  mmio32 (PLIC_SPRIORITY hart) 0.

(** Ask the PLIC what interrupt we should serve. *)
Definition plic_claim : M kernel Z :=
  l ← geth (fun h => plic_irqs h);
  match l with
  | [] => mret 0
  | irq :: l => upd_hart (set_plic_irqs l) ;; mret (i32 irq)
  end.

(** Tell the PLIC we've served this IRQ. *)
Definition plic_complete (irq : Z) : M kernel unit :=
  hart ← cpuid;
  mmio32 (PLIC_SCLAIM hart) irq.

(** ** start.c *)

(** Addresses of assembly code, functions and variables, fixed at link time. *)
Class TrapLayout : Type := {
  uservec : Z;
  userret : Z;
  kernelvec : Z;
  timervec : Z;
  usertrap_addr : Z;
  main_addr : Z;
  timer_scratch_addr : Z
}.

Definition CLINT : Z := 0x2000000.
Definition CLINT_MTIMECMP (hartid : Z) : Z := CLINT + 0x4000 + 8 * hartid.
Definition CLINT_MTIME : Z := CLINT + 0xBFF8.

Section start.
Context {T : TrapLayout}.

(** [scratch[i] = v] for [scratch = &timer_scratch[id][0]]. *)
Definition put_scratch (id i v : Z) : M kernel unit :=
  upd_hart (fun h => set_timer_scratch (alter (fun r => <[Z.to_nat i := u64 v]> r) (Z.to_nat id) (timer_scratch h)) h).

(** Arrange to receive timer interrupts. *)
Definition timerinit : M kernel unit :=
  id ← r_mhartid;
  let id := i32 id in
  let interval := 1000000 in
  t ← geth (fun h => mtime h);
  mmio64 (CLINT_MTIMECMP id) (t + interval) ;;
  put_scratch id 3 (CLINT_MTIMECMP id) ;;
  put_scratch id 4 interval ;;
  w_mscratch (timer_scratch_addr + 40 * id) ;;
  w_mtvec timervec ;;
  m ← r_mstatus;
  w_mstatus (Z.lor m MSTATUS_MIE) ;;
  e ← r_mie;
  w_mie (Z.lor e MIE_MTIE).

(** entry.S jumps here in machine mode; the instruction at the end returns to
    [mepc] in the mode of MPP. *)
Definition start : M kernel unit :=
  x ← r_mstatus;
  let x := Z.land x (Z.lnot MSTATUS_MPP_MASK) in
  let x := Z.lor x MSTATUS_MPP_S in
  w_mstatus x ;;
  w_mepc main_addr ;;
  w_satp 0 ;;
  w_medeleg 0xffff ;;
  w_mideleg 0xffff ;;
  e ← r_sie;
  w_sie (Z.lor (Z.lor (Z.lor e SIE_SEIE) SIE_STIE) SIE_SSIE) ;;
  w_pmpaddr0 0x3fffffffffffff ;;
  w_pmpcfg0 0xf ;;
  timerinit ;;
  id ← r_mhartid;
  w_tp (u64 (i32 id)).
End start.

(** ** What start leaves for main *)

Lemma bit_spec k n : 0 <= k -> Z.testbit (Z.shiftl 1 k) n = (n =? k).
Proof. intros Hk. rewrite Z.shiftl_1_l. rewrite Z.pow2_bits_eqb by done. apply Z.eqb_sym. Qed.

Lemma hart_set h s : hart (set_hart h s) = h.
Proof. reflexivity. Qed.

Lemma set_hart_set h h' s : set_hart h (set_hart h' s) = set_hart h s.
Proof. reflexivity. Qed.

Lemma upd_hart_bind {A} f (k : unit -> M kernel A) s : (upd_hart f ≫= k) s = k tt (set_hart (f (hart s)) s).
Proof. reflexivity. Qed.

Lemma geth_bind {A B} (f : hartst -> A) (k : A -> M kernel B) s : (geth f ≫= k) s = k (f (hart s)) s.
Proof. reflexivity. Qed.

(** Run reads and writes of registers. *)
Ltac hart_step := rewrite ?upd_hart_bind, ?geth_bind, ?hart_set, ?set_hart_set; cbv beta zeta.

(** The state of the hart at the return into main. *)
Record ready (T : TrapLayout) (h0 h : hartst) : Prop := mkReady {
  rd_mode : forall n, Z.testbit (c_mstatus h) n = (n =? 3) || (n =? 11) || (negb (n =? 12) && Z.testbit (c_mstatus h0) n);
  rd_pc : c_mepc h = main_addr;
  rd_satp : c_satp h = 0;
  rd_sie : sie h = Z.lor SIE_SEIE (Z.lor SIE_STIE SIE_SSIE);
  rd_mtie : Z.testbit (c_mie h) 7 = true;
  rd_pmp : c_pmpaddr0 h = 0x3fffffffffffff /\ c_pmpcfg0 h = 0xf;
  rd_vec : c_mtvec h = timervec;
  rd_timer : mmio h = (CLINT_MTIMECMP (c_mhartid h), u64 (mtime h + 1000000)) :: mmio h0;
  rd_scratch : exists a b c, timer_scratch h !! Z.to_nat (c_mhartid h) = Some [a; b; c; CLINT_MTIMECMP (c_mhartid h); 1000000];
  rd_others : forall i, i <> Z.to_nat (c_mhartid h) -> timer_scratch h !! i = timer_scratch h0 !! i;
  rd_mscratch : c_mscratch h = timer_scratch_addr + 40 * c_mhartid h;
  rd_tp : c_tp h = c_mhartid h /\ c_mhartid h = c_mhartid h0
}.

(** The previous mode becomes supervisor and machine interrupts are enabled, no other bit of mstatus changes. *)
Lemma mpp_bits x n : Z.testbit (Z.lor (Z.lor (Z.land x (Z.lnot MSTATUS_MPP_MASK)) MSTATUS_MPP_S) MSTATUS_MIE) n =
  (n =? 3) || (n =? 11) || (negb (n =? 12) && Z.testbit x n).
Proof.
  destruct (Z.lt_ge_cases n 0) as [Hn|Hn]; [rewrite !Z.testbit_neg_r by done; destruct (Z.eqb_spec n 3), (Z.eqb_spec n 11), (Z.eqb_spec n 12); (lia || done) |].
  change MSTATUS_MPP_MASK with (Z.lor (Z.shiftl 1 11) (Z.shiftl 1 12)). unfold MSTATUS_MPP_S, MSTATUS_MIE.
  rewrite !Z.lor_spec, Z.land_spec, Z.lnot_spec, Z.lor_spec, !bit_spec by lia. destruct (n =? 3), (n =? 11), (n =? 12), (Z.testbit x n); reflexivity.
Qed.

Lemma sie_bits x y : Z.land (Z.lor (merge 0x222 x (Z.lor (Z.lor (Z.lor y SIE_SEIE) SIE_STIE) SIE_SSIE)) MIE_MTIE) 0x222 = Z.lor SIE_SEIE (Z.lor SIE_STIE SIE_SSIE).
Proof.
  unfold merge. change 0x222 with (Z.lor (Z.shiftl 1 9) (Z.lor (Z.shiftl 1 5) (Z.shiftl 1 1))). unfold SIE_SEIE, SIE_STIE, SIE_SSIE, MIE_MTIE. apply Z.bits_inj'. intros n Hn.
  rewrite !Z.land_spec, !Z.lor_spec, !Z.ldiff_spec, !Z.land_spec, !Z.lor_spec, !bit_spec by lia.
  destruct (Z.eqb_spec n 9), (Z.eqb_spec n 5), (Z.eqb_spec n 1), (Z.eqb_spec n 7), (Z.testbit x n), (Z.testbit y n); (lia || reflexivity).
Qed.

Definition timer_hart {T : TrapLayout} (h : hartst) : hartst :=
  let id := i32 (c_mhartid h) in
  let put i v := alter (fun r => <[i := u64 v]> r) (Z.to_nat id) in
  set_c_mie (Z.lor (c_mie h) MIE_MTIE) (set_c_mstatus (Z.lor (c_mstatus h) MSTATUS_MIE) (set_c_mtvec timervec
    (set_c_mscratch (timer_scratch_addr + 40 * id) (set_timer_scratch (put 4%nat 1000000 (put 3%nat (CLINT_MTIMECMP id) (timer_scratch h)))
      (set_mmio ((CLINT_MTIMECMP id, u64 (mtime h + 1000000)) :: mmio h) h))))).

Lemma timerinit_run {T : TrapLayout} s : timerinit s = Ret tt (set_hart (timer_hart (hart s)) s).
Proof.
  unfold timerinit, r_mhartid, mmio64, put_scratch, w_mscratch, w_mtvec, r_mstatus, w_mstatus, r_mie, w_mie. repeat hart_step.
  reflexivity.
Qed.

(** Start leaves the hart ready for main: mret will enter main in supervisor mode with machine interrupts enabled and no
    other bit of mstatus changed, paging off, the supervisor's interrupts delegated and enabled, all memory accessible, the
    timer due one interval from now with its scratch area filled in, and the hart's number in tp. *)
Theorem start_ready (T : TrapLayout) s : 0 <= c_mhartid (hart s) < NCPU -> length (timer_scratch (hart s)) = Z.to_nat NCPU ->
  Forall (fun r => length r = 5%nat) (timer_scratch (hart s)) ->
  exists h, start s = Ret tt (set_hart h s) /\ ready T (hart s) h.
Proof.
  unfold NCPU. intros Hid Hl Hr. assert (Hi : i32 (c_mhartid (hart s)) = c_mhartid (hart s)) by (apply signed_small; lia).
  eexists. split.
  { unfold start, r_mstatus, w_mstatus, w_mepc, w_satp, w_medeleg, w_mideleg, r_sie, w_sie, w_pmpaddr0, w_pmpcfg0, r_mhartid, w_tp. repeat hart_step.
    erewrite bind_Ret by apply timerinit_run. cbv beta. repeat hart_step. reflexivity. }
  split; cbn [timer_hart hart set_hart c_mstatus c_mepc c_satp c_mie c_pmpaddr0 c_pmpcfg0 c_mtvec mmio mtime timer_scratch c_mscratch c_tp c_mhartid set_c_mstatus set_c_mepc set_c_satp set_c_mie set_c_pmpaddr0 set_c_pmpcfg0 set_c_mtvec set_mmio set_timer_scratch set_c_mscratch set_c_tp set_c_mideleg set_c_medeleg]; rewrite ?Hi; try done.
  - intros n. apply mpp_bits.
  - apply sie_bits.
  - rewrite Z.lor_spec. unfold MIE_MTIE. rewrite bit_spec by lia. by rewrite orb_true_r.
  - destruct (lookup_lt_is_Some_2 (timer_scratch (hart s)) (Z.to_nat (c_mhartid (hart s)))) as [r E]; [lia |].
    rewrite Forall_lookup in Hr. specialize (Hr _ _ E). destruct r as [|a [|b [|c [|d [|e [|]]]]]]; try done.
    exists a, b, c. rewrite !list_lookup_alter_eq, E. cbn. f_equal. unfold CLINT_MTIMECMP, CLINT. by rewrite wrap_small by lia.
  - intros i Hne. by rewrite !list_lookup_alter_ne.
  - split; [|done]. rewrite wrap_small by lia. done.
Qed.

Definition demo_traps : TrapLayout := Build_TrapLayout 0x80006000 0x800060a0 0x80005000 0x80005080 0x80002600 0x80000e00 0x80008000.

Lemma start_ready_witness : exists h, @start demo_traps (boot_kernel (fun _ => [])) = Ret tt (set_hart h (boot_kernel (fun _ => []))) /\
  ready demo_traps (boot_hart 0) h.
Proof.
  apply (start_ready demo_traps (boot_kernel (fun _ => []))); [split; reflexivity || discriminate | reflexivity | repeat constructor].
Defined.
