(* ===== verification/Sched.v ===== *)
(** * kernel/proc.c, the part the rest of the kernel calls: sleep and wakeup

    [sched] hands the CPU to the scheduler: the outcome [Sleep] carries the
    state the thread leaves and the computation to resume.  Loops that sleep
    until a condition changes are bounded by [WAKEUPS], the number of times
    the thread may be woken; the bound is only ever consumed by sleeping. *)

From S2P Require Import Prelude State Spinlock.

Definition WAKEUPS : nat := 1000.

Definition myproc : M kernel nat := gets (fun s => cur s).
Definition getproc (i : nat) : M kernel procst := gets (fun s => procs s !!! i).
Definition upd_proc (i : nat) (f : procst -> procst) : M kernel unit :=
  modify (fun s => set_procs (alter f i (procs s)) s).

(** Switch to scheduler.  [noff] is the number of spinlocks held; with one
    held, interrupts are off. *)
Definition sched : M kernel unit :=
  p ← myproc;
  h ← gets (fun s => held s);
  if decide (LkProc p ∉ h) then panic "sched p->lock" else
  if negb (size h =? 1)%nat then panic "sched locks" else
  pr ← getproc p;
  if decide (p_state pr = RUNNING) then panic "sched running" else
  sleep_on (default ChNone (p_chan pr)).

(** Give up the CPU for one scheduling round. *)
Definition yield : M kernel unit :=
  p ← myproc;
  acquire (LkProc p) ;;
  upd_proc p (set_p_state RUNNABLE) ;;
  sched ;;
  release (LkProc p).

(** Atomically release lock and sleep on chan. *)
Definition sleep (c : chan) (lk : lockid) : M kernel unit :=
  p ← myproc;
  acquire (LkProc p) ;;
  release lk ;;
  upd_proc p (set_p_chan (Some c)) ;;
  upd_proc p (set_p_state SLEEPING) ;;
  sched ;;
  upd_proc p (set_p_chan None) ;;
  release (LkProc p) ;;
  acquire lk.

(** [while(cond) sleep(c, lk);] *)
Fixpoint sleep_while (fuel : nat) (cond : kernel -> bool) (c : chan) (lk : lockid) : M kernel unit :=
  match fuel with
  | O => nofuel
  | S fuel =>
      b ← gets cond;
      if (b : bool) then sleep c lk ;; sleep_while fuel cond c lk else mret tt
  end.

(** Wake up all processes sleeping on chan. *)
Fixpoint wakeup_loop (k i : nat) (c : chan) : M kernel unit :=
  match k with
  | O => mret tt
  | S k =>
      me ← myproc;
      (if (i =? me)%nat then mret tt else
         acquire (LkProc i) ;;
         p ← getproc i;
         (if decide (p_state p = SLEEPING /\ p_chan p = Some c)
          then upd_proc i (set_p_state RUNNABLE) else mret tt) ;;
         release (LkProc i)) ;;
      wakeup_loop k (S i) c
  end.

Definition wakeup (c : chan) : M kernel unit := wakeup_loop (Z.to_nat NPROC) 0 c.

Definition setkilled (p : nat) : M kernel unit :=
  acquire (LkProc p) ;;
  upd_proc p (set_p_killed true) ;;
  release (LkProc p).

Definition killed (p : nat) : M kernel bool :=
  acquire (LkProc p) ;;
  pr ← getproc p;
  release (LkProc p) ;;
  mret (p_killed pr).

(** ** What wakeup does *)

Definition wake_proc (c : chan) (p : procst) : procst :=
  if decide (p_state p = SLEEPING /\ p_chan p = Some c) then set_p_state RUNNABLE p else p.

Fixpoint wake_from (k i me : nat) (c : chan) (ps : list procst) : list procst :=
  match k with
  | O => ps
  | S k => wake_from k (S i) me c (if (i =? me)%nat then ps else alter (wake_proc c) i ps)
  end.

Definition wake (me : nat) (c : chan) (ps : list procst) : list procst :=
  wake_from (Z.to_nat NPROC) 0 me c ps.

(** No [p->lock] is held. *)
Definition no_proc_lock (s : kernel) : Prop := forall i, LkProc i ∉ held s.

Lemma alter_id_proc f i (ps : list procst) : f (ps !!! i) = ps !!! i -> alter f i ps = ps.
Proof.
  intros Hf. apply list_eq. intros j. destruct (decide (i = j)) as [->|Hne].
  - rewrite list_lookup_alter_eq. rewrite list_lookup_total_alt in Hf.
    destruct (ps !! j) eqn:E; [|done]. cbn in *. by rewrite Hf.
  - by rewrite list_lookup_alter_ne.
Qed.

Lemma wakeup_loop_ok k : forall i c s, no_proc_lock s ->
  wakeup_loop k i c s = Ret tt (set_procs (wake_from k i (cur s) c (procs s)) s).
Proof.
  induction k; intros i c s Hl; cbn [wakeup_loop wake_from]; [done |].
  unfold myproc. erewrite bind_Ret by reflexivity. cbv beta. destruct (i =? cur s)%nat.
  - erewrite bind_Ret by reflexivity. by apply IHk.
  - unfold getproc, upd_proc.
    assert (Hstep : (acquire (LkProc i);;
      p ← gets (fun s0 => procs s0 !!! i);
      (if decide (p_state p = SLEEPING /\ p_chan p = Some c)
       then modify (fun s0 => set_procs (alter (set_p_state RUNNABLE) i (procs s0)) s0) else mret tt);;
      release (LkProc i)) s = Ret tt (set_procs (alter (wake_proc c) i (procs s)) s)).
    { erewrite bind_Ret by (apply acquire_Ret, Hl). erewrite bind_Ret by reflexivity. cbn.
      destruct (decide (p_state (procs s !!! i) = SLEEPING /\ p_chan (procs s !!! i) = Some c)) as [Hd|Hd].
      - mred. rewrite release_Ret by (cbn; set_solver). cbn. rewrite held_restore by apply Hl.
        replace (alter (wake_proc c) i (procs s)) with (alter (set_p_state RUNNABLE) i (procs s)); [done |].
        apply list_eq. intros j. destruct (decide (i = j)) as [->|].
        + rewrite !list_lookup_alter_eq. rewrite list_lookup_total_alt in Hd. destruct (procs s !! j) eqn:E; [|done].
          cbn in *. unfold wake_proc. by rewrite decide_True.
        + by rewrite !list_lookup_alter_ne.
      - mred. rewrite release_Ret by (cbn; set_solver). cbn. rewrite held_restore by apply Hl.
        rewrite alter_id_proc; [done |]. unfold wake_proc. by rewrite decide_False. }
    erewrite bind_Ret by exact Hstep. rewrite IHk; [done |]. exact Hl.
Qed.

Lemma wakeup_ok c s : no_proc_lock s -> wakeup c s = Ret tt (set_procs (wake (cur s) c (procs s)) s).
Proof. apply wakeup_loop_ok. Qed.

Lemma wake_from_lookup k : forall i me c ps j, (length ps <= i + k)%nat ->
  wake_from k i me c ps !! j =
    (if decide (i <= j /\ j <> me)%nat then wake_proc c <$> ps !! j else ps !! j).
Proof.
  induction k; intros i me c ps j Hlen; cbn [wake_from].
  - case_decide; [|done]. rewrite lookup_ge_None_2 by lia. done.
  - rewrite IHk by (destruct (i =? me)%nat; rewrite ?length_alter; lia).
    destruct (Nat.eqb_spec i me) as [->|Hne].
    + repeat case_decide; try lia; done.
    + destruct (decide (i = j)) as [->|].
      * rewrite !list_lookup_alter_eq. repeat case_decide; try lia; done.
      * rewrite !list_lookup_alter_ne by done. repeat case_decide; try lia; done.
Qed.

(** Exactly the other processes sleeping on the channel become runnable. *)
Lemma wake_lookup me c ps j : (length ps <= Z.to_nat NPROC)%nat ->
  wake me c ps !! j = (if decide (j = me) then ps !! j else wake_proc c <$> ps !! j).
Proof.
  intros Hlen. unfold wake. rewrite wake_from_lookup by lia. repeat case_decide; try lia; done.
Qed.

Lemma wake_from_total k : forall i me c ps, wake_from k i me c ps !!! me = ps !!! me.
Proof.
  induction k; intros i me c ps; cbn [wake_from]; [done |]. rewrite IHk.
  destruct (Nat.eqb_spec i me); [done |]. rewrite !list_lookup_total_alt. by rewrite list_lookup_alter_ne.
Qed.

Lemma wake_me me c ps : wake me c ps !!! me = ps !!! me.
Proof. apply wake_from_total. Qed.

Lemma length_wake me c ps : length (wake me c ps) = length ps.
Proof.
  unfold wake. generalize (Z.to_nat NPROC) 0%nat. intros k. revert ps.
  induction k; intros ps i; cbn [wake_from]; [done |]. rewrite IHk. destruct (i =? me)%nat; [done |]. apply length_alter.
Qed.

#[global] Arguments wake : simpl never.
#[global] Arguments wakeup : simpl never.
#[global] Opaque wake.

Lemma killed_run p s : LkProc p ∉ held s -> killed p s = Ret (p_killed (procs s !!! p)) s.
Proof.
  intros H. unfold killed, getproc. erewrite bind_Ret by (by apply acquire_Ret). cbv beta. erewrite bind_Ret by reflexivity. cbv beta.
  erewrite bind_Ret by (apply release_Ret; cbn; set_solver). cbn. by rewrite held_restore.
Qed.
