(* ===== verification/Sleeplock.v ===== *)
(** * kernel/sleeplock.c: long-term locks for processes *)

From S2P Require Import Prelude State Spinlock Sched.

(** The kernel's sleep locks: one per buffer and one per in-memory inode. *)
Inductive slk : Type := SlBuf (i : nat) | SlInode (i : nat).

Definition sl_spin (l : slk) : lockid :=
  match l with SlBuf i => LkBufSleep i | SlInode i => LkInodeSleep i end.
Definition sl_chan (l : slk) : chan :=
  match l with SlBuf i => ChBufLock i | SlInode i => ChInodeLock i end.
Definition get_sl (l : slk) (s : kernel) : sleeplock :=
  match l with SlBuf i => b_lock (bufs s !!! i) | SlInode i => i_lock (itable s !!! i) end.
Definition put_sl (l : slk) (f : sleeplock -> sleeplock) (s : kernel) : kernel :=
  match l with
  | SlBuf i => set_bufs (alter (fun b => set_b_lock (f (b_lock b)) b) i (bufs s)) s
  | SlInode i => set_itable (alter (fun ip => set_i_lock (f (i_lock ip)) ip) i (itable s)) s
  end.
Definition upd_sl (l : slk) (f : sleeplock -> sleeplock) : M kernel unit := modify (put_sl l f).

Definition initsleeplock (l : slk) : M kernel unit :=
  initlock (sl_spin l) ;;
  upd_sl l (set_sl_locked false) ;;
  upd_sl l (set_sl_pid 0).

Definition acquiresleep (l : slk) : M kernel unit :=
  acquire (sl_spin l) ;;
  sleep_while WAKEUPS (fun s => sl_locked (get_sl l s)) (sl_chan l) (sl_spin l) ;;
  upd_sl l (set_sl_locked true) ;;
  me ← myproc;
  p ← getproc me;
  upd_sl l (set_sl_pid (p_pid p)) ;;
  release (sl_spin l).

Definition releasesleep (l : slk) : M kernel unit :=
  acquire (sl_spin l) ;;
  upd_sl l (set_sl_locked false) ;;
  upd_sl l (set_sl_pid 0) ;;
  wakeup (sl_chan l) ;;
  release (sl_spin l).

Definition holdingsleep (l : slk) : M kernel bool :=
  acquire (sl_spin l) ;;
  me ← myproc;
  p ← getproc me;
  lk ← gets (get_sl l);
  release (sl_spin l) ;;
  mret (sl_locked lk && (sl_pid lk =? p_pid p)).

(** ** Behaviour when nobody has to wait *)

Definition mine (s : kernel) : procst := procs s !!! cur s.
Definition mypid (s : kernel) : Z := p_pid (procs s !!! cur s).

Lemma mine_pid s s' : mine s' = mine s -> mypid s' = mypid s.
Proof. intros E. exact (f_equal p_pid E). Qed.

Definition lock_by (pid : Z) (k : sleeplock) : sleeplock := mkSleeplock true pid.
Definition unlock (k : sleeplock) : sleeplock := mkSleeplock false 0.

Lemma alter_compose_list {A} (f g : A -> A) i (l : list A) : alter f i (alter g i l) = alter (fun x => f (g x)) i l.
Proof.
  apply list_eq. intros j. destruct (decide (i = j)) as [->|].
  - rewrite !list_lookup_alter_eq. by destruct (l !! j).
  - by rewrite !list_lookup_alter_ne.
Qed.

Lemma put_sl_compose l f g s : put_sl l f (put_sl l g s) = put_sl l (fun k => f (g k)) s.
Proof. destruct l; cbn; by rewrite alter_compose_list. Qed.

Lemma put_sl_ext l f g s : (forall k, f k = g k) -> put_sl l f s = put_sl l g s.
Proof.
  intros E. destruct l as [i|i]; cbn; f_equal; apply list_eq; intros j; (destruct (decide (i = j)) as [->|];
    [rewrite !list_lookup_alter_eq | by rewrite !list_lookup_alter_ne]).
  - destruct (bufs s !! j); [|done]. cbn. by rewrite E.
  - destruct (itable s !! j); [|done]. cbn. by rewrite E.
Qed.

Lemma acquiresleep_free l s : sl_spin l ∉ held s -> sl_locked (get_sl l s) = false ->
  acquiresleep l s = Ret tt (put_sl l (lock_by (mypid s)) s).
Proof.
  intros Hl Hf. unfold acquiresleep. erewrite bind_Ret by (by apply acquire_Ret).
  assert (Hg : forall h, get_sl l (set_held h s) = get_sl l s) by (intros; by destruct l).
  erewrite bind_Ret.
  2: { unfold WAKEUPS. cbn [sleep_while]. erewrite bind_Ret by reflexivity. rewrite Hg, Hf. reflexivity. }
  unfold upd_sl, myproc, getproc. mred. rewrite release_Ret by (destruct l; cbn; set_solver).
  f_equal. unfold mypid. destruct l; cbn; rewrite held_restore by done; f_equal; rewrite alter_compose_list; done.
Qed.

Lemma releasesleep_ok l s : sl_spin l ∉ held s -> no_proc_lock s ->
  releasesleep l s = Ret tt (set_procs (wake (cur s) (sl_chan l) (procs s)) (put_sl l unlock s)).
Proof.
  intros Hl Hp. unfold releasesleep. erewrite bind_Ret by (by apply acquire_Ret). unfold upd_sl.
  erewrite bind_Ret by reflexivity. erewrite bind_Ret by reflexivity. erewrite bind_Ret.
  2: { apply wakeup_ok. intros i. specialize (Hp i). destruct l; cbn; set_solver. }
  rewrite release_Ret by (destruct l; cbn; set_solver).
  f_equal. destruct l; cbn; rewrite held_restore by done; rewrite alter_compose_list; done.
Qed.

Lemma holdingsleep_ok l s : sl_spin l ∉ held s ->
  holdingsleep l s = Ret (sl_locked (get_sl l s) && (sl_pid (get_sl l s) =? mypid s)) s.
Proof.
  intros Hl. unfold holdingsleep. erewrite bind_Ret by (by apply acquire_Ret). unfold myproc, getproc. mred.
  rewrite release_Ret by (cbn; set_solver). destruct l; cbn; by rewrite held_restore.
Qed.

(** ** Waiting *)

(** The lock exists. *)
Definition sl_valid (l : slk) (s : kernel) : Prop :=
  match l with SlBuf i => (i < length (bufs s))%nat | SlInode i => (i < length (itable s))%nat end.

Lemma get_put_sl l f s : sl_valid l s -> get_sl l (put_sl l f s) = f (get_sl l s).
Proof.
  destruct l as [i|i]; cbn; intros Hv; rewrite !list_lookup_total_alt, list_lookup_alter_eq.
  - destruct (lookup_lt_is_Some_2 (bufs s) i Hv) as [b ->]. done.
  - destruct (lookup_lt_is_Some_2 (itable s) i Hv) as [b ->]. done.
Qed.

(** The state a thread leaves when it goes to sleep on [c], and the one it goes
    on in after waking up in [s']. *)
Definition sleeping (me : nat) (c : chan) (s : kernel) : kernel :=
  set_held {[LkProc me]} (set_procs (alter (fun p => set_p_state SLEEPING (set_p_chan (Some c) p)) me (procs s)) s).
Definition woken (me : nat) (lk : lockid) (s' : kernel) : kernel :=
  set_held {[lk]} (set_procs (alter (set_p_chan None) me (procs s')) s').

Lemma sched_run me c s : cur s = me -> (me < length (procs s))%nat -> sched (sleeping me c s) = Sleep c (sleeping me c s) (fun s' => Ret tt s').
Proof.
  intros Hc Hme. set (s1 := sleeping me c s). unfold sched, myproc, getproc. mred. change (cur s1) with (cur s). rewrite Hc.
  change (held s1) with ({[LkProc me]} : gset lockid). rewrite decide_False by set_solver.
  rewrite size_singleton. cbn [Nat.eqb negb]. mred.
  destruct (lookup_lt_is_Some_2 (procs s) me Hme) as [p Hp].
  assert (E : procs s1 !!! me = set_p_state SLEEPING (set_p_chan (Some c) p)).
  { cbn. rewrite list_lookup_total_alt, list_lookup_alter_eq, Hp. done. }
  rewrite E. cbn. done.
Qed.

Lemma sleep_run {B} (f : unit -> M kernel B) c lk me s : cur s = me -> held s = {[lk]} -> lk <> LkProc me -> (me < length (procs s))%nat ->
  exists k, (sleep c lk ≫= f) s = Sleep c (sleeping me c s) k /\
    forall s', cur s' = me -> held s' = {[LkProc me]} -> k s' = f tt (woken me lk s').
Proof.
  intros Hc Hh Hne Hme. unfold mbind at 1, M_bind at 1, bind at 1. unfold sleep, myproc, upd_proc.
  erewrite bind_Ret by reflexivity. rewrite Hc. cbv beta.
  erewrite bind_Ret by (apply acquire_Ret; rewrite Hh; set_solver).
  erewrite bind_Ret by (apply release_Ret; cbn; rewrite Hh; set_solver).
  erewrite bind_Ret by reflexivity. erewrite bind_Ret by reflexivity.
  match goal with |- exists k, obind ((_ ≫= _) ?t) _ = _ /\ _ => assert (Et : t = sleeping me c s) end.
  { unfold sleeping. cbn. rewrite alter_compose_list, Hh.
    replace (({[LkProc me]} ∪ {[lk]}) ∖ {[lk]}) with ({[LkProc me]} : gset lockid) by set_solver. reflexivity. }
  rewrite Et. clear Et. unfold mbind at 1, M_bind at 1, bind at 1. rewrite (sched_run me c s Hc Hme). cbn [obind].
  eexists. split; [reflexivity |]. intros s' Hc' Hh'. cbv beta. cbn [obind].
  mred. rewrite release_Ret by (cbn; rewrite Hh'; set_solver). cbn.
  rewrite acquire_Ret by (cbn; rewrite Hh'; set_solver). cbn.
  replace ({[lk]} ∪ held s' ∖ {[LkProc me]}) with ({[lk]} : gset lockid) by (rewrite Hh'; set_solver). reflexivity.
Qed.
