(* ===== verification/Waiting.v ===== *)
(** * Condition loops

    [while(cond) sleep(c, lk);] and the code after it, for any condition that does
    not read the process table: [waits] says when the thread sleeps and what it
    leaves behind, and relates the state it returns in to the one in which it found
    the condition false, whatever has run in between. *)

From S2P Require Import Prelude State Spinlock Sched Sleeplock.

(** The condition depends neither on the locks held nor on the process table. *)
Definition stable (cond : kernel -> bool) : Prop := forall h ps s, cond (set_held h (set_procs ps s)) = cond s.

(** Where a thread resumed in [s'] goes on, but for the lock it takes again. *)
Definition awake (me : nat) (s' : kernel) : kernel := set_held ∅ (set_procs (alter (set_p_chan None) me (procs s')) s').

Section waiting.
Context {A : Type} (me : nat) (env : kernel -> Prop) (cond : kernel -> bool) (c : chan) (fin : kernel -> A -> kernel -> Prop).

(** [waits n s o]: [o] is the outcome of code that looks at [s], goes to sleep on [c]
    exactly when [cond] holds there, holding nothing but [p->lock], and looks again
    when it is resumed, in any state that satisfies [env]; when [cond] does not hold
    it returns, and [fin] relates the state it looked at, the result and the state
    after it.  It may be woken [n] times. *)
Fixpoint waits (n : nat) (s : kernel) (o : outcome kernel A) : Prop :=
  match n with
  | O => o = NoFuel
  | S n =>
      if cond s then
        exists k, o = Sleep c (sleeping me c s) k /\
          forall s', cur s' = me -> held s' = {[LkProc me]} -> (me < length (procs s'))%nat -> env (awake me s') ->
            waits n (awake me s') (k s')
      else exists a s', o = Ret a s' /\ fin s a s'
  end.

(** A condition loop and the code after it. *)
Lemma sleep_while_waits lk (f : unit -> M kernel A) : lk <> LkProc me -> stable cond ->
  (forall s, cur s = me -> held s = ∅ -> env s -> cond s = false -> exists a s', f tt (set_held {[lk]} s) = Ret a s' /\ fin s a s') ->
  forall n s, cur s = me -> held s = ∅ -> (me < length (procs s))%nat -> env s ->
  waits n s ((sleep_while n cond c lk ≫= f) (set_held {[lk]} s)).
Proof.
  intros Hlk Hst Hf. induction n as [|n IH]; intros s Hc Hh Hme He; [reflexivity |]. cbn [waits].
  assert (Ec : cond (set_held {[lk]} s) = cond s) by exact (Hst {[lk]} (procs s) s).
  assert (Es : sleep_while (S n) cond c lk (set_held {[lk]} s) = if cond s then (sleep c lk ;; sleep_while n cond c lk) (set_held {[lk]} s) else Ret tt (set_held {[lk]} s)).
  { cbn [sleep_while]. erewrite bind_Ret by reflexivity. cbv beta. rewrite Ec. by destruct (cond s). }
  destruct (cond s) eqn:E; [|erewrite bind_Ret by exact Es; by apply Hf].
  destruct (sleep_run (fun _ => sleep_while n cond c lk) c lk me (set_held {[lk]} s)) as (k & Ek & Hk); [done | done | done | done |].
  rewrite Ek in Es. unfold mbind, M_bind, bind. rewrite Es. cbn [obind]. eexists. split; [reflexivity |]. intros s' Hc' Hh' Hm' He'. cbv beta. rewrite (Hk s' Hc' Hh').
  change (woken me lk s') with (set_held {[lk]} (awake me s')). apply IH; [exact Hc' | reflexivity | | exact He'].
  cbn [awake procs set_held set_procs]. by rewrite length_alter.
Qed.
End waiting.

(** Called with no lock held, from [acquire] on. *)
Lemma acquire_waits {A} me env cond c fin lk (f : unit -> M kernel A) s : lk <> LkProc me -> stable cond ->
  (forall s, cur s = me -> held s = ∅ -> env s -> cond s = false -> exists a s', f tt (set_held {[lk]} s) = Ret a s' /\ fin s a s') ->
  cur s = me -> held s = ∅ -> (me < length (procs s))%nat -> env s ->
  waits me env cond c fin WAKEUPS s ((acquire lk ;; x ← sleep_while WAKEUPS cond c lk; f x) s).
Proof.
  intros Hlk Hst Hf Hc Hh Hme He. erewrite bind_Ret by (apply acquire_Ret; rewrite Hh; apply not_elem_of_empty). rewrite Hh, (right_id_L ∅ (∪)).
  by apply sleep_while_waits.
Qed.

(** ** Sleep locks *)

(** The lock was free, and is now the caller's; nothing else has changed. *)
Definition sl_taken (l : slk) (s : kernel) (_ : unit) (s' : kernel) : Prop :=
  sl_locked (get_sl l s) = false /\ s' = put_sl l (lock_by (mypid s)) s.

(** C30: [acquiresleep] goes to sleep exactly when the lock is taken, on the lock's
    own channel and holding nothing but [p->lock], and looks at the lock again each
    time it is woken.  It returns only after it has found the lock free, and then the
    lock is held by the calling process and nothing else differs from the state it
    found; every spinlock is given back, and it never panics, whatever other
    processes do while it sleeps. *)
Theorem acquiresleep_safe (l : slk) (me : nat) (s : kernel) (Hc : cur s = me) (Hh : held s = ∅) (Hme : (me < length (procs s))%nat) :
  waits me (fun _ => True) (fun s => sl_locked (get_sl l s)) (sl_chan l) (sl_taken l) WAKEUPS s (acquiresleep l s).
Proof.
  unfold acquiresleep. apply acquire_waits; try done; [by destruct l |].
  intros s1 Hc1 Hh1 _ Hf. exists tt, (put_sl l (lock_by (mypid s1)) s1). split; [|by split].
  unfold upd_sl, myproc, getproc. mred. rewrite put_sl_compose, release_Ret by (destruct l; cbn; set_solver).
  assert (Eh : {[sl_spin l]} ∖ {[sl_spin l]} = held s1) by (rewrite Hh1; set_solver).
  f_equal. destruct l; cbn; cbn in Eh; rewrite Eh; reflexivity.
Qed.

(** Lock 3 is held by process 7, which gives it back while process 0 waits. *)
Lemma acquiresleep_safe_witness :
  match acquiresleep (SlBuf 3) (put_sl (SlBuf 3) (lock_by 7) (boot_kernel (fun _ => []))) with
  | Sleep c s k => c = ChBufLock 3 /\ exists s', k (put_sl (SlBuf 3) unlock s) = Ret tt s' /\ sl_locked (get_sl (SlBuf 3) s') = true /\ held s' = ∅
  | _ => False
  end.
Proof.
  pose proof (acquiresleep_safe (SlBuf 3) 0 (put_sl (SlBuf 3) (lock_by 7) (boot_kernel (fun _ => []))) eq_refl eq_refl ltac:(vm_compute; lia)) as H.
  change WAKEUPS with (S (S 998)) in H. cbn [waits] in H. change (sl_locked (get_sl (SlBuf 3) (put_sl (SlBuf 3) (lock_by 7) (boot_kernel (fun _ => []))))) with true in H. cbv iota in H.
  destruct H as (k & -> & H). split; [reflexivity |].
  specialize (H (put_sl (SlBuf 3) unlock (sleeping 0 (ChBufLock 3) (put_sl (SlBuf 3) (lock_by 7) (boot_kernel (fun _ => []))))) eq_refl eq_refl ltac:(vm_compute; lia) I).
  match type of H with if ?b then _ else _ => change b with false in H end. cbv iota in H. destruct H as ([] & s' & E & _ & ->).
  eexists. split; [exact E |]. split; reflexivity.
Defined.
