(* ===== verification/Bio.v ===== *)
(** * kernel/bio.c: the buffer cache

    A buffer pointer is an index into [bufs]; index [HEAD] is [bcache.head].
    The cache is a doubly linked ring through [prev] and [next], scanned from
    the most recently used end for a cached block and from the least recently
    used end for a buffer to recycle.

    [disk_rw] is what virtio_disk_rw promises its callers: the transfer of one
    whole block, complete when the call returns (the driver is virtio_disk.c). *)

From S2P Require Import Prelude State Spinlock Sched Sleeplock.

Definition HEAD : nat := Z.to_nat NBUF.

Definition getbuf (i : nat) : M kernel buf := gets (fun s => bufs s !!! i).
Definition upd_buf (i : nat) (f : buf -> buf) : M kernel unit :=
  modify (fun s => set_bufs (alter f i (bufs s)) s).

(** Completed write of [data] to block [n]. *)
Definition disk_write (n : Z) (data : list Z) (d : diskst) : diskst :=
  mkDisk (fun x => if x =? n then data else d_blocks d x) ((n, data) :: d_writes d).

Definition disk_rw (b : nat) (write : bool) : M kernel unit :=
  acquire LkVdisk ;;
  bp ← getbuf b;
  (if write
   then modify (fun s => set_disk (disk_write (b_blockno bp) (b_data bp) (disk s)) s)
   else d ← gets (fun s => disk s); upd_buf b (set_b_data (d_blocks d (b_blockno bp)))) ;;
  release LkVdisk.

Fixpoint binit_loop (k b : nat) : M kernel unit :=
  match k with
  | O => mret tt
  | S k =>
      h ← getbuf HEAD;
      upd_buf b (set_b_next (b_next h)) ;;
      upd_buf b (set_b_prev HEAD) ;;
      initsleeplock (SlBuf b) ;;
      h ← getbuf HEAD;
      upd_buf (b_next h) (set_b_prev b) ;;
      upd_buf HEAD (set_b_next b) ;;
      binit_loop k (S b)
  end.

Definition binit : M kernel unit :=
  initlock LkBcache ;;
  upd_buf HEAD (set_b_prev HEAD) ;;
  upd_buf HEAD (set_b_next HEAD) ;;
  binit_loop HEAD 0.

(** [for(b = bcache.head.next; b != &bcache.head; b = b->next)]: the cached
    buffer, with its reference taken. *)
Fixpoint bget_cached (fuel b : nat) (dev blockno : Z) : M kernel (option nat) :=
  match fuel with
  | O => nofuel
  | S fuel =>
      if (b =? HEAD)%nat then mret None else
      bp ← getbuf b;
      if (b_dev bp =? dev) && (b_blockno bp =? blockno) then
        upd_buf b (set_b_refcnt (u32 (b_refcnt bp + 1))) ;;
        mret (Some b)
      else bget_cached fuel (b_next bp) dev blockno
  end.

(** [for(b = bcache.head.prev; b != &bcache.head; b = b->prev)]: recycle the
    least recently used unused buffer. *)
Fixpoint bget_recycle (fuel b : nat) (dev blockno : Z) : M kernel (option nat) :=
  match fuel with
  | O => nofuel
  | S fuel =>
      if (b =? HEAD)%nat then mret None else
      bp ← getbuf b;
      if b_refcnt bp =? 0 then
        upd_buf b (set_b_dev dev) ;;
        upd_buf b (set_b_blockno blockno) ;;
        upd_buf b (set_b_valid false) ;;
        upd_buf b (set_b_refcnt 1) ;;
        mret (Some b)
      else bget_recycle fuel (b_prev bp) dev blockno
  end.

Definition bget (dev blockno : Z) : M kernel nat :=
  acquire LkBcache ;;
  h ← getbuf HEAD;
  r ← bget_cached (S HEAD) (b_next h) dev blockno;
  match r with
  | Some b => release LkBcache ;; acquiresleep (SlBuf b) ;; mret b
  | None =>
      h ← getbuf HEAD;
      r ← bget_recycle (S HEAD) (b_prev h) dev blockno;
      match r with
      | Some b => release LkBcache ;; acquiresleep (SlBuf b) ;; mret b
      | None => panic "bget: no buffers"
      end
  end.

Definition bread (dev blockno : Z) : M kernel nat :=
  b ← bget dev blockno;
  bp ← getbuf b;
  (if b_valid bp then mret tt else
     disk_rw b false ;;
     upd_buf b (set_b_valid true)) ;;
  mret b.

Definition bwrite (b : nat) : M kernel unit :=
  h ← holdingsleep (SlBuf b);
  if negb h then panic "bwrite" else
  disk_rw b true.

Definition brelse (b : nat) : M kernel unit :=
  h ← holdingsleep (SlBuf b);
  if negb h then panic "brelse" else
  releasesleep (SlBuf b) ;;
  acquire LkBcache ;;
  bp ← getbuf b;
  upd_buf b (set_b_refcnt (u32 (b_refcnt bp - 1))) ;;
  bp ← getbuf b;
  (if b_refcnt bp =? 0 then
     (* no one is waiting for it *)
     bp ← getbuf b;
     upd_buf (b_next bp) (set_b_prev (b_prev bp)) ;;
     bp ← getbuf b;
     upd_buf (b_prev bp) (set_b_next (b_next bp)) ;;
     h ← getbuf HEAD;
     upd_buf b (set_b_next (b_next h)) ;;
     upd_buf b (set_b_prev HEAD) ;;
     h ← getbuf HEAD;
     upd_buf (b_next h) (set_b_prev b) ;;
     upd_buf HEAD (set_b_next b)
   else mret tt) ;;
  release LkBcache.

Definition bpin (b : nat) : M kernel unit :=
  acquire LkBcache ;;
  bp ← getbuf b;
  upd_buf b (set_b_refcnt (u32 (b_refcnt bp + 1))) ;;
  release LkBcache.

Definition bunpin (b : nat) : M kernel unit :=
  acquire LkBcache ;;
  bp ← getbuf b;
  upd_buf b (set_b_refcnt (u32 (b_refcnt bp - 1))) ;;
  release LkBcache.

(** ** The ring *)

Section ring.
Implicit Types (nx pv : nat -> nat) (l : list nat).

(** Consecutive elements of [l] are linked both ways. *)
Fixpoint linked nx pv l : Prop :=
  match l with
  | x :: (y :: _) as l' => nx x = y /\ pv y = x /\ linked nx pv l'
  | _ => True
  end.

Lemma linked_cons nx pv x y l : linked nx pv (x :: y :: l) <-> nx x = y /\ pv y = x /\ linked nx pv (y :: l).
Proof. done. Qed.

Lemma linked_app nx pv l1 x l2 : linked nx pv (l1 ++ x :: l2) <-> linked nx pv (l1 ++ [x]) /\ linked nx pv (x :: l2).
Proof.
  induction l1 as [|y l1 IH]; [cbn; tauto |]. destruct l1 as [|z l1].
  - cbn [app]. rewrite linked_cons. cbn. tauto.
  - cbn [app] in *. rewrite !linked_cons, IH. tauto.
Qed.

(** Only the links between consecutive elements matter. *)
Lemma linked_ext nx pv nx' pv' l :
  (forall z, z ∈ removelast l -> nx' z = nx z) -> (forall z, z ∈ tail l -> pv' z = pv z) ->
  linked nx pv l -> linked nx' pv' l.
Proof.
  induction l as [|x l IH]; intros Hn Hp; [done |]. destruct l as [|y l]; [done |].
  rewrite !linked_cons. intros (H1 & H2 & H3). rewrite Hn, Hp by (cbn; set_solver). split_and!; [done | done |].
  apply IH; [| |done]; intros w Hw; [apply Hn | apply Hp]; cbn in *; set_solver.
Qed.

(** The ring of [order] with the head [h]. *)
Definition ring nx pv (h : nat) (order : list nat) : Prop :=
  linked nx pv (h :: order ++ [h]) /\ NoDup (h :: order).

Lemma linked_unlink nx pv A a i b B :
  linked nx pv (A ++ a :: i :: b :: B) -> a ∉ A -> a ∉ removelast (b :: B) -> b ∉ tail (A ++ [a]) -> b ∉ B ->
  linked (fun z => if (z =? a)%nat then b else nx z) (fun z => if (z =? b)%nat then a else pv z) (A ++ a :: b :: B).
Proof.
  rewrite (linked_app _ _ A a (i :: b :: B)), (linked_app _ _ A a (b :: B)). intros [HA HB] Ha1 Ha2 Hb1 Hb2. rewrite !linked_cons in *.
  destruct HB as (_ & _ & _ & _ & HB). rewrite !Nat.eqb_refl. split_and!; [|done|done|].
  - eapply linked_ext; [| |exact HA]; intros z Hz; cbn.
    + rewrite removelast_last in Hz. destruct (Nat.eqb_spec z a); [by subst | done].
    + destruct (Nat.eqb_spec z b); [by subst | done].
  - eapply linked_ext; [| |exact HB]; intros z Hz; cbn.
    + destruct (Nat.eqb_spec z a); [by subst | done].
    + cbn in Hz. destruct (Nat.eqb_spec z b); [by subst | done].
Qed.

(** Removing [i] and closing the gap. *)
Lemma ring_unlink nx pv h l1 i l2 : ring nx pv h (l1 ++ i :: l2) ->
  ring (fun z => if (z =? pv i)%nat then nx i else nx z) (fun z => if (z =? nx i)%nat then pv i else pv z) h (l1 ++ l2).
Proof.
  intros [Hl Hnd]. assert (Hnd' : NoDup (h :: l1 ++ l2)).
  { rewrite !NoDup_cons, !NoDup_app, NoDup_cons in *. set_solver. }
  split; [|done]. destruct (@exists_last _ (h :: l1)) as (A & a & EA); [done |].
  destruct (l2 ++ [h]) as [|b B] eqn:EB; [by apply app_nil in EB as [_ ?] |].
  assert (EH : h :: (l1 ++ i :: l2) ++ [h] = A ++ a :: i :: b :: B).
  { change (h :: (l1 ++ i :: l2) ++ [h]) with ((h :: l1 ++ i :: l2) ++ [h]). rewrite app_comm_cons, EA, <- !app_assoc. cbn. by rewrite EB. }
  assert (EH' : h :: (l1 ++ l2) ++ [h] = A ++ a :: b :: B).
  { change (h :: (l1 ++ l2) ++ [h]) with ((h :: l1 ++ l2) ++ [h]). rewrite app_comm_cons, EA, <- !app_assoc. by rewrite EB. }
  rewrite EH in Hl. rewrite EH'. pose proof Hl as Hl'. rewrite linked_app, !linked_cons in Hl'.
  destruct Hl' as (_ & _ & -> & -> & _).
  assert (Hal : a ∈ h :: l1) by (rewrite EA; set_solver).
  assert (Hbl : b ∈ l2 ++ [h]) by (rewrite EB; set_solver).
  assert (HrB : removelast (b :: B) = l2) by (rewrite <- EB; apply removelast_last).
  assert (HtA : tail (A ++ [a]) = l1) by (rewrite <- EA; done).
  apply (linked_unlink nx pv A a i b B); [done | | rewrite HrB | rewrite HtA |].
  - assert (Hn : NoDup (A ++ [a])) by (rewrite <- EA, app_comm_cons, NoDup_app in *; naive_solver).
    apply NoDup_app in Hn as (_ & Hn & _). intros Ha. by apply (Hn a Ha), list_elem_of_singleton.
  - rewrite NoDup_cons, NoDup_app in Hnd'. set_solver.
  - rewrite NoDup_cons, NoDup_app in Hnd'. set_solver.
  - assert (Hn : NoDup (b :: B)).
    { rewrite <- EB. apply NoDup_app. rewrite NoDup_cons, NoDup_app in Hnd'. split_and!; [naive_solver | | apply NoDup_singleton].
      intros x Hx Hxh. apply list_elem_of_singleton in Hxh as ->. set_solver. }
    by apply NoDup_cons in Hn as [? _].
Qed.

(** Inserting [i] after the head. *)
Lemma ring_push nx pv h order i : ring nx pv h order -> i ∉ h :: order ->
  ring (fun z => if (z =? h)%nat then i else if (z =? i)%nat then nx h else nx z)
       (fun z => if (z =? nx h)%nat then i else if (z =? i)%nat then h else pv z) h (i :: order).
Proof.
  intros [Hl Hnd] Hi. apply not_elem_of_cons in Hi as [Hih Hio]. split.
  2: { rewrite !NoDup_cons in *. set_solver. }
  destruct (order ++ [h]) as [|f rest] eqn:E; [by apply app_nil in E as [_ ?] |].
  cbn [app]. rewrite E. rewrite !linked_cons in *. destruct Hl as (-> & P1 & Hl). rewrite !Nat.eqb_refl.
  assert (Hf : f ∈ order ++ [h]) by (rewrite E; set_solver).
  destruct (Nat.eqb_spec i h) as [|_]; [done |].
  destruct (Nat.eqb_spec i f) as [->|_]; [exfalso; set_solver |]. rewrite ?Nat.eqb_refl. split_and!; [done | done | done | done |].
  apply NoDup_cons in Hnd as [Hho Hno]. assert (Hn : NoDup (f :: rest)).
  { rewrite <- E. apply NoDup_app. split_and!; [done | | apply NoDup_singleton].
    intros x Hx Hxh. apply list_elem_of_singleton in Hxh as ->. done. }
  apply NoDup_cons in Hn as [Hfr _].
  eapply linked_ext; [| |exact Hl]; intros z Hz; cbn.
  - rewrite <- E, removelast_last in Hz. destruct (Nat.eqb_spec z h); [by subst |]. destruct (Nat.eqb_spec z i); [by subst | done].
  - cbn in Hz. destruct (Nat.eqb_spec z f); [by subst |]. destruct (Nat.eqb_spec z i) as [->|]; [|done].
    exfalso. assert (i ∈ order ++ [h]) by (rewrite E; set_solver). set_solver.
Qed.

Lemma ring_ext nx pv nx' pv' h order : (forall z, nx' z = nx z) -> (forall z, pv' z = pv z) ->
  ring nx pv h order -> ring nx' pv' h order.
Proof. intros Hn Hp [Hl Hnd]. split; [|done]. eapply linked_ext; [| |exact Hl]; auto. Qed.

Lemma ring_nil nx pv h : nx h = h -> pv h = h -> ring nx pv h [].
Proof. intros. split; [done | apply NoDup_singleton]. Qed.
End ring.
