(* ===== verification/BufCache.v ===== *)
(** * The buffer cache as a map from block numbers to contents

    [bok] is the invariant of the buffers, [binv] adds the LRU ring.  Through
    it the cache is three functions of the block number: [bview] (the current
    contents), [bref] (references) and [blocked] (whether it is locked).  The
    operations of bio.c are specified by what they do to these. *)

From S2P Require Import Prelude State Spinlock Sched Sleeplock Bio.

Definition is_block (bn : Z) (b : buf) : Prop := b_dev b = ROOTDEV /\ b_blockno b = bn.

#[export] Instance is_block_dec bn b : Decision (is_block bn b).
Proof. unfold is_block. apply _. Defined.

Record bok (bs : list buf) (d : diskst) : Prop := mkBok {
  bk_len : length bs = S HEAD;
  bk_uniq : forall i j bn, (i < HEAD)%nat -> (j < HEAD)%nat -> is_block bn (bs !!! i) -> is_block bn (bs !!! j) -> i = j;
  bk_dev : forall i, (i < HEAD)%nat -> b_dev (bs !!! i) = ROOTDEV \/
             (b_dev (bs !!! i) = 0 /\ b_valid (bs !!! i) = false /\ b_refcnt (bs !!! i) = 0);
  bk_ref : forall i, (i < HEAD)%nat -> 0 <= b_refcnt (bs !!! i) < 2 ^ 32;
  bk_data : forall i, (i < HEAD)%nat -> length (b_data (bs !!! i)) = Z.to_nat BSIZE;
  bk_lock : forall i, (i < HEAD)%nat -> sl_locked (b_lock (bs !!! i)) = true -> 0 < b_refcnt (bs !!! i);
  (* an unreferenced buffer may be recycled: it must hold nothing the disk does not *)
  bk_clean : forall i, (i < HEAD)%nat -> b_refcnt (bs !!! i) = 0 -> b_valid (bs !!! i) = true ->
             b_data (bs !!! i) = d_blocks d (b_blockno (bs !!! i));
  bk_disk : forall n, length (d_blocks d n) = Z.to_nat BSIZE
}.

Definition bring (bs : list buf) (order : list nat) : Prop :=
  ring (fun i => b_next (bs !!! i)) (fun i => b_prev (bs !!! i)) HEAD order.

Record binv (s : kernel) (order : list nat) : Prop := mkBinv {
  bi_ok : bok (bufs s) (disk s);
  bi_ring : bring (bufs s) order;
  bi_perm : order ≡ₚ seq 0 HEAD
}.

Definition bfind (bs : list buf) (bn : Z) : option nat := fst <$> list_find (is_block bn) (take HEAD bs).

(** The contents of block [bn] as the kernel sees them. *)
Definition bview (bs : list buf) (d : diskst) (bn : Z) : list Z :=
  match bfind bs bn with
  | Some i => if b_valid (bs !!! i) then b_data (bs !!! i) else d_blocks d bn
  | None => d_blocks d bn
  end.
Definition bref (bs : list buf) (bn : Z) : Z := match bfind bs bn with Some i => b_refcnt (bs !!! i) | None => 0 end.
Definition blocked (bs : list buf) (bn : Z) : bool := match bfind bs bn with Some i => sl_locked (b_lock (bs !!! i)) | None => false end.

(** The number of buffers in use. *)
Definition nref (bs : list buf) : nat := length (filter (fun b => 0 < b_refcnt b) (take HEAD bs)).

(** ** Lists of buffers *)

Lemma total_alter {A} `{Inhabited A} (f : A -> A) i (l : list A) j : (i < length l)%nat ->
  alter f i l !!! j = if decide (i = j) then f (l !!! i) else l !!! j.
Proof.
  intros Hi. rewrite !list_lookup_total_alt. case_decide as E.
  - subst. rewrite list_lookup_alter_eq. destruct (lookup_lt_is_Some_2 l j Hi) as [x ->]. done.
  - by rewrite list_lookup_alter_ne.
Qed.

Section lists.
Context (bs : list buf) (d : diskst) (Hbk : bok bs d).

Lemma HEAD_lt : (HEAD < length bs)%nat.
Proof. rewrite (bk_len _ _ Hbk). lia. Qed.

Lemma bfind_Some bn i : bfind bs bn = Some i <-> (i < HEAD)%nat /\ is_block bn (bs !!! i).
Proof.
  unfold bfind. rewrite fmap_Some. pose proof HEAD_lt as Hl. split.
  - intros ([j b] & Hf & ->). apply list_find_Some in Hf as (Hj & Hb & _). cbn.
    apply lookup_take_Some in Hj as [Hj Hlt]. split; [done |]. by rewrite (list_lookup_total_correct _ _ _ Hj).
  - intros [Hi Hb]. destruct (list_find (is_block bn) (take HEAD bs)) as [[j b]|] eqn:E.
    + exists (j, b). split; [done |]. cbn. apply list_find_Some in E as (Hj & Hb' & _).
      apply lookup_take_Some in Hj as [Hj Hlt]. eapply (bk_uniq _ _ Hbk); [done | done | done |].
      by rewrite (list_lookup_total_correct _ _ _ Hj).
    + apply list_find_None in E. exfalso. eapply Forall_lookup_1 in E; [|].
      * exact (E Hb).
      * rewrite lookup_take_lt by done. apply list_lookup_lookup_total_lt. lia.
Qed.

Lemma bfind_None bn : bfind bs bn = None <-> forall i, (i < HEAD)%nat -> ~ is_block bn (bs !!! i).
Proof.
  split.
  - intros Hn i Hi Hb. assert (bfind bs bn = Some i) by (by apply bfind_Some). congruence.
  - intros Hno. destruct (bfind bs bn) as [i|] eqn:E; [|done]. apply bfind_Some in E as [Hi Hb]. by destruct (Hno i Hi).
Qed.
End lists.

(** Changing a buffer that stays on its block. *)
Section alter.
Context (bs : list buf) (d : diskst) (Hbk : bok bs d) (i : nat) (bn : Z) (f : buf -> buf).
Context (Hi : (i < HEAD)%nat) (Hb : is_block bn (bs !!! i)).
Context (Hdev : b_dev (f (bs !!! i)) = b_dev (bs !!! i)) (Hbno : b_blockno (f (bs !!! i)) = b_blockno (bs !!! i)).

Let bs' := alter f i bs.

Lemma alter_at j : bs' !!! j = if decide (i = j) then f (bs !!! i) else bs !!! j.
Proof. apply total_alter. pose proof (HEAD_lt bs d Hbk). lia. Qed.

Lemma alter_is_block b j : is_block b (bs' !!! j) <-> is_block b (bs !!! j).
Proof. rewrite alter_at. case_decide; subst; [|done]. unfold is_block. by rewrite Hdev, Hbno. Qed.

Lemma alter_ok : 0 <= b_refcnt (f (bs !!! i)) < 2 ^ 32 -> length (b_data (f (bs !!! i))) = Z.to_nat BSIZE ->
  (sl_locked (b_lock (f (bs !!! i))) = true -> 0 < b_refcnt (f (bs !!! i))) ->
  (b_refcnt (f (bs !!! i)) = 0 -> b_valid (f (bs !!! i)) = true -> b_data (f (bs !!! i)) = d_blocks d bn) ->
  bok bs' d.
Proof.
  intros H1 H2 H3 H4. pose proof Hbk as [B1 B2 B3 B4 B5 B6 B7 B8]. split; auto.
  - unfold bs'. by rewrite length_alter.
  - intros j k b Hj Hk. rewrite !alter_is_block. eauto.
  - intros j Hj. rewrite alter_at. case_decide; subst; [|auto]. left. rewrite Hdev. apply Hb.
  - intros j Hj. rewrite alter_at. case_decide; subst; auto.
  - intros j Hj. rewrite alter_at. case_decide; subst; auto.
  - intros j Hj. rewrite alter_at. case_decide; subst; auto.
  - intros j Hj. rewrite alter_at. case_decide; subst; [|auto]. destruct Hb as [_ Hbn]. rewrite Hbno, Hbn. auto.
Qed.

Context (Hbk' : bok bs' d).

Lemma alter_bfind b : bfind bs' b = bfind bs b.
Proof.
  destruct (bfind bs b) as [j|] eqn:E.
  - apply (bfind_Some bs d Hbk) in E as [Hj HB]. apply (bfind_Some bs' d Hbk'). by rewrite alter_is_block.
  - apply (bfind_None bs' d Hbk'). intros j Hj. rewrite alter_is_block. by apply (bfind_None bs d Hbk).
Qed.

Lemma bfind_here : bfind bs bn = Some i.
Proof. by apply (bfind_Some bs d Hbk). Qed.

Lemma bfind_other b : b <> bn -> bfind bs b <> Some i.
Proof. intros Hne E. apply (bfind_Some bs d Hbk) in E as [_ [_ E]]. destruct Hb. congruence. Qed.

Lemma alter_bref b : bref bs' b = if decide (b = bn) then b_refcnt (f (bs !!! i)) else bref bs b.
Proof.
  unfold bref. rewrite alter_bfind. case_decide as E.
  - subst. rewrite bfind_here, alter_at. by rewrite decide_True.
  - pose proof (bfind_other b E). destruct (bfind bs b) as [j|]; [|done]. rewrite alter_at, decide_False by congruence. done.
Qed.

Lemma alter_blocked b : blocked bs' b = if decide (b = bn) then sl_locked (b_lock (f (bs !!! i))) else blocked bs b.
Proof.
  unfold blocked. rewrite alter_bfind. case_decide as E.
  - subst. rewrite bfind_here, alter_at. by rewrite decide_True.
  - pose proof (bfind_other b E). destruct (bfind bs b) as [j|]; [|done]. rewrite alter_at, decide_False by congruence. done.
Qed.

Lemma alter_bview d' b : bview bs' d' b = if decide (b = bn)
  then (if b_valid (f (bs !!! i)) then b_data (f (bs !!! i)) else d_blocks d' bn) else bview bs d' b.
Proof.
  unfold bview. rewrite alter_bfind. case_decide as E.
  - subst. rewrite bfind_here, alter_at. by rewrite decide_True.
  - pose proof (bfind_other b E). destruct (bfind bs b) as [j|]; [|done]. rewrite alter_at, decide_False by congruence. done.
Qed.
End alter.

(** The buffers in use, after one of them changes. *)
Lemma nref_alter (bs : list buf) (f : buf -> buf) i : (i < HEAD)%nat -> (HEAD <= length bs)%nat ->
  (nref (alter f i bs) + (if decide (0 < b_refcnt (bs !!! i))%Z then 1 else 0) =
   nref bs + (if decide (0 < b_refcnt (f (bs !!! i)))%Z then 1 else 0))%nat.
Proof.
  intros Hi Hl. unfold nref. assert (Hli : (i < length bs)%nat) by lia.
  pose proof (take_drop_middle bs i (bs !!! i) (list_lookup_lookup_total_lt bs i Hli)) as E.
  set (x := bs !!! i) in *. set (l1 := take i bs) in *. set (l2 := drop (S i) bs) in *.
  assert (Hl1 : length l1 = i) by (unfold l1; rewrite length_take; lia).
  assert (Ea : alter f i bs = l1 ++ f x :: l2).
  { rewrite <- E. replace i with (length l1 + 0)%nat by lia. rewrite alter_app_r. done. }
  rewrite Ea, <- E, !take_app, !Hl1, !(take_ge l1) by lia.
  replace (HEAD - i)%nat with (S (HEAD - S i)) by lia. cbn [take]. rewrite !filter_app, !length_app, !filter_cons.
  repeat case_decide; cbn [length]; lia.
Qed.

Lemma room_nref bs : (HEAD <= length bs)%nat -> (nref bs < HEAD)%nat ->
  exists i, (i < HEAD)%nat /\ ~ 0 < b_refcnt (bs !!! i).
Proof.
  intros Hl Hn. destruct (decide (Exists (fun b => ~ 0 < b_refcnt b) (take HEAD bs))) as [Hx|Hx].
  - apply Exists_exists in Hx as (b & Hb & Hr). apply list_elem_of_lookup in Hb as [i Hi].
    apply lookup_take_Some in Hi as [Hi Hlt]. exists i. split; [done |]. by rewrite (list_lookup_total_correct _ _ _ Hi).
  - exfalso. unfold nref in Hn.
    assert (Hall : Forall (fun b => 0 < b_refcnt b) (take HEAD bs)).
    { apply Forall_forall. intros b Hb. destruct (decide (0 < b_refcnt b)) as [|Hno]; [done |]. exfalso. apply Hx.
      apply Exists_exists. eauto. }
    assert (E : filter (fun b => 0 < b_refcnt b) (take HEAD bs) = take HEAD bs).
    { clear Hn. induction (take HEAD bs) as [|b l IH]; [done |]. rewrite filter_cons. inversion Hall; subst.
      rewrite decide_True by done. f_equal. apply IH; [|done]. intros H'. apply Hx. by right. }
    rewrite E, length_take in Hn. lia.
Qed.

(** ** Scanning the ring *)

Lemma bget_cached_scan bn : forall l fuel s,
  linked (fun i => b_next (bufs s !!! i)) (fun i => b_prev (bufs s !!! i)) (l ++ [HEAD]) ->
  HEAD ∉ l -> (length l < fuel)%nat ->
  bget_cached fuel (hd HEAD l) ROOTDEV bn s =
    match list_find (fun i => is_block bn (bufs s !!! i)) l with
    | Some (_, i) => Ret (Some i) (set_bufs (alter (set_b_refcnt (u32 (b_refcnt (bufs s !!! i) + 1))) i (bufs s)) s)
    | None => Ret None s
    end.
Proof.
  induction l as [|x l IH]; intros fuel s Hl Hn Hf; (destruct fuel as [|fuel]; [cbn in Hf; lia |]).
  - cbn [bget_cached hd]. by rewrite Nat.eqb_refl.
  - cbn [bget_cached hd list_find]. destruct (Nat.eqb_spec x HEAD); [set_solver |].
    unfold getbuf. mred.
    destruct (decide (is_block bn (bufs s !!! x))) as [[Hd Hb]|Hno].
    + rewrite Hd, Hb, !Z.eqb_refl. done.
    + assert (E : (b_dev (bufs s !!! x) =? ROOTDEV) && (b_blockno (bufs s !!! x) =? bn) = false).
      { apply not_true_is_false. intros Ht. apply Hno. apply andb_true_iff in Ht as [H1 H2]. split; lia. }
      rewrite E. assert (Hnx : b_next (bufs s !!! x) = hd HEAD l).
      { destruct l; apply Hl. }
      rewrite Hnx, IH; [| destruct l; [done | apply Hl] | set_solver | cbn in Hf; lia].
      by destruct (list_find _ l) as [[? ?]|].
Qed.

Definition recycled (bn : Z) (b : buf) : buf :=
  set_b_refcnt 1 (set_b_valid false (set_b_blockno bn (set_b_dev ROOTDEV b))).

Lemma bget_recycle_scan bn : forall l fuel s,
  linked (fun i => b_next (bufs s !!! i)) (fun i => b_prev (bufs s !!! i)) (HEAD :: l) ->
  HEAD ∉ l -> (length l < fuel)%nat ->
  bget_recycle fuel (List.last (HEAD :: l) HEAD) ROOTDEV bn s =
    match list_find (fun i => b_refcnt (bufs s !!! i) = 0) (rev l) with
    | Some (_, i) => Ret (Some i) (set_bufs (alter (recycled bn) i (bufs s)) s)
    | None => Ret None s
    end.
Proof.
  induction l as [|x l IH] using rev_ind; intros fuel s Hl Hn Hf; (destruct fuel as [|fuel]; [cbn in Hf; lia |]).
  - done.
  - rewrite app_comm_cons, last_last. cbn [bget_recycle]. destruct (Nat.eqb_spec x HEAD); [set_solver |].
    rewrite rev_unit. cbn [list_find]. unfold getbuf, upd_buf. mred.
    destruct (decide (b_refcnt (bufs s !!! x) = 0)) as [E|E].
    + destruct (Z.eqb_spec (b_refcnt (bufs s !!! x)) 0); [|done]. mred. cbn.
      f_equal. rewrite !alter_compose_list. done.
    + destruct (Z.eqb_spec (b_refcnt (bufs s !!! x)) 0); [done |].
      destruct (@exists_last _ (HEAD :: l)) as (A & a & EA); [done |].
      assert (Hpv : b_prev (bufs s !!! x) = a).
      { rewrite app_comm_cons, EA, <- app_assoc in Hl. apply linked_app in Hl as [_ Hl]. apply Hl. }
      assert (Ea : a = List.last (HEAD :: l) HEAD) by (by rewrite EA, last_last).
      rewrite Hpv, Ea, IH.
      * by destruct (list_find _ (rev l)) as [[? ?]|].
      * rewrite EA in *. rewrite app_comm_cons, EA, <- app_assoc in Hl. by apply linked_app in Hl as [Hl _].
      * set_solver.
      * rewrite length_app in Hf. cbn in Hf. lia.
Qed.

(** The locks the cache needs are free. *)
Record bio_free (s : kernel) : Prop := mkBioFree {
  bf_bcache : LkBcache ∉ held s;
  bf_vdisk : LkVdisk ∉ held s;
  bf_sleep : forall i, LkBufSleep i ∉ held s;
  bf_proc : no_proc_lock s
}.

(** What cache operations leave alone. *)
Record bstep (s s' : kernel) : Prop := mkBstep {
  bs_state : s' = set_disk (disk s') (set_procs (procs s') (set_bufs (bufs s') s));
  bs_me : mine s' = mine s
}.

Lemma bs_pid s s' : bstep s s' -> mypid s' = mypid s.
Proof. intros S. by apply mine_pid, S. Qed.

Create HintDb bstep.

Lemma bstep_refl s : bstep s s.
Proof. by split. Qed.

Lemma bstep_trans s1 s2 s3 : bstep s1 s2 -> bstep s2 s3 -> bstep s1 s3.
Proof. intros [A1 A2] [B1 B2]. split; [|congruence]. rewrite B1, A1. done. Qed.

Lemma bstep_held s s' : bstep s s' -> held s' = held s.
Proof. intros [-> _]. done. Qed.

Lemma bstep_free s s' : bstep s s' -> bio_free s -> bio_free s'.
Proof. intros H [? ? ? ?]. split; unfold no_proc_lock in *; rewrite ?(bstep_held _ _ H); auto. Qed.

Lemma perm_lt order i : order ≡ₚ seq 0 HEAD -> i ∈ order <-> (i < HEAD)%nat.
Proof. intros Hp. rewrite Hp, elem_of_seq. lia. Qed.

Section find.
Context (s : kernel) (order : list nat) (I : binv s order) (bn : Z).

Lemma find_order : match bfind (bufs s) bn with
  | Some i => exists k, list_find (fun i => is_block bn (bufs s !!! i)) order = Some (k, i)
  | None => list_find (fun i => is_block bn (bufs s !!! i)) order = None end.
Proof.
  destruct I as [Hok _ Hp]. destruct (bfind (bufs s) bn) as [i|] eqn:E.
  - apply (bfind_Some _ _ Hok) in E as [Hi Hb]. destruct (list_find _ order) as [[k j]|] eqn:F.
    + exists k. apply list_find_Some in F as (Hk & Hb' & _). repeat f_equal.
      eapply (bk_uniq _ _ Hok); [|done|done|done]. apply (perm_lt order j Hp). by eapply list_elem_of_lookup_2.
    + apply list_find_None in F. eapply Forall_forall in F; [by destruct (F Hb) |]. by apply (perm_lt order i Hp).
  - apply list_find_None, Forall_forall. intros i Hi. apply (bfind_None _ _ Hok); [done |]. by apply (perm_lt order i Hp).
Qed.

Lemma HEAD_not_in : HEAD ∉ order.
Proof. rewrite (perm_lt order HEAD (bi_perm _ _ I)). lia. Qed.

Lemma order_length : length order = HEAD.
Proof. rewrite (bi_perm _ _ I). apply length_seq. Qed.

Lemma ring_parts : b_next (bufs s !!! HEAD) = hd HEAD order /\ b_prev (bufs s !!! HEAD) = List.last (HEAD :: order) HEAD /\
  linked (fun i => b_next (bufs s !!! i)) (fun i => b_prev (bufs s !!! i)) (order ++ [HEAD]) /\
  linked (fun i => b_next (bufs s !!! i)) (fun i => b_prev (bufs s !!! i)) (HEAD :: order).
Proof.
  destruct (bi_ring _ _ I) as [Hl Hnd]. split_and!.
  - destruct order; apply Hl.
  - destruct (@exists_last _ (HEAD :: order)) as (A & a & EA); [done |]. rewrite EA, last_last.
    rewrite app_comm_cons, EA, <- app_assoc in Hl. apply linked_app in Hl as [_ Hl]. apply Hl.
  - destruct order; [done | apply Hl].
  - destruct (@exists_last _ (HEAD :: order)) as (A & a & EA); [done |]. rewrite EA.
    rewrite app_comm_cons, EA, <- app_assoc in Hl. by apply linked_app in Hl as [Hl _].
Qed.
End find.

(** ** Recycling *)

Section recycle.
Context (bs : list buf) (d : diskst) (Hbk : bok bs d) (j : nat) (bn : Z) (lk : sleeplock).
Context (Hj : (j < HEAD)%nat) (Href : b_refcnt (bs !!! j) = 0) (Hno : bfind bs bn = None).

Let f (b : buf) := set_b_lock lk (recycled bn b).
Let bs' := alter f j bs.

Lemma rec_at k : bs' !!! k = if decide (j = k) then f (bs !!! j) else bs !!! k.
Proof. apply total_alter. pose proof (HEAD_lt bs d Hbk). lia. Qed.

Lemma rec_is_block b k : (k < HEAD)%nat -> is_block b (bs' !!! k) <-> (k = j /\ b = bn) \/ (k <> j /\ is_block b (bs !!! k)).
Proof.
  intros Hk. rewrite rec_at. case_decide as E.
  - subst k. unfold is_block, f. cbn. naive_solver.
  - naive_solver.
Qed.

Lemma rec_ok : bok bs' d.
Proof.
  pose proof Hbk as [B1 B2 B3 B4 B5 B6 B7 B8]. pose proof (proj1 (bfind_None bs d Hbk bn) Hno) as Hn. split; auto.
  - unfold bs'. by rewrite length_alter.
  - intros i k b Hi Hk H1 H2. apply rec_is_block in H1, H2; [|done|done].
    destruct H1 as [[E1 E1']|[? H1]], H2 as [[E2 E2']|[? H2]]; subst; try done;
      [by destruct (Hn k Hk) | by destruct (Hn i Hi) | eauto].
  - intros i Hi. rewrite rec_at. case_decide; [by left | auto].
  - intros i Hi. rewrite rec_at. case_decide; [cbn; lia | auto].
  - intros i Hi. rewrite rec_at. case_decide; [cbn; auto | auto].
  - intros i Hi. rewrite rec_at. case_decide; [cbn; lia | auto].
  - intros i Hi. rewrite rec_at. case_decide; [cbn; lia | auto].
Qed.

Lemma rec_bfind b : bfind bs' b = if decide (b = bn) then Some j else
  match bfind bs b with Some k => if decide (k = j) then None else Some k | None => None end.
Proof.
  case_decide as E.
  - subst b. apply (bfind_Some _ _ rec_ok). split; [done |]. apply rec_is_block; [done | by left].
  - destruct (bfind bs b) as [k|] eqn:F.
    + apply (bfind_Some _ _ Hbk) in F as [Hk Hb]. case_decide as G.
      * apply (bfind_None _ _ rec_ok). intros i Hi Hib. apply rec_is_block in Hib; [|done].
        destruct Hib as [[_ ?]|[Hne Hib]]; [done |]. apply Hne. subst k. by eapply (bk_uniq _ _ Hbk).
      * apply (bfind_Some _ _ rec_ok). split; [done |]. apply rec_is_block; [done | by right].
    + apply (bfind_None _ _ rec_ok). intros i Hi Hib. apply rec_is_block in Hib; [|done].
      destruct Hib as [[_ ?]|[_ Hib]]; [done |]. by eapply (bfind_None _ _ Hbk).
Qed.

Lemma rec_bview b : bview bs' d b = bview bs d b.
Proof.
  unfold bview. rewrite rec_bfind. case_decide as E.
  - subst b. rewrite Hno, rec_at, decide_True by done. done.
  - destruct (bfind bs b) as [k|] eqn:F; [|done]. apply (bfind_Some _ _ Hbk) in F as [Hk [_ Hb]]. case_decide as G.
    + subst k. destruct (b_valid (bs !!! j)) eqn:V; [|done]. rewrite (bk_clean _ _ Hbk j Hj Href V). by rewrite Hb.
    + rewrite rec_at, decide_False by congruence. done.
Qed.

Lemma rec_bref b : bref bs' b = if decide (b = bn) then 1 else bref bs b.
Proof.
  unfold bref. rewrite rec_bfind. case_decide as E; [rewrite rec_at, decide_True by done; done |].
  destruct (bfind bs b) as [k|] eqn:F; [|done]. case_decide as G; [by subst |]. rewrite rec_at, decide_False by congruence. done.
Qed.

Lemma rec_blocked b : blocked bs' b = if decide (b = bn) then sl_locked lk else blocked bs b.
Proof.
  unfold blocked. rewrite rec_bfind. case_decide as E; [rewrite rec_at, decide_True by done; done |].
  destruct (bfind bs b) as [k|] eqn:F; [|done]. case_decide as G.
  - subst k. destruct (sl_locked (b_lock (bs !!! j))) eqn:L; [|done]. apply (bk_lock _ _ Hbk j Hj) in L. lia.
  - rewrite rec_at, decide_False by congruence. done.
Qed.
End recycle.

(** ** bget and bread *)

(** Buffer [i] holds block [bn] and is locked by the current process. *)
Record holds (s : kernel) (bn : Z) (i : nat) : Prop := mkHolds {
  hb_lt : (i < HEAD)%nat;
  hb_block : is_block bn (bufs s !!! i);
  hb_lock : b_lock (bufs s !!! i) = mkSleeplock true (mypid s);
  hb_valid : b_valid (bufs s !!! i) = true
}.

(** Taking a reference to block [bn] and its lock; [bget] does this and
    changes nothing else the rest of the kernel can see. *)
Record taken (s s' : kernel) (bn : Z) (i : nat) : Prop := mkTaken {
  tk_lt : (i < HEAD)%nat;
  tk_block : is_block bn (bufs s' !!! i);
  tk_lock : b_lock (bufs s' !!! i) = mkSleeplock true (mypid s);
  tk_state : s' = set_bufs (bufs s') s;
  tk_view : forall b, bview (bufs s') (disk s') b = bview (bufs s) (disk s) b;
  tk_ref : forall b, bref (bufs s') b = if decide (b = bn) then bref (bufs s) bn + 1 else bref (bufs s) b;
  tk_blocked : forall b, blocked (bufs s') b = if decide (b = bn) then true else blocked (bufs s) b;
  tk_keep : forall b j, b <> bn -> holds s b j -> holds s' b j;
  tk_nref : nref (bufs s') = (nref (bufs s) + if decide (bref (bufs s) bn = 0%Z) then 1 else 0)%nat
}.

Lemma bring_alter bs order i f : (i < length bs)%nat -> b_next (f (bs !!! i)) = b_next (bs !!! i) ->
  b_prev (f (bs !!! i)) = b_prev (bs !!! i) -> bring bs order -> bring (alter f i bs) order.
Proof.
  intros Hi Hn Hp. apply ring_ext; intros z; rewrite total_alter by done; case_decide; subst; done.
Qed.

(** Held buffers of other blocks are not affected by a change to buffer [i]. *)
Lemma holds_alter s f i b j : holds s b j -> j <> i -> (i < length (bufs s))%nat ->
  holds (set_bufs (alter f i (bufs s)) s) b j.
Proof.
  intros [H1 H2 H3 H4] Hne Hi. split; cbn [bufs set_bufs]; try done; rewrite total_alter, decide_False by (lia || congruence); done.
Qed.

Lemma holds_ne s bn b i j : is_block bn (bufs s !!! i) -> b <> bn -> holds s b j -> j <> i.
Proof. intros [_ Hb] Hne [_ [_ H2] _ _] ->. congruence. Qed.

Section bget.
Context (s : kernel) (order : list nat) (bn : Z) (I : binv s order) (F : bio_free s).
Context (Hlk : blocked (bufs s) bn = false).

Let s1 := set_held ({[LkBcache]} ∪ held s) s.

(** The two ways through [bget] end alike. *)
Lemma bget_lock i f : (i < HEAD)%nat -> sl_locked (b_lock (f (bufs s !!! i))) = false ->
  (release LkBcache ;; acquiresleep (SlBuf i) ;; mret i) (set_bufs (alter f i (bufs s)) s1) =
  Ret i (set_bufs (alter (fun b => set_b_lock (mkSleeplock true (mypid s)) (f b)) i (bufs s)) s).
Proof.
  intros Hi Hf. destruct F as [F1 F2 F3 F4]. pose proof (HEAD_lt _ _ (bi_ok _ _ I)) as HL.
  erewrite bind_Ret by (apply release_Ret; cbn; set_solver). cbn. rewrite held_restore by done.
  erewrite bind_Ret.
  2: { apply acquiresleep_free; cbn; [apply F3 |]. rewrite total_alter, decide_True by lia || done. done. }
  cbn. rewrite alter_compose_list. unfold mypid, lock_by. cbn. done.
Qed.

Lemma bget_scan : bget ROOTDEV bn s =
  match bfind (bufs s) bn with
  | Some i => (release LkBcache ;; acquiresleep (SlBuf i) ;; mret i)
      (set_bufs (alter (set_b_refcnt (u32 (b_refcnt (bufs s !!! i) + 1))) i (bufs s)) s1)
  | None =>
      match list_find (fun i => b_refcnt (bufs s !!! i) = 0) (rev order) with
      | Some (_, j) => (release LkBcache ;; acquiresleep (SlBuf j) ;; mret j) (set_bufs (alter (recycled bn) j (bufs s)) s1)
      | None => Panic "bget: no buffers"
      end
  end.
Proof.
  destruct F as [F1 _ _ _].
  pose proof (ring_parts s order I) as (Hnx & Hpv & Hl1 & Hl2). pose proof (HEAD_not_in s order I) as Hh.
  pose proof (order_length s order I) as Hlen.
  unfold bget. erewrite bind_Ret by (by apply acquire_Ret). unfold getbuf. erewrite bind_Ret by reflexivity. cbv beta.
  fold s1. change (b_next (bufs s1 !!! HEAD)) with (b_next (bufs s !!! HEAD)). rewrite Hnx.
  assert (Hc : bget_cached (S HEAD) (hd HEAD order) ROOTDEV bn s1 = _) by (apply (bget_cached_scan bn order (S HEAD) s1); [done | done | lia]).
  change (bufs s1) with (bufs s) in Hc. pose proof (find_order s order I bn) as Hfind.
  destruct (bfind (bufs s) bn) as [i|] eqn:Ef.
  - destruct Hfind as [k Hk]. rewrite Hk in Hc. by erewrite bind_Ret by exact Hc.
  - rewrite Hfind in Hc. erewrite bind_Ret by exact Hc. cbv beta iota. erewrite bind_Ret by reflexivity. cbv beta.
    change (b_prev (bufs s1 !!! HEAD)) with (b_prev (bufs s !!! HEAD)). rewrite Hpv.
    assert (Hrc : bget_recycle (S HEAD) (List.last (HEAD :: order) HEAD) ROOTDEV bn s1 = _)
      by (apply (bget_recycle_scan bn order (S HEAD) s1); [done | done | lia]).
    change (bufs s1) with (bufs s) in Hrc.
    destruct (list_find (fun i => b_refcnt (bufs s !!! i) = 0) (rev order)) as [[k j]|]; by erewrite bind_Ret by exact Hrc.
Qed.

Lemma bget_hit i : bfind (bufs s) bn = Some i -> bref (bufs s) bn + 1 < 2 ^ 32 ->
  exists s', bget ROOTDEV bn s = Ret i s' /\ binv s' order /\ taken s s' bn i.
Proof.
  intros Ef Hr. pose proof I as [Hok Hring Hperm]. pose proof (HEAD_lt _ _ Hok) as HL. rewrite bget_scan, Ef.
  apply (bfind_Some _ _ Hok) in Ef as Hib. destruct Hib as [Hi Hb].
  assert (Hbr : bref (bufs s) bn = b_refcnt (bufs s !!! i)) by (unfold bref; by rewrite Ef).
  pose proof (bk_ref _ _ Hok i Hi) as Hri. rewrite wrap_small by lia.
  pose proof Hlk as Hfree. unfold blocked in Hfree. rewrite Ef in Hfree.
  eexists. split; [by apply bget_lock |].
  set (f := fun b => set_b_lock (mkSleeplock true (mypid s)) (set_b_refcnt (b_refcnt (bufs s !!! i) + 1) b)).
  assert (Hok' : bok (alter f i (bufs s)) (disk s)).
  { apply (alter_ok _ _ Hok i bn f Hi Hb); cbn; try done; [lia | by apply (bk_data _ _ Hok) | lia | lia]. }
  split; [split; [exact Hok' | apply bring_alter; try done; lia | done] |].
  split; try done; cbn [bufs set_bufs disk].
  - rewrite total_alter, decide_True by lia || done. exact Hb.
  - by rewrite total_alter, decide_True by lia || done.
  - intros b. rewrite (alter_bview _ _ Hok i bn f Hi Hb) by done. case_decide; [|done]. subst b. unfold bview. by rewrite Ef.
  - intros b. rewrite (alter_bref _ _ Hok i bn f Hi Hb) by done. by rewrite Hbr.
  - intros b. by rewrite (alter_blocked _ _ Hok i bn f Hi Hb) by done.
  - intros b j Hne Hh. apply holds_alter; [done | by eapply holds_ne | lia].
  - pose proof (nref_alter (bufs s) f i Hi ltac:(lia)) as Hn. rewrite Hbr. cbn in Hn |- *. repeat case_decide; lia.
Qed.

Lemma bget_miss : bfind (bufs s) bn = None -> (nref (bufs s) < HEAD)%nat ->
  exists j s', bget ROOTDEV bn s = Ret j s' /\ binv s' order /\ taken s s' bn j.
Proof.
  intros Ef Hroom. pose proof I as [Hok Hring Hperm]. pose proof (HEAD_lt _ _ Hok) as HL. rewrite bget_scan, Ef.
  assert (Hbr : bref (bufs s) bn = 0) by (unfold bref; by rewrite Ef).
  destruct (list_find _ (rev order)) as [[k j]|] eqn:E.
  2: { exfalso. apply list_find_None in E. destruct (room_nref (bufs s)) as (i & Hi & Hri); [lia | lia |].
    assert (Hin : i ∈ rev order) by (apply list_elem_of_In; rewrite <- in_rev; apply list_elem_of_In, (perm_lt order i Hperm), Hi).
    eapply Forall_forall in E; [|exact Hin]. pose proof (bk_ref _ _ Hok i Hi). cbn in E. lia. }
  apply list_find_Some in E as (Hkj & Hr0 & _). cbn in Hr0.
  assert (Hj : (j < HEAD)%nat).
  { apply (perm_lt order j Hperm). apply list_elem_of_In. rewrite in_rev. apply list_elem_of_In. by eapply list_elem_of_lookup_2. }
  eexists j, _. split.
  { apply bget_lock; [done |]. cbn. destruct (sl_locked (b_lock (bufs s !!! j))) eqn:L; [|done].
    apply (bk_lock _ _ Hok j Hj) in L. lia. }
  split; [split; [by apply rec_ok | apply bring_alter; try done; lia | done] |].
  split; try done; cbn [bufs set_bufs disk].
  - by rewrite total_alter, decide_True by lia || done.
  - by rewrite total_alter, decide_True by lia || done.
  - intros b. by apply rec_bview.
  - intros b. rewrite Hbr. by apply (rec_bref _ _ Hok).
  - intros b. by apply (rec_blocked _ _ Hok).
  - intros b k' Hne Hh. apply holds_alter; [done | | lia]. intros ->. destruct Hh as [_ _ Hl _].
    assert (0 < b_refcnt (bufs s !!! j)) by (apply (bk_lock _ _ Hok j Hj); by rewrite Hl). lia.
  - pose proof (nref_alter (bufs s) (fun b => set_b_lock (mkSleeplock true (mypid s)) (recycled bn b)) j Hj ltac:(lia)) as Hn.
    rewrite Hbr. cbn in Hn |- *. repeat case_decide; lia.
Qed.

Lemma bget_ok : bref (bufs s) bn + 1 < 2 ^ 32 -> (0 < bref (bufs s) bn \/ (nref (bufs s) < HEAD)%nat) ->
  exists i s', bget ROOTDEV bn s = Ret i s' /\ binv s' order /\ taken s s' bn i.
Proof.
  intros Hr Hroom. destruct (bfind (bufs s) bn) as [i|] eqn:Ef.
  - destruct (bget_hit i Ef Hr) as (s' & ?). eauto.
  - apply bget_miss; [done |]. unfold bref in Hroom. rewrite Ef in Hroom. lia.
Qed.
End bget.

(** ** A buffer held by the current process *)

Lemma holds_view s order bn i : binv s order -> holds s bn i -> bview (bufs s) (disk s) bn = b_data (bufs s !!! i).
Proof.
  intros I [H1 H2 H3 H4]. unfold bview. rewrite (proj2 (bfind_Some _ _ (bi_ok _ _ I) bn i)) by done. by rewrite H4.
Qed.

Lemma holds_ref s order bn i : binv s order -> holds s bn i -> 0 < bref (bufs s) bn /\ bref (bufs s) bn = b_refcnt (bufs s !!! i).
Proof.
  intros I [H1 H2 H3 H4]. unfold bref. rewrite (proj2 (bfind_Some _ _ (bi_ok _ _ I) bn i)) by done. split; [|done].
  apply (bk_lock _ _ (bi_ok _ _ I) i H1). by rewrite H3.
Qed.

Lemma bread_ok s order bn :
  binv s order -> bio_free s -> blocked (bufs s) bn = false -> bref (bufs s) bn + 1 < 2 ^ 32 ->
  (0 < bref (bufs s) bn \/ (nref (bufs s) < HEAD)%nat) ->
  exists i s', bread ROOTDEV bn s = Ret i s' /\ binv s' order /\ taken s s' bn i /\ holds s' bn i.
Proof.
  intros I F Hlk Hr Hroom. destruct (bget_ok s order bn I F Hlk Hr Hroom) as (i & s1 & Hg & I1 & T).
  pose proof T as [T1 T2 T3 T4 T5 T6 T7 T9 T8]. pose proof I1 as [Hok Hring Hperm].
  assert (Hpid : mypid s1 = mypid s) by (rewrite T4; done).
  unfold bread. erewrite bind_Ret by exact Hg. unfold getbuf. erewrite bind_Ret by reflexivity. cbv beta.
  destruct (b_valid (bufs s1 !!! i)) eqn:Ev.
  { exists i, s1. split; [done |]. split_and!; try done. split; try done. congruence. }
  set (f := fun b => set_b_valid true (set_b_data (d_blocks (disk s1) bn) b)).
  assert (Hrw : (disk_rw i false ;; upd_buf i (set_b_valid true)) s1 = Ret tt (set_bufs (alter f i (bufs s1)) s1)).
  { unfold disk_rw, getbuf, upd_buf.
    assert (Hv : LkVdisk ∉ held s1) by (rewrite T4; apply F). mred. rewrite acquire_Ret by done. cbn.
    rewrite release_Ret by (cbn; set_solver). cbn. rewrite held_restore by done. rewrite alter_compose_list.
    destruct T2 as [_ ->]. done. }
  erewrite bind_Ret by exact Hrw. exists i, (set_bufs (alter f i (bufs s1)) s1). split; [done |].
  assert (Href : bref (bufs s1) bn = b_refcnt (bufs s1 !!! i)) by (unfold bref; rewrite (proj2 (bfind_Some _ _ Hok bn i)) by done; done).
  assert (Hpos : 0 < b_refcnt (bufs s1 !!! i)) by (apply (bk_lock _ _ Hok i T1); by rewrite T3).
  assert (Hok' : bok (alter f i (bufs s1)) (disk s1)).
  { apply (alter_ok _ _ Hok i bn f T1 T2); cbn; try done; first [apply (bk_ref _ _ Hok i T1) | apply (bk_disk _ _ Hok) | lia]. }
  pose proof (HEAD_lt _ _ Hok) as HL.
  split; [split; [exact Hok' | apply bring_alter; try done; lia | done] |]. split.
  - split; try done; cbn [bufs set_bufs disk].
    + rewrite total_alter, decide_True by lia || done. exact T2.
    + rewrite total_alter, decide_True by lia || done. exact T3.
    + rewrite T4. done.
    + intros b. rewrite (alter_bview _ _ Hok i bn f T1 T2) by done. destruct (decide (b = bn)) as [->|]; [|apply T5]. cbn.
      rewrite <- T5. unfold bview. rewrite (proj2 (bfind_Some _ _ Hok bn i)) by done. by rewrite Ev.
    + intros b. rewrite (alter_bref _ _ Hok i bn f T1 T2) by done. rewrite <- T6. destruct (decide (b = bn)) as [->|]; done.
    + intros b. rewrite (alter_blocked _ _ Hok i bn f T1 T2) by done. rewrite T7. destruct (decide (b = bn)); [|done]. cbn. by rewrite T3.
    + intros b j Hne Hh. apply (holds_alter s1); [by apply T9 | | lia]. by eapply holds_ne; [exact T2 | exact Hne | apply T9].
    + pose proof (nref_alter (bufs s1) f i T1 ltac:(lia)) as Hn. rewrite <- T8. cbn in Hn |- *. rewrite !decide_True in Hn by done. lia.
  - split; cbn [bufs set_bufs]; try done; rewrite total_alter, decide_True by lia || done; [exact T2 | etransitivity; [exact T3 |]; f_equal; symmetry; exact Hpid | done].
Qed.

(** Storing into [b->data] of a held buffer. *)
Lemma store_data_ok s order bn i l : binv s order -> holds s bn i -> length l = Z.to_nat BSIZE ->
  let s' := set_bufs (alter (set_b_data l) i (bufs s)) s in
  binv s' order /\ holds s' bn i /\
  (forall b, bview (bufs s') (disk s') b = if decide (b = bn) then l else bview (bufs s) (disk s) b) /\
  (forall b, bref (bufs s') b = bref (bufs s) b) /\ (forall b, blocked (bufs s') b = blocked (bufs s) b) /\
  (forall b j, b <> bn -> holds s b j -> holds s' b j) /\ nref (bufs s') = nref (bufs s).
Proof.
  intros I Hh Hl s'. pose proof I as [Hok Hring Hperm]. pose proof (holds_ref s order bn i I Hh) as [Hp Href].
  pose proof Hh as [H1 H2 H3 H4]. pose proof (HEAD_lt _ _ Hok) as HL. set (f := set_b_data l) in *.
  assert (Hok' : bok (alter f i (bufs s)) (disk s)).
  { apply (alter_ok _ _ Hok i bn f H1 H2); cbn; try done; [apply (bk_ref _ _ Hok i H1) | lia | lia]. }
  assert (Ef : bfind (bufs s) bn = Some i) by (by apply (bfind_Some _ _ Hok)).
  split_and!; unfold s'; cbn [bufs set_bufs disk].
  - split; [exact Hok' | apply bring_alter; try done; lia | done].
  - split; cbn [bufs set_bufs]; try done; rewrite total_alter, decide_True by lia || done; done.
  - intros b. rewrite (alter_bview _ _ Hok i bn f H1 H2) by done. case_decide; [|done]. cbn. by rewrite H4.
  - intros b. rewrite (alter_bref _ _ Hok i bn f H1 H2) by done. case_decide as E; [|done]. subst b. cbn. by rewrite Href.
  - intros b. rewrite (alter_blocked _ _ Hok i bn f H1 H2) by done. case_decide as E; [|done]. subst b. cbn. unfold blocked. by rewrite Ef.
  - intros b j Hne Hj. apply holds_alter; [done | by eapply holds_ne | lia].
  - pose proof (nref_alter (bufs s) f i H1 ltac:(lia)) as Hn. cbn in Hn. lia.
Qed.

Lemma bwrite_ok s order bn i : binv s order -> bio_free s -> holds s bn i ->
  let s' := set_disk (disk_write bn (bview (bufs s) (disk s) bn) (disk s)) s in
  bwrite i s = Ret tt s' /\ binv s' order /\ holds s' bn i /\
  (forall b, bview (bufs s') (disk s') b = bview (bufs s) (disk s) b).
Proof.
  intros I [F1 F2 F3 F4] Hh s'. pose proof I as [Hok Hring Hperm]. pose proof (holds_ref s order bn i I Hh) as [Hp Href].
  pose proof (holds_view s order bn i I Hh) as Hview. pose proof Hh as [H1 H2 H3 H4]. split_and!.
  - unfold bwrite. erewrite bind_Ret by (apply holdingsleep_ok; apply F3). cbn [get_sl]. rewrite H3. cbn [sl_locked sl_pid andb].
    rewrite Z.eqb_refl. cbn [negb]. unfold disk_rw, getbuf. mred. rewrite acquire_Ret by done. cbn.
    rewrite release_Ret by (cbn; set_solver). cbn. rewrite held_restore by done.
    destruct H2 as [_ Hbn]. unfold s'. rewrite Hview, Hbn. done.
  - split; [|done|done]. pose proof Hok as [B1 B2 B3 B4 B5 B6 B7 B8]. split; auto; cbn.
    + intros j Hj Hr Hv. destruct (Z.eqb_spec (b_blockno (bufs s !!! j)) bn) as [E|]; [|auto].
      destruct (B3 j Hj) as [Hd|(_ & ? & _)]; [|congruence].
      assert (j = i) as -> by (apply (B2 j i bn); done). lia.
    + intros n. destruct (n =? bn); [|auto]. rewrite Hview. auto.
  - split; done.
  - intros b. unfold bview, s'. cbn. destruct (bfind (bufs s) b) as [j|] eqn:E.
    + destruct (b_valid (bufs s !!! j)) eqn:V; [done |]. apply (bfind_Some _ _ Hok) in E as [Hj Hb].
      destruct (Z.eqb_spec b bn) as [->|]; [|done]. assert (j = i) as -> by (by eapply (bk_uniq _ _ Hok)). congruence.
    + destruct (Z.eqb_spec b bn) as [->|]; [|done]. rewrite (proj2 (bfind_Some _ _ Hok bn i)) in E by done. done.
Qed.

(** ** Relinking *)

(** Two buffers that differ in their links at most. *)
Definition content_eq (b b' : buf) : Prop := exists n p, b' = set_b_next n (set_b_prev p b).

Lemma content_eq_refl b : content_eq b b.
Proof. by exists (b_next b), (b_prev b). Qed.

Lemma links_refl bs : Forall2 content_eq bs bs.
Proof. induction bs; constructor; auto using content_eq_refl. Qed.

Lemma links_trans bs1 bs2 bs3 : Forall2 content_eq bs1 bs2 -> Forall2 content_eq bs2 bs3 -> Forall2 content_eq bs1 bs3.
Proof.
  intros H. revert bs3. induction H as [|a b l l' (n & p & ->) _ IH]; intros bs3 H3; inversion H3 as [|? c ? l3 (n' & p' & ->)]; subst;
    constructor; [by exists n', p' | auto].
Qed.

Lemma links_alter f k bs bs' : (forall b, content_eq b (f b)) -> Forall2 content_eq bs bs' -> Forall2 content_eq bs (alter f k bs').
Proof.
  intros Hf H. eapply links_trans; [exact H |]. clear H. revert k; induction bs' as [|b bs' IH]; intros [|k]; cbn.
  - constructor.
  - constructor.
  - constructor; [apply Hf | apply links_refl].
  - constructor; [apply content_eq_refl | apply IH].
Qed.

Lemma set_prev_content p b : content_eq b (set_b_prev p b).
Proof. by exists (b_next b), p. Qed.
Lemma set_next_content n b : content_eq b (set_b_next n b).
Proof. by exists n, (b_prev b). Qed.

Section links.
Context (bs bs' : list buf) (d : diskst) (HL : Forall2 content_eq bs bs') (Hok : bok bs d).

Lemma links_at k : (k < HEAD)%nat -> content_eq (bs !!! k) (bs' !!! k).
Proof.
  intros Hk. pose proof (HEAD_lt _ _ Hok) as Hlt. destruct (lookup_lt_is_Some_2 bs k ltac:(lia)) as [b Hb].
  destruct (Forall2_lookup_l _ _ _ _ _ HL Hb) as (b' & Hb' & Hc).
  rewrite (list_lookup_total_correct _ _ _ Hb), (list_lookup_total_correct _ _ _ Hb'). done.
Qed.

Lemma links_is_block b k : (k < HEAD)%nat -> is_block b (bs' !!! k) <-> is_block b (bs !!! k).
Proof. intros Hk. destruct (links_at k Hk) as (n & p & ->). done. Qed.

Lemma links_ok : bok bs' d.
Proof.
  pose proof Hok as [B1 B2 B3 B4 B5 B6 B7 B8]. split; auto.
  - by rewrite <- (Forall2_length _ _ _ HL).
  - intros i j b Hi Hj. rewrite !links_is_block by done. eauto.
  - intros i Hi. destruct (links_at i Hi) as (n & p & ->). by apply B3.
  - intros i Hi. destruct (links_at i Hi) as (n & p & ->). by apply B4.
  - intros i Hi. destruct (links_at i Hi) as (n & p & ->). by apply B5.
  - intros i Hi. destruct (links_at i Hi) as (n & p & ->). by apply B6.
  - intros i Hi. destruct (links_at i Hi) as (n & p & ->). by apply B7.
Qed.

Lemma links_bfind b : bfind bs' b = bfind bs b.
Proof.
  destruct (bfind bs b) as [i|] eqn:E.
  - apply (bfind_Some _ _ Hok) in E as [Hi Hb]. apply (bfind_Some _ _ links_ok). by rewrite links_is_block.
  - apply (bfind_None _ _ links_ok). intros i Hi. rewrite links_is_block by done. by apply (bfind_None _ _ Hok).
Qed.

Lemma bfind_lt b i : bfind bs b = Some i -> (i < HEAD)%nat.
Proof. intros E. by apply (bfind_Some _ _ Hok) in E as [? _]. Qed.

Lemma links_view : (forall d' b, bview bs' d' b = bview bs d' b) /\ (forall b, bref bs' b = bref bs b) /\
  (forall b, blocked bs' b = blocked bs b) /\ nref bs' = nref bs.
Proof.
  split_and!.
  - intros d' b. unfold bview. rewrite links_bfind. destruct (bfind bs b) as [i|] eqn:E; [|done].
    destruct (links_at i (bfind_lt b i E)) as (n & p & ->). done.
  - intros b. unfold bref. rewrite links_bfind. destruct (bfind bs b) as [i|] eqn:E; [|done].
    destruct (links_at i (bfind_lt b i E)) as (n & p & ->). done.
  - intros b. unfold blocked. rewrite links_bfind. destruct (bfind bs b) as [i|] eqn:E; [|done].
    destruct (links_at i (bfind_lt b i E)) as (n & p & ->). done.
  - unfold nref. pose proof (Forall2_take _ _ _ HEAD HL) as Ht. induction Ht as [|b b' l l' (n & p & ->) _ IH]; [done |].
    rewrite !filter_cons. cbn. repeat case_decide; cbn; lia.
Qed.
End links.

(** The pointer assignments of [brelse], in order. *)
Definition move_front (i : nat) (bs : list buf) : list buf :=
  let bs1 := alter (set_b_prev (b_prev (bs !!! i))) (b_next (bs !!! i)) bs in
  let bs2 := alter (set_b_next (b_next (bs1 !!! i))) (b_prev (bs1 !!! i)) bs1 in
  let bs3 := alter (set_b_next (b_next (bs2 !!! HEAD))) i bs2 in
  let bs4 := alter (set_b_prev HEAD) i bs3 in
  let bs5 := alter (set_b_prev i) (b_next (bs4 !!! HEAD)) bs4 in
  alter (set_b_next i) HEAD bs5.

Lemma move_front_links i bs : Forall2 content_eq bs (move_front i bs).
Proof. unfold move_front. cbv zeta. repeat (apply links_alter; [auto using set_prev_content, set_next_content |]). apply links_refl. Qed.

Lemma next_alter bs k f z : (k < length bs)%nat -> b_next (alter f k bs !!! z) = if (z =? k)%nat then b_next (f (bs !!! k)) else b_next (bs !!! z).
Proof. intros Hk. rewrite total_alter by done. destruct (Nat.eqb_spec z k), (decide (k = z)); subst; done. Qed.
Lemma prev_alter bs k f z : (k < length bs)%nat -> b_prev (alter f k bs !!! z) = if (z =? k)%nat then b_prev (f (bs !!! k)) else b_prev (bs !!! z).
Proof. intros Hk. rewrite total_alter by done. destruct (Nat.eqb_spec z k), (decide (k = z)); subst; done. Qed.

Lemma move_front_ring i bs l1 l2 : bring bs (l1 ++ i :: l2) -> (forall z, z ∈ HEAD :: l1 ++ i :: l2 -> (z < length bs)%nat) ->
  bring (move_front i bs) (i :: l1 ++ l2).
Proof.
  intros Hr Hlt. pose proof Hr as [Hl Hnd]. unfold bring in Hr.
  assert (Hih : i <> HEAD) by (rewrite NoDup_cons in Hnd; set_solver).
  (* the neighbours of i *)
  assert (Hn : exists a b, b_prev (bs !!! i) = a /\ b_next (bs !!! i) = b /\ a ∈ HEAD :: l1 /\ b ∈ l2 ++ [HEAD]).
  { destruct (@exists_last _ (HEAD :: l1)) as (A & a & EA); [done |].
    destruct (l2 ++ [HEAD]) as [|b B] eqn:EB; [by apply app_nil in EB as [_ ?] |]. exists a, b.
    assert (EH : HEAD :: (l1 ++ i :: l2) ++ [HEAD] = A ++ a :: i :: b :: B).
    { change (HEAD :: (l1 ++ i :: l2) ++ [HEAD]) with ((HEAD :: l1 ++ i :: l2) ++ [HEAD]).
      rewrite app_comm_cons, EA, <- !app_assoc. cbn. by rewrite EB. }
    rewrite EH, linked_app, !linked_cons in Hl. destruct Hl as (_ & _ & ? & ? & _).
    split_and!; [done | done | rewrite EA; set_solver | set_solver]. }
  destruct Hn as (a & b & Ha & Hb & Hal & Hbl).
  assert (Hdis : i ∉ l1 /\ i ∉ l2).
  { apply NoDup_cons in Hnd as [_ Hnd]. apply NoDup_app in Hnd as (_ & Hd & Hnd). apply NoDup_cons in Hnd as [? _].
    split; [|done]. intros Hi1. apply (Hd i Hi1), elem_of_cons. by left. }
  assert (Hai : a <> i) by (intros ->; apply elem_of_cons in Hal as [|]; naive_solver).
  assert (Hbi : b <> i).
  { intros ->. apply elem_of_app in Hbl as [|Hbl]; [naive_solver |]. apply list_elem_of_singleton in Hbl. done. }
  assert (Hla : (a < length bs)%nat) by (apply Hlt; set_solver).
  assert (Hlb : (b < length bs)%nat) by (apply Hlt; set_solver).
  assert (Hli : (i < length bs)%nat) by (apply Hlt; set_solver).
  assert (Hlh : (HEAD < length bs)%nat) by (apply Hlt; set_solver).
  apply ring_unlink in Hr. rewrite Ha, Hb in Hr.
  assert (Hni : i ∉ HEAD :: l1 ++ l2) by (rewrite not_elem_of_cons, not_elem_of_app; naive_solver).
  pose proof (ring_push _ _ _ _ i Hr Hni) as Hp.
  set (c := if (HEAD =? a)%nat then b else b_next (bs !!! HEAD)) in *.
  assert (Hlc : (c < length bs)%nat).
  { unfold c. destruct (HEAD =? a)%nat; [done |]. apply Hlt.
    clear - Hl. destruct l1 as [|y l1]; cbn [app] in Hl; rewrite linked_cons in Hl; destruct Hl as [-> _]; set_solver. }
  unfold bring, move_front. cbv zeta.
  set (bs1 := alter (set_b_prev (b_prev (bs !!! i))) (b_next (bs !!! i)) bs).
  assert (E1n : forall z, b_next (bs1 !!! z) = b_next (bs !!! z)).
  { intros z. unfold bs1. rewrite Ha, Hb, next_alter by done. by destruct (Nat.eqb_spec z b); subst. }
  assert (E1p : forall z, b_prev (bs1 !!! z) = if (z =? b)%nat then a else b_prev (bs !!! z)).
  { intros z. unfold bs1. by rewrite Ha, Hb, prev_alter. }
  assert (L1 : length bs1 = length bs) by (unfold bs1; by rewrite length_alter).
  assert (E1i : b_next (bs1 !!! i) = b /\ b_prev (bs1 !!! i) = a).
  { rewrite E1n, E1p. destruct (Nat.eqb_spec i b); [done |]. done. }
  destruct E1i as [-> ->]. set (bs2 := alter (set_b_next b) a bs1).
  assert (E2n : forall z, b_next (bs2 !!! z) = if (z =? a)%nat then b else b_next (bs !!! z)).
  { intros z. unfold bs2. rewrite next_alter by lia. by rewrite E1n. }
  assert (E2p : forall z, b_prev (bs2 !!! z) = if (z =? b)%nat then a else b_prev (bs !!! z)).
  { intros z. unfold bs2. rewrite prev_alter by lia. cbn. rewrite !E1p. by destruct (Nat.eqb_spec z a); subst. }
  assert (L2 : length bs2 = length bs) by (unfold bs2; by rewrite length_alter).
  rewrite E2n. fold c. set (bs4 := alter (set_b_prev HEAD) i (alter (set_b_next c) i bs2)).
  assert (L4 : length bs4 = length bs) by (unfold bs4; by rewrite !length_alter).
  assert (E4n : forall z, b_next (bs4 !!! z) = if (z =? i)%nat then c else b_next (bs2 !!! z)).
  { intros z. unfold bs4. rewrite next_alter by (rewrite length_alter; lia). cbn. rewrite !next_alter by lia. cbn.
    rewrite Nat.eqb_refl. by destruct (z =? i)%nat. }
  assert (E4p : forall z, b_prev (bs4 !!! z) = if (z =? i)%nat then HEAD else b_prev (bs2 !!! z)).
  { intros z. unfold bs4. rewrite prev_alter by (rewrite length_alter; lia). cbn.
    destruct (z =? i)%nat eqn:Ez; [done |]. rewrite prev_alter by lia. by rewrite Ez. }
  assert (E4h : b_next (bs4 !!! HEAD) = c).
  { rewrite E4n. destruct (Nat.eqb_spec HEAD i); [congruence |]. by rewrite E2n. }
  rewrite E4h. eapply ring_ext; [| |exact Hp]; intros z; cbn beta.
  - rewrite next_alter by (rewrite length_alter; lia). cbn. destruct (z =? HEAD)%nat; [done |].
    rewrite next_alter by lia. cbn. fold c. destruct (Nat.eqb_spec z c) as [->|]; rewrite !E4n, E2n; done.
  - rewrite prev_alter by (rewrite length_alter; lia). cbn. rewrite !prev_alter by lia. cbn. fold c.
    destruct (Nat.eqb_spec z HEAD) as [->|].
    + destruct (Nat.eqb_spec HEAD c); [done |]. rewrite E4p, E2p. done.
    + destruct (Nat.eqb_spec z c); [done |]. rewrite E4p, E2p. done.
Qed.

(** ** brelse, bpin and bunpin *)

(** Giving back a reference and the lock. *)
Record dropped (s s' : kernel) (bn : Z) : Prop := mkDropped {
  dr_step : bstep s s';
  dr_disk : disk s' = disk s;
  dr_view : forall b, bview (bufs s') (disk s') b = bview (bufs s) (disk s) b;
  dr_ref : forall b, bref (bufs s') b = if decide (b = bn) then bref (bufs s) bn - 1 else bref (bufs s) b;
  dr_blocked : forall b, blocked (bufs s') b = if decide (b = bn) then false else blocked (bufs s) b;
  dr_keep : forall b j, b <> bn -> holds s b j -> holds s' b j;
  dr_nref : nref (bufs s') = (nref (bufs s) - if decide (bref (bufs s) bn = 1%Z) then 1 else 0)%nat
}.

(** The LRU order after releasing buffer [i]. *)
Definition touch (i : nat) (order : list nat) : list nat := i :: filter (fun j => j <> i) order.

Lemma touch_split i l1 l2 : NoDup (l1 ++ i :: l2) -> touch i (l1 ++ i :: l2) = i :: l1 ++ l2.
Proof.
  intros Hnd. apply NoDup_app in Hnd as (_ & Hd & Hnd). apply NoDup_cons in Hnd as [Hi2 _].
  assert (Hi1 : i ∉ l1) by (intros Hi; apply (Hd i Hi), elem_of_cons; by left).
  assert (Hid : forall l : list nat, i ∉ l -> filter (fun j => j <> i) l = l).
  { induction l as [|x l IH]; intros Hl; [done |]. apply not_elem_of_cons in Hl as [? ?]. rewrite filter_cons_True by done. by rewrite IH. }
  unfold touch. rewrite filter_app, filter_cons_False by naive_solver. by rewrite !Hid.
Qed.

Lemma brelse_run s order bn i : binv s order -> bio_free s -> holds s bn i ->
  let bs1 := alter (fun b => set_b_refcnt (b_refcnt (bufs s !!! i) - 1) (set_b_lock (mkSleeplock false 0) b)) i (bufs s) in
  brelse i s = Ret tt (set_bufs (if decide (b_refcnt (bufs s !!! i) = 1) then move_front i bs1 else bs1)
    (set_procs (wake (cur s) (ChBufLock i) (procs s)) s)).
Proof.
  intros I [F1 F2 F3 F4] Hh bs1. pose proof I as [Hok Hring Hperm]. pose proof (holds_ref s order bn i I Hh) as [Hp Href].
  pose proof Hh as [H1 H2 H3 H4]. pose proof (HEAD_lt _ _ Hok) as HL. pose proof (bk_ref _ _ Hok i H1) as Hb.
  unfold brelse. erewrite bind_Ret by (apply holdingsleep_ok; apply F3). cbn [get_sl]. rewrite H3. cbn [sl_locked sl_pid andb].
  rewrite Z.eqb_refl. cbn [negb]. erewrite bind_Ret by (apply releasesleep_ok; [apply F3 | exact F4]).
  erewrite bind_Ret by (apply acquire_Ret; exact F1). unfold getbuf, upd_buf. mred. cbn.
  rewrite (total_alter (fun b => set_b_lock (unlock (b_lock b)) b) i (bufs s) i), decide_True by (lia || done). cbn.
  rewrite wrap_small by lia.
  rewrite alter_compose_list. unfold unlock. cbn. fold bs1.
  assert (E : bs1 !!! i = set_b_refcnt (b_refcnt (bufs s !!! i) - 1) (set_b_lock (mkSleeplock false 0) (bufs s !!! i))).
  { unfold bs1. by rewrite total_alter, decide_True by lia || done. }
  rewrite E. cbn. destruct (decide (b_refcnt (bufs s !!! i) = 1)) as [E1|E1].
  - destruct (Z.eqb_spec (b_refcnt (bufs s !!! i) - 1) 0); [|lia]. mred. cbn. rewrite release_Ret by (cbn; set_solver).
    cbn. rewrite held_restore by done. reflexivity.
  - destruct (Z.eqb_spec (b_refcnt (bufs s !!! i) - 1) 0); [lia |]. mred. rewrite release_Ret by (cbn; set_solver).
    cbn. by rewrite held_restore by done.
Qed.

Lemma brelse_ok s order bn i : binv s order -> bio_free s -> holds s bn i ->
  (bref (bufs s) bn = 1 -> bview (bufs s) (disk s) bn = d_blocks (disk s) bn) ->
  exists s', brelse i s = Ret tt s' /\ dropped s s' bn /\
    binv s' (if decide (bref (bufs s) bn = 1) then touch i order else order).
Proof.
  intros I F Hh Hclean. pose proof I as [Hok Hring Hperm]. pose proof (holds_ref s order bn i I Hh) as [Hp Href].
  pose proof (holds_view s order bn i I Hh) as Hview. pose proof Hh as [H1 H2 H3 H4]. pose proof (HEAD_lt _ _ Hok) as HL.
  eexists. split; [by eapply brelse_run |].
  set (f := fun b => set_b_refcnt (b_refcnt (bufs s !!! i) - 1) (set_b_lock (mkSleeplock false 0) b)).
  set (bs1 := alter f i (bufs s)). pose proof (bk_ref _ _ Hok i H1) as Hb.
  assert (Hok1 : bok bs1 (disk s)).
  { apply (alter_ok _ _ Hok i bn f H1 H2); cbn; try done; [lia | by apply (bk_data _ _ Hok) |].
    intros Hr _. rewrite <- Hview. apply Hclean. lia. }
  assert (Hring1 : bring bs1 order) by (apply bring_alter; try done; lia).
  set (bs2 := if decide (b_refcnt (bufs s !!! i) = 1) then move_front i bs1 else bs1).
  assert (HLk : Forall2 content_eq bs1 bs2) by (unfold bs2; case_decide; [apply move_front_links | apply links_refl]).
  pose proof (links_view bs1 bs2 (disk s) HLk Hok1) as (V1 & V2 & V3 & V4).
  split.
  - split; cbn [bufs set_bufs disk set_procs].
    + split; [reflexivity |]. unfold mine. cbn [procs cur set_bufs set_procs]. by rewrite wake_me.
    + done.
    + intros b. rewrite V1. unfold bs1. rewrite (alter_bview _ _ Hok i bn f H1 H2) by done.
      destruct (decide (b = bn)) as [->|]; [|done]. cbn. rewrite H4. done.
    + intros b. rewrite V2. unfold bs1. rewrite (alter_bref _ _ Hok i bn f H1 H2) by done. by rewrite Href.
    + intros b. rewrite V3. unfold bs1. by rewrite (alter_blocked _ _ Hok i bn f H1 H2) by done.
    + intros b j Hne Hj. pose proof (holds_ne _ _ _ _ _ H2 Hne Hj) as Hji. destruct Hj as [J1 J2 J3 J4].
      destruct (links_at bs1 bs2 (disk s) HLk Hok1 j J1) as (n & p & Hc).
      assert (E1 : bs1 !!! j = bufs s !!! j) by (unfold bs1; rewrite total_alter, decide_False by (lia || congruence); done).
      split; cbn [bufs set_bufs]; fold bs2; rewrite ?Hc, ?E1; try done.
      cbn. rewrite J3. unfold mypid. cbn [procs cur set_bufs set_procs]. by rewrite wake_me.
    + rewrite V4. pose proof (nref_alter (bufs s) f i H1 ltac:(lia)) as Hn. fold bs1 in Hn. rewrite Href. cbn in Hn.
      rewrite (decide_True (P := 0 < b_refcnt (bufs s !!! i))) in Hn by lia. repeat case_decide; lia.
  - rewrite Href. split; cbn [bufs set_bufs disk set_procs].
    + by eapply links_ok.
    + unfold bs2. case_decide; [|done].
      assert (Hin : i ∈ order) by (by apply (perm_lt order i Hperm)). apply list_elem_of_split in Hin as (l1 & l2 & E).
      rewrite E in Hring1 |- *. rewrite touch_split by (destruct Hring1 as [_ Hnd]; by apply NoDup_cons in Hnd as [_ ?]).
      apply move_front_ring; [done |]. intros z Hz. unfold bs1. rewrite length_alter, (bk_len _ _ Hok).
      apply elem_of_cons in Hz as [->|Hz]; [lia |]. rewrite <- E in Hz. apply (perm_lt order z Hperm) in Hz. lia.
    + case_decide; [|done]. assert (Hin : i ∈ order) by (by apply (perm_lt order i Hperm)).
      apply list_elem_of_split in Hin as (l1 & l2 & E). rewrite E in *.
      rewrite touch_split by (destruct Hring1 as [_ Hnd]; by apply NoDup_cons in Hnd as [_ ?]).
      rewrite <- Hperm. by rewrite Permutation_middle.
Qed.

(** Changing the reference count of a block; [pinned s s' bn k] adds [k]. *)
Record pinned (s s' : kernel) (bn k : Z) : Prop := mkPinned {
  pn_state : s' = set_bufs (bufs s') s;
  pn_view : forall b, bview (bufs s') (disk s') b = bview (bufs s) (disk s) b;
  pn_ref : forall b, bref (bufs s') b = if decide (b = bn) then bref (bufs s) bn + k else bref (bufs s) b;
  pn_blocked : forall b, blocked (bufs s') b = blocked (bufs s) b;
  pn_keep : forall b j, b <> bn -> holds s b j -> holds s' b j;
  pn_nref : nref (bufs s') = nref (bufs s)
}.

Lemma pin_ok s order bn i k : binv s order -> holds s bn i -> 0 < bref (bufs s) bn + k < 2 ^ 32 ->
  let s' := set_bufs (alter (set_b_refcnt (b_refcnt (bufs s !!! i) + k)) i (bufs s)) s in
  binv s' order /\ holds s' bn i /\ pinned s s' bn k.
Proof.
  intros I Hh Hk s'. pose proof I as [Hok Hring Hperm]. pose proof (holds_ref s order bn i I Hh) as [Hp Href].
  pose proof Hh as [H1 H2 H3 H4]. pose proof (HEAD_lt _ _ Hok) as HL.
  set (f := set_b_refcnt (b_refcnt (bufs s !!! i) + k)) in *.
  assert (Hok' : bok (alter f i (bufs s)) (disk s)).
  { apply (alter_ok _ _ Hok i bn f H1 H2); cbn; try done; first [by apply (bk_data _ _ Hok) | lia]. }
  assert (Ef : bfind (bufs s) bn = Some i) by (by apply (bfind_Some _ _ Hok)).
  split_and!.
  - split; [exact Hok' | apply bring_alter; try done; lia | done].
  - split; cbn [bufs set_bufs s']; try done; rewrite total_alter, decide_True by lia || done; done.
  - split; try done; cbn [bufs set_bufs disk s'].
    + intros b. rewrite (alter_bview _ _ Hok i bn f H1 H2) by done. destruct (decide (b = bn)) as [->|]; [|done].
      cbn. unfold bview. by rewrite Ef.
    + intros b. rewrite (alter_bref _ _ Hok i bn f H1 H2) by done. by rewrite Href.
    + intros b. rewrite (alter_blocked _ _ Hok i bn f H1 H2) by done. destruct (decide (b = bn)) as [->|]; [|done].
      cbn. unfold blocked. by rewrite Ef.
    + intros b j Hne Hj. apply holds_alter; [done | by eapply holds_ne | lia].
    + pose proof (nref_alter (bufs s) f i H1 ltac:(lia)) as Hn. cbn in Hn. repeat case_decide; lia.
Qed.

Lemma bpin_ok s order bn i : binv s order -> LkBcache ∉ held s -> holds s bn i -> bref (bufs s) bn + 1 < 2 ^ 32 ->
  exists s', bpin i s = Ret tt s' /\ binv s' order /\ holds s' bn i /\ pinned s s' bn 1.
Proof.
  intros I F Hh Hk. pose proof (holds_ref s order bn i I Hh) as [Hp Href].
  eexists. split; [|apply pin_ok; [exact I | exact Hh | lia]].
  unfold bpin, getbuf, upd_buf. mred. rewrite acquire_Ret by done. cbn. rewrite release_Ret by (cbn; set_solver). cbn.
  rewrite held_restore by done. rewrite wrap_small by lia. done.
Qed.

Lemma bunpin_ok s order bn i : binv s order -> LkBcache ∉ held s -> holds s bn i -> 1 < bref (bufs s) bn ->
  exists s', bunpin i s = Ret tt s' /\ binv s' order /\ holds s' bn i /\ pinned s s' bn (-1).
Proof.
  intros I F Hh Hk. pose proof (holds_ref s order bn i I Hh) as [Hp Href].
  pose proof (bk_ref _ _ (bi_ok _ _ I) i (hb_lt _ _ _ Hh)).
  eexists. split; [|apply pin_ok; [exact I | exact Hh | lia]].
  unfold bunpin, getbuf, upd_buf. mred. rewrite acquire_Ret by done. cbn. rewrite release_Ret by (cbn; set_solver). cbn.
  rewrite held_restore by done. rewrite wrap_small by lia. done.
Qed.

(** ** The cache at boot *)

Definition binit_state (d : Z -> list Z) : kernel :=
  match binit (boot_kernel d) with Ret _ s => s | _ => boot_kernel d end.

Lemma binit_run d : binit (boot_kernel d) = Ret tt (binit_state d).
Proof. vm_compute. reflexivity. Qed.

Lemma binit_bufs d : bufs (binit_state d) = bufs (binit_state (fun _ => [])).
Proof. vm_compute. reflexivity. Qed.

Lemma binit_disk d : disk (binit_state d) = mkDisk d [].
Proof. vm_compute. reflexivity. Qed.

Lemma binit_held d : held (binit_state d) = ∅.
Proof. vm_compute. reflexivity. Qed.

Lemma binit_nref d : nref (bufs (binit_state d)) = 0%nat.
Proof. rewrite binit_bufs. vm_compute. reflexivity. Qed.

#[global] Opaque binit_state.

Definition unused (b : buf) : bool :=
  (b_dev b =? 0) && negb (b_valid b) && (b_refcnt b =? 0) && (length (b_data b) =? Z.to_nat BSIZE)%nat && negb (sl_locked (b_lock b)).

Lemma forallb_total (P : buf -> bool) (l : list buf) i : forallb P l = true -> (i < length l)%nat -> P (l !!! i) = true.
Proof.
  intros H Hi. rewrite forallb_forall in H. apply H, list_elem_of_In.
  eapply list_elem_of_lookup_2, list_lookup_lookup_total_lt, Hi.
Qed.

Lemma binit_unused d i : (i < HEAD)%nat -> unused (bufs (binit_state d) !!! i) = true.
Proof.
  intros Hi. rewrite binit_bufs. apply (forallb_total unused (bufs (binit_state (fun _ => []))) i).
  - vm_compute. reflexivity.
  - replace (length (bufs (binit_state (fun _ => [])))) with (S HEAD) by (vm_compute; reflexivity). lia.
Qed.

Lemma unused_ok bs d : length bs = S HEAD -> (forall i, (i < HEAD)%nat -> unused (bs !!! i) = true) ->
  (forall n, length (d_blocks d n) = Z.to_nat BSIZE) -> bok bs d.
Proof.
  intros Hl H Hd. assert (Hu : forall i, (i < HEAD)%nat -> let b := bs !!! i in
    b_dev b = 0 /\ b_valid b = false /\ b_refcnt b = 0 /\ length (b_data b) = Z.to_nat BSIZE /\ sl_locked (b_lock b) = false).
  { intros i Hi b. specialize (H i Hi). fold b in H. unfold unused in H.
    rewrite !andb_true_iff, !negb_true_iff, !Z.eqb_eq, Nat.eqb_eq in H. tauto. }
  split; auto.
  - intros i j bn Hi Hj [H1 _]. destruct (Hu i Hi) as [H2 _]. cbv zeta in H2. rewrite H2 in H1. discriminate H1.
  - intros i Hi. right. destruct (Hu i Hi) as (? & ? & ? & _). done.
  - intros i Hi. destruct (Hu i Hi) as (_ & _ & -> & _). lia.
  - intros i Hi. apply Hu, Hi.
  - intros i Hi Hlk. destruct (Hu i Hi) as (_ & _ & _ & _ & Hn). congruence.
  - intros i Hi _ Hv. destruct (Hu i Hi) as (_ & Hn & _). congruence.
Qed.

Lemma binit_inv d : (forall n, length (d n) = Z.to_nat BSIZE) -> binv (binit_state d) (rev (seq 0 HEAD)).
Proof.
  intros Hd. split.
  - apply unused_ok; [rewrite binit_bufs; vm_compute; reflexivity | apply binit_unused |].
    rewrite binit_disk. exact Hd.
  - rewrite binit_bufs. split; [vm_compute; repeat split |]. apply (bool_decide_unpack _). vm_compute. exact Logic.I.
  - symmetry. apply Permutation_rev.
Qed.

Lemma binit_bfind d b : (forall n, length (d n) = Z.to_nat BSIZE) -> bfind (bufs (binit_state d)) b = None.
Proof.
  intros Hd. apply (bfind_None _ _ (bi_ok _ _ (binit_inv d Hd))). intros i Hi [H1 _].
  pose proof (binit_unused d i Hi) as Hu. revert H1 Hu. generalize (bufs (binit_state d) !!! i). intros b' H1 Hu.
  unfold unused in Hu. rewrite !andb_true_iff in Hu. destruct Hu as [[[[H0 _] _] _] _]. apply Z.eqb_eq in H0.
  rewrite H0 in H1. discriminate H1.
Qed.

Lemma binit_bview d b : (forall n, length (d n) = Z.to_nat BSIZE) -> bview (bufs (binit_state d)) (disk (binit_state d)) b = d b.
Proof. intros Hd. unfold bview. rewrite (binit_bfind d b Hd), binit_disk. reflexivity. Qed.

Lemma binit_free d : bio_free (binit_state d).
Proof. split; unfold no_proc_lock; intros; rewrite binit_held; apply not_elem_of_empty. Qed.

Lemma binit_idle d b : (forall n, length (d n) = Z.to_nat BSIZE) ->
  blocked (bufs (binit_state d)) b = false /\ bref (bufs (binit_state d)) b = 0.
Proof. intros Hd. unfold blocked, bref. by rewrite (binit_bfind d b Hd). Qed.
