(* ===== verification/BioProps.v ===== *)
(** * Properties of bio.c *)

From S2P Require Import Prelude State Spinlock Sched Sleeplock Bio BufCache.

(** [binit] leaves an empty cache whose ring holds each of the [NBUF]
    buffers exactly once. *)
Theorem binit_establishes (d : Z -> list Z) (Hd : forall n, length (d n) = Z.to_nat BSIZE) :
  exists s, binit (boot_kernel d) = Ret tt s /\ binv s (rev (seq 0 HEAD)) /\ nref (bufs s) = 0%nat /\
    (forall b, bview (bufs s) (disk s) b = d b).
Proof.
  exists (binit_state d). split; [apply binit_run |].
  split; [by apply binit_inv |]. split; [apply binit_nref |]. intros b. by apply binit_bview.
Qed.

(** C6: [bread] returns a buffer locked by the calling process, the only one
    for that block, holding the block's current contents (what was last written
    to it, in the cache or on disk); no other block's contents, references or
    lock change, and a block with unwritten changes is never evicted. *)
Theorem bread_current (s : kernel) (order : list nat) (bn : Z) (I : binv s order) (F : bio_free s)
    (Hlk : blocked (bufs s) bn = false) (Hr : bref (bufs s) bn + 1 < 2 ^ 32)
    (Hroom : 0 < bref (bufs s) bn \/ (nref (bufs s) < HEAD)%nat) :
  exists i s', bread ROOTDEV bn s = Ret i s' /\ binv s' order /\ holds s' bn i /\
    b_data (bufs s' !!! i) = bview (bufs s) (disk s) bn /\
    (forall j, (j < HEAD)%nat -> is_block bn (bufs s' !!! j) -> j = i) /\ taken s s' bn i.
Proof.
  destruct (bread_ok s order bn I F Hlk Hr Hroom) as (i & s' & Hr' & I' & T & Hh).
  exists i, s'. split_and!; try done.
  - rewrite <- (holds_view s' order bn i I' Hh). apply T.
  - intros j Hj Hb. eapply (bk_uniq _ _ (bi_ok _ _ I')); [done | apply Hh | done | apply Hh].
Qed.

Lemma bread_current_witness : exists i s', bread ROOTDEV 1 (binit_state (fun _ => replicate 1024 0)) = Ret i s' /\
  b_data (bufs s' !!! i) = replicate 1024 0.
Proof.
  destruct (bread_current (binit_state (fun _ => replicate 1024 0)) (rev (seq 0 HEAD)) 1) as (i & s' & H1 & _ & _ & H2 & _).
  - apply binit_inv. intros n. apply length_replicate.
  - apply binit_free.
  - apply binit_idle. intros n. apply length_replicate.
  - rewrite (proj2 (binit_idle (fun _ => replicate 1024 0) 1 (fun _ => length_replicate 1024 0))). lia.
  - right. rewrite binit_nref. unfold HEAD, NBUF, MAXOPBLOCKS. lia.
  - exists i, s'. split; [exact H1 |]. rewrite H2. apply (binit_bview (fun _ => replicate 1024 0)). intros n. apply length_replicate.
Defined.

Lemma binit_establishes_witness : exists s, binit (boot_kernel (fun _ => replicate 1024 7)) = Ret tt s /\
  bview (bufs s) (disk s) 5 = replicate 1024 7.
Proof.
  destruct (binit_establishes (fun _ => replicate 1024 7)) as (s & H1 & _ & _ & H2).
  - intros n. apply length_replicate.
  - exists s. split; [exact H1 | apply H2].
Defined.

(** C7: the cache is least-recently-used.  A cached block is found; for a block
    that is not, [bget] recycles the last unreferenced buffer of the order
    (most recently released first), and panics if every buffer is referenced. *)
Theorem bget_lru (s : kernel) (order : list nat) (bn : Z) (I : binv s order) (F : bio_free s)
    (Hlk : blocked (bufs s) bn = false) (Hr : bref (bufs s) bn + 1 < 2 ^ 32) :
  match bfind (bufs s) bn with
  | Some i => exists s', bget ROOTDEV bn s = Ret i s' /\ taken s s' bn i
  | None =>
      (forall l1 j l2, order = l1 ++ j :: l2 -> b_refcnt (bufs s !!! j) = 0 ->
         Forall (fun k => b_refcnt (bufs s !!! k) <> 0) l2 ->
         exists s', bget ROOTDEV bn s = Ret j s' /\ taken s s' bn j) /\
      (Forall (fun k => b_refcnt (bufs s !!! k) <> 0) order -> bget ROOTDEV bn s = Panic "bget: no buffers")
  end.
Proof.
  destruct (bfind (bufs s) bn) as [i|] eqn:Ef.
  { destruct (bget_hit s order bn I F Hlk i Ef Hr) as (s' & ? & _ & ?). eauto. }
  assert (Hscan : forall l j l', Forall (fun k => b_refcnt (bufs s !!! k) <> 0) l -> b_refcnt (bufs s !!! j) = 0 ->
    list_find (fun i => b_refcnt (bufs s !!! i) = 0) (l ++ j :: l') = Some (length l, j)).
  { intros l j l' Hl Hj. apply list_find_Some. rewrite lookup_app_r, Nat.sub_diag by lia. split_and!; [done | done |].
    intros k y Hk Hlt. rewrite lookup_app_l in Hk by done. by eapply Forall_lookup_1 in Hk; [|exact Hl]. }
  split.
  - intros l1 j l2 -> Hj Hl2. pose proof (bget_scan s (l1 ++ j :: l2) bn I F) as E. rewrite Ef in E.
    rewrite rev_app_distr in E. cbn [rev] in E. rewrite <- app_assoc in E. cbn [app] in E.
    rewrite Hscan in E; [|by apply Forall_rev | done].
    destruct (bget_miss s _ bn I F Hlk Ef) as (j' & s' & Hg & _ & T).
    + assert (Hin : (j < HEAD)%nat) by (apply (perm_lt _ j (bi_perm _ _ I)); set_solver).
      pose proof (nref_alter (bufs s) (set_b_refcnt 1) j Hin ltac:(rewrite (bk_len _ _ (bi_ok _ _ I)); lia)) as Hn.
      cbn in Hn. rewrite Hj in Hn. cbn in Hn.
      assert (nref (alter (set_b_refcnt 1) j (bufs s)) <= HEAD)%nat.
      { unfold nref. etransitivity; [apply length_filter |]. rewrite length_take. lia. }
      repeat case_decide; lia.
    + assert (Hin : (j < HEAD)%nat) by (apply (perm_lt _ j (bi_perm _ _ I)); set_solver).
      pose proof Hg as Hg'. rewrite E, (bget_lock s (l1 ++ j :: l2) bn I F Hlk j _ Hin) in Hg'.
      2: { cbn. destruct (sl_locked (b_lock (bufs s !!! j))) eqn:Lk; [|done]. apply (bk_lock _ _ (bi_ok _ _ I) j Hin) in Lk. lia. }
      injection Hg' as <- <-. eauto.
  - intros Hall. rewrite (bget_scan s order bn I F), Ef.
    rewrite (proj2 (list_find_None _ _)); [done |]. by apply Forall_rev.
Qed.

Lemma bget_lru_witness : exists s', bget ROOTDEV 9 (binit_state (fun _ => replicate 1024 0)) = Ret 0%nat s'.
Proof.
  pose proof (bget_lru (binit_state (fun _ => replicate 1024 0)) (rev (seq 0 HEAD)) 9) as H.
  rewrite (binit_bfind (fun _ => replicate 1024 0) 9 (fun _ => length_replicate 1024 0)) in H.
  destruct H as [H _].
  - apply binit_inv. intros n. apply length_replicate.
  - apply binit_free.
  - apply binit_idle. intros n. apply length_replicate.
  - rewrite (proj2 (binit_idle (fun _ => replicate 1024 0) 9 (fun _ => length_replicate 1024 0))). lia.
  - destruct (H (rev (seq 1 (HEAD - 1))) 0%nat []) as (s' & Hs & _).
    + vm_compute. reflexivity.
    + pose proof (binit_unused (fun _ => replicate 1024 0) 0 ltac:(unfold HEAD, NBUF, MAXOPBLOCKS; lia)) as Hu.
      unfold unused in Hu. rewrite !andb_true_iff in Hu. apply Z.eqb_eq. apply Hu.
    + constructor.
    + exists s'. exact Hs.
Defined.

(** C8: releasing the last reference to a block makes its buffer the most
    recently used; releasing any reference unlocks it, keeps every block's
    contents, and panics for a caller that does not hold the lock. *)
Theorem brelse_mru (s : kernel) (order : list nat) (bn : Z) (i : nat) (I : binv s order) (F : bio_free s) (Hi : (i < HEAD)%nat) :
  (holds s bn i -> (bref (bufs s) bn = 1 -> bview (bufs s) (disk s) bn = d_blocks (disk s) bn) ->
   exists s', brelse i s = Ret tt s' /\ dropped s s' bn /\
     binv s' (if decide (bref (bufs s) bn = 1) then i :: filter (fun j => j <> i) order else order)) /\
  (sl_locked (b_lock (bufs s !!! i)) && (sl_pid (b_lock (bufs s !!! i)) =? mypid s) = false -> brelse i s = Panic "brelse").
Proof.
  split; [apply brelse_ok; done |]. intros Hn. unfold brelse.
  erewrite bind_Ret by (apply holdingsleep_ok; apply F). cbn [get_sl]. rewrite Hn. done.
Qed.

(** Block 1 is read into the buffer that was released longest ago, and released. *)
Lemma brelse_mru_witness : exists i s s', bread ROOTDEV 1 (binit_state (fun _ => replicate 1024 0)) = Ret i s /\ brelse i s = Ret tt s' /\
  binv s' (i :: filter (fun j => j <> i) (rev (seq 0 HEAD))) /\ bref (bufs s') 1 = 0.
Proof.
  set (d := fun _ : Z => replicate 1024 0). assert (Hd : forall n, length (d n) = Z.to_nat BSIZE) by (intros n; apply length_replicate).
  destruct (binit_idle d 1 Hd) as [Hb Hr0].
  destruct (bread_ok (binit_state d) (rev (seq 0 HEAD)) 1 (binit_inv d Hd) (binit_free d) Hb) as (i & s & E & I & T & Hh).
  { rewrite Hr0. lia. }
  { right. rewrite binit_nref. unfold HEAD, NBUF, MAXOPBLOCKS. lia. }
  assert (Hr : bref (bufs s) 1 = 1) by (rewrite (tk_ref _ _ _ _ T), decide_True by done; by rewrite Hr0).
  assert (F : bio_free s) by (rewrite (tk_state _ _ _ _ T); destruct (binit_free d) as [F1 F2 F3 F4]; split; [exact F1 | exact F2 | exact F3 | exact F4]).
  destruct (proj1 (brelse_mru s (rev (seq 0 HEAD)) 1 i I F ltac:(apply Hh)) Hh) as (s' & E' & D & I').
  - intros _. rewrite (tk_view _ _ _ _ T). rewrite (tk_state _ _ _ _ T). cbn [disk set_bufs]. rewrite (binit_bview d 1 Hd), binit_disk. reflexivity.
  - exists i, s, s'. rewrite Hr in I'. split; [exact E |]. split; [exact E' |]. split; [exact I' |]. rewrite (dr_ref _ _ _ D), decide_True, Hr by done. reflexivity.
Defined.
