(* ===== verification/Log.v ===== *)
(** * kernel/log.c: the write-ahead log

    The transaction in progress is the in-memory header [log_lh]; its blocks
    are pinned in the buffer cache until [commit] has copied them to the log,
    written the header, and installed them. *)

From S2P Require Import Prelude State Spinlock Sched Sleeplock Bio.

(** 32-bit fields of a block. *)
Definition get32 (off : Z) (data : list Z) : Z := le_dec (slice off 4 data).
Definition put32 (off v : Z) (data : list Z) : list Z := splice off (le_enc 4 v) data.

Definition getlog : M kernel log := gets (fun s => logst s).
Definition upd_log (f : log -> log) : M kernel unit := modify (fun s => set_logst (f (logst s)) s).
Definition upd_lh (f : logheader -> logheader) : M kernel unit := upd_log (fun l => set_log_lh (f (log_lh l)) l).

(** [memmove(dst->data, src->data, BSIZE)] *)
Definition copy_data (dst src : nat) : M kernel unit :=
  sp ← getbuf src;
  upd_buf dst (set_b_data (b_data sp)).

(** Copy committed blocks from log to their home location. *)
Fixpoint install_trans_loop (k : nat) (tail : Z) (recovering : bool) : M kernel unit :=
  match k with
  | O => mret tt
  | S k =>
      l ← getlog;
      lbuf ← bread (u32 (log_dev l)) (u32 (log_start l + tail + 1));
      in_bounds tail (alen (lh_block (log_lh l))) ;;
      dbuf ← bread (u32 (log_dev l)) (u32 (lh_block (log_lh l) !!! Z.to_nat tail));
      copy_data dbuf lbuf ;;
      bwrite dbuf ;;
      (if recovering then mret tt else bunpin dbuf) ;;
      brelse lbuf ;;
      brelse dbuf ;;
      install_trans_loop k (tail + 1) recovering
  end.

Definition install_trans (recovering : bool) : M kernel unit :=
  l ← getlog;
  install_trans_loop (Z.to_nat (lh_n (log_lh l))) 0 recovering.

(** The loop of [read_head]. *)
Fixpoint read_head_loop (k : nat) (i : Z) (data : list Z) : M kernel unit :=
  match k with
  | O => mret tt
  | S k =>
      l ← getlog;
      in_bounds i (alen (lh_block (log_lh l))) ;;
      upd_lh (fun h => set_lh_block (<[Z.to_nat i := i32 (get32 (4 + 4 * i) data)]> (lh_block h)) h) ;;
      read_head_loop k (i + 1) data
  end.

(** Read the log header from disk into the in-memory log header. *)
Definition read_head : M kernel unit :=
  l ← getlog;
  b ← bread (u32 (log_dev l)) (u32 (log_start l));
  bp ← getbuf b;
  upd_lh (set_lh_n (i32 (get32 0 (b_data bp)))) ;;
  l ← getlog;
  read_head_loop (Z.to_nat (lh_n (log_lh l))) 0 (b_data bp) ;;
  brelse b.

(** [hb->block[i] = log.lh.block[i]] for [k] entries from [i]. *)
Fixpoint put_blocks (k : nat) (i : Z) (blocks : list Z) (data : list Z) : list Z :=
  match k with
  | O => data
  | S k => put_blocks k (i + 1) blocks (put32 (4 + 4 * i) (blocks !!! Z.to_nat i) data)
  end.

Definition put_header (h : logheader) (data : list Z) : list Z :=
  put_blocks (Z.to_nat (lh_n h)) 0 (lh_block h) (put32 0 (lh_n h) data).

(** Write in-memory log header to disk. *)
Definition write_head : M kernel unit :=
  l ← getlog;
  b ← bread (u32 (log_dev l)) (u32 (log_start l));
  bp ← getbuf b;
  in_prefix (lh_n (log_lh l)) (alen (lh_block (log_lh l))) ;;
  upd_buf b (set_b_data (put_header (log_lh l) (b_data bp))) ;;
  bwrite b ;;
  brelse b.

Definition recover_from_log : M kernel unit :=
  read_head ;;
  install_trans true ;;
  upd_lh (set_lh_n 0) ;;
  write_head.

Definition initlog (dev : Z) (sb : superblock) : M kernel unit :=
  if BSIZE <=? 4 + 4 * LOGSIZE then panic "initlog: too big logheader" else
  initlock LkLog ;;
  upd_log (set_log_start (i32 (sb_logstart sb))) ;;
  upd_log (set_log_size (i32 (sb_nlog sb))) ;;
  upd_log (set_log_dev dev) ;;
  recover_from_log.

(** Whether [begin_op] has to wait. *)
Definition must_wait (s : kernel) : bool :=
  log_committing (logst s) ||
  (LOGSIZE <? lh_n (log_lh (logst s)) + (log_outstanding (logst s) + 1) * MAXOPBLOCKS).

(** Called at the start of each FS system call. *)
Definition begin_op : M kernel unit :=
  acquire LkLog ;;
  sleep_while WAKEUPS must_wait ChLog LkLog ;;
  upd_log (fun l => set_log_outstanding (log_outstanding l + 1) l) ;;
  release LkLog.

(** Copy modified blocks from cache to log. *)
Fixpoint write_log_loop (k : nat) (tail : Z) : M kernel unit :=
  match k with
  | O => mret tt
  | S k =>
      l ← getlog;
      to ← bread (u32 (log_dev l)) (u32 (log_start l + tail + 1));
      in_bounds tail (alen (lh_block (log_lh l))) ;;
      from ← bread (u32 (log_dev l)) (u32 (lh_block (log_lh l) !!! Z.to_nat tail));
      copy_data to from ;;
      bwrite to ;;
      brelse from ;;
      brelse to ;;
      write_log_loop k (tail + 1)
  end.

Definition write_log : M kernel unit :=
  l ← getlog;
  write_log_loop (Z.to_nat (lh_n (log_lh l))) 0.

Definition commit : M kernel unit :=
  l ← getlog;
  if 0 <? lh_n (log_lh l) then
    write_log ;;
    write_head ;;
    install_trans false ;;
    upd_lh (set_lh_n 0) ;;
    write_head
  else mret tt.

(** Called at the end of each FS system call; commits if this was the last
    outstanding operation. *)
Definition end_op : M kernel unit :=
  acquire LkLog ;;
  upd_log (fun l => set_log_outstanding (log_outstanding l - 1) l) ;;
  l ← getlog;
  if log_committing l then panic "log.committing" else
  do_commit ← (if log_outstanding l =? 0
               then upd_log (set_log_committing true) ;; mret true
               else wakeup ChLog ;; mret false);
  release LkLog ;;
  if (do_commit : bool) then
    commit ;;
    acquire LkLog ;;
    upd_log (set_log_committing false) ;;
    wakeup ChLog ;;
    release LkLog
  else mret tt.

(** The index of [blockno] in the transaction, [n] if it is not there. *)
Fixpoint log_find (k : nat) (i : Z) (blocks : list Z) (blockno : Z) : Z :=
  match k with
  | O => i
  | S k => if u32 (blocks !!! Z.to_nat i) =? blockno then i else log_find k (i + 1) blocks blockno
  end.

(** Record the block number and pin in the cache by increasing refcnt. *)
Definition log_write (b : nat) : M kernel unit :=
  acquire LkLog ;;
  l ← getlog;
  if (LOGSIZE <=? lh_n (log_lh l)) || (log_size l - 1 <=? lh_n (log_lh l)) then panic "too big a transaction" else
  if log_outstanding l <? 1 then panic "log_write outside of trans" else
  bp ← getbuf b;
  in_prefix (lh_n (log_lh l)) (alen (lh_block (log_lh l))) ;;
  let i := log_find (Z.to_nat (lh_n (log_lh l))) 0 (lh_block (log_lh l)) (b_blockno bp) in
  in_bounds i (alen (lh_block (log_lh l))) ;;
  upd_lh (fun h => set_lh_block (<[Z.to_nat i := i32 (b_blockno bp)]> (lh_block h)) h) ;;
  (if i =? lh_n (log_lh l) then
     bpin b ;;
     upd_lh (fun h => set_lh_n (lh_n h + 1) h)
   else mret tt) ;;
  release LkLog.
