(* ===== verification/CacheRules.v ===== *)
(** * Rules for clients of the buffer cache

    [cst s v r L n]: the cache in state [s] shows contents [v], has references
    [r], locked blocks [L], and [n] buffers in use.  Each operation of bio.c
    has one rule that says how it changes these; the log and the file system
    are proved with these rules alone. *)

From S2P Require Import Prelude State Spinlock Sched Sleeplock Bio BufCache.

(** Update of a function at one point. *)
Definition fupd {A} (f : Z -> A) (k : Z) (x : A) : Z -> A := fun y => if decide (y = k) then x else f y.

Lemma fupd_eq {A} (f : Z -> A) k x : fupd f k x k = x.
Proof. unfold fupd. by rewrite decide_True. Qed.
Lemma fupd_ne {A} (f : Z -> A) k x y : y <> k -> fupd f k x y = f y.
Proof. intros. unfold fupd. by rewrite decide_False. Qed.

Record cst (s : kernel) (v : Z -> list Z) (r : Z -> Z) (L : Z -> bool) (n : nat) : Prop := mkCst {
  c_inv : exists order, binv s order;
  c_free : bio_free s;
  c_view : forall b, bview (bufs s) (disk s) b = v b;
  c_ref : forall b, bref (bufs s) b = r b;
  c_locked : forall b, blocked (bufs s) b = L b;
  c_nref : nref (bufs s) = n
}.

Lemma cst_ext s v r L n v' r' L' : cst s v r L n -> (forall b, v' b = v b) -> (forall b, r' b = r b) ->
  (forall b, L' b = L b) -> cst s v' r' L' n.
Proof. intros [? ? ? ? ? ?] Hv Hr HL. split; auto; intros b; rewrite ?Hv, ?Hr, ?HL; auto. Qed.

Lemma cst_len s v r L n b : cst s v r L n -> length (v b) = Z.to_nat BSIZE.
Proof.
  intros [[order I] _ Hv _ _ _]. rewrite <- Hv. unfold bview. pose proof (bi_ok _ _ I) as Hok.
  destruct (bfind (bufs s) b) as [i|] eqn:E; [|apply (bk_disk _ _ Hok)].
  apply (bfind_Some _ _ Hok) in E as [Hi _].
  destruct (b_valid _); [by apply (bk_data _ _ Hok) | apply (bk_disk _ _ Hok)].
Qed.

(** Unreferenced blocks hold what the disk holds. *)
Lemma cst_clean s v r L n b : cst s v r L n -> r b = 0 -> v b = d_blocks (disk s) b.
Proof.
  intros [[order I] _ Hv Hr _ _] H0. rewrite <- Hv. rewrite <- Hr in H0. unfold bview, bref in *.
  pose proof (bi_ok _ _ I) as Hok. destruct (bfind (bufs s) b) as [i|] eqn:E; [|done].
  apply (bfind_Some _ _ Hok) in E as [Hi [_ Hb]]. destruct (b_valid (bufs s !!! i)) eqn:V; [|done].
  rewrite (bk_clean _ _ Hok i Hi H0 V). by rewrite Hb.
Qed.

Lemma cst_ref_pos s v r L n b : cst s v r L n -> 0 <= r b.
Proof.
  intros [[order I] _ Hv Hr _ _]. rewrite <- Hr. unfold bref. destruct (bfind (bufs s) b) as [i|] eqn:E; [|done].
  apply (bfind_Some _ _ (bi_ok _ _ I)) in E as [Hi _]. apply (bk_ref _ _ (bi_ok _ _ I) i Hi).
Qed.

Lemma holds_data s v r L n bn i : cst s v r L n -> holds s bn i -> b_data (bufs s !!! i) = v bn.
Proof. intros [[order I] _ Hv _ _ _] Hh. rewrite <- Hv. symmetry. by eapply holds_view. Qed.

Lemma holds_blockno s bn i : holds s bn i -> b_blockno (bufs s !!! i) = bn.
Proof. intros [_ [_ ?] _ _]. done. Qed.

(** A change that neither touches the cache nor the disk. *)
Lemma cst_other s s' v r L n : cst s v r L n -> bufs s' = bufs s -> disk s' = disk s -> held s' = held s -> cst s' v r L n.
Proof.
  intros [[order [I1 I2 I3]] [F1 F2 F3 F4] Hv Hr HL Hn] Eb Ed Eh. split; rewrite ?Eb, ?Ed; auto.
  - exists order. split; by rewrite ?Eb, ?Ed.
  - split; unfold no_proc_lock; by rewrite ?Eh.
Qed.

Lemma holds_other s s' bn i : holds s bn i -> bufs s' = bufs s -> mypid s' = mypid s -> holds s' bn i.
Proof. intros [? ? ? ?] Eb Ep. split; rewrite ?Eb, ?Ep; done. Qed.

Lemma bstep_bufs s s' : s' = set_bufs (bufs s') s -> bstep s s'.
Proof. intros E. split; [rewrite E at 1; rewrite E; done | rewrite E; done]. Qed.

Lemma bstep_set_bufs s bs : bstep s (set_bufs bs s).
Proof. by split. Qed.

Lemma bstep_set_disk s d : bstep s (set_disk d s).
Proof. by split. Qed.

Lemma bstep_procs s s' : s' = set_procs (procs s') (set_bufs (bufs s') s) -> mine s' = mine s -> bstep s s'.
Proof. intros E Ep. split; [|done]. rewrite E at 1. rewrite E. done. Qed.

#[export] Hint Resolve bstep_refl bstep_bufs bstep_set_bufs bstep_set_disk bstep_procs : bstep.

(** [keeps_held s s' bn]: buffers held for other blocks are still held. *)
Definition keeps_held (s s' : kernel) (bn : Z) : Prop := forall b j, b <> bn -> holds s b j -> holds s' b j.

Section rules.
Context (s : kernel) (v : Z -> list Z) (r : Z -> Z) (L : Z -> bool) (n : nat) (C : cst s v r L n) (bn : Z).

Lemma rule_bread : L bn = false -> r bn + 1 < 2 ^ 32 -> (0 < r bn \/ (n < HEAD)%nat) ->
  exists i s', bread ROOTDEV bn s = Ret i s' /\ s' = set_bufs (bufs s') s /\
    cst s' v (fupd r bn (r bn + 1)) (fupd L bn true) (if decide (r bn = 0) then S n else n) /\
    holds s' bn i /\ keeps_held s s' bn.
Proof.
  destruct C as [[order I] F Hv Hr HL Hn]. intros H1 H2 H3.
  destruct (bread_ok s order bn I F) as (i & s' & Hb & I' & T & Hh); [by rewrite HL | by rewrite Hr | by rewrite Hr, Hn |].
  destruct T as [T1 T2 T3 T4 T5 T6 T7 T9 T8]. exists i, s'. split_and!; try done. split.
  - eauto.
  - rewrite T4. destruct F. by split.
  - intros b. by rewrite T5.
  - intros b. rewrite T6. unfold fupd. destruct (decide (b = bn)); by rewrite Hr.
  - intros b. rewrite T7. unfold fupd. destruct (decide (b = bn)); by rewrite ?HL.
  - rewrite T8, Hr, Hn. destruct (decide (r bn = 0)); lia.
Qed.

Lemma rule_store i l : holds s bn i -> length l = Z.to_nat BSIZE ->
  let s' := set_bufs (alter (set_b_data l) i (bufs s)) s in
  upd_buf i (set_b_data l) s = Ret tt s' /\ cst s' (fupd v bn l) r L n /\ holds s' bn i /\ keeps_held s s' bn.
Proof.
  destruct C as [[order I] F Hv Hr HL Hn]. intros Hh Hl s'.
  destruct (store_data_ok s order bn i l I Hh Hl) as (I' & Hh' & V1 & V2 & V3 & V4 & V5).
  split_and!; try done. split.
  - eauto.
  - destruct F. by split.
  - intros b. unfold s'. rewrite V1. unfold fupd. destruct (decide (b = bn)); by rewrite ?Hv.
  - intros b. unfold s'. by rewrite V2.
  - intros b. unfold s'. by rewrite V3.
  - unfold s'. by rewrite V5.
Qed.

Lemma rule_bwrite i : holds s bn i ->
  let s' := set_disk (disk_write bn (v bn) (disk s)) s in
  bwrite i s = Ret tt s' /\ cst s' v r L n /\ holds s' bn i /\ keeps_held s s' bn.
Proof.
  destruct C as [[order I] F Hv Hr HL Hn]. intros Hh s'.
  destruct (bwrite_ok s order bn i I F Hh) as (E & I' & Hh' & V). rewrite Hv in *.
  split_and!; [done | | done | by intros b j _ []].
  split; auto; [by exists order | destruct F; by split |]. intros b. unfold s'. by rewrite V.
Qed.

Lemma rule_brelse i : holds s bn i -> (r bn = 1 -> v bn = d_blocks (disk s) bn) ->
  exists s', brelse i s = Ret tt s' /\ s' = set_procs (procs s') (set_bufs (bufs s') s) /\ mine s' = mine s /\
    cst s' v (fupd r bn (r bn - 1)) (fupd L bn false) (if decide (r bn = 1) then (n - 1)%nat else n) /\
    keeps_held s s' bn.
Proof.
  destruct C as [[order I] F Hv Hr HL Hn]. intros Hh Hclean.
  destruct (brelse_ok s order bn i I F Hh) as (s' & E & [D1 D2 D3 D4 D5 D7 D6] & I'); [by rewrite Hr, Hv |].
  exists s'. split_and!; try done.
  - destruct D1 as [D1 _]. rewrite D1 at 1. rewrite D2. done.
  - apply D1.
  - split.
    + eauto.
    + by eapply bstep_free.
    + intros b. by rewrite D3.
    + intros b. rewrite D4. unfold fupd. destruct (decide (b = bn)); by rewrite Hr.
    + intros b. rewrite D5. unfold fupd. destruct (decide (b = bn)); by rewrite ?HL.
    + rewrite D6, Hr, Hn. destruct (decide (r bn = 1)); lia.
Qed.

Lemma pinned_cst s' k : pinned s s' bn k -> (exists order, binv s' order) -> cst s' v (fupd r bn (r bn + k)) L n.
Proof.
  destruct C as [[order I] F Hv Hr HL Hn]. intros [P1 P2 P3 P4 _ P5] I'. split; auto.
  - rewrite P1. destruct F. by split.
  - intros b. by rewrite P2.
  - intros b. rewrite P3. unfold fupd. destruct (decide (b = bn)); by rewrite Hr.
  - intros b. by rewrite P4.
  - congruence.
Qed.

Lemma rule_bpin i : holds s bn i -> r bn + 1 < 2 ^ 32 ->
  exists s', bpin i s = Ret tt s' /\ s' = set_bufs (bufs s') s /\
    cst s' v (fupd r bn (r bn + 1)) L n /\ holds s' bn i /\ keeps_held s s' bn.
Proof.
  intros Hh Hk. pose proof C as [[order I] F Hv Hr HL Hn].
  destruct (bpin_ok s order bn i I (bf_bcache _ F) Hh) as (s' & E & I' & Hh' & P); [by rewrite Hr |].
  exists s'. split_and!; try done; [apply P | apply pinned_cst; eauto | exact (pn_keep _ _ _ _ P)].
Qed.

Lemma rule_bunpin i : holds s bn i -> 1 < r bn ->
  exists s', bunpin i s = Ret tt s' /\ s' = set_bufs (bufs s') s /\
    cst s' v (fupd r bn (r bn - 1)) L n /\ holds s' bn i /\ keeps_held s s' bn.
Proof.
  intros Hh Hk. pose proof C as [[order I] F Hv Hr HL Hn].
  destruct (bunpin_ok s order bn i I (bf_bcache _ F) Hh) as (s' & E & I' & Hh' & P); [by rewrite Hr |].
  exists s'. split_and!; try done; [apply P | | exact (pn_keep _ _ _ _ P)]. apply (pinned_cst s' (-1)); eauto.
Qed.
End rules.
