(* ===== verification/LogHeader.v ===== *)
(** * The log header's encoding

    The header block holds [n] and the block numbers as little-endian 32-bit
    fields.  [hdr_n] and [hdr_blocks] read it back; [read_head_loop] computes
    them. *)

From S2P Require Import Prelude State Bio Log.

Lemma length_put32 off v data : 0 <= off -> off + 4 <= Z.of_nat (length data) -> length (put32 off v data) = length data.
Proof. intros. apply length_splice; rewrite ?length_le_enc; lia. Qed.

Lemma get32_put32_eq off v data : 0 <= off -> off + 4 <= Z.of_nat (length data) -> get32 off (put32 off v data) = u32 v.
Proof.
  intros. unfold get32, put32. change 4 with (Z.of_nat (length (le_enc 4 v))) at 1.
  rewrite slice_splice_eq by (rewrite ?length_le_enc; lia). rewrite le_dec_enc. reflexivity.
Qed.

Lemma get32_put32_ne off off' v data : 0 <= off -> 0 <= off' -> off' + 4 <= Z.of_nat (length data) ->
  off + 4 <= off' \/ off' + 4 <= off -> get32 off (put32 off' v data) = get32 off data.
Proof. intros. unfold get32, put32. rewrite slice_splice_ne by (rewrite ?length_le_enc; lia). done. Qed.

Lemma i32_u32 x : 0 <= x < 2 ^ 31 -> i32 (u32 x) = x.
Proof. intros. rewrite wrap_small by lia. apply signed_small; lia. Qed.

Lemma put_blocks_length blocks : forall k i data, 0 <= i -> 4 + 4 * (i + Z.of_nat k) <= Z.of_nat (length data) ->
  length (put_blocks k i blocks data) = length data.
Proof.
  induction k as [|k IH]; intros i data Hi Hb; [done |]. cbn [put_blocks].
  rewrite IH; rewrite ?length_put32; lia.
Qed.

Lemma put_blocks_before blocks off : forall k i data, 0 <= i -> 4 + 4 * (i + Z.of_nat k) <= Z.of_nat (length data) ->
  0 <= off -> off + 4 <= 4 + 4 * i -> get32 off (put_blocks k i blocks data) = get32 off data.
Proof.
  induction k as [|k IH]; intros i data Hi Hb H0 Ho; [done |]. cbn [put_blocks].
  rewrite IH by (rewrite ?length_put32; lia). apply get32_put32_ne; lia.
Qed.

Lemma put_blocks_get blocks j : forall k i data, 0 <= i -> 4 + 4 * (i + Z.of_nat k) <= Z.of_nat (length data) ->
  i <= j < i + Z.of_nat k -> get32 (4 + 4 * j) (put_blocks k i blocks data) = u32 (blocks !!! Z.to_nat j).
Proof.
  induction k as [|k IH]; intros i data Hi Hb Hj; [lia |]. cbn [put_blocks].
  destruct (decide (j = i)) as [->|].
  - rewrite put_blocks_before by (rewrite ?length_put32; lia). apply get32_put32_eq; lia.
  - apply IH; rewrite ?length_put32; lia.
Qed.

(** ** Headers *)

Definition hdr_n (data : list Z) : Z := i32 (get32 0 data).
Definition hdr_blocks (data : list Z) : list Z :=
  (fun j => i32 (get32 (4 + 4 * Z.of_nat j) data)) <$> seq 0 (Z.to_nat (hdr_n data)).

Lemma logsize_fits n : 0 <= n <= LOGSIZE -> 4 + 4 * n <= BSIZE /\ n < 2 ^ 31.
Proof. unfold LOGSIZE, MAXOPBLOCKS, BSIZE. lia. Qed.

Lemma put_header_length h data : 0 <= lh_n h <= LOGSIZE -> length data = Z.to_nat BSIZE ->
  length (put_header h data) = Z.to_nat BSIZE.
Proof.
  intros Hn Hd. destruct (logsize_fits _ Hn). unfold put_header.
  rewrite put_blocks_length; rewrite ?length_put32; lia.
Qed.

(** Reading back what [write_head] wrote. *)
Lemma put_header_n h data : 0 <= lh_n h <= LOGSIZE -> length data = Z.to_nat BSIZE -> hdr_n (put_header h data) = lh_n h.
Proof.
  intros Hn Hd. destruct (logsize_fits _ Hn). unfold hdr_n, put_header.
  rewrite put_blocks_before by (rewrite ?length_put32; lia). rewrite get32_put32_eq by lia. apply i32_u32. lia.
Qed.

Lemma put_header_blocks h data bl : lh_n h = Z.of_nat (length bl) -> lh_n h <= LOGSIZE -> length data = Z.to_nat BSIZE ->
  take (length bl) (lh_block h) = bl -> (forall b, b ∈ bl -> 0 <= b < 2 ^ 31) -> hdr_blocks (put_header h data) = bl.
Proof.
  intros Hn Hle Hd Ht Hb. unfold hdr_blocks. rewrite put_header_n by lia. destruct (logsize_fits (lh_n h)); [lia |].
  apply list_eq. intros j. rewrite Hn, Nat2Z.id. rewrite list_lookup_fmap. destruct (decide (j < length bl)%nat) as [Hj|Hj].
  - rewrite lookup_seq_lt by done. cbn [fmap option_fmap option_map]. unfold put_header.
    rewrite put_blocks_get by (rewrite ?length_put32; lia).
    destruct (lookup_lt_is_Some_2 bl j Hj) as [b Eb]. rewrite Eb. f_equal. rewrite Nat2Z.id.
    assert (E : lh_block h !!! j = b).
    { apply list_lookup_total_correct. rewrite <- Ht in Eb. by apply lookup_take_Some in Eb as [? _]. }
    cbn. rewrite E. apply i32_u32, Hb. by eapply list_elem_of_lookup_2.
  - rewrite lookup_seq_ge by lia. rewrite lookup_ge_None_2 by lia. done.
Qed.

(** ** read_head *)

(** The in-memory block numbers after [read_head_loop]. *)
Fixpoint read_blocks (k : nat) (i : Z) (data blocks : list Z) : list Z :=
  match k with
  | O => blocks
  | S k => read_blocks k (i + 1) data (<[Z.to_nat i := i32 (get32 (4 + 4 * i) data)]> blocks)
  end.

Lemma read_head_loop_run data : forall k i s, 0 <= i -> i + Z.of_nat k <= alen (lh_block (log_lh (logst s))) ->
  read_head_loop k i data s =
  Ret tt (set_logst (set_log_lh (set_lh_block (read_blocks k i data (lh_block (log_lh (logst s)))) (log_lh (logst s))) (logst s)) s).
Proof.
  induction k as [|k IH]; intros i s Hi Hk; [done |]. cbn [read_head_loop read_blocks]. unfold getlog. erewrite bind_Ret by reflexivity. cbv beta.
  rewrite in_bounds_run by lia. erewrite bind_Ret by reflexivity. rewrite IH; [done | lia |]. unfold alen in *. cbn. rewrite length_insert. lia.
Qed.

Lemma read_blocks_length data : forall k i blocks, length (read_blocks k i data blocks) = length blocks.
Proof. induction k as [|k IH]; intros; [done |]. cbn. by rewrite IH, length_insert. Qed.

Lemma read_blocks_lookup data (j : nat) : forall k i blocks, 0 <= i -> (j < length blocks)%nat ->
  read_blocks k i data blocks !! j =
  if decide (i <= Z.of_nat j < i + Z.of_nat k) then Some (i32 (get32 (4 + 4 * Z.of_nat j) data)) else blocks !! j.
Proof.
  induction k as [|k IH]; intros i blocks Hi Hj; cbn [read_blocks].
  - rewrite decide_False by lia. done.
  - rewrite IH by (rewrite ?length_insert; lia). destruct (decide (Z.of_nat j = i)) as [E|E].
    + subst i. rewrite decide_False by lia. rewrite decide_True by lia. rewrite Nat2Z.id.
      by apply list_lookup_insert_eq.
    + rewrite list_lookup_insert_ne by lia. destruct (decide (i + 1 <= _ < _)), (decide (i <= _ < _)); try lia; done.
Qed.

Lemma read_blocks_take data blocks : hdr_n data <= Z.of_nat (length blocks) ->
  take (length (hdr_blocks data)) (read_blocks (Z.to_nat (hdr_n data)) 0 data blocks) = hdr_blocks data.
Proof.
  intros Hn. unfold hdr_blocks. rewrite length_fmap, length_seq. apply list_eq. intros j.
  rewrite list_lookup_fmap.
  destruct (decide (j < Z.to_nat (hdr_n data))%nat) as [Hj|Hj].
  - rewrite lookup_take_lt by done. rewrite lookup_seq_lt by done. rewrite read_blocks_lookup by lia.
    rewrite decide_True by lia. done.
  - rewrite lookup_take_ge by lia. rewrite lookup_seq_ge by lia. done.
Qed.

Lemma hdr_blocks_length data : length (hdr_blocks data) = Z.to_nat (hdr_n data).
Proof. unfold hdr_blocks. by rewrite length_fmap, length_seq. Qed.
