(* ===== verification/LogSpec.v ===== *)
(** * The log's disk writes

    Between system calls the cache is [quiet]: nothing is locked, and exactly
    the blocks of the transaction are referenced, once each.  From a quiet
    state the routines of log.c issue the list of disk writes computed here,
    block by block. *)

From S2P Require Import Prelude State Spinlock Sched Sleeplock Bio BufCache CacheRules Log LogHeader.

Definition rP (P : list Z) (b : Z) : Z := if decide (b ∈ P) then 1 else 0.
Definition quiet (s : kernel) (v : Z -> list Z) (P : list Z) : Prop := cst s v (rP P) (fun _ => false) (length P).

(** The disk after a sequence of writes. *)
Definition run_writes (ws : list (Z * list Z)) (d : diskst) : diskst :=
  foldl (fun d w => disk_write (fst w) (snd w) d) d ws.

Lemma run_writes_app ws ws' d : run_writes (ws ++ ws') d = run_writes ws' (run_writes ws d).
Proof. apply foldl_app. Qed.

(** The geometry of the log, and a transaction [bl] that respects it. *)
Record log_ok (l : log) (bl : list Z) : Prop := mkLogOk {
  lo_dev : log_dev l = ROOTDEV;
  lo_start : 0 <= log_start l;
  lo_size : 0 <= log_size l /\ log_start l + log_size l < 2 ^ 31;
  lo_n : lh_n (log_lh l) = Z.of_nat (length bl);
  lo_room : Z.of_nat (length bl) <= log_size l - 1 /\ Z.of_nat (length bl) < LOGSIZE;
  lo_blocks : take (length bl) (lh_block (log_lh l)) = bl;
  lo_nodup : NoDup bl;
  lo_home : forall b, b ∈ bl -> 0 <= b < 2 ^ 31 /\ ~ (log_start l <= b < log_start l + log_size l)
}.

Section logspec.
Context (l : log) (bl : list Z) (Hl : log_ok l bl).

Let S0 := log_start l.

Lemma lo_block (i : nat) b : bl !! i = Some b -> lh_block (log_lh l) !!! i = b /\ u32 b = b /\ 0 <= b < 2 ^ 31.
Proof.
  intros Hb. pose proof (lo_blocks _ _ Hl) as Ht. pose proof (lookup_lt_Some _ _ _ Hb) as Hi.
  rewrite <- Ht in Hb. apply lookup_take_Some in Hb as [Hb _].
  assert (Hin : b ∈ bl) by (rewrite <- Ht; eapply list_elem_of_lookup_2; by rewrite lookup_take_lt by done).
  destruct (lo_home _ _ Hl b Hin) as [Hr _]. split_and!; try lia; [by apply list_lookup_total_correct | apply wrap_small; lia].
Qed.

(** The log block of entry [i] is not a home block. *)
Lemma log_block_home (i : nat) b : (i < length bl)%nat -> b ∈ bl -> S0 + Z.of_nat i + 1 <> b.
Proof.
  intros Hi Hb E. destruct (lo_home _ _ Hl b Hb) as [_ Hn]. apply Hn. destruct (lo_room _ _ Hl). unfold S0 in E. lia.
Qed.

Lemma log_block_u32 (i : nat) : (i < length bl)%nat -> u32 (S0 + Z.of_nat i + 1) = S0 + Z.of_nat i + 1.
Proof.
  intros Hi. destruct (lo_room _ _ Hl), (lo_size _ _ Hl). pose proof (lo_start _ _ Hl). unfold S0. apply wrap_small. lia.
Qed.

Lemma dev_u32 : u32 (log_dev l) = ROOTDEV.
Proof. rewrite (lo_dev _ _ Hl). reflexivity. Qed.

Lemma bl_room : (length bl < HEAD)%nat.
Proof. destruct (lo_room _ _ Hl) as [_ H]. unfold LOGSIZE, HEAD, NBUF, MAXOPBLOCKS in *. lia. Qed.

Lemma fupd_same (f : Z -> Z) (k x : Z) : forall b, fupd (fupd f k x) k (f k) b = f b.
Proof. intros b. unfold fupd. destruct (decide (b = k)) as [->|]; done. Qed.

(** The transaction is in the array of the header. *)
Lemma bl_len : Z.of_nat (length bl) <= alen (lh_block (log_lh l)).
Proof. pose proof (f_equal length (lo_blocks _ _ Hl)) as E. rewrite length_take in E. unfold alen. lia. Qed.

Lemma bl_in (i : nat) b : bl !! i = Some b -> 0 <= Z.of_nat i < alen (lh_block (log_lh l)).
Proof. intros E%lookup_lt_Some. pose proof bl_len. lia. Qed.

(** ** One block copied to the log *)

Lemma write_log_iter k (i : nat) b s v : logst s = l -> bl !! i = Some b -> quiet s v bl ->
  exists s', write_log_loop (S k) (Z.of_nat i) s = write_log_loop k (Z.of_nat i + 1) s' /\
    quiet s' (fupd v (S0 + Z.of_nat i + 1) (v b)) bl /\ bstep s s' /\
    disk s' = disk_write (S0 + Z.of_nat i + 1) (v b) (disk s).
Proof.
  intros Hs Hb Q. pose proof (lookup_lt_Some _ _ _ Hb) as Hi. assert (Hin : b ∈ bl) by (by eapply list_elem_of_lookup_2).
  destruct (lo_block i b Hb) as (Hbl & Hbu & Hbr). pose proof (log_block_home i b Hi Hin) as Hne.
  set (T := S0 + Z.of_nat i + 1) in *. assert (HT : T ∉ bl) by (intros HT; by eapply log_block_home).
  cbn [write_log_loop]. unfold getlog. erewrite bind_Ret by reflexivity. cbv beta. rewrite Hs, dev_u32, Nat2Z.id, Hbl, Hbu.
  change (log_start l) with S0. fold T. unfold T at 1. rewrite log_block_u32 by done. fold T.
  assert (rT : rP bl T = 0) by (unfold rP; by rewrite decide_False).
  assert (rb : rP bl b = 1) by (unfold rP; by rewrite decide_True).
  destruct (rule_bread s v _ _ _ Q T) as (it & s1 & E1 & F1 & C1 & H1 & _); [done | lia | right; apply bl_room |].
  erewrite bind_Ret by exact E1. cbv beta. rewrite in_bounds_run by (by eapply bl_in). rewrite rT in C1. cbn [Z.add] in C1. rewrite decide_True in C1 by done.
  destruct (rule_bread s1 v _ _ _ C1 b) as (ib & s2 & E2 & F2 & C2 & H2 & K2);
    [rewrite fupd_ne by done; done | rewrite fupd_ne by done; lia | left; rewrite fupd_ne by done; lia |].
  erewrite bind_Ret by exact E2. cbv beta. rewrite fupd_ne, rb in C2 by done. rewrite decide_False in C2 by lia.
  unfold copy_data, getbuf. erewrite bind_Ret; [|erewrite bind_Ret by reflexivity; cbv beta].
  2: { rewrite (holds_data _ _ _ _ _ _ _ C2 H2). destruct (rule_store s2 v _ _ _ C2 T it (v b) (K2 T it Hne H1) (cst_len _ _ _ _ _ b C2)) as (E3 & _). exact E3. }
  destruct (rule_store s2 v _ _ _ C2 T it (v b) (K2 T it Hne H1) (cst_len _ _ _ _ _ b C2)) as (_ & C3 & H3 & K3).
  set (s3 := set_bufs _ s2) in *. specialize (K3 b ib ltac:(congruence) H2).
  destruct (rule_bwrite s3 _ _ _ _ C3 T it H3) as (E4 & C4 & H4 & K4).
  rewrite fupd_eq in E4, C4, H4, K4. erewrite bind_Ret by exact E4.
  set (s4 := set_disk _ s3) in *. specialize (K4 b ib ltac:(congruence) K3).
  destruct (rule_brelse s4 _ _ _ _ C4 b ib K4) as (s5 & E5 & F5 & P5 & C5 & K5); [rewrite fupd_eq; lia |].
  erewrite bind_Ret by exact E5. rewrite fupd_eq in C5. rewrite decide_False in C5 by lia.
  destruct (rule_brelse s5 _ _ _ _ C5 T it (K5 T it Hne H4)) as (s6 & E6 & F6 & P6 & C6 & _).
  { intros _. rewrite fupd_eq, F5. cbn. rewrite Z.eqb_refl. done. }
  erewrite bind_Ret by exact E6. exists s6. split; [done |].
  assert (Ed : disk s6 = disk_write T (v b) (disk s)).
  { rewrite F6, F5. unfold s4, s3. cbn. rewrite F2, F1. done. }
  split_and!; [| |exact Ed].
  - rewrite !(fupd_ne _ b), !fupd_eq in C6 by done. rewrite decide_True in C6 by done. cbn in C6. rewrite Nat.sub_0_r in C6.
    unfold quiet. eapply cst_ext; [exact C6 | done | |].
    + intros x. unfold fupd, rP. repeat case_decide; subst; try done.
    + intros x. unfold fupd. repeat case_decide; done.
  - apply (bstep_trans _ s1); [auto with bstep |]. apply (bstep_trans _ s2); [auto with bstep |].
    apply (bstep_trans _ s3); [apply bstep_set_bufs |]. apply (bstep_trans _ s4); [apply bstep_set_disk |].
    apply (bstep_trans _ s5); auto with bstep.
Qed.

(** ** One block installed at home *)

(** The pinned blocks before and after installing [b]. *)
Definition unpin (recovering : bool) (b : Z) (P P' : list Z) : Prop :=
  if recovering then b ∉ P /\ P' = P /\ (S (length P) < HEAD)%nat else P = b :: P' /\ b ∉ P' /\ (length P < HEAD)%nat.

Lemma install_iter k (i : nat) b s v rec P P' : logst s = l -> bl !! i = Some b ->
  S0 + Z.of_nat i + 1 ∉ P -> unpin rec b P P' -> quiet s v P ->
  exists s', install_trans_loop (S k) (Z.of_nat i) rec s = install_trans_loop k (Z.of_nat i + 1) rec s' /\
    quiet s' (fupd v b (v (S0 + Z.of_nat i + 1))) P' /\ bstep s s' /\
    disk s' = disk_write b (v (S0 + Z.of_nat i + 1)) (disk s).
Proof.
  intros Hs Hb HT HP Q. pose proof (lookup_lt_Some _ _ _ Hb) as Hi. assert (Hin : b ∈ bl) by (by eapply list_elem_of_lookup_2).
  destruct (lo_block i b Hb) as (Hbl & Hbu & Hbr). pose proof (log_block_home i b Hi Hin) as Hne.
  set (T := S0 + Z.of_nat i + 1) in *.
  cbn [install_trans_loop]. unfold getlog. erewrite bind_Ret by reflexivity. cbv beta. rewrite Hs, dev_u32, Nat2Z.id, Hbl, Hbu.
  change (log_start l) with S0. fold T. unfold T at 1. rewrite log_block_u32 by done. fold T.
  assert (rT : rP P T = 0) by (unfold rP; by rewrite decide_False).
  assert (rb : rP P b = if rec then 0 else 1).
  { unfold rP. destruct rec; destruct HP as (HP & _); [by rewrite decide_False | rewrite HP, decide_True; [done | left]]. }
  assert (Hlen : ((if rec then S (length P) else length P) < HEAD)%nat) by (destruct rec; naive_solver).
  destruct (rule_bread s v _ _ _ Q T) as (it & s1 & E1 & F1 & C1 & H1 & _); [done | lia | right; destruct rec; lia |].
  erewrite bind_Ret by exact E1. cbv beta. rewrite in_bounds_run by (by eapply bl_in). rewrite rT in C1. cbn [Z.add] in C1. rewrite decide_True in C1 by done.
  destruct (rule_bread s1 v _ _ _ C1 b) as (ib & s2 & E2 & F2 & C2 & H2 & K2);
    [rewrite fupd_ne by done; done | rewrite fupd_ne, rb by done; destruct rec; lia |
     rewrite fupd_ne, rb by done; destruct rec; [by right | left; lia] |].
  erewrite bind_Ret by exact E2. cbv beta. rewrite fupd_ne, rb in C2 by done.
  specialize (K2 T it Hne H1). destruct (rule_store s2 v _ _ _ C2 b ib (v T) H2 (cst_len _ _ _ _ _ T C2)) as (E3 & C3 & H3 & K3).
  unfold copy_data, getbuf. erewrite bind_Ret; [|erewrite bind_Ret by reflexivity; cbv beta].
  2: { rewrite (holds_data _ _ _ _ _ _ _ C2 K2). exact E3. }
  set (s3 := set_bufs _ s2) in *. specialize (K3 T it Hne K2).
  destruct (rule_bwrite s3 _ _ _ _ C3 b ib H3) as (E4 & C4 & H4 & K4). rewrite fupd_eq in E4, C4, H4, K4.
  erewrite bind_Ret by exact E4. set (s4 := set_disk _ s3) in *. specialize (K4 T it Hne K3).
  set (n2 := if decide ((if rec then 0 else 1) = 0) then S (S (length P)) else S (length P)) in *.
  assert (Hun : exists s5, (if rec then mret tt else bunpin ib) s4 = Ret tt s5 /\ s5 = set_bufs (bufs s5) s4 /\
    cst s5 (fupd v b (v T)) (fupd (fupd (rP P) T 1) b 1) (fupd (fupd (fun _ => false) T true) b true) n2 /\
    holds s5 b ib /\ holds s5 T it).
  { destruct rec.
    - exists s4. split_and!; try done.
    - destruct (rule_bunpin s4 _ _ _ _ C4 b ib H4) as (s5 & E5 & F5 & C5 & H5 & K5); [rewrite fupd_eq; lia |].
      exists s5. split_and!; try done; [|by apply K5]. rewrite fupd_eq in C5. eapply cst_ext; [exact C5 | done | | done].
      intros x. unfold fupd. case_decide; done. }
  destruct Hun as (s5 & E5 & F5 & C5 & H5 & K5). erewrite bind_Ret by exact E5.
  assert (Hclean : v T = d_blocks (disk s5) T).
  { rewrite F5. unfold s4. cbn. destruct (Z.eqb_spec T b); [done |]. unfold s3. cbn. rewrite F2, F1. cbn. by eapply cst_clean. }
  destruct (rule_brelse s5 _ _ _ _ C5 T it K5) as (s6 & E6 & F6 & P6 & C6 & K6).
  { intros _. rewrite fupd_ne by done. exact Hclean. }
  erewrite bind_Ret by exact E6. rewrite (fupd_ne _ b), fupd_eq, decide_True in C6 by done. cbn [Z.sub] in C6.
  destruct (rule_brelse s6 _ _ _ _ C6 b ib (K6 b ib ltac:(congruence) H5)) as (s7 & E7 & F7 & P7 & C7 & _).
  { intros _. rewrite fupd_eq, F6, F5. cbn. rewrite Z.eqb_refl. done. }
  erewrite bind_Ret by exact E7. exists s7. split; [done |]. split_and!.
  - rewrite (fupd_ne _ T), fupd_eq, decide_True in C7 by done. unfold quiet.
    replace (length P') with (n2 - 1 - 1)%nat by (unfold n2; destruct rec; destruct HP as (HP & HP' & _); subst; repeat case_decide; cbn; try lia; done).
    eapply cst_ext; [exact C7 | done | |].
    + intros x. unfold fupd, rP. destruct rec; destruct HP as (HP & HP' & _); subst; repeat case_decide; subst; try done; set_solver.
    + intros x. unfold fupd. repeat case_decide; done.
  - apply (bstep_trans _ s1); [auto with bstep |]. apply (bstep_trans _ s2); [auto with bstep |].
    apply (bstep_trans _ s3); [apply bstep_set_bufs |]. apply (bstep_trans _ s4); [apply bstep_set_disk |].
    apply (bstep_trans _ s5); [auto with bstep |]. apply (bstep_trans _ s6); auto with bstep.
  - rewrite F7, F6, F5. unfold s4, s3. cbn. rewrite F2, F1. done.
Qed.

(** ** The header *)

Lemma write_head_ok s v P h : logst s = set_log_lh h l -> lh_n h <= alen (lh_block h) -> S0 ∉ P -> (length P < HEAD)%nat -> quiet s v P ->
  length (put_header h (v S0)) = Z.to_nat BSIZE ->
  exists s', write_head s = Ret tt s' /\ quiet s' (fupd v S0 (put_header h (v S0))) P /\ bstep s s' /\
    disk s' = disk_write S0 (put_header h (v S0)) (disk s).
Proof.
  intros Hs Hn H0 Hroom Q Hlen. unfold write_head, getlog. erewrite bind_Ret by reflexivity. cbv beta. rewrite Hs. cbn.
  rewrite dev_u32. change (log_start l) with S0.
  assert (HS : u32 S0 = S0).
  { pose proof (lo_start _ _ Hl). destruct (lo_size _ _ Hl). unfold S0. apply wrap_small. lia. }
  rewrite HS. assert (r0 : rP P S0 = 0) by (unfold rP; by rewrite decide_False).
  destruct (rule_bread s v _ _ _ Q S0) as (i & s1 & E1 & F1 & C1 & H1 & _); [done | lia | by right |].
  erewrite bind_Ret by exact E1. cbv beta. rewrite r0, decide_True in C1 by done. cbn [Z.add] in C1.
  unfold getbuf. erewrite bind_Ret by reflexivity. cbv beta. rewrite in_prefix_run by exact Hn. rewrite (holds_data _ _ _ _ _ _ _ C1 H1).
  set (hd := put_header h (v S0)) in *. destruct (rule_store s1 v _ _ _ C1 S0 i hd H1 Hlen) as (E2 & C2 & H2 & _).
  erewrite bind_Ret by exact E2. set (s2 := set_bufs _ s1) in *.
  destruct (rule_bwrite s2 _ _ _ _ C2 S0 i H2) as (E3 & C3 & H3 & _). rewrite fupd_eq in E3, C3, H3.
  erewrite bind_Ret by exact E3. set (s3 := set_disk _ s2) in *.
  destruct (rule_brelse s3 _ _ _ _ C3 S0 i H3) as (s4 & E4 & F4 & P4 & C4 & _).
  { intros _. rewrite fupd_eq. cbn. rewrite Z.eqb_refl. done. }
  exists s4. split; [exact E4 |]. split_and!.
  - rewrite fupd_eq, decide_True in C4 by done. cbn in C4. rewrite Nat.sub_0_r in C4. unfold quiet.
    eapply cst_ext; [exact C4 | done | |].
    + intros x. unfold fupd, rP. repeat case_decide; subst; done.
    + intros x. unfold fupd. repeat case_decide; done.
  - apply (bstep_trans _ s1); [auto with bstep |]. apply (bstep_trans _ s2); [apply bstep_set_bufs |].
    apply (bstep_trans _ s3); [apply bstep_set_disk | auto with bstep].
  - rewrite F4. unfold s3, s2. cbn. rewrite F1. done.
Qed.

(** ** The loops *)

(** The contents after a list of writes. *)
Definition overlay (ws : list (Z * list Z)) (v : Z -> list Z) : Z -> list Z :=
  foldl (fun v w => fupd v (fst w) (snd w)) v ws.

(** Writes of [write_log] for the entries [rest], the first of which is number [i]. *)
Fixpoint to_log (v : Z -> list Z) (i : Z) (rest : list Z) : list (Z * list Z) :=
  match rest with
  | [] => []
  | b :: rest => (S0 + i + 1, v b) :: to_log v (i + 1) rest
  end.

(** Writes of [install_trans]. *)
Fixpoint to_home (v : Z -> list Z) (i : Z) (rest : list Z) : list (Z * list Z) :=
  match rest with
  | [] => []
  | b :: rest => (b, v (S0 + i + 1)) :: to_home v (i + 1) rest
  end.

Lemma bstep_logst s s' : bstep s s' -> logst s' = logst s.
Proof. intros [-> _]. done. Qed.

Lemma write_log_loop_ok (v0 : Z -> list Z) : forall (rest : list Z) (i : nat) (s : kernel) (v : Z -> list Z), logst s = l -> drop i bl = rest -> quiet s v bl ->
  (forall b, b ∈ bl -> v b = v0 b) ->
  exists s', write_log_loop (length rest) (Z.of_nat i) s = Ret tt s' /\
    quiet s' (overlay (to_log v0 (Z.of_nat i) rest) v) bl /\ bstep s s' /\
    disk s' = run_writes (to_log v0 (Z.of_nat i) rest) (disk s).
Proof.
  induction rest as [|b rest IH]; intros i s v Hs Hd Q Hv; cbn [length to_log].
  { exists s. split_and!; auto with bstep. }
  assert (Hb : bl !! i = Some b) by (rewrite <- (Nat.add_0_r i), <- lookup_drop, Hd; done).
  assert (Hin : b ∈ bl) by (by eapply list_elem_of_lookup_2). pose proof (lookup_lt_Some _ _ _ Hb) as Hi.
  destruct (write_log_iter (length rest) i b s v Hs Hb Q) as (s1 & -> & Q1 & B1 & D1).
  destruct (IH (S i) s1 (fupd v (S0 + Z.of_nat i + 1) (v b))) as (s2 & E2 & Q2 & B2 & D2).
  - by rewrite (bstep_logst _ _ B1).
  - rewrite <- (Nat.add_1_r i), <- drop_drop, Hd. done.
  - done.
  - intros x Hx. rewrite fupd_ne; [auto |]. intros ->. by eapply log_block_home.
  - replace (Z.of_nat (S i)) with (Z.of_nat i + 1) in * by lia.
    exists s2. split_and!; [done | | by eapply bstep_trans |].
    + cbn. rewrite <- (Hv b Hin). done.
    + rewrite D2, D1. cbn. by rewrite <- (Hv b Hin).
Qed.

(** What [install_trans] reads from the log it reads before writing any home
    block that is in the log region, because no home block is. *)
Lemma install_loop_ok (rec : bool) (v0 : Z -> list Z) : forall (rest : list Z) (i : nat) (s : kernel) (v : Z -> list Z) (P P' : list Z), logst s = l -> drop i bl = rest -> quiet s v P ->
  (forall j : nat, (j < length bl)%nat -> v (S0 + Z.of_nat j + 1) = v0 (S0 + Z.of_nat j + 1)) ->
  (if rec then P = [] /\ P' = [] else P = rest /\ P' = []) ->
  exists s', install_trans_loop (length rest) (Z.of_nat i) rec s = Ret tt s' /\
    quiet s' (overlay (to_home v0 (Z.of_nat i) rest) v) P' /\ bstep s s' /\
    disk s' = run_writes (to_home v0 (Z.of_nat i) rest) (disk s).
Proof.
  induction rest as [|b rest IH]; intros i s v P P' Hs Hd Q Hv HP; cbn [length to_home].
  { exists s. split_and!; auto with bstep. cbn. destruct rec; destruct HP as [-> ->]; done. }
  assert (Hb : bl !! i = Some b) by (rewrite <- (Nat.add_0_r i), <- lookup_drop, Hd; done).
  assert (Hin : b ∈ bl) by (by eapply list_elem_of_lookup_2). pose proof (lookup_lt_Some _ _ _ Hb) as Hi.
  assert (Hrest : forall x, x ∈ b :: rest -> x ∈ bl).
  { intros x Hx. rewrite <- Hd in Hx. rewrite <- (take_drop i bl). apply elem_of_app. by right. }
  assert (Hnd : NoDup (b :: rest)).
  { pose proof (lo_nodup _ _ Hl) as Hn. rewrite <- (take_drop i bl), Hd in Hn. by apply NoDup_app in Hn as (_ & _ & ?). }
  assert (Hroom : (length (b :: rest) < HEAD)%nat).
  { pose proof bl_room. rewrite <- Hd, length_drop. lia. }
  destruct (install_iter (length rest) i b s v rec P (if rec then [] else rest) Hs Hb) as (s1 & -> & Q1 & B1 & D1); try done.
  { destruct rec; destruct HP as [-> _]; [apply not_elem_of_nil |]. intros Hx. by eapply log_block_home; [|apply Hrest|]. }
  { unfold unpin. destruct rec; destruct HP as [-> _].
    - split_and!; [apply not_elem_of_nil | done | unfold HEAD, NBUF, MAXOPBLOCKS; cbn; lia].
    - apply NoDup_cons in Hnd as [? _]. done. }
  destruct (IH (S i) s1 (fupd v b (v (S0 + Z.of_nat i + 1))) (if rec then [] else rest) P') as (s2 & E2 & Q2 & B2 & D2).
  - by rewrite (bstep_logst _ _ B1).
  - rewrite <- (Nat.add_1_r i), <- drop_drop, Hd. done.
  - done.
  - intros j Hj. rewrite fupd_ne; [auto |]. intros E. by eapply log_block_home.
  - destruct rec; naive_solver.
  - replace (Z.of_nat (S i)) with (Z.of_nat i + 1) in * by lia.
    exists s2. split_and!; [done | | by eapply bstep_trans |].
    + cbn. rewrite <- Hv by done. done.
    + rewrite D2, D1. cbn. by rewrite <- Hv by done.
Qed.

(** ** commit *)

(** The disk writes of [commit], in order. *)
Definition commit_writes (v : Z -> list Z) : list (Z * list Z) :=
  let h := put_header (log_lh l) (v S0) in
  to_log v 0 bl ++ [(S0, h)] ++ map (fun b => (b, v b)) bl ++ [(S0, put_header (set_lh_n 0 (log_lh l)) h)].

Lemma overlay_notin ws v b : b ∉ map fst ws -> overlay ws v b = v b.
Proof.
  revert v; induction ws as [|[k x] ws IH]; intros v Hb; [done |].
  cbn [map] in Hb. apply not_elem_of_cons in Hb as [? Hb].
  change (overlay ws (fupd v k x) b = v b). rewrite IH by done. by rewrite fupd_ne.
Qed.

Lemma to_log_keys v : forall rest i b, b ∈ map fst (to_log v i rest) -> S0 + i < b <= S0 + i + Z.of_nat (length rest).
Proof.
  induction rest as [|x rest IH]; intros i b Hb; cbn in *; [by apply not_elem_of_nil in Hb |].
  apply elem_of_cons in Hb as [->|Hb]; [lia |]. apply IH in Hb. lia.
Qed.

Lemma overlay_to_log v0 : forall rest i (j : nat) b v, rest !! j = Some b ->
  overlay (to_log v0 i rest) v (S0 + i + Z.of_nat j + 1) = v0 b.
Proof.
  induction rest as [|x rest IH]; intros i j b v Hj; [done |]. cbn [to_log]. destruct j as [|j]; cbn in Hj.
  - injection Hj as ->. change (overlay (to_log v0 (i + 1) rest) (fupd v (S0 + i + 1) (v0 b)) (S0 + i + 0 + 1) = v0 b).
    rewrite overlay_notin; [by rewrite Z.add_0_r, fupd_eq |].
    intros Hb. apply to_log_keys in Hb. lia.
  - replace (S0 + i + Z.of_nat (S j) + 1) with (S0 + (i + 1) + Z.of_nat j + 1) by lia.
    change (overlay (to_log v0 (i + 1) rest) (fupd v (S0 + i + 1) (v0 x)) (S0 + (i + 1) + Z.of_nat j + 1) = v0 b). by apply IH.
Qed.

Lemma to_home_log v v0 : forall rest i, (forall (j : nat) b, rest !! j = Some b -> v (S0 + i + Z.of_nat j + 1) = v0 b) ->
  to_home v i rest = map (fun b => (b, v0 b)) rest.
Proof.
  induction rest as [|b rest IH]; intros i H; [done |]. cbn. f_equal.
  - f_equal. rewrite <- (H 0%nat b) by done. f_equal. lia.
  - apply IH. intros j x Hx. rewrite <- (H (S j) x) by done. f_equal. lia.
Qed.

Lemma overlay_app ws ws' v : overlay (ws ++ ws') v = overlay ws' (overlay ws v).
Proof. apply foldl_app. Qed.

Lemma overlay_single k x v : overlay [(k, x)] v = fupd v k x.
Proof. done. Qed.

Lemma overlay_map_in (f : Z -> list Z) b : forall keys v, b ∈ keys -> overlay (map (fun b => (b, f b)) keys) v b = f b.
Proof.
  intros keys. induction keys as [|k keys IH] using rev_ind; intros v Hb; [by apply not_elem_of_nil in Hb |].
  rewrite map_app, overlay_app. cbn [map]. rewrite overlay_single. destruct (decide (b = k)) as [->|].
  - by rewrite fupd_eq.
  - rewrite fupd_ne by done. apply IH. apply elem_of_app in Hb as [?|Hb]; [done |]. apply list_elem_of_singleton in Hb. done.
Qed.

Lemma map_keys (f : Z -> list Z) keys : map fst (map (fun b => (b, f b)) keys) = keys.
Proof. rewrite map_map. apply map_id. Qed.

Lemma start_notin : S0 ∉ bl.
Proof.
  intros Hb. destruct (lo_home _ _ Hl S0 Hb) as [_ Hn]. apply Hn. destruct (lo_room _ _ Hl). unfold S0. lia.
Qed.

Lemma start_not_logged v : S0 ∉ map fst (to_log v 0 bl).
Proof. intros Hb. apply to_log_keys in Hb. lia. Qed.

Lemma lh_n_range : 0 <= lh_n (log_lh l) <= LOGSIZE.
Proof. rewrite (lo_n _ _ Hl). destruct (lo_room _ _ Hl). lia. Qed.

Lemma commit_run s v : logst s = l -> bl <> [] -> quiet s v bl ->
  exists s', commit s = Ret tt s' /\ logst s' = set_log_lh (set_lh_n 0 (log_lh l)) l /\
    quiet s' (overlay (commit_writes v) v) [] /\ bstep s (set_logst l s') /\
    disk s' = run_writes (commit_writes v) (disk s).
Proof.
  intros Hs Hne Q. pose proof lh_n_range as Hn. pose proof bl_room as Hroom.
  assert (Hlen : Z.to_nat (lh_n (log_lh l)) = length bl) by (rewrite (lo_n _ _ Hl); lia).
  unfold commit, getlog. erewrite bind_Ret by reflexivity. cbv beta. rewrite Hs.
  assert (Hpos : 0 <? lh_n (log_lh l) = true).
  { apply Z.ltb_lt. rewrite (lo_n _ _ Hl). destruct bl; [done | cbn; lia]. }
  rewrite Hpos. unfold write_log, getlog.
  destruct (write_log_loop_ok v bl 0 s v Hs ltac:(done) Q ltac:(done)) as (s1 & E1 & Q1 & B1 & D1).
  erewrite bind_Ret; [|erewrite bind_Ret by reflexivity; cbv beta; rewrite Hs, Hlen; exact E1].
  set (v1 := overlay _ v) in Q1.
  assert (V1 : v1 S0 = v S0) by (apply overlay_notin, start_not_logged).
  destruct (write_head_ok s1 v1 bl (log_lh l)) as (s2 & E2 & Q2 & B2 & D2);
    [by rewrite (bstep_logst _ _ B1) | rewrite (lo_n _ _ Hl); apply bl_len | apply start_notin | done | done | apply put_header_length; [done | by eapply cst_len] |].
  erewrite bind_Ret by exact E2. rewrite V1 in Q2, D2. set (h := put_header (log_lh l) (v S0)) in *.
  assert (L2 : logst s2 = l) by (by rewrite (bstep_logst _ _ B2), (bstep_logst _ _ B1)).
  destruct (install_loop_ok false (fupd v1 S0 h) bl 0 s2 (fupd v1 S0 h) bl [] L2) as (s3 & E3 & Q3 & B3 & D3); try done.
  rewrite (to_home_log _ v) in Q3, D3.
  2, 3: intros j b Hj; rewrite fupd_ne by lia; by apply overlay_to_log.
  erewrite bind_Ret; [|unfold install_trans, getlog; erewrite bind_Ret by reflexivity; cbv beta; rewrite L2, Hlen; exact E3].
  assert (L3 : logst s3 = l) by (by rewrite (bstep_logst _ _ B3)).
  set (v3 := overlay _ (fupd v1 S0 h)) in Q3.
  assert (V3 : v3 S0 = h).
  { unfold v3. rewrite overlay_notin; [apply fupd_eq |]. rewrite map_keys. apply start_notin. }
  erewrite bind_Ret by reflexivity. set (s3' := set_logst _ s3).
  destruct (write_head_ok s3' v3 [] (set_lh_n 0 (log_lh l))) as (s4 & E4 & Q4 & B4 & D4).
  { unfold s3'. cbn. by rewrite L3. }
  { unfold alen. cbn. lia. }
  { apply not_elem_of_nil. }
  { unfold HEAD, NBUF, MAXOPBLOCKS. cbn. lia. }
  { by eapply cst_other; [exact Q3 | ..]. }
  { apply put_header_length; [cbn; unfold LOGSIZE, MAXOPBLOCKS; lia | by eapply cst_len]. }
  rewrite V3 in Q4, D4. exists s4. split; [exact E4 |]. split_and!.
  - rewrite (bstep_logst _ _ B4). unfold s3'. cbn. by rewrite L3.
  - unfold commit_writes. rewrite !overlay_app, !overlay_single. exact Q4.
  - eapply bstep_trans; [exact B1 |]. eapply bstep_trans; [exact B2 |]. eapply bstep_trans; [exact B3 |].
    destruct B4 as [B4 P4]. split; [|exact P4]. rewrite B4. unfold s3'. cbn. rewrite <- L3. done.
  - unfold commit_writes. rewrite !run_writes_app. rewrite D4. unfold s3'. cbn [disk set_logst]. rewrite D3, D2, D1. done.
Qed.
End logspec.
