(* ===== verification/LogRecover.v ===== *)
(** * Recovery

    [recover_from_log] run on a cache that holds no transaction copies the
    blocks the disk's header names from the log to their homes and clears the
    header. *)

From S2P Require Import Prelude State Spinlock Sched Sleeplock Bio BufCache CacheRules Log LogHeader LogSpec.

(** A header [write_head] can have written for a log at [start] of [size] blocks. *)
Record hdr_ok (start size : Z) (data : list Z) : Prop := mkHdrOk {
  ho_n : 0 <= hdr_n data < LOGSIZE /\ hdr_n data <= size - 1;
  ho_nodup : NoDup (hdr_blocks data);
  ho_home : forall b, b ∈ hdr_blocks data -> 0 <= b < 2 ^ 31 /\ ~ (start <= b < start + size)
}.

(** Where the log is. *)
Record log_geom (l : log) : Prop := mkLogGeom {
  lg_dev : log_dev l = ROOTDEV;
  lg_start : 0 <= log_start l;
  lg_size : 0 <= log_size l /\ log_start l + log_size l < 2 ^ 31;
  lg_blocks : length (lh_block (log_lh l)) = Z.to_nat LOGSIZE
}.

Definition no_refs_room : (length (@nil Z) < HEAD)%nat := ltac:(unfold HEAD, NBUF, MAXOPBLOCKS; cbn; lia).

(** The in-memory log once [read_head] has read header block [data]. *)
Definition read_into (data : list Z) (l : log) : log :=
  set_log_lh (mkLogheader (hdr_n data) (read_blocks (Z.to_nat (hdr_n data)) 0 data (lh_block (log_lh l)))) l.

Lemma read_head_ok s v : log_geom (logst s) -> hdr_n (v (log_start (logst s))) <= LOGSIZE -> quiet s v [] ->
  exists s', read_head s = Ret tt s' /\ quiet s' v [] /\ logst s' = read_into (v (log_start (logst s))) (logst s) /\
    bstep s (set_logst (logst s) s') /\ disk s' = disk s.
Proof.
  intros [Gd Gs Gz Gb] Hhn Q. unfold read_head, getlog. erewrite bind_Ret by reflexivity. cbv beta.
  set (S0 := log_start (logst s)) in *. rewrite Gd. rewrite (wrap_small 32 S0) by (unfold S0; lia).
  change (u32 ROOTDEV) with ROOTDEV.
  destruct (rule_bread s v _ _ _ Q S0) as (i & s1 & E1 & F1 & C1 & H1 & _);
    [done | unfold rP; rewrite decide_False; [done | apply not_elem_of_nil] | right; apply no_refs_room |].
  erewrite bind_Ret by exact E1. cbv beta. unfold getbuf. erewrite bind_Ret by reflexivity. cbv beta.
  rewrite (holds_data _ _ _ _ _ _ _ C1 H1). erewrite bind_Ret by reflexivity. cbv beta.
  erewrite bind_Ret by reflexivity. cbv beta. assert (L1 : logst s1 = logst s) by (by rewrite F1).
  erewrite bind_Ret by (apply read_head_loop_run; [lia | unfold alen; cbn; rewrite L1, Gb; change (i32 (get32 0 (v S0))) with (hdr_n (v S0)); unfold LOGSIZE, MAXOPBLOCKS in *; lia]).
  cbn [logst set_logst log_lh set_log_lh lh_n set_lh_n lh_block]. change (i32 (get32 0 (v S0))) with (hdr_n (v S0)).
  set (s2 := set_logst _ _).
  assert (r0 : rP [] S0 = 0) by (unfold rP; rewrite decide_False; [done | apply not_elem_of_nil]).
  rewrite r0, decide_True in C1 by done. cbn [Z.add] in C1.
  assert (C2 : cst s2 v (fupd (rP []) S0 1) (fupd (fun _ => false) S0 true) 1) by (eapply cst_other; [exact C1 | done ..]).
  destruct (rule_brelse s2 _ _ _ _ C2 S0 i) as (s3 & E3 & F3 & P3 & C3 & _).
  { eapply holds_other; [exact H1 | done | done]. }
  { intros _. unfold s2. cbn. rewrite F1. cbn. by eapply cst_clean. }
  exists s3. split; [exact E3 |].
  split_and!.
  - rewrite fupd_eq, decide_True in C3 by done. unfold quiet. eapply cst_ext; [exact C3 | done | |].
    + intros x. unfold fupd. case_decide; subst; done.
    + intros x. unfold fupd. repeat case_decide; done.
  - rewrite F3. unfold s2. cbn. rewrite L1. done.
  - assert (P1 : mine s1 = mine s) by (by rewrite F1).
    split; [|exact (eq_trans P3 P1)]. rewrite F3. unfold s2. cbn. rewrite F1. done.
  - rewrite F3. unfold s2. cbn. by rewrite F1.
Qed.

Lemma read_into_ok l data : log_geom l -> hdr_ok (log_start l) (log_size l) data -> log_ok (read_into data l) (hdr_blocks data).
Proof.
  intros [Gd Gs Gz Gb] [Hn Hnd Hh]. pose proof (hdr_blocks_length data) as HL. split; cbn; try done.
  - rewrite HL. lia.
  - rewrite HL. lia.
  - apply read_blocks_take. rewrite Gb. lia.
Qed.

(** The disk writes of [recover_from_log]. *)
Definition recover_writes (l : log) (v : Z -> list Z) : list (Z * list Z) :=
  to_home l v 0 (hdr_blocks (v (log_start l))) ++ [(log_start l, put_header (mkLogheader 0 []) (v (log_start l)))].

Lemma recover_run s v : log_geom (logst s) -> hdr_ok (log_start (logst s)) (log_size (logst s)) (v (log_start (logst s))) -> quiet s v [] ->
  exists s', recover_from_log s = Ret tt s' /\ quiet s' (overlay (recover_writes (logst s) v) v) [] /\
    log_geom (logst s') /\ lh_n (log_lh (logst s')) = 0 /\ log_start (logst s') = log_start (logst s) /\ log_size (logst s') = log_size (logst s) /\
    bstep s (set_logst (logst s) s') /\ disk s' = run_writes (recover_writes (logst s) v) (disk s).
Proof.
  intros G Hh Q. set (l := logst s) in *. set (data := v (log_start l)) in *.
  destruct (read_head_ok s v G ltac:(destruct (ho_n _ _ _ Hh); fold l data; lia) Q) as (s1 & E1 & Q1 & L1 & B1 & D1). fold l data in L1.
  pose proof (read_into_ok l data G Hh) as Hl. set (l1 := read_into data l) in *.
  unfold recover_from_log. erewrite bind_Ret by exact E1. unfold install_trans, getlog.
  destruct (install_loop_ok l1 (hdr_blocks data) Hl true v (hdr_blocks data) 0 s1 v [] [] L1) as (s2 & E2 & Q2 & B2 & D2); try done.
  erewrite bind_Ret; [|erewrite bind_Ret by reflexivity; cbv beta; rewrite L1; cbn [log_lh set_log_lh lh_n l1 read_into];
    rewrite <- hdr_blocks_length; exact E2].
  erewrite bind_Ret by reflexivity. set (s2' := set_logst _ s2). set (v2 := overlay _ v) in Q2.
  assert (L2 : logst s2 = l1) by (by rewrite (bstep_logst _ _ B2)).
  assert (V2 : v2 (log_start l1) = data).
  { unfold v2. rewrite overlay_notin; [done |].
    intros Hb. assert (Hk : forall rest i, map fst (to_home l1 v i rest) = rest) by
      (intros rest; induction rest as [|x rest IH]; intros i; cbn; by rewrite ?IH).
    rewrite Hk in Hb. by apply (start_notin l1 (hdr_blocks data) Hl) in Hb. }
  destruct (write_head_ok l1 (hdr_blocks data) Hl s2' v2 [] (set_lh_n 0 (log_lh l1))) as (s3 & E3 & Q3 & B3 & D3).
  { unfold s2'. cbn. by rewrite L2. }
  { unfold alen. cbn. lia. }
  { apply not_elem_of_nil. }
  { apply no_refs_room. }
  { by eapply cst_other; [exact Q2 | ..]. }
  { apply put_header_length; [cbn; unfold LOGSIZE, MAXOPBLOCKS; lia | by eapply cst_len]. }
  rewrite V2 in Q3, D3. exists s3. split; [exact E3 |].
  assert (L3 : logst s3 = set_log_lh (set_lh_n 0 (log_lh l1)) l1) by (rewrite (bstep_logst _ _ B3); unfold s2'; cbn; by rewrite L2).
  split_and!.
  - unfold recover_writes. rewrite overlay_app, overlay_single. exact Q3.
  - destruct G as [Gd Gs Gz Gb]. rewrite L3. split; cbn; try done. by rewrite read_blocks_length.
  - by rewrite L3.
  - by rewrite L3.
  - by rewrite L3.
  - eapply bstep_trans; [exact B1 |]. apply (bstep_trans _ (set_logst l s2)).
    + destruct B2 as [B2 P2]. split; [rewrite B2 at 1; done | exact P2].
    + destruct B3 as [B3 P3]. split; [rewrite B3 at 1; unfold s2'; cbn; done | exact P3].
  - unfold recover_writes. rewrite run_writes_app, D3. unfold s2'. cbn [disk set_logst]. rewrite D2, D1. done.
Qed.
