(* ===== verification/LogProps.v ===== *)
(** * Properties of log.c: atomicity across crashes, absorption, reservation *)

From S2P Require Import Prelude State Spinlock Sched Sleeplock Bio BufCache CacheRules Log LogHeader LogSpec LogRecover.

(** ** Crashes

    A crash keeps the disk and nothing else.  The disk it keeps is the one
    after some of the writes issued between [s] and [s'], in order. *)
Definition crash_disk (s s' : kernel) (d : Z -> list Z) : Prop :=
  exists done rest, d_writes (disk s') = rest ++ rev done ++ d_writes (disk s) /\
    d = d_blocks (run_writes done (disk s)).

(** Boot after the crash: an empty cache, then [initlog]. *)
Definition reboot (sb : superblock) (d : Z -> list Z) : outcome kernel unit := initlog ROOTDEV sb (binit_state d).

Definition in_log (l : log) (b : Z) : Prop := log_start l <= b < log_start l + log_size l.

Lemma run_writes_trace ws : forall d, d_writes (run_writes ws d) = rev ws ++ d_writes d.
Proof.
  induction ws as [|[k x] ws IH]; intros d; [done |]. cbn [run_writes foldl]. change (foldl _ ?a ws) with (run_writes ws a).
  rewrite IH. cbn [rev]. rewrite <- app_assoc. done.
Qed.

Lemma run_writes_blocks ws : forall d b, d_blocks (run_writes ws d) b = overlay ws (d_blocks d) b.
Proof.
  assert (H : forall ws v v' b, (forall x, v x = v' x) -> overlay ws v b = overlay ws v' b).
  { induction ws0 as [|[k x] ws0 IH]; intros v v' b Hv; [apply Hv |]. apply IH. intros y. unfold fupd. by case_decide. }
  induction ws as [|[k x] ws IH]; intros d b; [done |].
  change (d_blocks (run_writes ws (disk_write k x d)) b = overlay ws (fupd (d_blocks d) k x) b).
  rewrite IH. apply H. intros y. cbn. unfold fupd. destruct (Z.eqb_spec y k); by case_decide.
Qed.

Lemma prefix_app_cases {A} (p q xs ys : list A) : p ++ q = xs ++ ys ->
  (exists q', xs = p ++ q') \/ (exists p', p = xs ++ p' /\ p' ++ q = ys).
Proof.
  revert p; induction xs as [|x xs IH]; intros p E; [right; by exists p |].
  destruct p as [|y p]; [left; by exists (x :: xs) |]. injection E as -> E.
  destruct (IH p E) as [[q' ->]|(p' & -> & <-)]; [left; by exists q' | right; by exists p'].
Qed.

(** A crash between [commit]'s start and end leaves a prefix of its writes. *)
Lemma crash_prefix s s' ws d : disk s' = run_writes ws (disk s) -> crash_disk s s' d ->
  exists pre post, ws = pre ++ post /\ forall b, d b = overlay pre (d_blocks (disk s)) b.
Proof.
  intros E (pre & rest & Ht & ->). rewrite E, run_writes_trace in Ht. rewrite !app_assoc in Ht. apply app_inv_tail in Ht.
  exists pre, (rev rest). split; [|intros b; apply run_writes_blocks].
  rewrite <- (rev_involutive ws), Ht, rev_app_distr, rev_involutive. done.
Qed.

Lemma quiet_binit d : (forall n, length (d n) = Z.to_nat BSIZE) -> quiet (binit_state d) d [].
Proof.
  intros Hd. split.
  - eexists. by apply binit_inv.
  - apply binit_free.
  - intros b. by apply binit_bview.
  - intros b. rewrite (proj2 (binit_idle d b Hd)). unfold rP. rewrite decide_False; [done | apply not_elem_of_nil].
  - intros b. apply (binit_idle d b Hd).
  - apply binit_nref.
Qed.

Lemma binit_log d : logst (binit_state d) = zero_log.
Proof. vm_compute. reflexivity. Qed.

(** The geometry the superblock gives to the log. *)
Record sb_geom (sb : superblock) : Prop := mkSbGeom {
  sg_start : 0 <= sb_logstart sb;
  sg_size : 0 <= sb_nlog sb;
  sg_end : sb_logstart sb + sb_nlog sb < 2 ^ 31
}.

Definition boot_log (sb : superblock) : log :=
  set_log_dev ROOTDEV (set_log_size (sb_nlog sb) (set_log_start (sb_logstart sb) zero_log)).

Lemma reboot_ok sb d : sb_geom sb -> (forall n, length (d n) = Z.to_nat BSIZE) -> hdr_ok (sb_logstart sb) (sb_nlog sb) (d (sb_logstart sb)) ->
  exists r, reboot sb d = Ret tt r /\ quiet r (overlay (recover_writes (boot_log sb) d) d) [] /\ lh_n (log_lh (logst r)) = 0 /\
    forall b, d_blocks (disk r) b = overlay (recover_writes (boot_log sb) d) d b.
Proof.
  intros [G1 G2 G3] Hd Hh. unfold reboot, initlog.
  assert (Hc : BSIZE <=? 4 + 4 * LOGSIZE = false) by reflexivity. rewrite Hc.
  rewrite !signed_small by lia. unfold upd_log. erewrite bind_Ret by (apply initlock_free; rewrite binit_held; set_solver). cbv beta. erewrite bind_Ret by reflexivity. erewrite bind_Ret by reflexivity.
  erewrite bind_Ret by reflexivity. cbn [logst set_logst]. rewrite binit_log. set (s0 := set_logst _ _).
  assert (L0 : logst s0 = boot_log sb) by reflexivity.
  destruct (recover_run s0 d) as (r & E & Q & _ & Hn & _ & _ & _ & D).
  - rewrite L0. split; cbn; try done; lia.
  - rewrite L0. exact Hh.
  - eapply cst_other; [exact (quiet_binit d Hd) | exact eq_refl ..].
  - rewrite L0 in *. exists r. split; [exact E |]. split; [exact Q |]. split; [exact Hn |]. intros b. rewrite D, run_writes_blocks.
    unfold s0. cbn [disk set_logst]. rewrite binit_disk. done.
Qed.

Lemma to_home_keys l v : forall rest i, map fst (to_home l v i rest) = rest.
Proof. induction rest as [|x rest IH]; intros i; cbn; by rewrite ?IH. Qed.

(** Recovery from a cleared header changes nothing outside the log. *)
Lemma recover_nothing l d b : hdr_n (d (log_start l)) = 0 -> b <> log_start l -> overlay (recover_writes l d) d b = d b.
Proof.
  intros Hn Hb. assert (E : hdr_blocks (d (log_start l)) = []) by (unfold hdr_blocks; by rewrite Hn).
  unfold recover_writes. rewrite E, overlay_app, overlay_single, fupd_ne by done. done.
Qed.

(** Recovery from a committed transaction installs all of it. *)
Lemma recover_all l d f b : (forall (j : nat) x, hdr_blocks (d (log_start l)) !! j = Some x -> d (log_start l + Z.of_nat j + 1) = f x) ->
  b <> log_start l -> overlay (recover_writes l d) d b = if decide (b ∈ hdr_blocks (d (log_start l))) then f b else d b.
Proof.
  intros Hf Hb. unfold recover_writes. rewrite overlay_app, overlay_single, fupd_ne by done.
  rewrite (to_home_log l d f) by (intros j x Hx; rewrite Z.add_0_r; by apply Hf).
  case_decide as Hin; [by apply overlay_map_in |]. apply overlay_notin. by rewrite map_keys.
Qed.

Lemma recover_header l d : length (d (log_start l)) = Z.to_nat BSIZE -> hdr_n (overlay (recover_writes l d) d (log_start l)) = 0.
Proof.
  intros Hd. unfold recover_writes. rewrite overlay_app, overlay_single, fupd_eq.
  apply put_header_n; [cbn; unfold LOGSIZE, MAXOPBLOCKS; lia | done].
Qed.

(** ** A crash during commit *)

Section crash.
Context (l : log) (bl : list Z) (Hl : log_ok l bl) (v d0 : Z -> list Z).
Context (Hv : forall b, length (v b) = Z.to_nat BSIZE) (Hd0 : forall b, length (d0 b) = Z.to_nat BSIZE).
Context (Hclean : forall b, b ∉ bl -> v b = d0 b) (Hempty : hdr_n (d0 (log_start l)) = 0).

Let S0 := log_start l.
Let h1 := put_header (log_lh l) (v S0).
Let h0 := put_header (set_lh_n 0 (log_lh l)) h1.

Lemma h1_length : length h1 = Z.to_nat BSIZE.
Proof. apply put_header_length; [by eapply lh_n_range | apply Hv]. Qed.

Lemma to_log_vals : forall rest i, Forall (fun w => exists b, snd w = v b) (to_log l v i rest).
Proof. induction rest as [|b rest IH]; intros i; cbn; constructor; eauto. Qed.

Lemma commit_writes_len : Forall (fun w => length (snd w) = Z.to_nat BSIZE) (commit_writes l bl v).
Proof.
  unfold commit_writes. rewrite !Forall_app. split_and!.
  - eapply Forall_impl; [apply to_log_vals |]. intros w [b ->]. apply Hv.
  - constructor; [apply h1_length | constructor].
  - apply Forall_forall. intros w Hw. apply list_elem_of_In, in_map_iff in Hw as (b & <- & _). apply Hv.
  - constructor; [|constructor]. apply put_header_length; [cbn; unfold LOGSIZE, MAXOPBLOCKS; lia | apply h1_length].
Qed.

Lemma overlay_len ws : Forall (fun w => length (snd w) = Z.to_nat BSIZE) ws -> forall b, length (overlay ws d0 b) = Z.to_nat BSIZE.
Proof.
  intros Hws. induction ws as [|[k x] ws IH] using rev_ind; intros b; [apply Hd0 |].
  apply Forall_app in Hws as [Hws Hx]. rewrite overlay_app, overlay_single. unfold fupd. case_decide; [|by apply IH].
  by apply Forall_cons in Hx as [? _].
Qed.

(** What the disk can be: not committed, committed, or done. *)
Inductive crash_case (d : Z -> list Z) : Prop :=
| crash_before : d S0 = d0 S0 -> (forall b, ~ in_log l b -> d b = d0 b) -> crash_case d
| crash_committed : d S0 = h1 -> (forall (j : nat) b, bl !! j = Some b -> d (S0 + Z.of_nat j + 1) = v b) ->
    (forall b, b ∉ bl -> ~ in_log l b -> d b = v b) -> crash_case d
| crash_done : hdr_n (d S0) = 0 -> (forall b, ~ in_log l b -> d b = v b) -> crash_case d.

Lemma to_log_prefix pre post : to_log l v 0 bl = pre ++ post -> forall b, b ∈ map fst pre -> in_log l b /\ b <> S0.
Proof.
  intros E b Hb. assert (Hk : b ∈ map fst (to_log l v 0 bl)) by (rewrite E, map_app; apply elem_of_app; by left).
  apply to_log_keys in Hk. destruct (lo_room _ _ Hl). unfold in_log, S0 in *. lia.
Qed.

(** A block outside the log and the transaction keeps its contents. *)
Lemma in_log_start : in_log l S0.
Proof. destruct (lo_room _ _ Hl). unfold in_log, S0. lia. Qed.

Lemma not_logged b : ~ in_log l b -> b ∉ map fst (to_log l v 0 bl).
Proof. intros Hb Hk. apply Hb. eapply (to_log_prefix _ []); [by rewrite app_nil_r | done]. Qed.

(** The disk once the header is written. *)
Let d1 := fupd (overlay (to_log l v 0 bl) d0) S0 h1.

Lemma d1_other b : b ∉ bl -> ~ in_log l b -> d1 b = v b.
Proof.
  intros Hb Hn. unfold d1. rewrite fupd_ne by (intros ->; by apply Hn, in_log_start).
  rewrite overlay_notin by (by apply not_logged). symmetry. by apply Hclean.
Qed.

(** Installing blocks of the transaction keeps the committed header and log. *)
Lemma committed_ok ws d : (forall b, b ∈ map fst ws -> b ∈ bl) -> (forall b, d b = overlay ws d1 b) -> crash_case d.
Proof.
  intros Hk Hd. apply crash_committed.
  - rewrite Hd, overlay_notin by (intros Hx; by apply (start_notin l bl Hl), Hk). apply fupd_eq.
  - intros j b Hj. rewrite Hd, overlay_notin.
    + unfold d1. rewrite fupd_ne by lia. rewrite <- (overlay_to_log l v bl 0 j b d0 Hj). f_equal. unfold S0. lia.
    + intros Hx. apply Hk in Hx. eapply (log_block_home l bl Hl); [by eapply lookup_lt_Some | exact Hx | done].
  - intros b Hb Hn. rewrite Hd, overlay_notin by auto. by apply d1_other.
Qed.

Lemma all_done d : (forall b, d b = overlay (map (fun b => (b, v b)) bl ++ [(S0, h0)]) d1 b) ->
  hdr_n (d S0) = 0 /\ forall b, ~ in_log l b -> d b = v b.
Proof.
  intros Hd. split.
  - rewrite Hd, overlay_app, overlay_single, fupd_eq.
    apply put_header_n; [cbn; unfold LOGSIZE, MAXOPBLOCKS; lia | apply h1_length].
  - intros b Hn. rewrite Hd, overlay_app, overlay_single, fupd_ne by (intros ->; by apply Hn, in_log_start).
    destruct (decide (b ∈ bl)); [by apply overlay_map_in |]. rewrite overlay_notin by (by rewrite map_keys). by apply d1_other.
Qed.

Lemma commit_done d : (forall b, d b = overlay (commit_writes l bl v) d0 b) -> hdr_n (d S0) = 0 /\ forall b, ~ in_log l b -> d b = v b.
Proof. intros Hd. apply all_done. intros b. rewrite Hd. unfold commit_writes. by rewrite overlay_app. Qed.

Lemma crash_cases pre post d : commit_writes l bl v = pre ++ post -> (forall b, d b = overlay pre d0 b) -> crash_case d.
Proof.
  intros E Hd. unfold commit_writes in E. fold S0 h1 h0 in E.
  destruct (prefix_app_cases _ _ _ _ (eq_sym E)) as [[q Eq]|(p1 & -> & E1)].
  { apply crash_before; [|intros b Hb]; rewrite Hd; apply overlay_notin; intros Hk; eapply to_log_prefix in Hk; try exact Eq; naive_solver. }
  destruct p1 as [|w p1].
  { rewrite app_nil_r in Hd. apply crash_before; [|intros b Hb]; rewrite Hd; apply overlay_notin;
      [apply start_not_logged | by apply not_logged]. }
  cbn [app] in E1. injection E1 as -> E1.
  assert (Hsplit : forall b, d b = overlay p1 d1 b).
  { intros b. rewrite Hd, overlay_app. done. }
  destruct (prefix_app_cases _ _ _ _ E1) as [[q Eq]|(p3 & -> & E3)].
  - apply (committed_ok p1); [|done]. intros b Hb. rewrite <- (map_keys v bl), Eq, map_app. apply elem_of_app. by left.
  - destruct p3 as [|w p3].
    + rewrite app_nil_r in Hsplit. apply (committed_ok (map (fun b => (b, v b)) bl)); [|done]. by rewrite map_keys.
    + injection E3 as -> E3. apply app_nil in E3 as [-> ->]. destruct (all_done d Hsplit). by apply crash_done.
Qed.
End crash.

(** ** Recovery after the crash *)

(** All of the blocks outside the log are [w]. *)
Definition home_is (l : log) (s : kernel) (w : Z -> list Z) : Prop := forall b, ~ in_log l b -> d_blocks (disk s) b = w b.

Lemma hdr_empty_ok start size data : hdr_n data = 0 -> 1 <= size -> hdr_ok start size data.
Proof.
  intros Hn Hs. assert (E : hdr_blocks data = []) by (unfold hdr_blocks; by rewrite Hn).
  split; rewrite ?E, ?Hn; [unfold LOGSIZE, MAXOPBLOCKS; lia | constructor | intros b Hb; by apply not_elem_of_nil in Hb].
Qed.

Lemma hdr_committed_ok l bl data : log_ok l bl -> length data = Z.to_nat BSIZE ->
  hdr_blocks (put_header (log_lh l) data) = bl /\ hdr_ok (log_start l) (log_size l) (put_header (log_lh l) data).
Proof.
  intros Hl Hd. pose proof (lh_n_range l bl Hl) as Hn.
  assert (E : hdr_blocks (put_header (log_lh l) data) = bl).
  { apply put_header_blocks; [apply Hl | apply Hn | done | apply Hl | intros b Hb; by apply (lo_home _ _ Hl)]. }
  split; [done |]. pose proof (put_header_n (log_lh l) data Hn Hd) as En.
  split; rewrite ?E, ?En; [|apply Hl | apply Hl]. rewrite (lo_n _ _ Hl). destruct (lo_room _ _ Hl). lia.
Qed.

Lemma crash_recovers l bl sb v d0 d : log_ok l bl -> sb_geom sb -> sb_logstart sb = log_start l -> sb_nlog sb = log_size l ->
  (forall b, length (v b) = Z.to_nat BSIZE) -> hdr_n (d0 (log_start l)) = 0 ->
  (forall b, length (d b) = Z.to_nat BSIZE) -> crash_case l bl v d0 d ->
  exists r, reboot sb d = Ret tt r /\ quiet r (d_blocks (disk r)) [] /\ lh_n (log_lh (logst r)) = 0 /\
    hdr_n (d_blocks (disk r) (log_start l)) = 0 /\ (home_is l r d0 \/ home_is l r v).
Proof.
  intros Hl G E1 E2 Hv H0 Hd Hc. pose proof (in_log_start l bl Hl) as HS.
  assert (Hsz : 1 <= log_size l) by (destruct (lo_room _ _ Hl); lia).
  assert (Hh : hdr_ok (sb_logstart sb) (sb_nlog sb) (d (sb_logstart sb))).
  { rewrite E1, E2. destruct Hc as [Hc _ | Hc _ _ | Hc _].
    - apply hdr_empty_ok; [by rewrite Hc | done].
    - rewrite Hc. by apply (hdr_committed_ok l bl).
    - by apply hdr_empty_ok. }
  destruct (reboot_ok sb d G Hd Hh) as (r & Hr & Q & Hn & HD). exists r.
  set (l0 := boot_log sb) in *. assert (EL : log_start l0 = log_start l) by exact E1.
  split; [exact Hr |]. split; [eapply cst_ext; [exact Q | exact HD | reflexivity | reflexivity] |]. split; [exact Hn |]. split.
  { rewrite HD, <- EL. apply recover_header. apply Hd. }
  assert (Hne : forall b, ~ in_log l b -> b <> log_start l0) by (intros b Hb ->; apply Hb; by rewrite EL).
  destruct Hc as [Hc Hb | Hc Hb Ho | Hc Hb].
  - left. intros b Hn'. rewrite HD, recover_nothing; [by apply Hb | rewrite EL, Hc; done | by apply Hne].
  - right. destruct (hdr_committed_ok l bl (v (log_start l)) Hl (Hv _)) as [Eb _].
    intros b Hn'. rewrite HD, (recover_all l0 d v); rewrite ?EL, ?Hc, ?Eb.
    + destruct (decide (b ∈ bl)) as [|Hnb]; [done | by apply Ho].
    + intros j x Hx. by apply Hb.
    + rewrite <- EL. by apply Hne.
  - right. intros b Hn'. rewrite HD, recover_nothing; [by apply Hb | by rewrite EL | by apply Hne].
Qed.

(** ** log_write *)

Lemma cst_logst s v r L n l : cst s v r L n -> cst (set_logst l s) v r L n.
Proof. intros C. by eapply cst_other; [exact C | ..]. Qed.

(** Where [bn] is in the transaction. *)
Lemma log_find_spec bn blocks : forall k (i : nat), (forall j : nat, (i <= j < i + k)%nat -> u32 (blocks !!! j) = blocks !!! j) ->
  exists j : nat, log_find k (Z.of_nat i) blocks bn = Z.of_nat j /\ (i <= j <= i + k)%nat /\
    (forall x : nat, (i <= x < j)%nat -> blocks !!! x <> bn) /\ ((j < i + k)%nat -> blocks !!! j = bn).
Proof.
  induction k as [|k IH]; intros i Hu; cbn [log_find].
  - exists i. split_and!; lia.
  - rewrite Nat2Z.id, Hu by lia. destruct (Z.eqb_spec (blocks !!! i) bn) as [E|E].
    + exists i. split_and!; lia || done.
    + replace (Z.of_nat i + 1) with (Z.of_nat (S i)) by lia.
      destruct (IH (S i)) as (j & Ej & Hj & Hlt & Hfound); [intros; apply Hu; lia |].
      exists j. split_and!; [done | lia | lia | | intros; apply Hfound; lia].
      intros x Hx. destruct (decide (x = i)) as [->|]; [done | apply Hlt; lia].
Qed.

Lemma cst_lock_log s v r L n : cst s v r L n -> cst (set_held ({[LkLog]} ∪ held s) s) v r L n.
Proof.
  intros [[order [I1 I2 I3]] [F1 F2 F3 F4] Hv Hr HL Hn]. split; auto.
  - exists order. by split.
  - split; unfold no_proc_lock in *; cbn; intros; set_solver.
Qed.

Lemma cst_held_back s s0 v r L n v0 r0 L0 n0 : cst s v r L n -> cst s0 v0 r0 L0 n0 -> cst (set_held (held s0) s) v r L n.
Proof.
  intros [[order [I1 I2 I3]] _ Hv Hr HL Hn] [_ [F1 F2 F3 F4] _ _ _ _]. split; auto.
  - exists order. by split.
  - by split.
Qed.

(** The transaction with [bn] added. *)
Definition log_add (bn : Z) (bl : list Z) : list Z := if decide (bn ∈ bl) then bl else bl ++ [bn].

Section log_write.
Context (s : kernel) (v : Z -> list Z) (r : Z -> Z) (L : Z -> bool) (n : nat) (C : cst s v r L n) (bl : list Z) (bn : Z) (i : nat).
Context (Hl : log_ok (logst s) bl) (Hh : holds s bn i) (Hlk : LkLog ∉ held s) (Hout : 1 <= log_outstanding (logst s)).
Context (Hsz : log_size (logst s) <= LOGSIZE) (Hblk : length (lh_block (log_lh (logst s))) = Z.to_nat LOGSIZE).
Context (Hroom : Z.of_nat (length bl) < log_size (logst s) - 1).
Context (Hbn : 0 <= bn < 2 ^ 31 /\ ~ in_log (logst s) bn) (Hr : r bn + 1 < 2 ^ 32).

Lemma log_find_bl : exists j : nat, log_find (length bl) 0 (lh_block (log_lh (logst s))) bn = Z.of_nat j /\
  ((j < length bl)%nat /\ bl !! j = Some bn \/ j = length bl /\ bn ∉ bl).
Proof.
  assert (Hlook : forall j : nat, (j < length bl)%nat -> exists b, bl !! j = Some b /\ lh_block (log_lh (logst s)) !!! j = b /\ u32 b = b).
  { intros j Hj. destruct (lookup_lt_is_Some_2 bl j Hj) as [b Eb]. exists b. destruct (lo_block _ _ Hl j b Eb) as (? & ? & _). done. }
  destruct (log_find_spec bn (lh_block (log_lh (logst s))) (length bl) 0) as (j & Ej & Hj & Hlt & Hf).
  { intros j Hj. destruct (Hlook j ltac:(lia)) as (b & _ & -> & ?). done. }
  exists j. split; [exact Ej |]. destruct (decide (j < length bl)%nat) as [Hjl|Hjl].
  - left. split; [done |]. destruct (Hlook j Hjl) as (b & Eb & Ehb & _). rewrite Eb. f_equal. rewrite <- Ehb. apply Hf. lia.
  - right. split; [lia |]. intros Hin. apply list_elem_of_lookup in Hin as [x Hx]. pose proof (lookup_lt_Some _ _ _ Hx) as Hxl.
    destruct (Hlook x Hxl) as (b & Eb & Ehb & _). rewrite Hx in Eb. injection Eb as <-. apply (Hlt x); [lia | exact Ehb].
Qed.

Lemma log_add_ok : bn ∉ bl ->
  log_ok (set_log_lh (mkLogheader (lh_n (log_lh (logst s)) + 1) (<[length bl := bn]> (lh_block (log_lh (logst s))))) (logst s)) (bl ++ [bn]).
Proof.
  intros Hn. destruct Hl as [H1 H2 H3 H4 H5 H6 H7 H8]. split; cbn; try done.
  - rewrite H4, length_app. cbn. lia.
  - rewrite length_app. cbn. lia.
  - rewrite length_app. cbn. rewrite Nat.add_1_r. erewrite take_S_r by (apply list_lookup_insert_eq; rewrite Hblk; lia).
    rewrite take_insert_ge by lia. by rewrite H6.
  - apply NoDup_app. split_and!; [done | | apply NoDup_singleton]. intros x Hx Hx'. apply list_elem_of_singleton in Hx'. by subst.
  - intros b [Hb|Hb]%elem_of_app; [by apply H8 |]. apply list_elem_of_singleton in Hb as ->. exact Hbn.
Qed.

Lemma log_write_ok : exists s', log_write i s = Ret tt s' /\ log_ok (logst s') (log_add bn bl) /\
  holds s' bn i /\ keeps_held s s' bn /\ cst s' v (if decide (bn ∈ bl) then r else fupd r bn (r bn + 1)) L n /\
  s' = set_bufs (bufs s') (set_logst (set_log_lh (log_lh (logst s')) (logst s)) s) /\
  length (lh_block (log_lh (logst s'))) = Z.to_nat LOGSIZE.
Proof.
  assert (En : lh_n (log_lh (logst s)) = Z.of_nat (length bl)) by apply Hl.
  unfold log_write, getlog, getbuf. erewrite bind_Ret by (by apply acquire_Ret). erewrite bind_Ret by reflexivity. cbv beta.
  change (logst (set_held _ s)) with (logst s). rewrite En.
  assert (G : (LOGSIZE <=? Z.of_nat (length bl)) || (log_size (logst s) - 1 <=? Z.of_nat (length bl)) = false).
  { apply orb_false_iff. rewrite !Z.leb_gt. lia. }
  rewrite G. assert (G2 : log_outstanding (logst s) <? 1 = false) by (apply Z.ltb_ge; lia). rewrite G2.
  erewrite bind_Ret by reflexivity. cbv beta zeta. change (bufs (set_held _ s)) with (bufs s).
  rewrite in_prefix_run by (unfold alen; rewrite Hblk; lia).
  rewrite (holds_blockno _ _ _ Hh), Nat2Z.id. rewrite (signed_small 32 bn) by lia.
  destruct log_find_bl as (j & Ej & Hj). rewrite Ej, Nat2Z.id. rewrite in_bounds_run by (unfold alen; rewrite Hblk; destruct Hj as [[? _]|[-> _]]; lia). erewrite bind_Ret by reflexivity. cbn [logst set_logst log_lh set_log_lh].
  destruct Hj as [[Hj Hb]|[-> Hb]].
  - assert (Hin : bn ∈ bl) by (by eapply list_elem_of_lookup_2).
    assert (Hins : <[j := bn]> (lh_block (log_lh (logst s))) = lh_block (log_lh (logst s))).
    { apply list_insert_id. destruct (lo_block _ _ Hl j bn Hb) as (E & _). rewrite <- E. apply list_lookup_lookup_total_lt. rewrite Hblk. lia. }
    destruct (Z.eqb_spec (Z.of_nat j) (Z.of_nat (length bl))); [lia |]. erewrite bind_Ret by reflexivity.
    rewrite release_Ret by (cbn; set_solver). cbn. rewrite Hins, held_restore by done.
    exists s. unfold log_add. rewrite !decide_True by done. split_and!; try done. by intros b x _ Hx.
  - rewrite Z.eqb_refl. set (s1 := set_logst _ _).
    assert (C1 : cst s1 v r L n) by (apply cst_logst, cst_lock_log, C).
    destruct (rule_bpin s1 v r L n C1 bn i) as (s2 & E2 & F2 & C2 & H2 & K2); [by eapply holds_other; [exact Hh | ..] | done |].
    erewrite bind_Ret; [|erewrite bind_Ret by exact E2; reflexivity].
    rewrite release_Ret by (cbn; rewrite F2; cbn; set_solver). rewrite F2. cbn. rewrite held_restore by done.
    eexists. split; [reflexivity |]. unfold log_add. rewrite !decide_False by done. cbn. split_and!.
    + by apply log_add_ok.
    + eapply holds_other; [exact H2 | done | by rewrite F2].
    + intros b x Hx Hbx. eapply holds_other; [apply K2; [done |] | done | by rewrite F2]. by eapply holds_other; [exact Hbx | ..].
    + eapply cst_ext; [|done ..]. pose proof (cst_held_back _ _ _ _ _ _ _ _ _ _ C2 C) as C3.
      eapply cst_other; [exact C3 | done | rewrite F2; done | done].
    + done.
    + by rewrite length_insert.
Qed.
End log_write.

(** ** The idiom of log.c's callers

    [bp = bread(...); modify bp->data[]; log_write(bp); brelse(bp)] *)
Definition update_block (bn : Z) (x : list Z) : M kernel unit :=
  b ← bread ROOTDEV bn;
  upd_buf b (set_b_data x) ;;
  log_write b ;;
  brelse b.

Lemma length_log_add bn bl : length (log_add bn bl) = if decide (bn ∈ bl) then length bl else S (length bl).
Proof. unfold log_add. case_decide; [done |]. rewrite length_app. cbn. lia. Qed.

Lemma rP_log_add bn bl b : rP (log_add bn bl) b = if decide (b = bn) then 1 else rP bl b.
Proof.
  unfold rP, log_add. destruct (decide (bn ∈ bl)) as [Hin|Hn], (decide (b = bn)) as [->|Hb].
  - by rewrite decide_True.
  - done.
  - rewrite decide_True; [done |]. apply elem_of_app. right. by apply list_elem_of_singleton.
  - destruct (decide (b ∈ bl)) as [Hx|Hx].
    + rewrite decide_True; [done |]. apply elem_of_app. by left.
    + rewrite decide_False; [done |]. intros [?|Hx']%elem_of_app; [done |]. by apply list_elem_of_singleton in Hx'.
Qed.

(** A transaction in progress: between operations the cache holds exactly its blocks. *)
Record txn (s : kernel) (v : Z -> list Z) (bl : list Z) : Prop := mkTxn {
  tx_quiet : quiet s v bl;
  tx_log : log_ok (logst s) bl;
  tx_lock : LkLog ∉ held s;
  tx_size : log_size (logst s) <= LOGSIZE;
  tx_blocks : length (lh_block (log_lh (logst s))) = Z.to_nat LOGSIZE
}.

Lemma update_block_ok (s : kernel) (v : Z -> list Z) (bl : list Z) (bn : Z) (x : list Z) (T : txn s v bl)
    (Hout : 1 <= log_outstanding (logst s)) (Hroom : Z.of_nat (length bl) < log_size (logst s) - 1)
    (Hbn : 0 <= bn < 2 ^ 31 /\ ~ in_log (logst s) bn) (Hx : length x = Z.to_nat BSIZE) :
  exists s', update_block bn x s = Ret tt s' /\ txn s' (fupd v bn x) (log_add bn bl) /\ disk s' = disk s /\
    log_outstanding (logst s') = log_outstanding (logst s) /\ log_start (logst s') = log_start (logst s) /\
    log_size (logst s') = log_size (logst s).
Proof.
  destruct T as [Q Hl Hlk Hsz Hblk]. unfold update_block.
  assert (R0 : 0 <= rP bl bn <= 1) by (unfold rP; case_decide; lia).
  destruct (rule_bread s v _ _ _ Q bn) as (i & s1 & E1 & F1 & C1 & H1 & _); [done | lia | right; exact (bl_room _ _ Hl) |].
  erewrite bind_Ret by exact E1. cbv beta.
  destruct (rule_store s1 _ _ _ _ C1 bn i x H1 Hx) as (E2 & C2 & H2 & _). erewrite bind_Ret by exact E2. set (s2 := set_bufs _ s1) in *.
  assert (L2 : logst s2 = logst s) by (unfold s2; by rewrite F1). assert (H2' : held s2 = held s) by (unfold s2; by rewrite F1).
  destruct (log_write_ok s2 _ _ _ _ C2 bl bn i) as (s3 & E3 & Hl3 & H3 & _ & C3 & F3 & B3); rewrite ?L2, ?H2', ?fupd_eq; try done; [lia |].
  erewrite bind_Ret by exact E3.
  assert (C3' : cst s3 (fupd v bn x) (fupd (rP bl) bn 2) (fupd (fun _ => false) bn true) (length (log_add bn bl))).
  { rewrite length_log_add. destruct (decide (bn ∈ bl)) as [Hin|Hin].
    - assert (R : rP bl bn = 1) by (unfold rP; by rewrite decide_True). rewrite R in C3. rewrite decide_False in C3 by lia. exact C3.
    - assert (R : rP bl bn = 0) by (unfold rP; by rewrite decide_False). rewrite R in C3. rewrite decide_True in C3 by lia.
      eapply cst_ext; [exact C3 | done | | done]. intros b. unfold fupd. repeat case_decide; done. }
  destruct (rule_brelse s3 _ _ _ _ C3' bn i H3) as (s4 & E4 & F4 & P4 & C4 & _); [rewrite fupd_eq; lia |].
  rewrite fupd_eq in C4. change (if decide (2 = 1) then _ else ?x) with x in C4.
  exists s4. assert (L4 : logst s4 = logst s3) by (by rewrite F4). split; [exact E4 |]. split_and!.
  - split; rewrite ?L4; try done.
    + eapply cst_ext; [exact C4 | done | |]; intros b; rewrite ?rP_log_add; unfold fupd; repeat case_decide; done.
    + assert (H4 : held s4 = held s) by (rewrite F4, F3; exact H2'). by rewrite H4.
    + rewrite F3. cbn [logst set_bufs set_logst set_log_lh log_size]. by rewrite L2.
  - rewrite F4, F3. unfold s2. cbn. by rewrite F1.
  - rewrite L4, F3. cbn [logst set_bufs set_logst set_log_lh log_outstanding]. by rewrite L2.
  - rewrite L4, F3. cbn [logst set_bufs set_logst set_log_lh log_start]. by rewrite L2.
  - rewrite L4, F3. cbn [logst set_bufs set_logst set_log_lh log_size]. by rewrite L2.
Qed.

Fixpoint update_blocks (ws : list (Z * list Z)) : M kernel unit :=
  match ws with
  | [] => mret tt
  | w :: ws => update_block (fst w) (snd w) ;; update_blocks ws
  end.

(** The blocks of the transaction after the updates [ws]. *)
Definition log_adds (ws : list (Z * list Z)) (bl : list Z) : list Z := foldl (fun bl w => log_add (fst w) bl) bl ws.

Definition home_write (l : log) (w : Z * list Z) : Prop :=
  0 <= fst w < 2 ^ 31 /\ ~ in_log l (fst w) /\ length (snd w) = Z.to_nat BSIZE.

Lemma log_adds_ge ws : forall bl, (length bl <= length (log_adds ws bl))%nat.
Proof.
  induction ws as [|w ws IH]; intros bl; [done |]. change (length bl <= length (log_adds ws (log_add (fst w) bl)))%nat.
  etransitivity; [|apply IH]. rewrite length_log_add. case_decide; lia.
Qed.

(** C5: the idiom of log.c's comment, [bp = bread(); modify bp->data;
    log_write(bp); brelse(bp)], for any sequence of updates that fits in the
    log: each block is in the transaction once however often it is written
    (absorption), readers of the cache see the latest contents, the blocks are
    pinned so that they cannot be evicted, and nothing is written to disk. *)
Theorem log_write_absorbs (ws : list (Z * list Z)) (s : kernel) (v : Z -> list Z) (bl : list Z) (T : txn s v bl)
    (Hout : 1 <= log_outstanding (logst s)) (Hws : Forall (home_write (logst s)) ws)
    (Hroom : Z.of_nat (length (log_adds ws bl)) < log_size (logst s) - 1) :
  exists s', update_blocks ws s = Ret tt s' /\ txn s' (overlay ws v) (log_adds ws bl) /\ disk s' = disk s /\
    NoDup (log_adds ws bl).
Proof.
  revert s v bl T Hout Hws Hroom. induction ws as [|[bn x] ws IH]; intros s v bl T Hout Hws Hroom.
  { exists s. split_and!; try done. apply (lo_nodup _ _ (tx_log _ _ _ T)). }
  apply Forall_cons in Hws as [(H1 & H2 & H3) Hws]. cbn [fst snd] in *.
  pose proof (log_adds_ge ws (log_add bn bl)) as Hge. change (log_adds ((bn, x) :: ws) bl) with (log_adds ws (log_add bn bl)) in *.
  destruct (update_block_ok s v bl bn x T Hout) as (s1 & E1 & T1 & D1 & O1 & G1 & G2); try done.
  { rewrite length_log_add in Hge. case_decide; lia. }
  destruct (IH s1 (fupd v bn x) (log_add bn bl)) as (s2 & E2 & T2 & D2 & N2); rewrite ?O1, ?G2; try done.
  { eapply Forall_impl; [exact Hws |]. intros w (W1 & W2 & W3). split_and!; try done; try lia. unfold in_log. by rewrite G1, G2. }
  exists s2. cbn [update_blocks fst snd]. erewrite bind_Ret by exact E1. split_and!; try done. by rewrite D2.
Qed.

Lemma log_ok_clear l bl : log_ok l bl -> log_ok (set_log_lh (set_lh_n 0 (log_lh l)) l) [].
Proof.
  intros [H1 H2 H3 H4 H5 H6 H7 H8]. split; cbn; try done; [unfold LOGSIZE, MAXOPBLOCKS; lia | constructor |].
  intros b Hb. by apply not_elem_of_nil in Hb.
Qed.

Section commit.
Context (s : kernel) (v : Z -> list Z) (bl : list Z) (T : txn s v bl).

Lemma txn_len b : length (v b) = Z.to_nat BSIZE.
Proof. eapply cst_len. apply (tx_quiet _ _ _ T). Qed.

Lemma txn_disk_len b : length (d_blocks (disk s) b) = Z.to_nat BSIZE.
Proof. destruct (c_inv _ _ _ _ _ (tx_quiet _ _ _ T)) as [order I]. apply (bk_disk _ _ (bi_ok _ _ I)). Qed.

Lemma txn_clean b : b ∉ bl -> v b = d_blocks (disk s) b.
Proof. intros Hb. eapply cst_clean; [apply (tx_quiet _ _ _ T) |]. unfold rP. by rewrite decide_False. Qed.

(** [commit] of a non-empty transaction. *)
Lemma commit_txn : bl <> [] -> exists s', commit s = Ret tt s' /\ home_is (logst s) s' v /\ txn s' (d_blocks (disk s')) [] /\
  hdr_n (d_blocks (disk s') (log_start (logst s))) = 0 /\ disk s' = run_writes (commit_writes (logst s) bl v) (disk s) /\
  bstep s (set_logst (logst s) s') /\ logst s' = set_log_lh (set_lh_n 0 (log_lh (logst s))) (logst s).
Proof.
  intros Hne. pose proof T as [Q Hl Hlk Hsz Hblk]. destruct (commit_run _ bl Hl s v eq_refl Hne Q) as (s' & E & L' & Q' & B' & D').
  destruct (commit_done _ bl Hl v (d_blocks (disk s)) txn_len txn_clean (d_blocks (disk s'))) as [Hh Hw].
  { intros b. rewrite D'. apply run_writes_blocks. }
  exists s'. split; [exact E |]. split; [exact Hw |]. split; [|done].
  split; rewrite ?L'; try done.
  - eapply cst_ext; [exact Q' | | done | done]. intros b. symmetry. eapply cst_clean; [exact Q' |].
    unfold rP. rewrite decide_False; [done | apply not_elem_of_nil].
  - by apply log_ok_clear with (bl := bl).
  - destruct B' as [B' _]. assert (Eh : held s' = held s) by (change (held (set_logst (logst s) s') = held s); by rewrite B'). by rewrite Eh.
Qed.
End commit.

(** Recovery from a crash after some of the writes of [commit]. *)
Lemma commit_recovers s v bl sb pre post d : txn s v bl -> sb_geom sb -> sb_logstart sb = log_start (logst s) -> sb_nlog sb = log_size (logst s) ->
  hdr_n (d_blocks (disk s) (log_start (logst s))) = 0 -> commit_writes (logst s) bl v = pre ++ post -> (forall b, d b = overlay pre (d_blocks (disk s)) b) ->
  exists r, reboot sb d = Ret tt r /\ quiet r (d_blocks (disk r)) [] /\ lh_n (log_lh (logst r)) = 0 /\ hdr_n (d_blocks (disk r) (log_start (logst s))) = 0 /\
    (home_is (logst s) r (d_blocks (disk s)) \/ home_is (logst s) r v).
Proof.
  intros T G Hs Hz H0 Ep Eo. pose proof (tx_log _ _ _ T) as Hl. pose proof (txn_len s v bl T) as Hv.
  apply (crash_recovers _ bl sb v (d_blocks (disk s)) d); try done.
  - intros b. rewrite Eo. apply overlay_len; [apply (txn_disk_len s v bl T) |]. pose proof (commit_writes_len _ bl Hl v Hv) as Hc.
    rewrite Ep in Hc. by apply Forall_app in Hc as [? _].
  - by apply (crash_cases _ _ Hl v _ Hv (txn_clean s v bl T) pre post).
Qed.

(** C1: a crash at any point of [commit] (between any two of its disk writes)
    followed by a reboot is atomic: recovery runs to completion, empties the
    log, and leaves every block outside the log either all as they were before
    the transaction or all as the transaction wrote them; and once [commit]
    returns they are as the transaction wrote them. *)
Theorem commit_crash_atomic (s : kernel) (v : Z -> list Z) (bl : list Z) (sb : superblock) (T : txn s v bl) (Hne : bl <> [])
    (G : sb_geom sb) (Hs : sb_logstart sb = log_start (logst s)) (Hz : sb_nlog sb = log_size (logst s))
    (H0 : hdr_n (d_blocks (disk s) (log_start (logst s))) = 0) :
  exists s', commit s = Ret tt s' /\ home_is (logst s) s' v /\ txn s' (d_blocks (disk s')) [] /\
    hdr_n (d_blocks (disk s') (log_start (logst s))) = 0 /\
    forall d, crash_disk s s' d -> exists r, reboot sb d = Ret tt r /\ quiet r (d_blocks (disk r)) [] /\
      lh_n (log_lh (logst r)) = 0 /\ hdr_n (d_blocks (disk r) (log_start (logst s))) = 0 /\
      (home_is (logst s) r (d_blocks (disk s)) \/ home_is (logst s) r v).
Proof.
  destruct (commit_txn s v bl T Hne) as (s' & E & Hw & T' & Hh & D' & _). exists s'. split_and!; try done.
  intros d Hd. destruct (crash_prefix s s' _ d D' Hd) as (pre & post & Ep & Eo). by eapply commit_recovers.
Qed.

(** ** A concrete transaction *)

Definition blank (n : Z) : list Z := replicate (Z.to_nat BSIZE) 0.
Definition log0 : log := mkLog 2 30 1 false ROOTDEV (mkLogheader 0 (replicate (Z.to_nat LOGSIZE) 0)).
Definition txn0 : kernel := set_logst log0 (binit_state blank).
Definition sb0 : superblock := mkSuperblock FSMAGIC 2000 1954 200 30 2 32 45.

Lemma txn0_ok : txn txn0 blank [].
Proof.
  assert (Hl : log_ok log0 []).
  { split; cbn; try done; try (unfold LOGSIZE, MAXOPBLOCKS; lia); [constructor |]. intros b Hb. by apply not_elem_of_nil in Hb. }
  split; [|exact Hl | | done | done].
  - eapply cst_other; [apply (quiet_binit blank); intros n; apply length_replicate | exact eq_refl ..].
  - unfold txn0. cbn [held set_logst]. rewrite binit_held. apply not_elem_of_empty.
Qed.

Definition block7 : list Z := replicate (Z.to_nat BSIZE) 7.

Lemma log_write_absorbs_witness : exists s', update_blocks [(100, block7); (101, block7); (100, block7)] txn0 = Ret tt s' /\
  txn s' (overlay [(100, block7); (101, block7); (100, block7)] blank) [100; 101] /\ disk s' = disk txn0.
Proof.
  destruct (log_write_absorbs [(100, block7); (101, block7); (100, block7)] txn0 blank [] txn0_ok) as (s' & E & T & D & _).
  - change (1 <= 1). lia.
  - repeat constructor; cbn; unfold in_log; cbn; try lia; apply length_replicate.
  - vm_compute. reflexivity.
  - exists s'. split; [exact E |]. split; [exact T | exact D].
Defined.

Lemma commit_crash_atomic_witness : exists s s', commit s = Ret tt s' /\ d_blocks (disk s') 100 = block7.
Proof.
  destruct (update_block_ok txn0 blank [] 100 block7 txn0_ok) as (s & _ & T & D & _ & G1 & G2).
  - change (1 <= 1). lia.
  - vm_compute. reflexivity.
  - unfold in_log. cbn. lia.
  - apply length_replicate.
  - change (log_start (logst txn0)) with 2 in G1. change (log_size (logst txn0)) with 30 in G2.
    destruct (commit_crash_atomic s (fupd blank 100 block7) [100] sb0 T) as (s' & E & Hw & _).
    + discriminate.
    + split; cbn; lia.
    + rewrite G1. reflexivity.
    + rewrite G2. reflexivity.
    + rewrite D, G1. unfold txn0. cbn [disk set_logst]. rewrite binit_disk. vm_compute. reflexivity.
    + exists s, s'. split; [exact E |]. rewrite (Hw 100); [apply fupd_eq |]. unfold in_log. rewrite G1, G2. lia.
Defined.
