(* ===== verification/LogOps.v ===== *)
(** * begin_op and end_op: reservation and the commit of the last operation *)

From S2P Require Import Prelude State Spinlock Sched Sleeplock Waiting Bio BufCache CacheRules Log LogHeader LogSpec LogRecover LogProps.

(** [begin_op]'s promise: the operation is counted, and the blocks already
    logged plus [MAXOPBLOCKS] for each outstanding operation fit in [LOGSIZE]. *)
Definition reserved (s : kernel) (_ : unit) (s' : kernel) : Prop :=
  log_committing (logst s) = false /\
  lh_n (log_lh (logst s)) + (log_outstanding (logst s) + 1) * MAXOPBLOCKS <= LOGSIZE /\
  s' = set_logst (set_log_outstanding (log_outstanding (logst s) + 1) (logst s)) s.

(** C4: [begin_op] goes to sleep exactly when a commit is running or the log might
    not have room for [MAXOPBLOCKS] blocks of every outstanding operation and of
    this one, on the log's channel with the log's lock released, and looks again each
    time it is woken.  When neither is the case it returns: the operation is counted
    in [log.outstanding], so that the room stays reserved, nothing else has changed,
    and no lock is held.  It never panics, whatever other processes do meanwhile. *)
Theorem begin_op_reserves (me : nat) (s : kernel) (Hc : cur s = me) (Hh : held s = ∅) (Hme : (me < length (procs s))%nat) :
  waits me (fun _ => True) must_wait ChLog reserved WAKEUPS s (begin_op s).
Proof.
  unfold begin_op. apply acquire_waits; try done.
  intros s1 Hc1 Hh1 _ Hw. apply orb_false_iff in Hw as [Hw1 Hw2]. apply Z.ltb_ge in Hw2. eexists tt, _. split; [|by split].
  unfold upd_log. erewrite bind_Ret by reflexivity. rewrite release_Ret by (cbn; set_solver).
  assert (Eh : {[LkLog]} ∖ {[LkLog]} = held s1) by (rewrite Hh1; set_solver). cbn. rewrite Eh. reflexivity.
Qed.

(** A commit is running; it ends while process 0 waits. *)
Lemma begin_op_reserves_witness :
  match begin_op (set_logst (set_log_committing true log0) (boot_kernel blank)) with
  | Sleep c s k => c = ChLog /\ exists s', k (set_logst log0 s) = Ret tt s' /\ log_outstanding (logst s') = 2
  | _ => False
  end.
Proof.
  set (s0 := set_logst (set_log_committing true log0) (boot_kernel blank)).
  pose proof (begin_op_reserves 0 s0 eq_refl eq_refl ltac:(vm_compute; lia)) as H. change WAKEUPS with (S (S 998)) in H. cbn [waits] in H.
  change (must_wait s0) with true in H. cbv iota in H. destruct H as (k & -> & H). split; [reflexivity |].
  specialize (H (set_logst log0 (sleeping 0 ChLog s0)) eq_refl eq_refl ltac:(vm_compute; lia) I).
  match type of H with if ?b then _ else _ => change b with false in H end. cbv iota in H. destruct H as ([] & s' & E & _ & _ & ->).
  eexists. split; [exact E | reflexivity].
Defined.

(** ** end_op *)

Lemma txn_set_log s v bl l : txn s v bl -> l = set_log_lh (log_lh (logst s)) l -> log_start l = log_start (logst s) ->
  log_size l = log_size (logst s) -> log_dev l = log_dev (logst s) -> txn (set_logst l s) v bl.
Proof.
  intros [Q [H1 H2 H3 H4 H5 H6 H7 H8] Hlk Hsz Hblk] Eh E1 E2 E3.
  assert (EH : log_lh l = log_lh (logst s)) by (rewrite Eh; done). split; cbn; rewrite ?E2, ?EH; try done.
  - by apply cst_logst.
  - split; rewrite ?E1, ?E2, ?E3, ?EH; done.
Qed.

(** A change of the process table or of nothing but [log.lock]. *)
Lemma txn_procs s v bl ps : txn s v bl -> txn (set_procs ps s) v bl.
Proof. intros [Q ? ? ? ?]. split; try done. by eapply cst_other; [exact Q | ..]. Qed.

Lemma end_op_defers (s : kernel) (v : Z -> list Z) (bl : list Z) (T : txn s v bl)
    (Hout : 1 < log_outstanding (logst s)) (Hcm : log_committing (logst s) = false) :
  exists s', end_op s = Ret tt s' /\ txn s' v bl /\ disk s' = disk s /\
    log_outstanding (logst s') = log_outstanding (logst s) - 1 /\ procs s' = wake (cur s) ChLog (procs s).
Proof.
  pose proof (tx_lock _ _ _ T) as Hlk. pose proof (bf_proc _ (c_free _ _ _ _ _ (tx_quiet _ _ _ T))) as Hp.
  unfold end_op, upd_log, getlog. erewrite bind_Ret by (by apply acquire_Ret).
  erewrite bind_Ret by reflexivity. erewrite bind_Ret by reflexivity. cbv beta. cbn [logst set_logst set_held log_committing set_log_outstanding log_outstanding].
  rewrite Hcm. destruct (Z.eqb_spec (log_outstanding (logst s) - 1) 0); [lia |]. set (s1 := set_logst _ _).
  assert (W : wakeup ChLog s1 = Ret tt (set_procs (wake (cur s) ChLog (procs s)) s1)).
  { rewrite wakeup_ok; [reflexivity |]. intros i. unfold s1. cbn. specialize (Hp i). set_solver. }
  erewrite bind_Ret; [|erewrite bind_Ret by exact W; reflexivity]. erewrite bind_Ret by (apply release_Ret; cbn; set_solver).
  eexists. split; [reflexivity |]. cbn. rewrite held_restore by done. split_and!; try done.
  apply (txn_procs (set_logst (set_log_outstanding (log_outstanding (logst s) - 1) (logst s)) s)). by apply txn_set_log.
Qed.

(** [commit], with the empty transaction too. *)
Lemma commit_any s v bl : txn s v bl -> hdr_n (d_blocks (disk s) (log_start (logst s))) = 0 ->
  exists s', commit s = Ret tt s' /\ home_is (logst s) s' v /\ txn s' (d_blocks (disk s')) [] /\
    hdr_n (d_blocks (disk s') (log_start (logst s))) = 0 /\ bstep s (set_logst (logst s) s') /\
    logst s' = set_log_lh (set_lh_n 0 (log_lh (logst s))) (logst s).
Proof.
  intros T H0. destruct (decide (bl = [])) as [->|Hne].
  - pose proof (lo_n _ _ (tx_log _ _ _ T)) as Hn. exists s. unfold commit, getlog. erewrite bind_Ret by reflexivity. cbv beta. rewrite Hn.
    split; [done |]. assert (Hc : forall b, v b = d_blocks (disk s) b) by (intros b; apply (txn_clean s v [] T), not_elem_of_nil).
    split_and!; [intros b _; by rewrite Hc | | done | auto with bstep |].
    + destruct T as [Q ? ? ? ?]. split; try done. by eapply cst_ext; [exact Q | ..].
    + destruct (logst s) as [? ? ? ? ? [? ?]]. cbn in *. by rewrite Hn.
  - destruct (commit_txn s v bl T Hne) as (s' & E & H1 & H2 & H3 & _ & H4 & H5). eauto 10.
Qed.

Lemma end_op_commits s v bl : txn s v bl -> log_outstanding (logst s) = 1 -> log_committing (logst s) = false ->
  hdr_n (d_blocks (disk s) (log_start (logst s))) = 0 ->
  exists s', end_op s = Ret tt s' /\ home_is (logst s) s' v /\ txn s' (d_blocks (disk s')) [] /\
    log_outstanding (logst s') = 0 /\ log_committing (logst s') = false /\ lh_n (log_lh (logst s')) = 0 /\
    hdr_n (d_blocks (disk s') (log_start (logst s))) = 0.
Proof.
  intros T Hout Hcm H0. pose proof (tx_lock _ _ _ T) as Hlk.
  unfold end_op, upd_log, getlog. erewrite bind_Ret by (by apply acquire_Ret).
  erewrite bind_Ret by reflexivity. erewrite bind_Ret by reflexivity. cbv beta. cbn [logst set_logst set_held log_committing set_log_outstanding log_outstanding].
  rewrite Hcm, Hout. change (1 - 1 =? 0) with true. cbv iota. erewrite bind_Ret; [|erewrite bind_Ret by reflexivity; reflexivity].
  erewrite bind_Ret by (apply release_Ret; cbn; set_solver). cbn. rewrite held_restore by done.
  set (l1 := set_log_committing true _). set (s1 := set_held _ _).
  assert (E1 : s1 = set_logst l1 s) by reflexivity. rewrite E1. clear s1 E1.
  destruct (commit_any (set_logst l1 s) v bl) as (s2 & E2 & Hw & T2 & Hh & B2 & L2); [by apply txn_set_log | exact H0 |].
  erewrite bind_Ret by exact E2. change (home_is l1 s2 v) in Hw. cbn [logst set_logst] in L2.
  pose proof (tx_lock _ _ _ T2) as Hlk2. pose proof (bf_proc _ (c_free _ _ _ _ _ (tx_quiet _ _ _ T2))) as Hp2.
  erewrite bind_Ret by (by apply acquire_Ret). erewrite bind_Ret by reflexivity.
  erewrite bind_Ret by (apply wakeup_ok; intros i; cbn; specialize (Hp2 i); set_solver).
  rewrite release_Ret by (cbn; set_solver). eexists. split; [reflexivity |]. cbn. rewrite held_restore by done.
  split; [exact Hw |]. split; [|rewrite L2; done].
  apply (txn_procs (set_logst (set_log_committing false (logst s2)) s2)). by apply txn_set_log.
Qed.

(** No operation runs, and nothing waits to be recovered. *)
Record log_idle (s : kernel) : Prop := mkLogIdle {
  li_txn : txn s (d_blocks (disk s)) [];
  li_out : log_outstanding (logst s) = 0;
  li_commit : log_committing (logst s) = false;
  li_hdr : hdr_n (d_blocks (disk s) (log_start (logst s))) = 0
}.

(** The last [end_op] of a transaction that wrote something, and what a crash during it leaves. *)
Lemma end_op_atomic s v bl sb : txn s v bl -> log_outstanding (logst s) = 1 -> log_committing (logst s) = false ->
  hdr_n (d_blocks (disk s) (log_start (logst s))) = 0 -> bl <> [] -> sb_geom sb -> sb_logstart sb = log_start (logst s) -> sb_nlog sb = log_size (logst s) ->
  exists s', end_op s = Ret tt s' /\ home_is (logst s) s' v /\ bstep s (set_logst (logst s) s') /\
    log_idle s' /\ log_start (logst s') = log_start (logst s) /\ log_size (logst s') = log_size (logst s) /\ (exists ws, disk s' = run_writes ws (disk s)) /\
    forall d, crash_disk s s' d -> exists r, reboot sb d = Ret tt r /\ quiet r (d_blocks (disk r)) [] /\
      (home_is (logst s) r (d_blocks (disk s)) \/ home_is (logst s) r v).
Proof.
  intros T Hout Hcm H0 Hne G Hs Hz. pose proof (tx_lock _ _ _ T) as Hlk.
  unfold end_op, upd_log, getlog. erewrite bind_Ret by (by apply acquire_Ret).
  erewrite bind_Ret by reflexivity. erewrite bind_Ret by reflexivity. cbv beta. cbn [logst set_logst set_held log_committing set_log_outstanding log_outstanding].
  rewrite Hcm, Hout. change (1 - 1 =? 0) with true. cbv iota. erewrite bind_Ret; [|erewrite bind_Ret by reflexivity; reflexivity].
  erewrite bind_Ret by (apply release_Ret; cbn; set_solver). cbn. rewrite held_restore by done.
  set (l1 := set_log_committing true _). set (s1 := set_held _ _).
  assert (E1 : s1 = set_logst l1 s) by reflexivity. rewrite E1. clear s1 E1.
  assert (T1 : txn (set_logst l1 s) v bl) by (by apply txn_set_log).
  destruct (commit_txn (set_logst l1 s) v bl T1 Hne) as (s2 & E2 & Hw & T2 & Hh & D2 & B2 & L2).
  erewrite bind_Ret by exact E2. change (home_is l1 s2 v) in Hw. cbn [logst set_logst] in L2, D2. change (disk (set_logst l1 s)) with (disk s) in D2.
  pose proof (tx_lock _ _ _ T2) as Hlk2. pose proof (bf_proc _ (c_free _ _ _ _ _ (tx_quiet _ _ _ T2))) as Hp2.
  erewrite bind_Ret by (by apply acquire_Ret). erewrite bind_Ret by reflexivity.
  erewrite bind_Ret by (apply wakeup_ok; intros i; cbn; specialize (Hp2 i); set_solver).
  rewrite release_Ret by (cbn; set_solver). eexists. split; [reflexivity |]. cbn. rewrite held_restore by done.
  split; [exact Hw |]. split; [|split; [|split; [by rewrite L2 | split; [by rewrite L2 | split; [by eexists |]]]]].
  - destruct B2 as [B2 P2]. split.
    + apply (f_equal (fun k => set_logst (logst s) (set_procs (wake (cur s2) ChLog (procs s2)) k))) in B2. exact B2.
    + unfold mine. cbn [procs cur set_held set_procs set_logst]. rewrite wake_me. exact P2.
  - split; [| by rewrite L2 | done | cbn; rewrite L2; exact Hh]. apply (txn_procs (set_logst (set_log_committing false (logst s2)) s2)). by apply txn_set_log.
  - intros d Hd. assert (Hd2 : crash_disk s s2 d) by exact Hd. destruct (crash_prefix s s2 (commit_writes l1 bl v) d D2 Hd2) as (pre & post & Ep & Eo).
    destruct (commit_recovers (set_logst l1 s) v bl sb pre post d T1 G Hs Hz H0 Ep Eo) as (r & R & Q & _ & _ & C). exists r. split; [exact R |]. split; [exact Q | exact C].
Qed.

(** C3: every branch of [end_op].  The last operation commits: when it returns
    the disk holds the transaction's contents in every block outside the log,
    and the log is empty in memory and on disk.  An operation that is not the
    last leaves the disk and the transaction alone and wakes those waiting for
    log space.  A call while a commit runs panics. *)
Theorem end_op_branches (s : kernel) (v : Z -> list Z) (bl : list Z) (T : txn s v bl)
    (H0 : hdr_n (d_blocks (disk s) (log_start (logst s))) = 0) :
  (log_committing (logst s) = true -> end_op s = Panic "log.committing") /\
  (log_committing (logst s) = false -> log_outstanding (logst s) = 1 ->
   exists s', end_op s = Ret tt s' /\ home_is (logst s) s' v /\ txn s' (d_blocks (disk s')) [] /\
     log_outstanding (logst s') = 0 /\ log_committing (logst s') = false /\ lh_n (log_lh (logst s')) = 0 /\
     hdr_n (d_blocks (disk s') (log_start (logst s))) = 0) /\
  (log_committing (logst s) = false -> 1 < log_outstanding (logst s) ->
   exists s', end_op s = Ret tt s' /\ txn s' v bl /\ disk s' = disk s /\
     log_outstanding (logst s') = log_outstanding (logst s) - 1 /\ procs s' = wake (cur s) ChLog (procs s)).
Proof.
  split_and!.
  - intros Hc. unfold end_op, upd_log, getlog. erewrite bind_Ret by (apply acquire_Ret, T).
    erewrite bind_Ret by reflexivity. erewrite bind_Ret by reflexivity. cbn. by rewrite Hc.
  - intros Hc Ho. by apply (end_op_commits s v bl).
  - intros Hc Ho. by apply end_op_defers.
Qed.

Lemma end_op_branches_witness : exists s s', update_block 100 block7 txn0 = Ret tt s /\ end_op s = Ret tt s' /\
  d_blocks (disk s') 100 = block7.
Proof.
  destruct (update_block_ok txn0 blank [] 100 block7 txn0_ok) as (s & E & T & D & O & G1 & G2).
  - change (1 <= 1). lia.
  - vm_compute. reflexivity.
  - unfold in_log. cbn. lia.
  - apply length_replicate.
  - change (log_start (logst txn0)) with 2 in G1. change (log_size (logst txn0)) with 30 in G2. change (log_outstanding (logst txn0)) with 1 in O.
    destruct (end_op_branches s (fupd blank 100 block7) [100] T) as (H1 & H2 & _).
    + rewrite D, G1. unfold txn0. cbn [disk set_logst]. rewrite binit_disk. vm_compute. reflexivity.
    + destruct (log_committing (logst s)) eqn:Ec.
      * exfalso. clear -E Ec. vm_compute in E. injection E as <-. vm_compute in Ec. discriminate Ec.
      * destruct (H2 eq_refl O) as (s' & E' & Hw & _). exists s, s'. split; [exact E |]. split; [exact E' |].
        rewrite (Hw 100); [apply fupd_eq |]. unfold in_log. rewrite G1, G2. lia.
Defined.

(** ** The reservation is one block short

    [begin_op] reserves out of [LOGSIZE] blocks, but an on-disk log of
    [LOGSIZE] blocks (what mkfs makes) has one block for the header: with
    [LOGSIZE - MAXOPBLOCKS] blocks logged an operation is admitted, and its
    tenth new block panics. *)
Lemma reservation_short (s s2 : kernel) (b : nat) :
  log_committing (logst s) = false -> log_outstanding (logst s) = 0 -> lh_n (log_lh (logst s)) = LOGSIZE - MAXOPBLOCKS ->
  log_size (logst s2) = LOGSIZE -> lh_n (log_lh (logst s2)) = lh_n (log_lh (logst s)) + (MAXOPBLOCKS - 1) -> LkLog ∉ held s2 ->
  must_wait s = false /\ log_write b s2 = Panic "too big a transaction".
Proof.
  intros H1 H2 H3 H4 H5 H6. split.
  - unfold must_wait. rewrite H1, H2, H3. reflexivity.
  - unfold log_write, getlog. erewrite bind_Ret by (by apply acquire_Ret). erewrite bind_Ret by reflexivity.
    cbv beta. cbn [logst set_held]. rewrite H5, H3, H4. reflexivity.
Qed.
