(* ===== verification/Txn.v ===== *)
(** * Rules for code inside a transaction

    [tx s v bl H]: the cache shows contents [v], the transaction in progress
    has logged the blocks [bl], and the running code holds the buffers of the
    blocks [H].  fs.c is proved with the rules below, one for each call it
    makes into bio.c and log.c. *)

From S2P Require Import Prelude State Spinlock Sched Sleeplock Bio BufCache CacheRules Log LogHeader LogSpec LogRecover LogProps.

(** Buffers in use: those of the transaction, and the held ones outside it. *)
Definition in_use (bl H : list Z) : nat := (length bl + length (filter (fun b => b ∉ bl) H))%nat.

Record tx (s : kernel) (v : Z -> list Z) (bl H : list Z) : Prop := mkTx {
  tx_cst : cst s v (fun b => rP bl b + rP H b) (fun b => bool_decide (b ∈ H)) (in_use bl H);
  tx_nodup : NoDup H;
  tx_held : forall b, b ∈ H -> exists i, holds s b i;
  tx_logok : log_ok (logst s) bl;
  tx_free : LkLog ∉ held s;
  tx_open : 1 <= log_outstanding (logst s);
  tx_fits : log_size (logst s) <= LOGSIZE;
  tx_lh : length (lh_block (log_lh (logst s))) = Z.to_nat LOGSIZE
}.

Lemma txn_tx s v bl : 1 <= log_outstanding (logst s) -> txn s v bl <-> tx s v bl [].
Proof.
  intros Ho. assert (E : forall b, rP bl b + rP [] b = rP bl b).
  { intros b. unfold rP at 2. rewrite decide_False by apply not_elem_of_nil. lia. }
  assert (En : in_use bl [] = length bl) by (unfold in_use; cbn; lia). split.
  - intros [Q Hl Hk Hs Hb]. split; try done; [|constructor | intros b Hb'; by apply not_elem_of_nil in Hb'].
    rewrite En. eapply cst_ext; [exact Q | done | done | done].
  - intros [C _ _ Hl Hk _ Hs Hb]. split; try done. rewrite En in C. eapply cst_ext; [exact C | done | |].
    + intros b. symmetry. apply E.
    + intros b. symmetry. apply bool_decide_eq_false_2, not_elem_of_nil.
Qed.

(** A change of anything but the cache, the log and the locks. *)
Lemma tx_other s s' v bl H : tx s v bl H -> bufs s' = bufs s -> disk s' = disk s -> held s' = held s -> logst s' = logst s ->
  mypid s' = mypid s -> tx s' v bl H.
Proof.
  intros [C Hn Hh Hl Hk Ho Hs Hb] E1 E2 E3 E4 E5. split; rewrite ?E3, ?E4; try done.
  - by eapply cst_other.
  - intros b Hb'. destruct (Hh b Hb') as [i Hi]. exists i. by eapply holds_other.
Qed.

Lemma tx_len s v bl H b : tx s v bl H -> length (v b) = Z.to_nat BSIZE.
Proof. intros T. eapply cst_len. apply (tx_cst _ _ _ _ T). Qed.

Lemma tx_alen s v bl H b : tx s v bl H -> alen (v b) = BSIZE.
Proof. intros T. unfold alen. by rewrite (tx_len _ _ _ _ b T). Qed.

(** Holders agree on the buffer. *)
Lemma tx_data s v bl H b i : tx s v bl H -> holds s b i -> b_data (bufs s !!! i) = v b.
Proof. intros T Hi. eapply holds_data; [apply (tx_cst _ _ _ _ T) | done]. Qed.

Lemma rP_cons x P b : rP (x :: P) b = if decide (b = x) then 1 else rP P b.
Proof.
  unfold rP. destruct (decide (b ∈ x :: P)) as [Hi|Hi]; rewrite elem_of_cons in Hi;
    destruct (decide (b = x)), (decide (b ∈ P)); tauto.
Qed.

(** Logging a held block moves it from the held ones to the transaction. *)
Lemma filter_add (bn : Z) (bl H : list Z) : NoDup H -> bn ∉ bl ->
  length (filter (fun b => b ∉ bl) H) = (length (filter (fun b => b ∉ bl ++ [bn]) H) + if decide (bn ∈ H) then 1 else 0)%nat.
Proof.
  intros Hn Hb. induction H as [|x H' IH]; [done |]. apply NoDup_cons in Hn as [Hx Hn]. specialize (IH Hn).
  rewrite !filter_cons. destruct (decide (x = bn)) as [->|Hne].
  - rewrite (decide_False (P := bn ∈ H')) in IH by done. rewrite (decide_True (P := bn ∈ bn :: H')) by left.
    rewrite (decide_True (P := bn ∉ bl)) by done.
    rewrite decide_False by (intros Hc; apply Hc, elem_of_app; right; by apply list_elem_of_singleton). cbn. lia.
  - assert (E : (if decide (bn ∈ x :: H') then 1 else 0)%nat = (if decide (bn ∈ H') then 1 else 0)%nat).
    { destruct (decide (bn ∈ H')) as [Hi|Hi]; [rewrite decide_True by (by right); done |].
      rewrite decide_False; [done |]. intros [?|?]%elem_of_cons; congruence. }
    rewrite E. destruct (decide (x ∈ bl)) as [Hxl|Hxl].
    + rewrite !decide_False by (rewrite ?not_elem_of_app; tauto). lia.
    + rewrite !decide_True by (rewrite ?not_elem_of_app, ?list_elem_of_singleton; tauto). cbn. lia.
Qed.

Section rules.
Context (s : kernel) (v : Z -> list Z) (bl H : list Z) (T : tx s v bl H) (bn : Z).

Lemma rP_01 P b : rP P b = 0 \/ rP P b = 1.
Proof. unfold rP. case_decide; auto. Qed.

Lemma tx_bread : bn ∉ H -> (bn ∈ bl \/ (in_use bl H < HEAD)%nat) ->
  exists i s', bread ROOTDEV bn s = Ret i s' /\ tx s' v bl (bn :: H) /\ holds s' bn i /\ keeps_held s s' bn /\
    s' = set_bufs (bufs s') s.
Proof.
  destruct T as [C Hn Hh Hl Hk Ho Hs Hb]. intros Hnin Hroom.
  assert (rH : rP H bn = 0) by (unfold rP; by rewrite decide_False).
  destruct (rule_bread s v _ _ _ C bn) as (i & s' & E & F & C' & Hi & K).
  - by apply bool_decide_eq_false_2.
  - destruct (rP_01 bl bn); lia.
  - destruct Hroom as [Hin|Hr]; [left | by right]. unfold rP at 1. rewrite decide_True by done. lia.
  - exists i, s'. split; [done |]. split; [|done]. assert (L' : logst s' = logst s) by (by rewrite F).
    assert (H' : held s' = held s) by (by rewrite F).
    split; rewrite ?L', ?H'; try done; [|by constructor |].
    + rewrite rH in C'. replace (in_use bl (bn :: H)) with (if decide (rP bl bn + 0 = 0) then S (in_use bl H) else in_use bl H).
      * eapply cst_ext; [exact C' | done | |].
        -- intros b. rewrite rP_cons. unfold fupd. destruct (decide (b = bn)) as [->|]; lia.
        -- intros b. unfold fupd. destruct (decide (b = bn)) as [->|]; [apply bool_decide_eq_true_2; left | apply bool_decide_ext; rewrite elem_of_cons; tauto].
      * unfold in_use. rewrite filter_cons. unfold rP. destruct (decide (bn ∈ bl)) as [Hbl|Hbl].
        -- rewrite decide_False by lia. by rewrite decide_False by tauto.
        -- rewrite decide_True by lia. rewrite decide_True by done. cbn. lia.
    + intros b [->|Hb']%elem_of_cons; [eauto |]. destruct (Hh b Hb') as [j Hj]. exists j. apply K; [|done]. by intros ->.
Qed.

Lemma tx_store i x : holds s bn i -> bn ∈ H -> length x = Z.to_nat BSIZE ->
  let s' := set_bufs (alter (set_b_data x) i (bufs s)) s in
  upd_buf i (set_b_data x) s = Ret tt s' /\ tx s' (fupd v bn x) bl H /\ holds s' bn i /\ keeps_held s s' bn.
Proof.
  destruct T as [C Hn Hh Hl Hk Ho Hs Hb]. intros Hi Hin Hx s'.
  destruct (rule_store s v _ _ _ C bn i x Hi Hx) as (E & C' & Hi' & K). split_and!; try done. split; try done.
  intros b Hb'. destruct (decide (b = bn)) as [->|Hne]; [eauto |]. destruct (Hh b Hb') as [j Hj]. exists j. by apply K.
Qed.

Lemma in_use_add : bn ∈ H -> in_use (log_add bn bl) H = in_use bl H.
Proof.
  intros Hin. destruct T as [_ Hn _ _ _ _ _ _]. unfold in_use. rewrite length_log_add. unfold log_add.
  destruct (decide (bn ∈ bl)) as [Hb|Hb]; [done |]. rewrite (filter_add bn bl H Hn Hb), decide_True by done. lia.
Qed.

Lemma tx_log_write i : holds s bn i -> bn ∈ H ->
  Z.of_nat (length bl) < log_size (logst s) - 1 -> 0 <= bn < 2 ^ 31 /\ ~ in_log (logst s) bn ->
  exists s', log_write i s = Ret tt s' /\ tx s' v (log_add bn bl) H /\ holds s' bn i /\ keeps_held s s' bn /\
    s' = set_bufs (bufs s') (set_logst (set_log_lh (log_lh (logst s')) (logst s)) s).
Proof.
  intros Hi Hin Hroom Hbn. pose proof in_use_add as Hu. destruct T as [C Hn Hh Hl Hk Ho Hs Hb].
  assert (rH : rP H bn = 1) by (unfold rP; by rewrite decide_True).
  destruct (log_write_ok s v _ _ _ C bl bn i) as (s' & E & Hl' & Hi' & K & C' & F & Hb'); try done.
  { destruct (rP_01 bl bn); lia. }
  exists s'. split_and!; try done. split; try done.
  - rewrite Hu by done. eapply cst_ext; [exact C' | done | | done].
    intros b. rewrite rP_log_add. destruct (decide (bn ∈ bl)) as [Hbl|Hbl].
    + destruct (decide (b = bn)) as [->|]; [|done]. unfold rP at 2. rewrite decide_True by done. done.
    + unfold fupd. destruct (decide (b = bn)) as [->|]; [|done]. unfold rP at 2. rewrite (decide_False (P := bn ∈ bl)) by done. lia.
  - intros b Hb2. destruct (decide (b = bn)) as [->|Hne]; [eauto |]. destruct (Hh b Hb2) as [j Hj]. exists j. by apply K.
  - rewrite F. done.
  - rewrite F. done.
  - rewrite F. done.
Qed.

Lemma in_use_perm H' : H ≡ₚ bn :: H' -> in_use bl H = if decide (bn ∈ bl) then in_use bl H' else S (in_use bl H').
Proof.
  intros HP. unfold in_use. rewrite (Permutation_length (filter_Permutation (fun b => b ∉ bl) _ _ HP)), filter_cons.
  destruct (decide (bn ∈ bl)) as [Hb|Hb]; [by rewrite decide_False by tauto |]. rewrite decide_True by done. cbn. lia.
Qed.

Lemma tx_brelse i H' : holds s bn i -> H ≡ₚ bn :: H' -> (bn ∈ bl \/ v bn = d_blocks (disk s) bn) ->
  exists s', brelse i s = Ret tt s' /\ tx s' v bl H' /\ keeps_held s s' bn /\ mine s' = mine s /\
    s' = set_procs (procs s') (set_bufs (bufs s') s).
Proof.
  intros Hi HP Hclean. pose proof (in_use_perm H' HP) as Hu. destruct T as [C Hn Hh Hl Hk Ho Hs Hb].
  assert (Hmem : forall b, b ∈ H <-> b = bn \/ b ∈ H') by (intros b; rewrite HP, elem_of_cons; done).
  assert (Hnd : NoDup (bn :: H')) by (by rewrite <- HP). apply NoDup_cons in Hnd as [Hnin Hnd].
  assert (rH : rP H bn = 1) by (unfold rP; rewrite decide_True; [done | rewrite Hmem; by left]).
  destruct (rule_brelse s v _ _ _ C bn i Hi) as (s' & E & F & P & C' & K).
  { rewrite rH. destruct Hclean as [Hin|]; [|done]. unfold rP at 1. rewrite decide_True by done. lia. }
  exists s'. split; [done |]. split; [|done]. assert (L' : logst s' = logst s) by (by rewrite F).
  assert (H0 : held s' = held s) by (by rewrite F). split; rewrite ?L', ?H0; try done.
  - rewrite rH, Hu in C'. replace (in_use bl H') with
      (if decide (rP bl bn + 1 = 1) then ((if decide (bn ∈ bl) then in_use bl H' else S (in_use bl H')) - 1)%nat
       else (if decide (bn ∈ bl) then in_use bl H' else S (in_use bl H'))).
    + eapply cst_ext; [exact C' | done | |].
      * intros b. unfold fupd. destruct (decide (b = bn)) as [->|Hne].
        -- unfold rP at 2. rewrite decide_False by done. lia.
        -- f_equal. unfold rP. destruct (decide (b ∈ H)) as [Hx|Hx]; rewrite Hmem in Hx; destruct (decide (b ∈ H')); tauto.
      * intros b. unfold fupd. destruct (decide (b = bn)) as [->|Hne]; [by apply bool_decide_eq_false_2 |].
        apply bool_decide_ext. rewrite Hmem. tauto.
    + unfold rP. destruct (decide (bn ∈ bl)) as [Hx|Hx]; [by rewrite decide_False by lia | rewrite decide_True by lia; lia].
  - intros b Hb'. destruct (Hh b) as [j Hj]; [rewrite Hmem; by right |]. exists j. apply K; [|done]. by intros ->.
Qed.
End rules.

(** What code inside a transaction leaves alone: all but the cache, the
    transaction's header, who is runnable, and what is printed. *)
Record tstep (s s' : kernel) : Prop := mkTstep {
  ts_state : s' = set_uart (uart s') (set_procs (procs s') (set_bufs (bufs s') (set_logst (set_log_lh (log_lh (logst s')) (logst s)) s)));
  ts_me : mine s' = mine s
}.

Lemma ts_pid s s' : tstep s s' -> mypid s' = mypid s.
Proof. intros S. by apply mine_pid, S. Qed.

Create HintDb tstep.

Lemma tstep_refl s : tstep s s.
Proof. by split. Qed.

Lemma tstep_trans s1 s2 s3 : tstep s1 s2 -> tstep s2 s3 -> tstep s1 s3.
Proof. intros [E1 P1] [E2 P2]. split; [|congruence]. rewrite E2 at 1. rewrite E1. done. Qed.

Lemma tstep_bufs s s' : s' = set_bufs (bufs s') s -> tstep s s'.
Proof. intros E. split; [rewrite E at 1; rewrite E; done | by rewrite E]. Qed.

Lemma tstep_procs s s' : s' = set_procs (procs s') (set_bufs (bufs s') s) -> mine s' = mine s -> tstep s s'.
Proof. intros E P. split; [rewrite E at 1; rewrite E; done | done]. Qed.

Lemma tstep_log s s' : s' = set_bufs (bufs s') (set_logst (set_log_lh (log_lh (logst s')) (logst s)) s) -> tstep s s'.
Proof. intros E. split; [rewrite E at 1; rewrite E; done | by rewrite E]. Qed.

Lemma tstep_uart s u : tstep s (set_uart u s).
Proof. by split. Qed.

#[export] Hint Resolve tstep_refl tstep_uart tstep_bufs tstep_procs tstep_log : tstep.

Lemma tstep_disk s s' : tstep s s' -> disk s' = disk s.
Proof. intros [-> _]. done. Qed.
Lemma tstep_itable s s' : tstep s s' -> itable s' = itable s.
Proof. intros [-> _]. done. Qed.
Lemma tstep_sb s s' : tstep s s' -> sb s' = sb s.
Proof. intros [-> _]. done. Qed.
Lemma tstep_held s s' : tstep s s' -> held s' = held s.
Proof. intros [-> _]. done. Qed.
Lemma tstep_in_log s s' b : tstep s s' -> in_log (logst s') b <-> in_log (logst s) b.
Proof. intros [-> _]. done. Qed.
Lemma tstep_log_size s s' : tstep s s' -> log_size (logst s') = log_size (logst s).
Proof. intros [-> _]. done. Qed.

(** The buffers the code holds stay with it. *)
Definition stays (H : list Z) (s s' : kernel) : Prop := forall b j, b ∈ H -> holds s b j -> holds s' b j.

Lemma stays_keeps H s s' bn : keeps_held s s' bn -> bn ∉ H -> stays H s s'.
Proof. intros K Hn b j Hb Hh. apply K; [|done]. by intros ->. Qed.

Lemma stays_trans H s1 s2 s3 : stays H s1 s2 -> stays H s2 s3 -> stays H s1 s3.
Proof. intros K1 K2 b j Hb Hh. apply K2; [done |]. by apply K1. Qed.

(** Room for [k] more blocks in the log and in the cache. *)
Record room (s : kernel) (bl H : list Z) (k : nat) : Prop := mkRoom {
  rm_log : Z.of_nat (length bl + k) < log_size (logst s);
  rm_cache : (in_use bl H + k <= HEAD)%nat
}.

Lemma in_use_log_add bn bl H : NoDup H -> (in_use bl H <= in_use (log_add bn bl) H <= S (in_use bl H))%nat.
Proof.
  intros Hn. unfold in_use. rewrite length_log_add. unfold log_add. destruct (decide (bn ∈ bl)) as [Hb|Hb]; [lia |].
  rewrite (filter_add bn bl H Hn Hb). destruct (decide (bn ∈ H)); lia.
Qed.

Lemma room_add s s' bl H k bn : NoDup H -> tstep s s' -> room s bl H (S k) -> room s' (log_add bn bl) H k.
Proof.
  intros Hn Ht [R1 R2]. split; [rewrite (tstep_log_size _ _ Ht) |].
  - rewrite length_log_add. case_decide; lia.
  - pose proof (in_use_log_add bn bl H Hn). lia.
Qed.

Definition home_block (s : kernel) (bn : Z) : Prop := 0 <= bn < 2 ^ 31 /\ ~ in_log (logst s) bn.

Lemma home_block_tstep s s' bn : tstep s s' -> home_block s bn -> home_block s' bn.
Proof. intros Ht [H1 H2]. split; [done |]. by rewrite (tstep_in_log _ _ _ Ht). Qed.

(** Changing a block that was read: [modify bp->data; log_write(bp); brelse(bp)]. *)
Lemma tx_update s v bl H bn i x : tx s v bl (bn :: H) -> holds s bn i -> Z.of_nat (length bl) + 1 < log_size (logst s) ->
  home_block s bn -> length x = Z.to_nat BSIZE ->
  exists s1 s2 s3, upd_buf i (set_b_data x) s = Ret tt s1 /\ log_write i s1 = Ret tt s2 /\ brelse i s2 = Ret tt s3 /\
    tx s3 (fupd v bn x) (log_add bn bl) H /\ tstep s s3 /\ keeps_held s s3 bn.
Proof.
  intros T Hi Hroom Hbn Hx. destruct (tx_store s v bl (bn :: H) T bn i x Hi ltac:(by left) Hx) as (E1 & T1 & H1 & K1).
  set (s1 := set_bufs _ s) in *.
  destruct (tx_log_write s1 _ _ _ T1 bn i H1) as (s2 & E2 & T2 & H2 & K2 & F2); [by left | unfold s1; cbn; lia | exact Hbn |].
  destruct (tx_brelse s2 _ _ _ T2 bn i H H2 ltac:(done)) as (s3 & E3 & T3 & K3 & P3 & F3).
  { left. unfold log_add. case_decide; [done |]. apply elem_of_app. right. by apply list_elem_of_singleton. }
  exists s1, s2, s3. split_and!; try done; [|intros b j Hne Hh; apply K3; [done |]; apply K2; [done |]; by apply K1]. eapply tstep_trans; [|eapply tstep_trans; [apply tstep_log, F2 | by apply tstep_procs]].
  apply tstep_bufs. done.
Qed.

Lemma tx_bread_room s v bl H bn k : tx s v bl H -> bn ∉ H -> room s bl H (S k) ->
  exists i s', bread ROOTDEV bn s = Ret i s' /\ tx s' v bl (bn :: H) /\ holds s' bn i /\ keeps_held s s' bn /\
    s' = set_bufs (bufs s') s.
Proof. intros T Hn [_ R]. apply tx_bread; [done | done | right; lia]. Qed.

(** Reading a block and releasing it unchanged. *)
Lemma tx_release s v bl H bn i : tx s v bl (bn :: H) -> holds s bn i -> (bn ∈ bl \/ v bn = d_blocks (disk s) bn) ->
  exists s', brelse i s = Ret tt s' /\ tx s' v bl H /\ tstep s s' /\ keeps_held s s' bn.
Proof.
  intros T Hi Hc. destruct (tx_brelse s v bl (bn :: H) T bn i H Hi ltac:(done) Hc) as (s' & E & T' & K & P & F).
  exists s'. split_and!; try done. by apply tstep_procs.
Qed.

(** A block that is neither logged nor held holds what the disk holds. *)
Lemma tx_clean s v bl H bn : tx s v bl H -> bn ∉ H -> bn ∈ bl \/ v bn = d_blocks (disk s) bn.
Proof.
  intros T Hn. destruct (decide (bn ∈ bl)) as [|Hb]; [by left |]. right. eapply cst_clean; [apply (tx_cst _ _ _ _ T) |].
  unfold rP. by rewrite !decide_False.
Qed.
