(* ===== verification/Kalloc.v ===== *)
(** * kernel/kalloc.c: the physical page allocator

    The free list is threaded through the free pages themselves: the first
    eight bytes of a free page are [r->next].  [free_list_at] reads that list
    out of memory. *)

From S2P Require Import Prelude State Mem CString Spinlock Memlayout.

Section kalloc.
Context `{Layout}.

(** Free the page of physical memory pointed at by [pa]. *)
Definition kfree (pa : Z) : M kernel unit :=
  if negb (pa mod PGSIZE =? 0) || (pa <? kend) || (PHYSTOP <=? pa) then panic "kfree" else
  modify (fun s => set_mem (CString.memset (mem s) pa 1 PGSIZE) s) ;;
  acquire LkKmem ;;
  modify (fun s => set_mem (store64 (mem s) pa (freelist s)) s) ;;
  modify (set_freelist pa) ;;
  release LkKmem.

(** Allocate one 4096-byte page of physical memory; 0 if there is none. *)
Definition kalloc : M kernel Z :=
  acquire LkKmem ;;
  r ← gets freelist;
  (if r =? 0 then mret tt else modify (fun s => set_freelist (load64 (mem s) r) s)) ;;
  release LkKmem ;;
  (if r =? 0 then mret tt else modify (fun s => set_mem (CString.memset (mem s) r 5 PGSIZE) s)) ;;
  mret r.

(** [for(; p + PGSIZE <= (char* )pa_end; p += PGSIZE) kfree(p);] *)
Fixpoint freerange_loop (fuel : nat) (p pa_end : Z) : M kernel unit :=
  match fuel with
  | O => nofuel
  | S fuel =>
      if p + PGSIZE <=? pa_end
      then kfree p ;; freerange_loop fuel (p + PGSIZE) pa_end
      else mret tt
  end.

Definition freerange (pa_start pa_end : Z) : M kernel unit :=
  let p := PGROUNDUP pa_start in
  freerange_loop (Z.to_nat ((pa_end - p) / PGSIZE + 2)) p pa_end.

Definition kinit : M kernel unit := initlock LkKmem ;; freerange kend PHYSTOP.

(** ** The free list in memory *)

Fixpoint free_list_at (m : memory) (head : Z) (l : list Z) : Prop :=
  match l with
  | [] => head = 0
  | a :: l => head = a /\ free_list_at m (load64 m a) l
  end.

(** The pages the allocator manages. *)
Definition page_ok (a : Z) : Prop := page_aligned a /\ kend <= a < PHYSTOP.

Record kmem_inv (s : kernel) (l : list Z) : Prop := mkKmemInv {
  kmem_list : free_list_at (mem s) (freelist s) l;
  kmem_nodup : NoDup l;
  kmem_pages : Forall page_ok l
}.

(** [b] is a byte of page [a]. *)
Definition in_page (a b : Z) : Prop := a <= b < a + PGSIZE.

(** [n] pages from [p] upwards, last one first (the order [freerange] leaves). *)
Fixpoint pages_down (n : nat) (p : Z) : list Z :=
  match n with
  | O => []
  | S n => pages_down n (p + PGSIZE) ++ [p]
  end.
End kalloc.

(** ** Lemmas *)

Section kalloc_facts.
Context `{HL : Layout} {HOk : LayoutOk HL}.

Lemma page_ok_pos a : page_ok a -> 0 < a < 2 ^ 32.
Proof.
  intros [_ Ha]. pose proof kend_ok as [[H1 H2] H3]. unfold PHYSTOP, KERNBASE in *. lia.
Qed.

Lemma free_list_agree m m' head l :
  (forall a x, a ∈ l -> a <= x < a + 8 -> load8 m x = load8 m' x) ->
  free_list_at m head l -> free_list_at m' head l.
Proof.
  revert head; induction l as [|a l IH]; intros head Hm; simpl; [done |].
  intros [-> Hl]. split; [done |].
  rewrite <- (load64_agree m m') by (intros; eapply Hm; [left|]; eauto).
  apply IH; [|done]. intros. eapply Hm; [right|]; eauto.
Qed.

(** Writes confined to page [a] do not disturb a list that avoids [a]. *)
Lemma free_list_frame m m' head l a :
  page_aligned a -> Forall page_ok l -> a ∉ l ->
  (forall x, ~ in_page a x -> load8 m x = load8 m' x) ->
  free_list_at m head l -> free_list_at m' head l.
Proof.
  intros Ha Hl Hnl Hm. apply free_list_agree. intros b x Hb Hx. apply Hm. intros Hp.
  assert (page_ok b) as [Hbal _] by (eapply Forall_forall; eauto).
  destruct (page_disjoint a b Ha Hbal) as [|]; [set_solver | |];
    unfold in_page, PGSIZE in *; lia.
Qed.

Lemma kalloc_empty s : LkKmem ∉ held s -> kmem_inv s [] -> kalloc s = Ret 0 s.
Proof.
  intros Hl [Hf _ _]. simpl in Hf. unfold kalloc.
  erewrite bind_Ret by (apply acquire_Ret; done). mred. cbn. rewrite Hf. cbn.
  rewrite release_Ret by (cbn; set_solver). cbn. rewrite held_restore by done. reflexivity.
Qed.

Lemma kalloc_cons s a l :
  LkKmem ∉ held s -> kmem_inv s (a :: l) ->
  let m := CString.memset (mem s) a 5 PGSIZE in
  let s' := set_mem m (set_freelist (load64 (mem s) a) s) in
  kalloc s = Ret a s' /\ kmem_inv s' l /\
  (forall x, in_page a x -> load8 m x = 5) /\
  (forall x, ~ in_page a x -> load8 m x = load8 (mem s) x).
Proof.
  intros Hl [Hf Hnd Hok] m s'. inversion Hok as [|? ? Hao Hlo]; subst. simpl in Hf. destruct Hf as [Hh Hf].
  apply NoDup_cons in Hnd as [Hnin Hnd]. pose proof (page_ok_pos _ Hao) as Hapos.
  assert (Hm : forall x, load8 m x = if decide (in_page a x) then 5 else load8 (mem s) x).
  { intros x. unfold m. rewrite CString.memset_spec. done. }
  split_and!.
  - unfold kalloc. erewrite bind_Ret by (apply acquire_Ret; done). mred. cbn.
    rewrite Hh. destruct (Z.eqb_spec a 0); [lia |]. cbn.
    rewrite release_Ret by (cbn; set_solver). cbn. rewrite held_restore by done. reflexivity.
  - split; cbn; [|done|done]. eapply free_list_frame; [apply Hao | done | done | | exact Hf].
    intros x Hx. rewrite Hm. by case_decide.
  - intros x Hx. rewrite Hm. by case_decide.
  - intros x Hx. rewrite Hm. by case_decide.
Qed.

Lemma kfree_ok s a l :
  LkKmem ∉ held s -> kmem_inv s l -> page_ok a -> a ∉ l ->
  exists m, let s' := set_mem m (set_freelist a s) in
  kfree a s = Ret tt s' /\ kmem_inv s' (a :: l) /\
  (forall x, ~ in_page a x -> load8 m x = load8 (mem s) x).
Proof.
  intros Hl [Hf Hnd Hok] Ha Hnin. pose proof (page_ok_pos _ Ha) as Hapos. destruct Ha as [Hal Har].
  exists (store64 (CString.memset (mem s) a 1 PGSIZE) a (freelist s)). intros s'.
  assert (Hother : forall x, ~ in_page a x -> load8 (mem s') x = load8 (mem s) x).
  { intros x Hx. unfold in_page, PGSIZE in Hx. cbn. rewrite load8_store64_ne by lia.
    rewrite CString.memset_spec. case_decide as Hd; [|done].
    exfalso. apply Hx. change (u32 PGSIZE) with 4096 in Hd. lia. }
  split_and!; [ | | exact Hother].
  - unfold kfree. unfold page_aligned in Hal. destruct (Z.eqb_spec (a mod PGSIZE) 0); [|done].
    destruct (Z.ltb_spec a kend); [lia |]. destruct (Z.leb_spec PHYSTOP a); [lia |]. cbn [negb orb].
    mred. rewrite acquire_Ret by done. cbn. rewrite release_Ret by (cbn; set_solver). cbn.
    rewrite held_restore by done. reflexivity.
  - assert (Hfl : 0 <= freelist s < 2 ^ 64).
    { destruct l as [|b l]; simpl in Hf; [lia |]. destruct Hf as [-> _].
      inversion Hok as [|? ? Hb _]; subst. apply page_ok_pos in Hb. lia. }
    split; cbn.
    + split; [done |]. rewrite load64_store64_eq, wrap_small by lia.
      eapply (free_list_frame (mem s)); [exact Hal | exact Hok | exact Hnin | | exact Hf].
      intros x Hx. symmetry. apply Hother. exact Hx.
    + apply NoDup_cons. done.
    + constructor; [split; done | done].
Qed.

Lemma kfree_panic s a : ~ page_ok a -> kfree a s = Panic "kfree".
Proof.
  intros Ha. unfold kfree.
  destruct (Z.eqb_spec (a mod PGSIZE) 0), (Z.ltb_spec a kend), (Z.leb_spec PHYSTOP a); simpl; try done.
  destruct Ha. split; [done | lia].
Qed.

Lemma length_pages_down n p : length (pages_down n p) = n.
Proof. revert p; induction n; intros; simpl; [done |]. rewrite length_app, IHn. simpl. lia. Qed.

Lemma elem_of_pages_down n p a :
  a ∈ pages_down n p <-> exists k : nat, (k < n)%nat /\ a = p + Z.of_nat k * PGSIZE.
Proof.
  revert p; induction n; intros p; simpl.
  - split; [set_solver |]. intros (k & Hk & _). lia.
  - rewrite elem_of_app, IHn, list_elem_of_singleton. split.
    + intros [(k & Hk & ->)| ->]; [exists (S k) | exists O]; unfold PGSIZE; split; lia.
    + intros (k & Hk & ->). destruct k; [right; lia |]. left. exists k. unfold PGSIZE. split; lia.
Qed.

Lemma freerange_loop_ok n : forall fuel s p l,
  LkKmem ∉ held s -> kmem_inv s l -> (n < fuel)%nat -> page_aligned p -> kend <= p ->
  p + Z.of_nat n * PGSIZE <= PHYSTOP ->
  (forall k : nat, (k < n)%nat -> p + Z.of_nat k * PGSIZE ∉ l) ->
  forall pa_end, p + Z.of_nat n * PGSIZE <= pa_end < p + Z.of_nat n * PGSIZE + PGSIZE ->
  exists m f, let s' := set_mem m (set_freelist f s) in
  freerange_loop fuel p pa_end s = Ret tt s' /\ kmem_inv s' (pages_down n p ++ l).
Proof.
  induction n; intros fuel s p l Hl Hinv Hfuel Hp Hlo Hhi Hnin pa_end Hend;
    (destruct fuel; [lia |]); cbn [freerange_loop].
  - destruct (Z.leb_spec (p + PGSIZE) pa_end); [lia |].
    exists (mem s), (freelist s). split; [reflexivity | done].
  - destruct (Z.leb_spec (p + PGSIZE) pa_end); [| unfold PGSIZE in *; lia].
    destruct (kfree_ok s p l Hl Hinv) as (m & Hk & Hinv' & _).
    { split; [done |]. unfold PGSIZE in *. lia. }
    { specialize (Hnin 0%nat ltac:(lia)). replace (p + Z.of_nat 0 * PGSIZE) with p in Hnin by lia. done. }
    erewrite bind_Ret by exact Hk.
    destruct (IHn fuel (set_mem m (set_freelist p s)) (p + PGSIZE) (p :: l) Hl Hinv' ltac:(lia))
      with (pa_end := pa_end) as (m' & f' & Hr & Hinv'').
    { replace PGSIZE with (1 * PGSIZE) by lia. apply page_aligned_add. done. }
    { unfold PGSIZE. lia. }
    { unfold PGSIZE in *. lia. }
    { intros k Hk'. rewrite not_elem_of_cons. split; [unfold PGSIZE; lia |].
      replace (p + PGSIZE + Z.of_nat k * PGSIZE) with (p + Z.of_nat (S k) * PGSIZE) by (unfold PGSIZE; lia).
      apply Hnin. lia. }
    { unfold PGSIZE in *. lia. }
    exists m', f'. split; [exact Hr |]. cbn [pages_down]. rewrite <- app_assoc. exact Hinv''.
Qed.

Lemma PGROUNDUP_aligned a : 0 <= a < 2 ^ 63 ->
  page_aligned (PGROUNDUP a) /\ a <= PGROUNDUP a < a + PGSIZE.
Proof.
  intros. rewrite PGROUNDUP_eq by (unfold PGSIZE; lia). unfold page_aligned. split.
  - apply Z_mod_mult.
  - pose proof (Z.div_mod (a + PGSIZE - 1) PGSIZE ltac:(done)).
    pose proof (Z.mod_pos_bound (a + PGSIZE - 1) PGSIZE ltac:(done)). unfold PGSIZE in *. lia.
Qed.
End kalloc_facts.

(** ** Properties *)

(** A small machine: the kernel image leaves a bit more than three pages. *)
Definition demo_layout : Layout :=
  {| kend := PHYSTOP - 4 * PGSIZE + 24; etext := KERNBASE + 2 * PGSIZE; trampoline := KERNBASE + PGSIZE;
     forkret_addr := KERNBASE |}.

Lemma demo_layout_ok : LayoutOk demo_layout.
Proof. split; repeat split; vm_compute; reflexivity || discriminate. Qed.

Section kalloc_properties.
Context `{HL : Layout} {HOk : LayoutOk HL}.

(** After [kinit] the free list holds every page between the end of the
    kernel and [PHYSTOP], each exactly once, and nothing else. *)
Theorem kinit_frees_all (s : kernel) (Hl : LkKmem ∉ held s) (Hf : freelist s = 0) :
  exists m f l, let s' := set_mem m (set_freelist f s) in
  kinit s = Ret tt s' /\ kmem_inv s' l /\ (forall a, a ∈ l <-> page_ok a).
Proof.
  pose proof kend_ok as [[Hk1 Hk2] Hk3]. unfold PHYSTOP, KERNBASE in *.
  assert (Hk : 0 <= kend < 2 ^ 63) by lia.
  destruct (PGROUNDUP_aligned kend Hk) as [Hal Hup]. unfold kinit, freerange. erewrite bind_Ret by (by apply initlock_free). cbv beta.
  set (p := PGROUNDUP kend) in *. unfold page_aligned, PGSIZE in *.
  assert (Hp : p = 4096 * (p / 4096)) by (pose proof (Z.div_mod p 4096 ltac:(lia)); lia).
  set (n := Z.to_nat ((2281701376 - p) / 4096)).
  assert (Hn : p + Z.of_nat n * 4096 = 2281701376).
  { unfold n. rewrite Hp. replace (2281701376 - 4096 * (p / 4096)) with ((557056 - p / 4096 + 0) * 4096) by lia.
    rewrite Z.div_mul by lia. lia. }
  destruct (freerange_loop_ok n (Z.to_nat ((2281701376 - p) / 4096 + 2)) s p []) with (pa_end := 2281701376)
    as (m & f & Hr & Hinv); unfold PHYSTOP, KERNBASE, PGSIZE in *; try done; try lia.
  { split; [done | constructor | constructor]. }
  { unfold n. assert (0 <= (2281701376 - p) / 4096) by (apply Z.div_pos; lia). lia. }
  { set_solver. }
  exists m, f, (pages_down n p). rewrite app_nil_r in Hinv. split_and!; [exact Hr | exact Hinv |].
  intros a. split; [intros Ha; eapply Forall_forall; [apply Hinv | exact Ha] |].
  intros [Haa Har]. unfold page_aligned, PHYSTOP, KERNBASE, PGSIZE in *. apply elem_of_pages_down.
  pose proof (Z.div_mod a 4096 ltac:(lia)).
  exists (Z.to_nat (a / 4096 - p / 4096)). unfold PGSIZE. split; lia.
Qed.

(** C31: [kalloc] never hands out a page that is in use.  With [fr] the free and
    [al] the allocated pages, it returns 0 and changes nothing when none is
    free, and otherwise a whole managed page that is not in [al], filled with
    5s, leaving every byte outside that page (so every allocated page) alone. *)
Theorem kalloc_fresh (s : kernel) (fr al : list Z)
    (Hl : LkKmem ∉ held s) (Hinv : kmem_inv s fr) (Hnd : NoDup (fr ++ al)) :
  (fr = [] /\ kalloc s = Ret 0 s) \/
  exists a fr' s',
    fr = a :: fr' /\ kalloc s = Ret a s' /\ s' = set_mem (mem s') (set_freelist (freelist s') s) /\
    a <> 0 /\ page_ok a /\ a ∉ al /\ kmem_inv s' fr' /\ NoDup (fr' ++ a :: al) /\
    (forall x, in_page a x -> load8 (mem s') x = 5) /\
    (forall x, ~ in_page a x -> load8 (mem s') x = load8 (mem s) x).
Proof.
  destruct fr as [|a fr']; [left; split; [done | by apply kalloc_empty] | right].
  destruct (kalloc_cons s a fr' Hl Hinv) as (Hr & Hinv' & H5 & Ho).
  assert (Ha : page_ok a) by (destruct Hinv as [_ _ Hok]; by inversion Hok).
  pose proof (page_ok_pos a Ha). pose proof Hnd as Hnd'. simpl in Hnd. apply NoDup_cons in Hnd as [Hn1 Hn2].
  eexists a, fr', _. split_and!; [done | exact Hr | done | lia | done | set_solver | exact Hinv' | | exact H5 | exact Ho].
  rewrite <- Permutation_middle. exact Hnd'.
Qed.

(** [kfree] of an allocated page puts exactly that page back, touching no
    other page, and it is what the next [kalloc] returns; freeing anything that
    is not a managed page panics. *)
Theorem kfree_kalloc (s : kernel) (fr : list Z) (a : Z)
    (Hl : LkKmem ∉ held s) (Hinv : kmem_inv s fr) (Ha : a ∉ fr) :
  (page_ok a -> exists s' s'',
    kfree a s = Ret tt s' /\ kmem_inv s' (a :: fr) /\
    (forall x, ~ in_page a x -> load8 (mem s') x = load8 (mem s) x) /\
    kalloc s' = Ret a s'' /\ kmem_inv s'' fr /\ freelist s'' = freelist s) /\
  (~ page_ok a -> kfree a s = Panic "kfree").
Proof.
  split; [|apply kfree_panic]. intros Hok.
  destruct (kfree_ok s a fr Hl Hinv Hok Ha) as (m & Hr & Hinv' & Ho).
  destruct (kalloc_cons (set_mem m (set_freelist a s)) a fr Hl Hinv') as (Hr' & Hinv'' & _ & _).
  eexists _, _. split_and!; [exact Hr | exact Hinv' | exact Ho | exact Hr' | exact Hinv'' |].
  destruct Hinv' as [[_ Hf'] _ _], Hinv as [Hf _ _]. cbn in Hf' |- *.
  destruct fr as [|b fr]; simpl in *; [congruence |]. destruct Hf as [-> _], Hf' as [-> _]. done.
Qed.
End kalloc_properties.

Lemma kinit_frees_all_witness :
  exists m f l, let s' := set_mem m (set_freelist f (boot_kernel (fun _ => []))) in
  @kinit demo_layout (boot_kernel (fun _ => [])) = Ret tt s' /\ @kmem_inv demo_layout s' l /\
  (forall a, a ∈ l <-> @page_ok demo_layout a) /\ PHYSTOP - PGSIZE ∈ l.
Proof.
  destruct (@kinit_frees_all demo_layout demo_layout_ok (boot_kernel (fun _ => [])))
    as (m & f & l & H1 & H2 & H3); [set_solver | reflexivity |].
  exists m, f, l. split; [exact H1 |]. split; [exact H2 |]. split; [exact H3 |].
  apply H3. split; [reflexivity |]. split; [vm_compute; discriminate | reflexivity].
Defined.

(** The allocator with two free pages. *)
Definition demo_pages : kernel :=
  let a := PHYSTOP - PGSIZE in let b := PHYSTOP - 2 * PGSIZE in
  set_mem (store64 (store64 (fun _ => 0) a b) b 0) (set_freelist a (boot_kernel (fun _ => []))).

Lemma demo_pages_inv : @kmem_inv demo_layout demo_pages [PHYSTOP - PGSIZE; PHYSTOP - 2 * PGSIZE].
Proof.
  split.
  - simpl. split; [reflexivity |]. split; vm_compute; reflexivity.
  - apply NoDup_cons. split; [|apply NoDup_singleton]. rewrite list_elem_of_singleton. vm_compute. discriminate.
  - repeat constructor; vm_compute; try reflexivity; discriminate.
Qed.

Lemma kalloc_fresh_witness :
  exists s', kalloc demo_pages = Ret (PHYSTOP - PGSIZE) s' /\ load8 (mem s') (PHYSTOP - 1) = 5.
Proof.
  destruct (@kalloc_fresh demo_layout demo_layout_ok demo_pages
      [PHYSTOP - PGSIZE; PHYSTOP - 2 * PGSIZE] []) as [[H _]|(a & fr' & s' & H1 & H2 & _ & _ & _ & _ & _ & _ & H5 & _)].
  - set_solver.
  - exact demo_pages_inv.
  - rewrite app_nil_r. apply demo_pages_inv.
  - discriminate.
  - injection H1 as <- _. exists s'. split; [exact H2 |]. apply H5. split; vm_compute; [discriminate | reflexivity].
Defined.

Lemma kfree_kalloc_witness :
  (exists s' s'', @kfree demo_layout (PHYSTOP - 3 * PGSIZE) demo_pages = Ret tt s' /\ kalloc s' = Ret (PHYSTOP - 3 * PGSIZE) s'') /\
  @kfree demo_layout 0 demo_pages = Panic "kfree".
Proof.
  split.
  - destruct (@kfree_kalloc demo_layout demo_layout_ok demo_pages
      [PHYSTOP - PGSIZE; PHYSTOP - 2 * PGSIZE] (PHYSTOP - 3 * PGSIZE)) as [H _].
    + set_solver.
    + exact demo_pages_inv.
    + rewrite !not_elem_of_cons. repeat split; try (vm_compute; discriminate). apply not_elem_of_nil.
    + destruct H as (s' & s'' & H1 & _ & _ & H2 & _).
      { split; [reflexivity |]. split; [vm_compute; discriminate | reflexivity]. }
      exists s', s''. split; [exact H1 | exact H2].
  - apply (@kfree_kalloc demo_layout demo_layout_ok demo_pages
      [PHYSTOP - PGSIZE; PHYSTOP - 2 * PGSIZE] 0).
    + set_solver.
    + exact demo_pages_inv.
    + rewrite !not_elem_of_cons. repeat split; try (vm_compute; discriminate). apply not_elem_of_nil.
    + intros [_ [H _]]. revert H. vm_compute. intros H. apply H. reflexivity.
Defined.
