(* ===== verification/Vm.v ===== *)
(** * kernel/vm.c: page tables and user memory

    Page tables live in physical memory: a page-table page is 512 64-bit
    entries that [walk] reads and writes there.  Pointers to entries are
    addresses, 0 is the null pointer.  Kernel-side buffers of [copyout],
    [copyin] and [copyinstr] are byte lists (they are outside the pages the
    user page table maps).  Loops carry fuel; each caller passes the number of
    iterations the loop can make. *)

From S2P Require Import Prelude State Mem CString Spinlock Memlayout Kalloc.

Section vm.
Context `{Layout}.

Definition load_pte (a : Z) : M kernel Z := gets (fun s => load64 (mem s) a).
Definition store_pte (a v : Z) : M kernel unit := modify (fun s => set_mem (store64 (mem s) a v) s).
Definition fill_page (a c : Z) : M kernel unit :=
  modify (fun s => set_mem (CString.memset (mem s) a c PGSIZE) s).
Definition write_bytes (a : Z) (l : list Z) : M kernel unit :=
  modify (fun s => set_mem (store_bytes (mem s) a l) s).
Definition read_bytes (a n : Z) : M kernel (list Z) := gets (fun s => load_bytes (mem s) a (Z.to_nat n)).
Definition has (v f : Z) : bool := negb (Z.land v f =? 0).

(** The loop of [walk], from level [level] down. *)
Fixpoint walk_loop (level : nat) (pagetable va : Z) (alloc : bool) : M kernel Z :=
  match level with
  | O => mret (pagetable + 8 * PX 0 va)
  | S l =>
      let pte := pagetable + 8 * PX (Z.of_nat level) va in
      v ← load_pte pte;
      if has v PTE_V then walk_loop l (PTE2PA v) va alloc
      else if negb alloc then mret 0
      else
        pg ← kalloc;
        if pg =? 0 then mret 0
        else
          fill_page pg 0 ;;
          store_pte pte (Z.lor (PA2PTE pg) PTE_V) ;;
          walk_loop l pg va alloc
  end.

Definition walk (pagetable va : Z) (alloc : bool) : M kernel Z :=
  if MAXVA <=? va then panic "walk" else walk_loop 2 pagetable va alloc.

Definition walkaddr (pagetable va : Z) : M kernel Z :=
  if MAXVA <=? va then mret 0 else
  pte ← walk pagetable va false;
  if pte =? 0 then mret 0 else
  v ← load_pte pte;
  if Z.land v PTE_V =? 0 then mret 0 else
  if Z.land v PTE_U =? 0 then mret 0 else
  mret (PTE2PA v).

Fixpoint mappages_loop (fuel : nat) (pagetable a last pa perm : Z) : M kernel Z :=
  match fuel with
  | O => nofuel
  | S fuel =>
      pte ← walk pagetable a true;
      if pte =? 0 then mret (-1) else
      v ← load_pte pte;
      if has v PTE_V then panic "mappages: remap" else
      store_pte pte (Z.lor (Z.lor (PA2PTE pa) perm) PTE_V) ;;
      if a =? last then mret 0
      else mappages_loop fuel pagetable (u64 (a + PGSIZE)) last (u64 (pa + PGSIZE)) perm
  end.

Definition mappages (pagetable va size pa perm : Z) : M kernel Z :=
  if size =? 0 then panic "mappages: size" else
  let a := PGROUNDDOWN va in
  let last := PGROUNDDOWN (u64 (va + size - 1)) in
  mappages_loop (Z.to_nat ((last - a) / PGSIZE + 1)) pagetable a last pa perm.

Definition kvmmap (kpgtbl va pa sz perm : Z) : M kernel unit :=
  r ← mappages kpgtbl va sz pa perm;
  if negb (r =? 0) then panic "kvmmap" else mret tt.

Fixpoint uvmunmap_loop (fuel : nat) (pagetable a endva : Z) (do_free : bool) : M kernel unit :=
  match fuel with
  | O => nofuel
  | S fuel =>
      if a <? endva then
        pte ← walk pagetable a false;
        if pte =? 0 then panic "uvmunmap: walk" else
        v ← load_pte pte;
        if Z.land v PTE_V =? 0 then panic "uvmunmap: not mapped" else
        if PTE_FLAGS v =? PTE_V then panic "uvmunmap: not a leaf" else
        (if do_free then kfree (PTE2PA v) else mret tt) ;;
        store_pte pte 0 ;;
        uvmunmap_loop fuel pagetable (u64 (a + PGSIZE)) endva do_free
      else mret tt
  end.

Definition uvmunmap (pagetable va npages : Z) (do_free : bool) : M kernel unit :=
  if negb (va mod PGSIZE =? 0) then panic "uvmunmap: not aligned" else
  uvmunmap_loop (Z.to_nat npages + 1) pagetable va (u64 (va + npages * PGSIZE)) do_free.

Definition uvmcreate : M kernel Z :=
  pagetable ← kalloc;
  if pagetable =? 0 then mret 0 else
  fill_page pagetable 0 ;;
  mret pagetable.

Definition uvmfirst (pagetable : Z) (src : list Z) (sz : Z) : M kernel unit :=
  if PGSIZE <=? sz then panic "uvmfirst: more than a page" else
  pg ← kalloc;
  fill_page pg 0 ;;
  mappages pagetable 0 PGSIZE pg (Z.lor (Z.lor (Z.lor PTE_W PTE_R) PTE_X) PTE_U) ;;
  write_bytes pg (take (Z.to_nat sz) src).

Definition uvmdealloc (pagetable oldsz newsz : Z) : M kernel Z :=
  if oldsz <=? newsz then mret oldsz else
  (if PGROUNDUP newsz <? PGROUNDUP oldsz
   then
     let npages := i32 ((PGROUNDUP oldsz - PGROUNDUP newsz) / PGSIZE) in
     uvmunmap pagetable (PGROUNDUP newsz) (u64 npages) true
   else mret tt) ;;
  mret newsz.

(** [start] is [oldsz] rounded up. *)
Fixpoint uvmalloc_loop (fuel : nat) (pagetable start a newsz xperm : Z) : M kernel Z :=
  match fuel with
  | O => nofuel
  | S fuel =>
      if a <? newsz then
        pg ← kalloc;
        if pg =? 0 then uvmdealloc pagetable a start ;; mret 0 else
        fill_page pg 0 ;;
        r ← mappages pagetable a PGSIZE pg (Z.lor (Z.lor PTE_R PTE_U) xperm);
        if negb (r =? 0) then
          kfree pg ;; uvmdealloc pagetable a start ;; mret 0
        else uvmalloc_loop fuel pagetable start (u64 (a + PGSIZE)) newsz xperm
      else mret newsz
  end.

Definition uvmalloc (pagetable oldsz newsz xperm : Z) : M kernel Z :=
  if newsz <? oldsz then mret oldsz else
  let start := PGROUNDUP oldsz in
  uvmalloc_loop (Z.to_nat ((newsz - start) / PGSIZE + 2)) pagetable start start newsz xperm.

(** The loop of [freewalk] over the entries from [i] on; [rec] is the
    recursive call. *)
Fixpoint freewalk_loop (rec : Z -> M kernel unit) (k : nat) (pagetable i : Z) : M kernel unit :=
  match k with
  | O => mret tt
  | S k =>
      pte ← load_pte (pagetable + 8 * i);
      (if has pte PTE_V && (Z.land pte (Z.lor (Z.lor PTE_R PTE_W) PTE_X) =? 0) then
         rec (PTE2PA pte) ;;
         store_pte (pagetable + 8 * i) 0
       else if has pte PTE_V then panic "freewalk: leaf"
       else mret tt) ;;
      freewalk_loop rec k pagetable (i + 1)
  end.

(** Recursively free page-table pages; [depth] bounds the recursion (a page
    table has three levels). *)
Fixpoint freewalk (depth : nat) (pagetable : Z) : M kernel unit :=
  match depth with
  | O => nofuel
  | S depth =>
      freewalk_loop (freewalk depth) 512 pagetable 0 ;;
      kfree pagetable
  end.

Definition uvmfree (pagetable sz : Z) : M kernel unit :=
  (if 0 <? sz then uvmunmap pagetable 0 (PGROUNDUP sz / PGSIZE) true else mret tt) ;;
  freewalk 3 pagetable.

Fixpoint uvmcopy_loop (fuel : nat) (old new i sz : Z) : M kernel Z :=
  match fuel with
  | O => nofuel
  | S fuel =>
      if i <? sz then
        pte ← walk old i false;
        if pte =? 0 then panic "uvmcopy: pte should exist" else
        v ← load_pte pte;
        if Z.land v PTE_V =? 0 then panic "uvmcopy: page not present" else
        let pa := PTE2PA v in
        let flags := PTE_FLAGS v in
        pg ← kalloc;
        if pg =? 0 then uvmunmap new 0 (i / PGSIZE) true ;; mret (-1) else
        modify (fun s => set_mem (CString.memmove (mem s) pg pa PGSIZE) s) ;;
        r ← mappages new i PGSIZE pg flags;
        if negb (r =? 0) then
          kfree pg ;; uvmunmap new 0 (i / PGSIZE) true ;; mret (-1)
        else uvmcopy_loop fuel old new (u64 (i + PGSIZE)) sz
      else mret 0
  end.

Definition uvmcopy (old new sz : Z) : M kernel Z :=
  uvmcopy_loop (Z.to_nat (sz / PGSIZE + 2)) old new 0 sz.

Definition uvmclear (pagetable va : Z) : M kernel unit :=
  pte ← walk pagetable va false;
  if pte =? 0 then panic "uvmclear" else
  v ← load_pte pte;
  store_pte pte (Z.land v (Z.lnot PTE_U)).

Fixpoint copyout_loop (fuel : nat) (pagetable dstva : Z) (src : list Z) (len : Z) : M kernel Z :=
  match fuel with
  | O => nofuel
  | S fuel =>
      if 0 <? len then
        let va0 := PGROUNDDOWN dstva in
        pa0 ← walkaddr pagetable va0;
        if pa0 =? 0 then mret (-1) else
        let n := Z.min (PGSIZE - (dstva - va0)) len in
        write_bytes (pa0 + (dstva - va0)) (take (Z.to_nat n) src) ;;
        copyout_loop fuel pagetable (u64 (va0 + PGSIZE)) (drop (Z.to_nat n) src) (len - n)
      else mret 0
  end.

(** [src] holds the [len] bytes at the kernel address. *)
Definition copyout (pagetable dstva : Z) (src : list Z) (len : Z) : M kernel Z :=
  copyout_loop (Z.to_nat (len / PGSIZE + 3)) pagetable dstva src len.

(** Returns the status and the bytes stored to [dst]. *)
Fixpoint copyin_loop (fuel : nat) (pagetable srcva len : Z) (dst : list Z) : M kernel (Z * list Z) :=
  match fuel with
  | O => nofuel
  | S fuel =>
      if 0 <? len then
        let va0 := PGROUNDDOWN srcva in
        pa0 ← walkaddr pagetable va0;
        if pa0 =? 0 then mret (-1, dst) else
        let n := Z.min (PGSIZE - (srcva - va0)) len in
        l ← read_bytes (pa0 + (srcva - va0)) n;
        copyin_loop fuel pagetable (u64 (va0 + PGSIZE)) (len - n) (dst ++ l)
      else mret (0, dst)
  end.

Definition copyin (pagetable srcva len : Z) : M kernel (Z * list Z) :=
  copyin_loop (Z.to_nat (len / PGSIZE + 3)) pagetable srcva len [].

(** The inner loop of [copyinstr]: up to [n] bytes from [p]; the flag says
    whether a NUL was found (it is copied too). *)
Fixpoint copyinstr_page (n : nat) (m : memory) (p : Z) : list Z * bool :=
  match n with
  | O => ([], false)
  | S n =>
      if load8 m p =? 0 then ([0], true)
      else let '(l, b) := copyinstr_page n m (p + 1) in (load8 m p :: l, b)
  end.

Fixpoint copyinstr_loop (fuel : nat) (pagetable srcva max : Z) (dst : list Z) : M kernel (Z * list Z) :=
  match fuel with
  | O => nofuel
  | S fuel =>
      if 0 <? max then
        let va0 := PGROUNDDOWN srcva in
        pa0 ← walkaddr pagetable va0;
        if pa0 =? 0 then mret (-1, dst) else
        let n := Z.min (PGSIZE - (srcva - va0)) max in
        '(l, got_null) ← gets (fun s => copyinstr_page (Z.to_nat n) (mem s) (pa0 + (srcva - va0)));
        if (got_null : bool) then mret (0, dst ++ l)
        else copyinstr_loop fuel pagetable (u64 (va0 + PGSIZE)) (max - n) (dst ++ l)
      else mret (-1, dst)
  end.

Definition copyinstr (pagetable srcva max : Z) : M kernel (Z * list Z) :=
  copyinstr_loop (Z.to_nat (max / PGSIZE + 3)) pagetable srcva max [].

(** Kernel page table, with the kernel stacks of proc.c. *)
Fixpoint proc_mapstacks_loop (k : nat) (i kpgtbl : Z) : M kernel unit :=
  match k with
  | O => mret tt
  | S k =>
      pa ← kalloc;
      if pa =? 0 then panic "kalloc" else
      kvmmap kpgtbl (KSTACK i) pa PGSIZE (Z.lor PTE_R PTE_W) ;;
      proc_mapstacks_loop k (i + 1) kpgtbl
  end.

Definition proc_mapstacks (kpgtbl : Z) : M kernel unit :=
  proc_mapstacks_loop (Z.to_nat NPROC) 0 kpgtbl.

Definition kvmmake : M kernel Z :=
  kpgtbl ← kalloc;
  fill_page kpgtbl 0 ;;
  kvmmap kpgtbl UART0 UART0 PGSIZE (Z.lor PTE_R PTE_W) ;;
  kvmmap kpgtbl VIRTIO0 VIRTIO0 PGSIZE (Z.lor PTE_R PTE_W) ;;
  kvmmap kpgtbl PLIC PLIC 0x400000 (Z.lor PTE_R PTE_W) ;;
  kvmmap kpgtbl KERNBASE KERNBASE (etext - KERNBASE) (Z.lor PTE_R PTE_X) ;;
  kvmmap kpgtbl etext etext (PHYSTOP - etext) (Z.lor PTE_R PTE_W) ;;
  kvmmap kpgtbl TRAMPOLINE trampoline PGSIZE (Z.lor PTE_R PTE_X) ;;
  proc_mapstacks kpgtbl ;;
  mret kpgtbl.
End vm.
