(* ===== verification/PageTable.v ===== *)
(** * The page-table tree in physical memory

    [pt_inv m root t] says that memory [m] holds at [root] a three-level page
    table whose table pages are those of [t]: the root at path [[]], the
    level-1 table for index [i] at [[i]], the level-0 table for [i], [j] at
    [[i; j]].  The table pages are distinct managed pages.  [walk] is
    characterised against this tree. *)

From S2P Require Import Prelude State Mem CString Spinlock Memlayout Kalloc Vm.

Section tree.
Context `{Layout}.

Record pt_inv (m : memory) (root : Z) (t : gmap (list Z) Z) : Prop := mkPtInv {
  pt_root : t !! [] = Some root;
  pt_inj : forall p q a, t !! p = Some a -> t !! q = Some a -> p = q;
  pt_page : forall p a, t !! p = Some a -> page_ok a;
  pt_len : forall p a, t !! p = Some a -> (length p <= 2)%nat;
  pt_parent : forall p i a, t !! (p ++ [i]) = Some a -> is_Some (t !! p) /\ 0 <= i < 512;
  pt_low : forall i p a, t !! (i :: p) = Some a -> i < 256;  (* MAXVA is one bit short of 39 *)
  pt_entry : forall p a i, t !! p = Some a -> (length p <= 1)%nat -> 0 <= i < 512 ->
    match t !! (p ++ [i]) with
    | Some b => load64 m (a + 8 * i) = mk_pte b 0
    | None => Z.land (load64 m (a + 8 * i)) PTE_V = 0
    end
}.

(** The leaf entry for a virtual address; 0 where there is no level-0 table. *)
Definition lookup_pte (m : memory) (t : gmap (list Z) Z) (va : Z) : Z :=
  match t !! [PX 2 va; PX 1 va] with
  | Some a => load64 m (a + 8 * PX 0 va)
  | None => 0
  end.

(** [x] is a byte of a table page of [t]. *)
Definition in_tree (t : gmap (list Z) Z) (x : Z) : Prop := exists p a, t !! p = Some a /\ in_page a x.

(** A page table beside the free list [fr]. *)
Record vm_inv (s : kernel) (root : Z) (t : gmap (list Z) Z) (fr : list Z) : Prop := mkVmInv {
  vm_lock : LkKmem ∉ held s;
  vm_kmem : kmem_inv s fr;
  vm_pt : pt_inv (mem s) root t;
  vm_sep : forall p a, t !! p = Some a -> a ∉ fr
}.

(** What a page-table operation may change: table pages, and pages taken from
    the free list to become table pages. *)
Record vm_ext (s : kernel) (t : gmap (list Z) Z) (fr : list Z)
    (s' : kernel) (t' : gmap (list Z) Z) (fr' : list Z) : Prop := mkVmExt {
  ext_tree : t ⊆ t';
  ext_free : exists used, fr = used ++ fr' /\ forall a, a ∈ used <-> exists p, t' !! p = Some a /\ t !! p = None;
  ext_state : s' = set_mem (mem s') (set_freelist (freelist s') s);
  ext_mem : forall x, ~ in_tree t' x -> load8 (mem s') x = load8 (mem s) x
}.
End tree.

Section tree_facts.
Context `{HL : Layout} {HOk : LayoutOk HL}.

Lemma page_ok_56 a : page_ok a -> 0 <= a < 2 ^ 56.
Proof. intros Ha. apply page_ok_pos in Ha. lia. Qed.

Lemma entry_in_page a i : 0 <= i < 512 -> forall x, a + 8 * i <= x < a + 8 * i + 8 -> in_page a x.
Proof. unfold in_page, PGSIZE. lia. Qed.

Lemma page_sep a b x : page_ok a -> page_ok b -> a <> b -> in_page a x -> ~ in_page b x.
Proof.
  intros [Ha _] [Hb _] Hne Hx Hx'. destruct (page_disjoint a b Ha Hb Hne); unfold in_page, PGSIZE in *; lia.
Qed.

Lemma pt_distinct m root t p q a b :
  pt_inv m root t -> t !! p = Some a -> t !! q = Some b -> p <> q ->
  a + PGSIZE <= b \/ b + PGSIZE <= a.
Proof.
  intros I Hp Hq Hne. destruct (pt_page _ _ _ I p a Hp) as [Ha _], (pt_page _ _ _ I q b Hq) as [Hb _].
  apply page_disjoint; [done | done |]. intros ->. apply Hne. eapply pt_inj; eauto.
Qed.

(** Memories that agree on the interior tables hold the same tree. *)
Lemma pt_inv_frame m m' root t :
  pt_inv m root t ->
  (forall p a x, t !! p = Some a -> (length p <= 1)%nat -> in_page a x -> load8 m x = load8 m' x) ->
  pt_inv m' root t.
Proof.
  intros [I1 I2 I3 I4 I5 I7 I6] Hm. split; auto.
  intros p a i Hp Hl Hi. specialize (I6 p a i Hp Hl Hi).
  rewrite <- (load64_agree m m'); [done |].
  intros x Hx. eapply Hm; eauto. eapply entry_in_page; eauto.
Qed.

Lemma lookup_pte_frame m m' t va :
  (forall a x, t !! [PX 2 va; PX 1 va] = Some a -> in_page a x -> load8 m x = load8 m' x) ->
  lookup_pte m' t va = lookup_pte m t va.
Proof.
  intros Hm. unfold lookup_pte. destruct (t !! _) as [a|]; [|done].
  apply load64_agree. intros x Hx. symmetry. eapply Hm; [done |]. eapply entry_in_page; eauto using PX_range.
  apply PX_range. lia.
Qed.

(** ** One level of [walk] *)

Lemma entry_valid m root t p a i b :
  pt_inv m root t -> t !! p = Some a -> (length p <= 1)%nat -> t !! (p ++ [i]) = Some b ->
  has (load64 m (a + 8 * i)) PTE_V = true /\ PTE2PA (load64 m (a + 8 * i)) = b.
Proof.
  intros I Hp Hl Hb. destruct (pt_parent _ _ _ I p i b Hb) as [_ Hi].
  pose proof (pt_entry _ _ _ I p a i Hp Hl Hi) as He. rewrite Hb in He. rewrite He.
  pose proof (pt_page _ _ _ I _ _ Hb) as Hok. apply page_ok_56 in Hok as H56.
  split.
  - unfold has. destruct (Z.eqb_spec (Z.land (mk_pte b 0) PTE_V) 0) as [E|]; [|done].
    exfalso. eapply mk_pte_valid; [exact H56 | | exact E]. lia.
  - rewrite PTE2PA_mk by lia. apply page_aligned_div, Hok.
Qed.

Lemma entry_invalid m root t p a i :
  pt_inv m root t -> t !! p = Some a -> (length p <= 1)%nat -> 0 <= i < 512 -> t !! (p ++ [i]) = None ->
  has (load64 m (a + 8 * i)) PTE_V = false.
Proof.
  intros I Hp Hl Hi Hb. pose proof (pt_entry _ _ _ I p a i Hp Hl Hi) as He. rewrite Hb in He.
  unfold has. rewrite He. done.
Qed.

Lemma walk_noalloc s root t va :
  pt_inv (mem s) root t -> 0 <= va < MAXVA ->
  walk root va false s =
    Ret (match t !! [PX 2 va; PX 1 va] with Some a => a + 8 * PX 0 va | None => 0 end) s.
Proof.
  intros I Hva. unfold walk. destruct (Z.leb_spec MAXVA va); [lia |].
  assert (R2 : 0 <= PX 2 va < 512) by (apply PX_range; lia).
  assert (R1 : 0 <= PX 1 va < 512) by (apply PX_range; lia).
  pose proof (pt_root _ _ _ I) as Hr. unfold walk_loop, load_pte. mred. change (Z.of_nat 2) with 2.
  destruct (t !! [PX 2 va]) as [a1|] eqn:E1.
  - destruct (entry_valid _ _ _ [] root (PX 2 va) a1 I Hr ltac:(simpl; lia) E1) as [-> ->].
    mred. change (Z.of_nat 1) with 1.
    destruct (t !! [PX 2 va; PX 1 va]) as [a0|] eqn:E0.
    + destruct (entry_valid _ _ _ [PX 2 va] a1 (PX 1 va) a0 I E1 ltac:(simpl; lia) E0) as [-> ->]. done.
    + rewrite (entry_invalid _ _ _ [PX 2 va] a1 (PX 1 va) I E1 ltac:(simpl; lia) R1 E0). done.
  - rewrite (entry_invalid _ _ _ [] root (PX 2 va) I Hr ltac:(simpl; lia) R2 E1). cbn [negb].
    destruct (t !! [PX 2 va; PX 1 va]) as [a0|] eqn:E0; [|done].
    destruct (pt_parent _ _ _ I [PX 2 va] (PX 1 va) a0 E0) as [[? ?] _]. congruence.
Qed.

Lemma load64_zero m a : (forall x, a <= x < a + 8 -> load8 m x = 0) -> load64 m a = 0.
Proof.
  intros Hz. transitivity (load64 (fun _ => 0) a); [|done]. apply load64_agree.
  intros. rewrite Hz by done. done.
Qed.

(** The memory after a fresh table page [pg] is zeroed and linked at [pte]. *)
Definition link_mem (m : memory) (pg pte : Z) : memory :=
  store64 (CString.memset (CString.memset m pg 5 PGSIZE) pg 0 PGSIZE) pte (Z.lor (PA2PTE pg) PTE_V).

Lemma memset_page m pg c x :
  load8 (CString.memset m pg c PGSIZE) x = if decide (in_page pg x) then u8 c else load8 m x.
Proof. rewrite CString.memset_spec. done. Qed.

Lemma link_mem_other m pg pte x :
  ~ in_page pg x -> ~ (pte <= x < pte + 8) -> load8 (link_mem m pg pte) x = load8 m x.
Proof.
  intros Hx Hp. unfold link_mem. rewrite load8_store64_ne by done. rewrite !memset_page.
  repeat case_decide; done.
Qed.

Lemma link_mem_page m pg pte x :
  in_page pg x -> ~ (pte <= x < pte + 8) -> load8 (link_mem m pg pte) x = 0.
Proof.
  intros Hx Hp. unfold link_mem. rewrite load8_store64_ne by done. rewrite !memset_page.
  case_decide; done.
Qed.

Lemma link_mem_entry m pg pte : page_ok pg -> load64 (link_mem m pg pte) pte = mk_pte pg 0.
Proof.
  intros Hok%page_ok_56. unfold link_mem. rewrite load64_store64_eq.
  replace (Z.lor (PA2PTE pg) PTE_V) with (mk_pte pg 0) by (unfold mk_pte; by rewrite Z.lor_0_r).
  apply wrap_small. pose proof (mk_pte_range pg 0 Hok ltac:(lia)). lia.
Qed.

Section link.
Context (m : memory) (root : Z) (t : gmap (list Z) Z) (p : list Z) (a i pg : Z).
Context (I : pt_inv m root t) (Hp : t !! p = Some a) (Hl : (length p <= 1)%nat) (Hi : 0 <= i < 512).
Context (Hnew : t !! (p ++ [i]) = None) (Hpg : page_ok pg).
Context (Hfresh : forall q b, t !! q = Some b -> b <> pg).
Context (Hlow : forall j r, p ++ [i] = j :: r -> j < 256).

(** Bytes of another table are untouched, apart from the linked entry. *)
Lemma link_mem_table q b x :
  t !! q = Some b -> in_page b x -> (q = p -> ~ (a + 8 * i <= x < a + 8 * i + 8)) ->
  load8 (link_mem m pg (a + 8 * i)) x = load8 m x.
Proof.
  intros Hq Hx Hpte. apply link_mem_other.
  - intros Hx'. destruct (pt_page _ _ _ I q b Hq) as [Hb _]. destruct Hpg as [Hpa _].
    destruct (page_disjoint b pg Hb Hpa (Hfresh q b Hq)); unfold in_page, PGSIZE in *; lia.
  - destruct (decide (q = p)) as [->|Hne]; [by apply Hpte |].
    intros Hx'. pose proof (pt_distinct _ _ _ q p b a I Hq Hp Hne).
    pose proof (entry_in_page a i Hi x Hx'). unfold in_page, PGSIZE in *. lia.
Qed.

(** Bytes of the new table are zero. *)
Lemma link_mem_new x : in_page pg x -> load8 (link_mem m pg (a + 8 * i)) x = 0.
Proof.
  intros Hx. apply link_mem_page; [done |]. intros Hx'.
  destruct (pt_page _ _ _ I p a Hp) as [Ha _]. destruct Hpg as [Hpa _].
  pose proof (entry_in_page a i Hi x Hx').
  destruct (page_disjoint a pg Ha Hpa (Hfresh p a Hp)); unfold in_page, PGSIZE in *; lia.
Qed.

Lemma link_entry q b j :
  <[p ++ [i] := pg]> t !! q = Some b -> (length q <= 1)%nat -> 0 <= j < 512 ->
  match <[p ++ [i] := pg]> t !! (q ++ [j]) with
  | Some c => load64 (link_mem m pg (a + 8 * i)) (b + 8 * j) = mk_pte c 0
  | None => Z.land (load64 (link_mem m pg (a + 8 * i)) (b + 8 * j)) PTE_V = 0
  end.
Proof.
  intros Hq Hlq Hj. rewrite lookup_insert in Hq. case_decide as Eq.
  - injection Hq as <-. rewrite lookup_insert_ne.
    2: { intros E. rewrite <- Eq in E. apply (f_equal length) in E. rewrite !length_app in E. simpl in E. lia. }
    destruct (t !! (q ++ [j])) as [c|] eqn:Ec.
    + destruct (pt_parent _ _ _ I q j c Ec) as [[? ?] _]. congruence.
    + rewrite load64_zero; [done |]. intros x Hx. apply link_mem_new. eapply entry_in_page; eauto.
  - destruct (decide (q ++ [j] = p ++ [i])) as [E|E].
    + apply app_inj_2 in E as [-> [= ->]]; [|done]. rewrite lookup_insert_eq.
      assert (a = b) as <- by congruence. by apply link_mem_entry.
    + rewrite lookup_insert_ne by congruence.
      rewrite (load64_agree _ m); [by apply (pt_entry _ _ _ I) |].
      intros x Hx. eapply link_mem_table; [exact Hq | eapply entry_in_page; eauto |].
      intros ->. assert (a = b) as <- by congruence. assert (j <> i) by (intros ->; done). lia.
Qed.

Lemma pt_inv_link : pt_inv (link_mem m pg (a + 8 * i)) root (<[p ++ [i] := pg]> t).
Proof.
  pose proof I as [I1 I2 I3 I4 I5 I7 I6]. split.
  - rewrite lookup_insert_ne; [done |]. intros E. by apply app_eq_nil in E as [_ ?].
  - intros q q' b. rewrite !lookup_insert. repeat case_decide; subst; intros Hb Hb'; simplify_eq; try done.
    + by destruct (Hfresh _ _ Hb').
    + by destruct (Hfresh _ _ Hb).
    + eapply I2; eauto.
  - intros q b. rewrite lookup_insert. case_decide; intros; simplify_eq; eauto.
  - intros q b. rewrite lookup_insert. case_decide; intros; simplify_eq; eauto.
    rewrite length_app. simpl. lia.
  - intros q j b. rewrite !lookup_insert. case_decide as E; intros Hb; simplify_eq.
    + apply app_inj_2 in E as [-> [= ->]]; [|done]. split; [|done]. case_decide; eauto.
    + destruct (I5 _ _ _ Hb) as [[c Hc] ?]. split; [|done]. case_decide; eauto.
  - intros j r b. rewrite lookup_insert. case_decide as E; [eauto |]. apply I7.
  - apply link_entry.
Qed.

Lemma lookup_pte_link va :
  lookup_pte (link_mem m pg (a + 8 * i)) (<[p ++ [i] := pg]> t) va = lookup_pte m t va.
Proof.
  assert (R0 : 0 <= PX 0 va < 512) by (apply PX_range; lia).
  unfold lookup_pte. rewrite lookup_insert. case_decide as E.
  - rewrite <- E, Hnew. apply load64_zero. intros x Hx. apply link_mem_new. eapply entry_in_page; eauto.
  - destruct (t !! [PX 2 va; PX 1 va]) as [b|] eqn:Eb; [|done]. apply load64_agree.
    intros x Hx. eapply link_mem_table; [exact Eb | eapply entry_in_page; eauto |].
    intros <-. simpl in Hl. lia.
Qed.
End link.

(** ** Allocating walks *)

Lemma in_tree_mono t t' x : t ⊆ t' -> in_tree t x -> in_tree t' x.
Proof. intros Hs (p & a & Hp & Hx). exists p, a. split; [|done]. by eapply lookup_weaken. Qed.

Lemma used_nil (t : gmap (list Z) Z) a : a ∈ @nil Z <-> exists p, t !! p = Some a /\ t !! p = None.
Proof. split; [set_solver | intros (p & H1 & H2); congruence]. Qed.

Lemma vm_ext_refl s t fr : vm_ext s t fr s t fr.
Proof.
  split; [done | exists []; split; [done | by apply used_nil] | done | done].
Qed.

Lemma vm_ext_trans s1 t1 fr1 s2 t2 fr2 s3 t3 fr3 :
  vm_ext s1 t1 fr1 s2 t2 fr2 -> vm_ext s2 t2 fr2 s3 t3 fr3 -> vm_ext s1 t1 fr1 s3 t3 fr3.
Proof.
  intros [A1 (u1 & A2 & A2') A3 A4] [B1 (u2 & B2 & B2') B3 B4]. split.
  - by transitivity t2.
  - exists (u1 ++ u2). split; [rewrite A2, B2; apply app_assoc |].
    intros a. rewrite elem_of_app, A2', B2'. split.
    + intros [(p & Hp & Hn) | (p & Hp & Hn)]; exists p.
      * split; [by eapply lookup_weaken | done].
      * split; [done |]. by eapply lookup_weaken_None.
    + intros (p & Hp & Hn). destruct (t2 !! p) as [b|] eqn:E; [left | right]; exists p; [|done].
      assert (t3 !! p = Some b) by (by eapply lookup_weaken). by simplify_eq.
  - rewrite B3, A3. done.
  - intros x Hx. rewrite B4 by done. apply A4. intros Hx'. apply Hx. eapply in_tree_mono; eauto.
Qed.

Lemma walk_level_alloc l s root t fr p a va :
  vm_inv s root t fr -> t !! p = Some a -> (length p <= 1)%nat ->
  let i := PX (Z.of_nat (S l)) va in
  (forall j r, p ++ [i] = j :: r -> j < 256) ->
  (walk_loop (S l) a va true s = Ret 0 s /\ fr = []) \/
  exists b s' t' fr', walk_loop (S l) a va true s = walk_loop l b va true s' /\
    vm_inv s' root t' fr' /\ vm_ext s t fr s' t' fr' /\ t' !! (p ++ [i]) = Some b /\
    (forall va', lookup_pte (mem s') t' va' = lookup_pte (mem s) t va') /\ (length fr <= S (length fr'))%nat.
Proof.
  intros I Hp Hlen i Hlow. pose proof I as [Hlk Hk Hpt Hsep].
  assert (Hi : 0 <= i < 512) by (apply PX_range; lia).
  cbn [walk_loop]. fold i. unfold load_pte, store_pte, fill_page. mred.
  destruct (t !! (p ++ [i])) as [b|] eqn:Eb.
  { destruct (entry_valid _ _ _ p a i b Hpt Hp Hlen Eb) as [-> ->].
    right. exists b, s, t, fr. split_and!; auto using vm_ext_refl; lia. }
  rewrite (entry_invalid _ _ _ p a i Hpt Hp Hlen Hi Eb). cbn [negb].
  destruct fr as [|pg fr].
  { left. unfold mbind, M_bind, bind. rewrite kalloc_empty by done. done. }
  right. destruct (kalloc_cons s pg fr Hlk Hk) as (Hr & Hk' & _ & _).
  unfold mbind, M_bind, bind. rewrite Hr. cbn [obind].
  assert (Hpg : page_ok pg) by (destruct Hk as [_ _ Hok]; by inversion Hok).
  assert (Hfresh : forall q b, t !! q = Some b -> b <> pg).
  { intros q b Hq ->. eapply Hsep; [exact Hq | left]. }
  pose proof (page_ok_pos pg Hpg). destruct (Z.eqb_spec pg 0); [lia |]. cbn [obind].
  assert (Hnin : pg ∉ fr) by (destruct Hk as [_ Hnd _]; by apply NoDup_cons in Hnd as [? _]).
  set (s' := set_mem (link_mem (mem s) pg (a + 8 * i)) (set_freelist (load64 (mem s) pg) s)).
  exists pg, s', (<[p ++ [i] := pg]> t), fr. split_and!; [reflexivity | | | | | done].
  - split; [exact Hlk | | by apply pt_inv_link |].
    + destruct Hk' as [Hf Hnd Hok]. split; [|done|done]. cbn in Hf |- *.
      eapply free_list_agree; [|exact Hf]. intros b x Hb Hx.
      assert (Hbok : page_ok b) by (eapply Forall_forall; eauto).
      assert (Hbx : in_page b x) by (unfold in_page, PGSIZE; lia).
      unfold link_mem. rewrite load8_store64_ne, !memset_page, !decide_False; try done.
      * eapply (page_sep b pg); eauto. set_solver.
      * eapply (page_sep b pg); eauto. set_solver.
      * intros Hx'. eapply (page_sep b a); eauto using pt_page, entry_in_page.
        intros ->. eapply Hsep; [exact Hp | by right].
    + intros q b. rewrite lookup_insert. case_decide; intros; simplify_eq; [done |].
      specialize (Hsep q b ltac:(done)). set_solver.
  - split.
    + by apply insert_subseteq.
    + exists [pg]. split; [done |]. intros b. rewrite list_elem_of_singleton. split.
      * intros ->. exists (p ++ [i]). by rewrite lookup_insert_eq.
      * intros (q & Hq & Hn). rewrite lookup_insert in Hq. case_decide; congruence.
    + done.
    + intros x Hx. apply link_mem_other.
      * intros Hx'. apply Hx. exists (p ++ [i]), pg. by rewrite lookup_insert_eq.
      * intros Hx'. apply Hx. exists p, a. rewrite lookup_insert_ne; [|intros E; rewrite <- E in Hp; congruence].
        split; [done |]. eapply entry_in_page; eauto.
  - by rewrite lookup_insert_eq.
  - intros va'. by eapply lookup_pte_link.
Qed.

Lemma PX2_low va : 0 <= va < MAXVA -> PX 2 va < 256.
Proof.
  intros Hva. change MAXVA with (2 ^ 38) in Hva. rewrite PX_eq by lia. change (12 + 9 * 2) with 30.
  assert (0 <= va / 2 ^ 30 < 256) by (split; [apply Z.div_pos; lia | apply Z.div_lt_upper_bound; lia]).
  rewrite Z.mod_small by lia. lia.
Qed.

Lemma walk_alloc s root t fr va :
  vm_inv s root t fr -> 0 <= va < MAXVA ->
  exists r s' t' fr', walk root va true s = Ret r s' /\ vm_inv s' root t' fr' /\ vm_ext s t fr s' t' fr' /\
    (forall va', lookup_pte (mem s') t' va' = lookup_pte (mem s) t va') /\
    ((r = 0 /\ fr' = [] /\ (length fr <= 1)%nat) \/
     exists b, t' !! [PX 2 va; PX 1 va] = Some b /\ r = b + 8 * PX 0 va /\ r <> 0 /\ (length fr <= length fr' + 2)%nat).
Proof.
  intros I Hva. unfold walk. destruct (Z.leb_spec MAXVA va); [lia |].
  destruct (walk_level_alloc 1 s root t fr [] root va I) as [[-> ->] | (b1 & s1 & t1 & fr1 & -> & I1 & E1 & Hb1 & L1 & N1)];
    [apply I | simpl; lia | intros j r [= <- _]; by apply PX2_low | |].
  { exists 0, s, t, []. split_and!; auto using vm_ext_refl. }
  destruct (walk_level_alloc 0 s1 root t1 fr1 [PX 2 va] b1 va I1) as [[-> ->] | (b0 & s0 & t0 & fr0 & -> & I0 & E0 & Hb0 & L0 & N0)];
    [exact Hb1 | simpl; lia | intros j r [= <- _]; by apply PX2_low | |].
  { exists 0, s1, t1, []. split_and!; auto. }
  exists (b0 + 8 * PX 0 va), s0, t0, fr0. split_and!; [done | done | by eapply vm_ext_trans | |].
  - intros va'. by rewrite L0.
  - right. exists b0. split_and!; [exact Hb0 | done | | lia].
    pose proof (page_ok_pos b0 (pt_page _ _ _ (vm_pt _ _ _ _ I0) _ _ Hb0)).
    pose proof (PX_range 0 va ltac:(lia)). lia.
Qed.

(** ** Leaf entries *)

Lemma PX_page level va va' : 0 <= level -> va / 4096 = va' / 4096 -> PX level va = PX level va'.
Proof.
  intros Hl Hp. rewrite !PX_eq by done. replace (2 ^ (12 + 9 * level)) with (4096 * 2 ^ (9 * level)).
  - rewrite <- !Z.div_div by lia. by rewrite Hp.
  - rewrite Z.pow_add_r by lia. done.
Qed.

Lemma lookup_pte_page m t va va' : va / 4096 = va' / 4096 -> lookup_pte m t va = lookup_pte m t va'.
Proof. intros E. unfold lookup_pte. rewrite !(PX_page _ va va') by (lia || done). done. Qed.

Lemma PX_inj va va' : 0 <= va < MAXVA -> 0 <= va' < MAXVA ->
  PX 2 va = PX 2 va' -> PX 1 va = PX 1 va' -> PX 0 va = PX 0 va' -> va / 4096 = va' / 4096.
Proof.
  intros H1 H2 E2 E1 E0. pose proof (va_decompose va H1). pose proof (va_decompose va' H2).
  rewrite E2, E1, E0 in *. pose proof (Z.div_mod va 4096 ltac:(lia)). pose proof (Z.div_mod va' 4096 ltac:(lia)). lia.
Qed.

(** Writing the leaf entry of [va]. *)
Section leaf.
Context (s : kernel) (root : Z) (t : gmap (list Z) Z) (fr : list Z) (va b v : Z).
Context (I : vm_inv s root t fr) (Hva : 0 <= va < MAXVA) (Hb : t !! [PX 2 va; PX 1 va] = Some b).

Let s' := set_mem (store64 (mem s) (b + 8 * PX 0 va) v) s.

Lemma leaf_other x : ~ in_page b x -> load8 (mem s') x = load8 (mem s) x.
Proof.
  intros Hx. cbn. apply load8_store64_ne. intros Hx'. apply Hx. eapply entry_in_page; eauto.
  apply PX_range. lia.
Qed.

Lemma leaf_vm_inv : vm_inv s' root t fr.
Proof.
  destruct I as [Hlk Hk Hpt Hsep]. split; [exact Hlk | | | exact Hsep].
  - destruct Hk as [Hf Hnd Hok]. split; [|done|done]. cbn.
    eapply free_list_agree; [|exact Hf]. intros a x Ha Hx. symmetry. apply leaf_other.
    assert (Haok : page_ok a) by (eapply Forall_forall; eauto).
    eapply (page_sep a b); [done | by eapply pt_page | intros ->; by eapply Hsep | unfold in_page, PGSIZE; lia].
  - eapply pt_inv_frame; [exact Hpt |]. intros p a x Hp Hl Hx. symmetry. apply leaf_other.
    eapply (page_sep a b); [by eapply pt_page | by eapply pt_page | | done].
    intros ->. assert (p = [PX 2 va; PX 1 va]) as -> by (eapply pt_inj; eauto). simpl in Hl. lia.
Qed.

Lemma leaf_ext : vm_ext s t fr s' t fr.
Proof.
  split; [done | exists []; split; [done | intros; apply used_nil] | done |].
  intros x Hx. apply leaf_other. intros Hx'. apply Hx. by eexists _, _.
Qed.

Lemma leaf_same : lookup_pte (mem s') t va = u64 v.
Proof. unfold lookup_pte. rewrite Hb. apply load64_store64_eq. Qed.

Lemma leaf_diff va' : 0 <= va' < MAXVA -> va / 4096 <> va' / 4096 ->
  lookup_pte (mem s') t va' = lookup_pte (mem s) t va'.
Proof.
  intros Hva' Hne. unfold lookup_pte. destruct (t !! [PX 2 va'; PX 1 va']) as [b'|] eqn:Eb'; [|done].
  cbn. apply load64_store64_ne.
  pose proof (PX_range 0 va ltac:(lia)). pose proof (PX_range 0 va' ltac:(lia)).
  destruct (decide ([PX 2 va'; PX 1 va'] = [PX 2 va; PX 1 va])) as [E|E].
  - injection E as E2 E1. rewrite E2, E1 in Eb'. assert (b' = b) as -> by congruence.
    assert (PX 0 va <> PX 0 va') by (intros E0; apply Hne, PX_inj; auto). lia.
  - pose proof (pt_distinct _ _ _ _ _ _ _ (vm_pt _ _ _ _ I) Eb' Hb E). unfold PGSIZE in *. lia.
Qed.
End leaf.

(** [k] pages from [a] are mapped to [pa] onwards; nothing else changes. *)
Definition mapped (k : nat) (a pa perm : Z) (m : memory) (t : gmap (list Z) Z)
    (m' : memory) (t' : gmap (list Z) Z) : Prop :=
  (forall j : nat, (j < k)%nat -> lookup_pte m' t' (a + Z.of_nat j * PGSIZE) = mk_pte (pa + Z.of_nat j * PGSIZE) perm) /\
  (forall va, 0 <= va < MAXVA -> ~ (a <= va < a + Z.of_nat k * PGSIZE) -> lookup_pte m' t' va = lookup_pte m t va).

Lemma mapped_0 a pa perm m t m' t' :
  (forall va, lookup_pte m' t' va = lookup_pte m t va) -> mapped 0 a pa perm m t m' t'.
Proof. intros H. split; [lia | auto]. Qed.

(** The first page, then the rest. *)
Lemma mapped_S k a pa perm m t m1 t1 m' t' :
  page_aligned a -> 0 <= a -> a + Z.of_nat (S k) * PGSIZE <= MAXVA ->
  lookup_pte m1 t1 a = mk_pte pa perm ->
  (forall va, 0 <= va < MAXVA -> a / 4096 <> va / 4096 -> lookup_pte m1 t1 va = lookup_pte m t va) ->
  mapped k (a + PGSIZE) (pa + PGSIZE) perm m1 t1 m' t' ->
  mapped (S k) a pa perm m t m' t'.
Proof.
  intros Ha H0 Hmax Hfirst Hrest [M1 M2]. pose proof (page_aligned_div a Ha) as Hdiv.
  unfold mapped, PGSIZE in *. split.
  - intros [|j] Hj.
    + rewrite !Z.mul_0_l, !Z.add_0_r, M2, Hfirst by lia. done.
    + specialize (M1 j ltac:(lia)).
      replace (a + Z.of_nat (S j) * 4096) with (a + 4096 + Z.of_nat j * 4096) by lia.
      replace (pa + Z.of_nat (S j) * 4096) with (pa + 4096 + Z.of_nat j * 4096) by lia. done.
  - intros va Hva Hn. rewrite M2 by lia. apply Hrest; [done |].
    intros E. apply Hn. pose proof (Z.div_mod va 4096 ltac:(lia)). pose proof (Z.mod_pos_bound va 4096 ltac:(lia)). lia.
Qed.

(** ** mappages *)

(** One iteration of the loop of [mappages]. *)
Lemma map_one s root t fr a pa perm :
  vm_inv s root t fr -> 0 <= a < MAXVA -> 0 <= pa < 2 ^ 56 -> 0 <= perm < 1024 ->
  has (lookup_pte (mem s) t a) PTE_V = false ->
  (exists s1 t1, walk root a true s = Ret 0 s1 /\ vm_inv s1 root t1 [] /\ vm_ext s t fr s1 t1 [] /\ (length fr <= 1)%nat /\
     forall va, lookup_pte (mem s1) t1 va = lookup_pte (mem s) t va) \/
  (exists r s1 t2 fr2, let s2 := set_mem (store64 (mem s1) r (mk_pte pa perm)) s1 in
     walk root a true s = Ret r s1 /\ r <> 0 /\ has (load64 (mem s1) r) PTE_V = false /\ (length fr <= length fr2 + 2)%nat /\
     vm_inv s2 root t2 fr2 /\ vm_ext s t fr s2 t2 fr2 /\ lookup_pte (mem s2) t2 a = mk_pte pa perm /\
     forall va, 0 <= va < MAXVA -> a / 4096 <> va / 4096 -> lookup_pte (mem s2) t2 va = lookup_pte (mem s) t va).
Proof.
  intros I Ha Hpa Hperm Hfree.
  destruct (walk_alloc s root t fr a I Ha) as (r & s1 & t1 & fr1 & Hw & I1 & E1 & L1 & Hr).
  destruct Hr as [(-> & -> & N1) | (b & Hb & -> & Hr0 & N1)]; [left; by exists s1, t1 | right].
  exists (b + 8 * PX 0 a), s1, t1, fr1. intros s2. split_and!; [done | done | | exact N1 | | | |].
  - rewrite <- L1 in Hfree. unfold lookup_pte in Hfree. by rewrite Hb in Hfree.
  - by apply leaf_vm_inv.
  - eapply vm_ext_trans; [exact E1 |]. by apply leaf_ext.
  - unfold s2. rewrite leaf_same by done. apply wrap_small.
    pose proof (mk_pte_range pa perm Hpa Hperm). lia.
  - intros va Hva Hne. rewrite <- L1. by eapply leaf_diff.
Qed.

Lemma mappages_loop_ok root perm : 0 <= perm < 1024 ->
  forall n fuel s t fr a pa,
  vm_inv s root t fr -> page_aligned a -> 0 <= a -> a + Z.of_nat (S n) * PGSIZE <= MAXVA ->
  0 <= pa -> pa + Z.of_nat (S n) * PGSIZE <= 2 ^ 56 -> (n < fuel)%nat ->
  (forall k : nat, (k <= n)%nat -> has (lookup_pte (mem s) t (a + Z.of_nat k * PGSIZE)) PTE_V = false) ->
  exists r s' t' fr',
    mappages_loop fuel root a (a + Z.of_nat n * PGSIZE) pa perm s = Ret r s' /\
    vm_inv s' root t' fr' /\ vm_ext s t fr s' t' fr' /\
    ((r = 0 /\ (length fr <= length fr' + 2 * S n)%nat /\ mapped (S n) a pa perm (mem s) t (mem s') t') \/
     (r = -1 /\ fr' = [] /\ (length fr < 2 * S n)%nat /\ exists k, (k <= n)%nat /\ mapped k a pa perm (mem s) t (mem s') t')).
Proof.
  intros Hperm n. induction n as [n IH] using lt_wf_ind.
  intros fuel s t fr a pa I Ha H0 Hmax Hpa0 Hpa Hfuel Hfree. destruct fuel as [|fuel]; [lia |].
  pose proof (Hfree O ltac:(lia)) as Hf0. rewrite Z.mul_0_l, Z.add_0_r in Hf0. cbn [mappages_loop].
  destruct (map_one s root t fr a pa perm I) as [(s1 & t1 & Hw & I1 & E1 & N1 & L1) |
    (r & s1 & t2 & fr2 & Hw & Hr0 & Hv & N2 & I2 & E2 & L2 & D2)]; try done; try (unfold PGSIZE in *; lia).
  { erewrite bind_Ret by exact Hw. exists (-1), s1, t1, []. split_and!; auto. right.
    split_and!; auto; [lia |]. exists O. split; [lia | by apply mapped_0]. }
  erewrite bind_Ret by exact Hw. destruct (Z.eqb_spec r 0); [lia |]. unfold load_pte, store_pte. mred.
  rewrite Hv. mred. change (Z.lor (Z.lor (PA2PTE pa) perm) PTE_V) with (mk_pte pa perm).
  set (s2 := set_mem _ _) in *. destruct n as [|n].
  - rewrite Z.mul_0_l, Z.add_0_r, Z.eqb_refl. exists 0, s2, t2, fr2. split_and!; auto. left.
    split; [done |]. split; [lia |]. eapply mapped_S; eauto. by apply mapped_0.
  - destruct (Z.eqb_spec a (a + Z.of_nat (S n) * PGSIZE)); [unfold PGSIZE in *; lia |].
    rewrite !wrap_small by (change MAXVA with (2 ^ 38) in *; unfold PGSIZE in *; lia).
    replace (a + Z.of_nat (S n) * PGSIZE) with (a + PGSIZE + Z.of_nat n * PGSIZE) by (unfold PGSIZE; lia).
    destruct (IH n ltac:(lia) fuel s2 t2 fr2 (a + PGSIZE) (pa + PGSIZE)) as (r3 & s3 & t3 & fr3 & Hr3 & I3 & E3 & Hm3);
      try (unfold PGSIZE in *; lia); auto.
    { apply (page_aligned_add a 1 Ha). }
    { intros k Hk. rewrite D2.
      - replace (a + PGSIZE + Z.of_nat k * PGSIZE) with (a + Z.of_nat (S k) * PGSIZE) by (unfold PGSIZE; lia).
        apply Hfree. lia.
      - unfold PGSIZE in *; lia.
      - replace (a + PGSIZE + Z.of_nat k * PGSIZE) with (a + (1 + Z.of_nat k) * 4096) by (unfold PGSIZE; lia).
        rewrite Z.div_add by lia. lia. }
    exists r3, s3, t3, fr3. split_and!; auto; [by eapply vm_ext_trans |].
    destruct Hm3 as [(-> & N3 & Hm) | (-> & -> & N3 & k & Hk & Hm)]; [left | right]; split_and!; auto; try lia.
    + eapply mapped_S; eauto.
    + exists (S k). split; [lia |]. eapply mapped_S; eauto. unfold PGSIZE in *. lia.
Qed.

(** [mappages] of [S n] whole pages. *)
Lemma mappages_ok s root t fr va n pa perm :
  vm_inv s root t fr -> 0 <= perm < 1024 -> page_aligned va -> 0 <= va ->
  va + Z.of_nat (S n) * PGSIZE <= MAXVA -> 0 <= pa -> pa + Z.of_nat (S n) * PGSIZE <= 2 ^ 56 ->
  (forall k : nat, (k <= n)%nat -> has (lookup_pte (mem s) t (va + Z.of_nat k * PGSIZE)) PTE_V = false) ->
  exists r s' t' fr',
    mappages root va (Z.of_nat (S n) * PGSIZE) pa perm s = Ret r s' /\
    vm_inv s' root t' fr' /\ vm_ext s t fr s' t' fr' /\
    ((r = 0 /\ (length fr <= length fr' + 2 * S n)%nat /\ mapped (S n) va pa perm (mem s) t (mem s') t') \/
     (r = -1 /\ fr' = [] /\ (length fr < 2 * S n)%nat /\ exists k, (k <= n)%nat /\ mapped k va pa perm (mem s) t (mem s') t')).
Proof.
  intros I Hperm Ha H0 Hmax Hpa0 Hpa Hfree. unfold mappages.
  destruct (Z.eqb_spec (Z.of_nat (S n) * PGSIZE) 0); [unfold PGSIZE in *; lia |].
  assert (Hd : PGROUNDDOWN va = va) by (rewrite PGROUNDDOWN_eq; by apply page_aligned_div).
  assert (Hlast : PGROUNDDOWN (u64 (va + Z.of_nat (S n) * PGSIZE - 1)) = va + Z.of_nat n * PGSIZE).
  { rewrite wrap_small by (change MAXVA with (2 ^ 38) in *; unfold PGSIZE in *; lia).
    rewrite PGROUNDDOWN_eq. pose proof (page_aligned_div va Ha). unfold PGSIZE in *.
    replace (va + Z.of_nat (S n) * 4096 - 1) with (4095 + (va / 4096 + Z.of_nat n) * 4096) by lia.
    rewrite Z.div_add, Z.div_small by lia. lia. }
  rewrite Hd, Hlast. eapply mappages_loop_ok; eauto.
  replace (va + Z.of_nat n * PGSIZE - va) with (Z.of_nat n * PGSIZE) by lia.
  rewrite Z.div_mul by done. lia.
Qed.
End tree_facts.
