(* ===== verification/AddrSpace.v ===== *)
(** * Address spaces: what vm.c implements

    The abstract address space is a finite map [u] from virtual page numbers to
    physical page and permissions.  [as_inv] relates it to the page-table tree
    in memory; [own_inv] says that the pages below [TRAPFRAME] belong to the
    process.  The operations of vm.c are characterised as updates of [u], with
    every physical page accounted for by [owns]. *)

From S2P Require Import Prelude State Mem CString Spinlock Memlayout Kalloc Vm PageTable.

Abbreviation ptree := (gmap (list Z) Z).
Abbreviation uspace := (gmap Z (Z * Z)).

(** Pages below this one are the process's own; above are trapframe and trampoline. *)
Definition UVPN : Z := TRAPFRAME / PGSIZE.

Section addrspace.
Context `{Layout}.

Record as_inv (s : kernel) (root : Z) (t : ptree) (u : uspace) (fr : list Z) : Prop := mkAsInv {
  as_vm : vm_inv s root t fr;
  as_leaf : forall vpn, 0 <= vpn < MAXVA / PGSIZE ->
    match u !! vpn with
    | Some (pa, perm) => lookup_pte (mem s) t (vpn * PGSIZE) = mk_pte pa perm
    | None => has (lookup_pte (mem s) t (vpn * PGSIZE)) PTE_V = false
    end;
  as_range : forall vpn pa perm, u !! vpn = Some (pa, perm) ->
    0 <= vpn < MAXVA / PGSIZE /\ page_aligned pa /\ 0 <= pa < 2 ^ 56 /\ 0 <= perm < 1024
}.

Definition is_table (t : ptree) (a : Z) : Prop := exists p, t !! p = Some a.

(** The physical pages behind the process's own part of [u]. *)
Definition is_user (u : uspace) (a : Z) : Prop :=
  exists vpn perm, u !! vpn = Some (a, perm) /\ vpn < UVPN.

Record own_inv (t : ptree) (u : uspace) (fr : list Z) : Prop := mkOwnInv {
  own_page : forall a, is_user u a -> page_ok a /\ a ∉ fr /\ ~ is_table t a;
  own_inj : forall vpn vpn' a perm perm', vpn < UVPN -> vpn' < UVPN ->
    u !! vpn = Some (a, perm) -> u !! vpn' = Some (a, perm') -> vpn = vpn';
  own_perm : forall vpn a perm, u !! vpn = Some (a, perm) -> vpn < UVPN -> Z.lor perm 1 <> 1
}.

(** Every page the address space or the allocator has. *)
Definition owns (t : ptree) (u : uspace) (fr : list Z) (a : Z) : Prop :=
  a ∈ fr \/ is_table t a \/ is_user u a.

(** The data of the process pages of [d] is the same in both memories. *)
Definition keeps (d : uspace) (m m' : memory) : Prop :=
  forall vpn a perm x, d !! vpn = Some (a, perm) -> vpn < UVPN -> in_page a x -> load8 m' x = load8 m x.

(** From one address space to another: no page is lost or gained, memory the
    address space does not own is left alone, and so is the data of [d]. *)
Record us_step (d : uspace) (s : kernel) (t : ptree) (u : uspace) (fr : list Z)
    (s' : kernel) (t' : ptree) (u' : uspace) (fr' : list Z) : Prop := mkUsStep {
  us_tree : t ⊆ t';
  us_state : s' = set_mem (mem s') (set_freelist (freelist s') s);
  us_pages : forall a, owns t u fr a <-> owns t' u' fr' a;
  us_other : forall x, (forall a, owns t u fr a -> ~ in_page a x) -> load8 (mem s') x = load8 (mem s) x;
  us_keeps : keeps d (mem s) (mem s')
}.

(** Bytes of user memory, as user code sees them; [None] where it faults. *)
Definition umem (m : memory) (u : uspace) (va : Z) : option Z :=
  match u !! (va / PGSIZE) with
  | Some (pa, perm) => if Z.land perm PTE_U =? 0 then None else Some (load8 m (pa + va mod PGSIZE))
  | None => None
  end.
End addrspace.

Section as_facts.
Context `{HL : Layout} {HOk : LayoutOk HL}.

Lemma us_step_refl d s t u fr : us_step d s t u fr s t u fr.
Proof. by split. Qed.

Lemma us_step_trans d s t u fr s1 t1 u1 fr1 s2 t2 u2 fr2 :
  us_step d s t u fr s1 t1 u1 fr1 -> us_step d s1 t1 u1 fr1 s2 t2 u2 fr2 -> us_step d s t u fr s2 t2 u2 fr2.
Proof.
  intros [A1 A2 A3 A4 A5] [B1 B2 B3 B4 B5]. split.
  - by transitivity t1.
  - rewrite B2, A2. done.
  - intros a. by rewrite A3.
  - intros x Hx. rewrite B4; [by apply A4 |]. intros a Ha. by apply Hx, A3.
  - intros vpn a perm x Hd Hv Hx. rewrite (B5 vpn a perm) by done. by eapply A5.
Qed.

Lemma div_PGSIZE_range va : 0 <= va < MAXVA -> 0 <= va / PGSIZE < MAXVA / PGSIZE.
Proof. change (MAXVA / PGSIZE) with (2 ^ 26). change MAXVA with (2 ^ 38). unfold PGSIZE.
  intros. split; [apply Z.div_pos; lia | apply Z.div_lt_upper_bound; lia]. Qed.

Lemma vpn_va vpn : 0 <= vpn < MAXVA / PGSIZE -> 0 <= vpn * PGSIZE < MAXVA.
Proof. change (MAXVA / PGSIZE) with (2 ^ 26). change MAXVA with (2 ^ 38). unfold PGSIZE. lia. Qed.

Lemma lookup_pte_vpn m t va : lookup_pte m t va = lookup_pte m t (va / PGSIZE * PGSIZE).
Proof. apply lookup_pte_page. unfold PGSIZE. by rewrite Z.div_mul. Qed.

Lemma as_lookup s root t u fr va : as_inv s root t u fr -> 0 <= va < MAXVA ->
  match u !! (va / PGSIZE) with
  | Some (pa, perm) => lookup_pte (mem s) t va = mk_pte pa perm
  | None => has (lookup_pte (mem s) t va) PTE_V = false
  end.
Proof. intros I Hva. rewrite lookup_pte_vpn. by apply (as_leaf _ _ _ _ _ I), div_PGSIZE_range. Qed.

(** The entry a non-allocating walk finds. *)
Lemma as_walk s root t u fr va : as_inv s root t u fr -> 0 <= va < MAXVA ->
  match u !! (va / PGSIZE) with
  | Some (pa, perm) => exists b, t !! [PX 2 va; PX 1 va] = Some b /\
      let r := b + 8 * PX 0 va in walk root va false s = Ret r s /\ r <> 0 /\ load64 (mem s) r = mk_pte pa perm
  | None => exists r, walk root va false s = Ret r s /\ (r = 0 \/ has (load64 (mem s) r) PTE_V = false)
  end.
Proof.
  intros I Hva. pose proof (as_lookup s root t u fr va I Hva) as Hl.
  rewrite (walk_noalloc s root t va (vm_pt _ _ _ _ (as_vm _ _ _ _ _ I)) Hva).
  destruct (u !! (va / PGSIZE)) as [[pa perm]|] eqn:E.
  - destruct (as_range _ _ _ _ _ I _ _ _ E) as (_ & _ & Hpa & Hperm). unfold lookup_pte in Hl.
    destruct (t !! [PX 2 va; PX 1 va]) as [b|] eqn:Eb.
    + exists b. split; [done |]. split_and!; [done | | done].
      pose proof (page_ok_pos b (pt_page _ _ _ (vm_pt _ _ _ _ (as_vm _ _ _ _ _ I)) _ _ Eb)).
      pose proof (PX_range 0 va ltac:(lia)). lia.
    + exfalso. apply (mk_pte_valid pa perm Hpa Hperm). by rewrite <- Hl.
  - eexists. split; [done |]. unfold lookup_pte in Hl. destruct (t !! _); auto.
Qed.

(** ** Frames *)

Lemma lookup_pte_agree m m' t va :
  (forall a x, is_table t a -> in_page a x -> load8 m' x = load8 m x) -> lookup_pte m' t va = lookup_pte m t va.
Proof. intros Hm. apply lookup_pte_frame. intros. symmetry. eapply Hm; [by eexists | done]. Qed.

Lemma as_frame s s' root t u fr fr' :
  as_inv s root t u fr -> LkKmem ∉ held s' -> kmem_inv s' fr' ->
  (forall a, is_table t a -> a ∉ fr') ->
  (forall a x, is_table t a -> in_page a x -> load8 (mem s') x = load8 (mem s) x) ->
  as_inv s' root t u fr'.
Proof.
  intros [[Hlk Hk Hpt Hsep] Hleaf Hr] Hlk' Hk' Hsep' Hm. split; [split; try done | | done].
  - eapply pt_inv_frame; [exact Hpt |]. intros p a x Hp _ Hx. symmetry. eapply Hm; [by exists p | done].
  - intros p a Hp. apply Hsep'. by exists p.
  - intros vpn Hv. rewrite (lookup_pte_agree (mem s) (mem s')) by done. by apply Hleaf.
Qed.

(** Writing outside table pages and free pages. *)
Lemma as_write s root t u fr m :
  as_inv s root t u fr ->
  (forall a x, is_table t a \/ a ∈ fr -> in_page a x -> load8 m x = load8 (mem s) x) ->
  as_inv (set_mem m s) root t u fr.
Proof.
  intros I Hm. pose proof I as [[Hlk [Hf Hnd Hok] Hpt Hsep] Hleaf Hr]. eapply as_frame; eauto.
  - split; [|done|done]. cbn. eapply free_list_agree; [|exact Hf]. intros a x Ha Hx. symmetry.
    apply (Hm a); [by right | unfold in_page, PGSIZE; lia].
  - intros a [p Hp]. by eapply Hsep.
Qed.

Lemma as_kalloc s root t u pg fr : as_inv s root t u (pg :: fr) ->
  exists s', kalloc s = Ret pg s' /\ as_inv s' root t u fr /\
    s' = set_mem (mem s') (set_freelist (freelist s') s) /\
    page_ok pg /\ pg ∉ fr /\ ~ is_table t pg /\
    forall x, ~ in_page pg x -> load8 (mem s') x = load8 (mem s) x.
Proof.
  intros I. pose proof I as [[Hlk Hk Hpt Hsep] Hleaf Hr].
  destruct (kalloc_cons s pg fr Hlk Hk) as (Hr' & Hk' & _ & Ho).
  destruct Hk as [_ Hnd Hok]. apply NoDup_cons in Hnd as [Hn _]. inversion Hok; subst.
  assert (Hnt : ~ is_table t pg) by (intros [p Hp]; eapply Hsep; [exact Hp | left]).
  eexists. split_and!; [exact Hr' | | done | done | done | done | exact Ho].
  eapply as_frame; eauto.
  - intros a [p Hp] Ha. eapply Hsep; [exact Hp | by right].
  - intros a x Ha Hx. apply Ho. destruct Ha as [p Hp]. eapply (page_sep a pg); eauto using pt_page.
    intros ->. apply Hnt. by exists p.
Qed.

Lemma as_kfree s root t u fr a : as_inv s root t u fr -> page_ok a -> a ∉ fr -> ~ is_table t a ->
  exists s', kfree a s = Ret tt s' /\ as_inv s' root t u (a :: fr) /\
    s' = set_mem (mem s') (set_freelist (freelist s') s) /\
    forall x, ~ in_page a x -> load8 (mem s') x = load8 (mem s) x.
Proof.
  intros I Ha Hn Hnt. pose proof I as [[Hlk Hk Hpt Hsep] Hleaf Hr].
  destruct (kfree_ok s a fr Hlk Hk Ha Hn) as (m & Hr' & Hk' & Ho).
  eexists. split_and!; [exact Hr' | | done | exact Ho]. eapply as_frame; eauto.
  - intros b [p Hp] Hb. apply elem_of_cons in Hb as [-> | Hb]; [apply Hnt; by exists p | by eapply Hsep].
  - intros b x [p Hp] Hx. apply Ho. eapply (page_sep b a); eauto using pt_page.
    intros ->. apply Hnt. by exists p.
Qed.

(** ** Mapping and unmapping one page *)

Lemma vpn_div vpn : vpn * PGSIZE / PGSIZE = vpn.
Proof. by apply Z.div_mul. Qed.

Lemma vpn_aligned vpn : page_aligned (vpn * PGSIZE).
Proof. unfold page_aligned. by apply Z_mod_mult. Qed.

(** An updated leaf entry is an updated map. *)
Lemma as_update s s' root t t' u fr fr' vpn e :
  as_inv s root t u fr -> vm_inv s' root t' fr' -> 0 <= vpn < MAXVA / PGSIZE ->
  (forall va, 0 <= va < MAXVA -> vpn <> va / PGSIZE -> lookup_pte (mem s') t' va = lookup_pte (mem s) t va) ->
  match e with
  | Some (pa, perm) => page_aligned pa /\ 0 <= pa < 2 ^ 56 /\ 0 <= perm < 1024 /\
      lookup_pte (mem s') t' (vpn * PGSIZE) = mk_pte pa perm
  | None => has (lookup_pte (mem s') t' (vpn * PGSIZE)) PTE_V = false
  end ->
  as_inv s' root t' (partial_alter (fun _ => e) vpn u) fr'.
Proof.
  intros [_ Hleaf Hr] Hvm Hv Hdiff Hsame. split; [done | |].
  - intros v Hv'. destruct (decide (v = vpn)) as [->|Hne].
    + rewrite lookup_partial_alter_eq. destruct e as [[pa perm]|]; [apply Hsame | done].
    + rewrite lookup_partial_alter_ne by done. rewrite Hdiff; [by apply Hleaf | by apply vpn_va |].
      by rewrite vpn_div.
  - intros v pa perm. destruct (decide (v = vpn)) as [->|Hne].
    + rewrite lookup_partial_alter_eq. intros ->. naive_solver.
    + rewrite lookup_partial_alter_ne by done. apply Hr.
Qed.

Lemma as_map1 s root t u fr vpn pa perm :
  as_inv s root t u fr -> 0 <= vpn < MAXVA / PGSIZE -> u !! vpn = None ->
  page_aligned pa -> 0 <= pa < 2 ^ 55 -> 0 <= perm < 1024 ->
  exists r s' t' fr', mappages root (vpn * PGSIZE) PGSIZE pa perm s = Ret r s' /\
    vm_ext s t fr s' t' fr' /\
    ((r = 0 /\ as_inv s' root t' (<[vpn := (pa, perm)]> u) fr' /\ (length fr <= length fr' + 2)%nat) \/
     (r = -1 /\ fr' = [] /\ as_inv s' root t' u fr' /\ (length fr < 2)%nat)).
Proof.
  intros I Hv Hn Hal Hpa Hperm. pose proof (vpn_va vpn Hv) as Hva.
  pose proof (as_leaf _ _ _ _ _ I vpn Hv) as Hl. rewrite Hn in Hl.
  change (MAXVA / PGSIZE) with (2 ^ 26) in Hv. change MAXVA with (2 ^ 38) in *.
  destruct (mappages_ok s root t fr (vpn * PGSIZE) 0 pa perm (as_vm _ _ _ _ _ I) Hperm (vpn_aligned vpn))
    as (r & s' & t' & fr' & Hr & Hvm & Hext & Hm); try (change MAXVA with (2 ^ 38); unfold PGSIZE in *; lia).
  { intros k Hk. replace k with O by lia. by rewrite Z.mul_0_l, Z.add_0_r. }
  change (Z.of_nat 1 * PGSIZE) with PGSIZE in Hr.
  exists r, s', t', fr'. split_and!; [done | done |].
  destruct Hm as [(-> & N & M1 & M2) | (-> & -> & N & k & Hk & M1 & M2)]; [left | right]; split_and!; auto; try lia.
  - apply as_update with (s := s) (t := t) (fr := fr) (e := Some (pa, perm)); auto.
    + intros va Hva' Hne. apply M2; [done |]. intros Hin. apply Hne.
      apply (Z.div_unique _ _ _ (va - vpn * PGSIZE)); unfold PGSIZE in *; lia.
    + split_and!; try done; try lia. specialize (M1 O ltac:(lia)). by rewrite !Z.mul_0_l, !Z.add_0_r in M1.
  - replace k with O in * by lia. destruct I as [_ Hleaf Hrange]. split; auto. intros v Hv'. rewrite M2.
    + by apply Hleaf.
    + by apply vpn_va.
    + lia.
Qed.

Lemma as_clear s root t u fr va b v : as_inv s root t u fr -> 0 <= va < MAXVA ->
  t !! [PX 2 va; PX 1 va] = Some b -> has (u64 v) PTE_V = false ->
  let s' := set_mem (store64 (mem s) (b + 8 * PX 0 va) v) s in
  as_inv s' root t (delete (va / PGSIZE) u) fr /\
  (forall x, ~ in_page b x -> load8 (mem s') x = load8 (mem s) x).
Proof.
  intros I Hva Hb Hv s'. pose proof (as_vm _ _ _ _ _ I) as Hvm. split.
  - apply as_update with (s := s) (t := t) (fr := fr) (e := None); auto.
    + by apply leaf_vm_inv.
    + by apply div_PGSIZE_range.
    + intros va' Hva' Hne. by eapply leaf_diff.
    + rewrite <- lookup_pte_vpn. unfold s'. by rewrite leaf_same.
  - intros x Hx. by eapply leaf_other.
Qed.

(** ** uvmunmap *)

Fixpoint unmap (n : nat) (v : Z) (u : uspace) : uspace :=
  match n with
  | O => u
  | S n => unmap n (v + 1) (delete v u)
  end.

Lemma lookup_unmap n v u w :
  unmap n v u !! w = if decide (v <= w < v + Z.of_nat n) then None else u !! w.
Proof.
  revert v u; induction n; intros v u; cbn [unmap]; [case_decide; [lia | done] |].
  rewrite IHn, lookup_delete. repeat case_decide; try lia; done.
Qed.

Lemma unmap_subseteq n v u : unmap n v u ⊆ u.
Proof. apply map_subseteq_spec. intros w e. rewrite lookup_unmap. case_decide; naive_solver. Qed.

Lemma is_user_mono u u' a : u ⊆ u' -> is_user u a -> is_user u' a.
Proof. intros Hs (v & perm & Hu & Hv). exists v, perm. split; [by eapply lookup_weaken | done]. Qed.

Lemma keeps_mono d d' m m' : d ⊆ d' -> keeps d' m m' -> keeps d m m'.
Proof. intros Hs Hk v a perm x Hd. eapply Hk, lookup_weaken; eauto. Qed.

Lemma us_step_mono d d' s t u fr s' t' u' fr' :
  d ⊆ d' -> us_step d' s t u fr s' t' u' fr' -> us_step d s t u fr s' t' u' fr'.
Proof. intros Hs [? ? ? ? ?]. split; eauto using keeps_mono. Qed.

Lemma user_page_disjoint s root t u fr a b x :
  as_inv s root t u fr -> own_inv t u fr -> is_user u a -> is_table t b -> in_page a x -> ~ in_page b x.
Proof.
  intros I O Ha [p Hp]. destruct (own_page _ _ _ O a Ha) as (Hok & _ & Hnt).
  apply page_sep; [done | | intros ->; apply Hnt; by exists p].
  eapply pt_page; [apply I | done].
Qed.

Lemma own_delete t u fr v pa perm : own_inv t u fr -> u !! v = Some (pa, perm) -> v < UVPN ->
  own_inv t (delete v u) (pa :: fr).
Proof.
  intros O Hu Hv. pose proof O as [O1 O2 O3]. split.
  - intros a Ha. destruct Ha as (w & perm' & Hw & Hwv). apply lookup_delete_Some in Hw as [Hne Hw].
    destruct (O1 a ltac:(by exists w, perm')) as (? & ? & ?). split_and!; try done.
    rewrite not_elem_of_cons. split; [|done]. intros ->. apply Hne. eapply O2; eauto.
  - intros w w' a p p' ? ? Hw Hw'. apply lookup_delete_Some in Hw as [_ Hw], Hw' as [_ Hw']. eauto.
  - intros w a p Hw. apply lookup_delete_Some in Hw as [_ Hw]. eauto.
Qed.

Lemma owns_delete t u fr v pa perm : u !! v = Some (pa, perm) -> v < UVPN ->
  forall a, owns t u fr a <-> owns t (delete v u) (pa :: fr) a.
Proof.
  intros Hu Hv a. unfold owns. rewrite elem_of_cons. split.
  - intros [?|[?|(w & p & Hw & Hwv)]]; [naive_solver | naive_solver |].
    destruct (decide (w = v)) as [->|]; [left; left; congruence |].
    right; right. exists w, p. split; [|done]. by rewrite lookup_delete_ne.
  - intros [[->|?]|[?|Hw]]; [|naive_solver|naive_solver|].
    + right; right. by exists v, perm.
    + right; right. eapply is_user_mono; [apply delete_subseteq | done].
Qed.

Lemma has_mk_pte pa perm : 0 <= pa < 2 ^ 56 -> 0 <= perm < 1024 ->
  has (mk_pte pa perm) PTE_V = true /\ (Z.land (mk_pte pa perm) PTE_V =? 0) = false.
Proof.
  intros. unfold has. destruct (Z.eqb_spec (Z.land (mk_pte pa perm) PTE_V) 0) as [E|]; [|done].
  by apply mk_pte_valid in E.
Qed.

Section unmap_step.
Context (s : kernel) (root : Z) (t : ptree) (u : uspace) (fr : list Z) (v pa perm : Z).
Context (I : as_inv s root t u fr) (O : own_inv t u fr).
Context (Hv : 0 <= v < UVPN) (Hu : u !! v = Some (pa, perm)).

Lemma unmap_loop_step fuel endva : v * PGSIZE < endva ->
  exists s', uvmunmap_loop (S fuel) root (v * PGSIZE) endva true s =
      uvmunmap_loop fuel root ((v + 1) * PGSIZE) endva true s' /\
    as_inv s' root t (delete v u) (pa :: fr) /\ own_inv t (delete v u) (pa :: fr) /\
    us_step (delete v u) s t u fr s' t (delete v u) (pa :: fr).
Proof.
  intros Hend. assert (Hv' : 0 <= v < MAXVA / PGSIZE) by (vm_compute (UVPN) in Hv; change (MAXVA / PGSIZE) with (2 ^ 26); lia).
  pose proof (vpn_va v Hv') as Hva. pose proof (as_walk s root t u fr (v * PGSIZE) I Hva) as Hw.
  rewrite vpn_div, Hu in Hw. destruct Hw as (b & Hb & Hw & Hr0 & Hl). set (r := b + 8 * _) in *.
  destruct (as_range _ _ _ _ _ I _ _ _ Hu) as (_ & Hal & Hpa & Hperm).
  assert (Huser : is_user u pa) by (exists v, perm; split; [done | lia]).
  destruct (own_page _ _ _ O pa Huser) as (Hok & Hnfr & Hnt).
  destruct (as_kfree s root t u fr pa I Hok Hnfr Hnt) as (s1 & Hk & I1 & Hs1 & Ho1).
  destruct (as_clear s1 root t u (pa :: fr) (v * PGSIZE) b 0 I1 Hva Hb eq_refl) as [I2 Ho2].
  rewrite vpn_div in I2. set (s2 := set_mem (store64 _ _ _) _) in *.
  assert (Htb : is_table t b) by (by eexists).
  exists s2. split_and!; [|exact I2|eapply own_delete; [exact O | exact Hu | lia]|split].
  - cbn [uvmunmap_loop]. destruct (Z.ltb_spec (v * PGSIZE) endva); [|lia].
    erewrite bind_Ret by exact Hw. destruct (Z.eqb_spec r 0); [done |]. unfold load_pte, store_pte. mred.
    rewrite Hl. destruct (has_mk_pte pa perm Hpa Hperm) as [_ ->].
    rewrite PTE_FLAGS_mk by done. change PTE_V with 1.
    destruct (Z.eqb_spec (Z.lor perm 1) 1) as [E|_]; [exfalso; eapply own_perm; [exact O | exact Hu | lia | exact E] |].
    rewrite PTE2PA_mk, (page_aligned_div pa Hal) by done. rewrite Hk. cbn [obind].
    rewrite wrap_small; [f_equal; lia |]. change MAXVA with (2 ^ 38) in Hva. unfold PGSIZE in *. lia.
  - done.
  - unfold s2. cbn. rewrite Hs1. done.
  - apply (owns_delete t u fr v pa perm); [done | lia].
  - intros x Hx. rewrite Ho2, Ho1; [done | |]; apply Hx; [right; right | right; left]; done.
  - intros w a p x Hw' Hwv Hx. apply lookup_delete_Some in Hw' as [Hne Hw'].
    assert (Hua : is_user u a) by (by exists w, p).
    rewrite Ho2, Ho1; [done | |].
    + eapply (page_sep a pa); try done; [by apply (own_page _ _ _ O) |].
      intros ->. apply Hne. eapply (own_inj _ _ _ O); eauto. lia.
    + eapply user_page_disjoint; [exact I | exact O | exact Hua | exact Htb | exact Hx].
Qed.
End unmap_step.

Lemma uvmunmap_loop_ok root t : forall n fuel s u fr v,
  as_inv s root t u fr -> own_inv t u fr -> 0 <= v -> v + Z.of_nat n <= UVPN ->
  (forall k, v <= k < v + Z.of_nat n -> is_Some (u !! k)) -> (n < fuel)%nat ->
  exists s' fr', uvmunmap_loop fuel root (v * PGSIZE) ((v + Z.of_nat n) * PGSIZE) true s = Ret tt s' /\
    as_inv s' root t (unmap n v u) fr' /\ own_inv t (unmap n v u) fr' /\
    us_step (unmap n v u) s t u fr s' t (unmap n v u) fr'.
Proof.
  induction n as [|n IH]; intros fuel s u fr v I O Hv0 Hv Hall Hfuel; (destruct fuel as [|fuel]; [lia |]).
  - exists s, fr. cbn [uvmunmap_loop unmap]. rewrite Z.add_0_r, Z.ltb_irrefl. split_and!; auto using us_step_refl.
  - destruct (Hall v ltac:(lia)) as [[pa perm] Hu].
    destruct (unmap_loop_step s root t u fr v pa perm I O ltac:(lia) Hu fuel ((v + Z.of_nat (S n)) * PGSIZE))
      as (s1 & -> & I1 & O1 & S1); [unfold PGSIZE; lia |].
    destruct (IH fuel s1 (delete v u) (pa :: fr) (v + 1)) as (s2 & fr2 & Hr & I2 & O2 & S2); try done; try lia.
    { intros k Hk. rewrite lookup_delete_ne by lia. apply Hall. lia. }
    replace (v + 1 + Z.of_nat n) with (v + Z.of_nat (S n)) in Hr by lia.
    exists s2, fr2. cbn [unmap]. split_and!; [exact Hr | done | done |].
    eapply us_step_trans; [|exact S2]. eapply us_step_mono; [apply unmap_subseteq | exact S1].
Qed.

Lemma uvmunmap_ok s root t u fr v n :
  as_inv s root t u fr -> own_inv t u fr -> 0 <= v -> v + Z.of_nat n <= UVPN ->
  (forall k, v <= k < v + Z.of_nat n -> is_Some (u !! k)) ->
  exists s' fr', uvmunmap root (v * PGSIZE) (Z.of_nat n) true s = Ret tt s' /\
    as_inv s' root t (unmap n v u) fr' /\ own_inv t (unmap n v u) fr' /\
    us_step (unmap n v u) s t u fr s' t (unmap n v u) fr'.
Proof.
  intros I O Hv0 Hv Hall. unfold uvmunmap. rewrite (vpn_aligned v). cbn [negb Z.eqb].
  replace (u64 (v * PGSIZE + Z.of_nat n * PGSIZE)) with ((v + Z.of_nat n) * PGSIZE).
  - apply uvmunmap_loop_ok; auto. lia.
  - vm_compute (UVPN) in Hv. rewrite wrap_small; unfold PGSIZE; lia.
Qed.

(** ** Steps of the allocating operations *)

(** Changes confined to one owned page [a] that holds no data of [d]. *)
Lemma page_us d s s' t u fr a :
  s' = set_mem (mem s') (set_freelist (freelist s') s) -> owns t u fr a -> page_ok a ->
  (forall x, ~ in_page a x -> load8 (mem s') x = load8 (mem s) x) ->
  (forall b, is_user d b -> page_ok b /\ b <> a) ->
  us_step d s t u fr s' t u fr.
Proof.
  intros Hs Ha Hok Hm Hd. split; try done.
  - intros x Hx. apply Hm, Hx, Ha.
  - intros vpn b perm x Hb Hv Hx. apply Hm. destruct (Hd b ltac:(by exists vpn, perm)).
    by eapply (page_sep b a).
Qed.

Lemma ext_free_sub s t fr s' t' fr' a : vm_ext s t fr s' t' fr' -> a ∈ fr' -> a ∈ fr.
Proof. intros [_ (used & -> & _) _ _] Ha. apply elem_of_app. by right. Qed.

Lemma ext_table s t fr s' t' fr' a : vm_ext s t fr s' t' fr' -> is_table t' a -> is_table t a \/ a ∈ fr.
Proof.
  intros [Hsub (used & -> & Hused) _ _] [p Hp]. destruct (t !! p) as [b|] eqn:E.
  - left. exists p. assert (t' !! p = Some b) by (by eapply lookup_weaken). congruence.
  - right. apply elem_of_app. left. apply Hused. eauto.
Qed.

Lemma ext_us l s root t u fr s' t' fr' :
  own_inv t u fr -> vm_inv s' root t' fr' -> vm_ext s t fr s' t' fr' ->
  us_step u s t u (l ++ fr) s' t' u (l ++ fr').
Proof.
  intros O I' E. pose proof E as [Hsub (used & Hfr & Hused) Hs Hm].
  assert (Hpages : forall a, owns t u (l ++ fr) a <-> owns t' u (l ++ fr') a).
  { intros a. unfold owns. rewrite !elem_of_app. split.
    - intros [[?|Ha]|[[p Hp]|?]]; [tauto | | right; left; exists p; by eapply lookup_weaken | tauto].
      rewrite Hfr in Ha. apply elem_of_app in Ha as [Ha|]; [|tauto].
      apply Hused in Ha as (p & Hp & _). right; left. by exists p.
    - intros [[?|Ha]|[Ht|?]]; [tauto | left; right; by eapply ext_free_sub | | tauto].
      destruct (ext_table _ _ _ _ _ _ a E Ht); tauto. }
  split; try done.
  - intros x Hx. apply Hm. intros (p & a & Hp & Hpx). eapply Hx; [apply Hpages; right; left; by exists p | done].
  - intros vpn a perm x Hu Hv Hx. apply Hm. intros (p & b & Hp & Hpx).
    destruct (own_page _ _ _ O a ltac:(by exists vpn, perm)) as (Hok & Hnfr & Hnt).
    eapply (page_sep a b); [done | by eapply pt_page; [apply I' |] | | done | done].
    intros ->. by destruct (ext_table _ _ _ _ _ _ b E ltac:(by exists p)).
Qed.

Lemma own_ext s t u fr s' t' fr' : own_inv t u fr -> vm_ext s t fr s' t' fr' -> own_inv t' u fr'.
Proof.
  intros [O1 O2 O3] E. split; try done. intros a Ha. destruct (O1 a Ha) as (? & Hn & Ht). split_and!; [done | |].
  - intros Ha'. apply Hn. by eapply ext_free_sub.
  - intros Ht'. by destruct (ext_table _ _ _ _ _ _ a E Ht').
Qed.

Lemma own_insert t u fr v pg perm :
  own_inv t u fr -> page_ok pg -> pg ∉ fr -> ~ is_table t pg -> ~ is_user u pg -> Z.lor perm 1 <> 1 ->
  own_inv t (<[v := (pg, perm)]> u) fr.
Proof.
  intros [O1 O2 O3] Hok Hn Ht Hu Hperm. split.
  - intros a (w & p & Hw & Hwv). apply lookup_insert_Some in Hw as [[_ [= -> ->]] | [_ Hw]]; [done |].
    apply O1. by exists w, p.
  - intros w w' a p p' Hw Hw' H1 H2.
    apply lookup_insert_Some in H1 as [[? E1] | [? H1]], H2 as [[? E2] | [? H2]]; simplify_eq; try done.
    + destruct Hu. by exists w', p'.
    + destruct Hu. by exists w, p.
    + eauto.
  - intros w a p Hw Hwv. apply lookup_insert_Some in Hw as [[_ [= -> ->]] | [_ Hw]]; eauto.
Qed.

Lemma owns_insert t u fr v pg perm : u !! v = None -> v < UVPN ->
  forall a, owns t u (pg :: fr) a <-> owns t (<[v := (pg, perm)]> u) fr a.
Proof.
  intros Hn Hv a. rewrite (owns_delete t (<[v := (pg, perm)]> u) fr v pg perm); [|apply lookup_insert_eq | done].
  by rewrite delete_insert_id.
Qed.

Lemma page_55 a : page_ok a -> page_aligned a /\ 0 <= a < 2 ^ 55.
Proof. intros Ha. pose proof (page_ok_pos a Ha). destruct Ha. split; [done | lia]. Qed.

(** A page from the free list, filled by [f], and mapped at [v]. *)
Section grow.
Context (s : kernel) (root : Z) (t : ptree) (u : uspace) (pg : Z) (fr : list Z).
Context (I : as_inv s root t u (pg :: fr)) (O : own_inv t u (pg :: fr)).

Lemma own_tail : own_inv t u fr.
Proof.
  destruct O as [O1 O2 O3]. split; try done. intros a Ha. destruct (O1 a Ha) as (? & ? & ?).
  split_and!; try done. set_solver.
Qed.

Lemma fresh_not_user : ~ is_user u pg.
Proof. intros Ha. destruct (own_page _ _ _ O pg Ha) as (_ & Hn & _). apply Hn. left. Qed.

(** The page is filled by a function of the memory that only writes that page. *)
Lemma grow_fill (f : memory -> memory) : (forall m x, ~ in_page pg x -> load8 (f m) x = load8 m x) ->
  exists s1, kalloc s = Ret pg s1 /\ pg <> 0 /\
    let s2 := set_mem (f (mem s1)) s1 in
    as_inv s2 root t u fr /\ us_step u s t u (pg :: fr) s2 t u (pg :: fr) /\
    page_ok pg /\ pg ∉ fr /\ ~ is_table t pg /\
    (forall x, ~ in_page pg x -> load8 (mem s1) x = load8 (mem s) x).
Proof.
  intros Hf. destruct (as_kalloc s root t u pg fr I) as (s1 & Hk & I1 & Hs1 & Hok & Hn & Hnt & Ho).
  pose proof (page_ok_pos pg Hok). exists s1. split_and!; [done | lia |]. intros s2. split_and!; [ | | done | done | done | done].
  - apply as_write; [done |]. intros a x Ha Hx. apply Hf. refine (page_sep a pg x _ Hok _ Hx).
    + destruct Ha as [[p Hp]|Ha]; [eapply pt_page; [apply I1 | done] |].
      eapply Forall_forall; [apply I1 | done].
    + intros ->. by destruct Ha.
  - apply page_us with (a := pg); try done.
    + unfold s2. rewrite Hs1 at 2. done.
    + left. left.
    + intros x Hx. cbn. rewrite Hf by done. by apply Ho.
    + intros b Hb. split; [by apply (own_page _ _ _ O) |]. intros ->. by apply fresh_not_user.
Qed.

Lemma grow_map (f : memory -> memory) v perm : (forall m x, ~ in_page pg x -> load8 (f m) x = load8 m x) ->
  0 <= v < UVPN -> u !! v = None -> 0 <= perm < 1024 -> Z.lor perm 1 <> 1 ->
  exists s1 r s3 t', kalloc s = Ret pg s1 /\ pg <> 0 /\
    mappages root (v * PGSIZE) PGSIZE pg perm (set_mem (f (mem s1)) s1) = Ret r s3 /\
    (forall x, ~ in_page pg x -> load8 (mem s1) x = load8 (mem s) x) /\
    ((r = 0 /\ exists fr', as_inv s3 root t' (<[v := (pg, perm)]> u) fr' /\
        own_inv t' (<[v := (pg, perm)]> u) fr' /\
        us_step u s t u (pg :: fr) s3 t' (<[v := (pg, perm)]> u) fr' /\ (length fr <= length fr' + 2)%nat /\
        (forall x, in_page pg x -> load8 (mem s3) x = load8 (f (mem s1)) x)) \/
     (r = -1 /\ exists s4, kfree pg s3 = Ret tt s4 /\ as_inv s4 root t' u [pg] /\ own_inv t' u [pg] /\
        us_step u s t u (pg :: fr) s4 t' u [pg] /\ (length fr < 2)%nat)).
Proof.
  intros Hf Hv Hu Hperm Hperm1. destruct (grow_fill f Hf) as (s1 & Hk & H0 & I2 & S2 & Hok & Hn & Hnt & Ho).
  set (s2 := set_mem _ _) in *. pose proof own_tail as Ot. pose proof fresh_not_user as Hnu.
  assert (Hv' : 0 <= v < MAXVA / PGSIZE) by (vm_compute (UVPN) in Hv; change (MAXVA / PGSIZE) with (2 ^ 26); lia).
  destruct (page_55 pg Hok) as [Hal H55].
  destruct (as_map1 s2 root t u fr v pg perm I2 Hv' Hu Hal H55 Hperm) as (r & s3 & t' & fr' & Hm & E & Hcase).
  exists s1, r, s3, t'. split_and!; try done.
  assert (Hnt' : ~ is_table t' pg) by (intros Ht; by destruct (ext_table _ _ _ _ _ _ pg E Ht)).
  destruct Hcase as [(-> & I3 & N3) | (-> & -> & I3 & N3)]; [left | right]; split; try done.
  - pose proof (ext_us [pg] s2 root t u fr s3 t' fr' Ot (as_vm _ _ _ _ _ I3) E) as S3.
    pose proof (us_step_trans _ _ _ _ _ _ _ _ _ _ _ _ _ S2 S3) as [T1 T2 T3 T4 T5].
    exists fr'. split_and!; [done | | split; try done | exact N3 |].
    + apply own_insert; try done; [by eapply own_ext |]. intros Hx. apply Hn. by eapply ext_free_sub.
    + intros a. rewrite T3. apply owns_insert; [done | lia].
    + intros x Hx. change (f (mem s1)) with (mem s2). apply (ext_mem _ _ _ _ _ _ E).
      intros (p & b & Hp & Hb). eapply (page_sep pg b); [done | eapply pt_page; [apply I3 | done] | | done | done].
      intros ->. apply Hnt'. by exists p.
  - pose proof (ext_us [pg] s2 root t u fr s3 t' [] Ot (as_vm _ _ _ _ _ I3) E) as S3.
    destruct (as_kfree s3 root t' u [] pg I3 Hok ltac:(set_solver) Hnt') as (s4 & Hk4 & I4 & Hs4 & Ho4).
    exists s4. split_and!; [done | done | | | exact N3].
    + pose proof (own_ext _ _ _ _ _ _ _ Ot E) as [O1 O2 O3]. split; try done.
      intros a Ha. destruct (O1 a Ha) as (? & ? & ?). split_and!; try done.
      rewrite list_elem_of_singleton. intros ->. done.
    + eapply us_step_trans; [exact S2 |]. eapply us_step_trans; [exact S3 |].
      apply page_us with (a := pg); try done; [left; left |].
      intros b Hb. split; [by apply (own_page _ _ _ O) |]. intros ->. done.
Qed.
End grow.
End as_facts.
