(* ===== verification/UserMem.v ===== *)
(** * User memory: growing, shrinking, copying and freeing address spaces

    The specifications of [uvmalloc], [uvmdealloc], [uvmcopy], [uvmfree],
    [copyout], [copyin] and [copyinstr] over the abstract address spaces of
    AddrSpace.v. *)

From S2P Require Import Prelude State Mem CString Spinlock Memlayout Kalloc Vm PageTable AddrSpace.

(** The number of pages [sz] bytes take. *)
Definition npages (sz : Z) : Z := (sz + PGSIZE - 1) / PGSIZE.

Section usermem.
Context `{HL : Layout} {HOk : LayoutOk HL}.

Lemma PGROUNDUP_npages sz : 0 <= sz <= MAXVA -> PGROUNDUP sz = npages sz * PGSIZE.
Proof. intros. apply PGROUNDUP_eq. change MAXVA with (2 ^ 38) in *. unfold PGSIZE. lia. Qed.

Lemma npages_range sz : 0 <= sz -> sz <= npages sz * PGSIZE < sz + PGSIZE.
Proof.
  intros. unfold npages. pose proof (Z.div_mod (sz + PGSIZE - 1) PGSIZE ltac:(done)).
  pose proof (Z.mod_pos_bound (sz + PGSIZE - 1) PGSIZE ltac:(done)). unfold PGSIZE in *. lia.
Qed.

Lemma npages_vpn v : npages (v * PGSIZE) = v.
Proof. unfold npages. replace (v * PGSIZE + PGSIZE - 1) with (v * PGSIZE + (PGSIZE - 1)) by lia.
  rewrite Z.div_add_l by done. rewrite Z.div_small by done. lia. Qed.

(** ** uvmdealloc *)

Lemma uvmdealloc_ok s root t u fr oldsz newsz :
  as_inv s root t u fr -> own_inv t u fr -> 0 <= newsz < oldsz -> oldsz <= TRAPFRAME ->
  (forall k, npages newsz <= k < npages oldsz -> is_Some (u !! k)) ->
  let u' := unmap (Z.to_nat (npages oldsz - npages newsz)) (npages newsz) u in
  exists s' fr', uvmdealloc root oldsz newsz s = Ret newsz s' /\
    as_inv s' root t u' fr' /\ own_inv t u' fr' /\ us_step u' s t u fr s' t u' fr'.
Proof.
  intros I O Hsz Hold Hall u'. unfold uvmdealloc. destruct (Z.leb_spec oldsz newsz); [lia |].
  assert (Hmax : TRAPFRAME <= MAXVA) by (vm_compute; discriminate).
  rewrite !PGROUNDUP_npages by lia.
  pose proof (npages_range newsz ltac:(lia)) as Hn. pose proof (npages_range oldsz ltac:(lia)) as Ho.
  destruct (Z.ltb_spec (npages newsz * PGSIZE) (npages oldsz * PGSIZE)).
  - assert (Hu : npages oldsz <= UVPN).
    { change UVPN with (2 ^ 26 - 2). change TRAPFRAME with (2 ^ 38 - 8192) in *. unfold PGSIZE in *. lia. }
    assert (0 <= npages newsz < npages oldsz) by (unfold PGSIZE in *; lia).
    rewrite <- Z.mul_sub_distr_r, Z.div_mul by done.
    rewrite signed_small, wrap_small by (change UVPN with (2 ^ 26 - 2) in *; lia).
    destruct (uvmunmap_ok s root t u fr (npages newsz) (Z.to_nat (npages oldsz - npages newsz)) I O)
      as (s' & fr' & Hr & Hrest); try lia.
    { intros k Hk. apply Hall. lia. }
    rewrite Z2Nat.id in Hr by lia. exists s', fr'. erewrite bind_Ret by exact Hr. split; [done | exact Hrest].
  - unfold u'. replace (Z.to_nat _) with 0%nat by (unfold PGSIZE in *; lia). cbn [unmap].
    exists s, fr. split_and!; auto using us_step_refl.
Qed.

(** ** uvmalloc *)

Lemma ualloc_perm xperm : 0 <= xperm < 1024 ->
  let perm := Z.lor (Z.lor PTE_R PTE_U) xperm in 0 <= perm < 1024 /\ Z.lor perm 1 <> 1.
Proof.
  intros Hx perm. split; [apply (lor_range _ _ 10); [lia | split; vm_compute; [discriminate | done] | lia] |].
  intros E. apply (f_equal (fun z => Z.testbit z 1)) in E. unfold perm in E. rewrite !Z.lor_spec in E. done.
Qed.

Lemma fill_other pg m x : ~ in_page pg x -> load8 (CString.memset m pg 0 PGSIZE) x = load8 m x.
Proof. intros Hx. rewrite memset_page. by case_decide. Qed.

Lemma fill_zero pg m x : in_page pg x -> load8 (CString.memset m pg 0 PGSIZE) x = 0.
Proof. intros Hx. rewrite memset_page. by case_decide. Qed.

(** Undoing [v - v0] freshly mapped pages gives back [u0]. *)
Definition grown (u0 : uspace) (v0 v : Z) (u : uspace) : Prop :=
  v0 <= v /\ unmap (Z.to_nat (v - v0)) v0 u = u0 /\ forall k, v0 <= k < v -> is_Some (u !! k).

Lemma grown_refl u v : grown u v v u.
Proof. split_and!; [lia | by rewrite Z.sub_diag | lia]. Qed.

Lemma grown_insert u0 v0 v u e : grown u0 v0 v u -> u !! v = None -> grown u0 v0 (v + 1) (<[v := e]> u).
Proof.
  intros (Hle & <- & Hall) Hn. split_and!; [lia | |].
  - apply map_eq. intros k. rewrite !lookup_unmap, lookup_insert.
    destruct (decide (k = v)) as [->|]; repeat case_decide; try lia; done.
  - intros k Hk. rewrite lookup_insert. case_decide; [done |]. apply Hall. lia.
Qed.

Lemma grown_keeps u0 v0 v u : grown u0 v0 v u -> u0 ⊆ u.
Proof. intros (_ & <- & _). apply unmap_subseteq. Qed.

(** Giving up: everything from [v0] on is unmapped again. *)
Lemma uvmalloc_undo s root t u fr u0 v0 v :
  as_inv s root t u fr -> own_inv t u fr -> grown u0 v0 v u -> 0 <= v0 -> v <= UVPN ->
  exists r s' fr', uvmdealloc root (v * PGSIZE) (v0 * PGSIZE) s = Ret r s' /\
    as_inv s' root t u0 fr' /\ own_inv t u0 fr' /\ us_step u0 s t u fr s' t u0 fr'.
Proof.
  intros I O (Hle & Hu0 & Hall) H0 Hv. change UVPN with (2 ^ 26 - 2) in Hv.
  destruct (decide (v0 = v)) as [->|Hne].
  - rewrite Z.sub_diag in Hu0. cbn in Hu0. subst. unfold uvmdealloc. rewrite Z.leb_refl.
    exists (v * PGSIZE), s, fr. split_and!; auto using us_step_refl.
  - destruct (uvmdealloc_ok s root t u fr (v * PGSIZE) (v0 * PGSIZE) I O) as (s' & fr' & Hr & I' & O' & S').
    + unfold PGSIZE. lia.
    + change TRAPFRAME with (2 ^ 38 - 8192). unfold PGSIZE. lia.
    + rewrite !npages_vpn. exact Hall.
    + rewrite !npages_vpn, Hu0 in *. exists (v0 * PGSIZE), s', fr'. done.
Qed.

(** Pages [v .. v+n) are new, zeroed and have permissions [perm]. *)
Definition zeroed (m : memory) (u : uspace) (v n perm : Z) : Prop :=
  forall k, v <= k < v + n -> exists pg, u !! k = Some (pg, perm) /\ forall x, in_page pg x -> load8 m x = 0.

Lemma uvmalloc_loop_ok root u0 v0 newsz xperm : 0 <= v0 -> 0 <= xperm < 1024 -> newsz <= TRAPFRAME ->
  forall n fuel s t u fr v,
  as_inv s root t u fr -> own_inv t u fr -> grown u0 v0 v u -> v + Z.of_nat n = Z.max v (npages newsz) ->
  (forall k, v <= k < v + Z.of_nat n -> u !! k = None) -> v <= UVPN -> (n < fuel)%nat -> 0 <= newsz ->
  exists r s' t' u' fr', uvmalloc_loop fuel root (v0 * PGSIZE) (v * PGSIZE) newsz xperm s = Ret r s' /\
    as_inv s' root t' u' fr' /\ own_inv t' u' fr' /\ us_step u0 s t u fr s' t' u' fr' /\
    ((r = newsz /\ grown u v (v + Z.of_nat n) u' /\ keeps u (mem s) (mem s') /\
      zeroed (mem s') u' v (Z.of_nat n) (Z.lor (Z.lor PTE_R PTE_U) xperm)) \/
     (r = 0 /\ u' = u0 /\ (length fr < 3 * n)%nat)).
Proof.
  intros Hv0 Hx Hmax. destruct (ualloc_perm xperm Hx) as [Hperm Hperm1]. set (perm := Z.lor _ xperm) in *.
  induction n as [|n IH]; intros fuel s t u fr v I O G Hn Hnone Hv Hfuel Hnew;
    (destruct fuel as [|fuel]; [lia |]); cbn [uvmalloc_loop];
    pose proof (npages_range newsz Hnew) as Hnr; pose proof G as (Hle & _ & _).
  { destruct (Z.ltb_spec (v * PGSIZE) newsz); [unfold PGSIZE in *; lia |].
    exists newsz, s, t, u, fr. rewrite Z.add_0_r. split_and!; auto using us_step_refl. left.
    split_and!; [done | apply grown_refl | by intros ? | intros k Hk; lia]. }
  assert (v < UVPN) by (change UVPN with (2 ^ 26 - 2) in *; change TRAPFRAME with (2 ^ 38 - 8192) in *; unfold PGSIZE in *; lia).
  destruct (Z.ltb_spec (v * PGSIZE) newsz); [|unfold PGSIZE in *; lia].
  destruct fr as [|pg fr].
  { erewrite bind_Ret by (apply kalloc_empty; apply I). rewrite Z.eqb_refl.
    destruct (uvmalloc_undo s root t u [] u0 v0 v I O G Hv0 Hv) as (r & s' & fr' & Hr & Hrest & O' & S').
    erewrite bind_Ret by exact Hr. exists 0, s', t, u0, fr'. split_and!; auto. right. split_and!; [done | done | cbn; lia]. }
  destruct (grow_map s root t u pg fr I O (fun m => CString.memset m pg 0 PGSIZE) v perm (fill_other pg))
    as (s1 & r & s3 & t' & Hk & Hpg0 & Hm & _ & Hcase); try done; try lia.
  { apply Hnone. lia. }
  erewrite bind_Ret by exact Hk. destruct (Z.eqb_spec pg 0); [done |].
  erewrite bind_Ret by reflexivity. erewrite bind_Ret by exact Hm.
  pose proof (grown_keeps _ _ _ _ G) as Hsub.
  destruct Hcase as [(-> & fr' & I3 & O3 & S3 & N3 & Hz) | (-> & s4 & Hk4 & I4 & O4 & S4 & N4)]; cbn [Z.eqb negb].
  - rewrite wrap_small by (change UVPN with (2 ^ 26 - 2) in *; unfold PGSIZE in *; lia).
    replace (v * PGSIZE + PGSIZE) with ((v + 1) * PGSIZE) by lia.
    destruct (IH fuel s3 t' (<[v:=(pg, perm)]> u) fr' (v + 1)) as (r & s' & t2 & u' & fr2 & Hr & I' & O' & S' & Hc);
      try done; try lia.
    { apply grown_insert; [done |]. apply Hnone. lia. }
    { intros k Hk'. rewrite lookup_insert_ne by lia. apply Hnone. lia. }
    exists r, s', t2, u', fr2. split_and!; try done.
    { eapply us_step_trans; [|exact S']. eapply us_step_mono; [exact Hsub | exact S3]. }
    destruct Hc as [(-> & G' & K' & Z') | (-> & -> & N')]; [left | right; split_and!; [done | done | cbn; lia]].
    assert (Hvn : u !! v = None) by (apply Hnone; lia).
    assert (Hin : u' !! v = Some (pg, perm)).
    { eapply lookup_weaken; [|eapply grown_keeps; exact G']. apply lookup_insert_eq. }
    split_and!; [done | | |].
    + destruct G' as (_ & E & Hall). split_and!; [lia | |].
      * apply map_eq. intros k. apply (f_equal (fun m => m !! k)) in E. rewrite lookup_unmap, lookup_insert in E.
        rewrite lookup_unmap. destruct (decide (k = v)) as [->|]; repeat case_decide; try lia; done.
      * intros k Hk'. destruct (decide (k = v)) as [->|]; [by rewrite Hin | apply Hall; lia].
    + intros k a p x Hu Hkv Hx'. rewrite (K' k a p); [by eapply (us_keeps _ _ _ _ _ _ _ _ _ S3) | | done | done].
      rewrite lookup_insert_ne; [done |]. intros ->. congruence.
    + intros k Hk'. destruct (decide (k = v)) as [->|]; [|apply Z'; lia].
      exists pg. split; [done |]. intros x Hx'. rewrite (K' v pg perm); [| apply lookup_insert_eq | lia | done].
      rewrite Hz by done. by apply fill_zero.
  - erewrite bind_Ret by exact Hk4.
    destruct (uvmalloc_undo s4 root t' u [pg] u0 v0 v I4 O4 G Hv0 Hv) as (r & s' & fr' & Hr & I' & O' & S').
    erewrite bind_Ret by exact Hr. exists 0, s', t', u0, fr'. split_and!; auto; [|right; split_and!; [done | done | cbn; lia]].
    eapply us_step_trans; [|exact S']. eapply us_step_mono; [exact Hsub | exact S4].
Qed.

(** ** Two address spaces *)

(** The pages of the two address spaces are disjoint. *)
Definition apart (t : ptree) (u : uspace) (t' : ptree) (u' : uspace) : Prop :=
  forall a, is_table t a \/ is_user u a -> ~ (is_table t' a \/ is_user u' a).

Lemma owns_page_ok s root t u fr a : as_inv s root t u fr -> own_inv t u fr -> owns t u fr a -> page_ok a.
Proof.
  intros I O [Ha|[[p Hp]|Ha]].
  - eapply Forall_forall; [apply I | done].
  - eapply pt_page; [apply I | done].
  - by apply (own_page _ _ _ O).
Qed.

(** What happens in one address space does not disturb another. *)
Lemma other_frame d s r1 t1 u1 fr root t u s' t' u' fr' :
  as_inv s r1 t1 u1 fr -> own_inv t1 u1 fr -> as_inv s root t u fr -> own_inv t u fr -> apart t1 u1 t u ->
  us_step d s t u fr s' t' u' fr' -> as_inv s' root t' u' fr' ->
  as_inv s' r1 t1 u1 fr' /\ own_inv t1 u1 fr' /\ apart t1 u1 t' u' /\ keeps u1 (mem s) (mem s').
Proof.
  intros I1 O1 I O Hap [S1 S2 S3 S4 S5] I'.
  assert (Hnot : forall a, is_table t1 a \/ is_user u1 a -> ~ owns t u fr a).
  { intros a Ha [Hf|Ho]; [|by eapply Hap]. destruct Ha as [[p Hp]|Ha].
    - eapply vm_sep; [apply I1 | done | done].
    - by apply (own_page _ _ _ O1) in Ha as (_ & ? & _). }
  assert (Hmem : forall a x, is_table t1 a \/ is_user u1 a -> in_page a x -> load8 (mem s') x = load8 (mem s) x).
  { intros a x Ha Hx. apply S4. intros b Hb. eapply (page_sep a b); [| exact (owns_page_ok s root t u fr b I O Hb) | | done].
    - eapply owns_page_ok; [exact I1 | exact O1 | right; exact Ha].
    - intros ->. by eapply Hnot. }
  split_and!.
  - eapply as_frame; [exact I1 | apply I' | apply I' | |].
    + intros a Ha Hf. eapply Hnot; [left; exact Ha |]. apply S3. by left.
    + intros a x Ha. apply Hmem. by left.
  - pose proof O1 as [A B C]. split; try done. intros a Ha. destruct (A a Ha) as (? & ? & ?). split_and!; try done.
    intros Hf. eapply Hnot; [right; exact Ha |]. apply S3. by left.
  - intros a Ha Ho. eapply Hnot; [exact Ha |]. apply S3. by right.
  - intros v a p x Hu Hv Hx. apply (Hmem a); [right; by exists v, p | done].
Qed.

(** ** uvmcopy *)

(** The page at [v] of [u'] is a copy of the page at [v] of [u]. *)
Definition copied (m : memory) (u : uspace) (m' : memory) (u' : uspace) (v : Z) : Prop :=
  exists pa perm pg, u !! v = Some (pa, perm) /\ u' !! v = Some (pg, Z.lor perm 1) /\ pg <> pa /\
    forall i, 0 <= i < PGSIZE -> load8 m' (pg + i) = load8 m (pa + i).

Lemma lor1_perm perm : 0 <= perm < 1024 -> Z.lor perm 1 <> 1 ->
  0 <= Z.lor perm 1 < 1024 /\ Z.lor (Z.lor perm 1) 1 <> 1.
Proof. intros ? ?. split; [by apply mk_pte_flags_range | by rewrite <- Z.lor_assoc]. Qed.

Lemma memmove_page m pg pa x :
  load8 (CString.memmove m pg pa PGSIZE) x = if decide (in_page pg x) then load8 m (pa + (x - pg)) else load8 m x.
Proof. by rewrite CString.memmove_bytes. Qed.

(** Parent and child during [uvmcopy]. *)
Record pair_inv (s : kernel) (oroot : Z) (ot : ptree) (ou : uspace) (nroot : Z) (nt : ptree) (nu : uspace)
    (fr : list Z) : Prop := mkPairInv {
  pr_old : as_inv s oroot ot ou fr;
  pr_oldown : own_inv ot ou fr;
  pr_new : as_inv s nroot nt nu fr;
  pr_newown : own_inv nt nu fr;
  pr_apart : apart ot ou nt nu
}.

Lemma pair_step d s oroot ot ou nroot nt nu fr s' nt' nu' fr' :
  pair_inv s oroot ot ou nroot nt nu fr -> us_step d s nt nu fr s' nt' nu' fr' ->
  as_inv s' nroot nt' nu' fr' -> own_inv nt' nu' fr' ->
  pair_inv s' oroot ot ou nroot nt' nu' fr' /\ keeps ou (mem s) (mem s').
Proof.
  intros [I1 O1 I O Hap] S I' O'.
  destruct (other_frame _ _ _ _ _ _ _ _ _ _ _ _ _ I1 O1 I O Hap S I') as (? & ? & ? & ?). done.
Qed.

Lemma keeps_trans d m m1 m2 : keeps d m m1 -> keeps d m1 m2 -> keeps d m m2.
Proof. intros K1 K2 v a p x Hd Hv Hx. rewrite (K2 v a p) by done. by eapply K1. Qed.

Section uvmcopy.
Context (oroot : Z) (ot : ptree) (ou : uspace) (nroot : Z) (nu0 : uspace) (sz : Z).
Context (Hsz : 0 <= sz <= TRAPFRAME) (Hmapped : forall k, 0 <= k < npages sz -> is_Some (ou !! k)).
Context (Hnone : forall k, 0 <= k < npages sz -> nu0 !! k = None).

Lemma npages_UVPN : 0 <= npages sz <= UVPN.
Proof.
  pose proof (npages_range sz ltac:(lia)). change UVPN with (2 ^ 26 - 2). change TRAPFRAME with (2 ^ 38 - 8192) in *.
  unfold PGSIZE in *. lia.
Qed.

(** The error path: unmap what was copied. *)
Lemma uvmcopy_undo s nt nu fr v :
  pair_inv s oroot ot ou nroot nt nu fr -> grown nu0 0 v nu -> v <= UVPN ->
  exists s' fr', uvmunmap nroot 0 (v * PGSIZE / PGSIZE) true s = Ret tt s' /\
    pair_inv s' oroot ot ou nroot nt nu0 fr' /\ keeps ou (mem s) (mem s') /\ us_step nu0 s nt nu fr s' nt nu0 fr'.
Proof.
  intros Hp (Hle & E & Hall) Hv. pose proof Hp as [_ _ I O _]. rewrite Z.sub_0_r in E.
  destruct (uvmunmap_ok s nroot nt nu fr 0 (Z.to_nat v) I O) as (s' & fr' & Hr & I' & O' & S'); try lia.
  { intros k Hk. apply Hall. lia. }
  rewrite Z2Nat.id in Hr by lia. rewrite E in *. rewrite vpn_div.
  destruct (pair_step _ _ _ _ _ _ _ _ _ _ _ _ _ Hp S' I' O'). exists s', fr'. done.
Qed.

(** The entry of the parent's page. *)
Lemma uvmcopy_pte s fr v : as_inv s oroot ot ou fr -> 0 <= v < npages sz ->
  exists pa perm r, ou !! v = Some (pa, perm) /\ walk oroot (v * PGSIZE) false s = Ret r s /\ r <> 0 /\
    load64 (mem s) r = mk_pte pa perm /\ (Z.land (mk_pte pa perm) PTE_V =? 0) = false /\
    PTE2PA (mk_pte pa perm) = pa /\ PTE_FLAGS (mk_pte pa perm) = Z.lor perm 1 /\ 0 <= perm < 1024.
Proof.
  intros I Hv. pose proof npages_UVPN as Hn. destruct (Hmapped v ltac:(lia)) as [[pa perm] Hu].
  assert (Hva : 0 <= v * PGSIZE < MAXVA) by (change UVPN with (2 ^ 26 - 2) in *; change MAXVA with (2 ^ 38); unfold PGSIZE; lia).
  pose proof (as_walk s oroot ot ou fr (v * PGSIZE) I Hva) as Hw. rewrite vpn_div, Hu in Hw.
  destruct Hw as (b & _ & Hw & Hr0 & Hl). destruct (as_range _ _ _ _ _ I _ _ _ Hu) as (_ & Hal & Hpa & Hperm).
  destruct (has_mk_pte pa perm Hpa Hperm) as [_ Hvalid].
  exists pa, perm, (b + 8 * PX 0 (v * PGSIZE)). rewrite PTE2PA_mk, PTE_FLAGS_mk by done.
  split_and!; try done; [by apply page_aligned_div | lia | lia].
Qed.

(** One iteration: the page is copied, or the call fails and is undone. *)
Lemma uvmcopy_step fuel s nt nu fr v :
  pair_inv s oroot ot ou nroot nt nu fr -> grown nu0 0 v nu -> v < npages sz ->
  (exists s' nt' fr', uvmcopy_loop (S fuel) oroot nroot (v * PGSIZE) sz s = Ret (-1) s' /\
     pair_inv s' oroot ot ou nroot nt' nu0 fr' /\ keeps ou (mem s) (mem s') /\ us_step nu0 s nt nu fr s' nt' nu0 fr') \/
  (exists s' nt' fr' (pa perm pg : Z), let nu' := <[v := (pg, Z.lor perm 1)]> nu in
     uvmcopy_loop (S fuel) oroot nroot (v * PGSIZE) sz s = uvmcopy_loop fuel oroot nroot ((v + 1) * PGSIZE) sz s' /\
     pair_inv s' oroot ot ou nroot nt' nu' fr' /\ keeps ou (mem s) (mem s') /\ us_step nu s nt nu fr s' nt' nu' fr' /\
     nu !! v = None /\ copied (mem s) ou (mem s') nu' v).
Proof.
  intros Hp G Hv. pose proof Hp as [I1 O1 I O _]. pose proof npages_UVPN as Hn. pose proof G as (Hle & E0 & _).
  destruct (uvmcopy_pte s fr v I1 ltac:(lia)) as (pa & perm & r & Hu & Hw & Hr0 & Hl & Hvalid & Hpa & Hfl & Hperm).
  cbn [uvmcopy_loop]. pose proof (npages_range sz ltac:(lia)) as Hnr.
  destruct (Z.ltb_spec (v * PGSIZE) sz); [|unfold PGSIZE in *; lia].
  erewrite bind_Ret by exact Hw. destruct (Z.eqb_spec r 0); [done |]. erewrite bind_Ret by reflexivity.
  rewrite Hl, Hvalid, Hpa, Hfl. destruct fr as [|pg fr].
  { erewrite bind_Ret by (apply kalloc_empty; apply I). rewrite Z.eqb_refl.
    destruct (uvmcopy_undo s nt nu [] v Hp G ltac:(lia)) as (s' & fr' & Hr & Hrest).
    erewrite bind_Ret by exact Hr. left. exists s', nt, fr'. done. }
  assert (Hnv : nu !! v = None).
  { specialize (Hnone v ltac:(lia)). rewrite <- E0, lookup_unmap in Hnone. by rewrite decide_False in Hnone by lia. }
  destruct (lor1_perm perm Hperm (own_perm _ _ _ O1 v pa perm Hu ltac:(lia))) as [Hpr Hp2].
  destruct (grow_map s nroot nt nu pg fr I O (fun m => CString.memmove m pg pa PGSIZE) v (Z.lor perm 1))
    as (s1 & r' & s3 & nt' & Hk & Hpg0 & Hm & Hs1 & Hcase); try done; try lia.
  { intros m x Hx. rewrite memmove_page. by case_decide. }
  erewrite bind_Ret by exact Hk. destruct (Z.eqb_spec pg 0); [done |].
  erewrite bind_Ret by reflexivity. erewrite bind_Ret by exact Hm.
  destruct Hcase as [(-> & fr' & I3 & O3 & S3 & _ & Hz) | (-> & s4 & Hk4 & I4 & O4 & S4 & _)]; cbn [Z.eqb negb].
  - right. destruct (pair_step _ _ _ _ _ _ _ _ _ _ _ _ _ Hp S3 I3 O3) as [Hp3 K3].
    exists s3, nt', fr', pa, perm, pg. split_and!; try done.
    { rewrite wrap_small by (change UVPN with (2 ^ 26 - 2) in *; unfold PGSIZE in *; lia). f_equal. lia. }
    destruct (own_page _ _ _ O1 pa ltac:(exists v, perm; split; [done | lia])) as (Hpaok & Hnf & _).
    assert (Hne : pg <> pa) by (intros ->; apply Hnf; left).
    exists pa, perm, pg. split_and!; [done | apply lookup_insert_eq | done |]. intros i Hi.
    rewrite Hz, memmove_page, decide_True by (unfold in_page; lia).
    replace (pa + (pg + i - pg)) with (pa + i) by lia. apply Hs1.
    eapply (page_sep pa pg); [done | eapply (owns_page_ok s); [exact I | exact O | left; left] | done | unfold in_page; lia].
  - left. erewrite bind_Ret by exact Hk4.
    destruct (pair_step _ _ _ _ _ _ _ _ _ _ _ _ _ Hp S4 I4 O4) as [Hp4 K4].
    destruct (uvmcopy_undo s4 nt' nu [pg] v Hp4 G ltac:(lia)) as (s' & fr' & Hr & Hp' & K' & S').
    erewrite bind_Ret by exact Hr. exists s', nt', fr'. split_and!; [done | done | by eapply keeps_trans |].
    eapply us_step_trans; [|exact S']. eapply us_step_mono; [by eapply grown_keeps | exact S4].
Qed.

Lemma copied_keeps m m1 m2 u u1 u2 v : v < UVPN -> copied m u m1 u1 v -> u1 ⊆ u2 -> keeps u1 m1 m2 -> copied m u m2 u2 v.
Proof.
  intros Hv (pa & perm & pg & A & B & C & D) Hs K. exists pa, perm, pg. split_and!; try done; [by eapply lookup_weaken |].
  intros i Hi. rewrite <- D by done. eapply K; [exact B | done | unfold in_page; lia].
Qed.

Lemma copied_before m m1 m2 u u' v : v < UVPN -> keeps u m m1 -> copied m1 u m2 u' v -> copied m u m2 u' v.
Proof.
  intros Hv K (pa & perm & pg & A & B & C & D). exists pa, perm, pg. split_and!; try done.
  intros i Hi. rewrite D by done. eapply K; [exact A | done | unfold in_page; lia].
Qed.

Lemma uvmcopy_loop_ok : forall n fuel s nt nu fr v,
  pair_inv s oroot ot ou nroot nt nu fr -> grown nu0 0 v nu -> v + Z.of_nat n = npages sz -> (n < fuel)%nat ->
  exists r s' nt' nu' fr', uvmcopy_loop fuel oroot nroot (v * PGSIZE) sz s = Ret r s' /\
    pair_inv s' oroot ot ou nroot nt' nu' fr' /\ keeps ou (mem s) (mem s') /\ us_step nu0 s nt nu fr s' nt' nu' fr' /\
    ((r = 0 /\ nu ⊆ nu' /\ unmap (Z.to_nat (npages sz)) 0 nu' = nu0 /\ keeps nu (mem s) (mem s') /\
      forall k, v <= k < npages sz -> copied (mem s) ou (mem s') nu' k) \/
     (r = -1 /\ nu' = nu0)).
Proof.
  pose proof npages_UVPN as Hnp.
  induction n as [|n IH]; intros fuel s nt nu fr v Hp G Hn Hfuel; (destruct fuel as [|fuel]; [lia |]).
  { cbn [uvmcopy_loop]. pose proof (npages_range sz ltac:(lia)). destruct G as (_ & E0 & _).
    destruct (Z.ltb_spec (v * PGSIZE) sz); [unfold PGSIZE in *; lia |].
    exists 0, s, nt, nu, fr. split_and!; auto using us_step_refl; try (by intros ?). left. split_and!; try done.
    - replace (npages sz) with v by lia. by rewrite Z.sub_0_r in E0.
    - intros k Hk. lia. }
  destruct (uvmcopy_step fuel s nt nu fr v Hp G ltac:(lia)) as
    [(s' & nt' & fr' & -> & Hrest) | (s1 & nt1 & fr1 & pa & perm & pg & -> & Hp1 & K1 & S1 & Hnv & Hc1)].
  { exists (-1), s', nt', nu0, fr'. split_and!; try apply Hrest; auto. }
  set (nu1 := <[v:=_]> nu) in *.
  destruct (IH fuel s1 nt1 nu1 fr1 (v + 1) Hp1) as (r & s' & nt' & nu' & fr' & -> & Hp' & K' & S' & Hc); try lia.
  { by apply grown_insert. }
  assert (Hsub : nu ⊆ nu1) by (by apply insert_subseteq).
  exists r, s', nt', nu', fr'. split_and!; [done | done | by eapply keeps_trans | |].
  { eapply us_step_trans; [|exact S']. eapply us_step_mono; [by eapply grown_keeps | exact S1]. }
  destruct Hc as [(-> & Hsub' & E' & Kn & Hcp) | [-> ->]]; [left | by right].
  split_and!; [done | by transitivity nu1 | done | |].
  - eapply keeps_trans; [apply S1 | by eapply keeps_mono].
  - intros k Hk. destruct (decide (k = v)) as [->|].
    + eapply copied_keeps; [lia | exact Hc1 | exact Hsub' | exact Kn].
    + eapply copied_before; [lia | exact K1 | apply Hcp; lia].
Qed.
End uvmcopy.
End usermem.
