(* ===== verification/CopyUser.v ===== *)
(** * copyin, copyout and copyinstr

    What the three routines do to user memory as the user sees it ([umem]):
    they read and write exactly the bytes of the range, page by page, and
    report the first byte that is not mapped for the user. *)

From S2P Require Import Prelude State Mem CString Spinlock Memlayout Kalloc Vm PageTable AddrSpace UserMem.

(** The [n] bytes the user has at [va]; [None] if one of them faults. *)
Fixpoint uread (m : memory) (u : uspace) (va : Z) (n : nat) : option (list Z) :=
  match n with
  | O => Some []
  | S n => b ← umem m u va; l ← uread m u (va + 1) n; Some (b :: l)
  end.

(** Where [walkaddr] sends a virtual address. *)
Definition uaddr (u : uspace) (va : Z) : Z :=
  match u !! (va / PGSIZE) with
  | Some (pa, perm) => if Z.land perm PTE_U =? 0 then 0 else pa
  | None => 0
  end.

(** Only pages of the process itself are open to user code. *)
Definition user_low (u : uspace) : Prop :=
  forall vpn pa perm, u !! vpn = Some (pa, perm) -> Z.land perm PTE_U <> 0 -> vpn < UVPN.

Lemma uread_app m u va n k :
  uread m u va (n + k) =
    (l ← uread m u va n; l' ← uread m u (va + Z.of_nat n) k; Some (l ++ l')).
Proof.
  revert va; induction n; intros va; cbn [uread Nat.add].
  - rewrite Z.add_0_r. cbn. by destruct (uread m u va k).
  - destruct (umem m u va); [|done]. cbn. rewrite IHn. replace (va + 1 + Z.of_nat n) with (va + Z.of_nat (S n)) by lia.
    destruct (uread m u (va + 1) n); [|done]. cbn. by destruct (uread _ _ _ k).
Qed.

Lemma uread_length m u va n l : uread m u va n = Some l -> length l = n.
Proof.
  revert va l; induction n; intros va l; cbn [uread]; [by intros [= <-] |].
  destruct (umem m u va); [|done]. cbn. destruct (uread m u (va + 1) n) eqn:E; [|done]. cbn.
  intros [= <-]. cbn. by erewrite IHn.
Qed.

Lemma uread_spec m u va n l : uread m u va n = Some l <->
  length l = n /\ forall i : nat, (i < n)%nat -> umem m u (va + Z.of_nat i) = l !! i.
Proof.
  revert va l; induction n; intros va l; cbn [uread].
  - split; [intros [= <-]; split; [done | lia] |]. intros [Hl _]. by destruct l.
  - split.
    + destruct (umem m u va) as [b|] eqn:Eb; [|done]. cbn. destruct (uread m u (va + 1) n) as [l'|] eqn:E; [|done].
      cbn. intros [= <-]. apply IHn in E as [Hl Hi]. split; [cbn; lia |]. intros [|i] Hlt; [by rewrite Z.add_0_r |].
      cbn. rewrite <- Hi by lia. f_equal. lia.
    + intros [Hl Hi]. destruct l as [|b l]; [done |]. injection Hl as Hl.
      pose proof (Hi O ltac:(lia)) as H0. rewrite Z.add_0_r in H0. rewrite H0. cbn.
      assert (E : uread m u (va + 1) n = Some l).
      { apply IHn. split; [done |]. intros i Hlt. pose proof (Hi (S i) ltac:(lia)) as Hs. change (umem m u (va + Z.of_nat (S i)) = l !! i) in Hs.
        rewrite <- Hs. f_equal. lia. }
      by rewrite E.
Qed.

Lemma page_div va i : 0 <= i -> va mod PGSIZE + i < PGSIZE ->
  (va + i) / PGSIZE = va / PGSIZE /\ (va + i) mod PGSIZE = va mod PGSIZE + i.
Proof.
  intros Hi Hlt. pose proof (Z.div_mod va PGSIZE ltac:(done)). pose proof (Z.mod_pos_bound va PGSIZE ltac:(done)).
  assert (E : (va + i) / PGSIZE = va / PGSIZE) by (symmetry; apply (Z.div_unique _ _ _ (va mod PGSIZE + i)); lia).
  split; [done |]. symmetry. apply (Z.mod_unique _ _ (va / PGSIZE)); lia.
Qed.

(** One chunk inside a page. *)
Lemma uread_page m u va (n : nat) : va mod PGSIZE + Z.of_nat n <= PGSIZE -> (n > 0)%nat ->
  uread m u va n =
    match u !! (va / PGSIZE) with
    | Some (pa, perm) => if Z.land perm PTE_U =? 0 then None else Some (load_bytes m (pa + va mod PGSIZE) n)
    | None => None
    end.
Proof.
  revert va; induction n as [|n IH]; intros va Hn Hpos; [lia |]. cbn [uread]. unfold umem.
  destruct (u !! (va / PGSIZE)) as [[pa perm]|] eqn:E; [|done]. destruct (Z.land perm PTE_U =? 0) eqn:Eu; [done |].
  cbn. destruct n; [done |]. destruct (page_div va 1 ltac:(lia) ltac:(lia)) as [Hd Hm].
  rewrite IH by lia. rewrite Hd, E, Eu, Hm. rewrite Z.add_assoc. done.
Qed.

Section copyuser.
Context `{HL : Layout} {HOk : LayoutOk HL}.

Lemma PTE_U_mk pa perm : 0 <= pa < 2 ^ 56 -> 0 <= perm < 1024 -> Z.land (mk_pte pa perm) PTE_U = Z.land perm PTE_U.
Proof.
  intros. rewrite mk_pte_flag by (done || (change PTE_U with 16; lia)).
  change PTE_U with 16. rewrite Z.land_lor_distr_l. change (Z.land 1 16) with 0. apply Z.lor_0_r.
Qed.

Lemma walkaddr_ok s root t u fr va : as_inv s root t u fr -> 0 <= va -> walkaddr root va s = Ret (uaddr u va) s.
Proof.
  intros I Hva. unfold walkaddr, uaddr. destruct (Z.leb_spec MAXVA va) as [Hmax|Hmax].
  - destruct (u !! (va / PGSIZE)) as [[pa perm]|] eqn:E; [|done]. exfalso.
    destruct (as_range _ _ _ _ _ I _ _ _ E) as (Hr & _). change (MAXVA / PGSIZE) with (2 ^ 26) in Hr.
    change MAXVA with (2 ^ 38) in Hmax. pose proof (Z.div_mod va PGSIZE ltac:(done)).
    pose proof (Z.mod_pos_bound va PGSIZE ltac:(done)). unfold PGSIZE in *. lia.
  - pose proof (as_walk s root t u fr va I ltac:(lia)) as Hw.
    destruct (u !! (va / PGSIZE)) as [[pa perm]|] eqn:E.
    + destruct Hw as (b & _ & Hw & Hr0 & Hl). erewrite bind_Ret by exact Hw.
      destruct (Z.eqb_spec (b + 8 * PX 0 va) 0); [done |]. unfold load_pte. mred. rewrite Hl.
      destruct (as_range _ _ _ _ _ I _ _ _ E) as (_ & Hal & Hpa & Hperm).
      destruct (has_mk_pte pa perm Hpa Hperm) as [_ ->]. rewrite PTE_U_mk by done.
      destruct (Z.land perm PTE_U =? 0); [done |]. rewrite PTE2PA_mk by done. by rewrite page_aligned_div.
    + destruct Hw as (r & Hw & Hr). erewrite bind_Ret by exact Hw. destruct (Z.eqb_spec r 0); [done |].
      destruct Hr as [|Hr]; [done |]. unfold load_pte. mred. unfold has in Hr.
      by destruct (Z.land (load64 (mem s) r) PTE_V =? 0).
Qed.

Section reading.
Context (s : kernel) (root : Z) (t : ptree) (u : uspace) (fr : list Z).
Context (I : as_inv s root t u fr) (O : own_inv t u fr) (L : user_low u).

Lemma uaddr_page va : match u !! (va / PGSIZE) with
  | Some (pa, perm) => if Z.land perm PTE_U =? 0 then uaddr u va = 0 else uaddr u va = pa /\ pa <> 0 /\ page_ok pa
  | None => uaddr u va = 0 end.
Proof.
  unfold uaddr. destruct (u !! (va / PGSIZE)) as [[pa perm]|] eqn:E; [|done].
  destruct (Z.eqb_spec (Z.land perm PTE_U) 0); [done |].
  destruct (own_page _ _ _ O pa) as (Hok & _); [exists (va / PGSIZE), perm; split; [done | by eapply L] |].
  pose proof (page_ok_pos pa Hok). split_and!; [done | lia | done].
Qed.

(** The chunk that starts at [va]. *)
Lemma uread_chunk va (n : nat) : va mod PGSIZE + Z.of_nat n <= PGSIZE -> (n > 0)%nat ->
  uread (mem s) u va n = if uaddr u va =? 0 then None else Some (load_bytes (mem s) (uaddr u va + va mod PGSIZE) n).
Proof.
  intros Hn Hpos. rewrite uread_page by done. pose proof (uaddr_page va) as Hu.
  destruct (u !! (va / PGSIZE)) as [[pa perm]|]; [|by rewrite Hu].
  destruct (Z.land perm PTE_U =? 0); [by rewrite Hu |]. destruct Hu as (-> & Hne & _).
  by destruct (Z.eqb_spec pa 0).
Qed.

Lemma uaddr_down va : uaddr u (PGROUNDDOWN va) = uaddr u va.
Proof. unfold uaddr. rewrite PGROUNDDOWN_eq. by rewrite Z.div_mul. Qed.

(** The arithmetic of one iteration: the rest of the range starts on a page
    boundary and takes one page less. *)
Lemma chunk_next va len : 0 <= va -> 0 < len -> va + len < 2 ^ 63 ->
  let n := Z.min (PGSIZE - (va - PGROUNDDOWN va)) len in
  0 < n <= len /\ va mod PGSIZE + n <= PGSIZE /\ va - PGROUNDDOWN va = va mod PGSIZE /\
  u64 (PGROUNDDOWN va + PGSIZE) = va / PGSIZE * PGSIZE + PGSIZE /\
  (n < len -> va / PGSIZE * PGSIZE + PGSIZE = va + n) /\
  npages ((va / PGSIZE * PGSIZE + PGSIZE) mod PGSIZE + (len - n)) < npages (va mod PGSIZE + len) /\
  va / PGSIZE * PGSIZE + PGSIZE + (len - n) < 2 ^ 63 + PGSIZE.
Proof.
  intros Hva Hlen Hmax n. unfold n. rewrite PGROUNDDOWN_eq.
  pose proof (Z.div_mod va PGSIZE ltac:(done)) as Hd. pose proof (Z.mod_pos_bound va PGSIZE ltac:(done)) as Hm.
  replace (va - va / PGSIZE * PGSIZE) with (va mod PGSIZE) by lia.
  replace ((va / PGSIZE * PGSIZE + PGSIZE) mod PGSIZE) with 0
    by (replace (va / PGSIZE * PGSIZE + PGSIZE) with ((va / PGSIZE + 1) * PGSIZE) by lia; by rewrite Z_mod_mult).
  rewrite wrap_small by (unfold PGSIZE in *; lia).
  set (off := va mod PGSIZE) in *. set (k := Z.min (PGSIZE - off) len).
  split_and!; try (unfold k, PGSIZE in *; lia).
  pose proof (npages_range (0 + (len - k)) ltac:(unfold k; lia)). pose proof (npages_range (off + len) ltac:(lia)).
  unfold k, PGSIZE in *. lia.
Qed.
End reading.

Lemma PGROUNDDOWN_nonneg va : 0 <= va -> 0 <= PGROUNDDOWN va.
Proof. intros. rewrite PGROUNDDOWN_eq. pose proof (Z.div_pos va PGSIZE ltac:(done) ltac:(done)). unfold PGSIZE in *. lia. Qed.

Lemma npages_nonneg sz : 0 <= sz -> 0 <= npages sz.
Proof. intros. pose proof (npages_range sz ltac:(done)). unfold PGSIZE in *. lia. Qed.

Lemma range_pages va len : 0 <= len -> 0 <= npages (va mod PGSIZE + len).
Proof. intros. apply npages_nonneg. pose proof (Z.mod_pos_bound va PGSIZE ltac:(done)). lia. Qed.

(** ** copyin *)

Lemma copyin_loop_ok s root t u fr : as_inv s root t u fr -> own_inv t u fr -> user_low u ->
  forall fuel va len dst, 0 <= va -> 0 <= len -> va + len < 2 ^ 62 -> npages (va mod PGSIZE + len) < Z.of_nat fuel ->
  exists r l, copyin_loop fuel root va len dst s = Ret (r, dst ++ l) s /\
    ((r = 0 /\ uread (mem s) u va (Z.to_nat len) = Some l) \/ (r = -1 /\ uread (mem s) u va (Z.to_nat len) = None)).
Proof.
  intros I O L. induction fuel as [|fuel IH]; intros va len dst Hva Hlen Hmax Hfuel.
  { pose proof (range_pages va len Hlen). lia. }
  cbn [copyin_loop]. destruct (Z.ltb_spec 0 len).
  2: { exists 0, []. rewrite app_nil_r. split; [done | left]. replace len with 0 by lia. done. }
  destruct (chunk_next va len) as (Hn1 & Hn2 & Hoff & Hu64 & Hnext & Hpages & Hmax'); [lia | lia | lia |].
  rewrite Hoff in *. set (n := Z.min _ _) in *.
  erewrite bind_Ret by (eapply walkaddr_ok; [exact I | by apply PGROUNDDOWN_nonneg]).
  rewrite uaddr_down. replace (Z.to_nat len) with (Z.to_nat n + Z.to_nat (len - n))%nat by lia. rewrite uread_app.
  rewrite (uread_chunk s t u fr O L va) by lia. destruct (Z.eqb_spec (uaddr u va) 0).
  { exists (-1), []. rewrite app_nil_r. split; [done | by right]. }
  unfold read_bytes. erewrite bind_Ret by reflexivity. rewrite Hu64.
  destruct (decide (n < len)) as [Hlt|Hge].
  - specialize (Hnext Hlt). rewrite Hnext in *.
    destruct (IH (va + n) (len - n) (dst ++ load_bytes (mem s) (uaddr u va + va mod PGSIZE) (Z.to_nat n)))
      as (r & l & -> & Hc); try lia.
    rewrite <- app_assoc. eexists r, _. split; [reflexivity |]. rewrite Z2Nat.id by lia. cbn.
    destruct Hc as [[-> ->] | [-> ->]]; [left | right]; done.
  - replace (len - n) with 0 by lia. destruct fuel as [|fuel].
    { pose proof (range_pages (va / PGSIZE * PGSIZE + PGSIZE) (len - n) ltac:(lia)). lia. }
    cbn [copyin_loop Z.ltb Z.compare]. eexists 0, _. split; [reflexivity |]. left. split; [done |]. cbn.
    change (Z.to_nat 0) with 0%nat. cbn. by rewrite app_nil_r.
Qed.

(** ** copyout *)

Definition user_frame (u : uspace) (m m' : memory) : Prop :=
  forall x, (forall a, is_user u a -> ~ in_page a x) -> load8 m' x = load8 m x.

Section write.
Context (s : kernel) (root : Z) (t : ptree) (u : uspace) (fr : list Z).
Context (I : as_inv s root t u fr) (O : own_inv t u fr) (L : user_low u).
Context (va : Z) (l : list Z) (Hva : va mod PGSIZE + Z.of_nat (length l) <= PGSIZE) (Hne : uaddr u va <> 0).
Context (Hl : Forall is_byte l).

Let m' := store_bytes (mem s) (uaddr u va + va mod PGSIZE) l.

Lemma write_user : exists pa perm, u !! (va / PGSIZE) = Some (pa, perm) /\ Z.land perm PTE_U <> 0 /\
  va / PGSIZE < UVPN /\ uaddr u va = pa /\ page_ok pa /\ is_user u pa.
Proof.
  pose proof (uaddr_page t u fr O L va) as Hu. destruct (u !! (va / PGSIZE)) as [[pa perm]|] eqn:E; [|done].
  destruct (Z.eqb_spec (Z.land perm PTE_U) 0); [done |]. destruct Hu as (Hu & _ & Hok).
  assert (va / PGSIZE < UVPN) by (by eapply L). exists pa, perm. split_and!; try done. by exists (va / PGSIZE), perm.
Qed.

Lemma write_outside x : ~ in_page (uaddr u va) x -> load8 m' x = load8 (mem s) x.
Proof.
  intros Hx. apply load8_store_bytes_ne. pose proof (Z.mod_pos_bound va PGSIZE ltac:(done)).
  unfold in_page in Hx. lia.
Qed.

Lemma write_as : as_inv (set_mem m' s) root t u fr /\ user_frame u (mem s) m'.
Proof.
  destruct write_user as (pa & perm & Hu & _ & _ & Hpa & Hok & Huser). split.
  - apply as_write; [done |]. intros a x Ha Hx. apply write_outside. rewrite Hpa. intros Hx'.
    destruct (own_page _ _ _ O pa Huser) as (_ & Hnf & Hnt).
    eapply (page_sep pa a); [done | | | done | done].
    + eapply (owns_page_ok s root t u fr); [exact I | exact O |]. unfold owns. tauto.
    + intros ->. by destruct Ha.
  - intros x Hx. apply write_outside. rewrite Hpa. by apply Hx.
Qed.

(** The user sees exactly the written bytes change. *)
Lemma write_umem va' : umem m' u va' =
  if decide (va <= va' < va + Z.of_nat (length l)) then l !! Z.to_nat (va' - va) else umem (mem s) u va'.
Proof.
  destruct write_user as (pa & perm & Hu & HU & HV & Hpa & Hok & Huser). unfold m'. rewrite Hpa.
  pose proof (Z.div_mod va PGSIZE ltac:(done)) as Hdm. pose proof (Z.mod_pos_bound va PGSIZE ltac:(done)) as Hmb.
  unfold umem. destruct (decide (va <= va' < va + Z.of_nat (length l))) as [Hin|Hout].
  - destruct (page_div va (va' - va)) as [Hd Hm]; [lia | lia |].
    replace (va + (va' - va)) with va' in * by lia. rewrite Hd, Hu, Hm.
    destruct (Z.eqb_spec (Z.land perm PTE_U) 0); [done |].
    rewrite load8_store_bytes, decide_True by lia.
    replace (pa + (va mod PGSIZE + (va' - va)) - (pa + va mod PGSIZE)) with (va' - va) by lia.
    rewrite list_lookup_lookup_total_lt by lia. f_equal. apply wrap_small.
    eapply (Forall_lookup_total_1 is_byte); [done | lia].
  - destruct (u !! (va' / PGSIZE)) as [[pa' perm']|] eqn:E'; [|done].
    destruct (Z.eqb_spec (Z.land perm' PTE_U) 0) as [|HU']; [done |]. f_equal.
    pose proof (Z.div_mod va' PGSIZE ltac:(done)) as Hdm'. pose proof (Z.mod_pos_bound va' PGSIZE ltac:(done)) as Hmb'.
    apply load8_store_bytes_ne. intros Hx.
    destruct (decide (pa' = pa)) as [->|Hne'].
    + assert (Hv : va' / PGSIZE = va / PGSIZE) by (eapply (own_inj _ _ _ O); eauto). rewrite Hv in *. lia.
    + destruct (own_page _ _ _ O pa') as ([Hal' _] & _); [exists (va' / PGSIZE), perm'; split; [done | by eapply L] |].
      destruct (page_disjoint pa' pa Hal' (proj1 Hok) Hne'); lia.
Qed.
End write.

Lemma copyout_loop_ok root t u fr : own_inv t u fr -> user_low u ->
  forall fuel s va src len, as_inv s root t u fr -> Forall is_byte src -> Z.of_nat (length src) = len ->
  0 <= va -> va + len < 2 ^ 62 -> npages (va mod PGSIZE + len) < Z.of_nat fuel ->
  exists r m', let s' := set_mem m' s in
    copyout_loop fuel root va src len s = Ret r s' /\ as_inv s' root t u fr /\ user_frame u (mem s) m' /\
    ((r = 0 /\ forall va', umem m' u va' =
        if decide (va <= va' < va + len) then src !! Z.to_nat (va' - va) else umem (mem s) u va') \/
     (r = -1 /\ (exists va', va <= va' < va + len /\ umem (mem s) u va' = None) /\
        forall va', ~ (va <= va' < va + len) -> umem m' u va' = umem (mem s) u va')).
Proof.
  intros O L. induction fuel as [|fuel IH]; intros s va src len I Hb Hlen Hva Hmax Hfuel.
  { pose proof (range_pages va len ltac:(lia)). lia. }
  cbn [copyout_loop]. destruct (Z.ltb_spec 0 len).
  2: { exists 0, (mem s). split_and!; try done. left. split; [done |]. intros va'. rewrite decide_False by lia. done. }
  destruct (chunk_next va len) as (Hn1 & Hn2 & Hoff & Hu64 & Hnext & Hpages & Hmax'); [lia | lia | lia |].
  rewrite Hoff in *. set (n := Z.min _ _) in *.
  erewrite bind_Ret by (eapply walkaddr_ok; [exact I | by apply PGROUNDDOWN_nonneg]). rewrite uaddr_down.
  destruct (Z.eqb_spec (uaddr u va) 0) as [E0|Hne].
  { exists (-1), (mem s). split_and!; try done. right. split_and!; try done. exists va. split; [lia |].
    pose proof (uaddr_page t u fr O L va) as Hp. unfold umem. destruct (u !! (va / PGSIZE)) as [[pa perm]|]; [|done].
    destruct (Z.land perm PTE_U =? 0); [done |]. naive_solver. }
  set (l := take (Z.to_nat n) src). assert (Hll : Z.of_nat (length l) = n) by (unfold l; rewrite length_take; lia).
  assert (Hbl : Forall is_byte l) by (by apply Forall_take).
  destruct (write_as s root t u fr I O L va l ltac:(lia) Hne) as [I1 F1].
  pose proof (write_umem s t u fr O L va l ltac:(lia) Hne Hbl) as W1.
  unfold write_bytes. erewrite bind_Ret by reflexivity. rewrite Hu64. set (m1 := store_bytes _ _ l) in *.
  assert (Hstep : exists r m', let s' := set_mem m' s in
    copyout_loop fuel root (va / PGSIZE * PGSIZE + PGSIZE) (drop (Z.to_nat n) src) (len - n) (set_mem m1 s) = Ret r s' /\
    as_inv s' root t u fr /\ user_frame u m1 m' /\
    ((r = 0 /\ forall va', umem m' u va' =
        if decide (va + n <= va' < va + len) then src !! Z.to_nat (va' - va) else umem m1 u va') \/
     (r = -1 /\ (exists va', va + n <= va' < va + len /\ umem m1 u va' = None) /\
        forall va', ~ (va + n <= va' < va + len) -> umem m' u va' = umem m1 u va'))).
  { destruct (decide (n < len)) as [Hlt|Hge].
    - specialize (Hnext Hlt). rewrite Hnext in *.
      destruct (IH (set_mem m1 s) (va + n) (drop (Z.to_nat n) src) (len - n) I1) as (r & m' & Hr & I' & F' & Hc);
        try (rewrite length_drop); try lia; [by apply Forall_drop |].
      replace (va + n + (len - n)) with (va + len) in Hc by lia.
      exists r, m'. split_and!; try done. destruct Hc as [[-> Hu] | (-> & Hx & Hu)]; [left | by right].
      split; [done |]. intros va'. rewrite Hu. case_decide; [|done]. rewrite lookup_drop. f_equal. lia.
    - destruct fuel as [|fuel]; [pose proof (range_pages (va / PGSIZE * PGSIZE + PGSIZE) (len - n) ltac:(lia)); lia |].
      cbn [copyout_loop]. replace (len - n) with 0 by lia. exists 0, m1. split_and!; try done. left. split; [done |].
      intros va'. rewrite decide_False by lia. done. }
  destruct Hstep as (r & m' & Hr & I' & F' & Hc). exists r, m'. split_and!; [done | done | |].
  { intros x Hx. rewrite F' by done. by apply F1. }
  destruct Hc as [[-> Hu] | (-> & (y & Hy & Hyn) & Hu)]; [left | right]; split_and!; try done.
  - intros va'. rewrite Hu, W1, Hll. repeat case_decide; try lia; try done. unfold l. rewrite lookup_take_lt by lia. done.
  - exists y. split; [lia |]. by rewrite W1, decide_False in Hyn by lia.
  - intros va' Hv. rewrite Hu, W1, decide_False by lia. done.
Qed.

(** ** copyinstr *)

(** The NUL-terminated string the user has at [va]. *)
Definition ustring (m : memory) (u : uspace) (va : Z) (str : list Z) : Prop :=
  Forall (fun b => b <> 0) str /\ uread m u va (S (length str)) = Some (str ++ [0]).

Lemma copyinstr_page_spec n m p :
  (exists str, copyinstr_page n m p = (str ++ [0], true) /\ Forall (fun b => b <> 0) str /\
     (length str < n)%nat /\ load_bytes m p (S (length str)) = str ++ [0]) \/
  (copyinstr_page n m p = (load_bytes m p n, false) /\ Forall (fun b => b <> 0) (load_bytes m p n)).
Proof.
  revert p; induction n; intros p; cbn [copyinstr_page load_bytes]; [right; by constructor |].
  destruct (Z.eqb_spec (load8 m p) 0) as [E|E].
  - left. exists []. cbn. rewrite E. split_and!; [done | constructor | lia | done].
  - destruct (IHn (p + 1)) as [(str & -> & Hs & Hlt & Hl) | [-> Hs]]; [left | right].
    + exists (load8 m p :: str). split_and!; [done | by constructor | cbn; lia |].
      cbn [length]. cbn [load_bytes] in Hl |- *. by rewrite Hl.
    + split; [done | by constructor].
Qed.

Lemma ustring_skip m u va n l str :
  uread m u va n = Some l -> Forall (fun b => b <> 0) l -> ustring m u va str ->
  exists str', str = l ++ str' /\ ustring m u (va + Z.of_nat n) str'.
Proof.
  intros Hl Hnz [Hs Hr]. pose proof (uread_length _ _ _ _ _ Hl) as Hlen.
  apply uread_spec in Hl as [_ Hl], Hr as [_ Hr].
  assert (Hge : (n <= length str)%nat).
  { destruct (decide (n <= length str)%nat) as [|Hlt]; [done |]. exfalso.
    specialize (Hl (length str) ltac:(lia)). rewrite (Hr (length str) ltac:(lia)) in Hl.
    rewrite lookup_app_r, Nat.sub_diag in Hl by lia. symmetry in Hl. cbn in Hl.
    by eapply Forall_lookup_1 in Hl; [|exact Hnz]. }
  assert (Hpre : take n str = l).
  { apply list_eq. intros i. destruct (decide (i < n)%nat).
    - rewrite lookup_take_lt by lia. rewrite <- Hl by lia. rewrite Hr by lia. by rewrite lookup_app_l by lia.
    - rewrite lookup_take_ge by lia. rewrite lookup_ge_None_2 by lia. done. }
  exists (drop n str). rewrite <- Hpre. split; [by rewrite take_drop |]. split; [by apply Forall_drop |].
  apply uread_spec. rewrite length_app, length_drop. split; [cbn; lia |]. intros i Hi.
  replace (va + Z.of_nat n + Z.of_nat i) with (va + Z.of_nat (n + i)) by lia. rewrite Hr by lia.
  destruct (decide (n + i < length str)%nat).
  - rewrite !lookup_app_l by (rewrite ?length_drop; lia). by rewrite lookup_drop.
  - rewrite !lookup_app_r by (rewrite ?length_drop; lia). rewrite length_drop. f_equal. lia.
Qed.

Lemma ustring_app m u va n l str :
  uread m u va n = Some l -> Forall (fun b => b <> 0) l -> ustring m u (va + Z.of_nat n) str -> ustring m u va (l ++ str).
Proof.
  intros Hl Hnz [Hs Hr]. pose proof (uread_length _ _ _ _ _ Hl) as Hlen. split; [by apply Forall_app |].
  rewrite length_app, Hlen. replace (S (n + length str)) with (n + S (length str))%nat by lia.
  rewrite uread_app, Hl. cbn [mbind option_bind]. rewrite Hr. cbn. by rewrite app_assoc.
Qed.

Lemma copyinstr_loop_ok s root t u fr : as_inv s root t u fr -> own_inv t u fr -> user_low u ->
  forall fuel va max dst, 0 <= va -> 0 <= max -> va + max < 2 ^ 62 -> npages (va mod PGSIZE + max) < Z.of_nat fuel ->
  exists r l, copyinstr_loop fuel root va max dst s = Ret (r, dst ++ l) s /\
    ((r = 0 /\ exists str, l = str ++ [0] /\ ustring (mem s) u va str /\ Z.of_nat (length str) < max) \/
     (r = -1 /\ forall str, ustring (mem s) u va str -> max <= Z.of_nat (length str))).
Proof.
  intros I O L. induction fuel as [|fuel IH]; intros va max dst Hva Hmax Hlim Hfuel.
  { pose proof (range_pages va max Hmax). lia. }
  cbn [copyinstr_loop]. destruct (Z.ltb_spec 0 max).
  2: { exists (-1), []. rewrite app_nil_r. split; [done | right]. split; [done |]. intros. lia. }
  destruct (chunk_next va max) as (Hn1 & Hn2 & Hoff & Hu64 & Hnext & Hpages & Hmax'); [lia | lia | lia |].
  rewrite Hoff in *. set (n := Z.min _ _) in *.
  erewrite bind_Ret by (eapply walkaddr_ok; [exact I | by apply PGROUNDDOWN_nonneg]). rewrite uaddr_down.
  assert (Hchunk : forall k, (0 < k)%nat -> Z.of_nat k <= n -> uread (mem s) u va k =
    if uaddr u va =? 0 then None else Some (load_bytes (mem s) (uaddr u va + va mod PGSIZE) k)).
  { intros k Hk Hkn. apply (uread_chunk s t u fr O L va); lia. }
  destruct (Z.eqb_spec (uaddr u va) 0).
  { exists (-1), []. rewrite app_nil_r. split; [done | right]. split; [done |]. intros str [_ Hr]. exfalso.
    pose proof (Hchunk 1%nat ltac:(lia) ltac:(lia)) as H1. cbn [uread] in H1, Hr. destruct (umem (mem s) u va); done. }
  erewrite bind_Ret by reflexivity.
  destruct (copyinstr_page_spec (Z.to_nat n) (mem s) (uaddr u va + va mod PGSIZE))
    as [(str & -> & Hs & Hlt & Hl) | [-> Hs]].
  { exists 0, (str ++ [0]). split; [done | left]. split; [done |]. exists str. split_and!; [done | | lia].
    split; [done |]. by rewrite Hchunk, Hl by lia. }
  rewrite Hu64. pose proof (Hchunk (Z.to_nat n) ltac:(lia) ltac:(lia)) as Hc. set (l := load_bytes _ _ _) in *.
  assert (Hll : Z.of_nat (length l) = n) by (unfold l; rewrite length_load_bytes; lia).
  destruct (decide (n < max)) as [Hlt|Hge].
  - specialize (Hnext Hlt). rewrite Hnext in *.
    destruct (IH (va + n) (max - n) (dst ++ l)) as (r & l' & -> & Hcase); try lia.
    rewrite <- app_assoc. exists r, (l ++ l'). split; [done |].
    replace (va + n) with (va + Z.of_nat (Z.to_nat n)) in Hcase by lia.
    destruct Hcase as [(-> & str & -> & Hstr & Hlen) | [-> Hno]]; [left | right]; (split; [done |]).
    + exists (l ++ str). rewrite length_app. split_and!; [by rewrite app_assoc | by eapply ustring_app | lia].
    + intros str Hstr. destruct (ustring_skip _ _ _ _ _ _ Hc Hs Hstr) as (str' & -> & Hstr').
      specialize (Hno str' Hstr'). rewrite length_app. lia.
  - destruct fuel as [|fuel]; [pose proof (range_pages (va / PGSIZE * PGSIZE + PGSIZE) (max - n) ltac:(lia)); lia |].
    replace (max - n) with 0 by lia. cbn [copyinstr_loop Z.ltb Z.compare].
    exists (-1), l. split; [done | right]. split; [done |]. intros str Hstr.
    destruct (ustring_skip _ _ _ _ _ _ Hc Hs Hstr) as (str' & -> & _). rewrite length_app. lia.
Qed.
End copyuser.
