(* ===== verification/FreeWalk.v ===== *)
(** * freewalk: giving back the pages of a page table *)

From S2P Require Import Prelude State Mem CString Spinlock Memlayout Kalloc Vm PageTable AddrSpace UserMem.

Section freewalk.
Context `{HL : Layout} {HOk : LayoutOk HL}.

(** Facts about the tree alone. *)
Record tree_ok (t : ptree) : Prop := mkTreeOk {
  tr_inj : forall p q a, t !! p = Some a -> t !! q = Some a -> p = q;
  tr_page : forall p a, t !! p = Some a -> page_ok a;
  tr_len : forall p a, t !! p = Some a -> (length p <= 2)%nat;
  tr_parent : forall p i a, t !! (p ++ [i]) = Some a -> is_Some (t !! p) /\ 0 <= i < 512
}.

(** Memory holds the tables of [t] at and below path [q], with no leaf mapped. *)
Definition sub_ok (m : memory) (t : ptree) (q : list Z) : Prop :=
  forall q' b i, t !! (q ++ q') = Some b -> 0 <= i < 512 ->
    match t !! (q ++ q' ++ [i]) with
    | Some c => load64 m (b + 8 * i) = mk_pte c 0
    | None => has (load64 m (b + 8 * i)) PTE_V = false
    end.

Definition below (t : ptree) (q : list Z) (b : Z) : Prop := exists q', t !! (q ++ q') = Some b.

Lemma sub_ok_agree m m' t q :
  (forall b x, below t q b -> in_page b x -> load8 m' x = load8 m x) -> sub_ok m t q -> sub_ok m' t q.
Proof.
  intros Hm Hs q' b i Hb Hi. specialize (Hs q' b i Hb Hi).
  rewrite (load64_agree m' m); [done |]. intros x Hx. eapply Hm; [by exists q' | by eapply entry_in_page].
Qed.

Lemma sub_ok_child m t q i : sub_ok m t q -> sub_ok m t (q ++ [i]).
Proof. intros Hs q' b j Hb Hj. specialize (Hs (i :: q') b j). rewrite <- !app_assoc in *. by apply Hs. Qed.

Lemma below_child t q i b : below t (q ++ [i]) b <-> exists q', t !! (q ++ i :: q') = Some b.
Proof. unfold below. by setoid_rewrite <- app_assoc. Qed.

Lemma tree_parents t : tree_ok t -> forall q q', is_Some (t !! (q ++ q')) -> is_Some (t !! q).
Proof.
  intros T q q'. induction q' as [|i q' IH] using rev_ind; [by rewrite app_nil_r |].
  intros [a Ha]. rewrite app_assoc in Ha. apply (tr_parent _ T) in Ha as [? _]. auto.
Qed.

Lemma child_index t q j q' b : tree_ok t -> t !! (q ++ j :: q') = Some b -> 0 <= j < 512 /\ is_Some (t !! (q ++ [j])).
Proof.
  intros T Hb. replace (q ++ j :: q') with ((q ++ [j]) ++ q') in Hb by (by rewrite <- app_assoc).
  destruct (tree_parents t T (q ++ [j]) q' ltac:(by eexists)) as [c Hc]. split; [by eapply (tr_parent _ T) | by eexists].
Qed.

(** What freeing a set of pages does. *)
Record freed (s : kernel) (fr : list Z) (s' : kernel) (l : list Z) : Prop := mkFreed {
  fd_state : s' = set_mem (mem s') (set_freelist (freelist s') s);
  fd_kmem : kmem_inv s' (l ++ fr);
  fd_mem : forall x, (forall b, b ∈ l -> ~ in_page b x) -> load8 (mem s') x = load8 (mem s) x
}.

(** The entry of a child table is neither a leaf nor invalid. *)
Lemma mk_pte_table c : page_ok c ->
  has (mk_pte c 0) PTE_V = true /\ (Z.land (mk_pte c 0) (Z.lor (Z.lor PTE_R PTE_W) PTE_X) =? 0) = true /\
  PTE2PA (mk_pte c 0) = c.
Proof.
  intros Hc. apply page_ok_56 in Hc as H56. split_and!.
  - by apply has_mk_pte.
  - rewrite mk_pte_flag by (done || lia). done.
  - rewrite PTE2PA_mk by (done || lia). apply page_aligned_div, Hc.
Qed.

Section loop.
Context (t : ptree) (T : tree_ok t) (d : nat) (q : list Z) (a : Z) (Ha : t !! q = Some a).
Context (rec : Z -> M kernel unit).
Context (Hrec : forall s fr i c, LkKmem ∉ held s -> kmem_inv s fr -> t !! (q ++ [i]) = Some c ->
  sub_ok (mem s) t (q ++ [i]) -> (forall b, below t (q ++ [i]) b -> b ∉ fr) ->
  exists s' l, rec c s = Ret tt s' /\ freed s fr s' l /\ (forall b, b ∈ l <-> below t (q ++ [i]) b)).

(** The subtrees of the entries from [i] on are still there, entry by entry. *)
Definition rest_ok (m : memory) (i : Z) : Prop :=
  forall j, i <= j < 512 -> sub_ok m t (q ++ [j]) /\
    match t !! (q ++ [j]) with
    | Some c => load64 m (a + 8 * j) = mk_pte c 0
    | None => has (load64 m (a + 8 * j)) PTE_V = false
    end.

Lemma below_page b i : below t (q ++ [i]) b -> page_ok b /\ b <> a.
Proof.
  intros [q' Hb]. split; [by eapply (tr_page _ T) |]. intros ->.
  assert (E : q = (q ++ [i]) ++ q') by (eapply (tr_inj _ T); eauto).
  apply (f_equal length) in E. rewrite !length_app in E. cbn in E. lia.
Qed.

Lemma below_disjoint b c i j : i <> j -> below t (q ++ [i]) b -> below t (q ++ [j]) c -> b <> c.
Proof.
  intros Hne [q1 Hb] [q2 Hc] ->. assert (E : (q ++ [i]) ++ q1 = (q ++ [j]) ++ q2) by (eapply (tr_inj _ T); eauto).
  rewrite <- !app_assoc in E. apply app_inv_head in E. cbn in E. congruence.
Qed.

(** Memory may change in freed subtrees and in the entries already visited. *)
Lemma rest_ok_agree m m' i (l : list Z) : rest_ok m i ->
  (forall b, b ∈ l -> exists j, 0 <= j < i /\ below t (q ++ [j]) b) ->
  (forall x, (forall b, b ∈ l -> ~ in_page b x) -> ~ (a <= x < a + 8 * i) -> load8 m' x = load8 m x) ->
  rest_ok m' i.
Proof.
  intros Hr Hl Hm j Hj. destruct (Hr j Hj) as [Hs He]. pose proof (tr_page _ T _ _ Ha) as Hpa.
  assert (Hdis : forall b c x, b ∈ l -> below t (q ++ [j]) c -> in_page c x -> ~ in_page b x).
  { intros b c x Hb Hc Hx. destruct (Hl b Hb) as (k & Hk & Hbk). eapply (page_sep c b);
      [by eapply below_page | by eapply below_page | | done]. eapply below_disjoint; [|done|done]. lia. }
  split.
  - eapply sub_ok_agree; [|exact Hs]. intros c x Hc Hx. apply Hm; [intros b Hb; by eapply Hdis |].
    intros Hx'. eapply (page_sep c a x); [by eapply below_page | done | by eapply below_page | done |].
    unfold in_page, PGSIZE. lia.
  - rewrite (load64_agree m' m); [done |]. intros x Hx. apply Hm; [|lia]. intros b Hb Hxb.
    destruct (Hl b Hb) as (k & Hk & Hbk). destruct (below_page b k Hbk) as [Hbok Hba].
    eapply (page_sep b a x); [done | done | done | done |]. unfold in_page, PGSIZE. lia.
Qed.

Lemma kmem_write s fr v i : LkKmem ∉ held s -> kmem_inv s fr -> a ∉ fr -> 0 <= i < 512 ->
  kmem_inv (set_mem (store64 (mem s) (a + 8 * i) v) s) fr.
Proof.
  intros Hlk [Hf Hnd Hok] Hn Hi. split; [|done|done]. cbn.
  eapply (free_list_frame (mem s)); [apply (tr_page _ T _ _ Ha) | done | done | | done].
  intros x Hx. symmetry. apply load8_store64_ne. intros Hx'. apply Hx. by eapply entry_in_page.
Qed.

Lemma loop_ok fr : a ∉ fr -> (forall b j, below t (q ++ [j]) b -> b ∉ fr) -> forall k i s l,
  Z.of_nat k + i = 512 -> 0 <= i -> LkKmem ∉ held s -> kmem_inv s (l ++ fr) -> rest_ok (mem s) i ->
  (forall b, b ∈ l -> exists j, 0 <= j < i /\ below t (q ++ [j]) b) ->
  exists s' l', freewalk_loop rec k a i s = Ret tt s' /\ s' = set_mem (mem s') (set_freelist (freelist s') s) /\
    kmem_inv s' (l' ++ fr) /\ (forall b, b ∈ l' <-> b ∈ l \/ exists j, i <= j < 512 /\ below t (q ++ [j]) b) /\
    (forall x, (forall b, b ∈ l' -> ~ in_page b x) -> ~ in_page a x -> load8 (mem s') x = load8 (mem s) x).
Proof.
  intros Hafr Hbfr. induction k as [|k IH]; intros i s l Hk Hi Hlk Hkm Hr Hl; cbn [freewalk_loop].
  { exists s, l. split_and!; try done. intros b. split; [tauto |]. intros [?|(j & ? & _)]; [done | lia]. }
  unfold load_pte, store_pte. erewrite bind_Ret by reflexivity. destruct (Hr i ltac:(lia)) as [Hs He].
  destruct (t !! (q ++ [i])) as [c|] eqn:Ec.
  - destruct (mk_pte_table c (tr_page _ T _ _ Ec)) as (E1 & E2 & E3). rewrite He, E1, E2, E3. cbn [andb].
    destruct (Hrec s (l ++ fr) i c Hlk Hkm Ec Hs) as (s1 & l1 & Hr1 & [F1 F2 F3] & Hl1).
    { intros b Hb. rewrite not_elem_of_app. split; [|by eapply Hbfr]. intros Hbl.
      destruct (Hl b Hbl) as (j & Hj & Hbj). eapply (below_disjoint b b i j); eauto. lia. }
    assert (Hcut : forall b, b ∈ l1 ++ l -> exists j, 0 <= j < i + 1 /\ below t (q ++ [j]) b).
    { intros b Hb. apply elem_of_app in Hb as [Hb|Hb]; [exists i; split; [lia | by apply Hl1] |].
      destruct (Hl b Hb) as (j & ? & ?). exists j. split; [lia | done]. }
    assert (Hna : a ∉ (l1 ++ l) ++ fr).
    { rewrite not_elem_of_app. split; [|done]. intros Hb. destruct (Hcut a Hb) as (j & _ & Hj). by eapply below_page. }
    assert (Hlk1 : LkKmem ∉ held s1) by (rewrite F1; done). rewrite app_assoc in F2.
    set (s2 := set_mem (store64 (mem s1) (a + 8 * i) 0) s1).
    assert (Hm2 : forall x, (forall b, b ∈ l1 ++ l -> ~ in_page b x) -> ~ (a + 8 * i <= x < a + 8 * i + 8) ->
      load8 (mem s2) x = load8 (mem s) x).
    { intros x Hx Hxa. cbn. rewrite load8_store64_ne by done. apply F3. intros b Hb. apply Hx. set_solver. }
    destruct (IH (i + 1) s2 (l1 ++ l)) as (s' & l' & Hr' & G1 & G2 & G3 & G4); try lia; try done.
    { apply kmem_write; [done | done | done | lia]. }
    { eapply (rest_ok_agree (mem s)); [intros j Hj; apply Hr; lia | exact Hcut |].
      intros x Hx Hxa. apply Hm2; [done | lia]. }
    exists s', l'. split_and!; [| | done | |].
    + mred. rewrite Hr1. cbn [obind]. exact Hr'.
    + rewrite G1. unfold s2. rewrite F1. done.
    + intros b. rewrite G3, elem_of_app, Hl1. split.
      * intros [[?|?]|(j & ? & ?)]; [right; exists i; split; [lia | done] | by left | right; exists j; split; [lia | done]].
      * intros [?|(j & Hj & ?)]; [tauto |]. destruct (decide (j = i)) as [->|]; [tauto | right; exists j; split; [lia | done]].
    + intros x Hx Hxa. rewrite G4 by done. apply Hm2; [intros b Hb; apply Hx, G3; by left |].
      intros Hx'. apply Hxa. eapply entry_in_page; [|exact Hx']. lia.
  - rewrite He. cbn [andb]. erewrite bind_Ret by reflexivity.
    destruct (IH (i + 1) s l) as (s' & l' & Hr' & G1 & G2 & G3 & G4); try lia; try done.
    { intros j Hj. apply Hr. lia. }
    { intros b Hb. destruct (Hl b Hb) as (j & ? & ?). exists j. split; [lia | done]. }
    exists s', l'. split_and!; try done. intros b. rewrite G3. split.
    + intros [?|(j & ? & ?)]; [by left | right; exists j; split; [lia | done]].
    + intros [?|(j & Hj & Hb)]; [by left |]. right. exists j. split; [|done].
      destruct (decide (j = i)) as [->|]; [|lia]. destruct Hb as [q' Hb].
      destruct (tree_parents t T (q ++ [i]) q' ltac:(by eexists)). congruence.
Qed.
End loop.

Lemma freewalk_ok t : tree_ok t -> forall d s fr q a,
  (length q + d = 3)%nat -> (1 <= d)%nat -> LkKmem ∉ held s -> kmem_inv s fr -> t !! q = Some a ->
  sub_ok (mem s) t q -> (forall b, below t q b -> b ∉ fr) ->
  exists s' l, freewalk d a s = Ret tt s' /\ freed s fr s' l /\ (forall b, b ∈ l <-> below t q b).
Proof.
  intros T. induction d as [|d IH]; intros s fr q a Hd Hd1 Hlk Hk Ha Hs Hfr; [lia |].
  cbn [freewalk].
  assert (Hbelow : forall b j, below t (q ++ [j]) b -> below t q b).
  { intros b j [q' Hb]. exists ([j] ++ q'). by rewrite app_assoc. }
  assert (Hsub : forall b, below t q b <-> b = a \/ exists j, 0 <= j < 512 /\ below t (q ++ [j]) b).
  { intros b. split.
    - intros [[|j q'] Hb]; [left; rewrite app_nil_r in Hb; congruence |]. right. exists j.
      split; [by eapply child_index |]. apply below_child. by exists q'.
    - intros [->|(j & _ & Hb)]; [exists []; by rewrite app_nil_r | eauto]. }
  destruct (loop_ok t T q a Ha (freewalk d)) with (fr := fr) (k := 512%nat) (i := 0) (s := s) (l := @nil Z)
    as (s1 & l & Hr & G1 & G2 & G3 & G4); try done; try lia.
  { intros s1 fr1 i c Hlk1 Hk1 Hc Hs1 Hfr1. pose proof (tr_len _ T _ _ Hc) as Hlen. rewrite length_app in Hlen. cbn in Hlen.
    apply IH; try done; [rewrite length_app; cbn |]; lia. }
  { apply Hfr. apply Hsub. by left. }
  { intros b j Hb. eauto. }
  { intros j Hj. split; [by apply sub_ok_child |]. specialize (Hs [] a j). rewrite app_nil_r in Hs. by apply Hs. }
  { intros b Hb. by apply not_elem_of_nil in Hb. }
  assert (Hna : a ∉ l ++ fr).
  { rewrite not_elem_of_app. split; [|apply Hfr, Hsub; by left]. intros Hb. apply G3 in Hb as [Hb|(j & _ & Hb)]; [by apply not_elem_of_nil in Hb |].
    by eapply (below_page t T q a Ha). }
  destruct (kfree_ok s1 a (l ++ fr)) as (m & Hr2 & Hk2 & Ho2); try done.
  { rewrite G1. done. }
  { by eapply (tr_page _ T). }
  eexists _, (a :: l). split_and!; [erewrite bind_Ret by exact Hr; exact Hr2 | split |].
  - cbn. rewrite G1. done.
  - exact Hk2.
  - intros x Hx. cbn. rewrite Ho2, G4; try done; [|apply Hx; left|apply Hx; left]. intros b Hb. apply Hx. by right.
  - intros b. rewrite elem_of_cons, G3, Hsub. split; intros [?|Hj]; auto. destruct Hj as [Hj|Hj]; [by apply not_elem_of_nil in Hj | auto].
Qed.

Lemma pt_tree_ok m root t : pt_inv m root t -> tree_ok t.
Proof. intros [I1 I2 I3 I4 I5 _ _]. by split. Qed.

(** Every slot of a level-0 table is the entry of some address. *)
Lemma va_of_indices i2 i1 i0 : 0 <= i2 < 256 -> 0 <= i1 < 512 -> 0 <= i0 < 512 ->
  exists va, 0 <= va < MAXVA /\ PX 2 va = i2 /\ PX 1 va = i1 /\ PX 0 va = i0.
Proof.
  intros H2 H1 H0. exists (((i2 * 512 + i1) * 512 + i0) * 4096). change MAXVA with (2 ^ 38).
  split; [lia |]. rewrite !PX_eq by lia. change (2 ^ (12 + 9 * 2)) with (4096 * 512 * 512).
  change (2 ^ (12 + 9 * 1)) with (4096 * 512). change (2 ^ (12 + 9 * 0)) with 4096.
  rewrite <- !Z.div_div by lia. rewrite !Z.div_mul by lia. rewrite (Z.add_comm _ i0), !Z.div_add by lia.
  rewrite !(Z.div_small i0), !Z.add_0_l by lia. rewrite (Z.add_comm _ i1), Z.div_add, (Z.div_small i1) by lia.
  rewrite !Z.mod_add, !Z.mod_small by lia. done.
Qed.

(** A page table with nothing mapped. *)
Lemma as_empty_sub s root t fr : as_inv s root t ∅ fr -> sub_ok (mem s) t [].
Proof.
  intros I q b i Hb Hi. cbn in Hb |- *. pose proof (vm_pt _ _ _ _ (as_vm _ _ _ _ _ I)) as Hpt.
  pose proof (pt_len _ _ _ Hpt _ _ Hb) as Hlen. destruct (decide (length q <= 1)%nat) as [Hq|Hq].
  - pose proof (pt_entry _ _ _ Hpt q b i Hb Hq Hi) as He. destruct (t !! (q ++ [i])); [done |].
    unfold has. by rewrite He.
  - destruct (t !! (q ++ [i])) as [c|] eqn:Ec.
    { apply (pt_len _ _ _ Hpt) in Ec. rewrite length_app in Ec. cbn in Ec. lia. }
    destruct q as [|i2 [|i1 [|? ?]]]; cbn in Hq, Hlen; try lia.
    destruct (pt_parent _ _ _ Hpt [i2] i1 b Hb) as [[c1 Hc1] Hi1].
    destruct (pt_parent _ _ _ Hpt [] i2 c1 Hc1) as [_ Hi2]. pose proof (pt_low _ _ _ Hpt _ _ _ Hb) as Hlow.
    destruct (va_of_indices i2 i1 i ltac:(lia) Hi1 Hi) as (va & Hva & E2 & E1 & E0).
    pose proof (as_lookup s root t ∅ fr va I Hva) as Hl. rewrite lookup_empty in Hl. unfold lookup_pte in Hl.
    by rewrite E2, E1, E0, Hb in Hl.
Qed.
End freewalk.
