(* ===== verification/VmProps.v ===== *)
(** * Properties of vm.c *)

From S2P Require Import Prelude State Mem CString Spinlock Memlayout Kalloc Vm PageTable AddrSpace UserMem CopyUser FreeWalk.

Section vm_helpers.
Context `{HL : Layout} {HOk : LayoutOk HL}.

Lemma walkaddr_pte s root t va : pt_inv (mem s) root t -> 0 <= va ->
  walkaddr root va s = Ret (if MAXVA <=? va then 0 else
    let v := lookup_pte (mem s) t va in
    if Z.land v PTE_V =? 0 then 0 else if Z.land v PTE_U =? 0 then 0 else PTE2PA v) s.
Proof.
  intros Hpt Hva. unfold walkaddr. destruct (Z.leb_spec MAXVA va); [done |].
  erewrite bind_Ret by (apply (walk_noalloc s root t va Hpt); lia). unfold lookup_pte.
  destruct (t !! [PX 2 va; PX 1 va]) as [b|] eqn:Eb; [|done].
  pose proof (page_ok_pos b (pt_page _ _ _ Hpt _ _ Eb)). pose proof (PX_range 0 va ltac:(lia)).
  destruct (Z.eqb_spec (b + 8 * PX 0 va) 0); [lia |]. unfold load_pte. mred.
  destruct (Z.land _ PTE_V =? 0); [done |]. by destruct (Z.land _ PTE_U =? 0).
Qed.

Lemma copy_fuel va len : 0 <= len -> npages (va mod PGSIZE + len) < Z.of_nat (Z.to_nat (len / PGSIZE + 3)).
Proof.
  intros Hlen. pose proof (Z.mod_pos_bound va PGSIZE ltac:(done)). unfold npages.
  pose proof (Z.div_pos len PGSIZE Hlen ltac:(done)). rewrite Z2Nat.id by lia.
  apply Z.div_lt_upper_bound; [done |]. pose proof (Z.div_mod len PGSIZE ltac:(done)).
  pose proof (Z.mod_pos_bound len PGSIZE ltac:(done)). unfold PGSIZE in *. lia.
Qed.

Lemma alloc_fuel v newsz : 0 <= newsz -> (Z.to_nat (npages newsz - v) < Z.to_nat ((newsz - v * PGSIZE) / PGSIZE + 2))%nat \/ npages newsz <= v.
Proof.
  intros Hn. pose proof (npages_range newsz Hn) as Hr. destruct (decide (npages newsz <= v)); [by right | left].
  replace (newsz - v * PGSIZE) with (newsz + (- v) * PGSIZE) by lia. rewrite Z.div_add by done.
  pose proof (Z.div_mod newsz PGSIZE ltac:(done)). pose proof (Z.mod_pos_bound newsz PGSIZE ltac:(done)).
  unfold PGSIZE in *. lia.
Qed.

Lemma uvmalloc_ok s root t u fr oldsz newsz xperm :
  as_inv s root t u fr -> own_inv t u fr -> 0 <= oldsz <= newsz -> newsz <= TRAPFRAME -> 0 <= xperm < 1024 ->
  (forall k, npages oldsz <= k < npages newsz -> u !! k = None) ->
  exists r s' t' u' fr', uvmalloc root oldsz newsz xperm s = Ret r s' /\
    as_inv s' root t' u' fr' /\ own_inv t' u' fr' /\ us_step u s t u fr s' t' u' fr' /\
    ((r = newsz /\ unmap (Z.to_nat (npages newsz - npages oldsz)) (npages oldsz) u' = u /\
      zeroed (mem s') u' (npages oldsz) (npages newsz - npages oldsz) (Z.lor (Z.lor PTE_R PTE_U) xperm)) \/
     (r = 0 /\ u' = u /\ Z.of_nat (length fr) < 3 * (npages newsz - npages oldsz))).
Proof.
  intros I O Hsz Hmax Hx Hnone. unfold uvmalloc. destruct (Z.ltb_spec newsz oldsz); [lia |].
  rewrite PGROUNDUP_npages by (assert (TRAPFRAME <= MAXVA) by (vm_compute; discriminate); lia).
  pose proof (npages_range oldsz ltac:(lia)). pose proof (npages_range newsz ltac:(lia)).
  assert (Hle : npages oldsz <= npages newsz) by (unfold PGSIZE in *; lia).
  assert (Hv : npages newsz <= UVPN).
  { change UVPN with (2 ^ 26 - 2). change TRAPFRAME with (2 ^ 38 - 8192) in *. unfold PGSIZE in *. lia. }
  destruct (uvmalloc_loop_ok root u (npages oldsz) newsz xperm ltac:(unfold PGSIZE in *; lia) Hx Hmax
    (Z.to_nat (npages newsz - npages oldsz)) (Z.to_nat ((newsz - npages oldsz * PGSIZE) / PGSIZE + 2)) s t u fr (npages oldsz) I O)
    as (r & s' & t' & u' & fr' & Hr & I' & O' & S' & Hc); try lia; [apply grown_refl | | |].
  - intros k Hk. apply Hnone. lia.
  - destruct (alloc_fuel (npages oldsz) newsz ltac:(lia)) as [|Hge]; [done |].
    replace (npages newsz - npages oldsz) with 0 by lia.
    assert (Hge1 : -1 <= (newsz - npages oldsz * PGSIZE) / PGSIZE) by (apply Z.div_le_lower_bound; unfold PGSIZE in *; lia).
    lia.
  - exists r, s', t', u', fr'. split_and!; try done.
    destruct Hc as [(-> & (_ & E & _) & _ & Hz) | (-> & -> & N)]; [left | right; split_and!; [done | done | lia]].
    rewrite Z2Nat.id in * by lia. split_and!; [done | | done].
    replace (npages oldsz + (npages newsz - npages oldsz) - npages oldsz) with (npages newsz - npages oldsz) in E by lia. done.
Qed.
End vm_helpers.

Section vm_properties.
Context `{HL : Layout} {HOk : LayoutOk HL}.

(** C16: [mappages] of whole unmapped pages makes [walkaddr] translate exactly
    those pages to the given physical pages and leaves every other translation
    as it was; it fails, with -1, only when the allocator has run dry, and then
    has mapped a prefix of the range.  It keeps the page table well formed and
    takes every new table page from the free list. *)
Theorem mappages_translates (s : kernel) (root : Z) (t : ptree) (fr : list Z) (va n pa perm : Z)
    (I : vm_inv s root t fr) (Hperm : 0 <= perm < 1024) (HU : Z.land perm PTE_U <> 0)
    (Hva : page_aligned va /\ 0 <= va) (Hn : 0 < n) (Hmax : va + n * PGSIZE <= MAXVA)
    (Hpa : page_aligned pa /\ 0 <= pa /\ pa + n * PGSIZE <= 2 ^ 56)
    (Hfree : forall k, 0 <= k < n -> has (lookup_pte (mem s) t (va + k * PGSIZE)) PTE_V = false) :
  exists r s' t' fr' k,
    mappages root va (n * PGSIZE) pa perm s = Ret r s' /\ vm_inv s' root t' fr' /\ vm_ext s t fr s' t' fr' /\
    ((r = 0 /\ k = n) \/ (r = -1 /\ 0 <= k < n /\ fr' = [])) /\
    (forall va', 0 <= va' < MAXVA -> exists a, walkaddr root va' s = Ret a s /\
      walkaddr root va' s' = Ret (if decide (va <= va' < va + k * PGSIZE)
                                  then pa + (va' / PGSIZE * PGSIZE - va) else a) s').
Proof.
  destruct Hva as [Hal H0], Hpa as (Hpal & Hpa0 & Hpam). destruct (Z_of_nat_complete (n - 1) ltac:(lia)) as [n' Hn'].
  replace n with (Z.of_nat (S n')) in * by lia. clear Hn'.
  destruct (mappages_ok s root t fr va n' pa perm I Hperm Hal H0 Hmax Hpa0 Hpam) as (r & s' & t' & fr' & Hr & I' & E' & Hc).
  { intros k Hk. apply Hfree. lia. }
  assert (Hm : exists k : nat, (k <= S n')%nat /\ mapped k va pa perm (mem s) t (mem s') t' /\
    ((r = 0 /\ k = S n') \/ (r = -1 /\ (k <= n')%nat /\ fr' = []))).
  { destruct Hc as [(-> & _ & M) | (-> & -> & _ & k & Hk & M)]; [exists (S n') | exists k]; split_and!; auto; lia. }
  destruct Hm as (k & Hk & [M1 M2] & Hrk). exists r, s', t', fr', (Z.of_nat k). split_and!; try done.
  { destruct Hrk as [[-> ->] | (-> & ? & ->)]; [left | right]; split_and!; auto; lia. }
  intros va' Hva'. eexists. split; [apply (walkaddr_pte _ _ _ _ (vm_pt _ _ _ _ I)); lia |].
  rewrite (walkaddr_pte _ _ _ _ (vm_pt _ _ _ _ I')) by lia. f_equal. cbv zeta.
  destruct (Z.leb_spec MAXVA va'); [lia |]. case_decide as Hin.
  - pose proof (Z.div_mod va' PGSIZE ltac:(done)). pose proof (Z.mod_pos_bound va' PGSIZE ltac:(done)).
    pose proof (page_aligned_div va Hal) as Hd. destruct (Z_of_nat_complete (va' / PGSIZE - va / 4096)) as [j Hj].
    { unfold PGSIZE in *. lia. }
    assert (Hj' : va + Z.of_nat j * PGSIZE = va' / PGSIZE * PGSIZE) by (unfold PGSIZE in *; lia).
    rewrite lookup_pte_vpn, <- Hj', M1 by (unfold PGSIZE in *; lia).
    assert (Hjr : 0 <= pa + Z.of_nat j * PGSIZE < 2 ^ 56) by (unfold PGSIZE in *; lia).
    destruct (has_mk_pte _ perm Hjr Hperm) as [_ ->]. rewrite PTE_U_mk by done.
    destruct (Z.eqb_spec (Z.land perm PTE_U) 0); [done |]. rewrite PTE2PA_mk by done.
    rewrite page_aligned_div; [lia |]. by apply page_aligned_add.
  - by rewrite M2.
Qed.

(** With the same user pages, the free pages are those the tree has not taken. *)
Lemma us_free s root t u fr s' t' fr' : own_inv t u fr -> as_inv s' root t' u fr' -> own_inv t' u fr' -> us_step u s t u fr s' t' u fr' ->
  forall a, a ∈ fr' <-> a ∈ fr /\ ~ is_table t' a.
Proof.
  intros O I' O' S a. pose proof (us_pages _ _ _ _ _ _ _ _ _ S a) as P.
  assert (Hsep : a ∈ fr' -> ~ is_table t' a) by (intros Ha [p Hp]; by apply (vm_sep _ _ _ _ (as_vm _ _ _ _ _ I') p a Hp)). split.
  - intros Ha. split; [|by apply Hsep]. destruct (proj2 P (or_introl Ha)) as [H|[[p Hp]|H]]; [done | | by destruct (own_page _ _ _ O' a H) as (_ & ? & _)].
    destruct (Hsep Ha). exists p. eapply lookup_weaken; [exact Hp | apply S].
  - intros [Ha Hn]. destruct (proj1 P (or_introl Ha)) as [H|[H|H]]; [done | done | by destruct (own_page _ _ _ O a H) as (_ & ? & _)].
Qed.

(** C17: [uvmalloc] either grows the address space by zeroed pages with the asked
    permissions and returns the new size, or returns 0 with the address space
    as it was.  It fails only when fewer than three pages were free for every new
    page, the most a new page can need (itself and two page-table pages); every page
    it took is then free again, except those that have become tables of the
    page-table tree.  In both cases the rest of user memory is untouched and no
    physical page is lost or used twice. *)
Theorem uvmalloc_grows (s : kernel) (root : Z) (t : ptree) (u : uspace) (fr : list Z) (oldsz newsz xperm : Z)
    (I : as_inv s root t u fr) (O : own_inv t u fr) (Hsz : 0 <= oldsz <= newsz) (Hmax : newsz <= TRAPFRAME)
    (Hx : 0 <= xperm < 1024) (Hnone : forall k, npages oldsz <= k < npages newsz -> u !! k = None) :
  exists r s' t' u' fr', uvmalloc root oldsz newsz xperm s = Ret r s' /\
    as_inv s' root t' u' fr' /\ own_inv t' u' fr' /\ us_step u s t u fr s' t' u' fr' /\
    ((r = newsz /\ zeroed (mem s') u' (npages oldsz) (npages newsz - npages oldsz) (Z.lor (Z.lor PTE_R PTE_U) xperm) /\
      forall k, ~ (npages oldsz <= k < npages newsz) -> u' !! k = u !! k) \/
     (r = 0 /\ u' = u /\ Z.of_nat (length fr) < 3 * (npages newsz - npages oldsz) /\ forall a, a ∈ fr' <-> a ∈ fr /\ ~ is_table t' a)).
Proof.
  destruct (uvmalloc_ok s root t u fr oldsz newsz xperm I O Hsz Hmax Hx Hnone)
    as (r & s' & t' & u' & fr' & Hr & I' & O' & S' & Hc).
  exists r, s', t', u', fr'. split_and!; try done. destruct Hc as [(-> & E & Hz) | (-> & -> & N)]; [left | right; split_and!; [done | done | done | by apply (us_free s root t u fr s' t')]].
  split_and!; [done | done |]. intros k Hk. apply (f_equal (fun m => m !! k)) in E. rewrite lookup_unmap in E.
  pose proof (npages_range oldsz ltac:(lia)). pose proof (npages_range newsz ltac:(lia)).
  rewrite decide_False in E by (unfold PGSIZE in *; lia). done.
Qed.

(** [uvmdealloc] undoes [uvmalloc]: shrinking back to the old size returns
    that size, restores the address space, and gives every data page back. *)
Theorem uvmalloc_uvmdealloc (s : kernel) (root : Z) (t : ptree) (u : uspace) (fr : list Z) (oldsz newsz xperm : Z)
    (s' : kernel) (I : as_inv s root t u fr) (O : own_inv t u fr) (Hsz : 0 <= oldsz < newsz) (Hmax : newsz <= TRAPFRAME)
    (Hx : 0 <= xperm < 1024) (Hnone : forall k, npages oldsz <= k < npages newsz -> u !! k = None)
    (Hgrow : uvmalloc root oldsz newsz xperm s = Ret newsz s') :
  exists s'' t' fr'', uvmdealloc root newsz oldsz s' = Ret oldsz s'' /\
    as_inv s'' root t' u fr'' /\ own_inv t' u fr'' /\ us_step u s t u fr s'' t' u fr''.
Proof.
  destruct (uvmalloc_ok s root t u fr oldsz newsz xperm I O ltac:(lia) Hmax Hx Hnone)
    as (r & s1 & t' & u' & fr' & Hr & I' & O' & S' & Hc).
  assert (r = newsz /\ s1 = s') as [-> ->] by (split; congruence).
  destruct Hc as [(_ & E & Hz) | [? _]]; [|lia].
  destruct (uvmdealloc_ok s' root t' u' fr' newsz oldsz I' O' Hsz Hmax) as (s'' & fr'' & Hd & I'' & O'' & S'').
  { intros k Hk. destruct (Hz k ltac:(lia)) as (pg & -> & _). by eexists. }
  rewrite E in *. exists s'', t', fr''. split_and!; try done. by eapply us_step_trans.
Qed.

(** [uvmcopy] into a fresh page table returns 0 with, for every page of
    the parent, a distinct page of the child holding the same bytes with the
    same permissions, or -1 with the child back to its empty state; the parent's
    memory is unchanged, the two address spaces share no page, and none is lost. *)
Lemma uvmcopy_ok (s : kernel) (old : Z) (ot : ptree) (ou : uspace) (new : Z) (nt : ptree) (nu : uspace)
    (fr : list Z) (sz : Z) (Hp : pair_inv s old ot ou new nt nu fr) (Hsz : 0 <= sz <= TRAPFRAME)
    (Hold : forall k, 0 <= k < npages sz -> is_Some (ou !! k)) (Hnew : forall k, 0 <= k < npages sz -> nu !! k = None) :
  exists r s' nt' nu' fr', uvmcopy old new sz s = Ret r s' /\
    pair_inv s' old ot ou new nt' nu' fr' /\ keeps ou (mem s) (mem s') /\ us_step nu s nt nu fr s' nt' nu' fr' /\
    ((r = 0 /\ (forall k, 0 <= k < npages sz -> copied (mem s) ou (mem s') nu' k) /\
      (forall k, ~ (0 <= k < npages sz) -> nu' !! k = nu !! k)) \/
     (r = -1 /\ nu' = nu)).
Proof.
  pose proof (npages_range sz ltac:(lia)) as Hn. unfold uvmcopy.
  assert (Hfuel : (Z.to_nat (npages sz) < Z.to_nat (sz / PGSIZE + 2))%nat).
  { pose proof (Z.div_mod sz PGSIZE ltac:(done)). pose proof (Z.mod_pos_bound sz PGSIZE ltac:(done)). unfold PGSIZE in *. lia. }
  destruct (uvmcopy_loop_ok old ot ou new nu sz Hsz Hold Hnew (Z.to_nat (npages sz)) (Z.to_nat (sz / PGSIZE + 2)) s nt nu fr 0 Hp)
    as (r & s' & nt' & nu' & fr' & Hr & Hp' & K & S' & Hc); [apply grown_refl | unfold PGSIZE in *; lia | done |].
  exists r, s', nt', nu', fr'. split_and!; try done. destruct Hc as [(-> & _ & E & _ & Hc) | [-> ->]]; [left | by right].
  split_and!; [done | done |]. intros k Hk. apply (f_equal (fun m => m !! k)) in E. rewrite lookup_unmap in E.
  rewrite decide_False in E by (unfold PGSIZE in *; lia). done.
Qed.

(** [uvmfree] of an address space of [sz] bytes returns every page it had
    to the free list, data pages and page-table pages alike, each exactly once,
    and disturbs no memory outside those pages. *)
Lemma uvmfree_ok (s : kernel) (root : Z) (t : ptree) (u : uspace) (fr : list Z) (sz : Z)
    (I : as_inv s root t u fr) (O : own_inv t u fr) (Hsz : 0 <= sz <= TRAPFRAME)
    (Hdom : forall k, is_Some (u !! k) <-> 0 <= k < npages sz) :
  exists s' fr', uvmfree root sz s = Ret tt s' /\ kmem_inv s' fr' /\ (forall a, a ∈ fr' <-> owns t u fr a) /\
    s' = set_mem (mem s') (set_freelist (freelist s') s) /\
    (forall x, (forall a, owns t u fr a -> ~ in_page a x) -> load8 (mem s') x = load8 (mem s) x).
Proof.
  pose proof (npages_range sz ltac:(lia)) as Hn.
  assert (H1 : exists s1 fr1, (if 0 <? sz then uvmunmap root 0 (PGROUNDUP sz / PGSIZE) true else mret tt) s = Ret tt s1 /\
    as_inv s1 root t ∅ fr1 /\ us_step ∅ s t u fr s1 t ∅ fr1).
  { assert (Hempty : unmap (Z.to_nat (npages sz)) 0 u = ∅).
    { apply map_eq. intros k. rewrite lookup_unmap, lookup_empty. case_decide as Hk; [done |].
      destruct (u !! k) eqn:E; [|done]. exfalso. apply Hk. apply (mk_is_Some), Hdom in E. lia. }
    destruct (Z.ltb_spec 0 sz).
    - rewrite PGROUNDUP_npages, Z.div_mul by (done || (assert (TRAPFRAME <= MAXVA) by (vm_compute; discriminate); lia)).
      destruct (uvmunmap_ok s root t u fr 0 (Z.to_nat (npages sz)) I O) as (s1 & fr1 & Hr & I1 & _ & S1); try lia.
      + change UVPN with (2 ^ 26 - 2). change TRAPFRAME with (2 ^ 38 - 8192) in *. unfold PGSIZE in *. lia.
      + intros k Hk. apply Hdom. lia.
      + rewrite Z2Nat.id in Hr by (unfold PGSIZE in *; lia). rewrite Hempty in *. exists s1, fr1. done.
    - replace (npages sz) with 0 in Hempty by (unfold PGSIZE in *; lia). change (u = ∅) in Hempty. clear Hdom. subst u.
      exists s, fr. split_and!; auto using us_step_refl. }
  destruct H1 as (s1 & fr1 & Hr1 & I1 & [S1 S2 S3 S4 _]). unfold uvmfree. erewrite bind_Ret by exact Hr1.
  pose proof (as_vm _ _ _ _ _ I1) as [Hlk Hk Hpt Hsep].
  destruct (freewalk_ok t (pt_tree_ok _ _ _ Hpt) 3 s1 fr1 [] root) as (s2 & l & Hr2 & [F1 F2 F3] & Hl); try done; try lia.
  { apply Hpt. }
  { by eapply as_empty_sub. }
  { intros b [q Hb]. by eapply Hsep. }
  exists s2, (l ++ fr1). split_and!; [done | done | | |].
  - intros a. rewrite S3, elem_of_app, Hl. unfold owns, below. split; [tauto |].
    intros [?|[?|(k & perm & Hk' & _)]]; [by right | by left |]. by rewrite lookup_empty in Hk'.
  - rewrite F1, S2. done.
  - intros x Hx. rewrite F3, S4; [done | done |]. intros b Hb. apply Hx, S3. right; left. apply Hl in Hb as [q Hb]. by exists q.
Qed.

(** C18: what [copyout] writes, [copyin] reads back: if every byte of the range
    is mapped for the user, [copyout] returns 0, changes exactly those bytes of
    user memory and no memory outside user pages, and [copyin] of the range then
    returns 0 and the same bytes. *)
Theorem copyout_copyin (s : kernel) (root : Z) (t : ptree) (u : uspace) (fr : list Z) (va len : Z) (src : list Z)
    (I : as_inv s root t u fr) (O : own_inv t u fr) (L : user_low u) (Hva : 0 <= va) (Hlim : va + len < 2 ^ 62)
    (Hsrc : Forall is_byte src /\ Z.of_nat (length src) = len)
    (Hmapped : forall va', va <= va' < va + len -> is_Some (umem (mem s) u va')) :
  exists s', copyout root va src len s = Ret 0 s' /\ as_inv s' root t u fr /\
    copyin root va len s' = Ret (0, src) s' /\
    (forall va', ~ (va <= va' < va + len) -> umem (mem s') u va' = umem (mem s) u va') /\
    user_frame u (mem s) (mem s').
Proof.
  destruct Hsrc as [Hb Hlen].
  destruct (copyout_loop_ok root t u fr O L _ s va src len I Hb Hlen Hva Hlim (copy_fuel va len ltac:(lia)))
    as (r & m' & Hr & I' & F' & Hc).
  destruct Hc as [[-> Hu] | (-> & (y & Hy & Hyn) & _)].
  2: { destruct (Hmapped y Hy). congruence. }
  destruct (copyin_loop_ok (set_mem m' s) root t u fr I' O L _ va len [] Hva ltac:(lia) Hlim (copy_fuel va len ltac:(lia)))
    as (r & l & Hr' & Hc).
  assert (E : uread m' u va (Z.to_nat len) = Some src).
  { apply uread_spec. split; [lia |]. intros i Hi. rewrite Hu, decide_True by lia. f_equal. lia. }
  cbn in Hc. rewrite E in Hc. destruct Hc as [[-> [= <-]] | [_ ?]]; [|done].
  exists (set_mem m' s). split_and!; [exact Hr | done | exact Hr' | | done].
  intros va' Hv. cbn. by rewrite Hu, decide_False.
Qed.

(** C19: [copyin] returns 0 and exactly the bytes the user sees when all of the
    range is mapped for it, and -1 as soon as one byte is not; either way it
    terminates and changes nothing. *)
Theorem copyin_exact (s : kernel) (root : Z) (t : ptree) (u : uspace) (fr : list Z) (va len : Z)
    (I : as_inv s root t u fr) (O : own_inv t u fr) (L : user_low u) (Hva : 0 <= va) (Hlen : 0 <= len)
    (Hlim : va + len < 2 ^ 62) :
  exists r l, copyin root va len s = Ret (r, l) s /\
    match uread (mem s) u va (Z.to_nat len) with Some bytes => r = 0 /\ l = bytes | None => r = -1 end.
Proof.
  destruct (copyin_loop_ok s root t u fr I O L _ va len [] Hva Hlen Hlim (copy_fuel va len Hlen)) as (r & l & Hr & Hc).
  exists r, l. split; [exact Hr |]. destruct Hc as [[-> ->] | [-> ->]]; done.
Qed.

(** C20: [copyinstr] returns 0 and the user's string with its terminating NUL
    when the user has a NUL-terminated string of fewer than [max] bytes at [va],
    and -1 when it has not; no byte past the NUL or past [max] is needed. *)
Theorem copyinstr_exact (s : kernel) (root : Z) (t : ptree) (u : uspace) (fr : list Z) (va max : Z)
    (I : as_inv s root t u fr) (O : own_inv t u fr) (L : user_low u) (Hva : 0 <= va) (Hmax : 0 <= max)
    (Hlim : va + max < 2 ^ 62) :
  exists r l, copyinstr root va max s = Ret (r, l) s /\
    ((r = 0 /\ exists str, l = str ++ [0] /\ ustring (mem s) u va str /\ Z.of_nat (length str) < max) \/
     (r = -1 /\ forall str, ustring (mem s) u va str -> max <= Z.of_nat (length str))).
Proof.
  destruct (copyinstr_loop_ok s root t u fr I O L _ va max [] Hva Hmax Hlim (copy_fuel va max Hmax)) as (r & l & Hr & Hc).
  exists r, l. split; [exact Hr | exact Hc].
Qed.
End vm_properties.

(** ** A small machine to exercise the properties on

    Eight managed pages: six free ones, and two zeroed ones that serve as the
    roots of two empty page tables. *)
Definition vm_layout : Layout :=
  {| kend := PHYSTOP - 9 * PGSIZE + 24; etext := KERNBASE + 2 * PGSIZE; trampoline := KERNBASE + PGSIZE;
     forkret_addr := KERNBASE |}.

Lemma vm_layout_ok : LayoutOk vm_layout.
Proof. split; repeat split; vm_compute; reflexivity || discriminate. Qed.

Definition vpage (i : Z) : Z := PHYSTOP - i * PGSIZE.
Definition vroot : Z := vpage 8.
Definition vroot2 : Z := vpage 7.
Definition vfree : list Z := [vpage 1; vpage 2; vpage 3; vpage 4; vpage 5; vpage 6].
Definition vm_mem : memory :=
  store64 (store64 (store64 (store64 (store64 (store64 (fun _ => 0) (vpage 1) (vpage 2)) (vpage 2) (vpage 3))
    (vpage 3) (vpage 4)) (vpage 4) (vpage 5)) (vpage 5) (vpage 6)) (vpage 6) 0.
Definition vm_demo : kernel := set_mem vm_mem (set_freelist (vpage 1) (boot_kernel (fun _ => []))).

Lemma vm_demo_pages i : 1 <= i <= 8 -> @page_ok vm_layout (vpage i).
Proof.
  intros Hi. split.
  - unfold page_aligned, vpage, PHYSTOP, KERNBASE, PGSIZE.
    replace (2147483648 + 128 * 1024 * 1024 - i * 4096) with ((557056 - i) * 4096) by lia. apply Z_mod_mult.
  - cbn. unfold vpage, PHYSTOP, KERNBASE, PGSIZE. lia.
Qed.

Lemma vm_demo_kmem : @kmem_inv vm_layout vm_demo vfree.
Proof.
  split.
  - cbn [free_list_at vfree]. repeat split; vm_compute; reflexivity.
  - apply (bool_decide_unpack _). vm_compute. exact Logic.I.
  - unfold vfree. repeat (constructor; [apply vm_demo_pages; lia |]). constructor.
Qed.

Lemma vm_mem_zero i x : 7 <= i <= 8 -> vpage i <= x -> x + 8 <= vpage i + PGSIZE -> load64 vm_mem x = 0.
Proof.
  intros Hi H1 H2. unfold vm_mem, vpage, PHYSTOP, KERNBASE, PGSIZE in *.
  rewrite !load64_store64_ne by lia. reflexivity.
Qed.

(** An empty page table at one of the two zeroed pages. *)
Lemma vm_demo_as i : 7 <= i <= 8 -> @as_inv vm_layout vm_demo (vpage i) {[ [] := vpage i ]} ∅ vfree.
Proof.
  intros Hi. assert (Hsing : forall p a, ({[ [] := vpage i ]} : ptree) !! p = Some a -> p = [] /\ a = vpage i).
  { intros p a Hp. apply lookup_singleton_Some in Hp as [<- <-]. done. }
  assert (Hnone : forall p, p <> [] -> ({[ [] := vpage i ]} : ptree) !! p = None).
  { intros p Hp. apply lookup_singleton_ne. congruence. }
  split; [split; [set_solver | exact vm_demo_kmem | split |] | |].
  - by rewrite lookup_singleton_eq.
  - intros p q a Hp Hq. apply Hsing in Hp as [-> _], Hq as [-> _]. done.
  - intros p a Hp. apply Hsing in Hp as [_ ->]. apply vm_demo_pages. lia.
  - intros p a Hp. apply Hsing in Hp as [-> _]. cbn. lia.
  - intros p j a Hp. apply Hsing in Hp as [E _]. by apply app_nil in E as [_ ?].
  - intros j p a Hp. by apply Hsing in Hp as [? _].
  - intros p a j Hp _ Hj. apply Hsing in Hp as [-> ->]. rewrite Hnone by done. cbn.
    rewrite (vm_mem_zero i) by (unfold PGSIZE; lia). done.
  - intros p a Hp. apply Hsing in Hp as [_ ->]. unfold vfree, vpage, PGSIZE. rewrite !not_elem_of_cons.
    split_and!; try lia. apply not_elem_of_nil.
  - intros vpn Hv. rewrite lookup_empty. unfold lookup_pte. rewrite Hnone by done. done.
  - intros vpn pa perm. by rewrite lookup_empty.
Qed.

Lemma vm_demo_own t : @own_inv vm_layout t ∅ vfree.
Proof.
  split.
  - intros a (v & perm & Hu & _). by rewrite lookup_empty in Hu.
  - intros v v' a perm perm' _ _ Hu. by rewrite lookup_empty in Hu.
  - intros v a perm Hu. by rewrite lookup_empty in Hu.
Qed.

Lemma vm_demo_grow : match @uvmalloc vm_layout vroot 0 4096 PTE_W vm_demo with Ret r _ => r | _ => -1 end = 4096.
Proof. vm_compute. reflexivity. Qed.

(** The first page table after one page has been added to it. *)
Lemma vm_demo_grown : exists s t u fr pg,
  @uvmalloc vm_layout vroot 0 4096 PTE_W vm_demo = Ret 4096 s /\
  @as_inv vm_layout s vroot t u fr /\ @own_inv vm_layout t u fr /\
  us_step ∅ vm_demo {[ [] := vroot ]} ∅ vfree s t u fr /\
  u !! 0 = Some (pg, 22) /\ (forall k, k <> 0 -> u !! k = None) /\
  (forall x, in_page pg x -> load8 (mem s) x = 0).
Proof.
  destruct (@uvmalloc_ok vm_layout vm_layout_ok vm_demo vroot {[ [] := vroot ]} ∅ vfree 0 4096 PTE_W)
    as (r & s & t & u & fr & Hr & I & O & S & Hc).
  - by apply (vm_demo_as 8).
  - apply vm_demo_own.
  - lia.
  - vm_compute. discriminate.
  - split; vm_compute; [discriminate | reflexivity].
  - intros k _. apply lookup_empty.
  - assert (r = 4096) as -> by (pose proof vm_demo_grow as E; rewrite Hr in E; exact E).
    destruct Hc as [(_ & E & Hz) | [E _]]; [|discriminate E].
    change (Z.to_nat (npages 4096 - npages 0)) with 1%nat in E. change (npages 0) with 0 in *. change (npages 4096 - 0) with 1 in *.
    destruct (Hz 0 ltac:(lia)) as (pg & Hpg & Hzero). exists s, t, u, fr, pg.
    split; [exact Hr |]. split_and!; try assumption.
    intros k Hk. apply (f_equal (fun m => m !! k)) in E. rewrite lookup_unmap, lookup_empty, decide_False in E by lia. done.
Qed.

Lemma demo_user_low (u : uspace) e : u !! 0 = Some e -> (forall k, k <> 0 -> u !! k = None) -> user_low u.
Proof.
  intros H0 Hk vpn pa perm Hu _. destruct (decide (vpn = 0)) as [->|]; [reflexivity |]. rewrite Hk in Hu by done. done.
Qed.

Lemma demo_umem (m : memory) (u : uspace) pg va : u !! 0 = Some (pg, 22) -> 0 <= va < 4096 ->
  umem m u va = Some (load8 m (pg + va)).
Proof.
  intros H0 Hva. unfold umem. unfold PGSIZE. rewrite Z.div_small, Z.mod_small, H0 by lia. done.
Qed.

Lemma mappages_translates_witness : exists r s',
  @mappages vroot 0 (1 * PGSIZE) 4096 (Z.lor PTE_R PTE_U) vm_demo = Ret r s' /\
  (r = 0 -> walkaddr vroot 100 s' = Ret 4096 s').
Proof.
  destruct (@mappages_translates vm_layout vm_layout_ok vm_demo vroot {[ [] := vroot ]} vfree 0 1 4096 (Z.lor PTE_R PTE_U))
    as (r & s' & t' & fr' & k & Hr & _ & _ & Hk & Hw).
  - apply (vm_demo_as 8). lia.
  - split; vm_compute; [discriminate | reflexivity].
  - vm_compute. discriminate.
  - split; [reflexivity | lia].
  - lia.
  - vm_compute. discriminate.
  - split; [reflexivity |]. split; [lia | vm_compute; discriminate].
  - intros k Hk. assert (k = 0) as -> by lia. unfold lookup_pte. rewrite lookup_singleton_ne by discriminate. reflexivity.
  - exists r, s'. split; [exact Hr |]. intros ->.
    destruct Hk as [[_ ->] | [E _]]; [|discriminate E]. destruct (Hw 100) as (a & _ & Ha); [split; vm_compute; [discriminate | reflexivity] |].
    exact Ha.
Defined.

Lemma uvmalloc_grows_witness : exists s',
  @uvmalloc vm_layout vroot 0 4096 PTE_W vm_demo = Ret 4096 s'.
Proof.
  destruct (@uvmalloc_grows vm_layout vm_layout_ok vm_demo vroot {[ [] := vroot ]} ∅ vfree 0 4096 PTE_W)
    as (r & s & t & u & fr & Hr & _).
  - apply (vm_demo_as 8). lia.
  - apply vm_demo_own.
  - lia.
  - vm_compute. discriminate.
  - split; vm_compute; [discriminate | reflexivity].
  - intros k _. apply lookup_empty.
  - exists s. assert (r = 4096) as -> by (pose proof vm_demo_grow as E; rewrite Hr in E; exact E). exact Hr.
Defined.

Lemma uvmalloc_uvmdealloc_witness : exists s' s'',
  @uvmalloc vm_layout vroot 0 4096 PTE_W vm_demo = Ret 4096 s' /\ @uvmdealloc vm_layout vroot 4096 0 s' = Ret 0 s''.
Proof.
  destruct vm_demo_grown as (s & _ & _ & _ & _ & Hr & _).
  destruct (@uvmalloc_uvmdealloc vm_layout vm_layout_ok vm_demo vroot {[ [] := vroot ]} ∅ vfree 0 4096 PTE_W s)
    as (s'' & _ & _ & Hd & _).
  - apply (vm_demo_as 8). lia.
  - apply vm_demo_own.
  - lia.
  - vm_compute. discriminate.
  - split; vm_compute; [discriminate | reflexivity].
  - intros k _. apply lookup_empty.
  - exact Hr.
  - exists s, s''. split; [exact Hr | exact Hd].
Defined.

(** The grown page table beside the second, empty one. *)
Lemma copyout_copyin_witness : exists s s', @copyout vroot 4000 [104; 105] 2 s = Ret 0 s' /\
  @copyin vroot 4000 2 s' = Ret (0, [104; 105]) s'.
Proof.
  destruct vm_demo_grown as (s & t & u & fr & pg & _ & I & O & S & H0 & Hk & _).
  destruct (@copyout_copyin vm_layout vm_layout_ok s vroot t u fr 4000 2 [104; 105] I O) as (s' & H1 & _ & H2 & _).
  - apply (demo_user_low u (pg, 22) H0 Hk).
  - lia.
  - lia.
  - split; [|reflexivity]. repeat constructor; discriminate.
  - intros va' Hva. rewrite (demo_umem (mem s) u pg va' H0) by lia. eexists. reflexivity.
  - exists s, s'. split; [exact H1 | exact H2].
Defined.

Lemma copyin_exact_witness : exists s r l, @copyin vroot 4000 200 s = Ret (r, l) s.
Proof.
  destruct vm_demo_grown as (s & t & u & fr & pg & _ & I & O & S & H0 & Hk & _).
  destruct (@copyin_exact vm_layout vm_layout_ok s vroot t u fr 4000 200 I O) as (r & l & H1 & _).
  - apply (demo_user_low u (pg, 22) H0 Hk).
  - lia.
  - lia.
  - lia.
  - exists s, r, l. exact H1.
Defined.

Lemma copyinstr_exact_witness : exists s l, @copyinstr vroot 4000 200 s = Ret (0, l) s.
Proof.
  destruct vm_demo_grown as (s & t & u & fr & pg & _ & I & O & S & H0 & Hk & Hz).
  destruct (@copyinstr_exact vm_layout vm_layout_ok s vroot t u fr 4000 200 I O) as (r & l & H1 & Hc).
  - apply (demo_user_low u (pg, 22) H0 Hk).
  - lia.
  - lia.
  - lia.
  - destruct Hc as [[-> _] | [_ Hno]]; [exists s, l; exact H1 |]. exfalso.
    specialize (Hno []). cbn in Hno. assert (200 <= 0); [|lia]. apply Hno. split; [constructor |]. cbn.
    rewrite (demo_umem (mem s) u pg 4000 H0) by lia. rewrite Hz by (unfold in_page, PGSIZE; lia). reflexivity.
Defined.
