(* ===== verification/Uart.v ===== *)
(** * kernel/uart.c: the transmit side of the 16550a driver

    The device is its registers: [uart_lsr] are the values LSR_TX_IDLE will
    have at the coming reads of LSR (it is set once they run out: the device
    always becomes ready again), [uart_rx] the bytes waiting in RHR, and
    [uart_out] the bytes written to THR, the latest first.  The code after a
    panic (the test of [panicked]) is not reached: a panic ends the run.
    push_off and pop_off, which keep interrupts off, change nothing here. *)

From S2P Require Import Prelude State Ring Spinlock Sched Sleeplock Waiting.

Definition upd_uart (f : uartst -> uartst) : M kernel unit := modify (fun s => set_uart (f (uart s)) s).

(** [WriteReg(THR, c)] *)
Definition write_thr (c : Z) : M kernel unit := upd_uart (fun u => set_uart_out (u8 c :: uart_out u) u).

(** [ReadReg(LSR) & LSR_TX_IDLE] *)
Definition read_idle : M kernel bool :=
  u ← gets (fun s => uart s);
  match uart_lsr u with
  | [] => mret true
  | b :: l => upd_uart (set_uart_lsr l) ;; mret b
  end.

(** [while((ReadReg(LSR) & LSR_TX_IDLE) == 0);] reads until the first set bit. *)
Fixpoint spin_idle (l : list bool) : list bool :=
  match l with
  | [] => []
  | true :: l => l
  | false :: l => spin_idle l
  end.

Definition uartputc_sync (c : Z) : M kernel unit :=
  upd_uart (fun u => set_uart_lsr (spin_idle (uart_lsr u)) u) ;;
  write_thr c.

Definition IER : Z := 1.
Definition IER_RX_ENABLE : Z := Z.shiftl 1 0.
Definition IER_TX_ENABLE : Z := Z.shiftl 1 1.
Definition FCR : Z := 2.
Definition FCR_FIFO_ENABLE : Z := Z.shiftl 1 0.
Definition FCR_FIFO_CLEAR : Z := Z.shiftl 3 1.
Definition LCR : Z := 3.
Definition LCR_EIGHT_BITS : Z := Z.shiftl 3 0.
Definition LCR_BAUD_LATCH : Z := Z.shiftl 1 7.

(** [WriteReg(reg, v)] on a configuration register. *)
Definition write_reg (reg v : Z) : M kernel unit := upd_uart (fun u => set_uart_regs ((reg, u8 v) :: uart_regs u) u).

Definition uartinit : M kernel unit :=
  write_reg IER 0x00 ;;
  write_reg LCR LCR_BAUD_LATCH ;;
  write_reg 0 0x03 ;;
  write_reg 1 0x00 ;;
  write_reg LCR LCR_EIGHT_BITS ;;
  write_reg FCR (Z.lor FCR_FIFO_ENABLE FCR_FIFO_CLEAR) ;;
  write_reg IER (Z.lor IER_TX_ENABLE IER_RX_ENABLE) ;;
  initlock LkUart.

(** Slot of counter [n] in the transmit buffer. *)
Definition tx_slot : Z -> nat := slot UART_TX_BUF_SIZE.

Fixpoint uartstart_loop (fuel : nat) : M kernel unit :=
  match fuel with
  | O => nofuel
  | S fuel =>
      u ← gets (fun s => uart s);
      if uart_tx_w u =? uart_tx_r u then mret tt else
      idle ← read_idle;
      if negb idle then mret tt else
      u ← gets (fun s => uart s);
      in_bounds (Z.of_nat (tx_slot (uart_tx_r u))) (alen (uart_tx_buf u)) ;;
      let c := uart_tx_buf u !!! tx_slot (uart_tx_r u) in
      upd_uart (set_uart_tx_r (u64 (uart_tx_r u + 1))) ;;
      wakeup ChUart ;;
      write_thr c ;;
      uartstart_loop fuel
  end.

(** If the UART is idle, and a character is waiting in the transmit buffer,
    send it.  One round per waiting character, and one to see there is none. *)
Definition uartstart : M kernel unit :=
  u ← gets (fun s => uart s);
  uartstart_loop (S (Z.to_nat (u64 (uart_tx_w u - uart_tx_r u)))).

Definition uart_full (s : kernel) : bool := uart_tx_w (uart s) =? u64 (uart_tx_r (uart s) + UART_TX_BUF_SIZE).

Definition uartputc (c : Z) : M kernel unit :=
  acquire LkUart ;;
  sleep_while WAKEUPS uart_full ChUart LkUart ;;
  u ← gets (fun s => uart s);
  in_bounds (Z.of_nat (tx_slot (uart_tx_w u))) (alen (uart_tx_buf u)) ;;
  upd_uart (fun u => set_uart_tx_buf (<[tx_slot (uart_tx_w u) := u8 c]> (uart_tx_buf u)) u) ;;
  upd_uart (fun u => set_uart_tx_w (u64 (uart_tx_w u + 1)) u) ;;
  uartstart ;;
  release LkUart.

(** Read one input character, -1 if none is waiting. *)
Definition uartgetc : M kernel Z :=
  u ← gets (fun s => uart s);
  match uart_rx u with
  | [] => mret (-1)
  | c :: l => upd_uart (set_uart_rx l) ;; mret (u8 c)
  end.

(** ** The queue the transmit buffer implements *)

(** The characters waiting to be sent, oldest first. *)
Definition tx_pending (u : uartst) : list Z := contents 64 UART_TX_BUF_SIZE (uart_tx_r u) (uart_tx_w u) (uart_tx_buf u).

Definition uart_ok (u : uartst) : Prop := ring_ok 64 UART_TX_BUF_SIZE (uart_tx_r u) (uart_tx_w u) (uart_tx_buf u).

(** Everything handed to the device or waiting, oldest first. *)
Definition uart_stream (u : uartst) : list Z := rev (uart_out u) ++ tx_pending u.

Lemma tx_div : (UART_TX_BUF_SIZE | 2 ^ 64).
Proof. exists (2 ^ 59). reflexivity. Qed.

Lemma tx_in u n : uart_ok u -> 0 <= Z.of_nat (tx_slot n) < alen (uart_tx_buf u).
Proof. intros Hu. apply (slot_in 64); [done | done | apply Hu]. Qed.

(** Taking the oldest waiting character. *)
Lemma tx_pending_next u : uart_ok u -> uart_tx_w u <> uart_tx_r u ->
  let u' := set_uart_tx_r (u64 (uart_tx_r u + 1)) u in
  uart_ok u' /\ tx_pending u = uart_tx_buf u !!! tx_slot (uart_tx_r u) :: tx_pending u' /\ is_byte (uart_tx_buf u !!! tx_slot (uart_tx_r u)).
Proof. intros Hu Hne. apply queue_pop; (apply tx_div || done || congruence). Qed.

(** What [uartstart] does to the driver: characters move from the buffer to the
    device in order, until none is left or the device is not ready. *)
Record tx_moved (u u' : uartst) : Prop := mkTxMoved {
  tm_ok : uart_ok u';
  tm_stream : uart_stream u' = uart_stream u;
  tm_w : uart_tx_w u' = uart_tx_w u;
  tm_rx : uart_rx u' = uart_rx u;
  tm_end : tx_pending u' = [] \/ exists pre, uart_lsr u = pre ++ false :: uart_lsr u'
}.

Lemma read_idle_run s : exists b l, read_idle s = Ret b (set_uart (set_uart_lsr l (uart s)) s) /\
  (b = true /\ (uart_lsr (uart s) = true :: l \/ (uart_lsr (uart s) = [] /\ l = [])) \/ b = false /\ uart_lsr (uart s) = false :: l).
Proof.
  unfold read_idle, upd_uart. mred. destruct (uart_lsr (uart s)) as [|b l] eqn:E.
  - exists true, []. split; [|left; auto]. rewrite <- E. done.
  - exists b, l. split; [done |]. destruct b; auto.
Qed.

Lemma uartstart_loop_ok : forall fuel s, no_proc_lock s -> uart_ok (uart s) ->
  (Z.to_nat (u64 (uart_tx_w (uart s) - uart_tx_r (uart s))) < fuel)%nat ->
  exists s', uartstart_loop fuel s = Ret tt s' /\ s' = set_uart (uart s') (set_procs (procs s') s) /\ tx_moved (uart s) (uart s').
Proof.
  induction fuel as [|fuel IH]; intros s Hp Hu Hf; [lia |]. cbn [uartstart_loop]. erewrite bind_Ret by reflexivity. cbv beta.
  destruct (Z.eqb_spec (uart_tx_w (uart s)) (uart_tx_r (uart s))) as [E|E].
  { exists s. split; [done |]. split; [done |]. split; try done. left. unfold tx_pending. by apply contents_empty; [lia | apply Hu | apply Hu |]. }
  destruct (read_idle_run s) as (b & l & Er & Hb). erewrite bind_Ret by exact Er. cbv beta.
  destruct Hb as [[-> Hb]|[-> Hb]]; cbn [negb].
  2: { eexists. split; [done |]. split; [done |]. cbn. split; try done. right; by exists []. }
  erewrite bind_Ret by reflexivity. cbv beta. rewrite in_bounds_run by (by apply (tx_in (uart s))). cbv zeta. unfold upd_uart. erewrite bind_Ret by reflexivity.
  erewrite bind_Ret by (apply wakeup_ok; exact Hp). unfold write_thr, upd_uart. erewrite bind_Ret by reflexivity. cbn.
  destruct (tx_pending_next (uart s) Hu E) as (Hu1 & Hn & Hb1). set (u1 := set_uart_tx_r (u64 (uart_tx_r (uart s) + 1)) (uart s)) in Hn, Hu1.
  set (c := uart_tx_buf (uart s) !!! tx_slot (uart_tx_r (uart s))) in *. assert (Hc : u8 c = c) by (by apply wrap_small). rewrite Hc.
  destruct (IH (set_uart (set_uart_lsr l (set_uart_out (c :: uart_out (uart s)) u1)) (set_procs (wake (cur s) ChUart (procs s)) s)))
    as (s' & Es & Fs & [M1 M2 M3 M4 M5]).
  - exact Hp.
  - exact Hu1.
  - cbn. apply (f_equal length) in Hn. unfold tx_pending in Hn. cbn [length] in Hn. rewrite !length_contents in Hn. unfold count in Hn. cbn in Hn. lia.
  - exists s'. split; [exact Es |]. split; [rewrite Fs at 1; done |]. split; try done.
    + rewrite M2. change (rev (c :: uart_out (uart s)) ++ tx_pending u1 = rev (uart_out (uart s)) ++ tx_pending (uart s)).
      rewrite Hn. cbn [rev]. by rewrite <- app_assoc.
    + destruct M5 as [M5|[pre M5]]; [by left |]. cbn in M5. destruct Hb as [Hb|[_ ->]].
      * right. exists (true :: pre). rewrite Hb, M5. done.
      * by destruct pre.
Qed.

Lemma uartstart_ok s : no_proc_lock s -> uart_ok (uart s) ->
  exists s', uartstart s = Ret tt s' /\ s' = set_uart (uart s') (set_procs (procs s') s) /\ tx_moved (uart s) (uart s').
Proof. intros Hp Hu. unfold uartstart. erewrite bind_Ret by reflexivity. cbv beta. apply uartstart_loop_ok; [done | done | lia]. Qed.

(** Adding a character to a buffer with room. *)
Lemma tx_push u c : uart_ok u -> u64 (uart_tx_w u - uart_tx_r u) < UART_TX_BUF_SIZE ->
  let u' := set_uart_tx_w (u64 (uart_tx_w u + 1)) (set_uart_tx_buf (<[tx_slot (uart_tx_w u) := u8 c]> (uart_tx_buf u)) u) in
  uart_ok u' /\ uart_stream u' = uart_stream u ++ [u8 c].
Proof.
  intros Hu Hlt u'. destruct (queue_push 64 UART_TX_BUF_SIZE ltac:(lia) ltac:(done) tx_div _ _ _ (u8 c) Hu Hlt) as [H1 H2]; [by apply wrap_range |].
  split; [exact H1 |]. transitivity (rev (uart_out u) ++ (tx_pending u ++ [u8 c])); [exact (f_equal _ H2) | apply app_assoc].
Qed.

(** A buffer that is not full has room. *)
Lemma tx_room s : uart_ok (uart s) -> uart_full s = false -> u64 (uart_tx_w (uart s) - uart_tx_r (uart s)) < UART_TX_BUF_SIZE.
Proof.
  intros [_ H1 H2 H3 _] Hf. unfold uart_full in Hf. apply Z.eqb_neq in Hf. unfold count in H3.
  destruct (decide (u64 (uart_tx_w (uart s) - uart_tx_r (uart s)) = UART_TX_BUF_SIZE)) as [E|]; [|lia]. destruct Hf.
  rewrite <- E, wrap_add_r. replace (uart_tx_r (uart s) + (uart_tx_w (uart s) - uart_tx_r (uart s))) with (uart_tx_w (uart s)) by lia. by rewrite wrap_small.
Qed.

(** The character [c] has joined the queue. *)
Definition tx_put (c : Z) (s : kernel) (_ : unit) (s' : kernel) : Prop :=
  uart_ok (uart s') /\ s' = set_uart (uart s') (set_procs (procs s') s) /\
  uart_stream (uart s') = uart_stream (uart s) ++ [u8 c] /\
  (tx_pending (uart s') = [] \/ exists pre, uart_lsr (uart s) = pre ++ false :: uart_lsr (uart s')).

(** C33: the transmit buffer is a queue.  [uartputc] goes to sleep exactly when the
    buffer is full, and looks again each time it is woken.  Once there is room it
    appends the character to the stream of characters handed to the device or
    waiting, as the stream was when it found the room: no character is lost,
    overwritten, duplicated or reordered.  The 64-bit counters may wrap, and when it
    returns either everything was sent or the device refused the next character. *)
Theorem uartputc_fifo (me : nat) (s : kernel) (c : Z) (Hc : cur s = me) (Hh : held s = ∅) (Hme : (me < length (procs s))%nat) (Hu : uart_ok (uart s)) :
  waits me (fun s => uart_ok (uart s)) uart_full ChUart (tx_put c) WAKEUPS s (uartputc c s).
Proof.
  unfold uartputc. apply acquire_waits; try done. intros s1 _ Hh1 Hu1 Hf. cbv beta.
  destruct (tx_push (uart s1) c Hu1 (tx_room s1 Hu1 Hf)) as [Hu2 Hs2]. set (u2 := set_uart_tx_w _ _) in Hu2, Hs2.
  destruct (uartstart_ok (set_uart u2 (set_held {[LkUart]} s1))) as (s2 & E2 & F2 & [M1 M2 M3 M4 M5]).
  { intros i. cbn. set_solver. }
  { exact Hu2. }
  exists tt, (set_held ∅ s2). split; [|split_and!; [exact M1 | | exact (eq_trans M2 Hs2) | exact M5]].
  - erewrite bind_Ret by reflexivity. cbv beta. rewrite in_bounds_run by (by apply (tx_in (uart s1))). unfold upd_uart.
    erewrite bind_Ret by reflexivity. erewrite bind_Ret by reflexivity. erewrite bind_Ret by exact E2.
    assert (Eh : held s2 = {[LkUart]}) by (by rewrite F2). rewrite release_Ret by (rewrite Eh; set_solver). rewrite Eh.
    by replace ({[LkUart]} ∖ {[LkUart]} : gset lockid) with (∅ : gset lockid) by set_solver.
  - rewrite F2 at 1. cbn. rewrite <- Hh1. reflexivity.
Qed.

(** A full buffer whose counters wrap: the device takes two characters while
    process 0 waits. *)
Definition demo_uart (r : Z) : uartst := mkUart (replicate 32 7) 30 (u64 r) [false] [] [] [].

Lemma uartputc_fifo_witness :
  match uartputc 65 (set_uart (demo_uart (-2)) (boot_kernel (fun _ => []))) with
  | Sleep c s k => c = ChUart /\ exists s', k (set_uart (demo_uart 0) s) = Ret tt s' /\ uart_stream (uart s') = replicate 30 7 ++ [65]
  | _ => False
  end.
Proof.
  assert (Hok : forall r, r = 0 \/ r = -2 -> uart_ok (demo_uart r)).
  { intros r Hr. split; [reflexivity | | vm_compute; split; congruence | | apply Forall_replicate; vm_compute; split; congruence]; destruct Hr as [->| ->]; vm_compute; (discriminate || (split; congruence)). }
  set (s0 := set_uart (demo_uart (-2)) (boot_kernel (fun _ => []))).
  pose proof (uartputc_fifo 0 s0 65 eq_refl eq_refl ltac:(vm_compute; lia) (Hok (-2) (or_intror eq_refl))) as H. change WAKEUPS with (S (S 998)) in H. cbn [waits] in H.
  change (uart_full s0) with true in H. cbv iota in H. destruct H as (k & -> & H). split; [reflexivity |].
  specialize (H (set_uart (demo_uart 0) (sleeping 0 ChUart s0)) eq_refl eq_refl ltac:(vm_compute; lia) (Hok 0 (or_introl eq_refl))).
  match type of H with if ?b then _ else _ => change b with false in H end. cbv iota in H. destruct H as ([] & s' & E & _ & _ & Hs & _).
  exists s'. split; [exact E |]. rewrite Hs. vm_compute. reflexivity.
Defined.
