(* ===== verification/Printf.v ===== *)
(** * kernel/printf.c, and consputc of console.c

    Characters go to the UART one at a time.  Arguments are a list in the order
    [va_arg] takes them; a format that asks for an argument of another type, or
    for one too many, is undefined in C and panics here. *)

From S2P Require Import Prelude State Spinlock Sched Uart.

Inductive varg : Type := VInt (x : Z) | VUint64 (x : Z) | VStr (s : option (list Z)).

Definition BACKSPACE : Z := 0x100.

Definition consputc (c : Z) : M kernel unit :=
  if c =? BACKSPACE then uartputc_sync 8 ;; uartputc_sync 32 ;; uartputc_sync 8
  else uartputc_sync c.

Fixpoint consputs (l : list Z) : M kernel unit :=
  match l with
  | [] => mret tt
  | c :: l => consputc c ;; consputs l
  end.

(** The [do ... while] loop of printint: digits of [x], the last one first. *)
Fixpoint digits_loop (fuel : nat) (digits : list Z) (x base : Z) : list Z :=
  match fuel with
  | O => []
  | S fuel =>
      (digits !!! Z.to_nat (x mod base)) ::
      (if x / base =? 0 then [] else digits_loop fuel digits (x / base) base)
  end.

(** A 32-bit number has at most 32 digits. *)
Definition DIGITS : nat := 32.
Definition digits : list Z := bytes "0123456789abcdef".

(** [buf] at the end of printint, in the order it is filled. *)
Definition printint_buf (digits : list Z) (xx base : Z) (sign : bool) : list Z :=
  let neg := sign && (xx <? 0) in
  let x := if neg then u32 (- xx) else u32 xx in
  digits_loop DIGITS digits x base ++ (if neg then [45] else []).

(** [buf] has 16 bytes. *)
Definition printint (xx base : Z) (sign : bool) : M kernel unit :=
  let buf := printint_buf digits xx base sign in
  in_prefix (alen buf) 16 ;;
  consputs (rev buf).

Fixpoint printptr_loop (k : nat) (x : Z) : M kernel unit :=
  match k with
  | O => mret tt
  | S k =>
      in_bounds (Z.shiftr x 60) (alen digits) ;;
      consputc (digits !!! Z.to_nat (Z.shiftr x 60)) ;;
      printptr_loop k (u64 (Z.shiftl x 4))
  end.

Definition printptr (x : Z) : M kernel unit :=
  consputc 48 ;; consputc 120 ;; printptr_loop 16 (u64 x).

Definition VA_ARG : string := "va_arg".
Definition va_arg_missing {A} : M kernel A := panic VA_ARG.

Fixpoint printf_loop (fmt : list Z) (ap : list varg) : M kernel unit :=
  match fmt with
  | [] => mret tt
  | c :: fmt =>
      if negb (c =? 37) then consputc c ;; printf_loop fmt ap else
      match fmt with
      | [] => mret tt
      | c :: fmt =>
          if c =? 100 then (* d *)
            match ap with VInt x :: ap => printint x 10 true ;; printf_loop fmt ap | _ => va_arg_missing end
          else if c =? 120 then (* x *)
            match ap with VInt x :: ap => printint x 16 true ;; printf_loop fmt ap | _ => va_arg_missing end
          else if c =? 112 then (* p *)
            match ap with VUint64 x :: ap => printptr x ;; printf_loop fmt ap | _ => va_arg_missing end
          else if c =? 115 then (* s *)
            match ap with VStr s :: ap => consputs (default (bytes "(null)") s) ;; printf_loop fmt ap | _ => va_arg_missing end
          else if c =? 37 then consputc 37 ;; printf_loop fmt ap
          else consputc 37 ;; consputc c ;; printf_loop fmt ap
      end
  end.

Definition printf (fmt : list Z) (ap : list varg) : M kernel unit :=
  locking ← gets (fun s => pr_locking s);
  (if (locking : bool) then acquire LkPr else mret tt) ;;
  printf_loop fmt ap ;;
  if (locking : bool) then release LkPr else mret tt.

Definition printfinit : M kernel unit := initlock LkPr ;; modify (fun s => set_pr_locking true s).

(** The bytes [kpanic msg] leaves on the console before the machine stops. *)
Definition panic_print (msg : list Z) : M kernel unit :=
  modify (fun s => set_pr_locking false s) ;;
  printf (bytes "panic: ") [] ;;
  printf msg [] ;;
  printf [10] [].

(** ** Printing only changes the UART *)

Lemma consputc_run c s : exists u, consputc c s = Ret tt (set_uart u s).
Proof. unfold consputc, uartputc_sync, write_thr, upd_uart. destruct (c =? BACKSPACE); eexists; reflexivity. Qed.

Lemma consputs_run l : forall s, exists u, consputs l s = Ret tt (set_uart u s).
Proof.
  induction l as [|c l IH]; intros s; [by exists (uart s) |]. cbn [consputs]. destruct (consputc_run c s) as [u E].
  erewrite bind_Ret by exact E. destruct (IH (set_uart u s)) as [u' E']. exists u'. rewrite E'. done.
Qed.

(** A format without directives. *)
Lemma printf_plain fmt s : Forall (fun c => c <> 37) fmt -> LkPr ∉ held s -> exists u, printf fmt [] s = Ret tt (set_uart u s).
Proof.
  intros Hf Hl. assert (Hloop : forall s, exists u, printf_loop fmt [] s = Ret tt (set_uart u s)).
  { clear Hl s. induction Hf as [|c fmt Hc Hf IH]; intros s; [by exists (uart s) |]. cbn [printf_loop].
    destruct (Z.eqb_spec c 37); [done |]. cbn [negb]. destruct (consputc_run c s) as [u E]. erewrite bind_Ret by exact E.
    destruct (IH (set_uart u s)) as [u' E']. exists u'. rewrite E'. done. }
  unfold printf. erewrite bind_Ret by reflexivity. cbv beta. destruct (pr_locking s).
  - erewrite bind_Ret by (by apply acquire_Ret). destruct (Hloop (set_held ({[LkPr]} ∪ held s) s)) as [u E].
    erewrite bind_Ret by exact E. rewrite release_Ret by (cbn; set_solver). exists u. cbn. by rewrite held_restore.
  - erewrite bind_Ret by reflexivity. destruct (Hloop s) as [u E]. erewrite bind_Ret by exact E. by exists u.
Qed.

(** A number of 32 bits and its sign fit the buffer of printint. *)
Lemma digits_loop_length dg base : 1 < base -> forall fuel k x, 0 <= x < base ^ Z.of_nat (S k) -> (length (digits_loop fuel dg x base) <= S k)%nat.
Proof.
  intros Hb. induction fuel as [|fuel IH]; intros k x Hx; cbn [digits_loop length]; [lia |].
  destruct (Z.eqb_spec (x / base) 0); [cbn; lia |]. destruct k as [|k].
  - change (Z.of_nat 1) with 1 in Hx. rewrite Z.pow_1_r in Hx. rewrite Z.div_small in * by lia. lia.
  - enough (length (digits_loop fuel dg (x / base) base) <= S k)%nat by lia. apply IH. split; [apply Z.div_pos; lia |].
    apply Z.div_lt_upper_bound; [lia |]. rewrite Nat2Z.inj_succ, Z.pow_succ_r in Hx by lia. lia.
Qed.

Lemma printint_buf_bound dg xx base sgn : base = 10 \/ base = 16 -> (length (printint_buf dg xx base sgn) <= 11)%nat.
Proof.
  intros Hb. unfold printint_buf. rewrite length_app. set (neg := sgn && (xx <? 0)). set (x := if neg then u32 (- xx) else u32 xx).
  assert (Hx : 0 <= x < 2 ^ 32) by (unfold x; destruct neg; apply wrap_range; lia).
  assert (Hl : (length (digits_loop DIGITS dg x base) <= 10)%nat).
  { destruct Hb as [-> | ->]; apply digits_loop_length; try lia; change (Z.of_nat 10) with 10; lia. }
  destruct neg; cbn [length]; lia.
Qed.
