(* ===== verification/Copy.v ===== *)
(** * either_copyin and either_copyout of kernel/proc.c

    The callers move data between a buffer of theirs and a place that is a user
    address of the current process, a physical page, or a variable of their own
    caller: the types [kdst] and [ksrc].  The bytes stored to a variable are
    returned, so that a caller reads back what was written to it. *)

From S2P Require Import Prelude State Mem Spinlock Sched Memlayout Kalloc Vm.

Inductive kdst : Type :=
| DUser (va : Z)   (* user_dst = 1 *)
| DPhys (pa : Z)   (* user_dst = 0, a page of physical memory *)
| DVar.            (* user_dst = 0, a variable of the caller *)

Inductive ksrc : Type :=
| SUser (va : Z)   (* user_src = 1 *)
| SVar (l : list Z).  (* user_src = 0, a variable of the caller *)

(** [dst + n] *)
Definition kdst_add (d : kdst) (n : Z) : kdst :=
  match d with
  | DUser va => DUser (u64 (va + n))
  | DPhys pa => DPhys (u64 (pa + n))
  | DVar => DVar
  end.

Definition ksrc_add (s : ksrc) (n : Z) : ksrc :=
  match s with
  | SUser va => SUser (u64 (va + n))
  | SVar l => SVar (drop (Z.to_nat n) l)
  end.

Section copy.
Context {L : Layout}.

Definition my_pagetable : M kernel Z :=
  me ← myproc;
  p ← getproc me;
  mret (p_pagetable p).

(** Copy to either a user address, or kernel address; 0 on success, -1 on
    error, and the bytes stored to a variable. *)
Definition either_copyout (dst : kdst) (src : list Z) (len : Z) : M kernel (Z * list Z) :=
  match dst with
  | DUser va =>
      pt ← my_pagetable;
      r ← copyout pt va src len;
      mret (r, [])
  | DPhys pa => write_bytes pa (take (Z.to_nat len) src) ;; mret (0, [])
  | DVar => mret (0, take (Z.to_nat len) src)
  end.

(** Copy from either a user address, or kernel address; the status and the
    bytes stored. *)
Definition either_copyin (src : ksrc) (len : Z) : M kernel (Z * list Z) :=
  match src with
  | SUser va =>
      pt ← my_pagetable;
      copyin pt va len
  | SVar l => mret (0, take (Z.to_nat len) l)
  end.
End copy.
