(* ===== verification/Console.v ===== *)
(** * kernel/console.c: line-edited console input, and uartintr of uart.c

    The input ring has three counters: [r] (next byte to read), [w] (end of the
    complete lines) and [e] (end of the line being edited). *)

From S2P Require Import Prelude State Ring Mem Spinlock Sched Memlayout Kalloc Vm Uart Printf Copy.

Definition upd_cons (f : consst -> consst) : M kernel unit := modify (fun s => set_cons (f (cons s)) s).
Definition getcons : M kernel consst := gets (fun s => cons s).

(** [C(x)], Control-x *)
Definition C (x : Z) : Z := x - 64.

Definition cons_slot : Z -> nat := slot INPUT_BUF_SIZE.

(** ** procdump of proc.c *)

Definition state_name (st : procstate) : list Z :=
  match st with
  | UNUSED => bytes "unused"
  | USED => bytes "used"
  | SLEEPING => bytes "sleep "
  | RUNNABLE => bytes "runble"
  | RUNNING => bytes "run   "
  | ZOMBIE => bytes "zombie"
  end.

(** A name array up to its NUL. *)
Fixpoint cname (l : list Z) : list Z :=
  match l with
  | [] => []
  | c :: l => if c =? 0 then [] else c :: cname l
  end.

Fixpoint procdump_loop (k i : nat) : M kernel unit :=
  match k with
  | O => mret tt
  | S k =>
      p ← getproc i;
      (if decide (p_state p = UNUSED) then mret tt else
         printf (bytes "%d %s %s") [VInt (p_pid p); VStr (Some (state_name (p_state p))); VStr (Some (cname (p_name p)))] ;;
         printf [10] []) ;;
      procdump_loop k (S i)
  end.

Definition procdump : M kernel unit :=
  printf [10] [] ;;
  procdump_loop (Z.to_nat NPROC) 0.

Section console.
Context {L : Layout}.

(** ** write() *)

Fixpoint consolewrite_loop (k : nat) (i : Z) (src : ksrc) : M kernel Z :=
  match k with
  | O => mret i
  | S k =>
      r ← either_copyin (ksrc_add src i) 1;
      if fst r =? -1 then mret i else
      uartputc (snd r !!! 0%nat) ;;
      consolewrite_loop k (i + 1) src
  end.

Definition consolewrite (src : ksrc) (n : Z) : M kernel Z := consolewrite_loop (Z.to_nat n) 0 src.

(** ** read() *)

(** [while(cons.r == cons.w)]: false when the process was killed. *)
Fixpoint cons_wait (fuel : nat) : M kernel bool :=
  match fuel with
  | O => nofuel
  | S fuel =>
      c ← getcons;
      if cons_r c =? cons_w c then
        me ← myproc;
        k ← killed me;
        if (k : bool) then mret false else
        sleep ChCons LkCons ;;
        cons_wait fuel
      else mret true
  end.

(** The value of [target - n] at the end, [None] if the process was killed. *)
Fixpoint consoleread_loop (k : nat) (target n : Z) (dst : kdst) : M kernel (option Z) :=
  match k with
  | O => mret (Some (target - n))
  | S k =>
      ok ← cons_wait WAKEUPS;
      if negb ok then mret None else
      c ← getcons;
      in_bounds (Z.of_nat (cons_slot (cons_r c))) (alen (cons_buf c)) ;;
      let ch := cons_buf c !!! cons_slot (cons_r c) in
      upd_cons (set_cons_r (u32 (cons_r c + 1))) ;;
      if ch =? C 68 then
        (if n <? target then upd_cons (fun c => set_cons_r (u32 (cons_r c - 1)) c) else mret tt) ;;
        mret (Some (target - n))
      else
      r ← either_copyout dst [ch] 1;
      if fst r =? -1 then mret (Some (target - n)) else
      if ch =? 10 then mret (Some (target - (n - 1))) else
      consoleread_loop k target (n - 1) (kdst_add dst 1)
  end.

Definition consoleread (dst : kdst) (n : Z) : M kernel Z :=
  acquire LkCons ;;
  r ← consoleread_loop (Z.to_nat n) n n dst;
  release LkCons ;;
  match r with
  | Some m => mret m
  | None => mret (-1)
  end.
Definition consoleinit : M kernel unit :=
  initlock LkCons ;;
  uartinit ;;
  modify (fun s => set_devsw (<[Z.to_nat CONSOLE := true]> (devsw s)) s).
End console.

(** ** The input interrupt handler *)

Fixpoint kill_line (fuel : nat) : M kernel unit :=
  match fuel with
  | O => nofuel
  | S fuel =>
      c ← getcons;
      if cons_e c =? cons_w c then mret tt else
      in_bounds (Z.of_nat (cons_slot (u32 (cons_e c - 1)))) (alen (cons_buf c)) ;;
      if negb (cons_buf c !!! cons_slot (u32 (cons_e c - 1)) =? 10) then
        upd_cons (set_cons_e (u32 (cons_e c - 1))) ;;
        consputc BACKSPACE ;;
        kill_line fuel
      else mret tt
  end.

Definition consoleintr (c : Z) : M kernel unit :=
  acquire LkCons ;;
  (if c =? C 80 then procdump
   else if c =? C 85 then
     k ← getcons;
     kill_line (S (Z.to_nat (u32 (cons_e k - cons_w k))))
   else if (c =? C 72) || (c =? 127) then
     k ← getcons;
     (if cons_e k =? cons_w k then mret tt
      else upd_cons (set_cons_e (u32 (cons_e k - 1))) ;; consputc BACKSPACE)
   else
     k ← getcons;
     if negb (c =? 0) && (u32 (cons_e k - cons_r k) <? INPUT_BUF_SIZE) then
       let c := if c =? 13 then 10 else c in
       consputc c ;;
       in_bounds (Z.of_nat (cons_slot (cons_e k))) (alen (cons_buf k)) ;;
       upd_cons (set_cons_buf (<[cons_slot (cons_e k) := u8 c]> (cons_buf k))) ;;
       upd_cons (set_cons_e (u32 (cons_e k + 1))) ;;
       k ← getcons;
       if (c =? 10) || (c =? C 68) || (u32 (cons_e k - cons_r k) =? INPUT_BUF_SIZE) then
         upd_cons (set_cons_w (cons_e k)) ;;
         wakeup ChCons
       else mret tt
     else mret tt) ;;
  release LkCons.

(** uartintr of uart.c: one round per byte waiting in the receiver. *)
Fixpoint uartintr_loop (fuel : nat) : M kernel unit :=
  match fuel with
  | O => nofuel
  | S fuel =>
      c ← uartgetc;
      if c =? -1 then mret tt else
      consoleintr c ;;
      uartintr_loop fuel
  end.

Definition uartintr : M kernel unit :=
  u ← gets (fun s => uart s);
  uartintr_loop (S (length (uart_rx u))) ;;
  acquire LkUart ;;
  uartstart ;;
  release LkUart.
