(* ===== verification/ConsoleProps.v ===== *)
(** * The console edits lines

    The input ring is two queues in one buffer: the bytes readers may take, and
    the line being edited.  [line_input] says what a character typed does to the
    two, what is echoed, and whether readers are woken; the interrupt handler
    implements it. *)

From S2P Require Import Prelude State Ring Mem Spinlock Sched Memlayout Kalloc Vm Uart Printf Copy Console.

(** Bytes readers may take, and the line being edited. *)
Definition readable (k : consst) : list Z := contents 32 INPUT_BUF_SIZE (cons_r k) (cons_w k) (cons_buf k).
Definition editing (k : consst) : list Z := contents 32 INPUT_BUF_SIZE (cons_w k) (cons_e k) (cons_buf k).

(** ** The specification *)

Record typed : Type := mkTyped { ty_ready : list Z; ty_line : list Z; ty_echo : list Z; ty_wake : bool }.

Definition rubout : list Z := [8; 32; 8].

Definition line_input (c : Z) (ready line : list Z) : typed :=
  if c =? C 85 then mkTyped ready [] (concat (replicate (length line) rubout)) false
  else if (c =? C 72) || (c =? 127) then
    match line with
    | [] => mkTyped ready [] [] false
    | _ => mkTyped ready (removelast line) rubout false
    end
  else
    let n := Z.of_nat (length ready + length line) in
    if negb (c =? 0) && (n <? INPUT_BUF_SIZE) then
      let c := if c =? 13 then 10 else c in
      if (c =? 10) || (c =? C 68) || (n + 1 =? INPUT_BUF_SIZE)
      then mkTyped (ready ++ line ++ [c]) [] [c] true
      else mkTyped ready (line ++ [c]) [c] false
    else mkTyped ready line [] false.

(** ** The invariant *)

Record cons_ok (k : consst) : Prop := mkConsOk {
  co_ring : ring_ok 32 INPUT_BUF_SIZE (cons_r k) (cons_e k) (cons_buf k);
  co_w : 0 <= cons_w k < 2 ^ 32;
  co_split : count 32 (cons_r k) (cons_w k) + count 32 (cons_w k) (cons_e k) = count 32 (cons_r k) (cons_e k);
  co_line : Forall (fun c => c <> 10) (editing k)
}.

Lemma cons_in k n : cons_ok k -> 0 <= Z.of_nat (cons_slot n) < alen (cons_buf k).
Proof. intros K. apply (slot_in 32); [done | done | apply K]. Qed.

Lemma cons_div : (INPUT_BUF_SIZE | 2 ^ 32).
Proof. exists (2 ^ 25). reflexivity. Qed.

Lemma co_edit k : cons_ok k -> ring_ok 32 INPUT_BUF_SIZE (cons_w k) (cons_e k) (cons_buf k).
Proof.
  intros [[R1 R2 R3 R4 R5] W S _]. split; try done. pose proof (count_range 32 ltac:(lia) (cons_r k) (cons_w k)). lia.
Qed.

Lemma co_length k : cons_ok k -> Z.of_nat (length (readable k) + length (editing k)) = count 32 (cons_r k) (cons_e k).
Proof.
  intros K. unfold readable, editing. rewrite !length_contents. pose proof (co_split _ K). pose proof (count_range 32 ltac:(lia) (cons_r k) (cons_w k)).
  pose proof (count_range 32 ltac:(lia) (cons_w k) (cons_e k)). lia.
Qed.

(** ** The steps on the ring *)

Lemma editing_empty k : cons_ok k -> editing k = [] <-> cons_w k = cons_e k.
Proof. intros K. apply contents_empty; [lia | apply K | apply K]. Qed.

(** Rubbing out the last character of the line. *)
Definition rub (k : consst) : consst := set_cons_e (u32 (cons_e k - 1)) k.

Lemma rub_ok k : cons_ok k -> editing k <> [] ->
  cons_ok (rub k) /\ readable (rub k) = readable k /\ editing k = editing (rub k) ++ [cons_buf k !!! cons_slot (u32 (cons_e k - 1))].
Proof.
  intros K Hne. assert (Hw : cons_w k <> cons_e k) by (intros E; by apply Hne, editing_empty).
  destruct (queue_unpush 32 INPUT_BUF_SIZE ltac:(lia) ltac:(done) cons_div _ _ _ (co_edit k K) Hw) as [R1 E1].
  pose proof (f_equal length E1) as El. rewrite length_app, !length_contents in El. cbn [length] in El.
  pose proof (count_range 32 ltac:(lia) (cons_w k) (cons_e k)). pose proof (count_range 32 ltac:(lia) (cons_w k) (u32 (cons_e k - 1))). pose proof (count_range 32 ltac:(lia) (cons_r k) (cons_w k)).
  pose proof (co_split _ K) as Hs. assert (Hre : cons_r k <> cons_e k).
  { intros E. apply (count_zero 32 ltac:(lia)) in E; [lia | apply K | apply K]. }
  destruct (queue_unpush 32 INPUT_BUF_SIZE ltac:(lia) ltac:(done) cons_div _ _ _ (co_ring k K) Hre) as [R2 E2].
  pose proof (f_equal length E2) as El2. rewrite length_app, !length_contents in El2. cbn [length] in El2. pose proof (count_range 32 ltac:(lia) (cons_r k) (u32 (cons_e k - 1))). pose proof (count_range 32 ltac:(lia) (cons_r k) (cons_e k)).
  split; [|split; [done | exact E1]]. split; [exact R2 | apply K | cbn; lia |]. pose proof (co_line k K) as Hl. unfold editing in Hl at 1. rewrite E1, Forall_app in Hl. apply Hl.
Qed.

(** Adding a character to the line. *)
Definition add (c : Z) (k : consst) : consst := set_cons_e (u32 (cons_e k + 1)) (set_cons_buf (<[cons_slot (cons_e k) := c]> (cons_buf k)) k).
(** Giving the line to the readers. *)
Definition give (k : consst) : consst := set_cons_w (cons_e k) k.

Lemma add_ring c k : cons_ok k -> count 32 (cons_r k) (cons_e k) < INPUT_BUF_SIZE -> is_byte c ->
  ring_ok 32 INPUT_BUF_SIZE (cons_r k) (cons_e (add c k)) (cons_buf (add c k)) /\ readable (add c k) = readable k /\ editing (add c k) = editing k ++ [c] /\
  count 32 (cons_r k) (cons_w k) + count 32 (cons_w k) (cons_e (add c k)) = count 32 (cons_r k) (cons_e (add c k)) /\ count 32 (cons_r k) (cons_e (add c k)) = count 32 (cons_r k) (cons_e k) + 1.
Proof.
  intros K Hlt Hc. pose proof (co_split _ K) as Hs. pose proof (count_range 32 ltac:(lia) (cons_r k) (cons_w k)). pose proof (count_range 32 ltac:(lia) (cons_w k) (cons_e k)).
  unfold INPUT_BUF_SIZE in *. destruct (queue_push 32 INPUT_BUF_SIZE ltac:(lia) ltac:(done) cons_div _ _ _ c (co_ring k K) Hlt Hc) as [R1 _].
  destruct (queue_push 32 INPUT_BUF_SIZE ltac:(lia) ltac:(done) cons_div _ _ _ c (co_edit k K) ltac:(unfold INPUT_BUF_SIZE; lia) Hc) as [_ E2].
  split; [exact R1 |]. split; [|split; [exact E2 |]].
  - unfold readable. cbn. apply (contents_insert 32 INPUT_BUF_SIZE ltac:(lia) ltac:(done) cons_div); [apply K | unfold INPUT_BUF_SIZE; lia].
  - cbn. rewrite !count_push by lia. lia.
Qed.

Lemma add_ok c k : cons_ok k -> count 32 (cons_r k) (cons_e k) < INPUT_BUF_SIZE -> is_byte c -> c <> 10 ->
  cons_ok (add c k).
Proof.
  intros K Hlt Hc H10. destruct (add_ring c k K Hlt Hc) as (R1 & R2 & R3 & R4 & _). split; [done | apply K | done |]. rewrite R3, Forall_app. split; [apply K | by constructor].
Qed.

Lemma give_ok c k : cons_ok k -> count 32 (cons_r k) (cons_e k) < INPUT_BUF_SIZE -> is_byte c ->
  cons_ok (give (add c k)) /\ readable (give (add c k)) = readable k ++ editing k ++ [c] /\ editing (give (add c k)) = [].
Proof.
  intros K Hlt Hc. destruct (add_ring c k K Hlt Hc) as (R1 & R2 & R3 & R4 & _). assert (E : editing (give (add c k)) = []).
  { unfold editing. apply contents_empty; [lia | apply R1 | apply R1 | done]. }
  split; [split; [exact R1 | apply R1 | | by rewrite E] |].
  - cbn. unfold count. rewrite Z.sub_diag. change (u32 0) with 0. lia.
  - split; [|done]. unfold readable, give. cbn [cons_r cons_w cons_buf set_cons_w].
    rewrite (contents_app 32 INPUT_BUF_SIZE ltac:(lia) cons_div _ (cons_w k)) by exact R4. f_equal; [exact R2 | exact R3].
Qed.

(** ** The handler *)

(** [s] after the bytes [e] were sent to the UART. *)
Definition echoed (e : list Z) (l : list bool) (s : kernel) : kernel :=
  set_uart (set_uart_out (rev e ++ uart_out (uart s)) (set_uart_lsr l (uart s))) s.

Lemma putc_echo c s : is_byte c -> exists l, consputc c s = Ret tt (echoed [c] l s).
Proof.
  intros Hc. unfold consputc. destruct (Z.eqb_spec c BACKSPACE) as [->|_]; [destruct Hc; done |]. unfold uartputc_sync. erewrite bind_Ret by reflexivity.
  unfold write_thr, upd_uart, modify. eexists. rewrite wrap_small by done. reflexivity.
Qed.

Lemma rubout_run s : exists l, consputc BACKSPACE s = Ret tt (echoed rubout l s).
Proof. eexists. reflexivity. Qed.

Lemma kill_line_ok : forall fuel s, cons_ok (cons s) -> (length (editing (cons s)) < fuel)%nat ->
  exists k l, kill_line fuel s = Ret tt (set_cons k (echoed (concat (replicate (length (editing (cons s))) rubout)) l s)) /\
    cons_ok k /\ readable k = readable (cons s) /\ editing k = [].
Proof.
  induction fuel as [|fuel IH]; intros s K Hf; [lia |]. cbn [kill_line]. unfold getcons. erewrite bind_Ret by reflexivity. cbv beta.
  destruct (decide (editing (cons s) = [])) as [E|E].
  - assert (Hw : cons_e (cons s) = cons_w (cons s)) by (symmetry; by apply editing_empty). rewrite Hw, Z.eqb_refl. exists (cons s), (uart_lsr (uart s)). rewrite E. done.
  - assert (Hw : cons_e (cons s) <> cons_w (cons s)) by (intros Hw; by apply E, editing_empty). apply Z.eqb_neq in Hw. rewrite Hw. rewrite in_bounds_run by (by apply cons_in).
    destruct (rub_ok (cons s) K E) as (K1 & R1 & E1). pose proof (co_line _ K) as Hl. rewrite E1, Forall_app in Hl. destruct Hl as [_ Hl]. apply Forall_cons in Hl as [Hl _].
    apply Z.eqb_neq in Hl. rewrite Hl. cbn [negb]. unfold upd_cons. erewrite bind_Ret by reflexivity. cbv beta. fold (rub (cons s)).
    destruct (rubout_run (set_cons (rub (cons s)) s)) as [l El]. erewrite bind_Ret by exact El. cbv beta.
    destruct (IH (echoed rubout l (set_cons (rub (cons s)) s))) as (k & l' & Ek & K2 & R2 & E2); [done | rewrite E1, length_app in Hf; cbn in *; lia |].
    exists k, l'. split; [|split; [done | split; [exact (eq_trans R2 R1) | done]]]. rewrite Ek. rewrite E1, length_app. cbn [length]. rewrite Nat.add_1_r.
    change (editing (cons (echoed rubout l (set_cons (rub (cons s)) s)))) with (editing (rub (cons s))). generalize (length (editing (rub (cons s)))) as n. intros n.
    change (concat (replicate (S n) rubout)) with (rubout ++ concat (replicate n rubout)). unfold echoed. rewrite rev_app_distr, <- app_assoc. reflexivity.
Qed.

(** The outcome of the body of the handler, before the lock is released. *)
Definition handled (s : kernel) (c : Z) (s1 : kernel) (o : outcome kernel unit) : Prop :=
  let t := line_input c (readable (cons s)) (editing (cons s)) in
  exists s', o = Ret tt s' /\ cons_ok (cons s') /\ readable (cons s') = ty_ready t /\ editing (cons s') = ty_line t /\
    uart_out (uart s') = rev (ty_echo t) ++ uart_out (uart s) /\ procs s' = (if ty_wake t then wake (cur s) ChCons (procs s) else procs s) /\ held s' = held s1.

Lemma handled_release s c (m : M kernel unit) : LkCons ∉ held s -> let s1 := set_held ({[LkCons]} ∪ held s) s in handled s c s1 (m s1) ->
  handled s c s ((m ;; release LkCons) s1).
Proof.
  intros Hl s1 (s' & E & H1 & H2 & H3 & H4 & H5 & H6). erewrite bind_Ret by exact E. cbv beta. rewrite release_Ret by (rewrite H6; unfold s1; cbn; set_solver).
  eexists. split; [reflexivity |]. split; [done |]. split; [done |]. split; [done |]. split; [done |]. split; [done |]. cbn. rewrite H6. unfold s1. cbn. by apply held_restore.
Qed.

(** C27: Typing a character edits the line: the interrupt handler does to the readable bytes and the line what the line editor
    says (erase, kill, append, and hand the line over at a newline, an end of file or a full buffer), echoes exactly that, wakes
    readers exactly when the line is handed over, and keeps the ring's invariant across wrap-around of its counters. *)
Theorem consoleintr_edits s c : is_byte c -> c <> C 80 -> LkCons ∉ held s -> no_proc_lock s -> cons_ok (cons s) ->
  let t := line_input c (readable (cons s)) (editing (cons s)) in
  exists s', consoleintr c s = Ret tt s' /\ cons_ok (cons s') /\ readable (cons s') = ty_ready t /\ editing (cons s') = ty_line t /\
    uart_out (uart s') = rev (ty_echo t) ++ uart_out (uart s) /\ procs s' = (if ty_wake t then wake (cur s) ChCons (procs s) else procs s) /\ held s' = held s.
Proof.
  intros Hb Hp Hl Hn K. unfold consoleintr. erewrite bind_Ret by (by apply acquire_Ret). cbv beta zeta. apply Z.eqb_neq in Hp. rewrite Hp. set (s1 := set_held _ s).
  match goal with |- exists s', (?m ≫= _) s1 = _ /\ _ => assert (H : handled s c s1 (m s1)) end; [|by apply handled_release].
  unfold getcons, upd_cons. unfold handled, line_input. destruct (c =? C 85) eqn:E85; [|destruct ((c =? C 72) || (c =? 127)) eqn:Eh].
  - erewrite bind_Ret by reflexivity. cbv beta. destruct (kill_line_ok (S (Z.to_nat (u32 (cons_e (cons s1) - cons_w (cons s1))))) s1 K) as (k & l & E & K' & R' & E').
    { unfold editing. rewrite length_contents. unfold count. lia. }
    eexists. split; [exact E |]. cbn. done.
  - erewrite bind_Ret by reflexivity. cbv beta. destruct (editing (cons s)) as [|x line] eqn:El.
    + assert (Hw : cons_e (cons s1) =? cons_w (cons s1) = true) by (apply Z.eqb_eq; symmetry; by apply editing_empty). rewrite Hw. by exists s1.
    + assert (Hw : cons_e (cons s1) =? cons_w (cons s1) = false).
      { apply Z.eqb_neq. intros Hw. symmetry in Hw. apply editing_empty in Hw; [|done]. change (cons s1) with (cons s) in Hw. congruence. }
      rewrite Hw. erewrite bind_Ret by reflexivity. cbv beta. destruct (rubout_run (set_cons (set_cons_e (u32 (cons_e (cons s1) - 1)) (cons s1)) s1)) as [l E].
      eexists. split; [exact E |]. destruct (rub_ok (cons s) K ltac:(by rewrite El)) as (K1 & R1 & E1). split; [exact K1 |]. split; [exact R1 |]. split; [|done].
      cbn [ty_line]. rewrite <- El, E1, removelast_last. reflexivity.
  - erewrite bind_Ret by reflexivity. cbv beta. change (cons s1) with (cons s).
    change (u32 (cons_e (cons s) - cons_r (cons s))) with (count 32 (cons_r (cons s)) (cons_e (cons s))). rewrite !(co_length (cons s) K).
    destruct (negb (c =? 0) && (count 32 (cons_r (cons s)) (cons_e (cons s)) <? INPUT_BUF_SIZE)) eqn:Ec; [|by exists s1].
    apply andb_prop in Ec as [_ Hlt%Z.ltb_lt]. set (c' := if c =? 13 then 10 else c). assert (Hc' : is_byte c') by (unfold c'; destruct (c =? 13); [split; done | done]).
    destruct (putc_echo c' s1 Hc') as [l E]. erewrite bind_Ret by exact E. cbv beta. rewrite in_bounds_run by (by apply cons_in). erewrite bind_Ret by reflexivity. cbv beta. erewrite bind_Ret by reflexivity. cbv beta.
    erewrite bind_Ret by reflexivity. cbv beta. rewrite (wrap_small 8 c') by done.
    match goal with |- context [cons ?st] => change (cons st) with (add c' (cons s)) end. fold c'.
    destruct (add_ring c' (cons s) K Hlt Hc') as (_ & R2 & R3 & _ & R5). destruct (give_ok c' (cons s) K Hlt Hc') as (G1 & G2 & G3).
    change (u32 (cons_e (add c' (cons s)) - cons_r (add c' (cons s)))) with (count 32 (cons_r (cons s)) (cons_e (add c' (cons s)))). rewrite R5.
    destruct ((c' =? 10) || (c' =? C 68) || (count 32 (cons_r (cons s)) (cons_e (cons s)) + 1 =? INPUT_BUF_SIZE)) eqn:Eg.
    + erewrite bind_Ret by reflexivity. cbv beta. rewrite wakeup_ok by (intros i; unfold s1; cbn; specialize (Hn i); set_solver). eexists. split; [reflexivity |]. done.
    + eexists. split; [reflexivity |]. apply orb_false_iff in Eg as [Eg _]. apply orb_false_iff in Eg as [Eg%Z.eqb_neq _]. split; [by apply add_ok |]. done.
Qed.

(** Counters about to wrap, "ab" typed so far. *)
Definition demo_cons : consst := mkCons (<[126%nat := 97]> (<[127%nat := 98]> (replicate 128 0))) (2 ^ 32 - 2) (2 ^ 32 - 2) 0.

Lemma consoleintr_edits_witness : exists s', consoleintr 13 (set_cons demo_cons (boot_kernel (fun _ => []))) = Ret tt s' /\ readable (cons s') = [97; 98; 10].
Proof.
  destruct (consoleintr_edits (set_cons demo_cons (boot_kernel (fun _ => []))) 13) as (s' & E & _ & R & _).
  - split; [discriminate | reflexivity].
  - discriminate.
  - apply not_elem_of_empty.
  - intros i. apply not_elem_of_empty.
  - split; [split | split; [discriminate | reflexivity] | reflexivity | repeat constructor; discriminate]; try (split; [discriminate | reflexivity]); try reflexivity; [discriminate |].
    repeat (apply Forall_insert; [|split; [discriminate | reflexivity]]). apply Forall_replicate. split; [discriminate | reflexivity].
  - exists s'. split; [exact E | exact R].
Defined.
