(* ===== verification/Pipe.v ===== *)
(** * kernel/pipe.c: pipes

    A pipe is a ring of [PIPESIZE] bytes with two free-running 32-bit counters.
    It lives in a page of its own; the pipes in use are the map [pipes] of the
    state, by page.  [pipealloc] is with the file table it allocates from, in
    File.v. *)

From S2P Require Import Prelude State Ring Mem Spinlock Sched Memlayout Kalloc Vm.

(** A page [kalloc] returns is filled with 5. *)
Definition fresh_pipe : pipest := mkPipe (replicate (Z.to_nat PIPESIZE) 5) 0 0 false false.

Definition getpipe (pi : Z) : M kernel pipest := gets (fun s => default fresh_pipe (pipes s !! pi)).
Definition upd_pipe (pi : Z) (f : pipest -> pipest) : M kernel unit :=
  modify (fun s => set_pipes (alter f pi (pipes s)) s).

Definition pipe_slot : Z -> nat := slot PIPESIZE.

Section pipe.
Context {L : Layout}.

Definition pipeclose (pi : Z) (writable : bool) : M kernel unit :=
  acquire (LkPipe pi) ;;
  (if writable then
     upd_pipe pi (set_pi_writeopen false) ;;
     wakeup (ChPipeRead pi)
   else
     upd_pipe pi (set_pi_readopen false) ;;
     wakeup (ChPipeWrite pi)) ;;
  p ← getpipe pi;
  if negb (pi_readopen p) && negb (pi_writeopen p) then
    release (LkPipe pi) ;;
    modify (fun s => set_pipes (delete pi (pipes s)) s) ;;
    kfree pi
  else release (LkPipe pi).

(** The loop of pipewrite; [None] for the early return of -1.  A round stores
    one byte or sleeps. *)
Fixpoint pipewrite_loop (fuel : nat) (pi addr n i : Z) (pr : nat) : M kernel (option Z) :=
  match fuel with
  | O => nofuel
  | S fuel =>
      if i <? n then
        p ← getpipe pi;
        k ← (if pi_readopen p then killed pr else mret true);
        if (k : bool) then mret None else
        if pi_nwrite p =? u32 (pi_nread p + PIPESIZE) then
          wakeup (ChPipeRead pi) ;;
          sleep (ChPipeWrite pi) (LkPipe pi) ;;
          pipewrite_loop fuel pi addr n i pr
        else
          q ← getproc pr;
          r ← copyin (p_pagetable q) (u64 (addr + i)) 1;
          if fst r =? -1 then mret (Some i) else
          in_bounds (Z.of_nat (pipe_slot (pi_nwrite p))) (alen (pi_data p)) ;;
          upd_pipe pi (set_pi_data (<[pipe_slot (pi_nwrite p) := snd r !!! 0%nat]> (pi_data p))) ;;
          upd_pipe pi (set_pi_nwrite (u32 (pi_nwrite p + 1))) ;;
          pipewrite_loop fuel pi addr n (i + 1) pr
      else mret (Some i)
  end.

Definition pipewrite (pi addr n : Z) : M kernel Z :=
  pr ← myproc;
  acquire (LkPipe pi) ;;
  r ← pipewrite_loop (WAKEUPS + Z.to_nat n + 1) pi addr n 0 pr;
  match r with
  | None => release (LkPipe pi) ;; mret (-1)
  | Some i =>
      wakeup (ChPipeRead pi) ;;
      release (LkPipe pi) ;;
      mret i
  end.

(** [while(pi->nread == pi->nwrite && pi->writeopen)]: false when killed. *)
Fixpoint pipe_wait (fuel : nat) (pi : Z) (pr : nat) : M kernel bool :=
  match fuel with
  | O => nofuel
  | S fuel =>
      p ← getpipe pi;
      if (pi_nread p =? pi_nwrite p) && pi_writeopen p then
        k ← killed pr;
        if (k : bool) then mret false else
        sleep (ChPipeRead pi) (LkPipe pi) ;;
        pipe_wait fuel pi pr
      else mret true
  end.

Fixpoint piperead_loop (k : nat) (pi addr i : Z) (pr : nat) : M kernel Z :=
  match k with
  | O => mret i
  | S k =>
      p ← getpipe pi;
      if pi_nread p =? pi_nwrite p then mret i else
      in_bounds (Z.of_nat (pipe_slot (pi_nread p))) (alen (pi_data p)) ;;
      let ch := pi_data p !!! pipe_slot (pi_nread p) in
      upd_pipe pi (set_pi_nread (u32 (pi_nread p + 1))) ;;
      q ← getproc pr;
      r ← copyout (p_pagetable q) (u64 (addr + i)) [ch] 1;
      if r =? -1 then mret i else
      piperead_loop k pi addr (i + 1) pr
  end.

Definition piperead (pi addr n : Z) : M kernel Z :=
  pr ← myproc;
  acquire (LkPipe pi) ;;
  ok ← pipe_wait WAKEUPS pi pr;
  if negb ok then release (LkPipe pi) ;; mret (-1) else
  i ← piperead_loop (Z.to_nat n) pi addr 0 pr;
  wakeup (ChPipeWrite pi) ;;
  release (LkPipe pi) ;;
  mret i.
End pipe.
