(* ===== verification/PipeProps.v ===== *)
(** * Pipes are bounded queues

    A pipe's ring holds the bytes written and not yet read, oldest first.
    [pipewrite] appends the bytes of the writer's memory, [piperead] takes the
    oldest bytes to the reader's memory; each goes to sleep exactly when the
    queue is full or empty. *)

From S2P Require Import Prelude State Ring Mem Spinlock Sched Sleeplock Waiting Memlayout Kalloc Vm PageTable AddrSpace UserMem CopyUser VmProps Pipe.

Definition queue (p : pipest) : list Z := contents 32 PIPESIZE (pi_nread p) (pi_nwrite p) (pi_data p).
Definition pipe_ok (p : pipest) : Prop := ring_ok 32 PIPESIZE (pi_nread p) (pi_nwrite p) (pi_data p).

Lemma pipe_in p n : pipe_ok p -> 0 <= Z.of_nat (pipe_slot n) < alen (pi_data p).
Proof. intros K. apply (slot_in 32); [done | done | apply K]. Qed.

Definition put_pipe (pi : Z) (p : pipest) (s : kernel) : kernel := set_pipes (<[pi := p]> (pipes s)) s.

Lemma upd_pipe_run pi f s p : pipes s !! pi = Some p -> upd_pipe pi f s = Ret tt (put_pipe pi (f p) s).
Proof.
  intros E. unfold upd_pipe, modify, put_pipe. assert (H : alter f pi (pipes s) = <[pi := f p]> (pipes s)); [|by rewrite H].
  rewrite <- (insert_id (pipes s) pi p E) at 1. apply alter_insert_eq.
Qed.

Lemma put_pipe_put pi p q s : put_pipe pi p (put_pipe pi q s) = put_pipe pi p s.
Proof. unfold put_pipe. cbn [pipes set_pipes]. by rewrite insert_insert_eq. Qed.

Lemma pipe_div : (PIPESIZE | 2 ^ 32).
Proof. exists (2 ^ 23). reflexivity. Qed.

Lemma queue_length p : Z.of_nat (length (queue p)) = count 32 (pi_nread p) (pi_nwrite p).
Proof. unfold queue. rewrite length_contents. pose proof (count_range 32 ltac:(lia) (pi_nread p) (pi_nwrite p)). lia. Qed.

(** The test of pipewrite is "full". *)
Lemma full_test p : pipe_ok p -> (pi_nwrite p =? u32 (pi_nread p + PIPESIZE)) = (PIPESIZE <=? Z.of_nat (length (queue p))).
Proof.
  intros [_ Hr Hw Hs _]. rewrite queue_length in *. rewrite count_cases in * by (lia || done). unfold PIPESIZE in *. apply eq_true_iff_eq. rewrite Z.eqb_eq, Z.leb_le.
  unfold wrap. destruct (Z.ltb_spec (pi_nwrite p) (pi_nread p)); destruct (Z.lt_ge_cases (pi_nread p + 512) (2 ^ 32)).
  - rewrite Z.mod_small by lia. lia.
  - rewrite <- (Z.mod_add _ (-1)), Z.mod_small by lia. lia.
  - rewrite Z.mod_small by lia. lia.
  - rewrite <- (Z.mod_add _ (-1)), Z.mod_small by lia. lia.
Qed.

(** The test of piperead is "empty". *)
Lemma empty_test p : pipe_ok p -> (pi_nread p =? pi_nwrite p) = bool_decide (queue p = []).
Proof.
  intros [_ Hr Hw _ _]. apply eq_true_iff_eq. rewrite Z.eqb_eq, bool_decide_eq_true. unfold queue. by rewrite contents_empty by (lia || done).
Qed.

Definition push_byte (c : Z) (p : pipest) : pipest :=
  set_pi_nwrite (u32 (pi_nwrite p + 1)) (set_pi_data (<[pipe_slot (pi_nwrite p) := c]> (pi_data p)) p).
Definition pop_byte (p : pipest) : pipest := set_pi_nread (u32 (pi_nread p + 1)) p.

Lemma push_byte_ok p c : pipe_ok p -> Z.of_nat (length (queue p)) < PIPESIZE -> is_byte c -> pipe_ok (push_byte c p) /\ queue (push_byte c p) = queue p ++ [c].
Proof. intros Hp Hl Hc. rewrite queue_length in Hl. apply (queue_push 32 PIPESIZE ltac:(lia) ltac:(done) pipe_div _ _ _ c Hp Hl Hc). Qed.

Lemma pop_byte_ok p : pipe_ok p -> queue p <> [] ->
  pipe_ok (pop_byte p) /\ queue p = pi_data p !!! pipe_slot (pi_nread p) :: queue (pop_byte p) /\ is_byte (pi_data p !!! pipe_slot (pi_nread p)).
Proof.
  intros Hp Hne. apply (queue_pop 32 PIPESIZE ltac:(lia) ltac:(done) _ _ _ Hp). intros E. apply Hne. unfold queue. apply contents_empty; [lia | apply Hp | apply Hp | done].
Qed.

Definition pushes (l : list Z) (p : pipest) : pipest := fold_left (fun p c => push_byte c p) l p.
Definition pops (k : nat) (p : pipest) : pipest := Nat.iter k pop_byte p.

Lemma pushes_ok l : forall p, pipe_ok p -> Z.of_nat (length (queue p)) + Z.of_nat (length l) <= PIPESIZE -> Forall is_byte l ->
  pipe_ok (pushes l p) /\ queue (pushes l p) = queue p ++ l /\ pi_readopen (pushes l p) = pi_readopen p /\ pi_writeopen (pushes l p) = pi_writeopen p.
Proof.
  induction l as [|c l IH]; intros p Hp Hl Hb; [by rewrite app_nil_r |]. apply Forall_cons in Hb as [Hc Hb]. cbn [length] in Hl.
  destruct (push_byte_ok p c Hp ltac:(lia) Hc) as [Hp1 Hq1]. unfold pushes. cbn [fold_left]. fold (pushes l (push_byte c p)).
  destruct (IH (push_byte c p) Hp1) as (H1 & H2 & H3 & H4); [rewrite Hq1, length_app; cbn [length]; lia | done |]. rewrite H2, Hq1, <- app_assoc. done.
Qed.

Lemma pops_ok k : forall p, pipe_ok p -> (k <= length (queue p))%nat ->
  pipe_ok (pops k p) /\ queue (pops k p) = drop k (queue p) /\ pi_readopen (pops k p) = pi_readopen p /\ pi_writeopen (pops k p) = pi_writeopen p.
Proof.
  induction k as [|k IH]; intros p Hp Hk; [done |]. destruct (IH p Hp ltac:(lia)) as (H1 & H2 & H3 & H4). unfold pops. cbn [Nat.iter]. fold (pops k p).
  assert (Hne : queue (pops k p) <> []) by (intros E; rewrite E in H2; apply (f_equal length) in H2; rewrite length_drop in H2; cbn in H2; lia).
  destruct (pop_byte_ok (pops k p) H1 Hne) as (P1 & P2 & _). split; [done |]. split; [|done].
  rewrite H2 in P2. apply (f_equal (drop 1)) in P2. rewrite drop_drop in P2. replace (k + 1)%nat with (S k) in P2 by lia. rewrite P2. done.
Qed.

Section pipes.
Context {HL : Layout} {HOk : LayoutOk HL} (pi : Z) (pr : nat) (root : Z) (t : ptree) (u : uspace) (fr : list Z) (O : own_inv t u fr) (Low : user_low u).

(** The process, its memory and the pipe, while the pipe's lock is held. *)
Record at_pipe (s : kernel) (p : pipest) : Prop := mkAtPipe {
  ap_as : as_inv s root t u fr;
  ap_pipe : pipes s !! pi = Some p;
  ap_ok : pipe_ok p;
  ap_alive : p_killed (procs s !!! pr) = false;
  ap_pt : p_pagetable (procs s !!! pr) = root;
  ap_lock : LkProc pr ∉ held s
}.

Lemma as_other s s' : as_inv s root t u fr -> mem s' = mem s -> freelist s' = freelist s -> LkKmem ∉ held s' -> as_inv s' root t u fr.
Proof.
  intros I Hm Hf Hl. pose proof I as [[_ [K1 K2 K3] _ Hsep] _ _]. eapply as_frame; [exact I | done | | |].
  - split; [by rewrite Hm, Hf | done | done].
  - intros a [q Hq]. by eapply Hsep.
  - intros. by rewrite Hm.
Qed.

Lemma at_put s p p' : at_pipe s p -> pipe_ok p' -> at_pipe (put_pipe pi p' s) p'.
Proof.
  intros [A1 A2 A3 A4 A5 A6] Hp. split; try done; [|cbn; apply lookup_insert_eq]. eapply as_other; [exact A1 | done | done | apply A1].
Qed.

Lemma getpipe_run s p : at_pipe s p -> getpipe pi s = Ret p s.
Proof. intros A. unfold getpipe, gets. by rewrite (ap_pipe _ _ A). Qed.

Lemma copyin_byte s va c : as_inv s root t u fr -> 0 <= va -> va + 1 < 2 ^ 62 -> umem (mem s) u va = Some c -> copyin root va 1 s = Ret (0, [c]) s.
Proof.
  intros I Hva Hlim Hc. destruct (copyin_loop_ok s root t u fr I O Low _ va 1 [] Hva ltac:(lia) Hlim (copy_fuel va 1 ltac:(lia))) as (r & l & E & H).
  unfold copyin. rewrite E. change (Z.to_nat 1) with 1%nat in H. cbn in H. rewrite Hc in H. cbn in H. destruct H as [[-> [= <-]]|[_ ?]]; done.
Qed.

Lemma umem_byte m va c : umem m u va = Some c -> is_byte c.
Proof. unfold umem. destruct (u !! _) as [[pa perm]|]; [|done]. destruct (_ =? _); [done |]. intros [= <-]. apply load8_range. Qed.

Lemma uread_bytes m n : forall va l, uread m u va n = Some l -> Forall is_byte l.
Proof.
  induction n as [|n IH]; intros va l; cbn [uread]; [intros [= <-]; constructor |]. destruct (umem m u va) eqn:E; [|done]. cbn. destruct (uread m u (va + 1) n) eqn:E2; [|done].
  cbn. intros [= <-]. constructor; [by eapply umem_byte | by eapply IH].
Qed.

(** As long as there is room, a round of pipewrite appends a byte. *)
Lemma pipewrite_fills addr n : 0 <= addr -> addr + n < 2 ^ 62 -> forall l fuel s p i, at_pipe s p -> pi_readopen p = true -> 0 <= i -> i + Z.of_nat (length l) <= n ->
  Z.of_nat (length (queue p)) + Z.of_nat (length l) <= PIPESIZE -> uread (mem s) u (addr + i) (length l) = Some l ->
  pipewrite_loop (length l + fuel) pi addr n i pr s = pipewrite_loop fuel pi addr n (i + Z.of_nat (length l)) pr (put_pipe pi (pushes l p) s).
Proof.
  intros Ha Hn. induction l as [|c l IH]; intros fuel s p i A Ho Hi Hl Hq Hr.
  - cbn. rewrite Z.add_0_r. unfold put_pipe. rewrite insert_id by apply A. done.
  - cbn [length Nat.add pipewrite_loop] in *. destruct (Z.ltb_spec i n); [|lia]. erewrite bind_Ret by (by apply getpipe_run). cbv beta. rewrite Ho.
    erewrite bind_Ret by (apply killed_run, A). rewrite (ap_alive _ _ A), full_test by apply A. destruct (Z.leb_spec PIPESIZE (Z.of_nat (length (queue p)))); [lia |].
    unfold getproc. erewrite bind_Ret by reflexivity. cbv beta. rewrite (ap_pt _ _ A). cbn [uread] in Hr. destruct (umem (mem s) u (addr + i)) as [b|] eqn:Eb; [|done]. cbn in Hr.
    destruct (uread (mem s) u (addr + i + 1) (length l)) as [l'|] eqn:El; [|done]. injection Hr as -> ->.
    rewrite (wrap_small 64 (addr + i)) by lia. erewrite bind_Ret by (apply copyin_byte; [apply A | lia | lia | exact Eb]). change (fst (0, [c]) =? -1) with false. cbv iota.
    rewrite in_bounds_run by (by apply pipe_in, A).
    erewrite bind_Ret by (apply upd_pipe_run, A). cbv beta. erewrite bind_Ret by (apply upd_pipe_run; cbn; apply lookup_insert_eq). cbv beta.
    rewrite put_pipe_put. fold (push_byte c p).
    destruct (push_byte_ok p c (ap_ok _ _ A) ltac:(lia) (umem_byte _ _ _ Eb)) as [Hp1 Hq1].
    rewrite (IH fuel _ (push_byte c p)); [| by eapply at_put | done | lia | lia | rewrite Hq1, length_app; cbn [length]; lia |].
    + rewrite put_pipe_put. unfold pushes. cbn [fold_left]. f_equal. lia.
    + replace (addr + (i + 1)) with (addr + i + 1) by lia. exact El.
Qed.

(** ** The system calls *)

(** A process outside any critical section, and a pipe it can use. *)
Record ready_at (s : kernel) (p : pipest) : Prop := mkReadyAt {
  ra_as : as_inv s root t u fr;
  ra_pipe : pipes s !! pi = Some p;
  ra_ok : pipe_ok p;
  ra_cur : cur s = pr;
  ra_pr : (pr < length (procs s))%nat;
  ra_alive : p_killed (procs s !!! pr) = false;
  ra_pt : p_pagetable (procs s !!! pr) = root;
  ra_held : held s = ∅
}.

Definition locked (s : kernel) : kernel := set_held {[LkPipe pi]} s.

Lemma ready_lock s p : ready_at s p -> acquire (LkPipe pi) s = Ret tt (locked s) /\ at_pipe (locked s) p.
Proof.
  intros [A1 A2 A3 A4 A5 A6 A7 A8]. split.
  - rewrite acquire_Ret by (rewrite A8; set_solver). unfold locked. rewrite A8. f_equal. f_equal. set_solver.
  - split; try done; [|cbn; set_solver]. eapply as_other; [exact A1 | done | done | cbn; set_solver].
Qed.

(** Leaving: the last wakeup and the release. *)
Lemma unlock_run {A} (c : chan) (r : A) s : held s = {[LkPipe pi]} ->
  (wakeup c ;; release (LkPipe pi) ;; mret r) s = Ret r (set_held ∅ (set_procs (wake (cur s) c (procs s)) s)).
Proof.
  intros Hh. erewrite bind_Ret by (apply wakeup_ok; intros j; rewrite Hh; set_solver). cbv beta.
  erewrite bind_Ret by (apply release_Ret; cbn; rewrite Hh; set_solver). cbn. rewrite Hh. unfold mret, M_ret, ret. do 3 f_equal. set_solver.
Qed.

(** The pipe holds the queue [q] in [s'], everything else but the process table is as in [s]. *)
Record pipe_step (s s' : kernel) (p : pipest) (q : list Z) : Prop := mkPipeStep {
  ps_pipe : exists p', pipes s' = <[pi := p']> (pipes s) /\ pipe_ok p' /\ queue p' = q /\ pi_readopen p' = pi_readopen p /\ pi_writeopen p' = pi_writeopen p;
  ps_procs : length (procs s') = length (procs s)
}.

(** Pipewrite stops with [l] appended: done, or asleep. *)
Lemma pushed_step s s' p l : pipe_ok p -> Z.of_nat (length (queue p)) + Z.of_nat (length l) <= PIPESIZE -> Forall is_byte l ->
  pipes s' = <[pi := pushes l p]> (pipes s) -> length (procs s') = length (procs s) -> pipe_step s s' p (queue p ++ l).
Proof. intros Hp Hl Hb E1 E2. split; [|done]. exists (pushes l p). destruct (pushes_ok l p Hp Hl Hb) as (H1 & H2 & H3 & H4). done. Qed.

(** The rest of pipewrite when nothing more is to be written, and when the pipe is full. *)
Lemma pipewrite_end fuel addr n s : (0 < fuel)%nat -> pipewrite_loop fuel pi addr n n pr s = Ret (Some n) s.
Proof. intros Hf. destruct fuel as [|fuel]; [lia |]. cbn [pipewrite_loop]. by rewrite Z.ltb_irrefl. Qed.

Lemma pipewrite_full {B} (f : option Z -> M kernel B) fuel addr n i s p : (0 < fuel)%nat -> at_pipe s p -> pi_readopen p = true -> i < n -> Z.of_nat (length (queue p)) = PIPESIZE ->
  cur s = pr -> held s = {[LkPipe pi]} -> (pr < length (procs s))%nat ->
  exists k, (pipewrite_loop fuel pi addr n i pr ≫= f) s = Sleep (ChPipeWrite pi) (sleeping pr (ChPipeWrite pi) (set_procs (wake pr (ChPipeRead pi) (procs s)) s)) k.
Proof.
  intros Hf A Ho Hi Hq Hc Hh Hpr. destruct fuel as [|fuel]; [lia |]. unfold mbind at 1, M_bind at 1, bind at 1. cbn [pipewrite_loop]. destruct (Z.ltb_spec i n); [|lia].
  erewrite bind_Ret by (by apply getpipe_run). cbv beta. rewrite Ho. erewrite bind_Ret by (apply killed_run, A). rewrite (ap_alive _ _ A), full_test, Hq by apply A.
  change (PIPESIZE <=? PIPESIZE) with true. cbv iota. erewrite bind_Ret by (apply wakeup_ok; intros j; rewrite Hh; set_solver). rewrite Hc. cbv beta.
  destruct (sleep_run (fun _ => pipewrite_loop fuel pi addr n i pr) (ChPipeWrite pi) (LkPipe pi) pr (set_procs (wake pr (ChPipeRead pi) (procs s)) s)) as (k & E & _); [done | done | done | cbn; by rewrite length_wake |].
  rewrite E. cbn [obind]. eauto.
Qed.


(** C25: A pipe is a bounded queue for the writer: pipewrite appends the bytes of the writer's memory in order and returns their
    number when there is room for all, and otherwise goes to sleep having appended exactly the bytes that fit; it returns -1
    without writing when the read end is closed. *)
Theorem pipewrite_enqueues s p addr n l : ready_at s p -> 0 <= addr -> 0 <= n -> addr + n < 2 ^ 62 ->
  let room := PIPESIZE - Z.of_nat (length (queue p)) in
  uread (mem s) u addr (Z.to_nat (Z.min n room)) = Some l ->
  match pipewrite pi addr n s with
  | Ret r s' => held s' = ∅ /\ mem s' = mem s /\
      if pi_readopen p || (n =? 0) then r = n /\ n <= room /\ pipe_step s s' p (queue p ++ l) else r = -1 /\ pipes s' = pipes s
  | Sleep c s' _ => c = ChPipeWrite pi /\ pi_readopen p = true /\ room < n /\ pipe_step s s' p (queue p ++ l) /\ mem s' = mem s /\
      held s' = {[LkProc pr]} /\ p_state (procs s' !!! pr) = SLEEPING
  | _ => False
  end.
Proof.
  intros R Ha Hn Hlim room Hl. destruct (ready_lock s p R) as [El A]. pose proof R as [R1 R2 R3 R4 R5 R6 R7 R8].
  assert (Hroom : 0 <= room) by (unfold room; pose proof (rg_size _ _ _ _ _ R3); rewrite queue_length; lia).
  pose proof (uread_length _ _ _ _ _ Hl) as Hll. pose proof (uread_bytes _ _ _ _ Hl) as Hb.
  unfold pipewrite, myproc. generalize WAKEUPS as W. intros W. erewrite bind_Ret by reflexivity. rewrite R4. cbv beta. erewrite bind_Ret by exact El. cbv beta.
  destruct (pi_readopen p) eqn:Ho; cbn [orb].
  - replace (W + Z.to_nat n + 1)%nat with (length l + (W + (Z.to_nat n - length l) + 1))%nat by lia.
    set (fuel := (W + (Z.to_nat n - length l) + 1)%nat). assert (Hf : (0 < fuel)%nat) by (unfold fuel; lia).
    assert (Hfill : pipewrite_loop (length l + fuel) pi addr n 0 pr (locked s) = pipewrite_loop fuel pi addr n (Z.of_nat (length l)) pr (put_pipe pi (pushes l p) (locked s))).
    { apply (pipewrite_fills addr n Ha Hlim l fuel (locked s) p 0 A Ho); try lia. rewrite Z.add_0_r, Hll. exact Hl. }
    destruct (pushes_ok l p R3 ltac:(lia) Hb) as (Hp1 & Hq1 & Ho1 & _). destruct (Z.le_gt_cases n room) as [Hle|Hgt].
    + erewrite bind_Ret by (rewrite Hfill; replace (Z.of_nat (length l)) with n by lia; by apply pipewrite_end).
      cbv beta iota. rewrite unlock_run by done. split; [done |]. split; [done |]. split; [done |]. split; [done |].
      apply pushed_step; try done; [lia |]. cbn. apply length_wake.
    + destruct (pipewrite_full (fun r => match r with None => release (LkPipe pi) ;; mret (-1) | Some i => wakeup (ChPipeRead pi) ;; release (LkPipe pi) ;; mret i end)
        fuel addr n (Z.of_nat (length l)) (put_pipe pi (pushes l p) (locked s)) (pushes l p) Hf) as (k & E); try done.
      { by eapply at_put. } { congruence. } { lia. } { rewrite Hq1, length_app. lia. }
      erewrite bind_ext by exact Hfill. rewrite E. split; [done |]. split; [done |]. split; [lia |]. split; [|split; [done | split; [done |]]].
      * apply pushed_step; try done; [lia |]. cbn. by rewrite length_alter, length_wake.
      * cbn. destruct (lookup_lt_is_Some_2 (wake pr (ChPipeRead pi) (procs s)) pr) as [x Ex]; [by rewrite length_wake |].
        by rewrite list_lookup_total_alt, list_lookup_alter_eq, Ex.
  - destruct (Z.eqb_spec n 0) as [->|Hn0].
    + erewrite bind_Ret by (apply pipewrite_end; lia). cbv beta iota. rewrite unlock_run by done. split; [done |]. split; [done |]. split; [done |]. split; [lia |].
      apply pushed_step; try done; [lia | | cbn; apply length_wake]. destruct l; [|cbn in *; lia]. cbn. by rewrite insert_id.
    + replace (W + Z.to_nat n + 1)%nat with (S (W + Z.to_nat n)) by lia. cbn [pipewrite_loop]. destruct (Z.ltb_spec 0 n); [|lia].
      erewrite bind_Ret by (erewrite bind_Ret by (by apply getpipe_run); cbv beta; rewrite Ho; reflexivity).
      cbv beta iota. erewrite bind_Ret by (apply release_Ret; cbn; set_solver). cbn. split; [set_solver |]. done.
Qed.

(** ** Reading *)

Lemma copyout_byte s va c : as_inv s root t u fr -> 0 <= va -> va + 1 < 2 ^ 62 -> is_byte c -> is_Some (umem (mem s) u va) ->
  exists m', copyout root va [c] 1 s = Ret 0 (set_mem m' s) /\ as_inv (set_mem m' s) root t u fr /\
    forall va', umem m' u va' = if decide (va' = va) then Some c else umem (mem s) u va'.
Proof.
  intros I Hva Hlim Hc [x Hx]. destruct (copyout_loop_ok root t u fr O Low _ s va [c] 1 I ltac:(constructor; [exact Hc | constructor]) eq_refl Hva Hlim (copy_fuel va 1 ltac:(lia))) as (r & m' & E & I' & _ & H).
  destruct H as [[-> H]|(_ & (y & Hy & Hn) & _)]; [|replace y with va in Hn by lia; congruence].
  exists m'. split; [exact E |]. split; [exact I' |]. intros va'. rewrite H. destruct (decide (va' = va)) as [->|].
  - rewrite decide_True by lia. by rewrite Z.sub_diag.
  - by rewrite decide_False by lia.
Qed.

Lemma pops_S k p : pops (S k) p = pops k (pop_byte p).
Proof. unfold pops. apply Nat.iter_succ_r. Qed.

Lemma piperead_takes addr : 0 <= addr -> forall k j s p i, at_pipe s p -> (k <= length (queue p))%nat -> 0 <= i -> addr + i + Z.of_nat k < 2 ^ 62 ->
  (forall va, addr + i <= va < addr + i + Z.of_nat k -> is_Some (umem (mem s) u va)) ->
  exists m', let s' := set_mem m' (put_pipe pi (pops k p) s) in
    piperead_loop (k + j) pi addr i pr s = piperead_loop j pi addr (i + Z.of_nat k) pr s' /\ as_inv s' root t u fr /\
    forall va, umem m' u va = if decide (addr + i <= va < addr + i + Z.of_nat k) then queue p !! Z.to_nat (va - addr - i) else umem (mem s) u va.
Proof.
  intros Ha. induction k as [|k IH]; intros j s p i A Hk Hi Hlim Hm.
  - exists (mem s). cbn. rewrite Z.add_0_r. unfold put_pipe. rewrite insert_id by apply A. split; [done |]. split; [apply A |]. intros va. by rewrite decide_False by lia.
  - cbn [Nat.add piperead_loop]. erewrite bind_Ret by (by apply getpipe_run). cbv beta. rewrite empty_test by apply A. rewrite bool_decide_eq_false_2 by (intros E; rewrite E in Hk; cbn in Hk; lia).
    destruct (pop_byte_ok p (ap_ok _ _ A)) as (P1 & P2 & Hc); [intros E; rewrite E in Hk; cbn in Hk; lia |]. set (c := pi_data p !!! pipe_slot (pi_nread p)) in *.
    rewrite in_bounds_run by (by apply pipe_in, A). erewrite bind_Ret by (apply upd_pipe_run, A). cbv beta zeta. fold (pop_byte p). pose proof (at_put s p (pop_byte p) A P1) as A1.
    unfold getproc. erewrite bind_Ret by reflexivity. cbv beta. rewrite (ap_pt _ _ A1), (wrap_small 64 (addr + i)) by lia.
    destruct (copyout_byte _ (addr + i) c (ap_as _ _ A1) ltac:(lia) ltac:(lia) Hc (Hm (addr + i) ltac:(lia))) as (m1 & E1 & I1 & U1). erewrite bind_Ret by exact E1. change (0 =? -1) with false. cbv iota.
    assert (A2 : at_pipe (set_mem m1 (put_pipe pi (pop_byte p) s)) (pop_byte p)) by (destruct A1; by split).
    destruct (IH j _ (pop_byte p) (i + 1) A2) as (m' & E2 & I2 & U2); [pose proof (f_equal length P2) as Hlq; cbn [length] in Hlq; lia | lia | lia | |].
    { intros va Hva. cbn. rewrite U1. destruct (decide (va = addr + i)); [done |]. apply Hm. lia. }
    exists m'. rewrite pops_S. split; [|split].
    + rewrite E2. replace (i + 1 + Z.of_nat k) with (i + Z.of_nat (S k)) by lia. f_equal. unfold put_pipe. cbn [pipes set_pipes set_mem]. by rewrite insert_insert_eq.
    + eapply as_other; [exact I2 | done | done | apply I2].
    + intros va. rewrite U2. cbn [mem set_mem]. rewrite U1, P2. destruct (decide (va = addr + i)) as [->|Hne].
      * rewrite decide_False, decide_True by lia. by replace (addr + i - addr - i) with 0 by lia.
      * destruct (decide (addr + (i + 1) <= va < addr + (i + 1) + Z.of_nat k)) as [Hin|Hout].
        -- rewrite decide_True by lia. replace (Z.to_nat (va - addr - i)) with (S (Z.to_nat (va - addr - (i + 1)))) by lia. done.
        -- by rewrite decide_False by lia.
Qed.

Lemma piperead_end j addr i s p : at_pipe s p -> j = 0%nat \/ queue p = [] -> piperead_loop j pi addr i pr s = Ret i s.
Proof.
  intros A Hj. destruct j as [|j]; [done |]. destruct Hj as [|Hq]; [done |]. cbn [piperead_loop]. erewrite bind_Ret by (by apply getpipe_run). cbv beta.
  rewrite empty_test by apply A. by rewrite bool_decide_eq_true_2.
Qed.

(** C26: A pipe is a bounded queue for the reader: piperead takes the oldest bytes, as many as asked for and held, stores them in
    order in the reader's memory and nowhere else, and returns their number; it goes to sleep exactly when the pipe is empty
    and its write end is open, and returns 0 when it is empty and closed. *)
Theorem piperead_dequeues s p addr n : ready_at s p -> 0 <= addr -> 0 <= n ->
  let q := queue p in let r := Z.min n (Z.of_nat (length q)) in
  addr + r < 2 ^ 62 -> (forall va, addr <= va < addr + r -> is_Some (umem (mem s) u va)) ->
  match piperead pi addr n s with
  | Ret r' s' => (q <> [] \/ pi_writeopen p = false) /\ r' = r /\ pipe_step s s' p (drop (Z.to_nat r) q) /\ held s' = ∅ /\ as_inv s' root t u fr /\
      forall va, umem (mem s') u va = if decide (addr <= va < addr + r) then q !! Z.to_nat (va - addr) else umem (mem s) u va
  | Sleep c s' _ => q = [] /\ pi_writeopen p = true /\ c = ChPipeRead pi /\ pipes s' = pipes s /\ mem s' = mem s /\ held s' = {[LkProc pr]}
  | _ => False
  end.
Proof.
  intros R Ha Hn q r Hlim Hm. destruct (ready_lock s p R) as [El A]. pose proof R as [R1 R2 R3 R4 R5 R6 R7 R8].
  unfold piperead, myproc. generalize (eq_refl : WAKEUPS = S 999). generalize WAKEUPS as W, 999%nat as W'. intros W W' ->. erewrite bind_Ret by reflexivity. rewrite R4. cbv beta.
  erewrite bind_Ret by exact El. cbv beta. cbn [pipe_wait]. destruct (bool_decide (q = []) && pi_writeopen p) eqn:Ew.
  - apply andb_prop in Ew as [Hq%bool_decide_eq_true Hwo].
    destruct (sleep_run (fun _ => pipe_wait W' pi pr) (ChPipeRead pi) (LkPipe pi) pr (locked s)) as (k & E & _); [done | done | done | done |].
    erewrite bind_ext; [|erewrite bind_Ret by (by apply getpipe_run); cbv beta; rewrite empty_test, Hwo by done; rewrite bool_decide_eq_true_2 by done;
      cbn [andb]; erewrite bind_Ret by (apply killed_run; cbn; set_solver); cbv beta; change (procs (locked s)) with (procs s); rewrite R6; reflexivity].
    unfold mbind at 1, M_bind at 1, bind at 1. rewrite E. cbn [obind]. done.
  - erewrite bind_Ret; [|erewrite bind_Ret by (by apply getpipe_run); cbv beta; rewrite empty_test by done; unfold q in Ew; rewrite Ew; reflexivity]. cbn [negb].
    destruct (piperead_takes addr Ha (Z.to_nat r) (Z.to_nat n - Z.to_nat r) (locked s) p 0 A) as (m' & E & I & U); [unfold r, q; lia | lia | lia | |].
    { intros va Hva. apply Hm. lia. }
    destruct (pops_ok (Z.to_nat r) p R3 ltac:(unfold r, q; lia)) as (P1 & P2 & P3 & P4).
    assert (A' : at_pipe (set_mem m' (put_pipe pi (pops (Z.to_nat r) p) (locked s))) (pops (Z.to_nat r) p)).
    { destruct (at_put _ _ _ A P1) as [B1 B2 B3 B4 B5 B6]. by split. }
    replace (Z.to_nat r + (Z.to_nat n - Z.to_nat r))%nat with (Z.to_nat n) in E by (unfold r; lia).
    erewrite bind_Ret by (rewrite E; eapply piperead_end; [exact A' | unfold r, q in *; rewrite P2; destruct (Z.le_gt_cases n (Z.of_nat (length (queue p)))); [left; lia | right; apply drop_ge; lia]]).
    cbv beta. rewrite unlock_run by done. split; [|split; [lia | split; [|split; [done | split]]]].
    + apply andb_false_iff in Ew as [Hq%bool_decide_eq_false|Hwo]; auto.
    + split; [|cbn; apply length_wake]. by exists (pops (Z.to_nat r) p).
    + eapply as_other; [exact I | done | done | cbn; set_solver].
    + intros va. cbn. rewrite U. rewrite Z.add_0_r. replace (va - addr - 0) with (va - addr) by lia. replace (Z.of_nat (Z.to_nat r)) with r by lia. done.
Qed.
End pipes.

(** A process with one page of memory at a pipe. *)
Definition demo_at_pipe (p : pipest) (s : kernel) : kernel :=
  set_pipes {[7 := p]} (set_procs [set_p_pagetable vroot zero_proc] (set_cur 0%nat (set_held ∅ s))).

Lemma demo_ready t u fr p s : @as_inv vm_layout s vroot t u fr -> pipe_ok p -> @ready_at vm_layout 7 0%nat vroot t u fr (demo_at_pipe p s) p.
Proof.
  intros I Hp. split; try done; [|cbn; lia]. eapply as_other; [exact I | done | done | cbn; set_solver].
Qed.

(** Counters about to wrap: two bytes held. *)
Definition demo_pipe : pipest := mkPipe (<[510%nat := 104]> (<[511%nat := 105]> (replicate 512 5))) (2 ^ 32 - 2) 0 true true.

Lemma demo_pipe_ok : pipe_ok demo_pipe.
Proof.
  split; [reflexivity | split; [discriminate | reflexivity].. | discriminate |]. unfold demo_pipe. cbn [pi_data].
  apply Forall_insert; [apply Forall_insert; [|split; [discriminate | reflexivity]] | split; [discriminate | reflexivity]].
  apply Forall_replicate. split; [discriminate | reflexivity].
Qed.

Lemma pipewrite_enqueues_witness : exists s l, match pipewrite 7 4000 2 s with Ret r s' => r = 2 /\ exists p', pipes s' !! 7 = Some p' /\ queue p' = [104; 105] ++ l | _ => False end.
Proof.
  destruct vm_demo_grown as (s & t & u & fr & pg & _ & I & O & S & H0 & Hk & _). pose proof (demo_user_low u (pg, 22) H0 Hk) as Low.
  assert (E : exists l, uread (mem s) u 4000 2 = Some l) by (cbn [uread]; rewrite !(demo_umem (mem s) u pg) by (exact H0 || lia); eexists; reflexivity). destruct E as [l E].
  exists (demo_at_pipe demo_pipe s), l.
  pose proof (@pipewrite_enqueues vm_layout vm_layout_ok 7 0%nat vroot t u fr O Low (demo_at_pipe demo_pipe s) demo_pipe 4000 2 l (demo_ready t u fr demo_pipe s I demo_pipe_ok)
    ltac:(lia) ltac:(lia) ltac:(lia) E) as H.
  destruct (pipewrite 7 4000 2 (demo_at_pipe demo_pipe s)) as [r s'|msg|c s' k|]; [|exact H | |exact H].
  - destruct H as (_ & _ & -> & _ & [(p' & Ep & _ & Eq & _) _]). split; [reflexivity |]. exists p'. split; [rewrite Ep; apply lookup_insert_eq | exact Eq].
  - destruct H as (_ & _ & Hroom & _). vm_compute in Hroom. discriminate.
Defined.

Lemma piperead_dequeues_witness : exists s u, match piperead 7 4000 5 s with Ret r s' => r = 2 /\ uread (mem s') u 4000 2 = Some [104; 105] | _ => False end.
Proof.
  destruct vm_demo_grown as (s & t & u & fr & pg & _ & I & O & S & H0 & Hk & _). pose proof (demo_user_low u (pg, 22) H0 Hk) as Low.
  exists (demo_at_pipe demo_pipe s), u.
  pose proof (@piperead_dequeues vm_layout vm_layout_ok 7 0%nat vroot t u fr O Low (demo_at_pipe demo_pipe s) demo_pipe 4000 5 (demo_ready t u fr demo_pipe s I demo_pipe_ok)
    ltac:(lia) ltac:(lia)) as H. cbv zeta in H. change (queue demo_pipe) with [104; 105] in H. change (mem (demo_at_pipe demo_pipe s)) with (mem s) in H. specialize (H ltac:(vm_compute; reflexivity)).
  specialize (H ltac:(intros va Hva; rewrite (demo_umem (mem s) u pg va H0) by (cbn in Hva; lia); eexists; reflexivity)).
  destruct (piperead 7 4000 5 (demo_at_pipe demo_pipe s)) as [r s'|msg|c s' k|]; [|exact H | |exact H].
  - destruct H as (_ & -> & _ & _ & _ & U). split; [reflexivity |]. cbn [uread]. rewrite !U. reflexivity.
  - destruct H as [H _]. discriminate H.
Defined.
