(* ===== verification/Fs.v ===== *)
(** * kernel/fs.c: blocks, inodes, directories, paths

    An in-memory inode is its index in the inode table; NULL is [None].
    Following a null pointer is the kernel trap that panics.  Loops carry as
    fuel the number of rounds they can make; integers are [uint] or [int] as in
    the source. *)

From S2P Require Import Prelude State Mem Spinlock Sched Sleeplock Bio Log Memlayout Kalloc Vm Uart Printf Copy.

Definition T_DIR : Z := 1.
Definition T_FILE : Z := 2.
Definition T_DEVICE : Z := 3.

Definition deref {A} (o : option A) : M kernel A :=
  match o with
  | Some a => mret a
  | None => panic "kerneltrap"
  end.

Definition getsb : M kernel superblock := gets (fun s => sb s).
Definition getinode (ip : nat) : M kernel inode := gets (fun s => itable s !!! ip).
Definition upd_inode (ip : nat) (f : inode -> inode) : M kernel unit :=
  modify (fun s => set_itable (alter f ip (itable s)) s).

(** ** The super block *)

Definition sb_decode (data : list Z) : superblock :=
  mkSuperblock (get32 0 data) (get32 4 data) (get32 8 data) (get32 12 data) (get32 16 data) (get32 20 data)
    (get32 24 data) (get32 28 data).

Definition readsb (dev : Z) : M kernel unit :=
  bp ← bread (u32 dev) 1;
  b ← getbuf bp;
  modify (fun s => set_sb (sb_decode (b_data b)) s) ;;
  brelse bp.

Definition fsinit (dev : Z) : M kernel unit :=
  readsb dev ;;
  s ← getsb;
  if negb (sb_magic s =? FSMAGIC) then panic "invalid file system" else
  initlog dev s.

(** ** Blocks *)

(** Zero a block. *)
Definition bzero (dev bno : Z) : M kernel unit :=
  bp ← bread (u32 dev) (u32 bno);
  upd_buf bp (set_b_data (replicate (Z.to_nat BSIZE) 0)) ;;
  log_write bp ;;
  brelse bp.

(** [BBLOCK(b, sb)] *)
Definition BBLOCK (b : Z) (s : superblock) : Z := u32 (b / BPB + sb_bmapstart s).

Definition bit_mask (bi : Z) : Z := Z.shiftl 1 (bi mod 8).
Definition data_byte (data : list Z) (bi : Z) : Z := data !!! Z.to_nat (bi / 8).
Definition bit_free (data : list Z) (bi : Z) : bool := Z.land (data_byte data bi) (bit_mask bi) =? 0.
Definition bit_set (data : list Z) (bi : Z) : list Z :=
  <[Z.to_nat (bi / 8) := u8 (Z.lor (data_byte data bi) (bit_mask bi))]> data.
Definition bit_clear (data : list Z) (bi : Z) : list Z :=
  <[Z.to_nat (bi / 8) := u8 (Z.land (data_byte data bi) (Z.lnot (bit_mask bi)))]> data.

(** The inner loop of balloc: the first free bit. *)
Fixpoint balloc_scan (k : nat) (data : list Z) (b bi size : Z) : option Z :=
  match k with
  | O => None
  | S k =>
      if b + bi <? size then
        if bit_free data bi then Some bi else balloc_scan k data b (bi + 1) size
      else None
  end.

Fixpoint balloc_loop (fuel : nat) (dev b : Z) : M kernel Z :=
  match fuel with
  | O => nofuel
  | S fuel =>
      s ← getsb;
      if b <? sb_size s then
        bp ← bread dev (BBLOCK b s);
        d ← getbuf bp;
        in_prefix (BPB / 8) (alen (b_data d)) ;;
        match balloc_scan (Z.to_nat BPB) (b_data d) b 0 (sb_size s) with
        | Some bi =>
            in_bounds (bi / 8) (alen (b_data d)) ;;
            upd_buf bp (set_b_data (bit_set (b_data d) bi)) ;;
            log_write bp ;;
            brelse bp ;;
            bzero dev (b + bi) ;;
            mret (b + bi)
        | None =>
            brelse bp ;;
            balloc_loop fuel dev (b + BPB)
        end
      else
        printf (bytes "balloc: out of blocks" ++ [10]) [] ;;
        mret 0
  end.

(** Allocate a zeroed disk block; 0 if out of disk space. *)
Definition balloc (dev : Z) : M kernel Z :=
  s ← getsb;
  balloc_loop (Z.to_nat (sb_size s / BPB + 2)) dev 0.

(** Free a disk block. *)
Definition bfree (dev b : Z) : M kernel unit :=
  s ← getsb;
  bp ← bread (u32 dev) (BBLOCK b s);
  d ← getbuf bp;
  let bi := b mod BPB in
  in_bounds (bi / 8) (alen (b_data d)) ;;
  if bit_free (b_data d) bi then panic "freeing free block" else
  upd_buf bp (set_b_data (bit_clear (b_data d) bi)) ;;
  log_write bp ;;
  brelse bp.

(** ** Inodes on disk *)

Definition get16 (off : Z) (data : list Z) : Z := le_dec (slice off 2 data).
Definition put16 (off v : Z) (data : list Z) : list Z := splice off (le_enc 2 v) data.

(** [struct dinode] *)
Record dinode : Type := mkDinode {
  di_type : Z;
  di_major : Z;
  di_minor : Z;
  di_nlink : Z;
  di_size : Z;
  di_addrs : list Z
}.

Fixpoint get_addrs (k : nat) (off : Z) (data : list Z) : list Z :=
  match k with
  | O => []
  | S k => get32 off data :: get_addrs k (off + 4) data
  end.

Fixpoint put_addrs (off : Z) (addrs data : list Z) : list Z :=
  match addrs with
  | [] => data
  | a :: addrs => put_addrs (off + 4) addrs (put32 off a data)
  end.

Definition get_dinode (off : Z) (data : list Z) : dinode :=
  mkDinode (i16 (get16 off data)) (i16 (get16 (off + 2) data)) (i16 (get16 (off + 4) data)) (i16 (get16 (off + 6) data))
    (get32 (off + 8) data) (get_addrs (Z.to_nat (NDIRECT + 1)) (off + 12) data).

Definition put_dinode (off : Z) (d : dinode) (data : list Z) : list Z :=
  put_addrs (off + 12) (di_addrs d)
    (put32 (off + 8) (di_size d)
      (put16 (off + 6) (di_nlink d) (put16 (off + 4) (di_minor d) (put16 (off + 2) (di_major d) (put16 off (di_type d) data))))).

(** [IBLOCK(i, sb)], and the offset of dinode [i%IPB] in its block *)
Definition IBLOCK (i : Z) (s : superblock) : Z := u32 (i / IPB + sb_inodestart s).
Definition IOFF (i : Z) : Z := i mod IPB * 64.

Definition iupdate (ip : nat) : M kernel unit :=
  s ← getsb;
  i ← getinode ip;
  bp ← bread (i_dev i) (IBLOCK (i_inum i) s);
  d ← getbuf bp;
  i ← getinode ip;
  in_prefix (IOFF (i_inum i) + 64) (alen (b_data d)) ;;
  upd_buf bp (set_b_data (put_dinode (IOFF (i_inum i))
    (mkDinode (i_type i) (i_major i) (i_minor i) (i_nlink i) (i_size i) (i_addrs i)) (b_data d))) ;;
  log_write bp ;;
  brelse bp.

(** ** The inode table *)

Fixpoint iinit_loop (k i : nat) : M kernel unit :=
  match k with
  | O => mret tt
  | S k => initsleeplock (SlInode i) ;; iinit_loop k (S i)
  end.

Definition iinit : M kernel unit := initlock LkItable ;; iinit_loop (Z.to_nat NINODE) 0.

(** The scan of iget: the entry of (dev, inum), and the first empty slot. *)
Fixpoint iget_scan (l : list inode) (i : nat) (empty : option nat) (dev inum : Z) : option nat * option nat :=
  match l with
  | [] => (None, empty)
  | x :: l =>
      if (0 <? i_ref x) && (i_dev x =? dev) && (i_inum x =? inum) then (Some i, empty)
      else iget_scan l (S i) (match empty with None => if i_ref x =? 0 then Some i else None | e => e end) dev inum
  end.

(** Find the inode with number inum on device dev and return the in-memory
    copy; does not lock the inode and does not read it from disk. *)
Definition iget (dev inum : Z) : M kernel nat :=
  acquire LkItable ;;
  t ← gets (fun s => itable s);
  match iget_scan t 0 None dev inum with
  | (Some ip, _) =>
      upd_inode ip (fun i => set_i_ref (i_ref i + 1) i) ;;
      release LkItable ;;
      mret ip
  | (None, None) => panic "iget: no inodes"
  | (None, Some ip) =>
      upd_inode ip (set_i_dev dev) ;;
      upd_inode ip (set_i_inum inum) ;;
      upd_inode ip (set_i_ref 1) ;;
      upd_inode ip (set_i_valid false) ;;
      release LkItable ;;
      mret ip
  end.

Fixpoint ialloc_loop (fuel : nat) (dev inum type : Z) : M kernel (option nat) :=
  match fuel with
  | O => nofuel
  | S fuel =>
      s ← getsb;
      if inum <? sb_ninodes s then
        bp ← bread dev (IBLOCK inum s);
        d ← getbuf bp;
        let off := IOFF inum in
        in_prefix (off + 64) (alen (b_data d)) ;;
        if i16 (get16 off (b_data d)) =? 0 then
          upd_buf bp (set_b_data (put16 off type (splice off (replicate 64 0) (b_data d)))) ;;
          log_write bp ;;
          brelse bp ;;
          ip ← iget dev inum;
          mret (Some ip)
        else
          brelse bp ;;
          ialloc_loop fuel dev (inum + 1) type
      else
        printf (bytes "ialloc: no inodes" ++ [10]) [] ;;
        mret None
  end.

(** Allocate an inode on device dev, marked with its type. *)
Definition ialloc (dev type : Z) : M kernel (option nat) :=
  s ← getsb;
  ialloc_loop (Z.to_nat (sb_ninodes s + 1)) dev 1 type.

Definition idup (ip : nat) : M kernel nat :=
  acquire LkItable ;;
  upd_inode ip (fun i => set_i_ref (i_ref i + 1) i) ;;
  release LkItable ;;
  mret ip.

(** Lock the given inode; reads it from disk if necessary. *)
Definition ilock (ip : option nat) : M kernel unit :=
  match ip with
  | None => panic "ilock"
  | Some ip =>
      i ← getinode ip;
      if i_ref i <? 1 then panic "ilock" else
      acquiresleep (SlInode ip) ;;
      i ← getinode ip;
      if i_valid i then mret tt else
      s ← getsb;
      bp ← bread (i_dev i) (IBLOCK (i_inum i) s);
      b ← getbuf bp;
      in_prefix (IOFF (i_inum i) + 64) (alen (b_data b)) ;;
      let d := get_dinode (IOFF (i_inum i)) (b_data b) in
      upd_inode ip (fun i => set_i_addrs (di_addrs d) (set_i_size (di_size d) (set_i_nlink (di_nlink d)
        (set_i_minor (di_minor d) (set_i_major (di_major d) (set_i_type (di_type d) i)))))) ;;
      brelse bp ;;
      upd_inode ip (set_i_valid true) ;;
      if di_type d =? 0 then panic "ilock: no type" else mret tt
  end.

Definition iunlock (ip : option nat) : M kernel unit :=
  match ip with
  | None => panic "iunlock"
  | Some ip =>
      h ← holdingsleep (SlInode ip);
      i ← getinode ip;
      if negb h || (i_ref i <? 1) then panic "iunlock" else
      releasesleep (SlInode ip)
  end.

(** ** Inode content *)

(** Return the disk block address of the nth block in inode ip, allocating it
    if there is none; 0 if out of disk space. *)
Definition bmap (ip : nat) (bn : Z) : M kernel Z :=
  i ← getinode ip;
  if bn <? NDIRECT then
    in_bounds bn (alen (i_addrs i)) ;;
    let addr := i_addrs i !!! Z.to_nat bn in
    if addr =? 0 then
      addr ← balloc (i_dev i);
      if addr =? 0 then mret 0 else
      upd_inode ip (fun i => set_i_addrs (<[Z.to_nat bn := addr]> (i_addrs i)) i) ;;
      mret addr
    else mret addr
  else
  let bn := bn - NDIRECT in
  if bn <? NINDIRECT then
    in_bounds NDIRECT (alen (i_addrs i)) ;;
    let addr := i_addrs i !!! Z.to_nat NDIRECT in
    addr ← (if addr =? 0 then
              addr ← balloc (i_dev i);
              if addr =? 0 then mret 0 else
              upd_inode ip (fun i => set_i_addrs (<[Z.to_nat NDIRECT := addr]> (i_addrs i)) i) ;;
              mret addr
            else mret addr);
    if addr =? 0 then mret 0 else
    bp ← bread (i_dev i) addr;
    d ← getbuf bp;
    in_bounds bn (alen (b_data d) / 4) ;;
    let a := get32 (4 * bn) (b_data d) in
    a ← (if a =? 0 then
           a ← balloc (i_dev i);
           if a =? 0 then mret 0 else
           upd_buf bp (fun d => set_b_data (put32 (4 * bn) a (b_data d)) d) ;;
           log_write bp ;;
           mret a
         else mret a);
    brelse bp ;;
    mret a
  else panic "bmap: out of range".

Fixpoint itrunc_direct (k : nat) (ip i : nat) : M kernel unit :=
  match k with
  | O => mret tt
  | S k =>
      x ← getinode ip;
      in_bounds (Z.of_nat i) (alen (i_addrs x)) ;;
      (if i_addrs x !!! i =? 0 then mret tt else
         bfree (i_dev x) (i_addrs x !!! i) ;;
         upd_inode ip (fun x => set_i_addrs (<[i := 0]> (i_addrs x)) x)) ;;
      itrunc_direct k ip (S i)
  end.

Fixpoint itrunc_indirect (k : nat) (ip bp : nat) (j : Z) : M kernel unit :=
  match k with
  | O => mret tt
  | S k =>
      x ← getinode ip;
      d ← getbuf bp;
      in_bounds j (alen (b_data d) / 4) ;;
      let a := get32 (4 * j) (b_data d) in
      (if a =? 0 then mret tt else bfree (i_dev x) a) ;;
      itrunc_indirect k ip bp (j + 1)
  end.

(** Truncate inode (discard contents). *)
Definition itrunc (ip : nat) : M kernel unit :=
  itrunc_direct (Z.to_nat NDIRECT) ip 0 ;;
  x ← getinode ip;
  in_bounds NDIRECT (alen (i_addrs x)) ;;
  let a := i_addrs x !!! Z.to_nat NDIRECT in
  (if a =? 0 then mret tt else
     bp ← bread (i_dev x) a;
     itrunc_indirect (Z.to_nat NINDIRECT) ip bp 0 ;;
     brelse bp ;;
     bfree (i_dev x) a ;;
     upd_inode ip (fun x => set_i_addrs (<[Z.to_nat NDIRECT := 0]> (i_addrs x)) x)) ;;
  upd_inode ip (set_i_size 0) ;;
  iupdate ip.

(** Drop a reference to an in-memory inode; frees the inode and its content on
    disk if that was the last reference and it has no links. *)
Definition iput (ip : nat) : M kernel unit :=
  acquire LkItable ;;
  i ← getinode ip;
  (if (i_ref i =? 1) && i_valid i && (i_nlink i =? 0) then
     acquiresleep (SlInode ip) ;;
     release LkItable ;;
     itrunc ip ;;
     upd_inode ip (set_i_type 0) ;;
     iupdate ip ;;
     upd_inode ip (set_i_valid false) ;;
     releasesleep (SlInode ip) ;;
     acquire LkItable
   else mret tt) ;;
  upd_inode ip (fun i => set_i_ref (i_ref i - 1) i) ;;
  release LkItable.

Definition iunlockput (ip : nat) : M kernel unit :=
  iunlock (Some ip) ;;
  iput ip.

(** [struct stat] *)
Record stat : Type := mkStat { st_dev : Z; st_ino : Z; st_type : Z; st_nlink : Z; st_size : Z }.

Definition stati (ip : nat) : M kernel stat :=
  i ← getinode ip;
  mret (mkStat (i32 (i_dev i)) (i_inum i) (i_type i) (i_nlink i) (i_size i)).

Section content.
Context {L : Layout}.

(** The loop of readi: the value returned, and the bytes stored to a variable. *)
Fixpoint readi_loop (fuel : nat) (ip : nat) (dst : kdst) (off n tot : Z) (acc : list Z) : M kernel (Z * list Z) :=
  match fuel with
  | O => nofuel
  | S fuel =>
      if tot <? n then
        addr ← bmap ip (off / BSIZE);
        if addr =? 0 then mret (tot, acc) else
        i ← getinode ip;
        bp ← bread (i_dev i) addr;
        let m := Z.min (n - tot) (BSIZE - off mod BSIZE) in
        d ← getbuf bp;
        in_prefix (off mod BSIZE + m) (alen (b_data d)) ;;
        r ← either_copyout dst (slice (off mod BSIZE) m (b_data d)) m;
        brelse bp ;;
        if fst r =? -1 then mret (-1, acc) else
        readi_loop fuel ip (kdst_add dst m) (off + m) n (tot + m) (acc ++ snd r)
      else mret (tot, acc)
  end.

(** Read data from inode. *)
Definition readi (ip : nat) (dst : kdst) (off n : Z) : M kernel (Z * list Z) :=
  let n := u32 n in
  i ← getinode ip;
  if (i_size i <? off) || (u32 (off + n) <? off) then mret (0, []) else
  let n := if i_size i <? u32 (off + n) then i_size i - off else n in
  readi_loop (Z.to_nat (n / BSIZE + 3)) ip dst off n 0 [].

Fixpoint writei_loop (fuel : nat) (ip : nat) (src : ksrc) (off n tot : Z) : M kernel (Z * Z) :=
  match fuel with
  | O => nofuel
  | S fuel =>
      if tot <? n then
        addr ← bmap ip (off / BSIZE);
        if addr =? 0 then mret (tot, off) else
        i ← getinode ip;
        bp ← bread (i_dev i) addr;
        let m := Z.min (n - tot) (BSIZE - off mod BSIZE) in
        d ← getbuf bp;
        in_prefix (off mod BSIZE + m) (alen (b_data d)) ;;
        r ← either_copyin src m;
        upd_buf bp (fun d => set_b_data (splice (off mod BSIZE) (snd r) (b_data d)) d) ;;
        if fst r =? -1 then brelse bp ;; mret (tot, off) else
        log_write bp ;;
        brelse bp ;;
        writei_loop fuel ip (ksrc_add src m) (off + m) n (tot + m)
      else mret (tot, off)
  end.

(** Write data to inode; the number of bytes successfully written. *)
Definition writei (ip : nat) (src : ksrc) (off n : Z) : M kernel Z :=
  let n := u32 n in
  i ← getinode ip;
  if (i_size i <? off) || (u32 (off + n) <? off) then mret (-1) else
  if MAXFILE * BSIZE <? u32 (off + n) then mret (-1) else
  r ← writei_loop (Z.to_nat (n / BSIZE + 3)) ip src off n 0;
  i ← getinode ip;
  (if i_size i <? snd r then upd_inode ip (set_i_size (snd r)) else mret tt) ;;
  iupdate ip ;;
  mret (fst r).

(** ** Directories *)

(** strncmp on byte strings that end at their NUL or at their end. *)
Fixpoint strncmp_list (n : nat) (p q : list Z) : Z :=
  match n with
  | O => 0
  | S n =>
      let a := default 0 (head p) in
      let b := default 0 (head q) in
      if negb (a =? 0) && (a =? b) then strncmp_list n (tail p) (tail q) else a - b
  end.

Definition namecmp (s t : list Z) : Z := strncmp_list (Z.to_nat DIRSIZ) s t.

Definition DIRENT : Z := 16.

(** [struct dirent]: the inode number, and [strncpy(de.name, name, DIRSIZ)] *)
Definition de_inum (de : list Z) : Z := get16 0 de.
Definition de_name (de : list Z) : list Z := drop 2 de.

Fixpoint strncpy_list (n : nat) (t : list Z) : list Z :=
  match n with
  | O => []
  | S n => match t with
           | [] => replicate (S n) 0
           | c :: t => if c =? 0 then replicate (S n) 0 else c :: strncpy_list n t
           end
  end.

Definition dirent (inum : Z) (name : list Z) : list Z := le_enc 2 inum ++ strncpy_list (Z.to_nat DIRSIZ) name.

Fixpoint dirlookup_loop (fuel : nat) (dp : nat) (name : list Z) (off : Z) : M kernel (option (nat * Z)) :=
  match fuel with
  | O => nofuel
  | S fuel =>
      d ← getinode dp;
      if off <? i_size d then
        r ← readi dp DVar off DIRENT;
        if negb (fst r =? DIRENT) then panic "dirlookup read" else
        if de_inum (snd r) =? 0 then dirlookup_loop fuel dp name (off + DIRENT) else
        if namecmp name (de_name (snd r)) =? 0 then
          ip ← iget (i_dev d) (de_inum (snd r));
          mret (Some (ip, off))
        else dirlookup_loop fuel dp name (off + DIRENT)
      else mret None
  end.

(** Look for a directory entry in a directory: its inode and its offset. *)
Definition dirlookup (dp : nat) (name : list Z) : M kernel (option (nat * Z)) :=
  d ← getinode dp;
  if negb (i_type d =? T_DIR) then panic "dirlookup not DIR" else
  dirlookup_loop (Z.to_nat (i_size d / DIRENT + 2)) dp name 0.

(** The offset of the first empty dirent, the size if there is none. *)
Fixpoint dirlink_scan (fuel : nat) (dp : nat) (off : Z) : M kernel Z :=
  match fuel with
  | O => nofuel
  | S fuel =>
      d ← getinode dp;
      if off <? i_size d then
        r ← readi dp DVar off DIRENT;
        if negb (fst r =? DIRENT) then panic "dirlink read" else
        if de_inum (snd r) =? 0 then mret off else
        dirlink_scan fuel dp (off + DIRENT)
      else mret off
  end.

(** Write a new directory entry (name, inum) into the directory dp. *)
Definition dirlink (dp : nat) (name : list Z) (inum : Z) : M kernel Z :=
  r ← dirlookup dp name;
  match r with
  | Some (ip, _) => iput ip ;; mret (-1)
  | None =>
      d ← getinode dp;
      off ← dirlink_scan (Z.to_nat (i_size d / DIRENT + 2)) dp 0;
      n ← writei dp (SVar (dirent inum name)) off DIRENT;
      mret (if n =? DIRENT then 0 else -1)
  end.

(** ** Paths *)

Definition SLASH : Z := 47.

Fixpoint skip_slashes (path : list Z) : list Z :=
  match path with
  | c :: rest => if c =? SLASH then skip_slashes rest else path
  | [] => []
  end.

(** The characters before the next slash, and the rest. *)
Fixpoint span_elem (path : list Z) : list Z * list Z :=
  match path with
  | c :: rest => if c =? SLASH then ([], path) else let (e, r) := span_elem rest in (c :: e, r)
  | [] => ([], [])
  end.

(** Copy the next path element into name (cut to DIRSIZ bytes) and return the
    element following it; [None] if there is no name to remove. *)
Definition skipelem (path : list Z) : option (list Z * list Z) :=
  match skip_slashes path with
  | [] => None
  | path => let (s, rest) := span_elem path in Some (take (Z.to_nat DIRSIZ) s, skip_slashes rest)
  end.

Fixpoint namex_loop (fuel : nat) (path : list Z) (parent : bool) (ip : nat) (name : list Z) : M kernel (option (nat * list Z)) :=
  match fuel with
  | O => nofuel
  | S fuel =>
      match skipelem path with
      | None =>
          if parent then iput ip ;; mret None else mret (Some (ip, name))
      | Some (name, path) =>
          ilock (Some ip) ;;
          i ← getinode ip;
          if negb (i_type i =? T_DIR) then iunlockput ip ;; mret None else
          if parent && (length path =? 0)%nat then iunlock (Some ip) ;; mret (Some (ip, name)) else
          next ← dirlookup ip name;
          match next with
          | None => iunlockput ip ;; mret None
          | Some (next, _) => iunlockput ip ;; namex_loop fuel path parent next name
          end
      end
  end.

(** Look up and return the inode for a path name; with [parent], the inode for
    the parent and the final path element. *)
Definition namex (path : list Z) (parent : bool) : M kernel (option (nat * list Z)) :=
  ip ← (match path with
        | c :: _ => if c =? SLASH then iget ROOTDEV ROOTINO else
                      me ← myproc; p ← getproc me; cwd ← deref (p_cwd p); idup cwd
        | [] => me ← myproc; p ← getproc me; cwd ← deref (p_cwd p); idup cwd
        end);
  namex_loop (S (length path)) path parent ip [].

Definition namei (path : list Z) : M kernel (option nat) :=
  r ← namex path false;
  mret (fst <$> r).

Definition nameiparent (path : list Z) : M kernel (option (nat * list Z)) := namex path true.
End content.
