(* ===== verification/FsBlocks.v ===== *)
(** * The free bitmap: balloc and bfree

    A block is in use when its bit in the bitmap is set.  [bm_ok] is the
    layout mkfs makes and every allocation keeps: the log and the bitmap are
    marked in use, and so is every block the running code holds. *)

From S2P Require Import Prelude State Mem Spinlock Sched Sleeplock Bio BufCache CacheRules Log LogHeader LogSpec LogRecover LogProps Txn Memlayout Kalloc Vm Uart Printf Copy Fs.

(** ** Bits *)

Lemma bit_mask_test bi i : 0 <= i -> Z.testbit (bit_mask bi) i = (i =? bi mod 8).
Proof.
  intros Hi. unfold bit_mask. pose proof (Z.mod_pos_bound bi 8 ltac:(lia)).
  destruct (Z.eqb_spec i (bi mod 8)) as [->|Hne].
  - rewrite Z.shiftl_spec by lia. rewrite Z.sub_diag. done.
  - rewrite Z.shiftl_spec by lia. destruct (Z.lt_ge_cases i (bi mod 8)); [apply Z.testbit_neg_r; lia |].
    change 1 with (2 ^ 0). apply Z.pow2_bits_false. lia.
Qed.

Lemma bit_free_test data bi : bit_free data bi = negb (Z.testbit (data_byte data bi) (bi mod 8)).
Proof.
  unfold bit_free. pose proof (Z.mod_pos_bound bi 8 ltac:(lia)). destruct (Z.eqb_spec (Z.land (data_byte data bi) (bit_mask bi)) 0) as [E|E].
  - apply (f_equal (fun x => Z.testbit x (bi mod 8))) in E. rewrite Z.land_spec, bit_mask_test, Z.eqb_refl, Z.bits_0, andb_true_r in E by lia.
    by rewrite E.
  - destruct (Z.testbit (data_byte data bi) (bi mod 8)) eqn:Et; [done |]. exfalso. apply E. apply Z.bits_inj'. intros i Hi.
    rewrite Z.land_spec, bit_mask_test, Z.bits_0 by done. destruct (Z.eqb_spec i (bi mod 8)) as [->|]; [by rewrite Et | by rewrite andb_false_r].
Qed.

Lemma u8_test x i : 0 <= i < 8 -> Z.testbit (u8 x) i = Z.testbit x i.
Proof. intros. unfold wrap. apply Z.mod_pow2_bits_low. lia. Qed.

Lemma data_byte_insert data x y w : 0 <= x < BPB -> 0 <= y -> length data = Z.to_nat BSIZE ->
  data_byte (<[Z.to_nat (x / 8) := w]> data) y = if decide (y / 8 = x / 8) then w else data_byte data y.
Proof.
  intros Hx Hy Hl. unfold data_byte. assert (0 <= x / 8 < BSIZE) by (unfold BPB, BSIZE in *; split; [apply Z.div_pos; lia | apply Z.div_lt_upper_bound; lia]).
  assert (0 <= y / 8) by (apply Z.div_pos; lia). destruct (decide (y / 8 = x / 8)) as [->|Hne].
  - apply list_lookup_total_insert_eq. lia.
  - apply list_lookup_total_insert_ne. lia.
Qed.

Lemma same_bit x y : y / 8 = x / 8 -> (y mod 8 = x mod 8 <-> y = x).
Proof. intros E. split; [|by intros ->]. intros Em. rewrite (Z.div_mod x 8), (Z.div_mod y 8) by lia. lia. Qed.

Lemma bit_set_free data x y : 0 <= x < BPB -> 0 <= y -> length data = Z.to_nat BSIZE ->
  bit_free (bit_set data x) y = bit_free data y && negb (y =? x).
Proof.
  intros Hx Hy Hl. rewrite !bit_free_test. unfold bit_set. rewrite data_byte_insert by done. pose proof (Z.mod_pos_bound y 8 ltac:(lia)).
  destruct (decide (y / 8 = x / 8)) as [E|E].
  - rewrite u8_test, Z.lor_spec, bit_mask_test by lia. unfold data_byte. rewrite E. destruct (Z.eqb_spec (y mod 8) (x mod 8)) as [Em|Em].
    + apply (same_bit _ _ E) in Em as ->. by rewrite Z.eqb_refl, orb_true_r, andb_false_r.
    + destruct (Z.eqb_spec y x) as [->|]; [done |]. by rewrite orb_false_r, andb_true_r.
  - destruct (Z.eqb_spec y x) as [->|]; [done |]. by rewrite andb_true_r.
Qed.

Lemma bit_clear_free data x y : 0 <= x < BPB -> 0 <= y -> length data = Z.to_nat BSIZE ->
  bit_free (bit_clear data x) y = bit_free data y || (y =? x).
Proof.
  intros Hx Hy Hl. rewrite !bit_free_test. unfold bit_clear. rewrite data_byte_insert by done. pose proof (Z.mod_pos_bound y 8 ltac:(lia)).
  destruct (decide (y / 8 = x / 8)) as [E|E].
  - rewrite u8_test, Z.land_spec, Z.lnot_spec, bit_mask_test by lia. unfold data_byte. rewrite E. destruct (Z.eqb_spec (y mod 8) (x mod 8)) as [Em|Em].
    + apply (same_bit _ _ E) in Em as ->. by rewrite Z.eqb_refl, andb_false_r, orb_true_r.
    + destruct (Z.eqb_spec y x) as [->|]; [done |]. by rewrite andb_true_r, orb_false_r.
  - destruct (Z.eqb_spec y x) as [->|]; [done |]. by rewrite orb_false_r.
Qed.

Lemma length_bit_set data x : length (bit_set data x) = length data.
Proof. apply length_insert. Qed.
Lemma length_bit_clear data x : length (bit_clear data x) = length data.
Proof. apply length_insert. Qed.

(** ** The bitmap *)

(** Whether block [b] is marked in use. *)
Definition used (v : Z -> list Z) (sb : superblock) (b : Z) : bool := negb (bit_free (v (BBLOCK b sb)) (b mod BPB)).

(** [x] is a block of the bitmap. *)
Definition is_bitmap (sb : superblock) (x : Z) : Prop := exists b, 0 <= b < sb_size sb /\ x = BBLOCK b sb.

Record bm_ok (s : kernel) (v : Z -> list Z) (H : list Z) : Prop := mkBmOk {
  bm_size : 0 <= sb_size (sb s) < 2 ^ 31;
  bm_start : 0 <= sb_bmapstart (sb s) /\ sb_bmapstart (sb s) + sb_size (sb s) / BPB < 2 ^ 31;
  bm_home : forall x, is_bitmap (sb s) x -> ~ in_log (logst s) x;
  bm_log : forall b, 0 <= b < sb_size (sb s) -> in_log (logst s) b -> used v (sb s) b = true;
  bm_meta : forall b, 0 <= b < sb_size (sb s) -> is_bitmap (sb s) b -> used v (sb s) b = true;
  bm_boot : used v (sb s) 0 = true;
  bm_held : forall b, b ∈ H -> ~ is_bitmap (sb s) b /\ used v (sb s) b = true
}.

Lemma BBLOCK_eq (sb : superblock) b : 0 <= b < sb_size sb -> 0 <= sb_bmapstart sb /\ sb_bmapstart sb + sb_size sb / BPB < 2 ^ 31 ->
  BBLOCK b sb = b / BPB + sb_bmapstart sb /\ 0 <= BBLOCK b sb < 2 ^ 31.
Proof.
  intros Hb [H0 H1]. unfold BBLOCK. assert (0 <= b / BPB <= sb_size sb / BPB).
  { split; [apply Z.div_pos; unfold BPB, BSIZE; lia | apply Z.div_le_mono; unfold BPB, BSIZE; lia]. }
  rewrite wrap_small by lia. lia.
Qed.

(** Blocks of one bitmap block. *)
Lemma BBLOCK_off sb b y : b mod BPB = 0 -> 0 <= y < BPB -> BBLOCK (b + y) sb = BBLOCK b sb /\ (b + y) mod BPB = y.
Proof.
  intros Hb Hy. assert (HB : BPB > 0) by (unfold BPB, BSIZE; lia).
  assert (E : b = b / BPB * BPB) by (pose proof (Z.div_mod b BPB ltac:(lia)); lia).
  assert (Hd : (b + y) / BPB = b / BPB) by (rewrite E at 1; rewrite Z.add_comm, Z.div_add by lia; rewrite (Z.div_small y) by lia; lia).
  unfold BBLOCK. rewrite Hd. split; [done |]. rewrite E at 1. rewrite Z.add_comm, Z.mod_add by lia. apply Z.mod_small. lia.
Qed.

Lemma BBLOCK_inj sb b y : 0 <= b < sb_size sb -> 0 <= y < sb_size sb -> 0 <= sb_bmapstart sb /\ sb_bmapstart sb + sb_size sb / BPB < 2 ^ 31 ->
  BBLOCK b sb = BBLOCK y sb -> b mod BPB = y mod BPB -> b = y.
Proof.
  intros Hb Hy Hg E Em. destruct (BBLOCK_eq sb b Hb Hg) as [E1 _], (BBLOCK_eq sb y Hy Hg) as [E2 _].
  rewrite (Z.div_mod b BPB), (Z.div_mod y BPB) by (unfold BPB, BSIZE; lia). rewrite Em. f_equal. f_equal. lia.
Qed.

(** The scan finds the first free bit. *)
(** The byte of a bit of the bitmap. *)
Lemma bit_byte x : 0 <= x < BPB -> 0 <= x / 8 < BSIZE.
Proof. unfold BPB. intros Hx. split; [apply Z.div_pos; lia | apply Z.div_lt_upper_bound; lia]. Qed.

Lemma balloc_scan_spec data b size : forall k bi,
  match balloc_scan k data b bi size with
  | Some x => bi <= x < bi + Z.of_nat k /\ b + x < size /\ bit_free data x = true /\ forall y, bi <= y < x -> bit_free data y = false
  | None => forall y, bi <= y < bi + Z.of_nat k -> b + y < size -> bit_free data y = false
  end.
Proof.
  induction k as [|k IH]; intros bi; cbn [balloc_scan]; [lia |]. destruct (Z.ltb_spec (b + bi) size); [|lia].
  destruct (bit_free data bi) eqn:Ef; [split_and!; try lia; done |].
  specialize (IH (bi + 1)). destruct (balloc_scan k data b (bi + 1) size) as [x|].
  - destruct IH as (H1 & H2 & H3 & H4). split_and!; try lia; [done |]. intros y Hy. destruct (decide (y = bi)) as [->|]; [done | apply H4; lia].
  - intros y Hy Hs. destruct (decide (y = bi)) as [->|]; [done | apply IH; lia].
Qed.

(** ** bzero *)

Definition zeros : list Z := replicate (Z.to_nat BSIZE) 0.

Lemma bzero_ok s v bl H bn : tx s v bl H -> bn ∉ H -> room s bl H 1 -> home_block s bn ->
  exists s', bzero ROOTDEV bn s = Ret tt s' /\ tx s' (fupd v bn zeros) (log_add bn bl) H /\ tstep s s' /\ keeps_held s s' bn.
Proof.
  intros T Hn R Hb. unfold bzero. change (u32 ROOTDEV) with ROOTDEV. rewrite (wrap_small 32 bn) by (destruct Hb; lia).
  destruct (tx_bread_room s v bl H bn 0 T Hn R) as (i & s1 & E1 & T1 & H1 & K1 & F1). erewrite bind_Ret by exact E1. cbv beta.
  assert (S1 : tstep s s1) by (by apply tstep_bufs).
  destruct (tx_update s1 v bl H bn i zeros T1 H1) as (s2 & s3 & s4 & E2 & E3 & E4 & T4 & S4 & K4).
  - rewrite (tstep_log_size _ _ S1). pose proof (rm_log _ _ _ _ R). lia.
  - by apply (home_block_tstep s).
  - apply length_replicate.
  - erewrite bind_Ret by exact E2. erewrite bind_Ret by exact E3. exists s4. split_and!; [exact E4 | done | by eapply tstep_trans |].
    intros b j Hne Hh. apply K4; [done |]. by apply K1.
Qed.

(** ** Marking blocks *)

(** The contents with block [b] marked in use, or free. *)
Definition mark (v : Z -> list Z) (sb : superblock) (b : Z) : Z -> list Z :=
  fupd v (BBLOCK b sb) (bit_set (v (BBLOCK b sb)) (b mod BPB)).
Definition unmark (v : Z -> list Z) (sb : superblock) (b : Z) : Z -> list Z :=
  fupd v (BBLOCK b sb) (bit_clear (v (BBLOCK b sb)) (b mod BPB)).

Section marks.
Context (s : kernel) (v : Z -> list Z) (H : list Z) (B : bm_ok s v H) (Hlen : forall b, length (v b) = Z.to_nat BSIZE).

Lemma mod_BPB b : 0 <= b mod BPB < BPB.
Proof. apply Z.mod_pos_bound. unfold BPB, BSIZE. lia. Qed.

Lemma mark_used b x : 0 <= b < sb_size (sb s) -> 0 <= x < sb_size (sb s) ->
  used (mark v (sb s) b) (sb s) x = used v (sb s) x || (x =? b).
Proof.
  intros Hb Hx. unfold used, mark, fupd. pose proof (mod_BPB b). pose proof (mod_BPB x). destruct (decide (BBLOCK x (sb s) = BBLOCK b (sb s))) as [E|E].
  - rewrite bit_set_free by (auto; lia). rewrite E. rewrite negb_andb, negb_involutive. f_equal.
    destruct (Z.eqb_spec (x mod BPB) (b mod BPB)) as [Em|Em], (Z.eqb_spec x b) as [->|Hne]; try done.
    exfalso. apply Hne. eapply BBLOCK_inj; try done. apply (bm_start _ _ _ B).
  - destruct (Z.eqb_spec x b) as [->|]; [done |]. by rewrite orb_false_r.
Qed.

Lemma unmark_used b x : 0 <= b < sb_size (sb s) -> 0 <= x < sb_size (sb s) ->
  used (unmark v (sb s) b) (sb s) x = used v (sb s) x && negb (x =? b).
Proof.
  intros Hb Hx. unfold used, unmark, fupd. pose proof (mod_BPB b). pose proof (mod_BPB x). destruct (decide (BBLOCK x (sb s) = BBLOCK b (sb s))) as [E|E].
  - rewrite bit_clear_free by (auto; lia). rewrite E. rewrite negb_orb. f_equal.
    destruct (Z.eqb_spec (x mod BPB) (b mod BPB)) as [Em|Em], (Z.eqb_spec x b) as [->|Hne]; try done.
    exfalso. apply Hne. eapply BBLOCK_inj; try done. apply (bm_start _ _ _ B).
  - destruct (Z.eqb_spec x b) as [->|]; [done |]. by rewrite andb_true_r.
Qed.

(** A free block is an ordinary one: outside the log and the bitmap, and not held. *)
Lemma free_block b : 0 <= b < sb_size (sb s) -> used v (sb s) b = false -> home_block s b /\ ~ is_bitmap (sb s) b /\ b ∉ H /\ b <> 0.
Proof.
  intros Hb Hu. destruct B as [B1 B2 B3 B4 B5 B6 B7]. split_and!.
  - split; [lia |]. intros Hl. rewrite (B4 b Hb Hl) in Hu. done.
  - intros Hi. rewrite (B5 b Hb Hi) in Hu. done.
  - intros Hi. destruct (B7 b Hi) as [_ E]. rewrite E in Hu. done.
  - intros ->. rewrite B6 in Hu. done.
Qed.

Lemma bitmap_block b : 0 <= b < sb_size (sb s) -> home_block s (BBLOCK b (sb s)) /\ BBLOCK b (sb s) ∉ H.
Proof.
  intros Hb. destruct (BBLOCK_eq _ b Hb (bm_start _ _ _ B)) as [_ Hr]. assert (Hi : is_bitmap (sb s) (BBLOCK b (sb s))) by (by exists b).
  split; [split; [done | by apply (bm_home _ _ _ B)] |]. intros Hh. by destruct (bm_held _ _ _ B _ Hh).
Qed.
End marks.

(** ** balloc *)

Lemma tx_printf s v bl H u : tx s v bl H -> tx (set_uart u s) v bl H.
Proof. intros T. by eapply tx_other; [exact T | ..]. Qed.

(** What [balloc] does: the first free block, marked and zeroed, or nothing. *)
Inductive balloc_case (s : kernel) (v : Z -> list Z) (bl H : list Z) (r : Z) (s' : kernel) : Prop :=
| balloc_found : 0 <= r < sb_size (sb s) -> used v (sb s) r = false -> (forall x, 0 <= x < r -> used v (sb s) x = true) ->
    tx s' (fupd (mark v (sb s) r) r zeros) (log_add r (log_add (BBLOCK r (sb s)) bl)) H -> balloc_case s v bl H r s'
| balloc_full : r = 0 -> (forall x, 0 <= x < sb_size (sb s) -> used v (sb s) x = true) -> tx s' v bl H -> balloc_case s v bl H r s'.

Lemma balloc_loop_ok v bl H : forall fuel s b, tx s v bl H -> bm_ok s v H -> room s bl H 2 -> LkPr ∉ held s ->
  0 <= b -> b mod BPB = 0 -> sb_size (sb s) <= b + Z.of_nat fuel * BPB -> (forall x, 0 <= x < b -> x < sb_size (sb s) -> used v (sb s) x = true) ->
  exists r s', balloc_loop (S fuel) ROOTDEV b s = Ret r s' /\ tstep s s' /\ balloc_case s v bl H r s' /\ stays H s s'.
Proof.
  induction fuel as [|fuel IH]; intros s b T B R Hpr Hb0 Hb Hf Hused; cbn [balloc_loop]; unfold getsb; erewrite bind_Ret by reflexivity; cbv beta;
    destruct (Z.ltb_spec b (sb_size (sb s))) as [Hlt|Hge]; try lia.
  1, 3: (destruct (printf_plain (bytes "balloc: out of blocks" ++ [10]) s) as [u E]; [repeat constructor; done | done |];
    erewrite bind_Ret by exact E; exists 0, (set_uart u s); split; [done |]; split; [apply tstep_uart |];
    split; [apply balloc_full; [done | intros x Hx; apply Hused; lia | by apply tx_printf] | intros x j _ Hh; by eapply holds_other; [exact Hh | ..]]).
  destruct (bitmap_block s v H B b ltac:(lia)) as [HBh HBn]. set (BB := BBLOCK b (sb s)) in *.
  destruct (tx_bread_room s v bl H BB 1 T HBn R) as (i & s1 & E1 & T1 & H1 & K1 & F1). pose proof (stays_keeps H _ _ _ K1 HBn) as Y1. erewrite bind_Ret by exact E1. cbv beta.
  assert (S1 : tstep s s1) by (by apply tstep_bufs). unfold getbuf. erewrite bind_Ret by reflexivity. cbv beta.
  rewrite (tx_data s1 v bl _ BB i T1 H1), (tx_alen _ _ _ _ BB T1). rewrite in_prefix_run by (vm_compute; discriminate). pose proof (balloc_scan_spec (v BB) b (sb_size (sb s)) (Z.to_nat BPB) 0) as Hscan.
  rewrite Z.add_0_l, Z2Nat.id in Hscan by (unfold BPB, BSIZE; lia).
  destruct (balloc_scan (Z.to_nat BPB) (v BB) b 0 (sb_size (sb s))) as [x|].
  - destruct Hscan as (Hx & Hxs & Hxf & Hfirst). destruct (BBLOCK_off (sb s) b x Hb Hx) as [Eb Em]. fold BB in Eb.
    assert (Hu : used v (sb s) (b + x) = false) by (unfold used; by rewrite Eb, Em, Hxf).
    destruct (free_block s v H B (b + x) ltac:(lia) Hu) as (Fh & Fb & Fn & _).
    destruct (tx_update s1 v bl H BB i (bit_set (v BB) x) T1 H1) as (s2 & s3 & s4 & E2 & E3 & E4 & T4 & S4 & K4).
    { rewrite (tstep_log_size _ _ S1). pose proof (rm_log _ _ _ _ R). lia. }
    { by apply (home_block_tstep s). }
    { rewrite length_bit_set. by eapply tx_len. }
    rewrite in_bounds_run by (apply bit_byte; lia). erewrite bind_Ret by exact E2. erewrite bind_Ret by exact E3. erewrite bind_Ret by exact E4.
    assert (S4' : tstep s s4) by (by eapply tstep_trans).
    destruct (bzero_ok s4 _ _ _ (b + x) T4 Fn) as (s5 & E5 & T5 & S5 & K5).
    { eapply room_add; [apply (tx_nodup _ _ _ _ T) | done | done]. }
    { by apply (home_block_tstep s). }
    erewrite bind_Ret by exact E5. exists (b + x), s5. split; [done |]. split; [by eapply tstep_trans |].
    split; [apply balloc_found; [lia | done | |] | eapply stays_trans; [exact Y1 |]; eapply stays_trans; [by eapply stays_keeps, HBn | by eapply stays_keeps, Fn]].
    + intros y Hy. destruct (Z.lt_ge_cases y b); [apply Hused; lia |].
      destruct (BBLOCK_off (sb s) b (y - b) Hb ltac:(lia)) as [Eb' Em']. replace (b + (y - b)) with y in * by lia.
      unfold used. rewrite Eb', Em'. fold BB. by rewrite Hfirst by lia.
    + unfold mark. rewrite Eb, Em. exact T5.
  - destruct (tx_release s1 v bl H BB i T1 H1) as (s2 & E2 & T2 & S2 & K2).
    { rewrite (tstep_disk _ _ S1). by eapply tx_clean. }
    erewrite bind_Ret by exact E2. assert (S2' : tstep s s2) by (by eapply tstep_trans).
    assert (Esb : sb s2 = sb s) by (by apply tstep_sb).
    destruct (IH s2 (b + BPB)) as (r & s3 & E3 & S3 & C3 & Y3); rewrite ?Esb; try done.
    + destruct B as [B1 B2 B3 B4 B5 B6 B7]. split; rewrite ?Esb; try done;
        [intros y Hy; rewrite (tstep_in_log _ _ _ S2'); by apply B3 | intros y Hy; rewrite (tstep_in_log _ _ _ S2'); by apply B4].
    + destruct R as [R1 R2]. split; [by rewrite (tstep_log_size _ _ S2') | done].
    + by rewrite (tstep_held _ _ S2').
    + unfold BPB, BSIZE in *. lia.
    + replace (b + BPB) with (b + 1 * BPB) by lia. by rewrite Z.mod_add by (unfold BPB, BSIZE; lia).
    + lia.
    + intros y Hy Hys. destruct (Z.lt_ge_cases y b); [apply Hused; lia |].
      destruct (BBLOCK_off (sb s) b (y - b) Hb ltac:(lia)) as [Eb' Em']. replace (b + (y - b)) with y in * by lia.
      unfold used. rewrite Eb', Em'. fold BB. rewrite Hscan by lia. done.
    + exists r, s3. split; [exact E3 |]. split; [by eapply tstep_trans |].
      split; [destruct C3; rewrite ?Esb in *; [by apply balloc_found | by apply balloc_full] |].
      eapply stays_trans; [exact Y1 |]. eapply stays_trans; [by eapply stays_keeps, HBn | exact Y3].
Qed.

(** ** The bitmap invariant is kept *)

Lemma used_fupd v sb b x data : ~ is_bitmap sb b -> 0 <= x < sb_size sb -> used (fupd v b data) sb x = used v sb x.
Proof. intros Hb Hx. unfold used. rewrite fupd_ne; [done |]. intros E. apply Hb. by exists x. Qed.

(** Contents with at least the same blocks in use. *)
Lemma bm_ok_mono s s' v v' H : bm_ok s v H -> tstep s s' -> (forall b, 0 <= b < sb_size (sb s) -> used v (sb s) b = true -> used v' (sb s) b = true) ->
  (forall b, b ∈ H -> 0 <= b < sb_size (sb s)) -> 0 < sb_size (sb s) -> bm_ok s' v' H.
Proof.
  intros [B1 B2 B3 B4 B5 B6 B7] S Hu Hr H0. pose proof (tstep_sb _ _ S) as Esb. split; rewrite ?Esb; try done.
  - intros x Hx. rewrite (tstep_in_log _ _ _ S). by apply B3.
  - intros b Hb. rewrite (tstep_in_log _ _ _ S). intros Hl. apply Hu; [done | by apply B4].
  - intros b Hb Hi. apply Hu; [done | by apply B5].
  - apply Hu; [lia | done].
  - intros b Hb. destruct (B7 b Hb) as [Hn Hub]. split; [done |]. apply Hu; [by apply Hr | done].
Qed.

Lemma bfree_used s v bl H b : tx s v bl H -> bm_ok s v H -> room s bl H 1 -> 0 <= b < sb_size (sb s) -> used v (sb s) b = true ->
  exists s', bfree ROOTDEV b s = Ret tt s' /\ tx s' (unmark v (sb s) b) (log_add (BBLOCK b (sb s)) bl) H /\ tstep s s' /\ stays H s s'.
Proof.
  intros T B R Hb Hu. unfold bfree, getsb. erewrite bind_Ret by reflexivity. cbv beta. change (u32 ROOTDEV) with ROOTDEV.
  destruct (bitmap_block s v H B b Hb) as [HBh HBn].
  destruct (tx_bread_room s v bl H _ 0 T HBn R) as (i & s1 & E1 & T1 & H1 & K1 & F1). erewrite bind_Ret by exact E1. cbv beta.
  assert (S1 : tstep s s1) by (by apply tstep_bufs). unfold getbuf. erewrite bind_Ret by reflexivity. cbv beta zeta.
  rewrite (tx_data s1 v bl _ _ i T1 H1), (tx_alen _ _ _ _ _ T1). rewrite in_bounds_run by (apply bit_byte, Z.mod_pos_bound; done). unfold used in Hu. apply negb_true_iff in Hu. rewrite Hu.
  destruct (tx_update s1 v bl H (BBLOCK b (sb s)) i (bit_clear (v (BBLOCK b (sb s))) (b mod BPB)) T1 H1) as (s2 & s3 & s4 & E2 & E3 & E4 & T4 & S4 & K4).
  - rewrite (tstep_log_size _ _ S1). pose proof (rm_log _ _ _ _ R). lia.
  - by apply (home_block_tstep s).
  - rewrite length_bit_clear. by eapply tx_len.
  - erewrite bind_Ret by exact E2. erewrite bind_Ret by exact E3. exists s4. split_and!; [exact E4 | exact T4 | by eapply tstep_trans |].
    eapply stays_trans; by eapply stays_keeps.
Qed.

Lemma bfree_free s v bl H b : tx s v bl H -> bm_ok s v H -> room s bl H 1 -> 0 <= b < sb_size (sb s) -> used v (sb s) b = false ->
  bfree ROOTDEV b s = Panic "freeing free block".
Proof.
  intros T B R Hb Hu. unfold bfree, getsb. erewrite bind_Ret by reflexivity. cbv beta. change (u32 ROOTDEV) with ROOTDEV.
  destruct (bitmap_block s v H B b Hb) as [HBh HBn].
  destruct (tx_bread_room s v bl H _ 0 T HBn R) as (i & s1 & E1 & T1 & H1 & _ & F1). erewrite bind_Ret by exact E1. cbv beta.
  unfold getbuf. erewrite bind_Ret by reflexivity. cbv beta zeta. rewrite (tx_data s1 v bl _ _ i T1 H1), (tx_alen _ _ _ _ _ T1). rewrite in_bounds_run by (apply bit_byte, Z.mod_pos_bound; done).
  unfold used in Hu. apply negb_false_iff in Hu. by rewrite Hu.
Qed.

(** The contents after allocating [b]. *)
Definition allocated (v : Z -> list Z) (sb : superblock) (b : Z) : Z -> list Z := fupd (mark v sb b) b zeros.

Section allocated.
Context (s : kernel) (v : Z -> list Z) (H : list Z) (B : bm_ok s v H) (Hlen : forall b, length (v b) = Z.to_nat BSIZE).
Context (b : Z) (Hb : 0 <= b < sb_size (sb s)) (Hu : used v (sb s) b = false).

Lemma allocated_used x : 0 <= x < sb_size (sb s) -> used (allocated v (sb s) b) (sb s) x = used v (sb s) x || (x =? b).
Proof.
  intros Hx. destruct (free_block s v H B b Hb Hu) as (_ & Hn & _ & _). unfold allocated. rewrite used_fupd by done.
  by apply mark_used with (H := H).
Qed.

Lemma allocated_other x : x <> b -> ~ is_bitmap (sb s) x -> allocated v (sb s) b x = v x.
Proof. intros Hx Hi. unfold allocated, mark. rewrite !fupd_ne; [done | | done]. intros ->. apply Hi. by exists b. Qed.
End allocated.

Lemma balloc_ok s v bl H : tx s v bl H -> bm_ok s v H -> room s bl H 2 -> LkPr ∉ held s ->
  exists r s', balloc ROOTDEV s = Ret r s' /\ tstep s s' /\ balloc_case s v bl H r s' /\ stays H s s'.
Proof.
  intros T B R Hpr. unfold balloc, getsb. erewrite bind_Ret by reflexivity. cbv beta.
  pose proof (bm_size _ _ _ B) as Hs. assert (0 <= sb_size (sb s) / BPB) by (apply Z.div_pos; unfold BPB, BSIZE; lia).
  replace (Z.to_nat (sb_size (sb s) / BPB + 2)) with (S (Z.to_nat (sb_size (sb s) / BPB + 1))) by lia.
  apply balloc_loop_ok; try done; [|lia]. rewrite Z2Nat.id by lia.
  pose proof (Z.mul_succ_div_gt (sb_size (sb s)) BPB ltac:(unfold BPB, BSIZE; lia)). lia.
Qed.

(** C11: [balloc] returns the lowest free block, zeroed, and marks exactly that
    block in use, all inside the transaction; it never hands out a block that is
    in use, the log, the bitmap, or a block someone holds, and returns 0, with
    nothing changed, only when every block is in use. *)
Theorem balloc_first_free (s : kernel) (v : Z -> list Z) (bl H : list Z) (T : tx s v bl H) (B : bm_ok s v H) (R : room s bl H 2)
    (Hpr : LkPr ∉ held s) :
  exists r s', balloc ROOTDEV s = Ret r s' /\ tstep s s' /\
    ((r <> 0 /\ 0 <= r < sb_size (sb s) /\ used v (sb s) r = false /\ (forall x, 0 <= x < r -> used v (sb s) x = true) /\
      home_block s r /\ ~ is_bitmap (sb s) r /\ r ∉ H /\
      exists v' bl', tx s' v' bl' H /\ v' r = zeros /\ (length bl' <= length bl + 2)%nat /\
        (forall x, 0 <= x < sb_size (sb s) -> used v' (sb s) x = used v (sb s) x || (x =? r)) /\
        (forall x, x <> r -> ~ is_bitmap (sb s) x -> v' x = v x)) \/
     (r = 0 /\ (forall x, 0 <= x < sb_size (sb s) -> used v (sb s) x = true) /\ tx s' v bl H)).
Proof.
  destruct (balloc_ok s v bl H T B R Hpr) as (r & s' & E & S & C & _). exists r, s'. split; [done |]. split; [done |].
  assert (Hlen : forall b, length (v b) = Z.to_nat BSIZE) by (intros b; by eapply tx_len). destruct C as [Hr Hu Hf T' | -> Ha T']; [left | by right].
  destruct (free_block s v H B r Hr Hu) as (F1 & F2 & F3 & F4). split_and!; try done; [lia | lia |].
  exists (allocated v (sb s) r), (log_add r (log_add (BBLOCK r (sb s)) bl)). split_and!; try done.
  - apply fupd_eq.
  - rewrite !length_log_add. repeat case_decide; lia.
  - intros x Hx. by apply allocated_used with (H := H).
  - intros x Hx Hi. by apply allocated_other.
Qed.

(** [bfree] clears exactly the bit of its block, inside the transaction, so
    that a block just allocated is free again; freeing a free block panics. *)
Theorem bfree_inverse (s : kernel) (v : Z -> list Z) (bl H : list Z) (b : Z) (T : tx s v bl H) (B : bm_ok s v H) (R : room s bl H 1)
    (Hb : 0 <= b < sb_size (sb s)) :
  (used v (sb s) b = true -> exists s' v', bfree ROOTDEV b s = Ret tt s' /\ tx s' v' (log_add (BBLOCK b (sb s)) bl) H /\ tstep s s' /\
     (forall x, 0 <= x < sb_size (sb s) -> used v' (sb s) x = used v (sb s) x && negb (x =? b)) /\
     (forall x, ~ is_bitmap (sb s) x -> v' x = v x)) /\
  (used v (sb s) b = false -> bfree ROOTDEV b s = Panic "freeing free block" /\
     forall x, 0 <= x < sb_size (sb s) -> used (unmark (allocated v (sb s) b) (sb s) b) (sb s) x = used v (sb s) x).
Proof.
  assert (Hlen : forall b, length (v b) = Z.to_nat BSIZE) by (intros x; by eapply tx_len). split.
  - intros Hu. destruct (bfree_used s v bl H b T B R Hb Hu) as (s' & E & T' & S & _). exists s', (unmark v (sb s) b). split_and!; try done.
    + intros x Hx. by apply unmark_used with (H := H).
    + intros x Hi. unfold unmark. apply fupd_ne. intros ->. apply Hi. by exists b.
  - intros Hu. split; [by apply (bfree_free s v bl H) |]. intros x Hx.
    destruct (free_block s v H B b Hb Hu) as (_ & Hn & _ & _).
    assert (HA : forall x, length (allocated v (sb s) b x) = Z.to_nat BSIZE).
    { intros y. unfold allocated, mark, fupd. destruct (decide (y = b)); [apply length_replicate |].
      destruct (decide (y = BBLOCK b (sb s))); [by rewrite length_bit_set | done]. }
    assert (HB : bm_ok s (allocated v (sb s) b) []).
    { destruct B as [B1 B2 B3 B4 B5 B6 B7]. assert (Hm : forall y, 0 <= y < sb_size (sb s) -> used v (sb s) y = true -> used (allocated v (sb s) b) (sb s) y = true).
      { intros y Hy Hy'. rewrite (allocated_used s v H) by (done || by split). by rewrite Hy'. }
      split; auto; [apply Hm; [lia | done] |]. intros y Hy. by apply not_elem_of_nil in Hy. }
    rewrite (unmark_used s _ [] HB HA) by done. rewrite (allocated_used s v H B Hlen b Hb Hu) by done.
    destruct (Z.eqb_spec x b) as [->|]; [by rewrite andb_false_r, Hu | by rewrite andb_true_r, orb_false_r].
Qed.

(** ** A small file system *)

(** The image: the bitmap in block 45 marks the first 46 blocks in use. *)
Definition bitmap0 : list Z := replicate 5 255 ++ [63] ++ replicate 1018 0.
Definition img0 (n : Z) : list Z := if n =? 45 then bitmap0 else zeros.
Definition fs_on (img : Z -> list Z) : kernel := set_sb sb0 (set_logst log0 (binit_state img)).
Definition fs0 : kernel := fs_on img0.

Lemma img0_len n : length (img0 n) = Z.to_nat BSIZE.
Proof. unfold img0. destruct (n =? 45); vm_compute; reflexivity. Qed.

Lemma fs_on_tx img : (forall n, length (img n) = Z.to_nat BSIZE) -> tx (fs_on img) img [] [].
Proof.
  intros Hlen.
  apply txn_tx; [change (1 <= 1); lia |].
  assert (Hl : log_ok log0 []).
  { split; cbn; try done; try (unfold LOGSIZE, MAXOPBLOCKS; lia); [constructor |]. intros b Hb. by apply not_elem_of_nil in Hb. }
  split; [|exact Hl | | done | done].
  - eapply cst_other; [by apply (quiet_binit img) | exact eq_refl ..].
  - unfold fs_on. cbn [held set_sb set_logst]. rewrite binit_held. apply not_elem_of_empty.
Qed.

Lemma fs0_tx : tx fs0 img0 [] [].
Proof. apply fs_on_tx, img0_len. Qed.

Lemma bitmap0_used b : 0 <= b < 46 -> used img0 sb0 b = true.
Proof.
  intros Hb. assert (H : forallb (fun n => used img0 sb0 (Z.of_nat n)) (seq 0 46) = true) by (vm_compute; reflexivity).
  rewrite forallb_forall in H. specialize (H (Z.to_nat b)). rewrite Z2Nat.id in H by lia. apply H. apply in_seq. lia.
Qed.

Lemma fs0_bitmap x : is_bitmap sb0 x -> x = 45.
Proof.
  intros (b & Hb & ->). destruct (BBLOCK_eq sb0 b Hb ltac:(vm_compute; intuition discriminate)) as [-> _].
  change (sb_size sb0) with 2000 in Hb. change (sb_bmapstart sb0) with 45. rewrite Z.div_small by (unfold BPB, BSIZE; lia). done.
Qed.

Lemma fs0_bm : bm_ok fs0 img0 [].
Proof.
  assert (Hs : sb fs0 = sb0) by reflexivity. assert (Hl : logst fs0 = log0) by reflexivity. split; rewrite ?Hs, ?Hl.
  - cbn. lia.
  - vm_compute. intuition discriminate.
  - intros x ->%fs0_bitmap [H1 H2]. cbn in *. lia.
  - intros b Hb [H1 H2]. cbn in H1, H2. apply bitmap0_used. lia.
  - intros b Hb ->%fs0_bitmap. apply bitmap0_used. lia.
  - apply bitmap0_used. lia.
  - intros b Hb. by apply not_elem_of_nil in Hb.
Qed.

Lemma fs0_room k : (k < 20)%nat -> room fs0 [] [] k.
Proof.
  intros Hk. split; [change (log_size (logst fs0)) with 30; cbn; lia | unfold in_use, HEAD, NBUF, MAXOPBLOCKS; cbn; lia].
Qed.

Lemma fs0_held l : l ∉ held fs0.
Proof. unfold fs0, fs_on. cbn [held set_sb set_logst]. rewrite binit_held. apply not_elem_of_empty. Qed.

Lemma balloc_first_free_witness : exists r s', balloc ROOTDEV fs0 = Ret r s' /\ (r <> 0 \/ forall x, 0 <= x < 2000 -> used img0 sb0 x = true).
Proof.
  destruct (balloc_first_free fs0 img0 [] [] fs0_tx fs0_bm (fs0_room 2 ltac:(lia)) (fs0_held LkPr)) as (r & s' & E & _ & [H|H]).
  - exists r, s'. split; [exact E |]. left. apply H.
  - exists r, s'. split; [exact E |]. right. apply H.
Defined.

Lemma bfree_inverse_witness : bfree ROOTDEV 100 fs0 = Panic "freeing free block" /\ exists s', bfree ROOTDEV 7 fs0 = Ret tt s'.
Proof.
  split.
  - apply (bfree_inverse fs0 img0 [] [] 100 fs0_tx fs0_bm (fs0_room 1 ltac:(lia))); [cbn; lia |]. vm_compute. reflexivity.
  - destruct (bfree_inverse fs0 img0 [] [] 7 fs0_tx fs0_bm (fs0_room 1 ltac:(lia))) as [H _]; [cbn; lia |].
    destruct H as (s' & v' & E & _); [apply bitmap0_used; lia |]. exists s'. exact E.
Defined.
