(* ===== verification/FsInode.v ===== *)
(** * Inodes on disk and in the table: iupdate, ilock, iget *)

From S2P Require Import Prelude State Mem Spinlock Sched Sleeplock Bio BufCache CacheRules Log LogHeader LogSpec LogRecover LogProps Txn Memlayout Kalloc Vm Uart Printf Copy Fs FsBlocks.

(** ** Fields of an encoded inode *)

(** [k] bytes at [off] as an integer, for any field width. *)
Definition getk (k : nat) (off : Z) (data : list Z) : Z := le_dec (slice off (Z.of_nat k) data).
Definition putk (k : nat) (off v : Z) (data : list Z) : list Z := splice off (le_enc k v) data.

Lemma getk_putk_eq k off v data : 0 <= off -> off + Z.of_nat k <= Z.of_nat (length data) ->
  getk k off (putk k off v data) = v mod 256 ^ Z.of_nat k.
Proof.
  intros. unfold getk, putk. rewrite <- (length_le_enc k v) at 1. rewrite slice_splice_eq by (rewrite ?length_le_enc; lia). apply le_dec_enc.
Qed.

Lemma getk_putk_ne k k' off off' v data : 0 <= off -> 0 <= off' -> off' + Z.of_nat k' <= Z.of_nat (length data) ->
  off + Z.of_nat k <= off' \/ off' + Z.of_nat k' <= off -> getk k off (putk k' off' v data) = getk k off data.
Proof. intros. unfold getk, putk. rewrite slice_splice_ne by (rewrite ?length_le_enc; lia). done. Qed.

Lemma length_putk k off v data : 0 <= off -> off + Z.of_nat k <= Z.of_nat (length data) -> length (putk k off v data) = length data.
Proof. intros. apply length_splice; rewrite ?length_le_enc; lia. Qed.

Lemma put_addrs_length addrs : forall off data, 0 <= off -> off + 4 * Z.of_nat (length addrs) <= Z.of_nat (length data) ->
  length (put_addrs off addrs data) = length data.
Proof.
  induction addrs as [|a addrs IH]; intros off data H0 Hl; [done |]. cbn [put_addrs length] in *.
  rewrite IH; rewrite ?length_put32; lia.
Qed.

(** Fields outside the address array are kept. *)
Lemma put_addrs_other k o addrs : forall off data, 0 <= off -> off + 4 * Z.of_nat (length addrs) <= Z.of_nat (length data) -> 0 <= o ->
  o + Z.of_nat k <= off \/ off + 4 * Z.of_nat (length addrs) <= o -> getk k o (put_addrs off addrs data) = getk k o data.
Proof.
  induction addrs as [|a addrs IH]; intros off data H0 Hl Ho Hd; [done |]. cbn [put_addrs length] in *.
  rewrite IH by (rewrite ?length_put32; lia). apply (getk_putk_ne k 4); lia.
Qed.

Lemma get_addrs_ext k : forall off data data', (forall j, 0 <= j < Z.of_nat k -> get32 (off + 4 * j) data = get32 (off + 4 * j) data') ->
  get_addrs k off data = get_addrs k off data'.
Proof.
  induction k as [|k IH]; intros off data data' H; [done |]. cbn. f_equal.
  - specialize (H 0). rewrite Z.mul_0_r, Z.add_0_r in H. apply H. lia.
  - apply IH. intros j Hj. specialize (H (j + 1)). replace (off + 4 * (j + 1)) with (off + 4 + 4 * j) in H by lia. apply H. lia.
Qed.

Lemma get_put_addrs addrs : forall off data, 0 <= off -> off + 4 * Z.of_nat (length addrs) <= Z.of_nat (length data) ->
  Forall (fun a => 0 <= a < 2 ^ 32) addrs -> get_addrs (length addrs) off (put_addrs off addrs data) = addrs.
Proof.
  induction addrs as [|a addrs IH]; intros off data H0 Hl Hr; [done |]. apply Forall_cons in Hr as [Ha Hr].
  cbn [put_addrs get_addrs length] in *. rewrite IH by (rewrite ?length_put32; try lia; done). f_equal.
  change (getk 4 off (put_addrs (off + 4) addrs (put32 off a data)) = a).
  rewrite put_addrs_other by (rewrite ?length_put32; lia). change (get32 off (put32 off a data) = a).
  rewrite get32_put32_eq by lia. apply wrap_small. lia.
Qed.

(** The values an inode's fields can hold. *)
Record dinode_ok (d : dinode) : Prop := mkDinodeOk {
  do_short : forall x, x ∈ [di_type d; di_major d; di_minor d; di_nlink d] -> - 2 ^ 15 <= x < 2 ^ 15;
  do_size : 0 <= di_size d < 2 ^ 32;
  do_addrs : Forall (fun a => 0 <= a < 2 ^ 32) (di_addrs d);
  do_len : length (di_addrs d) = Z.to_nat (NDIRECT + 1)
}.

Lemma i16_wrap x : - 2 ^ 15 <= x < 2 ^ 15 -> i16 (x mod 256 ^ 2) = x.
Proof.
  intros Hx. change (256 ^ 2) with (2 ^ 16). change (x mod 2 ^ 16) with (wrap 16 x).
  transitivity (signed 16 x); [|apply signed_small; lia]. unfold signed. by rewrite wrap_wrap.
Qed.

(** Solve goals about the lengths of updated blocks. *)
Ltac flen :=
  repeat match goal with
    | |- context [length (putk ?k ?o ?v ?l)] => rewrite (length_putk k o v l) by flen
    | |- context [length (put_addrs ?o ?a ?l)] => rewrite (put_addrs_length a o l) by flen
    end; lia.

Section codec.
Context (off : Z) (d : dinode) (data : list Z) (H0 : 0 <= off) (Hl : off + 64 <= Z.of_nat (length data)) (Hd : dinode_ok d).

(** The inode's fields, one after the other. *)
Lemma put_dinode_fields : put_dinode off d data =
  put_addrs (off + 12) (di_addrs d) (putk 4 (off + 8) (di_size d) (putk 2 (off + 6) (di_nlink d)
    (putk 2 (off + 4) (di_minor d) (putk 2 (off + 2) (di_major d) (putk 2 off (di_type d) data))))).
Proof. done. Qed.

Lemma addrs13 : length (di_addrs d) = 13%nat.
Proof. exact (do_len _ Hd). Qed.

Lemma put_dinode_length : length (put_dinode off d data) = length data.
Proof. rewrite put_dinode_fields. pose proof addrs13. flen. Qed.

(** A field of another inode is kept. *)
Lemma getk_put_dinode k o : 0 <= o -> o + Z.of_nat k <= off \/ off + 64 <= o -> getk k o (put_dinode off d data) = getk k o data.
Proof.
  intros Ho Hd'. rewrite put_dinode_fields. pose proof addrs13. rewrite put_addrs_other by flen.
  do 5 (rewrite getk_putk_ne by flen). done.
Qed.

Lemma short_field x : x ∈ [di_type d; di_major d; di_minor d; di_nlink d] -> i16 (x mod 256 ^ Z.of_nat 2) = x.
Proof. intros Hx. apply i16_wrap, (do_short _ Hd), Hx. Qed.

(** An encoded inode reads back. *)
Lemma get_put_dinode : get_dinode off (put_dinode off d data) = d.
Proof.
  pose proof addrs13 as Hn. rewrite put_dinode_fields. unfold get_dinode.
  change (get16 ?o ?l) with (getk 2 o l). change (get32 ?o ?l) with (getk 4 o l).
  rewrite !put_addrs_other by flen. rewrite <- (do_len _ Hd). rewrite get_put_addrs by (flen || apply Hd).
  rewrite (getk_putk_eq 4) by flen. rewrite !(getk_putk_ne 2 4) by flen.
  rewrite (getk_putk_eq 2 (off + 6)) by flen. rewrite !(getk_putk_ne 2 2 _ (off + 6)) by flen.
  rewrite (getk_putk_eq 2 (off + 4)) by flen. rewrite !(getk_putk_ne 2 2 _ (off + 4)) by flen.
  rewrite (getk_putk_eq 2 (off + 2)) by flen. rewrite !(getk_putk_ne 2 2 _ (off + 2)) by flen.
  rewrite (getk_putk_eq 2 off) by flen. rewrite !short_field by set_solver.
  change (256 ^ Z.of_nat 4) with (2 ^ 32). rewrite Z.mod_small by apply Hd. by destruct d.
Qed.
End codec.

(** Another inode of the block reads as before. *)
Lemma get_put_dinode_ne off off' d data : 0 <= off -> off + 64 <= Z.of_nat (length data) -> dinode_ok d -> 0 <= off' ->
  off' + 64 <= off \/ off + 64 <= off' -> get_dinode off' (put_dinode off d data) = get_dinode off' data.
Proof.
  intros H0 Hl Hd H0' Hne. unfold get_dinode. change (get16 ?o ?l) with (getk 2 o l). change (get32 ?o ?l) with (getk 4 o l).
  f_equal; try (rewrite getk_put_dinode by (done || lia); done).
  apply get_addrs_ext. intros j Hj. change (Z.of_nat (Z.to_nat (NDIRECT + 1))) with 13 in Hj.
  change (get32 ?o ?l) with (getk 4 o l). apply getk_put_dinode; (done || lia).
Qed.

(** ** iupdate and ilock *)

(** The part of an in-memory inode that lives on disk. *)
Definition dinode_of (i : inode) : dinode := mkDinode (i_type i) (i_major i) (i_minor i) (i_nlink i) (i_size i) (i_addrs i).

(** Inode number [inum] as the cache shows it. *)
Definition dinode_at (v : Z -> list Z) (sb : superblock) (inum : Z) : dinode := get_dinode (IOFF inum) (v (IBLOCK inum sb)).

Lemma IOFF_range inum : 0 <= IOFF inum /\ IOFF inum + 64 <= BSIZE.
Proof. unfold IOFF. change IPB with 16. change BSIZE with 1024. pose proof (Z.mod_pos_bound inum 16 ltac:(lia)). lia. Qed.

(** Where an inode lives: an ordinary block the code does not hold. *)
Record inode_home (s : kernel) (H : list Z) (i : inode) : Prop := mkInodeHome {
  ih_dev : i_dev i = ROOTDEV;
  ih_block : home_block s (IBLOCK (i_inum i) (sb s));
  ih_free : IBLOCK (i_inum i) (sb s) ∉ H
}.

Lemma iupdate_ok s v bl H ip : let i := itable s !!! ip in
  tx s v bl H -> inode_home s H i -> room s bl H 1 -> dinode_ok (dinode_of i) ->
  exists s', iupdate ip s = Ret tt s' /\ tstep s s' /\
    tx s' (fupd v (IBLOCK (i_inum i) (sb s)) (put_dinode (IOFF (i_inum i)) (dinode_of i) (v (IBLOCK (i_inum i) (sb s)))))
      (log_add (IBLOCK (i_inum i) (sb s)) bl) H.
Proof.
  intros i T [Hdev Hb Hn] R Hd. unfold iupdate, getsb, getinode. erewrite bind_Ret by reflexivity. cbv beta. erewrite bind_Ret by reflexivity. cbv beta.
  fold i. rewrite Hdev. destruct (tx_bread_room s v bl H _ 0 T Hn R) as (b & s1 & E1 & T1 & H1 & _ & F1). erewrite bind_Ret by exact E1. cbv beta.
  assert (S1 : tstep s s1) by (by apply tstep_bufs). unfold getbuf. erewrite bind_Ret by reflexivity. cbv beta.
  erewrite bind_Ret by reflexivity. cbv beta. rewrite (tstep_itable _ _ S1). fold i.
  rewrite (tx_data s1 v bl _ _ b T1 H1). pose proof (IOFF_range (i_inum i)) as [O1 O2]. rewrite (tx_alen _ _ _ _ _ T1), in_prefix_run by exact O2. pose proof (tx_len _ _ _ _ (IBLOCK (i_inum i) (sb s)) T) as Hlen.
  destruct (tx_update s1 v bl H (IBLOCK (i_inum i) (sb s)) b (put_dinode (IOFF (i_inum i)) (dinode_of i) (v (IBLOCK (i_inum i) (sb s)))) T1 H1)
    as (s2 & s3 & s4 & E2 & E3 & E4 & T4 & S4 & _).
  - rewrite (tstep_log_size _ _ S1). pose proof (rm_log _ _ _ _ R). lia.
  - by apply (home_block_tstep s).
  - rewrite put_dinode_length; [done | done | unfold BSIZE in *; lia | done].
  - erewrite bind_Ret by exact E2. erewrite bind_Ret by exact E3. exists s4. split_and!; [exact E4 | by eapply tstep_trans | done].
Qed.

(** Writing one inode changes that inode on disk and no other. *)
Lemma dinode_at_update v sb inum d x : 0 <= inum -> 0 <= x -> dinode_ok d -> (forall b, length (v b) = Z.to_nat BSIZE) ->
  0 <= sb_inodestart sb -> inum / IPB + sb_inodestart sb < 2 ^ 32 -> x / IPB + sb_inodestart sb < 2 ^ 32 ->
  dinode_at (fupd v (IBLOCK inum sb) (put_dinode (IOFF inum) d (v (IBLOCK inum sb)))) sb x = if decide (x = inum) then d else dinode_at v sb x.
Proof.
  intros Hi Hx Hd Hlen Hst Hbi Hbx. pose proof (IOFF_range inum) as [O1 O2]. pose proof (IOFF_range x) as [O3 O4]. specialize (Hlen (IBLOCK inum sb)).
  unfold dinode_at. destruct (decide (x = inum)) as [->|Hne].
  - rewrite fupd_eq. apply get_put_dinode; [done | unfold BSIZE in *; lia | done].
  - unfold fupd. destruct (decide (IBLOCK x sb = IBLOCK inum sb)) as [E|E]; [|done]. rewrite E. apply get_put_dinode_ne; try done; [unfold BSIZE in *; lia |].
    unfold IBLOCK in E. assert (0 <= x / IPB /\ 0 <= inum / IPB) by (change IPB with 16; split; apply Z.div_pos; lia).
    rewrite !wrap_small in E by lia. unfold IOFF. change IPB with 16 in *.
    pose proof (Z.div_mod x 16 ltac:(lia)). pose proof (Z.div_mod inum 16 ltac:(lia)).
    pose proof (Z.mod_pos_bound x 16 ltac:(lia)). pose proof (Z.mod_pos_bound inum 16 ltac:(lia)). lia.
Qed.

(** The inode entry after [ilock] read [d] from disk. *)
Definition filled (pid : Z) (d : dinode) (i : inode) : inode :=
  set_i_valid true (set_i_addrs (di_addrs d) (set_i_size (di_size d) (set_i_nlink (di_nlink d)
    (set_i_minor (di_minor d) (set_i_major (di_major d) (set_i_type (di_type d) (set_i_lock (mkSleeplock true pid) i))))))).

Lemma alter_total_inode f i (l : list inode) : (i < length l)%nat -> alter f i l !!! i = f (l !!! i).
Proof. intros Hi. destruct (lookup_lt_is_Some_2 l i Hi) as [x E]. by rewrite !list_lookup_total_alt, list_lookup_alter_eq, E. Qed.

Lemma ilock_fill s v bl H ip : let i := itable s !!! ip in (ip < length (itable s))%nat ->
  tx s v bl H -> inode_home s H i -> (in_use bl H < HEAD)%nat -> 1 <= i_ref i -> LkInodeSleep ip ∉ held s -> sl_locked (i_lock i) = false ->
  i_valid i = false -> di_type (dinode_at v (sb s) (i_inum i)) <> 0 ->
  exists s', ilock (Some ip) s = Ret tt s' /\ tx s' v bl H /\ held s' = held s /\ sb s' = sb s /\
    itable s' = alter (filled (mypid s) (dinode_at v (sb s) (i_inum i))) ip (itable s) /\
    mypid s' = mypid s /\ forall b, in_log (logst s') b <-> in_log (logst s) b.
Proof.
  intros i Hip T [Hdev Hb Hn] R Href Hlk Hfree Hval Hty. unfold ilock, getinode, getsb. erewrite bind_Ret by reflexivity. cbv beta. fold i.
  destruct (Z.ltb_spec (i_ref i) 1); [lia |]. erewrite bind_Ret by (by apply acquiresleep_free).
  set (s1 := put_sl (SlInode ip) (lock_by (mypid s)) s). erewrite bind_Ret by reflexivity. cbv beta.
  assert (I1 : itable s1 !!! ip = set_i_lock (mkSleeplock true (mypid s)) i) by (unfold s1; cbn; by rewrite alter_total_inode).
  rewrite I1. cbn [i_valid set_i_lock i_dev i_inum]. rewrite Hval. erewrite bind_Ret by reflexivity. cbv beta. change (sb s1) with (sb s). rewrite Hdev.
  assert (T1 : tx s1 v bl H) by (by eapply tx_other; [exact T | ..]).
  destruct (tx_bread s1 v bl H T1 (IBLOCK (i_inum i) (sb s)) Hn) as (b & s2 & E2 & T2 & H2 & _ & F2); [by right |].
  erewrite bind_Ret by exact E2. cbv beta. unfold getbuf. erewrite bind_Ret by reflexivity. cbv beta zeta.
  rewrite (tx_data s2 v bl _ _ b T2 H2), (tx_alen _ _ _ _ _ T2), in_prefix_run by apply IOFF_range. fold (dinode_at v (sb s) (i_inum i)). set (d := dinode_at v (sb s) (i_inum i)) in *.
  unfold upd_inode. erewrite bind_Ret by reflexivity. set (s3 := set_itable _ s2).
  assert (T3 : tx s3 v bl (IBLOCK (i_inum i) (sb s) :: H)) by (by eapply tx_other; [exact T2 | ..]).
  destruct (tx_release s3 v bl H _ b T3) as (s4 & E4 & T4 & S4 & _).
  { by eapply holds_other; [exact H2 | ..]. }
  { change (disk s3) with (disk s2). rewrite F2. exact (tx_clean s1 v bl H _ T1 Hn). }
  erewrite bind_Ret by exact E4. erewrite bind_Ret by reflexivity. destruct (Z.eqb_spec (di_type d) 0); [done |].
  eexists. split; [reflexivity |]. split; [by eapply tx_other; [exact T4 | ..] |]. cbn. rewrite (tstep_held _ _ S4), (tstep_itable _ _ S4), (tstep_sb _ _ S4).
  assert (E : held s3 = held s /\ sb s3 = sb s /\ itable s3 = alter (fun x => set_i_addrs (di_addrs d) (set_i_size (di_size d) (set_i_nlink (di_nlink d)
    (set_i_minor (di_minor d) (set_i_major (di_major d) (set_i_type (di_type d) x)))))) ip (itable s1)).
  { unfold s3. cbn. rewrite F2. done. }
  assert (Es : mypid s3 = mypid s /\ logst s3 = logst s) by (unfold s3; cbn; rewrite F2; done).
  destruct E as (-> & -> & ->). split_and!; try done.
  - unfold s1. cbn. rewrite !alter_compose_list. done.
  - change (mypid s4 = mypid s). rewrite (ts_pid _ _ S4). apply Es.
  - intros x. change (in_log (logst s4) x <-> in_log (logst s) x). rewrite (tstep_in_log _ _ _ S4). by rewrite (proj2 Es).
Qed.

(** C14: an inode survives eviction from the table.  [iupdate] writes the
    in-memory inode to disk inside the transaction, touching no other inode;
    [ilock] of a fresh table entry for the same inode number then reads back
    exactly the type, device numbers, link count, size and block addresses. *)
Theorem iupdate_ilock (s : kernel) (v : Z -> list Z) (bl H : list Z) (ip : nat) (j : inode) (T : tx s v bl H)
    (Hip : (ip < length (itable s))%nat) (Hh : inode_home s H (itable s !!! ip)) (R : room s bl H 2)
    (Hd : dinode_ok (dinode_of (itable s !!! ip))) (Hty : i_type (itable s !!! ip) <> 0)
    (Hnum : 0 <= i_inum (itable s !!! ip)) (Hst : 0 <= sb_inodestart (sb s) /\ i_inum (itable s !!! ip) / IPB + sb_inodestart (sb s) < 2 ^ 32)
    (Hj : i_dev j = ROOTDEV /\ i_inum j = i_inum (itable s !!! ip) /\ i_valid j = false /\ 1 <= i_ref j /\ sl_locked (i_lock j) = false)
    (Hlk : LkInodeSleep ip ∉ held s) :
  exists s1 s2 v', iupdate ip s = Ret tt s1 /\ ilock (Some ip) (set_itable (<[ip := j]> (itable s1)) s1) = Ret tt s2 /\
    dinode_of (itable s2 !!! ip) = dinode_of (itable s !!! ip) /\ i_valid (itable s2 !!! ip) = true /\
    tx s2 v' (log_add (IBLOCK (i_inum (itable s !!! ip)) (sb s)) bl) H /\
    (forall x, 0 <= x -> x / IPB + sb_inodestart (sb s) < 2 ^ 32 -> x <> i_inum (itable s !!! ip) -> dinode_at v' (sb s) x = dinode_at v (sb s) x) /\
    (forall b, b <> IBLOCK (i_inum (itable s !!! ip)) (sb s) -> v' b = v b).
Proof.
  destruct Hj as (J1 & J2 & J3 & J4 & J5). set (i := itable s !!! ip) in *.
  assert (Hlen : forall b, length (v b) = Z.to_nat BSIZE) by (intros b; by eapply tx_len).
  destruct (iupdate_ok s v bl H ip T Hh) as (s1 & E1 & S1 & T1).
  { destruct R as [R1 R2]. split; lia. }
  { exact Hd. }
  fold i in T1. set (v' := fupd v _ _) in T1. set (bl' := log_add _ bl) in T1.
  set (s1' := set_itable (<[ip := j]> (itable s1)) s1).
  assert (Hip1 : (ip < length (itable s1))%nat) by (by rewrite (tstep_itable _ _ S1)).
  assert (Hip2 : (ip < length (itable s1'))%nat) by (change (ip < length (<[ip := j]> (itable s1)))%nat; by rewrite length_insert).
  assert (Ij : itable s1' !!! ip = j) by (unfold s1'; cbn; by apply list_lookup_total_insert_eq).
  assert (Esb : sb s1' = sb s) by (unfold s1'; cbn; by apply tstep_sb).
  assert (T1' : tx s1' v' bl' H) by (by eapply tx_other; [exact T1 | ..]).
  assert (Hat : dinode_at v' (sb s) (i_inum i) = dinode_of i).
  { unfold v'. rewrite dinode_at_update by (done || lia). by rewrite decide_True. }
  destruct (ilock_fill s1' v' bl' H ip) as (s2 & E2 & T2 & _ & _ & I2 & _); rewrite ?Ij, ?Esb, ?J2, ?Hat; try done.
  - destruct Hh as [_ Hb Hn]. split; rewrite ?Esb, ?J2; try done. exact (home_block_tstep s s1 _ S1 Hb).
  - pose proof (in_use_log_add (IBLOCK (i_inum i) (sb s)) bl H (tx_nodup _ _ _ _ T)). destruct R as [_ R2]. unfold bl'. lia.
  - unfold s1'. cbn. by rewrite (tstep_held _ _ S1).
  - rewrite Ij, Esb, J2, Hat in I2. exists s1, s2, v'. split_and!; try done.
    + rewrite I2, alter_total_inode by done. rewrite Ij. done.
    + rewrite I2, alter_total_inode by done. done.
    + intros x Hx Hxb Hne. unfold v'. rewrite dinode_at_update by (done || lia). by rewrite decide_False.
    + intros b Hb. by apply fupd_ne.
Qed.

(** ** The inode table *)

(** At most one entry in use for an inode. *)
Record table_ok (t : list inode) : Prop := mkTableOk {
  tb_ref : forall j, (j < length t)%nat -> 0 <= i_ref (t !!! j);
  tb_uniq : forall j k, (j < length t)%nat -> (k < length t)%nat -> 0 < i_ref (t !!! j) -> 0 < i_ref (t !!! k) ->
    i_dev (t !!! j) = i_dev (t !!! k) -> i_inum (t !!! j) = i_inum (t !!! k) -> j = k
}.

Definition is_entry (dev inum : Z) (x : inode) : bool := (0 <? i_ref x) && (i_dev x =? dev) && (i_inum x =? inum).

Lemma iget_scan_spec dev inum : forall (l : list inode) (i : nat) (e : option nat),
  match iget_scan l i e dev inum with
  | (Some k, _) => (i <= k < i + length l)%nat /\ is_entry dev inum (l !!! (k - i)%nat) = true
  | (None, e') => (forall j, (j < length l)%nat -> is_entry dev inum (l !!! j) = false) /\
      match e' with
      | Some k => e = Some k \/ (e = None /\ (i <= k < i + length l)%nat /\ i_ref (l !!! (k - i)%nat) = 0)
      | None => e = None /\ forall j, (j < length l)%nat -> i_ref (l !!! j) <> 0
      end
  end.
Proof.
  induction l as [|x l IH]; intros i e; cbn [iget_scan].
  { split; [cbn; lia |]. destruct e; [by left | split; [done | cbn; lia]]. }
  change ((0 <? i_ref x) && (i_dev x =? dev) && (i_inum x =? inum)) with (is_entry dev inum x).
  destruct (is_entry dev inum x) eqn:Ex; [split; [cbn; lia | by rewrite Nat.sub_diag] |].
  set (e1 := match e with None => if i_ref x =? 0 then Some i else None | e => e end). specialize (IH (S i) e1).
  destruct (iget_scan l (S i) e1 dev inum) as [[k|] e'].
  - destruct IH as [H1 H2]. split; [cbn; lia |]. replace (k - i)%nat with (S (k - S i)) by lia. done.
  - destruct IH as [H1 H2]. split.
    { intros [|j] Hj; [done | apply H1; cbn in Hj; lia]. }
    destruct e' as [k|].
    + destruct H2 as [H2|(H2 & H3 & H4)].
      * unfold e1 in H2. destruct e; [by left |]. right. destruct (Z.eqb_spec (i_ref x) 0); [|done]. injection H2 as <-.
        split; [done |]. split; [cbn; lia |]. by rewrite Nat.sub_diag.
      * unfold e1 in H2. destruct e; [done |]. right. split; [done |]. split; [cbn; lia |]. replace (k - i)%nat with (S (k - S i)) by lia. done.
    + destruct H2 as [H2 H3]. unfold e1 in H2. destruct e; [done |]. split; [done |].
      destruct (Z.eqb_spec (i_ref x) 0); [done |]. intros [|j] Hj; [done | apply H3; cbn in Hj; lia].
Qed.

Lemma alter_ne_inode f i k (l : list inode) : i <> k -> alter f i l !!! k = l !!! k.
Proof. intros Hne. by rewrite !list_lookup_total_alt, list_lookup_alter_ne. Qed.

(** Changing one entry, to one no other entry in use is for. *)
Lemma table_ok_alter f ip (t : list inode) : (forall j, (j < length t)%nat -> 0 <= i_ref (t !!! j)) ->
  (forall j k, (j < length t)%nat -> (k < length t)%nat -> 0 < i_ref (t !!! j) -> 0 < i_ref (t !!! k) ->
    i_dev (t !!! j) = i_dev (t !!! k) -> i_inum (t !!! j) = i_inum (t !!! k) -> j = k) ->
  (ip < length t)%nat -> 0 <= i_ref (f (t !!! ip)) ->
  (forall k, (k < length t)%nat -> k <> ip -> 0 < i_ref (t !!! k) -> i_dev (f (t !!! ip)) = i_dev (t !!! k) ->
    i_inum (f (t !!! ip)) = i_inum (t !!! k) -> False) -> table_ok (alter f ip t).
Proof.
  intros Hpos Huniq Hip Hr Hnew. split; rewrite length_alter.
  - intros j Hj. destruct (decide (ip = j)) as [<-|Hne]; [by rewrite alter_total_inode | rewrite alter_ne_inode by done; auto].
  - intros j k Hj Hk. destruct (decide (ip = j)) as [<-|Hne], (decide (ip = k)) as [<-|Hne']; rewrite ?alter_total_inode by done;
      rewrite ?alter_ne_inode by done; try done.
    + intros _ Hk' Hd Hi. exfalso. by eapply (Hnew k).
    + intros Hj' _ Hd Hi. exfalso. by eapply (Hnew j).
    + by apply Huniq.
Qed.

Definition fresh_entry (dev inum : Z) (x : inode) : inode := set_i_valid false (set_i_ref 1 (set_i_inum inum (set_i_dev dev x))).

(** [iget] keeps one table entry per inode.  An inode in use is found and
    its reference count raised; otherwise a free entry becomes its entry, not
    yet valid, with one reference; it panics only if every entry is in use for
    another inode. *)
Lemma iget_ok (s : kernel) (dev inum : Z) : LkItable ∉ held s -> table_ok (itable s) ->
  let t := itable s in
  (exists ip f, iget dev inum s = Ret ip (set_itable (alter f ip t) s) /\ (ip < length t)%nat /\ table_ok (alter f ip t) /\
     is_entry dev inum (f (t !!! ip)) = true /\
     (is_entry dev inum (t !!! ip) = true /\ f = (fun i => set_i_ref (i_ref i + 1) i) \/
      (forall j, (j < length t)%nat -> is_entry dev inum (t !!! j) = false) /\ i_ref (t !!! ip) = 0 /\ f = fresh_entry dev inum)) \/
  (iget dev inum s = Panic "iget: no inodes" /\ forall j, (j < length t)%nat -> i_ref (t !!! j) <> 0 /\ is_entry dev inum (t !!! j) = false).
Proof.
  intros Hlk Ht t. destruct Ht as [Hpos Huniq]. fold t in Hpos, Huniq. unfold iget. erewrite bind_Ret by (by apply acquire_Ret).
  erewrite bind_Ret by reflexivity. cbv beta. change (itable (set_held _ s)) with t.
  pose proof (iget_scan_spec dev inum t 0 None) as Hs. destruct (iget_scan t 0 None dev inum) as [[ip|] e].
  - left. destruct Hs as [Hip He]. rewrite Nat.sub_0_r in He. exists ip, (fun i => set_i_ref (i_ref i + 1) i).
    unfold upd_inode. erewrite bind_Ret by reflexivity. erewrite bind_Ret by (apply release_Ret; cbn; set_solver).
    assert (He' := He). unfold is_entry in He'. rewrite !andb_true_iff, Z.ltb_lt, !Z.eqb_eq in He'. destruct He' as [[He1 He2] He3].
    split_and!; [cbn; by rewrite held_restore | cbn in *; lia | | | by left].
    + apply table_ok_alter; [done | done | lia | cbn; specialize (Hpos ip ltac:(lia)); lia |]. cbn. intros k Hk Hne Hr Hd Hi.
      apply Hne. symmetry. apply Huniq; try done; lia.
    + unfold is_entry. cbn. rewrite He2, He3, !Z.eqb_refl. specialize (Hpos ip ltac:(lia)). destruct (Z.ltb_spec 0 (i_ref (t !!! ip) + 1)); [done | lia].
  - destruct Hs as [Hno Hs]. destruct e as [ip|].
    + left. destruct Hs as [?|(_ & Hip & Hz)]; [done |]. rewrite Nat.sub_0_r in Hz. exists ip, (fresh_entry dev inum).
      unfold upd_inode. do 4 (erewrite bind_Ret by reflexivity). erewrite bind_Ret by (apply release_Ret; cbn; set_solver).
      split_and!; [| cbn in *; lia | | | right; by split_and!].
      * cbn. rewrite held_restore by done. rewrite !alter_compose_list. done.
      * apply table_ok_alter; [done | done | lia | cbn; lia |]. cbn. intros k Hk Hne Hr Hd Hi. specialize (Hno k Hk). unfold is_entry in Hno.
        apply Z.ltb_lt in Hr. rewrite Hr, <- Hd, <- Hi, !Z.eqb_refl in Hno. done.
      * unfold is_entry, fresh_entry. cbn. by rewrite !Z.eqb_refl.
    + right. destruct Hs as [_ Hs]. split; [done |]. intros j Hj. auto.
Qed.

(** ** Witnesses *)

(** Inode 5 as a file of 1500 bytes in blocks 50 and 51, in entry 3. *)
Definition inode5 : inode := mkInode ROOTDEV 5 1 zero_sleeplock true T_FILE 0 0 1 1500 ([50; 51] ++ replicate 11 0).
Definition fs1 : kernel := set_itable (<[3%nat := inode5]> (itable fs0)) fs0.

Lemma fs0_itable : itable fs0 = replicate (Z.to_nat NINODE) zero_inode.
Proof. unfold fs0, fs_on. cbn [itable set_sb set_logst]. vm_compute. reflexivity. Qed.

Lemma fs1_inode : itable fs1 !!! 3%nat = inode5.
Proof. unfold fs1. cbn [itable set_itable]. rewrite fs0_itable. reflexivity. Qed.

Lemma fs1_tx : tx fs1 img0 [] [].
Proof. eapply tx_other; [exact fs0_tx | exact eq_refl ..]. Qed.

Lemma fs1_home : inode_home fs1 [] inode5.
Proof.
  split; [reflexivity | | apply not_elem_of_nil]. unfold home_block, in_log. change (sb fs1) with sb0. change (logst fs1) with log0.
  change (IBLOCK (i_inum inode5) sb0) with 32. change (log_start log0) with 2. change (log_size log0) with 30. lia.
Qed.

Lemma inode5_ok : dinode_ok (dinode_of inode5).
Proof.
  split; [|cbn; lia | | reflexivity].
  - intros x Hx. cbn in Hx. unfold T_FILE in Hx. rewrite !elem_of_cons, elem_of_nil in Hx. lia.
  - cbn. repeat constructor; lia.
Qed.

Lemma iupdate_ilock_witness : exists s1 s2, iupdate 3 fs1 = Ret tt s1 /\
  ilock (Some 3%nat) (set_itable (<[3%nat := set_i_inum 5 (set_i_dev 1 (set_i_ref 1 zero_inode))]> (itable s1)) s1) = Ret tt s2 /\
  dinode_of (itable s2 !!! 3%nat) = dinode_of inode5.
Proof.
  destruct (iupdate_ilock fs1 img0 [] [] 3 (set_i_inum 5 (set_i_dev 1 (set_i_ref 1 zero_inode))) fs1_tx) as (s1 & s2 & v' & E1 & E2 & Hd & _);
    rewrite ?fs1_inode.
  - unfold fs1. cbn [itable set_itable]. rewrite length_insert, fs0_itable, length_replicate. unfold NINODE. lia.
  - exact fs1_home.
  - destruct (fs0_room 2 ltac:(lia)) as [R1 R2]. split; [exact R1 | exact R2].
  - exact inode5_ok.
  - discriminate.
  - cbn. lia.
  - change (sb fs1) with sb0. change (sb_inodestart sb0) with 32. change (i_inum inode5 / IPB) with 0. lia.
  - cbn. unfold ROOTDEV. lia.
  - apply fs0_held.
  - exists s1, s2. split; [exact E1 |]. split; [exact E2 |]. rewrite fs1_inode in Hd. exact Hd.
Defined.

