(* ===== verification/FsData.v ===== *)
(** * File contents: bmap, readi, writei

    A file is a map from block index to disk block: [NDIRECT] addresses in the
    inode, the rest in the indirect block.  [fbyte] is the byte at an offset of
    the file, as the cache shows it. *)

From S2P Require Import Prelude State Mem Spinlock Sched Sleeplock Bio BufCache CacheRules Log LogHeader LogSpec LogRecover LogProps Txn Memlayout Kalloc Vm Uart Printf Copy Fs FsBlocks FsInode.

(** The indirect block, and the disk block of block index [k]. *)
Definition indirect (i : inode) : Z := i_addrs i !!! Z.to_nat NDIRECT.
Definition baddr (v : Z -> list Z) (i : inode) (k : Z) : Z :=
  if k <? NDIRECT then i_addrs i !!! Z.to_nat k else get32 (4 * (k - NDIRECT)) (v (indirect i)).

Definition fbyte (v : Z -> list Z) (i : inode) (o : Z) : Z := v (baddr v i (o / BSIZE)) !!! Z.to_nat (o mod BSIZE).

Fixpoint fbytes (v : Z -> list Z) (i : inode) (off : Z) (n : nat) : list Z :=
  match n with
  | O => []
  | S n => fbyte v i off :: fbytes v i (off + 1) n
  end.

(** Block index [k] is part of the file. *)
Definition in_file (i : inode) (k : Z) : Prop := 0 <= k /\ k * BSIZE < i_size i.

(** Every block of the file is allocated, to a block of its own. *)
Record file_ok (s : kernel) (v : Z -> list Z) (H : list Z) (i : inode) : Prop := mkFileOk {
  fo_dev : i_dev i = ROOTDEV;
  fo_size : 0 <= i_size i <= MAXFILE * BSIZE;
  fo_map : forall k, in_file i k -> baddr v i k <> 0 /\ home_block s (baddr v i k) /\ baddr v i k ∉ H;
  fo_ind : NDIRECT * BSIZE < i_size i -> indirect i <> 0 /\ home_block s (indirect i) /\ indirect i ∉ H;
  fo_sep : forall k, in_file i k -> baddr v i k <> indirect i;
  fo_inj : forall k k', in_file i k -> in_file i k' -> baddr v i k = baddr v i k' -> k = k';
  fo_len : length (i_addrs i) = 13%nat
}.

Lemma file_ok_tstep s s' v H i : file_ok s v H i -> tstep s s' -> file_ok s' v H i.
Proof.
  intros [F1 F2 F3 F4 F5 F6] S. split; try done.
  - intros k Hk. destruct (F3 k Hk) as (A & B & D). split_and!; try done. by apply (home_block_tstep s).
  - intros Hs. destruct (F4 Hs) as (A & B & D). split_and!; try done. by apply (home_block_tstep s).
Qed.

(** ** bmap of an allocated block *)

Lemma bmap_hit s v bl H ip k : let i := itable s !!! ip in
  tx s v bl H -> (in_use bl H < HEAD)%nat -> i_dev i = ROOTDEV -> length (i_addrs i) = 13%nat -> 0 <= k < MAXFILE -> baddr v i k <> 0 -> (NDIRECT <= k -> indirect i <> 0 /\ indirect i ∉ H) ->
  exists s', bmap ip k s = Ret (baddr v i k) s' /\ tx s' v bl H /\ tstep s s'.
Proof.
  intros i T R Hdev Hla Hk Hnz Hind. unfold bmap, getinode. erewrite bind_Ret by reflexivity. cbv beta. fold i. unfold baddr in *.
  destruct (Z.ltb_spec k NDIRECT) as [Hd|Hd]; cbv zeta.
  - rewrite in_bounds_run by (unfold alen; rewrite Hla; unfold NDIRECT in *; lia). apply Z.eqb_neq in Hnz. rewrite Hnz. exists s. split_and!; auto with tstep.
  - assert (Hn : k - NDIRECT <? NINDIRECT = true) by (apply Z.ltb_lt; unfold MAXFILE in *; lia). rewrite Hn, in_bounds_run by (unfold alen; rewrite Hla; unfold NDIRECT; lia). fold (indirect i).
    destruct (Hind Hd) as (Inz & In). apply Z.eqb_neq in Inz. rewrite Inz.
    erewrite bind_Ret by reflexivity. cbv beta. rewrite Inz, Hdev.
    destruct (tx_bread s v bl H T (indirect i) In ltac:(by right)) as (b & s1 & E1 & T1 & H1 & _ & F1). erewrite bind_Ret by exact E1. cbv beta.
    unfold getbuf. erewrite bind_Ret by reflexivity. cbv beta zeta. rewrite (tx_data s1 v bl _ _ b T1 H1), (tx_alen _ _ _ _ _ T1).
    rewrite in_bounds_run by (change (BSIZE / 4) with 256; change MAXFILE with 268 in Hk; change NDIRECT with 12 in *; lia). apply Z.eqb_neq in Hnz. rewrite Hnz. erewrite bind_Ret by reflexivity. cbv beta.
    destruct (tx_release s1 v bl H _ b T1 H1) as (s2 & E2 & T2 & S2 & _).
    { rewrite F1. exact (tx_clean s v bl H _ T In). }
    erewrite bind_Ret by exact E2. exists s2. split_and!; try done. eapply tstep_trans; [by apply tstep_bufs | done].
Qed.

Lemma bmap_mapped s v bl H ip k : let i := itable s !!! ip in
  tx s v bl H -> file_ok s v H i -> in_file i k -> (in_use bl H < HEAD)%nat ->
  exists s', bmap ip k s = Ret (baddr v i k) s' /\ tx s' v bl H /\ tstep s s'.
Proof.
  intros i T F Hk R. destruct (fo_map _ _ _ _ F k Hk) as (Hnz & _ & _). pose proof (fo_size _ _ _ _ F) as Hsz. destruct Hk as [Hk0 Hks].
  apply bmap_hit; [done | done | apply F | apply F | unfold BSIZE in *; lia | done |]. intros Hd. destruct (fo_ind _ _ _ _ F ltac:(unfold BSIZE in *; lia)) as (Inz & _ & In). done.
Qed.

(** ** Bytes of a file *)

Lemma fbytes_app v i : forall a off b, fbytes v i off (a + b) = fbytes v i off a ++ fbytes v i (off + Z.of_nat a) b.
Proof.
  induction a as [|a IH]; intros off b; cbn [fbytes app Nat.add]; [by rewrite Z.add_0_r |]. rewrite IH. do 3 f_equal. lia.
Qed.

Lemma length_fbytes v i : forall n off, length (fbytes v i off n) = n.
Proof. induction n; intros; cbn; auto. Qed.

Lemma fbytes_lookup v i : forall n off (j : nat), (j < n)%nat -> fbytes v i off n !! j = Some (fbyte v i (off + Z.of_nat j)).
Proof.
  induction n as [|n IH]; intros off j Hj; [lia |]. destruct j as [|j]; cbn [fbytes]; [cbn; by rewrite Z.add_0_r |].
  cbn [lookup list_lookup]. change (fbytes v i (off + 1) n !! j = Some (fbyte v i (off + Z.of_nat (S j)))). rewrite IH by lia. do 2 f_equal. lia.
Qed.

Lemma fbytes_ext v i v' i' : forall n off, (forall o, off <= o < off + Z.of_nat n -> fbyte v i o = fbyte v' i' o) -> fbytes v i off n = fbytes v' i' off n.
Proof.
  induction n as [|n IH]; intros off H; cbn [fbytes]; [done |]. f_equal; [apply H; lia | apply IH; intros o Ho; apply H; lia].
Qed.

(** The part of one block is a piece of the file. *)
Lemma block_div off j : 0 <= off -> 0 <= j -> off mod BSIZE + j < BSIZE -> (off + j) / BSIZE = off / BSIZE /\ (off + j) mod BSIZE = off mod BSIZE + j.
Proof.
  intros Ho Hj Hlt. assert (HB : BSIZE > 0) by (unfold BSIZE; lia). pose proof (Z.div_mod off BSIZE ltac:(lia)) as E.
  pose proof (Z.mod_pos_bound off BSIZE ltac:(lia)) as Hm.
  assert (Ex : off + j = (off mod BSIZE + j) + off / BSIZE * BSIZE) by lia.
  rewrite Ex. rewrite Z.div_add, Z.mod_add by lia. rewrite (Z.div_small (off mod BSIZE + j)), (Z.mod_small (off mod BSIZE + j)) by lia. lia.
Qed.

Lemma slice_fbytes v i off m : 0 <= off -> 0 <= m -> off mod BSIZE + m <= BSIZE -> (forall b, length (v b) = Z.to_nat BSIZE) ->
  slice (off mod BSIZE) m (v (baddr v i (off / BSIZE))) = fbytes v i off (Z.to_nat m).
Proof.
  intros Ho Hm Hle Hlen. pose proof (Z.mod_pos_bound off BSIZE ltac:(unfold BSIZE; lia)) as Hb. apply list_eq. intros j.
  destruct (decide (j < Z.to_nat m)%nat) as [Hj|Hj].
  - rewrite lookup_slice, fbytes_lookup by lia. destruct (block_div off (Z.of_nat j) Ho ltac:(lia) ltac:(lia)) as [E1 E2].
    unfold fbyte. rewrite E1, E2. replace (Z.to_nat (off mod BSIZE) + j)%nat with (Z.to_nat (off mod BSIZE + Z.of_nat j)) by lia.
    apply list_lookup_lookup_total_lt. rewrite Hlen. lia.
  - unfold slice. rewrite lookup_take_ge by lia.
    rewrite lookup_ge_None_2 by (rewrite length_fbytes; lia). done.
Qed.

(** Blocks that [r] bytes from [off] touch. *)
Definition touched (off r : Z) : Z := if r =? 0 then 0 else (off + r - 1) / BSIZE - off / BSIZE + 1.

Lemma touched_bound off r : 0 <= off -> 0 <= r -> 0 <= touched off r <= r / BSIZE + 2.
Proof.
  intros Ho Hr. unfold touched. destruct (Z.eqb_spec r 0) as [->|Hne]; [change (0 / BSIZE) with 0; lia |].
  change BSIZE with 1024. assert (off / 1024 <= (off + r - 1) / 1024) by (apply Z.div_le_mono; lia).
  pose proof (Z.div_mod (off + r - 1) 1024 ltac:(lia)). pose proof (Z.div_mod off 1024 ltac:(lia)). pose proof (Z.div_mod r 1024 ltac:(lia)).
  pose proof (Z.mod_pos_bound (off + r - 1) 1024 ltac:(lia)). pose proof (Z.mod_pos_bound off 1024 ltac:(lia)). pose proof (Z.mod_pos_bound r 1024 ltac:(lia)).
  lia.
Qed.

(** One round takes care of one block. *)
Lemma touched_step off r : 0 <= off -> 0 < r -> let m := Z.min r (BSIZE - off mod BSIZE) in
  0 < m <= r /\ off mod BSIZE + m <= BSIZE /\ touched (off + m) (r - m) = touched off r - 1.
Proof.
  intros Ho Hr m. unfold touched. change BSIZE with 1024 in *. pose proof (Z.mod_pos_bound off 1024 ltac:(lia)).
  split; [lia |]. split; [lia |]. destruct (Z.eqb_spec r 0); [lia |]. pose proof (Z.div_mod off 1024 ltac:(lia)).
  destruct (Z.eqb_spec (r - m) 0).
  - replace (off + r - 1) with ((off mod 1024 + r - 1) + off / 1024 * 1024) by lia. rewrite Z.div_add by lia.
    rewrite (Z.div_small (off mod 1024 + r - 1)) by lia. lia.
  - assert (Em : m = 1024 - off mod 1024) by lia. replace (off + m) with (0 + (off / 1024 + 1) * 1024) by lia. rewrite Z.div_add by lia.
    change (0 / 1024) with 0. replace (0 + (off / 1024 + 1) * 1024 + (r - m) - 1) with (off + r - 1) by lia. lia.
Qed.

(** ** readi *)

Lemma readi_loop_ok v bl H ip i : forall fuel s off r n acc, itable s !!! ip = i -> tx s v bl H -> file_ok s v H i -> (in_use bl H < HEAD)%nat ->
  0 <= off -> 0 <= r -> off + r <= i_size i -> touched off r < Z.of_nat fuel ->
  exists s', readi_loop fuel ip DVar off n (n - r) acc s = Ret (n, acc ++ fbytes v i off (Z.to_nat r)) s' /\ tx s' v bl H /\ tstep s s'.
Proof.
  induction fuel as [|fuel IH]; intros s off r n acc Hi T F R Ho Hr Hle Hf; [pose proof (touched_bound off r Ho Hr); lia |]. cbn [readi_loop].
  destruct (Z.ltb_spec (n - r) n) as [Hlt|Hge].
  2: { assert (r = 0) as -> by lia. exists s. rewrite Z.sub_0_r. cbn. rewrite app_nil_r. auto with tstep. }
  destruct (touched_step off r Ho ltac:(lia)) as (Hm & Hmb & Ht). replace (n - (n - r)) with r by lia. set (m := Z.min r (BSIZE - off mod BSIZE)) in *.
  assert (Hk : in_file i (off / BSIZE)).
  { split; [apply Z.div_pos; unfold BSIZE; lia |]. pose proof (Z.mul_div_le off BSIZE ltac:(unfold BSIZE; lia)). lia. }
  destruct (bmap_mapped s v bl H ip (off / BSIZE) T) as (s1 & E1 & T1 & S1); [by rewrite Hi | by rewrite Hi | done |].
  rewrite Hi in E1. erewrite bind_Ret by exact E1. cbv beta. destruct (fo_map _ _ _ _ F _ Hk) as (Hnz & Hh & Hn).
  apply Z.eqb_neq in Hnz. rewrite Hnz. unfold getinode. erewrite bind_Ret by reflexivity. cbv beta.
  rewrite (tstep_itable _ _ S1), Hi, (fo_dev _ _ _ _ F).
  destruct (tx_bread s1 v bl H T1 _ Hn ltac:(by right)) as (b & s2 & E2 & T2 & H2 & _ & F2). erewrite bind_Ret by exact E2. cbv beta zeta.
  unfold getbuf. erewrite bind_Ret by reflexivity. cbv beta. rewrite (tx_data s2 v bl _ _ b T2 H2), (tx_alen _ _ _ _ _ T2), in_prefix_run by lia.
  rewrite slice_fbytes by (try done; try lia; intros x; by eapply tx_len). unfold either_copyout. erewrite bind_Ret by reflexivity. cbv beta.
  destruct (tx_release s2 v bl H _ b T2 H2) as (s3 & E3 & T3 & S3 & _).
  { rewrite F2. exact (tx_clean s1 v bl H _ T1 Hn). }
  erewrite bind_Ret by exact E3. cbn [fst snd]. change (0 =? -1) with false. cbv iota. cbn [kdst_add].
  assert (S3' : tstep s s3) by (eapply tstep_trans; [exact S1 |]; eapply tstep_trans; [by apply tstep_bufs | done]).
  replace (n - r + m) with (n - (r - m)) by lia. rewrite take_ge by (rewrite length_fbytes; lia).
  destruct (IH s3 (off + m) (r - m) n (acc ++ fbytes v i off (Z.to_nat m))) as (s4 & E4 & T4 & S4); try done; try lia.
  - by rewrite (tstep_itable _ _ S3').
  - by eapply file_ok_tstep.
  - exists s4. split_and!; [|done | by eapply tstep_trans]. rewrite E4. do 2 f_equal. rewrite <- app_assoc. f_equal.
    replace (Z.to_nat r) with (Z.to_nat m + Z.to_nat (r - m))%nat by lia. rewrite fbytes_app. do 2 f_equal. lia.
Qed.

(** ** writei over allocated blocks *)

(** [v'] is [v] with the bytes [l] of the file at [off]. *)
Record written (v v' : Z -> list Z) (i : inode) (off : Z) (l : list Z) : Prop := mkWritten {
  wr_addr : forall k, baddr v' i k = baddr v i k;
  wr_byte : forall o, 0 <= o < i_size i ->
    fbyte v' i o = if decide (off <= o < off + Z.of_nat (length l)) then l !!! Z.to_nat (o - off) else fbyte v i o;
  wr_frame : forall b, (forall k, in_file i k -> baddr v i k <> b) -> v' b = v b
}.

Lemma written_nil v i off : written v v i off [].
Proof. split; try done. intros o Ho. rewrite decide_False by (cbn; lia). done. Qed.

Lemma written_trans v1 v2 v3 i off l1 l2 : written v1 v2 i off l1 -> written v2 v3 i (off + Z.of_nat (length l1)) l2 -> written v1 v3 i off (l1 ++ l2).
Proof.
  intros [A1 B1 C1] [A2 B2 C2]. split.
  - intros k. by rewrite A2.
  - intros o Ho. rewrite B2, B1 by done. rewrite length_app.
    destruct (decide (off + Z.of_nat (length l1) <= o < off + Z.of_nat (length l1) + Z.of_nat (length l2))) as [H2|H2].
    + rewrite decide_True by lia. rewrite lookup_total_app_r by lia. f_equal. lia.
    + destruct (decide (off <= o < off + Z.of_nat (length l1))) as [H1|H1].
      * rewrite decide_True by lia. rewrite lookup_total_app_l by lia. done.
      * rewrite decide_False by lia. done.
  - intros b Hb. rewrite C2, C1; [done | done |]. intros k Hk. rewrite A1. by apply Hb.
Qed.

Lemma written_file_ok s v v' H i off l : written v v' i off l -> file_ok s v H i -> file_ok s v' H i.
Proof.
  intros [A _ _] [F1 F2 F3 F4 F5 F6]. split; try done.
  - intros k Hk. rewrite A. by apply F3.
  - intros k Hk. rewrite A. by apply F5.
  - intros k k' Hk Hk'. rewrite !A. by apply F6.
Qed.

Lemma in_file_of i o : 0 <= o < i_size i -> in_file i (o / BSIZE).
Proof.
  intros Ho. split; [apply Z.div_pos; unfold BSIZE; lia |]. pose proof (Z.mul_div_le o BSIZE ltac:(unfold BSIZE; lia)). lia.
Qed.

(** Storing into one block of the file. *)
Lemma written_block s v H i off l : file_ok s v H i -> (forall b, length (v b) = Z.to_nat BSIZE) -> 0 <= off < i_size i ->
  off mod BSIZE + Z.of_nat (length l) <= BSIZE -> off + Z.of_nat (length l) <= i_size i ->
  let a := baddr v i (off / BSIZE) in
  written v (fupd v a (splice (off mod BSIZE) l (v a))) i off l.
Proof.
  intros F Hlen Ho Hm Hle a. pose proof (in_file_of i off Ho) as Hk. pose proof (fo_sep _ _ _ _ F _ Hk) as Hsep. fold a in Hsep.
  pose proof (Z.mod_pos_bound off BSIZE ltac:(unfold BSIZE; lia)) as Hb.
  assert (A : forall k, baddr (fupd v a (splice (off mod BSIZE) l (v a))) i k = baddr v i k).
  { intros k. unfold baddr. destruct (k <? NDIRECT); [done |]. unfold fupd. by rewrite decide_False. }
  split; [exact A | |].
  - intros o Hor. unfold fbyte. rewrite A. pose proof (in_file_of i o Hor) as Hko. unfold fupd.
    pose proof (Z.div_mod o BSIZE ltac:(unfold BSIZE; lia)) as Do. pose proof (Z.div_mod off BSIZE ltac:(unfold BSIZE; lia)) as Df.
    pose proof (Z.mod_pos_bound o BSIZE ltac:(unfold BSIZE; lia)) as Hbo.
    destruct (decide (baddr v i (o / BSIZE) = a)) as [Ea|Ea].
    + pose proof (fo_inj _ _ _ _ F _ _ Hko Hk Ea) as Ek. rewrite Ek in Do |- *.
      rewrite list_lookup_total_alt, lookup_splice by (rewrite ?Hlen; lia).
      destruct (decide (off <= o < off + Z.of_nat (length l))) as [Hin|Hin].
      * rewrite decide_True by lia. rewrite list_lookup_total_alt. do 2 f_equal. lia.
      * rewrite decide_False by lia. rewrite list_lookup_total_alt. done.
    + destruct (decide (off <= o < off + Z.of_nat (length l))) as [Hin|Hin]; [|done]. exfalso. apply Ea. unfold a. f_equal.
      assert (off / BSIZE <= o / BSIZE) by (apply Z.div_le_mono; unfold BSIZE; lia).
      assert (o / BSIZE < off / BSIZE + 1); [|lia]. apply Z.div_lt_upper_bound; unfold BSIZE in *; lia.
  - intros b Hnb. unfold fupd. rewrite decide_False; [done |]. intros ->. by eapply (Hnb (off / BSIZE)).
Qed.

Lemma upd_buf_data b (f : list Z -> list Z) s :
  upd_buf b (fun d => set_b_data (f (b_data d)) d) s = upd_buf b (set_b_data (f (b_data (bufs s !!! b)))) s.
Proof.
  unfold upd_buf, modify. do 2 f_equal. apply list_alter_ext; [|done]. intros x Hx. by rewrite (list_lookup_total_correct _ _ _ Hx).
Qed.

(** One round of the loop: [l] goes into the block of [off]. *)
Lemma write_block_ok s v bl H i off l k : tx s v bl H -> file_ok s v H i -> room s bl H (S k) -> 0 <= off < i_size i ->
  off mod BSIZE + Z.of_nat (length l) <= BSIZE -> off + Z.of_nat (length l) <= i_size i ->
  let a := baddr v i (off / BSIZE) in
  exists b s1 s2 s3 s4 v', bread ROOTDEV a s = Ret b s1 /\
    upd_buf b (fun d => set_b_data (splice (off mod BSIZE) l (b_data d)) d) s1 = Ret tt s2 /\ log_write b s2 = Ret tt s3 /\ brelse b s3 = Ret tt s4 /\
    tx s4 v' (log_add a bl) H /\ tstep s s4 /\ room s4 (log_add a bl) H k /\ written v v' i off l /\ tstep s s1 /\ alen (b_data (bufs s1 !!! b)) = BSIZE.
Proof.
  intros T F R Ho Hm Hle a. destruct (fo_map _ _ _ _ F _ (in_file_of i off Ho)) as (_ & Hh & Hn). fold a in Hh, Hn.
  destruct (tx_bread_room s v bl H a k T Hn R) as (b & s1 & E1 & T1 & H1 & _ & F1). assert (S1 : tstep s s1) by (by apply tstep_bufs).
  pose proof (tx_len _ _ _ _ a T) as Hlen. pose proof (Z.mod_pos_bound off BSIZE ltac:(unfold BSIZE; lia)) as Hb.
  destruct (tx_update s1 v bl H a b (splice (off mod BSIZE) l (v a)) T1 H1) as (s2 & s3 & s4 & E2 & E3 & E4 & T4 & S4 & _).
  - rewrite (tstep_log_size _ _ S1). destruct R as [R _]. lia.
  - by apply (home_block_tstep s).
  - rewrite length_splice; rewrite ?Hlen; lia.
  - exists b, s1, s2, s3, s4, (fupd v a (splice (off mod BSIZE) l (v a))). split_and!; try done.
    + rewrite (upd_buf_data b (splice (off mod BSIZE) l)), (tx_data s1 v bl _ _ b T1 H1). done.
    + by eapply tstep_trans.
    + eapply (room_add s); [by destruct T | by eapply tstep_trans | exact R].
    + eapply (written_block s v H); try done. intros x. by eapply tx_len.
    + by rewrite (tx_data s1 v bl _ _ b T1 H1), (tx_alen _ _ _ _ _ T1).
Qed.

Lemma writei_loop_ok H ip i k : forall fuel s v bl off l n, itable s !!! ip = i -> tx s v bl H -> file_ok s v H i ->
  let r := Z.of_nat (length l) in
  room s bl H (Z.to_nat (touched off r) + S k) -> 0 <= off -> off + r <= i_size i -> touched off r < Z.of_nat fuel ->
  exists s' v' bl', writei_loop fuel ip (SVar l) off n (n - r) s = Ret (n, off + r) s' /\
    tx s' v' bl' H /\ tstep s s' /\ room s' bl' H (S k) /\ written v v' i off l.
Proof.
  induction fuel as [|fuel IH]; intros s v bl off l n Hi T F r R Ho Hle Hf; pose proof (touched_bound off r Ho ltac:(lia)) as Htb; [lia |]. cbn [writei_loop].
  destruct (Z.ltb_spec (n - r) n) as [Hlt|Hge].
  2: { assert (r = 0) as Hr by lia. destruct l; [|cbn in r; lia]. exists s, v, bl. unfold r in *. cbn in *. rewrite Z.sub_0_r, Z.add_0_r.
       split_and!; auto using written_nil with tstep. }
  destruct (touched_step off r Ho ltac:(lia)) as (Hm & Hmb & Ht). replace (n - (n - r)) with r by lia. set (m := Z.min r (BSIZE - off mod BSIZE)) in *.
  assert (Ht0 : 0 <= touched (off + m) (r - m)) by (apply touched_bound; lia).
  assert (Em : Z.of_nat (length (take (Z.to_nat m) l)) = m) by (rewrite length_take; lia).
  assert (Ed : Z.of_nat (length (drop (Z.to_nat m) l)) = r - m) by (rewrite length_drop; lia).
  destruct (bmap_mapped s v bl H ip (off / BSIZE) T) as (s1 & E1 & T1 & S1); [by rewrite Hi | rewrite Hi; apply in_file_of; lia | destruct R; lia |].
  rewrite Hi in E1. erewrite bind_Ret by exact E1. cbv beta.
  destruct (fo_map _ _ _ _ F _ (in_file_of i off ltac:(lia))) as (Hnz & _ & _). apply Z.eqb_neq in Hnz. rewrite Hnz.
  unfold getinode. erewrite bind_Ret by reflexivity. cbv beta. rewrite (tstep_itable _ _ S1), Hi, (fo_dev _ _ _ _ F).
  destruct (write_block_ok s1 v bl H i off (take (Z.to_nat m) l) (Z.to_nat (touched (off + m) (r - m)) + S k) T1) as (b & s2 & s3 & s4 & s5 & v' & E2 & E3 & E4 & E5 & T5 & S5 & R5 & W & _ & La); try lia.
  { by eapply file_ok_tstep. }
  { destruct R as [R1 R2]. split; [rewrite (tstep_log_size _ _ S1) |]; lia. }
  erewrite bind_Ret by exact E2. cbv beta zeta. unfold getbuf. erewrite bind_Ret by reflexivity. cbv beta. rewrite La, in_prefix_run by lia. unfold either_copyin. erewrite bind_Ret by reflexivity. cbv beta. cbn [fst snd].
  erewrite bind_Ret by exact E3. cbv beta. change (0 =? -1) with false. cbv iota. erewrite bind_Ret by exact E4. cbv beta.
  erewrite bind_Ret by exact E5. cbv beta. cbn [ksrc_add]. assert (S5' : tstep s s5) by (by eapply tstep_trans).
  destruct (IH s5 v' (log_add (baddr v i (off / BSIZE)) bl) (off + m) (drop (Z.to_nat m) l) n) as (s6 & v6 & bl6 & E6 & T6 & S6 & R6 & W6);
    rewrite ?Ed; try done; try lia.
  - by rewrite (tstep_itable _ _ S5').
  - eapply file_ok_tstep; [by eapply written_file_ok | done].
  - rewrite Ed in E6. exists s6, v6, bl6. replace (n - r + m) with (n - (r - m)) by lia. replace (off + r) with (off + m + (r - m)) by lia.
    split_and!; try done; [by eapply tstep_trans |]. rewrite <- (take_drop (Z.to_nat m) l). eapply written_trans; [done |]. by rewrite Em.
Qed.
(** ** The two together *)

Lemma readi_ok s v bl H ip off n : tx s v bl H -> file_ok s v H (itable s !!! ip) -> (in_use bl H < HEAD)%nat -> 0 <= off -> 0 <= n -> off + n < 2 ^ 32 ->
  let i := itable s !!! ip in
  let m := if i_size i <? off then 0 else Z.min n (i_size i - off) in
  exists s', readi ip DVar off n s = Ret (m, fbytes v i off (Z.to_nat m)) s' /\ tx s' v bl H /\ tstep s s'.
Proof.
  intros T F R Ho Hn Hon i m. unfold readi, getinode. rewrite (wrap_small 32 n) by lia. erewrite bind_Ret by reflexivity. cbv beta. fold i.
  rewrite (wrap_small 32 (off + n)) by lia. destruct (Z.ltb_spec (off + n) off); [lia |]. rewrite orb_false_r. unfold m.
  destruct (Z.ltb_spec (i_size i) off) as [Hlt|Hge]; [exists s; auto with tstep |].
  set (n1 := if i_size i <? off + n then i_size i - off else n). assert (En : n1 = Z.min n (i_size i - off)) by (unfold n1; destruct (Z.ltb_spec (i_size i) (off + n)); lia).
  rewrite <- En. destruct (readi_loop_ok v bl H ip i (Z.to_nat (n1 / BSIZE + 3)) s off n1 n1 []) as (s' & E & T' & S); try done; try lia.
  2: { rewrite Z.sub_diag in E. by exists s'. }
  pose proof (touched_bound off n1 Ho ltac:(lia)) as Ht. assert (0 <= n1 / BSIZE) by (apply Z.div_pos; unfold BSIZE; lia). lia.
Qed.

(** Changing a block that the file does not use changes nothing of it. *)
Lemma file_elsewhere s v H i ib x : let v' := fupd v ib x in
  file_ok s v H i -> (forall k, in_file i k -> baddr v i k <> ib) -> indirect i <> ib ->
  file_ok s v' H i /\ (forall o, 0 <= o < i_size i -> fbyte v' i o = fbyte v i o).
Proof.
  intros v' F Hsep Hind. assert (A : forall k, baddr v' i k = baddr v i k).
  { intros k. unfold baddr. destruct (k <? NDIRECT); [done |]. unfold v'. by rewrite fupd_ne. }
  split.
  - destruct F as [F1 F2 F3 F4 F5 F6]. split; try done.
    + intros k Hk. rewrite A. by apply F3.
    + intros k Hk. rewrite A. by apply F5.
    + intros k k' Hk Hk'. rewrite !A. by apply F6.
  - intros o Ho. unfold fbyte. rewrite A. unfold v'. rewrite fupd_ne; [done |]. by apply Hsep, in_file_of.
Qed.

(** C10: [readi] returns the bytes of the file: as many as were asked for and as
    the file has from the offset on, none past its end, whatever blocks they
    span, direct and indirect; it changes nothing and leaves no block locked. *)
Theorem readi_exact (s : kernel) (v : Z -> list Z) (bl H : list Z) (ip : nat) (off n : Z) (T : tx s v bl H)
    (F : file_ok s v H (itable s !!! ip)) (R : (in_use bl H < HEAD)%nat) (Ho : 0 <= off) (Hn : 0 <= n) (Hon : off + n < 2 ^ 32) :
  let i := itable s !!! ip in
  let m := if i_size i <? off then 0 else Z.min n (i_size i - off) in
  exists s', readi ip DVar off n s = Ret (m, fbytes v i off (Z.to_nat m)) s' /\ tx s' v bl H /\ tstep s s'.
Proof. by apply readi_ok. Qed.

(** [writei] over allocated blocks, then [readi] of the same range: the
    bytes come back, every other byte of the file and every block that is not
    the file's (but the inode's own, which is updated) is what it was. *)
Theorem writei_readi (s : kernel) (v : Z -> list Z) (bl H : list Z) (ip : nat) (off : Z) (l : list Z) (T : tx s v bl H)
    (F : file_ok s v H (itable s !!! ip)) (Ih : inode_home s H (itable s !!! ip)) (Hd : dinode_ok (dinode_of (itable s !!! ip)))
    (Hsep : forall k, in_file (itable s !!! ip) k -> baddr v (itable s !!! ip) k <> IBLOCK (i_inum (itable s !!! ip)) (sb s))
    (Hind : indirect (itable s !!! ip) <> IBLOCK (i_inum (itable s !!! ip)) (sb s))
    (R : room s bl H (Z.to_nat (touched off (Z.of_nat (length l))) + 2)) (Ho : 0 <= off)
    (Hle : off + Z.of_nat (length l) <= i_size (itable s !!! ip)) :
  let i := itable s !!! ip in
  let n := Z.of_nat (length l) in
  exists s1 s2 v' bl', writei ip (SVar l) off n s = Ret n s1 /\ tx s1 v' bl' H /\ tstep s s1 /\
    readi ip DVar off n s1 = Ret (n, l) s2 /\
    (forall o, 0 <= o < i_size i -> ~ (off <= o < off + n) -> fbyte v' i o = fbyte v i o) /\
    (forall b, b <> IBLOCK (i_inum i) (sb s) -> (forall k, in_file i k -> baddr v i k <> b) -> v' b = v b).
Proof.
  intros i n. fold i in F, Ih, Hd, Hsep, Hind, Hle. fold n in R, Hle. pose proof (fo_size _ _ _ _ F) as Hsz.
  assert (Hbig : MAXFILE * BSIZE < 2 ^ 32) by (vm_compute; done). pose proof (touched_bound off n Ho ltac:(lia)) as Ht.
  destruct (writei_loop_ok H ip i 1 (Z.to_nat (n / BSIZE + 3)) s v bl off l n eq_refl T F) as (s1 & v1 & bl1 & E1 & T1 & S1 & R1 & W1); try done; try (fold n; lia).
  fold n in E1. rewrite Z.sub_diag in E1. pose proof (tstep_itable _ _ S1) as Ei. pose proof (tstep_sb _ _ S1) as Es.
  destruct (iupdate_ok s1 v1 bl1 H ip T1) as (s2 & E2 & S2 & T2); rewrite ?Ei; fold i; try done.
  { destruct Ih as [A B D]. split; rewrite ?Es; try done. by apply (home_block_tstep s). }
  { destruct R1 as [R1 R2]. split; lia. }
  rewrite Ei, Es in T2. fold i in T2. set (ib := IBLOCK (i_inum i) (sb s)) in *. set (v2 := fupd _ _ _) in T2.
  destruct (file_elsewhere s2 v1 H i ib (put_dinode (IOFF (i_inum i)) (dinode_of i) (v1 ib))) as [F2 B2]; try done.
  { apply (file_ok_tstep s1); [|done]. apply (file_ok_tstep s); [|done]. by eapply written_file_ok. }
  { intros k Hk. rewrite (wr_addr _ _ _ _ _ W1). by apply Hsep. }
  fold v2 in F2, B2. assert (Ei2 : itable s2 !!! ip = i) by (by rewrite (tstep_itable _ _ S2), Ei).
  destruct (readi_ok s2 v2 (log_add ib bl1) H ip off n T2) as (s3 & E3 & _ & _); rewrite ?Ei2; try done; try lia.
  { destruct R1 as [_ R1]. destruct T1 as [_ Hnd _ _ _ _ _ _]. pose proof (in_use_log_add ib bl1 H Hnd). lia. }
  exists s2, s3, v2, (log_add ib bl1). split_and!; try done.
  - unfold writei, getinode. rewrite (wrap_small 32 n) by lia. erewrite bind_Ret by reflexivity. cbv beta. fold i.
    rewrite (wrap_small 32 (off + n)) by lia. destruct (Z.ltb_spec (i_size i) off); [lia |]. destruct (Z.ltb_spec (off + n) off); [lia |]. cbn [orb].
    destruct (Z.ltb_spec (MAXFILE * BSIZE) (off + n)); [lia |]. erewrite bind_Ret by exact E1. cbv beta. erewrite bind_Ret by reflexivity. cbv beta.
    rewrite Ei. fold i. cbn [fst snd]. destruct (Z.ltb_spec (i_size i) (off + n)); [lia |]. erewrite bind_Ret by reflexivity. cbv beta.
    by erewrite bind_Ret by exact E2.
  - by eapply tstep_trans.
  - rewrite E3, Ei2. destruct (Z.ltb_spec (i_size i) off); [lia |]. rewrite Z.min_l by lia. do 2 f_equal. apply list_eq. intros j.
    destruct (decide (j < length l)%nat) as [Hj|Hj].
    + rewrite fbytes_lookup, B2, (wr_byte _ _ _ _ _ W1) by lia. rewrite decide_True by lia. rewrite (list_lookup_lookup_total_lt l) by done. do 2 f_equal. lia.
    + rewrite !lookup_ge_None_2; [done | lia | rewrite length_fbytes; lia].
  - intros o Hor Hout. rewrite B2, (wr_byte _ _ _ _ _ W1) by done. by rewrite decide_False.
  - intros b Hb Hnb. unfold v2. rewrite fupd_ne by done. by apply (wr_frame _ _ _ _ _ W1).
Qed.

(** ** Witnesses *)

Lemma inode5_blocks k : in_file inode5 k -> baddr img0 inode5 k = 50 + k /\ (k = 0 \/ k = 1).
Proof.
  intros [Hk0 Hk]. cbn in Hk. unfold BSIZE in Hk. assert (Hc : k = 0 \/ k = 1) by lia. split; [|exact Hc]. destruct Hc as [-> | ->]; reflexivity.
Qed.

Lemma fs1_home_block b : 32 <= b < 2000 -> home_block fs1 b.
Proof.
  intros Hb. unfold home_block, in_log. change (logst fs1) with log0. change (log_start log0) with 2. change (log_size log0) with 30. lia.
Qed.

Lemma fs1_file : file_ok fs1 img0 [] inode5.
Proof.
  assert (Hi : indirect inode5 = 0) by reflexivity. split.
  - reflexivity.
  - change (0 <= 1500 <= 274432). lia.
  - intros k Hk. destruct (inode5_blocks k Hk) as [-> Hc]. split; [lia |]. split; [apply fs1_home_block; lia | apply not_elem_of_nil].
  - intros Hs. cbn in Hs. unfold NDIRECT, BSIZE in Hs. lia.
  - intros k Hk. destruct (inode5_blocks k Hk) as [-> Hc]. rewrite Hi. lia.
  - intros k k' Hk Hk'. destruct (inode5_blocks k Hk) as [-> _]. destruct (inode5_blocks k' Hk') as [-> _]. lia.
  - reflexivity.
Qed.

Lemma readi_exact_witness : exists s', readi 3 DVar 1000 600 fs1 = Ret (500, fbytes img0 inode5 1000 500) s'.
Proof.
  destruct (readi_exact fs1 img0 [] [] 3 1000 600 fs1_tx) as (s' & E & _).
  - rewrite fs1_inode. exact fs1_file.
  - unfold in_use, HEAD, NBUF, MAXOPBLOCKS. cbn. lia.
  - lia.
  - lia.
  - lia.
  - exists s'. rewrite fs1_inode in E. exact E.
Defined.

Lemma writei_readi_witness : exists s1 s2, writei 3 (SVar [7; 8; 9]) 1023 3 fs1 = Ret 3 s1 /\
  readi 3 DVar 1023 3 s1 = Ret (3, [7; 8; 9]) s2.
Proof.
  destruct (writei_readi fs1 img0 [] [] 3 1023 [7; 8; 9] fs1_tx) as (s1 & s2 & v' & bl' & E1 & _ & _ & E2 & _); rewrite ?fs1_inode.
  - exact fs1_file.
  - exact fs1_home.
  - exact inode5_ok.
  - intros k Hk. destruct (inode5_blocks k Hk) as [-> Hc]. change (IBLOCK (i_inum inode5) (sb fs1)) with 32. lia.
  - change (IBLOCK (i_inum inode5) (sb fs1)) with 32. change (indirect inode5) with 0. lia.
  - destruct (fs0_room 4 ltac:(lia)) as [R1 R2]. split; [exact R1 | exact R2].
  - lia.
  - cbn. lia.
  - exists s1, s2. split; [exact E1 | exact E2].
Defined.
