(* ===== verification/FsGrow.v ===== *)
(** * Files that grow: bmap and writei with allocation

    [fmap s v H i nb]: the first [nb] blocks of the file of inode [i] are
    allocated, each to a block of its own that the bitmap marks in use, and the
    rest is not.  bmap takes a new block from balloc when it needs one; writei
    extends the file block by block until its data is written or the disk is
    full. *)

From S2P Require Import Prelude State Mem Spinlock Sched Sleeplock Bio BufCache CacheRules Log LogHeader LogSpec LogRecover LogProps Txn Memlayout Kalloc Vm Uart Printf Copy Fs FsBlocks FsInode FsData.

(** What user code and copyin see of the state. *)
Record same_user (s s' : kernel) : Prop := mkSameUser {
  su_mem : mem s' = mem s;
  su_free : freelist s' = freelist s;
  su_held : held s' = held s;
  su_me : mine s' = mine s
}.

Lemma same_user_refl s : same_user s s.
Proof. by split. Qed.

Lemma same_user_trans s1 s2 s3 : same_user s1 s2 -> same_user s2 s3 -> same_user s1 s3.
Proof. intros [A1 A2 A3 A4] [B1 B2 B3 B4]. split; congruence. Qed.

Lemma same_user_tstep s s' : tstep s s' -> same_user s s'.
Proof. intros [E P]. split; [by rewrite E | by rewrite E | by rewrite E | done]. Qed.

(** [G src l]: the bytes of [src] are [l], in every state in which user memory is as in [s]. *)
Definition source (s : kernel) (G : ksrc -> list Z -> Prop) : Prop := forall src l m s', G src l -> same_user s s' -> 0 < m <= Z.of_nat (length l) ->
  either_copyin src m s' = Ret (0, take (Z.to_nat m) l) s' /\ G (ksrc_add src m) (drop (Z.to_nat m) l).

Lemma source_var s : source s (fun src l => src = SVar l).
Proof. intros src l m s' -> _ _. done. Qed.

Lemma source_same s s' G : source s G -> same_user s s' -> source s' G.
Proof. intros HG E src l m s2 Hs E2 Hm. apply HG; [done | by eapply same_user_trans | done]. Qed.

(** What fs.c leaves alone while it changes the block addresses of inode [ip]. *)
Record istep (ip : nat) (s s' : kernel) : Prop := mkIstep {
  is_rest : tstep s (set_itable (itable s) s');
  is_addrs : exists a, itable s' = alter (set_i_addrs a) ip (itable s)
}.

Lemma tstep_set_itable t s s' : tstep s s' -> tstep (set_itable t s) (set_itable t s').
Proof. intros [E P]. split; [rewrite E at 1; done | done]. Qed.

Lemma alter_addrs_same ip (t : list inode) : alter (set_i_addrs (i_addrs (t !!! ip))) ip t = t.
Proof.
  apply list_eq. intros j. destruct (decide (j = ip)) as [->|Hne]; [|by rewrite list_lookup_alter_ne].
  rewrite list_lookup_alter_eq. rewrite list_lookup_total_alt. destruct (t !! ip) as [x|]; [|done]. cbn. by destruct x.
Qed.

Lemma istep_of_tstep ip s s' : tstep s s' -> istep ip s s'.
Proof.
  intros S. pose proof (tstep_itable _ _ S) as E. split.
  - rewrite <- E. replace (set_itable (itable s') s') with s' by (by destruct s'). done.
  - exists (i_addrs (itable s !!! ip)). by rewrite alter_addrs_same.
Qed.

Lemma same_user_istep ip s s' : istep ip s s' -> same_user s s'.
Proof. intros [S _]. by destruct (same_user_tstep _ _ S). Qed.

Lemma istep_trans ip s1 s2 s3 : istep ip s1 s2 -> istep ip s2 s3 -> istep ip s1 s3.
Proof.
  intros [A1 (a & A2)] [B1 (b & B2)]. split.
  - eapply tstep_trans; [exact A1 |]. apply (tstep_set_itable (itable s1)) in B1. exact B1.
  - exists b. rewrite B2, A2, alter_compose_list. done.
Qed.

Lemma istep_upd ip a s : istep ip s (set_itable (alter (set_i_addrs a) ip (itable s)) s).
Proof. split; [|by exists a]. cbn. replace (set_itable (itable s) _) with s by (by destruct s). apply tstep_refl. Qed.

Section istep.
Context (ip : nat) (s s' : kernel) (S : istep ip s s').

Lemma istep_sb : sb s' = sb s.
Proof. exact (tstep_sb _ _ (is_rest _ _ _ S)). Qed.
Lemma istep_held : held s' = held s.
Proof. exact (tstep_held _ _ (is_rest _ _ _ S)). Qed.
Lemma istep_in_log b : in_log (logst s') b <-> in_log (logst s) b.
Proof. exact (tstep_in_log _ _ b (is_rest _ _ _ S)). Qed.
Lemma istep_log_size : log_size (logst s') = log_size (logst s).
Proof. exact (tstep_log_size _ _ (is_rest _ _ _ S)). Qed.
Lemma istep_home b : home_block s b -> home_block s' b.
Proof. intros [H1 H2]. split; [done |]. by rewrite istep_in_log. Qed.
Lemma istep_len : length (itable s') = length (itable s).
Proof. destruct (is_addrs _ _ _ S) as [a ->]. apply length_alter. Qed.
Lemma istep_inode : (ip < length (itable s))%nat -> exists a, itable s' !!! ip = set_i_addrs a (itable s !!! ip).
Proof. intros Hip. destruct (is_addrs _ _ _ S) as [a ->]. exists a. by rewrite alter_total_inode. Qed.
End istep.

(** ** The block map of a file *)

(** [b] belongs to the file of inode [inum]: it is in use, and not the bitmap, the log, the block of the inode or a block that is held. *)
Record own_blk (s : kernel) (v : Z -> list Z) (H : list Z) (inum b : Z) : Prop := mkOwnBlk {
  ob_range : 0 < b < sb_size (sb s);
  ob_used : used v (sb s) b = true;
  ob_home : home_block s b;
  ob_bitmap : ~ is_bitmap (sb s) b;
  ob_held : b ∉ H;
  ob_inode : b <> IBLOCK inum (sb s)
}.

Record fmap (s : kernel) (v : Z -> list Z) (H : list Z) (i : inode) (nb : Z) : Prop := mkFmap {
  fm_dev : i_dev i = ROOTDEV;
  fm_len : length (i_addrs i) = 13%nat;
  fm_nb : 0 <= nb <= MAXFILE;
  fm_blk : forall k, 0 <= k < nb -> own_blk s v H (i_inum i) (baddr v i k);
  fm_ind : indirect i <> 0 -> own_blk s v H (i_inum i) (indirect i);
  fm_need : NDIRECT < nb -> indirect i <> 0;
  fm_sep : forall k, 0 <= k < nb -> baddr v i k <> indirect i;
  fm_inj : forall k k', 0 <= k < nb -> 0 <= k' < nb -> baddr v i k = baddr v i k' -> k = k';
  fm_zero : forall k, nb <= k < MAXFILE -> k < NDIRECT \/ indirect i <> 0 -> baddr v i k = 0
}.

(** The inode's block is in use and not part of the bitmap. *)
Definition inode_used (s : kernel) (v : Z -> list Z) (inum : Z) : Prop :=
  0 < IBLOCK inum (sb s) < sb_size (sb s) /\ used v (sb s) (IBLOCK inum (sb s)) = true /\ ~ is_bitmap (sb s) (IBLOCK inum (sb s)).

(** Blocks of the file. *)
Definition of_file (v : Z -> list Z) (i : inode) (nb b : Z) : Prop := (exists k, 0 <= k < nb /\ b = baddr v i k) \/ (indirect i <> 0 /\ b = indirect i).

(** How a file of [nb] blocks becomes one of [nb']: its blocks stay where they are, the blocks it gains were free, they are
    the only ones newly in use, and no block but its own and the bitmap's changes. *)
Record extends (s : kernel) (v : Z -> list Z) (i : inode) (nb : Z) (v' : Z -> list Z) (i' : inode) (nb' : Z) : Prop := mkExtends {
  ex_nb : nb <= nb';
  ex_addr : forall k, 0 <= k < nb -> baddr v' i' k = baddr v i k;
  ex_inode : i' = set_i_addrs (i_addrs i') i;
  ex_used : forall b, 0 <= b < sb_size (sb s) -> used v (sb s) b = true -> used v' (sb s) b = true;
  ex_new : forall b, 0 <= b < sb_size (sb s) -> used v' (sb s) b = true -> used v (sb s) b = true \/ of_file v' i' nb' b;
  ex_frame : forall b, ~ is_bitmap (sb s) b -> ~ of_file v' i' nb' b -> v' b = v b;
  ex_mono : forall b, of_file v i nb b -> of_file v' i' nb' b;
  ex_own : forall b, of_file v' i' nb' b -> of_file v i nb b \/ (0 < b < sb_size (sb s) /\ used v (sb s) b = false)
}.

Ltac fconsts := change MAXFILE with 268 in *; change NINDIRECT with 256 in *; change NDIRECT with 12 in *; change BSIZE with 1024 in *.

Lemma fmap_range s v H i nb : fmap s v H i nb -> forall b, of_file v i nb b -> own_blk s v H (i_inum i) b.
Proof. intros F b [(k & Hk & ->)|[Hi ->]]; [by apply F | by apply F]. Qed.

(** [fmap] needs little of the state. *)
Lemma own_blk_ext s s' v v' H inum b : sb s' = sb s -> (forall x, in_log (logst s') x <-> in_log (logst s) x) -> used v' (sb s) b = true -> own_blk s v H inum b -> own_blk s' v' H inum b.
Proof. intros Es El Hu [O1 O2 O3 O4 O5 O6]. split; rewrite ?Es; try done. destruct O3 as [O3 O3']. split; [done |]. by rewrite El. Qed.

Lemma fmap_ext s s' v v' H i nb : sb s' = sb s -> (forall x, in_log (logst s') x <-> in_log (logst s) x) -> (forall b, 0 <= b < sb_size (sb s) -> used v (sb s) b = true -> used v' (sb s) b = true) ->
  (indirect i <> 0 -> v' (indirect i) = v (indirect i)) -> fmap s v H i nb -> fmap s' v' H i nb.
Proof.
  intros Es El Hu Hi [A1 A2 A3 A4 A5 A6 A7 A8 A9].
  assert (B : forall k, k < NDIRECT \/ indirect i <> 0 -> baddr v' i k = baddr v i k).
  { intros k Hk. unfold baddr. destruct (Z.ltb_spec k NDIRECT); [done |]. rewrite Hi; [done |]. destruct Hk; [lia | done]. }
  assert (Bn : forall k, 0 <= k < nb -> baddr v' i k = baddr v i k) by (intros k Hk; apply B; destruct (Z.lt_ge_cases k NDIRECT); [by left | right; apply A6; lia]).
  split; try done.
  - intros k Hk. rewrite Bn by done. pose proof (A4 k Hk) as O. eapply own_blk_ext; [done | done | | exact O]. apply Hu; [destruct O; lia | apply O].
  - intros Hne. pose proof (A5 Hne) as O. eapply own_blk_ext; [done | done | | exact O]. apply Hu; [destruct O; lia | apply O].
  - intros k Hk. rewrite Bn by done. by apply A7.
  - intros k k' Hk Hk'. rewrite !Bn by done. by apply A8.
  - intros k Hk Hor. rewrite B by done. by apply A9.
Qed.

Lemma extends_refl s v i nb : extends s v i nb v i nb.
Proof. split; try done; solve [by left | by destruct i]. Qed.

Lemma extends_trans s v i nb v1 i1 nb1 v2 i2 nb2 : extends s v i nb v1 i1 nb1 -> extends s v1 i1 nb1 v2 i2 nb2 -> extends s v i nb v2 i2 nb2.
Proof.
  intros [A1 A2 A3 A4 A7 A5 A8 A6] [B1 B2 B3 B4 B7 B5 B8 B6]. split.
  - lia.
  - intros k Hk. rewrite B2 by lia. by apply A2.
  - rewrite B3, A3. done.
  - intros b Hb Hu. apply B4; [done |]. by apply A4.
  - intros b Hb Hu. destruct (B7 b Hb Hu) as [Hu1|]; [|by right]. destruct (A7 b Hb Hu1) as [|Hf]; [by left | right; by apply B8].
  - intros b Hn Hf. rewrite B5 by done. apply A5; [done |]. intros Hf1. by apply Hf, B8.
  - intros b Hb. by apply B8, A8.
  - intros b Hb. destruct (B6 b Hb) as [Hb1|[Hr Hu]]; [by apply A6 |]. right. split; [done |]. destruct (used v (sb s) b) eqn:E; [|done]. rewrite A4 in Hu by (done || lia). done.
Qed.

(** ** Taking a block *)

Lemma bm_ok_ext s s' v H : sb s' = sb s -> (forall x, in_log (logst s') x <-> in_log (logst s) x) -> bm_ok s v H -> bm_ok s' v H.
Proof. intros Es El [B1 B2 B3 B4 B5 B6 B7]. split; rewrite ?Es; try done; [intros x Hx; rewrite El; by apply B3 | intros x Hx; rewrite El; by apply B4]. Qed.

(** [r] was free in [v] and is a zeroed block in use in [v']; nothing else but the bitmap differs. *)
Record taken (s : kernel) (v : Z -> list Z) (H : list Z) (v' : Z -> list Z) (r : Z) : Prop := mkTaken {
  tk_range : 0 < r < sb_size (sb s);
  tk_free : used v (sb s) r = false;
  tk_home : home_block s r;
  tk_bitmap : ~ is_bitmap (sb s) r;
  tk_held : r ∉ H;
  tk_zero : v' r = zeros;
  tk_used : used v' (sb s) r = true;
  tk_mono : forall b, 0 <= b < sb_size (sb s) -> used v (sb s) b = true -> used v' (sb s) b = true;
  tk_only : forall b, 0 <= b < sb_size (sb s) -> used v' (sb s) b = true -> used v (sb s) b = true \/ b = r;
  tk_frame : forall b, b <> r -> ~ is_bitmap (sb s) b -> v' b = v b
}.

(** The parts of the invariant that do not depend on the file. *)
Record disk_ok (s : kernel) (v : Z -> list Z) (bl H : list Z) (k : nat) : Prop := mkDiskOk {
  dk_tx : tx s v bl H;
  dk_bm : bm_ok s v H;
  dk_size : 0 < sb_size (sb s);
  dk_held : forall b, b ∈ H -> 0 <= b < sb_size (sb s);
  dk_pr : LkPr ∉ held s;
  dk_room : room s bl H k
}.

Definition disk_full (s : kernel) (v : Z -> list Z) : Prop := forall x, 0 <= x < sb_size (sb s) -> used v (sb s) x = true.

Lemma balloc_takes s v bl H k : disk_ok s v bl H (S (S k)) -> exists r s', balloc ROOTDEV s = Ret r s' /\ tstep s s' /\ stays H s s' /\
  ((exists v' bl', taken s v H v' r /\ disk_ok s' v' bl' H k) \/ (r = 0 /\ disk_full s v /\ disk_ok s' v bl H (S (S k)))).
Proof.
  intros [T B H0 HH Hpr R]. assert (R2 : room s bl H 2) by (destruct R as [R1 R2]; split; lia). destruct (balloc_ok s v bl H T B R2 Hpr) as (r & s' & E & S & C & Y). exists r, s'. split_and!; try done.
  assert (Hlen : forall b, length (v b) = Z.to_nat BSIZE) by (intros b; by eapply tx_len). pose proof (tstep_sb _ _ S) as Es. pose proof (tstep_held _ _ S) as Eh. destruct C as [Hr Hu Hf T' | -> Ha T'].
  2: { right. split_and!; try done. split; rewrite ?Es, ?Eh; try done; [eapply bm_ok_mono; [exact B | done | auto | done | done] |]. destruct R as [R1 R3]. split; [|done]. by rewrite (tstep_log_size _ _ S). }
  left. destruct (free_block s v H B r Hr Hu) as (F1 & F2 & F3 & F4).
  assert (Hm : forall b, 0 <= b < sb_size (sb s) -> used v (sb s) b = true -> used (allocated v (sb s) r) (sb s) b = true) by (intros b Hb Hub; rewrite (allocated_used s v H) by done; by rewrite Hub).
  exists (allocated v (sb s) r), (log_add r (log_add (BBLOCK r (sb s)) bl)). split; split; rewrite ?Es, ?Eh; try done; try lia.
  - apply fupd_eq.
  - rewrite (allocated_used s v H) by done. by rewrite Z.eqb_refl, orb_true_r.
  - intros b Hb. rewrite (allocated_used s v H) by done. intros [|Eb%Z.eqb_eq]%orb_true_iff; [by left | by right].
  - intros b Hb Hi. by apply allocated_other.
  - eapply bm_ok_mono; done.
  - eapply (room_add s'); [by destruct T | apply tstep_refl |]. eapply (room_add s); [by destruct T | done | done].
Qed.

Lemma disk_ok_weaken s v bl H k k' : (k' <= k)%nat -> disk_ok s v bl H k -> disk_ok s v bl H k'.
Proof. intros Hk [A1 A2 A3 A4 A5 [R1 R2]]. split; try done. split; lia. Qed.

(** Changing the inode table. *)
Lemma disk_ok_itable t s v bl H k : disk_ok s v bl H k -> disk_ok (set_itable t s) v bl H k.
Proof.
  intros [A1 A2 A3 A4 A5 [R1 R2]]. split; try done; [by eapply tx_other; [exact A1 | ..] | by eapply bm_ok_ext; [| |exact A2]].
Qed.

(** ** The block map with the new block *)

Lemma le_dec_zeros : forall n m k, le_dec (take n (drop m (replicate k 0))) = 0.
Proof.
  intros n m k. rewrite drop_replicate, take_replicate. generalize (n `min` (k - m))%nat. intros j. induction j as [|j IH]; cbn [replicate le_dec]; [done |]. rewrite IH. done.
Qed.

Section take.
Context (s s' : kernel) (v v' : Z -> list Z) (H : list Z) (i : inode) (nb r : Z).
Context (F : fmap s v H i nb) (K : taken s v H v' r) (U : inode_used s v (i_inum i)).
Context (Es : sb s' = sb s) (El : forall x, in_log (logst s') x <-> in_log (logst s) x).

Lemma taken_new : own_blk s' v' H (i_inum i) r.
Proof.
  destruct K as [K1 K2 K3 K4 K5 K6 K7 K8 _ K9]. split; rewrite ?Es; try done.
  - destruct K3. split; [done |]. by rewrite El.
  - intros E. destruct U as (_ & U2 & _). rewrite <- E in U2. congruence.
Qed.

Lemma taken_old b : own_blk s v H (i_inum i) b -> own_blk s' v' H (i_inum i) b /\ b <> r /\ v' b = v b.
Proof.
  intros O. assert (Hne : b <> r) by (intros ->; pose proof (ob_used _ _ _ _ _ O); pose proof (tk_free _ _ _ _ _ K); congruence).
  split; [|split; [done | apply (tk_frame _ _ _ _ _ K); [done | apply O]]].
  eapply own_blk_ext; [done | done | | exact O]. apply (tk_mono _ _ _ _ _ K); [destruct (ob_range _ _ _ _ _ O); lia | apply O].
Qed.

Lemma extends_taken i' nb' v2 : nb <= nb' -> (forall k, 0 <= k < nb -> baddr v2 i' k = baddr v i k) -> i' = set_i_addrs (i_addrs i') i -> (forall b, 0 <= b < sb_size (sb s) -> used v' (sb s) b = used v2 (sb s) b) ->
  (forall b, b = indirect i /\ indirect i <> 0 \/ v2 b = v' b) -> (forall b, of_file v2 i' nb' b -> of_file v i nb b \/ b = r) ->
  (indirect i <> 0 -> indirect i' = indirect i) -> of_file v2 i' nb' r -> extends s v i nb v2 i' nb'.
Proof.
  intros Hnb Ha Hi Hu H2 Ho Hind Hr. assert (Hmono : forall b, of_file v i nb b -> of_file v2 i' nb' b).
  { intros b [(k & Hk & ->)|[Hne ->]]; [left; exists k; rewrite Ha by done; split; [lia | done] | right; by rewrite Hind]. }
  split; try done.
  - intros b Hb Hub. rewrite <- Hu by done. by apply (tk_mono _ _ _ _ _ K).
  - intros b Hb. rewrite <- Hu by done. intros Hub. destruct (tk_only _ _ _ _ _ K b Hb Hub) as [|E]; [by left | subst b; by right].
  - intros b Hnm Hnf. destruct (H2 b) as [(-> & Hne)|E2]; [destruct Hnf; apply Hmono; by right |]. rewrite E2. apply (tk_frame _ _ _ _ _ K); [|done]. intros ->. done.
  - intros b Hb. destruct (Ho b Hb) as [?|E]; [by left |]. subst b. right. split; [apply K | apply K].
Qed.

(** A direct block. *)
Lemma fmap_direct : nb < NDIRECT -> let i' := set_i_addrs (<[Z.to_nat nb := r]> (i_addrs i)) i in
  fmap s' v' H i' (nb + 1) /\ extends s v i nb v' i' (nb + 1) /\ baddr v' i' nb = r.
Proof.
  intros Hn i'. pose proof F as F0. destruct F as [A1 A2 A3 A4 A5 A6 A7 A8 A9]. assert (Ei : indirect i' = indirect i) by (unfold indirect; cbn; apply list_lookup_total_insert_ne; fconsts; lia).
  assert (Hind : indirect i <> 0 -> v' (indirect i) = v (indirect i)) by (intros Hi; apply taken_old; auto).
  assert (B : forall k, 0 <= k -> k < NDIRECT \/ indirect i <> 0 -> baddr v' i' k = if decide (k = nb) then r else baddr v i k).
  { intros k Hk Hor. unfold baddr. rewrite Ei. destruct (Z.ltb_spec k NDIRECT) as [Hd|Hd].
    - cbn. destruct (decide (k = nb)) as [->|]; [apply list_lookup_total_insert_eq | apply list_lookup_total_insert_ne]; fconsts; lia.
    - rewrite decide_False by (fconsts; lia). rewrite Hind; [done |]. destruct Hor; [fconsts; lia | done]. }
  assert (Hor : forall k, 0 <= k < nb + 1 -> k < NDIRECT \/ indirect i <> 0) by (intros k Hk; left; lia).
  assert (Bn : baddr v' i' nb = r) by (rewrite B by (lia || (left; lia)); by rewrite decide_True).
  assert (Bo : forall k, 0 <= k < nb -> baddr v' i' k = baddr v i k) by (intros k Hk; rewrite B by (lia || (left; lia)); by rewrite decide_False by lia).
  assert (Hr : forall k, 0 <= k < nb -> baddr v i k <> r) by (intros k Hk; apply taken_old; auto).
  assert (Hri : indirect i <> 0 -> indirect i <> r) by (intros Hi; apply taken_old; auto).
  split; [split; try done | split; [|done]].
  - cbn. by rewrite length_insert.
  - fconsts. lia.
  - intros k Hk. destruct (decide (k = nb)) as [->|]; [rewrite Bn; apply taken_new | rewrite Bo by lia; apply taken_old, A4; lia].
  - rewrite Ei. intros Hi. apply taken_old; auto.
  - rewrite Ei. intros Hx. fconsts. lia.
  - intros k Hk. rewrite Ei. destruct (decide (k = nb)) as [->|]; [|rewrite Bo by lia; apply A7; lia]. rewrite Bn. destruct (decide (indirect i = 0)) as [->|]; [pose proof (tk_range _ _ _ _ _ K); lia | by apply not_eq_sym, Hri].
  - intros k k' Hk Hk'. destruct (decide (k = nb)) as [->|Hne]; destruct (decide (k' = nb)) as [->|Hne']; rewrite ?Bn, ?Bo by lia; intros E; [done | | | by apply A8; lia || done].
    + exfalso. apply (Hr k'); [lia | done].
    + exfalso. apply (Hr k); [lia | done].
  - intros k Hk. rewrite Ei. intros Ho. rewrite B by (lia || done). rewrite decide_False by lia. apply A9; [lia | done].
  - apply extends_taken; [lia | exact Bo | done | done | by right | | done | left; exists nb; split; [lia | done]]. intros b [(k & Hk & ->)|[Hi ->]]; [|left; right; by rewrite Ei in *].
    destruct (decide (k = nb)) as [->|]; [by right |]. left. left. exists k. rewrite Bo by lia. split; [lia | done].
Qed.

(** The indirect block: all its entries are 0. *)
Lemma fmap_indirect : indirect i = 0 -> nb = NDIRECT -> let i' := set_i_addrs (<[Z.to_nat NDIRECT := r]> (i_addrs i)) i in
  fmap s' v' H i' nb /\ extends s v i nb v' i' nb /\ indirect i' = r.
Proof.
  intros Hi0 Hnb i'. destruct F as [A1 A2 A3 A4 A5 A6 A7 A8 A9]. pose proof (tk_range _ _ _ _ _ K) as Hr0.
  assert (Ei : indirect i' = r) by (unfold indirect; cbn; apply list_lookup_total_insert_eq; fconsts; lia).
  assert (Bd : forall k, 0 <= k < NDIRECT -> baddr v' i' k = baddr v i k).
  { intros k Hk. unfold baddr. destruct (Z.ltb_spec k NDIRECT); [|lia]. cbn. apply list_lookup_total_insert_ne. fconsts. lia. }
  assert (Bz : forall k, NDIRECT <= k < MAXFILE -> baddr v' i' k = 0).
  { intros k Hk. unfold baddr. destruct (Z.ltb_spec k NDIRECT); [lia |]. rewrite Ei, (tk_zero _ _ _ _ _ K). unfold get32, zeros, slice. apply le_dec_zeros. }
  assert (Hr : forall k, 0 <= k < nb -> baddr v i k <> r) by (intros k Hk; apply taken_old; auto).
  split; [split; try done | split; [|done]].
  - cbn. by rewrite length_insert.
  - intros k Hk. rewrite Bd by lia. apply taken_old, A4. lia.
  - intros _. rewrite Ei. apply taken_new.
  - intros Hx. lia.
  - intros k Hk. rewrite Bd, Ei by lia. by apply Hr.
  - intros k k' Hk Hk'. rewrite !Bd by lia. by apply A8.
  - intros k Hk _. apply Bz. lia.
  - apply extends_taken; [lia | intros k Hk; apply Bd; lia | done | done | by right | | done | right; rewrite Ei; split; [lia | done]]. intros b [(k & Hk & ->)|(Hi & ->)]; [|right; exact Ei].
    left. left. exists k. rewrite Bd by lia. done.
Qed.

(** A block whose address is in the indirect block. *)
Lemma fmap_entry : indirect i <> 0 -> NDIRECT <= nb < MAXFILE -> (forall b, length (v b) = Z.to_nat BSIZE) -> sb_size (sb s) < 2 ^ 32 ->
  let v2 := fupd v' (indirect i) (put32 (4 * (nb - NDIRECT)) r (v' (indirect i))) in
  fmap s' v2 H i (nb + 1) /\ extends s v i nb v2 i (nb + 1) /\ baddr v2 i nb = r /\ (forall b, 0 <= b < sb_size (sb s) -> used v2 (sb s) b = used v' (sb s) b).
Proof.
  intros Hi Hnb Hlen Hsz v2. destruct F as [A1 A2 A3 A4 A5 A6 A7 A8 A9]. pose proof (tk_range _ _ _ _ _ K) as Hr0. destruct (taken_old _ (A5 Hi)) as (Oi & Hir & Evi).
  assert (Hu2 : forall b, 0 <= b < sb_size (sb s) -> used v2 (sb s) b = used v' (sb s) b) by (intros b Hb; apply used_fupd; [apply A5, Hi | done]).
  assert (B : forall k, 0 <= k < MAXFILE -> baddr v2 i k = if decide (k = nb) then r else baddr v i k).
  { intros k Hk. unfold baddr. destruct (Z.ltb_spec k NDIRECT); [by rewrite decide_False by lia |]. unfold v2. rewrite fupd_eq, Evi.
    assert (Hl : Z.of_nat (length (v (indirect i))) = 1024) by (rewrite Hlen; reflexivity).
    destruct (decide (k = nb)) as [->|]; [rewrite get32_put32_eq by (fconsts; lia); apply wrap_small; lia | apply get32_put32_ne; fconsts; lia]. }
  assert (Bo : forall k, 0 <= k < nb -> baddr v2 i k = baddr v i k) by (intros k Hk; rewrite B by lia; by rewrite decide_False by lia).
  assert (Bn : baddr v2 i nb = r) by (rewrite B by (fconsts; lia); by rewrite decide_True).
  assert (Hr : forall k, 0 <= k < nb -> baddr v i k <> r) by (intros k Hk; apply taken_old; auto).
  assert (Ho : forall b, own_blk s' v' H (i_inum i) b -> own_blk s' v2 H (i_inum i) b).
  { intros b O. apply (own_blk_ext s' s' v' v2); [done | done | | exact O]. rewrite Es. rewrite Hu2; [pose proof (ob_used _ _ _ _ _ O) as Ou; by rewrite Es in Ou |]. pose proof (ob_range _ _ _ _ _ O) as Or. rewrite Es in Or. lia. }
  split; [split; try done | split; [|split; done]].
  - lia.
  - intros k Hk. apply Ho. destruct (decide (k = nb)) as [->|]; [rewrite Bn; apply taken_new | rewrite Bo by lia; apply taken_old, A4; lia].
  - intros _. by apply Ho.
  - intros k Hk. destruct (decide (k = nb)) as [->|]; [rewrite Bn; auto | rewrite Bo by lia; apply A7; lia].
  - intros k k' Hk Hk'. destruct (decide (k = nb)) as [->|Hne]; destruct (decide (k' = nb)) as [->|Hne']; rewrite ?Bn, ?Bo by lia; intros E; [done | | | by apply A8; lia || done].
    + exfalso. apply (Hr k'); [lia | done].
    + exfalso. apply (Hr k); [lia | done].
  - intros k Hk Hor. rewrite B by lia. rewrite decide_False by lia. apply A9; [lia | done].
  - apply extends_taken; [lia | exact Bo | by destruct i | intros b Hb; symmetry; by apply Hu2 | | | done | left; exists nb; split; [lia | done]].
    + intros b. destruct (decide (b = indirect i)) as [->|]; [by left | right; by apply fupd_ne].
    + intros b [(k & Hk & ->)|(_ & ->)]; [|left; by right]. destruct (decide (k = nb)) as [->|]; [right; exact Bn |]. left. left. exists k. rewrite Bo by lia. split; [lia | done].
Qed.
End take.

(** ** bmap *)

(** Holding a block of the file while working. *)
Lemma hold_block s v bl H inum b k : disk_ok s v bl H (S k) -> own_blk s v H inum b ->
  exists j s', bread ROOTDEV b s = Ret j s' /\ disk_ok s' v bl (b :: H) k /\ holds s' b j /\ tstep s s' /\ disk s' = disk s.
Proof.
  intros [T B H0 HH Hpr R] O. destruct (tx_bread_room s v bl H b k T (ob_held _ _ _ _ _ O) R) as (j & s' & E & T' & Hj & _ & F'). assert (S : tstep s s') by (by apply tstep_bufs).
  pose proof (tstep_sb _ _ S) as Es. exists j, s'. split_and!; try done; [|by rewrite F']. split; rewrite ?Es, ?(tstep_held _ _ S); try done.
  - destruct (bm_ok_ext s s' v H Es ltac:(intros x; by apply tstep_in_log) B) as [B1 B2 B3 B4 B5 B6 B7]. split; try done. intros x Hx. apply elem_of_cons in Hx as [->|Hx]; [|by apply B7].
    rewrite Es. split; apply O.
  - intros x Hx. apply elem_of_cons in Hx as [->|Hx]; [destruct (ob_range _ _ _ _ _ O); lia | by apply HH].
  - destruct R as [R1 R2]. split; [rewrite (tstep_log_size _ _ S); lia |]. unfold in_use in *. rewrite filter_cons. case_decide; cbn [length]; lia.
Qed.

Lemma disk_ok_drop s s' v bl H b k : disk_ok s v bl (b :: H) k -> tstep s s' -> tx s' v bl H -> disk_ok s' v bl H k.
Proof.
  intros [T B H0 HH Hpr R] S T'. pose proof (tstep_sb _ _ S) as Es. split; rewrite ?Es, ?(tstep_held _ _ S); try done.
  - destruct (bm_ok_ext s s' v (b :: H) Es ltac:(intros x; by apply tstep_in_log) B) as [B1 B2 B3 B4 B5 B6 B7]. split; try done. intros x Hx. apply B7. by right.
  - intros x Hx. apply HH. by right.
  - destruct R as [R1 R2]. split; [by rewrite (tstep_log_size _ _ S) |]. unfold in_use in *. rewrite filter_cons in R2. case_decide; cbn [length] in R2; lia.
Qed.

(** Storing into a held block, logging and releasing it. *)
Lemma store_block s v bl H b j x k : disk_ok s v bl (b :: H) (S k) -> holds s b j -> home_block s b -> ~ is_bitmap (sb s) b -> length x = Z.to_nat BSIZE ->
  exists s1 s2 s3, upd_buf j (set_b_data x) s = Ret tt s1 /\ log_write j s1 = Ret tt s2 /\ brelse j s2 = Ret tt s3 /\ tstep s s3 /\ disk_ok s3 (fupd v b x) (log_add b bl) H k.
Proof.
  intros [T B H0 HH Hpr R] Hj Hb Hm Hx. destruct (tx_update s v bl H b j x T Hj) as (s1 & s2 & s3 & E1 & E2 & E3 & T3 & S & _); [destruct R; lia | done | done |].
  pose proof (tstep_sb _ _ S) as Es. exists s1, s2, s3. split_and!; try done. split; rewrite ?Es, ?(tstep_held _ _ S); try done.
  - destruct (bm_ok_ext s s3 v (b :: H) Es ltac:(intros y; by apply tstep_in_log) B) as [B1 B2 B3 B4 B5 B6 B7]. rewrite Es in *.
    assert (Hu : forall y, 0 <= y < sb_size (sb s) -> used (fupd v b x) (sb s) y = used v (sb s) y) by (intros y Hy; by apply used_fupd).
    split; rewrite ?Es; try done.
    + intros y Hy Hl. rewrite Hu by done. by apply B4.
    + intros y Hy Hi. rewrite Hu by done. by apply B5.
    + rewrite Hu by lia. done.
    + intros y Hy. destruct (B7 y) as [C1 C2]; [by right |]. split; [done |]. rewrite Hu; [done |]. apply HH. by right.
  - intros y Hy. apply HH. by right.
  - destruct R as [R1 R2]. pose proof (in_use_log_add b bl H ltac:(destruct T as [_ Hn _ _ _ _ _ _]; by apply NoDup_cons in Hn as [_ Hn])). split.
    + rewrite (tstep_log_size _ _ S), length_log_add. case_decide; lia.
    + assert (in_use bl H <= in_use bl (b :: H))%nat by (unfold in_use; rewrite filter_cons; case_decide; cbn [length]; lia). lia.
Qed.

(** What bmap does for block index [k] of a file of [nb] blocks: the block's address, allocated if the file had none, or 0
    and a full disk. *)
Record bmapped (s : kernel) (v : Z -> list Z) (H : list Z) (ip : nat) (nb k r : Z) (s' : kernel) (v' : Z -> list Z) (nb' : Z) : Prop := mkBmapped {
  bp_step : istep ip s s';
  bp_fmap : fmap s' v' H (itable s' !!! ip) nb';
  bp_extends : extends s v (itable s !!! ip) nb v' (itable s' !!! ip) nb';
  bp_data : forall j, 0 <= j < nb -> v' (baddr v (itable s !!! ip) j) = v (baddr v (itable s !!! ip) j);
  bp_result : (r <> 0 /\ nb' = Z.max nb (k + 1) /\ r = baddr v' (itable s' !!! ip) k /\ (nb <= k -> v' r = zeros)) \/ (r = 0 /\ nb' = nb /\ disk_full s' v')
}.

Lemma inode_alter ip f s : (ip < length (itable s))%nat -> itable (set_itable (alter f ip (itable s)) s) !!! ip = f (itable s !!! ip).
Proof. intros Hip. cbn. by apply alter_total_inode. Qed.

Lemma disk_full_ext s s' v : sb s' = sb s -> disk_full s v -> disk_full s' v.
Proof. intros E D x. rewrite E. apply D. Qed.

Section bmap.
Context (H : list Z) (ip : nat).

(** A direct block. *)
Lemma bmap_direct s v bl nb c : let i := itable s !!! ip in (ip < length (itable s))%nat -> disk_ok s v bl H (S (S c)) -> fmap s v H i nb -> inode_used s v (i_inum i) -> nb < NDIRECT ->
  exists r s' v' bl' nb', bmap ip nb s = Ret r s' /\ disk_ok s' v' bl' H c /\ bmapped s v H ip nb nb r s' v' nb'.
Proof.
  intros i Hip D F U Hk. pose proof (fm_nb _ _ _ _ _ F) as Hnb. assert (Hz : i_addrs i !!! Z.to_nat nb = 0).
  { pose proof (fm_zero _ _ _ _ _ F nb ltac:(fconsts; lia) ltac:(by left)) as Hz. unfold baddr in Hz. destruct (Z.ltb_spec nb NDIRECT); [done | lia]. }
  destruct (balloc_takes s v bl H c D) as (r & s1 & E1 & S1 & _ & C). pose proof (istep_of_tstep ip _ _ S1) as I1. pose proof (tstep_itable _ _ S1) as Ei.
  unfold bmap, getinode. erewrite bind_Ret by reflexivity. cbv beta. fold i. destruct (Z.ltb_spec nb NDIRECT); [|lia]. rewrite in_bounds_run by (unfold alen; rewrite (fm_len _ _ _ _ _ F); fconsts; lia). cbv zeta. rewrite Hz. change (0 =? 0) with true. cbv iota.
  rewrite (fm_dev _ _ _ _ _ F). erewrite bind_Ret by exact E1. cbv beta. destruct C as [(v1 & bl1 & K & D1)|(-> & Full & D1)].
  - destruct (Z.eqb_spec r 0) as [->|Hr]; [pose proof (tk_range _ _ _ _ _ K); lia |]. unfold upd_inode. erewrite bind_Ret by reflexivity. rewrite Ei.
    set (s2 := set_itable _ s1). assert (I2 : itable s2 !!! ip = set_i_addrs (<[Z.to_nat nb := r]> (i_addrs i)) i) by (unfold s2; cbn; by rewrite alter_total_inode).
    destruct (fmap_direct s s2 v v1 H i nb r F K U (tstep_sb _ _ S1) (fun x => tstep_in_log _ _ x S1) Hk) as (F2 & X2 & B2).
    exists r, s2, v1, bl1, (nb + 1). split; [done |]. split; [by apply disk_ok_itable |]. split; rewrite ?I2; fold i; try done.
    + eapply istep_trans; [exact I1 |]. assert (Es : s2 = set_itable (alter (set_i_addrs (<[Z.to_nat nb := r]> (i_addrs i))) ip (itable s1)) s1).
      { unfold s2. rewrite Ei. f_equal. apply list_eq. intros j. destruct (decide (j = ip)) as [->|]; [|by rewrite !list_lookup_alter_ne]. rewrite !list_lookup_alter_eq. unfold i. rewrite list_lookup_total_alt. by destruct (itable s !! ip). }
      rewrite Es. apply istep_upd.
    + intros j Hj. apply (taken_old s s2 v v1 H i r K (tstep_sb _ _ S1) (fun x => tstep_in_log _ _ x S1)), F. done.
    + left. split_and!; [done | lia | done | intros _; apply K].
  - change (0 =? 0) with true. cbv iota. exists 0, s1, v, bl, nb. split; [done |]. split; [by eapply disk_ok_weaken; [|exact D1]; lia |]. split; rewrite ?Ei; fold i; try done.
    + eapply fmap_ext; [by apply tstep_sb | intros x; by apply tstep_in_log | auto | done | done].
    + apply extends_refl.
    + right. split_and!; [done | done |]. by eapply disk_full_ext; [apply tstep_sb | ].
Qed.

(** The part of bmap that looks up, or fills in, an entry of the indirect block [addr]. *)
Definition bmap_slot (addr bn : Z) : M kernel Z :=
  bp ← bread ROOTDEV addr;
  d ← getbuf bp;
  in_bounds bn (alen (b_data d) / 4) ;;
  let a := get32 (4 * bn) (b_data d) in
  a ← (if a =? 0 then
         a ← balloc ROOTDEV;
         if a =? 0 then mret 0 else
         upd_buf bp (fun d => set_b_data (put32 (4 * bn) a (b_data d)) d) ;;
         log_write bp ;;
         mret a
       else mret a);
  brelse bp ;;
  mret a.

Lemma taken_data s s' v v' i nb r : fmap s v H i nb -> taken s v H v' r -> sb s' = sb s -> (forall x, in_log (logst s') x <-> in_log (logst s) x) ->
  forall j, 0 <= j < nb -> v' (baddr v i j) = v (baddr v i j).
Proof. intros F K Es El j Hj. apply (taken_old s s' v v' H i r K Es El). by apply F. Qed.

Lemma bmap_entry s v bl nb c : let i := itable s !!! ip in (ip < length (itable s))%nat -> disk_ok s v bl H (4 + c) -> fmap s v H i nb -> inode_used s v (i_inum i) -> NDIRECT <= nb < MAXFILE -> indirect i <> 0 ->
  exists r s' v' bl' nb', bmap_slot (indirect i) (nb - NDIRECT) s = Ret r s' /\ disk_ok s' v' bl' H c /\ bmapped s v H ip nb nb r s' v' nb'.
Proof.
  intros i Hip D F U Hk Hi. pose proof (fm_zero _ _ _ _ _ F nb ltac:(lia) ltac:(by right)) as Hz. unfold baddr in Hz. destruct (Z.ltb_spec nb NDIRECT); [lia |].
  pose proof (fm_ind _ _ _ _ _ F Hi) as Oi. destruct (hold_block s v bl H _ _ (3 + c) D Oi) as (j & s1 & E1 & D1 & Hj & S1 & Dk). pose proof (tstep_sb _ _ S1) as Es1.
  unfold bmap_slot. erewrite bind_Ret by exact E1. cbv beta. unfold getbuf. erewrite bind_Ret by reflexivity. cbv beta zeta. rewrite (tx_data s1 v bl _ _ j (dk_tx _ _ _ _ _ D1) Hj), (tx_alen _ _ _ _ _ (dk_tx _ _ _ _ _ D1)). rewrite in_bounds_run by (change (BSIZE / 4) with 256; fconsts; lia). rewrite Hz. change (0 =? 0) with true. cbv iota.
  destruct (balloc_takes s1 v bl (indirect i :: H) (1 + c) D1) as (r & s2 & E2 & S2 & Y2 & C). pose proof (Y2 (indirect i) j ltac:(left) Hj) as Hj2. pose proof (tstep_trans _ _ _ S1 S2) as S12. pose proof (tstep_sb _ _ S12) as Es2.
  destruct C as [(v1 & bl1 & K & D2)|(-> & Full & D2)].
  - assert (Hr : 0 < r < sb_size (sb s)) by (rewrite <- Es1; apply K). assert (K' : taken s v H v1 r).
    { destruct K as [K1 K2 K3 K4 K5 K6 K7 K8 K0 K9]. rewrite Es1 in *. split; try done; [destruct K3 as [K3 K3']; split; [done | by rewrite <- (tstep_in_log _ _ r S1)] |]. apply not_elem_of_cons in K5. apply K5. }
    assert (El : forall x, in_log (logst s2) x <-> in_log (logst s) x) by (intros x; by apply tstep_in_log).
    destruct (taken_old s s2 v v1 H i r K' Es2 El _ Oi) as (O2 & _ & Ev).
    assert (Hlen : forall b, length (v b) = Z.to_nat BSIZE) by (intros b; eapply tx_len, dk_tx, D). assert (Hsz : sb_size (sb s) < 2 ^ 32) by (pose proof (bm_size _ _ _ (dk_bm _ _ _ _ _ D)); lia).
    set (x := put32 (4 * (nb - NDIRECT)) r (v1 (indirect i))). destruct (store_block s2 v1 bl1 H (indirect i) j x c D2 Hj2) as (s3 & s4 & s5 & E3 & E4 & E5 & S5 & D5).
    { apply O2. }
    { apply O2. }
    { unfold x. rewrite Ev. unfold put32. rewrite length_splice; rewrite ?Hlen, ?length_le_enc; fconsts; lia. }
    assert (Es5 : sb s5 = sb s) by (by rewrite (tstep_sb _ _ S5)). assert (El5 : forall y, in_log (logst s5) y <-> in_log (logst s) y) by (intros y; rewrite (tstep_in_log _ _ y S5); apply El).
    destruct (fmap_entry s s5 v v1 H i nb r F K' U Es5 El5 Hi Hk Hlen Hsz) as (F5 & X5 & B5 & _). fold x in F5, X5, B5. assert (S15 : tstep s s5) by (by eapply tstep_trans). pose proof (tstep_itable _ _ S15) as Ei.
    exists r, s5, (fupd v1 (indirect i) x), (log_add (indirect i) bl1), (nb + 1). split; [|split; [done |]].
    + erewrite bind_Ret; [|erewrite bind_Ret by exact E2; cbv beta; destruct (Z.eqb_spec r 0); [lia |]; erewrite bind_Ret; [|rewrite (upd_buf_data j (put32 (4 * (nb - NDIRECT)) r)), (tx_data s2 v1 bl1 _ _ j (dk_tx _ _ _ _ _ D2) Hj2); exact E3]; erewrite bind_Ret by exact E4; reflexivity].
      cbv beta. erewrite bind_Ret by exact E5. done.
    + split; rewrite ?Ei; fold i; try done.
      * by apply istep_of_tstep.
      * intros y Hy. rewrite fupd_ne by (by apply F). by apply (taken_data s s5 v v1 i nb r).
      * left. split_and!; [lia | lia | done |]. intros _. rewrite fupd_ne; [apply K |]. intros ->. destruct (taken_old s s2 v v1 H i (indirect i) K' Es2 El _ Oi) as (_ & Hne & _). done.
  - destruct (tx_release s2 v bl H (indirect i) j (dk_tx _ _ _ _ _ D2) Hj2) as (s3 & E3 & T3 & S3 & _).
    { rewrite (tstep_disk _ _ S2), Dk. eapply tx_clean; [apply D | apply Oi]. }
    assert (S13 : tstep s s3) by (by eapply tstep_trans). pose proof (tstep_itable _ _ S13) as Ei. exists 0, s3, v, bl, nb. split; [|split].
    + erewrite bind_Ret; [|erewrite bind_Ret by exact E2; reflexivity]. cbv beta. erewrite bind_Ret by exact E3. done.
    + eapply disk_ok_weaken; [|by eapply disk_ok_drop]. lia.
    + split; rewrite ?Ei; fold i; try done.
      * by apply istep_of_tstep.
      * apply (fmap_ext s s3 v v); [by apply tstep_sb | intros x; by apply tstep_in_log | auto | done | done].
      * apply extends_refl.
      * right. split_and!; [done | done |]. eapply disk_full_ext; [|exact Full]. rewrite (tstep_sb _ _ S13). done.
Qed.

Lemma disk_ok_tstep s s' v bl k : disk_ok s v bl H k -> tstep s s' -> tx s' v bl H -> disk_ok s' v bl H k.
Proof.
  intros [T B H0 HH Hpr [R1 R2]] S T'. pose proof (tstep_sb _ _ S) as Es. split; rewrite ?Es, ?(tstep_held _ _ S); try done.
  - apply (bm_ok_ext s s'); [done | intros x; by apply tstep_in_log | done].
  - split; [by rewrite (tstep_log_size _ _ S) | done].
Qed.

Lemma inode_used_step s s' v v' i nb i' nb' inum : istep ip s s' -> extends s v i nb v' i' nb' -> inode_used s v inum -> inode_used s' v' inum.
Proof. intros S X (U1 & U2 & U3). unfold inode_used. rewrite (istep_sb _ _ _ S). split_and!; try lia; [|done]. apply (ex_used _ _ _ _ _ _ _ X); [lia | done]. Qed.

Lemma extends_sb s s' v i nb v' i' nb' : sb s' = sb s -> extends s' v i nb v' i' nb' -> extends s v i nb v' i' nb'.
Proof. intros E [X1 X2 X3 X4 X5 X6 X7 X8]. rewrite E in *. by split. Qed.

(** A first step that only allocates the indirect block. *)
Lemma bmapped_trans s v nb k r s1 v1 s2 v2 nb2 : istep ip s s1 -> extends s v (itable s !!! ip) nb v1 (itable s1 !!! ip) nb -> (forall j, 0 <= j < nb -> v1 (baddr v (itable s !!! ip) j) = v (baddr v (itable s !!! ip) j)) ->
  bmapped s1 v1 H ip nb k r s2 v2 nb2 -> bmapped s v H ip nb k r s2 v2 nb2.
Proof.
  intros S X Dt [B1 B2 B3 B4 B5]. split; try done.
  - by eapply istep_trans.
  - eapply extends_trans; [exact X |]. eapply extends_sb; [|exact B3]. by apply (istep_sb ip).
  - intros j Hj. rewrite <- (ex_addr _ _ _ _ _ _ _ X j Hj) at 1. rewrite B4 by done. rewrite (ex_addr _ _ _ _ _ _ _ X j Hj). by apply Dt.
Qed.

(** Setting an address of the inode is a step of [istep]. *)
Lemma istep_set_addr s n r : istep ip s (set_itable (alter (fun i => set_i_addrs (<[n := r]> (i_addrs i)) i) ip (itable s)) s).
Proof.
  replace (alter (fun i => set_i_addrs (<[n := r]> (i_addrs i)) i) ip (itable s)) with (alter (set_i_addrs (<[n := r]> (i_addrs (itable s !!! ip)))) ip (itable s)); [apply istep_upd |].
  apply list_eq. intros j. destruct (decide (j = ip)) as [->|]; [|by rewrite !list_lookup_alter_ne]. rewrite !list_lookup_alter_eq, list_lookup_total_alt. by destruct (itable s !! ip).
Qed.

Lemma bmap_grows s v bl nb k c : let i := itable s !!! ip in (ip < length (itable s))%nat -> disk_ok s v bl H (6 + c) -> fmap s v H i nb -> inode_used s v (i_inum i) -> 0 <= k <= nb -> k < MAXFILE ->
  exists r s' v' bl' nb', bmap ip k s = Ret r s' /\ disk_ok s' v' bl' H c /\ bmapped s v H ip nb k r s' v' nb'.
Proof.
  intros i Hip D F U Hk Hm. destruct (Z.lt_ge_cases k nb) as [Hlt|Hge].
  - pose proof (fm_blk _ _ _ _ _ F k ltac:(lia)) as O. destruct (bmap_hit s v bl H ip k (dk_tx _ _ _ _ _ D)) as (s1 & E1 & T1 & S1); fold i.
    { destruct (dk_room _ _ _ _ _ D). lia. }
    { apply F. }
    { apply F. }
    { lia. }
    { pose proof (ob_range _ _ _ _ _ O). lia. }
    { intros Hd. pose proof (fm_need _ _ _ _ _ F ltac:(lia)) as Hi. split; [done |]. apply (fm_ind _ _ _ _ _ F Hi). }
    pose proof (tstep_itable _ _ S1) as Ei. fold i in E1. exists (baddr v i k), s1, v, bl, nb. split; [done |]. split; [eapply disk_ok_weaken; [|by eapply disk_ok_tstep]; lia |]. split; rewrite ?Ei; fold i; try done.
    + by apply istep_of_tstep.
    + apply (fmap_ext s s1 v v); [by apply tstep_sb | intros x; by apply tstep_in_log | auto | done | done].
    + apply extends_refl.
    + left. split_and!; [pose proof (ob_range _ _ _ _ _ O); lia | lia | done | lia].
  - replace k with nb in * by lia. destruct (Z.lt_ge_cases nb NDIRECT) as [Hd|Hd]; [apply bmap_direct with (bl := bl); [done | eapply disk_ok_weaken; [|exact D]; lia | done | done | done] |].
    assert (Hn1 : nb <? NDIRECT = false) by (apply Z.ltb_ge; lia). assert (Hn2 : nb - NDIRECT <? NINDIRECT = true) by (apply Z.ltb_lt; unfold MAXFILE in *; lia).
    unfold bmap, getinode. erewrite bind_Ret by reflexivity. cbv beta. fold i. rewrite Hn1. cbv zeta. rewrite Hn2, in_bounds_run by (unfold alen; rewrite (fm_len _ _ _ _ _ F); fconsts; lia). rewrite (fm_dev _ _ _ _ _ F). fold (indirect i).
    destruct (Z.eqb_spec (indirect i) 0) as [Hi|Hi].
    + assert (nb = NDIRECT) as -> by (destruct (Z.eq_dec nb NDIRECT); [done | exfalso; apply (fm_need _ _ _ _ _ F); [lia | done]]).
      destruct (balloc_takes s v bl H (4 + c) D) as (r & s1 & E1 & S1 & _ & C). pose proof (tstep_itable _ _ S1) as Ei. destruct C as [(v1 & bl1 & K & D1)|(-> & Full & D1)].
      * destruct (Z.eqb_spec r 0) as [Hr|Hr]; [pose proof (tk_range _ _ _ _ _ K); lia |].
        set (s2 := set_itable (alter (fun i => set_i_addrs (<[Z.to_nat NDIRECT := r]> (i_addrs i)) i) ip (itable s1)) s1).
        assert (Hip1 : (ip < length (itable s1))%nat) by (by rewrite Ei). assert (I2 : itable s2 !!! ip = set_i_addrs (<[Z.to_nat NDIRECT := r]> (i_addrs i)) i) by (unfold s2; rewrite inode_alter by done; by rewrite Ei).
        destruct (fmap_indirect s s2 v v1 H i NDIRECT r F K U (tstep_sb _ _ S1) (fun x => tstep_in_log _ _ x S1) Hi eq_refl) as (F2 & X2 & B2). rewrite <- I2 in F2, X2, B2.
        assert (IS : istep ip s s2) by (eapply istep_trans; [by apply istep_of_tstep | apply istep_set_addr]).
        erewrite bind_Ret; [|erewrite bind_Ret by exact E1; cbv beta; apply Z.eqb_neq in Hr; rewrite Hr; unfold upd_inode; erewrite bind_Ret by reflexivity; reflexivity]. cbv beta. apply Z.eqb_neq in Hr as Hr'. rewrite Hr'.
        destruct (bmap_entry s2 v1 bl1 NDIRECT c) as (r2 & s3 & v3 & bl3 & nb3 & E3 & D3 & P3).
        { unfold s2. cbn. by rewrite length_alter. }
        { by apply disk_ok_itable. }
        { done. }
        { rewrite I2. eapply inode_used_step; [exact IS | exact X2 | exact U]. }
        { fconsts. lia. }
        { by rewrite B2. }
        rewrite B2 in E3. exists r2, s3, v3, bl3, nb3. split; [exact E3 |]. split; [done |]. eapply bmapped_trans; [exact IS | exact X2 | | exact P3].
        apply (taken_data s s2 v v1 i NDIRECT r); [done | done | by apply (istep_sb ip) | intros x; by apply (istep_in_log ip)].
      * erewrite bind_Ret; [|erewrite bind_Ret by exact E1; reflexivity]. cbv beta. change (0 =? 0) with true. cbv iota. exists 0, s1, v, bl, NDIRECT. split; [done |].
        split; [eapply disk_ok_weaken; [|exact D1]; lia |]. split; rewrite ?Ei; fold i; try done; [by apply istep_of_tstep | | apply extends_refl |].
        -- apply (fmap_ext s s1 v v); [by apply tstep_sb | intros x; by apply tstep_in_log | auto | done | done].
        -- right. split_and!; [done | done |]. apply (disk_full_ext s); [by apply tstep_sb | done].
    + erewrite bind_Ret by reflexivity. cbv beta. destruct (Z.eqb_spec (indirect i) 0); [done |]. apply bmap_entry with (bl := bl); [done | eapply disk_ok_weaken; [|exact D]; lia | done | done | lia | done].
Qed.
End bmap.

(** ** Storing into an allocated block *)

(** The file with all the room its blocks have. *)
Definition roomy (i : inode) (nb : Z) : inode := set_i_size (nb * BSIZE) i.

Lemma in_roomy i nb k : 0 <= nb -> in_file (roomy i nb) k <-> 0 <= k < nb.
Proof. intros Hnb. unfold in_file. cbn. unfold BSIZE. lia. Qed.

Lemma fmap_file s v H i nb : fmap s v H i nb -> file_ok s v H (roomy i nb).
Proof.
  intros [A1 A2 A3 A4 A5 A6 A7 A8 A9]. split; try done.
  - cbn. fconsts. lia.
  - intros k Hk. apply in_roomy in Hk; [|lia]. pose proof (A4 k Hk) as O. change (baddr v (roomy i nb) k) with (baddr v i k). split; [pose proof (ob_range _ _ _ _ _ O); lia |]. split; apply O.
  - intros Hs. change (indirect (roomy i nb)) with (indirect i). cbn in Hs. assert (Hi : indirect i <> 0) by (apply A6; fconsts; lia). pose proof (A5 Hi) as O. split; [done |]. split; apply O.
  - intros k Hk. apply in_roomy in Hk; [|lia]. by apply A7.
  - intros k k' Hk Hk'. apply in_roomy in Hk; [|lia]. apply in_roomy in Hk'; [|lia]. by apply A8.
Qed.

(** [v'] after bytes [l] went to offset [off] of the file, within its blocks. *)
Lemma fmap_written s s' v v' H i nb off l : sb s' = sb s -> (forall x, in_log (logst s') x <-> in_log (logst s) x) -> written v v' (roomy i nb) off l -> fmap s v H i nb ->
  fmap s' v' H i nb /\ extends s v i nb v' i nb /\ (forall b, 0 <= b < sb_size (sb s) -> used v' (sb s) b = used v (sb s) b).
Proof.
  intros Es El [W1 W2 W3] F. pose proof F as [A1 A2 A3 A4 A5 A6 A7 A8 A9].
  assert (B : forall k, baddr v' i k = baddr v i k) by (intros k; apply (W1 k)).
  assert (Hfr : forall b, ~ of_file v i nb b -> v' b = v b). { intros b Hb. apply W3. intros k Hk E. apply in_roomy in Hk; [|lia]. apply Hb. left. by exists k. }
  assert (Hu : forall b, 0 <= b < sb_size (sb s) -> used v' (sb s) b = used v (sb s) b).
  { intros b Hb. unfold used. rewrite Hfr; [done |]. intros Ho. apply (ob_bitmap _ _ _ _ _ (fmap_range _ _ _ _ _ F _ Ho)). by exists b. }
  assert (Ho : forall b, own_blk s v H (i_inum i) b -> own_blk s' v' H (i_inum i) b).
  { intros b O. eapply own_blk_ext; [done | done | | exact O]. rewrite Hu; [apply O |]. pose proof (ob_range _ _ _ _ _ O). lia. }
  assert (Hof : forall b, of_file v' i nb b <-> of_file v i nb b) by (intros b; unfold of_file; by setoid_rewrite B).
  split; [|split; [|done]].
  - split; try done; intros k; rewrite ?B; auto. intros k' Hk Hk'. rewrite B. by apply A8.
  - split; try done.
    + intros b Hb Hub. by rewrite Hu.
    + intros b Hb. rewrite Hu by done. by left.
    + intros b Hm Hf. apply Hfr. intros Ho'. apply Hf, Hof, Ho'.
    + intros b. apply Hof.
    + intros b Hb. left. by apply Hof.
Qed.

(** ** The bytes of a growing file *)

Record grown (s : kernel) (v : Z -> list Z) (i : inode) (nb : Z) (v' : Z -> list Z) (i' : inode) (nb' off : Z) (l : list Z) : Prop := mkGrown {
  gw_ext : extends s v i nb v' i' nb';
  gw_byte : forall o, 0 <= o < nb' * BSIZE -> fbyte v' i' o =
    if decide (off <= o < off + Z.of_nat (length l)) then l !!! Z.to_nat (o - off) else if decide (o < nb * BSIZE) then fbyte v i o else 0
}.

Lemma grown_none s v i nb off : grown s v i nb v i nb off [].
Proof. split; [apply extends_refl |]. intros o Ho. rewrite decide_False by (cbn; lia). by rewrite decide_True by lia. Qed.

Lemma grown_trans s v i nb v1 i1 nb1 v2 i2 nb2 off l1 l2 : grown s v i nb v1 i1 nb1 off l1 -> grown s v1 i1 nb1 v2 i2 nb2 (off + Z.of_nat (length l1)) l2 -> 0 <= off -> off + Z.of_nat (length l1) <= nb1 * BSIZE ->
  grown s v i nb v2 i2 nb2 off (l1 ++ l2).
Proof.
  intros [X1 B1] [X2 B2] Ho Hfit. split; [by eapply extends_trans |]. intros o Hr. rewrite B2 by done. rewrite length_app. pose proof (ex_nb _ _ _ _ _ _ _ X1) as Hn1.
  destruct (decide (off + Z.of_nat (length l1) <= o < off + Z.of_nat (length l1) + Z.of_nat (length l2))) as [H2|H2].
  - rewrite decide_True by lia. rewrite lookup_total_app_r by lia. f_equal. lia.
  - destruct (decide (o < nb1 * BSIZE)) as [H1|H1].
    + rewrite B1 by lia. destruct (decide (off <= o < off + Z.of_nat (length l1))) as [Hin|Hin]; [rewrite decide_True by lia; rewrite lookup_total_app_l by lia; done | rewrite (decide_False (P := off <= o < off + Z.of_nat (length l1 + length l2))) by lia; done].
    + rewrite decide_False by lia. rewrite decide_False; [done |]. unfold BSIZE in *. lia.
Qed.

(** bmap adds zero blocks at most. *)
Lemma bmapped_bytes s v H ip nb k r s' v' nb' : fmap s v H (itable s !!! ip) nb -> 0 <= k <= nb -> bmapped s v H ip nb k r s' v' nb' -> grown s v (itable s !!! ip) nb v' (itable s' !!! ip) nb' 0 [].
Proof.
  intros F Hk [P1 P2 P3 P4 P5]. split; [done |]. intros o Ho. rewrite decide_False by (cbn; lia). pose proof (fm_nb _ _ _ _ _ F) as Hnb. unfold fbyte.
  assert (Hd : 0 <= o / BSIZE) by (apply Z.div_pos; unfold BSIZE; lia). assert (Hd2 : o / BSIZE < nb') by (apply Z.div_lt_upper_bound; unfold BSIZE in *; lia).
  destruct (decide (o < nb * BSIZE)) as [Hlt|Hge].
  - assert (Hk' : 0 <= o / BSIZE < nb) by (split; [done | apply Z.div_lt_upper_bound; unfold BSIZE in *; lia]). rewrite (ex_addr _ _ _ _ _ _ _ P3) by done. by rewrite P4.
  - assert (nb <= o / BSIZE) by (apply Z.div_le_lower_bound; unfold BSIZE in *; lia). destruct P5 as [(_ & En & -> & Hz)|(_ & -> & _)]; [|lia].
    assert (o / BSIZE = k) as -> by lia. rewrite Hz by lia. unfold zeros. rewrite lookup_total_replicate_2; [done |]. pose proof (Z.mod_pos_bound o BSIZE ltac:(unfold BSIZE; lia)). lia.
Qed.

(** ** writei *)

Lemma grown_app0 s v i nb v1 i1 nb1 off l v2 : grown s v i nb v1 i1 nb1 0 [] -> grown s v1 i1 nb1 v2 i1 nb1 off l -> 0 <= off -> grown s v i nb v2 i1 nb1 off l.
Proof.
  intros [X1 B1] [X2 B2] Ho. split; [by eapply extends_trans |]. intros o Hr. rewrite B2 by done. destruct (decide (off <= o < off + Z.of_nat (length l))); [done |].
  rewrite decide_True by lia. rewrite B1 by done. by rewrite decide_False by (cbn; lia).
Qed.

Lemma grown_sb s s' v i nb v' i' nb' off l : sb s' = sb s -> grown s' v i nb v' i' nb' off l -> grown s v i nb v' i' nb' off l.
Proof. intros E [X B]. split; [by eapply extends_sb | done]. Qed.

Section writei.
Context (H : list Z) (ip : nat).

(** One round: the block of [off], allocated if need be, gets [l]. *)
Lemma write_round s v bl nb off l c : let i := itable s !!! ip in
  (ip < length (itable s))%nat -> disk_ok s v bl H (7 + c) -> fmap s v H i nb -> inode_used s v (i_inum i) -> 0 <= off <= nb * BSIZE -> off < MAXFILE * BSIZE ->
  off mod BSIZE + Z.of_nat (length l) <= BSIZE -> l <> [] ->
  exists a s1, bmap ip (off / BSIZE) s = Ret a s1 /\
   ((a = 0 /\ exists v' bl', istep ip s s1 /\ disk_ok s1 v' bl' H c /\ fmap s1 v' H (itable s1 !!! ip) nb /\ grown s v i nb v' (itable s1 !!! ip) nb off [] /\ disk_full s1 v') \/
    (a <> 0 /\ exists b s2 s3 s4 s5 v' bl' nb', bread ROOTDEV a s1 = Ret b s2 /\ upd_buf b (fun d => set_b_data (splice (off mod BSIZE) l (b_data d)) d) s2 = Ret tt s3 /\
       log_write b s3 = Ret tt s4 /\ brelse b s4 = Ret tt s5 /\ istep ip s s5 /\ disk_ok s5 v' bl' H c /\ fmap s5 v' H (itable s5 !!! ip) nb' /\ itable s1 = itable s5 /\
       off + Z.of_nat (length l) <= nb' * BSIZE /\ grown s v i nb v' (itable s5 !!! ip) nb' off l /\ same_user s s2 /\ alen (b_data (bufs s2 !!! b)) = BSIZE)).
Proof.
  intros i Hip D F U Ho Hmax Hfit Hl. set (k := off / BSIZE). pose proof (Z.div_mod off BSIZE ltac:(unfold BSIZE; lia)) as Hdm. pose proof (Z.mod_pos_bound off BSIZE ltac:(unfold BSIZE; lia)) as Hmod. fold k in Hdm.
  assert (Hlen : 0 < Z.of_nat (length l)) by (destruct l; [done | cbn; lia]). assert (Hk : 0 <= k <= nb /\ k < MAXFILE) by (unfold BSIZE in *; lia).
  destruct (bmap_grows H ip s v bl nb k (1 + c) Hip D F U ltac:(lia) ltac:(lia)) as (a & s1 & v1 & bl1 & nb1 & E1 & D1 & P). pose proof (bmapped_bytes s v H ip nb k a s1 v1 nb1 F ltac:(lia) P) as G1.
  pose proof (bp_step _ _ _ _ _ _ _ _ _ _ P) as I1. pose proof (bp_fmap _ _ _ _ _ _ _ _ _ _ P) as F1. exists a, s1. split; [done |]. destruct (bp_result _ _ _ _ _ _ _ _ _ _ P) as [(Ha & En & Ea & _)|(-> & -> & Full)].
  2: { left. split; [done |]. exists v1, bl1. split_and!; [done | exact (disk_ok_weaken _ _ _ _ (1 + c) c ltac:(lia) D1) | done | | done]. destruct G1 as [X1 B1]. split; [done |]. intros o Hor. rewrite B1 by done. rewrite decide_False by (cbn; lia). rewrite (decide_False (P := off <= o < _)) by (cbn; lia). done. }
  right. split; [done |]. set (i1 := itable s1 !!! ip) in *. assert (Hfit1 : off + Z.of_nat (length l) <= nb1 * BSIZE) by (unfold BSIZE in *; lia).
  destruct (write_block_ok s1 v1 bl1 H (roomy i1 nb1) off l c (dk_tx _ _ _ _ _ D1) (fmap_file _ _ _ _ _ F1) (dk_room _ _ _ _ _ D1)) as (b & s2 & s3 & s4 & s5 & v5 & E2 & E3 & E4 & E5 & T5 & S5 & R5 & W & S2 & La); [cbn; unfold BSIZE in *; lia | done | done |].
  change (baddr v1 (roomy i1 nb1) (off / BSIZE)) with (baddr v1 i1 k) in *. rewrite <- Ea in *. destruct (fmap_written s1 s5 v1 v5 H i1 nb1 off l) as (F5 & X5 & Hu5); [by apply tstep_sb | intros x; by apply tstep_in_log | done | done |].
  pose proof (tstep_itable _ _ S5) as Ei5. pose proof (tstep_sb _ _ S5) as Es5. assert (I5 : itable s5 !!! ip = i1) by (by rewrite Ei5).
  exists b, s2, s3, s4, s5, v5, (log_add a bl1), nb1. rewrite I5. split_and!; try done.
  - eapply istep_trans; [exact I1 | by apply istep_of_tstep].
  - destruct D1 as [Dt Db Ds Dh Dp Dr]. split; rewrite ?Es5, ?(tstep_held _ _ S5); try done. eapply bm_ok_mono; [exact Db | done | | done | done]. intros x Hx Hux. by rewrite Hu5.
  - apply (grown_app0 s v i nb v1 i1 nb1); [done | | lia]. apply (grown_sb s s1); [by apply (istep_sb ip) |]. split; [done |]. intros o Hor. change (fbyte v5 i1 o) with (fbyte v5 (roomy i1 nb1) o).
    rewrite (wr_byte _ _ _ _ _ W) by (cbn; unfold BSIZE in *; lia). case_decide; [done |]. by rewrite decide_True by lia.
  - eapply same_user_trans; [by eapply same_user_istep | by apply same_user_tstep].
Qed.

Lemma writei_loop_grows G : forall fuel s v bl nb off src l n c, source s G -> G src l -> let i := itable s !!! ip in let r := Z.of_nat (length l) in
  (ip < length (itable s))%nat -> disk_ok s v bl H (7 * Z.to_nat (touched off r) + c) -> fmap s v H i nb -> inode_used s v (i_inum i) -> 0 <= off <= nb * BSIZE ->
  off + r <= MAXFILE * BSIZE -> touched off r < Z.of_nat fuel ->
  exists m s' v' bl' nb', writei_loop fuel ip src off n (n - r) s = Ret (n - r + Z.of_nat m, off + Z.of_nat m) s' /\ (m <= length l)%nat /\ istep ip s s' /\ disk_ok s' v' bl' H c /\
    fmap s' v' H (itable s' !!! ip) nb' /\ off + Z.of_nat m <= nb' * BSIZE /\ grown s v i nb v' (itable s' !!! ip) nb' off (take m l) /\ (m = length l \/ (disk_full s' v' /\ (m = 0%nat \/ (off + Z.of_nat m) mod BSIZE = 0))).
Proof.
  induction fuel as [|fuel IH]; intros s v bl nb off src l n c HG Hsrc i r Hip D F U Ho Hmax Hf; pose proof (touched_bound off r ltac:(lia) ltac:(lia)) as Htb; [lia |]. cbn [writei_loop].
  destruct (Z.ltb_spec (n - r) n) as [Hlt|Hge].
  2: { assert (length l = 0%nat) as Hl by lia. exists 0%nat, s, v, bl, nb. rewrite !Z.add_0_r. rewrite firstn_O. split_and!; try done; [lia | by apply istep_of_tstep, tstep_refl | eapply disk_ok_weaken; [|exact D]; lia | lia | apply grown_none | by left]. }
  destruct (touched_step off r ltac:(lia) ltac:(lia)) as (Hm & Hmb & Ht). replace (n - (n - r)) with r by lia. set (m := Z.min r (BSIZE - off mod BSIZE)) in *.
  assert (Ht0 : 0 <= touched (off + m) (r - m)) by (apply touched_bound; lia). assert (Em : length (take (Z.to_nat m) l) = Z.to_nat m) by (rewrite length_take; lia).
  assert (Ed : Z.of_nat (length (drop (Z.to_nat m) l)) = r - m) by (rewrite length_drop; lia).
  destruct (write_round s v bl nb off (take (Z.to_nat m) l) (7 * Z.to_nat (touched (off + m) (r - m)) + c) Hip) as (a & s1 & E1 & Hc); try done; try lia.
  { eapply disk_ok_weaken; [|exact D]. lia. }
  { intros E. rewrite E in Em. cbn in Em. lia. }
  erewrite bind_Ret by exact E1. cbv beta. destruct Hc as [(-> & v1 & bl1 & I1 & D1 & F1 & G1 & Full)|(Ha & b & s2 & s3 & s4 & s5 & v5 & bl5 & nb5 & E2 & E3 & E4 & E5 & I5 & D5 & F5 & Eit & Hfit & G5 & Su & La)].
  - change (0 =? 0) with true. cbv iota. exists 0%nat, s1, v1, bl1, nb. rewrite !Z.add_0_r, firstn_O. split_and!; try done; [lia | eapply disk_ok_weaken; [|exact D1]; lia | lia | right; split; [done | by left]].
  - apply Z.eqb_neq in Ha as Ha'. rewrite Ha'. unfold getinode. erewrite bind_Ret by reflexivity. cbv beta. rewrite Eit, (fm_dev _ _ _ _ _ F5). erewrite bind_Ret by exact E2. cbv beta zeta.
    unfold getbuf. erewrite bind_Ret by reflexivity. cbv beta. rewrite La, in_prefix_run by lia.
    destruct (HG src l m s2 Hsrc Su ltac:(lia)) as [Ec Hsrc']. erewrite bind_Ret by exact Ec. cbv beta. cbn [fst snd]. erewrite bind_Ret by exact E3. cbv beta. change (0 =? -1) with false. cbv iota. erewrite bind_Ret by exact E4. erewrite bind_Ret by exact E5.
    rewrite Em, Z2Nat.id in Hfit by lia. assert (Hip5 : (ip < length (itable s5))%nat) by (by rewrite (istep_len _ _ _ I5)).
    destruct (IH s5 v5 bl5 nb5 (off + m) (ksrc_add src m) (drop (Z.to_nat m) l) n c (source_same _ _ _ HG (same_user_istep _ _ _ I5)) Hsrc' Hip5) as (m2 & s6 & v6 & bl6 & nb6 & E6 & Hm2 & I6 & D6 & F6 & Hfit6 & G6 & C6); rewrite ?Ed; try done; try lia.
    { destruct (istep_inode _ _ _ I5 Hip) as [a5 E]. rewrite E. eapply inode_used_step; [exact I5 | apply G5 | exact U]. }
    rewrite Ed in E6. rewrite length_drop in Hm2, C6. exists (Z.to_nat m + m2)%nat, s6, v6, bl6, nb6. replace (n - r + m) with (n - (r - m)) by lia.
    split; [rewrite E6; do 2 f_equal; lia |]. split; [lia |]. split; [by eapply istep_trans |]. split; [done |]. split; [done |]. split; [lia |]. split.
    2: { destruct (Z.eq_dec r m); [left; lia |]. destruct C6 as [C6|[Full [Hz|Hz]]]; [left; lia | right; split; [done |]; right | right; split; [done |]; right; rewrite <- Hz; f_equal; lia].
      rewrite Hz. pose proof (Z.div_mod off BSIZE ltac:(unfold BSIZE; lia)). replace (off + Z.of_nat (Z.to_nat m + 0)) with ((off / BSIZE + 1) * BSIZE) by (unfold BSIZE in *; lia). apply Z.mod_mul. unfold BSIZE. lia. }
    replace (take (Z.to_nat m + m2) l) with (take (Z.to_nat m) l ++ take m2 (drop (Z.to_nat m) l)) by (symmetry; rewrite <- (take_drop (Z.to_nat m) l) at 1; rewrite take_app, Em; rewrite take_take; f_equal; [f_equal; lia | f_equal; lia]).
    eapply grown_trans; [exact G5 | | lia | rewrite Em; lia]. rewrite Em, Z2Nat.id by lia. apply (grown_sb s s5); [by apply (istep_sb ip) | exact G6].
Qed.
End writei.

(** A file in good order: its inode, its block map, and its size within its blocks. *)
Record file_inv (s : kernel) (v : Z -> list Z) (H : list Z) (ip : nat) (nb : Z) : Prop := mkFileInv {
  fi_index : (ip < length (itable s))%nat;
  fi_map : fmap s v H (itable s !!! ip) nb;
  fi_size : 0 <= i_size (itable s !!! ip) <= nb * BSIZE;
  fi_used : inode_used s v (i_inum (itable s !!! ip));
  fi_home : inode_home s H (itable s !!! ip);
  fi_disk : dinode_ok (dinode_of (itable s !!! ip));
  fi_num : 0 <= i_inum (itable s !!! ip) /\ 0 <= sb_inodestart (sb s) /\ i_inum (itable s !!! ip) / IPB + sb_inodestart (sb s) < 2 ^ 32
}.

(** The addresses of a block map are 32-bit numbers. *)
Lemma fmap_dinode_ok s v H i nb d : fmap s v H i nb -> sb_size (sb s) < 2 ^ 31 -> dinode_ok d -> di_type d = i_type i -> di_major d = i_major i -> di_minor d = i_minor i -> di_nlink d = i_nlink i ->
  0 <= i_size i < 2 ^ 32 -> dinode_ok (dinode_of i).
Proof.
  intros F Hsz [D1 D2 D3 D4] E1 E2 E3 E4 Hs. split; [intros x Hx; apply D1; rewrite E1, E2, E3, E4; exact Hx | done | cbn | apply F].
  apply Forall_lookup. intros k a Hka. pose proof (lookup_lt_Some _ _ _ Hka) as Hk. rewrite (fm_len _ _ _ _ _ F) in Hk. apply list_lookup_total_correct in Hka.
  destruct (decide (k = 12%nat)) as [->|Hne].
  - change (i_addrs i !!! 12%nat) with (indirect i) in Hka. destruct (decide (indirect i = 0)); [lia |]. pose proof (ob_range _ _ _ _ _ (fm_ind _ _ _ _ _ F ltac:(done))). lia.
  - assert (E : baddr v i (Z.of_nat k) = a) by (unfold baddr; destruct (Z.ltb_spec (Z.of_nat k) NDIRECT); [|fconsts; lia]; by rewrite Nat2Z.id).
    destruct (Z.lt_ge_cases (Z.of_nat k) nb); [pose proof (ob_range _ _ _ _ _ (fm_blk _ _ _ _ _ F (Z.of_nat k) ltac:(lia))); lia |].
    rewrite (fm_zero _ _ _ _ _ F) in E; [lia | fconsts; lia | left; fconsts; lia].
Qed.

(** Writing the inode leaves the file alone. *)
Lemma iupdate_file s v bl H ip nb c : disk_ok s v bl H (S c) -> file_inv s v H ip nb -> let i := itable s !!! ip in
  exists s' v', iupdate ip s = Ret tt s' /\ tstep s s' /\ disk_ok s' v' (log_add (IBLOCK (i_inum i) (sb s)) bl) H c /\ file_inv s' v' H ip nb /\
    dinode_at v' (sb s) (i_inum i) = dinode_of i /\ (forall b, b <> IBLOCK (i_inum i) (sb s) -> v' b = v b) /\ (forall o, 0 <= o < nb * BSIZE -> fbyte v' i o = fbyte v i o) /\
    (forall b, 0 <= b < sb_size (sb s) -> used v' (sb s) b = used v (sb s) b) /\
    (forall j, 0 <= j -> j / IPB = i_inum i / IPB -> j <> i_inum i -> dinode_at v' (sb s) j = dinode_at v (sb s) j).
Proof.
  intros D [Hip F Hs U Hh Hd (N1 & N2 & N3)] i. fold i in F, Hs, U, Hh, Hd, N1, N3. assert (R1 : room s bl H 1) by (destruct (dk_room _ _ _ _ _ D); split; lia).
  destruct (iupdate_ok s v bl H ip (dk_tx _ _ _ _ _ D) Hh R1 Hd) as (s' & E & S & T). fold i in T. set (ib := IBLOCK (i_inum i) (sb s)) in *. set (v' := fupd v ib _) in *.
  pose proof (tstep_sb _ _ S) as Es. pose proof (tstep_itable _ _ S) as Ei. destruct U as (U1 & U2 & U3). fold ib in U1, U2, U3.
  assert (Hu : forall b, 0 <= b < sb_size (sb s) -> used v' (sb s) b = used v (sb s) b) by (intros b Hb; by apply used_fupd).
  assert (Hfr : forall b, b <> ib -> v' b = v b) by (intros b Hb; by apply fupd_ne). assert (Hlen : forall b, length (v b) = Z.to_nat BSIZE) by (intros b; eapply tx_len, dk_tx, D).
  assert (F' : fmap s' v' H i nb). { apply (fmap_ext s s' v v'); [done | intros x; by apply tstep_in_log | intros b Hb Hub; by rewrite Hu | | done]. intros Hi. apply Hfr, (fm_ind _ _ _ _ _ F Hi). }
  assert (Hbytes : forall o, 0 <= o < nb * BSIZE -> fbyte v' i o = fbyte v i o).
  { intros o Ho. apply (file_elsewhere s v H (roomy i nb) ib (put_dinode (IOFF (i_inum i)) (dinode_of i) (v ib))); [by apply fmap_file | | | done].
    - intros k Hk. apply in_roomy in Hk; [|apply F]. apply (fm_blk _ _ _ _ _ F k Hk).
    - change (indirect (roomy i nb)) with (indirect i). destruct (decide (indirect i = 0)) as [->|Ez]; [lia | by apply (fm_ind _ _ _ _ _ F Ez)]. }
  exists s', v'. split_and!; try done.
  - destruct D as [Dt Db Ds Dh Dp Dr]. split; rewrite ?Es, ?(tstep_held _ _ S); try done; [|by eapply (room_add s); [destruct Dt | |]].
    eapply bm_ok_mono; [exact Db | done | | done | done]. intros b Hb Hub. by rewrite Hu.
  - split; rewrite ?Ei; fold i; try done.
    + unfold inode_used. rewrite Es. fold ib. split_and!; try lia; [|done]. rewrite Hu by lia. done.
    + destruct Hh as [A1 A2 A3]. split; rewrite ?Es; try done. by apply (home_block_tstep s).
    + by rewrite Es.
  - unfold v', ib. rewrite dinode_at_update by (done || lia). by rewrite decide_True.
  - intros j Hj Ej Hne. unfold v', ib. rewrite dinode_at_update by (done || lia). by rewrite decide_False.
Qed.

Lemma fmap_size s v H i nb z : fmap s v H i nb -> fmap s v H (set_i_size z i) nb.
Proof. intros [A1 A2 A3 A4 A5 A6 A7 A8 A9]. by split. Qed.

(** What a write to the file of inode [i] leaves alone: the blocks it gains were free, exactly they are newly marked in the
    bitmap, the other inodes in the block of its inode are as they were, and so is every other block. *)
Record only_file (s : kernel) (v : Z -> list Z) (i : inode) (nb : Z) (v' : Z -> list Z) (i' : inode) (nb' : Z) : Prop := mkOnlyFile {
  fr_gain : forall b, of_file v' i' nb' b -> of_file v i nb b \/ used v (sb s) b = false;
  fr_bitmap : forall b, 0 <= b < sb_size (sb s) -> used v' (sb s) b = true <-> used v (sb s) b = true \/ of_file v' i' nb' b;
  fr_inodes : forall j, 0 <= j -> j / IPB = i_inum i / IPB -> j <> i_inum i -> dinode_at v' (sb s) j = dinode_at v (sb s) j;
  fr_blocks : forall b, ~ is_bitmap (sb s) b -> ~ of_file v' i' nb' b -> b <> IBLOCK (i_inum i) (sb s) -> v' b = v b
}.

Lemma IBLOCK_same b j i : j / IPB = i / IPB -> IBLOCK j b = IBLOCK i b.
Proof. unfold IBLOCK. by intros ->. Qed.

Lemma of_file_ext v v' i nb b : 0 <= nb <= MAXFILE -> (NDIRECT < nb -> v' (indirect i) = v (indirect i)) -> of_file v' i nb b <-> of_file v i nb b.
Proof.
  intros Hnb Hv. assert (B : forall k, 0 <= k < nb -> baddr v' i k = baddr v i k) by (intros k Hk; unfold baddr; destruct (Z.ltb_spec k NDIRECT); [done | rewrite Hv; [done | lia]]).
  unfold of_file. split; (intros [(k & Hk & ->)|?]; [left; exists k; by rewrite B | by right]).
Qed.

(** writei with the size it leaves. *)
Lemma writei_from s v bl H ip nb off G src l c : source s G -> G src l -> let i := itable s !!! ip in let n := Z.of_nat (length l) in
  disk_ok s v bl H (7 * Z.to_nat (touched off n) + S c) -> file_inv s v H ip nb -> 0 <= off <= i_size i -> off + n <= MAXFILE * BSIZE ->
  exists m s' v' bl' nb', writei ip src off n s = Ret (Z.of_nat m) s' /\ (m <= length l)%nat /\ (m = length l \/ (disk_full s' v' /\ (m = 0%nat \/ (off + Z.of_nat m) mod BSIZE = 0))) /\
    disk_ok s' v' bl' H c /\ file_inv s' v' H ip nb' /\ tstep s (set_itable (itable s) s') /\
    (exists a, itable s' = alter (fun i => set_i_size (Z.max (i_size i) (off + Z.of_nat m)) (set_i_addrs a i)) ip (itable s)) /\
    dinode_at v' (sb s) (i_inum i) = dinode_of (itable s' !!! ip) /\
    (forall o, 0 <= o < i_size (itable s' !!! ip) -> fbyte v' (itable s' !!! ip) o = if decide (off <= o < off + Z.of_nat m) then l !!! Z.to_nat (o - off) else fbyte v i o) /\
    only_file s v i nb v' (itable s' !!! ip) nb' /\ bl' <> [].
Proof.
  intros HG Hsrc i n D V Ho Hmax. pose proof V as [Hip F Hs U Hh Hd N]. fold i in F, Hs, U, Hh, Hd, N. assert (Hbig : MAXFILE * BSIZE < 2 ^ 32) by (vm_compute; done).
  pose proof (touched_bound off n ltac:(lia) ltac:(lia)) as Ht. assert (0 <= n / BSIZE) by (apply Z.div_pos; unfold BSIZE; lia).
  destruct (writei_loop_grows H ip G (Z.to_nat (n / BSIZE + 3)) s v bl nb off src l n (S c) HG Hsrc Hip D F U) as (m & s1 & v1 & bl1 & nb1 & E1 & Hm & I1 & D1 & F1 & Hfit1 & G1 & C1); [fold i; lia | fold n; lia | fold n; lia |].
  fold i in G1. fold n in E1. rewrite Z.sub_diag in E1. set (i1 := itable s1 !!! ip) in *. destruct (istep_inode _ _ _ I1 Hip) as [a1 Ei1]. fold i i1 in Ei1. pose proof (gw_ext _ _ _ _ _ _ _ _ _ G1) as X1. pose proof (ex_nb _ _ _ _ _ _ _ X1) as Hnb1.
  pose proof (istep_sb _ _ _ I1) as Es1. assert (Hsz1 : i_size i1 = i_size i) by (by rewrite Ei1). set (z := Z.max (i_size i) (off + Z.of_nat m)).
  set (s2 := set_itable (alter (set_i_size z) ip (itable s1)) s1).
  assert (Hip1 : (ip < length (itable s1))%nat) by (by rewrite (istep_len _ _ _ I1)). assert (I2 : itable s2 !!! ip = set_i_size z i1) by (unfold s2; by rewrite inode_alter).
  assert (E2 : (if i_size i1 <? off + Z.of_nat m then upd_inode ip (set_i_size (off + Z.of_nat m)) else mret tt) s1 = Ret tt s2).
  { rewrite Hsz1. unfold s2, z. destruct (Z.ltb_spec (i_size i) (off + Z.of_nat m)); [by rewrite Z.max_r by lia |]. rewrite Z.max_l by lia. unfold mret, M_ret, ret. f_equal.
    rewrite <- Hsz1. replace (alter (set_i_size (i_size i1)) ip (itable s1)) with (itable s1); [by destruct s1 |]. apply list_eq. intros j. destruct (decide (j = ip)) as [->|]; [|by rewrite list_lookup_alter_ne].
    rewrite list_lookup_alter_eq. unfold i1. rewrite list_lookup_total_alt. destruct (itable s1 !! ip) as [x|]; [|done]. cbn. by destruct x. }
  assert (F2 : fmap s2 v1 H (set_i_size z i1) nb1) by (apply fmap_size, (fmap_ext s1 s2 v1 v1); auto).
  assert (Hz : 0 <= z <= nb1 * BSIZE) by (unfold z, BSIZE in *; lia). pose proof (fm_nb _ _ _ _ _ F1) as Hnb2.
  assert (V2 : file_inv s2 v1 H ip nb1).
  { split; rewrite ?I2; try done.
    - unfold s2. cbn. by rewrite length_alter.
    - cbn [i_inum set_i_size]. rewrite Ei1. cbn [i_inum set_i_addrs]. exact (inode_used_step ip s s1 v v1 i nb i1 nb1 _ I1 X1 U).
    - destruct Hh as [A1 A2 A3]. split; cbn [i_dev i_inum set_i_size]; change (sb s2) with (sb s1); rewrite ?Es1, Ei1; try done. exact (istep_home _ _ _ I1 _ A2).
    - apply (fmap_dinode_ok s2 v1 H (set_i_size z i1) nb1 (dinode_of i)); [done | change (sb s2) with (sb s1); rewrite Es1; apply (bm_size _ _ _ (dk_bm _ _ _ _ _ D)) | done | by rewrite Ei1.. | cbn; fconsts; lia].
    - change (sb s2) with (sb s1). cbn [i_inum set_i_size]. rewrite Es1, Ei1. exact N. }
  destruct (iupdate_file s2 v1 bl1 H ip nb1 c (disk_ok_itable _ _ _ _ _ _ D1) V2) as (s3 & v3 & E3 & S3 & D3 & V3 & A3 & Fr3 & B3 & U3 & N3). rewrite I2 in *. cbn [i_inum set_i_size] in *. change (sb s2) with (sb s1) in *.
  assert (En : i_inum i1 = i_inum i) by (by rewrite Ei1). rewrite Es1, En in *. pose proof (tstep_itable _ _ S3) as Ei3. assert (I3 : itable s3 !!! ip = set_i_size z i1) by (by rewrite Ei3).
  exists m, s3, v3, (log_add (IBLOCK (i_inum i) (sb s)) bl1), nb1. rewrite I3. split; [|split; [done | split; [|split; [done | split; [done | split; [|split; [|split; [done | split; [|split]]]]]]]]].
  - unfold writei, getinode. rewrite (wrap_small 32 n) by lia. erewrite bind_Ret by reflexivity. cbv beta. fold i. rewrite (wrap_small 32 (off + n)) by lia.
    destruct (Z.ltb_spec (i_size i) off); [lia |]. destruct (Z.ltb_spec (off + n) off); [lia |]. cbn [orb]. destruct (Z.ltb_spec (MAXFILE * BSIZE) (off + n)); [lia |].
    erewrite bind_Ret by exact E1. cbv beta. erewrite bind_Ret by reflexivity. cbv beta. fold i1. cbn [fst snd]. erewrite bind_Ret by exact E2. erewrite bind_Ret by exact E3. done.
  - destruct C1 as [|[Full Ha]]; [by left |]. right. split; [|done]. intros x Hx. rewrite (tstep_sb _ _ S3) in *. change (sb s2) with (sb s1) in *. rewrite Es1 in *. rewrite U3 by done. specialize (Full x). rewrite Es1 in Full. by apply Full.
  - eapply tstep_trans; [apply I1 |]. apply (tstep_set_itable (itable s)) in S3. exact S3.
  - destruct (is_addrs _ _ _ I1) as [a Ea]. exists a. rewrite Ei3. unfold s2. cbn. rewrite Ea, alter_compose_list. apply list_eq. intros j. destruct (decide (j = ip)) as [->|]; [|by rewrite !list_lookup_alter_ne].
    rewrite !list_lookup_alter_eq. unfold z, i. rewrite list_lookup_total_alt. by destruct (itable s !! ip).
  - cbn [i_size set_i_size]. intros o Hor. change (fbyte v3 (set_i_size z i1) o) with (fbyte v3 (set_i_size z i1) o). rewrite B3 by lia. change (fbyte v1 (set_i_size z i1) o) with (fbyte v1 i1 o).
    rewrite (gw_byte _ _ _ _ _ _ _ _ _ G1) by lia. rewrite length_take. replace (m `min` length l)%nat with m by lia. destruct (decide (off <= o < off + Z.of_nat m)) as [Hin|Hin]; [by rewrite !list_lookup_total_alt, lookup_take_lt by lia |].
    rewrite decide_True; [done |]. unfold z in Hor. unfold BSIZE in *. lia.
  - assert (Hib : forall b, of_file v1 i1 nb1 b -> b <> IBLOCK (i_inum i) (sb s)) by (intros b Hb; rewrite <- En, <- Es1; apply (fmap_range _ _ _ _ _ F1 b Hb)).
    assert (Hof : forall b, of_file v3 (set_i_size z i1) nb1 b <-> of_file v1 i1 nb1 b).
    { intros b. change (of_file v3 (set_i_size z i1) nb1 b) with (of_file v3 i1 nb1 b). apply of_file_ext; [done |]. intros Hd'. apply Fr3, Hib. right. split; [by apply (fm_need _ _ _ _ _ F1) | done]. }
    split; rewrite ?U3 by done.
    + intros b Hb%Hof. destruct (ex_own _ _ _ _ _ _ _ X1 b Hb) as [|[_ ?]]; [by left | by right].
    + intros b Hb. rewrite U3, Hof by done. split; [by apply (ex_new _ _ _ _ _ _ _ X1) |]. intros [Hu|Hf]; [by apply (ex_used _ _ _ _ _ _ _ X1) |]. rewrite <- Es1. apply (fmap_range _ _ _ _ _ F1 b Hf).
    + intros j Hj Ej Hne. rewrite N3 by (rewrite ?En; done). unfold dinode_at. rewrite (ex_frame _ _ _ _ _ _ _ X1); [done | |].
      * rewrite (IBLOCK_same (sb s) j (i_inum i)) by done. apply U.
      * rewrite (IBLOCK_same (sb s) j (i_inum i)) by done. intros Hf. by apply (Hib _ Hf).
    + intros b Hm' Hf Hne. rewrite Fr3 by done. apply (ex_frame _ _ _ _ _ _ _ X1); [done |]. by rewrite <- Hof.
  - unfold log_add. case_decide as Hin; [by destruct bl1; [apply not_elem_of_nil in Hin |] | by destruct bl1].
Qed.

Lemma file_inv_ok s v H ip nb : file_inv s v H ip nb -> file_ok s v H (itable s !!! ip).
Proof.
  intros [_ F Hs _ _ _ _]. destruct (fmap_file _ _ _ _ _ F) as [A1 A2 A3 A4 A5 A6]. pose proof (fm_nb _ _ _ _ _ F) as Hnb.
  assert (Hin : forall k, in_file (itable s !!! ip) k -> in_file (roomy (itable s !!! ip) nb) k) by (intros k [Hk1 Hk2]; apply in_roomy; [lia |]; unfold BSIZE in *; lia).
  split; try done.
  - cbn in A2. lia.
  - intros k Hk. by apply (A3 k), Hin.
  - intros Hx. apply A4. cbn. lia.
  - intros k Hk. by apply (A5 k), Hin.
  - intros k k' Hk Hk'. apply (A6 k k'); by apply Hin.
Qed.

Lemma file_inv_tstep s s' v H ip nb : file_inv s v H ip nb -> tstep s s' -> file_inv s' v H ip nb.
Proof.
  intros [A1 A2 A3 A4 A5 A6 A7] S. pose proof (tstep_itable _ _ S) as Ei. pose proof (tstep_sb _ _ S) as Es. split; rewrite ?Ei, ?Es; try done.
  - apply (fmap_ext s s' v v); [done | intros x; by apply tstep_in_log | auto | done | done].
  - unfold inode_used in *. by rewrite Es.
  - destruct A5 as [B1 B2 B3]. split; rewrite ?Es; try done. by apply (home_block_tstep s).
Qed.

(** C9: [writei] grows files: the bytes go to the file from the offset on, new blocks are taken from the bitmap as
    needed (direct, then through the indirect block), the size follows, the inode on disk is brought up to date, and
    [readi] returns what was written.  Nothing else in the file system changes: the other bytes of the file, the other
    inodes, also those in the same block, the bits of the bitmap but for the blocks the file gains, which were free, and
    every block that is not the file's.  Fewer bytes are written only when the disk is full.  A write past the end or
    beyond the largest file is refused. *)
Theorem writei_grows (s : kernel) (v : Z -> list Z) (bl H : list Z) (ip : nat) (nb off : Z) (l : list Z) (c : nat)
    (D : disk_ok s v bl H (7 * Z.to_nat (touched off (Z.of_nat (length l))) + 2 + c)) (V : file_inv s v H ip nb)
    (Ho : 0 <= off) (Hov : off + Z.of_nat (length l) < 2 ^ 32) :
  let i := itable s !!! ip in
  let n := Z.of_nat (length l) in
  (i_size i < off \/ MAXFILE * BSIZE < off + n -> writei ip (SVar l) off n s = Ret (-1) s) /\
  (off <= i_size i -> off + n <= MAXFILE * BSIZE -> exists m s' s'' v' bl' nb',
    writei ip (SVar l) off n s = Ret (Z.of_nat m) s' /\ (m <= length l)%nat /\ (m = length l \/ disk_full s' v') /\
    disk_ok s' v' bl' H c /\ file_inv s' v' H ip nb' /\ tstep s (set_itable (itable s) s') /\
    (exists a, itable s' = alter (fun i => set_i_size (Z.max (i_size i) (off + Z.of_nat m)) (set_i_addrs a i)) ip (itable s)) /\
    dinode_at v' (sb s) (i_inum i) = dinode_of (itable s' !!! ip) /\
    readi ip DVar off (Z.of_nat m) s' = Ret (Z.of_nat m, take m l) s'' /\
    (forall o, 0 <= o < i_size i -> ~ (off <= o < off + Z.of_nat m) -> fbyte v' (itable s' !!! ip) o = fbyte v i o) /\
    only_file s v i nb v' (itable s' !!! ip) nb').
Proof.
  intros i n. pose proof (fi_size _ _ _ _ _ V) as Hsz. fold i in Hsz. assert (Hbig : MAXFILE * BSIZE < 2 ^ 32) by (vm_compute; done). split.
  - intros Hbad. unfold writei, getinode. rewrite (wrap_small 32 n) by lia. erewrite bind_Ret by reflexivity. cbv beta. fold i. rewrite (wrap_small 32 (off + n)) by lia.
    destruct (Z.ltb_spec (i_size i) off); [done |]. destruct (Z.ltb_spec (off + n) off); [lia |]. cbn [orb]. destruct (Z.ltb_spec (MAXFILE * BSIZE) (off + n)); [done | lia].
  - intros Hle Hmax. destruct (writei_from s v bl H ip nb off _ (SVar l) l (S c) (source_var s) eq_refl ltac:(eapply disk_ok_weaken; [|exact D]; fold n; lia) V ltac:(fold i; lia) Hmax) as (m & s' & v' & bl' & nb' & E & Hm & C & D' & V' & S & Et & Ed & B & Fr & _).
    fold i n in E, Ed, B, Fr. set (i' := itable s' !!! ip) in *. assert (Hi' : i_size i' = Z.max (i_size i) (off + Z.of_nat m)) by (destruct Et as [a Ea]; unfold i'; rewrite Ea, alter_total_inode by apply V; done).
    destruct (readi_ok s' v' bl' H ip off (Z.of_nat m) (dk_tx _ _ _ _ _ D') (file_inv_ok _ _ _ _ _ V')) as (s'' & E'' & _); [destruct (dk_room _ _ _ _ _ D'); lia | lia | lia | lia |]. fold i' in E''.
    exists m, s', s'', v', bl', nb'. split_and!; try done; [destruct C as [|[? _]]; auto |..].
    + eapply disk_ok_weaken; [|exact D']. lia.
    + rewrite E''. destruct (Z.ltb_spec (i_size i') off); [lia |]. rewrite Z.min_l by lia. do 2 f_equal. apply list_eq. intros j. destruct (decide (j < m)%nat) as [Hj|Hj].
      * rewrite fbytes_lookup by lia. rewrite B by lia. rewrite decide_True by lia. rewrite lookup_take_lt by lia. rewrite (list_lookup_lookup_total_lt l) by lia. do 2 f_equal. lia.
      * rewrite !lookup_ge_None_2; [done | rewrite length_take; lia | rewrite length_fbytes; lia].
    + intros o Hor Hout. rewrite B by lia. by rewrite decide_False.
Qed.

(** ** A witness: an empty file *)

Definition inode6 (t : Z) : inode := mkInode ROOTDEV 6 1 zero_sleeplock true t 0 0 1 0 (replicate 13 0).
Definition fs6 (t : Z) : kernel := set_itable (<[3%nat := inode6 t]> (itable fs0)) fs0.

Lemma fs6_inode t : itable (fs6 t) !!! 3%nat = inode6 t.
Proof. unfold fs6. cbn [itable set_itable]. rewrite fs0_itable. reflexivity. Qed.

Lemma fs6_disk t k : (k < 20)%nat -> disk_ok (fs6 t) img0 [] [] k.
Proof.
  intros Hk. apply disk_ok_itable. split; [exact fs0_tx | exact fs0_bm | done | | apply fs0_held | by apply fs0_room].
  intros b Hb. by apply not_elem_of_nil in Hb.
Qed.

Lemma fs6_file t : - 2 ^ 15 <= t < 2 ^ 15 -> file_inv (fs6 t) img0 [] 3 0.
Proof.
  intros Ht.
  assert (Hb : ~ is_bitmap sb0 32) by (intros H%fs0_bitmap; lia). assert (Eb : IBLOCK 6 sb0 = 32) by reflexivity. split; rewrite ?fs6_inode.
  - unfold fs6. cbn [itable set_itable]. rewrite length_insert, fs0_itable, length_replicate. unfold NINODE. lia.
  - assert (Hi : indirect (inode6 t) = 0) by reflexivity. split; try done; try (intros; lia).
    intros k Hk [Hd|Hd]; [|done]. unfold baddr. apply Z.ltb_lt in Hd as Hd'. rewrite Hd'. cbn [i_addrs inode6]. rewrite lookup_total_replicate_2; [done |]. fconsts. lia.
  - cbn. lia.
  - unfold inode_used. change (sb (fs6 t)) with sb0. cbn [i_inum inode6]. rewrite Eb. split; [cbn; lia |]. split; [apply bitmap0_used; lia | done].
  - split; [reflexivity | | apply not_elem_of_nil]. unfold home_block, in_log. change (sb (fs6 t)) with sb0. change (logst (fs6 t)) with log0. cbn [i_inum inode6]. rewrite Eb. change (log_start log0) with 2. change (log_size log0) with 30. lia.
  - split; [intros x Hx; cbn in Hx; repeat (apply elem_of_cons in Hx as [->|Hx]; [lia |]); by apply elem_of_nil in Hx | cbn; lia | cbn; repeat constructor; lia | done].
  - change (sb (fs6 t)) with sb0. cbn [i_inum inode6]. change (sb_inodestart sb0) with 32. change (6 / IPB) with 0. lia.
Qed.

Lemma writei_grows_witness : exists m s', writei 3 (SVar [7; 8; 9]) 0 3 (fs6 T_FILE) = Ret (Z.of_nat m) s' /\ (m <= 3)%nat.
Proof.
  destruct (writei_grows (fs6 T_FILE) img0 [] [] 3 0 0 [7; 8; 9] 5) as [_ G].
  - apply fs6_disk. vm_compute. lia.
  - apply fs6_file. vm_compute. split; congruence.
  - lia.
  - cbn. lia.
  - destruct G as (m & s' & s'' & v' & bl' & nb' & E & Hm & _).
    + rewrite fs6_inode. cbn. lia.
    + vm_compute. congruence.
    + exists m, s'. split; [exact E | exact Hm].
Defined.
