(* ===== verification/FsTrunc.v ===== *)
(** * itrunc gives back every block of a file

    All frees of one call go to the bitmap.  On a disk whose bitmap is one block, as
    mkfs makes it, that block is logged once and the other frees are absorbed, so
    that truncating the largest file fits in a transaction. *)

From S2P Require Import Prelude State Mem Spinlock Sched Sleeplock Bio BufCache CacheRules Log LogHeader LogSpec LogRecover LogProps Txn Memlayout Kalloc Vm Uart Printf Copy Fs FsBlocks FsInode FsData FsGrow.

(** The block of the bitmap. *)
Definition bitmap_of (s : kernel) : Z := BBLOCK 0 (sb s).

(** The invariant of the loops: room for [k] blocks besides the bitmap. *)
Record trunc_ok (s : kernel) (v : Z -> list Z) (bl H : list Z) (k : nat) : Prop := mkTruncOk {
  to_disk : disk_ok s v bl H (S k);
  to_small : sb_size (sb s) <= BPB;
  to_room : bitmap_of s ∈ bl \/ room s bl H (S (S k))
}.

(** [v'] is [v] with the blocks of [P] free; nothing but the bitmap differs. *)
Record freed (s : kernel) (v v' : Z -> list Z) (P : Z -> Prop) : Prop := mkFreed {
  fr_used : forall x, 0 < x < sb_size (sb s) -> used v' (sb s) x = true <-> used v (sb s) x = true /\ ~ P x;
  fr_frame : forall b, ~ is_bitmap (sb s) b -> v' b = v b
}.

Lemma freed_none s v P : (forall x, 0 < x < sb_size (sb s) -> ~ P x) -> freed s v v P.
Proof. intros HP. split; [|done]. intros x Hx. specialize (HP x Hx). tauto. Qed.

Lemma freed_trans s s1 v v1 v2 P Q : sb s1 = sb s -> freed s v v1 P -> freed s1 v1 v2 Q -> freed s v v2 (fun x => P x \/ Q x).
Proof.
  intros E [A1 A2] [B1 B2]. rewrite E in *. split.
  - intros x Hx. rewrite B1, A1 by done. tauto.
  - intros b Hb. rewrite B2 by done. by apply A2.
Qed.

Lemma freed_ext s v v' P Q : (forall x, 0 < x < sb_size (sb s) -> P x <-> Q x) -> freed s v v' P -> freed s v v' Q.
Proof. intros E [A1 A2]. split; [|done]. intros x Hx. rewrite A1 by done. by rewrite E. Qed.

(** A block of a file that was not freed. *)
Lemma own_blk_freed s s' v v' H inum P b : sb s' = sb s -> (forall x, in_log (logst s') x <-> in_log (logst s) x) -> freed s v v' P -> ~ P b -> own_blk s v H inum b -> own_blk s' v' H inum b.
Proof. intros Es El [A1 _] Hb O. eapply own_blk_ext; [done | done | | exact O]. apply A1; [apply O |]. split; [apply O | done]. Qed.

Lemma small_bitmap s v H b : bm_ok s v H -> sb_size (sb s) <= BPB -> 0 <= b < sb_size (sb s) -> BBLOCK b (sb s) = bitmap_of s.
Proof.
  intros B Hs Hb. unfold bitmap_of. destruct (BBLOCK_eq (sb s) b Hb (bm_start _ _ _ B)) as [-> _]. destruct (BBLOCK_eq (sb s) 0 ltac:(lia) (bm_start _ _ _ B)) as [-> _]. rewrite Z.div_small by lia. done.
Qed.

(** ** One block *)

Lemma bm_ok_unmark s s' v H inum b : tstep s s' -> bm_ok s v H -> (forall x, x ∈ H -> 0 <= x < sb_size (sb s)) -> (forall b, length (v b) = Z.to_nat BSIZE) -> own_blk s v H inum b -> bm_ok s' (unmark v (sb s) b) H.
Proof.
  intros S B HH Hlen O. pose proof (tstep_sb _ _ S) as Es. pose proof (ob_range _ _ _ _ _ O) as Hb. destruct (bm_ok_ext s s' v H Es ltac:(intros x; by apply tstep_in_log) B) as [B1 B2 B3 B4 B5 B6 B7].
  assert (Hu : forall x, 0 <= x < sb_size (sb s) -> x <> b -> used v (sb s) x = true -> used (unmark v (sb s) b) (sb s) x = true).
  { intros x Hx Hne Hux. rewrite (unmark_used s v H B Hlen) by lia. rewrite Hux. destruct (Z.eqb_spec x b); [done | done]. }
  rewrite Es in *. split; rewrite ?Es; try done.
  - intros x Hx Hl. apply Hu; [done | | by apply B4]. intros ->. rewrite (tstep_in_log _ _ _ S) in Hl. by apply (ob_home _ _ _ _ _ O).
  - intros x Hx Hm. apply Hu; [done | | by apply B5]. intros ->. by apply (ob_bitmap _ _ _ _ _ O).
  - apply Hu; [lia | lia | done].
  - intros x Hx. destruct (B7 x Hx) as [C1 C2]. split; [done |]. apply Hu; [by apply HH | | done]. intros ->. by apply (ob_held _ _ _ _ _ O).
Qed.

Lemma free_one s v bl H inum b k : trunc_ok s v bl H k -> own_blk s v H inum b ->
  exists s' v' bl', bfree ROOTDEV b s = Ret tt s' /\ tstep s s' /\ stays H s s' /\ trunc_ok s' v' bl' H k /\ freed s v v' (fun x => x = b) /\ (forall x, x ∈ bl -> x ∈ bl').
Proof.
  intros [D Hs Hr] O. pose proof (ob_range _ _ _ _ _ O) as Hb. pose proof D as [T B H0 HH Hpr R]. assert (Hlen : forall b, length (v b) = Z.to_nat BSIZE) by (intros x; by eapply tx_len).
  destruct (bfree_used s v bl H b T B ltac:(destruct R; split; lia) ltac:(lia) (ob_used _ _ _ _ _ O)) as (s' & E & T' & St & Y). rewrite (small_bitmap s v H b B Hs ltac:(lia)) in T'.
  pose proof (tstep_sb _ _ St) as Es. assert (Ebm : bitmap_of s' = bitmap_of s) by (unfold bitmap_of; by rewrite Es).
  assert (Hin : forall x, x ∈ bl -> x ∈ log_add (bitmap_of s) bl) by (intros x Hx; unfold log_add; case_decide; [done | apply elem_of_app; by left]).
  assert (Hbm : bitmap_of s ∈ log_add (bitmap_of s) bl) by (unfold log_add; case_decide; [done | apply elem_of_app; right; by apply list_elem_of_singleton]).
  assert (R' : room s' (log_add (bitmap_of s) bl) H (S k)).
  { destruct Hr as [Hx|Hx]; [|eapply room_add; [apply T | done | done]]. unfold log_add. rewrite decide_True by done. destruct R as [R1 R2]. split; [by rewrite (tstep_log_size _ _ St) | done]. }
  exists s', (unmark v (sb s) b), (log_add (bitmap_of s) bl). split_and!; try done.
  - split; [|by rewrite Es | left; by rewrite Ebm]. split; rewrite ?Es, ?(tstep_held _ _ St); try done. by eapply bm_ok_unmark.
  - split.
    + intros x Hx. rewrite (unmark_used s v H B Hlen) by lia. rewrite andb_true_iff, negb_true_iff, Z.eqb_neq. done.
    + intros x Hx. unfold unmark. apply fupd_ne. intros ->. apply Hx. exists b. split; [lia | done].
Qed.

(** Changing the inode table. *)
Lemma trunc_ok_itable t s v bl H k : trunc_ok s v bl H k -> trunc_ok (set_itable t s) v bl H k.
Proof. intros [D Hs Hr]. split; [by apply disk_ok_itable | done |]. destruct Hr as [Hr|[R1 R2]]; [by left | right; by split]. Qed.

(** ** The direct blocks *)

Section direct.
Context (H : list Z) (ip : nat).

Lemma itrunc_direct_ok : forall k j s v bl c, let i := itable s !!! ip in (ip < length (itable s))%nat -> trunc_ok s v bl H c -> i_dev i = ROOTDEV -> length (i_addrs i) = 13%nat -> (j + k <= 13)%nat ->
  (forall m, (j <= m < j + k)%nat -> i_addrs i !!! m <> 0 -> own_blk s v H (i_inum i) (i_addrs i !!! m)) ->
  (forall m m', (j <= m < j + k)%nat -> (j <= m' < j + k)%nat -> i_addrs i !!! m <> 0 -> i_addrs i !!! m = i_addrs i !!! m' -> m = m') ->
  exists s' v' bl', itrunc_direct k ip j s = Ret tt s' /\ istep ip s s' /\ trunc_ok s' v' bl' H c /\ freed s v v' (fun x => exists m, (j <= m < j + k)%nat /\ i_addrs i !!! m = x) /\
    length (i_addrs (itable s' !!! ip)) = 13%nat /\ (forall m, (m < 13)%nat -> i_addrs (itable s' !!! ip) !!! m = if decide (j <= m < j + k)%nat then 0 else i_addrs i !!! m).
Proof.
  induction k as [|k IH]; intros j s v bl c i Hip J Hdev Hlen Hjk Ho Hinj; cbn [itrunc_direct].
  - exists s, v, bl. split_and!; try done; [by apply istep_of_tstep, tstep_refl | apply freed_none; intros x Hx (m & Hm & _); lia |]. intros m Hm. by rewrite decide_False by lia.
  - unfold getinode. erewrite bind_Ret by reflexivity. cbv beta. fold i. rewrite in_bounds_run by (unfold alen; lia).
    assert (St : exists s1 v1 bl1, (if i_addrs i !!! j =? 0 then mret tt else bfree (i_dev i) (i_addrs i !!! j) ;; upd_inode ip (fun x => set_i_addrs (<[j := 0]> (i_addrs x)) x)) s = Ret tt s1 /\
      istep ip s s1 /\ trunc_ok s1 v1 bl1 H c /\ freed s v v1 (fun x => x = i_addrs i !!! j) /\ i_addrs (itable s1 !!! ip) = <[j := 0]> (i_addrs i)).
    { destruct (Z.eqb_spec (i_addrs i !!! j) 0) as [Hz|Hz].
      - exists s, v, bl. split_and!; try done; [by apply istep_of_tstep, tstep_refl | apply freed_none; intros x Hx ->; lia |]. symmetry. apply list_insert_id. rewrite <- Hz. apply list_lookup_lookup_total_lt. lia.
      - destruct (free_one s v bl H (i_inum i) (i_addrs i !!! j) c J) as (s1 & v1 & bl1 & E1 & S1 & _ & J1 & F1 & _); [apply Ho; [lia | done] |]. rewrite Hdev. pose proof (tstep_itable _ _ S1) as Ei.
        eexists _, v1, bl1. split; [erewrite bind_Ret by exact E1; reflexivity |]. split_and!; [eapply istep_trans; [by apply istep_of_tstep | apply istep_set_addr] | by apply trunc_ok_itable | done |].
        rewrite inode_alter by (by rewrite Ei). by rewrite Ei. }
    destruct St as (s1 & v1 & bl1 & E1 & I1 & J1 & F1 & A1). erewrite bind_Ret by exact E1. destruct (istep_inode _ _ _ I1 Hip) as [a Ea]. fold i in Ea. pose proof (istep_sb _ _ _ I1) as Es.
    assert (Ha : forall m, (m < 13)%nat -> i_addrs (itable s1 !!! ip) !!! m = if decide (m = j) then 0 else i_addrs i !!! m).
    { intros m Hm. rewrite A1. destruct (decide (m = j)) as [->|]; [apply list_lookup_total_insert_eq; lia | by apply list_lookup_total_insert_ne]. }
    destruct (IH (S j) s1 v1 bl1 c) as (s2 & v2 & bl2 & E2 & I2 & J2 & F2 & L2 & A2); try lia; try done.
    { by rewrite (istep_len _ _ _ I1). }
    { by rewrite Ea. }
    { rewrite A1, length_insert. done. }
    { intros m Hm. rewrite Ha, decide_False by lia. intros Hnz. rewrite Ea. cbn [i_inum set_i_addrs]. eapply own_blk_freed; [done | intros x; by apply (istep_in_log ip) | exact F1 | | apply Ho; [lia | done]].
      intros E. assert (m = j) by (apply Hinj; [lia | lia | done | done]). lia. }
    { intros m m' Hm Hm'. rewrite !Ha, !decide_False by lia. intros Hnz E. apply Hinj; [lia | lia | done | done]. }
    exists s2, v2, bl2. split_and!; try done; [by eapply istep_trans | |].
    + eapply freed_ext; [|eapply freed_trans; [exact Es | exact F1 | exact F2]]. intros x Hx. split.
      * intros [->|(m & Hm & Em)]; [exists j; split; [lia | done] |]. exists m. rewrite Ha, decide_False in Em by lia. split; [lia | done].
      * intros (m & Hm & Em). destruct (decide (m = j)) as [->|]; [by left |]. right. exists m. rewrite Ha, decide_False by lia. split; [lia | done].
    + intros m Hm. rewrite A2 by done. rewrite Ha by done. repeat case_decide; lia || done.
Qed.
End direct.

(** ** The blocks of the indirect block, which is held meanwhile *)

Lemma itrunc_indirect_ok H ip bp ind inum : forall k j s v bl c, trunc_ok s v bl (ind :: H) c -> holds s ind bp -> i_dev (itable s !!! ip) = ROOTDEV -> ~ is_bitmap (sb s) ind -> 0 <= j /\ j + Z.of_nat k <= NINDIRECT ->
  (forall m, j <= m < j + Z.of_nat k -> get32 (4 * m) (v ind) <> 0 -> own_blk s v (ind :: H) inum (get32 (4 * m) (v ind))) ->
  (forall m m', j <= m < j + Z.of_nat k -> j <= m' < j + Z.of_nat k -> get32 (4 * m) (v ind) <> 0 -> get32 (4 * m) (v ind) = get32 (4 * m') (v ind) -> m = m') ->
  exists s' v' bl', itrunc_indirect k ip bp j s = Ret tt s' /\ tstep s s' /\ holds s' ind bp /\ trunc_ok s' v' bl' (ind :: H) c /\
    freed s v v' (fun x => exists m, j <= m < j + Z.of_nat k /\ get32 (4 * m) (v ind) = x) /\ (forall x, x ∈ bl -> x ∈ bl').
Proof.
  induction k as [|k IH]; intros j s v bl c J Hh Hdev Hnb Hj Ho Hinj; cbn [itrunc_indirect].
  - exists s, v, bl. split_and!; auto with tstep. apply freed_none. intros x Hx (m & Hm & _). lia.
  - unfold getinode, getbuf. erewrite bind_Ret by reflexivity. cbv beta. erewrite bind_Ret by reflexivity. cbv beta zeta. rewrite (tx_data s v bl _ _ bp (dk_tx _ _ _ _ _ (to_disk _ _ _ _ _ J)) Hh), Hdev, (tx_alen _ _ _ _ _ (dk_tx _ _ _ _ _ (to_disk _ _ _ _ _ J))).
    rewrite in_bounds_run by (change (BSIZE / 4) with NINDIRECT; lia).
    assert (St : exists s1 v1 bl1, (if get32 (4 * j) (v ind) =? 0 then mret tt else bfree ROOTDEV (get32 (4 * j) (v ind))) s = Ret tt s1 /\ tstep s s1 /\ holds s1 ind bp /\ trunc_ok s1 v1 bl1 (ind :: H) c /\
      freed s v v1 (fun x => x = get32 (4 * j) (v ind)) /\ (forall x, x ∈ bl -> x ∈ bl1)).
    { destruct (Z.eqb_spec (get32 (4 * j) (v ind)) 0) as [Hz|Hz].
      - exists s, v, bl. split_and!; auto with tstep. apply freed_none. intros x Hx ->. lia.
      - destruct (free_one s v bl (ind :: H) inum _ c J (Ho j ltac:(lia) Hz)) as (s1 & v1 & bl1 & E1 & S1 & Y1 & J1 & F1 & B1). exists s1, v1, bl1. split_and!; try done. apply Y1; [left | done]. }
    destruct St as (s1 & v1 & bl1 & E1 & S1 & Hh1 & J1 & F1 & B1). erewrite bind_Ret by exact E1. pose proof (tstep_sb _ _ S1) as Es. assert (Ev : v1 ind = v ind) by (by apply F1).
    destruct (IH (j + 1) s1 v1 bl1 c J1 Hh1) as (s2 & v2 & bl2 & E2 & S2 & Hh2 & J2 & F2 & B2); rewrite ?Ev, ?Es; try done; try lia.
    { by rewrite (tstep_itable _ _ S1). }
    { intros m Hm Hnz. eapply own_blk_freed; [done | intros x; by apply tstep_in_log | exact F1 | | apply Ho; [lia | done]]. intros E. assert (m = j) by (apply Hinj; [lia | lia | done | done]). lia. }
    { intros m m' Hm Hm'. apply Hinj; lia. }
    exists s2, v2, bl2. rewrite Ev in F2. split_and!; try done; [by eapply tstep_trans | | auto].
    eapply freed_ext; [|eapply freed_trans; [exact Es | exact F1 | exact F2]]. intros x Hx. split.
    + intros [->|(m & Hm & Em)]; [exists j; split; [lia | done] | exists m; split; [lia | done]].
    + intros (m & Hm & Em). destruct (decide (m = j)) as [->|]; [by left |]. right. exists m. split; [lia | done].
Qed.

(** ** itrunc *)

Lemma trunc_ok_tstep s s' v bl H k : trunc_ok s v bl H k -> tstep s s' -> tx s' v bl H -> trunc_ok s' v bl H k.
Proof.
  intros [D Hs Hr] S T. pose proof (tstep_sb _ _ S) as Es. split; [by apply (disk_ok_tstep H s) | by rewrite Es |]. unfold bitmap_of. rewrite Es.
  destruct Hr as [Hr|[R1 R2]]; [by left |]. right. split; [by rewrite (tstep_log_size _ _ S) | done].
Qed.

Lemma own_blk_cons s v H inum ind b : own_blk s v H inum b -> b <> ind -> own_blk s v (ind :: H) inum b.
Proof. intros [O1 O2 O3 O4 O5 O6] Hne. split; try done. apply not_elem_of_cons. done. Qed.

(** The part of itrunc after the direct blocks. *)
Definition trunc_indirect (ip : nat) : M kernel unit :=
  x ← getinode ip;
  in_bounds NDIRECT (alen (i_addrs x)) ;;
  let a := i_addrs x !!! Z.to_nat NDIRECT in
  if a =? 0 then mret tt else
  bp ← bread (i_dev x) a;
  itrunc_indirect (Z.to_nat NINDIRECT) ip bp 0 ;;
  brelse bp ;;
  bfree (i_dev x) a ;;
  upd_inode ip (fun x => set_i_addrs (<[Z.to_nat NDIRECT := 0]> (i_addrs x)) x).

Lemma trunc_indirect_ok s v bl H ip c : let i := itable s !!! ip in let a := indirect i in (ip < length (itable s))%nat -> trunc_ok s v bl H (S c) -> i_dev i = ROOTDEV -> length (i_addrs i) = 13%nat ->
  (a <> 0 -> own_blk s v H (i_inum i) a /\
    (forall m, 0 <= m < NINDIRECT -> get32 (4 * m) (v a) <> 0 -> own_blk s v H (i_inum i) (get32 (4 * m) (v a)) /\ get32 (4 * m) (v a) <> a) /\
    (forall m m', 0 <= m < NINDIRECT -> 0 <= m' < NINDIRECT -> get32 (4 * m) (v a) <> 0 -> get32 (4 * m) (v a) = get32 (4 * m') (v a) -> m = m')) ->
  exists s' v' bl', trunc_indirect ip s = Ret tt s' /\ istep ip s s' /\ trunc_ok s' v' bl' H c /\
    freed s v v' (fun x => a <> 0 /\ (x = a \/ exists m, 0 <= m < NINDIRECT /\ get32 (4 * m) (v a) = x)) /\ i_addrs (itable s' !!! ip) = <[12%nat := 0]> (i_addrs i).
Proof.
  intros i a Hip J Hdev Hlen Hown. unfold trunc_indirect, getinode. erewrite bind_Ret by reflexivity. cbv beta zeta. fold i. rewrite in_bounds_run by (unfold alen; rewrite Hlen; fconsts; lia). fold (indirect i). fold a. destruct (Z.eqb_spec a 0) as [Hz|Hz].
  - exists s, v, bl. split_and!; [done | by apply istep_of_tstep, tstep_refl | | apply freed_none; tauto |].
    + destruct J as [D Hs [Hr|[R1 R2]]]; (split; [eapply disk_ok_weaken; [|exact D]; lia | done |]); [by left | right; split; lia].
    + symmetry. apply list_insert_id. fold i. rewrite list_lookup_lookup_total_lt by lia. f_equal. exact Hz.
  - destruct (Hown Hz) as (Oa & Oe & Oi). rewrite Hdev. destruct J as [D Hs Hr]. destruct (hold_block s v bl H _ a (S c) D Oa) as (bp & s1 & E1 & D1 & Hh1 & S1 & Dk). erewrite bind_Ret by exact E1. cbv beta.
    pose proof (tstep_sb _ _ S1) as Es1. assert (J1 : trunc_ok s1 v bl (a :: H) c).
    { split; [done | by rewrite Es1 |]. unfold bitmap_of. rewrite Es1. destruct Hr as [Hr|[R1 R2]]; [by left |]. right. split; [rewrite (tstep_log_size _ _ S1); lia |].
      unfold in_use in *. rewrite filter_cons. case_decide; cbn [length]; lia. }
    assert (HN : Z.of_nat (Z.to_nat NINDIRECT) = NINDIRECT) by (apply Z2Nat.id; by vm_compute).
    destruct (itrunc_indirect_ok H ip bp a (i_inum i) (Z.to_nat NINDIRECT) 0 s1 v bl c J1 Hh1) as (s2 & v2 & bl2 & E2 & S2 & Hh2 & J2 & F2 & B2).
    { by rewrite (tstep_itable _ _ S1). }
    { rewrite Es1. apply Oa. }
    { rewrite HN. fconsts. lia. }
    { rewrite HN. intros m Hm Hnz. destruct (Oe m ltac:(lia) Hnz) as [O Hne]. apply own_blk_cons; [|done]. apply (own_blk_ext s s1 v v); [done | intros x; by apply tstep_in_log | apply O | done]. }
    { rewrite HN. intros m m' Hm Hm'. apply Oi; lia. }
    erewrite bind_Ret by exact E2. rewrite HN, Z.add_0_l in F2. assert (S12 : tstep s s2) by (by eapply tstep_trans). pose proof (tstep_sb _ _ S12) as Es2.
    destruct (tx_release s2 v2 bl2 H a bp (dk_tx _ _ _ _ _ (to_disk _ _ _ _ _ J2)) Hh2) as (s3 & E3 & T3 & S3 & _).
    { rewrite (tstep_disk _ _ S2), Dk. assert (Ev : v2 a = v a) by (apply F2; rewrite Es1; apply Oa). rewrite Ev. destruct (tx_clean s v bl H a (dk_tx _ _ _ _ _ D) (ob_held _ _ _ _ _ Oa)); [left; auto | by right]. }
    erewrite bind_Ret by exact E3. assert (S13 : tstep s s3) by (by eapply tstep_trans). pose proof (tstep_sb _ _ S13) as Es3.
    assert (J3 : trunc_ok s3 v2 bl2 H c).
    { destruct J2 as [D2 Hs2 Hr2]. split; [by eapply disk_ok_drop | by rewrite (tstep_sb _ _ S3) |]. unfold bitmap_of in *. rewrite (tstep_sb _ _ S3). destruct Hr2 as [Hr2|[R1 R2]]; [by left |]. right. split; [by rewrite (tstep_log_size _ _ S3) |].
      unfold in_use in *. rewrite filter_cons in R2. case_decide; cbn [length] in R2; lia. }
    assert (F13 : freed s v v2 (fun x => exists m, 0 <= m < NINDIRECT /\ get32 (4 * m) (v a) = x)) by (destruct F2 as [A1 A2]; rewrite Es1 in A1, A2; by split).
    destruct (free_one s3 v2 bl2 H (i_inum i) a c J3) as (s4 & v4 & bl4 & E4 & S4 & _ & J4 & F4 & _).
    { apply (own_blk_freed s s3 v v2 H (i_inum i) _ a Es3 ltac:(intros x; by apply tstep_in_log) F13); [|done]. intros (m & Hm & Em). destruct (Oe m Hm) as [_ Hne]; [by rewrite Em | done]. }
    erewrite bind_Ret by exact E4. assert (S14 : tstep s s4) by (by eapply tstep_trans). pose proof (tstep_itable _ _ S14) as Ei4.
    eexists _, v4, bl4. split; [reflexivity |]. split_and!; [eapply istep_trans; [by apply istep_of_tstep | apply istep_set_addr] | by apply trunc_ok_itable | |].
    + eapply freed_ext; [|eapply freed_trans; [exact Es3 | exact F13 | exact F4]]. intros x Hx. split; [intros [Hx1| ->]; auto | intros [_ [->|Hx1]]; auto].
    + rewrite inode_alter by (by rewrite Ei4). by rewrite Ei4.
Qed.

Lemma baddr_direct v i (m : nat) : (m < 12)%nat -> baddr v i (Z.of_nat m) = i_addrs i !!! m.
Proof. intros Hm. unfold baddr. destruct (Z.ltb_spec (Z.of_nat m) NDIRECT); [by rewrite Nat2Z.id | fconsts; lia]. Qed.

Lemma baddr_entry v i m : 0 <= m -> baddr v i (NDIRECT + m) = get32 (4 * m) (v (indirect i)).
Proof. intros Hm. unfold baddr. destruct (Z.ltb_spec (NDIRECT + m) NDIRECT); [lia |]. do 2 f_equal. lia. Qed.

(** The addresses of a file, one by one. *)
Lemma fmap_addr s v H i nb k : fmap s v H i nb -> 0 <= k < MAXFILE -> k < NDIRECT \/ indirect i <> 0 -> baddr v i k <> 0 -> k < nb.
Proof. intros F Hk Hor Hnz. destruct (Z.lt_ge_cases k nb); [done |]. exfalso. apply Hnz, (fm_zero _ _ _ _ _ F); [lia | done]. Qed.

(** An inode without blocks. *)
Lemma fmap_empty s v H i : i_dev i = ROOTDEV -> i_addrs i = replicate 13 0 -> fmap s v H i 0.
Proof.
  intros Hd Ha. assert (Hi : indirect i = 0) by (unfold indirect; rewrite Ha; apply lookup_total_replicate_2; fconsts; lia). split; [done | rewrite Ha; apply length_replicate | fconsts; lia | intros; lia | done | fconsts; lia | intros; lia | intros; lia |].
  intros k Hk [Hd'|]; [|done]. rewrite <- (Z2Nat.id k) by lia. rewrite baddr_direct by (fconsts; lia). rewrite Ha. apply lookup_total_replicate_2. fconsts. lia.
Qed.

(** The blocks, then the inode. *)
Lemma trunc_blocks s v bl H ip nb c : let i := itable s !!! ip in (ip < length (itable s))%nat -> trunc_ok s v bl H (S c) -> fmap s v H i nb ->
  exists s1 s2 v2 bl2, itrunc_direct (Z.to_nat NDIRECT) ip 0 s = Ret tt s1 /\ length (i_addrs (itable s1 !!! ip)) = 13%nat /\ trunc_indirect ip s1 = Ret tt s2 /\ istep ip s s2 /\ trunc_ok s2 v2 bl2 H c /\
    freed s v v2 (of_file v i nb) /\ i_addrs (itable s2 !!! ip) = replicate 13 0.
Proof.
  intros i Hip J F. pose proof (fm_nb _ _ _ _ _ F) as Hnb.
  destruct (itrunc_direct_ok H ip 12 0 s v bl (S c) Hip J (fm_dev _ _ _ _ _ F) (fm_len _ _ _ _ _ F) ltac:(lia)) as (s1 & v1 & bl1 & E1 & I1 & J1 & F1 & L1 & A1); fold i.
  { intros m Hm Hnz. rewrite <- (baddr_direct v) in Hnz |- * by lia. apply F. split; [lia |]. apply (fmap_addr s v H i nb); [done | fconsts; lia | left; fconsts; lia | done]. }
  { intros m m' Hm Hm' Hnz E. rewrite <- !(baddr_direct v) in E by lia. rewrite <- (baddr_direct v) in Hnz by lia. assert (Hnz' : baddr v i (Z.of_nat m') <> 0) by (by rewrite <- E).
    apply Nat2Z.inj, (fm_inj _ _ _ _ _ F); [split; [lia |] | split; [lia |] | done]; (apply (fmap_addr s v H i nb); [done | fconsts; lia | left; fconsts; lia | done]). }
  fold i in F1, A1. set (i1 := itable s1 !!! ip) in *. destruct (istep_inode _ _ _ I1 Hip) as [a1 Ea1]. fold i i1 in Ea1. pose proof (istep_sb _ _ _ I1) as Es1. assert (El1 : forall x, in_log (logst s1) x <-> in_log (logst s) x) by (intros x; by apply (istep_in_log ip)).
  assert (Ei : indirect i1 = indirect i) by (unfold indirect; rewrite A1 by (fconsts; lia); by rewrite decide_False by (fconsts; lia)). assert (En1 : i_inum i1 = i_inum i) by (by rewrite Ea1).
  assert (Hkeep : forall k, 0 <= k < nb -> NDIRECT <= k -> ~ exists m, (0 <= m < 0 + 12)%nat /\ i_addrs i !!! m = baddr v i k).
  { intros k Hk Hd' (m & Hm & Em). rewrite <- (baddr_direct v) in Em by lia. pose proof (ob_range _ _ _ _ _ (fm_blk _ _ _ _ _ F k Hk)) as Hr. assert (Z.of_nat m < nb) by (apply (fmap_addr s v H i nb); [done | fconsts; lia | left; fconsts; lia | lia]).
    assert (Z.of_nat m = k) by (apply (fm_inj _ _ _ _ _ F); [lia | lia | done]). fconsts. lia. }
  destruct (trunc_indirect_ok s1 v1 bl1 H ip c) as (s2 & v2 & bl2 & E2 & I2 & J2 & F2 & A2); fold i1.
  { by rewrite (istep_len _ _ _ I1). }
  { done. }
  { rewrite Ea1. apply F. }
  { done. }
  { rewrite Ei, En1. intros Hz. pose proof (fm_ind _ _ _ _ _ F Hz) as Oa. assert (Ev : v1 (indirect i) = v (indirect i)) by (apply F1, Oa). rewrite Ev. split; [|split].
    - eapply own_blk_freed; [exact Es1 | exact El1 | exact F1 | | exact Oa]. intros (m & Hm & Em). rewrite <- (baddr_direct v) in Em by lia. apply (fm_sep _ _ _ _ _ F (Z.of_nat m)); [|done]. split; [lia |].
      apply (fmap_addr s v H i nb); [done | fconsts; lia | by right | by rewrite Em].
    - intros m Hm Hnz. rewrite <- (baddr_entry v i) in Hnz |- * by lia. assert (Hk : NDIRECT + m < nb) by (apply (fmap_addr s v H i nb); [done | unfold MAXFILE; fconsts; lia | by right | done]).
      split; [|apply (fm_sep _ _ _ _ _ F); fconsts; lia]. eapply own_blk_freed; [exact Es1 | exact El1 | exact F1 | apply Hkeep; fconsts; lia | apply F; fconsts; lia].
    - intros m m' Hm Hm' Hnz E. rewrite <- !(baddr_entry v i) in E by lia. rewrite <- (baddr_entry v i) in Hnz by lia. assert (Hnz' : baddr v i (NDIRECT + m') <> 0) by (by rewrite <- E).
      assert (NDIRECT + m = NDIRECT + m'); [|lia]. apply (fm_inj _ _ _ _ _ F); [split; [fconsts; lia |] | split; [fconsts; lia |] | done]; (apply (fmap_addr s v H i nb); [done | unfold MAXFILE; fconsts; lia | by right | done]). }
  fold i1 in F2, A2. rewrite Ei in F2. exists s1, s2, v2, bl2. split_and!; try done; [by eapply istep_trans | |].
  - eapply freed_ext; [|eapply freed_trans; [exact Es1 | exact F1 | exact F2]]. intros x Hx. split.
    + intros [(m & Hm & Em)|(Hz & [->|(m & Hm & Em)])]; [| by right |].
      * left. exists (Z.of_nat m). rewrite baddr_direct by lia. split; [|done]. split; [lia |]. apply (fmap_addr s v H i nb); [done | fconsts; lia | left; fconsts; lia |]. rewrite baddr_direct by lia. lia.
      * left. exists (NDIRECT + m). assert (Ev : v1 (indirect i) = v (indirect i)) by (apply F1, (fm_ind _ _ _ _ _ F Hz)). rewrite Ev in Em. rewrite baddr_entry by lia. split; [|done]. split; [fconsts; lia |].
        apply (fmap_addr s v H i nb); [done | unfold MAXFILE; fconsts; lia | by right |]. rewrite baddr_entry by lia. lia.
    + intros [(k & Hk & ->)|(Hz & ->)]; [|right; split; [done | by left]]. destruct (Z.lt_ge_cases k NDIRECT) as [Hd|Hd].
      * left. exists (Z.to_nat k). rewrite <- (baddr_direct v) by (fconsts; lia). rewrite Z2Nat.id by lia. split; [fconsts; lia | done].
      * right. assert (Hz : indirect i <> 0) by (apply F; lia). split; [done |]. right. exists (k - NDIRECT). assert (Ev : v1 (indirect i) = v (indirect i)) by (apply F1, (fm_ind _ _ _ _ _ F Hz)).
        rewrite Ev, <- (baddr_entry v i) by lia. split; [unfold MAXFILE in Hnb; fconsts; lia | f_equal; lia].
  - rewrite A2. apply list_eq_same_length with (n := 13%nat); [apply length_replicate | by rewrite length_insert |]. intros m x y Hm Hx Hy. apply list_lookup_total_correct in Hx, Hy. subst x y.
    rewrite lookup_total_replicate_2 by done. destruct (decide (m = 12%nat)) as [->|Hne]; [apply list_lookup_total_insert_eq; lia |]. rewrite list_lookup_total_insert_ne by done. rewrite A1 by done. by rewrite decide_True by lia.
Qed.

(** C12: [itrunc] gives back a file's blocks, all of them and no others: the direct ones, those of the indirect block and
    the indirect block itself are free afterwards, every other block is marked as before, the inode has no blocks and size 0 in
    memory and on disk, and nothing but the bitmap and the inode's block is written.  Truncating the largest file takes
    no more room in the transaction than the bitmap and the inode. *)
Theorem itrunc_frees (s : kernel) (v : Z -> list Z) (bl H : list Z) (ip : nat) (nb : Z) (c : nat) (J : trunc_ok s v bl H (S c)) (V : file_inv s v H ip nb) :
  let i := itable s !!! ip in
  exists s' v' bl', itrunc ip s = Ret tt s' /\ disk_ok s' v' bl' H c /\ file_inv s' v' H ip 0 /\ tstep s (set_itable (itable s) s') /\
    itable s' = alter (fun i => set_i_size 0 (set_i_addrs (replicate 13 0) i)) ip (itable s) /\ dinode_at v' (sb s) (i_inum i) = dinode_of (itable s' !!! ip) /\
    (forall x, 0 < x < sb_size (sb s) -> used v' (sb s) x = true <-> used v (sb s) x = true /\ ~ of_file v i nb x) /\
    (forall b, ~ is_bitmap (sb s) b -> b <> IBLOCK (i_inum i) (sb s) -> v' b = v b).
Proof.
  intros i. destruct V as [Hip F Hs U Hh Hd N]. fold i in F, Hs, U, Hh, Hd, N. destruct (trunc_blocks s v bl H ip nb c Hip J F) as (s1 & s2 & v2 & bl2 & E1 & L1 & E2 & I2 & J2 & F2 & A2). fold i in F2.
  destruct (istep_inode _ _ _ I2 Hip) as [a Ea]. fold i in Ea. assert (Ha : itable s2 !!! ip = set_i_addrs (replicate 13 0) i) by (rewrite Ea in A2 |- *; cbn in A2; by rewrite A2).
  pose proof (istep_sb _ _ _ I2) as Es. set (s3 := set_itable (alter (set_i_size 0) ip (itable s2)) s2). assert (Hip2 : (ip < length (itable s2))%nat) by (by rewrite (istep_len _ _ _ I2)).
  assert (I3 : itable s3 !!! ip = set_i_size 0 (set_i_addrs (replicate 13 0) i)) by (unfold s3; rewrite inode_alter by done; by rewrite Ha).
  assert (V3 : file_inv s3 v2 H ip 0).
  { split; rewrite ?I3; try done.
    - unfold s3. cbn. by rewrite length_alter.
    - apply fmap_empty; [apply F | done].
    - destruct U as (U1 & U2 & U3). unfold inode_used. change (sb s3) with (sb s2). rewrite Es. split; [done |]. split; [|done]. apply F2; [done |]. split; [done |]. intros Ho. by apply (ob_inode _ _ _ _ _ (fmap_range _ _ _ _ _ F _ Ho)).
    - destruct Hh as [B1 B2 B3]. split; change (sb s3) with (sb s2); rewrite ?Es; try done. exact (istep_home _ _ _ I2 _ B2).
    - destruct Hd as [D1 D2 D3 D4]. split; [done | cbn; lia | apply (Forall_replicate _ 13); lia | done].
    - change (sb s3) with (sb s2). by rewrite Es. }
  destruct (iupdate_file s3 v2 bl2 H ip 0 c (disk_ok_itable _ _ _ _ _ _ (to_disk _ _ _ _ _ J2)) V3) as (s4 & v4 & E4 & S4 & D4 & V4 & A4 & Fr4 & _ & U4 & _). rewrite I3 in A4, Fr4, D4. cbn [i_inum set_i_size set_i_addrs] in A4, Fr4, D4.
  change (sb s3) with (sb s2) in *. rewrite Es in A4, Fr4, U4, D4. pose proof (tstep_itable _ _ S4) as Ei4. exists s4, v4, (log_add (IBLOCK (i_inum i) (sb s)) bl2). split_and!; try done.
  - unfold itrunc. erewrite bind_Ret by exact E1. unfold trunc_indirect in E2. unfold getinode in *. erewrite bind_Ret by reflexivity. erewrite bind_Ret in E2 by reflexivity. cbv beta zeta in *. rewrite in_bounds_run in E2 |- * by (unfold alen; rewrite L1; fconsts; lia). erewrite bind_Ret by exact E2. erewrite bind_Ret by reflexivity. exact E4.
  - eapply tstep_trans; [apply I2 |]. apply (tstep_set_itable (itable s)) in S4. exact S4.
  - rewrite Ei4. unfold s3. cbn. destruct (is_addrs _ _ _ I2) as [b Eb]. assert (Hb : b = replicate 13 0) by (rewrite Eb, alter_total_inode in A2 by done; done). rewrite Eb, Hb, alter_compose_list. done.
  - rewrite Ei4, I3. exact A4.
  - intros x Hx. rewrite U4 by lia. by apply F2.
  - intros b Hb Hib. rewrite Fr4 by done. by apply F2.
Qed.

(** ** A file of two blocks *)

Definition inode8 : inode := mkInode ROOTDEV 6 1 zero_sleeplock true T_FILE 0 0 1 1500 ([40; 41] ++ replicate 11 0).
Definition fs8 : kernel := set_itable (<[3%nat := inode8]> (itable fs0)) fs0.

Lemma fs8_inode : itable fs8 !!! 3%nat = inode8.
Proof. unfold fs8. cbn [itable set_itable]. rewrite fs0_itable. reflexivity. Qed.

Lemma fs8_own b : b = 40 \/ b = 41 -> own_blk fs8 img0 [] 6 b.
Proof.
  intros Hb. split; change (sb fs8) with sb0.
  - change (sb_size sb0) with 2000. lia.
  - apply bitmap0_used. lia.
  - unfold home_block, in_log. change (logst fs8) with log0. change (log_start log0) with 2. change (log_size log0) with 30. lia.
  - intros E%fs0_bitmap. lia.
  - apply not_elem_of_nil.
  - change (IBLOCK 6 sb0) with 32. lia.
Qed.

Lemma fs8_file : file_inv fs8 img0 [] 3 2.
Proof.
  assert (Hb : ~ is_bitmap sb0 32) by (intros E%fs0_bitmap; lia). assert (Hi : indirect inode8 = 0) by reflexivity. assert (Hk : forall k, 0 <= k < 2 -> baddr img0 inode8 k = 40 + k) by (intros k Hk; assert (Hc : k = 0 \/ k = 1) by lia; destruct Hc as [-> | ->]; reflexivity).
  split; rewrite ?fs8_inode.
  - unfold fs8. cbn [itable set_itable]. rewrite length_insert, fs0_itable, length_replicate. unfold NINODE. lia.
  - split; [done | done | fconsts; lia | | done | fconsts; lia | | |].
    + intros k Hk'. rewrite Hk by done. apply fs8_own. lia.
    + intros k Hk'. rewrite Hk, Hi by done. lia.
    + intros k k' Hk1 Hk2. rewrite !Hk by done. lia.
    + intros k Hk' [Hd|Hd]; [|done]. rewrite <- (Z2Nat.id k) by lia. rewrite baddr_direct by (fconsts; lia). cbn [i_addrs inode8]. rewrite lookup_total_app_r by (cbn; lia). apply lookup_total_replicate_2. cbn [length]. fconsts. lia.
  - change (0 <= 1500 <= 2048). lia.
  - unfold inode_used. change (sb fs8) with sb0. change (IBLOCK (i_inum inode8) sb0) with 32. split; [change (sb_size sb0) with 2000; lia |]. split; [apply bitmap0_used; lia | done].
  - split; [reflexivity | | apply not_elem_of_nil]. unfold home_block, in_log. change (sb fs8) with sb0. change (logst fs8) with log0. change (IBLOCK (i_inum inode8) sb0) with 32. change (log_start log0) with 2. change (log_size log0) with 30. lia.
  - split; [intros x Hx; cbn in Hx; repeat (apply elem_of_cons in Hx as [->|Hx]; [lia || (vm_compute; split; congruence) |]); by apply elem_of_nil in Hx | cbn; lia | cbn; repeat constructor; lia | done].
  - change (sb fs8) with sb0. cbn [i_inum inode8]. change (sb_inodestart sb0) with 32. change (6 / IPB) with 0. lia.
Qed.

Lemma itrunc_frees_witness : exists s' v', itrunc 3 fs8 = Ret tt s' /\ used v' sb0 40 <> true /\ used v' sb0 41 <> true.
Proof.
  destruct (itrunc_frees fs8 img0 [] [] 3 2 5) as (s' & v' & bl' & E & _ & _ & _ & _ & _ & Hu & _).
  - split; [|vm_compute; congruence | right; destruct (fs0_room 8 ltac:(lia)) as [R1 R2]; split; [exact R1 | exact R2]]. apply disk_ok_itable. split; [exact fs0_tx | exact fs0_bm | done | | apply fs0_held | apply fs0_room; lia]. intros b Hb. by apply not_elem_of_nil in Hb.
  - exact fs8_file.
  - exists s', v'. split; [exact E |]. rewrite fs8_inode in Hu. change (sb fs8) with sb0 in Hu. split; intros Hx; apply Hu in Hx; try (change (sb_size sb0) with 2000; lia); destruct Hx as [_ Hx]; apply Hx; left.
    + exists 0. split; [lia | reflexivity].
    + exists 1. split; [lia | reflexivity].
Defined.
