(* ===== verification/Dir.v ===== *)
(** * Directories: dirlookup and dirlink

    A directory is a file of 16-byte entries: an inode number, 0 for an empty
    slot, and a name of up to [DIRSIZ] bytes.  [dir_find] is the first slot in use
    with a given name, [dir_slot] the first empty one.  dirlookup finds the one,
    dirlink fills the other. *)

From S2P Require Import Prelude State Mem Spinlock Sched Sleeplock Bio BufCache CacheRules Log LogHeader LogSpec LogRecover LogProps Txn Memlayout Kalloc Vm Uart Printf Copy Fs FsBlocks FsInode FsData FsGrow.

(** ** Names *)

(** A name as the directory stores it: the bytes before the NUL, [n] at most. *)
Fixpoint cname (n : nat) (p : list Z) : list Z :=
  match n with
  | O => []
  | S n => match p with
           | [] => []
           | c :: p => if c =? 0 then [] else c :: cname n p
           end
  end.

Lemma strncmp_list_eq : forall n p q, strncmp_list n p q = 0 <-> cname n p = cname n q.
Proof.
  induction n as [|n IH]; intros p q; cbn [strncmp_list cname]; [done |]. destruct p as [|a p], q as [|b q]; cbn [head from_option id tail].
  - done.
  - change (negb (0 =? 0)) with false. cbn [andb]. destruct (Z.eqb_spec b 0) as [->|]; [done |]. split; [lia | done].
  - destruct (Z.eqb_spec a 0) as [->|Ha]; cbn [negb andb]; [done |]. split; [lia | done].
  - destruct (Z.eqb_spec a 0) as [->|Ha]; cbn [negb andb].
    + destruct (Z.eqb_spec b 0) as [->|]; [done |]. split; [lia | done].
    + destruct (Z.eqb_spec a b) as [->|Hne]; [destruct (Z.eqb_spec b 0); [done |]; rewrite IH; split; congruence |]. destruct (Z.eqb_spec b 0); split; [lia | done | lia | congruence].
Qed.

Lemma cname_replicate n k : cname n (replicate k 0) = [].
Proof. destruct n, k; done. Qed.

Lemma cname_strncpy : forall n t, cname n (strncpy_list n t) = cname n t.
Proof.
  induction n as [|n IH]; intros t; cbn [strncpy_list cname]; [done |]. destruct t as [|c t]; [done |]. destruct (Z.eqb_spec c 0) as [->|Hc]; [done |].
  destruct (Z.eqb_spec c 0); [done |]. by rewrite IH.
Qed.

(** Two names are the same entry. *)
Definition same_name (s t : list Z) : bool := bool_decide (cname (Z.to_nat DIRSIZ) s = cname (Z.to_nat DIRSIZ) t).

Lemma namecmp_same s t : (namecmp s t =? 0) = same_name s t.
Proof.
  unfold namecmp, same_name. destruct (Z.eqb_spec (strncmp_list (Z.to_nat DIRSIZ) s t) 0) as [E|E]; rewrite strncmp_list_eq in E; [by rewrite bool_decide_eq_true_2 | by rewrite bool_decide_eq_false_2].
Qed.

Lemma same_name_dirent name' inum name : same_name name' (de_name (dirent inum name)) = same_name name' name.
Proof. unfold same_name, de_name, dirent. change (drop 2 (le_enc 2 inum ++ ?x)) with x. by rewrite cname_strncpy. Qed.

Lemma length_strncpy : forall n t, length (strncpy_list n t) = n.
Proof.
  induction n as [|n IH]; intros t; [done |]. cbn [strncpy_list]. destruct t as [|c t]; [apply length_replicate |]. destruct (c =? 0); [apply length_replicate |]. cbn. by rewrite IH.
Qed.

Lemma dirent_length inum name : length (dirent inum name) = 16%nat.
Proof. unfold dirent. by rewrite length_app, length_le_enc, length_strncpy. Qed.

Lemma de_inum_dirent inum name : 0 <= inum < 2 ^ 16 -> de_inum (dirent inum name) = inum.
Proof. intros Hi. unfold de_inum, get16, dirent, slice. change (Z.to_nat 0) with 0%nat. rewrite drop_0. change (Z.to_nat 2) with (length (le_enc 2 inum)). rewrite take_app_length, le_dec_enc. apply Z.mod_small. change (256 ^ Z.of_nat 2) with (2 ^ 16). lia. Qed.

(** ** Entries *)

Definition dent (v : Z -> list Z) (d : inode) (k : Z) : list Z := fbytes v d (16 * k) 16.

(** Slot [k] holds an entry for [name]. *)
Definition entry_for (v : Z -> list Z) (d : inode) (name : list Z) (k : Z) : bool := negb (de_inum (dent v d k) =? 0) && same_name name (de_name (dent v d k)).

(** The first of the [n] slots from [k] on that [p] accepts. *)
Fixpoint first_slot (p : Z -> bool) (n : nat) (k : Z) : option Z :=
  match n with
  | O => None
  | S n => if p k then Some k else first_slot p n (k + 1)
  end.

Definition dir_find (v : Z -> list Z) (d : inode) (name : list Z) (n : nat) : option Z := first_slot (entry_for v d name) n 0.
Definition dir_slot (v : Z -> list Z) (d : inode) (n : nat) : Z := default (Z.of_nat n) (first_slot (fun k => de_inum (dent v d k) =? 0) n 0).

Lemma first_slot_spec p : forall n k, match first_slot p n k with
  | Some j => k <= j < k + Z.of_nat n /\ p j = true /\ forall x, k <= x < j -> p x = false
  | None => forall x, k <= x < k + Z.of_nat n -> p x = false
  end.
Proof.
  induction n as [|n IH]; intros k; cbn [first_slot]; [intros x Hx; lia |]. destruct (p k) eqn:E; [split; [lia |]; split; [done |]; intros x Hx; lia |].
  specialize (IH (k + 1)). destruct (first_slot p n (k + 1)) as [j|].
  - destruct IH as (H1 & H2 & H3). split; [lia |]. split; [done |]. intros x Hx. destruct (decide (x = k)) as [->|]; [done |]. apply H3. lia.
  - intros x Hx. destruct (decide (x = k)) as [->|]; [done |]. apply IH. lia.
Qed.

Lemma first_slot_ext p q : forall n k, (forall x, k <= x < k + Z.of_nat n -> p x = q x) -> first_slot p n k = first_slot q n k.
Proof. induction n as [|n IH]; intros k Hpq; cbn [first_slot]; [done |]. rewrite Hpq by lia. rewrite IH by (intros x Hx; apply Hpq; lia). done. Qed.

Lemma first_slot_app p : forall n m k, first_slot p (n + m) k = match first_slot p n k with Some j => Some j | None => first_slot p m (k + Z.of_nat n) end.
Proof. induction n as [|n IH]; intros m k; cbn [first_slot Nat.add]; [by rewrite Z.add_0_r |]. destruct (p k); [done |]. rewrite IH. destruct (first_slot p n (k + 1)); [done |]. f_equal. lia. Qed.

(** ** The loops *)

Section loops.
Context (v : Z -> list Z) (bl H : list Z) (dp : nat) (d : inode).

Lemma read_entry s k : itable s !!! dp = d -> tx s v bl H -> file_ok s v H d -> (in_use bl H < HEAD)%nat -> 0 <= k -> 16 * k + 16 <= i_size d ->
  exists s', readi dp DVar (16 * k) DIRENT s = Ret (16, dent v d k) s' /\ tx s' v bl H /\ tstep s s'.
Proof.
  intros Hd T F R Hk Hle. pose proof (fo_size _ _ _ _ F) as Hs. assert (Hbig : MAXFILE * BSIZE < 2 ^ 31) by (vm_compute; done). unfold DIRENT.
  destruct (readi_ok s v bl H dp (16 * k) 16 T) as (s' & E & T' & S); rewrite ?Hd; try done; try lia. rewrite Hd in E. destruct (Z.ltb_spec (i_size d) (16 * k)); [lia |]. rewrite Z.min_l in E by lia. by exists s'.
Qed.

Lemma dirlookup_loop_ok name : forall n fuel s k, itable s !!! dp = d -> tx s v bl H -> file_ok s v H d -> (in_use bl H < HEAD)%nat -> 0 <= k -> i_size d = 16 * (k + Z.of_nat n) -> (n < fuel)%nat ->
  exists s', tx s' v bl H /\ tstep s s' /\ dirlookup_loop fuel dp name (16 * k) s =
    match first_slot (entry_for v d name) n k with
    | Some j => (ip ← iget (i_dev d) (de_inum (dent v d j)); mret (Some (ip, 16 * j))) s'
    | None => Ret None s'
    end.
Proof.
  induction n as [|n IH]; intros fuel s k Hd T F R Hk Hsz Hf; (destruct fuel as [|fuel]; [lia |]); cbn [dirlookup_loop first_slot]; unfold getinode; erewrite bind_Ret by reflexivity; cbv beta; rewrite Hd.
  - destruct (Z.ltb_spec (16 * k) (i_size d)); [lia |]. exists s. split_and!; auto with tstep.
  - destruct (Z.ltb_spec (16 * k) (i_size d)); [|lia]. destruct (read_entry s k Hd T F R Hk ltac:(lia)) as (s1 & E1 & T1 & S1). erewrite bind_Ret by exact E1. cbv beta. cbn [fst snd]. change (negb (16 =? DIRENT)) with false. cbv iota.
    rewrite namecmp_same. unfold entry_for at 1. unfold DIRENT. replace (16 * k + 16) with (16 * (k + 1)) by lia.
    destruct (IH fuel s1 (k + 1)) as (s2 & T2 & S2 & E2); [by rewrite (tstep_itable _ _ S1) | done | by eapply file_ok_tstep | done | lia | lia | lia |].
    destruct (de_inum (dent v d k) =? 0); cbn [negb andb]; [exists s2; split_and!; [done | by eapply tstep_trans | done] |].
    destruct (same_name name (de_name (dent v d k))); [by exists s1 | exists s2; split_and!; [done | by eapply tstep_trans | done]].
Qed.

Lemma dirlink_scan_ok : forall n fuel s k, itable s !!! dp = d -> tx s v bl H -> file_ok s v H d -> (in_use bl H < HEAD)%nat -> 0 <= k -> i_size d = 16 * (k + Z.of_nat n) -> (n < fuel)%nat ->
  exists s', tx s' v bl H /\ tstep s s' /\ dirlink_scan fuel dp (16 * k) s = Ret (16 * default (k + Z.of_nat n) (first_slot (fun k => de_inum (dent v d k) =? 0) n k)) s'.
Proof.
  induction n as [|n IH]; intros fuel s k Hd T F R Hk Hsz Hf; (destruct fuel as [|fuel]; [lia |]); cbn [dirlink_scan first_slot]; unfold getinode; erewrite bind_Ret by reflexivity; cbv beta; rewrite Hd.
  - destruct (Z.ltb_spec (16 * k) (i_size d)); [lia |]. exists s. cbn [default]. rewrite Z.add_0_r. split_and!; auto with tstep.
  - destruct (Z.ltb_spec (16 * k) (i_size d)); [|lia]. destruct (read_entry s k Hd T F R Hk ltac:(lia)) as (s1 & E1 & T1 & S1). erewrite bind_Ret by exact E1. cbv beta. cbn [fst snd]. change (negb (16 =? DIRENT)) with false. cbv iota.
    unfold DIRENT. replace (16 * k + 16) with (16 * (k + 1)) by lia. destruct (de_inum (dent v d k) =? 0); [by exists s1 |].
    destruct (IH fuel s1 (k + 1)) as (s2 & T2 & S2 & E2); [by rewrite (tstep_itable _ _ S1) | done | by eapply file_ok_tstep | done | lia | lia | lia |].
    exists s2. split_and!; [done | by eapply tstep_trans |]. rewrite E2. do 3 f_equal. lia.
Qed.
End loops.

(** ** dirlookup and dirlink *)

(** A directory of [n] slots. *)
Record dir_inv (s : kernel) (v : Z -> list Z) (H : list Z) (dp : nat) (nb : Z) (n : nat) : Prop := mkDirInv {
  di_file : file_inv s v H dp nb;
  di_isdir : i_type (itable s !!! dp) = T_DIR;
  di_slots : i_size (itable s !!! dp) = 16 * Z.of_nat n
}.

Lemma dirlookup_ok s v bl H dp nb n name : tx s v bl H -> dir_inv s v H dp nb n -> (in_use bl H < HEAD)%nat -> let d := itable s !!! dp in
  exists s', tx s' v bl H /\ tstep s s' /\ dirlookup dp name s =
    match dir_find v d name n with
    | Some k => (ip ← iget ROOTDEV (de_inum (dent v d k)); mret (Some (ip, 16 * k))) s'
    | None => Ret None s'
    end.
Proof.
  intros T [V Ht Hn] R d. unfold dirlookup, getinode. erewrite bind_Ret by reflexivity. cbv beta. fold d in Ht, Hn |- *. rewrite Ht. change (negb (T_DIR =? T_DIR)) with false. cbv iota.
  rewrite Hn. unfold DIRENT. replace (16 * Z.of_nat n / 16) with (Z.of_nat n) by (rewrite Z.mul_comm, Z.div_mul; lia).
  destruct (dirlookup_loop_ok v bl H dp d name n (Z.to_nat (Z.of_nat n + 2)) s 0) as (s' & T' & S' & E'); [done | done | by eapply file_inv_ok | done | lia | lia | lia |].
  exists s'. split_and!; [done | done |]. change (16 * 0) with 0 in E'. assert (Hdev : i_dev d = ROOTDEV) by apply (fi_map _ _ _ _ _ V). rewrite Hdev in E'. exact E'.
Qed.

Lemma dir_slot_spec v d n : let f := dir_slot v d n in 0 <= f <= Z.of_nat n /\ (f < Z.of_nat n -> de_inum (dent v d f) = 0).
Proof.
  intros f. unfold f, dir_slot. pose proof (first_slot_spec (fun k => de_inum (dent v d k) =? 0) n 0) as Hs. destruct (first_slot _ n 0) as [j|]; cbn [default from_option id]; [|split; [lia |]; intros; lia].
  destruct Hs as (H1 & H2 & _). split; [lia |]. intros _. by apply Z.eqb_eq.
Qed.

(** Filling slot [f], which was empty or the next one, with an entry for [name]. *)
Lemma dir_fill v d v' d' name inum n : let f := dir_slot v d n in let n' := Z.to_nat (Z.max (Z.of_nat n) (f + 1)) in
  0 < inum < 2 ^ 16 -> dir_find v d name n = None -> (forall k, 0 <= k < Z.of_nat n -> k <> f -> dent v' d' k = dent v d k) -> dent v' d' f = dirent inum name ->
  dir_find v' d' name n' = Some f /\ de_inum (dent v' d' f) = inum /\ forall name', same_name name' name = false -> dir_find v' d' name' n' = dir_find v d name' n.
Proof.
  intros f n' Hi Hnone Hsame Hnew. destruct (dir_slot_spec v d n) as [Hf Hf0]. fold f in Hf, Hf0.
  assert (Ef : de_inum (dent v' d' f) = inum) by (rewrite Hnew; apply de_inum_dirent; lia).
  assert (Pf : forall x, entry_for v' d' x f = same_name x name).
  { intros x. unfold entry_for. rewrite Ef. destruct (Z.eqb_spec inum 0); [lia |]. cbn [negb andb]. rewrite Hnew. apply same_name_dirent. }
  assert (Pk : forall x k, 0 <= k < Z.of_nat n -> k <> f -> entry_for v' d' x k = entry_for v d x k) by (intros x k Hk Hne; unfold entry_for; by rewrite Hsame).
  split; [|split; [done |]].
  - pose proof (first_slot_spec (entry_for v d name) n 0) as Hs. unfold dir_find in *. rewrite Hnone in Hs. pose proof (first_slot_spec (entry_for v' d' name) n' 0) as Hs'.
    assert (Hself : entry_for v' d' name f = true) by (rewrite Pf; by apply bool_decide_eq_true_2).
    destruct (first_slot (entry_for v' d' name) n' 0) as [j|]; [|rewrite Hs' in Hself by lia; done]. destruct Hs' as (H1 & H2 & H3). destruct (Z.lt_trichotomy j f) as [Hl|[->|Hg]]; [|done |].
    + rewrite Pk, Hs in H2 by lia. done.
    + rewrite H3 in Hself by lia. done.
  - intros x Hx. unfold dir_find. destruct (Z.eq_dec f (Z.of_nat n)) as [E|E].
    + replace n' with (n + 1)%nat by (unfold n'; lia). rewrite first_slot_app, (first_slot_ext _ (entry_for v d x)) by (intros k Hk; apply Pk; lia). destruct (first_slot _ n 0); [done |]. cbn [first_slot]. rewrite Z.add_0_l, <- E, Pf, Hx. done.
    + replace n' with n by (unfold n'; lia). apply first_slot_ext. intros k Hk. destruct (decide (k = f)) as [->|Hne]; [|apply Pk; lia]. rewrite Pf, Hx. unfold entry_for. rewrite Hf0 by lia. done.
Qed.

Lemma touched_entry k : 0 <= k -> touched (16 * k) 16 = 1.
Proof.
  intros Hk. unfold touched. change (16 =? 0) with false. cbv iota. change BSIZE with 1024. replace (16 * k + 16 - 1) with (16 * k + 15) by lia.
  replace (1024) with (16 * 64) at 1 2 by lia. rewrite Z.div_mul_cancel_l by lia. replace (16 * k + 15) with (k * 16 + 15) by lia. rewrite <- Z.div_div by lia. rewrite Z.div_add_l by lia. change (15 / 16) with 0. rewrite Z.add_0_r. lia.
Qed.

Lemma dent_ext v d v' d' k : (forall o, 16 * k <= o < 16 * k + 16 -> fbyte v d o = fbyte v' d' o) -> dent v d k = dent v' d' k.
Proof. intros E. apply fbytes_ext. intros o Ho. apply E. lia. Qed.

(** dirlink once the name is known to be new. *)
Lemma dirlink_new s v bl H dp nb n name inum c : let d := itable s !!! dp in disk_ok s v bl H (8 + c) -> dir_inv s v H dp nb n -> 0 < inum < 2 ^ 16 ->
  16 * Z.of_nat n + 16 <= MAXFILE * BSIZE -> dir_find v d name n = None ->
  exists r s' v' bl' nb' n', dirlink dp name inum s = Ret r s' /\ disk_ok s' v' bl' H c /\ dir_inv s' v' H dp nb' n' /\ let d' := itable s' !!! dp in
    ((r = 0 /\ dir_find v' d' name n' = Some (dir_slot v d n) /\ de_inum (dent v' d' (dir_slot v d n)) = inum /\
      forall name', same_name name' name = false -> dir_find v' d' name' n' = dir_find v d name' n) \/
     (r = -1 /\ disk_full s' v' /\ n' = n /\ forall name', dir_find v' d' name' n' = dir_find v d name' n)).
Proof.
  intros d D Dv Hi Hmax Hnone. pose proof Dv as [V Ht Hn]. fold d in Ht, Hn. assert (R : (in_use bl H < HEAD)%nat) by (destruct (dk_room _ _ _ _ _ D); lia).
  destruct (dirlookup_ok s v bl H dp nb n name (dk_tx _ _ _ _ _ D) Dv R) as (s1 & T1 & S1 & E1). fold d in E1. rewrite Hnone in E1.
  assert (Ei1 : itable s1 !!! dp = d) by (by rewrite (tstep_itable _ _ S1)). destruct (dir_slot_spec v d n) as [Hf _]. set (f := dir_slot v d n) in *.
  destruct (dirlink_scan_ok v bl H dp d n (Z.to_nat (Z.of_nat n + 2)) s1 0) as (s2 & T2 & S2 & E2); [done | done | eapply file_ok_tstep; [by eapply file_inv_ok | done] | done | lia | lia | lia |].
  change (16 * 0) with 0 in E2. rewrite Z.add_0_l in E2. fold (dir_slot v d n) in E2. fold f in E2. assert (S12 : tstep s s2) by (by eapply tstep_trans). assert (Ei2 : itable s2 !!! dp = d) by (by rewrite (tstep_itable _ _ S12)).
  pose proof (dirent_length inum name) as Hl. pose proof (file_inv_tstep _ _ _ _ _ _ V S12) as V2. assert (Ht1 : touched (16 * f) 16 = 1) by (apply touched_entry; lia).
  destruct (writei_from s2 v bl H dp nb (16 * f) _ (SVar (dirent inum name)) (dirent inum name) c (source_var s2) eq_refl) as (m & s3 & v3 & bl3 & nb3 & E3 & Hm & C3 & D3 & V3 & S3 & (a & Et) & _ & B3 & _); rewrite ?Ei2, ?Hl; try done; try lia.
  { change (Z.of_nat 16) with 16. rewrite Ht1. apply (disk_ok_tstep H s); [eapply disk_ok_weaken; [|exact D]; lia | done | done]. }
  rewrite Ei2 in B3. rewrite Hl in Hm, C3, E3. assert (Hip : (dp < length (itable s2))%nat) by apply V2. set (d3 := itable s3 !!! dp) in *.
  assert (Ed3 : d3 = set_i_size (Z.max (i_size d) (16 * f + Z.of_nat m)) (set_i_addrs a d)) by (unfold d3; rewrite Et, alter_total_inode by done; by rewrite Ei2).
  assert (Hs3 : i_size d3 = Z.max (16 * Z.of_nat n) (16 * f + Z.of_nat m)) by (rewrite Ed3; cbn [i_size set_i_size]; lia). assert (Ht3 : i_type d3 = T_DIR) by (by rewrite Ed3).
  assert (Hm' : m = 16%nat \/ m = 0%nat /\ disk_full s3 v3).
  { destruct C3 as [|(Full & [|Hz])]; [by left | by right |]. pose proof (Z.div_mod (16 * f + Z.of_nat m) BSIZE ltac:(unfold BSIZE; lia)) as Hdm. rewrite Hz in Hdm. unfold BSIZE in Hdm. destruct (decide (m = 16%nat)); [by left | right; split; [lia | done]]. }
  assert (E : dirlink dp name inum s = Ret (if Z.of_nat m =? 16 then 0 else -1) s3).
  { unfold dirlink. erewrite bind_Ret by exact E1. cbv beta iota. unfold getinode. erewrite bind_Ret by reflexivity. cbv beta. rewrite Ei1, Hn. unfold DIRENT. replace (16 * Z.of_nat n / 16) with (Z.of_nat n) by (rewrite Z.mul_comm, Z.div_mul; lia).
    erewrite bind_Ret by exact E2. cbv beta. erewrite bind_Ret by exact E3. done. }
  destruct Hm' as [->|[-> Full]].
  - set (n' := Z.to_nat (Z.max (Z.of_nat n) (f + 1))). exists 0, s3, v3, bl3, nb3, n'. split; [exact E |]. split; [done |]. split; [split; [done | done | fold d3; unfold n'; lia] |]. left. split; [done |].
    apply (dir_fill v d v3 d3 name inum n); [done | done | |]; fold f.
    + intros k Hk Hne. apply dent_ext. intros o Ho. rewrite B3 by lia. rewrite decide_False by lia. done.
    + apply list_eq. intros j. unfold dent. destruct (decide (j < 16)%nat) as [Hj|Hj].
      * rewrite fbytes_lookup by lia. rewrite B3 by lia. rewrite decide_True by lia. rewrite (list_lookup_lookup_total_lt (dirent inum name)) by lia. do 2 f_equal. lia.
      * rewrite !lookup_ge_None_2; [done | lia | rewrite length_fbytes; lia].
  - exists (-1), s3, v3, bl3, nb3, n. split; [exact E |]. split; [done |]. split; [split; [done | done | fold d3; lia] |]. right. split_and!; try done.
    intros name'. apply first_slot_ext. intros k Hk. unfold entry_for. replace (dent v3 (itable s3 !!! dp) k) with (dent v d k); [done |]. apply dent_ext. intros o Ho. fold d3. rewrite B3 by lia. by rewrite decide_False by lia.
Qed.

(** C13: [dirlink] adds an entry that [dirlookup] finds.  A name that is already in the directory is refused, and the
    reference to its inode dropped; otherwise the entry goes to the first empty slot, or to the end, where the directory grows,
    [dirlookup] of the name then gets the new inode, every other name is found where it was, and -1 is returned, with
    the directory unchanged, only when the disk is full. *)
Theorem dirlink_dirlookup (s : kernel) (v : Z -> list Z) (bl H : list Z) (dp : nat) (nb : Z) (n : nat) (name : list Z) (inum : Z) (c : nat)
    (D : disk_ok s v bl H (9 + c)) (Dv : dir_inv s v H dp nb n) (Hi : 0 < inum < 2 ^ 16) (Hmax : 16 * Z.of_nat n + 16 <= MAXFILE * BSIZE) :
  let d := itable s !!! dp in
  match dir_find v d name n with
  | Some k => exists s1, tx s1 v bl H /\ tstep s s1 /\
      forall ip s2, iget ROOTDEV (de_inum (dent v d k)) s1 = Ret ip s2 -> dirlink dp name inum s = (iput ip ;; mret (-1)) s2
  | None => exists r s' v' bl' nb' n', dirlink dp name inum s = Ret r s' /\ disk_ok s' v' bl' H c /\ dir_inv s' v' H dp nb' n' /\
      ((r = 0 /\ (forall name', same_name name' name = false -> dir_find v' (itable s' !!! dp) name' n' = dir_find v d name' n) /\
        exists s'', tx s'' v' bl' H /\ tstep s' s'' /\ dirlookup dp name s' = (ip ← iget ROOTDEV inum; mret (Some (ip, 16 * dir_slot v d n))) s'') \/
       (r = -1 /\ disk_full s' v' /\ n' = n /\ forall name', dir_find v' (itable s' !!! dp) name' n' = dir_find v d name' n))
  end.
Proof.
  intros d. destruct (dir_find v d name n) as [k|] eqn:Ef.
  - destruct (dirlookup_ok s v bl H dp nb n name (dk_tx _ _ _ _ _ D) Dv ltac:(destruct (dk_room _ _ _ _ _ D); lia)) as (s1 & T1 & S1 & E1). fold d in E1. rewrite Ef in E1.
    exists s1. split_and!; [done | done |]. intros ip s2 E2. unfold dirlink. erewrite bind_Ret by (rewrite E1; erewrite bind_Ret by exact E2; reflexivity). done.
  - destruct (dirlink_new s v bl H dp nb n name inum (1 + c)) as (r & s' & v' & bl' & nb' & n' & E & D' & Dv' & C); try done. exists r, s', v', bl', nb', n'.
    split; [done |]. split; [eapply disk_ok_weaken; [|exact D']; lia |]. split; [done |]. destruct C as [(-> & H1 & H2 & H3)|C]; [left | by right]. fold d in H1, H2, H3. split; [done |]. split; [done |].
    destruct (dirlookup_ok s' v' bl' H dp nb' n' name (dk_tx _ _ _ _ _ D') Dv' ltac:(destruct (dk_room _ _ _ _ _ D'); lia)) as (s'' & T'' & S'' & E''). rewrite H1, H2 in E''. by exists s''.
Qed.

Lemma dirlink_dirlookup_witness : exists r s', dirlink 3 (bytes "a") 7 (fs6 T_DIR) = Ret r s'.
Proof.
  pose proof (dirlink_dirlookup (fs6 T_DIR) img0 [] [] 3 0 0 (bytes "a") 7 5 (fs6_disk T_DIR 14 ltac:(lia))) as G.
  destruct G as (r & s' & v' & bl' & nb' & n' & E & _).
  - split; [apply fs6_file; vm_compute; split; congruence | by rewrite fs6_inode | by rewrite fs6_inode].
  - lia.
  - vm_compute. congruence.
  - exists r, s'. exact E.
Defined.
