(* ===== verification/Path.v ===== *)
(** * Path names

    [elems] are the elements of a path: what stands between its slashes.
    [resolve] follows them from a directory through the contents of the disk.
    namei returns the inode they lead to with one reference more, nameiparent the
    one before the last, and a path that leads nowhere leaves no reference. *)

From S2P Require Import Prelude State Mem Spinlock Sched Sleeplock Bio BufCache CacheRules Log LogHeader LogSpec LogRecover LogProps Txn Memlayout Kalloc Vm Uart Printf Copy Fs FsBlocks FsInode FsData FsGrow Dir.

(** ** Elements *)

(** The pieces of a path between its slashes, [acc] before the first one. *)
Fixpoint split_slash (acc path : list Z) : list (list Z) :=
  match path with
  | [] => [acc]
  | c :: path => if c =? SLASH then acc :: split_slash [] path else split_slash (acc ++ [c]) path
  end.

Definition elems (path : list Z) : list (list Z) := take (Z.to_nat DIRSIZ) <$> filter (fun e => e <> []) (split_slash [] path).

Lemma split_slash_app s : forall acc rest, SLASH ∉ s -> split_slash acc (s ++ rest) = split_slash (acc ++ s) rest.
Proof.
  induction s as [|c s IH]; intros acc rest Hs; [by rewrite app_nil_r |]. rewrite not_elem_of_cons in Hs. cbn. destruct (Z.eqb_spec c SLASH); [naive_solver |].
  rewrite IH by naive_solver. by rewrite <- app_assoc.
Qed.

Lemma elems_slash path : elems (SLASH :: path) = elems path.
Proof. reflexivity. Qed.

Lemma elems_skip path : elems (skip_slashes path) = elems path.
Proof. induction path as [|c path IH]; [done |]. cbn [skip_slashes]. destruct (Z.eqb_spec c SLASH) as [->|]; [by rewrite elems_slash | done]. Qed.

Lemma skip_slashes_head path c rest : skip_slashes path = c :: rest -> c <> SLASH /\ (length (c :: rest) <= length path)%nat.
Proof.
  induction path as [|x path IH]; [done |]. cbn [skip_slashes]. destruct (Z.eqb_spec x SLASH) as [->|Hx].
  - intros E. destruct (IH E). split; [done | cbn in *; lia].
  - intros E. injection E as -> ->. done.
Qed.

Lemma span_elem_spec path : let (s, rest) := span_elem path in path = s ++ rest /\ SLASH ∉ s /\ (rest = [] \/ exists r, rest = SLASH :: r).
Proof.
  induction path as [|c path IH]; cbn [span_elem]; [split_and!; [done | apply not_elem_of_nil | by left] |].
  destruct (Z.eqb_spec c SLASH) as [->|Hc]; [split_and!; [done | apply not_elem_of_nil | right; by eexists] |].
  destruct (span_elem path) as [s rest]. destruct IH as (-> & Hs & Hr). split_and!; [done | rewrite not_elem_of_cons; naive_solver | done].
Qed.

(** A path that does not start with a slash starts with an element. *)
Lemma elems_first c p : c <> SLASH -> let (s, rest) := span_elem (c :: p) in
  elems (c :: p) = take (Z.to_nat DIRSIZ) s :: elems rest /\ (length rest < length (c :: p))%nat.
Proof.
  intros Hc. pose proof (span_elem_spec (c :: p)) as Hs. destruct (span_elem (c :: p)) as [s rest]. destruct Hs as (Ep & Hs & Hr).
  assert (Hne : s <> []). { intros ->. destruct Hr as [->|[r ->]]; [done |]. injection Ep as -> _. done. }
  rewrite Ep. split; [|rewrite length_app; destruct s; [done | cbn; lia]].
  unfold elems. rewrite split_slash_app by done. cbn [app]. destruct Hr as [->|[r ->]]; cbn [split_slash].
  - by rewrite filter_cons_True.
  - change (SLASH =? SLASH) with true. cbv iota. by rewrite filter_cons_True.
Qed.

(** skipelem takes the first element off, and the rest starts with another or is empty. *)
Lemma skipelem_spec path :
  match skipelem path with
  | None => elems path = []
  | Some (name, rest) => elems path = name :: elems rest /\ (length rest < length path)%nat /\ (rest = [] <-> elems rest = [])
  end.
Proof.
  assert (Hlen : forall q, (length (skip_slashes q) <= length q)%nat).
  { intros q. destruct (skip_slashes q) as [|x y] eqn:Eq; [cbn; lia |]. by apply skip_slashes_head in Eq as [_ ?]. }
  unfold skipelem. pose proof (Hlen path) as Hp. destruct (skip_slashes path) as [|c p] eqn:E; [by rewrite <- elems_skip, E |].
  destruct (skip_slashes_head _ _ _ E) as [Hc _]. pose proof (elems_first c p Hc) as Hs. destruct (span_elem (c :: p)) as [s rest]. destruct Hs as [Ee Hl].
  rewrite elems_skip. split_and!; [by rewrite <- elems_skip, E | pose proof (Hlen rest); lia |].
  split; intros Er; [by rewrite <- elems_skip, Er |]. destruct (skip_slashes rest) as [|x y] eqn:Eq; [done |].
  destruct (skip_slashes_head _ _ _ Eq) as [Hx _]. rewrite <- elems_skip, Eq in Er. pose proof (elems_first x y Hx) as Hs. destruct (span_elem (x :: y)). destruct Hs as [Hs _]. congruence.
Qed.

(** ** Resolution on the disk *)

(** The inode [inum] on the disk. *)
Definition node (v : Z -> list Z) (b : superblock) (inum : Z) : inode :=
  let d := dinode_at v b inum in
  mkInode ROOTDEV inum 0 zero_sleeplock true (di_type d) (di_major d) (di_minor d) (di_nlink d) (di_size d) (di_addrs d).

Definition is_dir (v : Z -> list Z) (b : superblock) (inum : Z) : bool := i_type (node v b inum) =? T_DIR.
Definition slots (i : inode) : nat := Z.to_nat (i_size i / 16).

(** The inode that directory [inum] has for [name]. *)
Definition entry_of (v : Z -> list Z) (b : superblock) (inum : Z) (name : list Z) : option Z :=
  if is_dir v b inum then (fun k => de_inum (dent v (node v b inum) k)) <$> dir_find v (node v b inum) name (slots (node v b inum)) else None.

Fixpoint resolve (v : Z -> list Z) (b : superblock) (inum : Z) (names : list (list Z)) : option Z :=
  match names with
  | [] => Some inum
  | name :: names => match entry_of v b inum name with Some j => resolve v b j names | None => None end
  end.

(** The directory of the last element, and that element. *)
Definition resolve_parent (v : Z -> list Z) (b : superblock) (inum : Z) (names : list (list Z)) : option (Z * list Z) :=
  match last names with
  | None => None
  | Some name => match resolve v b inum (removelast names) with
                 | Some d => if is_dir v b d then Some (d, name) else None
                 | None => None
                 end
  end.

Lemma fbytes_view v i i' : i_addrs i = i_addrs i' -> forall n off, fbytes v i off n = fbytes v i' off n.
Proof. intros E n. induction n as [|n IH]; intros off; [done |]. cbn [fbytes]. rewrite IH. f_equal. unfold fbyte, baddr, indirect. by rewrite E. Qed.

Lemma file_ok_view s v H i i' : i_addrs i = i_addrs i' -> i_size i = i_size i' -> i_dev i = i_dev i' -> file_ok s v H i -> file_ok s v H i'.
Proof. intros E1 E2 E3 [F1 F2 F3 F4 F5 F6]. split; unfold in_file, baddr, indirect in *; rewrite <- ?E1, <- ?E2, <- ?E3; done. Qed.

Lemma dir_find_view v i i' name n : i_addrs i = i_addrs i' -> dir_find v i name n = dir_find v i' name n.
Proof. intros E. apply first_slot_ext. intros k _. unfold entry_for, dent. by rewrite (fbytes_view v i i' E). Qed.

(** Where namex ends: [name] is the element before the path. *)
Definition path_end (v : Z -> list Z) (b : superblock) (parent : bool) (inum : Z) (names : list (list Z)) (name : list Z) : option (Z * list Z) :=
  if parent then resolve_parent v b inum names else (fun j => (j, default name (last names))) <$> resolve v b inum names.

Lemma path_end_cons v b parent inum name names name0 : path_end v b parent inum (name :: names) name0 =
  if is_dir v b inum then
    if parent && bool_decide (names = []) then Some (inum, name) else
    match entry_of v b inum name with Some j => path_end v b parent j names name | None => None end
  else None.
Proof.
  assert (Hn : is_dir v b inum = false -> entry_of v b inum name = None) by (unfold entry_of; by intros ->).
  unfold path_end, resolve_parent. destruct parent; cbn [andb].
  - destruct names as [|n2 names]; [done |]. rewrite bool_decide_false by done. cbn [resolve removelast]. change (last (name :: n2 :: names)) with (last (n2 :: names)).
    destruct (last_is_Some (n2 :: names)) as [_ [l El]]; [done |]. rewrite El. fold (removelast (n2 :: names)). destruct (is_dir v b inum); [by destruct (entry_of v b inum name) | by rewrite Hn].
  - cbn [resolve]. destruct (is_dir v b inum); [|by rewrite Hn]. destruct (entry_of v b inum name) as [j|]; [|done].
    rewrite last_cons. by destruct (last names).
Qed.

(** ** Directories on the disk *)

Record node_ok (s : kernel) (v : Z -> list Z) (H : list Z) (inum : Z) : Prop := mkNodeOk {
  nd_home : home_block s (IBLOCK inum (sb s)) /\ IBLOCK inum (sb s) ∉ H;
  nd_type : i_type (node v (sb s) inum) <> 0;
  nd_nlink : i_nlink (node v (sb s) inum) <> 0;
  nd_dir : is_dir v (sb s) inum = true -> file_ok s v H (node v (sb s) inum) /\ i_size (node v (sb s) inum) = 16 * Z.of_nat (slots (node v (sb s) inum))
}.

(** The inodes of [used] are allocated and linked, and their directories lead to inodes of [used]. *)
Record tree_ok (s : kernel) (v : Z -> list Z) (H : list Z) (used : Z -> Prop) : Prop := mkTreeOk {
  tr_node : forall i, used i -> node_ok s v H i;
  tr_entry : forall i name j, used i -> entry_of v (sb s) i name = Some j -> used j
}.

Lemma file_ok_same s s' v H i : file_ok s v H i -> (forall b, in_log (logst s') b <-> in_log (logst s) b) -> file_ok s' v H i.
Proof.
  intros [F1 F2 F3 F4 F5 F6] Hl. assert (Hh : forall b, home_block s b -> home_block s' b) by (intros b [A B]; split; [done | by rewrite Hl]). split; try done.
  - intros k Hk. destruct (F3 k Hk) as (A & B & D). auto.
  - intros Hs. destruct (F4 Hs) as (A & B & D). auto.
Qed.

Lemma tree_ok_same s s' v H used : tree_ok s v H used -> sb s' = sb s -> (forall b, in_log (logst s') b <-> in_log (logst s) b) -> tree_ok s' v H used.
Proof.
  intros [A B] Es Hl. split; rewrite ?Es; [|done]. intros i Hi. destruct (A i Hi) as [[N1 N1'] N2 N3 N4]. split; rewrite ?Es; try done.
  - split; [|done]. destruct N1. split; [done | by rewrite Hl].
  - intros Hd. destruct (N4 Hd). split; [by eapply file_ok_same | done].
Qed.

(** ** The inode table during a lookup *)

(** An entry in use changes, and stays the entry of its inode. *)
Lemma table_ok_keep f ip t : table_ok t -> (ip < length t)%nat -> 0 < i_ref (t !!! ip) -> 0 <= i_ref (f (t !!! ip)) -> i_dev (f (t !!! ip)) = i_dev (t !!! ip) ->
  i_inum (f (t !!! ip)) = i_inum (t !!! ip) -> table_ok (alter f ip t).
Proof.
  intros [A B] Hip Hr Hf Hd Hi. apply table_ok_alter; try done. intros k Hk Hne Hrk Hdk Hik. apply Hne. symmetry. apply B; try done; congruence.
Qed.

(** References to entry [j] that the lookup holds. *)
Fixpoint cnt (j : nat) (hs : list nat) : Z :=
  match hs with
  | [] => 0
  | h :: hs => (if decide (h = j) then 1 else 0) + cnt j hs
  end.

Lemma cnt_nonneg j hs : 0 <= cnt j hs.
Proof. induction hs; cbn; [lia | case_decide; lia]. Qed.

Section lookup.
Context (v : Z -> list Z) (bl H : list Z) (used : Z -> Prop) (t0 : list inode) (b0 : superblock).

(** An entry in use stands for an inode of the tree, and holds its contents once they are read. *)
Definition entry_good (b : superblock) (i : inode) : Prop :=
  i_dev i = ROOTDEV /\ used (i_inum i) /\ (i_valid i = true -> dinode_of i = dinode_at v b (i_inum i)).

Definition lock_good (pid : Z) (locked : bool) (i : inode) : Prop :=
  if locked then i_lock i = mkSleeplock true pid else sl_locked (i_lock i) = false.

(** Inside a transaction, with [hs] the references taken since the table was
    [t0], and [lk] the inode that is locked. *)
Record nst (s : kernel) (hs : list nat) (lk : option nat) : Prop := mkNst {
  ns_tx : tx s v bl H;
  ns_room : (in_use bl H < HEAD)%nat;
  ns_held : held s = ∅;
  ns_tree : tree_ok s v H used;
  ns_len : length (itable s) = length t0;
  ns_base : forall j, (j < length t0)%nat -> 0 <= i_ref (t0 !!! j);
  ns_table : table_ok (itable s);
  ns_ref : forall j, (j < length t0)%nat -> i_ref (itable s !!! j) = i_ref (t0 !!! j) + cnt j hs;
  ns_same : forall j, (j < length t0)%nat -> 0 < i_ref (t0 !!! j) -> i_inum (itable s !!! j) = i_inum (t0 !!! j);
  ns_entry : forall j, (j < length t0)%nat -> 0 < i_ref (itable s !!! j) -> entry_good (sb s) (itable s !!! j);
  ns_lock : forall j, (j < length t0)%nat -> lock_good (mypid s) (bool_decide (lk = Some j)) (itable s !!! j);
  ns_sb : sb s = b0
}.

(** The rest of the state that matters is as before. *)
Record calm (s s' : kernel) : Prop := mkCalm {
  cm_tx : tx s' v bl H;
  cm_held : held s' = held s;
  cm_sb : sb s' = sb s;
  cm_log : forall b, in_log (logst s') b <-> in_log (logst s) b;
  cm_pid : mypid s' = mypid s
}.

(** One entry changes. *)
Lemma nst_alter s s' ip f hs hs' lk lk' : nst s hs lk -> calm s s' -> itable s' = alter f ip (itable s) -> let x := itable s !!! ip in
  (ip < length t0)%nat -> table_ok (alter f ip (itable s)) -> (forall j, j <> ip -> cnt j hs' = cnt j hs /\ (lk' = Some j <-> lk = Some j)) ->
  i_ref (f x) = i_ref (t0 !!! ip) + cnt ip hs' -> (0 < i_ref (t0 !!! ip) -> i_inum (f x) = i_inum (t0 !!! ip)) ->
  (0 < i_ref (f x) -> entry_good (sb s) (f x)) -> lock_good (mypid s) (bool_decide (lk' = Some ip)) (f x) -> nst s' hs' lk'.
Proof.
  intros [T R Hh Tr Hl Hb Ht Hr Hs He Hk] [T' Hh' Es El Ep] Ei x Hip Ht' Ho H1 H2 H3 H4.
  assert (E : forall j, itable s' !!! j = if decide (j = ip) then f x else itable s !!! j).
  { intros j. rewrite Ei. destruct (decide (j = ip)) as [Hj|Hj]; [subst j; apply alter_total_inode; lia | by apply alter_ne_inode]. }
  split; rewrite ?Es, ?Ep; try done.
  - by rewrite Hh'.
  - by eapply tree_ok_same.
  - by rewrite Ei, length_alter.
  - by rewrite Ei.
  - intros j Hj. rewrite E. destruct (decide (j = ip)) as [Hd|Hd]; [by subst j |]. rewrite (proj1 (Ho j Hd)). by apply Hr.
  - intros j Hj. rewrite E. destruct (decide (j = ip)) as [Hd|Hd]; [by subst j | by apply Hs].
  - intros j Hj. rewrite E. destruct (decide (j = ip)) as [Hd|Hd]; [by subst j | by apply He].
  - intros j Hj. rewrite E. destruct (decide (j = ip)) as [Hd|Hd]; [by subst j |]. rewrite (bool_decide_ext _ (lk = Some j)) by apply (Ho j Hd). by apply Hk.
Qed.

(** Nothing of the table changes. *)
Lemma nst_calm s s' hs lk : nst s hs lk -> calm s s' -> itable s' = itable s -> nst s' hs lk.
Proof.
  intros [T R Hh Tr Hl Hb Ht Hr Hs He Hk] [T' Hh' Es El Ep] Ei. split; rewrite ?Es, ?Ep, ?Ei, ?Hh'; try done. by eapply tree_ok_same.
Qed.

Lemma calm_tstep s s' : tx s' v bl H -> tstep s s' -> calm s s'.
Proof. intros T S. split; [done | by apply tstep_held | by apply tstep_sb | intros b; by apply tstep_in_log | by apply ts_pid]. Qed.

Lemma calm_other s s' : tx s v bl H -> bufs s' = bufs s -> disk s' = disk s -> held s' = held s -> logst s' = logst s -> mypid s' = mypid s -> sb s' = sb s -> calm s s'.
Proof. intros T E1 E2 E3 E4 E5 E6. split; try done; [by eapply tx_other | by rewrite E4]. Qed.

Lemma nst_swap s a b hs lk : nst s (a :: b :: hs) lk -> nst s (b :: a :: hs) lk.
Proof. intros [T R Hh Tr Hl Hb Ht Hr Hs He Hk]. split; try done. intros j Hj. rewrite Hr by done. cbn. lia. Qed.

(** An entry the lookup holds is in use. *)
Lemma nst_in_use s ip hs lk : nst s (ip :: hs) lk -> (ip < length t0)%nat -> 0 < i_ref (itable s !!! ip).
Proof.
  intros N Hip. rewrite (ns_ref _ _ _ N) by done. cbn. rewrite decide_True by done. pose proof (ns_base _ _ _ N ip Hip). pose proof (cnt_nonneg ip hs). lia.
Qed.

(** *** The operations *)

(** Another reference to an entry in use. *)
Lemma nst_incr s ip hs lk : nst s hs lk -> (ip < length t0)%nat -> 0 < i_ref (itable s !!! ip) ->
  nst (set_itable (alter (fun i => set_i_ref (i_ref i + 1) i) ip (itable s)) s) (ip :: hs) lk.
Proof.
  intros N Hip Hr. pose proof N as [T R Hh Tr Hl Hb Ht Href Hs He Hk]. eapply nst_alter; [exact N | by apply calm_other | done | done | | | | | |].
  - apply table_ok_keep; [done | lia | done | cbn; lia | reflexivity | reflexivity].
  - intros j Hj. cbn. rewrite decide_False by done. split; [lia | done].
  - cbn. rewrite decide_True, Href by done. lia.
  - cbn. auto.
  - cbn. intros _. by apply He.
  - by apply Hk.
Qed.

Lemma idup_ref s ip hs : nst s hs None -> (ip < length t0)%nat -> 0 < i_ref (itable s !!! ip) ->
  exists s', idup ip s = Ret ip s' /\ nst s' (ip :: hs) None /\ i_inum (itable s' !!! ip) = i_inum (itable s !!! ip).
Proof.
  intros N Hip Hr. eexists. split; [|split; [by apply nst_incr |]].
  - unfold idup. erewrite bind_Ret by (apply acquire_Ret; rewrite (ns_held _ _ _ N); set_solver). unfold upd_inode. erewrite bind_Ret by reflexivity.
    erewrite bind_Ret by (apply release_Ret; cbn; set_solver). cbn. by rewrite held_restore by (rewrite (ns_held _ _ _ N); set_solver).
  - cbn. rewrite alter_total_inode by (rewrite (ns_len _ _ _ N); done). done.
Qed.

Lemma iget_ref s inum hs lk : nst s hs lk -> used inum -> (exists j, (j < length t0)%nat /\ i_ref (t0 !!! j) = 0 /\ cnt j hs = 0) ->
  (forall j, lk = Some j -> 0 < cnt j hs) ->
  exists ip s', iget ROOTDEV inum s = Ret ip s' /\ nst s' (ip :: hs) lk /\ (ip < length t0)%nat /\ i_inum (itable s' !!! ip) = inum.
Proof.
  intros N Hu (j & Hj & Hj0 & Hjc) Hlk. pose proof N as [T R Hh Tr Hl Hb Ht Href Hs He Hk].
  destruct (iget_ok s ROOTDEV inum) as [(ip & f & E & Hip & Ht' & Hen & Hc)|[_ Hno]]; [rewrite Hh; set_solver | done | |].
  2: { destruct (Hno j) as [Hne _]; [lia |]. rewrite Href in Hne by done. lia. }
  rewrite Hl in Hip. exists ip, (set_itable (alter f ip (itable s)) s).
  assert (Ei : itable (set_itable (alter f ip (itable s)) s) !!! ip = f (itable s !!! ip)) by (cbn; apply alter_total_inode; lia).
  unfold is_entry in Hen. rewrite !andb_true_iff, Z.ltb_lt, !Z.eqb_eq in Hen. destruct Hen as [[H1 H2] H3]. split_and!; [done | | done | by rewrite Ei].
  destruct Hc as [[Hin ->]|(Hnone & Hz & ->)].
  - unfold is_entry in Hin. rewrite !andb_true_iff, Z.ltb_lt in Hin. apply nst_incr; [done | done | apply Hin].
  - assert (Hz0 : i_ref (t0 !!! ip) = 0 /\ cnt ip hs = 0). { rewrite Href in Hz by done. pose proof (Hb ip Hip). pose proof (cnt_nonneg ip hs). lia. }
    destruct Hz0 as [Hz0 Hzc]. eapply nst_alter; [exact N | by apply calm_other | done | done | done | | | | |].
    + intros k Hne. cbn. rewrite decide_False by done. split; [lia | done].
    + cbn. rewrite decide_True by done. lia.
    + lia.
    + intros _. split_and!; [done | done | done].
    + apply Hk. done.
Qed.

(** ilock reads the inode if need be. *)
Lemma ilock_ref s ip hs : nst s (ip :: hs) None -> (ip < length t0)%nat ->
  exists s', ilock (Some ip) s = Ret tt s' /\ nst s' (ip :: hs) (Some ip) /\ i_valid (itable s' !!! ip) = true /\ i_inum (itable s' !!! ip) = i_inum (itable s !!! ip).
Proof.
  intros N Hip. pose proof (nst_in_use _ _ _ _ N Hip) as Hr. pose proof N as [T R Hh Tr Hl Hb Ht Href Hs He Hk]. destruct (He ip Hip Hr) as (Hd & Hu & Hv).
  pose proof (Hk ip Hip) as Hfree. cbn in Hfree. pose proof (tr_node _ _ _ _ Tr _ Hu) as [[N1 N1'] N2 N3 N4].
  assert (Hstep : forall s' f, calm s s' -> itable s' = alter f ip (itable s) ->
    (forall x, i_ref (f x) = i_ref x /\ i_inum (f x) = i_inum x /\ i_dev (f x) = i_dev x) -> i_lock (f (itable s !!! ip)) = mkSleeplock true (mypid s) ->
    i_valid (f (itable s !!! ip)) = true -> dinode_of (f (itable s !!! ip)) = dinode_at v (sb s) (i_inum (itable s !!! ip)) ->
    nst s' (ip :: hs) (Some ip) /\ i_valid (itable s' !!! ip) = true /\ i_inum (itable s' !!! ip) = i_inum (itable s !!! ip)).
  { intros s' f C Ei Hf H1 H2 H3. destruct (Hf (itable s !!! ip)) as (F1 & F2 & F3). rewrite Ei, alter_total_inode by lia. split_and!; [|done|done].
    eapply nst_alter; [exact N | exact C | exact Ei | done | | | | | |].
    - apply table_ok_keep; [done | lia | done | lia | done | done].
    - intros j Hj. split; [done |]. split; [intros [=]; congruence | done].
    - rewrite F1. by apply Href.
    - rewrite F2. by apply Hs.
    - intros _. rewrite <- F2 in H3. split_and!; [congruence | by rewrite F2 | done].
    - by rewrite bool_decide_true. }
  destruct (i_valid (itable s !!! ip)) eqn:Ev.
  - exists (put_sl (SlInode ip) (lock_by (mypid s)) s). split.
    + unfold ilock, getinode. erewrite bind_Ret by reflexivity. cbv beta. destruct (Z.ltb_spec (i_ref (itable s !!! ip)) 1); [lia |].
      erewrite bind_Ret by (apply acquiresleep_free; [rewrite Hh; set_solver | done]). erewrite bind_Ret by reflexivity. cbv beta. cbn [put_sl itable set_itable].
      rewrite alter_total_inode by lia. cbn [i_valid set_i_lock]. by rewrite Ev.
    + eapply Hstep; [by apply calm_other | reflexivity | done | done | done | by apply Hv].
  - destruct (ilock_fill s v bl H ip) as (s' & E & T' & Hh' & Es & Ei & Ep & El); try done; [lia | lia | rewrite Hh; set_solver |].
    exists s'. split; [done |]. eapply Hstep; [by split | exact Ei | done | done | done |]. by destruct (dinode_at v (sb s) (i_inum (itable s !!! ip))).
Qed.

Lemma iunlock_ref s ip hs : nst s (ip :: hs) (Some ip) -> (ip < length t0)%nat ->
  exists s', iunlock (Some ip) s = Ret tt s' /\ nst s' (ip :: hs) None /\ forall j, (j < length t0)%nat -> i_inum (itable s' !!! j) = i_inum (itable s !!! j).
Proof.
  intros N Hip. pose proof (nst_in_use _ _ _ _ N Hip) as Hr. pose proof N as [T R Hh Tr Hl Hb Ht Href Hs He Hk].
  assert (Hno : forall l, l ∉ held s) by (intros l; rewrite Hh; apply not_elem_of_empty). pose proof (Hk ip Hip) as Hlock. rewrite bool_decide_true in Hlock by done. cbn in Hlock.
  set (s' := set_procs (wake (cur s) (sl_chan (SlInode ip)) (procs s)) (put_sl (SlInode ip) unlock s)).
  assert (Ep : mypid s' = mypid s) by (unfold mypid, s'; cbn; by rewrite wake_me). exists s'. split_and!.
  - assert (Eh : holdingsleep (SlInode ip) s = Ret true s).
    { rewrite holdingsleep_ok by apply Hno. cbn [get_sl]. rewrite Hlock. cbn [sl_locked sl_pid]. by rewrite Z.eqb_refl. }
    unfold iunlock. erewrite bind_Ret by exact Eh. cbv beta. unfold getinode. erewrite bind_Ret by reflexivity. cbv beta. destruct (Z.ltb_spec (i_ref (itable s !!! ip)) 1); [lia |]. cbn [negb andb orb].
    apply releasesleep_ok; [apply Hno | intros k; apply Hno].
  - eapply nst_alter; [exact N | by apply calm_other | reflexivity | done | | | | | |].
    + apply table_ok_keep; [done | lia | done | cbn; lia | reflexivity | reflexivity].
    + intros j Hj. split; [done |]. split; [done | intros [=]; congruence].
    + by apply Href.
    + by apply Hs.
    + intros _. by apply He.
    + done.
  - intros j Hj. cbn. destruct (decide (j = ip)) as [->|Hne]; [rewrite alter_total_inode by lia; done | by rewrite alter_ne_inode].
Qed.

(** iput gives a reference back; an inode of the tree has links, and is kept. *)
Lemma iput_ref s ip hs : nst s (ip :: hs) None -> (ip < length t0)%nat ->
  exists s', iput ip s = Ret tt s' /\ nst s' hs None /\ forall j, (j < length t0)%nat -> i_inum (itable s' !!! j) = i_inum (itable s !!! j).
Proof.
  intros N Hip. pose proof (nst_in_use _ _ _ _ N Hip) as Hr. pose proof N as [T R Hh Tr Hl Hb Ht Href Hs He Hk].
  destruct (He ip Hip Hr) as (Hd & Hu & Hv). pose proof (nd_nlink _ _ _ _ (tr_node _ _ _ _ Tr _ Hu)) as Hn.
  assert (Hg : (i_ref (itable s !!! ip) =? 1) && i_valid (itable s !!! ip) && (i_nlink (itable s !!! ip) =? 0) = false).
  { destruct (i_valid (itable s !!! ip)); [|by rewrite andb_false_r]. specialize (Hv eq_refl). destruct (Z.eqb_spec (i_nlink (itable s !!! ip)) 0) as [E|]; [|apply andb_false_r].
    destruct Hn. change (di_nlink (dinode_at v (sb s) (i_inum (itable s !!! ip))) = 0). by rewrite <- Hv. }
  exists (set_itable (alter (fun i => set_i_ref (i_ref i - 1) i) ip (itable s)) s). split_and!.
  - unfold iput. erewrite bind_Ret by (apply acquire_Ret; rewrite Hh; set_solver). unfold getinode. erewrite bind_Ret by reflexivity. cbv beta.
    change (itable (set_held _ s)) with (itable s). rewrite Hg. erewrite bind_Ret by reflexivity. unfold upd_inode. erewrite bind_Ret by reflexivity.
    rewrite release_Ret by (cbn; set_solver). cbn. by rewrite held_restore by (rewrite Hh; set_solver).
  - eapply nst_alter; [exact N | by apply calm_other | reflexivity | done | | | | | |].
    + apply table_ok_keep; [done | lia | done | cbn; lia | reflexivity | reflexivity].
    + intros j Hj. cbn. rewrite decide_False by done. split; [lia | done].
    + cbn. rewrite Href by done. cbn. rewrite decide_True by done. lia.
    + by apply Hs.
    + intros _. by apply He.
    + by apply Hk.
  - intros j Hj. cbn. destruct (decide (j = ip)) as [->|Hne]; [rewrite alter_total_inode by lia; done | by rewrite alter_ne_inode].
Qed.

Lemma iunlockput_ref s ip hs : nst s (ip :: hs) (Some ip) -> (ip < length t0)%nat ->
  exists s', iunlockput ip s = Ret tt s' /\ nst s' hs None /\ forall j, (j < length t0)%nat -> i_inum (itable s' !!! j) = i_inum (itable s !!! j).
Proof.
  intros N Hip. destruct (iunlock_ref s ip hs N Hip) as (s1 & E1 & N1 & I1). destruct (iput_ref s1 ip hs N1 Hip) as (s2 & E2 & N2 & I2).
  exists s2. split_and!; [unfold iunlockput; by erewrite bind_Ret by exact E1 | done |]. intros j Hj. rewrite I2, I1 by done. done.
Qed.

(** dirlookup in a locked directory looks the name up on the disk. *)
Lemma dirlookup_ref s dp hs name : nst s (dp :: hs) (Some dp) -> (dp < length t0)%nat -> i_valid (itable s !!! dp) = true -> is_dir v (sb s) (i_inum (itable s !!! dp)) = true ->
  exists s', nst s' (dp :: hs) (Some dp) /\ itable s' = itable s /\
    match entry_of v (sb s) (i_inum (itable s !!! dp)) name with
    | Some j => exists off, dirlookup dp name s = (ip ← iget ROOTDEV j; mret (Some (ip, off))) s'
    | None => dirlookup dp name s = Ret None s'
    end.
Proof.
  intros N Hdp Hval Hdir. pose proof (nst_in_use _ _ _ _ N Hdp) as Hr. pose proof N as [T R Hh Tr Hl Hb Ht Href Hs He Hk].
  destruct (He dp Hdp Hr) as (Hd & Hu & Hv). specialize (Hv Hval). set (d := itable s !!! dp) in *. set (n := node v (sb s) (i_inum d)) in *.
  assert (Ea : i_addrs n = i_addrs d /\ i_size n = i_size d /\ i_type d = i_type n) by (unfold n, node; cbn [i_addrs i_size i_type]; by rewrite <- Hv).
  destruct Ea as (Ea & Esz & Ety). destruct (nd_dir _ _ _ _ (tr_node _ _ _ _ Tr _ Hu) Hdir) as [F Hsz]. fold n in F, Hsz. rewrite Esz in Hsz.
  unfold entry_of. rewrite Hdir. fold n. rewrite (dir_find_view v n d) by done.
  destruct (dirlookup_loop_ok v bl H dp d name (slots n) (Z.to_nat (i_size d / DIRENT + 2)) s 0) as (s' & T' & S' & E'); try done.
  { by apply (file_ok_view s v H n). } { rewrite Hsz. unfold DIRENT. rewrite (Z.mul_comm 16), Z.div_mul by done. lia. }
  exists s'. split_and!; [eapply nst_calm; [exact N | by apply calm_tstep | by apply tstep_itable] | by apply tstep_itable |].
  assert (E : dirlookup dp name s = dirlookup_loop (Z.to_nat (i_size d / DIRENT + 2)) dp name 0 s).
  { unfold dirlookup, getinode. erewrite bind_Ret by reflexivity. cbv beta. fold d. unfold is_dir in Hdir. fold n in Hdir. rewrite Ety, Hdir. done. }
  rewrite E. change (16 * 0) with 0 in E'. rewrite E', Hd. unfold dir_find. destruct (first_slot (entry_for v d name) (slots n) 0) as [k|]; [|done].
  exists (16 * k). unfold dent. by rewrite (fbytes_view v n d).
Qed.

(** *** namex *)

Context (Hspare : exists j k, j <> k /\ (j < length t0)%nat /\ (k < length t0)%nat /\ i_ref (t0 !!! j) = 0 /\ i_ref (t0 !!! k) = 0).

Lemma spare hs : (length hs <= 1)%nat -> exists j, (j < length t0)%nat /\ i_ref (t0 !!! j) = 0 /\ cnt j hs = 0.
Proof.
  destruct Hspare as (j & k & Hne & Hj & Hk & Rj & Rk). intros Hl. destruct hs as [|h [|]]; [by exists j | | cbn in *; lia].
  destruct (decide (h = j)) as [->|]; [exists k | exists j]; cbn; by rewrite decide_False.
Qed.

(** What a lookup returns: a reference to the inode it leads to, or none. *)
Definition leads (e : option (Z * list Z)) (r : option (nat * list Z)) (s' : kernel) : Prop :=
  match e with
  | Some (j, name) => exists ip, r = Some (ip, name) /\ (ip < length t0)%nat /\ nst s' [ip] None /\ i_inum (itable s' !!! ip) = j
  | None => r = None /\ nst s' [] None
  end.

Lemma type_ref s ip hs lk : nst s (ip :: hs) lk -> (ip < length t0)%nat -> i_valid (itable s !!! ip) = true -> (i_type (itable s !!! ip) =? T_DIR) = is_dir v b0 (i_inum (itable s !!! ip)).
Proof.
  intros N Hip Hv. destruct (ns_entry _ _ _ N ip Hip (nst_in_use _ _ _ _ N Hip)) as (_ & _ & Hd). specialize (Hd Hv). rewrite (ns_sb _ _ _ N) in Hd.
  unfold is_dir, node. cbn [i_type]. by rewrite <- Hd.
Qed.

Lemma namex_loop_ok parent : forall fuel path s ip name, nst s [ip] None -> (ip < length t0)%nat -> (length path < fuel)%nat ->
  exists r s', namex_loop fuel path parent ip name s = Ret r s' /\ leads (path_end v b0 parent (i_inum (itable s !!! ip)) (elems path) name) r s'.
Proof.
  induction fuel as [|fuel IH]; intros path s ip name N Hip Hf; [lia |]. cbn [namex_loop]. pose proof (skipelem_spec path) as Hs.
  destruct (skipelem path) as [[nm rest]|].
  2: { rewrite Hs. destruct parent; cbn.
    - destruct (iput_ref s ip [] N Hip) as (s' & E & N' & _). exists None, s'. by erewrite bind_Ret by exact E.
    - exists (Some (ip, name)), s. split; [done |]. by exists ip. }
  destruct Hs as (Hs & Hlen & Hrest). rewrite Hs, path_end_cons.
  destruct (ilock_ref s ip [] N Hip) as (s1 & E1 & N1 & V1 & I1). erewrite bind_Ret by exact E1. unfold getinode. erewrite bind_Ret by reflexivity. cbv beta.
  rewrite <- I1. rewrite (type_ref s1 ip [] (Some ip) N1 Hip V1). destruct (is_dir v b0 (i_inum (itable s1 !!! ip))) eqn:Hdir; cbn [negb].
  2: { destruct (iunlockput_ref s1 ip [] N1 Hip) as (s2 & E2 & N2 & _). exists None, s2. by erewrite bind_Ret by exact E2. }
  assert (Eb : (length rest =? 0)%nat = bool_decide (elems rest = [])).
  { destruct (Nat.eqb_spec (length rest) 0) as [Hz|Hz]; symmetry; [apply bool_decide_true, Hrest; by apply nil_length_inv | apply bool_decide_false; rewrite <- Hrest; by intros ->]. }
  rewrite Eb. destruct (parent && bool_decide (elems rest = [])).
  { destruct (iunlock_ref s1 ip [] N1 Hip) as (s2 & E2 & N2 & I2). exists (Some (ip, nm)), s2. erewrite bind_Ret by exact E2. split; [done |].
    exists ip. split_and!; [done | done | done | by apply I2]. }
  pose proof (ns_sb _ _ _ N1) as Hsb. destruct (dirlookup_ref s1 ip [] nm N1 Hip V1) as (s2 & N2 & I2 & E2); [by rewrite Hsb |]. rewrite Hsb in E2.
  destruct (entry_of v b0 (i_inum (itable s1 !!! ip)) nm) as [j|] eqn:Ej.
  2: { erewrite bind_Ret by exact E2. destruct (iunlockput_ref s2 ip [] N2 Hip) as (s3 & E3 & N3 & _). exists None, s3. by erewrite bind_Ret by exact E3. }
  destruct E2 as [off E2]. assert (Hu : used j).
  { destruct (ns_entry _ _ _ N1 ip Hip (nst_in_use _ _ _ _ N1 Hip)) as (_ & Hu & _). eapply (tr_entry _ _ _ _ (ns_tree _ _ _ N1)); [exact Hu | by rewrite Hsb]. }
  destruct (iget_ref s2 j [ip] (Some ip) N2 Hu) as (next & s3 & E3 & N3 & Hnext & I3); [by apply spare | intros k [= <-]; cbn; by rewrite decide_True |].
  erewrite bind_Ret by (rewrite E2; erewrite bind_Ret by exact E3; reflexivity). cbv beta iota.
  destruct (iunlockput_ref s3 ip [next] (nst_swap _ _ _ _ _ N3) Hip) as (s4 & E4 & N4 & I4). erewrite bind_Ret by exact E4.
  destruct (IH rest s4 next nm N4 Hnext ltac:(lia)) as (r & s5 & E5 & L5). exists r, s5. split; [done |]. by rewrite I4, I3 in L5 by done.
Qed.
End lookup.

(** ** namei and nameiparent *)

Definition from_root (path : list Z) : bool := match path with c :: _ => c =? SLASH | [] => false end.

(** The inode a path starts at: the root, or the current directory. *)
Definition start_of (s : kernel) (path : list Z) : Z :=
  if from_root path then ROOTINO else match p_cwd (procs s !!! cur s) with Some c => i_inum (itable s !!! c) | None => 0 end.

(** A process looks a path up: inside a transaction, with no inode locked, two
    entries of the inode table free, and the entries in use in line with the disk. *)
Record lookup_pre (s : kernel) (v : Z -> list Z) (bl H : list Z) (used : Z -> Prop) (path : list Z) : Prop := mkLookupPre {
  lp_tx : tx s v bl H;
  lp_room : (in_use bl H < HEAD)%nat;
  lp_held : held s = ∅;
  lp_tree : tree_ok s v H used;
  lp_table : table_ok (itable s);
  lp_entry : forall j, (j < length (itable s))%nat -> 0 < i_ref (itable s !!! j) -> entry_good v used (sb s) (itable s !!! j);
  lp_lock : forall j, (j < length (itable s))%nat -> sl_locked (i_lock (itable s !!! j)) = false;
  lp_spare : exists j k, j <> k /\ (j < length (itable s))%nat /\ (k < length (itable s))%nat /\ i_ref (itable s !!! j) = 0 /\ i_ref (itable s !!! k) = 0;
  lp_start : if from_root path then used ROOTINO else
    exists c, p_cwd (procs s !!! cur s) = Some c /\ (c < length (itable s))%nat /\ 0 < i_ref (itable s !!! c)
}.

Lemma lookup_nst s v bl H used path : lookup_pre s v bl H used path -> nst v bl H used (itable s) (sb s) s [] None.
Proof.
  intros [P1 P2 P3 P4 P5 P6 P7 P8 P9]. split; try done; [apply P5 |]. intros j Hj. cbn. lia.
Qed.

(** The first inode of a path. *)
Definition first_inode (path : list Z) : M kernel nat :=
  if from_root path then iget ROOTDEV ROOTINO else (me ← myproc; p ← getproc me; cwd ← deref (p_cwd p); idup cwd).

Lemma namex_first path parent : namex path parent = (ip ← first_inode path; namex_loop (S (length path)) path parent ip []).
Proof. by destruct path. Qed.

Lemma namex_ok s v bl H used path parent : lookup_pre s v bl H used path ->
  exists r s', namex path parent s = Ret r s' /\ leads v bl H used (itable s) (sb s) (path_end v (sb s) parent (start_of s path) (elems path) []) r s'.
Proof.
  intros P. pose proof (lookup_nst _ _ _ _ _ _ P) as N. pose proof (lp_spare _ _ _ _ _ _ P) as Hsp. pose proof (lp_start _ _ _ _ _ _ P) as Hst.
  assert (Hgo : exists ip s1, first_inode path s = Ret ip s1 /\ nst v bl H used (itable s) (sb s) s1 [ip] None /\ (ip < length (itable s))%nat /\
    i_inum (itable s1 !!! ip) = start_of s path).
  { unfold first_inode, start_of. destruct (from_root path).
    - destruct (iget_ref v bl H used (itable s) (sb s) s ROOTINO [] None N Hst) as (ip & s1 & E & N1 & Hip & I1); [apply (spare _ Hsp); cbn; lia | done |]. by exists ip, s1.
    - destruct Hst as (c & Ec & Hc & Hr). destruct (idup_ref v bl H used (itable s) (sb s) s c [] N Hc Hr) as (s1 & E & N1 & I1). exists c, s1.
      split; [|by rewrite Ec]. do 2 (erewrite bind_Ret by reflexivity). rewrite Ec. by erewrite bind_Ret by reflexivity. }
  destruct Hgo as (ip & s1 & E1 & N1 & Hip & I1). destruct (namex_loop_ok v bl H used (itable s) (sb s) Hsp parent (S (length path)) path s1 ip [] N1 Hip ltac:(lia)) as (r & s' & E & L).
  exists r, s'. split; [rewrite namex_first; by erewrite bind_Ret by exact E1 | by rewrite I1 in L].
Qed.

(** C15: a path is looked up element by element, from the root or the current
    directory, through the directories on the disk. namei returns the inode
    [resolve] finds, nameiparent the directory of the last element with that
    element; the one reference held afterwards is to that inode, and a path that
    leads nowhere, or through a file, gives 0 and leaves no reference. The lookup
    always ends, with no inode locked and nothing written. *)
Theorem namei_resolves (s : kernel) (v : Z -> list Z) (bl H : list Z) (used : Z -> Prop) (path : list Z) (P : lookup_pre s v bl H used path) :
  (exists r s', namei path s = Ret r s' /\
     match resolve v (sb s) (start_of s path) (elems path) with
     | Some j => exists ip, r = Some ip /\ (ip < length (itable s))%nat /\ nst v bl H used (itable s) (sb s) s' [ip] None /\ i_inum (itable s' !!! ip) = j
     | None => r = None /\ nst v bl H used (itable s) (sb s) s' [] None
     end) /\
  (exists r s', nameiparent path s = Ret r s' /\
     match resolve_parent v (sb s) (start_of s path) (elems path) with
     | Some (j, name) => exists ip, r = Some (ip, name) /\ (ip < length (itable s))%nat /\ nst v bl H used (itable s) (sb s) s' [ip] None /\ i_inum (itable s' !!! ip) = j
     | None => r = None /\ nst v bl H used (itable s) (sb s) s' [] None
     end).
Proof.
  split.
  - destruct (namex_ok s v bl H used path false P) as (r & s' & E & L). exists (fst <$> r), s'. split; [unfold namei; by erewrite bind_Ret by exact E |].
    unfold path_end in L. destruct (resolve v (sb s) (start_of s path) (elems path)) as [j|]; [destruct L as (ip & -> & L); by exists ip |]. destruct L as [-> L]. done.
  - exact (namex_ok s v bl H used path true P).
Qed.

(** ** A tree

    Inode 1 is the root, a directory with the entries "." and "a"; "a" is inode
    5, a file. *)
Definition tree_img (n : Z) : list Z :=
  if n =? 32 then put_dinode (IOFF 5) (mkDinode T_FILE 0 0 1 0 (replicate 13 0)) (put_dinode (IOFF 1) (mkDinode T_DIR 0 0 1 32 (50 :: replicate 12 0)) zeros)
  else if n =? 50 then dirent 1 (bytes ".") ++ dirent 5 (bytes "a") ++ replicate 992 0
  else img0 n.
Definition tree_fs : kernel := fs_on tree_img.
Definition tree_used (i : Z) : Prop := i = 1 \/ i = 5.

Lemma tree_img_len n : length (tree_img n) = Z.to_nat BSIZE.
Proof.
  unfold tree_img. destruct (n =? 32); [vm_compute; reflexivity |]. destruct (n =? 50); [vm_compute; reflexivity |]. apply img0_len.
Qed.

Lemma tree_home b : 32 <= b < 2000 -> home_block tree_fs b.
Proof. intros Hb. unfold home_block, in_log. change (logst tree_fs) with log0. change (log_start log0) with 2. change (log_size log0) with 30. lia. Qed.

Lemma tree_root : node tree_img sb0 1 = mkInode ROOTDEV 1 0 zero_sleeplock true T_DIR 0 0 1 32 (50 :: replicate 12 0).
Proof. vm_compute. reflexivity. Qed.

Lemma tree_a : node tree_img sb0 5 = mkInode ROOTDEV 5 0 zero_sleeplock true T_FILE 0 0 1 0 (replicate 13 0).
Proof. vm_compute. reflexivity. Qed.

Lemma tree_fs_ok : tree_ok tree_fs tree_img [] tree_used.
Proof.
  assert (Es : sb tree_fs = sb0) by reflexivity. split; rewrite ?Es.
  - assert (Hf : forall k, in_file (node tree_img sb0 1) k -> k = 0). { rewrite tree_root. intros k [H0 H1]. cbn in H1. unfold BSIZE in H1. lia. }
    assert (Hh : forall i, 0 <= i < 16 -> home_block tree_fs (IBLOCK i sb0) /\ IBLOCK i sb0 ∉ []).
    { intros i Hi. assert (IBLOCK i sb0 = 32) as -> by (unfold IBLOCK; change IPB with 16; by rewrite Z.div_small). split; [by apply tree_home | apply not_elem_of_nil]. }
    intros i [->| ->]; split; rewrite ?Es; try (apply Hh; lia); unfold is_dir; rewrite ?tree_root, ?tree_a; cbn [i_type i_nlink]; try discriminate.
    intros _. split; [|reflexivity]. rewrite tree_root in Hf. split.
    + reflexivity.
    + by vm_compute.
    + intros k Hk. rewrite (Hf k Hk). split; [discriminate |]. split; [by apply tree_home | apply not_elem_of_nil].
    + intros Hs. by vm_compute in Hs.
    + intros k Hk. rewrite (Hf k Hk). discriminate.
    + intros k k' Hk Hk' _. by rewrite (Hf k Hk), (Hf k' Hk').
    + reflexivity.
  - intros i name j Hi Hj. unfold entry_of, is_dir in Hj. destruct Hi as [->| ->]; rewrite ?tree_root, ?tree_a in Hj; cbn [i_type] in Hj; [|discriminate Hj].
    change (T_DIR =? T_DIR) with true in Hj. cbv iota in Hj. set (d := mkInode _ _ _ _ _ _ _ _ _ _ _) in Hj. unfold dir_find in Hj.
    pose proof (first_slot_spec (entry_for tree_img d name) (slots d) 0) as Hs.
    destruct (first_slot _ _ _) as [k|]; [|discriminate Hj]. destruct Hs as (Hk & _). apply fmap_Some in Hj as (k' & Ek & Ej). injection Ek as <-. rewrite Ej.
    change (slots d) with 2%nat in Hk. assert (Hc : k = 0 \/ k = 1) by lia. destruct Hc as [->| ->]; [left | right]; vm_compute; reflexivity.
Qed.

Lemma tree_fs_pre path : from_root path = true -> lookup_pre tree_fs tree_img [] [] tree_used path.
Proof.
  intros Hp. assert (Ei : itable tree_fs = replicate (Z.to_nat NINODE) zero_inode) by (vm_compute; reflexivity).
  assert (Ez : forall j, (j < length (itable tree_fs))%nat -> itable tree_fs !!! j = zero_inode) by (rewrite Ei, length_replicate; intros j Hj; by apply lookup_total_replicate_2).
  assert (El : length (itable tree_fs) = 50%nat) by (rewrite Ei; apply length_replicate). split; rewrite ?Hp.
  - apply fs_on_tx, tree_img_len.
  - unfold in_use, HEAD, NBUF, MAXOPBLOCKS. cbn. lia.
  - unfold tree_fs, fs_on. cbn [held set_sb set_logst]. apply binit_held.
  - apply tree_fs_ok.
  - split; [intros j Hj; rewrite Ez by done; cbn; lia |]. intros j k Hj Hk Hr. rewrite Ez in Hr by done. cbn in Hr. lia.
  - intros j Hj Hr. rewrite Ez in Hr by done. cbn in Hr. lia.
  - intros j Hj. by rewrite Ez.
  - exists 0%nat, 1%nat. rewrite !Ez by (rewrite El; lia). rewrite El. cbn. lia.
  - by left.
Qed.

Lemma tree_paths : elems (bytes "/./a") = [bytes "."; bytes "a"] /\ resolve tree_img sb0 1 (elems (bytes "/./a")) = Some 5 /\
  resolve tree_img sb0 1 (elems (bytes "/a/x")) = None /\ resolve_parent tree_img sb0 1 (elems (bytes "//x/")) = Some (1, bytes "x").
Proof. vm_compute. auto. Qed.

Lemma namei_resolves_witness : (exists ip s', namei (bytes "/./a") tree_fs = Ret (Some ip) s' /\ i_inum (itable s' !!! ip) = 5) /\
  (exists s', namei (bytes "/a/x") tree_fs = Ret None s') /\ (exists ip s', nameiparent (bytes "//x/") tree_fs = Ret (Some (ip, bytes "x")) s').
Proof.
  destruct tree_paths as (_ & E1 & E2 & E3).
  destruct (namei_resolves tree_fs tree_img [] [] tree_used (bytes "/./a") (tree_fs_pre (bytes "/./a") eq_refl)) as [(r1 & s1 & R1 & H1) _].
  destruct (namei_resolves tree_fs tree_img [] [] tree_used (bytes "/a/x") (tree_fs_pre (bytes "/a/x") eq_refl)) as [(r2 & s2 & R2 & H2) _].
  destruct (namei_resolves tree_fs tree_img [] [] tree_used (bytes "//x/") (tree_fs_pre (bytes "//x/") eq_refl)) as [_ (r3 & s3 & R3 & H3)].
  change (sb tree_fs) with sb0 in *. change (start_of tree_fs (bytes "/./a")) with 1 in H1. change (start_of tree_fs (bytes "/a/x")) with 1 in H2. change (start_of tree_fs (bytes "//x/")) with 1 in H3.
  rewrite E1 in H1. rewrite E2 in H2. rewrite E3 in H3.
  destruct H1 as (ip1 & -> & _ & _ & I1). destruct H2 as [-> _]. destruct H3 as (ip3 & -> & _).
  split; [exists ip1, s1; split; [exact R1 | exact I1] |]. split; [exists s2; exact R2 | exists ip3, s3; exact R3].
Defined.
