(* ===== verification/File.v ===== *)
(** * kernel/file.c: the file table, and pipealloc of pipe.c

    A [struct file] is its index in the table.  The device switch has one
    entry, the console's, which consoleinit installs. *)

From S2P Require Import Prelude State Mem Spinlock Sched Sleeplock Bio Log Memlayout Kalloc Vm Uart Printf Copy Console Pipe Fs.

Definition getfile (f : nat) : M kernel filest := gets (fun s => ftable s !!! f).
Definition upd_file (f : nat) (g : filest -> filest) : M kernel unit :=
  modify (fun s => set_ftable (alter g f (ftable s)) s).

(** The first entry with no references. *)
Fixpoint file_scan (l : list filest) (i : nat) : option nat :=
  match l with
  | [] => None
  | f :: l => if f_ref f =? 0 then Some i else file_scan l (S i)
  end.

Definition filealloc : M kernel (option nat) :=
  acquire LkFtable ;;
  t ← gets (fun s => ftable s);
  match file_scan t 0 with
  | Some f =>
      upd_file f (set_f_ref 1) ;;
      release LkFtable ;;
      mret (Some f)
  | None => release LkFtable ;; mret None
  end.

Definition filedup (f : nat) : M kernel nat :=
  acquire LkFtable ;;
  x ← getfile f;
  if f_ref x <? 1 then panic "filedup" else
  upd_file f (set_f_ref (f_ref x + 1)) ;;
  release LkFtable ;;
  mret f.

Definition fileinit : M kernel unit := initlock LkFtable.

Section file.
Context {L : Layout}.

(** Close file f: decrement ref count, close when it reaches 0. *)
Definition fileclose (f : nat) : M kernel unit :=
  acquire LkFtable ;;
  x ← getfile f;
  if f_ref x <? 1 then panic "fileclose" else
  upd_file f (set_f_ref (f_ref x - 1)) ;;
  if 0 <? f_ref x - 1 then release LkFtable else
  ff ← getfile f;
  upd_file f (set_f_ref 0) ;;
  upd_file f (set_f_type FD_NONE) ;;
  release LkFtable ;;
  match f_type ff with
  | FD_PIPE => pipeclose (f_pipe ff) (f_writable ff)
  | FD_INODE | FD_DEVICE =>
      begin_op ;;
      iput (f_ip ff) ;;
      end_op
  | FD_NONE => mret tt
  end.

(** The bytes of a [struct stat]; the four bytes of padding before the size
    hold nothing in particular. *)
Definition stat_bytes (st : stat) : list Z :=
  le_enc 4 (st_dev st) ++ le_enc 4 (st_ino st) ++ le_enc 2 (st_type st) ++ le_enc 2 (st_nlink st) ++
  [0; 0; 0; 0] ++ le_enc 8 (st_size st).

(** Get metadata about file f. *)
Definition filestat (f : nat) (addr : Z) : M kernel Z :=
  me ← myproc;
  x ← getfile f;
  match f_type x with
  | FD_INODE | FD_DEVICE =>
      ilock (Some (f_ip x)) ;;
      st ← stati (f_ip x);
      iunlock (Some (f_ip x)) ;;
      p ← getproc me;
      r ← copyout (p_pagetable p) addr (stat_bytes st) 24;
      mret (if r <? 0 then -1 else 0)
  | _ => mret (-1)
  end.

(** [devsw[major].read] and [devsw[major].write]; consoleinit installs the
    handlers of the console, the only device. *)
Definition devsw_at (major : Z) : M kernel bool :=
  if (major <? 0) || (NDEV <=? major) then mret false else
  d ← gets (fun s => devsw s);
  in_bounds major (alen d) ;;
  mret (d !!! Z.to_nat major).

Definition devsw_read (major : Z) : M kernel (option (kdst -> Z -> M kernel Z)) :=
  d ← devsw_at major;
  mret (if (d : bool) then Some consoleread else None).

Definition devsw_write (major : Z) : M kernel (option (ksrc -> Z -> M kernel Z)) :=
  d ← devsw_at major;
  mret (if (d : bool) then Some consolewrite else None).

(** Read from file f; addr is a user virtual address. *)
Definition fileread (f : nat) (addr n : Z) : M kernel Z :=
  x ← getfile f;
  if negb (f_readable x) then mret (-1) else
  match f_type x with
  | FD_PIPE => piperead (f_pipe x) addr n
  | FD_DEVICE =>
      h ← devsw_read (f_major x);
      match h with
      | None => mret (-1)
      | Some read => read (DUser addr) n
      end
  | FD_INODE =>
      ilock (Some (f_ip x)) ;;
      x ← getfile f;
      r ← readi (f_ip x) (DUser addr) (f_off x) n;
      (if 0 <? fst r then upd_file f (fun x => set_f_off (u32 (f_off x + fst r)) x) else mret tt) ;;
      iunlock (Some (f_ip x)) ;;
      mret (fst r)
  | FD_NONE => panic "fileread"
  end.

(** A few blocks at a time, to avoid exceeding the maximum log transaction. *)
Definition MAXWRITE : Z := (MAXOPBLOCKS - 1 - 1 - 2) / 2 * BSIZE.

Fixpoint filewrite_loop (fuel : nat) (f : nat) (addr n i : Z) : M kernel Z :=
  match fuel with
  | O => nofuel
  | S fuel =>
      if i <? n then
        let n1 := Z.min (n - i) MAXWRITE in
        begin_op ;;
        x ← getfile f;
        ilock (Some (f_ip x)) ;;
        x ← getfile f;
        r ← writei (f_ip x) (SUser (u64 (addr + i))) (f_off x) n1;
        (if 0 <? r then upd_file f (fun x => set_f_off (u32 (f_off x + r)) x) else mret tt) ;;
        iunlock (Some (f_ip x)) ;;
        end_op ;;
        if negb (r =? n1) then mret i else
        filewrite_loop fuel f addr n (i + r)
      else mret i
  end.

(** Write to file f; addr is a user virtual address. *)
Definition filewrite (f : nat) (addr n : Z) : M kernel Z :=
  x ← getfile f;
  if negb (f_writable x) then mret (-1) else
  match f_type x with
  | FD_PIPE => pipewrite (f_pipe x) addr n
  | FD_DEVICE =>
      h ← devsw_write (f_major x);
      match h with
      | None => mret (-1)
      | Some write => write (SUser addr) n
      end
  | FD_INODE =>
      i ← filewrite_loop (Z.to_nat (n / MAXWRITE + 2)) f addr n 0;
      mret (if i =? n then n else -1)
  | FD_NONE => panic "filewrite"
  end.

(** ** pipealloc *)

Definition close_opt (f : option nat) : M kernel unit :=
  match f with
  | Some f => fileclose f
  | None => mret tt
  end.

(** The two ends of a new pipe: 0 and the files, or -1. *)
Definition pipealloc : M kernel (option (nat * nat)) :=
  f0 ← filealloc;
  match f0 with
  | None => mret None
  | Some a =>
      f1 ← filealloc;
      match f1 with
      | None => fileclose a ;; mret None
      | Some b =>
          pi ← kalloc;
          if pi =? 0 then fileclose a ;; fileclose b ;; mret None else
          initlock (LkPipe pi) ;;
          modify (fun s => set_pipes (<[pi := mkPipe (pi_data fresh_pipe) 0 0 true true]> (pipes s)) s) ;;
          upd_file a (fun x => set_f_pipe pi (set_f_writable false (set_f_readable true (set_f_type FD_PIPE x)))) ;;
          upd_file b (fun x => set_f_pipe pi (set_f_writable true (set_f_readable false (set_f_type FD_PIPE x)))) ;;
          mret (Some (a, b))
      end
  end.
End file.
