(* ===== verification/Proc.v ===== *)
(** * kernel/proc.c: the process table

    A [struct proc] is its index in the table.  The trapframe is a page of
    physical memory, read and written field by field.  [swtch] (assembly) is a
    parameter of the scheduler: it runs a process until it switches back. *)

From S2P Require Import Prelude State Mem CString Spinlock Sched Sleeplock Bio Log Memlayout Kalloc Vm Uart Printf Copy Console Pipe Fs File Hart.

(** Offsets in [struct trapframe] *)
Definition TF_kernel_satp : Z := 0.
Definition TF_kernel_sp : Z := 8.
Definition TF_kernel_trap : Z := 16.
Definition TF_epc : Z := 24.
Definition TF_kernel_hartid : Z := 32.
Definition TF_sp : Z := 48.
Definition TF_a0 : Z := 112.
Definition TF_a1 : Z := 120.
Definition TF_a7 : Z := 168.
Definition TFSIZE : Z := 288.

Section proc.
Context {L : Layout}.

Definition load_tf (p : nat) (off : Z) : M kernel Z :=
  x ← getproc p;
  gets (fun s => load64 (mem s) (p_trapframe x + off)).

Definition store_tf (p : nat) (off v : Z) : M kernel unit :=
  x ← getproc p;
  modify (fun s => set_mem (store64 (mem s) (p_trapframe x + off) v) s).

Fixpoint procinit_loop (k i : nat) : M kernel unit :=
  match k with
  | O => mret tt
  | S k =>
      initlock (LkProc i) ;;
      upd_proc i (set_p_state UNUSED) ;;
      upd_proc i (set_p_kstack (KSTACK (Z.of_nat i))) ;;
      procinit_loop k (S i)
  end.

Definition procinit : M kernel unit := initlock LkPid ;; initlock LkWait ;; procinit_loop (Z.to_nat NPROC) 0.

Definition allocpid : M kernel Z :=
  acquire LkPid ;;
  pid ← gets (fun s => nextpid s);
  modify (fun s => set_nextpid (i32 (pid + 1)) s) ;;
  release LkPid ;;
  mret pid.

(** ** Page tables of processes *)

(** Create a user page table for a given process, with no user memory, but
    with trampoline and trapframe pages; 0 on failure. *)
Definition proc_pagetable (p : nat) : M kernel Z :=
  pagetable ← uvmcreate;
  if pagetable =? 0 then mret 0 else
  r ← mappages pagetable TRAMPOLINE PGSIZE trampoline (Z.lor PTE_R PTE_X);
  if r <? 0 then uvmfree pagetable 0 ;; mret 0 else
  x ← getproc p;
  r ← mappages pagetable TRAPFRAME PGSIZE (p_trapframe x) (Z.lor PTE_R PTE_W);
  if r <? 0 then
    uvmunmap pagetable TRAMPOLINE 1 false ;;
    uvmfree pagetable 0 ;;
    mret 0
  else mret pagetable.

(** Free a process's page table, and the physical memory it refers to. *)
Definition proc_freepagetable (pagetable sz : Z) : M kernel unit :=
  uvmunmap pagetable TRAMPOLINE 1 false ;;
  uvmunmap pagetable TRAPFRAME 1 false ;;
  uvmfree pagetable sz.

(** ** Allocation *)

(** Free a proc structure and the data hanging from it, including user pages. *)
Definition freeproc (p : nat) : M kernel unit :=
  x ← getproc p;
  (if p_trapframe x =? 0 then mret tt else kfree (p_trapframe x)) ;;
  upd_proc p (set_p_trapframe 0) ;;
  x ← getproc p;
  (if p_pagetable x =? 0 then mret tt else proc_freepagetable (p_pagetable x) (p_sz x)) ;;
  upd_proc p (set_p_pagetable 0) ;;
  upd_proc p (set_p_sz 0) ;;
  upd_proc p (set_p_pid 0) ;;
  upd_proc p (set_p_parent None) ;;
  upd_proc p (fun x => set_p_name (<[0%nat := 0]> (p_name x)) x) ;;
  upd_proc p (set_p_chan None) ;;
  upd_proc p (set_p_killed false) ;;
  upd_proc p (set_p_xstate 0) ;;
  upd_proc p (set_p_state UNUSED).

(** The search of allocproc: an UNUSED proc, with its lock held. *)
Fixpoint find_unused (k i : nat) : M kernel (option nat) :=
  match k with
  | O => mret None
  | S k =>
      acquire (LkProc i) ;;
      x ← getproc i;
      if decide (p_state x = UNUSED) then mret (Some i) else
      release (LkProc i) ;;
      find_unused k (S i)
  end.

(** Look in the process table for an UNUSED proc; if found, initialize state
    required to run in the kernel, and return with p->lock held. *)
Definition allocproc : M kernel (option nat) :=
  f ← find_unused (Z.to_nat NPROC) 0;
  match f with
  | None => mret None
  | Some p =>
      pid ← allocpid;
      upd_proc p (set_p_pid pid) ;;
      upd_proc p (set_p_state USED) ;;
      tf ← kalloc;
      upd_proc p (set_p_trapframe tf) ;;
      if tf =? 0 then freeproc p ;; release (LkProc p) ;; mret None else
      pt ← proc_pagetable p;
      upd_proc p (set_p_pagetable pt) ;;
      if pt =? 0 then freeproc p ;; release (LkProc p) ;; mret None else
      upd_proc p (fun x => set_p_context (forkret_addr, p_kstack x + PGSIZE) x) ;;
      mret (Some p)
  end.

(** [safestrcpy(s, t, n)] on a name array. *)
Definition safestrcpy_list (s t : list Z) (n : Z) : list Z :=
  if n <=? 0 then s else
  let m := take (Z.to_nat (n - 1)) (cname t) in
  m ++ [0] ++ drop (length m + 1) s.

Definition initcode : list Z :=
  [0x17; 0x05; 0x00; 0x00; 0x13; 0x05; 0x45; 0x02;
   0x97; 0x05; 0x00; 0x00; 0x93; 0x85; 0x35; 0x02;
   0x93; 0x08; 0x70; 0x00; 0x73; 0x00; 0x00; 0x00;
   0x93; 0x08; 0x20; 0x00; 0x73; 0x00; 0x00; 0x00;
   0xef; 0xf0; 0x9f; 0xff; 0x2f; 0x69; 0x6e; 0x69;
   0x74; 0x00; 0x00; 0x24; 0x00; 0x00; 0x00; 0x00;
   0x00; 0x00; 0x00; 0x00].

(** Set up first user process. *)
Definition userinit : M kernel unit :=
  o ← allocproc;
  modify (fun s => set_initproc o s) ;;
  p ← deref o;
  x ← getproc p;
  uvmfirst (p_pagetable x) initcode 52 ;;
  upd_proc p (set_p_sz PGSIZE) ;;
  store_tf p TF_epc 0 ;;
  store_tf p TF_sp PGSIZE ;;
  upd_proc p (fun x => set_p_name (safestrcpy_list (p_name x) (bytes "initcode") 16) x) ;;
  cwd ← namei (bytes "/");
  upd_proc p (set_p_cwd cwd) ;;
  upd_proc p (set_p_state RUNNABLE) ;;
  release (LkProc p).

(** Grow or shrink user memory by n bytes. *)
Definition growproc (n : Z) : M kernel Z :=
  p ← myproc;
  x ← getproc p;
  let sz := p_sz x in
  if 0 <? n then
    sz1 ← uvmalloc (p_pagetable x) sz (u64 (sz + n)) PTE_W;
    if sz1 =? 0 then mret (-1) else
    upd_proc p (set_p_sz sz1) ;; mret 0
  else if n <? 0 then
    sz1 ← uvmdealloc (p_pagetable x) sz (u64 (sz + n));
    upd_proc p (set_p_sz sz1) ;; mret 0
  else upd_proc p (set_p_sz sz) ;; mret 0.

(** ** fork, exit, wait *)

(** [p->ofile[fd] = f]. *)
Definition set_fd (p fd : nat) (f : option nat) : M kernel unit :=
  x ← getproc p;
  in_bounds (Z.of_nat fd) (alen (p_ofile x)) ;;
  upd_proc p (fun x => set_p_ofile (<[fd := f]> (p_ofile x)) x).

Fixpoint fork_files (k fd : nat) (p np : nat) : M kernel unit :=
  match k with
  | O => mret tt
  | S k =>
      x ← getproc p;
      in_bounds (Z.of_nat fd) (alen (p_ofile x)) ;;
      (match p_ofile x !!! fd with
       | Some f => f ← filedup f; set_fd np fd (Some f)
       | None => mret tt
       end) ;;
      fork_files k (S fd) p np
  end.

(** Create a new process, copying the parent. *)
Definition fork : M kernel Z :=
  p ← myproc;
  o ← allocproc;
  match o with
  | None => mret (-1)
  | Some np =>
      x ← getproc p;
      y ← getproc np;
      r ← uvmcopy (p_pagetable x) (p_pagetable y) (p_sz x);
      if r <? 0 then freeproc np ;; release (LkProc np) ;; mret (-1) else
      upd_proc np (set_p_sz (p_sz x)) ;;
      regs ← read_bytes (p_trapframe x) TFSIZE;
      write_bytes (p_trapframe y) regs ;;
      store_tf np TF_a0 0 ;;
      fork_files (Z.to_nat NOFILE) 0 p np ;;
      cwd ← deref (p_cwd x);
      ip ← idup cwd;
      upd_proc np (set_p_cwd (Some ip)) ;;
      upd_proc np (fun y => set_p_name (safestrcpy_list (p_name y) (p_name x) 16) y) ;;
      y ← getproc np;
      let pid := p_pid y in
      release (LkProc np) ;;
      acquire LkWait ;;
      upd_proc np (set_p_parent (Some p)) ;;
      release LkWait ;;
      acquire (LkProc np) ;;
      upd_proc np (set_p_state RUNNABLE) ;;
      release (LkProc np) ;;
      mret pid
  end.

(** [wakeup(p)] on a process pointer, which may be null. *)
Definition wakeup_proc (p : option nat) : M kernel unit :=
  match p with
  | Some i => wakeup (ChProc i)
  | None => wakeup ChNone
  end.

Fixpoint reparent_loop (k i : nat) (p : nat) : M kernel unit :=
  match k with
  | O => mret tt
  | S k =>
      x ← getproc i;
      (if decide (p_parent x = Some p) then
         init ← gets (fun s => initproc s);
         upd_proc i (set_p_parent init) ;;
         wakeup_proc init
       else mret tt) ;;
      reparent_loop k (S i) p
  end.

(** Pass p's abandoned children to init. *)
Definition reparent (p : nat) : M kernel unit := reparent_loop (Z.to_nat NPROC) 0 p.

Fixpoint exit_files (k fd p : nat) : M kernel unit :=
  match k with
  | O => mret tt
  | S k =>
      x ← getproc p;
      in_bounds (Z.of_nat fd) (alen (p_ofile x)) ;;
      (match p_ofile x !!! fd with
       | Some f => fileclose f ;; set_fd p fd None
       | None => mret tt
       end) ;;
      exit_files k (S fd) p
  end.

(** Exit the current process; does not return. *)
Definition exit {A} (status : Z) : M kernel A :=
  p ← myproc;
  init ← gets (fun s => initproc s);
  if decide (init = Some p) then panic "init exiting" else
  exit_files (Z.to_nat NOFILE) 0 p ;;
  begin_op ;;
  x ← getproc p;
  cwd ← deref (p_cwd x);
  iput cwd ;;
  end_op ;;
  upd_proc p (set_p_cwd None) ;;
  acquire LkWait ;;
  reparent p ;;
  x ← getproc p;
  wakeup_proc (p_parent x) ;;
  acquire (LkProc p) ;;
  upd_proc p (set_p_xstate status) ;;
  upd_proc p (set_p_state ZOMBIE) ;;
  release LkWait ;;
  sched ;;
  panic "zombie exit".

(** One scan of the table by wait: the value to return, if any, and havekids. *)
Fixpoint wait_scan (k i : nat) (p : nat) (addr : Z) (havekids : bool) : M kernel (option Z * bool) :=
  match k with
  | O => mret (None, havekids)
  | S k =>
      pp ← getproc i;
      if decide (p_parent pp = Some p) then
        acquire (LkProc i) ;;
        pp ← getproc i;
        if decide (p_state pp = ZOMBIE) then
          let pid := p_pid pp in
          x ← getproc p;
          r ← (if addr =? 0 then mret 0 else copyout (p_pagetable x) addr (le_enc 4 (p_xstate pp)) 4);
          if r <? 0 then
            release (LkProc i) ;; release LkWait ;; mret (Some (-1), true)
          else
            freeproc i ;;
            release (LkProc i) ;; release LkWait ;; mret (Some pid, true)
        else
          release (LkProc i) ;;
          wait_scan k (S i) p addr true
      else wait_scan k (S i) p addr havekids
  end.

Fixpoint wait_loop (fuel : nat) (p : nat) (addr : Z) : M kernel Z :=
  match fuel with
  | O => nofuel
  | S fuel =>
      r ← wait_scan (Z.to_nat NPROC) 0 p addr false;
      match r with
      | (Some v, _) => mret v
      | (None, havekids) =>
          k ← (if (havekids : bool) then killed p else mret true);
          if (k : bool) then release LkWait ;; mret (-1) else
          sleep (ChProc p) LkWait ;;
          wait_loop fuel p addr
      end
  end.

(** Wait for a child process to exit and return its pid. *)
Definition wait (addr : Z) : M kernel Z :=
  p ← myproc;
  acquire LkWait ;;
  wait_loop WAKEUPS p addr.

(** ** Scheduling *)

Section scheduler.
Context (swtch : nat -> M kernel unit).

Fixpoint scheduler_pass (k i : nat) : M kernel unit :=
  match k with
  | O => mret tt
  | S k =>
      acquire (LkProc i) ;;
      x ← getproc i;
      (if decide (p_state x = RUNNABLE) then
         upd_proc i (set_p_state RUNNING) ;;
         modify (fun s => set_cur i s) ;;
         swtch i ;;
         modify (fun s => set_cur (Z.to_nat NPROC) s)
       else mret tt) ;;
      release (LkProc i) ;;
      scheduler_pass k (S i)
  end.

(** [n] rounds of the scheduler's endless loop, each with interrupts on. *)
Fixpoint scheduler_loop (n : nat) : M kernel unit :=
  match n with
  | O => mret tt
  | S n => intr_on ;; scheduler_pass (Z.to_nat NPROC) 0 ;; scheduler_loop n
  end.

Definition scheduler (n : nat) : M kernel unit :=
  modify (fun s => set_cur (Z.to_nat NPROC) s) ;;
  scheduler_loop n.
End scheduler.

Fixpoint kill_loop (k i : nat) (pid : Z) : M kernel Z :=
  match k with
  | O => mret (-1)
  | S k =>
      acquire (LkProc i) ;;
      x ← getproc i;
      if p_pid x =? pid then
        upd_proc i (set_p_killed true) ;;
        (if decide (p_state x = SLEEPING) then upd_proc i (set_p_state RUNNABLE) else mret tt) ;;
        release (LkProc i) ;;
        mret 0
      else
        release (LkProc i) ;;
        kill_loop k (S i) pid
  end.

(** Kill the process with the given pid. *)
Definition kill (pid : Z) : M kernel Z := kill_loop (Z.to_nat NPROC) 0 pid.
End proc.
