(* ===== verification/ProcProps.v ===== *)
(** * Processes: kill *)

From S2P Require Import Prelude State Mem Spinlock Sched Memlayout Kalloc Vm VmProps Proc.

(** What kill does to its victim: it is marked, and woken if it sleeps. *)
Definition kill_proc (x : procst) : procst := (if decide (p_state x = SLEEPING) then set_p_state RUNNABLE else id) (set_p_killed true x).

Lemma kill_loop_run pid : forall k i s, no_proc_lock s -> (i + k = length (procs s))%nat ->
  kill_loop k i pid s = match list_find (fun x => p_pid x = pid) (drop i (procs s)) with
    | Some (j, _) => Ret 0 (set_procs (alter kill_proc (i + j)%nat (procs s)) s)
    | None => Ret (-1) s
    end.
Proof.
  induction k as [|k IH]; intros i s Hn Hi; cbn [kill_loop].
  - rewrite drop_ge by lia. done.
  - destruct (lookup_lt_is_Some_2 (procs s) i ltac:(lia)) as [x Ex]. rewrite (drop_S _ _ _ Ex).
    assert (Et : procs s !!! i = x) by (by apply list_lookup_total_correct). erewrite bind_Ret by (apply acquire_Ret, Hn). cbv beta. unfold getproc. erewrite bind_Ret by reflexivity.
    cbv beta. cbn [procs set_held]. rewrite Et. cbn [list_find]. destruct (Z.eqb_spec (p_pid x) pid) as [Ep|Ep].
    + rewrite (decide_True (P := p_pid x = pid)) by exact Ep. unfold upd_proc. erewrite bind_Ret by reflexivity. cbv beta. rewrite Nat.add_0_r.
      assert (Ek : forall ps : list procst, ps !! i = Some x -> alter kill_proc i ps = (if decide (p_state x = SLEEPING) then alter (set_p_state RUNNABLE) i else id) (alter (set_p_killed true) i ps)).
      { intros ps Hps. unfold kill_proc. destruct (decide (p_state x = SLEEPING)) as [Hs|Hs].
        - rewrite list_alter_alter_eq. apply list_alter_ext; [|done]. intros y Hy. rewrite Hps in Hy. injection Hy as <-. by rewrite decide_True.
        - cbn [id]. apply list_alter_ext; [|done]. intros y Hy. rewrite Hps in Hy. injection Hy as <-. by rewrite decide_False. }
      rewrite (Ek (procs s) Ex). destruct (decide (p_state x = SLEEPING)); (erewrite bind_Ret by reflexivity; cbv beta;
        erewrite bind_Ret by (apply release_Ret; cbn; set_solver); cbn; rewrite held_restore by apply Hn; reflexivity).
    + rewrite (decide_False (P := p_pid x = pid)) by exact Ep. erewrite bind_Ret by (apply release_Ret; cbn; set_solver). cbn. rewrite held_restore by apply Hn.
      change (set_held (held s) (set_held ({[LkProc i]} ∪ held s) s)) with s. rewrite IH by (done || lia). destruct (list_find _ (drop (S i) (procs s))) as [[j y]|]; [|done]. cbn.
      by replace (i + S j)%nat with (S (i + j)) by lia.
Qed.

(** kill marks exactly the first process with the pid, wakes it if it sleeps and leaves every other process alone, and
    returns 0; when no process has the pid it returns -1 and changes nothing. *)
Lemma kill_first s pid : no_proc_lock s -> length (procs s) = Z.to_nat NPROC ->
  kill pid s = match list_find (fun x => p_pid x = pid) (procs s) with
    | Some (i, _) => Ret 0 (set_procs (alter kill_proc i (procs s)) s)
    | None => Ret (-1) s
    end.
Proof. intros Hn Hl. unfold kill. rewrite kill_loop_run by (done || lia). rewrite drop_0. destruct (list_find _ _) as [[j x]|]; done. Qed.

(** ** kill(0)

    The slots of the table that were never used have pid 0, so kill(0) finds one
    and marks it; allocproc does not clear the mark, so that the next process
    is killed before it runs. *)
Lemma kill_zero_born_killed :
  match (r ← kill 0; p ← @allocproc vm_layout; mret (r, p)) vm_demo with
  | Ret (r, Some p) s => r = 0 /\ p_state (procs s !!! p) = USED /\ p_killed (procs s !!! p) = true
  | _ => False
  end.
Proof. vm_compute. auto. Qed.
