(* ===== verification/ProcMem.v ===== *)
(** * The memory of processes: allocproc, proc_pagetable, freeproc

    A process owns the pages of its page table, the pages of its user memory and
    its trapframe.  [pmap] is the whole map of its page table: user memory, and the
    trapframe and the trampoline on top, which the user cannot reach.  allocproc
    takes these pages from the free list, freeproc gives them back. *)

From S2P Require Import Prelude State Mem CString Spinlock Sched Sleeplock Memlayout Kalloc Vm PageTable AddrSpace UserMem CopyUser FreeWalk VmProps Console Fs File Proc.

Abbreviation unused := (fun x => p_state x = UNUSED) (only parsing).

Section procmem.
Context `{HL : Layout} {HOk : LayoutOk HL}.

(** The page of the trampoline, the last one. *)
Definition TVPN : Z := TRAMPOLINE / PGSIZE.

Definition pmap (tf : Z) (u : uspace) : uspace :=
  <[UVPN := (tf, Z.lor PTE_R PTE_W)]> (<[TVPN := (trampoline, Z.lor PTE_R PTE_X)]> u).

(** [s'] differs from [s] in memory and the free list only. *)
Definition mem_only (s s' : kernel) : Prop := s' = set_mem (mem s') (set_freelist (freelist s') s).

Lemma mem_only_trans s s1 s2 : mem_only s s1 -> mem_only s1 s2 -> mem_only s s2.
Proof. unfold mem_only. intros H1 H2. rewrite H2, H1. done. Qed.

(** The invariant is about memory, the free list and its lock. *)
Lemma as_inv_same s s' root t u fr : mem s' = mem s -> freelist s' = freelist s -> LkKmem ∉ held s' ->
  as_inv s root t u fr -> as_inv s' root t u fr.
Proof.
  intros Em Ef Hl I. eapply as_frame; [exact I | done | | intros a [p Hp]; eapply vm_sep; [apply I | done] | by rewrite Em].
  destruct (vm_kmem _ _ _ _ (as_vm _ _ _ _ _ I)) as [K1 K2 K3]. split; rewrite ?Em, ?Ef; done.
Qed.

(** Unmapping a page that stays allocated. *)
Lemma unmap_kept s root t u fr v pa perm : as_inv s root t u fr -> 0 <= v < MAXVA / PGSIZE ->
  u !! v = Some (pa, perm) -> Z.lor perm 1 <> 1 ->
  exists s', uvmunmap root (v * PGSIZE) 1 false s = Ret tt s' /\ as_inv s' root t (delete v u) fr /\ mem_only s s' /\
    forall x, (forall a, is_table t a -> ~ in_page a x) -> load8 (mem s') x = load8 (mem s) x.
Proof.
  intros I Hv Hu Hp. pose proof (vpn_va v Hv) as Hva. pose proof (as_walk s root t u fr (v * PGSIZE) I Hva) as Hw.
  rewrite vpn_div, Hu in Hw. destruct Hw as (b & Hb & Hw & Hr0 & Hl). set (r := b + 8 * _) in *.
  destruct (as_range _ _ _ _ _ I _ _ _ Hu) as (_ & Hal & Hpa & Hperm).
  destruct (as_clear s root t u fr (v * PGSIZE) b 0 I Hva Hb eq_refl) as [I2 Ho2]. rewrite vpn_div in I2. fold r in I2, Ho2.
  eexists. split; [|split; [exact I2 |]; split; [done |]].
  - unfold uvmunmap. rewrite (vpn_aligned v). cbn [negb Z.eqb]. change (Z.to_nat 1 + 1)%nat with 2%nat. cbn [uvmunmap_loop].
    change (MAXVA / PGSIZE) with (2 ^ 26) in Hv. assert (Ew : forall k, 0 <= k <= 2 -> u64 (v * PGSIZE + k * PGSIZE) = v * PGSIZE + k * PGSIZE).
    { intros k Hk. apply wrap_small. unfold PGSIZE. lia. }
    rewrite (Ew 1) by lia. destruct (Z.ltb_spec (v * PGSIZE) (v * PGSIZE + 1 * PGSIZE)); [|unfold PGSIZE in *; lia].
    erewrite bind_Ret by exact Hw. destruct (Z.eqb_spec r 0); [done |]. unfold load_pte, store_pte. mred. rewrite Hl.
    destruct (has_mk_pte pa perm Hpa Hperm) as [_ ->]. rewrite PTE_FLAGS_mk by done. change PTE_V with 1.
    destruct (Z.eqb_spec (Z.lor perm 1) 1); [done |]. replace (v * PGSIZE + PGSIZE) with (v * PGSIZE + 1 * PGSIZE) by lia.
    rewrite (Ew 1) by lia. by rewrite Z.ltb_irrefl.
  - intros x Hx. apply Ho2, Hx. by exists [PX 2 (v * PGSIZE); PX 1 (v * PGSIZE)].
Qed.
Lemma UVPN_TVPN : UVPN = 2 ^ 26 - 2 /\ TVPN = 2 ^ 26 - 1.
Proof. split; reflexivity. Qed.

(** The user part of a map ends below the trapframe. *)
Definition user_part (u : uspace) : Prop := forall k, is_Some (u !! k) -> 0 <= k < UVPN.

Lemma pmap_user tf u a : is_user (pmap tf u) a <-> is_user u a.
Proof.
  destruct UVPN_TVPN as [E1 E2]. unfold pmap. split; intros (v & p & Hv & Hl); exists v, p; (split; [|done]).
  - by rewrite !lookup_insert_ne in Hv by lia.
  - by rewrite !lookup_insert_ne by lia.
Qed.

Lemma pmap_own tf t u fr : own_inv t (pmap tf u) fr <-> own_inv t u fr.
Proof.
  destruct UVPN_TVPN as [E1 E2].
  assert (El : forall v, v < UVPN -> pmap tf u !! v = u !! v) by (intros; unfold pmap; by rewrite !lookup_insert_ne by lia).
  split; intros [O1 O2 O3]; (split; [intros a Ha; apply O1; first [exact (proj1 (pmap_user tf u a) Ha) | exact (proj2 (pmap_user tf u a) Ha)] | |]).
  - intros v v' a p p' Hv Hv' H1 H2. rewrite <- El in H1, H2 by done. eauto.
  - intros v a p H1 Hv. rewrite <- El in H1 by done. eauto.
  - intros v v' a p p' Hv Hv' H1 H2. rewrite El in H1, H2 by done. eauto.
  - intros v a p H1 Hv. rewrite El in H1 by done. eauto.
Qed.

Lemma pmap_owns tf t u fr a : owns t (pmap tf u) fr a <-> owns t u fr a.
Proof. unfold owns. by rewrite pmap_user. Qed.

Lemma pmap_delete tf u : user_part u -> delete UVPN (delete TVPN (pmap tf u)) = u.
Proof.
  intros Hu. destruct UVPN_TVPN as [E1 E2]. assert (u !! UVPN = None /\ u !! TVPN = None) as [N1 N2].
  { split; apply eq_None_not_Some; intros Hs; apply Hu in Hs; lia. }
  apply map_eq. intros k. unfold pmap. rewrite !lookup_delete, !lookup_insert. repeat case_decide; subst; try done; lia.
Qed.

(** proc_freepagetable gives back the tables and the user pages. *)
Lemma proc_freepagetable_ok s root t tf u fr sz : as_inv s root t (pmap tf u) fr -> own_inv t u fr -> 0 <= sz <= TRAPFRAME ->
  (forall k, is_Some (u !! k) <-> 0 <= k < npages sz) ->
  exists s' fr', proc_freepagetable root sz s = Ret tt s' /\ kmem_inv s' fr' /\ (forall a, a ∈ fr' <-> owns t u fr a) /\ mem_only s s' /\
    forall x, (forall a, owns t u fr a -> ~ in_page a x) -> load8 (mem s') x = load8 (mem s) x.
Proof.
  intros I O Hsz Hdom. destruct UVPN_TVPN as [E1 E2]. pose proof (npages_UVPN sz Hsz) as Hn.
  assert (Hu : user_part u) by (intros k Hk%Hdom; lia).
  assert (ET : TRAMPOLINE = TVPN * PGSIZE) by reflexivity. assert (EU : TRAPFRAME = UVPN * PGSIZE) by reflexivity.
  unfold proc_freepagetable. rewrite ET, EU.
  destruct (unmap_kept s root t (pmap tf u) fr TVPN trampoline (Z.lor PTE_R PTE_X) I) as (s1 & R1 & I1 & M1 & F1).
  { change (MAXVA / PGSIZE) with (2 ^ 26). lia. }
  { unfold pmap. rewrite lookup_insert_ne by lia. apply lookup_insert_eq. }
  { discriminate. }
  erewrite bind_Ret by exact R1.
  destruct (unmap_kept s1 root t (delete TVPN (pmap tf u)) fr UVPN tf (Z.lor PTE_R PTE_W) I1) as (s2 & R2 & I2 & M2 & F2).
  { change (MAXVA / PGSIZE) with (2 ^ 26). lia. }
  { rewrite lookup_delete_ne by lia. apply lookup_insert_eq. }
  { discriminate. }
  erewrite bind_Ret by exact R2. rewrite pmap_delete in I2 by done.
  destruct (uvmfree_ok s2 root t u fr sz I2 O Hsz Hdom) as (s3 & fr' & R3 & K & Hp & M3 & F3).
  exists s3, fr'. split_and!; [done | done | done | |].
  - eapply mem_only_trans; [eapply mem_only_trans; [exact M1 | exact M2] | exact M3].
  - intros x Hx. rewrite F3, F2, F1; [done | | |done]; intros a Ha; apply Hx; right; by left.
Qed.

(** The resources of a process. *)
Record proc_res (s : kernel) (x : procst) (t : ptree) (u : uspace) (fr : list Z) : Prop := mkProcRes {
  pr_as : as_inv s (p_pagetable x) t (pmap (p_trapframe x) u) fr;
  pr_own : own_inv t u fr;
  pr_sz : 0 <= p_sz x <= TRAPFRAME;
  pr_dom : forall k, is_Some (u !! k) <-> 0 <= k < npages (p_sz x);
  pr_tf : page_ok (p_trapframe x) /\ p_trapframe x ∉ fr /\ ~ is_table t (p_trapframe x) /\ ~ is_user u (p_trapframe x)
}.

(** A slot after freeproc. *)
Definition free_slot (x : procst) : procst :=
  mkProc UNUSED None false 0 0 None (p_kstack x) (p_context x) 0 0 0 (p_ofile x) (p_cwd x) (<[0%nat := 0]> (p_name x)).

Lemma getproc_run i s : getproc i s = Ret (procs s !!! i) s.
Proof. done. Qed.

Lemma upd_proc_run i f s : upd_proc i f s = Ret tt (set_procs (alter f i (procs s)) s).
Proof. done. Qed.

Lemma procs_alter i f (l : list procst) : (i < length l)%nat -> alter f i l !!! i = f (l !!! i).
Proof.
  intros Hi. destruct (lookup_lt_is_Some_2 l i Hi) as [x Ex]. rewrite !list_lookup_total_alt, list_lookup_alter_eq, Ex. done.
Qed.

(** freeproc gives back every page of the process and clears its slot. *)
Lemma freeproc_ok s i t u fr : let x := procs s !!! i in proc_res s x t u fr -> (i < length (procs s))%nat ->
  exists s' fr', freeproc i s = Ret tt (set_procs (alter free_slot i (procs s)) s') /\ kmem_inv s' fr' /\
    (forall a, a ∈ fr' <-> a = p_trapframe x \/ owns t u fr a) /\ mem_only s s' /\
    forall y, (forall a, a = p_trapframe x \/ owns t u fr a -> ~ in_page a y) -> load8 (mem s') y = load8 (mem s) y.
Proof.
  intros x [I O Hsz Hdom (Htf & Hn & Ht & Hus)] Hi. set (tf := p_trapframe x) in *. set (root := p_pagetable x) in *.
  destruct (as_kfree s root t (pmap tf u) fr tf I Htf Hn Ht) as (s1 & R1 & I1 & M1 & F1).
  pose proof (page_ok_pos tf Htf) as Htf0. assert (Hroot : page_ok root) by (eapply (pt_page _ _ _ (vm_pt _ _ _ _ (as_vm _ _ _ _ _ I)) []), I).
  pose proof (page_ok_pos root Hroot) as Hr0. set (m1 := mem s1) in *. set (f1 := freelist s1) in *. clearbody m1 f1. subst s1.
  assert (O1 : own_inv t u (tf :: fr)).
  { destruct O as [A B C]. split; try done. intros a Ha. destruct (A a Ha) as (? & ? & ?). split_and!; try done.
    rewrite not_elem_of_cons. split; [intros ->; done | done]. }
  set (ps := alter (set_p_trapframe 0) i (procs s)). set (s1 := set_procs ps (set_mem m1 (set_freelist f1 s))).
  destruct (proc_freepagetable_ok s1 root t tf u (tf :: fr) (p_sz x)) as (s2 & fr2 & R2 & K2 & P2 & M2 & F2); [|done|done|done|].
  { apply (as_inv_same (set_mem m1 (set_freelist f1 s))); try done. apply I. }
  unfold mem_only in M2. set (m2 := mem s2) in *. set (f2 := freelist s2) in *. clearbody m2 f2. subst s2.
  exists (set_mem m2 (set_freelist f2 s)), fr2. split_and!; [| | | done |].
  - unfold freeproc. erewrite bind_Ret by apply getproc_run. cbv beta. fold x tf. destruct (Z.eqb_spec tf 0); [lia |].
    erewrite bind_Ret by exact R1. erewrite bind_Ret by apply upd_proc_run. erewrite bind_Ret by apply getproc_run. cbv beta.
    cbn [procs set_procs set_mem set_freelist]. rewrite procs_alter by done. fold x. cbn [p_pagetable p_sz set_p_trapframe].
    fold root. destruct (Z.eqb_spec root 0); [lia |]. fold ps s1. erewrite bind_Ret by exact R2.
    do 8 (erewrite bind_Ret by apply upd_proc_run). rewrite upd_proc_run. f_equal.
    cbn [procs set_procs set_mem set_freelist s1]. unfold ps. rewrite !alter_compose_list. done.
  - destruct K2 as [A B C]. by split.
  - intros a. rewrite P2. unfold owns. rewrite elem_of_cons. tauto.
  - intros y Hy. cbn. rewrite F2.
    + apply F1, Hy. by left.
    + intros a Ha. apply Hy. unfold owns in *. rewrite elem_of_cons in Ha. tauto.
Qed.
(** ** Making a page table *)

(** From [s] with the free pages [fr] to [s'], the pages now being those of [P]. *)
Record takes (s : kernel) (fr : list Z) (s' : kernel) (P : Z -> Prop) : Prop := mkTakes {
  tk_state : mem_only s s';
  tk_pages : forall a, a ∈ fr <-> P a;
  tk_other : forall x, (forall a, a ∈ fr -> ~ in_page a x) -> load8 (mem s') x = load8 (mem s) x
}.

Lemma takes_us d s fr s1 t1 u1 fr1 s2 t2 u2 fr2 : takes s fr s1 (owns t1 u1 fr1) -> us_step d s1 t1 u1 fr1 s2 t2 u2 fr2 ->
  takes s fr s2 (owns t2 u2 fr2).
Proof.
  intros [A B C] [S1 S2 S3 S4 _]. split.
  - by eapply mem_only_trans.
  - intros a. by rewrite B, S3.
  - intros x Hx. rewrite S4, C; [done | done |]. intros a Ha. apply Hx. by apply B.
Qed.

Lemma takes_tables s fr s1 t u fr1 s2 : takes s fr s1 (owns t u fr1) -> mem_only s1 s2 ->
  (forall x, (forall a, is_table t a -> ~ in_page a x) -> load8 (mem s2) x = load8 (mem s1) x) -> takes s fr s2 (owns t u fr1).
Proof.
  intros [A B C] M F. split; [by eapply mem_only_trans | done |]. intros x Hx. rewrite F, C; [done | done |].
  intros a Ha. apply Hx, B. right. by left.
Qed.

Lemma own_empty t fr : own_inv t ∅ fr.
Proof.
  assert (E : forall v e, (∅ : uspace) !! v <> Some e) by (intros v e; by rewrite lookup_empty).
  split; [intros a (v & p & Hv & _); by apply E in Hv | intros v v' a p p' _ _ Hv; by apply E in Hv | intros v a p Hv; by apply E in Hv].
Qed.

Lemma kalloc_page s pg fr : LkKmem ∉ held s -> kmem_inv s (pg :: fr) ->
  exists m f, kalloc s = Ret pg (set_mem m (set_freelist f s)) /\ kmem_inv (set_mem m (set_freelist f s)) fr /\ page_ok pg /\ pg ∉ fr /\
    forall x, ~ in_page pg x -> load8 m x = load8 (mem s) x.
Proof.
  intros Hl K. destruct (kalloc_cons s pg fr Hl K) as (R & K1 & _ & Ho). destruct K as [_ Hnd Hok].
  apply NoDup_cons in Hnd as [Hn _]. apply Forall_cons in Hok as [Hpg _]. eexists _, _. split_and!; [exact R | exact K1 | exact Hpg | exact Hn | exact Ho].
Qed.

Lemma zero_page m pg : exists m', (forall s, mem s = m -> fill_page pg 0 s = Ret tt (set_mem m' s)) /\
  (forall x, ~ in_page pg x -> load8 m' x = load8 m x) /\ (forall x, in_page pg x -> load8 m' x = 0).
Proof.
  exists (CString.memset m pg 0 PGSIZE). split_and!; [by intros s <- | intros x Hx; by apply fill_other | intros x Hx; by apply fill_zero].
Qed.

(** A zeroed page is an empty page table. *)
Lemma as_new s pg fr : LkKmem ∉ held s -> kmem_inv s fr -> page_ok pg -> pg ∉ fr -> (forall x, in_page pg x -> load8 (mem s) x = 0) ->
  as_inv s pg {[ [] := pg ]} ∅ fr.
Proof.
  intros Hl K Hpg Hn Hz. assert (Hsing : forall p a, ({[ [] := pg ]} : ptree) !! p = Some a -> p = [] /\ a = pg).
  { intros p a Hp. apply lookup_singleton_Some in Hp as [<- <-]. done. }
  assert (Hnone : forall p, p <> [] -> ({[ [] := pg ]} : ptree) !! p = None).
  { intros p Hp. apply lookup_singleton_ne. congruence. }
  split; [split; [done | done | split |] | |].
  - by rewrite lookup_singleton_eq.
  - intros p q a Hp Hq. apply Hsing in Hp as [-> _], Hq as [-> _]. done.
  - intros p a Hp. by apply Hsing in Hp as [_ ->].
  - intros p a Hp. apply Hsing in Hp as [-> _]. cbn. lia.
  - intros p j a Hp. apply Hsing in Hp as [E _]. by apply app_nil in E as [_ ?].
  - intros j p a Hp. by apply Hsing in Hp as [? _].
  - intros p a j Hp _ Hj. apply Hsing in Hp as [-> ->]. rewrite Hnone by done. rewrite load64_zero; [done |].
    intros x Hx. apply Hz. unfold in_page, PGSIZE. lia.
  - intros p a Hp. by apply Hsing in Hp as [_ ->].
  - intros vpn Hv. rewrite lookup_empty. unfold lookup_pte. rewrite Hnone by done. done.
  - intros vpn pa perm. by rewrite lookup_empty.
Qed.

Lemma owns_new pg fr a : a ∈ pg :: fr <-> owns {[ [] := pg ]} ∅ fr a.
Proof.
  unfold owns. rewrite elem_of_cons. split.
  - intros [->|?]; [right; left; exists []; by rewrite lookup_singleton_eq | by left].
  - intros [?|[[p Hp]|(v & q & Hv & _)]]; [by right | apply lookup_singleton_Some in Hp as [_ <-]; by left | by rewrite lookup_empty in Hv].
Qed.

(** uvmcreate makes an empty page table of a free page. *)
Lemma uvmcreate_ok s pg fr : LkKmem ∉ held s -> kmem_inv s (pg :: fr) ->
  exists s', uvmcreate s = Ret pg s' /\ pg <> 0 /\ as_inv s' pg {[ [] := pg ]} ∅ fr /\ takes s (pg :: fr) s' (owns {[ [] := pg ]} ∅ fr).
Proof.
  intros Hl K. destruct (kalloc_page s pg fr Hl K) as (m1 & f1 & R & K1 & Hpg & Hn & Ho). pose proof (page_ok_pos pg Hpg) as H0. destruct (zero_page m1 pg) as (m2 & Em & F2 & Z2).
  exists (set_mem m2 (set_freelist f1 s)). split; [|split; [lia | split]].
  - unfold uvmcreate. erewrite bind_Ret by exact R. destruct (Z.eqb_spec pg 0); [lia |]. by erewrite bind_Ret by (by apply Em).
  - apply as_new; try done. destruct K1 as [A B C]. split; [|done|done]. cbn in *.
    eapply (free_list_frame m1 _ _ _ pg); [apply Hpg | exact C | done | | exact A]. intros x Hx. symmetry. by apply F2.
  - split; [done | intros a; apply owns_new |]. intros x Hx. cbn. rewrite F2; [apply Ho |]; apply Hx; left.
Qed.

Lemma npages_0 : npages 0 = 0.
Proof. reflexivity. Qed.

(** An empty page table goes back to the free list. *)
Lemma uvmfree_empty s fr s1 root t fr1 : takes s fr s1 (owns t ∅ fr1) -> as_inv s1 root t ∅ fr1 ->
  exists s' fr', uvmfree root 0 s1 = Ret tt s' /\ kmem_inv s' fr' /\ takes s fr s' (fun a => a ∈ fr').
Proof.
  intros T I. destruct (uvmfree_ok s1 root t ∅ fr1 0 I (own_empty t fr1)) as (s' & fr' & R & K & P & M & F).
  { split; [done | by vm_compute]. }
  { intros k. rewrite lookup_empty, npages_0. split; [by intros [? ?] | lia]. }
  exists s', fr'. split_and!; [done | done |]. destruct T as [A B C]. split.
  - by eapply mem_only_trans.
  - intros a. by rewrite B, P.
  - intros x Hx. rewrite F, C; [done | done |]. intros a Ha. apply Hx. by apply B.
Qed.

(** A page mapped above user memory. *)
Lemma map_kept s fr s1 root t u fr1 v pa perm : takes s fr s1 (owns t ∅ fr1) -> as_inv s1 root t u fr1 -> UVPN <= v < MAXVA / PGSIZE ->
  u !! v = None -> page_aligned pa -> 0 <= pa < 2 ^ 55 -> 0 <= perm < 1024 ->
  exists r s2 t2 fr2, mappages root (v * PGSIZE) PGSIZE pa perm s1 = Ret r s2 /\ takes s fr s2 (owns t2 ∅ fr2) /\
    ((r = 0 /\ as_inv s2 root t2 (<[v := (pa, perm)]> u) fr2) \/ (r = -1 /\ as_inv s2 root t2 u fr2)).
Proof.
  intros T I Hv Hn Ha Hp Hm. destruct (as_map1 s1 root t u fr1 v pa perm I) as (r & s2 & t2 & fr2 & R & E & Hc); try done.
  { split; [|lia]. transitivity UVPN; [by vm_compute | lia]. }
  exists r, s2, t2, fr2. split; [done |]. split.
  - eapply takes_us; [exact T |]. apply (ext_us [] s1 root t ∅ fr1 s2 t2 fr2); [apply own_empty | | done].
    destruct Hc as [(_ & I2 & _)|(_ & _ & I2 & _)]; apply I2.
  - destruct Hc as [(? & ? & _)|(? & _ & ? & _)]; [by left | by right].
Qed.

(** proc_pagetable makes a page table with the trampoline and the trapframe, or
    gives back every page it took. *)
Lemma proc_pagetable_ok s fr p : let tf := p_trapframe (procs s !!! p) in
  LkKmem ∉ held s -> kmem_inv s fr -> page_aligned tf -> 0 <= tf < 2 ^ 55 ->
  exists r s', proc_pagetable p s = Ret r s' /\
    ((r <> 0 /\ exists t fr', as_inv s' r t (pmap tf ∅) fr' /\ takes s fr s' (owns t ∅ fr')) \/
     (r = 0 /\ exists fr', kmem_inv s' fr' /\ takes s fr s' (fun a => a ∈ fr'))).
Proof.
  intros tf Hl K Ha Hr. destruct UVPN_TVPN as [E1 E2]. assert (EV : MAXVA / PGSIZE = 2 ^ 26) by reflexivity. unfold proc_pagetable. destruct fr as [|pg fr].
  { exists 0, s. split.
    - erewrite bind_Ret; [|unfold uvmcreate; erewrite bind_Ret by (by apply kalloc_empty); rewrite Z.eqb_refl; reflexivity]. by rewrite Z.eqb_refl.
    - right. split; [done |]. exists []. split; [done |]. by split. }
  destruct (uvmcreate_ok s pg fr Hl K) as (s1 & R1 & H0 & I1 & T1). erewrite bind_Ret by exact R1. destruct (Z.eqb_spec pg 0); [done |].
  assert (ET : TRAMPOLINE = TVPN * PGSIZE) by reflexivity. assert (EU : TRAPFRAME = UVPN * PGSIZE) by reflexivity. rewrite ET, EU.
  destruct (map_kept s (pg :: fr) s1 pg _ ∅ fr TVPN trampoline (Z.lor PTE_R PTE_X) T1 I1) as (r & s2 & t2 & fr2 & R2 & T2 & Hc2).
  { lia. } { apply lookup_empty. } { apply trampoline_ok. } { pose proof trampoline_ok as [? _]. pose proof kend_ok. unfold PHYSTOP, KERNBASE in *. lia. } { by vm_compute. }
  erewrite bind_Ret by exact R2. destruct Hc2 as [[-> I2]|[-> I2]].
  2: { change (-1 <? 0) with true. cbv iota. destruct (uvmfree_empty s (pg :: fr) s2 pg t2 fr2 T2 I2) as (s3 & fr3 & R3 & K3 & T3).
    erewrite bind_Ret by exact R3. exists 0, s3. split; [done |]. right. split; [done |]. by exists fr3. }
  change (0 <? 0) with false. cbv iota. erewrite bind_Ret by apply getproc_run. cbv beta.
  assert (Ep : procs s2 = procs s) by (by rewrite (tk_state _ _ _ _ T2)). rewrite Ep. fold tf.
  destruct (map_kept s (pg :: fr) s2 pg t2 _ fr2 UVPN tf (Z.lor PTE_R PTE_W) T2 I2) as (r & s3 & t3 & fr3 & R3 & T3 & Hc3).
  { lia. } { rewrite lookup_insert_ne by lia. apply lookup_empty. } { done. } { done. } { by vm_compute. }
  erewrite bind_Ret by exact R3. destruct Hc3 as [[-> I3]|[-> I3]].
  { change (0 <? 0) with false. exists pg, s3. split; [done |]. left. split; [done |]. exists t3, fr3. done. }
  change (-1 <? 0) with true. cbv iota.
  destruct (unmap_kept s3 pg t3 _ fr3 TVPN trampoline (Z.lor PTE_R PTE_X) I3) as (s4 & R4 & I4 & M4 & F4).
  { lia. } { apply lookup_insert_eq. } { discriminate. }
  erewrite bind_Ret by exact R4. rewrite delete_insert_id in I4 by apply lookup_empty.
  destruct (uvmfree_empty s (pg :: fr) s4 pg t3 fr3) as (s5 & fr5 & R5 & K5 & T5); [by eapply takes_tables | done |].
  erewrite bind_Ret by exact R5. exists 0, s5. split; [done |]. right. split; [done |]. by exists fr5.
Qed.
(** ** allocproc *)

Lemma freeproc_none s i : (i < length (procs s))%nat -> p_pagetable (procs s !!! i) = 0 -> p_trapframe (procs s !!! i) = 0 ->
  freeproc i s = Ret tt (set_procs (alter free_slot i (procs s)) s).
Proof.
  intros Hi Hp Ht. unfold freeproc. erewrite bind_Ret by apply getproc_run. cbv beta. rewrite Ht, Z.eqb_refl. erewrite bind_Ret by reflexivity.
  erewrite bind_Ret by apply upd_proc_run. erewrite bind_Ret by apply getproc_run. cbv beta.
  cbn [procs set_procs]. rewrite procs_alter by done. cbn [p_pagetable set_p_trapframe]. rewrite Hp, Z.eqb_refl.
  erewrite bind_Ret by reflexivity. do 8 (erewrite bind_Ret by apply upd_proc_run). rewrite upd_proc_run. f_equal.
  cbn [procs set_procs]. rewrite !alter_compose_list. done.
Qed.

Lemma freeproc_tf s i fr : let tf := p_trapframe (procs s !!! i) in
  (i < length (procs s))%nat -> p_pagetable (procs s !!! i) = 0 -> LkKmem ∉ held s -> kmem_inv s fr -> page_ok tf -> tf ∉ fr ->
  exists m, freeproc i s = Ret tt (set_procs (alter free_slot i (procs s)) (set_mem m (set_freelist tf s))) /\
    kmem_inv (set_mem m (set_freelist tf s)) (tf :: fr) /\ forall x, ~ in_page tf x -> load8 m x = load8 (mem s) x.
Proof.
  intros tf Hi Hp Hl K Htf Hn. destruct (kfree_ok s tf fr Hl K Htf Hn) as (m & R & K' & Ho). exists m. split_and!; [|exact K' | exact Ho].
  pose proof (page_ok_pos tf Htf). unfold freeproc. erewrite bind_Ret by apply getproc_run. cbv beta. fold tf. destruct (Z.eqb_spec tf 0); [lia |].
  erewrite bind_Ret by exact R. erewrite bind_Ret by apply upd_proc_run. erewrite bind_Ret by apply getproc_run. cbv beta.
  cbn [procs set_procs set_mem set_freelist]. rewrite procs_alter by done. cbn [p_pagetable set_p_trapframe]. rewrite Hp, Z.eqb_refl.
  erewrite bind_Ret by reflexivity. do 8 (erewrite bind_Ret by apply upd_proc_run). rewrite upd_proc_run. f_equal.
  cbn [procs set_procs set_mem set_freelist]. rewrite !alter_compose_list. done.
Qed.

Lemma find_unused_run : forall k i s, no_proc_lock s -> (i + k = length (procs s))%nat ->
  find_unused k i s = match list_find unused (drop i (procs s)) with
    | Some (j, _) => Ret (Some (i + j)%nat) (set_held ({[LkProc (i + j)]} ∪ held s) s)
    | None => Ret None s
    end.
Proof.
  induction k as [|k IH]; intros i s Hn Hi; cbn [find_unused].
  - rewrite drop_ge by lia. done.
  - destruct (lookup_lt_is_Some_2 (procs s) i ltac:(lia)) as [x Ex]. rewrite (drop_S _ _ _ Ex).
    assert (Et : procs s !!! i = x) by (by apply list_lookup_total_correct). erewrite bind_Ret by (apply acquire_Ret, Hn).
    erewrite bind_Ret by apply getproc_run. cbv beta. cbn [procs set_held]. rewrite Et. cbn [list_find].
    destruct (decide (p_state x = UNUSED)); [by rewrite Nat.add_0_r |].
    erewrite bind_Ret by (apply release_Ret; cbn; set_solver). cbn. rewrite held_restore by apply Hn.
    change (set_held (held s) (set_held ({[LkProc i]} ∪ held s) s)) with s. rewrite IH by (done || lia).
    destruct (list_find _ (drop (S i) (procs s))) as [[j y]|]; [|done]. cbn. by replace (i + S j)%nat with (S (i + j)) by lia.
Qed.

Lemma allocpid_run s : LkPid ∉ held s -> allocpid s = Ret (nextpid s) (set_nextpid (i32 (nextpid s + 1)) s).
Proof.
  intros Hl. unfold allocpid. erewrite bind_Ret by (by apply acquire_Ret). erewrite bind_Ret by reflexivity. cbv beta. unfold modify.
  erewrite bind_Ret by reflexivity. erewrite bind_Ret by (apply release_Ret; cbn; set_solver). cbn. by rewrite held_restore.
Qed.

(** A slot after allocproc. *)
Definition new_slot (pid tf pt : Z) (x : procst) : procst :=
  set_p_context (forkret_addr, p_kstack x + PGSIZE) (set_p_pagetable pt (set_p_trapframe tf (set_p_state USED (set_p_pid pid x)))).

Definition alloced (p : nat) (f : procst -> procst) (m : memory) (fl : Z) (s : kernel) : kernel :=
  set_procs (alter f p (procs s)) (set_nextpid (i32 (nextpid s + 1)) (set_mem m (set_freelist fl s))).

(** What allocproc does when slot [p] is the first unused one: the slot gets a
    pid, a trapframe and a page table without user memory, and its lock is held;
    or memory is short and every page is given back. *)
Definition alloc_res (s : kernel) (fr : list Z) (p : nat) (r : option nat) (s' : kernel) : Prop :=
  (exists m fl tf pt t fr', let q := alloced p (new_slot (nextpid s) tf pt) m fl s in
     r = Some p /\ s' = set_held ({[LkProc p]} ∪ held s) q /\ as_inv s' pt t (pmap tf ∅) fr' /\
     page_ok tf /\ tf ∉ fr' /\ ~ is_table t tf /\ (forall a, a ∈ fr <-> a = tf \/ owns t ∅ fr' a) /\
     forall x, (forall a, a ∈ fr -> ~ in_page a x) -> load8 m x = load8 (mem s) x) \/
  (exists m fl fr', r = None /\ s' = alloced p free_slot m fl s /\ kmem_inv s' fr' /\ (forall a, a ∈ fr <-> a ∈ fr') /\
     forall x, (forall a, a ∈ fr -> ~ in_page a x) -> load8 m x = load8 (mem s) x).

Lemma allocproc_ok s fr p x : no_proc_lock s -> LkPid ∉ held s -> LkKmem ∉ held s -> length (procs s) = Z.to_nat NPROC -> kmem_inv s fr ->
  list_find unused (procs s) = Some (p, x) -> p_pagetable x = 0 ->
  exists r s', allocproc s = Ret r s' /\ alloc_res s fr p r s'.
Proof.
  intros Hn Hp Hk Hl K E Hpt0. apply list_find_Some in E as E'. destruct E' as (Ex & _ & _). pose proof (lookup_lt_Some _ _ _ Ex) as Hlt.
  assert (Et : procs s !!! p = x) by (by apply list_lookup_total_correct).
  unfold allocproc. erewrite bind_Ret.
  2: { rewrite find_unused_run by (done || lia). rewrite drop_0, E. rewrite Nat.add_0_l. reflexivity. }
  cbv beta iota. set (h := {[LkProc p]} ∪ held s). erewrite bind_Ret by (apply allocpid_run; cbn; set_solver). cbv beta. cbn [nextpid set_held].
  do 2 (erewrite bind_Ret by apply upd_proc_run). cbn [procs set_procs set_nextpid set_held].
  set (ps1 := alter (set_p_state USED) p (alter (set_p_pid (nextpid s)) p (procs s))).
  set (s1 := set_procs ps1 (set_nextpid (i32 (nextpid s + 1)) (set_held h s))).
  change (set_procs ps1 _) with s1. assert (Hk1 : LkKmem ∉ held s1) by (cbn; set_solver).
  assert (K1 : kmem_inv s1 fr) by (destruct K as [A B C]; by split).
  assert (Hl1 : (p < length ps1)%nat) by (unfold ps1; by rewrite !length_alter).
  assert (Ex1 : ps1 !!! p = set_p_state USED (set_p_pid (nextpid s) x)) by (unfold ps1; rewrite !procs_alter by (by rewrite ?length_alter); by rewrite Et).
  assert (Hrel : forall S, held S = h -> release (LkProc p) S = Ret tt (set_held (held s) S)).
  { intros S0 E0. rewrite release_Ret by (rewrite E0; set_solver). rewrite E0. unfold h. by rewrite held_restore by apply Hn. }
  destruct fr as [|tf fr].
  { erewrite bind_Ret by (by apply kalloc_empty). cbv beta. erewrite bind_Ret by apply upd_proc_run. rewrite Z.eqb_refl.
    erewrite bind_Ret.
    2: { apply freeproc_none; cbn [procs set_procs s1]; rewrite ?length_alter; [done | |]; rewrite procs_alter by done; rewrite Ex1; done. }
    erewrite bind_Ret by (by apply Hrel). eexists _, _. split; [reflexivity |]. right. exists (mem s), (freelist s), [].
    split_and!; [done | | | done | done].
    - unfold alloced. cbn [procs set_procs s1]. unfold ps1. rewrite !alter_compose_list. done.
    - destruct K as [A B C]. by split. }
  destruct (kalloc_page s1 tf fr Hk1 K1) as (m1 & f1 & R1 & K2 & Htf & Hn1 & F1). pose proof (page_ok_pos tf Htf) as Htf0.
  erewrite bind_Ret by exact R1. cbv beta. erewrite bind_Ret by apply upd_proc_run. destruct (Z.eqb_spec tf 0); [lia |].
  cbn [procs set_procs set_mem set_freelist s1]. set (ps2 := alter (set_p_trapframe tf) p ps1).
  set (s2 := set_procs ps2 _). assert (Hl2 : (p < length ps2)%nat) by (unfold ps2; by rewrite length_alter).
  assert (Ex2 : ps2 !!! p = set_p_trapframe tf (set_p_state USED (set_p_pid (nextpid s) x))) by (unfold ps2; rewrite procs_alter by done; by rewrite Ex1).
  destruct (proc_pagetable_ok s2 fr p) as (pt & s3 & R3 & Hc).
  { done. } { destruct K2 as [A B C]. by split. } { cbn [procs set_procs s2]. rewrite Ex2. apply Htf. } { cbn [procs set_procs s2]. rewrite Ex2. cbn [p_trapframe set_p_trapframe]. by apply page_55. }
  cbn [procs set_procs s2] in Hc. rewrite Ex2 in Hc. cbn [p_trapframe set_p_trapframe] in Hc.
  erewrite bind_Ret by exact R3. cbv beta. erewrite bind_Ret by apply upd_proc_run.
  destruct Hc as [(Hpt & t & fr' & I & [M P F])|(-> & fr' & K3 & [M P F])]; unfold mem_only in M; set (m3 := mem s3) in *; set (f3 := freelist s3) in *; clearbody m3 f3; subst s3.
  - destruct (Z.eqb_spec pt 0); [done |]. erewrite bind_Ret by apply upd_proc_run. eexists _, _. split; [reflexivity |]. left.
    exists m3, f3, tf, pt, t, fr'. cbv zeta. split_and!; [done | | | done | | | |].
    + unfold alloced. cbn [procs set_procs set_mem set_freelist s2]. unfold ps2, ps1. rewrite !alter_compose_list. done.
    + by apply (as_inv_same (set_mem m3 (set_freelist f3 s2))).
    + intros Hf. apply Hn1, P. by left.
    + intros Ht. apply Hn1, P. right. by left.
    + intros a. rewrite elem_of_cons, P. tauto.
    + intros y Hy. rewrite F; [apply F1, Hy; left |]. intros a Ha. apply Hy. by right.
  - change (0 =? 0) with true. cbv iota. cbn [procs set_procs set_mem set_freelist s2].
    set (ps3 := alter (set_p_pagetable 0) p ps2). set (s3 := set_procs ps3 _).
    assert (Ex3 : ps3 !!! p = set_p_pagetable 0 (set_p_trapframe tf (set_p_state USED (set_p_pid (nextpid s) x)))) by (unfold ps3; rewrite procs_alter by done; by rewrite Ex2).
    destruct (freeproc_tf s3 p fr') as (m4 & R4 & K4 & F4); cbn [procs set_procs s3]; rewrite ?Ex3; try done.
    { unfold ps3. by rewrite length_alter. } { destruct K3 as [A B C]. by split. } { cbn. intros Hf. by apply Hn1, P. }
    cbn [procs set_procs s3] in R4, K4, F4. rewrite Ex3 in R4, K4, F4. cbn [p_trapframe set_p_trapframe set_p_pagetable] in R4, K4, F4.
    erewrite bind_Ret by exact R4. erewrite bind_Ret by (by apply Hrel). eexists _, _. split; [reflexivity |]. right. exists m4, tf, (tf :: fr').
    split_and!; [done | | | |].
    + unfold alloced. cbn [procs set_procs set_mem set_freelist s2]. unfold ps3, ps2, ps1. rewrite !alter_compose_list. done.
    + destruct K4 as [A B C]. by split.
    + intros a. rewrite !elem_of_cons, P. done.
    + intros y Hy. rewrite F4 by (apply Hy; left). cbn. rewrite F; [apply F1, Hy; left |]. intros a Ha. apply Hy. by right.
Qed.
End procmem.
