(* ===== verification/Fork.v ===== *)
(** * fork

    The child of fork has a private copy of its parent's memory and registers,
    with 0 in a0, its open files and its directory; or fork fails and every page
    it took is free again. *)

From S2P Require Import Prelude State Mem CString Spinlock Sched Sleeplock Memlayout Kalloc Vm PageTable AddrSpace UserMem CopyUser FreeWalk VmProps Console Fs File Proc ProcMem.

(** ** Open files *)

Definition incr_ref (x : filest) : filest := set_f_ref (f_ref x + 1) x.

Fixpoint dup_refs (l : list (option nat)) (ft : list filest) : list filest :=
  match l with
  | [] => ft
  | Some f :: l => dup_refs l (alter incr_ref f ft)
  | None :: l => dup_refs l ft
  end.

(** The descriptors of [l] from [fd] on, over those of the child. *)
Fixpoint dup_ofile (l : list (option nat)) (fd : nat) (c : list (option nat)) : list (option nat) :=
  match l with
  | [] => c
  | Some f :: l => dup_ofile l (S fd) (<[fd := Some f]> c)
  | None :: l => dup_ofile l (S fd) c
  end.

(** How many descriptors of [l] are file [f]. *)
Definition refs (f : nat) (l : list (option nat)) : Z := Z.of_nat (length (filter (fun o => o = Some f) l)).

Lemma alter_incr_total f g ft : (g < length ft)%nat ->
  alter incr_ref f ft !!! g = if decide (f = g) then incr_ref (ft !!! g) else ft !!! g.
Proof.
  intros Hg. destruct (lookup_lt_is_Some_2 ft g Hg) as [x Ex]. rewrite !list_lookup_total_alt. case_decide as Hf; subst.
  - by rewrite list_lookup_alter_eq, Ex.
  - by rewrite list_lookup_alter_ne.
Qed.

Lemma dup_refs_total l : forall ft f, (f < length ft)%nat -> dup_refs l ft !!! f = set_f_ref (f_ref (ft !!! f) + refs f l) (ft !!! f).
Proof.
  induction l as [|[g|] l IH]; intros ft f Hf; cbn [dup_refs].
  - unfold refs. cbn. by rewrite Z.add_0_r.
  - rewrite IH by (by rewrite length_alter). rewrite alter_incr_total by done. unfold refs. rewrite filter_cons. case_decide as E1; case_decide as E2; simplify_eq.
    + cbn [length incr_ref f_ref set_f_ref]. unfold incr_ref, set_f_ref. cbn. f_equal. lia.
    + done.
  - rewrite IH by done. unfold refs. rewrite filter_cons. by rewrite decide_False by done.
Qed.

Lemma dup_ofile_lookup l : forall fd c i, (fd + length l <= length c)%nat ->
  dup_ofile l fd c !! i = if decide (fd <= i < fd + length l)%nat then match l !!! (i - fd)%nat with Some f => Some (Some f) | None => c !! i end else c !! i.
Proof.
  induction l as [|o l IH]; intros fd c i Hc; cbn [dup_ofile length] in *; [case_decide; [lia | done] |].
  assert (E : dup_ofile (o :: l) fd c = dup_ofile l (S fd) (match o with Some f => <[fd := Some f]> c | None => c end)) by (by destruct o). cbn [dup_ofile] in E. rewrite E.
  rewrite IH by (destruct o; rewrite ?length_insert; lia). destruct (decide (i = fd)) as [->|Hne].
  - rewrite decide_False by lia. rewrite decide_True by lia. rewrite Nat.sub_diag. cbn. destruct o; [rewrite list_lookup_insert_eq by lia; done | done].
  - assert (Eo : (match o with Some f => <[fd := Some f]> c | None => c end) !! i = c !! i) by (destruct o; [by rewrite list_lookup_insert_ne | done]). rewrite Eo.
    case_decide as H1; case_decide as H2; try lia; [|done]. by replace (i - fd)%nat with (S (i - S fd)) by lia.
Qed.

Lemma dup_ofile_all l n : length l = n -> dup_ofile l 0 (replicate n None) = l.
Proof.
  intros Hl. apply list_eq. intros i. rewrite dup_ofile_lookup by (rewrite length_replicate; lia). rewrite Nat.sub_0_r. case_decide as Hi.
  - destruct (lookup_lt_is_Some_2 l i ltac:(lia)) as [o Eo]. rewrite Eo, (list_lookup_total_correct _ _ _ Eo). destruct o; [done |].
    rewrite lookup_replicate_2 by lia. done.
  - rewrite lookup_ge_None_2 by (rewrite length_replicate; lia). symmetry. apply lookup_ge_None_2. lia.
Qed.

Lemma filedup_run f s : LkFtable ∉ held s -> 1 <= f_ref (ftable s !!! f) ->
  filedup f s = Ret f (set_ftable (alter incr_ref f (ftable s)) s).
Proof.
  intros Hl Hr. assert (E : alter (set_f_ref (f_ref (ftable s !!! f) + 1)) f (ftable s) = alter incr_ref f (ftable s)).
  { apply list_alter_ext; [|done]. intros x Hx. unfold incr_ref. by rewrite (list_lookup_total_correct _ _ _ Hx). }
  unfold filedup. erewrite bind_Ret by (by apply acquire_Ret). unfold getfile. erewrite bind_Ret by reflexivity. cbv beta.
  cbn [ftable set_held]. destruct (Z.ltb_spec (f_ref (ftable s !!! f)) 1); [lia |]. unfold upd_file. erewrite bind_Ret by reflexivity.
  erewrite bind_Ret by (apply release_Ret; cbn; set_solver). cbn. rewrite held_restore by done. cbn. by rewrite E.
Qed.

Lemma fork_files_run p np : p <> np -> forall k fd s, let px := p_ofile (procs s !!! p) in
  (fd + k = length px)%nat -> (length px <= length (p_ofile (procs s !!! np)))%nat -> (np < length (procs s))%nat -> LkFtable ∉ held s -> (forall f, Some f ∈ px -> (f < length (ftable s))%nat /\ 1 <= f_ref (ftable s !!! f)) ->
  fork_files k fd p np s = Ret tt (set_ftable (dup_refs (drop fd px) (ftable s))
    (set_procs (alter (fun y => set_p_ofile (dup_ofile (drop fd px) fd (p_ofile y)) y) np (procs s)) s)).
Proof.
  intros Hne. induction k as [|k IH]; intros fd s px Hk Hn Hnp Hl Href; cbn [fork_files].
  - rewrite drop_ge by lia. cbn. unfold mret, M_ret, ret. f_equal. unfold set_ftable, set_procs. cbn. rewrite list_alter_id; [done | by intros []].
  - destruct (lookup_lt_is_Some_2 px fd ltac:(lia)) as [o Eo]. rewrite (drop_S _ _ _ Eo). erewrite bind_Ret by (apply getproc_run). cbv beta. fold px.
    rewrite in_bounds_run by (unfold alen; lia). rewrite (list_lookup_total_correct _ _ _ Eo). destruct o as [f|].
    + destruct (Href f) as [Hf Hf1]; [by eapply list_elem_of_lookup_2 |].
      erewrite bind_Ret.
      2: { erewrite bind_Ret by (by apply filedup_run). unfold set_fd. erewrite bind_Ret by (apply getproc_run). cbv beta. rewrite in_bounds_run by (unfold alen; cbn [procs set_ftable]; lia). apply upd_proc_run. }
      cbn [procs set_ftable]. set (s1 := set_procs _ _). assert (Ep : procs s1 !!! p = procs s !!! p).
      { cbn. rewrite !list_lookup_total_alt. by rewrite list_lookup_alter_ne. }
      rewrite IH; rewrite ?Ep; fold px; [|lia | | | done |].
      * cbn [dup_refs dup_ofile s1 ftable procs set_procs set_ftable]. rewrite alter_compose_list. done.
      * cbn [s1 procs set_procs set_ftable]. rewrite list_lookup_total_alter_eq by exact Hnp. cbn [p_ofile set_p_ofile]. rewrite length_insert. exact Hn.
      * cbn [s1 procs set_procs set_ftable]. rewrite length_alter. exact Hnp.
      * intros g Hg. cbn [s1 ftable set_procs set_ftable]. destruct (Href g Hg) as [G1 G2]. rewrite length_alter, alter_incr_total by done.
        split; [done |]. case_decide; cbn; lia.
    + erewrite bind_Ret by reflexivity. by rewrite IH by (done || fold px; lia || done).
Qed.

(** ** Memory *)

Section fork.
Context `{HL : Layout} {HOk : LayoutOk HL}.

(** The pages of a process are not free. *)
Lemma res_not_free s x t u fr a : proc_res s x t u fr -> is_table t a \/ is_user u a \/ a = p_trapframe x -> page_ok a /\ a ∉ fr.
Proof.
  intros [I O _ _ (Htf & Hn & _)] [(p & Hp)|[Hu | -> ]]; [| |done].
  - split; [eapply pt_page; [apply I | done] | eapply vm_sep; [apply I | done]].
  - by destruct (own_page _ _ _ O a Hu) as (? & ? & _).
Qed.

(** Free pages are used, or given back, by somebody else. *)
Lemma bystander s s' x t u fr fr' : proc_res s x t u fr -> LkKmem ∉ held s' -> kmem_inv s' fr' -> (forall a, a ∈ fr' -> a ∈ fr) ->
  (forall y, (forall a, a ∈ fr -> ~ in_page a y) -> load8 (mem s') y = load8 (mem s) y) ->
  proc_res s' x t u fr' /\ keeps u (mem s) (mem s') /\ forall y, in_page (p_trapframe x) y -> load8 (mem s') y = load8 (mem s) y.
Proof.
  intros R Hl K Hsub Hm. assert (Hown : forall a y, is_table t a \/ is_user u a \/ a = p_trapframe x -> in_page a y -> load8 (mem s') y = load8 (mem s) y).
  { intros a y Ha Hy. destruct (res_not_free _ _ _ _ _ _ R Ha) as [Hok Hn]. apply Hm. intros b Hb.
    apply (page_sep a b); [done | | by intros -> | done]. eapply Forall_forall; [apply (vm_kmem _ _ _ _ (as_vm _ _ _ _ _ (pr_as _ _ _ _ _ R))) | done]. }
  pose proof R as [I O Hsz Hd (Htf & Hn & Ht & Hu)]. split_and!.
  - split; [| | done | done |].
    + eapply as_frame; [exact I | done | done | |].
      * intros a Ha Hf. destruct (res_not_free _ _ _ _ _ _ R (or_introl Ha)) as [_ Hna]. by apply Hna, Hsub.
      * intros a y Ha. apply Hown. by left.
    + destruct O as [A B C]. split; try done. intros a Ha. destruct (A a Ha) as (? & ? & ?). split_and!; auto.
    + split_and!; auto.
  - intros v a p y Hv Hlt Hy. apply (Hown a); [right; left; by exists v, p | done].
  - intros y. apply Hown. by right; right.
Qed.

Lemma pmap_of tf nu : nu !! UVPN = Some (tf, Z.lor PTE_R PTE_W) -> nu !! TVPN = Some (trampoline, Z.lor PTE_R PTE_X) ->
  pmap tf (delete UVPN (delete TVPN nu)) = nu.
Proof.
  intros H1 H2. destruct UVPN_TVPN as [E1 E2]. apply map_eq. intros k. unfold pmap. rewrite !lookup_insert, !lookup_delete.
  repeat case_decide; subst; try done; lia.
Qed.

Lemma pmap_above tf u k : k <> UVPN -> k <> TVPN -> pmap tf u !! k = u !! k.
Proof. intros. unfold pmap. by rewrite !lookup_insert_ne. Qed.

(** uvmcopy from the parent to the page table of a new process. *)
Lemma fork_copy s1 x ot ou fr1 pt t tf : proc_res s1 x ot ou fr1 -> as_inv s1 pt t (pmap tf ∅) fr1 ->
  (forall a, is_table ot a \/ is_user ou a \/ a = p_trapframe x -> ~ is_table t a) ->
  exists r s2 nt nu fr2, uvmcopy (p_pagetable x) pt (p_sz x) s1 = Ret r s2 /\ mem_only s1 s2 /\ proc_res s2 x ot ou fr2 /\
    as_inv s2 pt nt (pmap tf nu) fr2 /\ own_inv nt nu fr2 /\ (forall a, owns t ∅ fr1 a <-> owns nt nu fr2 a) /\
    (forall y, (forall a, owns t ∅ fr1 a -> ~ in_page a y) -> load8 (mem s2) y = load8 (mem s1) y) /\
    ((r = 0 /\ (forall k, is_Some (nu !! k) <-> 0 <= k < npages (p_sz x)) /\ forall k, 0 <= k < npages (p_sz x) -> copied (mem s1) ou (mem s2) nu k) \/
     (r = -1 /\ nu = ∅)).
Proof.
  intros R I Hap. pose proof R as [Io Oo Hsz Hd (Htf & Hn & Ht & Hu)]. destruct UVPN_TVPN as [E1 E2]. pose proof (npages_UVPN (p_sz x) Hsz) as Hnp.
  assert (Hp : pair_inv s1 (p_pagetable x) ot (pmap (p_trapframe x) ou) pt t (pmap tf ∅) fr1).
  { split; [done | by apply pmap_own | done | apply pmap_own, own_empty |]. intros a Ha [Hb|Hb].
    - apply (Hap a); [|done]. destruct Ha as [?|Ha]; [by left |]. right; left. by apply (pmap_user (p_trapframe x)).
    - apply pmap_user in Hb as (v & p & Hv & _). by rewrite lookup_empty in Hv. }
  destruct (uvmcopy_ok s1 (p_pagetable x) ot (pmap (p_trapframe x) ou) pt t (pmap tf ∅) fr1 (p_sz x) Hp Hsz) as (r & s2 & nt & nu' & fr2 & Hr & Hp' & Kp & St & Hc).
  { intros k Hk. rewrite pmap_above by lia. by apply Hd. }
  { intros k Hk. rewrite pmap_above by lia. apply lookup_empty. }
  destruct Hp' as [I1 O1 I2 O2 _]. destruct St as [S1 S2 S3 S4 _].
  assert (Hnu : nu' !! UVPN = Some (tf, Z.lor PTE_R PTE_W) /\ nu' !! TVPN = Some (trampoline, Z.lor PTE_R PTE_X)).
  { destruct Hc as [(_ & _ & Hc)|[_ ->]]; [rewrite !Hc by lia|]; unfold pmap; rewrite lookup_insert_eq, lookup_insert_ne, lookup_insert_eq by lia; done. }
  set (nu := delete UVPN (delete TVPN nu')). assert (En : pmap tf nu = nu') by (apply pmap_of; apply Hnu).
  assert (Hpages : forall a, owns t ∅ fr1 a <-> owns nt nu fr2 a).
  { intros a. rewrite <- (pmap_owns tf t ∅), <- (pmap_owns tf nt nu), En. apply S3. }
  exists r, s2, nt, nu, fr2. split_and!; [done | done | | by rewrite En | apply (pmap_own tf); by rewrite En | done | |].
  - split; [done | by apply (pmap_own (p_trapframe x)) | done | done |]. split_and!; [done | | done | done].
    intros Hf. assert (owns t ∅ fr1 (p_trapframe x)) as [?|[?|(v & p & Hv & _)]]; [apply Hpages; by left | done | |by rewrite lookup_empty in Hv].
    eapply Hap; [|done]. by right; right.
  - intros y Hy. apply S4. intros a Ha. by apply Hy, (pmap_owns tf).
  - destruct Hc as [(-> & Hcp & Hrest)|[-> ->]]; [left | right]; (split; [done |]).
    + assert (El : forall k, k < UVPN -> nu !! k = nu' !! k) by (intros k Hk; unfold nu; by rewrite !lookup_delete_ne by lia). split.
      * intros k. split.
        -- intros Hs. destruct (decide (0 <= k < npages (p_sz x))) as [|Hk]; [done |]. exfalso. unfold nu in Hs. rewrite !lookup_delete in Hs.
           repeat case_decide; try by destruct Hs. rewrite Hrest, pmap_above, lookup_empty in Hs by done. by destruct Hs.
        -- intros Hk. destruct (Hcp k Hk) as (pa & perm & pg & _ & Hg & _). rewrite El by lia. by eexists.
      * intros k Hk. destruct (Hcp k Hk) as (pa & perm & pg & H1 & H2 & H3 & H4). exists pa, perm, pg. rewrite pmap_above in H1 by lia.
        rewrite El by lia. done.
    + unfold nu. apply pmap_delete. intros k [? Hk]. by rewrite lookup_empty in Hk.
Qed.
(** ** Registers *)

(** [*(np->trapframe) = *(p->trapframe); np->trapframe->a0 = 0;] *)
Definition copy_regs (m : memory) (tf tf' : Z) : memory :=
  store64 (store_bytes m tf' (load_bytes m tf (Z.to_nat TFSIZE))) (tf' + TF_a0) 0.

Lemma copy_regs_spec m tf tf' x : load8 (copy_regs m tf tf') x =
  if decide (tf' + TF_a0 <= x < tf' + TF_a0 + 8) then 0 else
  if decide (tf' <= x < tf' + TFSIZE) then load8 m (tf + (x - tf')) else load8 m x.
Proof.
  unfold copy_regs, store64. rewrite load8_store_bytes. cbn [length le_enc]. change (Z.of_nat 8) with 8. case_decide as H1.
  - assert (E : forall k : nat, (k < 8)%nat -> le_enc 8 0 !!! k = 0) by (intros k Hk; do 8 (destruct k as [|k]; [done |]); lia). rewrite E by lia. done.
  - rewrite load8_store_bytes, length_load_bytes. change (Z.of_nat (Z.to_nat TFSIZE)) with TFSIZE. case_decide as H2; [|done].
    erewrite list_lookup_total_correct; [|apply lookup_load_bytes; unfold TFSIZE in *; lia]. rewrite Z2Nat.id by lia. apply (wrap_small 8), load8_range.
Qed.

Lemma copy_regs_other m tf tf' x : ~ in_page tf' x -> load8 (copy_regs m tf tf') x = load8 m x.
Proof. intros Hx. rewrite copy_regs_spec. unfold in_page, PGSIZE, TFSIZE, TF_a0 in *. repeat case_decide; (done || lia). Qed.

(** ** The rest of fork *)

Definition fork_tail (p np : nat) (x y : procst) : M kernel Z :=
  upd_proc np (set_p_sz (p_sz x)) ;;
  regs ← read_bytes (p_trapframe x) TFSIZE;
  write_bytes (p_trapframe y) regs ;;
  store_tf np TF_a0 0 ;;
  fork_files (Z.to_nat NOFILE) 0 p np ;;
  cwd ← deref (p_cwd x);
  ip ← idup cwd;
  upd_proc np (set_p_cwd (Some ip)) ;;
  upd_proc np (fun y => set_p_name (safestrcpy_list (p_name y) (p_name x) 16) y) ;;
  y ← getproc np;
  let pid := p_pid y in
  release (LkProc np) ;;
  acquire LkWait ;;
  upd_proc np (set_p_parent (Some p)) ;;
  release LkWait ;;
  acquire (LkProc np) ;;
  upd_proc np (set_p_state RUNNABLE) ;;
  release (LkProc np) ;;
  mret pid.

Lemma fork_eq : fork = (p ← myproc; o ← allocproc;
  match o with
  | None => mret (-1)
  | Some np =>
      x ← getproc p;
      y ← getproc np;
      r ← uvmcopy (p_pagetable x) (p_pagetable y) (p_sz x);
      if r <? 0 then freeproc np ;; release (LkProc np) ;; mret (-1) else fork_tail p np x y
  end).
Proof. reflexivity. Qed.

(** The slot of the child. *)
Definition child_slot (p : nat) (x y : procst) : procst :=
  set_p_state RUNNABLE (set_p_parent (Some p) (set_p_name (safestrcpy_list (p_name y) (p_name x) 16)
    (set_p_cwd (p_cwd x) (set_p_ofile (dup_ofile (p_ofile x) 0 (p_ofile y)) (set_p_sz (p_sz x) y))))).

Definition incr_iref (i : inode) : inode := set_i_ref (i_ref i + 1) i.

Lemma idup_run ip s : LkItable ∉ held s -> idup ip s = Ret ip (set_itable (alter incr_iref ip (itable s)) s).
Proof.
  intros Hl. unfold idup. erewrite bind_Ret by (by apply acquire_Ret). unfold upd_inode. erewrite bind_Ret by reflexivity.
  erewrite bind_Ret by (apply release_Ret; cbn; set_solver). cbn. by rewrite held_restore.
Qed.

Lemma procs_ne i j f (l : list procst) : i <> j -> alter f j l !!! i = l !!! i.
Proof. intros. rewrite !list_lookup_total_alt. by rewrite list_lookup_alter_ne. Qed.

Lemma fork_tail_run s p np h ip : let x := procs s !!! p in let y := procs s !!! np in
  p <> np -> (np < length (procs s))%nat -> held s = {[LkProc np]} ∪ h -> LkProc np ∉ h -> LkWait ∉ h -> LkFtable ∉ h -> LkItable ∉ h ->
  length (p_ofile x) = Z.to_nat NOFILE -> length (p_ofile y) = Z.to_nat NOFILE -> p_cwd x = Some ip ->
  (forall f, Some f ∈ p_ofile x -> (f < length (ftable s))%nat /\ 1 <= f_ref (ftable s !!! f)) ->
  fork_tail p np x y s = Ret (p_pid y)
    (set_held h (set_itable (alter incr_iref ip (itable s)) (set_ftable (dup_refs (p_ofile x) (ftable s))
      (set_procs (alter (child_slot p x) np (procs s)) (set_mem (copy_regs (mem s) (p_trapframe x) (p_trapframe y)) s))))).
Proof.
  intros x y Hne Hnp Hh Hl1 Hl2 Hl3 Hl4 Hof Hofy Hcwd Href. unfold fork_tail. erewrite bind_Ret by apply upd_proc_run. erewrite bind_Ret by reflexivity. cbv beta.
  erewrite bind_Ret by reflexivity. cbn [mem set_procs]. unfold store_tf at 1. erewrite bind_Ret by (erewrite bind_Ret by apply getproc_run; reflexivity).
  cbn [procs set_procs set_mem mem]. rewrite procs_alter by done. fold y. cbn [p_trapframe set_p_sz].
  change (store64 _ _ 0) with (copy_regs (mem s) (p_trapframe x) (p_trapframe y)). set (m := copy_regs _ _ _).
  erewrite bind_Ret.
  2: { apply fork_files_run; [done | | | | |]; cbn [procs set_procs set_mem ftable held]; rewrite ?procs_ne by done; fold x; [by rewrite Hof | | by rewrite length_alter | rewrite Hh; set_solver | done].
    rewrite procs_alter by done. fold y. cbn [p_ofile set_p_sz]. lia. }
  cbn [procs set_procs set_mem ftable]. rewrite procs_ne by done. fold x. rewrite drop_0, Hcwd. erewrite bind_Ret by reflexivity. cbv beta.
  erewrite bind_Ret by (apply idup_run; cbn; rewrite Hh; set_solver). cbv beta.
  do 2 (erewrite bind_Ret by apply upd_proc_run). erewrite bind_Ret by apply getproc_run. cbv beta zeta.
  cbn [procs set_procs set_mem set_ftable set_itable held itable ftable].
  erewrite bind_Ret by (apply release_Ret; cbn; rewrite Hh; set_solver). cbn [held set_held set_procs set_mem set_ftable set_itable].
  rewrite Hh, held_restore by done. erewrite bind_Ret by (by apply acquire_Ret). erewrite bind_Ret by apply upd_proc_run.
  erewrite bind_Ret by (apply release_Ret; cbn; set_solver). cbn [held set_held set_procs set_mem set_ftable set_itable]. rewrite held_restore by done.
  erewrite bind_Ret by (by apply acquire_Ret). erewrite bind_Ret by apply upd_proc_run. erewrite bind_Ret by (apply release_Ret; cbn; set_solver).
  cbn [held set_held set_procs set_mem set_ftable set_itable procs itable ftable]. rewrite held_restore by done.
  rewrite !alter_compose_list, procs_alter by done. fold y. unfold mret, M_ret, ret. f_equal.
  unfold child_slot. rewrite Hcwd. done.
Qed.
(** ** What fork does *)

(** A slot of the table that is free, as freeproc and exit leave it. *)
Record clean_slot (y : procst) : Prop := mkCleanSlot {
  cl_state : p_state y = UNUSED;
  cl_pagetable : p_pagetable y = 0;
  cl_sz : p_sz y = 0;
  cl_ofile : p_ofile y = replicate (Z.to_nat NOFILE) None
}.

(** The state in which a process calls fork. *)
Record fork_pre (s : kernel) (ip : nat) (ot : ptree) (ou : uspace) (fr : list Z) : Prop := mkForkPre {
  fp_held : held s = ∅;
  fp_len : length (procs s) = Z.to_nat NPROC;
  fp_clean : forall y, y ∈ procs s -> p_state y = UNUSED -> clean_slot y;
  fp_cur : (cur s < length (procs s))%nat /\ p_state (procs s !!! cur s) <> UNUSED;
  fp_res : proc_res s (procs s !!! cur s) ot ou fr;
  fp_ofile : length (p_ofile (procs s !!! cur s)) = Z.to_nat NOFILE;
  fp_refs : forall f, Some f ∈ p_ofile (procs s !!! cur s) -> (f < length (ftable s))%nat /\ 1 <= f_ref (ftable s !!! f);
  fp_cwd : p_cwd (procs s !!! cur s) = Some ip
}.

(** The child [np] of the process that called fork in [s]. *)
Record forked (s : kernel) (ip : nat) (ot : ptree) (ou : uspace) (fr : list Z) (np : nat) (s' : kernel) (nt : ptree) (nu : uspace) (fr' : list Z) : Prop := mkForked {
  fk_id : let c := procs s' !!! np in p_state c = RUNNABLE /\ p_pid c = nextpid s /\ p_parent c = Some (cur s);
  fk_same : let c := procs s' !!! np in let x := procs s !!! cur s in
    p_sz c = p_sz x /\ p_ofile c = p_ofile x /\ p_cwd c = p_cwd x /\ cname (p_name c) = take 15 (cname (p_name x));
  fk_others : forall j, j <> np -> procs s' !!! j = procs s !!! j;
  fk_child : proc_res s' (procs s' !!! np) nt nu fr';
  fk_parent : proc_res s' (procs s !!! cur s) ot ou fr' /\ keeps ou (mem s) (mem s');
  fk_pages : forall a, a ∈ fr <-> a = p_trapframe (procs s' !!! np) \/ owns nt nu fr' a;
  fk_mem : forall k, 0 <= k < npages (p_sz (procs s !!! cur s)) -> copied (mem s) ou (mem s') nu k;
  fk_regs : forall i, 0 <= i < TFSIZE -> load8 (mem s') (p_trapframe (procs s' !!! np) + i) =
    if decide (TF_a0 <= i < TF_a0 + 8) then 0 else load8 (mem s) (p_trapframe (procs s !!! cur s) + i);
  fk_files : forall f, (f < length (ftable s))%nat ->
    ftable s' !!! f = set_f_ref (f_ref (ftable s !!! f) + refs f (p_ofile (procs s !!! cur s))) (ftable s !!! f);
  fk_inodes : itable s' = alter incr_iref ip (itable s);
  fk_held : held s' = ∅
}.

(** Nothing is left of a fork that failed but a pid that is not used. *)
Record fork_failed (s : kernel) (ot : ptree) (ou : uspace) (fr : list Z) (np : nat) (s' : kernel) (fr' : list Z) : Prop := mkForkFailed {
  ff_slot : clean_slot (procs s' !!! np);
  ff_others : forall j, j <> np -> procs s' !!! j = procs s !!! j;
  ff_parent : proc_res s' (procs s !!! cur s) ot ou fr' /\ keeps ou (mem s) (mem s');
  ff_pages : forall a, a ∈ fr <-> a ∈ fr';
  ff_tables : ftable s' = ftable s /\ itable s' = itable s;
  ff_held : held s' = ∅
}.

Lemma cname_no_zero l : 0 ∉ cname l.
Proof. induction l as [|c l IH]; cbn; [apply not_elem_of_nil |]. destruct (Z.eqb_spec c 0); [apply not_elem_of_nil |]. rewrite not_elem_of_cons. done. Qed.

Lemma cname_app_zero l t : 0 ∉ l -> cname (l ++ 0 :: t) = l.
Proof.
  induction l as [|c l IH]; cbn; [done |]. rewrite not_elem_of_cons. intros [Hc Hl]. destruct (Z.eqb_spec c 0); [congruence |]. by rewrite IH.
Qed.

Lemma cname_safestrcpy l t : cname (safestrcpy_list l t 16) = take 15 (cname t).
Proof.
  unfold safestrcpy_list. change (16 <=? 0) with false. cbv iota. change (Z.to_nat (16 - 1)) with 15%nat. cbn [app]. apply cname_app_zero.
  intros Hin. apply (cname_no_zero t). rewrite <- (take_drop 15 (cname t)). apply elem_of_app. by left.
Qed.
Section run.
Context (s : kernel) (ip : nat) (ot : ptree) (ou : uspace) (fr : list Z) (np : nat) (y : procst).
Context (F : fork_pre s ip ot ou fr) (E : list_find unused (procs s) = Some (np, y)).
Notation p := (cur s) (only parsing).
Notation x := (procs s !!! cur s) (only parsing).

Lemma fork_slot : (np < length (procs s))%nat /\ procs s !!! np = y /\ clean_slot y /\ np <> p.
Proof.
  apply list_find_Some in E as (Ey & Hy & _). pose proof (lookup_lt_Some _ _ _ Ey). split_and!; [done | by apply list_lookup_total_correct | |].
  - apply (fp_clean _ _ _ _ _ F); [by eapply list_elem_of_lookup_2 | done].
  - intros ->. destruct (fp_cur _ _ _ _ _ F) as [_ Hs]. rewrite (list_lookup_total_correct _ _ _ Ey) in Hs. done.
Qed.

Lemma fork_locks : no_proc_lock s /\ LkPid ∉ held s /\ LkKmem ∉ held s.
Proof. unfold no_proc_lock. rewrite (fp_held _ _ _ _ _ F). set_solver. Qed.

Lemma free_slot_clean z : p_ofile z = replicate (Z.to_nat NOFILE) None -> clean_slot (free_slot z).
Proof. by split. Qed.

(** No memory for the trapframe or the page table. *)
Lemma fork_no_memory m fl fr' : kmem_inv (alloced np free_slot m fl s) fr' -> (forall a, a ∈ fr <-> a ∈ fr') ->
  (forall z, (forall a, a ∈ fr -> ~ in_page a z) -> load8 m z = load8 (mem s) z) -> fork_failed s ot ou fr np (alloced np free_slot m fl s) fr'.
Proof.
  intros K P Hm. destruct fork_slot as (Hlt & Ey & [C1 C2 C3 C4] & Hne).
  destruct (bystander s (alloced np free_slot m fl s) x ot ou fr fr' (fp_res _ _ _ _ _ F)) as (R & Kp & _); try done.
  { apply fork_locks. } { intros a. by apply P. }
  split; try done; cbn [alloced procs set_procs held set_nextpid set_mem set_freelist].
  - rewrite procs_alter by done. rewrite Ey. by apply free_slot_clean.
  - intros j Hj. by apply procs_ne.
  - apply F.
Qed.

Section alloced.
Context (m : memory) (fl tf pt : Z) (t : ptree) (fr1 : list Z).
Let s1 := set_held ({[LkProc np]} ∪ held s) (alloced np (new_slot (nextpid s) tf pt) m fl s).
Context (I : as_inv s1 pt t (pmap tf ∅) fr1) (Htf : page_ok tf) (Hn : tf ∉ fr1) (Ht : ~ is_table t tf).
Context (P : forall a, a ∈ fr <-> a = tf \/ owns t ∅ fr1 a).
Context (Hm : forall z, (forall a, a ∈ fr -> ~ in_page a z) -> load8 m z = load8 (mem s) z).

Lemma alloc_parent : proc_res s1 x ot ou fr1 /\ keeps ou (mem s) m /\ (forall z, in_page (p_trapframe x) z -> load8 m z = load8 (mem s) z) /\
  (forall a, is_table ot a \/ is_user ou a \/ a = p_trapframe x -> a <> tf /\ ~ owns t ∅ fr1 a).
Proof.
  destruct (bystander s s1 x ot ou fr fr1 (fp_res _ _ _ _ _ F)) as (R & Kp & Kt).
  { apply I. } { apply I. } { intros a Ha. apply P. right. by left. } { done. }
  split_and!; [done | done | done |]. intros a Ha. destruct (res_not_free _ _ _ _ _ _ (fp_res _ _ _ _ _ F) Ha) as [_ Hna].
  split; intros H; apply Hna, P; [by left | by right].
Qed.

Lemma alloc_procs : procs s1 !!! p = x /\ procs s1 !!! np = new_slot (nextpid s) tf pt y.
Proof.
  destruct fork_slot as (Hlt & Ey & _ & Hne). cbn [s1 alloced procs set_procs set_held]. split; [by apply procs_ne |]. rewrite procs_alter by done. by rewrite Ey.
Qed.

(** The child's memory cannot be copied: its slot and its pages are given back. *)
Lemma fork_copy_fails s2 nt fr2 : mem_only s1 s2 -> proc_res s2 x ot ou fr2 -> as_inv s2 pt nt (pmap tf ∅) fr2 ->
  (forall a, owns t ∅ fr1 a <-> owns nt ∅ fr2 a) -> (forall z, (forall a, owns t ∅ fr1 a -> ~ in_page a z) -> load8 (mem s2) z = load8 m z) ->
  exists s' fr', (freeproc np ;; release (LkProc np) ;; mret (-1)) s2 = Ret (-1) s' /\ fork_failed s ot ou fr np s' fr'.
Proof.
  intros M R I2 Hp F2. destruct fork_slot as (Hlt & Ey & [C1 C2 C3 C4] & Hne). destruct alloc_procs as [Ex1 Ey1]. destruct alloc_parent as (R1 & Kp & _ & Hsep).
  unfold mem_only in M. set (m2 := mem s2) in *. set (f2 := freelist s2) in *. clearbody m2 f2. subst s2.
  assert (Hntf : ~ owns nt ∅ fr2 tf).
  { rewrite <- Hp. intros [?|[?|(v & q & Hv & _)]]; [done | done | by rewrite lookup_empty in Hv]. }
  destruct (freeproc_ok (set_mem m2 (set_freelist f2 s1)) np nt ∅ fr2) as (s3 & fr3 & R3 & K3 & P3 & M3 & F3).
  { change (procs (set_mem m2 (set_freelist f2 s1))) with (procs s1). rewrite Ey1. split; [done | apply own_empty | cbn; rewrite C3; split; [done | by vm_compute] | |].
    - intros k. cbn. rewrite C3, lookup_empty, npages_0. split; [by intros [? ?] | lia].
    - cbn. unfold owns in Hntf. tauto. }
  { cbn. by rewrite length_alter. }
  change (procs (set_mem m2 (set_freelist f2 s1))) with (procs s1) in *. rewrite Ey1 in P3, F3. cbn [p_trapframe new_slot set_p_context set_p_pagetable set_p_trapframe] in P3, F3.
  unfold mem_only in M3. set (m3 := mem s3) in *. set (f3 := freelist s3) in *. clearbody m3 f3. subst s3.
  assert (Ep : forall a, a ∈ fr <-> a ∈ fr3) by (intros a; rewrite P, P3, Hp; done).
  set (s4 := set_held (held s) (set_procs (alter free_slot np (procs s1)) (set_mem m3 (set_freelist f3 s)))).
  exists (set_nextpid (i32 (nextpid s + 1)) s4), fr3. split.
  - erewrite bind_Ret by exact R3. erewrite bind_Ret by (apply release_Ret; cbn; set_solver). cbn. rewrite held_restore by (apply fork_locks). done.
  - destruct (bystander s (set_nextpid (i32 (nextpid s + 1)) s4) x ot ou fr fr3 (fp_res _ _ _ _ _ F)) as (R4 & Kp4 & _).
    { apply fork_locks. } { destruct K3 as [A B C]. by split. } { intros a. by apply Ep. }
    { intros z Hz. cbn. rewrite F3, F2; [by apply Hm | |]; intros a Ha; apply Hz, P; [by right |]. destruct Ha as [->|Ha]; [by left | right; by apply Hp]. }
    split; try done; cbn [s4 alloced procs set_procs held set_nextpid set_mem set_freelist set_held].
    + rewrite procs_alter by (cbn; by rewrite length_alter). rewrite Ey1. by apply free_slot_clean.
    + intros j Hj. rewrite procs_ne by done. cbn. by apply procs_ne.
    + apply F.
Qed.
(** The copy of the registers leaves every page but the child's trapframe alone. *)
Lemma regs_frame m2 a z : page_ok a -> a <> tf -> in_page a z -> load8 (copy_regs m2 (p_trapframe x) tf) z = load8 m2 z.
Proof. intros Ha Hne Hz. apply copy_regs_other. by apply (page_sep a tf). Qed.

Section copied.
Context (s2 : kernel) (nt : ptree) (nu : uspace) (fr2 : list Z).
Context (M2 : mem_only s1 s2) (R2 : proc_res s2 x ot ou fr2) (I2 : as_inv s2 pt nt (pmap tf nu) fr2) (O2 : own_inv nt nu fr2).
Context (P2 : forall a, owns t ∅ fr1 a <-> owns nt nu fr2 a).
Context (F2 : forall z, (forall a, owns t ∅ fr1 a -> ~ in_page a z) -> load8 (mem s2) z = load8 m z).
Context (D2 : forall k, is_Some (nu !! k) <-> 0 <= k < npages (p_sz x)).
Context (C2 : forall k, 0 <= k < npages (p_sz x) -> copied m ou (mem s2) nu k).
Let m4 := copy_regs (mem s2) (p_trapframe x) tf.
Let c := child_slot p x (new_slot (nextpid s) tf pt y).

Lemma copied_parent_mem a z : is_table ot a \/ is_user ou a \/ a = p_trapframe x -> in_page a z ->
  load8 (mem s2) z = load8 (mem s) z /\ load8 m4 z = load8 (mem s2) z.
Proof.
  intros Ha Hz. destruct alloc_parent as (_ & _ & _ & Hsep). destruct (Hsep a Ha) as [Hne Hno].
  destruct (res_not_free _ _ _ _ _ _ (fp_res _ _ _ _ _ F) Ha) as [Hok Hnf]. split; [|by apply regs_frame with a].
  assert (Hd : forall b, b ∈ fr -> ~ in_page b z).
  { intros b Hb. apply (page_sep a b); [done | | by intros -> | done]. eapply Forall_forall; [apply (vm_kmem _ _ _ _ (as_vm _ _ _ _ _ (pr_as _ _ _ _ _ (fp_res _ _ _ _ _ F)))) | done]. }
  rewrite F2 by (intros b Hb; apply Hd, P; by right). by apply Hm.
Qed.

Lemma child_not_tf : ~ owns nt nu fr2 tf.
Proof. rewrite <- P2. intros [?|[?|(v & q & Hv & _)]]; [done | done | by rewrite lookup_empty in Hv]. Qed.

Lemma child_page a : owns nt nu fr2 a -> page_ok a /\ a <> tf.
Proof.
  intros Ha. split; [|intros ->; by apply child_not_tf]. eapply owns_page_ok; [exact I2 | by apply pmap_own | by apply pmap_owns].
Qed.

(** Writing the child's trapframe disturbs neither address space. *)
Lemma copied_write root t0 u0 : as_inv s2 root t0 u0 fr2 -> (forall a, is_table t0 a -> page_ok a /\ a <> tf) -> as_inv (set_mem m4 s2) root t0 u0 fr2.
Proof.
  intros I0 H0. apply as_write; [done |]. intros a z Ha Hz. apply regs_frame with a; try done.
  all: destruct Ha as [Ha|Ha]; [by apply H0 | by apply child_page; left].
Qed.

Lemma fork_forked s' : mem s' = m4 -> freelist s' = freelist s2 -> held s' = ∅ -> procs s' = alter (child_slot p x) np (procs s1) ->
  ftable s' = dup_refs (p_ofile x) (ftable s) -> itable s' = alter incr_iref ip (itable s) -> forked s ip ot ou fr np s' nt nu fr2.
Proof.
  intros Em Ef Eh Ep Eft Eit. destruct fork_slot as (Hlt & Ey & [Cl1 Cl2 Cl3 Cl4] & Hne). destruct alloc_procs as [Ex1 Ey1].
  destruct alloc_parent as (R1 & Kp & Kt & Hsep). pose proof R2 as [Ia Oa Hsz Hd (Tf1 & Tf2 & Tf3 & Tf4)]. pose proof (npages_UVPN _ Hsz) as Hnp.
  assert (Ec : procs s' !!! np = c) by (rewrite Ep, procs_alter by (cbn; by rewrite length_alter); by rewrite Ey1).
  assert (Hk : LkKmem ∉ held s') by (rewrite Eh; set_solver).
  assert (Hnu : forall a, is_user nu a -> page_ok a /\ a <> tf) by (intros a Ha; apply child_page; by right; right).
  split; rewrite ?Ec; try done.
  - cbn [c child_slot new_slot p_sz p_ofile p_cwd p_name set_p_state set_p_parent set_p_name set_p_cwd set_p_ofile set_p_sz set_p_context set_p_pagetable set_p_trapframe set_p_pid].
    rewrite Cl4. split_and!; [done | apply dup_ofile_all, F | done | apply cname_safestrcpy].
  - intros j Hj. rewrite Ep, procs_ne by done. cbn. by apply procs_ne.
  - split; [|done|done|done|].
    + apply (as_inv_same (set_mem m4 s2)); try done. apply copied_write; [done |]. intros a Ha. apply child_page. by right; left.
    + cbn. pose proof child_not_tf as Hno. unfold owns in Hno. tauto.
  - split; [split; try done|].
    + apply (as_inv_same (set_mem m4 s2)); try done. apply copied_write; [done |]. intros a Ha.
      split; [destruct Ha as [q Hq]; eapply pt_page; [apply Ia | exact Hq] |]. apply (Hsep a). by left.
    + intros v a q z Hv Hvl Hz. rewrite Em. assert (Ha : is_user ou a) by (by exists v, q). destruct (copied_parent_mem a z) as [E1 E2]; [by right; left | done |].
      by rewrite E2, E1.
  - intros a. cbn. by rewrite P, P2.
  - intros k Hk'. rewrite Em. apply (copied_before (mem s) m); [lia | done |]. apply (copied_keeps m (mem s2) m4 ou nu nu); [lia | by apply C2 | done |].
    intros v a q z Hv Hvl Hz. destruct (Hnu a) as [? ?]; [by exists v, q |]. by apply regs_frame with a.
  - intros i Hi. rewrite Em. unfold m4. cbn [c child_slot new_slot p_trapframe set_p_state set_p_parent set_p_name set_p_cwd set_p_ofile set_p_sz set_p_context set_p_pagetable set_p_trapframe].
    rewrite copy_regs_spec. destruct (decide (TF_a0 <= i < TF_a0 + 8)); [rewrite decide_True by lia; done |]. rewrite decide_False by lia. rewrite decide_True by lia.
    replace (p_trapframe x + (tf + i - tf)) with (p_trapframe x + i) by lia.
    destruct (copied_parent_mem (p_trapframe x) (p_trapframe x + i)) as [E1 _]; [by right; right | unfold in_page, PGSIZE, TFSIZE in *; lia | done].
  - intros f Hf. rewrite Eft. by apply dup_refs_total.
Qed.
End copied.
End alloced.
End run.

Lemma fork_full s ip ot ou fr : fork_pre s ip ot ou fr -> list_find unused (procs s) = None -> fork s = Ret (-1) s.
Proof.
  intros F E. rewrite fork_eq. erewrite bind_Ret by reflexivity. unfold allocproc. erewrite bind_Ret.
  2: { erewrite bind_Ret; [|rewrite find_unused_run; [by rewrite drop_0, E | by unfold no_proc_lock; rewrite (fp_held _ _ _ _ _ F); set_solver | rewrite (fp_len _ _ _ _ _ F); lia]]. reflexivity. }
  reflexivity.
Qed.

(** C22: fork of a process with a well-formed address space. When the table is
    full it returns -1 and nothing changes. Otherwise it returns the pid of a
    runnable child with a copy of its own of each of the parent's pages, the
    parent's registers but for a0, which is 0, the parent's open files, each with
    one more reference for each descriptor, the parent's directory and its name;
    or it returns -1 and the slot and every page it took are free again. The
    parent's address space, its memory and the other processes are as before. *)
Theorem fork_child s ip ot ou fr (F : fork_pre s ip ot ou fr) :
  match list_find unused (procs s) with
  | None => fork s = Ret (-1) s
  | Some (np, _) => exists r s', fork s = Ret r s' /\
      ((r = nextpid s /\ exists nt nu fr', forked s ip ot ou fr np s' nt nu fr') \/
       (r = -1 /\ exists fr', fork_failed s ot ou fr np s' fr'))
  end.
Proof.
  destruct (list_find unused (procs s)) as [[np y]|] eqn:E; [|by eapply fork_full].
  destruct (fork_slot s ip ot ou fr np y F E) as (Hlt & Ey & Cl & Hne). pose proof (fork_locks s ip ot ou fr np y F E) as (L1 & L2 & L3).
  destruct (allocproc_ok s fr np y) as (o & s1 & R1 & A); try done; [apply F | apply F | apply Cl |].
  rewrite fork_eq. erewrite bind_Ret by reflexivity. erewrite bind_Ret by exact R1. cbv beta.
  destruct A as [(m & fl & tf & pt & t & fr1 & -> & -> & I & Htf & Hn & Ht & P & Hm)|(m & fl & fr' & -> & -> & K & P & Hm)].
  2: { eexists _, _. split; [reflexivity |]. right. split; [done |]. exists fr'. by eapply fork_no_memory. }
  destruct (alloc_procs s ip ot ou fr np y F E m fl tf pt) as [Ex1 Ey1].
  destruct (alloc_parent s ip ot ou fr np F m fl tf pt t fr1) as (R & _ & _ & Hsep); try done.
  set (s1 := set_held _ _) in *. erewrite !bind_Ret by apply getproc_run. cbv beta. rewrite Ex1, Ey1.
  destruct (fork_copy s1 (procs s !!! cur s) ot ou fr1 pt t tf R I) as (r & s2 & nt & nu & fr2 & Hr & M & R2 & I2 & O2 & P2 & F2 & C2).
  { intros a Ha Hta. apply (Hsep a Ha). by right; left. }
  erewrite bind_Ret by exact Hr. destruct C2 as [(-> & D2 & C2)|(-> & ->)].
  - change (0 <? 0) with false. cbv iota. unfold mem_only in M. assert (E2 : procs s2 = procs s1) by (by rewrite M). assert (Eh : held s2 = held s1) by (by rewrite M).
    assert (Eft : ftable s2 = ftable s) by (by rewrite M). assert (Eit : itable s2 = itable s) by (by rewrite M).
    rewrite <- Ex1, <- Ey1, <- E2. rewrite (fork_tail_run s2 (cur s) np (held s) ip).
    + eexists _, _. split; [reflexivity |]. left. split; [by rewrite E2, Ey1 |]. exists nt, nu, fr2.
      rewrite E2, Ex1, Ey1, Eft, Eit. eapply fork_forked; try done. apply F.
    + by apply not_eq_sym.
    + rewrite E2. cbn. by rewrite length_alter.
    + done.
    + apply L1.
    + rewrite (fp_held _ _ _ _ _ F). set_solver.
    + rewrite (fp_held _ _ _ _ _ F). set_solver.
    + rewrite (fp_held _ _ _ _ _ F). set_solver.
    + rewrite E2, Ex1. apply F.
    + rewrite E2, Ey1. cbn [p_ofile new_slot set_p_context set_p_pagetable set_p_trapframe set_p_pid set_p_state]. by rewrite (cl_ofile _ Cl), length_replicate.
    + rewrite E2, Ex1. apply F.
    + rewrite E2, Ex1, Eft. apply F.
  - change (-1 <? 0) with true. cbv iota. destruct (fork_copy_fails s ip ot ou fr np y F E m fl tf pt t fr1) with (s2 := s2) (nt := nt) (fr2 := fr2) as (s' & fr' & Hr' & Hf); try done.
    exists (-1), s'. split; [done |]. right. split; [done |]. by exists fr'.
Qed.
End fork.

(** ** A process that forks

    The machine of eight pages, all of them free, and a process in slot 0 that
    allocproc made, with a current directory and no memory yet. *)
Definition fork_free : list Z := [vpage 1; vpage 2; vpage 3; vpage 4; vpage 5; vpage 6; vpage 7; vpage 8].
Definition fork_mem : memory :=
  store64 (store64 (store64 vm_mem (vpage 6) (vpage 7)) (vpage 7) (vpage 8)) (vpage 8) 0.
Definition fork_start : kernel := set_mem fork_mem (set_freelist (vpage 1) (boot_kernel (fun _ => []))).
Definition fork_demo : kernel :=
  match @allocproc vm_layout fork_start with
  | Ret _ s => set_held ∅ (set_procs (alter (set_p_cwd (Some 0%nat)) 0%nat (procs s)) s)
  | _ => fork_start
  end.

Lemma fork_start_kmem : @kmem_inv vm_layout fork_start fork_free.
Proof.
  split.
  - cbn [free_list_at fork_free]. repeat split; vm_compute; reflexivity.
  - apply (bool_decide_unpack _). vm_compute. exact Logic.I.
  - unfold fork_free. repeat (constructor; [apply vm_demo_pages; lia |]). constructor.
Qed.

Lemma fork_start_made : match @allocproc vm_layout fork_start with Ret (Some _) _ => true | _ => false end = true.
Proof. vm_compute. reflexivity. Qed.

Lemma fork_demo_pre : exists ot fr, @fork_pre vm_layout fork_demo 0%nat ot ∅ fr.
Proof.
  destruct (@allocproc_ok vm_layout vm_layout_ok fork_start fork_free 0 zero_proc) as (r & s1 & R & [A|A]).
  { intros i. apply not_elem_of_empty. } { apply not_elem_of_empty. } { apply not_elem_of_empty. } { reflexivity. } { exact fork_start_kmem. } { reflexivity. } { reflexivity. }
  2: { destruct A as (m & fl & fr' & -> & _). pose proof fork_start_made as E. rewrite R in E. discriminate. }
  destruct A as (m & fl & tf & pt & t & fr & -> & -> & I & Htf & Hn & Ht & _). exists t, fr. unfold fork_demo. rewrite R. clear R.
  assert (E : forall y, y ∈ replicate 63 zero_proc -> clean_slot y) by (intros y Hy; apply elem_of_replicate_inv in Hy as ->; by split).
  split.
  - reflexivity.
  - reflexivity.
  - intros y Hy Hu. change (y ∈ set_p_cwd (Some 0%nat) (@new_slot vm_layout 1 tf pt zero_proc) :: replicate 63 zero_proc) in Hy.
    apply elem_of_cons in Hy as [->|Hy]; [discriminate Hu | by apply E].
  - split; [|discriminate]. vm_compute. lia.
  - split.
    + eapply as_inv_same; [| | |exact I]; try reflexivity. apply not_elem_of_empty.
    + apply own_empty.
    + split; vm_compute; discriminate.
    + intros k. rewrite lookup_empty. split; [by intros [? ?] | change (0 <= k < 0 -> is_Some (@None (Z * Z))); lia].
    + split_and!; [done | done | done |]. intros (v & q & Hv & _). by rewrite lookup_empty in Hv.
  - reflexivity.
  - intros f Hf. change (Some f ∈ replicate (Z.to_nat NOFILE) (@None nat)) in Hf. apply elem_of_replicate_inv in Hf. discriminate.
  - reflexivity.
Qed.

Lemma fork_demo_child : match @fork vm_layout fork_demo with Ret r _ => r | _ => -1 end = 2.
Proof. vm_compute. reflexivity. Qed.

Lemma fork_child_witness : exists s', @fork vm_layout fork_demo = Ret 2 s' /\ p_state (procs s' !!! 1%nat) = RUNNABLE /\ p_parent (procs s' !!! 1%nat) = Some 0%nat.
Proof.
  destruct fork_demo_pre as (ot & fr & F).
  pose proof (@fork_child vm_layout vm_layout_ok fork_demo 0 ot ∅ fr F) as H.
  assert (Hf : exists y, list_find (fun x => p_state x = UNUSED) (procs fork_demo) = Some (1%nat, y)) by (eexists; vm_compute; reflexivity).
  destruct Hf as [y Hf]. rewrite Hf in H. destruct H as (r & s' & Hr & Hc). pose proof fork_demo_child as E. rewrite Hr in E. subst r.
  destruct Hc as [(_ & nt & nu & fr' & Hk)|[Hm _]]; [|discriminate Hm].
  exists s'. split; [exact Hr |]. destruct (fk_id _ _ _ _ _ _ _ _ _ _ Hk) as (H1 & _ & H2). split; [exact H1 | exact H2].
Defined.
