(* ===== verification/Wait.v ===== *)
(** * wait

    wait gives the pid and the status of the first zombie child, and every page
    the child had goes back to the free list. *)

From S2P Require Import Prelude State Mem Spinlock Sched Sleeplock Memlayout Kalloc Vm PageTable AddrSpace UserMem CopyUser VmProps Proc ProcMem Fork.

Definition child_of (p : nat) (y : procst) : Prop := p_parent y = Some p.
Definition zombie_of (p : nat) (y : procst) : Prop := p_parent y = Some p /\ p_state y = ZOMBIE.
#[export] Instance child_of_dec p y : Decision (child_of p y).
Proof. unfold child_of. apply _. Defined.
#[export] Instance zombie_of_dec p y : Decision (zombie_of p y).
Proof. unfold zombie_of. apply _. Defined.

Section wait.
Context `{HL : Layout} {HOk : LayoutOk HL}.

(** What the scan does with a zombie child in slot [i], whose lock is held. *)
Definition reap (i p : nat) (pp : procst) (addr : Z) : M kernel (option Z * bool) :=
  x ← getproc p;
  r ← (if addr =? 0 then mret 0 else copyout (p_pagetable x) addr (le_enc 4 (p_xstate pp)) 4);
  if r <? 0 then
    release (LkProc i) ;; release LkWait ;; mret (Some (-1), true)
  else
    freeproc i ;;
    release (LkProc i) ;; release LkWait ;; mret (Some (p_pid pp), true).

(** The scan stops at the first zombie child; without one it has taken no lock
    that it has not released. *)
Lemma wait_scan_run p addr : forall k i hk s, no_proc_lock s -> (i + k = length (procs s))%nat ->
  wait_scan k i p addr hk s =
    match list_find (zombie_of p) (drop i (procs s)) with
    | Some (j, c) => reap (i + j) p c addr (set_held ({[LkProc (i + j)]} ∪ held s) s)
    | None => Ret (None, hk || bool_decide (Exists (child_of p) (drop i (procs s)))) s
    end.
Proof.
  induction k as [|k IH]; intros i hk s Hn Hi; cbn [wait_scan].
  - rewrite drop_ge by lia. cbn [list_find]. rewrite (bool_decide_false (Exists _ [])) by (by intros H%Exists_nil). by rewrite orb_false_r.
  - destruct (lookup_lt_is_Some_2 (procs s) i ltac:(lia)) as [x Ex]. rewrite (drop_S _ _ _ Ex).
    assert (Et : procs s !!! i = x) by (by apply list_lookup_total_correct). erewrite bind_Ret by apply getproc_run. cbv beta. rewrite Et. cbn [list_find].
    assert (Eb : bool_decide (Exists (child_of p) (x :: drop (S i) (procs s))) = bool_decide (p_parent x = Some p) || bool_decide (Exists (child_of p) (drop (S i) (procs s)))).
    { rewrite (bool_decide_ext _ (child_of p x \/ Exists (child_of p) (drop (S i) (procs s)))) by apply Exists_cons. by rewrite bool_decide_or. }
    rewrite Eb. clear Eb.
    destruct (decide (p_parent x = Some p)) as [Hp|Hp].
    + erewrite bind_Ret by (apply acquire_Ret, Hn). erewrite bind_Ret by apply getproc_run. cbv beta. cbn [procs set_held]. rewrite Et.
      destruct (decide (p_state x = ZOMBIE)) as [Hz|Hz].
      * rewrite decide_True by (by split). by rewrite Nat.add_0_r.
      * rewrite decide_False by (by intros [_ ?]). erewrite bind_Ret by (apply release_Ret; cbn; set_solver). cbn. rewrite held_restore by apply Hn.
        change (set_held (held s) (set_held ({[LkProc i]} ∪ held s) s)) with s. rewrite IH by (done || lia).
        rewrite (bool_decide_true (p_parent x = Some p)) by done. rewrite orb_true_r.
        destruct (list_find _ (drop (S i) (procs s))) as [[j y]|]; [|done]. cbn. by replace (i + S j)%nat with (S (i + j)) by lia.
    + rewrite decide_False by (by intros [? _]). rewrite IH by (done || lia). rewrite (bool_decide_false (p_parent x = Some p)) by done.
      destruct (list_find _ (drop (S i) (procs s))) as [[j y]|]; [|done]. cbn. by replace (i + S j)%nat with (S (i + j)) by lia.
Qed.

(** ** Two processes *)

Definition pages_of (x : procst) (t : ptree) (u : uspace) (a : Z) : Prop := is_table t a \/ is_user u a \/ a = p_trapframe x.

(** The free list changes, and the pages of a process do not. *)
Lemma res_frame s s' x t u fr fr' : proc_res s x t u fr -> LkKmem ∉ held s' -> kmem_inv s' fr' -> (forall a, pages_of x t u a -> a ∉ fr') ->
  (forall a y, is_table t a -> in_page a y -> load8 (mem s') y = load8 (mem s) y) -> proc_res s' x t u fr'.
Proof.
  intros [I O Hsz Hd (Htf & Hn & Ht & Hu)] Hl K Hf Hm. split; [| | done | done |].
  - eapply as_frame; [exact I | done | done | | done]. intros a Ha. apply Hf. by left.
  - destruct O as [A B C]. split; try done. intros a Ha. destruct (A a Ha) as (? & ? & ?). split_and!; try done. apply Hf. by right; left.
  - split_and!; try done. apply Hf. by right; right.
Qed.

Lemma res_user_part s x t u fr : proc_res s x t u fr -> user_part u.
Proof. intros R k Hk. apply (pr_dom _ _ _ _ _ R) in Hk. pose proof (npages_UVPN _ (pr_sz _ _ _ _ _ R)). lia. Qed.

Lemma umem_pmap tf m u va : user_part u -> umem m (pmap tf u) va = umem m u va.
Proof.
  intros Hu. destruct UVPN_TVPN as [E1 E2]. assert (u !! UVPN = None /\ u !! TVPN = None) as [N1 N2].
  { split; apply eq_None_not_Some; intros Hs; apply Hu in Hs; lia. }
  unfold umem, pmap. rewrite !lookup_insert. destruct (decide (UVPN = va / PGSIZE)) as [<-|]; [by rewrite N1 |]. by destruct (decide (TVPN = va / PGSIZE)) as [<-|]; [rewrite N2 |].
Qed.

Lemma pmap_low tf u : user_part u -> user_low (pmap tf u).
Proof.
  intros Hu vpn pa perm Hv Hp. destruct UVPN_TVPN as [E1 E2]. unfold pmap in Hv. rewrite !lookup_insert in Hv. repeat case_decide; simplify_eq; try done.
  apply mk_is_Some in Hv. apply Hu in Hv. lia.
Qed.

Lemma umem_frame m m' u va : user_part u -> (forall a y, is_user u a -> in_page a y -> load8 m' y = load8 m y) -> umem m' u va = umem m u va.
Proof.
  intros Hu Hm. unfold umem. destruct (u !! (va / PGSIZE)) as [[pa perm]|] eqn:Ev; [|done]. case_match; [done |]. f_equal. apply (Hm pa).
  - exists (va / PGSIZE), perm. split; [done |]. apply Hu. by rewrite Ev.
  - pose proof (Z.mod_pos_bound va PGSIZE ltac:(done)). unfold in_page. lia.
Qed.

Lemma res_same s' s x t u fr : mem s' = mem s -> freelist s' = freelist s -> LkKmem ∉ held s' -> proc_res s x t u fr -> proc_res s' x t u fr.
Proof.
  intros Em Ef Hh R. eapply res_frame; [exact R | done | | intros a Ha; by eapply res_not_free | by rewrite Em].
  destruct (vm_kmem _ _ _ _ (as_vm _ _ _ _ _ (pr_as _ _ _ _ _ R))) as [A B C]. split; rewrite ?Em, ?Ef; done.
Qed.

Lemma res_held h s x t u fr : LkKmem ∉ h -> proc_res s x t u fr -> proc_res (set_held h s) x t u fr.
Proof. intros. by apply (res_same _ s). Qed.

(** Pages of one process lie apart from those of the other. *)
Lemma pages_apart s x t u fr y ct cu a b z : proc_res s x t u fr -> proc_res s y ct cu fr -> pages_of x t u a -> pages_of y ct cu b ->
  (forall a, pages_of x t u a -> ~ pages_of y ct cu a) -> in_page a z -> ~ in_page b z.
Proof.
  intros R R' Ha Hb Hap. destruct (res_not_free _ _ _ _ _ _ R Ha) as [Oa _]. destruct (res_not_free _ _ _ _ _ _ R' Hb) as [Ob _].
  apply page_sep; try done. intros ->. by apply (Hap b).
Qed.

(** The status is copied out, to the parent's memory only. *)
Lemma status_out s x t u fr addr l : proc_res s x t u fr -> 0 <= addr -> addr + 4 < 2 ^ 62 -> Forall is_byte l -> length l = 4%nat ->
  exists r m', (if addr =? 0 then mret 0 else copyout (p_pagetable x) addr l 4) s = Ret r (set_mem m' s) /\
    user_frame u (mem s) m' /\ proc_res (set_mem m' s) x t u fr /\
    ((r = 0 /\ forall va, umem m' u va = if decide (addr <> 0 /\ addr <= va < addr + 4) then l !! Z.to_nat (va - addr) else umem (mem s) u va) \/
     (r = -1 /\ addr <> 0 /\ exists va, addr <= va < addr + 4 /\ umem (mem s) u va = None)).
Proof.
  intros R Ha Hlim Hl Hlen. pose proof (res_user_part _ _ _ _ _ R) as Hu. destruct (Z.eqb_spec addr 0) as [->|Hne].
  { exists 0, (mem s). split_and!; [done | done | done |]. left. split; [done |]. intros va. by rewrite decide_False by (by intros [? _]). }
  pose proof R as [I O Hsz Hd Htf].
  destruct (copyout_loop_ok (p_pagetable x) t (pmap (p_trapframe x) u) fr) with (fuel := Z.to_nat (4 / PGSIZE + 3)) (s := s) (va := addr) (src := l) (len := 4)
    as (r & m' & Hr & I' & F & C); try done; try lia; [by apply pmap_own | by apply pmap_low | by apply copy_fuel |].
  exists r, m'. split_and!; [exact Hr | | by split |].
  - intros y Hy. apply F. intros a Hua. by apply Hy, (pmap_user (p_trapframe x)).
  - destruct C as [(-> & C)|(-> & (va & Hva & C) & _)]; [left | right].
    + split; [done |]. intros va. rewrite <- (umem_pmap (p_trapframe x) m'), <- (umem_pmap (p_trapframe x) (mem s)) by done. rewrite C. do 2 case_decide; try done; tauto.
    + split_and!; try done. exists va. by rewrite <- (umem_pmap (p_trapframe x)).
Qed.

(** ** What wait does *)

(** The process that calls wait, and its zombie children, each with pages of its own. *)
Record wait_pre (s : kernel) (t : ptree) (u : uspace) (fr : list Z) : Prop := mkWaitPre {
  wp_held : held s = ∅;
  wp_len : length (procs s) = Z.to_nat NPROC;
  wp_res : proc_res s (procs s !!! cur s) t u fr;
  wp_zombie : forall c, c ∈ procs s -> zombie_of (cur s) c -> exists ct cu, proc_res s c ct cu fr /\
    forall a, pages_of (procs s !!! cur s) t u a -> ~ pages_of c ct cu a
}.

(** The zombie [c] in slot [i] is gone, and its status is at [addr] of the parent's memory. *)
Record reaped (s : kernel) (t : ptree) (u : uspace) (fr : list Z) (addr : Z) (i : nat) (c : procst) (s' : kernel) : Prop := mkReaped {
  rp_slots : procs s' = alter free_slot i (procs s);
  rp_pages : exists ct cu fr', proc_res s c ct cu fr /\ proc_res s' (procs s !!! cur s) t u fr' /\ forall a, a ∈ fr' <-> a ∈ fr \/ pages_of c ct cu a;
  rp_status : forall va, umem (mem s') u va =
    if decide (addr <> 0 /\ addr <= va < addr + 4) then le_enc 4 (p_xstate c) !! Z.to_nat (va - addr) else umem (mem s) u va;
  rp_held : held s' = ∅
}.

(** The status cannot be written: the child stays a zombie. *)
Record not_reaped (s : kernel) (t : ptree) (u : uspace) (fr : list Z) (addr : Z) (s' : kernel) : Prop := mkNotReaped {
  nr_fault : addr <> 0 /\ exists va, addr <= va < addr + 4 /\ umem (mem s) u va = None;
  nr_state : s' = set_mem (mem s') s;
  nr_parent : proc_res s' (procs s !!! cur s) t u fr;
  nr_frame : user_frame u (mem s) (mem s')
}.

Section reap.
Context (s : kernel) (t : ptree) (u : uspace) (fr : list Z) (addr : Z) (i : nat) (c : procst).
Context (W : wait_pre s t u fr) (E : list_find (zombie_of (cur s)) (procs s) = Some (i, c)) (Ha : 0 <= addr) (Hlim : addr + 4 < 2 ^ 62).
Let sl := set_held ({[LkProc i]} ∪ ({[LkWait]} ∪ ∅)) s.
Notation x := (procs s !!! cur s) (only parsing).

Lemma reap_run : exists r s', reap i (cur s) c addr sl = Ret (Some r, true) s' /\
  ((r = p_pid c /\ reaped s t u fr addr i c s') \/ (r = -1 /\ not_reaped s t u fr addr s')).
Proof.
  apply list_find_Some in E as (Ei & Hz & _). pose proof (lookup_lt_Some _ _ _ Ei) as Hlt.
  destruct (wp_zombie _ _ _ _ W c) as (ct & cu & Rc & Hap); [by eapply list_elem_of_lookup_2 | done |].
  assert (Hrel : forall S A (v : A), held S = {[LkProc i]} ∪ ({[LkWait]} ∪ ∅) -> (release (LkProc i) ;; release LkWait ;; mret v) S = Ret v (set_held ∅ S)).
  { intros S0 A v E0. erewrite bind_Ret by (apply release_Ret; rewrite E0; cbn; set_solver). rewrite E0, held_restore by set_solver.
    erewrite bind_Ret by (apply release_Ret; cbn; set_solver). cbn. by rewrite held_restore by set_solver. }
  assert (Hk : LkKmem ∉ held sl) by (cbn; set_solver). pose proof (res_held _ _ _ _ _ _ Hk (wp_res _ _ _ _ W)) as R. fold sl in R.
  destruct (status_out sl x t u fr addr (le_enc 4 (p_xstate c))) as (r & m' & Hr & F & R' & C); try done; [apply le_enc_byte |].
  unfold reap. erewrite bind_Ret by apply getproc_run. cbv beta. change (procs sl) with (procs s). erewrite bind_Ret by exact Hr.
  destruct C as [(-> & C)|(-> & Hn & C)].
  2: { exists (-1), (set_held ∅ (set_mem m' sl)). split; [by apply Hrel |]. right. split; [done |]. split; [done | | | done].
    - unfold sl. cbn. rewrite <- (wp_held _ _ _ _ W). by destruct s.
    - apply res_held; [set_solver | exact R']. }
  change (0 <? 0) with false. cbv iota. set (s1 := set_mem m' sl) in *.
  assert (Rc1 : proc_res s1 c ct cu fr).
  { eapply res_frame; [apply (res_held _ _ _ _ _ _ Hk Rc) | done | apply R' | intros a Hpa; apply (res_not_free _ _ _ _ _ _ Rc Hpa) |].
    intros a y Hta Hy. apply F. intros b Hb. eapply (pages_apart s c ct cu fr x t u a b); try done; [apply W | by left | by right; left |]. intros a0 H1 H2. by apply (Hap a0). }
  assert (Ec : procs s1 !!! i = c) by (by apply list_lookup_total_correct).
  destruct (freeproc_ok s1 i ct cu fr) as (s2 & fr' & R2 & K2 & P2 & M2 & F2); [by rewrite Ec | done |]. rewrite Ec in P2, F2.
  assert (Hfree : forall a, pages_of x t u a -> ~ (a = p_trapframe c \/ owns ct cu fr a)).
  { intros a Hpa H. pose proof (Hap a Hpa) as Hno. destruct (res_not_free _ _ _ _ _ _ R' Hpa) as [_ Hnf]. unfold pages_of, owns in *. tauto. }
  assert (Hkeep : forall a y, pages_of x t u a -> in_page a y -> load8 (mem s2) y = load8 m' y).
  { intros a y Hpa Hy. destruct (res_not_free _ _ _ _ _ _ R' Hpa) as [Oa _]. apply F2. intros b Hb. apply (page_sep a b); try done; [|intros ->; by apply (Hfree b)].
    destruct Hb as [->|Hb]; [apply (pr_tf _ _ _ _ _ Rc) |]. eapply owns_page_ok; [apply Rc | apply pmap_own, Rc | by apply pmap_owns]. }
  assert (Eh2 : held s2 = held sl) by (by rewrite M2). set (s' := set_held ∅ (set_procs (alter free_slot i (procs s)) s2)). exists (p_pid c), s'. split.
  { erewrite bind_Ret by exact R2. by apply Hrel. }
  left. split; [done |]. split; [done | exists ct, cu, fr' | | done].
  - split_and!; [done | | intros a; rewrite P2; unfold owns, pages_of; tauto].
    eapply res_frame; [exact R' | set_solver | destruct K2 as [A B D]; by split | intros a Hpa; rewrite P2; by apply Hfree |].
    intros a y Hta. apply Hkeep. by left.
  - intros va. etransitivity; [apply (umem_frame m'); [by eapply res_user_part | intros a y Hua; apply Hkeep; by right; left] | apply C].
Qed.
End reap.

(** C23: wait by a process whose zombie children have pages of their own. The
    first zombie child in the table is reaped: its pid is returned, its status is
    at [addr] when that is not 0, its slot is free, and its pages are on the free
    list, all of them, while the parent keeps its own; when the status cannot be
    written the result is -1 and the child is still there. With no zombie the
    result is -1 for a process that has no child or was killed, and otherwise the
    process sleeps and scans again. *)
Theorem wait_reaps s t u fr addr (W : wait_pre s t u fr) (Ha : 0 <= addr) (Hlim : addr + 4 < 2 ^ 62) :
  match list_find (zombie_of (cur s)) (procs s) with
  | Some (i, c) => exists r s', wait addr s = Ret r s' /\
      ((r = p_pid c /\ reaped s t u fr addr i c s') \/ (r = -1 /\ not_reaped s t u fr addr s'))
  | None =>
      if bool_decide (Exists (child_of (cur s)) (procs s)) && negb (p_killed (procs s !!! cur s))
      then wait addr s = (sleep (ChProc (cur s)) LkWait ;; wait_loop (pred WAKEUPS) (cur s) addr) (set_held {[LkWait]} s)
      else wait addr s = Ret (-1) s
  end.
Proof.
  pose proof (wp_held _ _ _ _ W) as Hh. pose proof (wp_len _ _ _ _ W) as Hlen. set (sw := set_held ({[LkWait]} ∪ ∅) s).
  assert (Hn : no_proc_lock sw) by (intros k; cbn; set_solver).
  assert (Er : release LkWait sw = Ret tt s).
  { rewrite release_Ret by (cbn; set_solver). cbn. rewrite held_restore by set_solver. rewrite <- Hh. by destruct s. }
  assert (Ew : wait addr s = wait_loop (S (pred WAKEUPS)) (cur s) addr sw).
  { unfold wait. rewrite (bind_Ret myproc _ s (cur s) s eq_refl). rewrite (bind_Ret (acquire LkWait) _ s tt sw); [done |].
    rewrite acquire_Ret by (rewrite Hh; set_solver). unfold sw. by rewrite Hh. }
  rewrite Ew. clear Ew. generalize (pred WAKEUPS). intros n. cbn [wait_loop].
  pose proof (wait_scan_run (cur s) addr (Z.to_nat NPROC) 0 false sw Hn) as Hs. rewrite drop_0 in Hs. specialize (Hs (eq_sym Hlen)). change (procs sw) with (procs s) in Hs.
  destruct (list_find (zombie_of (cur s)) (procs s)) as [[i c]|] eqn:E.
  - destruct (reap_run s t u fr addr i c W E Ha Hlim) as (r & s' & Hr & Hc). exists r, s'. split; [|done]. erewrite bind_Ret by (rewrite Hs; exact Hr). done.
  - erewrite bind_Ret by exact Hs. cbv beta iota. rewrite orb_false_l. destruct (bool_decide _); cbn [andb].
    + erewrite bind_Ret by (apply killed_run, Hn). cbv beta. change (procs sw) with (procs s). destruct (p_killed _); cbn [negb]; [by erewrite bind_Ret by exact Er |].
      unfold sw. by rewrite (right_id_L ∅ (∪)).
    + erewrite bind_Ret by reflexivity. cbv beta iota. by erewrite bind_Ret by exact Er.
Qed.
End wait.

(** ** A process with a zombie child *)

Definition zombify (y : procst) : procst := set_p_state ZOMBIE (set_p_xstate 7 (set_p_parent (Some 0%nat) y)).
Definition wait_demo : kernel :=
  match @allocproc vm_layout fork_demo with
  | Ret _ s => set_held ∅ (set_procs (alter zombify 1%nat (procs s)) s)
  | _ => fork_demo
  end.

Lemma wait_demo_made : match @allocproc vm_layout fork_demo with Ret (Some _) _ => true | _ => false end = true.
Proof. vm_compute. reflexivity. Qed.

Lemma wait_demo_zombies : filter (zombie_of 0) (procs wait_demo) = [procs wait_demo !!! 1%nat].
Proof. vm_compute. reflexivity. Qed.

Lemma wait_demo_pre : exists t fr, @wait_pre vm_layout wait_demo t ∅ fr.
Proof.
  destruct fork_demo_pre as (ot & fr & F). pose proof wait_demo_zombies as Hz.
  assert (Hd : procs wait_demo !!! 0%nat = procs fork_demo !!! 0%nat /\ cur wait_demo = 0%nat /\ cur fork_demo = 0%nat) by (vm_compute; auto).
  assert (Hl : held wait_demo = ∅ /\ length (procs wait_demo) = Z.to_nat NPROC) by (vm_compute; auto).
  assert (Hf : list_find (fun x => p_state x = UNUSED) (procs fork_demo) = Some (1%nat, zero_proc)) by (vm_compute; reflexivity).
  destruct (@fork_locks vm_layout vm_layout_ok fork_demo 0%nat ot ∅ fr 1%nat zero_proc F Hf) as (L1 & L2 & L3).
  destruct (@allocproc_ok vm_layout vm_layout_ok fork_demo fr 1 zero_proc L1 L2 L3 (fp_len _ _ _ _ _ F)) as (r & s1 & R & [A|A]); [|exact Hf | reflexivity | |].
  { apply (vm_kmem _ _ _ _ (as_vm _ _ _ _ _ (pr_as _ _ _ _ _ (fp_res _ _ _ _ _ F)))). }
  2: { destruct A as (m & fl & fr' & -> & _). pose proof wait_demo_made as E. rewrite R in E. discriminate E. }
  destruct A as (m & fl & tf & pt & t & fr1 & -> & -> & I & Htf & Hn & Ht & P & Hm). set (s1 := set_held _ _) in *.
  destruct (@alloc_parent vm_layout fork_demo 0%nat ot ∅ fr 1%nat F m fl tf pt t fr1 I P Hm) as (Rp & _ & _ & Hsep). fold s1 in Rp.
  assert (E : wait_demo = set_held ∅ (set_procs (alter zombify 1%nat (procs s1)) s1)) by (unfold wait_demo; by rewrite R).
  destruct Hd as (D0 & D1 & D2). destruct Hl as [Hh Hl]. rewrite D2, <- D0 in Rp. rewrite D2, <- D0 in Hsep.
  assert (Ec : procs wait_demo !!! 1%nat = zombify (@new_slot vm_layout (nextpid fork_demo) tf pt zero_proc)).
  { rewrite E. cbn [procs set_held set_procs s1 alloced]. unfold s1, alloced. cbn [procs set_held set_procs]. rewrite !procs_alter by (rewrite ?length_alter, (fp_len _ _ _ _ _ F); vm_compute; lia).
    by do 2 f_equal. }
  assert (Hnk : LkKmem ∉ held wait_demo) by (rewrite Hh; set_solver). exists ot, fr1.
  assert (Em : mem wait_demo = mem s1) by (rewrite E; reflexivity). assert (Ef : freelist wait_demo = freelist s1) by (rewrite E; reflexivity). clear E R Hm P F. clearbody s1.
  split; [exact Hh | exact Hl | |].
  - rewrite D1. apply (res_same _ s1); [exact Em | exact Ef | exact Hnk | exact Rp].
  - rewrite D1. intros c Hc Hzc. assert (Hin : c ∈ filter (zombie_of 0) (procs wait_demo)) by (apply list_elem_of_filter; split; [exact Hzc | exact Hc]).
    rewrite Hz, list_elem_of_singleton in Hin. subst c. rewrite Ec. exists t, ∅. split.
    + apply (res_same _ s1); [exact Em | exact Ef | exact Hnk |]. split.
      * exact I.
      * apply own_empty.
      * split; vm_compute; discriminate.
      * intros k. rewrite lookup_empty. split; [by intros [? ?] | change (0 <= k < 0 -> is_Some (@None (Z * Z))); lia].
      * split_and!; [done | done | done |]. intros (v & q & Hv & _). by rewrite lookup_empty in Hv.
    + intros a Hpa Hpc. destruct (Hsep a Hpa) as [H1 H2]. destruct Hpc as [H|[H|H]]; [apply H2; by right; left | apply H2; by right; right | by apply H1].
Qed.

Lemma wait_reaps_witness : exists s', @wait vm_layout 0 wait_demo = Ret 2 s' /\ procs s' = alter free_slot 1%nat (procs wait_demo) /\ held s' = ∅.
Proof.
  destruct wait_demo_pre as (t & fr & W).
  pose proof (@wait_reaps vm_layout vm_layout_ok wait_demo t ∅ fr 0 W (Z.le_refl 0) ltac:(vm_compute; reflexivity)) as H.
  assert (Hf : exists c, list_find (zombie_of (cur wait_demo)) (procs wait_demo) = Some (1%nat, c) /\ p_pid c = 2) by (eexists; split; vm_compute; reflexivity).
  destruct Hf as (c & Hf & Hp). rewrite Hf in H. destruct H as (r & s' & Hr & [(Ep & Hk)|(_ & Hk)]).
  2: { destruct (nr_fault _ _ _ _ _ _ Hk) as [Hne _]. destruct (Hne eq_refl). }
  exists s'. rewrite Ep, Hp in Hr. split; [exact Hr |]. split; [exact (rp_slots _ _ _ _ _ _ _ _ Hk) | exact (rp_held _ _ _ _ _ _ _ _ Hk)].
Defined.
