(* ===== verification/FileWrite.v ===== *)
(** * filewrite, from user memory to the disk

    A write to a file, end to end: the bytes come from the memory of the process and
    go into the file through the log, a transaction for every piece, and a crash at
    any point leaves the file with the pieces of the transactions before it. *)

From S2P Require Import Prelude State Mem Spinlock Sched Sleeplock Bio BufCache CacheRules Log LogHeader LogSpec LogRecover LogProps LogOps Txn Memlayout Kalloc Vm PageTable AddrSpace UserMem CopyUser VmProps Uart Printf Copy Console Fs FsBlocks FsInode FsData FsGrow Dir Path File Proc ProcMem.

(** ** What a file holds *)

(** The bytes of file [inum] when the blocks are [w]. *)
Definition content (w : Z -> list Z) (b : superblock) (inum : Z) : list Z := fbytes w (node w b inum) 0 (Z.to_nat (i_size (node w b inum))).

(** [l] over [old] from offset [off] on. *)
Definition overwrite (old : list Z) (off : Z) (l : list Z) : list Z := take (Z.to_nat off) old ++ l ++ drop (Z.to_nat off + length l) old.

(** The log is not part of any file. *)
Lemma content_home s w w' inum : file_ok s w [] (node w (sb s) inum) -> home_block s (IBLOCK inum (sb s)) -> (forall b, ~ in_log (logst s) b -> w' b = w b) ->
  content w' (sb s) inum = content w (sb s) inum.
Proof.
  intros F [_ Hi] Hw. assert (En : node w' (sb s) inum = node w (sb s) inum) by (unfold node, dinode_at; by rewrite Hw). unfold content. rewrite En. set (i := node w (sb s) inum) in *.
  apply fbytes_ext. intros o Ho. pose proof (fo_size _ _ _ _ F) as Hs. assert (Hk : in_file i (o / BSIZE)) by (apply in_file_of; lia).
  assert (Eb : baddr w' i (o / BSIZE) = baddr w i (o / BSIZE)).
  { unfold baddr. destruct (Z.ltb_spec (o / BSIZE) NDIRECT); [done |]. rewrite Hw; [done |]. apply (fo_ind _ _ _ _ F). destruct Hk. unfold BSIZE, NDIRECT in *. lia. }
  unfold fbyte. rewrite Eb, Hw; [done |]. apply (fo_map _ _ _ _ F _ Hk).
Qed.

(** The file of an inode that is up to date on the disk. *)
Lemma file_inv_node s v ip nb : file_inv s v [] ip nb -> dinode_at v (sb s) (i_inum (itable s !!! ip)) = dinode_of (itable s !!! ip) ->
  let i := itable s !!! ip in let d := node v (sb s) (i_inum i) in
  i_addrs d = i_addrs i /\ i_size d = i_size i /\ file_ok s v [] d /\ home_block s (IBLOCK (i_inum i) (sb s)).
Proof.
  intros V E i d. assert (Ea : i_addrs d = i_addrs i /\ i_size d = i_size i) by (unfold d, node; cbn [i_addrs i_size]; fold i in E; by rewrite E). split_and!; [apply Ea | apply Ea | | apply V].
  apply (file_ok_view s v [] i); [symmetry; apply Ea | symmetry; apply Ea | | by eapply file_inv_ok]. exact (fm_dev _ _ _ _ _ (fi_map _ _ _ _ _ V)).
Qed.

(** What a write leaves, byte by byte. *)
Lemma content_overwrite v d w d' off l : 0 <= off <= i_size d -> i_size d' = Z.max (i_size d) (off + Z.of_nat (length l)) ->
  (forall o, 0 <= o < i_size d' -> fbyte w d' o = if decide (off <= o < off + Z.of_nat (length l)) then l !!! Z.to_nat (o - off) else fbyte v d o) ->
  fbytes w d' 0 (Z.to_nat (i_size d')) = overwrite (fbytes v d 0 (Z.to_nat (i_size d))) off l.
Proof.
  intros Ho Hs Hb. unfold overwrite. apply list_eq. intros j. destruct (decide (j < Z.to_nat (i_size d'))%nat) as [Hj|Hj].
  - rewrite fbytes_lookup by done. rewrite Hb by lia. rewrite Z.add_0_l. set (old := fbytes v d 0 (Z.to_nat (i_size d))).
    assert (Hold : length old = Z.to_nat (i_size d)) by apply length_fbytes. assert (Ht : length (take (Z.to_nat off) old) = Z.to_nat off) by (rewrite length_take; lia).
    case_decide as Hd.
    + rewrite lookup_app_r by lia. rewrite Ht, lookup_app_l by lia. rewrite list_lookup_lookup_total_lt by lia. do 2 f_equal. lia.
    + destruct (decide (Z.of_nat j < off)).
      * rewrite lookup_app_l by lia. rewrite lookup_take_lt by lia. unfold old. by rewrite fbytes_lookup by lia.
      * rewrite lookup_app_r by lia. rewrite Ht, lookup_app_r by lia. rewrite lookup_drop. unfold old. rewrite fbytes_lookup by lia. do 2 f_equal. lia.
  - rewrite !lookup_ge_None_2; [done | | rewrite length_fbytes; lia]. rewrite !length_app, length_take, length_drop, length_fbytes. lia.
Qed.

(** ** Views that differ in the log only *)

(** Inodes with the same contents, whatever their locks and references. *)
Definition same_inode (i i' : inode) : Prop := i_dev i' = i_dev i /\ i_inum i' = i_inum i /\ dinode_of i' = dinode_of i.

Lemma same_inode_fields i i' : same_inode i i' -> i_addrs i' = i_addrs i /\ i_size i' = i_size i.
Proof. intros (_ & _ & E). split; [exact (f_equal di_addrs E) | exact (f_equal di_size E)]. Qed.

Lemma fmap_view s v H i i' nb : same_inode i i' -> fmap s v H i nb -> fmap s v H i' nb.
Proof.
  intros Hi [A1 A2 A3 A4 A5 A6 A7 A8 A9]. destruct (same_inode_fields _ _ Hi) as [Ea _]. destruct Hi as (Ed & En & _).
  assert (Eb : forall k, baddr v i' k = baddr v i k) by (intros k; unfold baddr, indirect; by rewrite Ea). assert (Ei : indirect i' = indirect i) by (unfold indirect; by rewrite Ea).
  split; rewrite ?Ed, ?Ea, ?Ei, ?En; try done.
  - intros k Hk. rewrite Eb. by apply A4.
  - intros k Hk. rewrite Eb. by apply A7.
  - intros k k' Hk Hk'. rewrite !Eb. by apply A8.
  - intros k Hk Hx. rewrite Eb. by apply A9.
Qed.

Section views.
Context (s s' : kernel) (v w : Z -> list Z) (Es : sb s' = sb s) (El : forall b, in_log (logst s') b <-> in_log (logst s) b)
  (Hw : forall b, ~ in_log (logst s) b -> w b = v b) (B : bm_ok s v []).

Lemma used_home b : 0 <= b < sb_size (sb s) -> used w (sb s) b = used v (sb s) b.
Proof. intros Hb. unfold used. rewrite Hw; [done |]. apply (bm_home _ _ _ B). by exists b. Qed.

Lemma bm_ok_home : 0 < sb_size (sb s) -> bm_ok s' w [].
Proof.
  intros H0. destruct B as [B1 B2 B3 B4 B5 B6 B7]. split; rewrite ?Es; try done.
  - intros x Hx. rewrite El. by apply B3.
  - intros b Hb Hl. rewrite used_home by done. apply B4; [done | by apply El].
  - intros b Hb Hi. rewrite used_home by done. by apply B5.
  - by rewrite used_home by lia.
  - intros b Hb. by apply not_elem_of_nil in Hb.
Qed.

Lemma file_inv_home ip nb : file_inv s v [] ip nb -> (ip < length (itable s'))%nat -> same_inode (itable s !!! ip) (itable s' !!! ip) -> file_inv s' w [] ip nb.
Proof.
  intros [A1 A2 A3 A4 A5 A6 A7] Hip Hi. destruct (same_inode_fields _ _ Hi) as [Ea Esz]. pose proof Hi as (Ed & En & Edi). split; rewrite ?Es, ?Esz, ?En, ?Edi; try done.
  - eapply fmap_view; [exact Hi |]. apply (fmap_ext s s' v w); try done.
    + intros b Hb Hu. by rewrite used_home.
    + intros Hne. apply Hw, (fm_ind _ _ _ _ _ A2 Hne).
  - destruct A4 as (U1 & U2 & U3). unfold inode_used. rewrite Es. split_and!; try lia; [|done]. by rewrite used_home by lia.
  - destruct A5 as [H1 [H2 H2'] H3]. split; rewrite ?Ed, ?En, ?Es; try done. split; [done | by rewrite El].
Qed.
End views.

(** ** The steps of a write *)

Lemma begin_op_idle s : log_idle s -> LkLog ∉ held s -> begin_op s = Ret tt (set_logst (set_log_outstanding 1 (logst s)) s).
Proof.
  intros [T Ho Hc _] Hl. pose proof (lo_n _ _ (tx_log _ _ _ T)) as Hn. cbn in Hn. unfold begin_op. erewrite bind_Ret by (by apply acquire_Ret).
  erewrite bind_Ret.
  2: { unfold WAKEUPS. cbn [sleep_while]. erewrite bind_Ret by reflexivity. unfold must_wait. cbn [logst set_held]. rewrite Hc, Hn, Ho. reflexivity. }
  unfold upd_log. erewrite bind_Ret by reflexivity. rewrite release_Ret by (cbn; set_solver). cbn. rewrite held_restore by done. by rewrite Ho.
Qed.

Lemma ilock_valid s ip : (ip < length (itable s))%nat -> 1 <= i_ref (itable s !!! ip) -> i_valid (itable s !!! ip) = true -> sl_locked (i_lock (itable s !!! ip)) = false ->
  LkInodeSleep ip ∉ held s -> ilock (Some ip) s = Ret tt (put_sl (SlInode ip) (lock_by (mypid s)) s).
Proof.
  intros Hip Hr Hv Hf Hl. unfold ilock, getinode. erewrite bind_Ret by reflexivity. cbv beta. destruct (Z.ltb_spec (i_ref (itable s !!! ip)) 1); [lia |].
  erewrite bind_Ret by (by apply acquiresleep_free). erewrite bind_Ret by reflexivity. cbv beta. cbn [put_sl itable set_itable].
  rewrite alter_total_inode by lia. cbn [i_valid set_i_lock]. by rewrite Hv.
Qed.

Lemma iunlock_mine s ip : i_lock (itable s !!! ip) = mkSleeplock true (mypid s) -> 1 <= i_ref (itable s !!! ip) -> (forall l, l ∉ held s) ->
  iunlock (Some ip) s = Ret tt (set_procs (wake (cur s) (sl_chan (SlInode ip)) (procs s)) (put_sl (SlInode ip) unlock s)).
Proof.
  intros Hlock Hr Hno. assert (Eh : holdingsleep (SlInode ip) s = Ret true s).
  { rewrite holdingsleep_ok by apply Hno. cbn [get_sl]. rewrite Hlock. cbn [sl_locked sl_pid]. by rewrite Z.eqb_refl. }
  unfold iunlock. erewrite bind_Ret by exact Eh. cbv beta. unfold getinode. erewrite bind_Ret by reflexivity. cbv beta.
  destruct (Z.ltb_spec (i_ref (itable s !!! ip)) 1); [lia |]. change (negb true || false) with false. cbv iota.
  apply releasesleep_ok; [apply Hno | intros k; apply Hno].
Qed.

(** ** One transaction *)

(** Between two transactions: the log is idle, the file's inode is in the table
    and up to date on the disk, and the descriptor is at [off]. *)
Record fwst (s : kernel) (f ip : nat) (nb off : Z) : Prop := mkFwst {
  fw_held : held s = ∅;
  fw_idle : log_idle s;
  fw_geom : sb_geom (sb s) /\ sb_logstart (sb s) = log_start (logst s) /\ sb_nlog (sb s) = log_size (logst s) /\ log_size (logst s) = LOGSIZE;
  fw_bm : bm_ok s (d_blocks (disk s)) [] /\ 0 < sb_size (sb s);
  fw_file : (f < length (ftable s))%nat /\ f_ip (ftable s !!! f) = ip /\ f_off (ftable s !!! f) = off;
  fw_inode : file_inv s (d_blocks (disk s)) [] ip nb;
  fw_disk : dinode_at (d_blocks (disk s)) (sb s) (i_inum (itable s !!! ip)) = dinode_of (itable s !!! ip);
  fw_entry : i_valid (itable s !!! ip) = true /\ 1 <= i_ref (itable s !!! ip) /\ sl_locked (i_lock (itable s !!! ip)) = false;
  fw_off : 0 <= off <= i_size (itable s !!! ip)
}.

(** The transaction of one round of the loop of filewrite, and then [K]. *)
Definition chunk_then {A} (f : nat) (src : ksrc) (n1 : Z) (K : Z -> M kernel A) : M kernel A :=
  begin_op ;;
  x ← getfile f;
  ilock (Some (f_ip x)) ;;
  x ← getfile f;
  r ← writei (f_ip x) src (f_off x) n1;
  (if 0 <? r then upd_file f (fun x => set_f_off (u32 (f_off x + r)) x) else mret tt) ;;
  iunlock (Some (f_ip x)) ;;
  end_op ;;
  K r.

Lemma touched_chunk off n : 0 <= off -> 0 < n <= MAXWRITE -> 0 <= touched off n <= 4.
Proof.
  intros Ho Hn. unfold touched. destruct (Z.eqb_spec n 0); [lia |]. change MAXWRITE with 3072 in Hn.
  pose proof (Z.div_mod off BSIZE ltac:(done)) as E. pose proof (Z.mod_pos_bound off BSIZE ltac:(done)).
  pose proof (Z.div_mod (off + n - 1) BSIZE ltac:(done)). pose proof (Z.mod_pos_bound (off + n - 1) BSIZE ltac:(done)). change BSIZE with 1024 in *. lia.
Qed.

(** The file is locked inside its transaction. *)
Definition opened (s : kernel) (ip : nat) : kernel := put_sl (SlInode ip) (lock_by (mypid s)) (set_logst (set_log_outstanding 1 (logst s)) s).

Section chunk.
Context (s : kernel) (f ip : nat) (nb off : Z) (W : fwst s f ip nb off).
Notation v := (d_blocks (disk s)) (only parsing).

Lemma opened_inode : itable (opened s ip) !!! ip = set_i_lock (mkSleeplock true (mypid s)) (itable s !!! ip) /\ length (itable (opened s ip)) = length (itable s).
Proof. unfold opened. cbn. rewrite length_alter. split; [|done]. apply alter_total_inode, (fw_inode _ _ _ _ _ W). Qed.

Lemma opened_run {A} (K : filest -> M kernel A) : (begin_op ;; x ← getfile f; ilock (Some (f_ip x)) ;; x ← getfile f; K x) s = K (ftable s !!! f) (opened s ip).
Proof.
  pose proof (fw_held _ _ _ _ _ W) as Hh. destruct (fw_file _ _ _ _ _ W) as (_ & Eip & _). destruct (fw_entry _ _ _ _ _ W) as (E1 & E2 & E3).
  erewrite bind_Ret by (apply begin_op_idle; [apply W | rewrite Hh; apply not_elem_of_empty]). unfold getfile. erewrite bind_Ret by reflexivity. cbv beta. cbn [ftable set_logst]. rewrite Eip.
  erewrite bind_Ret by (apply ilock_valid; try done; [apply (fw_inode _ _ _ _ _ W) | cbn; rewrite Hh; apply not_elem_of_empty]). by erewrite bind_Ret by reflexivity.
Qed.

Lemma opened_ok : disk_ok (opened s ip) v [] [] 29 /\ file_inv (opened s ip) v [] ip nb /\ same_user s (opened s ip).
Proof.
  pose proof (fw_held _ _ _ _ _ W) as Hh. destruct (fw_idle _ _ _ _ _ W) as [T Ho Hc Hz]. destruct (fw_geom _ _ _ _ _ W) as (_ & _ & _ & Hsz). destruct (fw_bm _ _ _ _ _ W) as [B H0].
  destruct opened_inode as [Ei Eli]. split_and!.
  - split; [| | done | intros b Hb; by apply not_elem_of_nil in Hb | cbn; rewrite Hh; apply not_elem_of_empty |].
    + eapply (tx_other (set_logst (set_log_outstanding 1 (logst s)) s)); try done. apply txn_tx; [cbn; lia |]. by apply txn_set_log.
    + by apply (bm_ok_home s (opened s ip) v v).
    + split; [change (log_size (logst (opened s ip))) with (log_size (logst s)); rewrite Hsz; by vm_compute | unfold in_use; cbn; unfold HEAD, NBUF, MAXOPBLOCKS; lia].
  - apply (file_inv_home s (opened s ip) v v); try done; [apply W | rewrite Eli; apply (fw_inode _ _ _ _ _ W) | by rewrite Ei].
  - by split.
Qed.

(** The descriptor moves on. *)
Lemma move_off s3 (m : nat) : ftable s3 = ftable s -> off + Z.of_nat m < 2 ^ 32 ->
  (if 0 <? Z.of_nat m then upd_file f (fun x => set_f_off (u32 (f_off x + Z.of_nat m)) x) else mret tt) s3 =
  Ret tt (set_ftable (alter (set_f_off (off + Z.of_nat m)) f (ftable s)) s3).
Proof.
  intros Ef Hm. destruct (fw_file _ _ _ _ _ W) as (Hf & _ & Eo). pose proof (fw_off _ _ _ _ _ W) as Ho.
  assert (Ex : forall x, ftable s !! f = Some x -> f_off x = off) by (intros x Hx; by rewrite <- Eo, (list_lookup_total_correct _ _ _ Hx)).
  destruct (Z.ltb_spec 0 (Z.of_nat m)).
  - unfold upd_file, modify. do 2 f_equal. rewrite Ef. apply list_alter_ext; [|done]. intros x Hx. rewrite (Ex x Hx), wrap_small by lia. done.
  - replace (off + Z.of_nat m) with off by lia. unfold mret, M_ret, ret. f_equal.
    replace (alter (set_f_off off) f (ftable s)) with (ftable s3); [by destruct s3 |]. rewrite Ef. apply list_eq. intros j.
    destruct (decide (j = f)) as [->|]; [|by rewrite list_lookup_alter_ne]. rewrite list_lookup_alter_eq. destruct (ftable s !! f) as [x|] eqn:E; [|done].
    cbn. f_equal. specialize (Ex x eq_refl). destruct x. cbn in *. by subst.
Qed.

(** After the write, before the commit. *)
Record chunk_mid (l : list Z) (m : nat) (s5 : kernel) (w : Z -> list Z) (bl : list Z) (nb' : Z) : Prop := mkChunkMid {
  cm_len : (m <= length l)%nat /\ (m = length l \/ disk_full s5 w);
  cm_txn : txn s5 w bl /\ bl <> [];
  cm_run : log_outstanding (logst s5) = 1 /\ log_committing (logst s5) = false;
  cm_where : log_start (logst s5) = log_start (logst s) /\ log_size (logst s5) = log_size (logst s);
  cm_disk : disk s5 = disk s /\ sb s5 = sb s /\ same_user s s5;
  cm_ftable : ftable s5 = alter (set_f_off (off + Z.of_nat m)) f (ftable s);
  cm_file : bm_ok s5 w [] /\ file_inv s5 w [] ip nb';
  cm_inode : let i := itable s !!! ip in let i' := itable s5 !!! ip in
    i_inum i' = i_inum i /\ i_valid i' = true /\ 1 <= i_ref i' /\ sl_locked (i_lock i') = false /\ i_size i' = Z.max (i_size i) (off + Z.of_nat m);
  cm_dinode : dinode_at w (sb s) (i_inum (itable s !!! ip)) = dinode_of (itable s5 !!! ip);
  cm_bytes : forall o, 0 <= o < i_size (itable s5 !!! ip) -> fbyte w (itable s5 !!! ip) o =
    if decide (off <= o < off + Z.of_nat m) then l !!! Z.to_nat (o - off) else fbyte v (itable s !!! ip) o
}.

Lemma chunk_mid_ok {A} G src l (K : Z -> M kernel A) : let n := Z.of_nat (length l) in source s G -> G src l -> 0 < n <= MAXWRITE -> off + n <= MAXFILE * BSIZE ->
  exists m s5 w bl nb', chunk_then f src n K s = (end_op ;; K (Z.of_nat m)) s5 /\ chunk_mid l m s5 w bl nb'.
Proof.
  intros n HG Hsrc Hn Hmax. destruct opened_ok as (D2 & V2 & U2). destruct opened_inode as [Ei2 El2]. pose proof (fw_off _ _ _ _ _ W) as Ho. destruct (fw_file _ _ _ _ _ W) as (Hf & Eip & Eo).
  destruct (fw_entry _ _ _ _ _ W) as (N1 & N2 & N3). set (i := itable s !!! ip) in *. set (s2 := opened s ip) in *. pose proof (touched_chunk off n ltac:(lia) Hn) as Ht.
  destruct (writei_from s2 v [] [] ip nb off G src l 0) as (m & s3 & w & bl & nb' & E3 & Hm & C3 & D3 & V3 & S3 & (a & Et) & Ed & B3 & _ & Hne).
  { by eapply source_same. } { done. } { eapply disk_ok_weaken; [|exact D2]. fold n. lia. } { done. } { rewrite Ei2. exact Ho. } { done. }
  rewrite Ei2 in B3, Ed. fold n in E3. assert (Hip2 : (ip < length (itable s2))%nat) by apply V2.
  assert (Ei3 : itable s3 !!! ip = set_i_size (Z.max (i_size i) (off + Z.of_nat m)) (set_i_addrs a (set_i_lock (mkSleeplock true (mypid s)) i))) by (rewrite Et, alter_total_inode, Ei2 by done; done).
  assert (Hh3 : held s3 = ∅). { change (held (set_itable (itable s2) s3) = ∅). rewrite (tstep_held _ _ S3). apply W. }
  assert (Ep3 : mypid s3 = mypid s) by exact (ts_pid _ _ S3). pose proof (same_user_tstep _ _ S3) as [Um Uf Uh Ume].
  assert (Ef3 : ftable s3 = ftable s) by exact (f_equal ftable (ts_state _ _ S3)).
  pose proof (f_equal logst (ts_state _ _ S3)) as El3. change (logst s3 = set_log_lh (log_lh (logst s3)) (set_log_outstanding 1 (logst s))) in El3.
  assert (Hbig : MAXFILE * BSIZE < 2 ^ 32) by (vm_compute; done).
  set (s4 := set_ftable (alter (set_f_off (off + Z.of_nat m)) f (ftable s)) s3).
  set (s5 := set_procs (wake (cur s4) (sl_chan (SlInode ip)) (procs s4)) (put_sl (SlInode ip) unlock s4)).
  assert (Ei5 : itable s5 !!! ip = set_i_lock (mkSleeplock false 0) (itable s3 !!! ip)) by (cbn; by rewrite alter_total_inode by apply V3).
  assert (Eme : mine s5 = mine s). { transitivity (mine s3); [unfold mine, s5; cbn [procs cur set_procs put_sl set_itable]; apply wake_me | exact Ume]. }
  exists m, s5, w, bl, nb'. split.
  - unfold chunk_then. rewrite (opened_run (fun x => r ← writei (f_ip x) src (f_off x) n; _)). cbv beta. rewrite Eip, Eo. erewrite bind_Ret by exact E3. cbv beta.
    erewrite bind_Ret by (apply move_off; [done | lia]). fold s4.
    erewrite bind_Ret; [reflexivity |]. apply iunlock_mine; [change (i_lock (itable s3 !!! ip) = mkSleeplock true (mypid s3)); by rewrite Ei3, Ep3 | change (1 <= i_ref (itable s3 !!! ip)); by rewrite Ei3 |].
    intros lk. change (lk ∉ held s3). rewrite Hh3. apply not_elem_of_empty.
  - split.
    + split; [done |]. destruct C3 as [|[? _]]; [by left | by right].
    + split; [|done]. apply txn_tx; [change (1 <= log_outstanding (logst s3)); rewrite El3; cbn; lia |]. eapply (tx_other s3); [apply D3 | done..|]. rewrite Ep3. exact (mine_pid _ _ Eme).
    + change (log_outstanding (logst s3) = 1 /\ log_committing (logst s3) = false). rewrite El3. split; [reflexivity | exact (li_commit _ (fw_idle _ _ _ _ _ W))].
    + change (log_start (logst s3) = log_start (logst s) /\ log_size (logst s3) = log_size (logst s)). rewrite El3. split; reflexivity.
    + split_and!; [exact (tstep_disk _ _ S3) | exact (tstep_sb _ _ S3) |]. split; [exact Um | exact Uf | exact Uh | exact Eme].
    + reflexivity.
    + assert (Hs : forall b, in_log (logst s5) b <-> in_log (logst s3) b) by reflexivity. assert (Hv : forall b, ~ in_log (logst s3) b -> w b = w b) by reflexivity.
      split; [exact (bm_ok_home s3 s5 w w eq_refl Hs Hv (dk_bm _ _ _ _ _ D3) (dk_size _ _ _ _ _ D3)) |].
      apply (file_inv_home s3 s5 w w eq_refl Hs Hv (dk_bm _ _ _ _ _ D3) ip nb' V3); [cbn [s5 itable set_procs put_sl set_itable s4 set_ftable]; rewrite length_alter; apply V3 | rewrite Ei5; split_and!; reflexivity].
    + cbv zeta. rewrite Ei5, Ei3. split_and!; [reflexivity | exact N1 | exact N2 | reflexivity | reflexivity].
    + rewrite Ei5. exact Ed.
    + rewrite Ei5. exact B3.
Qed.

(** What one transaction leaves. *)
Record chunk_done (l : list Z) (m : nat) (s' : kernel) (nb' : Z) : Prop := mkChunkDone {
  cd_len : (m <= length l)%nat /\ (m = length l \/ disk_full s' (d_blocks (disk s')));
  cd_next : fwst s' f ip nb' (off + Z.of_nat m);
  cd_user : same_user s s';
  cd_same : sb s' = sb s /\ i_inum (itable s' !!! ip) = i_inum (itable s !!! ip);
  cd_content : content (d_blocks (disk s')) (sb s) (i_inum (itable s !!! ip)) = overwrite (content v (sb s) (i_inum (itable s !!! ip))) off (take m l);
  cd_writes : exists ws, disk s' = run_writes ws (disk s);
  cd_crash : forall d, crash_disk s s' d -> exists r, reboot (sb s) d = Ret tt r /\ quiet r (d_blocks (disk r)) [] /\
    (content (d_blocks (disk r)) (sb s) (i_inum (itable s !!! ip)) = content v (sb s) (i_inum (itable s !!! ip)) \/
     content (d_blocks (disk r)) (sb s) (i_inum (itable s !!! ip)) = content (d_blocks (disk s')) (sb s) (i_inum (itable s !!! ip)))
}.

Lemma chunk_end l m s5 w bl nb' : chunk_mid l m s5 w bl nb' -> exists s', end_op s5 = Ret tt s' /\ chunk_done l m s' nb'.
Proof.
  intros [Hl [T Hne] [R1 R2] [L1 L2] (Ed & Es & U) Eft [B V5] (I1 & I2 & I3 & I4 & I5) Edi Hby]. destruct (fw_geom _ _ _ _ _ W) as (G1 & G2 & G3 & G4). destruct (fw_idle _ _ _ _ _ W) as [_ _ _ Hz].
  destruct (end_op_atomic s5 w bl (sb s) T R1 R2) as (s' & E & Hw & Bs & Li & S1 & S2 & Hws & Hcr); [by rewrite L1, Ed | done | done | by rewrite L1 | by rewrite L2 |].
  exists s'. split; [exact E |]. pose proof (bs_state _ _ Bs) as Est. assert (Eit : itable s' = itable s5) by exact (f_equal itable Est). assert (Esb : sb s' = sb s) by (rewrite <- Es; exact (f_equal sb Est)).
  assert (Efs : ftable s' = ftable s5) by exact (f_equal ftable Est). assert (U5 : same_user s5 s').
  { split; [exact (f_equal mem Est) | exact (f_equal freelist Est) | exact (f_equal held Est) | exact (bs_me _ _ Bs)]. }
  assert (Hlog : forall b, in_log (logst s') b <-> in_log (logst s5) b) by (intros b; unfold in_log; by rewrite S1, S2).
  assert (Hlog5 : forall b, in_log (logst s5) b <-> in_log (logst s) b) by (intros b; unfold in_log; by rewrite L1, L2).
  assert (Es5 : sb s' = sb s5) by congruence. assert (H0 : 0 < sb_size (sb s5)) by (rewrite Es; apply (fw_bm _ _ _ _ _ W)).
  pose proof (file_inv_home s5 s' w (d_blocks (disk s')) Es5 Hlog Hw B ip nb' V5) as V'. rewrite Eit in V'. specialize (V' (fi_index _ _ _ _ _ V5) (conj eq_refl (conj eq_refl eq_refl))).
  set (i := itable s !!! ip) in *. assert (Edi5 : dinode_at w (sb s5) (i_inum (itable s5 !!! ip)) = dinode_of (itable s5 !!! ip)) by (rewrite Es, I1; exact Edi).
  destruct (file_inv_node s5 w ip nb' V5 Edi5) as (A5 & Z5 & F5 & H5). rewrite Es, I1 in A5, Z5, F5, H5.
  destruct (file_inv_node s v ip nb (fw_inode _ _ _ _ _ W) (fw_disk _ _ _ _ _ W)) as (A0 & Z0 & F0 & H0'). fold i in A0, Z0, F0, H0'.
  assert (Cw : forall x, home_is (logst s5) x w -> content (d_blocks (disk x)) (sb s) (i_inum i) = content w (sb s) (i_inum i)).
  { intros x Hx. rewrite <- Es. apply (content_home s5); rewrite ?Es; done. }
  assert (Cv : forall x, home_is (logst s5) x v -> content (d_blocks (disk x)) (sb s) (i_inum i) = content v (sb s) (i_inum i)).
  { intros x Hx. apply (content_home s); [done | done |]. intros b Hb. apply Hx. by rewrite Hlog5. }
  pose proof (fw_off _ _ _ _ _ W) as Ho. fold i in Ho. destruct Hl as [Hlen Hfull]. destruct (fw_file _ _ _ _ _ W) as (Hf & Eip & _). split.
  - split; [done |]. destruct Hfull as [|Hfull]; [by left | right]. intros b Hb. rewrite Esb in *. rewrite <- Es in *. rewrite (used_home s5 w _ Hw B b Hb). by apply Hfull.
  - split.
    + rewrite (su_held _ _ U5), (su_held _ _ U). apply W.
    + exact Li.
    + rewrite Esb, S1, S2, L1, L2. done.
    + split; [exact (bm_ok_home s5 s' w _ Es5 Hlog Hw B H0) | by rewrite Es5].
    + rewrite Efs, Eft, length_alter. split; [done |]. destruct (lookup_lt_is_Some_2 (ftable s) f Hf) as [y Ey]. rewrite list_lookup_total_alt, list_lookup_alter_eq, Ey. cbn.
      split; [|done]. rewrite <- Eip. by rewrite (list_lookup_total_correct _ _ _ Ey).
    + exact V'.
    + rewrite Eit, Esb. rewrite <- Es. rewrite <- Edi5. unfold dinode_at. rewrite Hw; [done |]. rewrite Es, I1. apply H5.
    + rewrite Eit. done.
    + rewrite Eit, I5. lia.
  - by eapply same_user_trans.
  - split; [done |]. by rewrite Eit.
  - fold i. rewrite (Cw s' Hw). unfold content at 1. rewrite Z5, (fbytes_view w _ (itable s5 !!! ip)) by done. unfold content. rewrite Z0, (fbytes_view v _ i) by done.
    apply content_overwrite; [done | by rewrite length_take_le by lia |]. intros o Hor. rewrite length_take_le by lia. rewrite Hby by done. case_decide as Hd; [|done].
    rewrite !list_lookup_total_alt, lookup_take_lt by lia. done.
  - rewrite <- Ed. exact Hws.
  - intros d Hd. assert (Hd5 : crash_disk s5 s' d) by (unfold crash_disk in *; by rewrite Ed). destruct (Hcr d Hd5) as (r & Rr & Q & [Hr|Hr]); exists r; (split; [done |]); (split; [done |]).
    + left. fold i. apply Cv. rewrite <- Ed. exact Hr.
    + right. fold i. rewrite (Cw r Hr). symmetry. by apply Cw.
Qed.

Lemma chunk_ok {A} G src l (K : Z -> M kernel A) : let n := Z.of_nat (length l) in source s G -> G src l -> 0 < n <= MAXWRITE -> off + n <= MAXFILE * BSIZE ->
  exists m s' nb', chunk_then f src n K s = K (Z.of_nat m) s' /\ chunk_done l m s' nb'.
Proof.
  intros n HG Hsrc Hn Hmax. destruct (chunk_mid_ok G src l K HG Hsrc Hn Hmax) as (m & s5 & w & bl & nb' & E & M). destruct (chunk_end _ _ _ _ _ _ M) as (s' & E' & D).
  exists m, s', nb'. split; [|done]. fold n in E. rewrite E. by erewrite bind_Ret by exact E'.
Qed.
End chunk.

(** ** The whole write *)

(** The bytes at a user address. *)
Definition user_bytes (m : memory) (u : uspace) (src : ksrc) (l : list Z) : Prop :=
  exists va, src = SUser va /\ 0 <= va /\ va + Z.of_nat (length l) < 2 ^ 62 /\ uread m u va (length l) = Some l.

Lemma uread_split m u va a b l : uread m u va (a + b) = Some l -> uread m u va a = Some (take a l) /\ uread m u (va + Z.of_nat a) b = Some (drop a l).
Proof.
  rewrite uread_app. intros E. destruct (uread m u va a) as [l1|] eqn:E1; [|done]. cbn in E. destruct (uread m u (va + Z.of_nat a) b) as [l2|] eqn:E2; [|done]. cbn in E.
  injection E as <-. apply uread_length in E1 as <-. by rewrite take_app_length, drop_app_length.
Qed.

Lemma user_bytes_split m u va l k : (k <= length l)%nat -> user_bytes m u (SUser va) l -> user_bytes m u (SUser va) (take k l) /\ user_bytes m u (SUser (u64 (va + Z.of_nat k))) (drop k l).
Proof.
  intros Hk (va' & E & H1 & H2 & H3). injection E as <-. replace (length l) with (k + (length l - k))%nat in H3 by lia. apply uread_split in H3 as [R1 R2].
  split; [exists va | exists (va + Z.of_nat k); rewrite wrap_small by lia]; rewrite ?length_take, ?length_drop; split_and!; try done; try lia. by replace (k `min` length l)%nat with k by lia.
Qed.

(** copyin delivers them. *)
Lemma user_source `{HL : Layout} {HOk : LayoutOk HL} s t u fr : as_inv s (p_pagetable (mine s)) t u fr -> own_inv t u fr -> user_low u -> held s = ∅ -> source s (user_bytes (mem s) u).
Proof.
  intros I O L Hh src l m s' Hsrc [E1 E2 E3 E4] Hm. pose proof Hsrc as (va & -> & H1 & H2 & H3).
  destruct (user_bytes_split (mem s) u va l (Z.to_nat m) ltac:(lia) Hsrc) as [(va' & Ev & _ & _ & R) D]. injection Ev as <-. rewrite length_take_le in R by lia.
  rewrite Z2Nat.id in D by lia. split; [|exact D].
  assert (I' : as_inv s' (p_pagetable (mine s)) t u fr) by (apply (as_inv_same s); [done | done | rewrite E3, Hh; apply not_elem_of_empty | done]).
  unfold either_copyin, my_pagetable. erewrite bind_Ret by reflexivity. cbv beta. change (p_pagetable (procs s' !!! cur s')) with (p_pagetable (mine s')). rewrite E4.
  destruct (copyin_loop_ok s' (p_pagetable (mine s)) t u fr I' O L (Z.to_nat (m / PGSIZE + 3)) va m []) as (r & l' & Hr & C); [lia | lia | lia | apply copy_fuel; lia |].
  rewrite E1 in C. destruct C as [[-> C]|[_ C]]; [|congruence]. rewrite R in C. injection C as <-. exact Hr.
Qed.

Lemma overwrite_nil old off : overwrite old off [] = old.
Proof. unfold overwrite. cbn. by rewrite Nat.add_0_r, take_drop. Qed.

Lemma overwrite_app old off a b : (Z.to_nat off <= length old)%nat -> 0 <= off -> overwrite (overwrite old off a) (off + Z.of_nat (length a)) b = overwrite old off (a ++ b).
Proof.
  intros Hl Ho. unfold overwrite. replace (Z.to_nat (off + Z.of_nat (length a))) with (Z.to_nat off + length a)%nat by lia. set (o := Z.to_nat off) in *.
  assert (Ht : length (take o old ++ a) = (o + length a)%nat) by (rewrite length_app, length_take_le by lia; done).
  rewrite (app_assoc (take o old) a). rewrite <- Ht at 1. rewrite take_app_length. rewrite <- !app_assoc. do 3 f_equal.
  rewrite (app_assoc (take o old) a). rewrite drop_app_ge by lia. rewrite Ht, drop_drop. f_equal. rewrite length_app. lia.
Qed.

(** A crash in the middle of two stretches of writes is in one of them. *)
Lemma crash_split s s1 s2 ws1 ws2 d : disk s1 = run_writes ws1 (disk s) -> disk s2 = run_writes ws2 (disk s1) -> crash_disk s s2 d -> crash_disk s s1 d \/ crash_disk s1 s2 d.
Proof.
  intros E1 E2 (pre & rest & Ht & ->). rewrite E2, run_writes_trace, E1, run_writes_trace in Ht. rewrite !app_assoc in Ht. apply app_inv_tail in Ht.
  assert (Hp : ws1 ++ ws2 = pre ++ rev rest) by (rewrite <- (rev_involutive (ws1 ++ ws2)), rev_app_distr, Ht, rev_app_distr, rev_involutive; done).
  apply app_eq_inv in Hp as [(k & -> & _)|(k & -> & Hk)].
  - left. exists pre, (rev k). split; [|done]. rewrite E1, run_writes_trace, rev_app_distr, app_assoc. done.
  - right. exists k, rest. rewrite E2, run_writes_trace. split.
    + rewrite Hk, rev_app_distr, rev_involutive, app_assoc. done.
    + rewrite E1. unfold run_writes. by rewrite foldl_app.
Qed.

(** After a write of [l] that stored [m] bytes: the file holds them from the old
    offset on; a crash on the way leaves the bytes of the transactions before it. *)
Record write_done (s : kernel) (f ip : nat) (off : Z) (l : list Z) (m : nat) (s' : kernel) (nb' : Z) : Prop := mkWriteDone {
  wd_len : (m <= length l)%nat /\ (m = length l \/ disk_full s' (d_blocks (disk s')));
  wd_next : fwst s' f ip nb' (off + Z.of_nat m);
  wd_user : same_user s s';
  wd_same : sb s' = sb s /\ i_inum (itable s' !!! ip) = i_inum (itable s !!! ip);
  wd_content : content (d_blocks (disk s')) (sb s) (i_inum (itable s !!! ip)) = overwrite (content (d_blocks (disk s)) (sb s) (i_inum (itable s !!! ip))) off (take m l);
  wd_writes : exists ws, disk s' = run_writes ws (disk s);
  wd_crash : forall d, crash_disk s s' d -> exists r k, reboot (sb s) d = Ret tt r /\ quiet r (d_blocks (disk r)) [] /\
    (k <= m)%nat /\ (k = m \/ Z.of_nat k mod MAXWRITE = 0) /\
    content (d_blocks (disk r)) (sb s) (i_inum (itable s !!! ip)) = overwrite (content (d_blocks (disk s)) (sb s) (i_inum (itable s !!! ip))) off (take k l)
}.

Lemma length_content s f ip nb off : fwst s f ip nb off -> (Z.to_nat off <= length (content (d_blocks (disk s)) (sb s) (i_inum (itable s !!! ip))))%nat.
Proof.
  intros W. destruct (file_inv_node s _ ip nb (fw_inode _ _ _ _ _ W) (fw_disk _ _ _ _ _ W)) as (_ & E & _). unfold content. rewrite length_fbytes, E. pose proof (fw_off _ _ _ _ _ W). lia.
Qed.

(** A write that stops in its first transaction. *)
Lemma write_first s f ip nb off l n1 m s' nb' : fwst s f ip nb off -> (n1 <= length l)%nat -> chunk_done s f ip off (take n1 l) m s' nb' -> (m < n1 \/ n1 = length l)%nat ->
  write_done s f ip off l m s' nb'.
Proof.
  intros W Hn [[C1 C1'] C2 C3 C4 C5 C6 C7] Hm. rewrite length_take_le in C1, C1' by lia. split; try done.
  - split; [lia |]. destruct C1' as [->|?]; [|by right]. destruct Hm; [lia |]. left. lia.
  - rewrite take_take in C5. by replace (m `min` n1)%nat with m in C5 by lia.
  - intros d Hd. destruct (C7 d Hd) as (r & Hr & Q & [Ec|Ec]).
    + exists r, 0%nat. split; [exact Hr |]. split; [exact Q |]. split; [lia |]. split; [by right |]. rewrite firstn_O, overwrite_nil. exact Ec.
    + exists r, m. split; [exact Hr |]. split; [exact Q |]. split; [lia |]. split; [by left |]. rewrite Ec, C5, take_take. by replace (m `min` n1)%nat with m by lia.
Qed.

(** A whole transaction, and then the rest. *)
Lemma write_more s f ip nb off l n1 s1 nb1 m s' nb' : fwst s f ip nb off -> (n1 <= length l)%nat -> Z.of_nat n1 mod MAXWRITE = 0 -> chunk_done s f ip off (take n1 l) n1 s1 nb1 ->
  write_done s1 f ip (off + Z.of_nat n1) (drop n1 l) m s' nb' -> write_done s f ip off l (n1 + m) s' nb'.
Proof.
  intros W Hn Hmod [C1 C2 C3 [C4 C4'] C5 [ws1 C6] C7] [[D1 D1'] D2 D3 [D4 D4'] D5 [ws2 D6] D7]. rewrite C4, C4' in *. pose proof (length_content _ _ _ _ _ W) as Hl. pose proof (fw_off _ _ _ _ _ W) as Ho.
  rewrite take_take, Nat.min_id in C5. rewrite length_drop in D1, D1'.
  assert (Ht : forall k, overwrite (content (d_blocks (disk s1)) (sb s) (i_inum (itable s !!! ip))) (off + Z.of_nat n1) (take k (drop n1 l)) = overwrite (content (d_blocks (disk s)) (sb s) (i_inum (itable s !!! ip))) off (take (n1 + k) l)).
  { intros k. rewrite C5. pose proof (overwrite_app (content (d_blocks (disk s)) (sb s) (i_inum (itable s !!! ip))) off (take n1 l) (take k (drop n1 l)) Hl ltac:(lia)) as E.
    rewrite length_take_le in E by lia. rewrite E. by rewrite take_take_drop. }
  split.
  - split; [lia |]. destruct D1'; [left; lia | by right].
  - by replace (off + Z.of_nat (n1 + m)) with (off + Z.of_nat n1 + Z.of_nat m) by lia.
  - by eapply same_user_trans.
  - done.
  - rewrite D5. apply Ht.
  - exists (ws1 ++ ws2). rewrite D6, C6. unfold run_writes. by rewrite foldl_app.
  - intros d Hd. destruct (crash_split s s1 s' ws1 ws2 d C6 D6 Hd) as [H1|H1].
    + destruct (C7 d H1) as (r & Hr & Q & [Ec|Ec]).
      * exists r, 0%nat. split; [exact Hr |]. split; [exact Q |]. split; [lia |]. split; [by right |]. rewrite firstn_O, overwrite_nil. exact Ec.
      * exists r, n1. split; [exact Hr |]. split; [exact Q |]. split; [lia |]. split; [by right |]. by rewrite Ec.
    + destruct (D7 d H1) as (r & k & Hr & Q & Hk & Hb & Ec). exists r, (n1 + k)%nat. split; [exact Hr |]. split; [exact Q |]. split; [lia |]. split; [|by rewrite Ec].
      destruct Hb as [->|Hb]; [by left | right]. rewrite Nat2Z.inj_add, Z.add_mod, Hmod, Hb by done. done.
Qed.

(** Nothing to write. *)
Lemma write_none s f ip nb off : fwst s f ip nb off -> write_done s f ip off [] 0 s nb.
Proof.
  intros W. rewrite <- (Z.add_0_r off) in W. destruct (file_inv_node s _ ip nb (fw_inode _ _ _ _ _ W) (fw_disk _ _ _ _ _ W)) as (_ & _ & F & Hh). split.
  - split; [cbn; lia | by left].
  - exact W.
  - apply same_user_refl.
  - done.
  - by rewrite firstn_nil, overwrite_nil.
  - by exists [].
  - intros d Hd. destruct (crash_prefix s s [] d eq_refl Hd) as (pre & post & Ep & Eo). symmetry in Ep. apply app_eq_nil in Ep as [-> ->].
    destruct (fw_idle _ _ _ _ _ W) as [T _ _ Hz]. destruct (fw_geom _ _ _ _ _ W) as (G1 & G2 & G3 & _).
    destruct (commit_recovers s _ [] (sb s) [] _ d T G1 G2 G3 Hz eq_refl Eo) as (r & Hr & Q & _ & _ & C).
    exists r, 0%nat. split; [exact Hr |]. split; [exact Q |]. split; [lia |]. split; [by left |]. rewrite firstn_nil, overwrite_nil. apply (content_home s); [exact F | exact Hh |]. by destruct C.
Qed.

Section write.
Context (f ip : nat) (addr n : Z) (m0 : memory) (u : uspace) (Ha : 0 <= addr) (Hn : addr + n < 2 ^ 62).

Lemma filewrite_loop_ok : forall fuel s nb off i l, fwst s f ip nb off -> source s (user_bytes m0 u) -> user_bytes m0 u (SUser (addr + i)) l -> 0 <= i -> n = i + Z.of_nat (length l) ->
  off + Z.of_nat (length l) <= MAXFILE * BSIZE -> (Z.of_nat (length l) + MAXWRITE - 1) / MAXWRITE < Z.of_nat fuel ->
  exists r s' m nb', filewrite_loop fuel f addr n i s = Ret r s' /\ (r = n <-> m = length l) /\ write_done s f ip off l m s' nb'.
Proof.
  induction fuel as [|fuel IH]; intros s nb off i l W HG Hl Hi En Hmax Hf.
  { assert (0 <= (Z.of_nat (length l) + MAXWRITE - 1) / MAXWRITE) by (apply Z.div_pos; [change MAXWRITE with 3072; lia | done]). lia. }
  cbn [filewrite_loop]. destruct (Z.ltb_spec i n) as [Hlt|Hge].
  2: { assert (l = []) as -> by (apply nil_length_inv; lia). exists i, s, 0%nat, nb. split; [done |]. split; [cbn in *; lia | by apply write_none]. }
  set (N := Z.to_nat (Z.min (n - i) MAXWRITE)). assert (HN : (0 < N <= length l)%nat /\ Z.of_nat N <= MAXWRITE /\ Z.of_nat N = Z.min (n - i) MAXWRITE) by (change MAXWRITE with 3072 in *; lia).
  destruct HN as (HN & HNM & EN). assert (El : length (take N l) = N) by (apply length_take_le; lia). destruct (user_bytes_split m0 u (addr + i) l N ltac:(lia) Hl) as [U1 U2].
  rewrite (wrap_small 64 (addr + i)) by lia.
  match goal with |- context [begin_op ≫= ?k] => change (begin_op ≫= k) with (chunk_then f (SUser (addr + i)) (Z.min (n - i) MAXWRITE)
    (fun r => if negb (r =? Z.min (n - i) MAXWRITE) then mret i else filewrite_loop fuel f addr n (i + r))) end.
  destruct (chunk_ok s f ip nb off W (user_bytes m0 u) (SUser (addr + i)) (take N l)
    (fun r => if negb (r =? Z.min (n - i) MAXWRITE) then mret i else filewrite_loop fuel f addr n (i + r)) HG U1) as (m & s1 & nb1 & E1 & C1); rewrite ?El; [lia | lia |].
  rewrite El, EN in E1. rewrite E1. pose proof (cd_len _ _ _ _ _ _ _ _ C1) as [Hm _]. rewrite El in Hm. destruct (Z.eqb_spec (Z.of_nat m) (Z.min (n - i) MAXWRITE)) as [Em|Em]; cbn [negb].
  - assert (m = N) as -> by lia. destruct (decide (N = length l)) as [Hall|Hpart].
    + assert (0 < fuel)%nat. { assert (1 <= (Z.of_nat (length l) + MAXWRITE - 1) / MAXWRITE) by (apply Z.div_le_lower_bound; change MAXWRITE with 3072 in *; lia). lia. }
      destruct fuel as [|fuel]; [lia |]. exists n, s1, N, nb1. cbn [filewrite_loop]. destruct (Z.ltb_spec (i + Z.of_nat N) n); [lia |].
      split; [unfold mret, M_ret, ret; f_equal; lia |]. split; [lia |]. eapply write_first; [exact W | | exact C1 | right; exact Hall]. lia.
    + assert (EM : Z.of_nat N = MAXWRITE) by lia. replace (addr + i + Z.of_nat N) with (addr + (i + Z.of_nat N)) in U2 by lia. rewrite (wrap_small 64) in U2 by lia.
      destruct (IH s1 nb1 (off + Z.of_nat N) (i + Z.of_nat N) (drop N l)) as (r & s2 & m2 & nb2 & E2 & Hr & D2); rewrite ?length_drop.
      * apply C1.
      * eapply source_same; [exact HG | apply C1].
      * exact U2.
      * lia.
      * lia.
      * lia.
      * replace (Z.of_nat (length l - N)) with (Z.of_nat (length l) - MAXWRITE) by lia.
        replace (Z.of_nat (length l) + MAXWRITE - 1) with ((Z.of_nat (length l) - MAXWRITE + MAXWRITE - 1) + 1 * MAXWRITE) in Hf by lia. rewrite Z.div_add in Hf by done. lia.
      * exists r, s2, (N + m2)%nat, nb2. split; [exact E2 |]. split; [rewrite length_drop in Hr; rewrite Hr; lia |]. eapply write_more; [exact W | lia | rewrite EM; by apply Z.mod_same | exact C1 | exact D2].
  - exists i, s1, m, nb1. split; [done |]. split; [lia |]. eapply write_first; [exact W | | exact C1 | left; lia]. lia.
Qed.
End write.

(** C2: filewrite to a file, of the bytes a process has at a user address, end
    to end: the file then holds them from the descriptor's offset on, as far as
    the disk had room, the offset has moved past them, and the result is the length,
    or -1 when not all were stored. A crash at any point of the write, between any
    two disk writes, and a reboot leave the bytes of the transactions before it,
    whole multiples of the most one transaction may write, or all. *)
Theorem filewrite_atomic `{HL : Layout} {HOk : LayoutOk HL} (s : kernel) (f ip : nat) (nb off : Z) (t : ptree) (u : uspace) (fr : list Z) (addr : Z) (l : list Z)
    (W : fwst s f ip nb off) (Hf : f_type (ftable s !!! f) = FD_INODE /\ f_writable (ftable s !!! f) = true)
    (I : as_inv s (p_pagetable (mine s)) t u fr) (O : own_inv t u fr) (L : user_low u)
    (Hl : uread (mem s) u addr (length l) = Some l) (Ha : 0 <= addr) (Hlim : addr + Z.of_nat (length l) < 2 ^ 62) (Hmax : off + Z.of_nat (length l) <= MAXFILE * BSIZE) :
  exists m s' nb', filewrite f addr (Z.of_nat (length l)) s = Ret (if decide (m = length l) then Z.of_nat (length l) else -1) s' /\
    write_done s f ip off l m s' nb'.
Proof.
  destruct Hf as [Ht Hw]. set (n := Z.of_nat (length l)) in *.
  destruct (filewrite_loop_ok f ip addr n (mem s) u Ha Hlim (Z.to_nat (n / MAXWRITE + 2)) s nb off 0 l) as (r & s' & m & nb' & E & Hr & D); try done; try lia.
  - eapply user_source; [exact I | exact O | exact L | apply W].
  - exists addr. rewrite Z.add_0_r. done.
  - assert (Hd : (n + MAXWRITE - 1) / MAXWRITE <= (n + 1 * MAXWRITE) / MAXWRITE) by (apply Z.div_le_mono; [done | lia]). rewrite Z.div_add in Hd by done.
    assert (0 <= n / MAXWRITE) by (apply Z.div_pos; [lia | done]). fold n. lia.
  - exists m, s', nb'. split; [|exact D]. unfold filewrite, getfile. erewrite bind_Ret by reflexivity. cbv beta. rewrite Ht, Hw. cbn [negb]. cbv iota. erewrite bind_Ret by exact E. cbv beta.
    case_decide as Hd; [apply Hr in Hd as ->; by rewrite Z.eqb_refl |]. destruct (Z.eqb_spec r n) as [En|]; [apply Hr in En; done | done].
Qed.

(** ** A witness: the first bytes of an empty file *)

Definition file_img : Z -> list Z := fupd img0 32 (put_dinode (IOFF 6) (dinode_of (inode6 T_FILE)) zeros).

(** A process with one page of memory, memory [m] and free pages from [fl], and file 6 open as file 2. *)
Definition fw_demo (m : memory) (fl : Z) : kernel :=
  set_mem m (set_freelist fl (set_procs [set_p_pagetable vroot zero_proc] (set_cur 0%nat (set_ftable (<[2%nat := mkFile FD_INODE 1 true true 0 3 0 0]> (replicate (Z.to_nat NFILE) zero_file))
    (set_itable (<[3%nat := inode6 T_FILE]> (itable fs0)) (set_logst (set_log_outstanding 0 log0) (fs_on file_img))))))).

Lemma file_img_len n : length (file_img n) = Z.to_nat BSIZE.
Proof. unfold file_img, fupd. destruct (decide (n = 32)); [vm_compute; reflexivity | apply img0_len]. Qed.

Lemma file_img_used b : 0 <= b < 2000 -> used file_img sb0 b = used img0 sb0 b.
Proof. intros Hb. apply used_fupd; [intros H%fs0_bitmap; lia | exact Hb]. Qed.

Lemma file_img_node : dinode_at file_img sb0 6 = dinode_of (inode6 T_FILE).
Proof. vm_compute. reflexivity. Qed.

Lemma content_file_img : content file_img sb0 6 = [].
Proof. unfold content, node. rewrite file_img_node. reflexivity. Qed.

Lemma fw_demo_disk m fl : d_blocks (disk (fw_demo m fl)) = file_img.
Proof. change (disk (fw_demo m fl)) with (disk (binit_state file_img)). rewrite binit_disk. reflexivity. Qed.

Lemma fw_demo_held m fl : held (fw_demo m fl) = ∅.
Proof. exact (binit_held file_img). Qed.

Lemma fw_demo_inode m fl : itable (fw_demo m fl) !!! 3%nat = inode6 T_FILE.
Proof. exact (fs6_inode T_FILE). Qed.

Lemma fw_demo_idle m fl : log_idle (fw_demo m fl).
Proof.
  assert (T : txn (set_logst (set_log_outstanding 0 log0) (fs_on file_img)) file_img []).
  { apply txn_set_log; [apply (txn_tx (fs_on file_img)); [vm_compute; discriminate | apply fs_on_tx, file_img_len] | reflexivity ..]. }
  split; [|reflexivity | reflexivity |]; rewrite fw_demo_disk; [|vm_compute; reflexivity].
  destruct T as [Q H1 H2 H3 H4]. split; [|exact H1 | exact H2 | exact H3 | exact H4]. eapply cst_other; [exact Q | reflexivity ..].
Qed.

Lemma fw_demo_bm m fl : bm_ok (fw_demo m fl) file_img [].
Proof.
  destruct fs0_bm as [B1 B2 B3 B4 B5 B6 B7]. change (sb fs0) with sb0 in *. change (logst fs0) with log0 in *.
  split; change (sb (fw_demo m fl)) with sb0.
  - exact B1.
  - exact B2.
  - exact B3.
  - intros b Hb Hi. rewrite (file_img_used b Hb). exact (B4 b Hb Hi).
  - intros b Hb Hi. rewrite (file_img_used b Hb). exact (B5 b Hb Hi).
  - rewrite file_img_used by lia. exact B6.
  - intros b Hb. by apply not_elem_of_nil in Hb.
Qed.

Lemma fw_demo_file m fl : file_inv (fw_demo m fl) file_img [] 3 0.
Proof.
  destruct (fs6_file T_FILE ltac:(vm_compute; split; congruence)) as [F1 F2 F3 F4 F5 F6 F7]. rewrite fs6_inode in *.
  split; rewrite ?fw_demo_inode; [exact F1 | | exact F3 | | | exact F6 | exact F7].
  - destruct F2 as [M1 M2 M3 M4 M5 M6 M7 M8 M9]. split; [exact M1 | exact M2 | exact M3 | intros; lia | intros H; exact (False_ind _ (H eq_refl)) | exact M6 | intros; lia | intros; lia |].
    intros k Hk [Hd|Hd]; [|exact (False_ind _ (Hd eq_refl))]. specialize (M9 k Hk (or_introl Hd)). revert M9. unfold baddr. apply Z.ltb_lt in Hd. rewrite Hd. exact id.
  - destruct F4 as (U1 & U2 & U3). split; [exact U1 |]. split; [|exact U3]. change (sb (fw_demo m fl)) with sb0. change (sb (fs6 T_FILE)) with sb0 in U2.
    rewrite file_img_used; [exact U2 | vm_compute; split; congruence].
  - destruct F5 as [H1 [H2 H3] H4]. split; [exact H1 | split; [exact H2 | exact H3] | exact H4].
Qed.

Lemma fw_demo_ok m fl : fwst (fw_demo m fl) 2 3 0 0.
Proof.
  split; rewrite ?fw_demo_disk, ?fw_demo_inode.
  - apply fw_demo_held.
  - apply fw_demo_idle.
  - split; [split; vm_compute; congruence | split; [reflexivity | split; reflexivity]].
  - split; [apply fw_demo_bm | reflexivity].
  - split; [|split; reflexivity]. cbn [ftable fw_demo]. apply Nat.ltb_lt. vm_compute. reflexivity.
  - apply fw_demo_file.
  - apply file_img_node.
  - split; [reflexivity | split; [apply Z.le_refl | reflexivity]].
  - split; apply Z.le_refl.
Qed.

Lemma filewrite_atomic_witness : exists s m s', filewrite 2 100 3 s = Ret (if decide (m = 3%nat) then 3 else -1) s' /\ (m <= 3)%nat /\
  content (d_blocks (disk s')) sb0 6 = take m [0; 0; 0].
Proof.
  destruct vm_demo_grown as (s & t & u & fr & pg & _ & I & O & S & H0 & Hk & Hz).
  set (s1 := fw_demo (mem s) (freelist s)). exists s1.
  assert (I1 : @as_inv vm_layout s1 vroot t u fr).
  { apply (@as_inv_same vm_layout s s1 vroot t u fr eq_refl eq_refl); [unfold s1; rewrite fw_demo_held; apply not_elem_of_empty | exact I]. }
  assert (Hr : uread (mem s) u 100 3 = Some [0; 0; 0]).
  { cbn [uread]. rewrite !(demo_umem (mem s) u pg) by (exact H0 || lia). rewrite !Hz by (split; unfold PGSIZE; lia). reflexivity. }
  destruct (@filewrite_atomic vm_layout vm_layout_ok s1 2 3 0 0 t u fr 100 [0; 0; 0] (fw_demo_ok _ _) (conj eq_refl eq_refl) I1 O (demo_user_low u (pg, 22) H0 Hk) Hr)
    as (m & s' & nb' & E & D); [lia | reflexivity | vm_compute; congruence |].
  exists m, s'. split; [exact E |]. split; [exact (proj1 (wd_len _ _ _ _ _ _ _ _ D)) |]. pose proof (wd_content _ _ _ _ _ _ _ _ D) as C.
  unfold s1 in C. rewrite fw_demo_disk, fw_demo_inode in C. change (i_inum (inode6 T_FILE)) with 6 in C. change (sb (fw_demo (mem s) (freelist s))) with sb0 in C. rewrite content_file_img in C. unfold overwrite in C. rewrite drop_nil, app_nil_r in C. exact C.
Defined.
