(* ===== verification/Exec.v ===== *)
(** * kernel/exec.c: replacing a process image by a program

    The ELF and program headers are variables filled by readi and decoded
    field by field; [argv] is the list of argument strings. *)

From S2P Require Import Prelude State Mem Spinlock Sched Sleeplock Bio Log Memlayout Kalloc Vm Uart Printf Copy Console Pipe Fs File Proc.

Definition get64 (off : Z) (data : list Z) : Z := le_dec (slice off 8 data).

Definition ELF_MAGIC : Z := 0x464C457F.
Definition ELF_PROG_LOAD : Z := 1.
Definition ELFHDR : Z := 64.
Definition PROGHDR : Z := 56.

(** [struct elfhdr] *)
Definition elf_magic (h : list Z) : Z := get32 0 h.
Definition elf_entry (h : list Z) : Z := get64 24 h.
Definition elf_phoff (h : list Z) : Z := get64 32 h.
Definition elf_phnum (h : list Z) : Z := get16 56 h.
(** [struct proghdr] *)
Definition ph_type (h : list Z) : Z := get32 0 h.
Definition ph_flags (h : list Z) : Z := get32 4 h.
Definition ph_off (h : list Z) : Z := get64 8 h.
Definition ph_vaddr (h : list Z) : Z := get64 16 h.
Definition ph_filesz (h : list Z) : Z := get64 32 h.
Definition ph_memsz (h : list Z) : Z := get64 40 h.

Definition flags2perm (flags : Z) : Z :=
  let perm := if Z.land flags 1 =? 0 then 0 else PTE_X in
  if Z.land flags 2 =? 0 then perm else Z.lor perm PTE_W.

Section exec.
Context {L : Layout}.

Fixpoint loadseg_loop (fuel : nat) (pagetable va : Z) (ip : nat) (offset sz i : Z) : M kernel Z :=
  match fuel with
  | O => nofuel
  | S fuel =>
      if i <? sz then
        pa ← walkaddr pagetable (u64 (va + i));
        if pa =? 0 then panic "loadseg: address should exist" else
        let n := if sz - i <? PGSIZE then sz - i else PGSIZE in
        r ← readi ip (DPhys pa) (u32 (offset + i)) n;
        if negb (fst r =? n) then mret (-1) else
        loadseg_loop fuel pagetable va ip offset sz (i + PGSIZE)
      else mret 0
  end.

(** Load a program segment into pagetable at virtual address va. *)
Definition loadseg (pagetable va : Z) (ip : nat) (offset sz : Z) : M kernel Z :=
  loadseg_loop (Z.to_nat (u32 sz / PGSIZE + 2)) pagetable va ip (u32 offset) (u32 sz) 0.

(** The program-loading loop: whether it succeeded, and the size so far. *)
Fixpoint load_segments (k : nat) (pagetable : Z) (ip : nat) (off sz : Z) : M kernel (bool * Z) :=
  match k with
  | O => mret (true, sz)
  | S k =>
      r ← readi ip DVar (u32 off) PROGHDR;
      if negb (fst r =? PROGHDR) then mret (false, sz) else
      let ph := snd r in
      if negb (ph_type ph =? ELF_PROG_LOAD) then load_segments k pagetable ip (i32 (off + PROGHDR)) sz else
      if ph_memsz ph <? ph_filesz ph then mret (false, sz) else
      if u64 (ph_vaddr ph + ph_memsz ph) <? ph_vaddr ph then mret (false, sz) else
      if negb (ph_vaddr ph mod PGSIZE =? 0) then mret (false, sz) else
      sz1 ← uvmalloc pagetable sz (u64 (ph_vaddr ph + ph_memsz ph)) (flags2perm (ph_flags ph));
      if sz1 =? 0 then mret (false, sz) else
      r ← loadseg pagetable (ph_vaddr ph) ip (ph_off ph) (ph_filesz ph);
      if r <? 0 then mret (false, sz1) else
      load_segments k pagetable ip (i32 (off + PROGHDR)) sz1
  end.

(** Pushing the argument strings: the stack pointer and the ustack entries, or
    [None] to fail. *)
Fixpoint push_args (argv : list (list Z)) (argc pagetable sp stackbase : Z) (ustack : list Z) : M kernel (option (Z * list Z)) :=
  match argv with
  | [] => mret (Some (sp, ustack))
  | a :: argv =>
      if MAXARG <=? argc then mret None else
      let len := Z.of_nat (length a) + 1 in
      let sp := u64 (sp - len) in
      let sp := u64 (sp - sp mod 16) in
      if sp <? stackbase then mret None else
      r ← copyout pagetable sp (a ++ [0]) len;
      if r <? 0 then mret None else
      in_bounds argc MAXARG ;;
      push_args argv (argc + 1) pagetable sp stackbase (ustack ++ [sp])
  end.

(** The part of a path after its last slash. *)
Fixpoint last_elem (s last : list Z) : list Z :=
  match s with
  | [] => last
  | c :: s => last_elem s (if c =? SLASH then s else last)
  end.

(** The end of exec once the program is loaded: the stack, the arguments, and
    the switch to the new image; [None] goes to [bad]. *)
Definition exec_commit (p : nat) (path : list Z) (argv : list (list Z)) (pagetable sz entry : Z) : M kernel (option Z * Z) :=
  x ← getproc p;
  let oldsz := p_sz x in
  let sz := PGROUNDUP sz in
  sz1 ← uvmalloc pagetable sz (u64 (sz + 2 * PGSIZE)) PTE_W;
  if sz1 =? 0 then mret (None, sz) else
  let sz := sz1 in
  uvmclear pagetable (u64 (sz - 2 * PGSIZE)) ;;
  let stackbase := u64 (sz - PGSIZE) in
  r ← push_args argv 0 pagetable sz stackbase [];
  match r with
  | None => mret (None, sz)
  | Some (sp, ustack) =>
      let argc := Z.of_nat (length argv) in
      in_bounds argc MAXARG ;;
      let sp := u64 (sp - (argc + 1) * 8) in
      let sp := u64 (sp - sp mod 16) in
      if sp <? stackbase then mret (None, sz) else
      r ← copyout pagetable sp (concat (map (le_enc 8) (ustack ++ [0]))) ((argc + 1) * 8);
      if r <? 0 then mret (None, sz) else
      store_tf p TF_a1 sp ;;
      upd_proc p (fun x => set_p_name (safestrcpy_list (p_name x) (last_elem path path) 16) x) ;;
      x ← getproc p;
      let oldpagetable := p_pagetable x in
      upd_proc p (set_p_pagetable pagetable) ;;
      upd_proc p (set_p_sz sz) ;;
      store_tf p TF_epc entry ;;
      store_tf p TF_sp sp ;;
      proc_freepagetable oldpagetable oldsz ;;
      mret (Some argc, sz)
  end.

(** Replace the process image by the program at [path]: argc, or -1. *)
Definition exec (path : list Z) (argv : list (list Z)) : M kernel Z :=
  p ← myproc;
  begin_op ;;
  o ← namei path;
  match o with
  | None => end_op ;; mret (-1)
  | Some ip =>
      ilock (Some ip) ;;
      r ← readi ip DVar 0 ELFHDR;
      let elf := snd r in
      if negb (fst r =? ELFHDR) || negb (elf_magic elf =? ELF_MAGIC) then
        iunlockput ip ;; end_op ;; mret (-1)
      else
      pagetable ← proc_pagetable p;
      if pagetable =? 0 then iunlockput ip ;; end_op ;; mret (-1) else
      r ← load_segments (Z.to_nat (elf_phnum elf)) pagetable ip (i32 (elf_phoff elf)) 0;
      if negb (fst r) then
        proc_freepagetable pagetable (snd r) ;; iunlockput ip ;; end_op ;; mret (-1)
      else
      iunlockput ip ;;
      end_op ;;
      r ← exec_commit p path argv pagetable (snd r) (elf_entry elf);
      match r with
      | (Some argc, _) => mret argc
      | (None, sz) => proc_freepagetable pagetable sz ;; mret (-1)
      end
  end.
End exec.
