(* ===== verification/Syscall.v ===== *)
(** * kernel/syscall.c and sysproc.c: arguments of system calls, process calls

    A system call returns a [uint64]; [neg1] is the -1 it returns on error. *)

From S2P Require Import Prelude State Mem Spinlock Sched Sleeplock Bio Log Memlayout Kalloc Vm Uart Printf Copy Console Pipe Fs File Proc Exec.

Section syscall.
Context {L : Layout}.

(** Fetch the uint64 at addr from the current process: the status and the value. *)
Definition fetchaddr (addr : Z) : M kernel (Z * Z) :=
  p ← myproc;
  x ← getproc p;
  if (p_sz x <=? addr) || (p_sz x <? u64 (addr + 8)) then mret (-1, 0) else
  r ← copyin (p_pagetable x) addr 8;
  if negb (fst r =? 0) then mret (-1, 0) else
  mret (0, le_dec (snd r)).

(** Fetch the nul-terminated string at addr from the current process: its
    length, or -1, and the string. *)
Definition fetchstr (addr max : Z) : M kernel (Z * list Z) :=
  p ← myproc;
  x ← getproc p;
  r ← copyinstr (p_pagetable x) addr max;
  if fst r <? 0 then mret (-1, []) else
  let s := cname (snd r) in
  mret (Z.of_nat (length s), s).

Definition argraw (n : Z) : M kernel Z :=
  p ← myproc;
  if (0 <=? n) && (n <=? 5) then load_tf p (TF_a0 + 8 * n)
  else panic "argraw".

Definition argint (n : Z) : M kernel Z := v ← argraw n; mret (i32 v).
Definition argaddr (n : Z) : M kernel Z := argraw n.

Definition argstr (n max : Z) : M kernel (Z * list Z) :=
  addr ← argaddr n;
  fetchstr addr max.

(** ** sysproc.c *)

Definition sys_exit : M kernel Z :=
  n ← argint 0;
  exit n.

Definition sys_getpid : M kernel Z :=
  p ← myproc;
  x ← getproc p;
  mret (p_pid x).

Definition sys_fork : M kernel Z := fork.

Definition sys_wait : M kernel Z :=
  p ← argaddr 0;
  wait p.

Definition sys_sbrk : M kernel Z :=
  n ← argint 0;
  p ← myproc;
  x ← getproc p;
  let addr := p_sz x in
  r ← growproc n;
  mret (if r <? 0 then -1 else addr).

(** [while(ticks - ticks0 < n)]: the comparison is unsigned; false when killed. *)
Fixpoint sleep_ticks (fuel : nat) (ticks0 n : Z) : M kernel bool :=
  match fuel with
  | O => nofuel
  | S fuel =>
      t ← gets (fun s => ticks s);
      if u32 (t - ticks0) <? u32 n then
        p ← myproc;
        k ← killed p;
        if (k : bool) then mret false else
        sleep ChTicks LkTicks ;;
        sleep_ticks fuel ticks0 n
      else mret true
  end.

Definition sys_sleep : M kernel Z :=
  n ← argint 0;
  acquire LkTicks ;;
  ticks0 ← gets (fun s => ticks s);
  ok ← sleep_ticks WAKEUPS ticks0 n;
  release LkTicks ;;
  mret (if (ok : bool) then 0 else -1).

Definition sys_kill : M kernel Z :=
  pid ← argint 0;
  kill pid.

Definition sys_uptime : M kernel Z :=
  acquire LkTicks ;;
  x ← gets (fun s => ticks s);
  release LkTicks ;;
  mret x.
End syscall.
