(* ===== verification/Sysfile.v ===== *)
(** * kernel/sysfile.c: file-system calls, and syscall() of syscall.c *)

From S2P Require Import Prelude State Mem Spinlock Sched Sleeplock Bio Log Memlayout Kalloc Vm Uart Printf Copy Console Pipe Fs File Proc Exec Syscall.

Definition O_RDONLY : Z := 0x000.
Definition O_WRONLY : Z := 0x001.
Definition O_RDWR : Z := 0x002.
Definition O_CREATE : Z := 0x200.
Definition O_TRUNC : Z := 0x400.

Section sysfile.
Context {L : Layout}.

(** The nth argument as a file descriptor, with its file. *)
Definition argfd (n : Z) : M kernel (option (Z * nat)) :=
  fd ← argint n;
  p ← myproc;
  x ← getproc p;
  if (fd <? 0) || (NOFILE <=? fd) then mret None else
  in_bounds fd (alen (p_ofile x)) ;;
  match p_ofile x !!! Z.to_nat fd with
  | None => mret None
  | Some f => mret (Some (fd, f))
  end.

Fixpoint fd_scan (l : list (option nat)) (i : nat) : option nat :=
  match l with
  | [] => None
  | None :: _ => Some i
  | Some _ :: l => fd_scan l (S i)
  end.

(** Allocate a file descriptor for the given file. *)
Definition fdalloc (f : nat) : M kernel Z :=
  p ← myproc;
  x ← getproc p;
  match fd_scan (p_ofile x) 0 with
  | Some fd => set_fd p fd (Some f) ;; mret (Z.of_nat fd)
  | None => mret (-1)
  end.

Definition sys_dup : M kernel Z :=
  o ← argfd 0;
  match o with
  | None => mret (-1)
  | Some (_, f) =>
      fd ← fdalloc f;
      if fd <? 0 then mret (-1) else
      filedup f ;;
      mret fd
  end.

Definition sys_read : M kernel Z :=
  p ← argaddr 1;
  n ← argint 2;
  o ← argfd 0;
  match o with
  | None => mret (-1)
  | Some (_, f) => fileread f p n
  end.

Definition sys_write : M kernel Z :=
  p ← argaddr 1;
  n ← argint 2;
  o ← argfd 0;
  match o with
  | None => mret (-1)
  | Some (_, f) => filewrite f p n
  end.

Definition sys_close : M kernel Z :=
  o ← argfd 0;
  match o with
  | None => mret (-1)
  | Some (fd, f) =>
      p ← myproc;
      set_fd p (Z.to_nat fd) None ;;
      fileclose f ;;
      mret 0
  end.

Definition sys_fstat : M kernel Z :=
  st ← argaddr 1;
  o ← argfd 0;
  match o with
  | None => mret (-1)
  | Some (_, f) => filestat f st
  end.

(** The label [bad] of sys_link. *)
Definition link_bad (ip : nat) : M kernel Z :=
  ilock (Some ip) ;;
  upd_inode ip (fun i => set_i_nlink (i16 (i_nlink i - 1)) i) ;;
  iupdate ip ;;
  iunlockput ip ;;
  end_op ;;
  mret (-1).

(** Create the path new as a link to the same inode as old. *)
Definition sys_link : M kernel Z :=
  old ← argstr 0 MAXPATH;
  if fst old <? 0 then mret (-1) else
  new ← argstr 1 MAXPATH;
  if fst new <? 0 then mret (-1) else
  begin_op ;;
  o ← namei (snd old);
  match o with
  | None => end_op ;; mret (-1)
  | Some ip =>
      ilock (Some ip) ;;
      i ← getinode ip;
      if i_type i =? T_DIR then iunlockput ip ;; end_op ;; mret (-1) else
      upd_inode ip (fun i => set_i_nlink (i16 (i_nlink i + 1)) i) ;;
      iupdate ip ;;
      iunlock (Some ip) ;;
      d ← nameiparent (snd new);
      match d with
      | None => link_bad ip
      | Some (dp, name) =>
          ilock (Some dp) ;;
          x ← getinode dp;
          i ← getinode ip;
          r ← (if i_dev x =? i_dev i then dirlink dp name (i_inum i) else mret (-1));
          if r <? 0 then iunlockput dp ;; link_bad ip else
          iunlockput dp ;;
          iput ip ;;
          end_op ;;
          mret 0
      end
  end.

Fixpoint isdirempty_loop (fuel : nat) (dp : nat) (off : Z) : M kernel bool :=
  match fuel with
  | O => nofuel
  | S fuel =>
      d ← getinode dp;
      if off <? i_size d then
        r ← readi dp DVar off DIRENT;
        if negb (fst r =? DIRENT) then panic "isdirempty: readi" else
        if negb (de_inum (snd r) =? 0) then mret false else
        isdirempty_loop fuel dp (off + DIRENT)
      else mret true
  end.

(** Is the directory dp empty except for "." and ".." ? *)
Definition isdirempty (dp : nat) : M kernel bool :=
  d ← getinode dp;
  isdirempty_loop (Z.to_nat (i_size d / DIRENT + 2)) dp (2 * DIRENT).

Definition unlink_bad (dp : nat) : M kernel Z :=
  iunlockput dp ;;
  end_op ;;
  mret (-1).

Definition sys_unlink : M kernel Z :=
  path ← argstr 0 MAXPATH;
  if fst path <? 0 then mret (-1) else
  begin_op ;;
  o ← nameiparent (snd path);
  match o with
  | None => end_op ;; mret (-1)
  | Some (dp, name) =>
      ilock (Some dp) ;;
      if (namecmp name (bytes ".") =? 0) || (namecmp name (bytes "..") =? 0) then unlink_bad dp else
      o ← dirlookup dp name;
      match o with
      | None => unlink_bad dp
      | Some (ip, off) =>
          ilock (Some ip) ;;
          i ← getinode ip;
          if i_nlink i <? 1 then panic "unlink: nlink < 1" else
          e ← (if i_type i =? T_DIR then isdirempty ip else mret true);
          if negb e then iunlockput ip ;; unlink_bad dp else
          n ← writei dp (SVar (replicate (Z.to_nat DIRENT) 0)) off DIRENT;
          if negb (n =? DIRENT) then panic "unlink: writei" else
          (if i_type i =? T_DIR then
             upd_inode dp (fun d => set_i_nlink (i16 (i_nlink d - 1)) d) ;;
             iupdate dp
           else mret tt) ;;
          iunlockput dp ;;
          upd_inode ip (fun i => set_i_nlink (i16 (i_nlink i - 1)) i) ;;
          iupdate ip ;;
          iunlockput ip ;;
          end_op ;;
          mret 0
      end
  end.

(** The label [fail] of create: something went wrong, de-allocate ip. *)
Definition create_fail (ip dp : nat) : M kernel (option nat) :=
  upd_inode ip (set_i_nlink 0) ;;
  iupdate ip ;;
  iunlockput ip ;;
  iunlockput dp ;;
  mret None.

Definition create (path : list Z) (type major minor : Z) : M kernel (option nat) :=
  o ← nameiparent path;
  match o with
  | None => mret None
  | Some (dp, name) =>
      ilock (Some dp) ;;
      o ← dirlookup dp name;
      match o with
      | Some (ip, _) =>
          iunlockput dp ;;
          ilock (Some ip) ;;
          i ← getinode ip;
          if (type =? T_FILE) && ((i_type i =? T_FILE) || (i_type i =? T_DEVICE)) then mret (Some ip) else
          iunlockput ip ;;
          mret None
      | None =>
          d ← getinode dp;
          o ← ialloc (i_dev d) type;
          match o with
          | None => iunlockput dp ;; mret None
          | Some ip =>
              ilock (Some ip) ;;
              upd_inode ip (fun i => set_i_nlink 1 (set_i_minor minor (set_i_major major i))) ;;
              iupdate ip ;;
              i ← getinode ip;
              r ← (if type =? T_DIR then
                     r ← dirlink ip (bytes ".") (i_inum i);
                     if r <? 0 then mret r else dirlink ip (bytes "..") (i_inum d)
                   else mret 0);
              if r <? 0 then create_fail ip dp else
              r ← dirlink dp name (i_inum i);
              if r <? 0 then create_fail ip dp else
              (if type =? T_DIR then
                 upd_inode dp (fun d => set_i_nlink (i16 (i_nlink d + 1)) d) ;;
                 iupdate dp
               else mret tt) ;;
              iunlockput dp ;;
              mret (Some ip)
          end
      end
  end.

Definition flag (mode f : Z) : bool := negb (Z.land mode f =? 0).

(** The inode sys_open works on, locked; [None] when it has returned -1. *)
Definition open_inode (path : list Z) (omode : Z) : M kernel (option nat) :=
  if flag omode O_CREATE then
    o ← create path T_FILE 0 0;
    match o with
    | None => end_op ;; mret None
    | Some ip => mret (Some ip)
    end
  else
    o ← namei path;
    match o with
    | None => end_op ;; mret None
    | Some ip =>
        ilock (Some ip) ;;
        i ← getinode ip;
        if (i_type i =? T_DIR) && negb (omode =? O_RDONLY) then iunlockput ip ;; end_op ;; mret None
        else mret (Some ip)
    end.

Definition sys_open : M kernel Z :=
  omode ← argint 1;
  path ← argstr 0 MAXPATH;
  if fst path <? 0 then mret (-1) else
  begin_op ;;
  o ← open_inode (snd path) omode;
  match o with
  | None => mret (-1)
  | Some ip =>
      i ← getinode ip;
      if (i_type i =? T_DEVICE) && ((i_major i <? 0) || (NDEV <=? i_major i)) then
        iunlockput ip ;; end_op ;; mret (-1)
      else
      o ← filealloc;
      match o with
      | None => iunlockput ip ;; end_op ;; mret (-1)
      | Some f =>
          fd ← fdalloc f;
          if fd <? 0 then fileclose f ;; iunlockput ip ;; end_op ;; mret (-1) else
          (if i_type i =? T_DEVICE then
             upd_file f (fun x => set_f_major (i_major i) (set_f_type FD_DEVICE x))
           else
             upd_file f (fun x => set_f_off 0 (set_f_type FD_INODE x))) ;;
          upd_file f (fun x => set_f_writable (flag omode O_WRONLY || flag omode O_RDWR)
            (set_f_readable (negb (flag omode O_WRONLY)) (set_f_ip ip x))) ;;
          (if flag omode O_TRUNC && (i_type i =? T_FILE) then itrunc ip else mret tt) ;;
          iunlock (Some ip) ;;
          end_op ;;
          mret fd
      end
  end.

Definition sys_mkdir : M kernel Z :=
  begin_op ;;
  path ← argstr 0 MAXPATH;
  o ← (if fst path <? 0 then mret None else create (snd path) T_DIR 0 0);
  match o with
  | None => end_op ;; mret (-1)
  | Some ip => iunlockput ip ;; end_op ;; mret 0
  end.

Definition sys_mknod : M kernel Z :=
  begin_op ;;
  major ← argint 1;
  minor ← argint 2;
  path ← argstr 0 MAXPATH;
  o ← (if fst path <? 0 then mret None else create (snd path) T_DEVICE (i16 major) (i16 minor));
  match o with
  | None => end_op ;; mret (-1)
  | Some ip => iunlockput ip ;; end_op ;; mret 0
  end.

Definition sys_chdir : M kernel Z :=
  p ← myproc;
  begin_op ;;
  path ← argstr 0 MAXPATH;
  o ← (if fst path <? 0 then mret None else namei (snd path));
  match o with
  | None => end_op ;; mret (-1)
  | Some ip =>
      ilock (Some ip) ;;
      i ← getinode ip;
      if negb (i_type i =? T_DIR) then iunlockput ip ;; end_op ;; mret (-1) else
      iunlock (Some ip) ;;
      x ← getproc p;
      cwd ← deref (p_cwd x);
      iput cwd ;;
      end_op ;;
      upd_proc p (set_p_cwd (Some ip)) ;;
      mret 0
  end.

(** Freeing the pages of the argument strings. *)
Fixpoint kfree_all (pages : list Z) : M kernel unit :=
  match pages with
  | [] => mret tt
  | pa :: pages => kfree pa ;; kfree_all pages
  end.

(** The argument-fetching loop of sys_exec: whether it succeeded, the argument
    strings, and the pages they are in. *)
Fixpoint fetch_args (k : nat) (uargv i : Z) (argv : list (list Z)) (pages : list Z) : M kernel (bool * list (list Z) * list Z) :=
  match k with
  | O => nofuel
  | S k =>
      if MAXARG <=? i then mret (false, argv, pages) else
      r ← fetchaddr (u64 (uargv + 8 * i));
      if fst r <? 0 then mret (false, argv, pages) else
      in_bounds i MAXARG ;;
      if snd r =? 0 then mret (true, argv, pages) else
      pa ← kalloc;
      if pa =? 0 then mret (false, argv, pages) else
      s ← fetchstr (snd r) PGSIZE;
      if fst s <? 0 then mret (false, argv, pages ++ [pa]) else
      write_bytes pa (snd s ++ [0]) ;;
      fetch_args k uargv (i + 1) (argv ++ [snd s]) (pages ++ [pa])
  end.

Definition sys_exec : M kernel Z :=
  uargv ← argaddr 1;
  path ← argstr 0 MAXPATH;
  if fst path <? 0 then mret (-1) else
  r ← fetch_args (S (Z.to_nat MAXARG)) uargv 0 [] [];
  match r with
  | (true, argv, pages) =>
      ret ← exec (snd path) argv;
      kfree_all pages ;;
      mret ret
  | (false, _, pages) => kfree_all pages ;; mret (-1)
  end.

Definition sys_pipe : M kernel Z :=
  p ← myproc;
  fdarray ← argaddr 0;
  o ← pipealloc;
  match o with
  | None => mret (-1)
  | Some (rf, wf) =>
      fd0 ← fdalloc rf;
      if fd0 <? 0 then fileclose rf ;; fileclose wf ;; mret (-1) else
      fd1 ← fdalloc wf;
      if fd1 <? 0 then set_fd p (Z.to_nat fd0) None ;; fileclose rf ;; fileclose wf ;; mret (-1) else
      x ← getproc p;
      r ← copyout (p_pagetable x) fdarray (le_enc 4 fd0) 4;
      r ← (if r <? 0 then mret r else copyout (p_pagetable x) (u64 (fdarray + 4)) (le_enc 4 fd1) 4);
      if r <? 0 then
        set_fd p (Z.to_nat fd0) None ;;
        set_fd p (Z.to_nat fd1) None ;;
        fileclose rf ;;
        fileclose wf ;;
        mret (-1)
      else mret 0
  end.

(** ** Dispatch *)

(** [syscalls[num]], and the bounds of the table *)
Definition syscalls (num : Z) : option (M kernel Z) :=
  match num with
  | 1 => Some sys_fork
  | 2 => Some sys_exit
  | 3 => Some sys_wait
  | 4 => Some sys_pipe
  | 5 => Some sys_read
  | 6 => Some sys_kill
  | 7 => Some sys_exec
  | 8 => Some sys_fstat
  | 9 => Some sys_chdir
  | 10 => Some sys_dup
  | 11 => Some sys_getpid
  | 12 => Some sys_sbrk
  | 13 => Some sys_sleep
  | 14 => Some sys_uptime
  | 15 => Some sys_open
  | 16 => Some sys_write
  | 17 => Some sys_mknod
  | 18 => Some sys_unlink
  | 19 => Some sys_link
  | 20 => Some sys_mkdir
  | 21 => Some sys_close
  | _ => None
  end.

Definition syscall : M kernel unit :=
  p ← myproc;
  a7 ← load_tf p TF_a7;
  let num := i32 a7 in
  match syscalls num with
  | Some f =>
      r ← f;
      store_tf p TF_a0 (u64 r)
  | None =>
      x ← getproc p;
      printf (bytes "%d %s: unknown sys call %d" ++ [10]) [VInt (p_pid x); VStr (Some (cname (p_name x))); VInt num] ;;
      store_tf p TF_a0 (u64 (-1))
  end.
End sysfile.
