(* ===== verification/Virtio.v ===== *)
(** * kernel/virtio_disk.c: the disk driver

    The driver shares three structures with the device: the descriptor table,
    the ring of available requests and the ring of used ones.  They are fields
    of [vdiskst], next to the driver's own book-keeping.  A descriptor points at
    one of three kinds of object, the constructors of [daddr].

    The device is not code of the repository: what it does with a request is the
    relation [serves] (section 5.2.6 of the virtio specification, which the
    source cites), a hypothesis of the theorem about the whole transfer. *)

From S2P Require Import Prelude State Mem CString Spinlock Memlayout Sched Sleeplock Waiting Bio Kalloc.

(** virtio mmio control registers. *)
Definition VIRTIO_MMIO_MAGIC_VALUE : Z := 0x0.
Definition VIRTIO_MMIO_VERSION : Z := 0x4.
Definition VIRTIO_MMIO_DEVICE_ID : Z := 0x8.
Definition VIRTIO_MMIO_VENDOR_ID : Z := 0xc.
Definition VIRTIO_MMIO_DEVICE_FEATURES : Z := 0x10.
Definition VIRTIO_MMIO_DRIVER_FEATURES : Z := 0x20.
Definition VIRTIO_MMIO_QUEUE_SEL : Z := 0x30.
Definition VIRTIO_MMIO_QUEUE_NUM_MAX : Z := 0x34.
Definition VIRTIO_MMIO_QUEUE_NUM : Z := 0x38.
Definition VIRTIO_MMIO_QUEUE_READY : Z := 0x44.
Definition VIRTIO_MMIO_QUEUE_NOTIFY : Z := 0x50.
Definition VIRTIO_MMIO_INTERRUPT_ACK : Z := 0x64.
Definition VIRTIO_MMIO_STATUS : Z := 0x70.
Definition VIRTIO_MMIO_QUEUE_DESC_LOW : Z := 0x80.
Definition VIRTIO_MMIO_QUEUE_DESC_HIGH : Z := 0x84.
Definition VIRTIO_MMIO_DRIVER_DESC_LOW : Z := 0x90.
Definition VIRTIO_MMIO_DRIVER_DESC_HIGH : Z := 0x94.
Definition VIRTIO_MMIO_DEVICE_DESC_LOW : Z := 0xa0.
Definition VIRTIO_MMIO_DEVICE_DESC_HIGH : Z := 0xa4.

(** Status register and device feature bits. *)
Definition VIRTIO_CONFIG_S_ACKNOWLEDGE : Z := 1.
Definition VIRTIO_CONFIG_S_DRIVER : Z := 2.
Definition VIRTIO_CONFIG_S_DRIVER_OK : Z := 4.
Definition VIRTIO_CONFIG_S_FEATURES_OK : Z := 8.
Definition VIRTIO_BLK_F_RO : Z := 5.
Definition VIRTIO_BLK_F_SCSI : Z := 7.
Definition VIRTIO_BLK_F_CONFIG_WCE : Z := 11.
Definition VIRTIO_BLK_F_MQ : Z := 12.
Definition VIRTIO_F_ANY_LAYOUT : Z := 27.
Definition VIRTIO_RING_F_INDIRECT_DESC : Z := 28.
Definition VIRTIO_RING_F_EVENT_IDX : Z := 29.

Definition VRING_DESC_F_NEXT : Z := 1.
Definition VRING_DESC_F_WRITE : Z := 2.
Definition VIRTIO_BLK_T_IN : Z := 0.
Definition VIRTIO_BLK_T_OUT : Z := 1.

Definition getvd {A} (f : vdiskst -> A) : M kernel A := gets (fun s => f (vdisk s)).
Definition upd_vd (f : vdiskst -> vdiskst) : M kernel unit := modify (fun s => set_vdisk (f (vdisk s)) s).

(** Assignments to [disk.desc[i]], [disk.free[i]], [disk.info[i]], [disk.ops[i]]. *)
Definition put_desc (i : Z) (f : virtq_desc -> virtq_desc) : M kernel unit :=
  upd_vd (fun v => set_vd_desc (alter f (Z.to_nat i) (vd_desc v)) v).
Definition put_free (i : Z) (x : bool) : M kernel unit :=
  upd_vd (fun v => set_vd_free (<[Z.to_nat i := x]> (vd_free v)) v).
Definition put_info (i : Z) (f : option nat * Z -> option nat * Z) : M kernel unit :=
  upd_vd (fun v => set_vd_info (alter f (Z.to_nat i) (vd_info v)) v).
Definition put_op (i : Z) (r : virtio_blk_req) : M kernel unit :=
  upd_vd (fun v => set_vd_ops (<[Z.to_nat i := r]> (vd_ops v)) v).

(** ** Descriptors *)

(** Find a free descriptor, mark it non-free, return its index. *)
Fixpoint alloc_desc_loop (k : nat) (i : Z) : M kernel Z :=
  match k with
  | O => mret (-1)
  | S k =>
      f ← getvd (fun v => vd_free v !!! Z.to_nat i);
      if (f : bool) then put_free i false ;; mret i
      else alloc_desc_loop k (i + 1)
  end.

Definition alloc_desc : M kernel Z := alloc_desc_loop (Z.to_nat NUM) 0.

(** Mark a descriptor as free. *)
Definition free_desc (i : Z) : M kernel unit :=
  if NUM <=? i then panic "free_desc 1" else
  f ← getvd (fun v => vd_free v !!! Z.to_nat i);
  if (f : bool) then panic "free_desc 2" else
  put_desc i (set_d_addr ANull) ;;
  put_desc i (set_d_len 0) ;;
  put_desc i (set_d_flags 0) ;;
  put_desc i (set_d_next 0) ;;
  put_free i true ;;
  wakeup ChDiskFree.

(** Free a chain of descriptors.  A descriptor is freed once, so that a chain
    longer than [NUM] panics: [NUM + 1] rounds are enough. *)
Fixpoint free_chain_loop (fuel : nat) (i : Z) : M kernel unit :=
  match fuel with
  | O => nofuel
  | S fuel =>
      d ← getvd (fun v => vd_desc v !!! Z.to_nat i);
      free_desc i ;;
      if Z.land (d_flags d) VRING_DESC_F_NEXT =? 0 then mret tt
      else free_chain_loop fuel (d_next d)
  end.

Definition free_chain (i : Z) : M kernel unit := free_chain_loop (Z.to_nat NUM + 1) i.

Fixpoint free_descs (l : list Z) : M kernel unit :=
  match l with
  | [] => mret tt
  | i :: l => free_desc i ;; free_descs l
  end.

(** Allocate three descriptors: [idx] holds the ones allocated so far. *)
Fixpoint alloc3_loop (k : nat) (idx : list Z) : M kernel (option (list Z)) :=
  match k with
  | O => mret (Some idx)
  | S k =>
      i ← alloc_desc;
      if i <? 0 then free_descs idx ;; mret None
      else alloc3_loop k (idx ++ [i])
  end.

Definition alloc3_desc : M kernel (option (list Z)) := alloc3_loop 3 [].

(** ** virtio_disk_rw *)

(** [while(1){ if(alloc3_desc(idx) == 0) break; sleep(&disk.free[0], ...); }] *)
Fixpoint alloc3_wait (fuel : nat) : M kernel (list Z) :=
  match fuel with
  | O => nofuel
  | S fuel =>
      r ← alloc3_desc;
      match r with
      | Some idx => mret idx
      | None => sleep ChDiskFree LkVdisk ;; alloc3_wait fuel
      end
  end.

(** Format the three descriptors. *)
Definition format_request (b : nat) (write : bool) (sector i0 i1 i2 : Z) : M kernel unit :=
  put_op i0 (mkReq (if write then VIRTIO_BLK_T_OUT else VIRTIO_BLK_T_IN) 0 sector) ;;
  put_desc i0 (set_d_addr (AOps (Z.to_nat i0))) ;;
  put_desc i0 (set_d_len 16) ;;
  put_desc i0 (set_d_flags VRING_DESC_F_NEXT) ;;
  put_desc i0 (set_d_next i1) ;;
  put_desc i1 (set_d_addr (AData b)) ;;
  put_desc i1 (set_d_len BSIZE) ;;
  (if write then put_desc i1 (set_d_flags 0) else put_desc i1 (set_d_flags VRING_DESC_F_WRITE)) ;;
  put_desc i1 (fun d => set_d_flags (Z.lor (d_flags d) VRING_DESC_F_NEXT) d) ;;
  put_desc i1 (set_d_next i2) ;;
  put_info i0 (fun x => (x.1, 255)) ;;
  put_desc i2 (set_d_addr (AStatus (Z.to_nat i0))) ;;
  put_desc i2 (set_d_len 1) ;;
  put_desc i2 (set_d_flags VRING_DESC_F_WRITE) ;;
  put_desc i2 (set_d_next 0).

(** Record the buffer, and tell the device the first index of the chain. *)
Definition post_request (b : nat) (i0 : Z) : M kernel unit :=
  upd_buf b (set_b_disk true) ;;
  put_info i0 (fun x => (Some b, x.2)) ;;
  upd_vd (fun v => set_vd_avail_ring (<[Z.to_nat (vd_avail_idx v mod NUM) := i0]> (vd_avail_ring v)) v) ;;
  upd_vd (fun v => set_vd_avail_idx (u16 (vd_avail_idx v + 1)) v) ;;
  upd_vd (fun v => set_vd_regs ((VIRTIO_MMIO_QUEUE_NOTIFY, 0) :: vd_regs v) v).

Definition virtio_disk_rw (b : nat) (write : bool) : M kernel unit :=
  bp ← getbuf b;
  let sector := u32 (b_blockno bp * (BSIZE / 512)) in
  acquire LkVdisk ;;
  idx ← alloc3_wait WAKEUPS;
  let i0 := idx !!! 0%nat in
  format_request b write sector i0 (idx !!! 1%nat) (idx !!! 2%nat) ;;
  post_request b i0 ;;
  sleep_while WAKEUPS (fun s => b_disk (bufs s !!! b)) (ChBuf b) LkVdisk ;;
  put_info i0 (fun x => (None, x.2)) ;;
  free_chain i0 ;;
  release LkVdisk.

(** ** virtio_disk_intr *)

(** [while(disk.used_idx != disk.used->idx)]: the counters are 16 bits wide, and
    each round brings one closer to the other. *)
Fixpoint intr_loop (fuel : nat) : M kernel unit :=
  match fuel with
  | O => nofuel
  | S fuel =>
      v ← gets (fun s => vdisk s);
      if vd_used_idx v =? vd_used_devidx v then mret tt else
      let id := (vd_used_ring v !!! Z.to_nat (vd_used_idx v mod NUM)).1 in
      let info := vd_info v !!! Z.to_nat id in
      if negb (info.2 =? 0) then panic "virtio_disk_intr status" else
      match info.1 with
      | None => panic "kerneltrap"
      | Some b =>
          upd_buf b (set_b_disk false) ;;
          wakeup (ChBuf b) ;;
          upd_vd (fun v => set_vd_used_idx (u16 (vd_used_idx v + 1)) v) ;;
          intr_loop fuel
      end
  end.

(** [status] is the device register INTERRUPT_STATUS. *)
Definition virtio_disk_intr (status : Z) : M kernel unit :=
  acquire LkVdisk ;;
  upd_vd (fun v => set_vd_regs ((VIRTIO_MMIO_INTERRUPT_ACK, Z.land status 3) :: vd_regs v) v) ;;
  n ← getvd (fun v => u16 (vd_used_devidx v - vd_used_idx v));
  intr_loop (Z.to_nat n + 1) ;;
  release LkVdisk.

(** ** virtio_disk_init *)

Section init.
Context `{Layout}.
(** The value of a device register, after the register writes so far. *)
Context (reg_read : list (Z * Z) -> Z -> Z).

Definition R (r : Z) : M kernel Z := getvd (fun v => u32 (reg_read (vd_regs v) r)).
Definition set_R (r x : Z) : M kernel unit := upd_vd (fun v => set_vd_regs ((r, u32 x) :: vd_regs v) v).

(** [features &= ~(1 << b)], a 64-bit variable. *)
Definition clear_feature (features b : Z) : Z := Z.ldiff features (Z.shiftl 1 b).
Definition our_features (features : Z) : Z :=
  fold_left clear_feature [VIRTIO_BLK_F_RO; VIRTIO_BLK_F_SCSI; VIRTIO_BLK_F_CONFIG_WCE; VIRTIO_BLK_F_MQ; VIRTIO_F_ANY_LAYOUT; VIRTIO_RING_F_EVENT_IDX; VIRTIO_RING_F_INDIRECT_DESC] features.

Definition find_disk : M kernel unit :=
  magic ← R VIRTIO_MMIO_MAGIC_VALUE; 
  if negb (magic =? 0x74726976) then panic "could not find virtio disk" else
  version ← R VIRTIO_MMIO_VERSION;
  if negb (version =? 2) then panic "could not find virtio disk" else
  device ← R VIRTIO_MMIO_DEVICE_ID;
  if negb (device =? 2) then panic "could not find virtio disk" else
  vendor ← R VIRTIO_MMIO_VENDOR_ID;
  if negb (vendor =? 0x554d4551) then panic "could not find virtio disk" else mret tt.

(** Reset, acknowledge, and negotiate features; the status read back. *)
Definition negotiate : M kernel Z :=
  let status := 0 in
  set_R VIRTIO_MMIO_STATUS status ;;
  let status := Z.lor status VIRTIO_CONFIG_S_ACKNOWLEDGE in
  set_R VIRTIO_MMIO_STATUS status ;;
  let status := Z.lor status VIRTIO_CONFIG_S_DRIVER in
  set_R VIRTIO_MMIO_STATUS status ;;
  features ← R VIRTIO_MMIO_DEVICE_FEATURES;
  set_R VIRTIO_MMIO_DRIVER_FEATURES (our_features features) ;;
  let status := Z.lor status VIRTIO_CONFIG_S_FEATURES_OK in
  set_R VIRTIO_MMIO_STATUS status ;;
  status ← R VIRTIO_MMIO_STATUS;
  if Z.land status VIRTIO_CONFIG_S_FEATURES_OK =? 0 then panic "virtio disk FEATURES_OK unset" else mret status.

(** Select queue 0 and check it. *)
Definition check_queue : M kernel unit :=
  set_R VIRTIO_MMIO_QUEUE_SEL 0 ;;
  ready ← R VIRTIO_MMIO_QUEUE_READY;
  if negb (ready =? 0) then panic "virtio disk should not be ready" else
  max ← R VIRTIO_MMIO_QUEUE_NUM_MAX;
  if max =? 0 then panic "virtio disk has no queue 0" else
  if max <? NUM then panic "virtio disk max queue too short" else mret tt.

(** Allocate and zero queue memory, and give the device its addresses. *)
Definition setup_queue : M kernel unit :=
  desc ← kalloc;
  avail ← kalloc;
  used ← kalloc;
  if (desc =? 0) || (avail =? 0) || (used =? 0) then panic "virtio disk kalloc" else
  modify (fun s => set_mem (CString.memset (mem s) desc 0 PGSIZE) s) ;;
  modify (fun s => set_mem (CString.memset (mem s) avail 0 PGSIZE) s) ;;
  modify (fun s => set_mem (CString.memset (mem s) used 0 PGSIZE) s) ;;
  upd_vd (fun v => mkVdisk (desc, avail, used) (replicate (Z.to_nat NUM) zero_desc) 0 (replicate (Z.to_nat NUM) 0) 0 (replicate (Z.to_nat NUM) (0, 0))
                     (vd_free v) (vd_used_idx v) (vd_info v) (vd_ops v) (vd_regs v)) ;;
  set_R VIRTIO_MMIO_QUEUE_NUM NUM ;;
  set_R VIRTIO_MMIO_QUEUE_DESC_LOW desc ;;
  set_R VIRTIO_MMIO_QUEUE_DESC_HIGH (Z.shiftr desc 32) ;;
  set_R VIRTIO_MMIO_DRIVER_DESC_LOW avail ;;
  set_R VIRTIO_MMIO_DRIVER_DESC_HIGH (Z.shiftr avail 32) ;;
  set_R VIRTIO_MMIO_DEVICE_DESC_LOW used ;;
  set_R VIRTIO_MMIO_DEVICE_DESC_HIGH (Z.shiftr used 32) ;;
  set_R VIRTIO_MMIO_QUEUE_READY 1.

Definition virtio_disk_init : M kernel unit :=
  initlock LkVdisk ;;
  find_disk ;;
  status ← negotiate;
  check_queue ;;
  setup_queue ;;
  upd_vd (set_vd_free (replicate (Z.to_nat NUM) true)) ;;
  set_R VIRTIO_MMIO_STATUS (Z.lor status VIRTIO_CONFIG_S_DRIVER_OK).
End init.
