(* ===== verification/VirtioProps.v ===== *)
(** * The disk driver: descriptors never leak, and a transfer is [disk_rw]

    [fr v busy]: the descriptors in [busy] are the ones in use.  Every operation
    on descriptors is described by how it changes [busy]. *)

From S2P Require Import Prelude State Spinlock Sched Sleeplock Waiting Bio Virtio.

Record fr (v : vdiskst) (busy : list Z) : Prop := mkFr {
  fr_free : forall i, 0 <= i < NUM -> vd_free v !!! Z.to_nat i = bool_decide (i ∉ busy);
  fr_nodup : NoDup busy;
  fr_range : forall i, i ∈ busy -> 0 <= i < NUM;
  fr_len : length (vd_free v) = Z.to_nat NUM;
  fr_desc : length (vd_desc v) = Z.to_nat NUM
}.

(** Only the driver's variables and who is runnable change. *)
Definition vstep (s s' : kernel) : Prop := s' = set_procs (procs s') (set_vdisk (vdisk s') s) /\ procs s' !!! cur s = procs s !!! cur s /\
  length (procs s') = length (procs s).

Lemma vstep_refl s : vstep s s.
Proof. by destruct s. Qed.
Lemma vstep_trans s1 s2 s3 : vstep s1 s2 -> vstep s2 s3 -> vstep s1 s3.
Proof.
  intros (E1 & P1 & L1) (E2 & P2 & L2). split; [|split].
  - rewrite E2 at 1. rewrite E1. done.
  - assert (cur s2 = cur s1) by (by rewrite E1). congruence.
  - congruence.
Qed.
Lemma vstep_held s s' : vstep s s' -> held s' = held s.
Proof. intros [-> _]. done. Qed.
Lemma vstep_cur s s' : vstep s s' -> cur s' = cur s.
Proof. intros [-> _]. done. Qed.
Lemma vstep_bufs s s' : vstep s s' -> bufs s' = bufs s.
Proof. intros [-> _]. done. Qed.
Lemma vstep_disk s s' : vstep s s' -> disk s' = disk s.
Proof. intros [-> _]. done. Qed.
Lemma vstep_no_proc s s' : vstep s s' -> no_proc_lock s -> no_proc_lock s'.
Proof. intros V H i. rewrite (vstep_held _ _ V). apply H. Qed.

Lemma vstep_upd s f : vstep s (set_vdisk (f (vdisk s)) s).
Proof. by destruct s. Qed.

(** ** alloc_desc *)

(** The other variables of the driver, and the descriptors in [l]. *)
Definition keep (l : list Z) (v v' : vdiskst) : Prop :=
  v' = set_vd_free (vd_free v') (set_vd_desc (vd_desc v') v) /\
  (forall i, i ∈ l -> vd_desc v' !!! Z.to_nat i = vd_desc v !!! Z.to_nat i).

Lemma keep_refl l v : keep l v v.
Proof. by destruct v. Qed.

Lemma keep_trans l v1 v2 v3 : keep l v1 v2 -> keep l v2 v3 -> keep l v1 v3.
Proof. intros [E1 D1] [E2 D2]. split; [rewrite E2 at 1; rewrite E1; done |]. intros i Hi. rewrite D2, D1; done. Qed.

Lemma keep_sub l l' v v' : (forall i, i ∈ l' -> i ∈ l) -> keep l v v' -> keep l' v v'.
Proof. intros Hl [E D]. split; [done |]. auto. Qed.

Lemma fr_perm v b1 b2 : fr v b1 -> b1 ≡ₚ b2 -> fr v b2.
Proof.
  intros [F N R L D] HP. split; try done.
  - intros i Hi. rewrite F by done. apply bool_decide_ext. by rewrite HP.
  - by rewrite <- HP.
  - intros i. rewrite <- HP. apply R.
Qed.

(** All descriptors in use: there are [NUM] of them. *)
Lemma fr_full v busy : fr v busy -> (forall j, 0 <= j < NUM -> j ∈ busy) -> length busy = Z.to_nat NUM.
Proof.
  intros [F N R L D] Ha. assert (HP : busy ≡ₚ seqZ 0 NUM); [|rewrite HP; apply length_seqZ].
  apply NoDup_Permutation; [done | apply NoDup_seqZ |]. intros x. rewrite elem_of_seqZ. split; [intros Hx; specialize (R x Hx); lia |].
  intros Hx. apply Ha. lia.
Qed.

Lemma fr_take v busy i : fr v busy -> 0 <= i < NUM -> i ∉ busy -> fr (set_vd_free (<[Z.to_nat i := false]> (vd_free v)) v) (i :: busy).
Proof.
  intros [F N R L D] Hi Hn. split; cbn [vd_free vd_desc set_vd_free]; rewrite ?length_insert; try done; [|by constructor |].
  - intros j Hj. destruct (decide (i = j)) as [->|Hne].
    + rewrite list_lookup_total_insert_eq by (rewrite L; lia). symmetry. apply bool_decide_eq_false_2. intros H. apply H. by left.
    + rewrite list_lookup_total_insert_ne by lia. rewrite F by done. apply bool_decide_ext. rewrite elem_of_cons. intuition congruence.
  - intros j [->|Hj]%elem_of_cons; [done | by apply R].
Qed.

Lemma alloc_desc_loop_ok : forall k i s busy, fr (vdisk s) busy -> 0 <= i -> i + Z.of_nat k = NUM -> (forall j, 0 <= j < i -> j ∈ busy) ->
  (exists d, alloc_desc_loop k i s = Ret d (set_vdisk (set_vd_free (<[Z.to_nat d := false]> (vd_free (vdisk s))) (vdisk s)) s) /\ 0 <= d < NUM /\ d ∉ busy /\
     forall j, 0 <= j < d -> j ∈ busy) \/
  (alloc_desc_loop k i s = Ret (-1) s /\ forall j, 0 <= j < NUM -> j ∈ busy).
Proof.
  induction k as [|k IH]; intros i s busy F Hi Hk Hlow; cbn [alloc_desc_loop].
  - right. split; [done |]. intros j Hj. apply Hlow. lia.
  - unfold getvd. erewrite bind_Ret by reflexivity. cbv beta. rewrite (fr_free _ _ F) by lia. destruct (decide (i ∈ busy)) as [Hb|Hb].
    + rewrite bool_decide_eq_false_2 by (intros H; by apply H). apply IH; try done; try lia.
      intros j Hj. destruct (decide (j = i)) as [->|]; [done |]. apply Hlow. lia.
    + rewrite bool_decide_eq_true_2 by done. left. exists i. split; [done |]. split; [lia |]. done.
Qed.

Lemma alloc_desc_ok s busy : fr (vdisk s) busy ->
  (exists d s', alloc_desc s = Ret d s' /\ 0 <= d < NUM /\ d ∉ busy /\ fr (vdisk s') (d :: busy) /\ vstep s s' /\ procs s' = procs s /\ forall l, keep l (vdisk s) (vdisk s')) \/
  (alloc_desc s = Ret (-1) s /\ forall j, 0 <= j < NUM -> j ∈ busy).
Proof.
  intros F. destruct (alloc_desc_loop_ok (Z.to_nat NUM) 0 s busy F) as [(d & E & Hd & Hn & _)|[E Ha]]; try done; try lia; [|by right].
  left. exists d, (set_vdisk (set_vd_free (<[Z.to_nat d := false]> (vd_free (vdisk s))) (vdisk s)) s). split; [exact E |]. split; [exact Hd |]. split; [exact Hn |].
  split; [by apply fr_take |]. split; [apply (vstep_upd s (fun v => set_vd_free (<[Z.to_nat d := false]> (vd_free v)) v)) | done].
Qed.

(** ** free_desc *)

Lemma free_desc_double s busy i : fr (vdisk s) busy -> 0 <= i < NUM -> i ∉ busy -> free_desc i s = Panic "free_desc 2".
Proof.
  intros F Hi Hn. unfold free_desc. destruct (Z.leb_spec NUM i); [lia |]. unfold getvd. erewrite bind_Ret by reflexivity. cbv beta.
  rewrite (fr_free _ _ F), bool_decide_eq_true_2 by done. done.
Qed.

Lemma free_desc_ok s busy busy' i : fr (vdisk s) busy -> busy ≡ₚ i :: busy' -> no_proc_lock s ->
  exists s', free_desc i s = Ret tt s' /\ fr (vdisk s') busy' /\ vstep s s' /\ keep busy' (vdisk s) (vdisk s').
Proof.
  intros [F N R L D] HP Hl. assert (Hi : i ∈ busy) by (rewrite HP; by left). pose proof (R i Hi) as Hr.
  rewrite HP in N. apply NoDup_cons in N as [Hn N]. unfold free_desc. destruct (Z.leb_spec NUM i); [lia |].
  unfold getvd. erewrite bind_Ret by reflexivity. cbv beta. rewrite F, bool_decide_eq_false_2 by (done || (intros Hx; by apply Hx)).
  unfold put_desc, put_free, upd_vd. mred. rewrite wakeup_ok by exact Hl. eexists. split; [reflexivity |].
  cbn [vdisk set_procs set_vdisk procs cur]. split; [|split].
  - split; cbn [vd_free vd_desc set_vd_free set_vd_desc]; rewrite ?length_insert, ?length_alter; try done.
    + intros j Hj. destruct (decide (i = j)) as [->|Hne].
      * rewrite list_lookup_total_insert_eq by (rewrite L; lia). symmetry. by apply bool_decide_eq_true_2.
      * rewrite list_lookup_total_insert_ne by lia. rewrite F by done. apply bool_decide_ext. rewrite HP, elem_of_cons. intuition congruence.
    + intros j Hj. apply R. rewrite HP. by right.
  - split; [by destruct s |]. split; [apply wake_me | apply length_wake].
  - split; [done |]. intros j Hj. assert (Hjb : 0 <= j < NUM) by (apply R; rewrite HP; by right).
    assert (Hne : i <> j) by (by intros ->). cbn [vd_desc set_vd_desc set_vd_free]. rewrite !list_lookup_total_alter_ne by lia. done.
Qed.

(** ** alloc3_desc *)

Lemma free_descs_ok : forall l s busy, fr (vdisk s) (l ++ busy) -> no_proc_lock s ->
  exists s', free_descs l s = Ret tt s' /\ fr (vdisk s') busy /\ vstep s s' /\ keep busy (vdisk s) (vdisk s').
Proof.
  induction l as [|i l IH]; intros s busy F Hl; cbn [free_descs]; [exists s; auto using vstep_refl, keep_refl |].
  destruct (free_desc_ok s _ (l ++ busy) i F ltac:(done) Hl) as (s1 & E1 & F1 & V1 & K1). erewrite bind_Ret by exact E1. cbv beta.
  destruct (IH s1 busy F1) as (s2 & E2 & F2 & V2 & K2); [by eapply vstep_no_proc |].
  exists s2. split; [done |]. split; [done |]. split; [by eapply vstep_trans |]. eapply keep_trans; [|exact K2].
  eapply keep_sub; [|exact K1]. intros x Hx. apply elem_of_app. by right.
Qed.

Lemma alloc3_loop_ok : forall k idx s busy, fr (vdisk s) (idx ++ busy) -> no_proc_lock s ->
  (exists l s', alloc3_loop k idx s = Ret (Some (idx ++ l)) s' /\ length l = k /\ fr (vdisk s') ((idx ++ l) ++ busy) /\ vstep s s' /\ procs s' = procs s /\
     forall l', keep l' (vdisk s) (vdisk s')) \/
  (exists s', alloc3_loop k idx s = Ret None s' /\ fr (vdisk s') busy /\ vstep s s' /\ keep busy (vdisk s) (vdisk s') /\
     (Z.to_nat NUM < length (idx ++ busy) + k)%nat).
Proof.
  induction k as [|k IH]; intros idx s busy F Hl; cbn [alloc3_loop].
  - left. exists [], s. rewrite app_nil_r. auto 10 using vstep_refl, keep_refl.
  - destruct (alloc_desc_ok s _ F) as [(d & s1 & E1 & Hd & Hn & F1 & V1 & P1 & K1)|[E1 Hall]]; erewrite bind_Ret by exact E1; cbv beta.
    + destruct (Z.ltb_spec d 0); [lia |].
      destruct (IH (idx ++ [d]) s1 busy) as [(l & s2 & E2 & L2 & F2 & V2 & P2 & K2)|(s2 & E2 & F2 & V2 & K2 & N2)].
      * eapply fr_perm; [exact F1 |]. rewrite <- app_assoc. cbn. apply Permutation_middle.
      * by eapply vstep_no_proc.
      * left. exists (d :: l), s2. rewrite <- (app_assoc idx [d] l) in E2, F2. cbn in E2, F2. split; [exact E2 |]. split; [cbn; lia |]. split; [exact F2 |].
        split; [by eapply vstep_trans |]. split; [congruence |]. intros l'. by eapply keep_trans.
      * right. exists s2. split; [exact E2 |]. split; [exact F2 |]. split; [by eapply vstep_trans |]. split; [by eapply keep_trans |].
        rewrite !length_app in *. cbn in N2. lia.
    + change (-1 <? 0) with true. cbv iota. destruct (free_descs_ok idx s busy F Hl) as (s1 & E2 & F2 & V2 & K2). erewrite bind_Ret by exact E2.
      right. exists s1. split; [done |]. split; [done |]. split; [done |]. split; [done |]. rewrite (fr_full _ _ F Hall). lia.
Qed.

(** Three descriptors, or none: what was taken before the failure is given back. *)
Lemma alloc3_desc_ok s busy : fr (vdisk s) busy -> no_proc_lock s ->
  (exists i0 i1 i2 s', alloc3_desc s = Ret (Some [i0; i1; i2]) s' /\ fr (vdisk s') (i0 :: i1 :: i2 :: busy) /\ vstep s s' /\ procs s' = procs s /\
     forall l', keep l' (vdisk s) (vdisk s')) \/
  (exists s', alloc3_desc s = Ret None s' /\ fr (vdisk s') busy /\ vstep s s' /\ keep busy (vdisk s) (vdisk s') /\ (5 < length busy)%nat).
Proof.
  intros F Hl. destruct (alloc3_loop_ok 3 [] s busy F Hl) as [(l & s' & E & Hl3 & H)|(s' & E & H)].
  - left. do 3 (destruct l as [|? l]; [done |]). destruct l; [|done]. eexists _, _, _, s'. split; [exact E | exact H].
  - right. exists s'. split; [exact E |]. destruct H as (? & ? & ? & Hn). cbn in Hn. unfold NUM in Hn. split; [done |]. split; [done |]. split; [done |]. lia.
Qed.

(** ** Requests in flight *)

Record rq : Type := mkRq { rq0 : Z; rq1 : Z; rq2 : Z; rqb : nat; rqw : bool; rqsec : Z }.

Definition rq_descs (r : rq) : list Z := [rq0 r; rq1 r; rq2 r].
Definition descs (rs : list rq) : list Z := concat (map rq_descs rs).

(** The chain of a request, as the device finds it. *)
Record chained (v : vdiskst) (r : rq) : Prop := mkChained {
  ch_head : vd_desc v !!! Z.to_nat (rq0 r) = mkDesc (AOps (Z.to_nat (rq0 r))) 16 VRING_DESC_F_NEXT (rq1 r);
  ch_data : vd_desc v !!! Z.to_nat (rq1 r) =
    mkDesc (AData (rqb r)) BSIZE (if rqw r then VRING_DESC_F_NEXT else VRING_DESC_F_WRITE + VRING_DESC_F_NEXT) (rq2 r);
  ch_status : vd_desc v !!! Z.to_nat (rq2 r) = mkDesc (AStatus (Z.to_nat (rq0 r))) 1 VRING_DESC_F_WRITE 0;
  ch_op : vd_ops v !!! Z.to_nat (rq0 r) = mkReq (if rqw r then VIRTIO_BLK_T_OUT else VIRTIO_BLK_T_IN) 0 (rqsec r)
}.

Record posted (v : vdiskst) (r : rq) : Prop := mkPosted {
  po_chain : chained v r;
  po_info : (vd_info v !!! Z.to_nat (rq0 r)).1 = Some (rqb r)
}.

Record vd_inv (v : vdiskst) (rs : list rq) : Prop := mkVdInv {
  vi_fr : fr v (descs rs);
  vi_posted : forall r, r ∈ rs -> posted v r;
  vi_info : length (vd_info v) = Z.to_nat NUM;
  vi_ops : length (vd_ops v) = Z.to_nat NUM;
  vi_ring : length (vd_avail_ring v) = Z.to_nat NUM
}.

Lemma put_desc_Ret i f s : put_desc i f s = Ret tt (set_vdisk (set_vd_desc (alter f (Z.to_nat i) (vd_desc (vdisk s))) (vdisk s)) s).
Proof. done. Qed.
Lemma put_info_Ret i f s : put_info i f s = Ret tt (set_vdisk (set_vd_info (alter f (Z.to_nat i) (vd_info (vdisk s))) (vdisk s)) s).
Proof. done. Qed.
Lemma put_op_Ret i r s : put_op i r s = Ret tt (set_vdisk (set_vd_ops (<[Z.to_nat i := r]> (vd_ops (vdisk s))) (vdisk s)) s).
Proof. done. Qed.

(** Consecutive assignments to one descriptor. *)
Lemma put_desc_fuse {A} i f g (k : unit -> M kernel A) s :
  (put_desc i f ;; (put_desc i g ≫= k)) s = (put_desc i (fun x => g (f x)) ≫= k) s.
Proof.
  unfold put_desc, upd_vd, modify, mbind, M_bind, bind. cbn [obind vdisk set_vdisk vd_desc set_vd_desc]. by rewrite list_alter_alter_eq.
Qed.

Lemma put_desc_fuse_last i f g s : (put_desc i f ;; put_desc i g) s = put_desc i (fun x => g (f x)) s.
Proof.
  unfold put_desc, upd_vd, modify, mbind, M_bind, bind. cbn [obind vdisk set_vdisk vd_desc set_vd_desc]. by rewrite list_alter_alter_eq.
Qed.

Lemma format_ok s b w sec i0 i1 i2 : let v := vdisk s in
  format_request b w sec i0 i1 i2 s = Ret tt (set_vdisk (set_vd_info (alter (fun x => (x.1, 255)) (Z.to_nat i0) (vd_info v))
    (set_vd_ops (<[Z.to_nat i0 := mkReq (if w then VIRTIO_BLK_T_OUT else VIRTIO_BLK_T_IN) 0 sec]> (vd_ops v))
    (set_vd_desc (alter (fun _ => mkDesc (AStatus (Z.to_nat i0)) 1 VRING_DESC_F_WRITE 0) (Z.to_nat i2)
      (alter (fun _ => mkDesc (AData b) BSIZE (if w then VRING_DESC_F_NEXT else VRING_DESC_F_WRITE + VRING_DESC_F_NEXT) i2) (Z.to_nat i1)
      (alter (fun _ => mkDesc (AOps (Z.to_nat i0)) 16 VRING_DESC_F_NEXT i1) (Z.to_nat i0) (vd_desc v)))) v))) s).
Proof.
  intros v. unfold format_request. destruct w;
    (erewrite bind_Ret by (apply put_op_Ret); cbv beta; rewrite !put_desc_fuse; erewrite bind_Ret by (apply put_desc_Ret); cbv beta;
     rewrite !put_desc_fuse; erewrite bind_Ret by (apply put_desc_Ret); cbv beta;
     erewrite bind_Ret by (apply put_info_Ret); cbv beta; rewrite !put_desc_fuse, put_desc_fuse_last; reflexivity).
Qed.

Lemma post_ok s b i0 : let v := vdisk s in
  post_request b i0 s = Ret tt (set_vdisk (set_vd_regs ((VIRTIO_MMIO_QUEUE_NOTIFY, 0) :: vd_regs v) (set_vd_avail_idx (u16 (vd_avail_idx v + 1))
    (set_vd_avail_ring (<[Z.to_nat (vd_avail_idx v mod NUM) := i0]> (vd_avail_ring v))
    (set_vd_info (alter (fun x => (Some b, x.2)) (Z.to_nat i0) (vd_info v)) v)))) (set_bufs (alter (set_b_disk true) b (bufs s)) s)).
Proof. reflexivity. Qed.

Lemma elem_of_descs r rs i : r ∈ rs -> i ∈ rq_descs r -> i ∈ descs rs.
Proof.
  intros Hr Hi. apply list_elem_of_In, in_concat. exists (rq_descs r). split; [apply in_map |]; by apply list_elem_of_In.
Qed.

Lemma to_nat_ne i j : 0 <= i < NUM -> 0 <= j < NUM -> i <> j -> Z.to_nat j <> Z.to_nat i.
Proof. lia. Qed.

(** Submitting a request: the chain is in the table, its head in the ring. *)
Lemma submit_ok s b w sec i0 i1 i2 rs (f : unit -> M kernel unit) : fr (vdisk s) (i0 :: i1 :: i2 :: descs rs) -> (forall r, r ∈ rs -> posted (vdisk s) r) ->
  length (vd_info (vdisk s)) = Z.to_nat NUM -> length (vd_ops (vdisk s)) = Z.to_nat NUM -> length (vd_avail_ring (vdisk s)) = Z.to_nat NUM ->
  exists v', (format_request b w sec i0 i1 i2 ;; (post_request b i0 ≫= f)) s = f tt (set_vdisk v' (set_bufs (alter (set_b_disk true) b (bufs s)) s)) /\
    vd_inv v' (mkRq i0 i1 i2 b w sec :: rs) /\
    vd_avail_ring v' = <[Z.to_nat (vd_avail_idx (vdisk s) mod NUM) := i0]> (vd_avail_ring (vdisk s)) /\
    vd_avail_idx v' = u16 (vd_avail_idx (vdisk s) + 1) /\ (vd_info v' !!! Z.to_nat i0).2 = 255 /\
    vd_used_devidx v' = vd_used_devidx (vdisk s) /\ vd_used_ring v' = vd_used_ring (vdisk s) /\ vd_used_idx v' = vd_used_idx (vdisk s).
Proof.
  intros F HP Li Lo Lr. destruct F as [F N R L D]. assert (Hr : forall i, i ∈ [i0; i1; i2] -> 0 <= i < NUM).
  { intros i Hi. apply R. rewrite !elem_of_cons in *. rewrite elem_of_nil in Hi. tauto. }
  assert (H0 : 0 <= i0 < NUM) by (apply Hr; set_solver). assert (H1 : 0 <= i1 < NUM) by (apply Hr; set_solver). assert (H2 : 0 <= i2 < NUM) by (apply Hr; set_solver).
  pose proof N as N'. rewrite !NoDup_cons, !not_elem_of_cons in N'. destruct N' as ((N01 & N02 & N0) & (N12 & N1) & N2 & _).
  eexists. split; [erewrite bind_Ret by apply format_ok; cbv beta; erewrite bind_Ret by apply post_ok; cbv beta; reflexivity |].
  cbn [vdisk set_vdisk set_bufs bufs vd_desc set_vd_desc vd_ops set_vd_ops vd_info set_vd_info vd_regs set_vd_regs vd_avail_idx set_vd_avail_idx
       vd_avail_ring set_vd_avail_ring vd_used_devidx vd_used_ring vd_used_idx].
  rewrite list_alter_alter_eq. split_and!; try done.
  2: { rewrite list_lookup_total_alter_eq by (rewrite Li; lia). done. }
  split; cbn [vd_desc set_vd_desc vd_ops set_vd_ops vd_info set_vd_info vd_regs set_vd_regs vd_avail_idx set_vd_avail_idx vd_avail_ring set_vd_avail_ring];
    rewrite ?length_alter, ?length_insert; try done.
  - split; cbn [vd_free vd_desc set_vd_desc vd_ops set_vd_ops vd_info set_vd_info vd_regs set_vd_regs vd_avail_idx set_vd_avail_idx vd_avail_ring set_vd_avail_ring];
      rewrite ?length_alter; done.
  - intros r [->|Hin]%elem_of_cons.
    + split; [split |]; cbn [rq0 rq1 rq2 rqb rqw rqsec vd_desc set_vd_desc vd_ops set_vd_ops vd_info set_vd_info vd_regs set_vd_regs vd_avail_idx set_vd_avail_idx vd_avail_ring set_vd_avail_ring].
      * rewrite !list_lookup_total_alter_ne by lia. apply list_lookup_total_alter_eq. lia.
      * rewrite list_lookup_total_alter_ne by lia. apply list_lookup_total_alter_eq. rewrite length_alter. lia.
      * apply list_lookup_total_alter_eq. rewrite !length_alter. lia.
      * apply list_lookup_total_insert_eq. lia.
      * rewrite list_lookup_total_alter_eq by (rewrite Li; lia). done.
    + assert (Hd : forall i, i ∈ rq_descs r -> 0 <= i < NUM /\ i <> i0 /\ i <> i1 /\ i <> i2).
      { intros i Hi. pose proof (elem_of_descs r rs i Hin Hi) as Hid. split; [apply R; by do 3 right |]. split_and!; intros ->; done. }
      destruct (Hd (rq0 r) ltac:(by left)) as (A0 & A1 & A2 & A3). destruct (Hd (rq1 r) ltac:(by right; left)) as (B0 & B1 & B2 & B3).
      destruct (Hd (rq2 r) ltac:(by right; right; left)) as (C0 & C1 & C2 & C3). destruct (HP r Hin) as [[P1 P2 P3 P4] P5].
      split; [split |]; cbn [rq0 rq1 rq2 rqb rqw rqsec vd_desc set_vd_desc vd_ops set_vd_ops vd_info set_vd_info vd_regs set_vd_regs vd_avail_idx set_vd_avail_idx vd_avail_ring set_vd_avail_ring].
      * rewrite !list_lookup_total_alter_ne by (by apply to_nat_ne). exact P1.
      * rewrite !list_lookup_total_alter_ne by (by apply to_nat_ne). exact P2.
      * rewrite !list_lookup_total_alter_ne by (by apply to_nat_ne). exact P3.
      * rewrite list_lookup_total_insert_ne by (by apply to_nat_ne). exact P4.
      * rewrite list_lookup_total_alter_ne by (by apply to_nat_ne). exact P5.
Qed.

#[export] Instance descs_Permutation : Proper (Permutation ==> Permutation) descs.
Proof.
  intros l l' HP. unfold descs. induction HP as [|x l1 l2 _ IH|x y l1|l1 l2 l3 _ IH1 _ IH2]; cbn [map concat]; [done | by rewrite IH | | by rewrite IH1].
  rewrite !app_assoc. f_equiv. apply Permutation_app_comm.
Qed.

(** ** free_chain *)

(** The chain of a request goes back to the free descriptors, all of it and
    nothing else. *)
Lemma free_chain_ok s busy r : fr (vdisk s) (rq_descs r ++ busy) -> chained (vdisk s) r -> no_proc_lock s ->
  exists s', free_chain (rq0 r) s = Ret tt s' /\ fr (vdisk s') busy /\ vstep s s' /\ keep busy (vdisk s) (vdisk s').
Proof.
  intros F [P0 P1 P2 _] Hl. unfold rq_descs in F. cbn [app] in F. unfold free_chain. change (Z.to_nat NUM + 1)%nat with 9%nat. cbn [free_chain_loop]. unfold getvd.
  erewrite bind_Ret by reflexivity. cbv beta. rewrite P0.
  destruct (free_desc_ok s _ _ _ F ltac:(reflexivity) Hl) as (s1 & E1 & F1 & V1 & K1). erewrite bind_Ret by exact E1. cbv beta.
  change (Z.land (d_flags (mkDesc (AOps (Z.to_nat (rq0 r))) 16 VRING_DESC_F_NEXT (rq1 r))) VRING_DESC_F_NEXT =? 0) with false. cbv iota. cbn [d_next].
  erewrite bind_Ret by reflexivity. cbv beta. rewrite (proj2 K1 (rq1 r)) by (by left). rewrite P1.
  destruct (free_desc_ok s1 _ _ _ F1 ltac:(reflexivity)) as (s2 & E2 & F2 & V2 & K2); [by eapply vstep_no_proc |]. erewrite bind_Ret by exact E2. cbv beta.
  replace (Z.land _ _ =? 0) with false by (by destruct (rqw r)). cbn [d_next].
  erewrite bind_Ret by reflexivity. cbv beta. rewrite (proj2 K2 (rq2 r)), (proj2 K1 (rq2 r)) by (by left || by right; left). rewrite P2.
  assert (V12 : vstep s s2) by (by eapply vstep_trans).
  destruct (free_desc_ok s2 _ _ _ F2 ltac:(reflexivity)) as (s3 & E3 & F3 & V3 & K3); [by eapply vstep_no_proc |]. erewrite bind_Ret by exact E3. cbv beta.
  change (Z.land (d_flags (mkDesc (AStatus (Z.to_nat (rq0 r))) 1 VRING_DESC_F_WRITE 0)) VRING_DESC_F_NEXT =? 0) with true. cbv iota.
  exists s3. split; [done |]. split; [done |]. split; [by eapply vstep_trans |].
  eapply keep_trans; [|exact K3]. eapply keep_trans; [eapply keep_sub; [|exact K1] | eapply keep_sub; [|exact K2]]; intros i Hi; [by do 2 right | by right].
Qed.

(** Whatever the descriptor table holds, cyclic chains included: every round
    frees a descriptor that was in use, or panics. *)
Lemma free_chain_loop_ends : forall fuel i s busy, fr (vdisk s) busy -> no_proc_lock s -> 0 <= i -> (forall d, d ∈ vd_desc (vdisk s) -> 0 <= d_next d) ->
  (length busy < fuel)%nat -> (exists s', free_chain_loop fuel i s = Ret tt s') \/ (exists msg, free_chain_loop fuel i s = Panic msg).
Proof.
  induction fuel as [|fuel IH]; intros i s busy F Hl Hi Hnext Hf; [lia |]. cbn [free_chain_loop]. unfold getvd. erewrite bind_Ret by reflexivity. cbv beta.
  destruct (Z.le_gt_cases NUM i) as [Hbig|Hsmall].
  { right. exists "free_desc 1"%string. unfold free_desc. destruct (Z.leb_spec NUM i); [done | lia]. }
  destruct (decide (i ∈ busy)) as [Hb|Hb].
  2: { right. exists "free_desc 2"%string. unfold mbind, M_bind, bind. by rewrite (free_desc_double s busy) by (done || lia). }
  apply elem_of_Permutation in Hb as [busy' HP].
  destruct (free_desc_ok s busy busy' i F HP Hl) as (s1 & E1 & F1 & V1 & K1). erewrite bind_Ret by exact E1. cbv beta.
  destruct (_ =? 0); [left; by exists s1 |]. pose proof (Permutation_length HP) as Hlen. cbn in Hlen.
  assert (Hd : vd_desc (vdisk s) !!! Z.to_nat i ∈ vd_desc (vdisk s)).
  { apply list_elem_of_lookup. exists (Z.to_nat i). apply list_lookup_lookup_total_lt. rewrite (fr_desc _ _ F). lia. }
  apply IH with (busy := busy'); try done; [by eapply vstep_no_proc | by apply Hnext | | lia].
  intros d. unfold free_desc in E1. destruct (Z.leb_spec NUM i); [lia |]. revert E1. unfold getvd at 1. erewrite bind_Ret by reflexivity. cbv beta.
  rewrite (fr_free _ _ F) by lia. rewrite bool_decide_eq_false_2 by (intros Hx; apply Hx; rewrite HP; by left).
  rewrite !put_desc_fuse. unfold put_desc, put_free, upd_vd. mred. rewrite wakeup_ok by exact Hl. intros E1. injection E1 as <-.
  cbn [vdisk set_vdisk set_procs vd_desc set_vd_desc set_vd_free]. intros [j Hj]%list_elem_of_lookup.
  rewrite list_lookup_alter in Hj. destruct (decide (Z.to_nat i = j)).
  - destruct (vd_desc (vdisk s) !! Z.to_nat i); [|done]. injection Hj as <-. cbn. lia.
  - apply Hnext. apply list_elem_of_lookup. eauto.
Qed.

(** ** The two halves of virtio_disk_rw *)

(** Entering [while(cond) sleep(c, lk);] with the condition true. *)
Lemma sleep_while_run {B} n cond c lk me (f : unit -> M kernel B) s : cond s = true -> cur s = me -> held s = {[lk]} -> lk <> LkProc me -> (me < length (procs s))%nat ->
  exists k, (sleep_while (S n) cond c lk ≫= f) s = Sleep c (sleeping me c s) k /\
    forall s', cur s' = me -> held s' = {[LkProc me]} -> k s' = (sleep_while n cond c lk ≫= f) (woken me lk s').
Proof.
  intros H Hc Hh Hne Hme. destruct (sleep_run (fun _ => sleep_while n cond c lk) c lk me s Hc Hh Hne Hme) as (k & E & Hk).
  unfold mbind at 1, M_bind at 1, bind at 1. cbn [sleep_while]. erewrite bind_Ret by reflexivity. cbv beta. rewrite H, E. cbn [obind].
  eexists. split; [reflexivity |]. intros s' Hc' Hh'. cbv beta. by rewrite Hk.
Qed.
Lemma sleep_while_false n cond c lk s : cond s = false -> sleep_while (S n) cond c lk s = Ret tt s.
Proof. intros H. cbn [sleep_while]. erewrite bind_Ret by reflexivity. cbv beta. by rewrite H. Qed.

Lemma alloc3_wait_ok n s s1 idx : alloc3_desc s = Ret (Some idx) s1 -> alloc3_wait (S n) s = Ret idx s1.
Proof. intros E. cbn [alloc3_wait]. by erewrite bind_Ret by exact E. Qed.

Lemma chained_ext v v' r : (forall i, i ∈ rq_descs r -> vd_desc v' !!! Z.to_nat i = vd_desc v !!! Z.to_nat i) -> vd_ops v' = vd_ops v -> chained v r -> chained v' r.
Proof.
  intros D O [P0 P1 P2 P3]. split; [rewrite D by (by left); done | rewrite D by (by right; left); done | rewrite D by (by right; right; left); done | by rewrite O].
Qed.

(** Nothing submitted is still with the device, nothing completed unseen. *)
Record idle (v : vdiskst) : Prop := mkIdle {
  id_seen : vd_used_idx v = vd_used_devidx v;
  id_done : vd_used_devidx v = vd_avail_idx v;
  id_range : 0 <= vd_avail_idx v < 2 ^ 16;
  id_ring : length (vd_used_ring v) = Z.to_nat NUM
}.

(** After waking up, with the transfer complete: the descriptors are given back. *)
Lemma rw_finish s r rs0 rs : vd_inv (vdisk s) rs0 -> rs0 ≡ₚ r :: rs -> held s = {[LkVdisk]} ->
  exists s', (put_info (rq0 r) (fun x => (None, x.2)) ;; free_chain (rq0 r) ;; release LkVdisk) s = Ret tt s' /\
    s' = set_held ∅ (set_procs (procs s') (set_vdisk (vdisk s') s)) /\ vd_inv (vdisk s') rs /\ (idle (vdisk s) -> idle (vdisk s')).
Proof.
  intros [F P Li Lo Lr] HP Hh. assert (F' : fr (vdisk s) (rq_descs r ++ descs rs)) by (eapply fr_perm; [exact F | by rewrite HP]).
  assert (Hr : posted (vdisk s) r) by (apply P; rewrite HP; by left).
  erewrite bind_Ret by apply put_info_Ret. cbv beta. set (s1 := set_vdisk _ s).
  assert (R0 : 0 <= rq0 r < NUM) by (apply (fr_range _ _ F'); by left).
  destruct (free_chain_ok s1 (descs rs) r) as (s2 & E2 & F2 & V2 & [K2 D2]).
  - destruct F' as [A B C D E]. by split.
  - eapply chained_ext; [| |apply Hr]; done.
  - intros i. unfold s1. cbn [held set_vdisk]. rewrite Hh. set_solver.
  - erewrite bind_Ret by exact E2. cbv beta. pose proof (vstep_held _ _ V2) as H2. change (held s1) with (held s) in H2. rewrite Hh in H2.
    rewrite release_Ret by (rewrite H2; set_solver). eexists. split; [reflexivity |]. cbn [procs set_held vdisk]. split.
    + rewrite H2. replace ({[LkVdisk]} ∖ {[LkVdisk]}) with (∅ : gset lockid) by set_solver. destruct V2 as [-> _]. done.
    + split; [|intros [D1' D2' D3' D4']; by split; rewrite K2].
      split; try (rewrite K2; cbn; by rewrite ?length_alter); [done |]. intros r' Hr'.
      assert (Hin' : r' ∈ rs0) by (rewrite HP; by right). destruct (P r' Hin') as [Pc Pi]. split.
      * eapply chained_ext; [| |exact Pc]; [intros i Hi; rewrite D2 by (by eapply elem_of_descs); done | by rewrite K2].
      * rewrite K2. unfold s1. cbn [vd_info set_vd_free set_vd_desc vdisk set_vdisk set_vd_info]. rewrite list_lookup_total_alter_ne; [done |].
        pose proof (fr_nodup _ _ F') as Hn. apply NoDup_app in Hn as (_ & Hn & _).
        apply to_nat_ne; [apply (fr_range _ _ F); by eapply elem_of_descs; [|left] | done |].
        intros E. apply (Hn (rq0 r)); [by left |]. rewrite <- E. eapply elem_of_descs; [done | by left].
Qed.

(** Submitting: with three free descriptors the thread goes to sleep on the
    buffer, its request posted; it finishes when the buffer is the driver's
    again. *)
Lemma rw_submit s b w rs me : let sec := u32 (b_blockno (bufs s !!! b) * (BSIZE / 512)) in
  vd_inv (vdisk s) rs -> (length (descs rs) <= 5)%nat -> held s = ∅ -> cur s = me -> (me < length (procs s))%nat -> (b < length (bufs s))%nat ->
  exists i0 i1 i2 v' k, let r := mkRq i0 i1 i2 b w sec in
    virtio_disk_rw b w s = Sleep (ChBuf b) (sleeping me (ChBuf b) (set_vdisk v' (set_bufs (alter (set_b_disk true) b (bufs s)) s))) k /\
    vd_inv v' (r :: rs) /\
    vd_avail_ring v' = <[Z.to_nat (vd_avail_idx (vdisk s) mod NUM) := i0]> (vd_avail_ring (vdisk s)) /\
    vd_avail_idx v' = u16 (vd_avail_idx (vdisk s) + 1) /\ (vd_info v' !!! Z.to_nat i0).2 = 255 /\
    vd_used_devidx v' = vd_used_devidx (vdisk s) /\ vd_used_ring v' = vd_used_ring (vdisk s) /\ vd_used_idx v' = vd_used_idx (vdisk s) /\
    (forall s', cur s' = me -> held s' = {[LkProc me]} -> b_disk (bufs s' !!! b) = false ->
       k s' = (put_info i0 (fun x => (None, x.2)) ;; free_chain i0 ;; release LkVdisk) (woken me LkVdisk s')).
Proof.
  intros sec [F P Li Lo Lr] Hroom Hh Hc Hme Hb. assert (HW : exists n, WAKEUPS = S (S n)) by (by exists 998%nat). destruct HW as [n HW].
  unfold virtio_disk_rw. unfold getbuf. erewrite bind_Ret by reflexivity. cbv beta zeta. fold sec. rewrite HW.
  erewrite bind_Ret by (apply acquire_Ret; rewrite Hh; set_solver). cbv beta. rewrite Hh.
  replace ({[LkVdisk]} ∪ ∅) with ({[LkVdisk]} : gset lockid) by set_solver. set (s1 := set_held {[LkVdisk]} s).
  destruct (alloc3_desc_ok s1 (descs rs) F) as [(i0 & i1 & i2 & s2 & E2 & F2 & V2 & P2 & K2)|(s2 & _ & _ & _ & _ & Hl)]; [|..|lia].
  { intros i. unfold s1. cbn [held set_held]. set_solver. }
  erewrite bind_Ret by (by apply alloc3_wait_ok). cbv beta. cbn [lookup_total list_lookup_total].
  assert (Ev : s2 = set_vdisk (vdisk s2) s1) by (destruct V2 as [V2 _]; rewrite V2; rewrite P2; by destruct s).
  destruct (K2 (descs rs)) as [Kf Kd]. change (vdisk s1) with (vdisk s) in *.
  destruct (submit_ok s2 b w sec i0 i1 i2 rs (fun _ => sleep_while (S (S n)) (fun s => b_disk (bufs s !!! b)) (ChBuf b) LkVdisk ;;
    put_info i0 (fun x => (None, x.2)) ;; free_chain i0 ;; release LkVdisk) F2) as (v' & E3 & I3 & A1 & A2 & A3 & A4 & A5 & A6); try (by rewrite Kf).
  { intros r Hr. destruct (P r Hr) as [Pc Pi]. split; [|by rewrite Kf].
    eapply chained_ext; [| |exact Pc]; [intros i Hi; by rewrite Kd by (by eapply elem_of_descs) | by rewrite Kf]. }
  rewrite E3. set (s3 := set_vdisk v' _).
  assert (D3 : b_disk (bufs s3 !!! b) = true).
  { unfold s3. cbn [bufs set_vdisk set_bufs]. rewrite list_lookup_total_alter_eq; [done |]. by rewrite (vstep_bufs _ _ V2). }
  assert (S3 : set_held {[LkVdisk]} s3 = s3) by (unfold s3; rewrite Ev; done).
  destruct (sleep_while_run (S n) (fun s => b_disk (bufs s !!! b)) (ChBuf b) LkVdisk me
    (fun _ => put_info i0 (fun x => (None, x.2)) ;; free_chain i0 ;; release LkVdisk) s3 D3) as (k & Ek & Hk); try done.
  - unfold s3. cbn [cur set_vdisk set_bufs]. rewrite (vstep_cur _ _ V2). done.
  - by rewrite <- S3.
  - unfold s3. cbn [procs set_vdisk set_bufs]. by rewrite P2.
  - exists i0, i1, i2, v', k. cbv zeta. rewrite Ek. split; [|split; [done |]].
    { f_equal. unfold sleeping, s3. cbn [procs set_vdisk set_bufs]. rewrite Ev. done. }
    rewrite A1, A2, A4, A5, A6, Kf. split_and!; try done. intros s' Hc' Hh' Hd. rewrite Hk by done. 
    by erewrite bind_Ret by (by apply sleep_while_false).
Qed.

(** ** The interrupt handler *)

(** One completed request: its buffer goes back to the driver, and the threads
    that wait for it become runnable. *)
Lemma intr_one st s b id : let v := vdisk s in
  held s = ∅ -> 0 <= vd_used_idx v < 2 ^ 16 -> vd_used_devidx v = u16 (vd_used_idx v + 1) ->
  (vd_used_ring v !!! Z.to_nat (vd_used_idx v mod NUM)).1 = id -> vd_info v !!! Z.to_nat id = (Some b, 0) ->
  virtio_disk_intr st s = Ret tt (set_procs (wake (cur s) (ChBuf b) (procs s)) (set_bufs (alter (set_b_disk false) b (bufs s))
    (set_vdisk (set_vd_used_idx (vd_used_devidx v) (set_vd_regs ((VIRTIO_MMIO_INTERRUPT_ACK, Z.land st 3) :: vd_regs v) v)) s))).
Proof.
  intros v Hh Hi Hd Hid Hinfo. unfold virtio_disk_intr. erewrite bind_Ret by (apply acquire_Ret; rewrite Hh; set_solver). cbv beta.
  unfold upd_vd at 1, getvd. erewrite bind_Ret by reflexivity. cbv beta. erewrite bind_Ret by reflexivity. cbv beta.
  cbn [vdisk set_vdisk set_held vd_used_devidx vd_used_idx set_vd_regs vd_regs]. fold v.
  replace (u16 (vd_used_devidx v - vd_used_idx v)) with 1 by (rewrite Hd, wrap_sub_l; replace (vd_used_idx v + 1 - vd_used_idx v) with 1 by lia; done).
  change (Z.to_nat 1 + 1)%nat with 2%nat. cbn [intr_loop].
  assert (Hne : vd_used_idx v <> vd_used_devidx v).
  { rewrite Hd. unfold wrap. intros E. destruct (Z.eq_dec (vd_used_idx v + 1) (2 ^ 16)) as [E1|E1]; [rewrite E1, Z_mod_same_full in E; lia |].
    rewrite Z.mod_small in E; lia. }
  erewrite bind_Ret by (erewrite bind_Ret by reflexivity; cbv beta; cbn [vdisk set_vdisk set_held vd_used_devidx vd_used_idx set_vd_regs vd_used_ring vd_info];
    fold v; apply Z.eqb_neq in Hne; rewrite Hne, Hid, Hinfo; cbn [fst snd]; change (negb (0 =? 0)) with false; cbv iota;
    unfold upd_buf; erewrite bind_Ret by reflexivity; cbv beta;
    erewrite bind_Ret by (apply wakeup_ok; intros i; cbn [held set_bufs set_vdisk set_held]; rewrite Hh; set_solver); cbv beta;
    unfold upd_vd; erewrite bind_Ret by reflexivity; cbv beta; erewrite bind_Ret by reflexivity; cbv beta;
    cbn [vdisk set_vdisk set_held set_procs set_bufs vd_used_devidx vd_used_idx set_vd_used_idx set_vd_regs]; fold v; rewrite <- Hd, Z.eqb_refl; reflexivity).
  cbv beta. rewrite release_Ret by (cbn [held set_vdisk set_held set_procs set_bufs]; rewrite Hh; set_solver).
  cbn [held set_vdisk set_held set_procs set_bufs cur procs bufs vdisk set_vd_regs set_vd_used_idx]. rewrite Hh.
  replace (({[LkVdisk]} ∪ ∅) ∖ {[LkVdisk]}) with (held s) by (rewrite Hh; set_solver). by destruct s.
Qed.

(** ** The device *)

(** What the device does to the shared structures when it completes [r], and
    the transfer itself: [BSIZE] bytes from sector [rqsec r] on. *)
Definition served (r : rq) (len : Z) (v : vdiskst) : vdiskst :=
  set_vd_used_devidx (u16 (vd_used_devidx v + 1))
    (set_vd_used_ring (<[Z.to_nat (vd_used_devidx v mod NUM) := (rq0 r, len)]> (vd_used_ring v))
    (set_vd_info (alter (fun x => (x.1, 0)) (Z.to_nat (rq0 r)) (vd_info v)) v)).
Definition transfer (r : rq) (s : kernel) : kernel :=
  if rqw r then set_disk (disk_write (rqsec r / 2) (b_data (bufs s !!! rqb r)) (disk s)) s
  else set_bufs (alter (set_b_data (d_blocks (disk s) (rqsec r / 2))) (rqb r) (bufs s)) s.

(** A device that takes the next request of the ring, carries it out and
    reports success. *)
Definition device_ok (serve : kernel -> kernel) : Prop :=
  forall s r, chained (vdisk s) r -> vd_used_devidx (vdisk s) <> vd_avail_idx (vdisk s) ->
    vd_avail_ring (vdisk s) !!! Z.to_nat (vd_used_devidx (vdisk s) mod NUM) = rq0 r -> rqsec r mod 2 = 0 ->
    exists len, serve s = set_vdisk (served r len (vdisk s)) (transfer r s).

(** The driver's data in a later state of the device's. *)
Lemma vd_inv_ext v v' rs : vd_inv v rs -> vd_desc v' = vd_desc v -> vd_ops v' = vd_ops v -> vd_free v' = vd_free v -> vd_avail_ring v' = vd_avail_ring v ->
  length (vd_info v') = length (vd_info v) -> (forall i : nat, (vd_info v' !!! i).1 = (vd_info v !!! i).1) -> vd_inv v' rs.
Proof.
  intros [[F1 F2 F3 F4 F5] P Li Lo Lr] ED EO EF ER EL EI. split; [split | | | |]; rewrite ?ED, ?EO, ?EF, ?ER, ?EL; try done.
  intros r Hr. destruct (P r Hr) as [Pc Pi]. split; [|by rewrite EI]. eapply chained_ext; [|exact EO | exact Pc]. intros i _. by rewrite ED.
Qed.

Lemma alter_fst_info (l : list (option nat * Z)) i x (j : nat) : (alter (fun y => (y.1, x)) i l !!! j).1 = (l !!! j).1.
Proof.
  rewrite !list_lookup_total_alt. destruct (decide (i = j)) as [->|Hne].
  - rewrite list_lookup_alter_eq. by destruct (l !! j).
  - by rewrite list_lookup_alter_ne.
Qed.

(** A buffer lent to the device and back. *)
Lemma lend_buf (l : list buf) b f : b_disk (l !!! b) = false -> (forall x, b_disk (f x) = b_disk x) -> (forall d x, f (set_b_disk d x) = set_b_disk d (f x)) ->
  alter (set_b_disk false) b (alter f b (alter (set_b_disk true) b l)) = alter f b l.
Proof.
  intros Hd Hf Hc. rewrite !list_alter_alter_eq. apply list_alter_ext; [|done]. intros x Hx. cbv [compose].
  apply list_lookup_total_correct in Hx. subst x. rewrite Hc. set (y := l !!! b) in *. rewrite <- (Hf y) in Hd. destruct (f y). cbn in *. by subst.
Qed.

Lemma b_data_lent (l : list buf) b : b_data (alter (set_b_disk true) b l !!! b) = b_data (l !!! b).
Proof. rewrite !list_lookup_total_alt, list_lookup_alter_eq. by destruct (l !! b). Qed.

(** The transfer seen from the buffer cache. *)
Lemma disk_rw_run s b w : held s = ∅ ->
  disk_rw b w s = Ret tt (if w then set_disk (disk_write (b_blockno (bufs s !!! b)) (b_data (bufs s !!! b)) (disk s)) s
    else set_bufs (alter (set_b_data (d_blocks (disk s) (b_blockno (bufs s !!! b)))) b (bufs s)) s).
Proof.
  intros Hh. unfold disk_rw, getbuf, upd_buf. erewrite bind_Ret by (apply acquire_Ret; rewrite Hh; set_solver). cbv beta. destruct w; mred;
    (rewrite release_Ret by (cbn; rewrite Hh; set_solver)); cbn; rewrite Hh;
    replace (({[LkVdisk]} ∪ ∅) ∖ {[LkVdisk]}) with (held s) by (rewrite Hh; set_solver); by destruct s.
Qed.

Lemma transfer_lent s b w r : rqb r = b -> rqw r = w -> rqsec r / 2 = b_blockno (bufs s !!! b) -> b_disk (bufs s !!! b) = false ->
  let t := transfer r (set_bufs (alter (set_b_disk true) b (bufs s)) s) in
  set_bufs (alter (set_b_disk false) b (bufs t)) t =
  if w then set_disk (disk_write (b_blockno (bufs s !!! b)) (b_data (bufs s !!! b)) (disk s)) s
    else set_bufs (alter (set_b_data (d_blocks (disk s) (b_blockno (bufs s !!! b)))) b (bufs s)) s.
Proof.
  intros <- <- Hs Hd t. unfold t, transfer. rewrite Hs. destruct (rqw r); cbn [bufs set_disk set_bufs disk].
  - rewrite b_data_lent. pose proof (lend_buf (bufs s) (rqb r) id Hd ltac:(done) ltac:(done)) as E.
    replace (alter (set_b_disk false) (rqb r) (alter (set_b_disk true) (rqb r) (bufs s))) with (bufs s); [by destruct s |].
    rewrite <- (list_alter_id id (bufs s) (rqb r)) at 1 by done. rewrite <- E. by rewrite (list_alter_id id (alter _ _ _)) by done.
  - rewrite (lend_buf (bufs s) (rqb r)) by done. done.
Qed.

Lemma transfer_other r s v me c : transfer r (set_cur me (set_held ∅ (sleeping c (ChBuf (rqb r)) (set_vdisk v s)))) =
  set_cur me (set_held ∅ (set_procs (alter (fun p => set_p_state SLEEPING (set_p_chan (Some (ChBuf (rqb r))) p)) c (procs s)) (set_vdisk v (transfer r s)))).
Proof. unfold transfer. by destruct (rqw r). Qed.

Lemma transfer_frame r s : transfer r s = set_disk (disk (transfer r s)) (set_bufs (bufs (transfer r s)) s).
Proof. unfold transfer. destruct (rqw r); by destruct s. Qed.

Lemma sector_ok n : 0 <= n < 2 ^ 31 -> u32 (n * (BSIZE / 512)) / 2 = n /\ u32 (n * (BSIZE / 512)) mod 2 = 0.
Proof.
  intros Hn. change (BSIZE / 512) with 2. rewrite wrap_small by lia. split; [apply Z.div_mul; lia | apply Z_mod_mult].
Qed.

(** Completion: the device serves the request, and its interrupt is handled on
    behalf of another thread. *)
Lemma complete_ok serve st other me s v' r rs : device_ok serve -> idle (vdisk s) -> vd_inv v' (r :: rs) -> length (vd_avail_ring (vdisk s)) = Z.to_nat NUM ->
  vd_avail_ring v' = <[Z.to_nat (vd_avail_idx (vdisk s) mod NUM) := rq0 r]> (vd_avail_ring (vdisk s)) ->
  vd_avail_idx v' = u16 (vd_avail_idx (vdisk s) + 1) -> vd_used_devidx v' = vd_used_devidx (vdisk s) -> vd_used_ring v' = vd_used_ring (vdisk s) ->
  vd_used_idx v' = vd_used_idx (vdisk s) -> rqsec r mod 2 = 0 ->
  exists v3, vd_inv v3 (r :: rs) /\ idle v3 /\
    virtio_disk_intr st (serve (set_cur other (set_held ∅ (sleeping me (ChBuf (rqb r)) (set_vdisk v' (set_bufs (alter (set_b_disk true) (rqb r) (bufs s)) s)))))) =
    Ret tt (let t := transfer r (set_bufs (alter (set_b_disk true) (rqb r) (bufs s)) s) in
      set_procs (wake other (ChBuf (rqb r)) (alter (fun p => set_p_state SLEEPING (set_p_chan (Some (ChBuf (rqb r))) p)) me (procs s)))
        (set_bufs (alter (set_b_disk false) (rqb r) (bufs t)) (set_vdisk v3 (set_cur other (set_held ∅ t))))).
Proof.
  intros Hdev [I1 I2 I3 I4] Iv Lr A1 A2 A4 A5 A6 Hsec. set (a := vd_avail_idx (vdisk s)) in *. rewrite I2 in I1, A4. rewrite I1 in A6.
  assert (Ha : a <> u16 (a + 1)).
  { unfold wrap. intros E. destruct (Z.eq_dec (a + 1) (2 ^ 16)) as [E1|E1]; [rewrite E1, Z_mod_same_full in E; lia | rewrite Z.mod_small in E; lia]. }
  assert (Hm : (Z.to_nat (a mod NUM) < 8)%nat) by (pose proof (Z.mod_pos_bound a NUM ltac:(unfold NUM; lia)); unfold NUM in *; lia).
  destruct (vi_posted _ _ Iv r ltac:(by left)) as [Pc Pi]. set (sx := set_cur other _).
  destruct (Hdev sx r) as [len Es]; [exact Pc | change (vdisk sx) with v'; congruence | | done |].
  { change (vdisk sx) with v'. rewrite A4, A1. apply list_lookup_total_insert_eq. rewrite Lr. exact Hm. }
  rewrite Es. change (vdisk sx) with v'. set (v2 := served r len v').
  assert (Li : (Z.to_nat (rq0 r) < length (vd_info v'))%nat).
  { rewrite (vi_info _ _ Iv). assert (Hr : 0 <= rq0 r < NUM) by (apply (fr_range _ _ (vi_fr _ _ Iv)); by left). unfold NUM in *. lia. }
  unfold sx at 1. rewrite transfer_other. set (t := transfer r _).
  eexists (set_vd_used_idx (vd_used_devidx v2) (set_vd_regs ((VIRTIO_MMIO_INTERRUPT_ACK, Z.land st 3) :: vd_regs v2) v2)). split; [|split].
  - eapply vd_inv_ext; [exact Iv | done ..| |]; cbn; [by rewrite length_alter | apply alter_fst_info].
  - split; unfold v2, served; cbn [vd_used_idx vd_used_devidx vd_avail_idx vd_used_ring set_vd_used_idx set_vd_regs set_vd_used_devidx set_vd_used_ring set_vd_info].
    + done.
    + congruence.
    + rewrite A2. apply wrap_range. lia.
    + rewrite length_insert, A5. exact I4.
  - rewrite (intr_one st _ (rqb r) (rq0 r)); [| | | | |]; cbn [vdisk set_vdisk held set_cur set_held]; unfold v2, served;
      cbn [vd_used_idx vd_used_devidx vd_used_ring vd_info set_vd_used_devidx set_vd_used_ring set_vd_info].
    + unfold t. rewrite transfer_frame. done.
    + done.
    + rewrite A6. done.
    + by rewrite A4, A6.
    + rewrite A4, A6, A5, list_lookup_total_insert_eq; [done |]. rewrite I4. exact Hm.
    + rewrite list_lookup_total_alter_eq by exact Li. by rewrite Pi.
Qed.

Lemma wake_sleeper other me c (ps : list procst) : other <> me -> (me < length ps)%nat -> (length ps <= Z.to_nat NPROC)%nat ->
  p_state (wake other c (alter (fun p => set_p_state SLEEPING (set_p_chan (Some c) p)) me ps) !!! me) = RUNNABLE.
Proof.
  intros Hne Hme Hlen. rewrite list_lookup_total_alt, wake_lookup by (by rewrite length_alter). rewrite decide_False by done.
  rewrite list_lookup_alter_eq. destruct (lookup_lt_is_Some_2 ps me Hme) as [p ->]. cbn. unfold wake_proc. by rewrite decide_True.
Qed.

(** The detour through sleep, interrupt and resumption leaves the rest alone. *)
Lemma resume_frame (t : kernel) c o p1 p2 p3 p4 v3 v4 B h1 h2 : held t = ∅ -> cur t = c ->
  set_held ∅ (set_procs p4 (set_vdisk v4 (set_held h2 (set_procs p3 (set_held h1 (set_cur c (set_procs p2 (set_procs p1 (set_bufs B
    (set_vdisk v3 (set_cur o (set_held ∅ t)))))))))))) = set_procs p4 (set_vdisk v4 (set_bufs B t)).
Proof. destruct t. cbn. by intros -> ->. Qed.

(** C35: the driver implements the disk that the buffer cache is written
    against.  [virtio_disk_rw] posts the request and goes to sleep on the
    buffer; once the device has served the request, the interrupt handler makes
    the thread runnable; when it is resumed the call returns, and the state is
    the one [disk_rw] gives (the block transferred, the buffer the driver's, no
    lock held), with the three descriptors free again and every other request
    untouched. *)
Theorem virtio_disk_rw_refines (serve : kernel -> kernel) (Hdev : device_ok serve) (s : kernel) (b : nat) (w : bool) (rs : list rq) (other : nat) (st : Z)
    (Iv : vd_inv (vdisk s) rs) (Hroom : (length (descs rs) <= 5)%nat) (Hidle : idle (vdisk s)) (Hh : held s = ∅)
    (Hme : (cur s < length (procs s))%nat) (Hps : (length (procs s) <= Z.to_nat NPROC)%nat) (Hb : (b < length (bufs s))%nat)
    (Hd : b_disk (bufs s !!! b) = false) (Hbn : 0 <= b_blockno (bufs s !!! b) < 2 ^ 31) (Ho : other <> cur s) :
  exists s1 k s3 s4 sd, virtio_disk_rw b w s = Sleep (ChBuf b) s1 k /\
    virtio_disk_intr st (serve (set_cur other (set_held ∅ s1))) = Ret tt s3 /\ p_state (procs s3 !!! cur s) = RUNNABLE /\
    k (set_held {[LkProc (cur s)]} (set_cur (cur s) (set_procs (alter (set_p_state RUNNING) (cur s) (procs s3)) s3))) = Ret tt s4 /\
    disk_rw b w s = Ret tt sd /\ s4 = set_procs (procs s4) (set_vdisk (vdisk s4) sd) /\ vd_inv (vdisk s4) rs /\ idle (vdisk s4).
Proof.
  destruct (sector_ok _ Hbn) as [Hs1 Hs2].
  destruct (rw_submit s b w rs (cur s) Iv Hroom Hh eq_refl Hme Hb) as (i0 & i1 & i2 & v' & k & E1 & I1 & A1 & A2 & A3 & A4 & A5 & A6 & Hk).
  set (r := mkRq i0 i1 i2 b w _) in *.
  destruct (complete_ok serve st other (cur s) s v' r rs Hdev Hidle I1 (vi_ring _ _ Iv) A1 A2 A4 A5 A6 Hs2) as (v3 & I3 & Id3 & E3).
  set (t := transfer r _) in E3. cbv zeta in E3. change (rqb r) with b in E3.
  match type of E3 with _ = Ret tt ?x => set (s3 := x) in E3 end. set (s3' := set_held {[LkProc (cur s)]} (set_cur (cur s) (set_procs (alter (set_p_state RUNNING) (cur s) (procs s3)) s3))).
  destruct (rw_finish (woken (cur s) LkVdisk s3') r (r :: rs) rs I3 ltac:(done) eq_refl) as (s4 & E4 & F4 & I4 & Id4).
  pose proof (disk_rw_run s b w Hh) as Ed. rewrite <- (transfer_lent s b w r eq_refl eq_refl Hs1 Hd) in Ed. cbv zeta in Ed. fold t in Ed.
  eexists _, k, s3, s4, _. split; [exact E1 |]. split; [exact E3 |]. split; [|split].
  - apply wake_sleeper; done.
  - rewrite Hk; [exact E4 | done | done |]. cbn [s3' s3 bufs set_held set_cur set_procs set_bufs]. rewrite list_lookup_total_alter_eq; [done |].
    unfold t. unfold transfer. destruct (rqw r); cbn [bufs set_disk set_bufs]; by rewrite !length_alter.
  - split; [exact Ed |]. split; [|split; [done |]].
    + assert (Ht : held t = ∅) by (unfold t; by rewrite transfer_frame). assert (Hc : cur t = cur s) by (unfold t; by rewrite transfer_frame).
      rewrite F4 at 1. exact (resume_frame t (cur s) other _ _ _ _ v3 (vdisk s4) _ _ _ Ht Hc).
    + apply Id4. exact Id3.
Qed.

(** [free_chain] terminates on every descriptor table, also one whose
    chain is cyclic or longer than the table: it returns or panics. *)
Theorem free_chain_terminates (s : kernel) (busy : list Z) (i : Z) (F : fr (vdisk s) busy) (Hl : no_proc_lock s) (Hi : 0 <= i)
    (Hnext : forall d, d ∈ vd_desc (vdisk s) -> 0 <= d_next d) :
  (exists s', free_chain i s = Ret tt s') \/ (exists msg, free_chain i s = Panic msg).
Proof.
  apply (free_chain_loop_ends _ i s busy F Hl Hi Hnext). assert (Hlen : (length busy <= length (seqZ 0 NUM))%nat).
  { apply submseteq_length, NoDup_submseteq; [apply (fr_nodup _ _ F) |]. intros x Hx. apply elem_of_seqZ. pose proof (fr_range _ _ F x Hx). lia. }
  rewrite length_seqZ in Hlen. lia.
Qed.

(** ** Witnesses: a device that reads the chain from the table *)

Definition demo_request (v : vdiskst) : rq :=
  let h := vd_avail_ring v !!! Z.to_nat (vd_used_devidx v mod NUM) in
  let d0 := vd_desc v !!! Z.to_nat h in
  let d1 := vd_desc v !!! Z.to_nat (d_next d0) in
  let op := vd_ops v !!! Z.to_nat h in
  mkRq h (d_next d0) (d_next d1) (match d_addr d1 with AData b => b | _ => 0%nat end) (r_type op =? VIRTIO_BLK_T_OUT) (r_sector op).
Definition demo_serve (s : kernel) : kernel := set_vdisk (served (demo_request (vdisk s)) 0 (vdisk s)) (transfer (demo_request (vdisk s)) s).

Lemma demo_device_ok : device_ok demo_serve.
Proof.
  intros s r [P0 P1 P2 P3] _ Hr _. exists 0. unfold demo_serve. replace (demo_request (vdisk s)) with r; [done |].
  unfold demo_request. rewrite Hr, P0. cbn [d_next]. rewrite P1, P3. cbn [d_next d_addr r_type r_sector]. destruct r as [a b c d [] e]; reflexivity.
Qed.

Definition demo_disk : kernel := set_vdisk (set_vd_free (replicate (Z.to_nat NUM) true) zero_vdisk) (boot_kernel (fun _ => replicate 1024 7)).

Lemma demo_disk_inv : vd_inv (vdisk demo_disk) [].
Proof.
  split; [split | ..]; try reflexivity.
  - intros i Hi. cbn. rewrite lookup_total_replicate_2 by (unfold NUM in *; lia). symmetry. apply bool_decide_eq_true_2, not_elem_of_nil.
  - constructor.
  - intros i Hi. by apply not_elem_of_nil in Hi.
  - intros r Hr. by apply not_elem_of_nil in Hr.
Qed.

Lemma virtio_disk_rw_refines_witness : exists s1 k s3 s4 sd, virtio_disk_rw 3 true demo_disk = Sleep (ChBuf 3) s1 k /\
  virtio_disk_intr 1 (demo_serve (set_cur 1 (set_held ∅ s1))) = Ret tt s3 /\
  k (set_held {[LkProc 0]} (set_cur 0 (set_procs (alter (set_p_state RUNNING) 0%nat (procs s3)) s3))) = Ret tt s4 /\
  disk_rw 3 true demo_disk = Ret tt sd /\ disk s4 = disk sd.
Proof.
  destruct (virtio_disk_rw_refines demo_serve demo_device_ok demo_disk 3 true [] 1 1 demo_disk_inv) as (s1 & k & s3 & s4 & sd & E1 & E2 & _ & E3 & E4 & E5 & _).
  - cbn. lia.
  - split; try reflexivity. change (0 <= 0 < 2 ^ 16). lia.
  - reflexivity.
  - vm_compute. lia.
  - vm_compute. lia.
  - vm_compute. lia.
  - reflexivity.
  - change (0 <= 0 < 2 ^ 31). lia.
  - discriminate.
  - exists s1, k, s3, s4, sd. split; [exact E1 |]. split; [exact E2 |]. split; [exact E3 |]. split; [exact E4 |]. rewrite E5. reflexivity.
Defined.

(** A chain that returns to its head. *)
Definition cyclic_disk : kernel := set_vdisk (set_vd_free (false :: replicate 7 true) (set_vd_desc (replicate 8 (mkDesc ANull 0 1 0)) zero_vdisk)) demo_disk.

Lemma free_chain_terminates_witness : (exists s', free_chain 0 cyclic_disk = Ret tt s') \/ (exists msg, free_chain 0 cyclic_disk = Panic msg).
Proof.
  apply (free_chain_terminates cyclic_disk [0] 0).
  - split; try reflexivity.
    + intros i Hi. assert (Hc : i = 0 \/ i = 1 \/ i = 2 \/ i = 3 \/ i = 4 \/ i = 5 \/ i = 6 \/ i = 7) by (unfold NUM in Hi; lia).
      repeat destruct Hc as [-> | Hc]; try (vm_compute; reflexivity). rewrite Hc. vm_compute. reflexivity.
    + constructor; [apply not_elem_of_nil | constructor].
    + intros i Hi%list_elem_of_singleton. subst. unfold NUM. lia.
  - intros i. apply not_elem_of_empty.
  - lia.
  - intros d Hd. change (vd_desc (vdisk cyclic_disk)) with (replicate 8 (mkDesc ANull 0 1 0)) in Hd. apply elem_of_replicate in Hd as [-> _]. cbn. lia.
Defined.
