(* ===== verification/Trap.v ===== *)
(** * kernel/trap.c: traps from user space and from the kernel, and forkret

    A trap leaves its cause in scause, sepc, stval and sstatus, read through the
    accessors of riscv.h; the trap vectors are addresses fixed at link time.
    usertrapret ends in a jump to the trampoline, its address and argument are
    the result.  The disk's interrupt status register is a parameter. *)

From S2P Require Import Prelude State Mem Spinlock Sched Sleeplock Bio Log Memlayout Kalloc Vm Uart Printf Copy Console Pipe Fs File Proc Exec Syscall Sysfile Virtio Hart.

Section trap.
Context {L : Layout} {T : TrapLayout}.
Context (vdisk_status : Z).

Definition trapinit : M kernel unit := initlock LkTicks.

(** Set up to take exceptions and traps while in the kernel. *)
Definition trapinithart : M kernel unit := w_stvec kernelvec.

Definition clockintr : M kernel unit :=
  acquire LkTicks ;;
  modify (fun s => set_ticks (u32 (ticks s + 1)) s) ;;
  wakeup ChTicks ;;
  release LkTicks.

(** 2 if timer interrupt, 1 if other device, 0 if not recognized. *)
Definition devintr : M kernel Z :=
  scause ← r_scause;
  if negb (Z.land scause 0x8000000000000000 =? 0) && (Z.land scause 0xff =? 9) then
    irq ← plic_claim;
    (if irq =? UART0_IRQ then uartintr
     else if irq =? VIRTIO0_IRQ then virtio_disk_intr vdisk_status
     else if negb (irq =? 0) then printf (bytes "unexpected interrupt irq=%d" ++ [10]) [VInt irq]
     else mret tt) ;;
    (if negb (irq =? 0) then plic_complete irq else mret tt) ;;
    mret 1
  else if scause =? 0x8000000000000001 then
    id ← cpuid;
    (if id =? 0 then clockintr else mret tt) ;;
    x ← r_sip;
    w_sip (Z.land x (Z.lnot 2)) ;;
    mret 2
  else mret 0.

(** Return to user space: the address of userret in the trampoline and the satp
    it is called with. *)
Definition usertrapret : M kernel (Z * Z) :=
  p ← myproc;
  intr_off ;;
  let trampoline_uservec := u64 (TRAMPOLINE + (uservec - trampoline)) in
  w_stvec trampoline_uservec ;;
  satp ← r_satp;
  store_tf p TF_kernel_satp satp ;;
  x ← getproc p;
  store_tf p TF_kernel_sp (p_kstack x + PGSIZE) ;;
  store_tf p TF_kernel_trap usertrap_addr ;;
  tp ← r_tp;
  store_tf p TF_kernel_hartid tp ;;
  x ← r_sstatus;
  let x := Z.land x (Z.lnot SSTATUS_SPP) in
  let x := Z.lor x SSTATUS_SPIE in
  w_sstatus x ;;
  epc ← load_tf p TF_epc;
  w_sepc epc ;;
  x ← getproc p;
  let satp := MAKE_SATP (p_pagetable x) in
  let trampoline_userret := u64 (TRAMPOLINE + (userret - trampoline)) in
  mret (trampoline_userret, satp).

(** Handle an interrupt, exception, or system call from user space. *)
Definition usertrap : M kernel (Z * Z) :=
  st ← r_sstatus;
  if negb (Z.land st SSTATUS_SPP =? 0) then panic "usertrap: not from user mode" else
  w_stvec kernelvec ;;
  p ← myproc;
  pc ← r_sepc;
  store_tf p TF_epc pc ;;
  cause ← r_scause;
  which_dev ←
    (if cause =? 8 then
       k ← killed p;
       (if (k : bool) then exit (-1) else mret tt) ;;
       epc ← load_tf p TF_epc;
       store_tf p TF_epc (u64 (epc + 4)) ;;
       intr_on ;;
       syscall ;;
       mret 0
     else
       which_dev ← devintr;
       if negb (which_dev =? 0) then mret which_dev else
       x ← getproc p;
       cause ← r_scause;
       printf (bytes "usertrap(): unexpected scause %p pid=%d" ++ [10]) [VUint64 cause; VInt (p_pid x)] ;;
       pc ← r_sepc;
       va ← r_stval;
       printf (bytes "            sepc=%p stval=%p" ++ [10]) [VUint64 pc; VUint64 va] ;;
       setkilled p ;;
       mret 0);
  k ← killed p;
  (if (k : bool) then exit (-1) else mret tt) ;;
  (if which_dev =? 2 then yield else mret tt) ;;
  usertrapret.

(** Interrupts and exceptions from kernel code. *)
Definition kerneltrap : M kernel unit :=
  sepc ← r_sepc;
  sstatus ← r_sstatus;
  scause ← r_scause;
  if Z.land sstatus SSTATUS_SPP =? 0 then panic "kerneltrap: not from supervisor mode" else
  i ← intr_get;
  if (i : bool) then panic "kerneltrap: interrupts enabled" else
  which_dev ← devintr;
  (if which_dev =? 0 then
     printf (bytes "scause %p" ++ [10]) [VUint64 scause] ;;
     pc ← r_sepc;
     va ← r_stval;
     printf (bytes "sepc=%p stval=%p" ++ [10]) [VUint64 pc; VUint64 va] ;;
     panic "kerneltrap"
   else mret tt) ;;
  me ← myproc;
  x ← getproc me;
  (if (which_dev =? 2) && negb (me =? Z.to_nat NPROC)%nat && bool_decide (p_state x = RUNNING) then yield else mret tt) ;;
  w_sepc sepc ;;
  w_sstatus sstatus.

(** A fork child's very first scheduling by scheduler() will swtch here. *)
Definition forkret : M kernel (Z * Z) :=
  me ← myproc;
  release (LkProc me) ;;
  f ← gets (fun s => first s);
  (if (f : bool) then modify (fun s => set_first false s) ;; fsinit ROOTDEV else mret tt) ;;
  usertrapret.
End trap.
