(* ===== verification/TrapProps.v ===== *)
(** * Traps: the way back to user space, and system calls end to end *)

From S2P Require Import Prelude State Mem Spinlock Sched Memlayout Kalloc Vm Proc Syscall Sysfile Hart Trap.

Section props.
Context {L : Layout} {T : TrapLayout}.

(** ** Running the steps of a handler *)

Lemma store_tf_bind {A} p off v (k : unit -> M kernel A) s :
  (store_tf p off v ≫= k) s = k tt (set_mem (store64 (mem s) (p_trapframe (procs s !!! p) + off) v) s).
Proof. reflexivity. Qed.

Lemma load_tf_bind {A} p off (k : Z -> M kernel A) s : (load_tf p off ≫= k) s = k (load64 (mem s) (p_trapframe (procs s !!! p) + off)) s.
Proof. reflexivity. Qed.

(** Reading the interrupt-enable and previous-mode bits after they were written. *)
Lemma mask_spec k : k ∈ [1; 5; 8] -> Z.testbit SSTATUS_MASK k = true.
Proof. rewrite !elem_of_cons, elem_of_nil. intros [->|[->|[->|[]]]]; reflexivity. Qed.

Definition intr_off_hart (h : hartst) : hartst := set_c_mstatus (merge SSTATUS_MASK (c_mstatus h) (Z.land (sstatus h) (Z.lnot SSTATUS_SIE))) h.
Definition intr_on_hart (h : hartst) : hartst := set_c_mstatus (merge SSTATUS_MASK (c_mstatus h) (Z.lor (sstatus h) SSTATUS_SIE)) h.

Lemma merge_spec mask old x n : Z.testbit (merge mask old x) n = if Z.testbit mask n then Z.testbit x n else Z.testbit old n.
Proof.
  unfold merge. destruct (Z.lt_ge_cases n 0); [rewrite !Z.testbit_neg_r by done; by destruct (Z.testbit mask n) |].
  rewrite Z.lor_spec, Z.ldiff_spec, Z.land_spec. destruct (Z.testbit mask n), (Z.testbit x n), (Z.testbit old n); reflexivity.
Qed.

Lemma sstatus_spec h n : Z.testbit (sstatus h) n = Z.testbit (c_mstatus h) n && Z.testbit SSTATUS_MASK n.
Proof. unfold sstatus. apply Z.land_spec. Qed.

Lemma bit_zero x k : 0 <= k -> (Z.land x (Z.shiftl 1 k) =? 0) = negb (Z.testbit x k).
Proof.
  intros Hk. apply eq_true_iff_eq. rewrite Z.eqb_eq, negb_true_iff. split.
  - intros E. assert (H : Z.testbit (Z.land x (Z.shiftl 1 k)) k = false) by (by rewrite E, Z.bits_0). rewrite Z.land_spec, bit_spec, Z.eqb_refl, andb_true_r in H by done. done.
  - intros E. apply Z.bits_inj'. intros n Hn. rewrite Z.land_spec, bit_spec, Z.bits_0 by done. destruct (Z.eqb_spec n k) as [->|]; [by rewrite E | apply andb_false_r].
Qed.

(** The way back: previous mode user, interrupts off now and on after sret. *)
Definition user_mstatus (x : Z) : Z :=
  merge SSTATUS_MASK (merge SSTATUS_MASK x (Z.land (Z.land x SSTATUS_MASK) (Z.lnot SSTATUS_SIE)))
    (Z.lor (Z.land (Z.land (merge SSTATUS_MASK x (Z.land (Z.land x SSTATUS_MASK) (Z.lnot SSTATUS_SIE))) SSTATUS_MASK) (Z.lnot SSTATUS_SPP)) SSTATUS_SPIE).

Lemma user_mstatus_spec x n : 0 <= n -> Z.testbit (user_mstatus x) n = negb (n =? 1) && negb (n =? 8) && ((n =? 5) || Z.testbit x n).
Proof.
  intros Hn. unfold user_mstatus. rewrite merge_spec. unfold SSTATUS_SIE, SSTATUS_SPP, SSTATUS_SPIE.
  destruct (Z.testbit SSTATUS_MASK n) eqn:E.
  - rewrite Z.lor_spec, !Z.land_spec, merge_spec, E, !Z.land_spec, E, !Z.lnot_spec, !bit_spec by lia.
    destruct (Z.eqb_spec n 1), (Z.eqb_spec n 8), (Z.eqb_spec n 5), (Z.testbit x n); (lia || reflexivity).
  - rewrite merge_spec, E. assert (n ∉ [1; 5; 8]) as Hm by (intros H%mask_spec; congruence). rewrite !not_elem_of_cons in Hm. destruct Hm as (H1 & H5 & H8 & _).
    apply Z.eqb_neq in H1, H5, H8. rewrite H1, H5, H8. done.
Qed.

(** What usertrapret leaves in the trapframe for the next trap. *)
Definition kernel_words (tf satp sp tp : Z) (m : memory) : memory :=
  store64 (store64 (store64 (store64 m (tf + TF_kernel_satp) satp) (tf + TF_kernel_sp) sp) (tf + TF_kernel_trap) usertrap_addr) (tf + TF_kernel_hartid) tp.

Definition user_hart (epc : Z) (h : hartst) : hartst :=
  set_c_sepc epc (set_c_mstatus (user_mstatus (c_mstatus h)) (set_c_stvec (u64 (TRAMPOLINE + (uservec - trampoline))) h)).

Lemma kernel_words_other tf satp sp tp m a : a + 8 <= tf \/ tf + 40 <= a \/ a = tf + TF_epc ->
  load64 (kernel_words tf satp sp tp m) a = load64 m a.
Proof.
  intros Ha. unfold kernel_words, TF_kernel_satp, TF_kernel_sp, TF_kernel_trap, TF_kernel_hartid, TF_epc in *. rewrite !load64_store64_ne by lia. done.
Qed.

Lemma usertrapret_run s : let x := procs s !!! cur s in let tf := p_trapframe x in
  usertrapret s = Ret (u64 (TRAMPOLINE + (userret - trampoline)), MAKE_SATP (p_pagetable x))
    (set_hart (user_hart (load64 (mem s) (tf + TF_epc)) (hart s))
      (set_mem (kernel_words tf (c_satp (hart s)) (p_kstack x + PGSIZE) (c_tp (hart s)) (mem s)) s)).
Proof.
  cbv zeta. rewrite <- (kernel_words_other (p_trapframe (procs s !!! cur s)) (c_satp (hart s)) (p_kstack (procs s !!! cur s) + PGSIZE) (c_tp (hart s)) (mem s)) at 1 by auto.
  reflexivity.
Qed.

(** The words usertrapret saves are those a trap will load. *)
Record kernel_saved (x : procst) (h : hartst) (m : memory) : Prop := mkKernelSaved {
  ks_satp : load64 m (p_trapframe x + TF_kernel_satp) = u64 (c_satp h);
  ks_sp : load64 m (p_trapframe x + TF_kernel_sp) = u64 (p_kstack x + PGSIZE);
  ks_trap : load64 m (p_trapframe x + TF_kernel_trap) = u64 usertrap_addr;
  ks_hart : load64 m (p_trapframe x + TF_kernel_hartid) = u64 (c_tp h)
}.

Lemma kernel_words_saved x h m : kernel_saved x h (kernel_words (p_trapframe x) (c_satp h) (p_kstack x + PGSIZE) (c_tp h) m).
Proof.
  unfold kernel_words, TF_kernel_satp, TF_kernel_sp, TF_kernel_trap, TF_kernel_hartid.
  split; unfold TF_kernel_satp, TF_kernel_sp, TF_kernel_trap, TF_kernel_hartid; repeat first [apply load64_store64_eq | rewrite load64_store64_ne by lia].
Qed.

(** Ready for sret: the process [x] goes on at [epc] in user mode with
    interrupts on, and its next trap finds the kernel. *)
Record user_ready (x : procst) (h0 h : hartst) (m : memory) (epc : Z) : Prop := mkUserReady {
  ur_mode : forall n, 0 <= n -> Z.testbit (c_mstatus h) n = negb (n =? 1) && negb (n =? 8) && ((n =? 5) || Z.testbit (c_mstatus h0) n);
  ur_pc : c_sepc h = epc;
  ur_vec : c_stvec h = u64 (TRAMPOLINE + (uservec - trampoline));
  ur_saved : kernel_saved x h m
}.

Lemma usertrapret_ready_run s : let x := procs s !!! cur s in
  exists h m, usertrapret s = Ret (u64 (TRAMPOLINE + (userret - trampoline)), MAKE_SATP (p_pagetable x)) (set_hart h (set_mem m s)) /\
    user_ready x (hart s) h m (load64 (mem s) (p_trapframe x + TF_epc)) /\ c_tp h = c_tp (hart s) /\ c_satp h = c_satp (hart s) /\
    forall a, a + 8 <= p_trapframe x \/ p_trapframe x + 40 <= a \/ a = p_trapframe x + TF_epc -> load64 m a = load64 (mem s) a.
Proof.
  intros x. eexists _, _. split; [apply usertrapret_run |]. split; [|split; [done | split; [done | intros a Ha; by apply kernel_words_other]]].
  split; try done; [apply user_mstatus_spec |].
  destruct (kernel_words_saved x (hart s) (mem s)) as [A B C D]. split; [exact A | exact B | exact C | exact D].
Qed.

(** ** A system call *)

(** The state in which the function of the system call runs: the next
    instruction is where the process will resume, interrupts are on. *)
Definition entered (s : kernel) : kernel :=
  let a := p_trapframe (procs s !!! cur s) + TF_epc in
  let m := store64 (mem s) a (c_sepc (hart s)) in
  set_hart (intr_on_hart (set_c_stvec kernelvec (hart s))) (set_mem (store64 m a (u64 (load64 m a + 4))) s).

Lemma entered_epc s : 0 <= c_sepc (hart s) < 2 ^ 64 ->
  load64 (mem (entered s)) (p_trapframe (procs s !!! cur s) + TF_epc) = u64 (c_sepc (hart s) + 4).
Proof.
  intros H. unfold entered. cbn [mem set_mem set_hart]. rewrite !load64_store64_eq, (wrap_small 64 (c_sepc _)) by done. apply wrap_small. apply wrap_range; lia.
Qed.

Lemma entered_other s a : a <> p_trapframe (procs s !!! cur s) + TF_epc -> a + 8 <= p_trapframe (procs s !!! cur s) + TF_epc \/ p_trapframe (procs s !!! cur s) + TF_epc + 8 <= a ->
  load64 (mem (entered s)) a = load64 (mem s) a.
Proof. intros _ H. unfold entered. cbn [mem set_mem set_hart]. by rewrite !load64_store64_ne by lia. Qed.

(** What a system call may not touch: the process it runs for. *)
Record returned (s s2 : kernel) : Prop := mkReturned {
  re_cur : cur s2 = cur s;
  re_tf : p_trapframe (procs s2 !!! cur s) = p_trapframe (procs s !!! cur s);
  re_alive : p_killed (procs s2 !!! cur s) = false;
  re_lock : LkProc (cur s) ∉ held s2;
  re_epc : load64 (mem s2) (p_trapframe (procs s !!! cur s) + TF_epc) = load64 (mem s) (p_trapframe (procs s !!! cur s) + TF_epc)
}.

Lemma usertrap_enters (vs : Z) s : Z.testbit (c_mstatus (hart s)) 8 = false -> c_scause (hart s) = 8 -> p_killed (procs s !!! cur s) = false -> LkProc (cur s) ∉ held s ->
  usertrap vs s = (which_dev ← (syscall ;; mret 0);
    k ← killed (cur s);
    (if (k : bool) then exit (-1) else mret tt) ;;
    (if which_dev =? 2 then yield else mret tt) ;;
    usertrapret) (entered s).
Proof.
  intros Hm Hc Hk Hl. unfold usertrap. erewrite bind_Ret by reflexivity. cbv beta. unfold SSTATUS_SPP. rewrite bit_zero, sstatus_spec, Hm by lia. cbn [negb andb].
  do 5 (erewrite bind_Ret by reflexivity; cbv beta). cbn [hart set_mem set_hart set_c_stvec c_scause]. rewrite Hc. change (8 =? 8) with true. cbv iota.
  apply bind_ext. erewrite bind_Ret by (apply killed_run; exact Hl). cbv beta. cbn [procs set_mem set_hart]. cbn [cur set_mem set_hart]. rewrite Hk. reflexivity.
Qed.

(** C21: A system call from user space, end to end: when the function of the call returns [r] for the same living process, usertrap
    goes back to user space in user mode with interrupts on, at the instruction after the ecall, with [r] in a0 and every other
    saved register as the function left it, under the process's page table, and with the kernel's words saved for the next trap. *)
Theorem syscall_returns (vs : Z) s f r s2 : let p := cur s in let tf := p_trapframe (procs s !!! p) in
  Z.testbit (c_mstatus (hart s)) 8 = false -> c_scause (hart s) = 8 -> 0 <= c_sepc (hart s) < 2 ^ 64 -> p_killed (procs s !!! p) = false -> LkProc p ∉ held s ->
  syscalls (i32 (load64 (mem s) (tf + TF_a7))) = Some f -> f (entered s) = Ret r s2 -> returned (entered s) s2 ->
  exists h m, usertrap vs s = Ret (u64 (TRAMPOLINE + (userret - trampoline)), MAKE_SATP (p_pagetable (procs s2 !!! p))) (set_hart h (set_mem m s2)) /\
    user_ready (procs s2 !!! p) (hart s2) h m (u64 (c_sepc (hart s) + 4)) /\ load64 m (tf + TF_a0) = u64 r /\
    forall a, a + 8 <= tf \/ tf + 40 <= a -> a + 8 <= tf + TF_a0 \/ tf + TF_a0 + 8 <= a -> load64 m a = load64 (mem s2) a.
Proof.
  intros p tf Hm Hc Hpc Hk Hl Hf Hr [R1 R2 R3 R4 R5]. change (cur (entered s)) with p in *. change (procs (entered s)) with (procs s) in *. fold tf in R2, R5.
  unfold TF_a0, TF_a7, TF_epc in *. set (m2 := store64 (mem s2) (tf + 112) (u64 r)).
  destruct (usertrapret_ready_run (set_mem m2 s2)) as (h & m & E & U & _ & _ & Hother). cbn [cur procs set_mem mem hart] in *. rewrite R1, R2 in *.
  exists h, m. split; [|split; [|split]].
  - rewrite usertrap_enters by done. fold p.
    assert (Es : syscall (entered s) = Ret tt (set_mem m2 s2)).
    { unfold syscall. do 2 (erewrite bind_Ret by reflexivity; cbv beta). change (cur (entered s)) with p. change (procs (entered s)) with (procs s). fold tf.
      unfold TF_a7. rewrite entered_other by (fold p tf; unfold TF_epc; lia). rewrite Hf. erewrite bind_Ret by exact Hr. unfold store_tf. erewrite bind_Ret by reflexivity.
      unfold modify, TF_a0. cbv beta. by rewrite R2. }
    erewrite bind_Ret by (erewrite bind_Ret by exact Es; reflexivity). cbv beta. erewrite bind_Ret by (apply killed_run; exact R4). cbv beta. cbn [procs set_mem]. rewrite R3.
    erewrite bind_Ret by reflexivity. change (0 =? 2) with false. erewrite bind_Ret by reflexivity. exact E.
  - assert (Ee : load64 m2 (tf + TF_epc) = u64 (c_sepc (hart s) + 4)); [|by rewrite <- Ee].
    unfold m2, TF_epc. rewrite load64_store64_ne by lia. rewrite R5. by apply entered_epc.
  - rewrite Hother by lia. unfold m2. rewrite load64_store64_eq. apply wrap_small, wrap_range. lia.
  - intros a Ha Hn. rewrite Hother by lia. unfold m2. by rewrite load64_store64_ne by lia.
Qed.
End props.

(** The process with pid 7 calls getpid, number 11. *)
Definition demo_syscall : kernel :=
  let x := set_p_trapframe 0x87000000 (set_p_pid 7 (set_p_state RUNNING zero_proc)) in
  set_hart (set_c_scause 8 (set_c_sepc 0x3fe (set_c_mstatus 0x20 (boot_hart 0))))
    (set_mem (store64 (fun _ => 0) (0x87000000 + TF_a7) 11) (set_procs [x] (boot_kernel (fun _ => [])))).

Lemma syscall_returns_witness : exists h m,
  @usertrap Kalloc.demo_layout demo_traps 0 demo_syscall = Ret (u64 (TRAMPOLINE + (0x800060a0 - @trampoline Kalloc.demo_layout)), MAKE_SATP 0) (set_hart h (set_mem m (@entered demo_traps demo_syscall))) /\
  c_sepc h = 0x402 /\ load64 m (0x87000000 + TF_a0) = 7.
Proof.
  destruct (@syscall_returns Kalloc.demo_layout demo_traps 0 demo_syscall sys_getpid 7 (@entered demo_traps demo_syscall)) as (h & m & E & U & A & _);
    [reflexivity | reflexivity | split; [discriminate | reflexivity] | reflexivity | apply not_elem_of_empty | vm_compute; reflexivity | reflexivity | |].
  - split; [reflexivity | reflexivity | reflexivity | apply not_elem_of_empty | reflexivity].
  - exists h, m. split; [exact E |]. split; [exact (ur_pc _ _ _ _ _ U) | exact A].
Defined.
