(* ===== verification/Typing.v ===== *)
(** * Well-formed kernel states, and code that keeps them so

    [kernel_wt] says of the kernel's variables what their C types and their use
    promise: every table has its size, every array in an entry has its length,
    every pointer kept in a table points at an element of the table it is meant
    for, offsets and sizes fit their type, and the transaction fits the log.
    [ty h m g Q] is the judgement that code [m], started in such a state with the
    spinlocks [h] held, keeps it at every point where another thread may run and
    on return, when the locks [g a] are held and the result [a] satisfies [Q].
    Nothing is assumed of user memory, page tables or the contents of the disk.

    Every access to an array goes through [in_bounds] or [in_prefix] (Prelude.v),
    which stop with a message of their own outside the array: well-typed code makes
    no such access, and calls printf with the arguments its format asks for.  It
    may stop with a panic of the source, which nothing here excludes, and what
    comes after the [WAKEUPS]-th sleep of one loop is outside the judgement.  A wait
    for the disk is no such point, since [disk_rw] (Bio.v) is one step; the
    descriptor arrays of the disk driver, whose indices the device chooses, are not
    checked. *)

From S2P Require Import Prelude State Ring Mem Spinlock Sched Sleeplock Bio Log Uart Printf.

(** ** Well-formed entries *)

Record buf_wt (b : buf) : Prop := mkBufWt {
  bw_data : length (b_data b) = Z.to_nat BSIZE;
  bw_prev : (b_prev b <= HEAD)%nat;
  bw_next : (b_next b <= HEAD)%nat
}.

Record inode_wt (i : inode) : Prop := mkInodeWt {
  iw_addrs : length (i_addrs i) = Z.to_nat (NDIRECT + 1);
  iw_size : 0 <= i_size i < 2 ^ 32
}.

Record file_wt (f : filest) : Prop := mkFileWt {
  fw_ip : (f_ip f < Z.to_nat NINODE)%nat;
  fw_off : 0 <= f_off f < 2 ^ 32
}.

(** A pointer that may be null. *)
Definition below (n : Z) (o : option nat) : Prop := forall i, o = Some i -> (i < Z.to_nat n)%nat.

Record proc_wt (p : procst) : Prop := mkProcWt {
  pw_len : length (p_ofile p) = Z.to_nat NOFILE;
  pw_ofile : Forall (below NFILE) (p_ofile p);
  pw_cwd : below NINODE (p_cwd p);
  pw_parent : below NPROC (p_parent p);
  pw_name : length (p_name p) = 16%nat
}.

Record pipe_wt (p : pipest) : Prop := mkPipeWt {
  piw_data : length (pi_data p) = Z.to_nat PIPESIZE
}.

Record log_wt (l : log) : Prop := mkLogWt {
  lw_n : 0 <= lh_n (log_lh l) <= LOGSIZE;
  lw_block : length (lh_block (log_lh l)) = Z.to_nat LOGSIZE
}.

(** A table of [n] well-formed entries. *)
Definition table {A} (n : Z) (P : A -> Prop) (l : list A) : Prop := length l = Z.to_nat n /\ Forall P l.

Record kernel_wt (s : kernel) : Prop := mkKernelWt {
  kw_procs : table NPROC proc_wt (procs s);
  kw_cur : (cur s < Z.to_nat NPROC)%nat;
  kw_init : below NPROC (initproc s);
  kw_bufs : table (NBUF + 1) buf_wt (bufs s);
  kw_disk : forall n, length (d_blocks (disk s) n) = Z.to_nat BSIZE;
  kw_log : log_wt (logst s);
  kw_itable : table NINODE inode_wt (itable s);
  kw_ftable : table NFILE file_wt (ftable s);
  kw_pipes : map_Forall (fun _ => pipe_wt) (pipes s);
  kw_cons : length (cons_buf (cons s)) = Z.to_nat INPUT_BUF_SIZE;
  kw_uart : length (uart_tx_buf (uart s)) = Z.to_nat UART_TX_BUF_SIZE;
  kw_devsw : length (devsw s) = Z.to_nat NDEV
}.

(** ** The judgement *)

(** A stop that the source asks for, with its [panic] or by a fault in the kernel, and not one that stands for an array
    access out of bounds or for a missing argument of printf. *)
Definition defined (msg : string) : Prop := msg <> OOB /\ msg <> VA_ARG.

Fixpoint ok {A} (g : A -> gset lockid) (Q : A -> Prop) (o : outcome kernel A) : Prop :=
  match o with
  | Ret a s => kernel_wt s /\ held s = g a /\ Q a
  | Sleep _ s k => kernel_wt s /\ forall s', kernel_wt s' -> held s' = held s -> ok g Q (k s')
  | Panic msg => defined msg
  | NoFuel => True
  end.

Definition ty {A} (h : gset lockid) (m : M kernel A) (g : A -> gset lockid) (Q : A -> Prop) : Prop :=
  forall s, kernel_wt s -> held s = h -> ok g Q (m s).

(** Code that gives back the locks it takes. *)
Notation bal h m Q := (ty h m (fun _ => h) Q).

(** Any result. *)
Definition any {A} (a : A) : Prop := True.

(** ** Tables *)

Lemma table_get {A} `{Inhabited A} n (P : A -> Prop) l i : table n P l -> P inhabitant -> P (l !!! i).
Proof.
  intros [_ F] Hi. rewrite list_lookup_total_alt. destruct (l !! i) as [x|] eqn:E; [|done].
  cbn. by eapply Forall_lookup_1.
Qed.

Lemma table_alter {A} n (P : A -> Prop) f l i : table n P l -> (forall x, P x -> P (f x)) -> table n P (alter f i l).
Proof.
  intros [E F] Hf. split; [by rewrite length_alter |]. apply Forall_lookup. intros j x Hx.
  destruct (decide (i = j)) as [->|]; [|rewrite list_lookup_alter_ne in Hx by done; by eapply Forall_lookup_1].
  rewrite list_lookup_alter_eq in Hx. destruct (l !! j) as [y|] eqn:Ey; [|done]. cbn in Hx. simplify_eq.
  apply Hf. by eapply Forall_lookup_1.
Qed.

Lemma zero_buf_wt : buf_wt zero_buf.
Proof. split; [done | vm_compute; lia..]. Qed.

Lemma zero_inode_wt : inode_wt zero_inode.
Proof. split; [done | cbn; lia]. Qed.

Lemma zero_file_wt : file_wt zero_file.
Proof. split; [vm_compute; lia | cbn; lia]. Qed.

Lemma below_none n : below n None.
Proof. by intros ?. Qed.

Lemma below_some n i : (i < Z.to_nat n)%nat -> below n (Some i).
Proof. by intros H ? [= <-]. Qed.

Lemma zero_proc_wt : proc_wt zero_proc.
Proof. split; try done; [|apply below_none..]. apply Forall_replicate, below_none. Qed.

Lemma table_replicate {A} n (P : A -> Prop) (x : A) : P x -> table n P (replicate (Z.to_nat n) x).
Proof. intros. split; [apply length_replicate | by apply Forall_replicate]. Qed.

(** The kernel at boot, with any disk of blocks of [BSIZE] bytes. *)
Lemma boot_wt d : (forall n, length (d n) = Z.to_nat BSIZE) -> kernel_wt (boot_kernel d).
Proof.
  intros Hd. split; cbn [boot_kernel procs cur initproc bufs disk logst itable ftable pipes cons uart devsw]; try done.
  - apply table_replicate, zero_proc_wt.
  - vm_compute; lia.
  - apply (table_replicate (NBUF + 1)), zero_buf_wt.
  - apply table_replicate, zero_inode_wt.
  - apply table_replicate, zero_file_wt.
Qed.

(** ** Structural rules *)

Section rules.
Context {A B : Type}.
Implicit Types (h : gset lockid) (m : M kernel A) (f : A -> M kernel B) (Q : A -> Prop) (R : B -> Prop).

Lemma ok_conseq g Q g' (Q' : A -> Prop) o : (forall a, Q a -> g a = g' a /\ Q' a) -> ok g Q o -> ok g' Q' o.
Proof.
  intros Hi. induction o as [a s|msg|c s k IH|]; cbn; [|done| |done].
  - intros (W & E & Ha). destruct (Hi a Ha) as [<- ?]. done.
  - intros [W Hk]. split; [done |]. intros s' W' E'. by apply IH, Hk.
Qed.

Lemma ty_conseq h m g Q g' (Q' : A -> Prop) : ty h m g Q -> (forall a, Q a -> g a = g' a /\ Q' a) -> ty h m g' Q'.
Proof. intros Hm Hi s W E. eapply ok_conseq; [done | by apply Hm]. Qed.

Lemma ok_bind g Q g' R (o : outcome kernel A) f :
  ok g Q o -> (forall a, Q a -> ty (g a) (f a) g' R) -> ok g' R (obind o f).
Proof.
  intros Ho Hf. induction o as [a s|msg|c s k IH|]; cbn [ok obind] in *; [|done| |done].
  - destruct Ho as (W & E & Ha). by apply Hf.
  - destruct Ho as [W Hk]. split; [done |]. intros s' W' E'. by apply IH, Hk.
Qed.

Lemma ty_bind h m f g Q g' R : ty h m g Q -> (forall a, Q a -> ty (g a) (f a) g' R) -> ty h (m ≫= f) g' R.
Proof. intros Hm Hf s W E. eapply ok_bind; [by apply Hm | done]. Qed.

Lemma ty_mret h (a : A) g Q : h = g a -> Q a -> ty h (mret a) g Q.
Proof. intros E Ha s W <-. done. Qed.

Lemma ty_panic h msg g Q : defined msg -> ty h (panic msg) g Q.
Proof. by intros Hm s _ _. Qed.

Lemma ty_nofuel h g Q : ty h nofuel g Q.
Proof. done. Qed.

Lemma ty_gets h (k : kernel -> A) Q : (forall s, kernel_wt s -> Q (k s)) -> bal h (gets k) Q.
Proof. intros Hk s W E. cbn. auto. Qed.

Lemma ty_gets_bind h (k : kernel -> A) f g R : (forall s, kernel_wt s -> ty h (f (k s)) g R) -> ty h (gets k ≫= f) g R.
Proof. intros Hk s W E. by apply (Hk s W). Qed.

(** An access within the array. *)
Lemma ty_in_bounds h i n (f : unit -> M kernel B) g R : 0 <= i < n -> ty h (f tt) g R -> ty h (in_bounds i n ≫= f) g R.
Proof. intros Hi Hf s W E. rewrite in_bounds_run by done. by apply Hf. Qed.

Lemma ty_in_prefix h (i n : Z) (f : unit -> M kernel B) g R : i <= n -> ty h (f tt) g R -> ty h (in_prefix i n ≫= f) g R.
Proof. intros Hi Hf s W E. rewrite in_prefix_run by done. by apply Hf. Qed.
End rules.

Lemma ty_modify h f : (forall s, kernel_wt s -> kernel_wt (f s)) -> (forall s, held (f s) = held s) -> bal h (modify f) any.
Proof. intros Hf Hh s W E. cbn. by rewrite Hh, E; split; [apply Hf|]. Qed.

(** ** Locks *)

Lemma set_held_wt v s : kernel_wt s -> kernel_wt (set_held v s).
Proof. intros []. by split. Qed.

Lemma ty_acquire {B} h l (f : unit -> M kernel B) g R :
  (l ∉ h -> ty ({[l]} ∪ h) (f tt) g R) -> ty h (acquire l ≫= f) g R.
Proof.
  intros Hf s W <-. unfold mbind, M_bind, bind, acquire. destruct (decide _); cbn [obind ok]; [by split |].
  apply Hf; [done | by apply set_held_wt | done].
Qed.

Lemma ty_acquire_last h l g Q : (l ∉ h -> {[l]} ∪ h = g tt) -> Q tt -> ty h (acquire l) g Q.
Proof.
  intros Hg HQ s W <-. unfold acquire. destruct (decide _); cbn [ok]; [by split |].
  split_and!; [by apply set_held_wt | cbn; auto | done].
Qed.

Lemma held_pop (l : lockid) (h : gset lockid) : l ∉ h -> ({[l]} ∪ h) ∖ {[l]} = h.
Proof. intros. set_solver. Qed.

Lemma ty_release_any h l g Q : h ∖ {[l]} = g tt -> Q tt -> ty h (release l) g Q.
Proof.
  intros Hg HQ s W <-. unfold release. destruct (decide _); cbn [ok]; [|by split].
  split_and!; [by apply set_held_wt | done | done].
Qed.

Lemma ty_release_bind {B} h l (f : unit -> M kernel B) g R : ty (h ∖ {[l]}) (f tt) g R -> ty h (release l ≫= f) g R.
Proof.
  intros Hf. eapply (ty_bind _ _ _ (fun _ => h ∖ {[l]}) any); [by apply ty_release_any |]. by intros [] _.
Qed.

Lemma ty_release {B} h l (f : unit -> M kernel B) g R : l ∉ h ->
  ty h (f tt) g R -> ty ({[l]} ∪ h) (release l ≫= f) g R.
Proof.
  intros Hl Hf. apply ty_release_bind. by rewrite held_pop.
Qed.

Lemma ty_release_last h l g Q : l ∉ h -> h = g tt -> Q tt -> ty ({[l]} ∪ h) (release l) g Q.
Proof. intros. apply ty_release_any; [|done]. by rewrite held_pop. Qed.

Lemma ty_initlock h l : l ∉ h -> bal h (initlock l) any.
Proof. intros Hl s W <-. cbn. split_and!; [by apply set_held_wt | set_solver | done]. Qed.

(** ** Reading and writing the tables *)

Create HintDb ty discriminated.
#[export] Hint Constants Opaque : ty.

Lemma ty_getbuf h b : bal h (getbuf b) buf_wt.
Proof. apply ty_gets. intros s W. eapply table_get; [apply W | apply zero_buf_wt]. Qed.

Lemma ty_upd_buf h b f : (forall x, buf_wt x -> buf_wt (f x)) -> bal h (upd_buf b f) any.
Proof. intros Hf. apply ty_modify; [|done]. intros s []. split; try done. by apply table_alter. Qed.

Lemma ty_getproc h p : bal h (getproc p) proc_wt.
Proof. apply ty_gets. intros s W. eapply table_get; [apply W | apply zero_proc_wt]. Qed.

Lemma ty_upd_proc h p f : (forall x, proc_wt x -> proc_wt (f x)) -> bal h (upd_proc p f) any.
Proof. intros Hf. apply ty_modify; [|done]. intros s []. split; try done. by apply table_alter. Qed.

Lemma ty_myproc h : bal h myproc (fun p => p < Z.to_nat NPROC)%nat.
Proof. apply ty_gets. by intros s []. Qed.

Lemma ty_getlog h : bal h getlog log_wt.
Proof. apply ty_gets. by intros s []. Qed.

Lemma ty_upd_log h f : (forall x, log_wt x -> log_wt (f x)) -> bal h (upd_log f) any.
Proof. intros Hf. apply ty_modify; [|done]. intros s []. split; try done. by apply Hf. Qed.

Lemma ty_upd_sl h l f : bal h (upd_sl l f) any.
Proof.
  apply ty_modify; [|by destruct l]. intros s []. destruct l; (split; [try done..]); cbn; (apply table_alter; [done |]); by intros x [].
Qed.

#[export] Hint Resolve ty_getbuf ty_upd_buf ty_getproc ty_upd_proc ty_myproc ty_getlog ty_upd_log ty_upd_sl ty_initlock : ty.

(** The lengths of the arrays, as the checks of their accesses have them. *)
Lemma buf_alen b : buf_wt b -> alen (b_data b) = BSIZE.
Proof. intros H. unfold alen. by rewrite (bw_data _ H). Qed.

Lemma inode_alen i : inode_wt i -> alen (i_addrs i) = NDIRECT + 1.
Proof. intros H. unfold alen. by rewrite (iw_addrs _ H). Qed.

Lemma ofile_alen p : proc_wt p -> alen (p_ofile p) = NOFILE.
Proof. intros H. unfold alen. by rewrite (pw_len _ H). Qed.

Lemma pipe_alen p : pipe_wt p -> alen (pi_data p) = PIPESIZE.
Proof. intros H. unfold alen. by rewrite (piw_data _ H). Qed.

Lemma log_alen l : log_wt l -> alen (lh_block (log_lh l)) = LOGSIZE.
Proof. intros H. unfold alen. by rewrite (lw_block _ H). Qed.

(** Lengths and ranges of updated entries. *)
Ltac wt_split :=
  repeat match goal with
  | H : buf_wt _ |- _ => destruct H
  | H : inode_wt _ |- _ => destruct H
  | H : file_wt _ |- _ => destruct H
  | H : proc_wt _ |- _ => destruct H
  | H : pipe_wt _ |- _ => destruct H
  | H : log_wt _ |- _ => destruct H
  end.

Ltac wt := intros; wt_split;
  match goal with
  | |- buf_wt _ => split | |- inode_wt _ => split | |- file_wt _ => split
  | |- proc_wt _ => split | |- pipe_wt _ => split | |- log_wt _ => split | _ => idtac
  end; cbn in *; rewrite ?length_insert; try done; try lia;
  try apply Forall_insert; try done; try apply below_none; try (apply below_some; done).

#[export] Hint Extern 3 (buf_wt _) => solve [wt] : ty.
#[export] Hint Extern 3 (inode_wt _) => solve [wt] : ty.
#[export] Hint Extern 3 (file_wt _) => solve [wt] : ty.
#[export] Hint Extern 3 (proc_wt _) => solve [wt] : ty.
#[export] Hint Extern 3 (pipe_wt _) => solve [wt] : ty.
#[export] Hint Extern 3 (log_wt _) => solve [wt] : ty.
#[export] Hint Extern 4 (_ ∉ _) => assumption : ty.
#[export] Hint Extern 4 (_ <= _) => lia : ty.
#[export] Hint Extern 4 (_ < _) => lia : ty.
#[export] Hint Extern 4 (_ < _)%nat => lia : ty.
#[export] Hint Extern 4 (_ <= _)%nat => lia : ty.
#[export] Hint Extern 4 (_ /\ _) => split : ty.

(** The goal at the end of a branch: the locks are those expected and the result
    is of its type. *)
Ltac ty_done := cbv beta; try done; try lia; eauto with ty.

(** An index within its array, from the length of the array and the tests made before. *)
Ltac bounds := rewrite ?buf_alen, ?inode_alen, ?ofile_alen, ?pipe_alen, ?log_alen by assumption; change (BSIZE / 4) with NINDIRECT; wt_split; first [lia | unfold NDIRECT in *; lia].

(** One step through a function: the next call by its rule, a test by cases. *)
Ltac ty_step :=
  match goal with
  | |- ty _ (panic _) _ _ => apply ty_panic; split; discriminate
  | |- ty _ (in_bounds _ _ ≫= _) _ _ => apply ty_in_bounds; [try solve [bounds | eauto with ty] | cbv beta]
  | |- ty _ (in_prefix _ _ ≫= _) _ _ => apply ty_in_prefix; [try solve [bounds | eauto with ty] | cbv beta]
  | |- ty _ nofuel _ _ => apply ty_nofuel
  | |- ty _ (mret _) _ _ => apply ty_mret; [ty_done | ty_done]
  | |- ty _ (acquire _ ≫= _) _ _ => apply ty_acquire; intros ?; cbv beta
  | |- ty _ (release _ ≫= _) _ _ => apply ty_release; [assumption | cbv beta]
  | |- ty _ (release _) _ _ => apply ty_release_last; [assumption | ty_done | ty_done]
  | |- ty _ (acquire _) _ _ => apply ty_acquire_last; [intros _; ty_done | ty_done]
  | |- ty _ (panic _ ≫= _) _ _ => eapply ty_bind; [apply ty_panic with (g := fun _ => ∅) (Q := any); split; discriminate | intros ? _]
  | |- ty _ (mret ?a ≫= _) _ _ => change (mret a ≫= ?f) with (f a); cbv beta
  | |- ty _ (let x := _ in _) _ _ => intros x || cbv zeta
  | |- ty ?h ((if ?b then _ else _) ≫= _) _ _ => eapply (ty_bind h _ _ (fun _ => h) any); [|intros ? _; cbv beta]
  | |- ty ?h ((match ?b with _ => _ end) ≫= _) _ _ => eapply (ty_bind h _ _ (fun _ => h) any); [|intros ? _; cbv beta]
  | |- ty ?h ((_ ≫= _) ≫= _) _ _ => eapply (ty_bind h _ _ (fun _ => h) any); [|intros ? _; cbv beta]
  | |- ty _ (if ?b then _ else _) _ _ => let E := fresh "E" in destruct b eqn:E
  | |- ty _ (match ?b with _ => _ end) _ _ => let E := fresh "E" in destruct b eqn:E
  | |- ty ?h (modify _ ≫= _) _ _ => eapply (ty_bind h _ _ (fun _ => h) any); [apply ty_modify; [|done] | intros ? _; cbv beta]
  | |- ty ?h (modify _) _ _ => eapply ty_conseq; [apply ty_modify; [|done] | done]
  | |- ty ?h (gets _ ≫= _) _ _ => apply ty_gets_bind; intros ? ?; cbv beta
  | |- ty _ (_ ≫= _) _ _ => eapply ty_bind; [solve [eauto with ty] | let H := fresh "H" in intros ? H; cbv beta in H |- *]
  | |- ty _ _ _ _ => eapply ty_conseq; [solve [eauto with ty] | let H := fresh "H" in intros ? H; cbv beta in H; split; ty_done]
  end.
Ltac ty_auto := repeat ty_step.
