(* ===== verification/KernelTyped.v ===== *)
(** * The kernel keeps its tables well formed: locks, buffers, the log, memory

    For every function a system call can reach: it keeps [kernel_wt], gives back
    the spinlocks it takes, and returns a pointer into the table it is meant for.
    The proofs walk the code with [ty_auto]; what is left to each is the
    arithmetic that keeps a copy inside its array.  FsTyped.v and TrapTyped.v go
    on with devices and files, and with processes, system calls and traps. *)

From S2P Require Import Prelude State Ring Mem CString Spinlock Sched Sleeplock Bio Log Memlayout Kalloc Vm Typing.

(** ** Processes and sleep locks *)

Lemma ty_sleep_on h c : bal h (sleep_on c) any.
Proof. intros s W E. cbn. split; [done |]. intros s' W' ->. done. Qed.
#[export] Hint Resolve ty_sleep_on : ty.

Lemma ty_sched h : bal h sched any.
Proof. unfold sched. ty_auto. Qed.
#[export] Hint Resolve ty_sched : ty.

Lemma ty_yield h : bal h yield any.
Proof. unfold yield. ty_auto. Qed.

Lemma ty_sleep h c lk : lk ∉ h -> bal ({[lk]} ∪ h) (sleep c lk) any.
Proof.
  intros Hl. unfold sleep. ty_step. ty_step.
  apply ty_release_bind. replace (_ ∖ _) with ({[LkProc a]} ∪ h) by set_solver. assert (LkProc a ∉ h) by set_solver. ty_auto.
Qed.
#[export] Hint Resolve ty_yield ty_sleep : ty.

Lemma ty_sleep_while h fuel cond c lk : lk ∉ h -> bal ({[lk]} ∪ h) (sleep_while fuel cond c lk) any.
Proof. intros Hl. induction fuel; cbn [sleep_while]; ty_auto. Qed.
#[export] Hint Resolve ty_sleep_while : ty.

Lemma ty_wakeup_loop h k : forall i c, bal h (wakeup_loop k i c) any.
Proof. induction k; intros; cbn [wakeup_loop]; ty_auto. Qed.
#[export] Hint Resolve ty_wakeup_loop : ty.

Lemma ty_wakeup h c : bal h (wakeup c) any.
Proof. unfold wakeup. ty_auto. Qed.

Lemma ty_setkilled h p : bal h (setkilled p) any.
Proof. unfold setkilled. ty_auto. Qed.

Lemma ty_killed h p : bal h (killed p) any.
Proof. unfold killed. ty_auto. Qed.
#[export] Hint Resolve ty_wakeup ty_setkilled ty_killed : ty.

Lemma ty_acquiresleep h l : bal h (acquiresleep l) any.
Proof. unfold acquiresleep. ty_auto. Qed.

Lemma ty_releasesleep h l : bal h (releasesleep l) any.
Proof. unfold releasesleep. ty_auto. Qed.

Lemma ty_holdingsleep h l : bal h (holdingsleep l) any.
Proof. unfold holdingsleep. ty_auto. Qed.
#[export] Hint Resolve ty_acquiresleep ty_releasesleep ty_holdingsleep : ty.

(** ** Buffers and the log *)

Lemma ty_disk_rw h b w : bal h (disk_rw b w) any.
Proof.
  unfold disk_rw. ty_auto.
  - intros s []. split; try done. intros n. cbn. destruct (n =? _); [wt | done].
  - apply ty_upd_buf. intros x []. split; try done. by apply kw_disk.
Qed.
#[export] Hint Resolve ty_disk_rw : ty.

(** A buffer, not the head of the list. *)
Abbreviation is_buf b := (b < HEAD)%nat (only parsing).

Lemma ty_bget_cached h fuel : forall b dev n, (b <= HEAD)%nat ->
  bal h (bget_cached fuel b dev n) (fun r => forall b, r = Some b -> is_buf b).
Proof.
  induction fuel as [|fuel IH]; intros b dev n Hb; cbn [bget_cached]; ty_auto.
  - intros ? [= <-]. apply Nat.eqb_neq in E. lia.
  - apply IH. by destruct H.
Qed.

Lemma ty_bget_recycle h fuel : forall b dev n, (b <= HEAD)%nat ->
  bal h (bget_recycle fuel b dev n) (fun r => forall b, r = Some b -> is_buf b).
Proof.
  induction fuel as [|fuel IH]; intros b dev n Hb; cbn [bget_recycle]; ty_auto.
  - intros ? [= <-]. apply Nat.eqb_neq in E. lia.
  - apply IH. by destruct H.
Qed.
#[export] Hint Resolve ty_bget_cached ty_bget_recycle bw_prev bw_next : ty.

Lemma ty_bget h dev n : bal h (bget dev n) (fun b => is_buf b).
Proof. unfold bget. ty_auto; subst; auto. Qed.
#[export] Hint Resolve ty_bget : ty.

Lemma ty_bread h dev n : bal h (bread dev n) (fun b => is_buf b).
Proof. unfold bread. ty_auto. Qed.

Lemma ty_bwrite h b : bal h (bwrite b) any.
Proof. unfold bwrite. ty_auto. Qed.

Lemma ty_brelse h b : is_buf b -> bal h (brelse b) any.
Proof. intros Hb. unfold brelse. ty_auto. Qed.

Lemma ty_bpin h b : bal h (bpin b) any.
Proof. unfold bpin. ty_auto. Qed.

Lemma ty_bunpin h b : bal h (bunpin b) any.
Proof. unfold bunpin. ty_auto. Qed.
#[export] Hint Resolve ty_bread ty_bwrite ty_brelse ty_bpin ty_bunpin : ty.

Lemma ty_copy_data h d b : bal h (copy_data d b) any.
Proof. unfold copy_data. ty_auto. Qed.

Lemma ty_upd_lh h f : (forall l, log_wt l -> log_wt (set_log_lh (f (log_lh l)) l)) -> bal h (upd_lh f) any.
Proof. intros Hf. unfold upd_lh. ty_auto. Qed.
#[export] Hint Resolve ty_copy_data ty_upd_lh : ty.

(** The loops of the log stay below the number of blocks it had when they started. *)
Lemma ty_install_trans_loop h k : forall t r, 0 <= t -> t + Z.of_nat k <= LOGSIZE -> bal h (install_trans_loop k t r) any.
Proof. induction k; intros; cbn [install_trans_loop]; ty_auto. Qed.
#[export] Hint Resolve ty_install_trans_loop : ty.

Lemma log_rounds l : log_wt l -> 0 + Z.of_nat (Z.to_nat (lh_n (log_lh l))) <= LOGSIZE.
Proof. intros []. lia. Qed.
#[export] Hint Resolve log_rounds : ty.

Lemma ty_install_trans h r : bal h (install_trans r) any.
Proof. unfold install_trans. ty_auto. Qed.

Lemma ty_write_log_loop h k : forall t, 0 <= t -> t + Z.of_nat k <= LOGSIZE -> bal h (write_log_loop k t) any.
Proof. induction k; intros; cbn [write_log_loop]; ty_auto. Qed.
#[export] Hint Resolve ty_install_trans ty_write_log_loop : ty.

Lemma ty_write_log h : bal h write_log any.
Proof. unfold write_log. ty_auto. Qed.

Lemma put32_length off v l : 0 <= off -> off + 4 <= Z.of_nat (length l) -> length (put32 off v l) = length l.
Proof. intros. apply length_splice; [done |]. by rewrite length_le_enc. Qed.

Lemma length_put_blocks k : forall i bl l, 0 <= i -> 4 + 4 * (i + Z.of_nat k) <= Z.of_nat (length l) ->
  length (put_blocks k i bl l) = length l.
Proof.
  induction k as [|k IH]; intros i bl l Hi Hk; [done |]. cbn [put_blocks]. rewrite IH; rewrite ?put32_length; lia.
Qed.

Lemma ty_write_head h : bal h write_head any.
Proof.
  unfold write_head. ty_auto. eapply ty_bind; [apply ty_upd_buf | intros; cbv beta; ty_auto].
  intros x []. split; try done. cbn. destruct H as [Hn _], H1 as [Hd _ _]. unfold put_header, LOGSIZE, MAXOPBLOCKS in *.
  assert (E : Z.of_nat (length (b_data a1)) = 1024) by (by rewrite Hd).
  rewrite length_put_blocks; rewrite ?put32_length; lia.
Qed.
#[export] Hint Resolve ty_write_log ty_write_head : ty.

Lemma ty_commit h : bal h commit any.
Proof. unfold commit. ty_auto. Qed.
#[export] Hint Resolve ty_commit : ty.

Lemma ty_begin_op h : bal h begin_op any.
Proof. unfold begin_op. ty_auto. Qed.

Lemma ty_end_op h : bal h end_op any.
Proof. unfold end_op. ty_auto. Qed.

Lemma set_logst_wt l s : log_wt l -> kernel_wt s -> kernel_wt (set_logst l s).
Proof. intros Hl []. by split. Qed.

Lemma bpin_run b s : bpin b s = Panic "acquire" \/ exists l, bpin b s = Ret tt (set_bufs l s).
Proof.
  unfold bpin. destruct (decide (LkBcache ∈ held s)) as [Hl|Hl].
  - left. unfold acquire. mred. by rewrite decide_True.
  - right. eexists. erewrite bind_Ret by (by apply acquire_Ret). unfold getbuf, upd_buf. mred.
    rewrite release_Ret by (cbn; set_solver). cbn. by rewrite held_restore.
Qed.

Lemma log_find_range blocks bn k : forall i, i <= log_find k i blocks bn <= i + Z.of_nat k.
Proof. induction k as [|k IH]; intros i; cbn [log_find]; [lia |]. destruct (_ =? _); [lia |]. specialize (IH (i + 1)). lia. Qed.

(** log_write adds a block after it has checked that the log has room for it. *)
Lemma ty_log_write h b : bal h (log_write b) any.
Proof.
  unfold log_write. apply ty_acquire. intros Hl. intros s W Eh. unfold getlog. destruct (kw_log _ W) as [Hn Hb].
  erewrite bind_Ret by reflexivity. cbv beta. destruct (_ || _) eqn:G; [by split |].
  destruct (_ <? 1); [by split |]. apply orb_false_iff in G as [G%Z.leb_gt _]. unfold getbuf. erewrite bind_Ret by reflexivity. cbv beta zeta.
  rewrite log_alen by apply W. rewrite in_prefix_run by lia. set (i := log_find _ _ _ _).
  assert (Hi : 0 <= i < LOGSIZE) by (pose proof (log_find_range (lh_block (log_lh (logst s))) (b_blockno (bufs s !!! b)) (Z.to_nat (lh_n (log_lh (logst s)))) 0); subst i; lia).
  rewrite in_bounds_run by exact Hi. mred. cbn [obind upd_lh upd_log modify gets].
  set (l1 := set_log_lh _ _). assert (W1 : log_wt l1) by (destruct (kw_log _ W); subst l1; wt).
  assert (Hrel : forall s', kernel_wt s' -> held s' = {[LkLog]} ∪ h -> ok (fun _ => h) any (release LkLog s')).
  { intros s' W' E'. by apply (ty_release_last h LkLog (fun _ => h) any). }
  destruct (i =? _); [|apply Hrel; [by apply set_logst_wt | done]].
  destruct (bpin_run b (set_logst l1 s)) as [E|[bl E]]; rewrite E; [by split |]. cbn [obind].
  pose proof (ty_bpin ({[LkLog]} ∪ h) b (set_logst l1 s) (set_logst_wt _ _ W1 W) Eh) as K. rewrite E in K. destruct K as (K & KE & _).
  apply Hrel; [|done]. apply set_logst_wt; [|done]. destruct W1 as [Hn1 Hb1]. subst l1. split; [cbn in *; lia | done].
Qed.
#[export] Hint Resolve ty_begin_op ty_end_op ty_log_write : ty.

(** ** Memory *)

Lemma set_mem_wt m s : kernel_wt s -> kernel_wt (set_mem m s).
Proof. intros []. by split. Qed.

Lemma set_freelist_wt f s : kernel_wt s -> kernel_wt (set_freelist f s).
Proof. intros []. by split. Qed.

Lemma ty_mem h f : bal h (modify (fun s => set_mem (f s) s)) any.
Proof. apply ty_modify; [|done]. intros s W. by apply set_mem_wt. Qed.
#[export] Hint Resolve ty_mem : ty.
#[export] Hint Resolve set_mem_wt set_freelist_wt : ty.

Section memory.
Context {L : Layout}.

Lemma ty_kfree h pa : bal h (kfree pa) any.
Proof. unfold kfree. ty_auto; auto with ty. Qed.

Lemma ty_kalloc h : bal h kalloc any.
Proof. unfold kalloc. ty_auto; auto with ty. Qed.

Lemma ty_store_pte h a v : bal h (store_pte a v) any.
Proof. apply ty_mem. Qed.

Lemma ty_load_pte h a : bal h (load_pte a) any.
Proof. by apply ty_gets. Qed.

Lemma ty_fill_page h a c : bal h (fill_page a c) any.
Proof. apply ty_mem. Qed.

Lemma ty_write_bytes h a l : bal h (write_bytes a l) any.
Proof. apply ty_mem. Qed.

Lemma ty_read_bytes h a n : bal h (read_bytes a n) (fun l => length l = Z.to_nat n).
Proof. apply ty_gets. intros. apply length_load_bytes. Qed.
End memory.
#[export] Hint Resolve ty_kfree ty_kalloc ty_store_pte ty_load_pte ty_fill_page ty_write_bytes ty_read_bytes : ty.

Section vm.
Context {L : Layout}.

Lemma ty_walk_loop h l : forall pt va a, bal h (walk_loop l pt va a) any.
Proof. induction l; intros; cbn [walk_loop]; ty_auto. Qed.
Hint Resolve ty_walk_loop : ty.

Lemma ty_walk h pt va a : bal h (walk pt va a) any.
Proof. unfold walk. ty_auto. Qed.
Hint Resolve ty_walk : ty.

Lemma ty_walkaddr h pt va : bal h (walkaddr pt va) any.
Proof. unfold walkaddr. ty_auto. Qed.

Lemma ty_mappages_loop h fuel : forall pt a l pa p, bal h (mappages_loop fuel pt a l pa p) any.
Proof. induction fuel; intros; cbn [mappages_loop]; ty_auto. Qed.
Hint Resolve ty_walkaddr ty_mappages_loop : ty.

Lemma ty_mappages h pt va sz pa p : bal h (mappages pt va sz pa p) any.
Proof. unfold mappages. ty_auto. Qed.

Lemma ty_uvmunmap_loop h fuel : forall pt a e f, bal h (uvmunmap_loop fuel pt a e f) any.
Proof. induction fuel; intros; cbn [uvmunmap_loop]; ty_auto. Qed.
Hint Resolve ty_mappages ty_uvmunmap_loop : ty.

Lemma ty_uvmunmap h pt va n f : bal h (uvmunmap pt va n f) any.
Proof. unfold uvmunmap. ty_auto. Qed.

Lemma ty_uvmcreate h : bal h uvmcreate any.
Proof. unfold uvmcreate. ty_auto. Qed.
Hint Resolve ty_uvmunmap ty_uvmcreate : ty.

Lemma ty_uvmdealloc h pt o n : bal h (uvmdealloc pt o n) any.
Proof. unfold uvmdealloc. ty_auto. Qed.
Hint Resolve ty_uvmdealloc : ty.

Lemma ty_uvmalloc_loop h fuel : forall pt st a n x, bal h (uvmalloc_loop fuel pt st a n x) any.
Proof. induction fuel; intros; cbn [uvmalloc_loop]; ty_auto. Qed.
Hint Resolve ty_uvmalloc_loop : ty.

Lemma ty_uvmalloc h pt o n x : bal h (uvmalloc pt o n x) any.
Proof. unfold uvmalloc. ty_auto. Qed.

Lemma ty_freewalk_loop h rec k : (forall pt, bal h (rec pt) any) -> forall pt i, bal h (freewalk_loop rec k pt i) any.
Proof. intros Hr. induction k; intros; cbn [freewalk_loop]; ty_auto. Qed.
Hint Resolve ty_uvmalloc ty_freewalk_loop : ty.

Lemma ty_freewalk h d : forall pt, bal h (freewalk d pt) any.
Proof. induction d; intros; cbn [freewalk]; ty_auto. Qed.
Hint Resolve ty_freewalk : ty.

Lemma ty_uvmfree h pt sz : bal h (uvmfree pt sz) any.
Proof. unfold uvmfree. ty_auto. Qed.

Lemma ty_uvmcopy_loop h fuel : forall o n i sz, bal h (uvmcopy_loop fuel o n i sz) any.
Proof. induction fuel; intros; cbn [uvmcopy_loop]; ty_auto; auto with ty. Qed.
Hint Resolve ty_uvmfree ty_uvmcopy_loop : ty.

Lemma ty_uvmcopy h o n sz : bal h (uvmcopy o n sz) any.
Proof. unfold uvmcopy. ty_auto. Qed.

Lemma ty_uvmclear h pt va : bal h (uvmclear pt va) any.
Proof. unfold uvmclear. ty_auto. Qed.

Lemma ty_copyout_loop h fuel : forall pt va src len, bal h (copyout_loop fuel pt va src len) any.
Proof. induction fuel; intros; cbn [copyout_loop]; ty_auto. Qed.
Hint Resolve ty_uvmcopy ty_uvmclear ty_copyout_loop : ty.

Lemma ty_copyout h pt va src len : bal h (copyout pt va src len) any.
Proof. unfold copyout. ty_auto. Qed.

(** copyin stores no more bytes than the caller asked for. *)
Lemma ty_copyin_loop h fuel : forall pt va len dst, 0 <= len ->
  bal h (copyin_loop fuel pt va len dst) (fun r => Z.of_nat (length (snd r)) <= Z.of_nat (length dst) + len).
Proof.
  induction fuel as [|fuel IH]; intros pt va len dst Hl; cbn [copyin_loop]; ty_auto; cbn [snd]; try lia.
  set (n := Z.min _ _) in *. assert (0 <= n <= len).
  { subst n. rewrite PGROUNDDOWN_eq. unfold PGSIZE. pose proof (Z.div_mod va 4096). pose proof (Z.mod_pos_bound va 4096). lia. }
  rewrite length_app in *. lia.
Qed.

Lemma ty_copyin h pt va len : 0 <= len -> bal h (copyin pt va len) (fun r => Z.of_nat (length (snd r)) <= len).
Proof. intros. unfold copyin. by apply (ty_copyin_loop h _ pt va len []). Qed.

Lemma ty_copyinstr_loop h fuel : forall pt va max dst, bal h (copyinstr_loop fuel pt va max dst) any.
Proof. induction fuel; intros; cbn [copyinstr_loop]; ty_auto. Qed.
Hint Resolve ty_copyinstr_loop : ty.

Lemma ty_copyinstr h pt va max : bal h (copyinstr pt va max) any.
Proof. unfold copyinstr. ty_auto. Qed.
End vm.
#[export] Hint Resolve ty_walkaddr ty_mappages ty_uvmunmap ty_uvmcreate ty_uvmdealloc ty_uvmalloc ty_uvmfree ty_uvmcopy ty_uvmclear ty_copyout ty_copyin ty_copyinstr : ty.
