(* ===== verification/FsTyped.v ===== *)
(** * The kernel keeps its tables well formed: devices, pipes, the file system *)

From S2P Require Import Prelude State Ring Mem CString Spinlock Sched Sleeplock Bio Log Memlayout Kalloc Vm Uart Printf Copy Console Pipe Fs File Typing KernelTyped.

(** ** The console *)

Lemma ty_upd_uart h f : (forall u, length (uart_tx_buf (f u)) = length (uart_tx_buf u)) -> bal h (upd_uart f) any.
Proof. intros Hf. apply ty_modify; [|done]. intros s []. split; try done. cbn. by rewrite Hf. Qed.
#[export] Hint Resolve ty_upd_uart : ty.
#[export] Hint Extern 3 (length _ = _) => solve [cbn; intros; rewrite ?length_insert; done] : ty.

Lemma ty_write_thr h c : bal h (write_thr c) any.
Proof. unfold write_thr. ty_auto. Qed.

Lemma ty_read_idle h : bal h read_idle any.
Proof. unfold read_idle. ty_auto. Qed.
#[export] Hint Resolve ty_write_thr ty_read_idle : ty.

Lemma ty_uartputc_sync h c : bal h (uartputc_sync c) any.
Proof. unfold uartputc_sync. ty_auto. Qed.

(** The rings: an index taken modulo the size of the array. *)
Lemma uart_slot s n : kernel_wt s -> 0 <= Z.of_nat (tx_slot n) < alen (uart_tx_buf (uart s)).
Proof. intros W. apply (slot_in 64); [done | done | apply W]. Qed.

Lemma pipe_slot_in p n : pipe_wt p -> 0 <= Z.of_nat (pipe_slot n) < alen (pi_data p).
Proof. intros W. apply (slot_in 32); [done | done | apply W]. Qed.

Lemma cons_slot_in c n : length (cons_buf c) = Z.to_nat INPUT_BUF_SIZE -> 0 <= Z.of_nat (cons_slot n) < alen (cons_buf c).
Proof. by apply (slot_in 32). Qed.
#[export] Hint Resolve uart_slot pipe_slot_in cons_slot_in : ty.

Lemma ty_uartstart_loop h k : bal h (uartstart_loop k) any.
Proof. induction k; cbn [uartstart_loop]; ty_auto. Qed.
#[export] Hint Resolve ty_uartputc_sync ty_uartstart_loop : ty.

Lemma ty_uartstart h : bal h uartstart any.
Proof. unfold uartstart. ty_auto. Qed.
#[export] Hint Resolve ty_uartstart : ty.

Lemma ty_uartputc h c : bal h (uartputc c) any.
Proof. unfold uartputc. ty_auto. Qed.

Lemma ty_uartgetc h : bal h uartgetc any.
Proof. unfold uartgetc. ty_auto. Qed.

Lemma ty_consputc h c : bal h (consputc c) any.
Proof. unfold consputc. ty_auto. Qed.
#[export] Hint Resolve ty_uartputc ty_uartgetc ty_consputc : ty.

Lemma ty_consputs h l : bal h (consputs l) any.
Proof. induction l; cbn [consputs]; ty_auto. Qed.
#[export] Hint Resolve ty_consputs : ty.

Lemma ty_printint h x b sg : b = 10 \/ b = 16 -> bal h (printint x b sg) any.
Proof. intros Hb. pose proof (printint_buf_bound digits x b sg Hb). unfold printint. cbv zeta. ty_auto. unfold alen. lia. Qed.
#[export] Hint Extern 2 (ty _ (printint _ _ _) _ _) => apply ty_printint; auto : ty.

(** The top four bits of a 64-bit number. *)
Lemma top_digit x : 0 <= x < 2 ^ 64 -> 0 <= Z.shiftr x 60 < alen digits.
Proof. intros Hx. change (alen digits) with 16. rewrite Z.shiftr_div_pow2 by lia. split; [apply Z.div_pos; lia |]. apply Z.div_lt_upper_bound; lia. Qed.
#[export] Hint Resolve top_digit : ty.
#[export] Hint Extern 2 (0 <= wrap 64 _ < 2 ^ 64) => apply (wrap_range 64); lia : ty.

Lemma ty_printptr_loop h k : forall x, 0 <= x < 2 ^ 64 -> bal h (printptr_loop k x) any.
Proof. induction k; intros; cbn [printptr_loop]; ty_auto. Qed.
#[export] Hint Resolve ty_printptr_loop : ty.

Lemma ty_printptr h x : bal h (printptr x) any.
Proof. unfold printptr. ty_auto. Qed.
#[export] Hint Resolve ty_printptr : ty.

(** A format asks for the arguments it is given, of their types. *)
Fixpoint fits (fmt : list Z) (ap : list varg) : bool :=
  match fmt with
  | [] => true
  | c :: fmt =>
      if negb (c =? 37) then fits fmt ap else
      match fmt with
      | [] => true
      | c :: fmt =>
          if c =? 100 then match ap with VInt _ :: ap => fits fmt ap | _ => false end
          else if c =? 120 then match ap with VInt _ :: ap => fits fmt ap | _ => false end
          else if c =? 112 then match ap with VUint64 _ :: ap => fits fmt ap | _ => false end
          else if c =? 115 then match ap with VStr _ :: ap => fits fmt ap | _ => false end
          else fits fmt ap
      end
  end.

(** The format is read one or two characters at a time. *)
Lemma ty_printf_loop h : forall n fmt ap, (length fmt <= n)%nat -> fits fmt ap = true -> bal h (printf_loop fmt ap) any.
Proof.
  induction n as [|n IH]; intros [|c fmt] ap Hl Hf; cbn in Hl; [apply ty_mret; done | lia | apply ty_mret; done |].
  cbn [printf_loop]. cbn [fits] in Hf. destruct (c =? 37); cbn [negb] in *; [|by ty_auto].
  destruct fmt as [|c' fmt]; [apply ty_mret; done |]. cbn in Hl. assert (IH' : forall ap, fits fmt ap = true -> bal h (printf_loop fmt ap) any) by (intros; apply IH; [lia | done]).
  destruct (c' =? 100); [|destruct (c' =? 120); [|destruct (c' =? 112); [|destruct (c' =? 115)]]]; ty_auto; (discriminate Hf || by apply IH').
Qed.

(** printf takes its lock and gives it back, or does neither. *)
Lemma ty_printf h fmt ap : fits fmt ap = true -> bal h (printf fmt ap) any.
Proof.
  intros Hf. pose proof (fun h => ty_printf_loop h (length fmt) fmt ap (Nat.le_refl _) Hf) as Hp. unfold printf. ty_step.
  destruct (pr_locking s); cbv iota; ty_auto.
Qed.
#[export] Hint Extern 2 (ty _ (printf _ _) _ _) => apply ty_printf; reflexivity : ty.

Section copy.
Context {L : Layout}.

Lemma ty_my_pagetable h : bal h my_pagetable any.
Proof. unfold my_pagetable. ty_auto. Qed.
Hint Resolve ty_my_pagetable : ty.

Lemma ty_either_copyout h d l n : bal h (either_copyout d l n) any.
Proof. unfold either_copyout. ty_auto. Qed.

Lemma ty_either_copyin h d n : 0 <= n -> bal h (either_copyin d n) (fun r => Z.of_nat (length (snd r)) <= n).
Proof. intros Hn. unfold either_copyin. ty_auto. cbn. rewrite length_take. lia. Qed.
Hint Resolve ty_either_copyout ty_either_copyin : ty.

Lemma ty_consolewrite_loop h k : forall i d, bal h (consolewrite_loop k i d) any.
Proof. induction k; intros; cbn [consolewrite_loop]; ty_auto. Qed.
Hint Resolve ty_consolewrite_loop : ty.

Lemma ty_consolewrite h d n : bal h (consolewrite d n) any.
Proof. unfold consolewrite. ty_auto. Qed.

Lemma ty_getcons h : bal h getcons (fun c => length (cons_buf c) = Z.to_nat INPUT_BUF_SIZE).
Proof. apply ty_gets. by intros s []. Qed.

Lemma ty_upd_cons h f : (forall c, length (cons_buf c) = Z.to_nat INPUT_BUF_SIZE -> length (cons_buf (f c)) = Z.to_nat INPUT_BUF_SIZE) ->
  bal h (upd_cons f) any.
Proof. intros Hf. apply ty_modify; [|done]. intros s []. split; try done. cbn. by apply Hf. Qed.
Hint Resolve ty_getcons ty_upd_cons : ty.

Lemma ty_cons_wait h k : LkCons ∉ h -> bal ({[LkCons]} ∪ h) (cons_wait k) any.
Proof. intros Hl. induction k; cbn [cons_wait]; ty_auto. Qed.
Hint Resolve ty_cons_wait : ty.

Lemma ty_consoleread_loop h k : LkCons ∉ h -> forall t n d, bal ({[LkCons]} ∪ h) (consoleread_loop k t n d) any.
Proof. intros Hl. induction k; intros; cbn [consoleread_loop]; ty_auto. Qed.
Hint Resolve ty_consoleread_loop : ty.

Lemma ty_consoleread h d n : bal h (consoleread d n) any.
Proof. unfold consoleread. ty_auto. Qed.

Lemma ty_procdump_loop h k : forall i, bal h (procdump_loop k i) any.
Proof. induction k; intros; cbn [procdump_loop]; ty_auto. Qed.
Hint Resolve ty_procdump_loop : ty.

Lemma ty_procdump h : bal h procdump any.
Proof. unfold procdump. ty_auto. Qed.

Lemma ty_kill_line h k : bal h (kill_line k) any.
Proof. induction k; cbn [kill_line]; ty_auto. Qed.
Hint Resolve ty_procdump ty_kill_line : ty.

Lemma ty_consoleintr h c : bal h (consoleintr c) any.
Proof. unfold consoleintr. ty_auto. Qed.
Hint Resolve ty_consoleintr : ty.

Lemma ty_uartintr_loop h k : bal h (uartintr_loop k) any.
Proof. induction k; cbn [uartintr_loop]; ty_auto. Qed.
Hint Resolve ty_uartintr_loop : ty.

Lemma ty_uartintr h : bal h uartintr any.
Proof. unfold uartintr. ty_auto. Qed.

(** ** Pipes *)

Lemma fresh_pipe_wt : pipe_wt fresh_pipe.
Proof. by split. Qed.

Lemma ty_getpipe h pi : bal h (getpipe pi) pipe_wt.
Proof.
  apply ty_gets. intros s W. destruct (pipes s !! pi) eqn:E; [|apply fresh_pipe_wt]. exact (kw_pipes _ W _ _ E).
Qed.

Lemma ty_upd_pipe h pi f : (forall p, pipe_wt p -> pipe_wt (f p)) -> bal h (upd_pipe pi f) any.
Proof.
  intros Hf. apply ty_modify; [|done]. intros s []. split; try done. intros i p Hp.
  destruct (decide (pi = i)) as [->|Hn]; cbn in Hp; [|rewrite lookup_alter_ne in Hp by done; by eapply kw_pipes].
  rewrite lookup_alter_eq in Hp. destruct (pipes s !! i) as [q|] eqn:E; [|done]. cbn in Hp. simplify_eq. apply Hf. by eapply kw_pipes.
Qed.
Hint Resolve ty_getpipe ty_upd_pipe : ty.

Lemma ty_pipeclose h pi w : bal h (pipeclose pi w) any.
Proof.
  unfold pipeclose. ty_auto. intros s []. split; try done. by apply map_Forall_delete.
Qed.

Lemma ty_pipewrite_loop h k : forall pi a n i p, LkPipe pi ∉ h -> bal ({[LkPipe pi]} ∪ h) (pipewrite_loop k pi a n i p) any.
Proof. induction k; intros; cbn [pipewrite_loop]; ty_auto. Qed.

Lemma ty_pipe_wait h k : forall pi p, LkPipe pi ∉ h -> bal ({[LkPipe pi]} ∪ h) (pipe_wait k pi p) any.
Proof. induction k; intros; cbn [pipe_wait]; ty_auto. Qed.

Lemma ty_piperead_loop h k : forall pi a i p, bal h (piperead_loop k pi a i p) any.
Proof. induction k; intros; cbn [piperead_loop]; ty_auto. Qed.
Hint Resolve ty_pipewrite_loop ty_pipe_wait ty_piperead_loop : ty.

Lemma ty_pipewrite h pi a n : bal h (pipewrite pi a n) any.
Proof. unfold pipewrite. ty_auto. Qed.

Lemma ty_piperead h pi a n : bal h (piperead pi a n) any.
Proof. unfold piperead. ty_auto. Qed.
End copy.
#[export] Hint Resolve ty_either_copyout ty_either_copyin ty_consolewrite ty_consoleread ty_uartintr ty_pipeclose ty_pipewrite ty_piperead : ty.

(** ** Blocks and inodes *)

(** An entry of the inode table. *)
Abbreviation is_inode ip := (ip < Z.to_nat NINODE)%nat (only parsing).

Lemma ty_deref {A} h (o : option A) : bal h (deref o) (fun a => o = Some a).
Proof. unfold deref. ty_auto. Qed.

Lemma ty_getsb h : bal h getsb any.
Proof. by apply ty_gets. Qed.

Lemma ty_getinode h ip : bal h (getinode ip) inode_wt.
Proof. apply ty_gets. intros s W. eapply table_get; [apply W | apply zero_inode_wt]. Qed.

Lemma ty_upd_inode h ip f : (forall x, inode_wt x -> inode_wt (f x)) -> bal h (upd_inode ip f) any.
Proof. intros Hf. apply ty_modify; [|done]. intros s []. split; try done. by apply table_alter. Qed.
#[export] Hint Resolve ty_deref ty_getsb ty_getinode ty_upd_inode : ty.

Lemma ty_bzero h dev n : bal h (bzero dev n) any.
Proof. unfold bzero. ty_auto. Qed.
#[export] Hint Resolve ty_bzero : ty.

Lemma bit_set_length l bi : length (bit_set l bi) = length l.
Proof. apply length_insert. Qed.

Lemma bit_clear_length l bi : length (bit_clear l bi) = length l.
Proof. apply length_insert. Qed.

#[export] Hint Extern 4 (buf_wt (set_b_data (bit_set _ _) _)) => solve [wt; by rewrite bit_set_length] : ty.
#[export] Hint Extern 4 (buf_wt (set_b_data (bit_clear _ _) _)) => solve [wt; by rewrite bit_clear_length] : ty.

(** The byte of a bit of a bitmap block. *)
Lemma bitmap_in d : buf_wt d -> BPB / 8 <= alen (b_data d).
Proof. intros W. by rewrite buf_alen. Qed.

Lemma bit_in d bi : buf_wt d -> 0 <= bi < BPB -> 0 <= bi / 8 < alen (b_data d).
Proof.
  intros W H. rewrite buf_alen by done. change BPB with 8192 in H. change BSIZE with 1024. split; [apply Z.div_pos; lia |]. apply Z.div_lt_upper_bound; lia.
Qed.

Lemma bit_mod_in d b : buf_wt d -> 0 <= b mod BPB / 8 < alen (b_data d).
Proof. intros W. apply bit_in; [done |]. by apply Z.mod_pos_bound. Qed.

Lemma balloc_scan_range data b size k : forall bi r, balloc_scan k data b bi size = Some r -> bi <= r < bi + Z.of_nat k.
Proof.
  induction k as [|k IH]; intros bi r; cbn [balloc_scan]; [done |]. destruct (_ <? _); [|done]. destruct (bit_free _ _); [intros [= <-]; lia |].
  intros E%IH. lia.
Qed.

Lemma scan_in d b size bi : buf_wt d -> balloc_scan (Z.to_nat BPB) (b_data d) b 0 size = Some bi -> 0 <= bi / 8 < alen (b_data d).
Proof. intros W E%balloc_scan_range. apply bit_in; [done |]. by change (Z.of_nat (Z.to_nat BPB)) with BPB in E. Qed.
#[export] Hint Resolve bitmap_in bit_mod_in scan_in : ty.

Lemma ty_balloc_loop h k : forall dev b, bal h (balloc_loop k dev b) any.
Proof. induction k; intros; cbn [balloc_loop]; ty_auto. Qed.
#[export] Hint Resolve ty_balloc_loop : ty.

Lemma ty_balloc h dev : bal h (balloc dev) any.
Proof. unfold balloc. ty_auto. Qed.

Lemma ty_bfree h dev b : bal h (bfree dev b) any.
Proof. unfold bfree. ty_auto. Qed.
#[export] Hint Resolve ty_balloc ty_bfree : ty.

Lemma length_put16 off v l : 0 <= off -> off + 2 <= Z.of_nat (length l) -> length (put16 off v l) = length l.
Proof. intros. apply length_splice; [done |]. by rewrite length_le_enc. Qed.

Lemma length_put_addrs addrs : forall off l, 0 <= off -> off + 4 * Z.of_nat (length addrs) <= Z.of_nat (length l) ->
  length (put_addrs off addrs l) = length l.
Proof.
  induction addrs as [|a addrs IH]; intros off l H0 H1; [done |]. cbn [put_addrs length] in *.
  rewrite IH; rewrite ?put32_length; lia.
Qed.

Lemma IOFF_in_block i : 0 <= IOFF i /\ IOFF i + 64 <= BSIZE.
Proof. unfold IOFF. change IPB with 16. change BSIZE with 1024. pose proof (Z.mod_pos_bound i 16). lia. Qed.

Lemma dinode_in i d : buf_wt d -> IOFF i + 64 <= alen (b_data d).
Proof. intros W. rewrite buf_alen by done. apply IOFF_in_block. Qed.
#[export] Hint Resolve dinode_in : ty.

(** A dinode written at the place of its number stays inside the block. *)
Lemma length_put_dinode i d l : length l = Z.to_nat BSIZE -> length (di_addrs d) = Z.to_nat (NDIRECT + 1) ->
  length (put_dinode (IOFF i) d l) = length l.
Proof.
  intros Hl Ha. pose proof (IOFF_in_block i) as Hi. change (Z.to_nat (NDIRECT + 1)) with 13%nat in Ha. change BSIZE with 1024 in *.
  unfold put_dinode. rewrite length_put_addrs; repeat first [lia | rewrite put32_length | rewrite length_put16].
Qed.

Lemma ty_iupdate h ip : bal h (iupdate ip) any.
Proof.
  unfold iupdate. ty_auto. eapply ty_bind; [apply ty_upd_buf | intros; cbv beta; ty_auto].
  intros x []. wt_split. split; try done. cbn [b_data set_b_data]. by rewrite length_put_dinode.
Qed.
#[export] Hint Resolve ty_iupdate : ty.

(** What iget finds is an entry of the table. *)
Lemma iget_scan_range l : forall i e dev n r1 r2, iget_scan l i e dev n = (r1, r2) ->
  (forall k, e = Some k -> (k < i + length l)%nat) ->
  (forall k, r1 = Some k -> (k < i + length l)%nat) /\ (forall k, r2 = Some k -> (k < i + length l)%nat).
Proof.
  induction l as [|x l IH]; intros i e dev n r1 r2; cbn [iget_scan length].
  - intros [= <- <-] He. done.
  - destruct (_ && _).
    + intros [= <- <-] He. split; [intros ? [= <-]; lia | done].
    + intros E He. destruct (IH _ _ _ _ _ _ E) as [H1 H2].
      * intros k. destruct e; [intros [= ->]; specialize (He k eq_refl); lia |]. destruct (_ =? 0); [intros [= <-]; lia | done].
      * split; intros k Hk; [specialize (H1 k Hk) | specialize (H2 k Hk)]; lia.
Qed.

Lemma ty_iget h dev n : bal h (iget dev n) (fun ip => is_inode ip).
Proof.
  unfold iget. do 2 ty_step. destruct (iget_scan _ _ _ _ _) as [r1 r2] eqn:E. destruct (iget_scan_range _ _ _ _ _ _ _ E) as [H1 H2]; [done |].
  destruct (kw_itable _ H0) as [Hl _]. rewrite Hl in *. ty_auto; auto.
Qed.
#[export] Hint Resolve ty_iget : ty.

Lemma ty_ialloc_loop h k : forall dev n t, bal h (ialloc_loop k dev n t) (below NINODE).
Proof.
  induction k; intros; cbn [ialloc_loop]; ty_auto.
  eapply ty_bind; [apply ty_upd_buf | intros; cbv beta; ty_auto; try by apply below_some].
  intros x []. wt_split. split; try done. cbn [b_data set_b_data]. pose proof (IOFF_in_block n) as Hi. change BSIZE with 1024 in *.
  assert (El : length (splice (IOFF n) (replicate 64 0) (b_data a1)) = length (b_data a1)) by (apply length_splice; rewrite ?length_replicate; lia).
  rewrite length_put16; rewrite ?El; lia.
Qed.
#[export] Hint Resolve ty_ialloc_loop : ty.

Lemma ty_ialloc h dev t : bal h (ialloc dev t) (below NINODE).
Proof. unfold ialloc. ty_auto. Qed.

Lemma ty_idup h ip : bal h (idup ip) (fun r => r = ip).
Proof. unfold idup. ty_auto. Qed.
#[export] Hint Resolve ty_ialloc ty_idup : ty.

Lemma length_get_addrs k : forall off l, length (get_addrs k off l) = k.
Proof. induction k; intros; cbn; auto. Qed.

Lemma get32_range off l : 0 <= get32 off l < 2 ^ 32.
Proof.
  unfold get32. pose proof (le_dec_range (slice off 4 l)) as H. unfold slice in *. rewrite length_take in H.
  assert (256 ^ Z.of_nat (Z.to_nat 4 `min` length (drop (Z.to_nat off) l)) <= 256 ^ 4) by (apply Z.pow_le_mono_r; lia). lia.
Qed.

Lemma ty_ilock h ip : bal h (ilock ip) any.
Proof.
  unfold ilock. ty_auto. eapply ty_bind; [apply ty_upd_inode | intros; cbv beta; ty_auto].
  intros x []. split; cbn [i_addrs i_size set_i_addrs set_i_size di_addrs di_size get_dinode]; [by rewrite length_get_addrs | apply get32_range].
Qed.

Lemma ty_iunlock h ip : bal h (iunlock ip) any.
Proof. unfold iunlock. ty_auto. Qed.
#[export] Hint Resolve ty_ilock ty_iunlock : ty.

(** The address of a block goes to its place in the inode or in the indirect block. *)
Lemma ty_bmap h ip bn : 0 <= bn -> bal h (bmap ip bn) any.
Proof.
  intros Hb. unfold bmap. ty_auto. eapply ty_bind; [apply ty_upd_buf | intros; cbv beta; ty_auto].
  intros x [Hd Hp Hn]. split; try done. cbn [b_data set_b_data]. change NINDIRECT with 256 in *. change BSIZE with 1024 in *.
  rewrite put32_length; lia.
Qed.
#[export] Hint Resolve ty_bmap : ty.

Lemma ty_itrunc_direct h k : forall ip i, (i + k <= Z.to_nat NDIRECT)%nat -> bal h (itrunc_direct k ip i) any.
Proof. induction k; intros; cbn [itrunc_direct]; ty_auto. Qed.

Lemma ty_itrunc_indirect h k : forall ip bp j, 0 <= j -> j + Z.of_nat k <= NINDIRECT -> bal h (itrunc_indirect k ip bp j) any.
Proof. induction k; intros; cbn [itrunc_indirect]; ty_auto. Qed.
#[export] Hint Resolve ty_itrunc_direct ty_itrunc_indirect : ty.

Lemma indirect_rounds : 0 + Z.of_nat (Z.to_nat NINDIRECT) <= NINDIRECT.
Proof. by vm_compute. Qed.
#[export] Hint Resolve indirect_rounds : ty.

Lemma ty_itrunc h ip : bal h (itrunc ip) any.
Proof. unfold itrunc. ty_auto. Qed.
#[export] Hint Resolve ty_itrunc : ty.

Lemma ty_iput h ip : bal h (iput ip) any.
Proof. unfold iput. ty_auto. Qed.
#[export] Hint Resolve ty_iput : ty.

Lemma ty_iunlockput h ip : bal h (iunlockput ip) any.
Proof. unfold iunlockput. ty_auto. Qed.

Lemma ty_stati h ip : bal h (stati ip) any.
Proof. unfold stati. ty_auto. Qed.
#[export] Hint Resolve ty_iunlockput ty_stati : ty.

(** The piece of a block one round of readi and writei moves. *)
Lemma piece_range off n tot : 0 <= off -> (tot <? n) = true -> let m := Z.min (n - tot) (BSIZE - off mod BSIZE) in
  0 <= off / BSIZE /\ 0 <= off mod BSIZE /\ 0 < m /\ off mod BSIZE + m <= BSIZE /\ tot + m <= n.
Proof.
  intros Ho Ht m. subst m. change BSIZE with 1024 in *. pose proof (Z.mod_pos_bound off 1024). pose proof (Z.div_pos off 1024). lia.
Qed.

(** The test [off + n < off] of readi and writei. *)
Lemma no_wrap off n : 0 <= off < 2 ^ 32 -> 0 <= n < 2 ^ 32 -> off <= u32 (off + n) -> off + n < 2 ^ 32.
Proof.
  intros Ho Hn H. destruct (Z.lt_ge_cases (off + n) (2 ^ 32)) as [|G]; [done |]. exfalso.
  assert (u32 (off + n) = off + n - 2 ^ 32); [|lia]. unfold wrap. rewrite <- (Z.mod_small (off + n - 2 ^ 32) (2 ^ 32)) by lia.
  rewrite <- (Z.mod_add (off + n - 2 ^ 32) 1) by lia. f_equal. lia.
Qed.

#[export] Hint Extern 3 (0 <= _ + DIRENT) => unfold DIRENT; lia : ty.
#[export] Hint Extern 3 (0 <= _ * DIRENT) => unfold DIRENT; lia : ty.

Section content.
Context {L : Layout}.

Lemma ty_readi_loop h k : forall ip d off n tot acc, 0 <= off -> bal h (readi_loop k ip d off n tot acc) any.
Proof.
  induction k as [|k IH]; intros; cbn [readi_loop]; [ty_auto |]. destruct (tot <? n) eqn:E; [|ty_auto].
  pose proof (piece_range off n tot H E) as P. cbv zeta in P. ty_auto.
Qed.
Hint Resolve ty_readi_loop : ty.

Lemma ty_readi h ip d off n : 0 <= off -> bal h (readi ip d off n) any.
Proof. intros. unfold readi. ty_auto. Qed.
Hint Resolve ty_readi : ty.

(** A write ends where it was asked to end at the latest. *)
Lemma ty_writei_loop h k : forall ip d off n tot, 0 <= off -> tot <= n ->
  bal h (writei_loop k ip d off n tot) (fun r => off <= snd r <= off + (n - tot)).
Proof.
  induction k as [|k IH]; intros ip d off n tot H0 H1; cbn [writei_loop]; [ty_auto |].
  destruct (tot <? n) eqn:E; [|ty_auto; cbn; lia].
  pose proof (piece_range off n tot H0 E) as P. cbv zeta in P. ty_auto; cbn [snd]; try lia.
  eapply ty_bind; [apply ty_upd_buf | intros; cbv beta; ty_auto; cbn [snd]; try lia].
  intros x [Hd Hp Hn]. split; try done. cbn [b_data set_b_data]. rewrite length_splice; [done | lia |]. rewrite Hd, Z2Nat.id by done. lia.
Qed.
Hint Resolve ty_writei_loop : ty.

Lemma ty_writei h ip d off n : 0 <= off -> bal h (writei ip d off n) any.
Proof.
  intros Ho. unfold writei. cbv zeta. pose proof (wrap_range 32 n ltac:(lia)) as Hn. ty_auto.
  eapply ty_conseq; [apply ty_upd_inode | done]. intros x [Hx _]. split; [done |]. cbn [i_size set_i_size].
  apply orb_false_iff in E as [Ea%Z.ltb_ge Eb%Z.ltb_ge]. destruct H as [_ H]. pose proof (no_wrap off (u32 n)). lia.
Qed.
Hint Resolve ty_writei : ty.

(** ** Directories and paths *)

Abbreviation at_entry := (fun r : option (nat * Z) => forall ip off, r = Some (ip, off) -> is_inode ip /\ 0 <= off).
Abbreviation at_inode := (fun r : option (nat * list Z) => forall ip name, r = Some (ip, name) -> is_inode ip).

Lemma ty_dirlookup_loop h k : forall dp name off, 0 <= off -> bal h (dirlookup_loop k dp name off) at_entry.
Proof.
  induction k as [|k IH]; intros; cbn [dirlookup_loop]; ty_auto. by intros ? ? [= <- <-].
Qed.
Hint Resolve ty_dirlookup_loop : ty.

Lemma ty_dirlookup h dp name : bal h (dirlookup dp name) at_entry.
Proof. unfold dirlookup. ty_auto. Qed.

Lemma ty_dirlink_scan h k : forall dp off, 0 <= off -> bal h (dirlink_scan k dp off) (fun r => 0 <= r).
Proof. induction k as [|k IH]; intros; cbn [dirlink_scan]; ty_auto. Qed.
Hint Resolve ty_dirlookup ty_dirlink_scan : ty.

Lemma ty_dirlink h dp name n : bal h (dirlink dp name n) any.
Proof. unfold dirlink. ty_auto. Qed.

Lemma ty_namex_loop h k : forall path parent ip name, is_inode ip -> bal h (namex_loop k path parent ip name) at_inode.
Proof.
  induction k as [|k IH]; intros; cbn [namex_loop]; ty_auto; [by intros ? ? [= <- <-] | | by intros ? ? [= <- <-]].
  apply IH. subst. by eapply H2.
Qed.
Hint Resolve ty_namex_loop : ty.

(** The current directory of the running process. *)
Lemma ty_cwd h : bal h (me ← myproc; p ← getproc me; cwd ← deref (p_cwd p); idup cwd) (fun ip => is_inode ip).
Proof. ty_auto. subst. by eapply pw_cwd. Qed.
Hint Resolve ty_cwd : ty.

Lemma ty_namex h path parent : bal h (namex path parent) at_inode.
Proof.
  unfold namex. eapply (ty_bind _ _ _ (fun _ => h) (fun ip => is_inode ip)); [|intros; cbv beta; ty_auto].
  destruct path as [|c path]; [apply ty_cwd |]. destruct (c =? SLASH); [apply ty_iget | apply ty_cwd].
Qed.
Hint Resolve ty_namex : ty.

Lemma ty_namei h path : bal h (namei path) (below NINODE).
Proof. unfold namei. ty_auto. intros ip. destruct a as [[]|]; [|done]. intros [= <-]. by eapply H. Qed.

Lemma ty_nameiparent h path : bal h (nameiparent path) at_inode.
Proof. apply ty_namex. Qed.
End content.
#[export] Hint Resolve ty_readi ty_writei ty_dirlookup ty_dirlink ty_namei ty_nameiparent : ty.

(** ** Files *)

(** An entry of the file table. *)
Abbreviation is_file f := (f < Z.to_nat NFILE)%nat (only parsing).

Lemma ty_getfile h f : bal h (getfile f) file_wt.
Proof. apply ty_gets. intros s W. eapply table_get; [apply W | apply zero_file_wt]. Qed.

Lemma ty_upd_file h f g : (forall x, file_wt x -> file_wt (g x)) -> bal h (upd_file f g) any.
Proof. intros Hf. apply ty_modify; [|done]. intros s []. split; try done. by apply table_alter. Qed.
Lemma file_off_nonneg f : file_wt f -> 0 <= f_off f.
Proof. intros []. lia. Qed.

Lemma set_f_off_wt v f : file_wt f -> file_wt (set_f_off (u32 v) f).
Proof. intros []. split; [done | by apply (wrap_range 32)]. Qed.
#[export] Hint Resolve ty_getfile ty_upd_file file_off_nonneg set_f_off_wt : ty.

Lemma file_scan_range l : forall i k, file_scan l i = Some k -> (k < i + length l)%nat.
Proof.
  induction l as [|x l IH]; intros i k; cbn [file_scan length]; [done |]. destruct (_ =? 0); [intros [= <-]; lia |].
  intros E%IH. lia.
Qed.

Lemma ty_filealloc h : bal h filealloc (below NFILE).
Proof.
  unfold filealloc. do 2 ty_step. destruct (file_scan _ _) eqn:E; ty_auto. apply below_some. apply file_scan_range in E.
  by rewrite (proj1 (kw_ftable _ H0)) in E.
Qed.

Lemma ty_filedup h f : bal h (filedup f) (fun r => r = f).
Proof. unfold filedup. ty_auto. Qed.
#[export] Hint Resolve ty_filealloc ty_filedup : ty.

Section file.
Context {L : Layout}.

Lemma ty_fileclose h f : bal h (fileclose f) any.
Proof. unfold fileclose. ty_auto. Qed.

Hint Resolve ty_fileclose : ty.

Lemma ty_filestat h f a : bal h (filestat f a) any.
Proof. unfold filestat. ty_auto. Qed.

Lemma ty_devsw_at h m : bal h (devsw_at m) any.
Proof. unfold devsw_at. ty_auto. unfold alen. rewrite (kw_devsw _ H). change (Z.of_nat (Z.to_nat NDEV)) with NDEV. lia. Qed.
Hint Resolve ty_devsw_at : ty.

Lemma ty_devsw_read h m : bal h (devsw_read m) (fun o => forall f, o = Some f -> forall h d n, bal h (f d n) any).
Proof. unfold devsw_read. ty_auto. destruct a; [|done]. intros ? [= <-]. apply ty_consoleread. Qed.

Lemma ty_devsw_write h m : bal h (devsw_write m) (fun o => forall f, o = Some f -> forall h d n, bal h (f d n) any).
Proof. unfold devsw_write. ty_auto. destruct a; [|done]. intros ? [= <-]. apply ty_consolewrite. Qed.
Hint Resolve ty_devsw_read ty_devsw_write : ty.

Lemma ty_fileread h f a n : bal h (fileread f a n) any.
Proof. unfold fileread. ty_auto. Qed.

Lemma ty_filewrite_loop h k : forall f a n i, bal h (filewrite_loop k f a n i) any.
Proof. induction k; intros; cbn [filewrite_loop]; ty_auto. Qed.
Hint Resolve ty_filewrite_loop : ty.

Lemma ty_filewrite h f a n : bal h (filewrite f a n) any.
Proof. unfold filewrite. ty_auto. Qed.

Lemma ty_pipealloc h : (forall pi, LkPipe pi ∉ h) ->
  bal h pipealloc (fun o => forall a b, o = Some (a, b) -> is_file a /\ is_file b).
Proof.
  intros Hp. unfold pipealloc. ty_auto.
  - intros s []. split; try done. cbn. apply map_Forall_insert_2; [by split | done].
  - intros ? ? [= <- <-]. auto.
Qed.
End file.
#[export] Hint Resolve ty_fileclose ty_filestat ty_fileread ty_filewrite ty_pipealloc : ty.
