(* ===== verification/TrapTyped.v ===== *)
(** * The kernel keeps its tables well formed: processes, system calls, traps

    The last theorem is about the two ways into the kernel from user space and
    from the kernel itself, usertrap and kerneltrap: whatever the system call or
    interrupt, and whatever user memory and the disk hold, no array is accessed out
    of bounds, the kernel's tables stay well formed and no spinlock is kept. *)

From S2P Require Import Prelude State Ring Mem CString Spinlock Sched Sleeplock Bio Log Memlayout Kalloc Vm Uart Printf Copy Console Pipe Fs File Hart Proc Exec Syscall Sysfile Virtio Trap Typing KernelTyped FsTyped.

Section proc.
Context {L : Layout}.

Lemma ty_load_tf h p off : bal h (load_tf p off) any.
Proof. unfold load_tf. ty_step. by apply ty_gets. Qed.

Lemma ty_store_tf h p off v : bal h (store_tf p off v) any.
Proof. unfold store_tf. ty_step. apply ty_mem. Qed.
Hint Resolve ty_load_tf ty_store_tf : ty.

Lemma ty_allocpid h : bal h allocpid any.
Proof. unfold allocpid. ty_auto. intros ? []. by split. Qed.

Lemma ty_proc_pagetable h p : bal h (proc_pagetable p) any.
Proof. unfold proc_pagetable. ty_auto. Qed.

Lemma ty_proc_freepagetable h pt sz : bal h (proc_freepagetable pt sz) any.
Proof. unfold proc_freepagetable. ty_auto. Qed.
Hint Resolve ty_allocpid ty_proc_pagetable ty_proc_freepagetable : ty.

Lemma ty_freeproc h p : bal h (freeproc p) any.
Proof. unfold freeproc. ty_auto. Qed.
Hint Resolve ty_freeproc : ty.

(** The locks held after allocproc: that of the process it found. *)
Definition with_proc (h : gset lockid) (o : option nat) : gset lockid :=
  match o with Some p => {[LkProc p]} ∪ h | None => h end.

Abbreviation is_proc h := (fun r : option nat => forall p, r = Some p -> (p < Z.to_nat NPROC)%nat /\ LkProc p ∉ h).

Lemma ty_find_unused h k : forall i, (i + k <= Z.to_nat NPROC)%nat -> ty h (find_unused k i) (with_proc h) (is_proc h).
Proof.
  induction k as [|k IH]; intros i Hi; cbn [find_unused]; ty_auto. intros ? [= <-]. split; [lia | done].
Qed.

Lemma ty_allocproc h : ty h allocproc (with_proc h) (is_proc h).
Proof.
  unfold allocproc. eapply ty_bind; [by apply ty_find_unused |]. intros o Ho. cbv beta. destruct o as [p|]; cbn [with_proc]; [|ty_auto].
  destruct (Ho p eq_refl) as [Hp Hl]. ty_auto.
Qed.

Lemma length_safestrcpy l t : length l = 16%nat -> length (safestrcpy_list l t 16) = 16%nat.
Proof.
  intros Hl. unfold safestrcpy_list. cbn [Z.leb Z.compare]. set (m := take _ _).
  assert (length m <= 15)%nat by (subst m; rewrite length_take; lia). rewrite !length_app, length_drop. cbn. lia.
Qed.

Lemma set_p_name_wt l p : length l = 16%nat -> proc_wt p -> proc_wt (set_p_name l p).
Proof. intros Hl []. by split. Qed.

#[local] Hint Extern 2 (proc_wt (set_p_name (safestrcpy_list _ _ _) _)) =>
  apply set_p_name_wt; [apply length_safestrcpy; by apply pw_name | assumption] : ty.

Lemma ty_growproc h n : bal h (growproc n) any.
Proof. unfold growproc. ty_auto. Qed.

(** An open file of a process. *)
Lemma ofile_below p fd f : proc_wt p -> p_ofile p !!! fd = Some f -> is_file f.
Proof.
  intros [_ F _ _ _] E. rewrite list_lookup_total_alt in E. destruct (p_ofile p !! fd) as [o|] eqn:Eo; [|done]. cbn in E. subst.
  exact (Forall_lookup_1 _ _ _ _ F Eo f eq_refl).
Qed.
Lemma set_ofile_wt fd o p : below NFILE o -> proc_wt p -> proc_wt (set_p_ofile (<[fd := o]> (p_ofile p)) p).
Proof. intros Ho []. split; try done; cbn; [by rewrite length_insert | by apply Forall_insert]. Qed.
Hint Resolve ofile_below set_ofile_wt below_some below_none : ty.

Lemma ty_set_fd h p fd o : (fd < Z.to_nat NOFILE)%nat -> below NFILE o -> bal h (set_fd p fd o) any.
Proof. intros. unfold set_fd. ty_auto. Qed.
Hint Resolve ty_set_fd : ty.

Lemma ty_fork_files h k : forall fd p np, (fd + k <= Z.to_nat NOFILE)%nat -> bal h (fork_files k fd p np) any.
Proof. induction k; intros; cbn [fork_files]; ty_auto; subst; eauto with ty. Qed.
Hint Resolve ty_fork_files : ty.

Lemma ty_fork h : bal h fork any.
Proof.
  unfold fork. ty_step. eapply ty_bind; [apply ty_allocproc |]. intros o Ho. cbv beta. destruct o as [np|]; cbn [with_proc]; [|ty_auto].
  destruct (Ho np eq_refl) as [Hp Hl]. ty_auto. subst. pose proof (pw_cwd _ H0 _ H8). ty_auto.
Qed.

Lemma set_parent_wt o p : below NPROC o -> proc_wt p -> proc_wt (set_p_parent o p).
Proof. intros Ho []. by split. Qed.
Hint Resolve kw_init set_parent_wt : ty.

Lemma ty_wakeup_proc h p : bal h (wakeup_proc p) any.
Proof. unfold wakeup_proc. ty_auto. Qed.
Hint Resolve ty_wakeup_proc : ty.

Lemma ty_reparent_loop h k : forall i p, bal h (reparent_loop k i p) any.
Proof. induction k; intros; cbn [reparent_loop]; ty_auto. Qed.
Hint Resolve ty_reparent_loop : ty.

Lemma ty_reparent h p : bal h (reparent p) any.
Proof. unfold reparent. ty_auto. Qed.

Lemma ty_exit_files h k : forall fd p, (fd + k <= Z.to_nat NOFILE)%nat -> bal h (exit_files k fd p) any.
Proof. induction k; intros; cbn [exit_files]; ty_auto. Qed.
Hint Resolve ty_reparent ty_exit_files : ty.

(** exit does not return. *)
Lemma ty_exit {A} h st g Q : ty h (exit st : M kernel A) g Q.
Proof.
  unfold exit. ty_auto. apply ty_release_bind. ty_auto.
Qed.

(** The locks held after a scan of wait: its own unless it returns. *)
Definition scan_locks (h : gset lockid) (r : option Z * bool) : gset lockid :=
  match fst r with Some _ => h | None => {[LkWait]} ∪ h end.

Lemma ty_wait_scan h k : LkWait ∉ h -> forall i p addr kids, ty ({[LkWait]} ∪ h) (wait_scan k i p addr kids) (scan_locks h) any.
Proof. intros Hl. induction k; intros; cbn [wait_scan]; ty_auto. Qed.

Lemma ty_wait_loop h k : LkWait ∉ h -> forall p addr, ty ({[LkWait]} ∪ h) (wait_loop k p addr) (fun _ => h) any.
Proof.
  intros Hl. induction k; intros; cbn [wait_loop]; [ty_auto |]. eapply ty_bind; [by apply ty_wait_scan |]. intros [[v|] kids] _; cbn [scan_locks fst]; ty_auto.
Qed.
Hint Resolve ty_wait_loop : ty.

Lemma ty_wait h addr : bal h (wait addr) any.
Proof. unfold wait. ty_auto. Qed.

Lemma ty_kill_loop h k : forall i pid, bal h (kill_loop k i pid) any.
Proof. induction k; intros; cbn [kill_loop]; ty_auto. Qed.
Hint Resolve ty_kill_loop : ty.

Lemma ty_kill h pid : bal h (kill pid) any.
Proof. unfold kill. ty_auto. Qed.
End proc.
#[export] Hint Resolve ty_load_tf ty_store_tf ty_proc_pagetable ty_proc_freepagetable ty_growproc ofile_below set_ofile_wt below_some below_none ty_set_fd ty_fork ty_exit ty_wait ty_kill : ty.
#[export] Hint Extern 2 (proc_wt (set_p_name (safestrcpy_list _ _ _) _)) =>
  apply set_p_name_wt; [apply length_safestrcpy; by apply pw_name | assumption] : ty.

#[export] Hint Extern 2 (0 <= wrap 32 _) => apply (wrap_range 32); done : ty.

Section exec.
Context {L : Layout}.

Lemma ty_loadseg_loop h k : forall pt va ip off sz i, bal h (loadseg_loop k pt va ip off sz i) any.
Proof. induction k; intros; cbn [loadseg_loop]; ty_auto. Qed.
Hint Resolve ty_loadseg_loop : ty.

Lemma ty_loadseg h pt va ip off sz : bal h (loadseg pt va ip off sz) any.
Proof. unfold loadseg. ty_auto. Qed.
Hint Resolve ty_loadseg : ty.

Lemma ty_load_segments h k : forall pt ip off sz, bal h (load_segments k pt ip off sz) any.
Proof. induction k; intros; cbn [load_segments]; ty_auto. Qed.

Lemma ty_push_args h argv : forall n pt sp sb us, 0 <= n -> bal h (push_args argv n pt sp sb us) any.
Proof. induction argv; intros; cbn [push_args]; ty_auto. Qed.
Hint Resolve ty_load_segments ty_push_args : ty.

(** The arguments of exec and the null pointer after them fit ustack. *)
Lemma ty_exec_commit h p path argv pt sz e : Z.of_nat (length argv) < MAXARG -> bal h (exec_commit p path argv pt sz e) any.
Proof. intros. unfold exec_commit. ty_auto. Qed.
Hint Resolve ty_exec_commit : ty.

Lemma ty_exec h path argv : Z.of_nat (length argv) < MAXARG -> bal h (exec path argv) any.
Proof. intros. unfold exec. ty_auto. Qed.
End exec.
#[export] Hint Resolve ty_exec : ty.


(** ** System calls *)

Section syscalls.
Context {L : Layout}.

Lemma ty_fetchaddr h a : bal h (fetchaddr a) any.
Proof. unfold fetchaddr. ty_auto. Qed.

Lemma ty_fetchstr h a n : bal h (fetchstr a n) any.
Proof. unfold fetchstr. ty_auto. Qed.

Lemma ty_argraw h n : bal h (argraw n) any.
Proof. unfold argraw. ty_auto. Qed.
Hint Resolve ty_fetchaddr ty_fetchstr ty_argraw : ty.

Lemma ty_argint h n : bal h (argint n) any.
Proof. unfold argint. ty_auto. Qed.

Lemma ty_argaddr h n : bal h (argaddr n) any.
Proof. unfold argaddr. ty_auto. Qed.
Hint Resolve ty_argint ty_argaddr : ty.

Lemma ty_argstr h n m : bal h (argstr n m) any.
Proof. unfold argstr. ty_auto. Qed.
Hint Resolve ty_argstr : ty.

Lemma ty_sleep_ticks h k : LkTicks ∉ h -> forall t n, bal ({[LkTicks]} ∪ h) (sleep_ticks k t n) any.
Proof. intros Hl. induction k; intros; cbn [sleep_ticks]; ty_auto. Qed.
Hint Resolve ty_sleep_ticks : ty.

Lemma ty_sys_proc h : bal h sys_exit any /\ bal h sys_getpid any /\ bal h sys_fork any /\ bal h sys_wait any /\ bal h sys_sbrk any /\
  bal h sys_sleep any /\ bal h sys_kill any /\ bal h sys_uptime any.
Proof.
  unfold sys_exit, sys_getpid, sys_fork, sys_wait, sys_sbrk, sys_sleep, sys_kill, sys_uptime. split_and!; ty_auto.
Qed.

(** A descriptor within the table of open files, and its file. *)
Lemma ty_argfd h n : bal h (argfd n) (fun o => forall fd f, o = Some (fd, f) -> (Z.to_nat fd < Z.to_nat NOFILE)%nat /\ is_file f).
Proof. unfold argfd. ty_auto. intros ? ? [= <- <-]. split; [lia | eauto with ty]. Qed.

Hint Resolve ty_argfd : ty.

(** fdalloc finds a descriptor of the table; -1 otherwise. *)
Lemma fd_scan_range l : forall i k, fd_scan l i = Some k -> (k < i + length l)%nat.
Proof.
  induction l as [|o l IH]; intros i k; cbn [fd_scan length]; [done |]. destruct o; [intros E%IH; lia | intros [= <-]; lia].
Qed.

Lemma fd_found p k : proc_wt p -> fd_scan (p_ofile p) 0 = Some k -> (k < Z.to_nat NOFILE)%nat.
Proof. intros W E%fd_scan_range. rewrite (pw_len _ W) in E. exact E. Qed.
Hint Resolve fd_found : ty.

Lemma ty_fdalloc h f : is_file f -> bal h (fdalloc f) (fun r => (Z.to_nat r < Z.to_nat NOFILE)%nat).
Proof. intros. unfold fdalloc. ty_auto; [rewrite Nat2Z.id; eauto with ty | by vm_compute; lia]. Qed.
Hint Resolve ty_fdalloc : ty.

Lemma ty_sys_dup h : bal h sys_dup any.
Proof. unfold sys_dup. ty_auto. destruct (H _ _ eq_refl). ty_auto. Qed.

Lemma ty_sys_files h : bal h sys_read any /\ bal h sys_write any /\ bal h sys_close any /\ bal h sys_fstat any.
Proof. unfold sys_read, sys_write, sys_close, sys_fstat. split_and!; ty_auto. destruct (H _ _ eq_refl). ty_auto. Qed.

Lemma ty_link_bad h ip : bal h (link_bad ip) any.
Proof. unfold link_bad. ty_auto. Qed.
Hint Resolve ty_link_bad : ty.

Lemma ty_sys_link h : bal h sys_link any.
Proof. unfold sys_link. ty_auto. Qed.

Lemma ty_isdirempty_loop h k : forall dp off, 0 <= off -> bal h (isdirempty_loop k dp off) any.
Proof. induction k; intros; cbn [isdirempty_loop]; ty_auto. Qed.
Hint Resolve ty_isdirempty_loop : ty.

Lemma ty_isdirempty h dp : bal h (isdirempty dp) any.
Proof. unfold isdirempty. ty_auto. Qed.

Lemma ty_unlink_bad h dp : bal h (unlink_bad dp) any.
Proof. unfold unlink_bad. ty_auto. Qed.
Hint Resolve ty_isdirempty ty_unlink_bad : ty.

Lemma ty_sys_unlink h : bal h sys_unlink any.
Proof. unfold sys_unlink. ty_auto. destruct (H3 _ _ eq_refl) as [_ Hz]. ty_auto. Qed.

Lemma ty_create_fail h ip dp : bal h (create_fail ip dp) (below NINODE).
Proof. unfold create_fail. ty_auto. Qed.
Hint Resolve ty_create_fail : ty.

Lemma ty_create h path t ma mi : bal h (create path t ma mi) (below NINODE).
Proof. unfold create. ty_auto. destruct (H1 _ _ eq_refl). by apply below_some. Qed.
Hint Resolve ty_create : ty.

Lemma ty_open_inode h path m : bal h (open_inode path m) (below NINODE).
Proof. unfold open_inode. ty_auto. Qed.
Hint Resolve ty_open_inode : ty.

Lemma ty_sys_open h : bal h sys_open any.
Proof. unfold sys_open. ty_auto. pose proof (H2 _ eq_refl) as Hn. ty_auto. Qed.

Lemma ty_sys_mkdir h : bal h sys_mkdir any.
Proof. unfold sys_mkdir. ty_auto. Qed.

Lemma ty_sys_mknod h : bal h sys_mknod any.
Proof. unfold sys_mknod. ty_auto. Qed.

Lemma ty_sys_chdir h : bal h sys_chdir any.
Proof.
  unfold sys_chdir. do 3 ty_step. eapply (ty_bind _ _ _ (fun _ => h) (below NINODE)); [ty_auto |]. intros o Ho. cbv beta.
  destruct o as [ip|]; [pose proof (Ho _ eq_refl) as Hi|]; ty_auto.
Qed.

Lemma ty_kfree_all h l : bal h (kfree_all l) any.
Proof. induction l; cbn [kfree_all]; ty_auto. Qed.

(** The arguments sys_exec has fetched, with room for the null pointer. *)
Abbreviation args_fit := (fun r : bool * list (list Z) * list Z => fst (fst r) = true -> Z.of_nat (length (snd (fst r))) < MAXARG).

Lemma ty_fetch_args h k : forall u i argv pg, Z.of_nat (length argv) = i -> bal h (fetch_args k u i argv pg) args_fit.
Proof.
  induction k as [|k IH]; intros u i argv pg Hi; cbn [fetch_args]; ty_auto; cbn [fst snd]; try done; [lia |].
  apply IH. rewrite length_app. cbn. lia.
Qed.
Hint Resolve ty_kfree_all ty_fetch_args : ty.

Lemma ty_sys_exec h : bal h sys_exec any.
Proof. unfold sys_exec. ty_auto. Qed.

Lemma ty_sys_pipe h : (forall pi, LkPipe pi ∉ h) -> bal h sys_pipe any.
Proof. intros. unfold sys_pipe. ty_auto. destruct (H2 _ _ eq_refl). ty_auto. Qed.

(** Every entry of the table of system calls. *)
Lemma ty_syscalls h num f : (forall pi, LkPipe pi ∉ h) -> syscalls num = Some f -> bal h f any.
Proof.
  intros Hp. destruct (ty_sys_proc h) as (T1 & T2 & T3 & T4 & T5 & T6 & T7 & T8). destruct (ty_sys_files h) as (F1 & F2 & F3 & F4).
  pose proof (ty_sys_dup h). pose proof (ty_sys_link h). pose proof (ty_sys_unlink h). pose proof (ty_sys_open h). pose proof (ty_sys_mkdir h).
  pose proof (ty_sys_mknod h). pose proof (ty_sys_chdir h). pose proof (ty_sys_exec h). pose proof (ty_sys_pipe h Hp).
  unfold syscalls. intros E. repeat case_match; by simplify_eq.
Qed.

Lemma ty_syscall h : (forall pi, LkPipe pi ∉ h) -> bal h syscall any.
Proof.
  intros Hp. unfold syscall. do 2 ty_step. cbv zeta. destruct (syscalls _) as [f|] eqn:E; [|ty_auto].
  eapply ty_bind; [by eapply ty_syscalls | intros; cbv beta; ty_auto].
Qed.
End syscalls.
#[export] Hint Resolve ty_syscall : ty.

(** ** Traps *)

Lemma ty_geth {A} h (f : hartst -> A) : bal h (geth f) any.
Proof. by apply ty_gets. Qed.

Lemma ty_upd_hart h f : bal h (upd_hart f) any.
Proof. apply ty_modify; [|done]. intros s []. by split. Qed.
#[export] Hint Resolve ty_geth ty_upd_hart : ty.

(** The register accessors of riscv.h. *)
#[export] Hint Extern 2 (ty _ r_sstatus _ _) => apply ty_geth : ty.
#[export] Hint Extern 2 (ty _ r_sepc _ _) => apply ty_geth : ty.
#[export] Hint Extern 2 (ty _ r_scause _ _) => apply ty_geth : ty.
#[export] Hint Extern 2 (ty _ r_stval _ _) => apply ty_geth : ty.
#[export] Hint Extern 2 (ty _ r_satp _ _) => apply ty_geth : ty.
#[export] Hint Extern 2 (ty _ r_sip _ _) => apply ty_geth : ty.
#[export] Hint Extern 2 (ty _ r_tp _ _) => apply ty_geth : ty.
#[export] Hint Extern 2 (ty _ (w_sstatus _) _ _) => apply ty_upd_hart : ty.
#[export] Hint Extern 2 (ty _ (w_sepc _) _ _) => apply ty_upd_hart : ty.
#[export] Hint Extern 2 (ty _ (w_stvec _) _ _) => apply ty_upd_hart : ty.
#[export] Hint Extern 2 (ty _ (w_sip _) _ _) => apply ty_upd_hart : ty.
#[export] Hint Extern 2 (ty _ (mmio32 _ _) _ _) => apply ty_upd_hart : ty.

Lemma ty_intr_on h : bal h intr_on any.
Proof. unfold intr_on. ty_auto. Qed.

Lemma ty_intr_off h : bal h intr_off any.
Proof. unfold intr_off. ty_auto. Qed.

Lemma ty_intr_get h : bal h intr_get any.
Proof. unfold intr_get. ty_auto. Qed.

Lemma ty_cpuid h : bal h cpuid any.
Proof. unfold cpuid. ty_auto. Qed.
#[export] Hint Resolve ty_intr_on ty_intr_off ty_intr_get ty_cpuid : ty.

Lemma ty_plic_claim h : bal h plic_claim any.
Proof. unfold plic_claim. ty_auto. Qed.

Lemma ty_plic_complete h irq : bal h (plic_complete irq) any.
Proof. unfold plic_complete. ty_auto. Qed.
#[export] Hint Resolve ty_plic_claim ty_plic_complete : ty.

Section traps.
Context {L : Layout} {T : TrapLayout}.
Context (status : Z).

Lemma ty_upd_vd h f : bal h (upd_vd f) any.
Proof. apply ty_modify; [|done]. intros s []. by split. Qed.
Hint Resolve ty_upd_vd : ty.

Lemma ty_intr_loop h k : bal h (intr_loop k) any.
Proof. induction k; cbn [intr_loop]; ty_auto. Qed.
Hint Resolve ty_intr_loop : ty.

Lemma ty_virtio_disk_intr h : bal h (virtio_disk_intr status) any.
Proof. unfold virtio_disk_intr, getvd. ty_auto. Qed.

Lemma ty_clockintr h : bal h clockintr any.
Proof. unfold clockintr. ty_auto. intros s []. by split. Qed.
Hint Resolve ty_virtio_disk_intr ty_clockintr : ty.

Lemma ty_devintr h : bal h (devintr status) any.
Proof. unfold devintr. ty_auto. Qed.

Lemma ty_usertrapret h : bal h usertrapret any.
Proof. unfold usertrapret. ty_auto. Qed.
Hint Resolve ty_devintr ty_usertrapret : ty.

Lemma ty_usertrap h : (forall pi, LkPipe pi ∉ h) -> bal h (usertrap status) any.
Proof. intros Hp. unfold usertrap. ty_auto. Qed.

Lemma ty_kerneltrap h : bal h (kerneltrap status) any.
Proof. unfold kerneltrap. ty_auto. Qed.

End traps.

(** The process in slot 0 calls dup, number 10, on its descriptor 0, which is file 3. *)
Definition demo_dup : kernel :=
  let y := set_p_trapframe 0x87000000 (set_p_pid 7 (set_p_state RUNNING zero_proc)) in
  let x := set_p_ofile (<[0%nat := Some 3%nat]> (p_ofile y)) y in
  let s := boot_kernel (fun _ => replicate (Z.to_nat BSIZE) 0) in
  set_ftable (alter (set_f_ref 1) 3%nat (ftable s))
    (set_hart (set_c_scause 8 (set_c_sepc 0x3fe (set_c_mstatus 0x20 (boot_hart 0))))
      (set_mem (store64 (fun _ => 0) (0x87000000 + TF_a7) 10) (set_procs (alter (fun _ => x) 0%nat (procs s)) s))).

Lemma demo_dup_wt : kernel_wt demo_dup.
Proof.
  destruct (boot_wt (fun _ => replicate (Z.to_nat BSIZE) 0)) as []; [done |]. split; try done.
  - apply table_alter; [done |]. intros _ _. apply set_ofile_wt; [by apply below_some; vm_compute; lia |]. destruct zero_proc_wt. by split.
  - apply table_alter; [done |]. by intros x [].
Qed.


