(* ===== verification/Boot.v ===== *)
(** * main.c: the kernel's start on each hart

    Hart 0 initialises the kernel and starts the others, which wait for the
    variable [started].  The device registers the disk driver reads and the
    switch to a process are parameters, as for the functions main calls. *)

From S2P Require Import Prelude State Mem Spinlock Memlayout Hart Sched Sleeplock Bio Kalloc Vm Uart Printf Copy Console Pipe Fs File Proc Virtio Trap.

Section boot.
Context {L : Layout} {T : TrapLayout}.
Context (reg_read : list (Z * Z) -> Z -> Z) (swtch : nat -> M kernel unit).

(** Initialize the one kernel_pagetable. *)
Definition kvminit : M kernel unit :=
  t ← kvmmake;
  modify (fun s => set_kernel_pagetable t s).

(** Switch h/w page table register to the kernel's page table, and enable paging. *)
Definition kvminithart : M kernel unit :=
  sfence_vma ;;
  t ← gets (fun s => kernel_pagetable s);
  w_satp (MAKE_SATP t) ;;
  sfence_vma.

(** The calls of the first hart. *)
Definition init_kernel : M kernel unit :=
  consoleinit ;;
  printfinit ;;
  printf [10] [] ;;
  printf (bytes "xv6 kernel is booting" ++ [10]) [] ;;
  printf [10] [] ;;
  kinit ;;
  kvminit ;;
  kvminithart ;;
  procinit ;;
  trapinit ;;
  trapinithart ;;
  plicinit ;;
  plicinithart ;;
  binit ;;
  iinit ;;
  fileinit ;;
  virtio_disk_init reg_read ;;
  userinit.

Definition init_hart : M kernel unit :=
  id ← cpuid;
  printf (bytes "hart %d starting" ++ [10]) [VInt id] ;;
  kvminithart ;;
  trapinithart ;;
  plicinithart.

(** [while(started == 0);] does not end in this run unless hart 0 is done. *)
Definition wait_started : M kernel unit :=
  b ← gets (fun s => main_started s);
  if (b : bool) then mret tt else nofuel.

(** start() jumps here in supervisor mode on all CPUs; [n] rounds of the scheduler. *)
Definition main (n : nat) : M kernel unit :=
  id ← cpuid;
  (if id =? 0 then
     init_kernel ;;
     modify (fun s => set_main_started true s)
   else
     wait_started ;;
     init_hart) ;;
  scheduler swtch n.
End boot.
