(* ===== verification/User.v ===== *)
(** * User programs: system calls as a program sees them

    A user program is a tree of system calls: it calls, and goes on with the
    value the call returns and the bytes the kernel stored through the pointer
    it passed.  [run] plays a program against an operating system given as a
    function on states; the programs are proved against what they need of it.
    A loop whose length the kernel decides (reading to the end of a file) has a
    bound, [Spin] being what is left of a program when the bound is used up. *)

From S2P Require Import Prelude.

Inductive sysc : Type :=
| SysFork | SysWait | SysPipe
| SysWrite (fd : Z) (data : list Z) | SysRead (fd n : Z) | SysClose (fd : Z)
| SysKill (pid : Z) | SysExec (path : list Z) (argv : list (list Z))
| SysOpen (path : list Z) (mode : Z) | SysMknod (path : list Z) (major minor : Z)
| SysUnlink (path : list Z) | SysFstat (fd : Z) | SysLink (old new : list Z)
| SysMkdir (path : list Z) | SysChdir (path : list Z) | SysDup (fd : Z)
| SysGetpid | SysSbrk (n : Z) | SysSleep (n : Z) | SysUptime.

(** The result of a call, and what it stored. *)
Definition reply : Type := Z * list Z.

Inductive prog (A : Type) : Type :=
| Done (a : A)
| Call (c : sysc) (k : reply -> prog A)
| Exited (status : Z)
| Crash          (* undefined behaviour: a null pointer, a missing argument *)
| Spin.
Arguments Done {A} a.
Arguments Call {A} c k.
Arguments Exited {A} status.
Arguments Crash {A}.
Arguments Spin {A}.

Fixpoint pbind {A B} (m : prog A) (f : A -> prog B) : prog B :=
  match m with
  | Done a => f a
  | Call c k => Call c (fun r => pbind (k r) f)
  | Exited n => Exited n
  | Crash => Crash
  | Spin => Spin
  end.

#[export] Instance prog_bind : MBind prog := fun A B f m => pbind m f.
#[export] Instance prog_ret : MRet prog := fun A a => Done a.

Definition call (c : sysc) : prog reply := Call c (fun r => Done r).
Definition call_ (c : sysc) : prog Z := Call c (fun r => Done r.1).
Definition exit {A} (status : Z) : prog A := Exited status.

(** ** Running a program *)

Inductive ending (A : Type) : Type := Returned (a : A) | Exit (status : Z) | Killed | Running.
Arguments Returned {A} a.
Arguments Exit {A} status.
Arguments Killed {A}.
Arguments Running {A}.

Section run.
Context {St : Type} (sys : sysc -> St -> reply * St).

Fixpoint run {A} (m : prog A) (s : St) : ending A * St :=
  match m with
  | Done a => (Returned a, s)
  | Call c k => let r := sys c s in run (k r.1) r.2
  | Exited n => (Exit n, s)
  | Crash => (Killed, s)
  | Spin => (Running, s)
  end.

Lemma run_bind {A B} (m : prog A) (f : A -> prog B) : forall s,
  run (m ≫= f) s = match run m s with
                   | (Returned a, s') => run (f a) s'
                   | (Exit n, s') => (Exit n, s')
                   | (Killed, s') => (Killed, s')
                   | (Running, s') => (Running, s')
                   end.
Proof.
  unfold mbind, prog_bind. induction m as [a|c k IH|n| |]; intros s; cbn [pbind run]; [done | apply IH | done ..].
Qed.

Lemma run_bind_Returned {A B} (m : prog A) (f : A -> prog B) s a s' : run m s = (Returned a, s') -> run (m ≫= f) s = run (f a) s'.
Proof. intros E. by rewrite run_bind, E. Qed.

Lemma run_call_ {B} c (f : Z -> prog B) s : run (call_ c ≫= f) s = run (f (sys c s).1.1) (sys c s).2.
Proof. done. Qed.

Lemma run_call {B} c (f : reply -> prog B) s : run (call c ≫= f) s = run (f (sys c s).1) (sys c s).2.
Proof. done. Qed.
End run.

(** ** Streams

    What programs that copy, count or search need of the system: [write] to a
    descriptor appends to what was written there, and [read] returns the next
    bytes of the input, in pieces of the system's choice and 0 at its end. *)
Record stream_os (St : Type) : Type := mkStreamOs {
  so_sys : sysc -> St -> reply * St;
  so_in : St -> Z -> list Z;       (* bytes still to be read from a descriptor *)
  so_out : St -> Z -> list Z       (* bytes written to a descriptor *)
}.
Arguments so_sys {St} s.
Arguments so_in {St} s.
Arguments so_out {St} s.

Record stream_ok {St} (O : stream_os St) : Prop := mkStreamOk {
  so_write : forall s fd l, (so_sys O (SysWrite fd l) s).1.1 = Z.of_nat (length l) /\
    (forall fd', so_out O (so_sys O (SysWrite fd l) s).2 fd' = if decide (fd' = fd) then so_out O s fd ++ l else so_out O s fd') /\
    (forall fd', so_in O (so_sys O (SysWrite fd l) s).2 fd' = so_in O s fd');
  so_read : forall s fd n, 0 < n -> exists k : nat, (so_sys O (SysRead fd n) s).1 = (Z.of_nat k, take k (so_in O s fd)) /\
    Z.of_nat k <= n /\ (k <= length (so_in O s fd))%nat /\ (k = 0%nat -> so_in O s fd = []) /\
    (forall fd', so_in O (so_sys O (SysRead fd n) s).2 fd' = if decide (fd' = fd) then drop k (so_in O s fd) else so_in O s fd') /\
    (forall fd', so_out O (so_sys O (SysRead fd n) s).2 fd' = so_out O s fd')
}.

(** A concrete system of this kind: reads return at most [chunk] bytes. *)
Record fakeos : Type := mkFakeos { fk_in : list Z; fk_out : Z -> list Z }.

Definition fake_sys (chunk : nat) (c : sysc) (s : fakeos) : reply * fakeos :=
  match c with
  | SysRead fd n =>
      if fd =? 0 then
        let k := Nat.min (Nat.min chunk (Z.to_nat n)) (length (fk_in s)) in
        ((Z.of_nat k, take k (fk_in s)), mkFakeos (drop k (fk_in s)) (fk_out s))
      else ((0, []), s)
  | SysWrite fd l =>
      ((Z.of_nat (length l), []), mkFakeos (fk_in s) (fun x => if decide (x = fd) then fk_out s fd ++ l else fk_out s x))
  | _ => ((-1, []), s)
  end.

Definition fake (chunk : nat) : stream_os fakeos :=
  mkStreamOs _ (fake_sys chunk) (fun s fd => if fd =? 0 then fk_in s else []) fk_out.

Lemma fake_ok chunk : (0 < chunk)%nat -> stream_ok (fake chunk).
Proof.
  intros Hc. split.
  - intros s fd l. split; [done |]. split; intros fd'; [done |]. done.
  - intros s fd n Hn. cbn. destruct (Z.eqb_spec fd 0) as [->|Hne].
    + exists (Nat.min (Nat.min chunk (Z.to_nat n)) (length (fk_in s))). split; [done |]. split; [lia |]. split; [lia |]. split.
      * intros H. apply nil_length_inv. lia.
      * split; intros fd'; [|done]. cbn. destruct (Z.eqb_spec fd' 0); [by rewrite decide_True | by rewrite decide_False].
    + exists 0%nat. split; [done |]. split; [lia |]. split; [cbn; lia |]. split; [done |]. split; intros fd'; [|done].
      cbn. destruct (decide (fd' = fd)) as [->|]; [|done]. destruct (Z.eqb_spec fd 0); [done | done].
Qed.
