(* ===== verification/Ulib.v ===== *)
(** * user/ulib.c

    The memory routines work on byte memory, like those of the kernel's
    string.c.  The routines that only read strings take a C string as the list
    of its bytes before the NUL, [at0] being the byte a pointer points to. *)

From S2P Require Import Prelude Mem CString State User.

(** [*s] for a pointer into a string: 0 at its end. *)
Definition at0 (s : list Z) : Z := default 0 (head s).

Module Ulib.

(** [while(( *s++ = *t++) != 0);] with a bound on the length. *)
Fixpoint strcpy_loop (fuel : nat) (m : memory) (s t : Z) : option memory :=
  match fuel with
  | O => None
  | S fuel =>
      let c := load8 m t in
      let m := store8 m s c in
      if c =? 0 then Some m else strcpy_loop fuel m (s + 1) (t + 1)
  end.

Definition strcpy (fuel : nat) (m : memory) (s t : Z) : option memory := strcpy_loop fuel m s t.

Fixpoint strcmp (p q : list Z) : Z :=
  match p, q with
  | a :: p', b :: q' => if a =? b then strcmp p' q' else u8 a - u8 b
  | _, _ => u8 (at0 p) - u8 (at0 q)
  end.

(** [for(n = 0; s[n]; n++);] *)
Fixpoint strlen_loop (s : list Z) (n : Z) : Z :=
  match s with
  | [] => n
  | _ :: s => strlen_loop s (n + 1)
  end.
Definition strlen (s : list Z) : Z := u32 (strlen_loop s 0).

Definition memset (m : memory) (dst c n : Z) : memory := CString.memset_loop (Z.to_nat (u32 n)) m dst c.

(** The rest of the string from the first [c] on. *)
Fixpoint strchr (s : list Z) (c : Z) : option (list Z) :=
  match s with
  | [] => None
  | x :: s' => if x =? c then Some s else strchr s' c
  end.

(** [for(i=0; i+1 < max; )]: the bytes of [buf] before its NUL. *)
Fixpoint gets_loop (k : nat) : prog (list Z) :=
  match k with
  | O => mret []
  | S k =>
      r ← call (SysRead 0 1);
      if r.1 <? 1 then mret [] else
      let c := at0 r.2 in
      if (c =? 10) || (c =? 13) then mret [c] else
      l ← gets_loop k;
      mret (c :: l)
  end.

Definition gets (max : Z) : prog (list Z) := gets_loop (Z.to_nat (max - 1)).

(** [struct stat] as the bytes fstat stores. *)
Definition O_RDONLY : Z := 0.
Definition stat (n : list Z) : prog reply :=
  fd ← call_ (SysOpen n O_RDONLY);
  if fd <? 0 then mret (-1, []) else
  r ← call (SysFstat fd);
  _ ← call_ (SysClose fd);
  mret r.

Definition is_digit (c : Z) : bool := (48 <=? c) && (c <=? 57).

Fixpoint atoi_loop (s : list Z) (n : Z) : Z :=
  match s with
  | c :: s => if is_digit c then atoi_loop s (i32 (n * 10 + c - 48)) else n
  | [] => n
  end.
Definition atoi (s : list Z) : Z := atoi_loop s 0.

Definition memmove (m : memory) (vdst vsrc n : Z) : memory :=
  if vdst <? vsrc then CString.memmove_up (Z.to_nat n) m vdst vsrc
  else CString.memmove_down (Z.to_nat n) m (vdst + n) (vsrc + n).

(** [char] is signed. *)
Fixpoint memcmp_loop (n : nat) (m : memory) (p1 p2 : Z) : Z :=
  match n with
  | O => 0
  | S n =>
      if load8 m p1 =? load8 m p2 then memcmp_loop n m (p1 + 1) (p2 + 1)
      else i8 (load8 m p1) - i8 (load8 m p2)
  end.
Definition memcmp (m : memory) (s1 s2 n : Z) : Z := memcmp_loop (Z.to_nat (u32 n)) m s1 s2.

Definition memcpy (m : memory) (dst src n : Z) : memory := memmove m dst src n.

(** ** Strings *)

Lemma strlen_loop_length s : forall n, strlen_loop s n = n + Z.of_nat (length s).
Proof. induction s as [|c s IH]; intros n; cbn [strlen_loop length]; [lia |]. rewrite IH. lia. Qed.

Lemma strlen_length s : Z.of_nat (length s) < 2 ^ 32 -> strlen s = Z.of_nat (length s).
Proof. intros H. unfold strlen. rewrite strlen_loop_length, wrap_small; lia. Qed.

(** Bytes of a string before its NUL. *)
Definition cbyte (c : Z) : Prop := 0 < c < 256.

Lemma strcmp_0 : forall p q, Forall cbyte p -> Forall cbyte q -> strcmp p q = 0 <-> p = q.
Proof.
  induction p as [|a p IH]; intros q Hp Hq.
  - destruct q as [|b q]; cbn; [done |]. apply Forall_cons in Hq as [Hb _]. unfold cbyte in Hb. rewrite (wrap_small 8 b) by lia.
    change (u8 0) with 0. split; [lia | done].
  - apply Forall_cons in Hp as [Ha Hp]. unfold cbyte in Ha. destruct q as [|b q]; cbn [strcmp].
    + cbn. rewrite (wrap_small 8 a) by lia. change (u8 0) with 0. split; [lia | done].
    + apply Forall_cons in Hq as [Hb Hq]. unfold cbyte in Hb. destruct (Z.eqb_spec a b) as [->|Hne].
      * rewrite IH by done. split; [by intros -> | by injection 1].
      * rewrite !wrap_small by lia. split; [lia |]. injection 1. done.
Qed.

(** The user's memmove copies as if through a temporary buffer, like the
    kernel's: it tests the direction instead of the overlap. *)
Lemma memmove_spec m dst src n x : 0 <= n ->
  load8 (memmove m dst src n) x = if decide (dst <= x < dst + n) then load8 m (src + (x - dst)) else load8 m x.
Proof.
  intros Hn. unfold memmove. destruct (Z.ltb_spec dst src).
  - rewrite CString.memmove_up_spec by lia. by rewrite Z2Nat.id.
  - replace (dst + n) with (dst + Z.of_nat (Z.to_nat n)) at 1 by lia. replace (src + n) with (src + Z.of_nat (Z.to_nat n)) by lia.
    rewrite CString.memmove_down_spec by lia. repeat case_decide; try lia; f_equal; lia.
Qed.

(** ** Decimal numbers *)

(** The value of a string of digits. *)
Fixpoint decval (s : list Z) (n : Z) : Z :=
  match s with
  | c :: s => decval s (n * 10 + (c - 48))
  | [] => n
  end.

Lemma decval_mono s : forall n, Forall (fun c => is_digit c = true) s -> 0 <= n -> n <= decval s n.
Proof.
  induction s as [|c s IH]; intros n Hs Hn; cbn [decval]; [lia |]. apply Forall_cons in Hs as [Hc Hs].
  unfold is_digit in Hc. apply andb_true_iff in Hc as [H1 H2]. apply Z.leb_le in H1, H2. specialize (IH (n * 10 + (c - 48)) Hs ltac:(lia)). lia.
Qed.

(** [atoi] reads the leading digits, when their value fits an [int]. *)
Lemma atoi_loop_digits s : forall n rest, Forall (fun c => is_digit c = true) s -> is_digit (at0 rest) = false -> 0 <= n ->
  decval s n < 2 ^ 31 -> atoi_loop (s ++ rest) n = decval s n.
Proof.
  induction s as [|c s IH]; intros n rest Hs Hr Hn Hlt; cbn [decval app].
  - destruct rest as [|c rest]; cbn in *; [done |]. by rewrite Hr.
  - apply Forall_cons in Hs as [Hc Hs]. cbn [atoi_loop]. rewrite Hc. unfold is_digit in Hc. apply andb_true_iff in Hc as [H1 H2]. apply Z.leb_le in H1, H2.
    cbn [decval] in Hlt. pose proof (decval_mono s (n * 10 + (c - 48)) Hs ltac:(lia)).
    rewrite signed_small by lia. replace (n * 10 + c - 48) with (n * 10 + (c - 48)) by lia. apply IH; try done. lia.
Qed.
End Ulib.
