(* ===== verification/Uprintf.v ===== *)
(** * user/printf.c

    Output goes to a descriptor one byte at a time.  A format that asks for an
    argument that is not there, or of another type, is undefined. *)

From S2P Require Import Prelude State Printf User Ulib.

Module Uprintf.

Definition digits : list Z := bytes "0123456789ABCDEF".

Definition putc (fd c : Z) : prog unit := _ ← call_ (SysWrite fd [u8 c]); mret tt.

Fixpoint puts (fd : Z) (l : list Z) : prog unit :=
  match l with
  | [] => mret tt
  | c :: l => putc fd c ;; puts fd l
  end.

(** [xx] is an [int]; the digits, then the sign, are put in [buf] and printed
    from its end. *)
Definition printint (fd xx base : Z) (sgn : bool) : prog unit :=
  puts fd (rev (printint_buf digits (i32 xx) base sgn)).

Fixpoint printptr_loop (k : nat) (fd x : Z) : prog unit :=
  match k with
  | O => mret tt
  | S k => putc fd (digits !!! Z.to_nat (Z.shiftr x 60)) ;; printptr_loop k fd (u64 (Z.shiftl x 4))
  end.

Definition printptr (fd x : Z) : prog unit := putc fd 48 ;; putc fd 120 ;; printptr_loop 16 fd x.

(** [pct] is [state == '%']. *)
Fixpoint vprintf_loop (fd : Z) (fmt : list Z) (ap : list varg) (pct : bool) : prog unit :=
  match fmt with
  | [] => mret tt
  | c :: fmt =>
      if negb pct then
        if c =? 37 then vprintf_loop fd fmt ap true
        else putc fd c ;; vprintf_loop fd fmt ap false
      else if c =? 100 then (* d *)
        match ap with VInt x :: ap => printint fd x 10 true ;; vprintf_loop fd fmt ap false | _ => Crash end
      else if c =? 108 then (* l *)
        match ap with VUint64 x :: ap => printint fd x 10 false ;; vprintf_loop fd fmt ap false | _ => Crash end
      else if c =? 120 then (* x *)
        match ap with VInt x :: ap => printint fd x 16 false ;; vprintf_loop fd fmt ap false | _ => Crash end
      else if c =? 112 then (* p *)
        match ap with VUint64 x :: ap => printptr fd x ;; vprintf_loop fd fmt ap false | _ => Crash end
      else if c =? 115 then (* s *)
        match ap with VStr s :: ap => puts fd (default (bytes "(null)") s) ;; vprintf_loop fd fmt ap false | _ => Crash end
      else if c =? 99 then (* c *)
        match ap with VInt x :: ap => putc fd x ;; vprintf_loop fd fmt ap false | _ => Crash end
      else if c =? 37 then putc fd c ;; vprintf_loop fd fmt ap false
      else putc fd 37 ;; putc fd c ;; vprintf_loop fd fmt ap false
  end.

Definition vprintf (fd : Z) (fmt : list Z) (ap : list varg) : prog unit := vprintf_loop fd fmt ap false.
Definition fprintf (fd : Z) (fmt : list Z) (ap : list varg) : prog unit := vprintf fd fmt ap.
Definition printf (fmt : list Z) (ap : list varg) : prog unit := vprintf 1 fmt ap.

(** ** Digits *)

Lemma decval_app a b : forall n, Ulib.decval (a ++ b) n = Ulib.decval b (Ulib.decval a n).
Proof. induction a as [|c a IH]; intros n; cbn [Ulib.decval app]; auto. Qed.

Lemma digit_at x : 0 <= x < 10 -> digits !!! Z.to_nat x = 48 + x.
Proof.
  intros Hx. assert (H : forallb (fun n => digits !!! n =? 48 + Z.of_nat n) (seq 0 10) = true) by (vm_compute; reflexivity).
  rewrite forallb_forall in H. specialize (H (Z.to_nat x)). rewrite Z2Nat.id in H by lia. apply Z.eqb_eq, H, in_seq. lia.
Qed.

Lemma digits_loop_value : forall fuel x, 0 <= x < 10 ^ Z.of_nat fuel -> (0 < fuel)%nat ->
  Forall (fun c => Ulib.is_digit c = true) (digits_loop fuel digits x 10) /\ Ulib.decval (rev (digits_loop fuel digits x 10)) 0 = x.
Proof.
  induction fuel as [|fuel IH]; intros x Hx Hf; [lia |]. cbn [digits_loop]. pose proof (Z.mod_pos_bound x 10 ltac:(lia)) as Hm. rewrite digit_at by lia.
  assert (Hd : Ulib.is_digit (48 + x mod 10) = true) by (unfold Ulib.is_digit; apply andb_true_iff; split; apply Z.leb_le; lia).
  pose proof (Z.div_mod x 10 ltac:(lia)) as Dx. destruct (Z.eqb_spec (x / 10) 0) as [E|E].
  - split; [by constructor |]. cbn. lia.
  - destruct fuel as [|fuel]; [change (10 ^ Z.of_nat 1) with 10 in Hx; rewrite Z.div_small in E; lia |].
    destruct (IH (x / 10)) as [F V]; [|lia|].
    { split; [apply Z.div_pos; lia |]. apply Z.div_lt_upper_bound; [lia |]. rewrite (Nat2Z.inj_succ (S fuel)), Z.pow_succ_r in Hx by lia. lia. }
    split; [by constructor |]. cbn [rev]. rewrite decval_app, V. cbn [Ulib.decval]. lia.
Qed.

(** ** What is printed *)

Section output.
Context {St : Type} (O : stream_os St) (HO : stream_ok O).

Lemma puts_run fd l : forall s, exists s', run (so_sys O) (puts fd l) s = (Returned tt, s') /\
  (forall x, so_out O s' x = if decide (x = fd) then so_out O s fd ++ map u8 l else so_out O s x) /\ (forall x, so_in O s' x = so_in O s x).
Proof.
  induction l as [|c l IH]; intros s; cbn [puts map].
  - exists s. split; [done |]. split; [|done]. intros x. case_decide; [by subst; rewrite app_nil_r | done].
  - destruct (so_write _ HO s fd [u8 c]) as (_ & Ho & Hi). destruct (IH (so_sys O (SysWrite fd [u8 c]) s).2) as (s' & E & Ho' & Hi').
    exists s'. split; [exact E |]. split; intros x.
    + rewrite Ho', !Ho. case_decide; [|done]. rewrite decide_True by done. by rewrite <- app_assoc.
    + by rewrite Hi', Hi.
Qed.
End output.

(** [printint] keeps within its 16-byte buffer, for every number and both
    bases, and what it prints in decimal for a non-negative number is read back
    by [atoi]. *)
Theorem printint_atoi {St : Type} (O : stream_os St) (HO : stream_ok O) (s : St) (fd xx : Z) (Hxx : 0 <= xx < 2 ^ 31) :
  (forall base sgn x, base = 10 \/ base = 16 -> (length (printint_buf digits (i32 x) base sgn) <= 16)%nat) /\
  exists s' l, run (so_sys O) (printint fd xx 10 true) s = (Returned tt, s') /\ so_out O s' fd = so_out O s fd ++ l /\
    (forall x, x <> fd -> so_out O s' x = so_out O s x) /\ Ulib.atoi l = xx.
Proof.
  split; [intros base sgn x Hb; pose proof (printint_buf_bound digits (i32 x) base sgn Hb); lia |].
  unfold printint. rewrite signed_small by lia. set (l := rev (printint_buf digits xx 10 true)).
  destruct (puts_run O HO fd l s) as (s' & E & Ho & _). exists s', (map u8 l). split; [exact E |]. split; [by rewrite Ho, decide_True |]. split.
  { intros x Hx. by rewrite Ho, decide_False. }
  assert (El : l = rev (digits_loop DIGITS digits xx 10)).
  { unfold l, printint_buf. destruct (Z.ltb_spec xx 0); [lia |]. cbn [andb]. rewrite app_nil_r, wrap_small by lia. done. }
  destruct (digits_loop_value DIGITS xx) as [F V]; [change (10 ^ Z.of_nat DIGITS) with (10 ^ 32); lia | unfold DIGITS; lia |].
  assert (Fl : Forall (fun c => Ulib.is_digit c = true) l) by (rewrite El; by apply Forall_rev).
  assert (Em : map u8 l = l).
  { clear -Fl. induction Fl as [|c l Hc Fl IH]; cbn; [done |]. unfold Ulib.is_digit in Hc. apply andb_true_iff in Hc as [H1 H2]. apply Z.leb_le in H1, H2.
    rewrite IH, wrap_small by lia. done. }
  rewrite Em. unfold Ulib.atoi. rewrite <- (app_nil_r l). rewrite (Ulib.atoi_loop_digits l 0 [] Fl); [by rewrite El | done | lia |]. rewrite El, V. lia.
Qed.

Lemma printint_atoi_witness : exists s' l, run (so_sys (fake 8)) (printint 1 1234 10 true) (mkFakeos [] (fun _ => [])) = (Returned tt, s') /\
  so_out (fake 8) s' 1 = l /\ Ulib.atoi l = 1234.
Proof.
  destruct (printint_atoi (fake 8) (fake_ok 8 ltac:(lia)) (mkFakeos [] (fun _ => [])) 1 1234 ltac:(lia)) as (_ & s' & l & E & Ho & _ & Ha).
  exists s', l. split; [exact E |]. split; [exact Ho | exact Ha].
Defined.
End Uprintf.
