(* ===== verification/Grep.v ===== *)
(** * user/grep.c

    The matcher on C strings, and the loop that reads a file into a 1024-byte
    buffer and prints the lines that match.  [buf] is the list of the [m] bytes
    it holds; a newline is looked for up to the first NUL, as strchr does. *)

From S2P Require Import Prelude State Printf User Ulib Uprintf.

Module Grep.

(** [do { if(mh(text)) return 1; } while( *text != 0 && ( *text++ == c || c == '.'));] *)
Fixpoint matchstar_loop (mh : list Z -> bool) (c : Z) (text : list Z) : bool :=
  if mh text then true else
  match text with
  | [] => false
  | t :: text => if (t =? c) || (c =? 46) then matchstar_loop mh c text else false
  end.

(** Search for re at beginning of text. *)
Fixpoint matchhere (re text : list Z) : bool :=
  match re with
  | [] => true
  | c :: re1 =>
      let rest := (if (c =? 36) && (at0 re1 =? 0) then at0 text =? 0 else
                   match text with
                   | t :: text => if (c =? 46) || (c =? t) then matchhere re1 text else false
                   | [] => false
                   end) in
      match re1 with
      | star :: re2 => if star =? 42 then matchstar_loop (matchhere re2) c text else rest
      | [] => rest
      end
  end.

(** Search for c*re at beginning of text. *)
Definition matchstar (c : Z) (re text : list Z) : bool := matchstar_loop (matchhere re) c text.

(** [do { if(matchhere(re, text)) return 1; } while( *text++ != 0);] *)
Fixpoint match_loop (re text : list Z) : bool :=
  if matchhere re text then true else
  match text with
  | [] => false
  | _ :: text => match_loop re text
  end.

Definition match_ (re text : list Z) : bool :=
  match re with
  | c :: re' => if c =? 94 then matchhere re' text else match_loop re text
  | [] => match_loop re text
  end.

(** [q = strchr(p, '\n')]: the line before it, and what follows it. *)
Fixpoint cut_line (p : list Z) : option (list Z * list Z) :=
  match p with
  | [] => None
  | c :: p =>
      if c =? 10 then Some ([], p) else
      if c =? 0 then None else
      match cut_line p with
      | Some (line, rest) => Some (c :: line, rest)
      | None => None
      end
  end.

(** [while((q = strchr(p, '\n')) != 0)]; every round takes a line off [p]. *)
Fixpoint scan_lines (fuel : nat) (pattern p : list Z) : prog (list Z) :=
  match fuel with
  | O => Spin
  | S fuel =>
      match cut_line p with
      | None => mret p
      | Some (line, rest) =>
          (if match_ pattern line then _ ← call_ (SysWrite 1 (line ++ [10])); mret tt else mret tt) ;;
          scan_lines fuel pattern rest
      end
  end.

Definition BUF : Z := 1024.

Fixpoint grep_loop (fuel : nat) (pattern : list Z) (fd : Z) (buf : list Z) : prog unit :=
  match fuel with
  | O => Spin
  | S fuel =>
      r ← call (SysRead fd (BUF - Z.of_nat (length buf) - 1));
      if 0 <? r.1 then
        let buf := buf ++ r.2 in
        p ← scan_lines (S (length buf)) pattern buf;
        grep_loop fuel pattern fd p
      else mret tt
  end.

Definition grep (fuel : nat) (pattern : list Z) (fd : Z) : prog unit := grep_loop fuel pattern fd [].

Fixpoint main_loop (fuel : nat) (pattern : list Z) (files : list (list Z)) : prog unit :=
  match files with
  | [] => exit 0
  | file :: files =>
      fd ← call_ (SysOpen file 0);
      if fd <? 0 then Uprintf.printf (bytes "grep: cannot open %s" ++ [10]) [VStr (Some file)] ;; exit 1 else
      grep fuel pattern fd ;;
      _ ← call_ (SysClose fd);
      main_loop fuel pattern files
  end.

Definition main (fuel : nat) (argv : list (list Z)) : prog unit :=
  match argv with
  | _ :: pattern :: files =>
      match files with
      | [] => grep fuel pattern 0 ;; exit 0
      | _ => main_loop fuel pattern files
      end
  | _ => Uprintf.fprintf 2 (bytes "usage: grep pattern [file ...]" ++ [10]) [] ;; exit 1
  end.

(** ** The matcher against the meaning of patterns *)

(** [re] matches a prefix of [text]. *)
Inductive here : list Z -> list Z -> Prop :=
| here_nil text : here [] text
| here_star c re u text : Forall (fun t => t = c \/ c = 46) u -> here re text -> here (c :: 42 :: re) (u ++ text)
| here_eol : here [36] []
| here_char c re t text : at0 re <> 42 -> ~ (c = 36 /\ re = []) -> c = 46 \/ c = t -> here re text -> here (c :: re) (t :: text).

(** [re] matches somewhere in [text], at its beginning after [^]. *)
Definition matches (re text : list Z) : Prop :=
  if at0 re =? 94 then here (tail re) text else exists pre suf, text = pre ++ suf /\ here re suf.

Lemma matchstar_loop_iff mh c : forall text, matchstar_loop mh c text = true <->
  exists u suf, text = u ++ suf /\ Forall (fun t => t = c \/ c = 46) u /\ mh suf = true.
Proof.
  induction text as [|t text IH]; cbn [matchstar_loop].
  - split.
    + destruct (mh []) eqn:E; [|done]. intros _. by exists [], [].
    + intros (u & suf & E & _ & H). symmetry in E. apply app_eq_nil in E as [-> ->]. by rewrite H.
  - destruct (mh (t :: text)) eqn:E; [split; [|done]; intros _; by exists [], (t :: text) |].
    destruct ((t =? c) || (c =? 46)) eqn:Et.
    + rewrite IH. apply orb_true_iff in Et. rewrite !Z.eqb_eq in Et. split.
      * intros (u & suf & -> & Hu & H). exists (t :: u), suf. split; [done |]. split; [by constructor | done].
      * intros (u & suf & Eu & Hu & H). destruct u as [|t' u]; cbn in Eu; [subst suf; congruence |]. injection Eu as <- Eu.
        apply Forall_cons in Hu as [_ Hu]. by exists u, suf.
    + apply orb_false_iff in Et. rewrite !Z.eqb_neq in Et. split; [done |]. intros (u & suf & Eu & Hu & H).
      destruct u as [|t' u]; cbn in Eu; [subst suf; congruence |]. injection Eu as <- Eu. apply Forall_cons in Hu as [Ht _]. tauto.
Qed.

(** Pattern bytes are not NUL. *)
Lemma at0_0 re : Forall (fun c => c <> 0) re -> at0 re = 0 <-> re = [].
Proof. intros H. destruct re as [|c re]; [done |]. apply Forall_cons in H as [H _]. cbn. split; done. Qed.

(** One pattern character that is not starred. *)
Lemma here_plain c re text : Forall (fun c => c <> 0) re -> Forall (fun c => c <> 0) text -> at0 re <> 42 ->
  here (c :: re) text <-> (if (c =? 36) && (at0 re =? 0) then text = [] else exists t text', text = t :: text' /\ (c = 46 \/ c = t) /\ here re text').
Proof.
  intros Hre Htext Hns. destruct ((c =? 36) && (at0 re =? 0)) eqn:E.
  - apply andb_true_iff in E as [E1 E2]. apply Z.eqb_eq in E1, E2. apply at0_0 in E2; [|done]. subst. split; [|by intros ->; constructor].
    inversion 1; subst; try done. tauto.
  - apply andb_false_iff in E. rewrite !Z.eqb_neq in E. rewrite at0_0 in E by done. split.
    + inversion 1; subst; cbn in *; try done; [destruct E; done | eauto].
    + intros (t & text' & -> & Hc & H). constructor; try done. tauto.
Qed.

Lemma matchhere_iff : forall n re text, (length re < n)%nat -> Forall (fun c => c <> 0) re -> Forall (fun c => c <> 0) text ->
  matchhere re text = true <-> here re text.
Proof.
  induction n as [|n IH]; intros re text Hn Hre Ht; [lia |]. destruct re as [|c re1]; [split; [constructor | done] |].
  apply Forall_cons in Hre as [Hc Hre]. cbn in Hn. cbn [matchhere].
  assert (Hplain : at0 re1 <> 42 -> (if (c =? 36) && (at0 re1 =? 0) then at0 text =? 0 else
      match text with t :: text => if (c =? 46) || (c =? t) then matchhere re1 text else false | [] => false end) = true <-> here (c :: re1) text).
  { intros Hns. rewrite here_plain by done. destruct (_ && _); [rewrite Z.eqb_eq; by apply at0_0 |]. destruct text as [|t text].
    - split; [done |]. intros (? & ? & ? & _). done.
    - apply Forall_cons in Ht as [_ Ht]. destruct ((c =? 46) || (c =? t)) eqn:E.
      + apply orb_true_iff in E. rewrite !Z.eqb_eq in E. rewrite IH by (done || lia). split; [by eauto |]. intros (? & ? & E' & _ & H). by injection E' as <- <-.
      + apply orb_false_iff in E. rewrite !Z.eqb_neq in E. split; [done |]. intros (? & ? & E' & H & _). injection E' as <- <-. tauto. }
  destruct re1 as [|star re2]; [by apply Hplain |]. destruct (Z.eqb_spec star 42) as [->|Hne]; [|by apply Hplain].
  rewrite matchstar_loop_iff. apply Forall_cons in Hre as [_ Hre]. cbn in Hn. split.
  - intros (u & suf & -> & Hu & H). constructor; [done |]. apply Forall_app in Ht as [_ Ht]. apply IH; (done || lia).
  - inversion 1; subst; [|by cbn in *]. eexists _, _. split; [reflexivity |]. split; [done |]. apply Forall_app in Ht as [_ Ht]. apply IH; (done || lia).
Qed.

Lemma match_loop_iff re : Forall (fun c => c <> 0) re -> forall text, Forall (fun c => c <> 0) text ->
  match_loop re text = true <-> exists pre suf, text = pre ++ suf /\ here re suf.
Proof.
  intros Hre. induction text as [|t text IH]; intros Ht; cbn [match_loop].
  - destruct (matchhere re []) eqn:E.
    + apply (matchhere_iff (S (length re))) in E; try done; [|lia]. split; [|done]. intros _. by exists [], [].
    + split; [done |]. intros (pre & suf & E' & H). symmetry in E'. apply app_eq_nil in E' as [-> ->].
      apply (matchhere_iff (S (length re))) in H; try done; [congruence | lia].
  - destruct (matchhere re (t :: text)) eqn:E.
    + apply (matchhere_iff (S (length re))) in E; try done; [|lia]. split; [|done]. intros _. by exists [], (t :: text).
    + apply Forall_cons in Ht as [Ht0 Ht]. rewrite IH by done. split.
      * intros (pre & suf & -> & H). by exists (t :: pre), suf.
      * intros (pre & suf & E' & H). destruct pre as [|t' pre]; cbn in E'.
        -- subst suf. apply (matchhere_iff (S (length re))) in H; try done; [congruence | lia | by constructor].
        -- injection E' as <- E'. by exists pre, suf.
Qed.

(** C39: the matcher decides the meaning of patterns: [c*] is any number of [c]
    (of anything, for a dot), [.] any character, [$] the end of the text, [^]
    its beginning, every other character itself. *)
Theorem match_decides (re text : list Z) (Hre : Forall (fun c => c <> 0) re) (Ht : Forall (fun c => c <> 0) text) :
  match_ re text = true <-> matches re text.
Proof.
  unfold match_, matches. destruct re as [|c re]; [by apply match_loop_iff |]. change (at0 (c :: re)) with c. cbn [tail]. destruct (Z.eqb_spec c 94) as [->|Hne].
  - apply (matchhere_iff (S (length re))); try done; [lia |]. by apply Forall_cons in Hre as [_ Hre].
  - by apply match_loop_iff.
Qed.

Lemma match_decides_witness : match_ (bytes "a.*z$") (bytes "xxabcz") = true /\ matches (bytes "a.*z$") (bytes "xxabcz").
Proof.
  split; [reflexivity |]. apply (match_decides (bytes "a.*z$") (bytes "xxabcz")); [..| reflexivity]; apply Forall_fold_right; cbn; lia.
Defined.

(** ** The lines of the input *)

(** The lines of [l] that match, [cur] being the line read so far. *)
Fixpoint selected (pattern cur l : list Z) : list Z :=
  match l with
  | [] => []
  | c :: l =>
      if c =? 10 then (if match_ pattern cur then cur ++ [10] else []) ++ selected pattern [] l
      else selected pattern (cur ++ [c]) l
  end.

Lemma selected_prefix pattern b : forall cur x, 10 ∉ b -> selected pattern cur (b ++ x) = selected pattern (cur ++ b) x.
Proof.
  induction b as [|c b IH]; intros cur x Hb; cbn [app selected]; [by rewrite app_nil_r |]. apply not_elem_of_cons in Hb as [Hc Hb].
  destruct (Z.eqb_spec c 10); [done |]. rewrite IH by done. by rewrite <- app_assoc.
Qed.

Lemma cut_line_spec : forall p, Forall (fun c => c <> 0) p ->
  match cut_line p with
  | None => 10 ∉ p
  | Some (line, rest) => p = line ++ 10 :: rest /\ 10 ∉ line
  end.
Proof.
  induction p as [|c p IH]; intros Hp; cbn [cut_line]; [apply not_elem_of_nil |]. apply Forall_cons in Hp as [Hc Hp].
  destruct (Z.eqb_spec c 10) as [->|Hne]; [split; [done | apply not_elem_of_nil] |]. destruct (Z.eqb_spec c 0); [done |].
  specialize (IH Hp). destruct (cut_line p) as [[line rest]|].
  - destruct IH as [-> Hl]. split; [done |]. apply not_elem_of_cons. done.
  - apply not_elem_of_cons. done.
Qed.

Section grep_output.
Context {St : Type} (O : stream_os St) (HO : stream_ok O).

Lemma scan_lines_run pattern : forall fuel p s, Forall (fun c => c <> 0) p -> (length p < fuel)%nat ->
  exists s' r, run (so_sys O) (scan_lines fuel pattern p) s = (Returned r, s') /\ 10 ∉ r /\ (exists pre, p = pre ++ r) /\
    (forall fd, so_in O s' fd = so_in O s fd) /\
    (forall x, so_out O s' 1 ++ selected pattern [] (r ++ x) = so_out O s 1 ++ selected pattern [] (p ++ x)).
Proof.
  induction fuel as [|fuel IH]; intros p s Hp Hf; [lia |]. cbn [scan_lines]. pose proof (cut_line_spec p Hp) as Hc. destruct (cut_line p) as [[line rest]|].
  - destruct Hc as [-> Hl]. apply Forall_app in Hp as [_ Hp]. apply Forall_cons in Hp as [_ Hp]. rewrite length_app in Hf. cbn in Hf.
    assert (Hsel : forall x, selected pattern [] ((line ++ 10 :: rest) ++ x) = (if match_ pattern line then line ++ [10] else []) ++ selected pattern [] (rest ++ x)).
    { intros x. rewrite <- app_assoc. rewrite selected_prefix by done. cbn. done. }
    destruct (match_ pattern line).
    + destruct (so_write _ HO s 1 (line ++ [10])) as (_ & Ho & Hi).
      destruct (IH rest (so_sys O (SysWrite 1 (line ++ [10])) s).2 Hp ltac:(lia)) as (s' & r & E & Hr & [pre ->] & Hi' & Ho').
      exists s', r. split; [exact E |]. split; [done |]. split; [by exists (line ++ 10 :: pre); rewrite <- app_assoc |]. split; [intros fd; by rewrite Hi', Hi |].
      intros x. rewrite Ho', Hsel, Ho, decide_True by done. by rewrite <- !app_assoc.
    + destruct (IH rest s Hp ltac:(lia)) as (s' & r & E & Hr & [pre ->] & Hi' & Ho'). exists s', r. split; [exact E |]. split; [done |].
      split; [by exists (line ++ 10 :: pre); rewrite <- app_assoc |]. split; [done |]. intros x. rewrite Ho', Hsel. done.
  - exists s, p. split; [done |]. split; [done |]. split; [by exists [] |]. done.
Qed.

(** No piece of a line is too long for the buffer. *)
Definition short_lines (l : list Z) : Prop := forall a b c, l = a ++ b ++ c -> 10 ∉ b -> Z.of_nat (length b) <= BUF - 2.

Lemma short_lines_suffix a l : short_lines (a ++ l) -> short_lines l.
Proof. intros H x b c -> Hb. apply (H (a ++ x) b c); [by rewrite <- !app_assoc | done]. Qed.

Lemma grep_loop_run pattern fd : forall fuel buf s, 10 ∉ buf -> Forall (fun c => c <> 0) (buf ++ so_in O s fd) -> short_lines (buf ++ so_in O s fd) ->
  (length (so_in O s fd) < fuel)%nat ->
  exists s', run (so_sys O) (grep_loop fuel pattern fd buf) s = (Returned tt, s') /\ so_in O s' fd = [] /\
    so_out O s' 1 = so_out O s 1 ++ selected pattern [] (buf ++ so_in O s fd).
Proof.
  induction fuel as [|fuel IH]; intros buf s Hbuf Hnz Hshort Hf; [lia |]. cbn [grep_loop]. rewrite run_call.
  pose proof (Hshort [] buf (so_in O s fd) eq_refl Hbuf) as Hlen. unfold BUF in *.
  destruct (so_read _ HO s fd (1024 - Z.of_nat (length buf) - 1) ltac:(lia)) as (k & Er & Hk & Hkl & Hk0 & Hi & Ho). rewrite Er. cbn [fst snd].
  set (s1 := (so_sys O _ s).2) in *. destruct k as [|k].
  - change (0 <? Z.of_nat 0) with false. cbv iota. specialize (Hk0 eq_refl). exists s1. rewrite Hi, decide_True, drop_0 by done. split; [done |]. split; [done |].
    rewrite Ho, Hk0, app_nil_r. rewrite <- (app_nil_r buf) at 1. rewrite selected_prefix by done. cbn. by rewrite app_nil_r.
  - destruct (Z.ltb_spec 0 (Z.of_nat (S k))); [|lia]. rewrite <- (take_drop (S k) (so_in O s fd)) in Hnz, Hshort. rewrite app_assoc in Hnz, Hshort.
    destruct (scan_lines_run pattern (S (length (buf ++ take (S k) (so_in O s fd)))) (buf ++ take (S k) (so_in O s fd)) s1) as (s2 & r & E2 & Hr & [pre Hpre] & Hi2 & Ho2); [by apply Forall_app in Hnz as [Hnz _] | lia |].
    rewrite (run_bind_Returned _ _ _ _ _ _ E2).
    assert (Hin : so_in O s2 fd = drop (S k) (so_in O s fd)) by (rewrite Hi2, Hi, decide_True; done).
    destruct (IH r s2) as (s3 & E3 & Hi3 & Ho3); rewrite ?Hin; try done.
    + rewrite Hpre in Hnz. rewrite <- app_assoc in Hnz. by apply Forall_app in Hnz as [_ Hnz].
    + rewrite Hpre in Hshort. rewrite <- app_assoc in Hshort. by apply short_lines_suffix in Hshort.
    + rewrite length_drop. lia.
    + exists s3. split; [exact E3 |]. split; [done |]. rewrite Ho3, Hin, Ho2, Ho. rewrite <- app_assoc, take_drop. done.
Qed.
End grep_output.

(** C40: [grep] prints exactly the lines of its input that match, in order,
    however the reads cut the input, and reads all of it: for input without NUL
    bytes whose lines fit the buffer.  A last line without a newline is not
    looked at.  The number of reads is at most the length of the input. *)
Theorem grep_prints_matching {St : Type} (O : stream_os St) (HO : stream_ok O) (s : St) (pattern : list Z) (fd : Z) (fuel : nat)
    (Hnz : Forall (fun c => c <> 0) (so_in O s fd)) (Hshort : short_lines (so_in O s fd)) (Hf : (length (so_in O s fd) < fuel)%nat) :
  exists s', run (so_sys O) (grep fuel pattern fd) s = (Returned tt, s') /\ so_in O s' fd = [] /\
    so_out O s' 1 = so_out O s 1 ++ selected pattern [] (so_in O s fd).
Proof. apply (grep_loop_run O HO pattern fd fuel [] s); try done; apply not_elem_of_nil. Qed.

Definition demo_text : list Z := bytes "one" ++ [10] ++ bytes "two" ++ [10] ++ bytes "three" ++ [10].

Lemma grep_prints_matching_witness : exists s', run (so_sys (fake 4)) (grep 20 (bytes "^t.*e$") 0) (mkFakeos demo_text (fun _ => [])) = (Returned tt, s') /\
  so_out (fake 4) s' 1 = bytes "three" ++ [10].
Proof.
  destruct (grep_prints_matching (fake 4) (fake_ok 4 ltac:(lia)) (mkFakeos demo_text (fun _ => [])) (bytes "^t.*e$") 0 20) as (s' & E & _ & H).
  - apply Forall_fold_right. cbn. lia.
  - intros a b c E Hb. assert (Hl : length (so_in (fake 4) (mkFakeos demo_text (fun _ => [])) 0) = 14%nat) by reflexivity.
    rewrite E, !length_app in Hl. unfold BUF. lia.
  - cbn. lia.
  - exists s'. split; [exact E |]. rewrite H. reflexivity.
Defined.
End Grep.
