(* ===== verification/Utils.v ===== *)
(** * The small user programs: cat, echo, wc, kill, ln, mkdir, rm, ls, init, zombie

    Loops that read to the end of a file, and init's endless loop, take the
    bound on their rounds as an argument. *)

From S2P Require Import Prelude State Printf Fs User Ulib Uprintf.

Definition nl (s : string) : list Z := bytes s ++ [10].

(** ** cat.c *)
Module Cat.
Fixpoint cat (fuel : nat) (fd : Z) : prog unit :=
  match fuel with
  | O => Spin
  | S fuel =>
      r ← call (SysRead fd 512);
      if 0 <? r.1 then
        w ← call_ (SysWrite 1 r.2);
        if negb (w =? r.1) then Uprintf.fprintf 2 (nl "cat: write error") [] ;; exit 1
        else cat fuel fd
      else if r.1 <? 0 then Uprintf.fprintf 2 (nl "cat: read error") [] ;; exit 1
      else mret tt
  end.

Fixpoint files (fuel : nat) (argv : list (list Z)) : prog unit :=
  match argv with
  | [] => exit 0
  | file :: argv =>
      fd ← call_ (SysOpen file 0);
      if fd <? 0 then Uprintf.fprintf 2 (nl "cat: cannot open %s") [VStr (Some file)] ;; exit 1 else
      cat fuel fd ;;
      _ ← call_ (SysClose fd);
      files fuel argv
  end.

Definition main (fuel : nat) (argv : list (list Z)) : prog unit :=
  match tail argv with
  | [] => cat fuel 0 ;; exit 0
  | argv => files fuel argv
  end.
End Cat.

(** ** echo.c *)
Module Echo.
Fixpoint words (argv : list (list Z)) : prog unit :=
  match argv with
  | [] => exit 0
  | a :: argv =>
      _ ← call_ (SysWrite 1 (take (Z.to_nat (Ulib.strlen a)) a));
      _ ← call_ (SysWrite 1 (match argv with [] => [10] | _ => [32] end));
      words argv
  end.
Definition main (argv : list (list Z)) : prog unit := words (tail argv).
End Echo.

(** ** wc.c *)
Module Wc.
Record counts : Type := mkCounts { wl : Z; ww : Z; wc_ : Z; inword : bool }.

(** " \r\t\n\v" *)
Definition blanks : list Z := [32; 13; 9; 10; 11].

Definition count (k : counts) (x : Z) : counts :=
  let c := i32 (wc_ k + 1) in
  let l := if x =? 10 then i32 (wl k + 1) else wl k in
  match Ulib.strchr blanks x with
  | Some _ => mkCounts l (ww k) c false
  | None => if inword k then mkCounts l (ww k) c true else mkCounts l (i32 (ww k + 1)) c true
  end.

Fixpoint wc_loop (fuel : nat) (fd : Z) (k : counts) : prog counts :=
  match fuel with
  | O => Spin
  | S fuel =>
      r ← call (SysRead fd 512);
      if 0 <? r.1 then wc_loop fuel fd (fold_left count r.2 k)
      else if r.1 <? 0 then Uprintf.printf (nl "wc: read error") [] ;; exit 1
      else mret k
  end.

Definition wc (fuel : nat) (fd : Z) (name : list Z) : prog unit :=
  k ← wc_loop fuel fd (mkCounts 0 0 0 false);
  Uprintf.printf (nl "%d %d %d %s") [VInt (wl k); VInt (ww k); VInt (wc_ k); VStr (Some name)].

Fixpoint files (fuel : nat) (argv : list (list Z)) : prog unit :=
  match argv with
  | [] => exit 0
  | file :: argv =>
      fd ← call_ (SysOpen file 0);
      if fd <? 0 then Uprintf.printf (nl "wc: cannot open %s") [VStr (Some file)] ;; exit 1 else
      wc fuel fd file ;;
      _ ← call_ (SysClose fd);
      files fuel argv
  end.

Definition main (fuel : nat) (argv : list (list Z)) : prog unit :=
  match tail argv with
  | [] => wc fuel 0 [] ;; exit 0
  | argv => files fuel argv
  end.
End Wc.

(** ** kill.c *)
Module Kill.
Fixpoint pids (argv : list (list Z)) : prog unit :=
  match argv with
  | [] => exit 0
  | a :: argv => _ ← call_ (SysKill (Ulib.atoi a)); pids argv
  end.
Definition main (argv : list (list Z)) : prog unit :=
  match tail argv with
  | [] => Uprintf.fprintf 2 (nl "usage: kill pid...") [] ;; exit 1
  | argv => pids argv
  end.
End Kill.

(** ** ln.c *)
Module Ln.
Definition main (argv : list (list Z)) : prog unit :=
  match argv with
  | [_; old; new] =>
      r ← call_ (SysLink old new);
      (if r <? 0 then Uprintf.fprintf 2 (nl "link %s %s: failed") [VStr (Some old); VStr (Some new)] else mret tt) ;;
      exit 0
  | _ => Uprintf.fprintf 2 (nl "Usage: ln old new") [] ;; exit 1
  end.
End Ln.

(** ** mkdir.c *)
Module Mkdir.
Fixpoint dirs (argv : list (list Z)) : prog unit :=
  match argv with
  | [] => mret tt
  | a :: argv =>
      r ← call_ (SysMkdir a);
      if r <? 0 then Uprintf.fprintf 2 (nl "mkdir: %s failed to create") [VStr (Some a)] else dirs argv
  end.
Definition main (argv : list (list Z)) : prog unit :=
  match tail argv with
  | [] => Uprintf.fprintf 2 (nl "Usage: mkdir files...") [] ;; exit 1
  | argv => dirs argv ;; exit 0
  end.
End Mkdir.

(** ** rm.c *)
Module Rm.
Fixpoint files (argv : list (list Z)) : prog unit :=
  match argv with
  | [] => mret tt
  | a :: argv =>
      r ← call_ (SysUnlink a);
      if r <? 0 then Uprintf.fprintf 2 (nl "rm: %s failed to delete") [VStr (Some a)] else files argv
  end.
Definition main (argv : list (list Z)) : prog unit :=
  match tail argv with
  | [] => Uprintf.fprintf 2 (nl "Usage: rm files...") [] ;; exit 1
  | argv => files argv ;; exit 0
  end.
End Rm.

(** ** ls.c *)
Module Ls.
(** What follows the last slash. *)
Fixpoint basename (path : list Z) : list Z :=
  match path with
  | [] => []
  | c :: p => if bool_decide (47 ∈ p) then basename p else if c =? 47 then p else path
  end.

(** The name, padded with blanks to [DIRSIZ]. *)
Definition fmtname (path : list Z) : list Z :=
  let p := basename path in
  if DIRSIZ <=? Ulib.strlen p then p
  else p ++ replicate (Z.to_nat (DIRSIZ - Ulib.strlen p)) 32.

(** The fields of the [struct stat] that fstat stored. *)
Definition st_ino (st : list Z) : Z := le_dec (slice 4 4 st).
Definition st_type (st : list Z) : Z := i16 (le_dec (slice 8 2 st)).
Definition st_size (st : list Z) : Z := le_dec (slice 16 8 st).

(** The string in a [char] array: up to its NUL. *)
Fixpoint cut_nul (l : list Z) : list Z :=
  match l with
  | [] => []
  | c :: l => if c =? 0 then [] else c :: cut_nul l
  end.

(** [while(read(fd, &de, sizeof(de)) == sizeof(de))] *)
Fixpoint entries (fuel : nat) (fd : Z) (path : list Z) : prog unit :=
  match fuel with
  | O => Spin
  | S fuel =>
      r ← call (SysRead fd 16);
      if negb (r.1 =? 16) then mret tt else
      if le_dec (slice 0 2 r.2) =? 0 then entries fuel fd path else
      let buf := path ++ [47] ++ cut_nul (slice 2 DIRSIZ r.2) in
      st ← Ulib.stat buf;
      (if st.1 <? 0 then Uprintf.printf (nl "ls: cannot stat %s") [VStr (Some buf)]
       else Uprintf.printf (nl "%s %d %d %d") [VStr (Some (fmtname buf)); VInt (st_type st.2); VInt (st_ino st.2); VInt (st_size st.2)]) ;;
      entries fuel fd path
  end.

Definition ls (fuel : nat) (path : list Z) : prog unit :=
  fd ← call_ (SysOpen path 0);
  if fd <? 0 then Uprintf.fprintf 2 (nl "ls: cannot open %s") [VStr (Some path)] else
  st ← call (SysFstat fd);
  if st.1 <? 0 then
    Uprintf.fprintf 2 (nl "ls: cannot stat %s") [VStr (Some path)] ;;
    _ ← call_ (SysClose fd); mret tt
  else
  (if (st_type st.2 =? T_DEVICE) || (st_type st.2 =? T_FILE) then
     Uprintf.printf (nl "%s %d %d %l") [VStr (Some (fmtname path)); VInt (st_type st.2); VInt (st_ino st.2); VUint64 (st_size st.2)]
   else if st_type st.2 =? T_DIR then
     if 512 <? Ulib.strlen path + 1 + DIRSIZ + 1 then Uprintf.printf (nl "ls: path too long") []
     else entries fuel fd path
   else mret tt) ;;
  _ ← call_ (SysClose fd); mret tt.

Fixpoint paths (fuel : nat) (argv : list (list Z)) : prog unit :=
  match argv with
  | [] => exit 0
  | a :: argv => ls fuel a ;; paths fuel argv
  end.

Definition main (fuel : nat) (argv : list (list Z)) : prog unit :=
  match tail argv with
  | [] => ls fuel (bytes ".") ;; exit 0
  | argv => paths fuel argv
  end.
End Ls.

(** ** init.c *)
Module Init.
Definition O_RDWR : Z := 2.

(** The inner loop: wait until the shell [pid] exits. *)
Fixpoint wait_loop (fuel : nat) (pid : Z) : prog unit :=
  match fuel with
  | O => Spin
  | S fuel =>
      wpid ← call_ SysWait;
      if wpid =? pid then mret tt
      else if wpid <? 0 then Uprintf.printf (nl "init: wait returned an error") [] ;; exit 1
      else wait_loop fuel pid
  end.

Fixpoint loop (fuel : nat) : prog unit :=
  match fuel with
  | O => Spin
  | S fuel =>
      Uprintf.printf (nl "init: starting sh") [] ;;
      pid ← call_ SysFork;
      if pid <? 0 then Uprintf.printf (nl "init: fork failed") [] ;; exit 1 else
      if pid =? 0 then
        _ ← call_ (SysExec (bytes "sh") [bytes "sh"]);
        Uprintf.printf (nl "init: exec sh failed") [] ;;
        exit 1
      else wait_loop fuel pid ;; loop fuel
  end.

Definition main (fuel : nat) : prog unit :=
  fd ← call_ (SysOpen (bytes "console") O_RDWR);
  (if fd <? 0 then
     _ ← call_ (SysMknod (bytes "console") CONSOLE 0);
     _ ← call_ (SysOpen (bytes "console") O_RDWR); mret tt
   else mret tt) ;;
  _ ← call_ (SysDup 0);
  _ ← call_ (SysDup 0);
  loop fuel.
End Init.

(** ** zombie.c *)
Module Zombie.
Definition main : prog unit :=
  pid ← call_ SysFork;
  (if 0 <? pid then _ ← call_ (SysSleep 5); mret tt else mret tt) ;;
  exit 0.
End Zombie.

(** ** Reading to the end

    A program that reads a descriptor to its end sees its bytes in order,
    whatever the pieces. *)
Section streams.
Context {St : Type} (O : stream_os St) (HO : stream_ok O).

(** One read of at most [n] bytes: a piece, or the end. *)
Lemma read_piece s fd n : 0 < n -> exists r s', so_sys O (SysRead fd n) s = (r, s') /\
  (forall x, so_out O s' x = so_out O s x) /\
  ((r = (0, []) /\ so_in O s fd = [] /\ so_in O s' fd = []) \/
   (0 < r.1 /\ r.1 = Z.of_nat (length r.2) /\ so_in O s fd = r.2 ++ so_in O s' fd /\ (length (so_in O s' fd) < length (so_in O s fd))%nat)).
Proof.
  intros Hn. destruct (so_read _ HO s fd n Hn) as (k & Er & Hk & Hkl & Hk0 & Hi & Ho). destruct (so_sys O (SysRead fd n) s) as [r s']. cbn [fst snd] in *.
  exists r, s'. split; [done |]. split; [done |]. rewrite Hi, decide_True by done. subst r. destruct k as [|k].
  - left. rewrite (Hk0 eq_refl). done.
  - right. cbn [fst snd]. rewrite length_take, length_drop, take_drop. split; [lia |]. split; [lia |]. split; [done | lia].
Qed.

Lemma cat_run fd : forall fuel s, (length (so_in O s fd) < fuel)%nat ->
  exists s', run (so_sys O) (Cat.cat fuel fd) s = (Returned tt, s') /\ so_in O s' fd = [] /\ so_out O s' 1 = so_out O s 1 ++ so_in O s fd.
Proof.
  induction fuel as [|fuel IH]; intros s Hf; [lia |]. cbn [Cat.cat]. rewrite run_call.
  destruct (read_piece s fd 512 ltac:(lia)) as (r & s1 & E & Ho & [(-> & E1 & E2)|(Hr & Hl & E1 & Hlt)]); rewrite E; cbn [fst snd].
  - exists s1. split; [done |]. split; [done |]. by rewrite Ho, E1, app_nil_r.
  - destruct (Z.ltb_spec 0 r.1); [|lia]. rewrite run_call_. destruct (so_write _ HO s1 1 r.2) as (Ew & Wo & Wi). rewrite Ew, Hl, Z.eqb_refl. cbn [negb].
    set (s2 := (so_sys O (SysWrite 1 r.2) s1).2) in *. destruct (IH s2) as (s3 & E3 & Hi3 & Ho3); [rewrite Wi; lia |].
    exists s3. split; [exact E3 |]. split; [done |]. rewrite Ho3, Wo, Wi, decide_True, Ho, E1 by done. by rewrite <- app_assoc.
Qed.

Lemma wc_loop_run fd : forall fuel s k, (length (so_in O s fd) < fuel)%nat ->
  exists s', run (so_sys O) (Wc.wc_loop fuel fd k) s = (Returned (fold_left Wc.count (so_in O s fd) k), s') /\ (forall x, so_out O s' x = so_out O s x).
Proof.
  induction fuel as [|fuel IH]; intros s k Hf; [lia |]. cbn [Wc.wc_loop]. rewrite run_call.
  destruct (read_piece s fd 512 ltac:(lia)) as (r & s1 & E & Ho & [(-> & E1 & E2)|(Hr & Hl & E1 & Hlt)]); rewrite E; cbn [fst snd].
  - exists s1. rewrite E1. done.
  - destruct (Z.ltb_spec 0 r.1); [|lia]. destruct (IH s1 (fold_left Wc.count r.2 k)) as (s2 & E2 & Ho2); [lia |].
    exists s2. rewrite E1, fold_left_app. split; [exact E2 |]. intros x. by rewrite Ho2, Ho.
Qed.
End streams.

(** ** What wc counts *)

Definition blank (x : Z) : bool := bool_decide (x ∈ Wc.blanks).

(** The words of a text: maximal runs of characters that are not blank. *)
Fixpoint split_words (cur l : list Z) : list (list Z) :=
  match l with
  | [] => [cur]
  | x :: l => if blank x then cur :: split_words [] l else split_words (cur ++ [x]) l
  end.
Definition words (l : list Z) : list (list Z) := filter (fun w => w <> []) (split_words [] l).
Definition newlines (l : list Z) : list Z := filter (fun x => x = 10) l.

Lemma strchr_blanks x : (exists r, Ulib.strchr Wc.blanks x = Some r) <-> blank x = true.
Proof.
  unfold blank. rewrite bool_decide_eq_true. unfold Wc.blanks. cbn [Ulib.strchr]. rewrite !elem_of_cons, elem_of_nil.
  repeat (match goal with |- context [?a =? x] => destruct (Z.eqb_spec a x) as [->|] end; [split; [tauto | eauto] |]). split; [by intros [? ?] | naive_solver].
Qed.

(** One step of the count, on numbers that do not overflow. *)
Lemma count_step k x : 0 <= Wc.wl k < 2 ^ 31 - 1 -> 0 <= Wc.ww k < 2 ^ 31 - 1 -> 0 <= Wc.wc_ k < 2 ^ 31 - 1 ->
  Wc.count k x = Wc.mkCounts (Wc.wl k + if decide (x = 10) then 1 else 0) (Wc.ww k + if blank x || Wc.inword k then 0 else 1) (Wc.wc_ k + 1) (negb (blank x)).
Proof.
  intros Hl Hw Hc. unfold Wc.count. pose proof (strchr_blanks x) as Hs. rewrite !signed_small by lia.
  destruct (decide (x = 10)) as [->|Hx]; [change (10 =? 10) with true | apply Z.eqb_neq in Hx; rewrite Hx];
    (destruct (Ulib.strchr Wc.blanks _) as [r|]; [rewrite (proj1 Hs ltac:(eauto)) |
       destruct (blank _); [destruct (proj2 Hs eq_refl); done |]]); cbn [negb orb]; destruct (Wc.inword k); by rewrite ?Z.add_0_r.
Qed.

Definition nwords (cur l : list Z) : Z := Z.of_nat (length (filter (fun w : list Z => w <> []) (split_words cur l))).

Lemma nwords_cons cur x l : nwords cur (x :: l) = if blank x then (if decide (cur = []) then 0 else 1) + nwords [] l else nwords (cur ++ [x]) l.
Proof.
  unfold nwords. cbn [split_words]. destruct (blank x); [|done]. rewrite filter_cons.
  destruct (decide (cur = [])) as [->|Hne]; [rewrite decide_False by tauto; lia | rewrite decide_True by done; cbn; lia].
Qed.

Lemma count_fold : forall l cur k, Wc.inword k = bool_decide (cur <> []) -> 0 <= Wc.wl k -> 0 <= Wc.ww k -> 0 <= Wc.wc_ k ->
  Wc.wl k + Z.of_nat (length l) < 2 ^ 31 -> Wc.ww k + Z.of_nat (length l) < 2 ^ 31 -> Wc.wc_ k + Z.of_nat (length l) < 2 ^ 31 ->
  let k' := fold_left Wc.count l k in
  Wc.wl k' = Wc.wl k + Z.of_nat (length (newlines l)) /\ Wc.wc_ k' = Wc.wc_ k + Z.of_nat (length l) /\
  Wc.ww k' = Wc.ww k + nwords cur l - (if decide (cur = []) then 0 else 1).
Proof.
  induction l as [|x l IH]; intros cur k Hin Hl0 Hw0 Hc0 Hl Hw Hc.
  - unfold nwords. cbn [fold_left newlines split_words length]. rewrite filter_cons, filter_nil. split; [cbn; lia |]. split; [lia |].
    destruct (decide (cur = [])) as [->|Hne]; [rewrite decide_False by tauto | rewrite decide_True by done]; cbn; lia.
  - cbn [length fold_left] in *. rewrite count_step by lia. rewrite nwords_cons. set (k1 := Wc.mkCounts _ _ _ _).
    destruct (IH (if blank x then [] else cur ++ [x]) k1) as (E1 & E2 & E3); unfold k1; cbn [Wc.wl Wc.ww Wc.wc_ Wc.inword]; try lia.
    + destruct (blank x); cbn [negb]; symmetry; [by apply bool_decide_eq_false_2; intros ? | apply bool_decide_eq_true_2; by destruct cur].
    + destruct (decide (x = 10)); lia.
    + destruct (blank x || Wc.inword k); lia.
    + destruct (decide (x = 10)); lia.
    + destruct (blank x || Wc.inword k); lia.
    + fold k1. rewrite E1, E2, E3. unfold k1. cbn [Wc.wl Wc.ww Wc.wc_ Wc.inword]. unfold newlines. rewrite filter_cons. split; [|split; [lia |]].
      * destruct (decide (x = 10)); cbn [length]; lia.
      * destruct (blank x); cbn [orb]; [rewrite decide_True by done; lia |]. rewrite (decide_False (P := cur ++ [x] = [])) by (by destruct cur).
        rewrite Hin. destruct (decide (cur = [])) as [->|Hne]; [rewrite bool_decide_eq_false_2 by tauto | rewrite bool_decide_eq_true_2 by done]; lia.
Qed.

(** [cat] copies a descriptor to the standard output, all of it and in
    order, however the reads cut it; [wc] counts its newlines, its words (the
    maximal runs of characters that are not blanks) and its bytes. *)
Theorem cat_wc_correct {St : Type} (O : stream_os St) (HO : stream_ok O) (s : St) (fd : Z) (fuel : nat) (name : list Z)
    (Hf : (length (so_in O s fd) < fuel)%nat) (Hlen : Z.of_nat (length (so_in O s fd)) < 2 ^ 31) :
  let l := so_in O s fd in
  (exists s', run (so_sys O) (Cat.cat fuel fd) s = (Returned tt, s') /\ so_in O s' fd = [] /\ so_out O s' 1 = so_out O s 1 ++ l) /\
  (exists s', run (so_sys O) (Wc.wc fuel fd name) s =
     run (so_sys O) (Uprintf.printf (nl "%d %d %d %s")
       [VInt (Z.of_nat (length (newlines l))); VInt (Z.of_nat (length (words l))); VInt (Z.of_nat (length l)); VStr (Some name)]) s' /\
     forall x, so_out O s' x = so_out O s x).
Proof.
  intros l. split; [by apply cat_run |]. destruct (wc_loop_run O HO fd fuel s (Wc.mkCounts 0 0 0 false) Hf) as (s' & E & Ho).
  exists s'. split; [|done]. unfold Wc.wc. rewrite (run_bind_Returned _ _ _ _ _ _ E).
  destruct (count_fold (so_in O s fd) [] (Wc.mkCounts 0 0 0 false)) as (E1 & E2 & E3); cbn [Wc.wl Wc.ww Wc.wc_ Wc.inword] in *; try done; try lia.
  rewrite E1, E2, E3. cbn [decide]. unfold nwords. rewrite decide_True, !Z.add_0_l, Z.sub_0_r by done. done.
Qed.

Lemma cat_wc_correct_witness : (exists s', run (so_sys (fake 5)) (Cat.cat 20 0) (mkFakeos (bytes "two words") (fun _ => [])) = (Returned tt, s') /\
    so_out (fake 5) s' 1 = bytes "two words") /\ length (words (bytes "two words")) = 2%nat.
Proof.
  destruct (cat_wc_correct (fake 5) (fake_ok 5 ltac:(lia)) (mkFakeos (bytes "two words") (fun _ => [])) 0 20 []) as [(s' & E & _ & H) _].
  - cbn. lia.
  - cbn. lia.
  - split; [exists s'; split; [exact E | exact H] | reflexivity].
Defined.
