(* ===== verification/Umalloc.v ===== *)
(** * user/umalloc.c: the allocator of Kernighan and Ritchie

    A [Header] is [HSZ] bytes; the heap is the map from the address of a header
    to its fields [ptr] and [size], next to the variable [freep].  [base] is the
    address of the static header that starts the circular free list. *)

From S2P Require Import Prelude State User.
From stdpp Require Import sorting.

#[local] Open Scope Z_scope.

Definition HSZ : Z := 16.

Record heap : Type := mkHeap { hp_hdr : Z -> Z * Z; freep : Z }.

Definition ptr (h : heap) (a : Z) : Z := (hp_hdr h a).1.
Definition size (h : heap) (a : Z) : Z := (hp_hdr h a).2.
Definition put (a : Z) (v : Z * Z) (h : heap) : heap :=
  mkHeap (fun x => if decide (x = a) then v else hp_hdr h x) (freep h).
Definition set_ptr (a p : Z) (h : heap) : heap := put a (p, size h a) h.
Definition set_size (a n : Z) (h : heap) : heap := put a (ptr h a, u32 n) h.
Definition set_freep (p : Z) (h : heap) : heap := mkHeap (hp_hdr h) p.

(** What sbrk promises: the old end of the heap, which grows, or -1. *)
Record sbrk_os (St : Type) : Type := mkSbrkOs { sb_sys : sysc -> St -> reply * St; sb_brk : St -> Z }.
Arguments sb_sys {St} s.
Arguments sb_brk {St} s.
Definition sbrk_ok {St} (O : sbrk_os St) : Prop := forall s n, 0 < n -> let r := sb_sys O (SysSbrk n) s in
  (r.1.1 = -1 /\ sb_brk O r.2 = sb_brk O s) \/ (r.1.1 = sb_brk O s /\ sb_brk O r.2 = sb_brk O s + n).

Section umalloc.
Context (base : Z).

(** ** free *)

(** [for(p = freep; !(bp > p && bp < p->s.ptr); p = p->s.ptr) if(...) break;] *)
Fixpoint free_find (fuel : nat) (bp p : Z) (h : heap) : option Z :=
  match fuel with
  | O => None
  | S fuel =>
      if (p <? bp) && (bp <? ptr h p) then Some p
      else if (ptr h p <=? p) && ((p <? bp) || (bp <? ptr h p)) then Some p
      else free_find fuel bp (ptr h p) h
  end.

(** Put [bp] after [p], joining it with its neighbours. *)
Definition free_insert (bp p : Z) (h : heap) : heap :=
  let h :=
    if bp + HSZ * size h bp =? ptr h p then
      let h := set_size bp (size h bp + size h (ptr h p)) h in
      set_ptr bp (ptr h (ptr h p)) h
    else set_ptr bp (ptr h p) h in
  let h :=
    if p + HSZ * size h p =? bp then
      let h := set_size p (size h p + size h bp) h in
      set_ptr p (ptr h bp) h
    else set_ptr p bp h in
  set_freep p h.

Definition free (fuel : nat) (ap : Z) (h : heap) : option heap :=
  let bp := ap - HSZ in
  p ← free_find fuel bp (freep h) h;
  Some (free_insert bp p h).

(** ** malloc *)

Definition morecore (fuel : nat) (nu : Z) (h : heap) : prog (Z * heap) :=
  let nu := if nu <? 4096 then 4096 else nu in
  p ← call_ (SysSbrk (i32 (nu * HSZ)));
  if p =? -1 then mret (0, h) else
  let h := set_size p nu h in
  match free fuel (p + HSZ) h with
  | Some h => mret (freep h, h)
  | None => Spin
  end.

(** Take [nunits] from the block [p], whose predecessor is [prevp]. *)
Definition take_block (nunits prevp p : Z) (h : heap) : Z * heap :=
  if size h p =? nunits then (p + HSZ, set_freep prevp (set_ptr prevp (ptr h p) h))
  else
    let h := set_size p (size h p - nunits) h in
    let p := p + HSZ * size h p in
    let h := set_size p nunits h in
    (p + HSZ, set_freep prevp h).

Fixpoint malloc_loop (fuel : nat) (nunits prevp p : Z) (h : heap) : prog (Z * heap) :=
  match fuel with
  | O => Spin
  | S fuel =>
      if nunits <=? size h p then mret (take_block nunits prevp p h)
      else if p =? freep h then
        r ← morecore (S fuel) nunits h;
        if r.1 =? 0 then mret (0, r.2)
        else malloc_loop fuel nunits r.1 (ptr r.2 r.1) r.2
      else malloc_loop fuel nunits p (ptr h p) h
  end.

(** [if((prevp = freep) == 0){ ... }] *)
Definition started (h : heap) : heap := if freep h =? 0 then set_freep base (put base (base, 0) h) else h.

Definition malloc (fuel : nat) (nbytes : Z) (h : heap) : prog (Z * heap) :=
  let nunits := u32 ((nbytes + HSZ - 1) / HSZ + 1) in
  let h := started h in
  malloc_loop fuel nunits (freep h) (ptr h (freep h)) h.

(** ** The circular list *)

(** The first address of a list of blocks, [e] if there is none. *)
Definition hd_addr (l : list (Z * Z)) (e : Z) : Z := match l with (a, _) :: _ => a | [] => e end.

(** The blocks [l] are linked, the last one to [e]. *)
Fixpoint chain (h : heap) (l : list (Z * Z)) (e : Z) : Prop :=
  match l with
  | [] => True
  | (a, n) :: l => hp_hdr h a = (hd_addr l e, n) /\ chain h l e
  end.

Definition before (x y : Z * Z) : Prop := x.1 + HSZ * x.2 < y.1.

(** The free list: [base], then the free blocks in the order of their addresses,
    no two of them adjacent, all below [top]. *)
Record blocks_ok (top : Z) (B : list (Z * Z)) : Prop := mkBlocksOk {
  bo_base : exists l, B = (base, 0) :: l /\ Forall (fun x => 0 < x.2) l;
  bo_sorted : StronglySorted before B;
  bo_top : forall x, x ∈ B -> x.1 + HSZ * x.2 <= top
}.

Record free_ok (h : heap) (top : Z) (B : list (Z * Z)) : Prop := mkFreeOk {
  fo_blocks : blocks_ok top B;
  fo_chain : chain h B base;
  fo_freep : exists n, (freep h, n) ∈ B
}.

Lemma hd_addr_app l l' e : hd_addr (l ++ l') e = hd_addr l (hd_addr l' e).
Proof. by destruct l as [|[a n] l]. Qed.

Lemma chain_app h l l' e : chain h (l ++ l') e <-> chain h l (hd_addr l' e) /\ chain h l' e.
Proof.
  induction l as [|[a n] l IH]; cbn [app chain]; [tauto |]. rewrite IH, hd_addr_app. tauto.
Qed.

(** Changing the headers of other addresses. *)
Lemma chain_ext h h' l e : (forall x, x ∈ l -> hp_hdr h' x.1 = hp_hdr h x.1) -> chain h l e -> chain h' l e.
Proof.
  induction l as [|[a n] l IH]; intros Hx; [done |]. intros [E C]. pose proof (Hx (a, n) ltac:(by left)) as Ha. cbn [fst] in Ha.
  split; [congruence |].
  apply IH; [|done]. intros x Hl. apply Hx. by right.
Qed.

Lemma sorted_split B1 x B2 : StronglySorted before (B1 ++ x :: B2) ->
  (forall y, y ∈ B1 -> before y x) /\ (forall y, y ∈ B2 -> before x y) /\ (forall y z, y ∈ B1 -> z ∈ B2 -> before y z) /\
  StronglySorted before B1 /\ StronglySorted before B2.
Proof.
  intros S. apply StronglySorted_app in S as (H & S1 & S2). apply StronglySorted_inv in S2 as [S2 F]. rewrite Forall_forall in F. split_and!; try done.
  - intros y Hy. apply H; [done | by left].
  - intros y z Hy Hz. apply H; [done | by right].
Qed.

Lemma sorted_join B1 x B2 : (forall y, y ∈ B1 -> before y x) -> (forall y, y ∈ B2 -> before x y) -> (forall y z, y ∈ B1 -> z ∈ B2 -> before y z) ->
  StronglySorted before B1 -> StronglySorted before B2 -> StronglySorted before (B1 ++ x :: B2).
Proof.
  intros H1 H2 H12 S1 S2. apply StronglySorted_app. split_and!; [|done | constructor; [done | by apply Forall_forall]].
  intros y z Hy [->|Hz]%elem_of_cons; auto.
Qed.

(** Sizes are not negative, so the order of two blocks is that of their addresses. *)
Lemma blocks_size top B x : blocks_ok top B -> x ∈ B -> 0 <= x.2 /\ (x.2 = 0 -> x = (base, 0)) /\ base <= x.1.
Proof.
  intros [(l & -> & F) S _] [->|Hx]%elem_of_cons; [cbn; split_and!; (done || lia) |].
  rewrite Forall_forall in F. specialize (F x Hx). apply StronglySorted_inv in S as [_ S]. rewrite Forall_forall in S. specialize (S x Hx).
  unfold before in S. cbn in S. split; [lia |]. split; [lia |]. lia.
Qed.

Section heap_lemmas.
Context (h : heap) (top : Z) (B : list (Z * Z)) (HB : blocks_ok top B) (HC : chain h B base).

Lemma ptr_at pre p n suf : B = pre ++ (p, n) :: suf -> ptr h p = hd_addr suf base /\ size h p = n.
Proof. intros E. rewrite E in HC. apply chain_app in HC as [_ [C _]]. unfold ptr, size. by rewrite C. Qed.

(** The search of free, from an address below [bp] and from one above it. *)
Lemma find_fwd bp : base < bp -> (forall x, x ∈ B -> x.1 <> bp) ->
  forall suf pre p n fuel, B = pre ++ (p, n) :: suf -> p < bp -> (length suf < fuel)%nat ->
  exists pre' q k suf', free_find fuel bp p h = Some q /\ B = pre' ++ (q, k) :: suf' /\ q < bp /\ (forall x, x ∈ suf' -> bp < x.1).
Proof.
  intros Hbp Hne. induction suf as [|[q k] suf IH]; intros pre p n fuel E Hp Hf; (destruct fuel as [|fuel]; [cbn in Hf; lia |]);
    destruct (ptr_at _ _ _ _ E) as [Hptr _]; cbn [free_find hd_addr] in *; rewrite Hptr.
  - pose proof (blocks_size top B (p, n) HB ltac:(rewrite E; apply elem_of_app; right; left)) as (_ & _ & Hb). cbn in Hb.
    destruct (Z.ltb_spec p bp); [|lia]. destruct (Z.ltb_spec bp base); [lia |]. destruct (Z.leb_spec base p); [|lia]. cbn [andb orb].
    exists pre, p, n, []. split_and!; try done. intros x Hx. by apply not_elem_of_nil in Hx.
  - assert (Hq : q <> bp) by (apply (Hne (q, k)); rewrite E; apply elem_of_app; right; right; left).
    pose proof (bo_sorted _ _ HB) as S. rewrite E in S. destruct (sorted_split _ _ _ S) as (_ & H2 & _ & _ & S2). 
    assert (Hpq : p < q).
    { specialize (H2 (q, k) ltac:(by left)). unfold before in H2. cbn in H2.
      pose proof (blocks_size top B (p, n) HB ltac:(rewrite E; apply elem_of_app; right; left)) as (Hn & _ & _). cbn in Hn. unfold HSZ in *. lia. }
    destruct (Z.ltb_spec p bp); [|lia]. destruct (Z.ltb_spec bp q) as [Hlt|Hge]; cbn [andb].
    + exists pre, p, n, ((q, k) :: suf). split_and!; try done. intros x [->|Hx]%elem_of_cons; [done |].
      apply StronglySorted_inv in S2 as [_ F]. rewrite Forall_forall in F. specialize (F x Hx). unfold before in F. cbn in F.
      pose proof (blocks_size top B (q, k) HB ltac:(rewrite E; apply elem_of_app; right; right; left)) as (Hn & _ & _). cbn in Hn. unfold HSZ in *. lia.
    + destruct (Z.leb_spec q p); [lia |]. cbn [andb]. apply (IH (pre ++ [(p, n)]) q k); [by rewrite <- app_assoc | lia | cbn in Hf; lia].
Qed.

Lemma find_ok bp : base < bp -> (forall x, x ∈ B -> x.1 <> bp) ->
  forall suf pre p n fuel, B = pre ++ (p, n) :: suf -> (length suf + length B < fuel)%nat ->
  exists pre' q k suf', free_find fuel bp p h = Some q /\ B = pre' ++ (q, k) :: suf' /\ q < bp /\ (forall x, x ∈ suf' -> bp < x.1).
Proof.
  intros Hbp Hne. induction suf as [|[q k] suf IH]; intros pre p n fuel E Hf; (destruct (Z.lt_ge_cases p bp) as [Hlt|Hge]; [apply (find_fwd bp Hbp Hne _ _ _ _ _ E Hlt); lia |]);
    (destruct fuel as [|fuel]; [lia |]); destruct (ptr_at _ _ _ _ E) as [Hptr _]; cbn [free_find hd_addr] in *; rewrite Hptr.
  - destruct (Z.ltb_spec p bp); [lia |]. cbn [andb orb]. destruct (Z.ltb_spec bp base); [lia |]. rewrite andb_false_r.
    destruct (bo_base _ _ HB) as (l & El & _). apply (find_fwd bp Hbp Hne l [] base 0); [done | done | rewrite El in Hf; cbn in Hf; lia].
  - pose proof (bo_sorted _ _ HB) as S. rewrite E in S. destruct (sorted_split _ _ _ S) as (_ & H2 & _ & _ & _).
    specialize (H2 (q, k) ltac:(by left)). unfold before in H2. cbn in H2.
    pose proof (blocks_size top B (p, n) HB ltac:(rewrite E; apply elem_of_app; right; left)) as (Hn & _ & _). cbn in Hn. unfold HSZ in *.
    destruct (Z.ltb_spec p bp); [lia |]. cbn [andb orb]. destruct (Z.leb_spec q p); [lia |]. cbn [andb].
    apply (IH (pre ++ [(p, n)]) q k); [by rewrite <- app_assoc | cbn in Hf; lia].
Qed.
End heap_lemmas.

(** ** What free does *)

Definition inside (x : Z * Z) (y : Z) : Prop := x.1 <= y < x.1 + HSZ * x.2.
Definition covers (B : list (Z * Z)) (y : Z) : Prop := exists x, x ∈ B /\ inside x y.

Lemma covers_cons x B y : covers (x :: B) y <-> inside x y \/ covers B y.
Proof. unfold covers. setoid_rewrite elem_of_cons. naive_solver. Qed.
Lemma covers_app B B' y : covers (B ++ B') y <-> covers B y \/ covers B' y.
Proof. unfold covers. setoid_rewrite elem_of_app. naive_solver. Qed.
Lemma inside_join a n k y : 0 <= n -> 0 <= k -> inside (a, n + k) y <-> inside (a, n) y \/ inside (a + HSZ * n, k) y.
Proof. unfold inside, HSZ. cbn. lia. Qed.

Lemma hdr_put a v h x : hp_hdr (put a v h) x = if decide (x = a) then v else hp_hdr h x.
Proof. done. Qed.

(** Joining [bp] with the block that follows it. *)
Lemma insert_next h h1 bp k e suf p : size h bp = k -> ptr h p = hd_addr suf e -> chain h suf e -> p <> bp -> e < bp -> 0 < k ->
  (forall x, x ∈ suf -> bp + HSZ * k <= x.1 /\ 0 < x.2 /\ k + x.2 < 2 ^ 32) -> StronglySorted before suf ->
  h1 = (if bp + HSZ * size h bp =? ptr h p
        then let h := set_size bp (size h bp + size h (ptr h p)) h in set_ptr bp (ptr h (ptr h p)) h
        else set_ptr bp (ptr h p) h) ->
  exists k1 suf1, hp_hdr h1 bp = (hd_addr suf1 e, k1) /\ freep h1 = freep h /\ (forall x, x <> bp -> hp_hdr h1 x = hp_hdr h x) /\
    chain h1 suf1 e /\ StronglySorted before suf1 /\ k <= k1 < 2 ^ 32 + k /\ (forall x, x ∈ suf1 -> x ∈ suf) /\ (forall x, x ∈ suf1 -> bp + HSZ * k1 < x.1) /\ (length suf1 <= length suf)%nat /\
    (forall y, inside (bp, k1) y \/ covers suf1 y <-> inside (bp, k) y \/ covers suf y).
Proof.
  intros Hk Hp Hc Hne He Hk0 Hsuf Hs E1. rewrite ?Hk, ?Hp in E1. destruct suf as [|[q kq] suf].
  - cbn [hd_addr] in E1. destruct (Z.eqb_spec (bp + HSZ * k) e); [unfold HSZ in *; lia |]. exists k, []. subst h1. unfold set_ptr. rewrite hdr_put, decide_True by done.
    rewrite Hk. split; [done |]. split; [done |]. split; [intros x Hx; by rewrite hdr_put, decide_False |]. split; [done |]. split; [done |].
    split; [lia |]. split; [done |]. split; [by intros x Hx%not_elem_of_nil |]. split; done.
  - cbn [hd_addr] in E1. destruct Hc as [Eq Hc]. apply StronglySorted_inv in Hs as [Hs F]. rewrite Forall_forall in F.
    assert (Hnb : forall x, x ∈ (q, kq) :: suf -> x.1 <> bp) by (intros x Hx; specialize (Hsuf x Hx); unfold HSZ in *; lia).
    destruct (Hsuf (q, kq) ltac:(by left)) as (Hq1 & Hq2 & Hq3). cbn [fst snd] in Hq1, Hq2, Hq3.
    destruct (Z.eqb_spec (bp + HSZ * k) q) as [E|E].
    + assert (Sq : size h q = kq) by (unfold size; by rewrite Eq). rewrite Sq in E1. exists (k + kq), suf. 
      assert (E2 : h1 = put bp (hd_addr suf e, k + kq) (put bp ((hp_hdr h bp).1, k + kq) h)).
      { rewrite E1. unfold set_ptr, set_size, ptr, size in *. rewrite (wrap_small 32) by lia. rewrite !hdr_put, (decide_True (P := bp = bp)), (decide_False (P := p = bp)) by done.
        rewrite Hp. cbn [hd_addr]. rewrite decide_False, Eq by (unfold HSZ in *; lia). done. }
      clear E1. subst h1. rewrite hdr_put, decide_True by done.
      assert (Hx : forall x, x <> bp -> hp_hdr (put bp (hd_addr suf e, k + kq) (put bp ((hp_hdr h bp).1, k + kq) h)) x = hp_hdr h x)
        by (intros x Hx; by rewrite !hdr_put, !decide_False).
      split; [done |]. split; [done |]. split; [exact Hx |]. split; [|split; [done |]].
      { eapply chain_ext; [|exact Hc]. intros x Hin. apply Hx, Hnb. by right. }
      split; [lia |]. split; [intros x Hin; by right |]. split.
      { intros x Hin. specialize (F x Hin). unfold before in F. cbn in F. unfold HSZ in *. lia. }
      split; [cbn; lia |]. intros y. rewrite covers_cons, inside_join by lia. rewrite E. tauto.
    + exists k, ((q, kq) :: suf). subst h1. unfold set_ptr. rewrite hdr_put, decide_True by done. rewrite Hk.
      assert (Hx : forall x, x <> bp -> hp_hdr (put bp (q, k) h) x = hp_hdr h x) by (intros x Hx; by rewrite hdr_put, decide_False).
      split; [done |]. split; [done |]. split; [exact Hx |]. split.
      { apply (chain_ext h); [|done]. intros x Hin. apply Hx, Hnb, Hin. }
      split; [constructor; [done | by apply Forall_forall] |]. split; [lia |]. split; [done |]. split; [|split; [done | done]].
      intros x [->|Hin]%elem_of_cons; [cbn; lia |]. specialize (F x Hin). unfold before in F. cbn in F. unfold HSZ in *. lia.
Qed.

(** The list with the new block in it, apart from [p] or joined to it. *)
Lemma blocks_insert top pre p n suf suf1 bp k1 : blocks_ok top (pre ++ (p, n) :: suf) -> 0 <= n -> 0 < k1 -> p + HSZ * n < bp -> bp + HSZ * k1 <= top ->
  (forall x, x ∈ suf1 -> x ∈ suf) -> (forall x, x ∈ suf1 -> bp + HSZ * k1 < x.1) -> StronglySorted before suf1 -> (forall x, x ∈ suf -> 0 < x.2) ->
  blocks_ok top (pre ++ (p, n) :: (bp, k1) :: suf1).
Proof.
  intros [(l & El & F) S T] Hn Hk Hlt Htop Hsub Haft Hs1 Hpos. destruct (sorted_split _ _ _ S) as (S1 & S2 & S12 & Spre & Ssuf). split.
  - assert (F1 : Forall (fun x : Z * Z => 0 < x.2) ((bp, k1) :: suf1)) by (constructor; [done |]; apply Forall_forall; auto).
    destruct pre as [|x pre]; cbn in El |- *; [injection El as -> -> <-; by eexists |]. injection El as -> <-. eexists. split; [reflexivity |].
    apply Forall_app in F as [F2 F3]. apply Forall_app. split; [done |]. apply Forall_cons in F3 as [F3 _]. by constructor.
  - apply sorted_join; try done.
    + intros y [->|Hy]%elem_of_cons; [unfold before; cbn; lia |]. apply S2. auto.
    + intros y z Hy [->|Hz]%elem_of_cons; [|auto]. specialize (S1 y Hy). unfold before in *. cbn in *. unfold HSZ in *. lia.
    + constructor; [done |]. apply Forall_forall. intros x Hx. unfold before. cbn. auto.
  - intros x Hx. rewrite elem_of_app, !elem_of_cons in Hx. destruct Hx as [Hx|[->|[->|Hx]]]; [apply T; apply elem_of_app; by left | | done |].
    + apply T. apply elem_of_app. right. by left.
    + apply T. apply elem_of_app. right. right. auto.
Qed.

Lemma blocks_join top pre p n suf suf1 k1 : blocks_ok top (pre ++ (p, n) :: suf) -> 0 < n -> 0 < k1 -> p + HSZ * (n + k1) <= top ->
  (forall x, x ∈ suf1 -> x ∈ suf) -> (forall x, x ∈ suf1 -> p + HSZ * (n + k1) < x.1) -> StronglySorted before suf1 -> (forall x, x ∈ suf -> 0 < x.2) ->
  blocks_ok top (pre ++ (p, n + k1) :: suf1).
Proof.
  intros [(l & El & F) S T] Hn Hk Htop Hsub Haft Hs1 Hpos. destruct (sorted_split _ _ _ S) as (S1 & S2 & S12 & Spre & Ssuf). split.
  - destruct pre as [|x pre]; cbn in El |- *; [injection El as -> -> _; lia |]. injection El as -> <-. eexists. split; [reflexivity |].
    apply Forall_app in F as [F2 _]. apply Forall_app. split; [done |]. constructor; [cbn; lia |]. apply Forall_forall. auto.
  - apply sorted_join; try done; auto.
  - intros x Hx. rewrite elem_of_app, !elem_of_cons in Hx. destruct Hx as [Hx|[->|Hx]]; [apply T; apply elem_of_app; by left | done |].
    apply T. apply elem_of_app. right. right. auto.
Qed.

(** [bp], free again, between [p] and the blocks after it. *)
Definition gap (top bp k p n : Z) (suf : list (Z * Z)) : Prop :=
  0 < k /\ p + HSZ * n <= bp /\ bp + HSZ * k <= top /\ top < 2 ^ 35 /\ (forall x, x ∈ suf -> bp + HSZ * k <= x.1).

Lemma free_insert_ok h top pre p n suf bp k : let B := pre ++ (p, n) :: suf in
  0 < base -> blocks_ok top B -> chain h B base -> size h bp = k -> base < bp -> gap top bp k p n suf ->
  exists B', free_ok (free_insert bp p h) top B' /\ (forall y, covers B' y <-> covers B y \/ inside (bp, k) y) /\
    (length B' <= S (length B))%nat /\ (forall x, x <> bp -> x <> p -> hp_hdr (free_insert bp p h) x = hp_hdr h x) /\
    (exists z, z ∈ B' /\ k <= z.2).
Proof.
  intros B Hb0 HB HC Hk Hbp (Hk0 & Hpn & Htop & H35 & Hsuf). assert (E : B = pre ++ (p, n) :: suf) by done.
  destruct (ptr_at h B HC pre p n suf E) as [Hptr Hsz]. pose proof HC as HC'. rewrite E in HC'. apply chain_app in HC' as [Cpre [Cp Csuf]]. cbn [hd_addr] in Cpre.
  assert (Hmem : forall x, x ∈ B -> 0 <= x.2 /\ (x.2 = 0 -> x = (base, 0)) /\ base <= x.1 /\ x.1 + HSZ * x.2 <= top).
  { intros x Hx. destruct (blocks_size top B x HB Hx) as (A1 & A2 & A3). pose proof (bo_top _ _ HB x Hx). auto. }
  destruct (Hmem (p, n)) as (Hn & Hn0 & Hpb & _); [rewrite E; apply elem_of_app; right; left |]. cbn [fst snd] in Hn, Hn0, Hpb.
  pose proof (bo_sorted _ _ HB) as S. rewrite E in S. destruct (sorted_split _ _ _ S) as (S1 & S2 & S12 & Spre & Ssuf).
  assert (Hpbp : p < bp).
  { destruct (Z.eq_dec n 0) as [Hz|Hz]; [specialize (Hn0 Hz); injection Hn0 as -> _; done | unfold HSZ in *; lia]. }
  assert (Hpos : forall x, x ∈ suf -> bp + HSZ * k <= x.1 /\ 0 < x.2 /\ k + x.2 < 2 ^ 32).
  { intros x Hx. destruct (Hmem x) as (A1 & A2 & A3 & A4); [rewrite E; apply elem_of_app; right; by right |]. specialize (Hsuf x Hx).
    split; [done |]. assert (x.2 <> 0) by (intros Hz; specialize (A2 Hz); subst x; cbn in Hsuf; unfold HSZ in *; lia). unfold HSZ in *. lia. }
  destruct (insert_next h _ bp k base suf p Hk Hptr Csuf ltac:(lia) Hbp Hk0 Hpos Ssuf eq_refl) as (k1 & suf1 & I1 & I2 & I3 & I4 & I5 & I6 & I7 & I8 & Hlen & I9).
  unfold free_insert. cbv zeta. set (h1 := if bp + HSZ * size h bp =? ptr h p then _ else _) in *.
  assert (Hp1 : hp_hdr h1 p = (hd_addr suf base, n)) by (rewrite I3 by lia; exact Cp).
  assert (Htop1 : bp + HSZ * k1 <= top).
  { destruct (proj1 (I9 (bp + HSZ * k1 - 1))) as [Hi|(x & Hx & Hi)]; [left; unfold inside, HSZ; cbn; lia | unfold inside in Hi; cbn in Hi; lia |].
    destruct (Hmem x) as (_ & _ & _ & A4); [rewrite E; apply elem_of_app; right; by right |]. unfold inside in Hi. lia. }
  assert (Hk1 : 0 < k1 < 2 ^ 31) by (unfold HSZ in *; lia).
  assert (Hpos' : forall x, x ∈ suf -> 0 < x.2) by (intros x Hx; apply Hpos, Hx).
  assert (Hpre : forall x, x ∈ pre -> x.1 <> p /\ x.1 <> bp).
  { intros x Hx. specialize (S1 x Hx). unfold before in S1. cbn in S1. destruct (Hmem x) as (A1 & _); [rewrite E; apply elem_of_app; by left |]. unfold HSZ in *. lia. }
  assert (Hsuf1 : forall x, x ∈ suf1 -> x.1 <> p /\ x.1 <> bp).
  { intros x Hx. specialize (I8 x Hx). unfold HSZ in *. lia. }
  assert (Ss : size h1 p = n /\ size h1 bp = k1 /\ ptr h1 bp = hd_addr suf1 base) by (unfold size, ptr; by rewrite Hp1, I1). destruct Ss as (Sp & Sb & Pb).
  rewrite Sp. destruct (Z.eqb_spec (p + HSZ * n) bp) as [Ej|Ej].
  - set (h2 := set_freep p _). assert (E2 : forall x, hp_hdr h2 x = if decide (x = p) then (hd_addr suf1 base, n + k1) else hp_hdr h1 x).
    { intros x. unfold h2, set_freep, set_ptr, set_size, ptr, size in *. cbn [hp_hdr]. rewrite !hdr_put, (decide_True (P := p = p)), (decide_False (P := bp = p)) by (done || lia).
      cbn [snd]. rewrite Sb, Pb, wrap_small by (unfold HSZ in *; lia). by destruct (decide (x = p)). }
    assert (Hn1 : 0 < n) by (unfold HSZ in *; lia).
    exists (pre ++ (p, n + k1) :: suf1). split; [split |split; [|split; [|split]]].
    + apply (blocks_join top pre p n suf suf1 k1); try done; try (unfold HSZ in *; lia).
      intros x Hx. specialize (I8 x Hx). unfold HSZ in *. lia.
    + apply chain_app. split; [|split].
      * apply (chain_ext h); [|exact Cpre]. intros x Hx. destruct (Hpre x Hx) as [A1 A2]. rewrite E2, decide_False, I3; done.
      * by rewrite E2, decide_True.
      * apply (chain_ext h1); [|exact I4]. intros x Hx. destruct (Hsuf1 x Hx) as [A1 A2]. by rewrite E2, decide_False.
    + exists (n + k1). apply elem_of_app. right. by left.
    + intros y. specialize (I9 y). rewrite E, !covers_app, !covers_cons, inside_join, Ej by lia. tauto.
    + unfold B. rewrite !length_app. cbn [length]. lia.
    + intros x A1 A2. rewrite E2, decide_False, I3; done.
    + exists (p, n + k1). split; [apply elem_of_app; right; by left | cbn; lia].
  - set (h2 := set_freep p _). assert (E2 : forall x, hp_hdr h2 x = if decide (x = p) then (bp, n) else hp_hdr h1 x).
    { intros x. unfold h2, set_freep, set_ptr. cbn [hp_hdr]. rewrite hdr_put, Sp. done. }
    exists (pre ++ (p, n) :: (bp, k1) :: suf1). split; [split |split; [|split; [|split]]].
    + apply (blocks_insert top pre p n suf suf1 bp k1); try done; lia.
    + apply chain_app. split; [|split; [|split]].
      * apply (chain_ext h); [|exact Cpre]. intros x Hx. destruct (Hpre x Hx) as [A1 A2]. rewrite E2, decide_False, I3; done.
      * by rewrite E2, decide_True.
      * rewrite E2, decide_False by lia. exact I1.
      * apply (chain_ext h1); [|exact I4]. intros x Hx. destruct (Hsuf1 x Hx) as [A1 A2]. by rewrite E2, decide_False.
    + exists n. apply elem_of_app. right. by left.
    + intros y. specialize (I9 y). rewrite E, !covers_app, !covers_cons. tauto.
    + unfold B. rewrite !length_app. cbn [length]. lia.
    + intros x A1 A2. rewrite E2, decide_False, I3; done.
    + exists (bp, k1). split; [apply elem_of_app; right; right; by left | cbn; lia].
Qed.

(** Ranges of units that do not meet. *)
Definition apart (x y : Z * Z) : Prop := x.1 + HSZ * x.2 <= y.1 \/ y.1 + HSZ * y.2 <= x.1.

Lemma free_heap h top B bp k fuel : 0 < base -> free_ok h top B -> base < bp -> size h bp = k -> 0 < k -> bp + HSZ * k <= top -> top < 2 ^ 35 ->
  (forall x, x ∈ B -> apart (bp, k) x) -> (length B + length B < fuel)%nat ->
  exists h' B', free fuel (bp + HSZ) h = Some h' /\ free_ok h' top B' /\ (forall y, covers B' y <-> covers B y \/ inside (bp, k) y) /\
    (length B' <= S (length B))%nat /\ (forall x, x <> bp -> (forall b, b ∈ B -> b.1 <> x) -> hp_hdr h' x = hp_hdr h x) /\ (exists z, z ∈ B' /\ k <= z.2).
Proof.
  intros Hb0 [HB HC (nf & Hf)] Hbp Hk Hk0 Htop H35 Hap Hfuel. unfold free. replace (bp + HSZ - HSZ) with bp by lia.
  apply list_elem_of_split in Hf as (pre & suf & E).
  assert (Hne : forall x, x ∈ B -> x.1 <> bp).
  { intros x Hx Eq. destruct (blocks_size top B x HB Hx) as (A1 & A2 & A3). destruct (Hap x Hx) as [H|H]; cbn in H; unfold HSZ in *; [lia |].
    assert (x.2 = 0) as Hz by lia. specialize (A2 Hz). subst x. cbn in Eq. lia. }
  destruct (find_ok h top B HB HC bp Hbp Hne suf pre (freep h) nf fuel E) as (pre' & q & n & suf' & Ef & E' & Hq & Hs).
  { rewrite E in Hfuel |- *. rewrite !length_app in *. cbn [length] in *. lia. }
  rewrite Ef. cbn [mbind option_bind].
  assert (Hmem : forall x, x ∈ B -> 0 <= x.2) by (intros x Hx; apply (blocks_size top B x HB Hx)).
  destruct (free_insert_ok h top pre' q n suf' bp k) as (B' & F' & C' & L' & X' & Z'); rewrite <- ?E'; try done.
  { split; [done |]. split; [|split; [done |]; split; [done |]].
    - destruct (Hap (q, n)) as [H|H]; [rewrite E'; apply elem_of_app; right; by left | cbn in H; unfold HSZ in *; lia | exact H].
    - intros x Hx. assert (Hx' : x ∈ B) by (rewrite E'; apply elem_of_app; right; by right). destruct (Hap x Hx') as [H|H]; [exact H |].
      specialize (Hs x Hx). specialize (Hmem x Hx'). cbn in H. unfold HSZ in *. lia. }
  exists (free_insert bp q h), B'. rewrite <- E' in C', L'. split; [done |]. split; [done |]. split; [done |]. split; [done |]. split; [|done].
  intros x Hx Hb. apply X'; [done |]. specialize (Hb (q, n)). cbn in Hb. intros ->. apply Hb; [|done]. rewrite E'. apply elem_of_app. right. by left.
Qed.

(** ** The search of malloc *)

Lemma take_exact h nunits prevp p : size h p = nunits -> take_block nunits prevp p h = (p + HSZ, set_freep prevp (set_ptr prevp (ptr h p) h)).
Proof. intros <-. unfold take_block. by rewrite Z.eqb_refl. Qed.

(** Walking over the blocks [t] that follow [pv]: the first one that fits is
    taken, otherwise the walk is past them. *)
Lemma walk h B nunits x y : chain h B base -> forall t pv nv pre fuel, B = pre ++ (pv, nv) :: t ++ y -> (forall b, b ∈ t -> b.1 <> freep h) ->
  x = length t ->
  (exists t1 q k t2, t = t1 ++ (q, k) :: t2 /\ nunits <= k /\ exists pre' pq nq, B = pre' ++ (pq, nq) :: (q, k) :: t2 ++ y /\
     malloc_loop (x + fuel) nunits pv (hd_addr (t ++ y) base) h = mret (take_block nunits pq q h)) \/
  ((forall b, b ∈ t -> b.2 < nunits) /\ exists pre' pv' nv', B = pre' ++ (pv', nv') :: y /\
     malloc_loop (x + fuel) nunits pv (hd_addr (t ++ y) base) h = malloc_loop fuel nunits pv' (hd_addr y base) h).
Proof.
  intros HC t. revert x. induction t as [|[q k] t IH]; intros x pv nv pre fuel E Hnf ->; cbn [app length Nat.add] in *.
  - right. split; [by intros b Hb%not_elem_of_nil |]. by exists pre, pv, nv.
  - cbn [hd_addr]. assert (E' : B = (pre ++ [(pv, nv)]) ++ (q, k) :: t ++ y) by (by rewrite <- app_assoc).
    destruct (ptr_at h B HC _ _ _ _ E') as [Hp Hs]. cbn [malloc_loop]. rewrite Hs. destruct (Z.leb_spec nunits k) as [Hfit|Hsmall].
    + left. exists [], q, k, t. split; [done |]. split; [done |]. by exists pre, pv, nv.
    + specialize (Hnf (q, k) ltac:(by left)) as Hnq. cbn in Hnq. apply Z.eqb_neq in Hnq. rewrite Hnq, Hp.
      destruct (IH (length t) q k (pre ++ [(pv, nv)]) fuel E' ltac:(intros b Hb; apply Hnf; by right) eq_refl) as [(t1 & q' & k' & t2 & -> & Hf & pre' & pq & nq & E1 & E2)|(Ha & pre' & pv' & nv' & E1 & E2)].
      * left. exists ((q, k) :: t1), q', k', t2. split; [done |]. split; [done |]. by exists pre', pq, nq.
      * right. split; [intros b [->|Hb]%elem_of_cons; [done | auto] |]. by exists pre', pv', nv'.
Qed.

Definition more (fuel : nat) (nunits : Z) (h : heap) : prog (Z * heap) :=
  r ← morecore (S fuel) nunits h;
  if r.1 =? 0 then mret (0, r.2) else malloc_loop fuel nunits r.1 (ptr r.2 r.1) r.2.

(** Addresses of free blocks are distinct. *)
Lemma sorted_distinct top B pre x suf : blocks_ok top B -> B = pre ++ x :: suf -> (forall b, b ∈ suf -> b.1 <> x.1) /\ (forall b, b ∈ pre -> b.1 <> x.1).
Proof.
  intros HB E. pose proof (bo_sorted _ _ HB) as S. rewrite E in S. destruct (sorted_split _ _ _ S) as (S1 & S2 & _).
  assert (Hm : forall b, b ∈ B -> 0 <= b.2) by (intros b Hb; apply (blocks_size top B b HB Hb)). unfold before, HSZ in *. split; intros b Hb.
  - specialize (S2 b Hb). specialize (Hm x ltac:(rewrite E; apply elem_of_app; right; by left)). lia.
  - specialize (S1 b Hb). specialize (Hm b ltac:(rewrite E; apply elem_of_app; by left)). lia.
Qed.

(** One turn around the circle, from [freep] to [freep]. *)
Lemma scan h top B nunits fuel : free_ok h top B -> 0 < nunits ->
  (exists pre pq nq q k post, B = pre ++ (pq, nq) :: (q, k) :: post /\ nunits <= k /\
     malloc_loop (length B + fuel) nunits (freep h) (ptr h (freep h)) h = mret (take_block nunits pq q h)) \/
  ((forall b, b ∈ B -> b.2 < nunits) /\ malloc_loop (length B + fuel) nunits (freep h) (ptr h (freep h)) h = more fuel nunits h).
Proof.
  intros [HB HC (nf & Hf)] Hnu. apply list_elem_of_split in Hf as (pre & suf & E). destruct (sorted_distinct top B pre _ suf HB E) as [D1 D2]. cbn [fst] in D1, D2.
  destruct (ptr_at h B HC _ _ _ _ E) as [Hp Hs].
  assert (Hstep : forall pv m, malloc_loop (S m) nunits pv (freep h) h = if nunits <=? nf then mret (take_block nunits pv (freep h) h) else more m nunits h).
  { intros pv m. cbn [malloc_loop]. by rewrite Hs, Z.eqb_refl. }
  destruct (bo_base _ _ HB) as (l & El & _).
  destruct (walk h B nunits (length suf) [] HC suf (freep h) nf pre (S (length pre) + fuel) ltac:(by rewrite app_nil_r) D1 eq_refl)
    as [(t1 & q & k & t2 & Et & Hfit & pre' & pq & nq & E1 & E2)|(Ha & pre' & pv' & nv' & E1 & E2)]; rewrite app_nil_r in E2; rewrite <- Hp in E2;
    replace (length B + fuel)%nat with (length suf + (S (length pre) + fuel))%nat by (rewrite E, length_app; cbn [length]; lia).
  { left. exists pre', pq, nq, q, k, t2. rewrite app_nil_r in E1. done. }
  rewrite E in El. destruct pre as [|b0 pre].
  - injection El as Ef En Es. cbn [hd_addr length Nat.add] in E2 |- *. right. split.
    + rewrite E. intros b [->|Hb]%elem_of_cons; [cbn; lia | auto].
    + rewrite E2, <- Ef, Hstep. destruct (Z.leb_spec nunits nf); [lia | done].
  - injection El as -> Es. cbn [hd_addr length] in E2 |- *.
    destruct (ptr_at h B HC [] base 0 (pre ++ (freep h, nf) :: suf) E) as [Hpb Hsb].
    assert (Hbf : base <> freep h) by (apply (D2 (base, 0)); by left).
    assert (E3 : malloc_loop (S (length pre + S fuel)) nunits pv' base h = malloc_loop (length pre + S fuel) nunits base (hd_addr (pre ++ (freep h, nf) :: suf) base) h).
    { cbn [malloc_loop]. rewrite Hsb. destruct (Z.leb_spec nunits 0); [lia |]. apply Z.eqb_neq in Hbf. by rewrite Hbf, Hpb. }
    replace (S (S (length pre)) + fuel)%nat with (S (length pre + S fuel)) in E2 |- * by lia.
    destruct (walk h B nunits (length pre) ((freep h, nf) :: suf) HC pre base 0 [] (S fuel) E ltac:(intros b Hb; apply D2; by right) eq_refl)
      as [(t1 & q & k & t2 & Et & Hfit & pre2 & pq & nq & E4 & E5)|(Ha2 & pre2 & pv2 & nv2 & E4 & E5)].
    + left. exists pre2, pq, nq, q, k, (t2 ++ (freep h, nf) :: suf). split; [done |]. split; [done |]. rewrite E2, E3. exact E5.
    + cbn [hd_addr] in E5. rewrite Hstep in E5. destruct (Z.leb_spec nunits nf) as [Hfit|Hsmall].
      * left. exists pre2, pv2, nv2, (freep h), nf, suf. split; [done |]. split; [done |]. by rewrite E2, E3.
      * right. split; [|by rewrite E2, E3]. rewrite E. intros b Hb. rewrite elem_of_app, !elem_of_cons in Hb. destruct Hb as [[->|Hb]|[->|Hb]]; [cbn; lia | auto | done | auto].
Qed.

(** ** What malloc takes *)

Lemma blocks_remove top pre x y post : blocks_ok top (pre ++ x :: y :: post) -> blocks_ok top (pre ++ x :: post).
Proof.
  intros [(l & El & F) S T]. destruct (sorted_split _ _ _ S) as (S1 & S2 & S12 & Sp & Sy). apply StronglySorted_inv in Sy as [Sy _]. split.
  - destruct pre as [|b pre]; cbn in El |- *; injection El as -> <-.
    + exists post. apply Forall_cons in F as [_ F]. done.
    + eexists. split; [reflexivity |]. apply Forall_app in F as [F1 F2]. apply Forall_cons in F2 as [F2 F3]. apply Forall_cons in F3 as [_ F3].
      apply Forall_app. split; [done | by constructor].
  - apply sorted_join; try done; intros; [apply S2 | apply S12]; try done; by right.
  - intros b Hb. apply T. rewrite elem_of_app, !elem_of_cons in *. tauto.
Qed.

Lemma blocks_shrink top pre x q k k' post : blocks_ok top (pre ++ x :: (q, k) :: post) -> 0 < k' <= k -> blocks_ok top (pre ++ x :: (q, k') :: post).
Proof.
  intros [(l & El & F) S T] Hk. destruct (sorted_split _ _ _ S) as (S1 & S2 & S12 & Sp & Sy). apply StronglySorted_inv in Sy as [Sy Fy]. rewrite Forall_forall in Fy. split.
  - destruct pre as [|b pre]; cbn in El |- *; injection El as -> <-.
    + eexists. split; [reflexivity |]. apply Forall_cons in F as [_ F]. constructor; [cbn; lia | done].
    + eexists. split; [reflexivity |]. apply Forall_app in F as [F1 F2]. apply Forall_cons in F2 as [F2 F3]. apply Forall_cons in F3 as [_ F3].
      apply Forall_app. split; [done |]. constructor; [done |]. constructor; [cbn; lia | done].
  - apply sorted_join; try done.
    + intros y [->|Hy]%elem_of_cons; [apply (S2 (q, k)); by left | apply S2; by right].
    + intros y z Hy [->|Hz]%elem_of_cons; [apply (S12 y (q, k)); [done | by left] | apply S12; [done | by right]].
    + constructor; [done |]. apply Forall_forall. intros y Hy. specialize (Fy y Hy). unfold before, HSZ in *. cbn in *. lia.
  - intros b Hb. rewrite elem_of_app, !elem_of_cons in Hb. assert (Ht : (q, k).1 + HSZ * (q, k).2 <= top) by (apply T; rewrite elem_of_app, !elem_of_cons; tauto).
    destruct Hb as [Hb|[Hb|[->|Hb]]]; [apply T; rewrite elem_of_app, !elem_of_cons; tauto .. | cbn in *; unfold HSZ in *; lia |].
    apply T. rewrite elem_of_app, !elem_of_cons. tauto.
Qed.

Section take.
Context (h : heap) (top : Z) (pre : list (Z * Z)) (pq nq q k : Z) (post : list (Z * Z)) (nunits : Z).
Notation B := (pre ++ (pq, nq) :: (q, k) :: post).
Context (HB : blocks_ok top B) (HC : chain h B base) (Hnu : 0 < nunits <= k) (H35 : top < 2 ^ 35) (Hb0 : 0 < base).

(** The block at [a] is taken out of [B]; [B'] is what is left. *)
Record taken (a : Z) (h' : heap) (B' : list (Z * Z)) : Prop := mkTaken {
  tk_free : free_ok h' top B';
  tk_size : size h' a = nunits;
  tk_base : base < a;
  tk_from : exists b, b ∈ B /\ b.1 <= a /\ a + HSZ * nunits <= b.1 + HSZ * b.2;
  tk_apart : forall x, x ∈ B' -> apart (a, nunits) x;
  tk_sub : forall x, x ∈ B' -> exists b, b ∈ B /\ b.1 = x.1 /\ x.2 <= b.2;
  tk_len : (length B' <= length B)%nat;
  tk_frame : forall x, x <> a -> (forall b, b ∈ B -> b.1 <> x) -> hp_hdr h' x = hp_hdr h x
}.

Lemma take_facts : (forall b, b ∈ pre -> before b (pq, nq) /\ before b (q, k)) /\ before (pq, nq) (q, k) /\ (forall b, b ∈ post -> before (q, k) b) /\
  (forall b, b ∈ B -> 0 <= b.2 /\ base <= b.1 /\ b.1 + HSZ * b.2 <= top) /\
  hp_hdr h pq = (q, nq) /\ hp_hdr h q = (hd_addr post base, k) /\ chain h pre pq /\ chain h post base.
Proof.
  pose proof (bo_sorted _ _ HB) as S. destruct (sorted_split _ _ _ S) as (S1 & S2 & S12 & _ & Sy). apply StronglySorted_inv in Sy as [_ Fy]. rewrite Forall_forall in Fy.
  pose proof HC as HC'. apply chain_app in HC' as [Cpre (Cp & Cq & Cpost)]. cbn [hd_addr] in *. split; [|split; [|split; [|split]]]; try done.
  - intros b Hb. split; [auto |]. apply S12; [done | by left].
  - apply S2. by left.
  - intros b Hb. destruct (blocks_size top B b HB Hb) as (A1 & _ & A3). pose proof (bo_top _ _ HB b Hb). auto.
Qed.

Lemma take_exact_ok : k = nunits -> taken q (set_freep pq (set_ptr pq (ptr h q) h)) (pre ++ (pq, nq) :: post).
Proof.
  intros Ek. destruct take_facts as (F1 & F2 & F3 & Hm & Cp & Cq & Cpre & Cpost). unfold before in *. cbn [fst snd] in *.
  destruct (Hm (q, k)) as (Q1 & Q2 & Q3); [rewrite elem_of_app, !elem_of_cons; tauto |]. destruct (Hm (pq, nq)) as (P1 & P2 & P3); [rewrite elem_of_app, !elem_of_cons; tauto |].
  cbn [fst snd] in *. set (h' := set_freep _ _).
  assert (E2 : forall x, hp_hdr h' x = if decide (x = pq) then (hd_addr post base, nq) else hp_hdr h x) by (intros x; cbn; unfold ptr, size; by rewrite Cp, Cq).
  assert (Hout : forall b, b ∈ pre ++ post -> b.1 <> pq).
  { intros b [Hb|Hb]%elem_of_app; [destruct (F1 b Hb) as [A _]; destruct (Hm b) as (A1 & _); [rewrite elem_of_app; tauto | unfold HSZ in *; lia] | specialize (F3 b Hb); unfold HSZ in *; lia]. }
  split.
  - split; [by eapply blocks_remove | | exists nq; apply elem_of_app; right; by left]. apply chain_app. split; [|split].
    + apply (chain_ext h); [|exact Cpre]. intros x Hx. rewrite E2, decide_False; [done |]. apply Hout, elem_of_app. by left.
    + by rewrite E2, decide_True.
    + apply (chain_ext h); [|exact Cpost]. intros x Hx. rewrite E2, decide_False; [done |]. apply Hout, elem_of_app. by right.
  - unfold size. rewrite E2, decide_False, Cq by (unfold HSZ in *; lia). done.
  - unfold HSZ in *. lia.
  - exists (q, k). cbn. split; [rewrite elem_of_app, !elem_of_cons; tauto | lia].
  - intros x Hx. rewrite elem_of_app, elem_of_cons in Hx. unfold apart. cbn [fst snd]. subst k.
    destruct Hx as [Hx|[->|Hx]]; [destruct (F1 x Hx); right; lia | right; cbn; lia | left; specialize (F3 x Hx); lia].
  - intros x Hx. exists x. split; [rewrite elem_of_app, !elem_of_cons in *; tauto | lia].
  - rewrite !length_app. cbn [length]. lia.
  - intros x Hx Hb. rewrite E2, decide_False; [done |]. intros ->. apply (Hb (pq, nq)); [rewrite elem_of_app, !elem_of_cons; tauto | done].
Qed.

Lemma take_split_ok : nunits < k -> let a := q + HSZ * (k - nunits) in
  taken a (set_freep pq (set_size a nunits (set_size q (k - nunits) h))) (pre ++ (pq, nq) :: (q, k - nunits) :: post).
Proof.
  intros Ek a. destruct take_facts as (F1 & F2 & F3 & Hm & Cp & Cq & Cpre & Cpost). unfold before in *. cbn [fst snd] in *.
  destruct (Hm (q, k)) as (Q1 & Q2 & Q3); [rewrite elem_of_app, !elem_of_cons; tauto |]. destruct (Hm (pq, nq)) as (P1 & P2 & P3); [rewrite elem_of_app, !elem_of_cons; tauto |].
  cbn [fst snd] in *. set (h' := set_freep _ _). assert (Ha : q < a /\ pq < a /\ a < q + HSZ * k) by (unfold a, HSZ in *; lia).
  assert (E2 : forall x, x <> a -> hp_hdr h' x = if decide (x = q) then (hd_addr post base, k - nunits) else hp_hdr h x).
  { intros x Hx. unfold h', set_freep, set_size, ptr. cbn [hp_hdr]. rewrite hdr_put, decide_False by done. rewrite hdr_put. rewrite Cq, wrap_small by (unfold HSZ in *; lia). done. }
  assert (Hout : forall b, b ∈ pre ++ post -> b.1 <> a /\ b.1 <> q).
  { intros b [Hb|Hb]%elem_of_app; [destruct (F1 b Hb) as [_ A]; destruct (Hm b) as (A1 & _); [rewrite elem_of_app; tauto | unfold HSZ in *; lia] | specialize (F3 b Hb); unfold a, HSZ in *; lia]. }
  split.
  - split; [apply (blocks_shrink _ _ _ _ k); [done | lia] | | exists nq; apply elem_of_app; right; by left]. apply chain_app. split; [|split; [|split]].
    + apply (chain_ext h); [|exact Cpre]. intros x Hx. destruct (Hout x) as [A1 A2]; [apply elem_of_app; by left |]. by rewrite E2, decide_False.
    + rewrite E2, decide_False by (unfold HSZ in *; lia). exact Cp.
    + rewrite E2, decide_True by (done || lia). done.
    + apply (chain_ext h); [|exact Cpost]. intros x Hx. destruct (Hout x) as [A1 A2]; [apply elem_of_app; by right |]. by rewrite E2, decide_False.
  - unfold size, h', set_freep, set_size. cbn [hp_hdr]. rewrite hdr_put, decide_True by done. cbn. apply wrap_small. unfold HSZ in *. lia.
  - lia.
  - exists (q, k). cbn [fst snd]. split; [rewrite elem_of_app, !elem_of_cons; tauto | unfold a, HSZ in *; lia].
  - intros x Hx. rewrite elem_of_app, !elem_of_cons in Hx. unfold apart. cbn [fst snd].
    destruct Hx as [Hx|[->|[->|Hx]]]; [destruct (F1 x Hx); right; lia | right; cbn; lia | right; cbn; lia | left; specialize (F3 x Hx); unfold a, HSZ in *; lia].
  - intros x Hx. rewrite elem_of_app, !elem_of_cons in Hx. destruct Hx as [Hx|[->|[->|Hx]]];
      [exists x | exists (pq, nq) | exists (q, k) | exists x]; (split; [rewrite elem_of_app, !elem_of_cons; tauto | cbn [fst snd]; lia]).
  - rewrite !length_app. cbn [length]. lia.
  - intros x Hx Hb. rewrite E2, decide_False; [done | | done]. intros ->. apply (Hb (q, k)); [rewrite elem_of_app, !elem_of_cons; tauto | done].
Qed.

Lemma take_block_ok : exists a h' B', take_block nunits pq q h = (a + HSZ, h') /\ taken a h' B'.
Proof.
  destruct take_facts as (_ & F2 & _ & Hm & _ & Cq & _). destruct (Hm (q, k)) as (Q1 & Q2 & Q3); [rewrite elem_of_app, !elem_of_cons; tauto |]. cbn in Q1, Q2, Q3.
  assert (Sq : size h q = k) by (unfold size; by rewrite Cq). destruct (Z.eq_dec k nunits) as [Ek|Ek].
  - eexists q, _, _. rewrite take_exact by congruence. split; [done | by apply take_exact_ok].
  - eexists (q + HSZ * (k - nunits)), _, _. unfold take_block. rewrite Sq. apply Z.eqb_neq in Ek as Ek'. rewrite Ek'. split; [|apply take_split_ok; lia].
    cbv zeta. replace (size (set_size q (k - nunits) h) q) with (k - nunits); [done |]. unfold size, set_size. rewrite hdr_put, decide_True by done.
    cbn. rewrite wrap_small; [done |]. unfold HSZ in *. lia.
Qed.
End take.

(** ** The heap: free blocks and blocks in use

    [live] are the blocks handed out, as ranges of units with their header. *)
Record heap_inv (h : heap) (top : Z) (B live : list (Z * Z)) : Prop := mkHeapInv {
  hi_free : free_ok h top B;
  hi_top : base + HSZ <= top < 2 ^ 35;
  hi_live : forall x, x ∈ live -> 0 < x.2 /\ base < x.1 /\ x.1 + HSZ * x.2 <= top /\ size h x.1 = x.2 /\ forall b, b ∈ B -> apart x b;
  hi_pair : StronglySorted apart live
}.

Lemma apart_disjoint x b y : apart x b -> inside x y -> inside b y -> False.
Proof. unfold apart, inside. lia. Qed.

Lemma disjoint_apart x b : 0 < x.2 -> 0 < b.2 -> (forall y, inside x y -> inside b y -> False) -> apart x b.
Proof.
  intros Hx Hb Hd. unfold apart. destruct (Z.le_gt_cases (x.1 + HSZ * x.2) b.1); [by left |]. destruct (Z.le_gt_cases (b.1 + HSZ * b.2) x.1); [by right |].
  exfalso. apply (Hd (Z.max x.1 b.1)); unfold inside, HSZ in *; lia.
Qed.

Section inv_lemmas.
Context (h : heap) (top : Z) (B live : list (Z * Z)) (Hb0 : 0 < base) (HI : heap_inv h top B live).

(** The header of a block in use is not one of the free list's. *)
Lemma live_header x b : x ∈ live -> b ∈ B -> b.1 <> x.1.
Proof.
  intros Hx Hb E. destruct (hi_live _ _ _ _ HI x Hx) as (X1 & X2 & _ & _ & Xa). destruct (blocks_size top B b (fo_blocks _ _ _ (hi_free _ _ _ _ HI)) Hb) as (A1 & A2 & _).
  destruct (Xa b Hb) as [H|H]; unfold HSZ in *; [lia |]. assert (b.2 = 0) as Hz by lia. specialize (A2 Hz). subst b. cbn in E. lia.
Qed.

Lemma inv_taken pre pq nq q k post nunits a h' B' : B = pre ++ (pq, nq) :: (q, k) :: post -> 0 < nunits -> taken h top pre pq nq q k post nunits a h' B' ->
  heap_inv h' top B' ((a, nunits) :: live).
Proof.
  intros E Hnu [T1 T2 T3 (b0 & Tb & T4 & T4') T5 T6 T7 T8]. rewrite <- E in *. pose proof HI as [Hf Ht Hl Hp].
  assert (Hap : forall x, x ∈ live -> apart (a, nunits) x).
  { intros x Hx. destruct (Hl x Hx) as (X1 & _ & _ & _ & Xa). specialize (Xa b0 Tb). unfold apart in *. cbn. lia. }
  split; [done | done | |].
  - intros x [->|Hx]%elem_of_cons; cbn [fst snd].
    + pose proof (bo_top _ _ (fo_blocks _ _ _ Hf) b0 Tb). split_and!; try done. lia.
    + destruct (Hl x Hx) as (X1 & X2 & X3 & X4 & Xa). split_and!; try done.
      * rewrite <- X4. unfold size. rewrite T8; [done | |].
        -- specialize (Xa b0 Tb). unfold apart in Xa. unfold HSZ in *. lia.
        -- intros b Hb. by apply live_header.
      * intros b Hb. destruct (T6 b Hb) as (b1 & Hb1 & E1 & Hle). specialize (Xa b1 Hb1). unfold apart, HSZ in *. lia.
  - constructor; [done |]. apply Forall_forall. exact Hap.
Qed.

(** A block of nobody's becomes free. *)
Lemma inv_freed bp k h' B' l : (forall x, x ∈ l -> x ∈ live /\ apart (bp, k) x) -> StronglySorted apart l -> free_ok h' top B' ->
  (forall y, covers B' y <-> covers B y \/ inside (bp, k) y) -> 0 < k -> (forall x, x <> bp -> (forall b, b ∈ B -> b.1 <> x) -> hp_hdr h' x = hp_hdr h x) ->
  heap_inv h' top B' l.
Proof.
  intros Hsub Hs Hf Hc Hk Hfr. pose proof HI as [_ Ht Hl _]. split; [done | done | | done]. intros x Hx. destruct (Hsub x Hx) as [Hin Hapx].
  destruct (Hl x Hin) as (X1 & X2 & X3 & X4 & Xa). split_and!; try done.
  - rewrite <- X4. unfold size. rewrite Hfr; [done | | intros b Hb; by apply live_header]. unfold apart, HSZ in Hapx. cbn in Hapx. lia.
  - intros b Hb. destruct (blocks_size top B' b (fo_blocks _ _ _ Hf) Hb) as (A1 & A2 & A3). destruct (Z.eq_dec b.2 0) as [Hz|Hz].
    + right. rewrite (A2 Hz). unfold HSZ. cbn. lia.
    + apply disjoint_apart; [done | lia |]. intros y Hy Hby. destruct (proj1 (Hc y)) as [(b1 & Hb1 & Hi)|Hi]; [by exists b | |].
      * by apply (apart_disjoint x b1 y (Xa b1 Hb1)).
      * by apply (apart_disjoint (bp, k) x y Hapx).
Qed.
End inv_lemmas.

Lemma blocks_mono top top' B : blocks_ok top B -> top <= top' -> blocks_ok top' B.
Proof. intros [A S T] Hle. split; try done. intros x Hx. specialize (T x Hx). lia. Qed.

(** New memory from the system, with its size in its header. *)
Lemma inv_grow h top B live n : heap_inv h top B live -> 0 < n -> top + HSZ * n < 2 ^ 35 -> 0 < base ->
  heap_inv (set_size top n h) (top + HSZ * n) B live /\ size (set_size top n h) top = n /\ (forall x, x ∈ B \/ x ∈ live -> apart (top, n) x).
Proof.
  intros [[HB HC [nf Hf]] Ht Hl Hp] Hn H35 Hb0.
  assert (Hx : forall x, x <> top -> hp_hdr (set_size top n h) x = hp_hdr h x) by (intros x Hx; unfold set_size; by rewrite hdr_put, decide_False).
  assert (Hb : forall x, x ∈ B -> x.1 <> top).
  { intros x Hx'. pose proof (bo_top _ _ HB x Hx'). destruct (blocks_size top B x HB Hx') as (A1 & A2 & A3). destruct (Z.eq_dec x.2 0) as [Hz|Hz]; [rewrite (A2 Hz); cbn; unfold HSZ in *; lia | unfold HSZ in *; lia]. }
  split; [split | split].
  - split; [eapply blocks_mono; [done | unfold HSZ; lia] | | by exists nf]. apply (chain_ext h); [|done]. intros x Hx'. apply Hx. by apply Hb.
  - unfold HSZ in *. lia.
  - intros x Hx'. destruct (Hl x Hx') as (X1 & X2 & X3 & X4 & Xa). split_and!; try done; [unfold HSZ in *; lia |].
    unfold size. rewrite Hx; [done |]. unfold HSZ in *. lia.
  - done.
  - unfold size, set_size. rewrite hdr_put, decide_True by done. cbn. apply wrap_small. unfold HSZ in *. lia.
  - intros x [Hx'|Hx']; right; [pose proof (bo_top _ _ HB x Hx') | destruct (Hl x Hx') as (_ & _ & ? & _)]; cbn; lia.
Qed.

Lemma pair_remove l1 x l2 : StronglySorted apart (l1 ++ x :: l2) -> StronglySorted apart (l1 ++ l2) /\ forall y, y ∈ l1 ++ l2 -> apart x y.
Proof.
  intros S. apply StronglySorted_app in S as (S12 & S1 & S2). apply StronglySorted_inv in S2 as [S2 F]. rewrite Forall_forall in F. split.
  - apply StronglySorted_app. split_and!; try done. intros a b Ha Hb. apply S12; [done | by right].
  - intros y [Hy|Hy]%elem_of_app; [|auto]. specialize (S12 y x Hy ltac:(by left)). unfold apart in *. tauto.
Qed.

Lemma free_inv h top B live l1 bp n l2 fuel : 0 < base -> heap_inv h top B live -> live = l1 ++ (bp, n) :: l2 -> (length B + length B < fuel)%nat ->
  exists h' B', free fuel (bp + HSZ) h = Some h' /\ heap_inv h' top B' (l1 ++ l2) /\ (length B' <= S (length B))%nat /\
    (forall y, covers B' y <-> covers B y \/ inside (bp, n) y) /\ (exists z, z ∈ B' /\ n <= z.2).
Proof.
  intros Hb0 HI -> Hf. pose proof HI as [Hfr Ht Hl Hp]. destruct (Hl (bp, n)) as (X1 & X2 & X3 & X4 & Xa); [apply elem_of_app; right; by left |]. cbn [fst snd] in *.
  destruct (free_heap h top B bp n fuel Hb0 Hfr X2 X4 X1 X3 ltac:(lia) Xa Hf) as (h' & B' & E & F' & C' & L' & X' & Z').
  destruct (pair_remove _ _ _ Hp) as [Hp' Ha]. exists h', B'. split; [done |]. split; [|done].
  apply (inv_freed h top B (l1 ++ (bp, n) :: l2) HI bp n h' B' (l1 ++ l2)); try done. intros x Hx. split; [|by apply Ha].
  rewrite elem_of_app, elem_of_cons in *. tauto.
Qed.

(** ** Memory from the system *)

Section with_os.
Context {St : Type} (O : sbrk_os St) (HO : sbrk_ok O) (Hb0 : 0 < base).

Lemma morecore_run h B live nu s fuel : heap_inv h (sb_brk O s) B live -> 0 < nu < 2 ^ 27 -> sb_brk O s + 2 ^ 31 < 2 ^ 35 -> (length B + length B < fuel)%nat ->
  exists r s', run (sb_sys O) (morecore fuel nu h) s = (Returned r, s') /\
    ((r = (0, h) /\ sb_brk O s' = sb_brk O s) \/
     exists h' B', r = (freep h', h') /\ freep h' <> 0 /\ heap_inv h' (sb_brk O s') B' live /\ (length B' <= S (length B))%nat /\ (exists z, z ∈ B' /\ nu <= z.2)).
Proof.
  intros HI Hnu H35 Hf. unfold morecore. set (n := if nu <? 4096 then 4096 else nu). assert (Hn : nu <= n < 2 ^ 27) by (unfold n; destruct (Z.ltb_spec nu 4096); lia).
  rewrite run_call_. replace (i32 (n * HSZ)) with (n * 16) by (rewrite signed_small; unfold HSZ; lia). destruct (HO s (n * 16) ltac:(lia)) as [[E1 E2]|[E1 E2]]; rewrite E1.
  { change (-1 =? -1) with true. eexists _, _. split; [reflexivity |]. left. done. }
  pose proof (hi_top _ _ _ _ HI) as Ht. destruct (Z.eqb_spec (sb_brk O s) (-1)); [unfold HSZ in *; lia |].
  destruct (inv_grow h _ B live n HI ltac:(lia) ltac:(unfold HSZ; lia) Hb0) as (HI' & Hsz & Hap). cbv zeta. set (h1 := set_size (sb_brk O s) n h) in *.
  pose proof HI' as [Hfr Ht' _ Hp]. destruct (free_heap h1 _ B (sb_brk O s) n fuel Hb0 Hfr ltac:(unfold HSZ in *; lia) Hsz ltac:(lia) ltac:(lia) ltac:(lia)) as (h' & B' & E & F' & C' & L' & X' & Z'); [by intros x Hx; apply Hap; left | done |].
  rewrite E. eexists _, _. split; [reflexivity |]. right. exists h', B'. split; [done |]. destruct F' as [FB FC [nf Ff]].
  destruct (blocks_size _ B' _ FB Ff) as (_ & _ & A3). cbn in A3. split; [lia |]. split; [|split; [done |]].
  - rewrite E2. replace (n * 16) with (HSZ * n) by (unfold HSZ; lia). apply (inv_freed h1 _ B live HI' (sb_brk O s) n h' B' live); try done; [|by split; [done | done | by exists nf] | lia].
    intros x Hx. split; [done |]. apply Hap. by right.
  - destruct Z' as (z & Hz & Hzn). exists z. split; [done | lia].
Qed.

(** One turn that finds a block. *)
Lemma found h top B live nunits fuel s : heap_inv h top B live -> 0 < nunits -> (exists z, z ∈ B /\ nunits <= z.2) -> (length B <= fuel)%nat ->
  exists a h' B', run (sb_sys O) (malloc_loop fuel nunits (freep h) (ptr h (freep h)) h) s = (Returned (a + HSZ, h'), s) /\ base < a /\
    heap_inv h' top B' ((a, nunits) :: live) /\ (length B' <= length B)%nat.
Proof.
  intros HI Hnu (z & Hz & Hzn) Hf. pose proof HI as [Hfr Ht _ _]. replace fuel with (length B + (fuel - length B))%nat by lia.
  destruct (scan h top B nunits (fuel - length B) Hfr Hnu) as [(pre & pq & nq & q & k & post & E & Hfit & Es)|[Hall _]]; [|specialize (Hall z Hz); lia].
  rewrite Es. pose proof Hfr as [HB HC _]. rewrite E in HB, HC. destruct (take_block_ok h top pre pq nq q k post nunits HB HC ltac:(lia) ltac:(lia) Hb0) as (a & h' & B' & Et & T).
  exists a, h', B'. rewrite Et. split; [done |]. split; [apply (tk_base _ _ _ _ _ _ _ _ _ _ _ _ T) |]. split; [by eapply inv_taken | rewrite E; apply (tk_len _ _ _ _ _ _ _ _ _ _ _ _ T)].
Qed.

Lemma malloc_loop_run h B live nunits fuel s : heap_inv h (sb_brk O s) B live -> 0 < nunits < 2 ^ 27 -> sb_brk O s + 2 ^ 31 < 2 ^ 35 ->
  (3 * length B + 2 < fuel)%nat ->
  exists a h' s', run (sb_sys O) (malloc_loop fuel nunits (freep h) (ptr h (freep h)) h) s = (Returned (a, h'), s') /\
    ((a = 0 /\ h' = h /\ sb_brk O s' = sb_brk O s) \/
     (a <> 0 /\ exists B', heap_inv h' (sb_brk O s') B' ((a - HSZ, nunits) :: live) /\ (length B' <= S (length B))%nat)).
Proof.
  intros HI Hnu H35 Hf. pose proof HI as [Hfr Ht _ _].
  destruct (decide (Exists (fun z => nunits <= z.2) B)) as [Hex|Hno].
  - apply Exists_exists in Hex as (z & Hz & Hzn).
    destruct (found h _ B live nunits fuel s HI ltac:(lia)) as (a & h' & B' & E & Ha & HI' & L); [by exists z | lia |].
    exists (a + HSZ), h', s. split; [done |]. right. split; [unfold HSZ; lia |]. exists B'. replace (a + HSZ - HSZ) with a by lia. split; [done | lia].
  - replace fuel with (length B + (fuel - length B))%nat by lia. set (g := (fuel - length B)%nat) in *.
    destruct (scan h _ B nunits g Hfr ltac:(lia)) as [(pre & pq & nq & q & k & post & E & Hfit & _)|[Hall E]].
    { exfalso. apply Hno, Exists_exists. exists (q, k). split; [|done]. rewrite E, elem_of_app, !elem_of_cons. tauto. }
    rewrite E. unfold more. destruct (morecore_run h B live nunits s (S g) HI Hnu H35 ltac:(lia)) as (r & s1 & E1 & [[-> E2]|(h1 & B1 & -> & Hnz & HI1 & L1 & Hz)]);
      rewrite (run_bind_Returned _ _ _ _ _ _ E1); cbn [fst snd].
    + exists 0, h, s1. split; [done |]. by left.
    + apply Z.eqb_neq in Hnz. rewrite Hnz. destruct (found h1 _ B1 live nunits g s1 HI1 ltac:(lia) Hz) as (a & h' & B' & E3 & Ha & HI' & L); [lia |].
      exists (a + HSZ), h', s1. split; [done |]. right. split; [unfold HSZ; lia |]. exists B'. replace (a + HSZ - HSZ) with a by lia. split; [done | lia].
Qed.
End with_os.
End umalloc.

(** C38: [malloc] and [free] keep the heap in order.  From a heap whose free list
    and blocks in use do not overlap, [malloc] returns 0 and changes nothing, or
    the address of a block of the size asked for that overlaps neither a free
    block nor a block in use; freeing that block, or any other, makes exactly
    its bytes free again.  The free list stays sorted, circular and without
    adjacent blocks throughout. *)
Theorem malloc_free_safe {St : Type} (O : sbrk_os St) (HO : sbrk_ok O) (base : Z) (Hb0 : 0 < base) (h : heap) (s : St) (B live : list (Z * Z)) (nbytes : Z) (fuel : nat)
    (HI : heap_inv base (started base h) (sb_brk O s) B live) (Hn : 0 <= nbytes < 2 ^ 30) (H35 : sb_brk O s + 2 ^ 31 < 2 ^ 35) (Hf : (3 * length B + 5 < fuel)%nat) :
  (exists a h' s', run (sb_sys O) (malloc base fuel nbytes h) s = (Returned (a, h'), s') /\
    ((a = 0 /\ h' = started base h /\ sb_brk O s' = sb_brk O s) \/
     (a <> 0 /\ exists B' n, heap_inv base h' (sb_brk O s') B' ((a - HSZ, n) :: live) /\ nbytes <= HSZ * n - HSZ /\
        exists h'' B'', free fuel a h' = Some h'' /\ heap_inv base h'' (sb_brk O s') B'' live))) /\
  (forall l1 bp n l2, live = l1 ++ (bp, n) :: l2 -> exists h' B', free fuel (bp + HSZ) (started base h) = Some h' /\
     heap_inv base h' (sb_brk O s) B' (l1 ++ l2) /\ forall y, covers B' y <-> covers B y \/ inside (bp, n) y).
Proof.
  set (n := u32 ((nbytes + HSZ - 1) / HSZ + 1)). assert (En : n = (nbytes + 15) / 16 + 1).
  { unfold n. unfold HSZ. replace (nbytes + 16 - 1) with (nbytes + 15) by lia. rewrite wrap_small; [done |]. pose proof (Z.div_pos (nbytes + 15) 16 ltac:(lia) ltac:(lia)).
    pose proof (Z.div_le_upper_bound (nbytes + 15) 16 (2 ^ 27) ltac:(lia) ltac:(lia)). lia. }
  assert (Hr : nbytes <= 16 * n - 16 /\ 0 < n < 2 ^ 27).
  { rewrite En. pose proof (Z.div_mod (nbytes + 15) 16 ltac:(lia)). pose proof (Z.mod_pos_bound (nbytes + 15) 16 ltac:(lia)). lia. }
  split.
  - destruct (malloc_loop_run base O HO Hb0 (started base h) B live n fuel s HI ltac:(lia) H35 ltac:(lia)) as (a & h' & s' & E & H).
    exists a, h', s'. split; [exact E |]. destruct H as [H|(Ha & B' & HI' & L)]; [by left | right]. split; [done |]. exists B', n. split; [done |]. split; [unfold HSZ; lia |].
    destruct (free_inv base h' _ B' _ [] (a - HSZ) n live fuel Hb0 HI' eq_refl ltac:(lia)) as (h'' & B'' & E' & HI'' & _). exists h'', B''.
    replace (a - HSZ + HSZ) with a in E' by lia. done.
  - intros l1 bp k l2 El. destruct (free_inv base _ _ B live l1 bp k l2 fuel Hb0 HI El ltac:(lia)) as (h' & B' & E & HI' & _ & C & _). by exists h', B'.
Qed.

(** A program that has not allocated yet: the heap starts at 0x4000. *)
Definition demo_sbrk : sbrk_os Z := mkSbrkOs Z (fun c s => match c with SysSbrk n => ((s, []), s + n) | _ => ((-1, []), s) end) id.
Definition demo_heap : heap := mkHeap (fun _ => (0, 0)) 0.

Lemma malloc_free_safe_witness : exists a h' s', run (sb_sys demo_sbrk) (malloc 0x3000 10 100 demo_heap) 0x4000 = (Returned (a, h'), s') /\
  exists B' n, heap_inv 0x3000 h' s' B' [(a - HSZ, n)] /\ 100 <= HSZ * n - HSZ.
Proof.
  destruct (malloc_free_safe demo_sbrk (fun s n _ => or_intror (conj eq_refl eq_refl)) 0x3000 ltac:(lia) demo_heap 0x4000 [(0x3000, 0)] [] 100 10)
    as [(a & h' & s' & E & H) _].
  - split.
    + split; [split | |].
      * exists []. split; [reflexivity | constructor].
      * constructor; [constructor | constructor].
      * intros x Hx%list_elem_of_singleton. subst. cbn. unfold HSZ. lia.
      * cbn. split; [reflexivity | exact Logic.I].
      * exists 0. by left.
    + cbn. unfold HSZ. lia.
    + intros x Hx%not_elem_of_nil. destruct Hx.
    + constructor.
  - lia.
  - cbn. lia.
  - cbn. lia.
  - exists a, h', s'. split; [exact E |]. destruct H as [[H _]|(_ & B' & n & HI & Hn & _)]; [|exists B', n; split; [exact HI | exact Hn]].
    assert (Ha : match (run (sb_sys demo_sbrk) (malloc 0x3000 10 100 demo_heap) 0x4000).1 with Returned (a, _) => a =? 0 | _ => true end = false) by (vm_compute; reflexivity).
    rewrite E, H in Ha. discriminate Ha.
Defined.
