(* ===== verification/Sh.v ===== *)
(** * user/sh.c: the shell

    The line is a C string.  A pointer into it is the rest of the line from
    there on (so [s < es] is "not empty"); a token is the pair of pointers
    [q] and [eq].  Commands are trees; in [parseexec] the node that collects the
    arguments is shared with the redirections already wrapped around it, so
    the redirections are collected next to the arguments and put around the
    finished node.  [malloc] is taken to succeed. *)

From S2P Require Import Prelude State Printf User Ulib Uprintf.

Module Sh.

Definition tok : Type := list Z * list Z.

(** Commands over strings of type [T]: tokens for the parser, byte strings when
    a command runs. *)
Inductive cmd (T : Type) : Type :=
| EXEC (argv : list T)
| REDIR (c : cmd T) (file : T) (mode fd : Z)
| PIPE (left right : cmd T)
| LIST (left right : cmd T)
| BACK (c : cmd T).
Arguments EXEC {T} argv.
Arguments REDIR {T} c file mode fd.
Arguments PIPE {T} left right.
Arguments LIST {T} left right.
Arguments BACK {T} c.

Fixpoint cmd_map {A B} (f : A -> B) (c : cmd A) : cmd B :=
  match c with
  | EXEC argv => EXEC (map f argv)
  | REDIR c file mode fd => REDIR (cmd_map f c) (f file) mode fd
  | PIPE l r => PIPE (cmd_map f l) (cmd_map f r)
  | LIST l r => LIST (cmd_map f l) (cmd_map f r)
  | BACK c => BACK (cmd_map f c)
  end.

Definition MAXARGS : Z := 10.
Definition O_RDONLY : Z := 0.
Definition O_WRONLY : Z := 1.
Definition O_RDWR : Z := 2.
Definition O_CREATE : Z := 0x200.
Definition O_TRUNC : Z := 0x400.

(** " \t\r\n\v" and "<|>&;()" *)
Definition whitespace : list Z := [32; 9; 13; 10; 11].
Definition symbols : list Z := bytes "<|>&;()".

Definition in_set (set : list Z) (c : Z) : bool := match Ulib.strchr set c with Some _ => true | None => false end.

(** ** Tokens *)

(** [while(s < es && strchr(whitespace, *s)) s++;] *)
Fixpoint skip_ws (s : list Z) : list Z :=
  match s with
  | c :: s' => if in_set whitespace c then skip_ws s' else s
  | [] => []
  end.

Definition word_char (c : Z) : bool := negb (in_set whitespace c) && negb (in_set symbols c).

(** [while(s < es && !strchr(whitespace, *s) && !strchr(symbols, *s)) s++;] *)
Fixpoint skip_word (s : list Z) : list Z :=
  match s with
  | c :: s' => if word_char c then skip_word s' else s
  | [] => []
  end.

(** The token, [q], [eq] and the new [*ps]. *)
Definition gettoken (s : list Z) : Z * tok * list Z :=
  let s := skip_ws s in
  let q := s in
  let '(ret, s) :=
    match s with
    | [] => (0, s)
    | c :: s' =>
        if in_set (bytes "|();&<") c then (c, s')
        else if c =? 62 then (if at0 s' =? 62 then (43, tail s') else (c, s'))
        else (97, skip_word s)
    end in
  (ret, (q, s), skip_ws s).

Definition peek (s toks : list Z) : bool * list Z :=
  let s := skip_ws s in
  (match s with c :: _ => in_set toks c | [] => false end, s).

(** ** The parser *)

Inductive pres (A : Type) : Type := POk (a : A) (s : list Z) | PPanic (msg : string) | PFuel.
Arguments POk {A} a s.
Arguments PPanic {A} msg.
Arguments PFuel {A}.

Definition pbind {A B} (m : pres A) (f : A -> list Z -> pres B) : pres B :=
  match m with POk a s => f a s | PPanic msg => PPanic msg | PFuel => PFuel end.

(** The redirections of parseredirs, in the order they are met: the file, the
    mode and the descriptor. *)
Fixpoint redirs (fuel : nat) (s : list Z) : pres (list (tok * Z * Z)) :=
  match fuel with
  | O => PFuel
  | S fuel =>
      let '(b, s) := peek s (bytes "<>") in
      if negb b then POk [] s else
      let '(tok, _, s) := gettoken s in
      let '(t, q, s) := gettoken s in
      if negb (t =? 97) then PPanic "missing file for redirection" else
      pbind (redirs fuel s) (fun l s =>
        POk (if tok =? 60 then (q, O_RDONLY, 0) :: l
             else if tok =? 62 then (q, Z.lor O_WRONLY (Z.lor O_CREATE O_TRUNC), 1) :: l
             else if tok =? 43 then (q, Z.lor O_WRONLY O_CREATE, 1) :: l
             else l) s)
  end.

Definition redircmd {T} (c : cmd T) (r : T * Z * Z) : cmd T := REDIR c r.1.1 r.1.2 r.2.

Definition parseredirs (fuel : nat) (c : cmd tok) (s : list Z) : pres (cmd tok) :=
  pbind (redirs fuel s) (fun l s => POk (fold_left redircmd l c) s).

(** The loop of parseexec: arguments, and redirections after each. *)
Fixpoint args (fuel : nat) (argc : Z) (s : list Z) : pres (list tok * list (tok * Z * Z)) :=
  match fuel with
  | O => PFuel
  | S fuel =>
      let '(b, s) := peek s (bytes "|)&;") in
      if (b : bool) then POk ([], []) s else
      let '(t, q, s) := gettoken s in
      if t =? 0 then POk ([], []) s else
      if negb (t =? 97) then PPanic "syntax" else
      let argc := argc + 1 in
      if MAXARGS <=? argc then PPanic "too many args" else
      pbind (redirs fuel s) (fun r s =>
      pbind (args fuel argc s) (fun a s => POk (q :: a.1, r ++ a.2) s))
  end.

(** [while(peek(ps, es, "&")){ gettoken(ps, es, 0, 0); cmd = backcmd(cmd); }] *)
Fixpoint backs (fuel : nat) (c : cmd tok) (s : list Z) : pres (cmd tok) :=
  match fuel with
  | O => PFuel
  | S fuel =>
      let '(b, s) := peek s (bytes "&") in
      if (b : bool) then let '(_, _, s) := gettoken s in backs fuel (BACK c) s
      else POk c s
  end.

Fixpoint parseline (fuel : nat) (s : list Z) : pres (cmd tok) :=
  match fuel with
  | O => PFuel
  | S fuel =>
      pbind (parsepipe fuel s) (fun c s =>
      pbind (backs (S (length s)) c s) (fun c s =>
      let '(b, s) := peek s (bytes ";") in
      if (b : bool) then
        let '(_, _, s) := gettoken s in
        pbind (parseline fuel s) (fun c' s => POk (LIST c c') s)
      else POk c s))
  end
with parsepipe (fuel : nat) (s : list Z) : pres (cmd tok) :=
  match fuel with
  | O => PFuel
  | S fuel =>
      pbind (parseexec fuel s) (fun c s =>
      let '(b, s) := peek s (bytes "|") in
      if (b : bool) then
        let '(_, _, s) := gettoken s in
        pbind (parsepipe fuel s) (fun c' s => POk (PIPE c c') s)
      else POk c s)
  end
with parseblock (fuel : nat) (s : list Z) : pres (cmd tok) :=
  match fuel with
  | O => PFuel
  | S fuel =>
      let '(b, s) := peek s (bytes "(") in
      if negb b then PPanic "parseblock" else
      let '(_, _, s) := gettoken s in
      pbind (parseline fuel s) (fun c s =>
      let '(b, s) := peek s (bytes ")") in
      if negb b then PPanic "syntax - missing )" else
      let '(_, _, s) := gettoken s in
      parseredirs (S (length s)) c s)
  end
with parseexec (fuel : nat) (s : list Z) : pres (cmd tok) :=
  match fuel with
  | O => PFuel
  | S fuel =>
      let '(b, s) := peek s (bytes "(") in
      if (b : bool) then parseblock fuel s else
      pbind (redirs (S (length s)) s) (fun r s =>
      pbind (args (S (S (length s))) 0 s) (fun a s =>
      POk (fold_left redircmd (r ++ a.2) (EXEC a.1)) s))
  end.

(** ** nulterminate *)

(** [*p = 0] in the line [buf]: the byte at the pointer [p].  At the end of the
    line there is a NUL already. *)
Definition put_nul (buf : list Z) (p : list Z) : list Z := <[(length buf - length p)%nat := 0]> buf.

Fixpoint nulterminate (c : cmd tok) (buf : list Z) : list Z :=
  match c with
  | EXEC argv => fold_left (fun buf t => put_nul buf t.2) argv buf
  | REDIR c file _ _ => put_nul (nulterminate c buf) file.2
  | PIPE l r => nulterminate r (nulterminate l buf)
  | LIST l r => nulterminate r (nulterminate l buf)
  | BACK c => nulterminate c buf
  end.

Fixpoint cut_nul (l : list Z) : list Z :=
  match l with
  | [] => []
  | c :: l => if c =? 0 then [] else c :: cut_nul l
  end.

(** The C string at the pointer [q] of the line, after it has become [buf]. *)
Definition string_at (buf : list Z) (q : list Z) : list Z := cut_nul (drop (length buf - length q) buf).

(** ** Running commands *)

Definition panic {A} (msg : string) : prog A := Uprintf.fprintf 2 (bytes "%s" ++ [10]) [VStr (Some (bytes msg))] ;; exit 1.

Definition fork1 : prog Z :=
  pid ← call_ SysFork;
  if pid =? -1 then panic "fork" else mret pid.

(** The two descriptors a pipe call stored. *)
Definition pipe_fds (r : reply) : Z * Z := (i32 (le_dec (take 4 r.2)), i32 (le_dec (take 4 (drop 4 r.2)))).

(** Execute cmd.  Never returns. *)
Fixpoint runcmd (c : cmd (list Z)) : prog unit :=
  match c with
  | EXEC argv =>
      match argv with
      | [] => exit 1
      | a :: _ =>
          _ ← call_ (SysExec a argv);
          Uprintf.fprintf 2 (bytes "exec %s failed" ++ [10]) [VStr (Some a)] ;;
          exit 0
      end
  | REDIR c file mode fd =>
      _ ← call_ (SysClose fd);
      r ← call_ (SysOpen file mode);
      if r <? 0 then Uprintf.fprintf 2 (bytes "open %s failed" ++ [10]) [VStr (Some file)] ;; exit 1
      else runcmd c
  | LIST l r =>
      pid ← fork1;
      (if pid =? 0 then runcmd l else mret tt) ;;
      _ ← call_ SysWait;
      runcmd r
  | PIPE l r =>
      p ← call SysPipe;
      if p.1 <? 0 then panic "pipe" else
      let p := pipe_fds p in
      pid ← fork1;
      (if pid =? 0 then
         _ ← call_ (SysClose 1);
         _ ← call_ (SysDup p.2);
         _ ← call_ (SysClose p.1);
         _ ← call_ (SysClose p.2);
         runcmd l
       else mret tt) ;;
      pid ← fork1;
      (if pid =? 0 then
         _ ← call_ (SysClose 0);
         _ ← call_ (SysDup p.1);
         _ ← call_ (SysClose p.1);
         _ ← call_ (SysClose p.2);
         runcmd r
       else mret tt) ;;
      _ ← call_ (SysClose p.1);
      _ ← call_ (SysClose p.2);
      _ ← call_ SysWait;
      _ ← call_ SysWait;
      exit 0
  | BACK c =>
      pid ← fork1;
      (if pid =? 0 then runcmd c else mret tt) ;;
      exit 0
  end.

(** The depth of nesting the parser is given: more than a line can have. *)
Definition depth (s : list Z) : nat := (4 * length s + 4)%nat.

(** The command and the line with its strings terminated. *)
Definition parsecmd (s : list Z) : prog (list Z * cmd tok) :=
  match parseline (depth s) s with
  | PFuel => Spin
  | PPanic msg => panic msg
  | POk c s' =>
      let s' := (peek s' []).2 in
      match s' with
      | [] => mret (nulterminate c s, c)
      | _ =>
          Uprintf.fprintf 2 (bytes "leftovers: %s" ++ [10]) [VStr (Some s')] ;;
          panic "syntax"
      end
  end.

(** ** main *)

Definition getcmd (nbuf : Z) : prog (option (list Z)) :=
  _ ← call_ (SysWrite 2 (bytes "$ "));
  l ← Ulib.gets nbuf;
  let l := cut_nul l in
  mret (match l with [] => None | _ => Some l end).

(** Ensure that three file descriptors are open. *)
Fixpoint open_fds (fuel : nat) : prog unit :=
  match fuel with
  | O => Spin
  | S fuel =>
      fd ← call_ (SysOpen (bytes "console") O_RDWR);
      if fd <? 0 then mret tt else
      if 3 <=? fd then _ ← call_ (SysClose fd); mret tt else open_fds fuel
  end.

Fixpoint main_loop (fuel : nat) : prog unit :=
  match fuel with
  | O => Spin
  | S fuel =>
      l ← getcmd 100;
      match l with
      | None => exit 0
      | Some buf =>
          if (at0 buf =? 99) && (at0 (tail buf) =? 100) && (at0 (tail (tail buf)) =? 32) then
            let dir := drop 3 (take (length buf - 1) buf) in
            r ← call_ (SysChdir dir);
            (if r <? 0 then Uprintf.fprintf 2 (bytes "cannot cd %s" ++ [10]) [VStr (Some dir)] else mret tt) ;;
            main_loop fuel
          else
            pid ← fork1;
            (if pid =? 0 then
               c ← parsecmd buf;
               runcmd (cmd_map (fun t => string_at c.1 t.1) c.2)
             else mret tt) ;;
            _ ← call_ SysWait;
            main_loop fuel
      end
  end.

Definition main (fuel : nat) : prog unit := open_fds fuel ;; main_loop fuel.
End Sh.
