(* ===== verification/ShProps.v ===== *)
(** * The shell's parser: termination, tokens, and parsing what is printed *)

From S2P Require Import Prelude State User Ulib Uprintf Sh.
Import Sh.

(** ** Consumption: what a parsing function leaves is no longer than its input *)

Lemma skip_ws_length s : (length (skip_ws s) <= length s)%nat.
Proof. induction s as [|c s IH]; cbn [skip_ws length]; [lia |]. destruct (in_set whitespace c); cbn [length]; lia. Qed.

Lemma skip_ws_idem s : skip_ws (skip_ws s) = skip_ws s.
Proof. induction s as [|c s IH]; cbn [skip_ws]; [done |]. destruct (in_set whitespace c) eqn:E; [done |]. cbn [skip_ws]. by rewrite E. Qed.

Lemma skip_word_length s : (length (skip_word s) <= length s)%nat.
Proof. induction s as [|c s IH]; cbn [skip_word length]; [lia |]. destruct (word_char c); cbn [length]; lia. Qed.

(** The first character after white space is not white space. *)
Lemma skip_ws_head s c s' : skip_ws s = c :: s' -> in_set whitespace c = false.
Proof. induction s as [|a s IH]; cbn [skip_ws]; [done |]. destruct (in_set whitespace a) eqn:E; [done |]. by injection 1 as <- <-. Qed.

Lemma in_set_elem set c : in_set set c = true <-> c ∈ set.
Proof.
  unfold in_set. induction set as [|a set IH]; cbn [Ulib.strchr]; [split; [done | by intros ?%not_elem_of_nil] |].
  rewrite elem_of_cons. destruct (Z.eqb_spec a c) as [->|Hne]; [tauto |]. rewrite IH. intuition congruence.
Qed.

Lemma in_set_false set c : in_set set c = false <-> c ∉ set.
Proof. rewrite <- in_set_elem. destruct (in_set set c); intuition congruence. Qed.

(** The characters the lexer treats one by one are the symbols. *)
Lemma symbol_cases c : in_set symbols c = in_set (bytes "|();&<") c || (c =? 62).
Proof.
  apply eq_true_iff_eq. rewrite orb_true_iff, !in_set_elem, Z.eqb_eq. change symbols with [60; 124; 62; 38; 59; 40; 41]. change (bytes "|();&<") with [124; 40; 41; 59; 38; 60].
  rewrite !elem_of_cons, elem_of_nil. lia.
Qed.

Lemma gettoken_shorter s c s0 : skip_ws s = c :: s0 -> let '(_, _, s') := gettoken s in (length s' < length s)%nat.
Proof.
  intros E. pose proof (skip_ws_length s) as Hl. pose proof (skip_ws_head s c s0 E) as Hw. unfold gettoken. rewrite E in *. cbn [length] in Hl.
  destruct (in_set (bytes "|();&<") c) eqn:E1; [pose proof (skip_ws_length s0); lia |].
  destruct (Z.eqb_spec c 62) as [->|Hne].
  - destruct (at0 s0 =? 62); [pose proof (skip_ws_length (tail s0)); destruct s0; cbn in *; lia | pose proof (skip_ws_length s0); lia].
  - assert (Hc : word_char c = true).
    { unfold word_char. rewrite Hw, symbol_cases, E1. apply Z.eqb_neq in Hne. by rewrite Hne. }
    cbn [skip_word]. rewrite Hc. pose proof (skip_ws_length (skip_word s0)). pose proof (skip_word_length s0). lia.
Qed.

Lemma gettoken_length s : let '(_, _, s') := gettoken s in (length s' <= length s)%nat.
Proof.
  pose proof (skip_ws_length s) as Hl. destruct (skip_ws s) as [|c s0] eqn:E.
  - unfold gettoken. rewrite E. cbn. lia.
  - pose proof (gettoken_shorter s c s0 E). destruct (gettoken s) as [[? ?] ?]. lia.
Qed.

Lemma peek_spec s toks : let '(b, s') := peek s toks in s' = skip_ws s /\ (length s' <= length s)%nat /\ (b = true -> exists c s0, skip_ws s' = c :: s0).
Proof.
  unfold peek. pose proof (skip_ws_length s). split; [done |]. split; [done |]. rewrite skip_ws_idem. destruct (skip_ws s); [done | eauto].
Qed.

(** [m] does not run out of fuel, and leaves at most [n] characters. *)
Definition good {A} (n : nat) (m : pres A) : Prop :=
  match m with POk _ s => (length s <= n)%nat | PPanic _ => True | PFuel => False end.

Lemma good_bind {A B} n (m : pres A) (f : A -> list Z -> pres B) : good n m -> (forall a s, (length s <= n)%nat -> good n (f a s)) -> good n (pbind m f).
Proof. destruct m; cbn; auto. Qed.

Lemma good_mono {A} n n' (m : pres A) : good n m -> (n <= n')%nat -> good n' m.
Proof. destruct m; cbn; intros; lia || done. Qed.

(** Step over a token that [peek] has seen. *)
Ltac peek_step s toks b s1 :=
  let H := fresh "Hpk" in
  pose proof (peek_spec s toks) as H; destruct (peek s toks) as [b s1]; destruct H as (-> & ?Hlen & H);
  destruct b; [destruct (H eq_refl) as (?c0 & ?s0 & ?Esk) | clear H].

Lemma redirs_good : forall fuel s, (length s < fuel)%nat -> good (length s) (redirs fuel s).
Proof.
  induction fuel as [|fuel IH]; intros s Hf; [lia |]. cbn [redirs]. peek_step s (bytes "<>") b s1; cbn [negb]; [|done].
  pose proof (gettoken_shorter _ _ _ Esk) as H1. destruct (gettoken (skip_ws s)) as [[tk q0] s2]. pose proof (gettoken_length s2) as H2. destruct (gettoken s2) as [[t q] s3].
  destruct (negb (t =? 97)); [done |]. eapply good_mono; [|exact Hlen]. eapply good_bind; [eapply good_mono; [apply IH; lia | lia] |]. intros l s4 H4. done.
Qed.

Lemma args_good : forall fuel argc s, (length s < fuel)%nat -> good (length s) (args fuel argc s).
Proof.
  induction fuel as [|fuel IH]; intros argc s Hf; [lia |]. cbn [args]. peek_step s (bytes "|)&;") b s1; [done |].
  destruct (skip_ws (skip_ws s)) as [|c s0] eqn:Esk; [unfold gettoken; rewrite Esk; cbn; lia |].
  pose proof (gettoken_shorter _ _ _ Esk) as H1. destruct (gettoken (skip_ws s)) as [[t q] s2]. destruct (t =? 0); [cbn; lia |]. destruct (negb (t =? 97)); [done |].
  destruct (MAXARGS <=? argc + 1); [done |]. apply (good_mono (length s2)); [|lia].
  eapply good_bind; [apply redirs_good; lia |]. intros r s3 H3.
  eapply good_bind; [eapply good_mono; [apply IH; lia | lia] |]. intros a s4 H5. exact H5.
Qed.

Lemma backs_good : forall fuel c s, (length s < fuel)%nat -> good (length s) (backs fuel c s).
Proof.
  induction fuel as [|fuel IH]; intros c s Hf; [lia |]. cbn [backs]. peek_step s (bytes "&") b s1; [|done].
  pose proof (gettoken_shorter _ _ _ Esk) as H1. destruct (gettoken (skip_ws s)) as [[t q] s2]. eapply good_mono; [apply IH; lia | lia].
Qed.

(** Four nested calls read at least one character. *)
Lemma parse_good : forall fuel,
  (forall s, (4 * length s + 3 < fuel)%nat -> good (length s) (parseline fuel s)) /\
  (forall s, (4 * length s + 2 < fuel)%nat -> good (length s) (parsepipe fuel s)) /\
  (forall s, (4 * length s < fuel)%nat -> good (length s) (parseblock fuel s)) /\
  (forall s, (4 * length s + 1 < fuel)%nat -> good (length s) (parseexec fuel s)).
Proof.
  induction fuel as [|fuel (IHl & IHp & IHb & IHe)]; [split_and!; intros; lia |]. split_and!; intros s Hf; cbn [parseline parsepipe parseblock parseexec].
  - eapply good_bind; [apply IHp; lia |]. intros c s1 H1. eapply good_bind; [eapply good_mono; [apply backs_good; lia | done] |]. intros c' s2 H2.
    peek_step s2 (bytes ";") b s3; [|cbn; lia]. pose proof (gettoken_shorter _ _ _ Esk) as H4. destruct (gettoken (skip_ws s2)) as [[t q] s4].
    eapply good_bind; [eapply good_mono; [apply IHl; lia | lia] |]. intros c'' s5 H5. exact H5.
  - eapply good_bind; [apply IHe; lia |]. intros c s1 H1. peek_step s1 (bytes "|") b s3; [|cbn; lia].
    pose proof (gettoken_shorter _ _ _ Esk) as H4. destruct (gettoken (skip_ws s1)) as [[t q] s4].
    eapply good_bind; [eapply good_mono; [apply IHp; lia | lia] |]. intros c'' s5 H5. exact H5.
  - peek_step s (bytes "(") b s1; cbn [negb]; [|done]. pose proof (gettoken_shorter _ _ _ Esk) as H4. destruct (gettoken (skip_ws s)) as [[t q] s2].
    eapply good_bind; [eapply good_mono; [apply IHl; lia | lia] |]. intros c s3 H3. peek_step s3 (bytes ")") b s4; cbn [negb]; [|done].
    pose proof (gettoken_shorter _ _ _ Esk0) as H5. destruct (gettoken (skip_ws s3)) as [[t' q'] s5]. unfold parseredirs.
    eapply good_bind; [eapply good_mono; [apply redirs_good; lia | lia] |]. intros l s6 H6. exact H6.
  - peek_step s (bytes "(") b s1; [eapply good_mono; [apply IHb; lia | lia] |].
    eapply good_bind; [eapply good_mono; [apply redirs_good; lia | lia] |]. intros r s2 H2.
    eapply good_bind; [eapply good_mono; [apply args_good; lia | lia] |]. intros a s3 H3. exact H3.
Qed.

(** ** Tokens *)

Fixpoint strings {T} (c : cmd T) : list T :=
  match c with
  | EXEC argv => argv
  | REDIR c file _ _ => strings c ++ [file]
  | PIPE l r => strings l ++ strings r
  | LIST l r => strings l ++ strings r
  | BACK c => strings c
  end.

Definition suffix_of (s buf : list Z) : Prop := exists pre, buf = pre ++ s.

(** The characters of a token. *)
Definition text (t : tok) : list Z := take (length t.1 - length t.2) t.1.

(** A word of the line, up to the character that ends it. *)
Record tok_ok (buf : list Z) (t : tok) : Prop := mkTokOk {
  to_word : exists w, t.1 = w ++ t.2 /\ Forall (fun c => word_char c = true) w;
  to_end : match t.2 with [] => True | c :: _ => word_char c = false end;
  to_in : suffix_of t.1 buf
}.

Lemma suffix_trans a b c : suffix_of a b -> suffix_of b c -> suffix_of a c.
Proof. intros [p ->] [q ->]. exists (q ++ p). by rewrite app_assoc. Qed.

Lemma skip_ws_suffix s : suffix_of (skip_ws s) s.
Proof.
  induction s as [|c s [p IH]]; cbn [skip_ws]; [by exists [] |]. destruct (in_set whitespace c); [|by exists []]. exists (c :: p). cbn. by rewrite <- IH.
Qed.

Lemma skip_word_spec s : exists w, s = w ++ skip_word s /\ Forall (fun c => word_char c = true) w /\ match skip_word s with [] => True | c :: _ => word_char c = false end.
Proof.
  induction s as [|c s (w & IH & Hw & He)]; cbn [skip_word]; [by exists [] |]. destruct (word_char c) eqn:E; [|by exists []].
  exists (c :: w). cbn. rewrite <- IH. split; [done |]. split; [by constructor | done].
Qed.

Lemma gettoken_suffix s : suffix_of (gettoken s).2 s.
Proof.
  unfold gettoken. pose proof (skip_ws_suffix s) as Hs. eapply suffix_trans; [|exact Hs]. destruct (skip_ws s) as [|c s']; cbn [snd]; [by exists [] |].
  assert (H1 : suffix_of s' (c :: s')) by (by exists [c]). destruct (in_set _ c); cbn [snd]; [eapply suffix_trans; [apply skip_ws_suffix | done] |].
  destruct (c =? 62); [destruct (at0 s' =? 62) |]; cbn [snd]; (eapply suffix_trans; [apply skip_ws_suffix |]).
  - eapply suffix_trans; [|exact H1]. destruct s' as [|x s']; [by exists [] | by exists [x]].
  - done.
  - destruct (skip_word_spec (c :: s')) as (w & E & _). exists w. exact E.
Qed.

Lemma gettoken_word s : (gettoken s).1.1 = 97 -> tok_ok s (gettoken s).1.2.
Proof.
  unfold gettoken. pose proof (skip_ws_suffix s) as Hs. destruct (skip_ws s) as [|c s'] eqn:E; cbn [fst snd]; [done |].
  destruct (in_set (bytes "|();&<") c) eqn:E1; cbn [fst snd]; [intros ->; done |].
  destruct (Z.eqb_spec c 62) as [->|Hne]; [destruct (at0 s' =? 62); done |]. intros _. destruct (skip_word_spec (c :: s')) as (w & Ew & Hw & He).
  split; cbn [fst snd]; [by exists w | done | done].
Qed.

Lemma tok_ok_suffix s buf t : suffix_of s buf -> tok_ok s t -> tok_ok buf t.
Proof. intros Hs [W E I]. split; [done | done | by eapply suffix_trans]. Qed.

(** [m] succeeds only with good tokens of [buf], leaving a suffix of it. *)
Definition tgood {A} (buf : list Z) (ts : A -> list tok) (m : pres A) : Prop :=
  match m with POk a s => Forall (tok_ok buf) (ts a) /\ suffix_of s buf | _ => True end.

Lemma tgood_bind {A B} buf ta tb (m : pres A) (f : A -> list Z -> pres B) :
  tgood buf ta m -> (forall a s, Forall (tok_ok buf) (ta a) -> suffix_of s buf -> tgood buf tb (f a s)) -> tgood buf tb (pbind m f).
Proof. destruct m; cbn; naive_solver. Qed.

Definition redir_toks (l : list (tok * Z * Z)) : list tok := map (fun r => r.1.1) l.

Lemma peek_suffix s toks : suffix_of (peek s toks).2 s.
Proof. apply skip_ws_suffix. Qed.

(** Stepping over [peek] and [gettoken] stays inside the line. *)
Ltac tok_peek s toks b s1 := pose proof (peek_suffix s toks); destruct (peek s toks) as [b s1]; cbn [snd] in *.
Ltac tok_get s t q s1 := pose proof (gettoken_suffix s); pose proof (gettoken_word s); destruct (gettoken s) as [[t q] s1]; cbn [fst snd] in *.

#[local] Hint Resolve suffix_trans : core.

Lemma redirs_tgood buf : forall fuel s, suffix_of s buf -> tgood buf redir_toks (redirs fuel s).
Proof.
  induction fuel as [|fuel IH]; intros s Hs; [done |]. cbn [redirs]. tok_peek s (bytes "<>") b s1. destruct b; cbn [negb]; [|split; [constructor | eauto]].
  tok_get s1 tk q0 s2. tok_get s2 t q s3. destruct (Z.eqb_spec t 97) as [->|]; cbn [negb]; [|done].
  eapply tgood_bind; [apply IH; eauto |]. intros l s4 Hl Hs4. split; [|done].
  assert (Hq : tok_ok buf q) by (eapply tok_ok_suffix; [|eauto]; eauto). repeat destruct (_ =? _); cbn [redir_toks map fst]; try constructor; done.
Qed.

Lemma args_tgood buf : forall fuel argc s, suffix_of s buf -> tgood buf (fun a => a.1 ++ redir_toks a.2) (args fuel argc s).
Proof.
  induction fuel as [|fuel IH]; intros argc s Hs; [done |]. cbn [args]. tok_peek s (bytes "|)&;") b s1. destruct b; [split; [constructor | eauto] |].
  tok_get s1 t q s2. destruct (t =? 0); [split; [constructor | eauto] |]. destruct (Z.eqb_spec t 97) as [->|]; cbn [negb]; [|done].
  destruct (MAXARGS <=? argc + 1); [done |]. eapply tgood_bind; [apply redirs_tgood; eauto |]. intros r s3 Hr Hs3.
  eapply tgood_bind; [by apply IH |]. intros a s4 Ha Hs4. split; [|done]. cbn [fst snd]. unfold redir_toks in *. rewrite map_app. apply Forall_app in Ha as [Ha1 Ha2].
  cbn [app]. constructor; [eapply tok_ok_suffix; [|eauto]; eauto |]. rewrite !Forall_app. done.
Qed.

Lemma strings_redirs (l : list (tok * Z * Z)) : forall c, strings (fold_left redircmd l c) = strings c ++ redir_toks l.
Proof.
  induction l as [|r l IH]; intros c; cbn [fold_left redir_toks map]; [by rewrite app_nil_r |]. rewrite IH. cbn [redircmd strings]. by rewrite <- app_assoc.
Qed.

Lemma backs_tgood buf : forall fuel c s, Forall (tok_ok buf) (strings c) -> suffix_of s buf -> tgood buf strings (backs fuel c s).
Proof.
  induction fuel as [|fuel IH]; intros c s Hc Hs; [done |]. cbn [backs]. tok_peek s (bytes "&") b s1. destruct b; [|split; eauto].
  tok_get s1 t q s2. apply IH; eauto.
Qed.

Lemma parse_tgood buf : forall fuel,
  (forall s, suffix_of s buf -> tgood buf strings (parseline fuel s)) /\ (forall s, suffix_of s buf -> tgood buf strings (parsepipe fuel s)) /\
  (forall s, suffix_of s buf -> tgood buf strings (parseblock fuel s)) /\ (forall s, suffix_of s buf -> tgood buf strings (parseexec fuel s)).
Proof.
  induction fuel as [|fuel (IHl & IHp & IHb & IHe)]; [done |]. split_and!; intros s Hs; cbn [parseline parsepipe parseblock parseexec].
  - eapply tgood_bind; [by apply IHp |]. intros c s1 Hc Hs1. eapply tgood_bind; [by apply backs_tgood |]. intros c1 s2 Hc1 Hs2.
    tok_peek s2 (bytes ";") b s3. destruct b; [|split; eauto]. tok_get s3 t q s4. eapply tgood_bind; [apply IHl; eauto |]. intros c2 s5 Hc2 Hs5. split; [|done].
    cbn [strings]. by rewrite Forall_app.
  - eapply tgood_bind; [by apply IHe |]. intros c s1 Hc Hs1. tok_peek s1 (bytes "|") b s3. destruct b; [|split; eauto]. tok_get s3 t q s4.
    eapply tgood_bind; [apply IHp; eauto |]. intros c2 s5 Hc2 Hs5. split; [|done]. cbn [strings]. by rewrite Forall_app.
  - tok_peek s (bytes "(") b s1. destruct b; cbn [negb]; [|done]. tok_get s1 t q s2. eapply tgood_bind; [apply IHl; eauto |]. intros c s3 Hc Hs3.
    tok_peek s3 (bytes ")") b s4. destruct b; cbn [negb]; [|done]. tok_get s4 t' q' s5. unfold parseredirs.
    eapply tgood_bind; [apply redirs_tgood; eauto |]. intros l s6 Hl Hs6. split; [|done]. rewrite strings_redirs, Forall_app. done.
  - tok_peek s (bytes "(") b s1. destruct b; [apply IHb; eauto |]. eapply tgood_bind; [apply redirs_tgood; eauto |]. intros r s2 Hr Hs2.
    eapply tgood_bind; [by apply args_tgood |]. intros a s3 Ha Hs3. split; [|done]. rewrite strings_redirs. cbn [strings]. unfold redir_toks in *.
    rewrite map_app, !Forall_app in *. tauto.
Qed.

(** ** nulterminate *)

Lemma nulterminate_fold c : forall buf, nulterminate c buf = fold_left (fun b t => put_nul b t.2) (strings c) buf.
Proof.
  induction c as [argv|c IH file m f|l IHl r IHr|l IHl r IHr|c IH]; intros buf; cbn [nulterminate strings]; rewrite ?fold_left_app.
  - done.
  - by rewrite IH.
  - by rewrite IHl, IHr.
  - by rewrite IHl, IHr.
  - done.
Qed.

Definition tok_end (n : nat) (i : nat) (t : tok) : Prop := (n - length t.2)%nat = i.
#[local] Instance tok_end_dec n i t : Decision (tok_end n i t).
Proof. unfold tok_end. apply _. Defined.

Lemma nul_fold n : forall (ts : list tok) buf, length buf = n -> let buf' := fold_left (fun b t => put_nul b t.2) ts buf in
  length buf' = n /\ forall i, buf' !! i = if decide (Exists (tok_end n i) ts) then (fun _ => 0) <$> buf !! i else buf !! i.
Proof.
  induction ts as [|t ts IH]; intros buf Hn; cbn [fold_left].
  - split; [done |]. intros i. rewrite decide_False; [done |]. by intros H%Exists_nil.
  - destruct (IH (put_nul buf t.2)) as [Hl Hi]; [unfold put_nul; by rewrite length_insert |]. split; [exact Hl |]. intros i. rewrite Hi. unfold put_nul. rewrite Hn.
    destruct (decide ((n - length t.2)%nat = i)) as [E|E].
    + rewrite (decide_True (P := Exists (tok_end n i) (t :: ts))) by (by left). subst i. destruct (Nat.lt_ge_cases (n - length t.2) n) as [Hlt|Hge].
      * rewrite list_lookup_insert_eq by lia. destruct (lookup_lt_is_Some_2 buf (n - length t.2)%nat) as [x ->]; [lia |]. by destruct (decide _).
      * rewrite list_insert_ge, !lookup_ge_None_2 by lia. by destruct (decide _).
    + rewrite list_lookup_insert_ne by done. destruct (decide (Exists (tok_end n i) ts)) as [H|H].
      * rewrite decide_True; [done |]. by right.
      * rewrite decide_False; [done |]. rewrite Exists_cons. tauto.
Qed.

Lemma cut_nul_app w rest : Forall (fun c => c <> 0) w -> cut_nul (w ++ rest) = w ++ cut_nul rest.
Proof. induction 1 as [|c w Hc Hw IH]; cbn [cut_nul app]; [done |]. apply Z.eqb_neq in Hc. by rewrite Hc, IH. Qed.

Lemma suffix_lookup s buf : suffix_of s buf -> (length s <= length buf)%nat /\ buf !! (length buf - length s)%nat = head s.
Proof.
  intros [p ->]. rewrite length_app. split; [lia |]. replace (length p + length s - length s)%nat with (length p + 0)%nat by lia. rewrite lookup_app_r by lia.
  replace (length p + 0 - length p)%nat with 0%nat by lia. by destruct s.
Qed.

(** Once the ends of the tokens are NUL, the string at a token is its text: no
    token is cut by the end of another, for its characters are those of words. *)
Lemma nul_strings buf ts t : Forall (fun c => c <> 0) buf -> Forall (tok_ok buf) ts -> t ∈ ts ->
  string_at (fold_left (fun b t => put_nul b t.2) ts buf) t.1 = text t.
Proof.
  intros Hnz Hts Ht. destruct (nul_fold (length buf) ts buf eq_refl) as [Hl Hi]. match goal with |- context [fold_left ?f ts buf] => set (buf' := fold_left f ts buf) in * end. unfold string_at. rewrite Hl.
  rewrite Forall_forall in Hts. pose proof (Hts t Ht) as [(w & Ew & Hw) He [pre Eb]]. unfold text. rewrite Ew, length_app.
  replace (length w + length t.2 - length t.2)%nat with (length w) by lia. rewrite take_app_length.
  rewrite Ew in Eb. assert (Hlen : length buf = (length pre + (length w + length t.2))%nat) by (rewrite Eb, !length_app; lia).
  replace (length buf - (length w + length t.2))%nat with (length pre) by lia.
  assert (Hd : drop (length pre) buf' = w ++ drop (length pre + length w) buf').
  { apply list_eq. intros i. rewrite lookup_drop. destruct (Nat.lt_ge_cases i (length w)) as [Hlt|Hge].
    - rewrite lookup_app_l by done. rewrite Hi.
      assert (Ebi : buf !! (length pre + i)%nat = w !! i) by (rewrite Eb, lookup_app_r by lia; rewrite lookup_app_l by lia; f_equal; lia).
      rewrite decide_False; [exact Ebi |]. intros (t' & Ht' & Hp)%Exists_exists. unfold tok_end in Hp. destruct (Hts t' Ht') as [(w' & Ew' & _) He' Hs'].
      destruct (suffix_lookup t'.2 buf) as [_ Hh]; [eapply suffix_trans; [|exact Hs']; by exists w' |]. rewrite Hp, Ebi in Hh.
      destruct (lookup_lt_is_Some_2 w i Hlt) as [x Hx]. rewrite Hx in Hh. destruct (t'.2) as [|c e]; [done |]. injection Hh as ->.
      rewrite Forall_forall in Hw. specialize (Hw c ltac:(apply list_elem_of_lookup; eauto)). congruence.
    - rewrite lookup_app_r by done. rewrite lookup_drop. f_equal. lia. }
  rewrite Hd. rewrite cut_nul_app.
  2: { rewrite Eb, !Forall_app in Hnz. tauto. }
  transitivity (w ++ []); [f_equal | apply app_nil_r]. destruct t.2 as [|c e] eqn:Et; rewrite ?Et in Hlen; cbn [length] in Hlen.
  - rewrite drop_ge by lia. done.
  - assert (Hx : buf' !! (length pre + length w)%nat = Some 0).
    { rewrite Hi. rewrite decide_True; [|apply Exists_exists; exists t; split; [done |]; unfold tok_end; rewrite Et; cbn [length]; lia].
      destruct (lookup_lt_is_Some_2 buf (length pre + length w)%nat) as [x ->]; [lia | done]. }
    apply drop_S in Hx. rewrite Hx. done.
Qed.

(** The commands the shell runs are over the texts of its tokens. *)
Lemma nulterminate_strings buf c : Forall (fun x => x <> 0) buf -> Forall (tok_ok buf) (strings c) ->
  cmd_map (fun t => string_at (nulterminate c buf) t.1) c = cmd_map text c.
Proof.
  intros Hnz Hts. match goal with |- cmd_map ?g c = _ => set (f := g) end.
  assert (Hf : forall t, t ∈ strings c -> f t = text t) by (intros t Ht; unfold f; rewrite nulterminate_fold; by apply nul_strings). clearbody f. clear Hts Hnz.
  induction c as [argv|c IH file m fd|l IHl r IHr|l IHl r IHr|c IH]; cbn [cmd_map strings] in *.
  - f_equal. apply map_ext_in. intros t Ht. apply Hf. by apply list_elem_of_In.
  - rewrite IH, Hf; [done | apply elem_of_app; right; by left | intros t Ht; apply Hf, elem_of_app; by left].
  - rewrite IHl, IHr; [done | | ]; intros t Ht; apply Hf, elem_of_app; auto.
  - rewrite IHl, IHr; [done | | ]; intros t Ht; apply Hf, elem_of_app; auto.
  - by rewrite IH.
Qed.
