(* ===== verification/ShPrint.v ===== *)
(** * Parsing what is printed

    [show] prints a command with the parentheses its place needs; the parser
    reads it back.  A command is printed at one of four levels: a line (0), the
    part of a line before [;] (1), a pipeline (2), a simple command or block (3). *)

From S2P Require Import Prelude State User Ulib Uprintf Sh ShProps.
Import Sh.

Definition par (b : bool) (s : list Z) : list Z := if b then [40] ++ s ++ [41] else s.

Definition redir_op (mode : Z) : list Z := if mode =? 0 then [60] else if mode =? 0x601 then [62] else [62; 62].
Definition show_redir (r : list Z * Z * Z) : list Z := redir_op r.1.2 ++ r.1.1 ++ [32].
Definition show_redirs (l : list (list Z * Z * Z)) : list Z := concat (map show_redir l).
Definition show_words (l : list (list Z)) : list Z := concat (map (fun w => w ++ [32]) l).

Fixpoint show (lvl : nat) (c : cmd (list Z)) : list Z :=
  match c with
  | EXEC argv => show_words argv
  | REDIR c file mode fd => show 3 c ++ show_redir (file, mode, fd)
  | PIPE l r => par (3 <=? lvl)%nat (show 3 l ++ [124] ++ show 2 r)
  | BACK c => par (2 <=? lvl)%nat (show 1 c ++ [38])
  | LIST l r => par (1 <=? lvl)%nat (show 1 l ++ [59] ++ show 0 r)
  end.

(** Words are not empty and hold no blanks, symbols or NULs. *)
Definition word_ok (w : list Z) : Prop := w <> [] /\ Forall (fun c => word_char c = true /\ c <> 0) w.
Definition redir_ok (r : list Z * Z * Z) : Prop :=
  word_ok r.1.1 /\ ((r.1.2 = 0 /\ r.2 = 0) \/ (r.1.2 = 0x601 /\ r.2 = 1) \/ (r.1.2 = 0x201 /\ r.2 = 1)).

(** Commands a line can hold. *)
Fixpoint cmd_ok (c : cmd (list Z)) : Prop :=
  match c with
  | EXEC argv => Forall word_ok argv /\ Z.of_nat (length argv) < MAXARGS
  | REDIR c file mode fd => cmd_ok c /\ redir_ok (file, mode, fd)
  | PIPE l r => cmd_ok l /\ cmd_ok r
  | LIST l r => cmd_ok l /\ cmd_ok r
  | BACK c => cmd_ok c
  end.

(** What may follow a command: the end, or one of a set of symbols. *)
Definition follows (set s : list Z) : Prop := match skip_ws s with [] => True | c :: _ => c ∈ set end.

(** ** Lexing *)

Lemma word_not_ws c : word_char c = true -> in_set whitespace c = false /\ in_set symbols c = false.
Proof. unfold word_char. rewrite andb_true_iff, !negb_true_iff. done. Qed.

Lemma skip_ws_word w x : word_ok w -> skip_ws (w ++ x) = w ++ x.
Proof.
  intros [Hne Hw]. destruct w as [|c w]; [done |]. apply Forall_cons in Hw as [[Hc _] _]. cbn [app skip_ws]. destruct (word_not_ws c Hc) as [-> _]. done.
Qed.

Lemma skip_ws_sym c x : c ∈ symbols -> skip_ws (c :: x) = c :: x.
Proof.
  intros Hc. cbn [skip_ws]. assert (in_set whitespace c = false) as ->; [|done]. apply in_set_false. unfold whitespace. change symbols with [60; 124; 62; 38; 59; 40; 41] in Hc.
  rewrite !elem_of_cons, elem_of_nil in *. lia.
Qed.

Lemma skip_word_app w x : Forall (fun c => word_char c = true /\ c <> 0) w -> match x with [] => True | c :: _ => word_char c = false end -> skip_word (w ++ x) = x.
Proof.
  intros Hw Hx. induction Hw as [|c w [Hc _] Hw IH]; cbn [app skip_word]; [|by rewrite Hc]. destruct x as [|c x]; [done |]. cbn [skip_word]. by rewrite Hx.
Qed.

Lemma word_not_lexed c : word_char c = true -> in_set (bytes "|();&<") c = false /\ c =? 62 = false.
Proof. intros Hc. destruct (word_not_ws c Hc) as [_ Hs]. rewrite symbol_cases in Hs. by apply orb_false_iff in Hs. Qed.

(** A word followed by a blank. *)
Lemma gettoken_text s w x : word_ok w -> skip_ws s = w ++ 32 :: x -> exists q, gettoken s = (97, q, skip_ws x) /\ text q = w.
Proof.
  intros Hw E. pose proof Hw as [Hne Hf]. unfold gettoken. rewrite E. destruct w as [|c w]; [done |].
  pose proof Hf as Hf'. apply Forall_cons in Hf' as [[Hc _] _]. cbn [app]. destruct (word_not_lexed c Hc) as [-> ->].
  change (c :: w ++ 32 :: x) with ((c :: w) ++ 32 :: x). rewrite skip_word_app by done. eexists. split; [reflexivity |].
  unfold text. cbn [fst snd]. rewrite length_app. replace (length (c :: w) + length (32%Z :: x) - length (32%Z :: x))%nat with (length (c :: w)) by lia. apply take_app_length.
Qed.

Lemma gettoken_sym s c x : skip_ws s = c :: x -> c ∈ bytes "|();&<" -> exists q, gettoken s = (c, q, skip_ws x).
Proof. intros E Hc. unfold gettoken. rewrite E. apply in_set_elem in Hc. rewrite Hc. eauto. Qed.

Lemma gettoken_redir s r x : redir_ok r -> skip_ws s = show_redir r ++ x ->
  exists t q1 s1 q, gettoken s = (t, q1, s1) /\ gettoken s1 = (97, q, skip_ws x) /\ text q = r.1.1 /\
    (t = if r.1.2 =? 0 then 60 else if r.1.2 =? 0x601 then 62 else 43).
Proof.
  intros [Hw Hm] E. unfold show_redir in E. rewrite <- !app_assoc in E. cbn [app] in E. set (f := r.1.1) in *.
  assert (Hs : forall s1, s1 = skip_ws (f ++ 32 :: x) -> exists q, gettoken s1 = (97, q, skip_ws x) /\ text q = f).
  { intros s1 ->. apply gettoken_text; [done |]. by rewrite skip_ws_idem, skip_ws_word. }
  destruct (Hs _ eq_refl) as (q & Eq & Et). destruct Hw as [Hne Hf]. unfold redir_op in *. destruct (Z.eqb_spec r.1.2 0) as [E0|E0]; [|destruct (Z.eqb_spec r.1.2 0x601) as [E1|E1]]; cbn [app] in E.
  - destruct (gettoken_sym s 60 _ E) as [q1 E']; [apply in_set_elem; reflexivity |]. exists 60, q1, (skip_ws (f ++ 32 :: x)), q. done.
  - unfold gettoken at 1. rewrite E. change (in_set (bytes "|();&<") 62) with false. change (62 =? 62) with true. cbv iota.
    assert (Ha : at0 (f ++ 32 :: x) =? 62 = false).
    { destruct f as [|c f]; [done |]. apply Forall_cons in Hf as [[Hc _] _]. apply (word_not_lexed c Hc). }
    rewrite Ha. eexists 62, _, _, q. done.
  - unfold gettoken at 1. rewrite E. change (in_set (bytes "|();&<") 62) with false. change (62 =? 62) with true. cbv iota.
    change (at0 (62 :: f ++ 32 :: x) =? 62) with true. cbn [tail]. eexists 43, _, _, q. done.
Qed.

(** ** Redirections and arguments *)

Definition redir_text (r : tok * Z * Z) : list Z * Z * Z := (text r.1.1, r.1.2, r.2).

Lemma peek_in s toks c x : skip_ws s = c :: x -> peek s toks = (in_set toks c, c :: x).
Proof. intros E. unfold peek. by rewrite E. Qed.

Lemma show_redir_head r x : redir_ok r -> exists c y, show_redir r ++ x = c :: y /\ (c = 60 \/ c = 62) /\ skip_ws (show_redir r ++ x) = show_redir r ++ x.
Proof.
  intros [_ Hm]. unfold show_redir, redir_op. destruct (r.1.2 =? 0); [|destruct (r.1.2 =? 0x601)]; cbn [app]; eexists _, _; (split; [reflexivity |]);
    (split; [auto |]); apply skip_ws_sym; apply in_set_elem; reflexivity.
Qed.

(** The redirections [rs], when no other follows. *)
Lemma redirs_show rs : forall fuel s x, Forall redir_ok rs -> skip_ws s = skip_ws (show_redirs rs ++ x) ->
  match skip_ws x with [] => True | c :: _ => c <> 60 /\ c <> 62 end -> (length rs < fuel)%nat ->
  exists rs', redirs fuel s = POk rs' (skip_ws x) /\ map redir_text rs' = rs.
Proof.
  induction rs as [|r rs IH]; intros fuel s x Hrs E Hx Hf; (destruct fuel as [|fuel]; [cbn in Hf; lia |]); cbn [redirs].
  - exists []. cbn in E. unfold peek. rewrite E. destruct (skip_ws x) as [|c y]; [done |]. assert (in_set (bytes "<>") c = false) as ->; [|done].
    apply in_set_false. change (bytes "<>") with [60; 62]. rewrite !elem_of_cons, elem_of_nil. tauto.
  - apply Forall_cons in Hrs as [Hr Hrs]. unfold show_redirs in E. cbn [map concat] in E. rewrite <- app_assoc in E. fold (show_redirs rs) in E.
    destruct (show_redir_head r (show_redirs rs ++ x) Hr) as (c & y & E1 & Hc & Hsk). rewrite Hsk in E.
    rewrite (peek_in s (bytes "<>") c y) by congruence. assert (in_set (bytes "<>") c = true) as ->.
    { apply in_set_elem. change (bytes "<>") with [60; 62]. rewrite !elem_of_cons. tauto. }
    cbn [negb]. rewrite <- E1.
    destruct (gettoken_redir (show_redir r ++ show_redirs rs ++ x) r (show_redirs rs ++ x) Hr Hsk) as (t & q1 & s1 & q & G1 & G2 & Et & Ht).
    rewrite G1, G2. change (negb (97 =? 97)) with false. cbv iota.
    destruct (IH fuel (skip_ws (show_redirs rs ++ x)) x Hrs ltac:(apply skip_ws_idem) Hx ltac:(cbn in Hf; lia)) as (rs' & Er & Em). rewrite Er. cbn [pbind].
    eexists. split; [reflexivity |]. destruct Hr as [_ Hm]. destruct r as [[f m] fd]. cbn [fst snd] in *.
    destruct Hm as [[-> ->]|[[-> ->]|[-> ->]]]; cbn in Ht; subst t; cbn [Z.eqb Pos.eqb map]; rewrite Em; unfold redir_text; cbn [fst snd]; rewrite Et; reflexivity.
Qed.

(** The arguments [ws], and the redirections [rs] after them. *)
Lemma args_show : forall ws rs fuel argc s x, Forall word_ok ws -> Forall redir_ok rs -> (ws = [] -> rs = []) ->
  skip_ws s = skip_ws (show_words ws ++ show_redirs rs ++ x) -> follows (bytes "|)&;") x -> argc + Z.of_nat (length ws) < MAXARGS -> (length ws + length rs < fuel)%nat ->
  exists a, args fuel argc s = POk a (skip_ws x) /\ map text a.1 = ws /\ map redir_text a.2 = rs.
Proof.
  induction ws as [|w ws IH]; intros rs fuel argc s x Hws Hrs Hn E Hx Ha Hf; (destruct fuel as [|fuel]; [cbn in Hf; lia |]); cbn [args].
  - rewrite (Hn eq_refl) in *. cbn in E. unfold follows in Hx. unfold peek. rewrite E. destruct (skip_ws x) as [|c y] eqn:Ex.
    + exists ([], []). unfold gettoken. cbn. done.
    + apply in_set_elem in Hx. rewrite Hx. by exists ([], []).
  - apply Forall_cons in Hws as [Hw Hws]. unfold show_words in E. cbn [map concat] in E. rewrite <- !app_assoc in E. fold (show_words ws) in E. rewrite skip_ws_word in E by done.
    pose proof Hw as [Hne Hwf]. assert (Hcw : exists c w0, w = c :: w0) by (destruct w; [done | eauto]). destruct Hcw as (c & w0 & Ew). pose proof Hwf as Hwf'. rewrite Ew in Hwf'. apply Forall_cons in Hwf' as [[Hc _] _].
    set (y := show_words ws ++ show_redirs rs ++ x) in *. assert (Ez : c :: w0 ++ [32] ++ y = w ++ [32] ++ y) by (by rewrite Ew).
    rewrite (peek_in s (bytes "|)&;") c (w0 ++ [32] ++ y)) by congruence. rewrite Ez.
    assert (in_set (bytes "|)&;") c = false) as ->.
    { destruct (word_not_lexed c Hc) as [Hs _]. apply in_set_false. apply in_set_false in Hs. change (bytes "|)&;") with [124; 41; 38; 59].
      change (bytes "|();&<") with [124; 40; 41; 59; 38; 60] in Hs. rewrite !not_elem_of_cons in *. tauto. }
    destruct (gettoken_text (w ++ [32] ++ y) w y Hw) as (q & Gq & Tq); [by apply skip_ws_word |]. rewrite Gq. change (97 =? 0) with false. change (negb (97 =? 97)) with false. cbv iota.
    cbn [length] in Ha, Hf. destruct (Z.leb_spec MAXARGS (argc + 1)); [lia |].
    destruct (redirs_show (if decide (ws = []) then rs else []) fuel (skip_ws y) (if decide (ws = []) then x else y)) as (r' & Er & Mr).
    { by destruct (decide (ws = [])). }
    { rewrite skip_ws_idem. unfold y. destruct (decide (ws = [])) as [->|]; done. }
    { destruct (decide (ws = [])) as [->|Hwn].
      - unfold follows in Hx. destruct (skip_ws x) as [|c' z]; [done |]. change (bytes "|)&;") with [124; 41; 38; 59] in Hx. rewrite !elem_of_cons, elem_of_nil in Hx. lia.
      - destruct ws as [|w2 ws2]; [done |]. apply Forall_cons in Hws as [Hw2 _]. unfold y, show_words. cbn [map concat]. rewrite <- !app_assoc. rewrite skip_ws_word by done.
        destruct Hw2 as [Hn2 Hf2]. destruct w2 as [|c2 w2]; [done |]. apply Forall_cons in Hf2 as [[Hc2 _] _]. cbn [app]. destruct (word_not_lexed c2 Hc2) as [Hs H62].
        apply Z.eqb_neq in H62. split; [|done]. intros ->. done. }
    { destruct (decide (ws = [])); cbn [length]; lia. }
    rewrite Er. cbn [pbind].
    destruct (IH (if decide (ws = []) then [] else rs) fuel (argc + 1) (skip_ws (if decide (ws = []) then x else y)) x Hws) as (a & Ea & M1 & M2); try done.
    { by destruct (decide (ws = [])). }
    { intros ->. by rewrite decide_True. }
    { rewrite skip_ws_idem. unfold y. destruct (decide (ws = [])) as [->|]; done. }
    { lia. }
    { destruct (decide (ws = [])); cbn [length]; lia. }
    rewrite Ea. cbn [pbind]. eexists. split; [reflexivity |]. cbn [fst snd map]. rewrite map_app, Tq, M1, M2, Mr. split; [done |]. destruct (decide (ws = [])); [by rewrite app_nil_r | done].
Qed.

(** ** The levels of the grammar *)

(** [p] reads back [c] printed at level [lvl], up to what may follow it. *)
Definition reads (p : nat -> list Z -> pres (cmd tok)) (k lvl : nat) (set : list Z) (c : cmd (list Z)) : Prop :=
  cmd_ok c -> forall fuel s x, skip_ws s = skip_ws (show lvl c ++ x) -> follows set x -> (4 * length s + k < fuel)%nat ->
  exists c', p fuel s = POk c' (skip_ws x) /\ cmd_map text c' = c.

Definition reads_line := reads parseline 3 0 (bytes ")").
Definition reads_pipe := reads parsepipe 2 2 (bytes ")&;").
Definition reads_exec := reads parseexec 1 3 (bytes "|)&;").

(** Before a [;]: the pipeline, and the [&]s after it. *)
Definition reads_back (c : cmd (list Z)) : Prop :=
  cmd_ok c -> forall fuel s x, skip_ws s = skip_ws (show 1 c ++ x) -> follows (bytes ")&;") x -> (4 * length s + 2 < fuel)%nat ->
  exists c1 s1 c', parsepipe fuel s = POk c1 s1 /\ cmd_map text c' = c /\
    forall g, (length s1 < g)%nat -> exists g', (length (skip_ws x) < g')%nat /\ backs g c1 s1 = backs g' c' (skip_ws x).

Lemma follows_in set s c x : skip_ws s = c :: x -> c ∈ set -> follows set s.
Proof. intros E H. unfold follows. by rewrite E. Qed.

Lemma follows_sub set set' s : (forall c, c ∈ set -> c ∈ set') -> follows set s -> follows set' s.
Proof. unfold follows. destruct (skip_ws s); auto. Qed.

(** [peek] for a symbol that cannot follow. *)
Lemma peek_follows set toks s : follows set s -> (forall c, c ∈ set -> c ∉ toks) -> peek s toks = (false, skip_ws s).
Proof.
  unfold follows, peek. intros Hf Hd. destruct (skip_ws s) as [|c x]; [done |]. by rewrite (proj2 (in_set_false _ _) (Hd c Hf)).
Qed.

(** Inclusion and disjointness of sets of symbols; membership of one. *)
Ltac sets := let c := fresh "c" in intros c; cbn -[Z.of_N]; rewrite ?elem_of_cons, ?elem_of_nil; cbn; lia.
Ltac inset := apply in_set_elem; reflexivity.

Lemma skip_shorter s y c : skip_ws s = c :: y -> (length y < length s)%nat.
Proof. intros E. pose proof (skip_ws_length s). rewrite E in H. cbn in H. lia. Qed.

Lemma len_after s y c x : skip_ws s = c :: y -> x = skip_ws y -> (length x < length s)%nat.
Proof. intros E ->. pose proof (skip_shorter s y c E). pose proof (skip_ws_length y). lia. Qed.

(** The symbol [c], peeked at and read. *)
Lemma read_sym s c y toks : skip_ws s = c :: y -> c ∈ toks -> c ∈ bytes "|();&<" -> exists q, peek s toks = (true, c :: y) /\ gettoken (c :: y) = (c, q, skip_ws y).
Proof.
  intros E H1 H2. assert (Hc : skip_ws (c :: y) = c :: y) by (rewrite <- E; apply skip_ws_idem). destruct (gettoken_sym (c :: y) c y Hc H2) as [q Hq]. exists q.
  rewrite (peek_in s toks c y E). apply in_set_elem in H1. by rewrite H1.
Qed.

Lemma sym_skip c y : c ∈ bytes "|();&<" -> skip_ws (c :: y) = c :: y.
Proof.
  intros H. apply skip_ws_sym. apply in_set_elem in H. apply in_set_elem. rewrite symbol_cases, H. done.
Qed.

Lemma good_length {A} n (m : pres A) a s : good n m -> m = POk a s -> (length s <= n)%nat.
Proof. intros H ->. exact H. Qed.

Lemma pipe_of_exec c : (forall l r, c <> PIPE l r) -> reads_exec c -> reads_pipe c.
Proof.
  intros Hnp He Hok fuel s x E Hx Hf. destruct fuel as [|fuel]; [lia |]. cbn [parsepipe].
  assert (Es : show 2 c = show 3 c) by (destruct c; try done; by edestruct Hnp). rewrite Es in E.
  destruct (He Hok fuel s x E) as (c' & Ep & Et); [eapply follows_sub; [|exact Hx]; sets | lia |]. rewrite Ep. cbn [pbind].
  assert (Hx' : follows (bytes ")&;") (skip_ws x)) by (unfold follows in *; by rewrite skip_ws_idem).
  rewrite (peek_follows _ _ _ Hx') by sets.
  rewrite skip_ws_idem. by exists c'.
Qed.

Lemma follows_skip set x : follows set x -> follows set (skip_ws x).
Proof. unfold follows. by rewrite skip_ws_idem. Qed.

Lemma pipe_pipe l r : reads_exec l -> reads_pipe r -> reads_pipe (PIPE l r).
Proof.
  intros Hl Hr [Okl Okr] fuel s x E Hx Hf. destruct fuel as [|fuel]; [lia |]. cbn [parsepipe show] in *. change (3 <=? 2)%nat with false in E. cbn [par] in E. rewrite <- !app_assoc in E.
  set (y := show 2 r ++ x) in *. change ([124] ++ y) with (124 :: y) in E. assert (Hsk : skip_ws (124 :: y) = 124 :: y) by (apply sym_skip; inset).
  destruct (Hl Okl fuel s (124 :: y) E) as (l' & El & Tl); [eapply follows_in; [exact Hsk | inset] | lia |].
  pose proof (good_length _ _ _ _ (proj2 (proj2 (proj2 (parse_good fuel))) s ltac:(lia)) El) as Hlen. rewrite El. cbn [pbind]. rewrite Hsk in *.
  destruct (read_sym (124 :: y) 124 y (bytes "|")) as (q & Pk & Gt); [done | inset | inset |]. rewrite Pk, Gt. cbn [length] in Hlen. pose proof (skip_ws_length y).
  destruct (Hr Okr fuel (skip_ws y) x) as (r' & Er & Tr); [by rewrite skip_ws_idem | done | lia |]. rewrite Er. cbn [pbind]. eexists. split; [reflexivity |]. cbn [cmd_map]. by rewrite Tl, Tr.
Qed.

Lemma back_of_pipe c : (forall c0, c <> BACK c0) -> reads_pipe c -> reads_back c.
Proof.
  intros Hnb Hp Hok fuel s x E Hx Hf. assert (Es : show 1 c = show 2 c) by (destruct c; try done; by edestruct Hnb). rewrite Es in E.
  destruct (Hp Hok fuel s x E Hx Hf) as (c' & Ep & Et). exists c', (skip_ws x), c'. split; [done |]. split; [done |]. intros g Hg. by exists g.
Qed.

Lemma back_back c : reads_back c -> reads_back (BACK c).
Proof.
  intros Hc Hok fuel s x E Hx Hf. cbn [show] in E. change (2 <=? 1)%nat with false in E. cbn [par] in E. rewrite <- app_assoc in E. change ([38] ++ x) with (38 :: x) in E.
  assert (Hsk : skip_ws (38 :: x) = 38 :: x) by (apply sym_skip; inset).
  destruct (Hc Hok fuel s (38 :: x) E) as (c1 & s1 & c' & Ep & Et & Hb); [eapply follows_in; [exact Hsk | inset] | done |].
  exists c1, s1, (BACK c'). split; [done |]. split; [cbn; by rewrite Et |]. intros g Hg. destruct (Hb g Hg) as (g' & Hg' & Eb). rewrite Hsk in Hg', Eb. cbn [length] in Hg'.
  destruct g' as [|g']; [lia |]. exists g'. pose proof (skip_ws_length x). split; [lia |]. rewrite Eb. cbn [backs].
  destruct (read_sym (38 :: x) 38 x (bytes "&")) as (q & Pk & Gt); [done | inset | inset |]. rewrite Pk, Gt. done.
Qed.

(** The tail of parseline, after the pipeline. *)
Lemma backs_done set g c x : follows set x -> (forall c, c ∈ set -> c ∉ bytes "&") -> (0 < g)%nat -> backs g c (skip_ws x) = POk c (skip_ws x).
Proof.
  intros Hx Hs Hg. destruct g as [|g]; [lia |]. cbn [backs]. rewrite (peek_follows set) by (done || by apply follows_skip). by rewrite skip_ws_idem.
Qed.

Lemma line_of_back c : (forall l r, c <> LIST l r) -> reads_back c -> reads_line c.
Proof.
  intros Hnl Hb Hok fuel s x E Hx Hf. destruct fuel as [|fuel]; [lia |]. cbn [parseline]. assert (Es : show 0 c = show 1 c) by (destruct c; try done; by edestruct Hnl). rewrite Es in E.
  destruct (Hb Hok fuel s x E) as (c1 & s1 & c' & Ep & Et & Hk); [eapply follows_sub; [|exact Hx]; sets | lia |]. rewrite Ep. cbn [pbind].
  destruct (Hk (S (length s1)) ltac:(lia)) as (g' & Hg & Eb). rewrite Eb, (backs_done (bytes ")")) by (done || sets || lia). cbn [pbind].
  rewrite (peek_follows (bytes ")")) by (sets || by apply follows_skip). rewrite skip_ws_idem. by exists c'.
Qed.

Lemma line_list l r : reads_back l -> reads_line r -> reads_line (LIST l r).
Proof.
  intros Hl Hr [Okl Okr] fuel s x E Hx Hf. destruct fuel as [|fuel]; [lia |]. cbn [parseline show] in *. change (1 <=? 0)%nat with false in E. cbn [par] in E. rewrite <- !app_assoc in E.
  set (y := show 0 r ++ x) in *. change ([59] ++ y) with (59 :: y) in E. assert (Hsk : skip_ws (59 :: y) = 59 :: y) by (apply sym_skip; inset).
  assert (Hfo : follows (bytes ";") (59 :: y)) by (eapply follows_in; [exact Hsk | inset]).
  destruct (Hl Okl fuel s (59 :: y) E) as (c1 & s1 & l' & Ep & Tl & Hk); [eapply follows_in; [exact Hsk | inset] | lia |].
  pose proof (good_length _ _ _ _ (proj1 (proj2 (parse_good fuel)) s ltac:(lia)) Ep) as Hlen. rewrite Ep. cbn [pbind].
  destruct (Hk (S (length s1)) ltac:(lia)) as (g' & Hg & Eb). rewrite (backs_done (bytes ";")) in Eb by (done || sets || lia). rewrite Hsk in Eb.
  pose proof (good_length _ _ _ _ (backs_good (S (length s1)) c1 s1 ltac:(lia)) Eb) as Hgl. rewrite Eb. cbn [pbind length] in *.
  destruct (read_sym (59 :: y) 59 y (bytes ";")) as (q & Pk & Gt); [done | inset | inset |]. rewrite Pk, Gt. pose proof (skip_ws_length y).
  destruct (Hr Okr fuel (skip_ws y) x) as (r' & Er & Tr); [by rewrite skip_ws_idem | done | lia |]. rewrite Er. cbn [pbind]. eexists. split; [reflexivity |]. cbn [cmd_map]. by rewrite Tl, Tr.
Qed.

(** ** Simple commands and blocks *)

(** The command under the redirections, and the redirections. *)
Fixpoint peel (c : cmd (list Z)) : cmd (list Z) * list (list Z * Z * Z) :=
  match c with
  | REDIR c file mode fd => let '(b, rs) := peel c in (b, rs ++ [(file, mode, fd)])
  | _ => (c, [])
  end.

Lemma peel_spec c : let '(b, rs) := peel c in
  c = fold_left redircmd rs b /\ show 3 c = show 3 b ++ show_redirs rs /\ (forall b' f m fd, b <> REDIR b' f m fd) /\
  (cmd_ok c -> cmd_ok b /\ Forall redir_ok rs).
Proof.
  induction c as [argv|c IH file m f|l IHl r IHr|l IHl r IHr|c IH]; cbn [peel]; try (cbn; rewrite ?app_nil_r; naive_solver).
  destruct (peel c) as [b rs]. destruct IH as (E1 & E2 & E3 & E4). rewrite fold_left_app. split; [cbn; by rewrite <- E1 |].
  split; [|split; [done |]].
  - cbn [show]. rewrite E2. unfold show_redirs. rewrite map_app, concat_app. cbn. by rewrite app_nil_r, app_assoc.
  - intros [Hc Hr]. destruct (E4 Hc) as [Hb Hrs]. split; [done |]. rewrite Forall_app. auto.
Qed.

Lemma map_redirs (rs : list (tok * Z * Z)) : forall c, cmd_map text (fold_left redircmd rs c) = fold_left redircmd (map redir_text rs) (cmd_map text c).
Proof. induction rs as [|r rs IH]; intros c; cbn [fold_left map]; [done |]. by rewrite IH. Qed.

(** What follows a simple command begins no redirection. *)
Lemma follows_no_redir x : follows (bytes "|)&;") x -> match skip_ws x with [] => True | c :: _ => c <> 60 /\ c <> 62 end.
Proof. unfold follows. destruct (skip_ws x) as [|c y]; [done |]. change (bytes "|)&;") with [124; 41; 38; 59]. intros H. rewrite !elem_of_cons, elem_of_nil in H. lia. Qed.

Lemma show_redirs_length rs : (length rs <= length (show_redirs rs))%nat.
Proof.
  unfold show_redirs. induction rs as [|r rs IH]; cbn [map concat length]; [lia |]. rewrite length_app.
  assert (1 <= length (show_redir r))%nat by (unfold show_redir; rewrite !length_app; cbn [length]; lia). lia.
Qed.

Lemma show_words_length ws : (length ws <= length (show_words ws))%nat.
Proof. unfold show_words. induction ws as [|r rs IH]; cbn [map concat length]; [lia |]. rewrite !length_app. cbn [length]. lia. Qed.

(** White space before printed text is all that [skip_ws] removes. *)
Lemma redirs_skip rs x : Forall redir_ok rs -> rs <> [] -> skip_ws (show_redirs rs ++ x) = show_redirs rs ++ x.
Proof.
  intros Hrs Hn. destruct rs as [|r rs]; [done |]. apply Forall_cons in Hrs as [Hr _]. unfold show_redirs. cbn [map concat]. rewrite <- app_assoc.
  destruct (show_redir_head r (concat (map show_redir rs) ++ x) Hr) as (_ & _ & _ & _ & H). exact H.
Qed.

Lemma words_skip ws x : Forall word_ok ws -> ws <> [] -> skip_ws (show_words ws ++ x) = show_words ws ++ x.
Proof.
  intros Hws Hn. destruct ws as [|w ws]; [done |]. apply Forall_cons in Hws as [Hw _]. unfold show_words. cbn [map concat]. rewrite <- !app_assoc. by apply skip_ws_word.
Qed.

(** The number of redirections is within the fuel the parser gives itself. *)
Lemma redirs_fuel rs s x : Forall redir_ok rs -> s = skip_ws (show_redirs rs ++ x) -> (length rs < S (length s))%nat.
Proof.
  intros Hrs ->. destruct (decide (rs = [])) as [->|Hn]; [cbn; lia |]. rewrite redirs_skip, length_app by done. pose proof (show_redirs_length rs). lia.
Qed.

Lemma exec_no_block s c y : skip_ws s = c :: y -> c <> 40 -> peek s (bytes "(") = (false, skip_ws s).
Proof.
  intros E Hc. rewrite (peek_in s _ c y E), E. f_equal. apply in_set_false. change (bytes "(") with [40]. rewrite elem_of_cons, elem_of_nil. tauto.
Qed.

(** Printed words and redirections do not begin with a parenthesis. *)
Lemma simple_no_block ws rs s x : Forall word_ok ws -> Forall redir_ok rs -> skip_ws s = skip_ws (show_words ws ++ show_redirs rs ++ x) -> follows (bytes "|)&;") x ->
  peek s (bytes "(") = (false, skip_ws s).
Proof.
  intros Hws Hrs E Hx. destruct ws as [|w ws].
  - destruct rs as [|r rs]; cbn in E.
    + unfold follows in Hx. destruct (skip_ws x) as [|c y]; [unfold peek; by rewrite E |]. eapply exec_no_block; [exact E |]. intros ->.
      apply in_set_elem in Hx. done.
    + apply Forall_cons in Hrs as [Hr _]. unfold show_redirs in E. cbn [map concat] in E. rewrite <- app_assoc in E.
      destruct (show_redir_head r (concat (map show_redir rs) ++ x) Hr) as (c & y & E1 & Hc & H). rewrite H, E1 in E. eapply exec_no_block; [exact E | lia].
  - rewrite words_skip in E by done. apply Forall_cons in Hws as [[Hn Hw] _]. destruct w as [|c w]; [done |]. apply Forall_cons in Hw as [[Hc _] _].
    eapply exec_no_block; [exact E |]. intros ->. done.
Qed.

Lemma exec_exec ws rs : reads_exec (fold_left redircmd rs (EXEC ws)).
Proof.
  intros Hok fuel s x E Hx Hf. pose proof (peel_spec (fold_left redircmd rs (EXEC ws))) as Hp.
  assert (Epl : peel (fold_left redircmd rs (EXEC ws)) = (EXEC ws, rs)).
  { clear. induction rs as [|r rs IH] using rev_ind; [done |]. rewrite fold_left_app. cbn. rewrite IH. by destruct r as [[? ?] ?]. }
  rewrite Epl in Hp. destruct Hp as (_ & Esh & _ & Hbr). destruct (Hbr Hok) as [[Hws Ha] Hrs]. rewrite Esh in E. cbn [show] in E. rewrite <- app_assoc in E.
  destruct fuel as [|fuel]; [lia |]. cbn [parseexec]. rewrite (simple_no_block ws rs s x) by done.
  pose proof (follows_no_redir x Hx) as Hnr. destruct (decide (ws = [])) as [->|Hwn].
  - cbn [show_words map concat app] in E.
    destruct (redirs_show rs (S (length (skip_ws s))) (skip_ws s) x Hrs) as (rs' & Er & Mr); [by rewrite skip_ws_idem | done | by eapply redirs_fuel |].
    rewrite Er. cbn [pbind].
    destruct (args_show [] [] (S (S (length (skip_ws x)))) 0 (skip_ws x) x) as (a & Ea & M1 & M2); try done; [by rewrite skip_ws_idem | cbn; lia |].
    rewrite Ea. cbn [pbind]. eexists. split; [reflexivity |]. rewrite map_redirs, map_app, Mr, M2, app_nil_r. cbn [cmd_map]. by rewrite M1.
  - destruct (redirs_show [] (S (length (skip_ws s))) (skip_ws s) (skip_ws s)) as (rs' & Er & Mr); [constructor | done | | cbn; lia |].
    { rewrite skip_ws_idem, E, words_skip by done. destruct ws as [|w ws]; [done |]. apply Forall_cons in Hws as [[Hn Hw] _]. destruct w as [|c w]; [done |].
      apply Forall_cons in Hw as [[Hc _] _]. cbn. split; intros ->; done. }
    rewrite Er. cbn [pbind]. rewrite skip_ws_idem.
    destruct (args_show ws rs (S (S (length (skip_ws s)))) 0 (skip_ws s) x) as (a & Ea & M1 & M2); try done; [by rewrite skip_ws_idem | |].
    { rewrite E, words_skip, !length_app by done. pose proof (show_words_length ws). pose proof (show_redirs_length rs). lia. }
    rewrite Ea. cbn [pbind]. eexists. split; [reflexivity |]. rewrite map_redirs, map_app, M2. apply map_eq_nil in Mr as ->. cbn [cmd_map map app]. by rewrite M1.
Qed.

Lemma exec_block b rs : (forall ws, b <> EXEC ws) -> (forall b' f m fd, b <> REDIR b' f m fd) -> reads_line b -> reads_exec (fold_left redircmd rs b).
Proof.
  intros Hne Hnr Hl Hok fuel s x E Hx Hf. pose proof (peel_spec (fold_left redircmd rs b)) as Hp.
  assert (Epl : peel (fold_left redircmd rs b) = (b, rs)).
  { clear -Hnr. induction rs as [|r rs IH] using rev_ind; [destruct b; try done; by edestruct Hnr |]. rewrite fold_left_app. cbn. rewrite IH. by destruct r as [[? ?] ?]. }
  rewrite Epl in Hp. destruct Hp as (_ & Esh & _ & Hbr). destruct (Hbr Hok) as [Hb Hrs].
  assert (Es : show 3 b = [40] ++ show 0 b ++ [41]) by (destruct b; try done; [by edestruct Hne | by edestruct Hnr]).
  rewrite Esh, Es in E. rewrite <- !app_assoc in E. set (z := show_redirs rs ++ x) in *. set (y := show 0 b ++ [41] ++ z) in *. change ([40] ++ y) with (40 :: y) in E.
  rewrite (sym_skip 40 y ltac:(inset)) in E. destruct fuel as [|[|fuel]]; [lia.. |]. cbn [parseexec parseblock].
  destruct (read_sym s 40 y (bytes "(") E) as (q & Pk & Gt); [inset | inset |]. rewrite Pk.
  destruct (read_sym (40 :: y) 40 y (bytes "(")) as (q' & Pk' & Gt'); [apply sym_skip; inset | inset | inset |]. rewrite Pk'. cbn [negb]. rewrite Gt'.
  pose proof (len_after s y 40 (skip_ws y) E eq_refl) as Hlen. assert (Hsz : skip_ws (41 :: z) = 41 :: z) by (apply sym_skip; inset).
  destruct (Hl Hb fuel (skip_ws y) (41 :: z)) as (b' & Ep & Tb); [by rewrite skip_ws_idem | eapply follows_in; [exact Hsz | inset] | lia |].
  rewrite Ep. cbn [pbind]. rewrite Hsz. destruct (read_sym (41 :: z) 41 z (bytes ")") Hsz) as (q2 & Pk2 & Gt2); [inset | inset |]. rewrite Pk2, Gt2. cbn [negb]. unfold parseredirs.
  destruct (redirs_show rs (S (length (skip_ws z))) (skip_ws z) x Hrs) as (rs' & Er & Mr); [by rewrite skip_ws_idem | by apply follows_no_redir | by eapply redirs_fuel |].
  rewrite Er. cbn [pbind]. eexists. split; [reflexivity |]. by rewrite map_redirs, Mr, Tb.
Qed.

(** ** Every command, at every level *)

Record reads_all (c : cmd (list Z)) : Prop := mkReadsAll {
  ra_exec : forall rs, reads_exec (fold_left redircmd rs c);
  ra_pipe : reads_pipe c;
  ra_back : reads_back c;
  ra_line : reads_line c
}.

(** A simple command or a redirected one: from the level below up. *)
Lemma all_of_exec c : (forall l r, c <> PIPE l r) -> (forall c0, c <> BACK c0) -> (forall l r, c <> LIST l r) ->
  (forall rs, reads_exec (fold_left redircmd rs c)) -> reads_all c.
Proof.
  intros H1 H2 H3 He. assert (Hp : reads_pipe c) by (apply pipe_of_exec; [done | exact (He [])]). assert (Hb : reads_back c) by (by apply back_of_pipe).
  split; [done | done | done | by apply line_of_back].
Qed.

Lemma reads_every c : reads_all c.
Proof.
  induction c as [argv|c IH file m f|l IHl r IHr|l IHl r IHr|c IH].
  - apply all_of_exec; try done. intros rs. apply exec_exec.
  - apply all_of_exec; try done. intros rs. apply (ra_exec _ IH ((file, m, f) :: rs)).
  - assert (Hp : reads_pipe (PIPE l r)) by (apply pipe_pipe; [apply (ra_exec _ IHl []) | apply IHr]). assert (Hb : reads_back (PIPE l r)) by (by apply back_of_pipe).
    assert (Hl : reads_line (PIPE l r)) by (by apply line_of_back). split; [intros rs; by apply exec_block | done..].
  - assert (Hl : reads_line (LIST l r)) by (apply line_list; [apply IHl | apply IHr]). assert (He : forall rs, reads_exec (fold_left redircmd rs (LIST l r))) by (intros rs; by apply exec_block).
    assert (Hp : reads_pipe (LIST l r)) by (apply pipe_of_exec; [done | exact (He [])]). split; [done | done | by apply back_of_pipe | done].
  - assert (Hb : reads_back (BACK c)) by (apply back_back, IH). assert (Hl : reads_line (BACK c)) by (by apply line_of_back).
    assert (He : forall rs, reads_exec (fold_left redircmd rs (BACK c))) by (intros rs; by apply exec_block). split; [done | apply pipe_of_exec; [done | exact (He [])] | done | done].
Qed.

(** A printed command holds no NUL. *)
Lemma par_nz b s : Forall (fun x => x <> 0) s -> Forall (fun x => x <> 0) (par b s).
Proof. intros H. destruct b; [|done]. unfold par. rewrite !Forall_app. repeat split; first [done | repeat constructor; lia]. Qed.

Lemma redir_nz r : redir_ok r -> Forall (fun x => x <> 0) (show_redir r).
Proof.
  intros [[_ Hw] _]. unfold show_redir. rewrite !Forall_app. split; [|split; [|repeat constructor; lia]].
  - unfold redir_op. destruct (r.1.2 =? 0); [|destruct (r.1.2 =? 0x601)]; repeat constructor; lia.
  - eapply Forall_impl; [exact Hw |]. by intros ? [].
Qed.

Lemma show_nz c : forall lvl, cmd_ok c -> Forall (fun x => x <> 0) (show lvl c).
Proof.
  induction c as [argv|c IH file m f|l IHl r IHr|l IHl r IHr|c IH]; intros lvl Hok; cbn [show cmd_ok] in *.
  - destruct Hok as [Hw _]. induction Hw as [|w ws [_ Hw] Hws IH]; [constructor |]. unfold show_words. cbn [map concat]. rewrite !Forall_app. split; [|exact IH].
    split; [|repeat constructor; lia]. eapply Forall_impl; [exact Hw |]. by intros ? [].
  - rewrite Forall_app. split; [apply IH, Hok | apply redir_nz, Hok].
  - apply par_nz. rewrite !Forall_app. split; [apply IHl, Hok | split; [repeat constructor; lia | apply IHr, Hok]].
  - apply par_nz. rewrite !Forall_app. split; [apply IHl, Hok | split; [repeat constructor; lia | apply IHr, Hok]].
  - apply par_nz. rewrite !Forall_app. split; [apply IH, Hok | repeat constructor; lia].
Qed.

(** C36: The shell parses what is printed: for every command made of words, redirections, pipes, lists, background commands and
    blocks, parsecmd on the printed line succeeds, and the command it gives to runcmd, its strings read from the line after
    nulterminate, is the command printed. *)
Theorem parse_show c : cmd_ok c ->
  exists buf c', parsecmd (show 0 c) = Done (buf, c') /\ cmd_map (fun t => string_at buf t.1) c' = c.
Proof.
  intros Hok. destruct (ra_line _ (reads_every c) Hok (depth (show 0 c)) (show 0 c) []) as (c' & Ep & Et); [by rewrite app_nil_r | done | unfold depth; lia |].
  unfold parsecmd. rewrite Ep. cbn [skip_ws peek snd]. eexists _, c'. split; [reflexivity |]. rewrite nulterminate_strings; [done | by apply show_nz |].
  pose proof (proj1 (parse_tgood (show 0 c) (depth (show 0 c))) (show 0 c) ltac:(by exists [])) as Hg. rewrite Ep in Hg. apply Hg.
Qed.

(** "(a x < in | b >> out & ; c ) > log": *)
Definition sample : cmd (list Z) :=
  REDIR (LIST (BACK (PIPE (REDIR (EXEC [bytes "a"; bytes "x"]) (bytes "in") 0 0) (REDIR (EXEC [bytes "b"]) (bytes "out") 0x201 1))) (EXEC [bytes "c"]))
    (bytes "log") 0x601 1.

Lemma parse_show_witness : exists buf c', parsecmd (show 0 sample) = Done (buf, c') /\ cmd_map (fun t => string_at buf t.1) c' = sample.
Proof.
  apply (parse_show sample). unfold sample. cbn [cmd_ok].
  assert (W : forall w, forallb (fun c => word_char c && negb (c =? 0)) w = true -> w <> [] -> word_ok w).
  { intros w Hw Hn. split; [done |]. apply Forall_forall. intros c Hc. rewrite forallb_forall in Hw. apply list_elem_of_In in Hc. specialize (Hw c Hc). apply andb_prop in Hw as [? ?%negb_true_iff%Z.eqb_neq]. done. }
  unfold redir_ok. cbn [fst snd]. repeat first [ split; [|] | apply W; [reflexivity | discriminate] | apply Forall_cons | apply Forall_nil_2 | reflexivity ]; auto.
Defined.

(** C37: Parsing ends for every line: the recursion never runs out of the depth given, a line without NULs either is refused with
    a message or gives a command over words of the line, leaving a suffix of it, and the strings the command runs with are the
    texts of those words. *)
Theorem parse_total s : Forall (fun c => c <> 0) s ->
  match parseline (depth s) s with
  | POk c r => suffix_of r s /\ Forall (tok_ok s) (strings c) /\ cmd_map (fun t => string_at (nulterminate c s) t.1) c = cmd_map text c
  | PPanic _ => True
  | PFuel => False
  end.
Proof.
  intros Hnz. pose proof (proj1 (parse_good (depth s)) s ltac:(unfold depth; lia)) as Hg.
  pose proof (proj1 (parse_tgood s (depth s)) s ltac:(by exists [])) as Ht. destruct (parseline (depth s) s) as [c r|msg|]; [|done..].
  destruct Ht as [Htk Hs]. split; [done |]. split; [done |]. by apply nulterminate_strings.
Qed.

Lemma parse_total_witness : match parseline (depth (bytes "ls|wc >f")) (bytes "ls|wc >f") with PFuel => False | _ => True end.
Proof.
  pose proof (parse_total (bytes "ls|wc >f") ltac:(repeat constructor; discriminate)) as H. destruct (parseline _ _) as [c r|msg|]; [exact I | exact I | exact H].
Defined.
