(* ===== verification/Mkfs.v ===== *)
(** * mkfs/mkfs.c: building a file-system image

    The image file is its blocks and its length in blocks: a read past the end
    fails, a write past the end extends the file with zeroes.  The host is
    taken to be little-endian.  The files to
    copy are given by their names and what opening and reading them returns:
    [None] if they cannot be opened, otherwise the successive non-empty results
    of read.  Messages are not modelled; exit(1) and a failed assert are the
    outcome [Panic]. *)

From S2P Require Import Prelude State Mem CacheRules Log Fs.

Record image : Type := mkImage { im_blocks : Z -> list Z; im_size : Z }.

(** The variables of mkfs.c, and the image file. *)
Record mkfs : Type := mkMkfs { mk_img : image; mk_sb : superblock; freeinode : Z; freeblock : Z }.

Definition set_img (i : image) (m : mkfs) : mkfs := mkMkfs i (mk_sb m) (freeinode m) (freeblock m).
Definition set_freeblock (n : Z) (m : mkfs) : mkfs := mkMkfs (mk_img m) (mk_sb m) (freeinode m) n.

Module Mkfs.

Definition NINODES : Z := 200.
Definition nbitmap : Z := FSSIZE / (BSIZE * 8) + 1.
Definition ninodeblocks : Z := NINODES / IPB + 1.
Definition nlog : Z := LOGSIZE.
Definition nmeta : Z := 2 + nlog + ninodeblocks + nbitmap.
Definition nblocks : Z := FSSIZE - nmeta.
Definition zeroes : list Z := replicate (Z.to_nat BSIZE) 0.

Definition die {A} : M mkfs A := panic "die".
Definition assert (b : bool) : M mkfs unit := if b then mret tt else panic "assert".

(** Convert to riscv byte order: the number whose bytes in memory are those of [x], lowest first. *)
Definition xshort (x : Z) : Z := le_dec [u8 x; u8 (Z.shiftr x 8)].
Definition xint (x : Z) : Z := le_dec [u8 x; u8 (Z.shiftr x 8); u8 (Z.shiftr x 16); u8 (Z.shiftr x 24)].

(** The block at file offset [sec * BSIZE], computed in 32 bits. *)
Definition sector (sec : Z) : Z := u32 (sec * BSIZE) / BSIZE.

Definition wsect (sec : Z) (buf : list Z) : M mkfs unit := modify (fun m =>
  let i := mk_img m in
  set_img (mkImage (fupd (im_blocks i) (sector sec) buf) (Z.max (im_size i) (sector sec + 1))) m).

Definition rsect (sec : Z) : M mkfs (list Z) :=
  i ← gets (fun m => mk_img m);
  if sector sec <? im_size i then mret (im_blocks i (sector sec)) else die.

Definition winode (inum : Z) (ip : dinode) : M mkfs unit :=
  sb ← gets (fun m => mk_sb m);
  let bn := IBLOCK inum sb in
  buf ← rsect bn;
  wsect bn (put_dinode (IOFF inum) ip buf).

Definition rinode (inum : Z) : M mkfs dinode :=
  sb ← gets (fun m => mk_sb m);
  let bn := IBLOCK inum sb in
  buf ← rsect bn;
  mret (get_dinode (IOFF inum) buf).

(** [freeblock++] *)
Definition next_block : M mkfs Z :=
  b ← gets (fun m => freeblock m);
  modify (fun m => set_freeblock (u32 (freeblock m + 1)) m) ;;
  mret b.

Definition zero_dinode : dinode := mkDinode 0 0 0 0 0 (replicate (Z.to_nat (NDIRECT + 1)) 0).

Definition set_size (n : Z) (d : dinode) : dinode := mkDinode (di_type d) (di_major d) (di_minor d) (di_nlink d) n (di_addrs d).
Definition set_addr (k a : Z) (d : dinode) : dinode :=
  mkDinode (di_type d) (di_major d) (di_minor d) (di_nlink d) (di_size d) (<[Z.to_nat k := a]> (di_addrs d)).

Definition ialloc (type : Z) : M mkfs Z :=
  inum ← gets (fun m => freeinode m);
  modify (fun m => mkMkfs (mk_img m) (mk_sb m) (u32 (freeinode m + 1)) (freeblock m)) ;;
  winode inum (mkDinode (i16 (xshort type)) 0 0 (i16 (xshort 1)) (xint 0) (di_addrs zero_dinode)) ;;
  mret inum.

(** [for(i = 0; i < used; i++) buf[i/8] = buf[i/8] | (0x1 << (i%8));] *)
Fixpoint mark (k : nat) (i : Z) (buf : list Z) : list Z :=
  match k with
  | O => buf
  | S k => mark k (i + 1) (bit_set buf i)
  end.

Definition balloc (used : Z) : M mkfs unit :=
  assert (used <? BSIZE * 8) ;;
  sb ← gets (fun m => mk_sb m);
  wsect (sb_bmapstart sb) (mark (Z.to_nat used) 0 zeroes).

(** The block of the file [din] at block index [fbn], allocated if there is none. *)
Definition file_block (din : dinode) (fbn : Z) : M mkfs (dinode * Z) :=
  if fbn <? NDIRECT then
    din ← (if xint (di_addrs din !!! Z.to_nat fbn) =? 0 then b ← next_block; mret (set_addr fbn (xint b) din) else mret din);
    mret (din, xint (di_addrs din !!! Z.to_nat fbn))
  else
    din ← (if xint (di_addrs din !!! Z.to_nat NDIRECT) =? 0 then b ← next_block; mret (set_addr NDIRECT (xint b) din) else mret din);
    let ind := xint (di_addrs din !!! Z.to_nat NDIRECT) in
    indirect ← rsect ind;
    let o := 4 * (fbn - NDIRECT) in
    indirect ← (if get32 o indirect =? 0 then
                  b ← next_block;
                  let indirect := put32 o (xint b) indirect in
                  wsect ind indirect ;;
                  mret indirect
                else mret indirect);
    mret (din, xint (get32 o indirect)).

(** The loop of iappend: the rest of the data, one block per round. *)
Fixpoint iappend_loop (fuel : nat) (din : dinode) (off : Z) (p : list Z) : M mkfs (dinode * Z) :=
  match fuel with
  | O => nofuel
  | S fuel =>
      match p with
      | [] => mret (din, off)
      | _ =>
          let fbn := off / BSIZE in
          assert (fbn <? MAXFILE) ;;
          r ← file_block din fbn;
          let '(din, x) := r in
          let n1 := Z.min (Z.of_nat (length p)) ((fbn + 1) * BSIZE - off) in
          buf ← rsect x;
          wsect x (splice (off - fbn * BSIZE) (take (Z.to_nat n1) p) buf) ;;
          iappend_loop fuel din (u32 (off + n1)) (drop (Z.to_nat n1) p)
      end
  end.

Definition iappend (inum : Z) (p : list Z) : M mkfs unit :=
  din ← rinode inum;
  r ← iappend_loop (S (length p)) din (xint (di_size din)) p;
  let '(din, off) := r in
  winode inum (set_size (xint off) din).

(** ** main *)

Definition sb_encode (s : superblock) : list Z :=
  put32 28 (sb_bmapstart s) (put32 24 (sb_inodestart s) (put32 20 (sb_logstart s) (put32 16 (sb_nlog s)
    (put32 12 (sb_ninodes s) (put32 8 (sb_nblocks s) (put32 4 (sb_size s) (put32 0 (sb_magic s) zeroes))))))).

Definition new_sb : superblock :=
  mkSuperblock FSMAGIC (xint FSSIZE) (xint nblocks) (xint NINODES) (xint nlog) (xint 2) (xint (2 + nlog)) (xint (2 + nlog + ninodeblocks)).

(** [for(i = 0; i < FSSIZE; i++) wsect(i, zeroes);] *)
Fixpoint wipe (k : nat) (i : Z) : M mkfs unit :=
  match k with
  | O => mret tt
  | S k => wsect i zeroes ;; wipe k (i + 1)
  end.

Fixpoint append_all (inum : Z) (l : list (list Z)) : M mkfs unit :=
  match l with
  | [] => mret tt
  | p :: l => iappend inum p ;; append_all inum l
  end.

Fixpoint starts_with (pre s : list Z) : bool :=
  match pre, s with
  | [], _ => true
  | a :: pre, c :: s => (a =? c) && starts_with pre s
  | _, [] => false
  end.

(** The name of a file, without "user/". *)
Definition strip_user (arg : list Z) : list Z := if starts_with (bytes "user/") arg then drop 5 arg else arg.

Definition no_slash (s : list Z) : bool := forallb (fun c => negb (c =? 47)) s.

Definition shortname (arg : list Z) : M mkfs (list Z) :=
  assert (no_slash (strip_user arg)) ;;
  mret (strip_user arg).

Definition skip_underscore (s : list Z) : list Z := match s with 95 :: s' => s' | _ => s end.

(** One file: its name, and the results of reading it. *)
Definition add_file (rootino : Z) (f : list Z * option (list (list Z))) : M mkfs unit :=
  s ← shortname f.1;
  match f.2 with
  | None => die
  | Some chunks =>
      inum ← ialloc T_FILE;
      iappend rootino (dirent (xshort inum) (skip_underscore s)) ;;
      append_all inum chunks
  end.

Fixpoint add_files (rootino : Z) (l : list (list Z * option (list (list Z)))) : M mkfs unit :=
  match l with
  | [] => mret tt
  | f :: l => add_file rootino f ;; add_files rootino l
  end.

(** After the image file was opened: an empty file, [freeinode = 1]. *)
Definition empty_image : mkfs := mkMkfs (mkImage (fun _ => zeroes) 0) (mkSuperblock 0 0 0 0 0 0 0 0) 1 0.

Definition main (files : list (list Z * option (list (list Z)))) : M mkfs unit :=
  modify (fun m => mkMkfs (mk_img m) new_sb (freeinode m) nmeta) ;;
  wipe (Z.to_nat FSSIZE) 0 ;;
  wsect 1 (sb_encode new_sb) ;;
  rootino ← ialloc T_DIR;
  assert (rootino =? ROOTINO) ;;
  iappend rootino (dirent (xshort rootino) (bytes ".")) ;;
  iappend rootino (dirent (xshort rootino) (bytes "..")) ;;
  add_files rootino files ;;
  din ← rinode rootino;
  let off := xint (di_size din) in
  let off := u32 ((off / BSIZE + 1) * BSIZE) in
  winode rootino (set_size (xint off) din) ;;
  b ← gets (fun m => freeblock m);
  balloc (i32 b).
End Mkfs.
