(* ===== verification/MkfsProps.v ===== *)
(** * mkfs writes what the kernel reads

    Files are laid out in blocks taken in order from [freeblock].  [laid] is the
    layout of one file: its block map, as the kernel's bmap reads it, sends
    different block indices to different blocks below [freeblock], apart from the
    metadata and the indirect block.  iappend extends the bytes the kernel's readi
    sees in the file and changes no other file. *)

From S2P Require Import Prelude State Mem CacheRules Log LogHeader Fs FsBlocks FsInode FsData Mkfs.
Import Mkfs.

(** ** Byte order *)

Lemma shiftr_8 x : Z.shiftr x 8 = x / 256.
Proof. by rewrite Z.shiftr_div_pow2. Qed.

Lemma xint_u32 x : xint x = u32 x.
Proof.
  assert (E : [u8 x; u8 (Z.shiftr x 8); u8 (Z.shiftr x 16); u8 (Z.shiftr x 24)] = le_enc 4 x).
  { cbn [le_enc]. rewrite !Z.shiftr_div_pow2 by lia. rewrite !Z.div_div by lia. done. }
  unfold xint. rewrite E, le_dec_enc. done.
Qed.

Lemma xshort_u16 x : xshort x = u16 x.
Proof.
  assert (E : [u8 x; u8 (Z.shiftr x 8)] = le_enc 2 x) by (cbn [le_enc]; rewrite !Z.shiftr_div_pow2 by lia; done).
  unfold xshort. rewrite E, le_dec_enc. done.
Qed.

Lemma xint_small x : 0 <= x < 2 ^ 32 -> xint x = x.
Proof. intros H. rewrite xint_u32. by apply wrap_small. Qed.

Lemma sector_small b : 0 <= b < 2 ^ 20 -> sector b = b.
Proof. intros H. unfold sector, BSIZE. rewrite wrap_small by lia. apply Z.div_mul. lia. Qed.

(** ** The layout of a file *)

Definition view (d : dinode) : inode := mkInode 0 0 0 zero_sleeplock false (di_type d) (di_major d) (di_minor d) (di_nlink d) (di_size d) (di_addrs d).

Record laid (v : Z -> list Z) (fb : Z) (d : dinode) (nb : Z) (h : bool) : Prop := mkLaid {
  l_len : length (di_addrs d) = 13%nat;
  l_nb : 0 <= nb <= MAXFILE;
  l_map : forall k, 0 <= k < nb -> nmeta <= baddr v (view d) k < fb;
  l_h : NDIRECT < nb -> h = true;
  l_ind : h = true -> nmeta <= indirect (view d) < fb;
  l_sep : forall k, h = true -> 0 <= k < nb -> baddr v (view d) k <> indirect (view d);
  l_inj : forall k k', 0 <= k < nb -> 0 <= k' < nb -> baddr v (view d) k = baddr v (view d) k' -> k = k';
  l_zero : forall k, nb <= k < MAXFILE -> k < NDIRECT \/ h = true -> baddr v (view d) k = 0;
  l_noind : h = false -> indirect (view d) = 0
}.

(** The blocks of a file. *)
Definition own (v : Z -> list Z) (d : dinode) (nb : Z) (h : bool) (b : Z) : Prop :=
  (exists k, 0 <= k < nb /\ b = baddr v (view d) k) \/ (h = true /\ b = indirect (view d)).

Lemma own_below v fb d nb h b : laid v fb d nb h -> own v d nb h b -> nmeta <= b < fb.
Proof. intros Ld [(k & Hk & ->)|[Hh ->]]; [by apply Ld | by apply Ld]. Qed.

(** The block map depends on the indirect block only. *)
Lemma baddr_ext v v' d k : v' (indirect (view d)) = v (indirect (view d)) -> baddr v' (view d) k = baddr v (view d) k.
Proof. intros E. unfold baddr. by rewrite E. Qed.

Lemma laid_ext v v' fb fb' d nb h : (h = true -> v' (indirect (view d)) = v (indirect (view d))) -> fb <= fb' -> laid v fb d nb h -> laid v' fb' d nb h.
Proof.
  intros E Hfb [A1 A2 A3 A4 A5 A6 A7 A8 A9]. assert (B : forall k, k < NDIRECT \/ h = true -> baddr v' (view d) k = baddr v (view d) k).
  { intros k [Hk|Hh]; [|apply baddr_ext; auto]. unfold baddr. by apply Z.ltb_lt in Hk as ->. }
  assert (Bk : forall k, 0 <= k < nb -> k < NDIRECT \/ h = true) by (intros k Hk; destruct (Z.lt_ge_cases k NDIRECT); [by left | right; apply A4; lia]).
  split; try done.
  - intros k Hk. rewrite B by auto. pose proof (A3 k Hk). lia.
  - intros Hh. pose proof (A5 Hh). lia.
  - intros k Hh Hk. rewrite B by auto. by apply A6.
  - intros k k' Hk Hk'. rewrite !B by auto. by apply A7.
  - intros k Hk Hor. rewrite B by done. by apply A8.
Qed.

Lemma owns_ext v v' d nb h b : (NDIRECT < nb -> h = true) -> (h = true -> v' (indirect (view d)) = v (indirect (view d))) -> own v' d nb h b <-> own v d nb h b.
Proof.
  intros Hn E. assert (B : forall k, 0 <= k < nb -> baddr v' (view d) k = baddr v (view d) k).
  { intros k Hk. destruct (Z.ltb_spec k NDIRECT) as [Hd|Hd]; [unfold baddr; by apply Z.ltb_lt in Hd as -> |]. apply baddr_ext, E, Hn. lia. }
  unfold own. split; (intros [(k & Hk & ->)|?]; [left; exists k; split; [done |]; by rewrite B | by right]).
Qed.

(** ** Taking new blocks *)

Ltac consts := change nmeta with 46 in *; change MAXFILE with 268 in *; change NINDIRECT with 256 in *; change NDIRECT with 12 in *; change BSIZE with 1024 in *.

Lemma addr_set d k a j : length (di_addrs d) = 13%nat -> 0 <= k < 13 -> 0 <= j < 13 ->
  di_addrs (set_addr k a d) !!! Z.to_nat j = if decide (j = k) then a else di_addrs d !!! Z.to_nat j.
Proof.
  intros Hl Hk Hj. cbn. destruct (decide (j = k)) as [->|Hne]; [apply list_lookup_total_insert_eq; lia | apply list_lookup_total_insert_ne; lia].
Qed.

(** A direct block. *)
Lemma laid_direct v fb d nb h : laid v fb d nb h -> nb < NDIRECT -> nmeta <= fb ->
  laid v (fb + 1) (set_addr nb fb d) (nb + 1) h /\ baddr v (view (set_addr nb fb d)) nb = fb /\
  (forall k, 0 <= k < nb -> baddr v (view (set_addr nb fb d)) k = baddr v (view d) k) /\ indirect (view (set_addr nb fb d)) = indirect (view d).
Proof.
  intros [A1 A2 A3 A4 A5 A6 A7 A8 A9] Hnb Hfb. set (d' := set_addr nb fb d). consts.
  assert (Ei : indirect (view d') = indirect (view d)) by (change (di_addrs (set_addr nb fb d) !!! Z.to_nat 12 = di_addrs d !!! Z.to_nat 12); rewrite addr_set by lia; by rewrite decide_False by lia).
  assert (B : forall k, 0 <= k -> baddr v (view d') k = if decide (k = nb) then fb else baddr v (view d) k).
  { intros k Hk. unfold baddr. rewrite Ei. unfold NDIRECT. destruct (Z.ltb_spec k 12) as [Hd|Hd]; [cbn [i_addrs view]; unfold d'; by rewrite addr_set by lia | by rewrite decide_False by lia]. }
  assert (Bn : baddr v (view d') nb = fb) by (rewrite B by lia; by rewrite decide_True).
  assert (Bo : forall k, 0 <= k -> k <> nb -> baddr v (view d') k = baddr v (view d) k) by (intros k Hk Hne; rewrite B by done; by rewrite decide_False).
  split; [split|split; [done | split; [intros k Hk; apply Bo; lia | done]]]; consts.
  - cbn. by rewrite length_insert.
  - consts. lia.
  - intros k Hk. destruct (decide (k = nb)) as [->|]; [lia |]. rewrite Bo by lia. pose proof (A3 k ltac:(lia)). lia.
  - intros Hx. exfalso. consts. lia.
  - intros Hh. rewrite Ei. pose proof (A5 Hh). lia.
  - intros k Hh Hk. rewrite Ei. destruct (decide (k = nb)) as [->|]; [rewrite Bn; pose proof (A5 Hh); lia |]. rewrite Bo by lia. apply A6; [done | lia].
  - intros k k' Hk Hk'. destruct (decide (k = nb)) as [->|Hne]; destruct (decide (k' = nb)) as [->|Hne']; rewrite ?Bn, ?Bo by lia; intros E.
    + done.
    + pose proof (A3 k' ltac:(lia)). lia.
    + pose proof (A3 k ltac:(lia)). lia.
    + apply A7; lia || done.
  - intros k Hk Hor. rewrite Bo by lia. apply A8; [consts; lia | done].
  - intros Hh. rewrite Ei. by apply A9.
Qed.

(** The indirect block, which a fresh block is: all its entries are 0. *)
Lemma get32_zeroes o : 0 <= o -> o + 4 <= BSIZE -> get32 o zeroes = 0.
Proof.
  intros H1 H2. unfold get32, slice, zeroes. consts. rewrite drop_replicate, take_replicate. replace (Z.to_nat 4 `min` (Z.to_nat 1024 - Z.to_nat o))%nat with 4%nat by lia. reflexivity.
Qed.

Lemma laid_indirect v fb d nb : laid v fb d nb false -> nmeta <= fb -> v fb = zeroes ->
  laid v (fb + 1) (set_addr NDIRECT fb d) nb true /\ indirect (view (set_addr NDIRECT fb d)) = fb /\
  (forall k, 0 <= k < nb -> baddr v (view (set_addr NDIRECT fb d)) k = baddr v (view d) k).
Proof.
  intros [A1 A2 A3 A4 A5 A6 A7 A8 A9] Hfb Hz. set (d' := set_addr NDIRECT fb d). assert (Hnb : nb <= NDIRECT) by (destruct (Z.le_gt_cases nb NDIRECT); [done |]; by specialize (A4 ltac:(lia))).
  assert (Ei : indirect (view d') = fb) by (change (di_addrs (set_addr 12 fb d) !!! Z.to_nat 12 = fb); rewrite addr_set by lia; by rewrite decide_True).
  assert (B : forall k, 0 <= k < NDIRECT -> baddr v (view d') k = baddr v (view d) k).
  { intros k Hk. unfold baddr. destruct (Z.ltb_spec k NDIRECT); [|lia]. change (di_addrs (set_addr 12 fb d) !!! Z.to_nat k = di_addrs d !!! Z.to_nat k). consts. rewrite addr_set by lia. by rewrite decide_False by lia. }
  split; [split|split; [done | intros k Hk; apply B; lia]]; try done.
  - cbn. by rewrite length_insert.
  - intros k Hk. rewrite B by lia. pose proof (A3 k Hk). lia.
  - intros _. rewrite Ei. lia.
  - intros k _ Hk. rewrite Ei, B by lia. pose proof (A3 k Hk). lia.
  - intros k k' Hk Hk'. rewrite !B by lia. by apply A7.
  - intros k Hk _. destruct (Z.lt_ge_cases k NDIRECT) as [Hd|Hd]; [rewrite B by lia; apply A8; auto |].
    unfold baddr. destruct (Z.ltb_spec k NDIRECT); [lia |]. rewrite Ei, Hz. apply get32_zeroes; consts; lia.
Qed.

(** An entry of the indirect block. *)
Lemma laid_entry v fb d nb : laid v fb d nb true -> NDIRECT <= nb < MAXFILE -> nmeta <= fb < 2 ^ 20 -> length (v (indirect (view d))) = Z.to_nat BSIZE ->
  let v' := fupd v (indirect (view d)) (put32 (4 * (nb - NDIRECT)) fb (v (indirect (view d)))) in
  laid v' (fb + 1) d (nb + 1) true /\ baddr v' (view d) nb = fb /\ (forall k, 0 <= k < nb -> baddr v' (view d) k = baddr v (view d) k).
Proof.
  intros [A1 A2 A3 A4 A5 A6 A7 A8 A9] Hnb Hfb Hlen v'. set (ind := indirect (view d)) in *.
  assert (B : forall k, 0 <= k < MAXFILE -> baddr v' (view d) k = if decide (k = nb) then fb else baddr v (view d) k).
  { intros k Hk. unfold baddr. fold ind. destruct (Z.ltb_spec k NDIRECT) as [Hd|Hd]; [by rewrite decide_False by lia |]. unfold v'. rewrite fupd_eq.
    destruct (decide (k = nb)) as [->|Hne]; [rewrite get32_put32_eq by (consts; lia); apply wrap_small; consts; lia | apply get32_put32_ne; consts; lia]. }
  assert (Bn : baddr v' (view d) nb = fb) by (rewrite B by lia; by rewrite decide_True).
  assert (Bo : forall k, 0 <= k < MAXFILE -> k <> nb -> baddr v' (view d) k = baddr v (view d) k) by (intros k Hk Hne; rewrite B by done; by rewrite decide_False).
  split; [split|split; [done | intros k Hk; apply Bo; lia]]; try done.
  - lia.
  - intros k Hk. destruct (decide (k = nb)) as [->|]; [lia |]. rewrite Bo by lia. pose proof (A3 k ltac:(lia)). lia.
  - intros Hh. pose proof (A5 Hh). lia.
  - intros k Hh Hk. destruct (decide (k = nb)) as [->|]; [rewrite Bn; pose proof (A5 Hh); lia |]. rewrite Bo by lia. apply A6; [done | lia].
  - intros k k' Hk Hk'. destruct (decide (k = nb)) as [->|Hne]; destruct (decide (k' = nb)) as [->|Hne']; rewrite ?Bn, ?Bo by lia; intros E.
    + done.
    + pose proof (A3 k' ltac:(lia)). lia.
    + pose proof (A3 k ltac:(lia)). lia.
    + apply A7; lia || done.
  - intros k Hk Hor. rewrite Bo by (consts; lia). apply A8; [lia | by right].
Qed.

(** ** The functions on an image *)

Section image.
Context (sz : Z) (s : superblock) (fi : Z) (Hsz : sz <= 2 ^ 20).

Definition St (v : Z -> list Z) (fb : Z) : mkfs := mkMkfs (mkImage v sz) s fi fb.

Lemma rsect_run v fb b : 0 <= b < sz -> rsect b (St v fb) = Ret (v b) (St v fb).
Proof. intros Hb. unfold rsect. erewrite bind_Ret by reflexivity. cbv beta. rewrite sector_small by lia. cbn [mk_img St im_size im_blocks]. by apply proj2, Z.ltb_lt in Hb as ->. Qed.

Lemma wsect_run v fb b buf : 0 <= b < sz -> wsect b buf (St v fb) = Ret tt (St (fupd v b buf) fb).
Proof. intros Hb. unfold wsect, modify, St, set_img. cbn. rewrite sector_small by lia. by rewrite Z.max_l by lia. Qed.

Lemma next_block_run v fb : 0 <= fb < sz -> next_block (St v fb) = Ret fb (St v (fb + 1)).
Proof. intros Hb. unfold next_block. do 2 (erewrite bind_Ret by reflexivity; cbv beta). unfold St, set_freeblock, mret, M_ret, ret. cbn. by rewrite wrap_small by lia. Qed.

(** Blocks from [fb] on have not been used. *)
Record image_ok (v : Z -> list Z) (fb : Z) : Prop := mkImageOk {
  io_len : forall b, length (v b) = Z.to_nat BSIZE;
  io_fb : nmeta <= fb <= sz;
  io_fresh : forall b, fb <= b -> v b = zeroes
}.

Lemma image_fupd v fb b buf : image_ok v fb -> b < fb -> length buf = Z.to_nat BSIZE -> image_ok (fupd v b buf) fb.
Proof.
  intros [A1 A2 A3] Hb Hl. split; [|done|].
  - intros c. unfold fupd. by destruct (decide (c = b)).
  - intros c Hc. rewrite fupd_ne by lia. by apply A3.
Qed.

Lemma image_next v fb : image_ok v fb -> fb < sz -> image_ok v (fb + 1).
Proof. intros [A1 A2 A3] Hb. split; [done | lia |]. intros c Hc. apply A3. lia. Qed.

Definition attrs (d : dinode) : Z * Z * Z * Z := (di_type d, di_major d, di_minor d, di_nlink d).
Definition used (h : bool) : Z := if h then 1 else 0.

(** What iappend does to the layout of its file: it grows by blocks taken from
    [fb] on; the blocks it had stay, and nothing else below [fb] changes. *)
Record grows (v : Z -> list Z) (fb : Z) (d : dinode) (nb : Z) (h : bool) (v' : Z -> list Z) (fb' : Z) (d' : dinode) (nb' : Z) (h' : bool) : Prop := mkGrows {
  g_laid : laid v' fb' d' nb' h';
  g_image : image_ok v' fb';
  g_map : forall k, 0 <= k < nb -> baddr v' (view d') k = baddr v (view d) k;
  g_own : forall b, own v' d' nb' h' b -> own v d nb h b \/ fb <= b;
  g_frame : forall b, b < fb -> ~ own v d nb h b -> v' b = v b;
  g_fields : attrs d' = attrs d;
  g_fb : fb <= fb' <= fb + (nb' - nb) + (used h' - used h)
}.

(** The three ways to take a block, as growth. *)
Lemma grows_direct v fb d nb h : laid v fb d nb h -> image_ok v fb -> nb < NDIRECT -> fb < sz -> grows v fb d nb h v (fb + 1) (set_addr nb fb d) (nb + 1) h.
Proof.
  intros Ld I Hn Hf. pose proof (io_fb _ _ I). destruct (laid_direct v fb d nb h Ld Hn ltac:(lia)) as (L1 & L2 & L3 & L4). split; try done.
  - by apply image_next.
  - intros b [(k & Hk & ->)|[Hh ->]]; [|left; right; by rewrite L4]. destruct (decide (k = nb)) as [->|]; [right; lia |]. left. left. exists k. rewrite L3 by lia. split; [lia | done].
  - lia.
Qed.

Lemma grows_indirect v fb d nb : laid v fb d nb false -> image_ok v fb -> fb < sz -> grows v fb d nb false v (fb + 1) (set_addr NDIRECT fb d) nb true.
Proof.
  intros Ld I Hf. pose proof (io_fb _ _ I). destruct (laid_indirect v fb d nb Ld ltac:(lia)) as (L1 & L2 & L3); [by apply I |]. split; try done.
  - by apply image_next.
  - intros b [(k & Hk & ->)|[Hh ->]]; [|right; lia]. left. left. exists k. by rewrite L3.
  - unfold used. lia.
Qed.

Lemma grows_entry v fb d nb : laid v fb d nb true -> image_ok v fb -> NDIRECT <= nb < MAXFILE -> fb < sz ->
  grows v fb d nb true (fupd v (indirect (view d)) (put32 (4 * (nb - NDIRECT)) fb (v (indirect (view d))))) (fb + 1) d (nb + 1) true.
Proof.
  intros Ld I Hn Hf. pose proof (io_fb _ _ I). destruct (laid_entry v fb d nb Ld Hn ltac:(lia)) as (L1 & L2 & L3); [apply I |]. pose proof (l_ind _ _ _ _ _ Ld eq_refl) as Hi. split; try done.
  - apply image_next; [|done]. apply image_fupd; [done | lia |]. unfold put32. rewrite length_splice, (io_len _ _ I); [done | consts; lia |].
    rewrite (io_len _ _ I), length_le_enc. consts. lia.
  - intros b [(k & Hk & ->)|[Hh ->]]; [|left; by right]. destruct (decide (k = nb)) as [->|]; [right; rewrite L2; lia |]. left. left. exists k. rewrite L3 by lia. split; [lia | done].
  - intros b Hb Hno. apply fupd_ne. intros ->. apply Hno. by right.
  - lia.
Qed.

Lemma grows_refl v fb d nb h : laid v fb d nb h -> image_ok v fb -> grows v fb d nb h v fb d nb h.
Proof. intros Ld I. split; try done; [by left | lia]. Qed.

Lemma grows_trans v fb d nb h v1 fb1 d1 nb1 h1 v2 fb2 d2 nb2 h2 : nb <= nb1 -> laid v fb d nb h ->
  grows v fb d nb h v1 fb1 d1 nb1 h1 -> grows v1 fb1 d1 nb1 h1 v2 fb2 d2 nb2 h2 -> grows v fb d nb h v2 fb2 d2 nb2 h2.
Proof.
  intros Hle Ld [A1 A2 A3 A4 A5 A6 A7] [B1 B2 B3 B4 B5 B6 B7]. split; try done.
  - intros k Hk. rewrite B3 by lia. by apply A3.
  - intros b Hb. destruct (B4 b Hb) as [Hb'|Hb']; [by apply A4 | right; lia].
  - intros b Hb Hno. rewrite B5; [by apply A5 | lia |]. intros Ho. destruct (A4 b Ho); [done | lia].
  - congruence.
  - lia.
Qed.

(** The block of a block index, old or new. *)
Lemma file_block_ok v fb d nb h fbn : laid v fb d nb h -> image_ok v fb -> 0 <= fbn <= nb -> fbn < MAXFILE -> fb + (Z.max nb (fbn + 1) - nb) + (1 - used h) <= sz ->
  exists v' fb' d' h', file_block d fbn (St v fb) = Ret (d', baddr v' (view d') fbn) (St v' fb') /\ grows v fb d nb h v' fb' d' (Z.max nb (fbn + 1)) h' /\
    (h' = true -> h = true \/ NDIRECT < Z.max nb (fbn + 1)) /\ (nb <= fbn -> v' (baddr v' (view d') fbn) = zeroes) /\ forall b, b < fb -> ~ (h = true /\ b = indirect (view d)) -> v' b = v b.
Proof.
  intros Ld I Hk Hm Hroom. pose proof (io_fb _ _ I) as Hfb. assert (Hu : 0 <= used h <= 1) by (destruct h; cbn; lia). unfold file_block. destruct (Z.ltb_spec fbn NDIRECT) as [Hd|Hd].
  - assert (Ea : forall w d0, baddr w (view d0) fbn = di_addrs d0 !!! Z.to_nat fbn) by (intros w d0; unfold baddr; by apply Z.ltb_lt in Hd as ->).
    destruct (Z.lt_ge_cases fbn nb) as [Hlt|Hge].
    + pose proof (l_map _ _ _ _ _ Ld fbn ltac:(lia)) as Hr. rewrite Ea in Hr. rewrite xint_small by (consts; lia). destruct (Z.eqb_spec (di_addrs d !!! Z.to_nat fbn) 0); [consts; lia |].
      erewrite bind_Ret by reflexivity. cbv beta. rewrite xint_small by (consts; lia). exists v, fb, d, h. rewrite Ea, Z.max_l by lia. split; [done | split; [by apply grows_refl | split; [by left | split; [lia | done]]]].
    + replace fbn with nb in * by lia. pose proof (l_zero _ _ _ _ _ Ld nb ltac:(lia) ltac:(by left)) as Hz. rewrite Ea in Hz. rewrite Hz. change (xint 0 =? 0) with true. cbv iota.
      erewrite bind_Ret by (erewrite bind_Ret by (apply next_block_run; consts; lia); reflexivity). cbv beta. rewrite xint_small by (consts; lia).
      pose proof (grows_direct v fb d nb h Ld I Hd ltac:(lia)) as G. exists v, (fb + 1), (set_addr nb fb d), h. rewrite Z.max_r by lia. split; [|split; [done | split; [by left | split; [|done]]]].
      2: { intros _. rewrite Ea, addr_set by (apply Ld || consts; lia). rewrite decide_True by done. apply I. lia. }
      rewrite Ea.
      rewrite xint_small; [done |]. rewrite addr_set by (apply Ld || consts; lia). rewrite decide_True by done. consts. lia.
  - assert (Ei : forall d0, di_addrs d0 !!! Z.to_nat NDIRECT = indirect (view d0)) by done. assert (Hh : h = true \/ h = false) by (destruct h; auto).
    assert (G1 : exists fb1 d1, (if xint (di_addrs d !!! Z.to_nat NDIRECT) =? 0 then b ← next_block; mret (set_addr NDIRECT (xint b) d) else mret d) (St v fb) = Ret d1 (St v fb1) /\
      grows v fb d nb h v fb1 d1 nb true).
    { destruct Hh as [->| ->].
      - pose proof (l_ind _ _ _ _ _ Ld eq_refl) as Hi. rewrite Ei, xint_small by (consts; lia). destruct (Z.eqb_spec (indirect (view d)) 0); [consts; lia |]. exists fb, d. split; [done | by apply grows_refl].
      - rewrite Ei, (l_noind _ _ _ _ _ Ld eq_refl). change (xint 0 =? 0) with true. cbv iota. erewrite bind_Ret by (apply next_block_run; cbn in Hroom; consts; lia). cbv beta.
        rewrite xint_small by (consts; lia). eexists _, _. split; [reflexivity |]. apply grows_indirect; [done | done | cbn in Hroom; lia]. }
    destruct G1 as (fb1 & d1 & E1 & G1). erewrite bind_Ret by exact E1. cbv beta zeta. rewrite Ei. pose proof (g_laid _ _ _ _ _ _ _ _ _ _ G1) as L1. pose proof (g_image _ _ _ _ _ _ _ _ _ _ G1) as I1.
    pose proof (g_fb _ _ _ _ _ _ _ _ _ _ G1) as Hfb1. cbn [used] in Hfb1. pose proof (l_ind _ _ _ _ _ L1 eq_refl) as Hi. pose proof (io_fb _ _ I1) as Hio1.
    rewrite xint_small by (consts; lia). erewrite bind_Ret by (apply rsect_run; consts; lia). cbv beta.
    assert (Eb : forall w, baddr w (view d1) fbn = get32 (4 * (fbn - NDIRECT)) (w (indirect (view d1)))) by (intros w; unfold baddr; by apply Z.ltb_ge in Hd as ->).
    destruct (Z.lt_ge_cases fbn nb) as [Hlt|Hge].
    + pose proof (l_map _ _ _ _ _ L1 fbn ltac:(lia)) as Hr. rewrite Eb in Hr. destruct (Z.eqb_spec (get32 (4 * (fbn - NDIRECT)) (v (indirect (view d1)))) 0); [consts; lia |].
      erewrite bind_Ret by reflexivity. cbv beta. rewrite xint_small by (consts; lia). exists v, fb1, d1, true. rewrite Eb, Z.max_l by lia. split; [done | split; [done | split; [right; lia | split; [lia | done]]]].
    + replace fbn with nb in * by lia. pose proof (l_zero _ _ _ _ _ L1 nb ltac:(lia) ltac:(by right)) as Hz. rewrite Eb in Hz. rewrite Hz. change (0 =? 0) with true. cbv iota.
      assert (Hf1 : fb1 < sz) by lia. erewrite bind_Ret; [|erewrite bind_Ret by (apply next_block_run; consts; lia); cbv beta zeta; erewrite bind_Ret by (apply wsect_run; consts; lia); reflexivity].
      cbv beta. rewrite (xint_small fb1) by (consts; lia). pose proof (grows_entry v fb1 d1 nb L1 I1 ltac:(lia) Hf1) as G2.
      set (buf := put32 (4 * (nb - NDIRECT)) fb1 (v (indirect (view d1)))) in *.
      assert (Ex' : get32 (4 * (nb - NDIRECT)) buf = fb1) by (unfold buf; rewrite get32_put32_eq by (rewrite ?(io_len _ _ I1); consts; lia); rewrite wrap_small by (consts; lia); done).
      assert (Ex : baddr (fupd v (indirect (view d1)) buf) (view d1) nb = fb1) by (rewrite Eb, fupd_eq; exact Ex').
      eexists _, _, _, true. rewrite Z.max_r by lia. split; [|split; [eapply grows_trans; [|exact Ld | exact G1 | exact G2]; lia | split; [right; lia | split]]].
      3: { intros b Hb Hno. apply fupd_ne. intros ->. destruct (g_own _ _ _ _ _ _ _ _ _ _ G1 (indirect (view d1))) as [[(k & Hk' & E)|Ho]|Ho]; [by right | | done | lia].
        apply (l_sep _ _ _ _ _ L1 k eq_refl Hk'). rewrite (g_map _ _ _ _ _ _ _ _ _ _ G1) by done. done. }
      1: rewrite Ex, Ex', xint_small by (consts; lia); done.
      intros _. rewrite Ex. rewrite fupd_ne by lia. apply I1. lia.
Qed.

(** ** Appending *)

(** Blocks that hold [n] bytes. *)
Definition nblk (n : Z) : Z := (n + 1023) / 1024.

Lemma nblk_spec n k : 0 <= n -> 0 <= k -> k < nblk n <-> k * 1024 < n.
Proof. intros Hn Hk. unfold nblk. pose proof (Z.div_mod (n + 1023) 1024 ltac:(lia)). pose proof (Z.mod_pos_bound (n + 1023) 1024 ltac:(lia)). lia. Qed.

(** The rest of the last block is zero. *)
Definition tail (v : Z -> list Z) (d : dinode) (n : Z) : Prop := forall o, n <= o < nblk n * 1024 -> fbyte v (view d) o = 0.

(** One round of the loop: the block at the end of the file, filled in from [off] on. *)
Lemma append_block v fb d h off l : laid v fb d (nblk off) h -> image_ok v fb -> 0 <= off -> l <> [] -> off + Z.of_nat (length l) <= (off / 1024 + 1) * 1024 -> off / 1024 < MAXFILE ->
  fb + (nblk (off + Z.of_nat (length l)) - nblk off) + (1 - used h) <= sz ->
  exists v1 fb1 d1 h1, file_block d (off / 1024) (St v fb) = Ret (d1, baddr v1 (view d1) (off / 1024)) (St v1 fb1) /\ 0 <= baddr v1 (view d1) (off / 1024) < sz /\
    let v2 := fupd v1 (baddr v1 (view d1) (off / 1024)) (splice (off - off / 1024 * 1024) l (v1 (baddr v1 (view d1) (off / 1024)))) in
    grows v fb d (nblk off) h v2 fb1 d1 (nblk (off + Z.of_nat (length l))) h1 /\ (h1 = true -> h = true \/ NDIRECT < nblk (off + Z.of_nat (length l))) /\
    fbytes v2 (view d1) 0 (Z.to_nat off + length l) = fbytes v (view d) 0 (Z.to_nat off) ++ l /\ (tail v d off -> tail v2 d1 (off + Z.of_nat (length l))).
Proof.
  intros Ld I Ho Hl Hfit Hm Hroom. set (k := off / 1024) in *. pose proof (Z.div_mod off 1024 ltac:(lia)) as Hdm. pose proof (Z.mod_pos_bound off 1024 ltac:(lia)) as Hmod. fold k in Hdm.
  assert (Hlen : 0 < Z.of_nat (length l)) by (destruct l; [done | cbn; lia]). assert (Hk0 : 0 <= k) by (unfold k; apply Z.div_pos; lia).
  assert (Hkn : k <= nblk off) by (unfold nblk, k; apply Z.div_le_mono; lia).
  assert (Emax : Z.max (nblk off) (k + 1) = nblk (off + Z.of_nat (length l))).
  { unfold nblk. pose proof (Z.div_mod (off + 1023) 1024 ltac:(lia)). pose proof (Z.mod_pos_bound (off + 1023) 1024 ltac:(lia)).
    pose proof (Z.div_mod (off + Z.of_nat (length l) + 1023) 1024 ltac:(lia)). pose proof (Z.mod_pos_bound (off + Z.of_nat (length l) + 1023) 1024 ltac:(lia)). lia. }
  destruct (file_block_ok v fb d (nblk off) h k Ld I ltac:(lia) Hm ltac:(lia)) as (v1 & fb1 & d1 & h1 & E1 & G & Hh1 & Hnew & Hsame). rewrite Emax in G, Hh1. set (x := baddr v1 (view d1) k) in *.
  pose proof (g_laid _ _ _ _ _ _ _ _ _ _ G) as L1. pose proof (g_image _ _ _ _ _ _ _ _ _ _ G) as I1. pose proof (io_fb _ _ I1). assert (Hkin : 0 <= k < nblk (off + Z.of_nat (length l))) by lia.
  pose proof (l_map _ _ _ _ _ L1 k Hkin) as Hx. fold x in Hx. exists v1, fb1, d1, h1. split; [done |]. split; [consts; lia |]. intros v2.
  assert (Hnot : h1 = true -> v2 (indirect (view d1)) = v1 (indirect (view d1))).
  { intros Hh. apply fupd_ne. intros E. by apply (l_sep _ _ _ _ _ L1 k Hh Hkin). }
  assert (Hsl : length (splice (off - k * 1024) l (v1 x)) = Z.to_nat BSIZE) by (rewrite length_splice; [apply I1 | lia | rewrite (io_len _ _ I1); consts; lia]).
  assert (I2 : image_ok v2 fb1) by (apply image_fupd; [done | lia | done]).
  assert (B : forall j, 0 <= j < nblk (off + Z.of_nat (length l)) -> baddr v2 (view d1) j = baddr v1 (view d1) j).
  { intros j Hj. destruct (Z.ltb_spec j NDIRECT) as [Hd|Hd]; [unfold baddr; by apply Z.ltb_lt in Hd as -> |]. apply baddr_ext, Hnot, (l_h _ _ _ _ _ L1). lia. }
  assert (Hown : forall b, own v1 d1 (nblk (off + Z.of_nat (length l))) h1 b -> own v d (nblk off) h b \/ fb <= b) by apply G.
  assert (Hxo : own v d (nblk off) h x \/ fb <= x) by (apply Hown; left; by exists k). split; [|split; [exact Hh1 | split]].
  - destruct G as [G1 G2 G3 G4 G5 G6 G7]. split; try done.
    + apply (laid_ext v1 _ fb1 fb1); [exact Hnot | lia | exact L1].
    + intros j Hj. rewrite B by lia. by apply G3.
    + intros b Hb. apply G4. apply (owns_ext v1) in Hb; [done | apply L1 | exact Hnot].
    + intros b Hb Hno. unfold v2. rewrite fupd_ne; [by apply G5 |]. intros ->. destruct Hxo; [done | lia].
  - rewrite fbytes_app. f_equal.
    + apply fbytes_ext. intros o Hoo. assert (Hj : 0 <= o / 1024 < nblk off).
      { split; [apply Z.div_pos; lia |]. apply nblk_spec; [lia | apply Z.div_pos; lia |]. pose proof (Z.div_mod o 1024 ltac:(lia)). pose proof (Z.mod_pos_bound o 1024 ltac:(lia)). lia. }
      unfold fbyte. change BSIZE with 1024. rewrite B by lia. rewrite (g_map _ _ _ _ _ _ _ _ _ _ G (o / 1024) Hj). set (c := baddr v (view d) (o / 1024)).
      assert (Ec : v1 c = v c).
      { pose proof (l_map _ _ _ _ _ Ld _ Hj) as Hc. fold c in Hc. apply Hsame; [lia |]. intros [Hh E]. by apply (l_sep _ _ _ _ _ Ld (o / 1024) Hh Hj). }
      unfold v2; fold x; unfold fupd. destruct (decide (c = x)) as [E|E]; [|by rewrite Ec].
      assert (Ek : o / 1024 = k). { apply (l_inj _ _ _ _ _ L1); [lia | done |]. rewrite (g_map _ _ _ _ _ _ _ _ _ _ G (o / 1024) Hj). exact E. }
      pose proof (Z.div_mod o 1024 ltac:(lia)) as Hdo. pose proof (Z.mod_pos_bound o 1024 ltac:(lia)) as Hdm2. rewrite <- Ec, E, !list_lookup_total_alt. rewrite lookup_splice by (rewrite ?(io_len _ _ I1); consts; lia). by rewrite decide_False by lia.
    + rewrite Z.add_0_l, Z2Nat.id by lia. rewrite <- (Nat2Z.id (length l)). rewrite <- slice_fbytes; [| lia | lia | consts; lia | apply I2].
      change BSIZE with 1024. fold k. rewrite B by lia. fold x. unfold v2. rewrite fupd_eq. replace (off mod 1024) with (off - k * 1024) by lia.
      apply slice_splice_eq; [lia | rewrite (io_len _ _ I1); consts; lia].
  - intros Ht o Hoo. assert (En : nblk (off + Z.of_nat (length l)) = k + 1) by (unfold nblk; symmetry; apply Z.div_unique with (off + Z.of_nat (length l) - k * 1024 - 1); lia). rewrite En in Hoo.
    assert (Ek : o / 1024 = k) by (symmetry; apply Z.div_unique with (o - k * 1024); lia). pose proof (Z.div_mod o 1024 ltac:(lia)) as Hdo. pose proof (Z.mod_pos_bound o 1024 ltac:(lia)) as Hdm2. rewrite Ek in Hdo.
    unfold fbyte. change BSIZE with 1024. rewrite Ek, B by done. fold x. unfold v2. rewrite fupd_eq, !list_lookup_total_alt. rewrite lookup_splice by (rewrite ?(io_len _ _ I1); consts; lia). rewrite decide_False by lia.
    destruct (Z.lt_ge_cases k (nblk off)) as [Hlt|Hge].
    + assert (Ex : x = baddr v (view d) k) by (unfold x; apply (g_map _ _ _ _ _ _ _ _ _ _ G); lia). pose proof (l_map _ _ _ _ _ Ld k ltac:(lia)) as Hxr. rewrite <- Ex in Hxr.
      fold x. rewrite (Hsame x); [|lia | intros [Hh E]; apply (l_sep _ _ _ _ _ Ld k Hh ltac:(lia)); by rewrite <- Ex]. rewrite Ex. specialize (Ht o). unfold fbyte in Ht. change BSIZE with 1024 in Ht.
      rewrite Ek, list_lookup_total_alt in Ht. apply Ht. lia.
    + fold x. rewrite Hnew by lia. rewrite <- list_lookup_total_alt. unfold zeroes. rewrite lookup_total_replicate_2; [done | consts; lia].
Qed.

Lemma iappend_loop_ok : forall fuel v fb d h off p, laid v fb d (nblk off) h -> image_ok v fb -> 0 <= off -> off + Z.of_nat (length p) <= MAXFILE * BSIZE -> (length p < fuel)%nat ->
  fb + (nblk (off + Z.of_nat (length p)) - nblk off) + (1 - used h) <= sz ->
  exists v' fb' d' h', iappend_loop fuel d off p (St v fb) = Ret (d', off + Z.of_nat (length p)) (St v' fb') /\
    grows v fb d (nblk off) h v' fb' d' (nblk (off + Z.of_nat (length p))) h' /\ (h' = true -> h = true \/ NDIRECT < nblk (off + Z.of_nat (length p))) /\
    fbytes v' (view d') 0 (Z.to_nat off + length p) = fbytes v (view d) 0 (Z.to_nat off) ++ p /\ (tail v d off -> tail v' d' (off + Z.of_nat (length p))).
Proof.
  induction fuel as [|fuel IH]; intros v fb d h off p Ld I Ho Hmax Hf Hroom; [lia |]. cbn [iappend_loop]. destruct p as [|c p0] eqn:Ep.
  - exists v, fb, d, h. cbn [length]. rewrite Z.add_0_r, Nat.add_0_r, app_nil_r. split; [done |]. split; [by apply grows_refl |]. split; [by left | done].
  - rewrite <- Ep in *. assert (Hp : 0 < Z.of_nat (length p)) by (rewrite Ep; cbn; lia). change BSIZE with 1024 in *. change MAXFILE with 268 in *. cbv zeta. set (k := off / 1024).
    pose proof (Z.div_mod off 1024 ltac:(lia)) as Hdm. pose proof (Z.mod_pos_bound off 1024 ltac:(lia)) as Hmod. fold k in Hdm.
    assert (Hk : k < 268) by lia. assert (Ek : k <? 268 = true) by (by apply Z.ltb_lt). rewrite Ek. erewrite bind_Ret by reflexivity. cbv beta. set (n1 := Z.min (Z.of_nat (length p)) ((k + 1) * 1024 - off)).
    set (l := take (Z.to_nat n1) p). assert (Hl : length l = Z.to_nat n1) by (unfold l; rewrite length_take; lia). assert (Hd : length (drop (Z.to_nat n1) p) = (length p - Z.to_nat n1)%nat) by apply length_drop.
    assert (Hmono : nblk (off + Z.of_nat (length l)) <= nblk (off + Z.of_nat (length p))) by (unfold nblk; apply Z.div_le_mono; lia).
    destruct (append_block v fb d h off l Ld I Ho) as (v1 & fb1 & d1 & h1 & E1 & Hx & G1 & H1 & B1 & T1); [intros E; rewrite E in Hl; cbn in Hl; lia | fold k; lia | fold k; consts; lia | lia |].
    fold k in E1, Hx, G1, H1, B1, T1. erewrite bind_Ret by exact E1. cbv beta iota. erewrite bind_Ret by (by apply rsect_run). cbv beta. erewrite bind_Ret by (by apply wsect_run). cbv beta.
    match type of G1 with grows _ _ _ _ _ ?w _ _ _ _ => set (v2 := w) in * end. replace (off + Z.of_nat (length l)) with (off + n1) in * by lia. rewrite (wrap_small 32 (off + n1)) by lia.
    pose proof (g_fb _ _ _ _ _ _ _ _ _ _ G1) as Hfb1. destruct (IH v2 fb1 d1 h1 (off + n1) (drop (Z.to_nat n1) p)) as (v' & fb' & d' & h' & E' & G' & H' & B' & T'); rewrite ?Hd; [apply G1 | apply G1 | lia | lia | lia | |].
    { replace (off + n1 + Z.of_nat (length p - Z.to_nat n1)) with (off + Z.of_nat (length p)) by lia. lia. }
    rewrite Hd in E', G', H', B', T'. replace (off + n1 + Z.of_nat (length p - Z.to_nat n1)) with (off + Z.of_nat (length p)) in * by lia.
    exists v', fb', d', h'. split; [exact E' |]. split; [eapply grows_trans; [|exact Ld | exact G1 | exact G']; unfold nblk; apply Z.div_le_mono; lia |]. split; [intros Hh; destruct (H' Hh) as [Hh1|Hh1]; [destruct (H1 Hh1); [by left | right; lia] | by right] |].
    replace (Z.to_nat off + length p)%nat with (Z.to_nat (off + n1) + (length p - Z.to_nat n1))%nat by lia. rewrite B'.
    replace (Z.to_nat (off + n1)) with (Z.to_nat off + length l)%nat by lia. rewrite B1, <- app_assoc. split; [f_equal; apply take_drop | auto].
Qed.
End image.
