(* ===== verification/MkfsImage.v ===== *)
(** * The image mkfs builds is a file system

    [files_ok] is the invariant of the image while files are appended: inodes
    [1 .. freeinode - 1] are laid out in blocks of their own, apart from the
    metadata, the inodes from [freeinode] on are free, and the blocks from
    [freeblock] on are zero.  iappend, ialloc and the loop of main keep it; at the
    end the kernel finds every file with its bytes, the root directory with its
    entries, the bitmap and the super block. *)

From S2P Require Import Prelude State Mem CacheRules Log LogHeader Fs FsBlocks FsInode FsData Dir Mkfs MkfsProps.
Import Mkfs.

(** ** The invariant *)

Definition ino (v : Z -> list Z) (i : Z) : dinode := dinode_at v new_sb i.
Definition isize (v : Z -> list Z) (i : Z) : Z := di_size (ino v i).

(** Files of more than [NDIRECT] blocks have an indirect block. *)
Definition has_ind (n : Z) : bool := NDIRECT <? nblk n.

(** The blocks a file of [n] bytes takes. *)
Definition blocks_of (n : Z) : Z := nblk n + used (has_ind n).

Definition owns (v : Z -> list Z) (i b : Z) : Prop := own v (ino v i) (nblk (isize v i)) (has_ind (isize v i)) b.

(** The bytes of file [i], as the kernel's readi finds them. *)
Definition content (v : Z -> list Z) (i : Z) : list Z := fbytes v (view (ino v i)) 0 (Z.to_nat (isize v i)).

Record files_ok (v : Z -> list Z) (fi fb : Z) : Prop := mkFilesOk {
  fo_image : image_ok FSSIZE v fb;
  fo_inodes : 1 <= fi <= NINODES;
  fo_inode : forall i, 1 <= i < fi -> dinode_ok (ino v i) /\ isize v i <= MAXFILE * BSIZE;
  fo_file : forall i, 1 <= i < fi -> laid v fb (ino v i) (nblk (isize v i)) (has_ind (isize v i));
  fo_tail : forall i, 1 <= i < fi -> tail v (ino v i) (isize v i);
  fo_apart : forall i j b, 1 <= i < fi -> 1 <= j < fi -> i <> j -> owns v i b -> owns v j b -> False;
  fo_free : forall i, fi <= i < NINODES -> ino v i = zero_dinode
}.

Notation FS fi v fb := (St FSSIZE new_sb fi v fb).

Lemma IBLOCK_new i : 0 <= i < NINODES -> IBLOCK i new_sb = i / 16 + 32 /\ 32 <= IBLOCK i new_sb < nmeta - 1.
Proof.
  intros Hi. unfold NINODES in Hi. pose proof (Z.div_mod i 16 ltac:(lia)). pose proof (Z.mod_pos_bound i 16 ltac:(lia)).
  assert (E : IBLOCK i new_sb = i / 16 + 32) by (unfold IBLOCK; change IPB with 16; change (sb_inodestart new_sb) with 32; apply wrap_small; lia).
  rewrite E. change nmeta with 46. lia.
Qed.

Lemma owns_meta v fi fb i b : files_ok v fi fb -> 1 <= i < fi -> owns v i b -> nmeta <= b < fb.
Proof. intros F Hi. by apply own_below, F. Qed.

Lemma nblk_mono a b : a <= b -> nblk a <= nblk b.
Proof. intros H. unfold nblk. apply Z.div_le_mono; lia. Qed.

Lemma blocks_of_mono a b : a <= b -> blocks_of a <= blocks_of b.
Proof.
  intros H. apply nblk_mono in H. unfold blocks_of, has_ind. destruct (Z.ltb_spec NDIRECT (nblk a)), (Z.ltb_spec NDIRECT (nblk b)); cbn [used]; lia.
Qed.

(** The bytes of a laid-out file depend on its own blocks only. *)
Lemma fbyte_kept v v' fb d nb h o : laid v fb d nb h -> (forall b, own v d nb h b -> v' b = v b) -> 0 <= o < nb * 1024 -> fbyte v' (view d) o = fbyte v (view d) o.
Proof.
  intros Ld Hk Ho. assert (Hj : 0 <= o / 1024 < nb) by (split; [apply Z.div_pos; lia | apply Z.div_lt_upper_bound; lia]).
  unfold fbyte. change BSIZE with 1024. assert (E : baddr v' (view d) (o / 1024) = baddr v (view d) (o / 1024)).
  { destruct (Z.ltb_spec (o / 1024) NDIRECT) as [Hd|Hd]; [unfold baddr; by apply Z.ltb_lt in Hd as -> |]. apply baddr_ext, Hk. right. split; [|done]. apply (l_h _ _ _ _ _ Ld). lia. }
  rewrite E, Hk; [done |]. left. by exists (o / 1024).
Qed.

Lemma nblk_cover n : 0 <= n -> 0 <= nblk n /\ n <= nblk n * 1024.
Proof. intros H. unfold nblk. pose proof (Z.div_mod (n + 1023) 1024 ltac:(lia)). pose proof (Z.mod_pos_bound (n + 1023) 1024 ltac:(lia)). lia. Qed.

Lemma file_kept v v' fb d h n : laid v fb d (nblk n) h -> (forall b, own v d (nblk n) h b -> v' b = v b) -> 0 <= n ->
  fbytes v' (view d) 0 (Z.to_nat n) = fbytes v (view d) 0 (Z.to_nat n) /\ (tail v d n -> tail v' d n).
Proof.
  intros Ld Hk Hn. pose proof (nblk_cover n Hn). split; [apply fbytes_ext; intros o Ho; eapply fbyte_kept; [done | done | lia] |].
  intros Ht o Ho. rewrite (fbyte_kept v v' fb d (nblk n) h) by (done || lia). by apply Ht.
Qed.

Lemma content_kept v v' fi fb i : files_ok v fi fb -> 1 <= i < fi -> ino v' i = ino v i -> (forall b, owns v i b -> v' b = v b) -> content v' i = content v i.
Proof. intros F Hi E Hb. unfold content, isize. rewrite E. eapply file_kept; [by apply F | exact Hb | apply (fo_inode _ _ _ F i Hi)]. Qed.

Lemma tail_kept v v' fi fb i : files_ok v fi fb -> 1 <= i < fi -> ino v' i = ino v i -> (forall b, owns v i b -> v' b = v b) -> tail v' (ino v' i) (isize v' i).
Proof.
  intros F Hi E Hb. unfold isize. rewrite E. eapply file_kept; [by apply F | exact Hb | apply (fo_inode _ _ _ F i Hi) | by apply F].
Qed.

(** ** Inodes *)

(** The addresses of a laid-out file are 32-bit numbers. *)
Lemma laid_dinode_ok v fb d nb h d0 n : laid v fb d nb h -> fb <= 2 ^ 20 -> dinode_ok d0 -> attrs d = attrs d0 -> 0 <= n < 2 ^ 32 -> dinode_ok (set_size n d).
Proof.
  intros Ld Hfb [D1 D2 D3 D4] Ha Hn. unfold attrs in Ha. injection Ha as A1 A2 A3 A4. split; cbn; [|done | |apply Ld].
  - intros x Hx. apply D1. rewrite <- A1, <- A2, <- A3, <- A4. exact Hx.
  - apply Forall_lookup. intros k a Hka. pose proof (lookup_lt_Some _ _ _ Hka) as Hk. rewrite (l_len _ _ _ _ _ Ld) in Hk. apply list_lookup_total_correct in Hka.
    destruct (decide (k = 12%nat)) as [->|Hne].
    + change (di_addrs d !!! 12%nat) with (indirect (view d)) in Hka. destruct h; [pose proof (l_ind _ _ _ _ _ Ld eq_refl) | pose proof (l_noind _ _ _ _ _ Ld eq_refl)]; consts; lia.
    + assert (E : baddr v (view d) (Z.of_nat k) = a) by (unfold baddr; destruct (Z.ltb_spec (Z.of_nat k) NDIRECT); [|consts; lia]; cbn; by rewrite Nat2Z.id).
      destruct (Z.lt_ge_cases (Z.of_nat k) nb); [pose proof (l_map _ _ _ _ _ Ld (Z.of_nat k) ltac:(lia)); consts; lia |].
      rewrite (l_zero _ _ _ _ _ Ld) in E; [lia | consts; lia | left; consts; lia].
Qed.

Lemma laid_set_size v fb d nb h n : laid v fb d nb h -> laid v fb (set_size n d) nb h.
Proof. intros [A1 A2 A3 A4 A5 A6 A7 A8 A9]. by split. Qed.

(** Writing an inode changes that inode only. *)
Lemma winode_run v fb fi i d : 0 <= i < NINODES -> image_ok FSSIZE v fb -> dinode_ok d ->
  exists v', winode i d (FS fi v fb) = Ret tt (FS fi v' fb) /\ image_ok FSSIZE v' fb /\ ino v' i = d /\
    (forall j, 0 <= j < NINODES -> j <> i -> ino v' j = ino v j) /\ (forall b, b <> IBLOCK i new_sb -> v' b = v b).
Proof.
  intros Hi I Hd. exists (fupd v (IBLOCK i new_sb) (put_dinode (IOFF i) d (v (IBLOCK i new_sb)))).
  destruct (IBLOCK_new i Hi) as [Eb Hb]. pose proof (io_fb _ _ _ I) as Hfb. unfold FSSIZE in Hfb. change nmeta with 46 in *.
  assert (Hoff : forall j, 0 <= IOFF j <= 960) by (intros j; unfold IOFF; change IPB with 16; pose proof (Z.mod_pos_bound j 16 ltac:(lia)); lia).
  assert (Hlen : Z.of_nat (length (v (IBLOCK i new_sb))) = 1024) by (rewrite (io_len _ _ _ I); reflexivity).
  split; [|split; [|split; [|split]]].
  - unfold winode. erewrite bind_Ret by reflexivity. cbv beta zeta. cbn [mk_sb St]. erewrite bind_Ret by (apply rsect_run; [done | unfold FSSIZE; lia]). apply wsect_run; [done | unfold FSSIZE; lia].
  - apply image_fupd; [done | lia |]. rewrite put_dinode_length; [apply I | apply Hoff | specialize (Hoff i); lia | done].
  - unfold ino, dinode_at. rewrite fupd_eq. apply get_put_dinode; [apply Hoff | specialize (Hoff i); lia | done].
  - intros j Hj Hne. unfold ino, dinode_at. destruct (IBLOCK_new j Hj) as [Ej _]. unfold fupd. destruct (decide (IBLOCK j new_sb = IBLOCK i new_sb)) as [E|E]; [|done]. rewrite E.
    apply get_put_dinode_ne; [apply Hoff | specialize (Hoff i); lia | done | apply Hoff |]. unfold IOFF. change IPB with 16. rewrite Eb, Ej in E.
    pose proof (Z.div_mod i 16 ltac:(lia)). pose proof (Z.div_mod j 16 ltac:(lia)). lia.
  - intros b Hne. by apply fupd_ne.
Qed.

Lemma rinode_run v fb fi i : 0 <= i < NINODES -> image_ok FSSIZE v fb -> rinode i (FS fi v fb) = Ret (ino v i) (FS fi v fb).
Proof.
  intros Hi I. destruct (IBLOCK_new i Hi) as [Eb Hb]. pose proof (io_fb _ _ _ I) as Hfb. change nmeta with 46 in *.
  unfold rinode. erewrite bind_Ret by reflexivity. cbv beta zeta. cbn [mk_sb St]. erewrite bind_Ret by (apply rsect_run; [done | unfold FSSIZE in *; lia]). reflexivity.
Qed.

(** ** Appending to a file *)

(** What an operation on file [i] leaves alone: the other files and the blocks before the inodes. *)
Record others_kept (v v' : Z -> list Z) (fi i : Z) : Prop := mkOthersKept {
  ok_ino : forall j, 1 <= j < fi -> j <> i -> ino v' j = ino v j;
  ok_content : forall j, 1 <= j < fi -> j <> i -> content v' j = content v j;
  ok_low : forall b, b < 32 -> v' b = v b
}.

Lemma others_refl v fi i : others_kept v v fi i.
Proof. by split. Qed.

Lemma others_trans v v1 v2 fi i : others_kept v v1 fi i -> others_kept v1 v2 fi i -> others_kept v v2 fi i.
Proof. intros [A1 A2 A3] [B1 B2 B3]. split; intros; [rewrite B1, A1 | rewrite B2, A2 | rewrite B3, A3]; done. Qed.

(** The file [i] rewritten in blocks of its own and new ones keeps the invariant. *)
Lemma files_grow v fi fb i v2 fb2 d2 n v3 : files_ok v fi fb -> 1 <= i < fi -> isize v i <= n <= MAXFILE * BSIZE ->
  grows FSSIZE v fb (ino v i) (nblk (isize v i)) (has_ind (isize v i)) v2 fb2 d2 (nblk n) (has_ind n) -> tail v2 d2 n ->
  image_ok FSSIZE v3 fb2 -> ino v3 i = set_size n d2 -> (forall j, 0 <= j < NINODES -> j <> i -> ino v3 j = ino v2 j) -> (forall b, b <> IBLOCK i new_sb -> v3 b = v2 b) ->
  files_ok v3 fi fb2 /\ others_kept v v3 fi i.
Proof.
  intros F Hi Hn [G1 G2 G3 G4 G5 G6 G7] Ht I3 Wi Wj Wb. pose proof (fo_inodes _ _ _ F) as Hfi. assert (Hni : 0 <= i < NINODES) by lia. destruct (IBLOCK_new i Hni) as [_ Hib].
  pose proof (io_fb _ _ _ (fo_image _ _ _ F)) as Hfb. destruct (fo_inode _ _ _ F i Hi) as [Dok _]. pose proof (io_fb _ _ _ G2) as Hfb2.
  assert (Hlow : forall b, b < nmeta -> v2 b = v b) by (intros b Hb; apply G5; [lia |]; intros Ho; pose proof (owns_meta _ _ _ _ _ F Hi Ho); lia).
  assert (Hino : forall j, 0 <= j < NINODES -> j <> i -> ino v3 j = ino v j).
  { intros j Hj Hne. rewrite Wj by done. unfold ino, dinode_at. destruct (IBLOCK_new j Hj) as [_ Hjb]. rewrite Hlow by lia. done. }
  assert (Hown : forall j b, 1 <= j < fi -> j <> i -> owns v j b -> v3 b = v b).
  { intros j b Hj Hne Ho. pose proof (owns_meta _ _ _ _ _ F Hj Ho) as Hb. rewrite Wb by lia. apply G5; [lia |]. intros Ho'. by apply (fo_apart _ _ _ F i j b). }
  assert (Ei : has_ind n = true -> v3 (indirect (view d2)) = v2 (indirect (view d2))) by (intros Hh; apply Wb; pose proof (l_ind _ _ _ _ _ G1 Hh); lia).
  assert (Hoj : forall j b, 1 <= j < fi -> j <> i -> owns v3 j b -> owns v j b).
  { intros j b Hj Hne. unfold owns, isize. rewrite Hino by (lia || done). intros Ho. apply (owns_ext v) in Ho; [done | apply (l_h _ _ _ _ _ (fo_file _ _ _ F j Hj)) |].
    intros Hh. apply (Hown j); [done | done | right; done]. }
  assert (Hoi : forall b, owns v3 i b -> owns v i b \/ fb <= b).
  { intros b Ho. unfold owns, isize in Ho. rewrite Wi in Ho. cbn [di_size set_size] in Ho. apply G4. apply (owns_ext v2 v3 d2 (nblk n) (has_ind n) b); [apply G1 | exact Ei | exact Ho]. }
  assert (Hapart : forall j b, 1 <= j < fi -> j <> i -> owns v3 i b -> owns v3 j b -> False).
  { intros j b Hj Hne Ho Ho'. apply Hoj in Ho'; [|done..]. destruct (Hoi b Ho) as [Ho2|Ho2]; [by apply (fo_apart _ _ _ F i j b) |]. pose proof (owns_meta _ _ _ _ _ F Hj Ho'). lia. }
  split; [split; try done | split].
  - intros j Hj. destruct (decide (j = i)) as [->|Hne]; [|unfold isize; rewrite Hino by (lia || done); by apply F].
    unfold isize. rewrite Wi. cbn [di_size set_size]. split; [|lia]. eapply laid_dinode_ok; [exact G1 | unfold FSSIZE in *; lia | exact Dok | exact G6 | pose proof (do_size _ Dok); unfold isize in Hn; consts; lia].
  - intros j Hj. unfold isize. destruct (decide (j = i)) as [->|Hne].
    + rewrite Wi. cbn [di_size set_size]. apply laid_set_size. apply (laid_ext v2 _ fb2 fb2); [exact Ei | lia | exact G1].
    + rewrite Hino by (lia || done). apply (laid_ext v _ fb fb2); [|lia | by apply F]. intros Hh. apply (Hown j); [done | done | right; done].
  - intros j Hj. destruct (decide (j = i)) as [->|Hne]; [|apply (tail_kept v v3 fi fb); [done | done | apply Hino; [lia | done] | intros b; by apply Hown]].
    unfold isize. rewrite Wi. cbn [di_size set_size]. pose proof (do_size _ Dok). change (tail v3 d2 n). eapply file_kept; [exact G1 | | unfold isize in Hn; lia | exact Ht].
    intros b Ho. apply Wb. pose proof (own_below _ _ _ _ _ _ G1 Ho). lia.
  - intros j j' b Hj Hj' Hne Ho Ho'. destruct (decide (j = i)) as [->|Hji]; [by apply (Hapart j' b) |]. destruct (decide (j' = i)) as [->|Hji']; [by apply (Hapart j b) |].
    by apply (fo_apart _ _ _ F j j' b); [| | |apply Hoj |apply Hoj].
  - intros j Hj. rewrite Hino by lia. by apply F.
  - intros j Hj Hne. apply Hino; [lia | done].
  - intros j Hj Hne. apply (content_kept v v3 fi fb); [done | done | apply Hino; [lia | done] | intros b; by apply Hown].
  - intros b Hb. rewrite Wb by lia. apply Hlow. change nmeta with 46. lia.
Qed.

(** iappend succeeds when there is room; the kernel's reader then finds the old bytes of the file followed by the
    new ones. *)
Lemma iappend_ok v fi fb i p : files_ok v fi fb -> 1 <= i < fi -> let n := isize v i + Z.of_nat (length p) in
  n <= MAXFILE * BSIZE -> fb + (blocks_of n - blocks_of (isize v i)) + 1 <= FSSIZE ->
  exists v' fb', iappend i p (FS fi v fb) = Ret tt (FS fi v' fb') /\ files_ok v' fi fb' /\ others_kept v v' fi i /\ fb' <= fb + (blocks_of n - blocks_of (isize v i)) /\
    content v' i = content v i ++ p /\ isize v' i = n /\ attrs (ino v' i) = attrs (ino v i).
Proof.
  intros F Hi n Hmax Hroom. pose proof (fo_inodes _ _ _ F) as Hfi. assert (Hni : 0 <= i < NINODES) by lia. destruct (fo_inode _ _ _ F i Hi) as [Dok _]. pose proof (do_size _ Dok) as Hsize. fold (isize v i) in Hsize.
  pose proof (fo_image _ _ _ F) as I. assert (Hmono : nblk (isize v i) <= nblk n) by (apply nblk_mono; lia).
  assert (Hroom2 : fb + (nblk n - nblk (isize v i)) + (1 - used (has_ind (isize v i))) <= FSSIZE) by (unfold blocks_of in Hroom; destruct (has_ind n), (has_ind (isize v i)); cbn [used] in *; lia).
  destruct (iappend_loop_ok FSSIZE new_sb fi ltac:(done) (S (length p)) v fb (ino v i) (has_ind (isize v i)) (isize v i) p (fo_file _ _ _ F i Hi) I (proj1 Hsize) Hmax ltac:(lia) Hroom2) as (v2 & fb2 & d2 & h2 & E2 & G & Hh2 & B2 & T2).
  fold n in E2, G, Hh2, T2. assert (Eh : h2 = has_ind n).
  { unfold has_ind. destruct (Z.ltb_spec NDIRECT (nblk n)) as [Hlt|Hge]; [by apply (l_h _ _ _ _ _ (g_laid _ _ _ _ _ _ _ _ _ _ _ G)) |].
    destruct h2; [|done]. destruct (Hh2 eq_refl) as [Hh|Hh]; [|lia]. unfold has_ind in Hh. apply Z.ltb_lt in Hh. lia. }
  subst h2. assert (Hn : 0 <= n < 2 ^ 32) by (consts; lia). pose proof (io_fb _ _ _ (g_image _ _ _ _ _ _ _ _ _ _ _ G)) as Hfb2.
  assert (D2 : dinode_ok (set_size n d2)) by (eapply laid_dinode_ok; [apply G | unfold FSSIZE in *; lia | exact Dok | apply G | done]).
  destruct (winode_run v2 fb2 fi i (set_size n d2) Hni ltac:(apply G) D2) as (v3 & Ew & I3 & Wi & Wj & Wb).
  destruct (files_grow v fi fb i v2 fb2 d2 n v3 F Hi ltac:(lia) G (T2 (fo_tail _ _ _ F i Hi)) I3 Wi Wj Wb) as [F3 K3]. exists v3, fb2. split; [|split; [done | split; [done | split; [|split; [|split]]]]].
  - unfold iappend. erewrite bind_Ret by (by apply rinode_run). cbv beta. fold (isize v i). rewrite xint_small by done. erewrite bind_Ret by exact E2. cbv beta iota. rewrite xint_small by done. exact Ew.
  - pose proof (g_fb _ _ _ _ _ _ _ _ _ _ _ G). unfold blocks_of. lia.
  - unfold content, isize. rewrite Wi. cbn [di_size set_size]. trans (fbytes v2 (view d2) 0 (Z.to_nat n)).
    + trans (fbytes v3 (view d2) 0 (Z.to_nat n)); [by apply fbytes_ext |]. apply (file_kept v2 v3 fb2 d2 (has_ind n) n); [apply G | | lia].
      intros b Ho. apply Wb. pose proof (own_below _ _ _ _ _ _ (g_laid _ _ _ _ _ _ _ _ _ _ _ G) Ho). destruct (IBLOCK_new i Hni). lia.
    + fold (isize v i). rewrite <- B2. f_equal. unfold n. lia.
  - unfold isize. by rewrite Wi.
  - rewrite Wi. apply G.
Qed.

Lemma append_all_ok : forall l v fi fb i, files_ok v fi fb -> 1 <= i < fi -> let n := isize v i + Z.of_nat (length (concat l)) in
  n <= MAXFILE * BSIZE -> fb + (blocks_of n - blocks_of (isize v i)) + 1 <= FSSIZE ->
  exists v' fb', append_all i l (FS fi v fb) = Ret tt (FS fi v' fb') /\ files_ok v' fi fb' /\ others_kept v v' fi i /\ fb' <= fb + (blocks_of n - blocks_of (isize v i)) /\
    content v' i = content v i ++ concat l /\ isize v' i = n /\ attrs (ino v' i) = attrs (ino v i).
Proof.
  induction l as [|p l IH]; intros v fi fb i F Hi n Hmax Hroom; cbn [concat append_all] in *.
  - exists v, fb. rewrite app_nil_r. unfold n. cbn [length]. rewrite Z.add_0_r. split; [done | split; [done | split; [apply others_refl | split; [lia | done]]]].
  - assert (En0 : n = isize v i + Z.of_nat (length p) + Z.of_nat (length (concat l))) by (unfold n; cbn [concat]; rewrite length_app; lia). clearbody n. set (n1 := isize v i + Z.of_nat (length p)). assert (H1 : n1 <= n) by (unfold n1; lia). pose proof (blocks_of_mono _ _ H1) as Hm.
    destruct (iappend_ok v fi fb i p F Hi ltac:(fold n1; lia) ltac:(fold n1; lia)) as (v1 & fb1 & E1 & F1 & K1 & B1 & C1 & S1 & A1). fold n1 in B1, S1.
    assert (En : isize v1 i + Z.of_nat (length (concat l)) = n) by (rewrite S1; unfold n1; lia).
    destruct (IH v1 fi fb1 i F1 Hi) as (v2 & fb2 & E2 & F2 & K2 & B2 & C2 & S2 & A2); [rewrite En; lia | rewrite En, S1; lia |]. rewrite En, S1 in B2. rewrite En in S2.
    exists v2, fb2. erewrite bind_Ret by exact E1. split; [exact E2 | split; [done | split; [by eapply others_trans | split; [lia | split; [|split]]]]]; [|done | congruence].
    rewrite C2, C1. by rewrite <- app_assoc.
Qed.

(** A new inode: the file is empty. *)
Lemma ialloc_ok v fi fb type : files_ok v fi fb -> fi < NINODES -> 0 <= type < 2 ^ 15 ->
  exists v', ialloc type (FS fi v fb) = Ret fi (FS (fi + 1) v' fb) /\ files_ok v' (fi + 1) fb /\ others_kept v v' fi fi /\
    content v' fi = [] /\ isize v' fi = 0 /\ attrs (ino v' fi) = (type, 0, 0, 1).
Proof.
  intros F Hlt Ht. pose proof (fo_inodes _ _ _ F) as Hfi. pose proof (fo_image _ _ _ F) as I. pose proof (io_fb _ _ _ I) as Hfb. assert (Hni : 0 <= fi < NINODES) by lia.
  set (d := mkDinode type 0 0 1 0 (replicate 13 0)). assert (Hd : dinode_ok d).
  { split; [|cbn; lia | | done].
    - intros x Hx. cbn in Hx. repeat (apply elem_of_cons in Hx as [->|Hx]; [lia |]). by apply elem_of_nil in Hx.
    - apply Forall_replicate. lia. }
  destruct (winode_run v fb (fi + 1) fi d Hni I Hd) as (v' & Ew & I' & Wi & Wj & Wb). destruct (IBLOCK_new fi Hni) as [_ Hib].
  assert (Hown : forall j b, 1 <= j < fi -> owns v j b -> v' b = v b) by (intros j b Hj Ho; apply Wb; pose proof (owns_meta _ _ _ _ _ F Hj Ho); lia).
  assert (Ei : forall j, 1 <= j < fi -> has_ind (isize v j) = true -> v' (indirect (view (ino v j))) = v (indirect (view (ino v j)))) by (intros j Hj Hh; apply (Hown j); [done | by right]).
  assert (Hz : forall k, 0 <= k < 13 -> di_addrs d !!! Z.to_nat k = 0) by (intros k Hk; cbn [di_addrs d]; rewrite lookup_total_replicate_2 by lia; done).
  assert (Ld : laid v' fb d 0 false).
  { split; try done; try lia; try (consts; lia). intros k Hk [Hd'|]; [|done]. unfold baddr. apply Z.ltb_lt in Hd' as Hd2. rewrite Hd2. apply Hz. consts. lia. }
  assert (Hnone : forall b, owns v' fi b -> False) by (intros b; unfold owns, isize; rewrite Wi; intros [(k & Hk & _)|[Hh _]]; [change (0 <= k < 0) in Hk; lia | done]).
  assert (Hoj : forall j b, 1 <= j < fi -> owns v' j b -> owns v j b).
  { intros j b Hj. unfold owns, isize. rewrite Wj by lia. intros Ho. apply (owns_ext v) in Ho; [done | apply (l_h _ _ _ _ _ (fo_file _ _ _ F j Hj)) | by apply Ei]. }
  exists v'. split; [|split; [split; try done | split; [split | split; [|split]]]].
  - unfold ialloc. erewrite bind_Ret by reflexivity. cbv beta. erewrite bind_Ret by reflexivity. cbn [mk_img mk_sb freeinode freeblock St]. rewrite (wrap_small 32 (fi + 1)) by (unfold NINODES in *; lia).
    replace (i16 (xshort type)) with type by (rewrite xshort_u16; symmetry; apply (i16_wrap type); lia). change (i16 (xshort 1)) with 1. change (xint 0) with 0. change (di_addrs zero_dinode) with (replicate 13 0).
    fold d. change (mkMkfs (mkImage v FSSIZE) new_sb (fi + 1) fb) with (FS (fi + 1) v fb). erewrite bind_Ret by exact Ew. reflexivity.
  - lia.
  - intros j Hj. unfold isize. destruct (decide (j = fi)) as [->|]; [rewrite Wi; split; [done | by vm_compute] | rewrite Wj by lia; apply F; lia].
  - intros j Hj. unfold isize. destruct (decide (j = fi)) as [->|]; [by rewrite Wi |]. rewrite Wj by lia. apply (laid_ext v _ fb fb); [apply Ei; lia | lia | apply F; lia].
  - intros j Hj. destruct (decide (j = fi)) as [->|]; [|apply (tail_kept v v' fi fb); [done | lia | apply Wj; lia | intros b; apply Hown; lia]].
    unfold isize. rewrite Wi. intros o Ho. change (0 <= o < 0) in Ho. lia.
  - intros j j' b Hj Hj' Hne Ho Ho'. destruct (decide (j = fi)) as [->|]; [by apply (Hnone b) |]. destruct (decide (j' = fi)) as [->|]; [by apply (Hnone b) |].
    apply (fo_apart _ _ _ F j j' b); [lia | lia | done | apply Hoj; [lia | done] | apply Hoj; [lia | done]].
  - intros j Hj. rewrite Wj by lia. apply F. lia.
  - intros j Hj Hne. apply Wj; lia.
  - intros j Hj Hne. apply (content_kept v v' fi fb); [done | done | apply Wj; lia | intros b; by apply Hown].
  - intros b Hb. apply Wb. lia.
  - unfold content, isize. by rewrite Wi.
  - unfold isize. by rewrite Wi.
  - by rewrite Wi.
Qed.

(** ** The files given to mkfs *)

(** A file that can be opened: its name and the results of reading it. *)
Definition opened (f : list Z * list (list Z)) : list Z * option (list (list Z)) := (f.1, Some f.2).
Definition data_of (f : list Z * list (list Z)) : list Z := concat f.2.
Definition entry_of (i : Z) (f : list Z * list (list Z)) : list Z := dirent i (skip_underscore (strip_user f.1)).

(** The directory entries of files with inodes [i], [i + 1], ... *)
Fixpoint entries (i : Z) (files : list (list Z * list (list Z))) : list Z :=
  match files with
  | [] => []
  | f :: l => entry_of i f ++ entries (i + 1) l
  end.

Definition file_ok (f : list Z * list (list Z)) : Prop := no_slash (strip_user f.1) = true /\ Z.of_nat (length (data_of f)) <= MAXFILE * BSIZE.

(** The blocks the files take. *)
Definition blocks_needed (files : list (list Z * list (list Z))) : Z := foldr (fun f n => blocks_of (Z.of_nat (length (data_of f))) + n) 0 files.

Lemma length_entries : forall l i, length (entries i l) = (16 * length l)%nat.
Proof. induction l as [|f l IH]; intros i; [done |]. cbn [entries length]. unfold entry_of. rewrite length_app, dirent_length, IH. lia. Qed.

Lemma blocks_of_nonneg n : 0 <= n -> 0 <= blocks_of n.
Proof. intros H. unfold blocks_of. assert (0 <= nblk n) by (unfold nblk; apply Z.div_pos; lia). destruct (has_ind n); cbn [used]; lia. Qed.

Lemma blocks_needed_nonneg l : 0 <= blocks_needed l.
Proof. induction l as [|f l IH]; cbn; [lia |]. pose proof (blocks_of_nonneg (Z.of_nat (length (data_of f))) ltac:(lia)). fold (blocks_needed l). lia. Qed.

Lemma xshort_small x : 0 <= x < 2 ^ 16 -> xshort x = x.
Proof. intros H. rewrite xshort_u16. by apply wrap_small. Qed.

Lemma add_file_ok v fi fb f : files_ok v fi fb -> 2 <= fi < NINODES -> file_ok f -> let n := isize v 1 + 16 in n <= MAXFILE * BSIZE ->
  let c := (blocks_of n - blocks_of (isize v 1)) + blocks_of (Z.of_nat (length (data_of f))) in fb + c + 1 <= FSSIZE ->
  exists v' fb', add_file 1 (opened f) (FS fi v fb) = Ret tt (FS (fi + 1) v' fb') /\ files_ok v' (fi + 1) fb' /\ fb' <= fb + c /\
    content v' 1 = content v 1 ++ entry_of fi f /\ isize v' 1 = n /\ attrs (ino v' 1) = attrs (ino v 1) /\
    content v' fi = data_of f /\ attrs (ino v' fi) = (T_FILE, 0, 0, 1) /\
    (forall j, 2 <= j < fi -> ino v' j = ino v j /\ content v' j = content v j) /\ (forall b, b < 32 -> v' b = v b).
Proof.
  intros F Hfi [Hname Hlen] n Hn c Hroom. unfold NINODES in Hfi. pose proof (fo_image _ _ _ F) as I. pose proof (io_fb _ _ _ I) as Hfb.
  assert (Hs1 : 0 <= isize v 1) by (apply (fo_inode _ _ _ F 1); lia). pose proof (blocks_of_mono (isize v 1) n ltac:(lia)) as Hm. pose proof (blocks_of_nonneg (Z.of_nat (length (data_of f))) ltac:(lia)) as Hb.
  destruct (ialloc_ok v fi fb T_FILE F ltac:(unfold NINODES; lia) ltac:(done)) as (v1 & E1 & F1 & [K1 K1' K1l] & C1 & S1 & A1).
  assert (R1 : isize v1 1 = isize v 1) by (unfold isize; rewrite K1 by lia; done). pose proof (dirent_length fi (skip_underscore (strip_user f.1))) as Hd. fold (entry_of fi f) in Hd.
  destruct (iappend_ok v1 (fi + 1) fb 1 (entry_of fi f) F1 ltac:(lia)) as (v2 & fb2 & E2 & F2 & [K2 K2' K2l] & B2 & C2 & S2 & A2); [rewrite R1, Hd; change (Z.of_nat 16) with 16; fold n; lia.. |].
  rewrite R1, Hd in B2, S2. change (Z.of_nat 16) with 16 in B2, S2. fold n in B2, S2. assert (R2 : isize v2 fi = 0) by (unfold isize; rewrite K2 by lia; done).
  destruct (append_all_ok f.2 v2 (fi + 1) fb2 fi F2 ltac:(lia)) as (v3 & fb3 & E3 & F3 & [K3 K3' K3l] & B3 & C3 & S3 & A3); [rewrite R2; fold (data_of f); change (blocks_of 0) with 0; rewrite Z.add_0_l; lia.. |].
  rewrite R2 in B3. fold (data_of f) in B3, C3. change (blocks_of 0) with 0 in B3. rewrite Z.add_0_l in B3. exists v3, fb3.
  assert (E : add_file 1 (opened f) (FS fi v fb) = Ret tt (FS (fi + 1) v3 fb3)).
  { unfold add_file, shortname, opened. cbn [fst snd]. rewrite Hname. erewrite bind_Ret by reflexivity. cbv beta iota. erewrite bind_Ret by exact E1. cbv beta. rewrite xshort_small by lia.
    erewrite bind_Ret by exact E2. exact E3. }
  split; [exact E | split; [done | split; [lia | split; [|split; [|split; [|split; [|split; [|split]]]]]]]].
  - rewrite K3', C2, K1' by lia. done.
  - unfold isize. rewrite K3 by lia. exact S2.
  - rewrite K3 by lia. rewrite A2, K1 by lia. done.
  - rewrite C3, K2' by lia. by rewrite C1.
  - rewrite A3, K2 by lia. done.
  - intros j Hj. rewrite K3, K2, K1 by lia. rewrite K3', K2', K1' by lia. done.
  - intros b Hlow. rewrite K3l, K2l, K1l by done. done.
Qed.

Lemma add_files_ok : forall files v fi fb, files_ok v fi fb -> 2 <= fi -> fi + Z.of_nat (length files) <= NINODES -> Forall file_ok files ->
  let n := isize v 1 + 16 * Z.of_nat (length files) in n <= MAXFILE * BSIZE ->
  let c := (blocks_of n - blocks_of (isize v 1)) + blocks_needed files in fb + c + 1 <= FSSIZE ->
  exists v' fb', add_files 1 (map opened files) (FS fi v fb) = Ret tt (FS (fi + Z.of_nat (length files)) v' fb') /\ files_ok v' (fi + Z.of_nat (length files)) fb' /\ fb' <= fb + c /\
    content v' 1 = content v 1 ++ entries fi files /\ isize v' 1 = n /\ attrs (ino v' 1) = attrs (ino v 1) /\
    (forall k f, files !! k = Some f -> content v' (fi + Z.of_nat k) = data_of f /\ attrs (ino v' (fi + Z.of_nat k)) = (T_FILE, 0, 0, 1)) /\
    (forall j, 2 <= j < fi -> ino v' j = ino v j /\ content v' j = content v j) /\ (forall b, b < 32 -> v' b = v b).
Proof.
  induction files as [|f files IH]; intros v fi fb F Hfi Hin Hok n Hn c Hroom.
  - exists v, fb. assert (En : n = isize v 1) by (unfold n; cbn [length]; lia). assert (Ec : c = 0) by (unfold c; rewrite En; cbn [blocks_needed foldr]; lia). rewrite En, Ec.
    cbn [length entries map add_files]. rewrite app_nil_r, !Z.add_0_r. do 6 (split; [done || lia |]). split; [intros k f Hk; by rewrite lookup_nil in Hk | done].
  - apply Forall_cons in Hok as [Hf Hok]. assert (Hs1 : 0 <= isize v 1) by (apply (fo_inode _ _ _ F 1); lia).
    assert (En : n = isize v 1 + 16 + 16 * Z.of_nat (length files)) by (unfold n; cbn [length]; lia). assert (Ec : c = (blocks_of n - blocks_of (isize v 1)) + (blocks_of (Z.of_nat (length (data_of f))) + blocks_needed files)) by done.
    clearbody n c. cbn [length map add_files entries] in *. set (n1 := isize v 1 + 16). pose proof (blocks_of_mono n1 n ltac:(unfold n1; lia)) as Hm. pose proof (blocks_needed_nonneg files) as Hnn.
    destruct (add_file_ok v fi fb f F ltac:(lia) Hf) as (v1 & fb1 & E1 & F1 & B1 & C1 & S1 & A1 & D1 & T1 & K1 & L1); [fold n1; unfold n1; lia | fold n1; lia |]. fold n1 in B1, S1.
    assert (En1 : isize v1 1 + 16 * Z.of_nat (length files) = n) by (rewrite S1; unfold n1; lia).
    destruct (IH v1 (fi + 1) fb1 F1 ltac:(lia) ltac:(lia) Hok) as (v2 & fb2 & E2 & F2 & B2 & C2 & S2 & A2 & D2 & K2 & L2); [rewrite En1; lia | rewrite En1, S1; lia |]. rewrite En1, S1 in B2. rewrite En1 in S2.
    replace (fi + 1 + Z.of_nat (length files)) with (fi + Z.of_nat (S (length files))) in * by lia. exists v2, fb2. erewrite bind_Ret by exact E1. split; [exact E2 | split; [done |]].
    split; [lia | split; [rewrite C2, C1, <- app_assoc; done | split; [done | split; [congruence | split; [|split]]]]].
    + intros [|k] g Hg; cbn in Hg.
      * injection Hg as <-. rewrite Z.add_0_r. destruct (K2 fi ltac:(lia)) as [-> ->]. done.
      * destruct (D2 k g Hg) as [H1 H2]. replace (fi + Z.of_nat (S k)) with (fi + 1 + Z.of_nat k) by lia. done.
    + intros j Hj. destruct (K2 j ltac:(lia)) as [-> ->]. apply K1. lia.
    + intros b Hb. rewrite L2 by done. by apply L1.
Qed.

(** ** The super block, the empty image and the bitmap *)

Lemma wipe_run s fi fb : forall k i v, 0 <= i -> i + Z.of_nat k <= 2 ^ 20 -> (forall b, v b = zeroes) ->
  exists v', wipe k i (St i s fi v fb) = Ret tt (St (i + Z.of_nat k) s fi v' fb) /\ forall b, v' b = zeroes.
Proof.
  induction k as [|k IH]; intros i v Hi Hk Hv; cbn [wipe]; [exists v; rewrite Z.add_0_r; done |].
  assert (E : wsect i zeroes (St i s fi v fb) = Ret tt (St (i + 1) s fi (fupd v i zeroes) fb)).
  { unfold wsect, modify, set_img, St. cbn. rewrite sector_small by lia. by rewrite Z.max_r by lia. }
  erewrite bind_Ret by exact E. replace (i + Z.of_nat (S k)) with (i + 1 + Z.of_nat k) by lia. apply IH; [lia | lia |].
  intros b. unfold fupd. by destruct (decide (b = i)).
Qed.

Lemma length_mark : forall k i buf, length (mark k i buf) = length buf.
Proof. induction k as [|k IH]; intros i buf; cbn [mark]; [done |]. by rewrite IH, length_bit_set. Qed.

(** The bitmap: exactly the first [used] blocks are marked. *)
Lemma mark_bits : forall k i buf y, 0 <= i -> i + Z.of_nat k <= BPB -> 0 <= y -> length buf = Z.to_nat BSIZE ->
  bit_free (mark k i buf) y = bit_free buf y && negb ((i <=? y) && (y <? i + Z.of_nat k)).
Proof.
  induction k as [|k IH]; intros i buf y Hi Hk Hy Hl; cbn [mark].
  - destruct (Z.leb_spec i y), (Z.ltb_spec y (i + Z.of_nat 0)); try lia; by rewrite andb_true_r.
  - rewrite IH by (rewrite ?length_bit_set; lia || done). rewrite bit_set_free by (lia || done). rewrite <- andb_assoc. f_equal.
    destruct (Z.eqb_spec y i), (Z.leb_spec i y), (Z.leb_spec (i + 1) y), (Z.ltb_spec y (i + Z.of_nat (S k))), (Z.ltb_spec y (i + 1 + Z.of_nat k)); cbn; lia || done.
Qed.

Lemma fresh_image v fi : (forall b, b <> 1 -> v b = zeroes) -> length (v 1) = Z.to_nat BSIZE -> fi = 1 -> files_ok v fi nmeta.
Proof.
  intros Hv H1 ->. split; try (intros; lia).
  - split; [|change nmeta with 46; unfold FSSIZE; lia |].
    + intros b. destruct (decide (b = 1)) as [->|Hne]; [done | by rewrite Hv].
    + intros b Hb. apply Hv. change nmeta with 46 in Hb. lia.
  - unfold NINODES. lia.
  - intros i Hi. unfold ino, dinode_at. destruct (IBLOCK_new i) as [_ Hb]; [lia |]. rewrite Hv by lia. unfold IOFF. change IPB with 16. pose proof (Z.mod_pos_bound i 16 ltac:(lia)) as Hm.
    assert (Hc : i mod 16 ∈ seqZ 0 16) by (apply elem_of_seqZ; lia). revert Hc. generalize (i mod 16). clear. intros x Hx. cbn in Hx.
    repeat (apply elem_of_cons in Hx as [->|Hx]; [vm_compute; reflexivity |]). by apply elem_of_nil in Hx.
Qed.

Definition dots : list Z := dirent ROOTINO (bytes ".") ++ dirent ROOTINO (bytes "..").

(** main up to the loop over the files. *)
Lemma main_start {A} (K : Z -> M mkfs A) : exists v,
  (modify (fun m => mkMkfs (mk_img m) new_sb (freeinode m) nmeta) ;; wipe (Z.to_nat FSSIZE) 0 ;; wsect 1 (sb_encode new_sb) ;; r ← ialloc T_DIR; K r) empty_image = K 1 (FS 2 v nmeta) /\
  files_ok v 2 nmeta /\ content v 1 = [] /\ isize v 1 = 0 /\ attrs (ino v 1) = (T_DIR, 0, 0, 1) /\ sb_decode (v 1) = new_sb.
Proof.
  assert (Hk : Z.of_nat (Z.to_nat FSSIZE) = FSSIZE) by (apply Z2Nat.id; unfold FSSIZE; lia). revert Hk. generalize (Z.to_nat FSSIZE). intros k Hk.
  destruct (wipe_run new_sb 1 nmeta k 0 (fun _ => zeroes)) as (v0 & E0 & H0); [lia | rewrite Hk; unfold FSSIZE; lia | intros b; reflexivity |]. rewrite Hk, Z.add_0_l in E0.
  assert (F1 : files_ok (fupd v0 1 (sb_encode new_sb)) 1 nmeta).
  { apply fresh_image; [intros b Hb; rewrite fupd_ne by done; apply H0 | rewrite fupd_eq; by vm_compute | done]. }
  destruct (ialloc_ok _ 1 nmeta T_DIR F1 ltac:(done) ltac:(done)) as (v1 & E1 & F2 & [_ _ L1] & C1 & S1 & A1). exists v1. split; [|split; [done | split; [done | split; [done | split; [done |]]]]].
  - erewrite bind_Ret by reflexivity. cbn [mk_img empty_image freeinode]. change (mkMkfs (mkImage (fun _ => zeroes) 0) new_sb 1 nmeta) with (St 0 new_sb 1 (fun _ => zeroes) nmeta).
    erewrite bind_Ret by exact E0. erewrite bind_Ret by (apply wsect_run; done). erewrite bind_Ret by exact E1. reflexivity.
  - rewrite L1 by lia. rewrite fupd_eq. by vm_compute.
Qed.

(** main after the loop: the size of the root directory is rounded up and the bitmap written. *)
Definition finish : M mkfs unit :=
  din ← rinode 1;
  let off := xint (di_size din) in
  let off := u32 ((off / BSIZE + 1) * BSIZE) in
  winode 1 (set_size (xint off) din) ;;
  b ← gets (fun m => freeblock m);
  balloc (i32 b).

Lemma main_end v fi fb : files_ok v fi fb -> 1 < fi -> isize v 1 <= 2 ^ 20 -> exists v', finish (FS fi v fb) = Ret tt (FS fi v' fb) /\ ino v' 1 = set_size ((isize v 1 / 1024 + 1) * 1024) (ino v 1) /\
  (forall j, 0 <= j < NINODES -> j <> 1 -> ino v' j = ino v j) /\ v' 45 = mark (Z.to_nat fb) 0 zeroes /\ forall b, b <> 45 -> b <> 32 -> v' b = v b.
Proof.
  intros F Hfi Hs. pose proof (fo_image _ _ _ F) as I. pose proof (io_fb _ _ _ I) as Hfb. unfold FSSIZE in Hfb. change nmeta with 46 in Hfb. destruct (fo_inode _ _ _ F 1 ltac:(lia)) as [D _]. pose proof (do_size _ D) as Hd. fold (isize v 1) in Hd.
  set (n := (isize v 1 / 1024 + 1) * 1024). assert (Hn : 0 <= n < 2 ^ 32) by (unfold n; pose proof (Z.div_mod (isize v 1) 1024 ltac:(lia)); pose proof (Z.mod_pos_bound (isize v 1) 1024 ltac:(lia)); lia).
  assert (D' : dinode_ok (set_size n (ino v 1))) by (destruct D; by split). destruct (winode_run v fb fi 1 _ ltac:(unfold NINODES; lia) I D') as (v1 & E1 & I1 & W1 & Wj & Wb).
  change (IBLOCK 1 new_sb) with 32 in Wb. exists (fupd v1 45 (mark (Z.to_nat fb) 0 zeroes)). split; [|split; [|split; [|split]]].
  - unfold finish. erewrite bind_Ret by (apply rinode_run; [unfold NINODES; lia | done]). cbv beta zeta. fold (isize v 1). rewrite (xint_small (isize v 1)) by lia. change BSIZE with 1024. fold n.
    rewrite (wrap_small 32 n), (xint_small n) by lia. erewrite bind_Ret by exact E1. cbv beta. erewrite bind_Ret by reflexivity. cbn [freeblock St]. cbv beta.
    assert (Ei : i32 fb = fb) by (rewrite <- (wrap_small 32 fb) at 1 by lia; apply i32_u32; lia). rewrite Ei. unfold balloc. assert (Eu : (fb <? BSIZE * 8) = true) by (change (BSIZE * 8) with 8192; apply Z.ltb_lt; lia). rewrite Eu.
    erewrite bind_Ret by reflexivity. cbv beta. erewrite bind_Ret by reflexivity. cbv beta. cbn [mk_sb St]. change (sb_bmapstart new_sb) with 45. apply wsect_run; [done | unfold FSSIZE; lia].
  - unfold ino, dinode_at. change (IBLOCK 1 new_sb) with 32. rewrite fupd_ne by lia. exact W1.
  - intros j Hj Hne. rewrite <- Wj by done. unfold ino, dinode_at. destruct (IBLOCK_new j Hj) as [_ Hb]. change nmeta with 46 in Hb. by rewrite fupd_ne by lia.
  - apply fupd_eq.
  - intros b H1 H2. rewrite fupd_ne by done. by apply Wb.
Qed.

(** ** The finished image *)

Definition root_entries (files : list (list Z * list (list Z))) : list Z := dots ++ entries 2 files.

(** The length of file [i] as written: the size of the root directory is rounded up. *)
Definition written (files : list (list Z * list (list Z))) (v : Z -> list Z) (i : Z) : Z :=
  if decide (i = ROOTINO) then Z.of_nat (length (root_entries files)) else isize v i.

Definition holds (files : list (list Z * list (list Z))) (v : Z -> list Z) (i b : Z) : Prop := own v (ino v i) (nblk (written files v i)) (has_ind (written files v i)) b.

(** What the kernel finds in the image. *)
Record built (files : list (list Z * list (list Z))) (v : Z -> list Z) (fi fb : Z) : Prop := mkBuilt {
  bu_sb : sb_decode (v 1) = new_sb;
  bu_inodes : fi = 2 + Z.of_nat (length files);
  bu_bitmap : forall b, 0 <= b < FSSIZE -> FsBlocks.used v new_sb b = (b <? fb);
  bu_files : forall k f, files !! k = Some f -> content v (2 + Z.of_nat k) = data_of f /\ attrs (ino v (2 + Z.of_nat k)) = (T_FILE, 0, 0, 1);
  bu_root : attrs (ino v ROOTINO) = (T_DIR, 0, 0, 1);
  bu_root_size : isize v ROOTINO = (Z.of_nat (length (root_entries files)) / BSIZE + 1) * BSIZE;
  bu_root_data : fbytes v (view (ino v ROOTINO)) 0 (length (root_entries files)) = root_entries files;
  bu_root_rest : tail v (ino v ROOTINO) (Z.of_nat (length (root_entries files)));
  bu_free : forall i, fi <= i < NINODES -> ino v i = zero_dinode;
  bu_blocks : forall i b, 1 <= i < fi -> holds files v i b -> nmeta <= b < fb;
  bu_apart : forall i j b, 1 <= i < fi -> 1 <= j < fi -> i <> j -> holds files v i b -> holds files v j b -> False
}.

Lemma length_root_entries files : Z.of_nat (length (root_entries files)) = 16 * (Z.of_nat (length files) + 2).
Proof. unfold root_entries, dots. rewrite !length_app, !dirent_length, length_entries. lia. Qed.

(** The image after the loop, finished. *)
Lemma finish_builds files v fi fb : files_ok v fi fb -> fi = 2 + Z.of_nat (length files) -> sb_decode (v 1) = new_sb -> attrs (ino v 1) = (T_DIR, 0, 0, 1) -> content v 1 = root_entries files ->
  (forall k f, files !! k = Some f -> content v (2 + Z.of_nat k) = data_of f /\ attrs (ino v (2 + Z.of_nat k)) = (T_FILE, 0, 0, 1)) ->
  exists v', finish (FS fi v fb) = Ret tt (FS fi v' fb) /\ built files v' fi fb.
Proof.
  intros F Efi Hsb Ha Hc Hf. pose proof (fo_inodes _ _ _ F) as Hfi. pose proof (io_fb _ _ _ (fo_image _ _ _ F)) as Hfb. destruct (fo_inode _ _ _ F 1 ltac:(lia)) as [D Dm]. pose proof (do_size _ D) as Hd. fold (isize v 1) in Hd.
  assert (Hs : isize v 1 = Z.of_nat (length (root_entries files))) by (rewrite <- Hc; unfold content; rewrite length_fbytes; lia).
  destruct (main_end v fi fb F ltac:(lia) ltac:(consts; lia)) as (v' & E & W1 & Wj & Wm & Wb). exists v'. split; [done |]. change nmeta with 46 in *.
  assert (Hino : forall i, 1 <= i < fi -> i <> 1 -> ino v' i = ino v i) by (intros; apply Wj; lia).
  assert (Hown : forall i b, 1 <= i < fi -> owns v i b -> v' b = v b) by (intros i b Hi Ho; pose proof (owns_meta _ _ _ _ _ F Hi Ho) as Hb; change nmeta with 46 in Hb; apply Wb; lia).
  assert (Hh : forall i b, 1 <= i < fi -> holds files v' i b -> owns v i b).
  { intros i b Hi. unfold holds, written, owns. pose proof (fo_file _ _ _ F i Hi) as Ld. assert (Ei : has_ind (isize v i) = true -> v' (indirect (view (ino v i))) = v (indirect (view (ino v i)))) by (intros Hh; apply (Hown i); [done | by right]).
    destruct (decide (i = ROOTINO)) as [->|Hne].
    - change ROOTINO with 1 in *. rewrite W1, <- Hs. intros Ho. by apply (owns_ext v v' (ino v 1)) in Ho; [|apply Ld | exact Ei].
    - unfold isize. rewrite Hino by done. intros Ho. by apply (owns_ext v v') in Ho; [|apply Ld | exact Ei]. }
  assert (Hr : fbytes v' (view (ino v 1)) 0 (Z.to_nat (isize v 1)) = content v 1 /\ (tail v (ino v 1) (isize v 1) -> tail v' (ino v 1) (isize v 1))) by (eapply file_kept; [apply F; lia | intros b; by apply (Hown 1 b ltac:(lia)) | lia]).
  destruct Hr as [Hr Ht]. split; try done; change ROOTINO with 1 in *.
  - rewrite Wb by lia. done.
  - intros b Hb. unfold FsBlocks.used, BBLOCK. unfold FSSIZE in *. change BPB with 8192. change (sb_bmapstart new_sb) with 45. rewrite Z.div_small, (wrap_small 32 (0 + 45)), Z.mod_small by lia. change (0 + 45) with 45. rewrite Wm.
    rewrite mark_bits; [|lia | change BPB with 8192; lia | lia | done]. assert (Z1 : bit_free zeroes b = true) by (rewrite bit_free_test; unfold data_byte, zeroes; rewrite lookup_total_replicate_2; [by rewrite Z.bits_0 |]; change BSIZE with 1024; pose proof (Z.div_lt_upper_bound b 8 1024 ltac:(lia) ltac:(lia)); pose proof (Z.div_pos b 8 ltac:(lia) ltac:(lia)); lia).
    rewrite Z1. destruct (Z.leb_spec 0 b), (Z.ltb_spec b (0 + Z.of_nat (Z.to_nat fb))), (Z.ltb_spec b fb); cbn; lia || done.
  - intros k f Hk. pose proof (lookup_lt_Some _ _ _ Hk). destruct (Hf k f Hk) as [H1 H2]. rewrite (content_kept v v' fi fb) by (done || lia || (apply Wj; lia) || (intros b; apply Hown; lia)). by rewrite Hino by lia.
  - by rewrite W1.
  - unfold isize. rewrite W1. cbn [di_size set_size]. by rewrite Hs.
  - rewrite W1. rewrite <- Hc at 2. rewrite <- Hr. replace (length (root_entries files)) with (Z.to_nat (isize v 1)) by lia. by apply fbytes_ext.
  - rewrite W1, <- Hs. apply Ht, F. lia.
  - intros i Hi. rewrite Wj by lia. apply F. lia.
  - intros i b Hi Ho. apply (owns_meta v fi fb i b F Hi). by apply Hh.
  - intros i j b Hi Hj Hne Ho Ho'. by apply (fo_apart _ _ _ F i j b); [| | |apply Hh |apply Hh].
Qed.

(** C34: mkfs builds a file system: for files that can be read, whose names have no slash, that fit in a file and
    together with the root directory in the disk (one block to spare), main writes an image in which the kernel finds the
    super block, every file with its bytes under an inode of its own, the root directory with the entries ".", ".."
    and one per file followed by zeroes, all other inodes free, no block shared between files or with the metadata, and a
    bitmap that marks exactly the blocks in use. *)
Theorem main_builds files : Forall file_ok files -> Z.of_nat (length files) + 2 <= NINODES ->
  nmeta + blocks_of (Z.of_nat (length (root_entries files))) + blocks_needed files + 1 <= FSSIZE ->
  exists v fi fb, main (map opened files) empty_image = Ret tt (St FSSIZE new_sb fi v fb) /\ built files v fi fb.
Proof.
  intros Hok Hlen Hroom. pose proof (length_root_entries files) as Hre. unfold NINODES in Hlen. pose proof (blocks_needed_nonneg files) as Hbn.
  set (N := Z.of_nat (length (root_entries files))) in *. assert (HN : N <= MAXFILE * BSIZE) by (consts; lia).
  assert (Hb : blocks_of 0 = 0 /\ 0 <= blocks_of 16 <= blocks_of 32 /\ blocks_of 32 <= blocks_of N) by (split; [done | split; [done | apply blocks_of_mono; lia]]).
  unfold main. edestruct (main_start (A := unit)) as (v0 & E0 & F0 & C0 & S0 & A0 & B0). rewrite E0. clear E0. cbv beta. change (1 =? ROOTINO) with true. erewrite bind_Ret by reflexivity. change (xshort 1) with ROOTINO.
  pose proof (dirent_length ROOTINO (bytes ".")) as L1. pose proof (dirent_length ROOTINO (bytes "..")) as L2.
  destruct (iappend_ok v0 2 nmeta 1 (dirent ROOTINO (bytes ".")) F0 ltac:(lia)) as (v1 & fb1 & E1 & F1 & [_ _ K1] & B1 & C1 & S1 & A1); [rewrite S0, L1; consts; lia | rewrite S0, L1; change (0 + Z.of_nat 16) with 16; lia |].
  rewrite S0, L1 in B1, S1. change (0 + Z.of_nat 16) with 16 in B1, S1. erewrite bind_Ret by exact E1.
  destruct (iappend_ok v1 2 fb1 1 (dirent ROOTINO (bytes "..")) F1 ltac:(lia)) as (v2 & fb2 & E2 & F2 & [_ _ K2] & B2 & C2 & S2 & A2); [rewrite S1, L2; consts; lia | rewrite S1, L2; change (16 + Z.of_nat 16) with 32; lia |].
  rewrite S1, L2 in B2, S2. change (16 + Z.of_nat 16) with 32 in B2, S2. erewrite bind_Ret by exact E2.
  assert (EN : isize v2 1 + 16 * Z.of_nat (length files) = N) by lia.
  destruct (add_files_ok files v2 2 fb2 F2 ltac:(lia) ltac:(unfold NINODES; lia) Hok) as (v3 & fb3 & E3 & F3 & B3 & C3 & S3 & A3 & D3 & K3 & L3); [rewrite EN; done | rewrite EN, S2; lia |].
  erewrite bind_Ret by exact E3. destruct (finish_builds files v3 (2 + Z.of_nat (length files)) fb3) as (v4 & E4 & Bu); [done | done | by rewrite L3, K2, K1 by lia | by rewrite A3, A2, A1 | | done |].
  - rewrite C3, C2, C1, C0. unfold root_entries, dots. by rewrite <- !app_assoc.
  - exists v4, (2 + Z.of_nat (length files)), fb3. split; [exact E4 | done].
Qed.

Definition two_files : list (list Z * list (list Z)) := [(bytes "README", [[104; 105]; [10]]); (bytes "user/_cat", [replicate 1024 7; [1; 2; 3]])].

Lemma main_builds_witness : exists v fi fb, main (map opened two_files) empty_image = Ret tt (St FSSIZE new_sb fi v fb) /\ built two_files v fi fb.
Proof.
  apply (main_builds two_files).
  - apply Forall_cons. split; [split; [reflexivity | by vm_compute] |]. apply Forall_cons. split; [split; [reflexivity | by vm_compute] | apply Forall_nil; exact I].
  - by vm_compute.
  - by vm_compute.
Defined.
